(* ===== verification/_CoqProject ===== *)
-Q . S2P
Prelude.v
Fc.v
Config.v
Flat.v
Kept.v
Chainbase.v
FixedString.v
Authority.v
SignState.v
Asset.v
Version.v
BlockHeader.v
Operations.v
Transaction.v
Block.v
ForkDatabase.v
ForkSwitch.v
Objects.v
Database.v
Samples.v
Slots.v
Feeds.v
Ledger.v
Frame.v
Supply.v
Transfers.v
Escrow.v
Market.v
ScoreFund.v
Withdrawals.v
Delegation.v
Votes.v
Quiet.v
Accounts.v
Rewards.v
Same.v
Comments.v
Discussions.v
VoteTally.v
Cashout.v
Payouts.v
Inflation.v
Schedule.v
Hardforks.v
Mining.v
Steady.v
Evaluate.v
ApplyBlock.v
Invariants.v
BlockBooks.v
Producing.v
