(* ===== verification/Prelude.v ===== *)
(** * A verification of the WeYouMe node

    The repository is a C++ blockchain node.  Its core is a state machine: blocks
    carry signed transactions, transactions carry operations, and every operation
    is checked ([libraries/protocol]) and then evaluated on the chain state
    ([libraries/chain]), which lives in an object database with an undo stack
    ([libraries/chainbase]).  This library models that core and proves what makes
    it correct.

    ** Files

    The order is that of [_CoqProject]; every file requires only earlier ones.

    - [Prelude]: results and exceptions, the state-and-error monad [M] with its
      run judgement [⟨ m, s ⟩ ⇓ ⟨ a, s' ⟩], [preserves], record updates, sums over
      maps and the tactics of the development.
    - [Fc]: the support library [fc], whose sources are not in the repository, as
      the classes [Fc] and [FcCrypto] with the laws the proofs rely on, and
      [FcRef.fc_ref], an implementation the worked examples run on.
    - [Config]: [protocol/config.hpp] for the live network and the hard forks.
    - [Kept]: computations whose state survives a throw.
    - [Flat]: boost's ordered containers and the orders of multi-index indices.
    - [Chainbase]: [chainbase.hpp], the object index with its undo states.
    - [FixedString], [Authority], [SignState], [Asset], [Version], [BlockHeader],
      [Operations], [Transaction], [Block]: the files of the same names in
      [libraries/protocol].
    - [ForkDatabase], [ForkSwitch]: [chain/fork_database.cpp] and the pushing and
      popping of blocks in [chain/database.cpp], over the interface [BlockApply].
    - [Objects], [Database]: the chain objects ([chain/*_object*.hpp]) and the
      access to them ([chain/database.cpp]).
    - [Samples]: small states the worked examples run on.
    - [Slots], [Feeds]: who produces a block when and what a block records; the
      median price feed and the virtual supply ([database.cpp]).
    - [Ledger], [Frame], [Supply]: the balance functions of [database.cpp], what
      they leave alone, and the sums of [database::validate_invariants].
    - [Transfers], [Escrow], [Market], [ScoreFund]: evaluators of
      [chain/node_evaluator.cpp] with the queues of [database.cpp] that complete
      them.
    - [Withdrawals], [Delegation]: the proofs about SCORE.
    - [Votes]: proxies and votes for witnesses, with the caches they keep.
    - [Quiet]: steps that move no votes and no SCORE; [Accounts]: creating,
      updating and recovering accounts, and witnesses.
    - [Rewards]: the reward formulas of [chain/util/reward.cpp].
    - [Cashout], [Payouts], [Inflation]: the payout of comments, its proofs, and
      where new TME comes from ([database.cpp]); they follow [VoteTally].
    - [Same]: steps that leave a part of the state alone; [Comments]: comments and
      votes on them; [Discussions], [VoteTally]: the proofs about their tree and
      about the sums they cache.
    - [Schedule]: the rounds of witnesses ([chain/witness_schedule.cpp]);
      [Hardforks]: when hard forks apply and what they change ([database.cpp]).
    - [Mining]: custom operations and proofs of work ([node_evaluator.cpp]).
    - [Steady]: the head block and the records that operations leave alone;
      [Evaluate]: [apply_operation] over all the evaluators.
    - [ApplyBlock]: [_apply_transaction], [_apply_block] and [apply_block], which
      implement the interface of [ForkSwitch]; [BlockBooks]: their books.
    - [Invariants]: [validate_invariants] as the code computes it.
    - [Producing]: pending transactions, [push_block] around them and
      [generate_block] ([database.cpp], [chain/db_with.hpp]).

    ** How the code is modelled

    A C++ function that can throw and works on the database is a [DB A], that is
    [database -> result (A * database)]: the evaluators run inside an undo session
    that a throw discards, so the state of a failed run is not returned.
    [Chainbase] and the fork database do not use that shortcut; there a throw keeps the changes made
    before it ([Kept]), because undoing them is what those files are about.  An index is a
    table keyed by the unique key the code looks it up with; walking an index in
    its order is [first_row] and the sorted lists of [Flat] and [Market].
    [fc::safe<int64_t>] arithmetic throws on overflow ([safe_add] and so on);
    plain machine integers wrap ([wrap_u16], [wrap_i64]); 128-bit integers are the
    [u128] operations.  [FC_ASSERT] is [fc_assert].  Compile-time options are
    those of the live network: not [IS_TEST_NET], not [IS_LOW_MEM], [NDEBUG].

    Loops over a queue ([while( itr != end && due( *itr ) )]) run one round per
    row ([drain]); [drain_rows] shows that this is enough.  The withdrawal loop
    runs one round per step that is due, and
    [Withdrawals.process_withdrawals_terminates] shows that more rounds change
    nothing.  [check_authority] recurses on the remaining depth.

    ** What is proved

    - [Chainbase]: the undo stack of differences implements a stack of snapshots,
      and undoing a session restores the index whatever happened in it, as long as
      no modification changed a unique key; then undoing may throw.
    - [SignState], [Transaction]: an accepted transaction carries sufficient
      authority for all its operations; checking an authority returns when the
      accounts it delegates to are known.
    - [ForkDatabase], [ForkSwitch]: the fork database stays a forest of linked
      blocks, branches are found down to the most recent common block, a switch of
      forks ends at the new head, and one that fails restores the chain state when it
      made nothing irreversible.
    - [Slots], [Feeds]: a header is accepted exactly from the witness of its slot,
      the schedule is fair, missed slots are charged to their witnesses, the last
      irreversible block follows the head at a distance until witnesses are voted in
      and then is what 75% of them confirmed, and the median feed cannot leave the range of a majority.
    - [Asset], [Authority], [FixedString], [BlockHeader], [Version], [Operations]:
      arithmetic bounds, round trips, orders, and validation.
    - [Supply] and the evaluators: no operation creates or destroys TME, TSD or
      SCORE off the books ([conserves]).
    - [Escrow]: the evaluators refine the protocol of an agreement ([escrow_step]).
    - [Market]: matching is fair, uncrosses the book and keeps it well formed.
    - [Withdrawals], [Delegation]: SCORE that is delegated or promised is covered,
      and the cached totals equal the delegations on record.
    - [Votes]: proxied votes, place by place, and witness votes are what the accounts
      and the votes on record add up to, and proxies form no loops.
    - [Accounts]: what recovering an account takes and changes, and what its queues
      remove; account operations conserve the supplies.
    - [Discussions], [VoteTally]: depth, root and count of replies are what the tree
      of comments says; a comment's sums are those of its votes, and curators'
      weights stay within the curve of the reward fund.
    - [Payouts]: every comment that is due is paid and closed, payouts conserve the
      supplies and never take more from the reward fund than it holds; the tree of
      comments and the tally of votes survive them.
    - [Inflation]: what a block issues, to whom, and that what it issues and burns
      stays on the books.
    - [Rewards]: the integer square root is within a factor of the root, and the
      reward curves are monotone.
    - [Schedule], [Hardforks]: a round holds different witnesses with keys, the
      highest voted among them; hard forks apply in order, each once, as far as the
      witnesses voted; counts that are computed again are exact.
    - [Mining], [Evaluate]: the queue of miners matches its count; every operation
      that validates has an evaluator, and none moves the books or the past.
    - [ApplyBlock], [BlockBooks]: a block becomes the head whatever it holds, a
      transaction applies once, and a block conserves the supplies but for the three
      steps of its maintenance that the theorem names.
    - [Invariants]: a state that passes has no gap in its books.
    - [Producing]: the pending transactions are always those applied on top of the
      head block, through pushed transactions, pushed blocks and their failures; after a
      block exactly those that still apply are pending; a generated block holds only pending transactions that apply, fit and are alive.

    ** How a block flows through the library

    [Producing.push_block] clears the pending transactions and runs
    [ForkSwitch._push_block], which adds the block to the [ForkDatabase] and applies
    it, or switches forks, inside undo sessions ([Chainbase] shows that these are
    snapshots).  Applying is [ApplyBlock.apply_block_before], the commit of irreversible
    blocks in [ForkSwitch], and [ApplyBlock.apply_block_after].  The first checks the
    header ([Slots]), then applies each transaction: validation ([Operations]),
    authority ([Transaction], [SignState]) and each operation ([Evaluate]).  The second
    is the maintenance of [Feeds], [Schedule], [Inflation], [Transfers], [Cashout],
    [ScoreFund], [Accounts], [Escrow], [Votes] and [Hardforks].

    ** Not modelled

    The peer-to-peer network, the wallet, the application and its APIs read the state
    or move bytes.  The plugins keep their own indices; what the chain relies on is
    [InterpretersRead].  Opening, replaying and closing a database, the genesis state,
    the file of the block log, memory mapping and locking are I/O around the modelled
    functions; serialization is fc's reflection over the same fields.
    Undo sessions are the enabled ones ([start_undo_session( true )]).  The notifications
    of [database.cpp] have no handlers in the chain library. *)

From Stdlib Require Export ZArith Lia.
From stdpp Require Export base tactics numbers option list strings gmap sorting.
Export Stdlib.Strings.String.StringSyntax.

#[global] Open Scope Z_scope.

(** * Exceptions and results *)

(** What a throwing C++ expression can throw.  [assert_exception] carries the
    message of the failing [FC_ASSERT]; the [tx_*] constructors are the named
    exceptions of [protocol/exceptions.hpp]. *)
Inductive exn : Type :=
| assert_exception (msg : string)
| overflow_exception
| out_of_range (what : string)
| logic_error (what : string)
| unknown_hardfork_exception
| undo_database_exception
| unlinkable_block_exception
| pop_empty_chain
| transaction_tapos_exception
| transaction_expiration_exception
| tx_missing_active_auth (id : string)
| tx_missing_owner_auth (id : string)
| tx_missing_posting_auth (id : string)
| tx_missing_other_auth
| tx_irrelevant_sig
| tx_duplicate_sig.

Inductive result (A : Type) : Type :=
| Ok (a : A)
| Err (e : exn).
Arguments Ok {A} a.
Arguments Err {A} e.

#[export] Instance result_ret : MRet result := @Ok.
#[export] Instance result_bind : MBind result :=
  λ A B f r, match r with Ok a => f a | Err e => Err e end.

#[export] Instance result_fmap : FMap result :=
  λ A B f r, match r with Ok a => Ok (f a) | Err e => Err e end.

Definition is_ok {A} (r : result A) : bool :=
  match r with Ok _ => true | Err _ => false end.

(** [FC_ASSERT( c, msg )] in a function that has no access to a state. *)
Definition fc_check (c : bool) (msg : string) : result unit :=
  if c then Ok tt else Err (assert_exception msg).

(** Run [f] on every element, left to right, stopping at the first throw. *)
Fixpoint rfor {A} (f : A → result unit) (l : list A) : result unit :=
  match l with
  | [] => Ok tt
  | x :: l => f x ≫= λ _, rfor f l
  end.

Lemma result_bind_ok {A B} (r : result A) (f : A → result B) b :
  r ≫= f = Ok b ↔ ∃ a, r = Ok a ∧ f a = Ok b.
Proof. destruct r; cbn; naive_solver. Qed.

Lemma fc_check_ok c msg u : fc_check c msg = Ok u ↔ c = true.
Proof. destruct c, u; cbn; naive_solver. Qed.

Lemma rfor_ok {A} (f : A → result unit) l :
  rfor f l = Ok tt ↔ Forall (λ x, f x = Ok tt) l.
Proof.
  induction l as [|x l IH]; cbn; [by split|].
  rewrite Forall_cons, <- IH. destruct (f x) as [[]|]; cbn; naive_solver.
Qed.

(** * The state and exception monad *)

(** A computation over a mutable state [S]: it returns a value and the new
    state, or throws.  A throw discards the state: every caller of an evaluator
    runs inside an undo session which restores the state on an exception. *)
Definition M (S A : Type) : Type := S → result (A * S).

#[export] Instance M_ret {S} : MRet (M S) := λ A a s, Ok (a, s).
#[export] Instance M_bind {S} : MBind (M S) :=
  λ A B f m s, match m s with Ok (a, s') => f a s' | Err e => Err e end.

Section monad.
Context {S : Type}.
Definition get_state : M S S := λ s, Ok (s, s).
Definition put_state (s : S) : M S unit := λ _, Ok (tt, s).
Definition throw {A} (e : exn) : M S A := λ _, Err e.
Definition lift {A} (r : result A) : M S A :=
  λ s, match r with Ok a => Ok (a, s) | Err e => Err e end.
(** [FC_ASSERT( c, msg )]. *)
Definition fc_assert (c : bool) (msg : string) : M S unit := lift (fc_check c msg).
Definition mwhen (c : bool) (m : M S unit) : M S unit := if c then m else mret tt.
Fixpoint mfor {A} (f : A → M S unit) (l : list A) : M S unit :=
  match l with
  | [] => mret tt
  | x :: l => f x ≫= λ _, mfor f l
  end.
End monad.

(** [m] run on [s] returns [a] in state [s'].  Statements and lemmas about
    computations are phrased with this relation. *)
Definition runs {S A} (m : M S A) (s : S) (a : A) (s' : S) : Prop := m s = Ok (a, s').
#[warnings="-closed-notation-not-level-0"]
Notation "⟨ m , s ⟩ ⇓ ⟨ a , s' ⟩" := (runs m s a s')
  (at level 70, m at level 99, s at level 99, a at level 99, s' at level 99).

Section runs.
Context {S : Type}.
Implicit Types (s : S).

Lemma runs_ret {A} (a b : A) s s' : ⟨ mret a, s ⟩ ⇓ ⟨ b, s' ⟩ ↔ a = b ∧ s = s'.
Proof. unfold runs, mret, M_ret. naive_solver. Qed.

Lemma runs_bind {A B} (m : M S A) (f : A → M S B) s b s'' :
  ⟨ m ≫= f, s ⟩ ⇓ ⟨ b, s'' ⟩ ↔ ∃ a s', ⟨ m, s ⟩ ⇓ ⟨ a, s' ⟩ ∧ ⟨ f a, s' ⟩ ⇓ ⟨ b, s'' ⟩.
Proof.
  unfold runs, mbind, M_bind. destruct (m s) as [[a s']|e]; naive_solver.
Qed.

Lemma runs_bind_intro {A B} (m : M S A) (f : A → M S B) s a s1 b s2 :
  ⟨ m, s ⟩ ⇓ ⟨ a, s1 ⟩ → ⟨ f a, s1 ⟩ ⇓ ⟨ b, s2 ⟩ → ⟨ m ≫= f, s ⟩ ⇓ ⟨ b, s2 ⟩.
Proof. intros. apply runs_bind. eauto. Qed.

Lemma runs_get s s1 s' : ⟨ get_state, s ⟩ ⇓ ⟨ s1, s' ⟩ ↔ s1 = s ∧ s' = s.
Proof. unfold runs, get_state. naive_solver. Qed.

Lemma runs_put (t : S) s u s' : ⟨ put_state t, s ⟩ ⇓ ⟨ u, s' ⟩ ↔ s' = t.
Proof. destruct u. unfold runs, put_state. naive_solver. Qed.

Lemma runs_throw {A} e s (a : A) s' : ⟨ throw e, s ⟩ ⇓ ⟨ a, s' ⟩ ↔ False.
Proof. unfold runs, throw. naive_solver. Qed.

Lemma runs_lift {A} (r : result A) s a s' : ⟨ lift r, s ⟩ ⇓ ⟨ a, s' ⟩ ↔ r = Ok a ∧ s' = s.
Proof. unfold runs, lift. destruct r; naive_solver. Qed.

Lemma runs_assert c msg s u s' : ⟨ fc_assert c msg, s ⟩ ⇓ ⟨ u, s' ⟩ ↔ c = true ∧ s' = s.
Proof. unfold fc_assert. by rewrite runs_lift, fc_check_ok. Qed.

Lemma runs_when c (m : M S unit) s u s' :
  ⟨ mwhen c m, s ⟩ ⇓ ⟨ u, s' ⟩ ↔ if c then ⟨ m, s ⟩ ⇓ ⟨ u, s' ⟩ else s = s'.
Proof. destruct c, u; cbn; [done|]. rewrite runs_ret. naive_solver. Qed.
End runs.

(** Computations that differ only where the first part does not reach. *)
Lemma bind_ext {S A B} (m : M S A) (f g : A → M S B) s :
  (∀ a s', ⟨ m, s ⟩ ⇓ ⟨ a, s' ⟩ → f a s' = g a s') → (m ≫= f) s = (m ≫= g) s.
Proof. unfold runs, mbind, M_bind. destruct (m s) as [[a s']|e]; [|done]. intros Hf. by apply Hf. Qed.

(** A loop that keeps an invariant and establishes [P] of every element. *)
Lemma mfor_forall {S A} (I : S → Prop) (P : A → Prop) (f : A → M S unit) l :
  (∀ x s u s', x ∈ l → ⟨ f x, s ⟩ ⇓ ⟨ u, s' ⟩ → I s → I s' ∧ P x) →
  ∀ s u s', ⟨ mfor f l, s ⟩ ⇓ ⟨ u, s' ⟩ → I s → I s' ∧ Forall P l.
Proof.
  induction l as [|x l IH]; intros Hf s u s'; cbn; [intros [_ <-]%runs_ret; auto|].
  intros (? & s1 & Hx & Hl)%runs_bind Hs. apply Hf in Hx as [Hs1 HP]; [|set_solver|done].
  apply IH in Hl as [? ?]; auto. intros. eapply Hf; eauto. set_solver.
Qed.

(** A relation between states that every step of a computation respects is
    respected by the computation: the rule every preservation proof uses. *)
Definition preserves {S A} (R : S → S → Prop) (m : M S A) : Prop :=
  ∀ s a s', ⟨ m, s ⟩ ⇓ ⟨ a, s' ⟩ → R s s'.

Section preserves.
Context {S : Type} (R : S → S → Prop) `{!PreOrder R}.

Lemma preserves_ret {A} (a : A) : preserves R (mret a).
Proof. intros s b s' [_ ->]%runs_ret. done. Qed.
Lemma preserves_get : preserves R get_state.
Proof. intros s b s' [_ ->]%runs_get. done. Qed.
Lemma preserves_throw {A} e : preserves R (throw (A:=A) e).
Proof. intros s b s' []%runs_throw. Qed.
Lemma preserves_lift {A} (r : result A) : preserves R (lift r).
Proof. intros s b s' [_ ->]%runs_lift. done. Qed.
Lemma preserves_assert c msg : preserves R (fc_assert c msg).
Proof. apply preserves_lift. Qed.
Lemma preserves_bind {A B} (m : M S A) (f : A → M S B) :
  preserves R m → (∀ a, preserves R (f a)) → preserves R (m ≫= f).
Proof.
  intros Hm Hf s b s' (a & s1 & H1 & H2)%runs_bind.
  etrans; [by eapply Hm|by eapply Hf].
Qed.
Lemma preserves_when c (m : M S unit) :
  (c = true → preserves R m) → preserves R (mwhen c m).
Proof. destruct c; cbn; [auto|]. intros _. apply preserves_ret. Qed.
Lemma preserves_if {A} (c : bool) (m1 m2 : M S A) :
  (c = true → preserves R m1) → (c = false → preserves R m2) →
  preserves R (if c then m1 else m2).
Proof. destruct c; auto. Qed.
Lemma preserves_for {A} (f : A → M S unit) l :
  (∀ x, preserves R (f x)) → preserves R (mfor f l).
Proof.
  intros Hf. induction l as [|x l IH]; cbn; [apply preserves_ret|].
  apply preserves_bind; auto.
Qed.
End preserves.

Create HintDb preserve discriminated.
#[export] Hint Resolve preserves_ret preserves_get preserves_throw preserves_lift
  preserves_assert preserves_bind preserves_when preserves_for : preserve.

(** Break a run into the runs of its parts, collecting the guards that held. *)
Ltac runs_step :=
  match goal with
  | H : ⟨ mret _, _ ⟩ ⇓ ⟨ _, _ ⟩ |- _ => let E := fresh "E" in apply runs_ret in H as [E <-]; first [subst | idtac]
  | H : ⟨ get_state, _ ⟩ ⇓ ⟨ _, _ ⟩ |- _ => apply runs_get in H as [-> ->]
  | H : ⟨ put_state _, _ ⟩ ⇓ ⟨ _, _ ⟩ |- _ => apply runs_put in H as ->
  | H : ⟨ throw _, _ ⟩ ⇓ ⟨ _, _ ⟩ |- _ => apply runs_throw in H as []
  | H : ⟨ fc_assert _ _, _ ⟩ ⇓ ⟨ _, _ ⟩ |- _ =>
      let G := fresh "Hguard" in apply runs_assert in H as [G ->]
  | H : ⟨ lift _, _ ⟩ ⇓ ⟨ _, _ ⟩ |- _ =>
      let G := fresh "Hval" in apply runs_lift in H as [G ->]
  | H : ⟨ mwhen _ _, _ ⟩ ⇓ ⟨ _, _ ⟩ |- _ => apply runs_when in H
  | H : ⟨ _ ≫= _, _ ⟩ ⇓ ⟨ _, _ ⟩ |- _ =>
      let a := fresh "v" in let s := fresh "s" in let H1 := fresh "Hr" in
      apply runs_bind in H as (a & s & H1 & H); cbv beta in H
  | u : unit |- _ => destruct u
  end.
Ltac runs_inv := repeat runs_step.

(** Split the booleans of the guards. *)
Ltac bool_hyps :=
  repeat match goal with
  | H : (_ && _)%bool = true |- _ => apply andb_true_iff in H as [? ?]
  | H : (_ || _)%bool = false |- _ => apply orb_false_iff in H as [? ?]
  | H : negb _ = true |- _ => apply negb_true_iff in H
  | H : negb _ = false |- _ => apply negb_false_iff in H
  | H : bool_decide _ = true |- _ => apply bool_decide_eq_true in H
  | H : bool_decide _ = false |- _ => apply bool_decide_eq_false in H
  | H : (_ =? _) = true |- _ => apply Z.eqb_eq in H
  | H : (_ =? _) = false |- _ => apply Z.eqb_neq in H
  | H : (_ <=? _) = true |- _ => apply Z.leb_le in H
  | H : (_ <=? _) = false |- _ => apply Z.leb_gt in H
  | H : (_ <? _) = true |- _ => apply Z.ltb_lt in H
  | H : (_ <? _) = false |- _ => apply Z.ltb_ge in H
  end.

(** * Field update *)

(** A C++ member assignment [x.f = v] is [x <| f := v |>].  A record has an
    [Eta] instance that rebuilds it from its projections; the setter of a
    projection is derived from it by abstracting that projection. *)
Class Eta (R : Type) := eta : R → R.
Class Setter {R T : Type} (proj : R → T) := set_field : (T → T) → R → R.
Arguments set_field {R T} proj {_} f r : simpl never.

Ltac derive_setter :=
  lazymatch goal with
  | |- @Setter ?R ?T ?proj =>
      let e := constr:(@eta R _) in
      let b := lazymatch e with @eta _ ?i => eval red in i end in
      let p := eval pattern proj in b in
      lazymatch p with
      | ?g _ =>
          let body := eval cbv beta in
            (fun (f : T → T) (r : R) => g (fun r' : R => f (proj r')) r) in
          exact body
      end
  end.
#[export] Hint Extern 0 (Setter _) => derive_setter : typeclass_instances.

#[warnings="-postfix-notation-not-level-1"]
Notation "x <| f := v |>" := (set_field f (λ _, v) x)
  (at level 12, f at next level, left associativity).
#[warnings="-postfix-notation-not-level-1"]
Notation "x <| f ::= g |>" := (set_field f g x)
  (at level 12, f at next level, left associativity).

(** Read the fields of updated records: [f (x <| g := v |>)] becomes [v] or
    [f x]. *)
Ltac is_field R p :=
  let e := constr:(@eta R _) in
  let b := lazymatch e with @eta _ ?i => eval red in i end in
  lazymatch b with context [p] => idtac end.
Ltac read_field R T f i p g r :=
  let b := constr:(fun (g' : T → T) (r' : R) => @set_field R T f i g' r') in
  let b := eval unfold set_field in b in
  let q := eval red in p in
  let t := eval cbv beta iota in (fun (g' : T → T) (r' : R) => q (b g' r')) in
  eval cbv beta in (t g r).
Ltac fields_step :=
  match goal with
  | |- context [?p (@set_field ?R ?T ?f ?i ?g ?r)] =>
      is_field R p;
      let t := read_field R T f i p g r in
      change (p (@set_field R T f i g r)) with t
  | H : context [?p (@set_field ?R ?T ?f ?i ?g ?r)] |- _ =>
      is_field R p;
      let t := read_field R T f i p g r in
      change (p (@set_field R T f i g r)) with t in H
  end.
Ltac fields := repeat fields_step.

(** * Filters *)

Lemma filter_ext_in {A} (P Q : A → Prop) `{!∀ x, Decision (P x), !∀ x, Decision (Q x)} (l : list A) :
  (∀ x, x ∈ l → P x ↔ Q x) → filter P l = filter Q l.
Proof.
  induction l as [|x l IH]; intros HPQ; [done|]. rewrite !filter_cons.
  rewrite IH by (intros; apply HPQ; by right). apply decide_ext. apply HPQ. by left.
Qed.
Lemma filter_all_in {A} (P : A → Prop) `{!∀ x, Decision (P x)} (l : list A) :
  (∀ x, x ∈ l → P x) → filter P l = l.
Proof.
  induction l as [|x l IH]; intros HP; [done|]. rewrite filter_cons_True by (apply HP; by left).
  rewrite IH; [done|]. intros. apply HP. by right.
Qed.
Lemma filter_none_in {A} (P : A → Prop) `{!∀ x, Decision (P x)} (l : list A) :
  (∀ x, x ∈ l → ¬ P x) → filter P l = [].
Proof.
  induction l as [|x l IH]; intros HP; [done|]. rewrite filter_cons_False by (apply HP; by left).
  apply IH. intros. apply HP. by right.
Qed.

(** * Sums over a map *)

Definition map_sum `{Countable K} {V} (f : V → Z) (m : gmap K V) : Z :=
  map_fold (λ _ v acc, f v + acc) 0 m.

Section map_sum.
Context `{Countable K} {V : Type} (f : V → Z).
Implicit Types m : gmap K V.

Lemma map_sum_empty : map_sum f (∅ : gmap K V) = 0.
Proof. apply map_fold_empty. Qed.

Lemma map_sum_insert_new m k v :
  m !! k = None → map_sum f (<[k:=v]> m) = f v + map_sum f m.
Proof.
  intros Hk. unfold map_sum. rewrite map_fold_insert_L; [done| |done].
  intros; lia.
Qed.

Lemma map_sum_delete m k v :
  m !! k = Some v → map_sum f (delete k m) = map_sum f m - f v.
Proof.
  intros Hk. rewrite <- (insert_id m k v Hk) at 2.
  rewrite <- insert_delete_eq, map_sum_insert_new; [lia|apply lookup_delete_eq].
Qed.

Lemma map_sum_insert m k v w :
  m !! k = Some v → map_sum f (<[k:=w]> m) = map_sum f m - f v + f w.
Proof.
  intros Hk. rewrite <- insert_delete_eq, map_sum_insert_new by apply lookup_delete_eq.
  rewrite (map_sum_delete _ _ _ Hk). lia.
Qed.

Lemma map_sum_insert_same m k v w :
  m !! k = Some v → f w = f v → map_sum f (<[k:=w]> m) = map_sum f m.
Proof. intros Hk Hf. rewrite (map_sum_insert _ _ _ _ Hk). lia. Qed.

(** Maps that agree but for the row at [k]. *)
Lemma map_sum_but_one m m' k v v' :
  m !! k = Some v → m' !! k = Some v' → (∀ k', k' ≠ k → f <$> (m' !! k') = f <$> (m !! k')) →
  map_sum f m' = map_sum f m - f v + f v'.
Proof.
  intros Hv Hv' Hrest.
  assert (∀ n : gmap K V, map_sum f n = map_fold (λ _ x acc, x + acc) 0 (f <$> n)) as E
    by (intros n; unfold map_sum; by rewrite map_fold_fmap).
  assert (delete k (f <$> m') = delete k (f <$> m)) as Ed.
  { apply map_eq. intros k'. destruct (decide (k = k')) as [<-|]; [by rewrite !lookup_delete_eq|].
    rewrite !lookup_delete_ne by done. rewrite !lookup_fmap. by apply Hrest. }
  rewrite <- !fmap_delete in Ed. pose proof (map_sum_delete m k v Hv) as E1.
  pose proof (map_sum_delete m' k v' Hv') as E2. rewrite (E (delete _ _)) in E1. rewrite (E (delete _ _)) in E2. rewrite Ed in E2. lia.
Qed.

Lemma map_sum_nonneg m :
  (∀ k v, m !! k = Some v → 0 ≤ f v) → 0 ≤ map_sum f m.
Proof.
  induction m as [|k v m Hk IH] using map_ind; [by rewrite map_sum_empty|].
  intros Hf. rewrite map_sum_insert_new by done.
  assert (0 ≤ f v) by (apply (Hf k); by rewrite lookup_insert_eq).
  assert (0 ≤ map_sum f m); [|lia]. apply IH. intros k' v' Hk'.
  apply (Hf k'). rewrite lookup_insert_ne; [done|congruence].
Qed.

Lemma map_sum_lookup_le m k v :
  (∀ k v, m !! k = Some v → 0 ≤ f v) → m !! k = Some v → f v ≤ map_sum f m.
Proof.
  intros Hf Hk. pose proof (map_sum_delete m k v Hk) as Hd.
  assert (0 ≤ map_sum f (delete k m)); [|lia].
  apply map_sum_nonneg. intros k' v' [_ Hk']%lookup_delete_Some. by eapply Hf.
Qed.
End map_sum.

Lemma map_sum_ext `{Countable K} {V} (f g : V → Z) (m : gmap K V) :
  (∀ k v, m !! k = Some v → f v = g v) → map_sum f m = map_sum g m.
Proof.
  induction m as [|k v m Hk IH] using map_ind; [by rewrite !map_sum_empty|]. intros Hfg.
  rewrite !map_sum_insert_new by done. rewrite (Hfg k v) by apply lookup_insert_eq. rewrite IH; [done|].
  intros k' v' Hk'. apply (Hfg k'). rewrite lookup_insert_ne; [done|congruence].
Qed.

Lemma map_sum_zero `{Countable K} {V} (f : V → Z) (m : gmap K V) :
  (∀ k v, m !! k = Some v → f v = 0) → map_sum f m = 0.
Proof.
  intros Hf. rewrite (map_sum_ext _ (λ _, 0)) by done.
  induction m as [|k v m Hk IH] using map_ind; [apply map_sum_empty|].
  rewrite map_sum_insert_new, IH; [done| |done]. intros k' v' Hk'. apply (Hf k'). apply lookup_insert_Some. right.
  split; [by intros ->; simplify_eq|done].
Qed.

Lemma map_sum_fmap `{Countable K} {V W} (view : V → W) (f : W → Z) (m : gmap K V) :
  map_sum f (view <$> m) = map_sum (f ∘ view) m.
Proof. unfold map_sum. by rewrite map_fold_fmap. Qed.

(** Maps whose rows have the same views have the same sums over them. *)
Lemma map_sum_view `{Countable K} {V W} (view : V → W) (f : V → Z) (g : W → Z) (m m' : gmap K V) :
  (∀ v, f v = g (view v)) → (∀ k, view <$> (m' !! k) = view <$> (m !! k)) → map_sum f m' = map_sum f m.
Proof.
  intros Hfg Hv. rewrite (map_sum_ext f (g ∘ view) m'), (map_sum_ext f (g ∘ view) m) by (intros; apply Hfg).
  rewrite <- !map_sum_fmap. f_equal. apply map_eq. intros k. by rewrite !lookup_fmap.
Qed.
