(* ===== verification/Fc.v ===== *)
(** The interface to [fc], the support library of the node.

    [libraries/fc] is a git submodule whose sources are not part of the
    repository.  What the node uses of it is the class [Fc]: every definition
    that calls [fc] takes it as an argument.  [FcLaws] states the documented
    behaviour the proofs rely on, and [fc_ref] is a concrete implementation of
    it, which the worked examples run on. *)

From Stdlib Require Import Ascii.
From stdpp Require Import pretty.
From S2P Require Import Prelude.

(** * Machine integers of the language *)

Definition u8_max : Z := 2 ^ 8 - 1.
Definition u16_max : Z := 2 ^ 16 - 1.
Definition u32_max : Z := 2 ^ 32 - 1.
Definition u64_max : Z := 2 ^ 64 - 1.
Definition i64_min : Z := - 2 ^ 63.
Definition i64_max : Z := 2 ^ 63 - 1.

Definition wrap_u8 (x : Z) : Z := x mod 2 ^ 8.
Definition wrap_u16 (x : Z) : Z := x mod 2 ^ 16.
Definition wrap_u32 (x : Z) : Z := x mod 2 ^ 32.
Definition wrap_u64 (x : Z) : Z := x mod 2 ^ 64.
Definition wrap_i32 (x : Z) : Z := (x + 2 ^ 31) mod 2 ^ 32 - 2 ^ 31.
Definition wrap_i64 (x : Z) : Z := (x + 2 ^ 63) mod 2 ^ 64 - 2 ^ 63.

Definition in_i64 (x : Z) : bool := (i64_min <=? x) && (x <=? i64_max).

(** Decimal representation of an integer. *)
Definition decimal (z : Z) : string := pretty z.

(** * Operations *)

Class Fc := {
  (** [fc::safe<int64_t>]: checked arithmetic. *)
  safe_add : Z → Z → result Z;
  safe_sub : Z → Z → result Z;
  safe_mul : Z → Z → result Z;
  safe_div : Z → Z → result Z;
  safe_mod : Z → Z → result Z;
  (** [fc::uint128]: construction from a 64-bit integer, arithmetic, shifts,
      conjunction, the high and the low word, and [max_value()]. *)
  u128 : Z → Z;
  u128_add : Z → Z → Z;
  u128_sub : Z → Z → Z;
  u128_mul : Z → Z → Z;
  u128_div : Z → Z → Z;
  u128_shl : Z → Z → Z;
  u128_shr : Z → Z → Z;
  u128_and : Z → Z → Z;
  u128_hi : Z → Z;
  u128_lo : Z → Z;
  u128_max : Z;
  (** [to_uint64()], which throws when the value has a high word. *)
  u128_to_u64 : Z → result Z;
  (** [fc::time_point_sec], as seconds since the epoch: [t + seconds],
      [(t - u).to_seconds()], [min()] and [maximum()]. *)
  tps_add : Z → Z → Z;
  tps_diff : Z → Z → Z;
  tps_min : Z;
  tps_max : Z;
  (** [fc::is_utf8], [fc::json::is_valid]. *)
  is_utf8 : string → bool;
  json_is_valid : string → bool;
  (** [fc::to_string( int64_t )], [fc::to_int64], [fc::trim]. *)
  fc_to_string : Z → string;
  fc_to_int64 : string → result Z;
  fc_trim : string → string;
}.

(** Unary minus of [safe] is a subtraction from zero. *)
Definition safe_neg `{Fc} (a : Z) : result Z := safe_sub 0 a.

(** * Laws *)

Definition checked (x : Z) : result Z := if in_i64 x then Ok x else Err overflow_exception.

(** [s] has no white space to trim. *)
Definition no_space_at_ends (s : string) : Prop :=
  head (String.list_ascii_of_string s) ≠ Some " "%char ∧
  last (String.list_ascii_of_string s) ≠ Some " "%char.

Class FcLaws (F : Fc) : Prop := {
  safe_add_law a b : safe_add a b = checked (a + b);
  safe_sub_law a b : safe_sub a b = checked (a - b);
  safe_mul_law a b : safe_mul a b = checked (a * b);
  safe_div_law a b : b ≠ 0 → safe_div a b = checked (Z.quot a b);
  safe_mod_law a b : b ≠ 0 → safe_mod a b = checked (Z.rem a b);
  u128_law a : u128 a = a mod 2 ^ 128;
  u128_add_law a b : u128_add a b = (a + b) mod 2 ^ 128;
  u128_sub_law a b : u128_sub a b = (a - b) mod 2 ^ 128;
  u128_mul_law a b : u128_mul a b = (a * b) mod 2 ^ 128;
  u128_div_law a b : 0 < b → u128_div a b = a / b;
  u128_shl_law a n : 0 ≤ n → u128_shl a n = (a * 2 ^ n) mod 2 ^ 128;
  u128_shr_law a n : 0 ≤ n → u128_shr a n = a / 2 ^ n;
  u128_and_law a b : u128_and a b = Z.land a b;
  u128_hi_law a : u128_hi a = a / 2 ^ 64;
  u128_lo_law a : u128_lo a = a mod 2 ^ 64;
  u128_max_law : u128_max = 2 ^ 128 - 1;
  u128_to_u64_law a b : u128_to_u64 a = Ok b → b = a ∧ a < 2 ^ 64;
  u128_to_u64_small a : 0 ≤ a < 2 ^ 64 → u128_to_u64 a = Ok a;
  tps_add_law t s : 0 ≤ t + s ≤ u32_max → tps_add t s = t + s;
  tps_diff_law t u : 0 ≤ t ≤ u32_max → 0 ≤ u ≤ u32_max → tps_diff t u = t - u;
  tps_min_law : tps_min = 0;
  tps_max_law : tps_max = u32_max;
  fc_to_string_law z : in_i64 z = true → fc_to_string z = decimal z;
  fc_to_int64_law z : in_i64 z = true → fc_to_int64 (decimal z) = Ok z;
  fc_trim_law s : no_space_at_ends s → fc_trim s = s;
}.

(** * Facts about the laws *)

Lemma in_i64_iff x : in_i64 x = true ↔ i64_min ≤ x ≤ i64_max.
Proof. unfold in_i64. rewrite andb_true_iff, !Z.leb_le. done. Qed.

Lemma checked_ok x y : checked x = Ok y ↔ y = x ∧ i64_min ≤ x ≤ i64_max.
Proof.
  unfold checked. destruct (in_i64 x) eqn:E.
  - apply in_i64_iff in E. naive_solver.
  - split; [done|]. intros [_ Hx%in_i64_iff]. congruence.
Qed.

Lemma checked_in x : i64_min ≤ x ≤ i64_max → checked x = Ok x.
Proof. intros. by apply checked_ok. Qed.

Section laws.
Context {F : Fc} {FL : FcLaws F}.

Lemma safe_add_ok a b c : safe_add a b = Ok c → c = a + b ∧ i64_min ≤ c ≤ i64_max.
Proof. rewrite safe_add_law. intros [-> ?]%checked_ok. done. Qed.
Lemma safe_sub_ok a b c : safe_sub a b = Ok c → c = a - b ∧ i64_min ≤ c ≤ i64_max.
Proof. rewrite safe_sub_law. intros [-> ?]%checked_ok. done. Qed.
Lemma safe_mul_ok a b c : safe_mul a b = Ok c → c = a * b ∧ i64_min ≤ c ≤ i64_max.
Proof. rewrite safe_mul_law. intros [-> ?]%checked_ok. done. Qed.
Lemma safe_neg_ok a c : safe_neg a = Ok c → c = - a ∧ i64_min ≤ c ≤ i64_max.
Proof. intros [-> ?]%safe_sub_ok. split; lia. Qed.
Lemma safe_div_ok a b c : b ≠ 0 → safe_div a b = Ok c → c = Z.quot a b ∧ i64_min ≤ c ≤ i64_max.
Proof. intros Hb. rewrite safe_div_law by done. intros [-> ?]%checked_ok. done. Qed.

(** A product of two non-negative 64-bit integers does not overflow 128 bits. *)
Lemma u128_mul_exact a b :
  0 ≤ a ≤ i64_max → 0 ≤ b ≤ i64_max → u128_mul (u128 a) (u128 b) = a * b.
Proof.
  intros Ha Hb. rewrite u128_mul_law, !u128_law.
  unfold i64_max in *. rewrite (Z.mod_small a), (Z.mod_small b) by lia.
  apply Z.mod_small. nia.
Qed.

Lemma u128_hi_zero a : 0 ≤ a → u128_hi a = 0 → 0 ≤ a < 2 ^ 64 ∧ u128_lo a = a.
Proof.
  rewrite u128_hi_law, u128_lo_law. intros Ha H0.
  assert (a < 2 ^ 64) by (apply Z.div_small_iff in H0; lia).
  split; [lia|]. apply Z.mod_small. lia.
Qed.
End laws.

(** * A reference implementation *)

Module FcRef.
Definition digit_value (c : ascii) : option N :=
  let n := Ascii.N_of_ascii c in
  if ((48 <=? n) && (n <=? 57))%N then Some (n - 48)%N else None.

(** Value of a digit string read after the digits worth [acc]. *)
Fixpoint parse_digits (acc : N) (s : string) : option N :=
  match s with
  | EmptyString => Some acc
  | String c s => d ← digit_value c; parse_digits (10 * acc + d)%N s
  end.

Definition parse_error : exn := assert_exception "Couldn't parse int64_t".
Definition parse_nonempty (s : string) : option N :=
  match s with EmptyString => None | _ => parse_digits 0 s end.
Definition to_int64 (s : string) : result Z :=
  match s with
  | String "-" s' =>
      match parse_nonempty s' with Some n => checked (- Z.of_N n) | None => Err parse_error end
  | _ => match parse_nonempty s with Some n => checked (Z.of_N n) | None => Err parse_error end
  end.

(** Drop leading blanks; [trim] does it at both ends. *)
Fixpoint ltrim (l : list ascii) : list ascii :=
  match l with
  | c :: l' => if Ascii.eqb c " "%char then ltrim l' else l
  | [] => []
  end.
Definition trim (s : string) : string :=
  String.string_of_list_ascii (reverse (ltrim (reverse (ltrim (String.list_ascii_of_string s))))).

Lemma ltrim_id l : head l ≠ Some " "%char → ltrim l = l.
Proof.
  destruct l as [|c l]; cbn; [done|]. intros Hc.
  destruct (Ascii.eqb_spec c " "%char); [congruence|done].
Qed.

Lemma trim_id s : no_space_at_ends s → trim s = s.
Proof.
  intros [Hh Hl]. unfold trim. rewrite (ltrim_id _ Hh), ltrim_id.
  - by rewrite reverse_involutive, String.string_of_list_ascii_of_string.
  - by rewrite head_reverse.
Qed.

Lemma digit_value_pretty x : (x < 10)%N → digit_value (pretty_N_char x) = Some x.
Proof.
  intros Hx. assert (x = 0 ∨ x = 1 ∨ x = 2 ∨ x = 3 ∨ x = 4 ∨ x = 5 ∨ x = 6 ∨ x = 7 ∨ x = 8 ∨ x = 9)%N
    as Hc by lia.
  destruct_or!; by subst.
Qed.

Lemma parse_digits_pretty x s : parse_digits 0 (pretty_N_go x s) = parse_digits x s.
Proof.
  revert s. induction (N.lt_wf_0 x) as [x _ IH]; intros s.
  destruct (decide (0 < x)%N) as [Hx|Hx]; [|by assert (x = 0)%N as -> by lia].
  rewrite pretty_N_go_step by done. rewrite IH by (apply N.div_lt; lia). cbn.
  rewrite digit_value_pretty by (apply N.mod_lt; lia). cbn.
  by rewrite <- (N.div_mod x 10).
Qed.

Lemma parse_nonempty_pretty (n : N) : parse_nonempty (pretty n) = Some n.
Proof.
  unfold pretty, pretty_N. case_decide as Hn; [by subst|].
  pose proof (parse_digits_pretty n "") as Hp. change (parse_digits n "") with (Some n) in Hp.
  destruct (pretty_N_go n "") as [|c s] eqn:E; [|exact Hp].
  cbn in Hp. congruence.
Qed.

Lemma pretty_N_not_minus (n : N) s : pretty n ≠ String "-" s.
Proof.
  intros E. pose proof (parse_nonempty_pretty n) as Hp. rewrite E in Hp. discriminate.
Qed.

Lemma to_int64_pos s :
  (∀ s', s ≠ String "-" s') →
  to_int64 s = match parse_nonempty s with Some n => checked (Z.of_N n) | None => Err parse_error end.
Proof.
  intros Hs. destruct s as [|[[] [] [] [] [] [] [] []] s]; try reflexivity. by destruct (Hs s).
Qed.

Lemma to_int64_decimal z : in_i64 z = true → to_int64 (decimal z) = Ok z.
Proof.
  intros Hz%in_i64_iff. unfold decimal. destruct z as [|p|p]; [done| |].
  - change (pretty (Z.pos p)) with (pretty (N.pos p)).
    rewrite to_int64_pos by apply pretty_N_not_minus.
    rewrite parse_nonempty_pretty. by apply checked_in.
  - change (pretty (Z.neg p)) with (String "-" (pretty (N.pos p))).
    unfold to_int64. rewrite parse_nonempty_pretty. by apply checked_in.
Qed.

#[global] Instance fc_ref : Fc := {
  safe_add a b := checked (a + b);
  safe_sub a b := checked (a - b);
  safe_mul a b := checked (a * b);
  safe_div a b := if b =? 0 then Err (assert_exception "divide by zero") else checked (Z.quot a b);
  safe_mod a b := if b =? 0 then Err (assert_exception "divide by zero") else checked (Z.rem a b);
  u128 a := a mod 2 ^ 128;
  u128_add a b := (a + b) mod 2 ^ 128;
  u128_sub a b := (a - b) mod 2 ^ 128;
  u128_mul a b := (a * b) mod 2 ^ 128;
  u128_div a b := a / b;
  u128_shl a n := (a * 2 ^ n) mod 2 ^ 128;
  u128_shr a n := a / 2 ^ n;
  u128_and a b := Z.land a b;
  u128_hi a := a / 2 ^ 64;
  u128_lo a := a mod 2 ^ 64;
  u128_max := 2 ^ 128 - 1;
  u128_to_u64 a := if a <? 2 ^ 64 then Ok a else Err (assert_exception "hi == 0");
  tps_add t s := wrap_u32 (t + s);
  tps_diff t u := t - u;
  tps_min := 0;
  tps_max := u32_max;
  is_utf8 s := forallb (λ c, Ascii.N_of_ascii c <? 128)%N (String.list_ascii_of_string s);
  json_is_valid s := match s with "" => false | _ => true end%string;
  fc_to_string := decimal;
  fc_to_int64 := to_int64;
  fc_trim := trim;
}.

#[global] Instance fc_ref_laws : FcLaws fc_ref.
Proof.
  split; cbn; try reflexivity.
  - intros a b Hb. by destruct (Z.eqb_spec b 0).
  - intros a b Hb. by destruct (Z.eqb_spec b 0).
  - intros a b. destruct (Z.ltb_spec a (2 ^ 64)); [intros [= <-]|]; done.
  - intros a Ha. by destruct (Z.ltb_spec a (2 ^ 64)); [|lia].
  - intros t s Hts. apply Z.mod_small. unfold u32_max in *. lia.
  - apply to_int64_decimal.
  - apply trim_id.
Qed.
End FcRef.

(** * Hashing and signatures *)

(** What the node uses of [fc/crypto] and [fc/bitutil]: digests are byte
    strings, the hashes whose words the code reads are lists of 32-bit words. *)
Class FcCrypto := {
  (** [fc::raw::pack] of a value. *)
  raw_pack {A : Type} : A → string;
  (** [fc::endian_reverse_u32]. *)
  endian_reverse_u32 : Z → Z;
  (** [fc::sha256::hash], [fc::sha224::hash], [fc::ripemd160::hash] of packed bytes. *)
  sha256_hash : string → string;
  sha224_words : string → list Z;
  ripemd160_words : string → list Z;
  (** [h._hash\[0\] = n] on a [sha256], and [approx_log_32]. *)
  sha256_set_word0 : Z → string → string;
  approx_log_32 : string → Z;
  (** [fc::ecc::public_key( signature, digest, check_canonical )]. *)
  recover_key : string → string → bool → result string;
  (** [private_key::regenerate( secret ).sign_compact( digest )]. *)
  sign_with_secret : string → string → string;
  (** [fc::equihash::proof::is_valid] of [n], [k], the seed and the inputs. *)
  equihash_is_valid : Z → Z → string → list Z → bool;
}.

Class FcCryptoLaws (C : FcCrypto) : Prop := {
  endian_reverse_u32_range x : 0 ≤ x ≤ u32_max → 0 ≤ endian_reverse_u32 x ≤ u32_max;
  endian_reverse_u32_involutive x :
    0 ≤ x ≤ u32_max → endian_reverse_u32 (endian_reverse_u32 x) = x;
  sha224_words_length s : length (sha224_words s) = 7%nat;
  ripemd160_words_length s : length (ripemd160_words s) = 5%nat;
}.

Module FcCryptoRef.
Definition reverse_bytes (x : Z) : Z :=
  Z.land x 255 * 2 ^ 24 + Z.land (Z.shiftr x 8) 255 * 2 ^ 16 +
  Z.land (Z.shiftr x 16) 255 * 2 ^ 8 + Z.land (Z.shiftr x 24) 255.

(** Byte [i] of a number. *)
Lemma byte_div x i : 0 ≤ i → Z.land (Z.shiftr x i) 255 = x / 2 ^ i mod 256.
Proof.
  intros Hi. change 255 with (Z.ones 8). by rewrite Z.land_ones, Z.shiftr_div_pow2.
Qed.

Lemma reverse_bytes_div x :
  reverse_bytes x =
    x mod 256 * 2 ^ 24 + x / 2 ^ 8 mod 256 * 2 ^ 16 + x / 2 ^ 16 mod 256 * 2 ^ 8 + x / 2 ^ 24 mod 256.
Proof.
  unfold reverse_bytes. rewrite <- (Z.shiftr_0_r x) at 1. by rewrite !byte_div, Z.div_1_r by lia.
Qed.

Lemma reverse_bytes_four a b c d :
  0 ≤ a < 256 → 0 ≤ b < 256 → 0 ≤ c < 256 → 0 ≤ d < 256 →
  reverse_bytes (a * 2 ^ 24 + b * 2 ^ 16 + c * 2 ^ 8 + d) =
    d * 2 ^ 24 + c * 2 ^ 16 + b * 2 ^ 8 + a.
Proof.
  intros Ha Hb Hc Hd. rewrite reverse_bytes_div.
  replace ((a * 2 ^ 24 + b * 2 ^ 16 + c * 2 ^ 8 + d) / 2 ^ 8) with (a * 2 ^ 16 + b * 2 ^ 8 + c)
    by (apply (Z.div_unique _ _ _ d); lia).
  replace ((a * 2 ^ 24 + b * 2 ^ 16 + c * 2 ^ 8 + d) / 2 ^ 16) with (a * 2 ^ 8 + b)
    by (apply (Z.div_unique _ _ _ (c * 2 ^ 8 + d)); lia).
  replace ((a * 2 ^ 24 + b * 2 ^ 16 + c * 2 ^ 8 + d) / 2 ^ 24) with a
    by (apply (Z.div_unique _ _ _ (b * 2 ^ 16 + c * 2 ^ 8 + d)); lia).
  repeat match goal with |- context [?x mod 256] => let r := fresh in
    pose proof (Z.div_mod x 256 ltac:(lia)); pose proof (Z.mod_pos_bound x 256 ltac:(lia));
    set (x mod 256) in * end.
  lia.
Qed.

Lemma reverse_bytes_involutive x : 0 ≤ x ≤ u32_max → reverse_bytes (reverse_bytes x) = x.
Proof.
  unfold u32_max. intros Hx. rewrite (reverse_bytes_div x).
  rewrite reverse_bytes_four by (apply Z.mod_pos_bound; lia).
  change (2 ^ 24) with (256 * (256 * 256)). change (2 ^ 16) with (256 * 256). change (2 ^ 8) with 256.
  rewrite <- !Z.div_div by lia.
  pose proof (Z.div_mod x 256). pose proof (Z.div_mod (x / 256) 256).
  pose proof (Z.div_mod (x / 256 / 256) 256).
  assert (0 ≤ x / 256 / 256 / 256 < 256) as Hs.
  { rewrite !Z.div_div by lia. split; [apply Z.div_pos; lia|]. apply Z.div_lt_upper_bound; lia. }
  rewrite (Z.mod_small (x / 256 / 256 / 256)) by done. lia.
Qed.

Lemma reverse_bytes_range x : 0 ≤ x ≤ u32_max → 0 ≤ reverse_bytes x ≤ u32_max.
Proof.
  intros Hx. rewrite reverse_bytes_div. unfold u32_max.
  repeat match goal with |- context [?x mod 256] =>
    pose proof (Z.mod_pos_bound x 256 ltac:(lia)); set (x mod 256) in * end. lia.
Qed.

(** A toy instance: digests are the data they digest. *)
#[global] Instance fc_crypto_ref : FcCrypto := {
  raw_pack A x := EmptyString;
  endian_reverse_u32 := reverse_bytes;
  sha256_hash s := s;
  sha224_words s := replicate 7 (Z.of_nat (String.length s));
  ripemd160_words s := replicate 5 (Z.of_nat (String.length s));
  sha256_set_word0 n s := s;
  approx_log_32 s := Z.of_nat (String.length s);
  recover_key sig d canonical := Ok sig;
  sign_with_secret secret d := secret;
  equihash_is_valid n k seed inputs := true;
}.

#[global] Instance fc_crypto_ref_laws : FcCryptoLaws fc_crypto_ref.
Proof. split; [apply reverse_bytes_range|apply reverse_bytes_involutive|done..]. Qed.
End FcCryptoRef.
