(* ===== verification/Config.v ===== *)
(** Constants: [protocol/config.hpp] for the live network ([IS_TEST_NET] is not
    defined) and the hard-fork numbers of [chain/hardfork.d].  Durations are in
    seconds, percentages in hundredths of a percent ([PERCENT_100 = 10000]). *)

From S2P Require Import Prelude.


(** * Symbols: decimals in byte 0, the name in the bytes above it *)

(** [SYMBOL_COIN], libraries/protocol/include/node/protocol/config.hpp:56 *)
Definition SYMBOL_COIN : Z := Z.lor 3 (Z.lor (Z.shiftl 84 8) (Z.lor (Z.shiftl 77 16) (Z.shiftl 69 24))).
(** [SYMBOL_SCORE], libraries/protocol/include/node/protocol/config.hpp:57 *)
Definition SYMBOL_SCORE : Z := Z.lor 6 (Z.lor (Z.shiftl 83 8) (Z.lor (Z.shiftl 67 16) (Z.lor (Z.shiftl 79 24) (Z.lor (Z.shiftl 82 32) (Z.shiftl 69 40))))).
(** [SYMBOL_USD], libraries/protocol/include/node/protocol/config.hpp:58 *)
Definition SYMBOL_USD : Z := Z.lor 3 (Z.lor (Z.shiftl 84 8) (Z.lor (Z.shiftl 83 16) (Z.shiftl 68 24))).

(** * Time *)

(** [GENESIS_TIME], libraries/protocol/include/node/protocol/config.hpp:62 *)
Definition GENESIS_TIME : Z := 1548124950.
(** [CASHOUT_WINDOW_SECONDS_PRE_HF12], libraries/protocol/include/node/protocol/config.hpp:64 *)
Definition CASHOUT_WINDOW_SECONDS_PRE_HF12 : Z := 60 * 60 * 24.
(** [CASHOUT_WINDOW_SECONDS_PRE_HF17], libraries/protocol/include/node/protocol/config.hpp:65 *)
Definition CASHOUT_WINDOW_SECONDS_PRE_HF17 : Z := 60 * 60 * 12.
(** [CASHOUT_WINDOW_SECONDS], libraries/protocol/include/node/protocol/config.hpp:66 *)
Definition CASHOUT_WINDOW_SECONDS : Z := 60 * 60 * 24 * 7.
(** [SECOND_CASHOUT_WINDOW], libraries/protocol/include/node/protocol/config.hpp:67 *)
Definition SECOND_CASHOUT_WINDOW : Z := 60 * 60 * 24 * 30.
(** [MAX_CASHOUT_WINDOW_SECONDS], libraries/protocol/include/node/protocol/config.hpp:68 *)
Definition MAX_CASHOUT_WINDOW_SECONDS : Z := 60 * 60 * 24 * 14.
(** [UPVOTE_LOCKOUT_HF7], libraries/protocol/include/node/protocol/config.hpp:70 *)
Definition UPVOTE_LOCKOUT_HF7 : Z := 60.
(** [UPVOTE_LOCKOUT_HF17], libraries/protocol/include/node/protocol/config.hpp:71 *)
Definition UPVOTE_LOCKOUT_HF17 : Z := 12 * 60 * 60.
(** [MIN_ACCOUNT_CREATION_FEE], libraries/protocol/include/node/protocol/config.hpp:74 *)
Definition MIN_ACCOUNT_CREATION_FEE : Z := 1000.
(** [OWNER_AUTH_RECOVERY_PERIOD], libraries/protocol/include/node/protocol/config.hpp:76 *)
Definition OWNER_AUTH_RECOVERY_PERIOD : Z := 30 * 86400.
(** [ACCOUNT_RECOVERY_REQUEST_EXPIRATION_PERIOD], libraries/protocol/include/node/protocol/config.hpp:77 *)
Definition ACCOUNT_RECOVERY_REQUEST_EXPIRATION_PERIOD : Z := 86400.
(** [OWNER_UPDATE_LIMIT], libraries/protocol/include/node/protocol/config.hpp:78 *)
Definition OWNER_UPDATE_LIMIT : Z := 60 * 60.
(** [OWNER_AUTH_HISTORY_TRACKING_START_BLOCK_NUM], libraries/protocol/include/node/protocol/config.hpp:79 *)
Definition OWNER_AUTH_HISTORY_TRACKING_START_BLOCK_NUM : Z := 1.
(** [BLOCK_INTERVAL], libraries/protocol/include/node/protocol/config.hpp:83 *)
Definition BLOCK_INTERVAL : Z := 1.
(** [BLOCKS_PER_YEAR], libraries/protocol/include/node/protocol/config.hpp:84 *)
Definition BLOCKS_PER_YEAR : Z := 365 * 24 * 60 * 60 / BLOCK_INTERVAL.
(** [BLOCKS_PER_DAY], libraries/protocol/include/node/protocol/config.hpp:85 *)
Definition BLOCKS_PER_DAY : Z := 24 * 60 * 60 / BLOCK_INTERVAL.
(** [START_MINER_VOTING_BLOCK], libraries/protocol/include/node/protocol/config.hpp:87 *)
Definition START_MINER_VOTING_BLOCK : Z := BLOCKS_PER_DAY * 1.

(** * Witnesses *)

(** [numberOfGenesisWitnessAccounts], libraries/protocol/include/node/protocol/config.hpp:90 *)
Definition numberOfGenesisWitnessAccounts : Z := 50.
(** [MAX_WITNESSES], libraries/protocol/include/node/protocol/config.hpp:91 *)
Definition MAX_WITNESSES : Z := numberOfGenesisWitnessAccounts.
(** [MAX_VOTED_WITNESSES_HF0], libraries/protocol/include/node/protocol/config.hpp:96 *)
Definition MAX_VOTED_WITNESSES_HF0 : Z := MAX_WITNESSES - 2.
(** [MAX_MINER_WITNESSES_HF0], libraries/protocol/include/node/protocol/config.hpp:97 *)
Definition MAX_MINER_WITNESSES_HF0 : Z := 1.
(** [MAX_RUNNER_WITNESSES_HF0], libraries/protocol/include/node/protocol/config.hpp:98 *)
Definition MAX_RUNNER_WITNESSES_HF0 : Z := 1.
(** [HARDFORK_REQUIRED_WITNESSES], libraries/protocol/include/node/protocol/config.hpp:104 *)
Definition HARDFORK_REQUIRED_WITNESSES : Z := numberOfGenesisWitnessAccounts / 3 * 2.

(** * Limits *)

(** [MAX_MEMO_SIZE], libraries/protocol/include/node/protocol/config.hpp:106 *)
Definition MAX_MEMO_SIZE : Z := 2048.
(** [MAX_PROXY_RECURSION_DEPTH], libraries/protocol/include/node/protocol/config.hpp:107 *)
Definition MAX_PROXY_RECURSION_DEPTH : Z := 4.
(** [TME_fund_for_SCORE_WITHDRAW_INTERVALS_PRE_HF_16], libraries/protocol/include/node/protocol/config.hpp:108 *)
Definition TME_fund_for_SCORE_WITHDRAW_INTERVALS_PRE_HF_16 : Z := 104.
(** [TME_fund_for_SCORE_WITHDRAW_INTERVALS], libraries/protocol/include/node/protocol/config.hpp:109 *)
Definition TME_fund_for_SCORE_WITHDRAW_INTERVALS : Z := 4.
(** [SCORE_WITHDRAW_INTERVAL_SECONDS], libraries/protocol/include/node/protocol/config.hpp:110 *)
Definition SCORE_WITHDRAW_INTERVAL_SECONDS : Z := 60 * 60 * 24 * 7.
(** [MAX_WITHDRAW_ROUTES], libraries/protocol/include/node/protocol/config.hpp:111 *)
Definition MAX_WITHDRAW_ROUTES : Z := 10.
(** [SAVINGS_WITHDRAW_TIME], libraries/protocol/include/node/protocol/config.hpp:112 *)
Definition SAVINGS_WITHDRAW_TIME : Z := 3 * 86400.
(** [SAVINGS_WITHDRAW_REQUEST_LIMIT], libraries/protocol/include/node/protocol/config.hpp:113 *)
Definition SAVINGS_WITHDRAW_REQUEST_LIMIT : Z := 100.
(** [VOTE_REGENERATION_SECONDS], libraries/protocol/include/node/protocol/config.hpp:114 *)
Definition VOTE_REGENERATION_SECONDS : Z := 3 * 60 * 60 * 24.
(** [MAX_VOTE_CHANGES], libraries/protocol/include/node/protocol/config.hpp:115 *)
Definition MAX_VOTE_CHANGES : Z := 127.
(** [REVERSE_AUCTION_WINDOW_SECONDS], libraries/protocol/include/node/protocol/config.hpp:116 *)
Definition REVERSE_AUCTION_WINDOW_SECONDS : Z := 60 * 10.
(** [MIN_VOTE_INTERVAL_SEC], libraries/protocol/include/node/protocol/config.hpp:117 *)
Definition MIN_VOTE_INTERVAL_SEC : Z := 1.
(** [VOTE_DUST_THRESHOLD], libraries/protocol/include/node/protocol/config.hpp:118 *)
Definition VOTE_DUST_THRESHOLD : Z := 0.
(** [MIN_ROOT_COMMENT_INTERVAL], libraries/protocol/include/node/protocol/config.hpp:120 *)
Definition MIN_ROOT_COMMENT_INTERVAL : Z := 3.
(** [MIN_REPLY_INTERVAL], libraries/protocol/include/node/protocol/config.hpp:121 *)
Definition MIN_REPLY_INTERVAL : Z := 2.
(** [POST_AVERAGE_WINDOW], libraries/protocol/include/node/protocol/config.hpp:122 *)
Definition POST_AVERAGE_WINDOW : Z := 60 * 60 * 24.
(** [PERCENT_100], libraries/protocol/include/node/protocol/config.hpp:128 *)
Definition PERCENT_100 : Z := 10000.
(** [POST_MAX_BANDWIDTH], libraries/protocol/include/node/protocol/config.hpp:123 *)
Definition POST_MAX_BANDWIDTH : Z := 4 * PERCENT_100.
(** [POST_WEIGHT_CONSTANT], libraries/protocol/include/node/protocol/config.hpp:124 *)
Definition POST_WEIGHT_CONSTANT : Z := POST_MAX_BANDWIDTH * POST_MAX_BANDWIDTH.
(** [MAX_accountWitnessVoteS], libraries/protocol/include/node/protocol/config.hpp:126 *)
Definition MAX_accountWitnessVoteS : Z := 1000.
(** [PERCENT_1], libraries/protocol/include/node/protocol/config.hpp:129 *)
Definition PERCENT_1 : Z := PERCENT_100 / 100.
(** [DEFAULT_TSD_INTEREST_RATE], libraries/protocol/include/node/protocol/config.hpp:131 *)
Definition DEFAULT_TSD_INTEREST_RATE : Z := 10 * PERCENT_1.
(** [INFLATION_RATE_START_PERCENT], libraries/protocol/include/node/protocol/config.hpp:133 *)
Definition INFLATION_RATE_START_PERCENT : Z := 1000.
(** [INFLATION_RATE_STOP_PERCENT], libraries/protocol/include/node/protocol/config.hpp:134 *)
Definition INFLATION_RATE_STOP_PERCENT : Z := 100.
(** [INFLATION_NARROWING_PERIOD], libraries/protocol/include/node/protocol/config.hpp:135 *)
Definition INFLATION_NARROWING_PERIOD : Z := 250000.
(** [CONTENT_REWARD_PERCENT], libraries/protocol/include/node/protocol/config.hpp:136 *)
Definition CONTENT_REWARD_PERCENT : Z := 75 * PERCENT_1.
(** [SCORE_fund_PERCENT], libraries/protocol/include/node/protocol/config.hpp:137 *)
Definition SCORE_fund_PERCENT : Z := 15 * PERCENT_1.
(** [MAX_COMMENT_DEPTH_PRE_HF17], libraries/protocol/include/node/protocol/config.hpp:146 *)
Definition MAX_COMMENT_DEPTH_PRE_HF17 : Z := 6.
(** [MAX_COMMENT_DEPTH], libraries/protocol/include/node/protocol/config.hpp:147 *)
Definition MAX_COMMENT_DEPTH : Z := 65535.
(** [CREATE_ACCOUNT_DELEGATION_RATIO], libraries/protocol/include/node/protocol/config.hpp:153 *)
Definition CREATE_ACCOUNT_DELEGATION_RATIO : Z := 2.
(** [CREATE_ACCOUNT_DELEGATION_TIME], libraries/protocol/include/node/protocol/config.hpp:154 *)
Definition CREATE_ACCOUNT_DELEGATION_TIME : Z := 86400.
(** [LIQUIDITY_TIMEOUT_SEC], libraries/protocol/include/node/protocol/config.hpp:160 *)
Definition LIQUIDITY_TIMEOUT_SEC : Z := 60 * 60 * 24 * 7.
(** [MIN_LIQUIDITY_REWARD_PERIOD_SEC], libraries/protocol/include/node/protocol/config.hpp:161 *)
Definition MIN_LIQUIDITY_REWARD_PERIOD_SEC : Z := 60.
(** [CONTENT_CONSTANT_HF0], libraries/protocol/include/node/protocol/config.hpp:179 *)
Definition CONTENT_CONSTANT_HF0 : Z := 2000000000000.
(** [TSD_STOP_PERCENT], libraries/protocol/include/node/protocol/config.hpp:219 *)
Definition TSD_STOP_PERCENT : Z := 2 * PERCENT_1.
(** [TSD_START_PERCENT], libraries/protocol/include/node/protocol/config.hpp:220 *)
Definition TSD_START_PERCENT : Z := 1 * PERCENT_1.
(** [MIN_ACCOUNT_NAME_LENGTH], libraries/protocol/include/node/protocol/config.hpp:222 *)
Definition MIN_ACCOUNT_NAME_LENGTH : Z := 3.
(** [MAX_ACCOUNT_NAME_LENGTH], libraries/protocol/include/node/protocol/config.hpp:223 *)
Definition MAX_ACCOUNT_NAME_LENGTH : Z := 16.
(** [MIN_PERMLINK_LENGTH], libraries/protocol/include/node/protocol/config.hpp:225 *)
Definition MIN_PERMLINK_LENGTH : Z := 0.
(** [MAX_PERMLINK_LENGTH], libraries/protocol/include/node/protocol/config.hpp:226 *)
Definition MAX_PERMLINK_LENGTH : Z := 2048.
(** [MAX_WITNESS_URL_LENGTH], libraries/protocol/include/node/protocol/config.hpp:227 *)
Definition MAX_WITNESS_URL_LENGTH : Z := 2048.
(** [MAX_SCORE_SUPPLY], libraries/protocol/include/node/protocol/config.hpp:230 *)
Definition MAX_SCORE_SUPPLY : Z := 1000000000000000000.
(** [MAX_SIG_CHECK_DEPTH], libraries/protocol/include/node/protocol/config.hpp:231 *)
Definition MAX_SIG_CHECK_DEPTH : Z := 2.
(** [SECONDS_PER_YEAR], libraries/protocol/include/node/protocol/config.hpp:234 *)
Definition SECONDS_PER_YEAR : Z := 60 * 60 * 24 * 365.
(** [TSD_INTEREST_COMPOUND_INTERVAL_SEC], libraries/protocol/include/node/protocol/config.hpp:236 *)
Definition TSD_INTEREST_COMPOUND_INTERVAL_SEC : Z := 60 * 60 * 24 * 30.
(** [MAX_TRANSACTION_SIZE], libraries/protocol/include/node/protocol/config.hpp:237 *)
Definition MAX_TRANSACTION_SIZE : Z := 1024 * 64.
(** [MIN_BLOCK_SIZE_LIMIT], libraries/protocol/include/node/protocol/config.hpp:238 *)
Definition MIN_BLOCK_SIZE_LIMIT : Z := MAX_TRANSACTION_SIZE.
(** [BLOCKS_PER_HOUR], libraries/protocol/include/node/protocol/config.hpp:241 *)
Definition BLOCKS_PER_HOUR : Z := 60 * 60 / BLOCK_INTERVAL.
(** [FEED_INTERVAL_BLOCKS], libraries/protocol/include/node/protocol/config.hpp:242 *)
Definition FEED_INTERVAL_BLOCKS : Z := BLOCKS_PER_HOUR.
(** [FEED_HISTORY_WINDOW_PRE_HF_16], libraries/protocol/include/node/protocol/config.hpp:243 *)
Definition FEED_HISTORY_WINDOW_PRE_HF_16 : Z := 24 * 7.
(** [FEED_HISTORY_WINDOW], libraries/protocol/include/node/protocol/config.hpp:244 *)
Definition FEED_HISTORY_WINDOW : Z := 12 * 7.
(** [MAX_FEED_AGE_SECONDS], libraries/protocol/include/node/protocol/config.hpp:245 *)
Definition MAX_FEED_AGE_SECONDS : Z := 60 * 60 * 24 * 30.
(** [MIN_FEEDS], libraries/protocol/include/node/protocol/config.hpp:246 *)
Definition MIN_FEEDS : Z := MAX_WITNESSES / 4.
(** [CONVERSION_DELAY_PRE_HF_16], libraries/protocol/include/node/protocol/config.hpp:247 *)
Definition CONVERSION_DELAY_PRE_HF_16 : Z := 7 * 86400.
(** [CONVERSION_DELAY], libraries/protocol/include/node/protocol/config.hpp:249 *)
Definition CONVERSION_DELAY : Z := FEED_HISTORY_WINDOW * 60 * 60.
(** [MAX_UNDO_HISTORY], libraries/protocol/include/node/protocol/config.hpp:253 *)
Definition MAX_UNDO_HISTORY : Z := 10000.
(** [IRREVERSIBLE_THRESHOLD], libraries/protocol/include/node/protocol/config.hpp:265 *)
Definition IRREVERSIBLE_THRESHOLD : Z := 75 * PERCENT_1.

(** * Reserved account names *)

(** [NULL_ACCOUNT], libraries/protocol/include/node/protocol/config.hpp:275 *)
Definition NULL_ACCOUNT : string := "null"%string.
(** [TEMP_ACCOUNT], libraries/protocol/include/node/protocol/config.hpp:276 *)
Definition TEMP_ACCOUNT : string := "temp"%string.
(** [PROXY_TO_SELF_ACCOUNT], libraries/protocol/include/node/protocol/config.hpp:277 *)
Definition PROXY_TO_SELF_ACCOUNT : string := EmptyString.
(** [ROOT_POST_PARENT], libraries/protocol/include/node/protocol/config.hpp:278 *)
Definition ROOT_POST_PARENT : string := EmptyString.

(** * Hard forks *)

(** [HARDFORK_0_1], libraries/chain/hardfork.d/0_1.hf:2 *)
Definition HARDFORK_0_1 : Z := 1.
(** [HARDFORK_0_2], libraries/chain/hardfork.d/0_2.hf:2 *)
Definition HARDFORK_0_2 : Z := 2.
(** [HARDFORK_0_3], libraries/chain/hardfork.d/0_3.hf:2 *)
Definition HARDFORK_0_3 : Z := 3.
(** [HARDFORK_0_4], libraries/chain/hardfork.d/0_4.hf:2 *)
Definition HARDFORK_0_4 : Z := 4.
(** [HARDFORK_0_5], libraries/chain/hardfork.d/0_5.hf:2 *)
Definition HARDFORK_0_5 : Z := 5.
(** [HARDFORK_0_6], libraries/chain/hardfork.d/0_6.hf:2 *)
Definition HARDFORK_0_6 : Z := 6.
(** [HARDFORK_0_7], libraries/chain/hardfork.d/0_7.hf:2 *)
Definition HARDFORK_0_7 : Z := 7.
(** [HARDFORK_0_8], libraries/chain/hardfork.d/0_8.hf:2 *)
Definition HARDFORK_0_8 : Z := 8.
(** [HARDFORK_0_9], libraries/chain/hardfork.d/0_9.hf:2 *)
Definition HARDFORK_0_9 : Z := 9.
(** [HARDFORK_0_10], libraries/chain/hardfork.d/0_10.hf:2 *)
Definition HARDFORK_0_10 : Z := 10.
(** [HARDFORK_0_11], libraries/chain/hardfork.d/0_11.hf:2 *)
Definition HARDFORK_0_11 : Z := 11.
(** [HARDFORK_0_12], libraries/chain/hardfork.d/0_12.hf:2 *)
Definition HARDFORK_0_12 : Z := 12.
(** [HARDFORK_0_13], libraries/chain/hardfork.d/0_13.hf:2 *)
Definition HARDFORK_0_13 : Z := 13.
(** [HARDFORK_0_14], libraries/chain/hardfork.d/0_14.hf:2 *)
Definition HARDFORK_0_14 : Z := 14.
(** [HARDFORK_0_15], libraries/chain/hardfork.d/0_15.hf:2 *)
Definition HARDFORK_0_15 : Z := 15.
(** [HARDFORK_0_16], libraries/chain/hardfork.d/0_16.hf:2 *)
Definition HARDFORK_0_16 : Z := 16.
(** [HARDFORK_0_17], libraries/chain/hardfork.d/0_17.hf:2 *)
Definition HARDFORK_0_17 : Z := 17.
(** [HARDFORK_0_18], libraries/chain/hardfork.d/0_18.hf:2 *)
Definition HARDFORK_0_18 : Z := 18.
(** [HARDFORK_0_19], libraries/chain/hardfork.d/0_19.hf:2 *)
Definition HARDFORK_0_19 : Z := 19.
(** [HARDFORK_0_1_TIME], libraries/chain/hardfork.d/0_1.hf:3 *)
Definition HARDFORK_0_1_TIME : Z := 1531629410.
(** [HARDFORK_0_2_TIME], libraries/chain/hardfork.d/0_2.hf:3 *)
Definition HARDFORK_0_2_TIME : Z := 1531629420.
(** [HARDFORK_0_3_TIME], libraries/chain/hardfork.d/0_3.hf:3 *)
Definition HARDFORK_0_3_TIME : Z := 1531629430.
(** [HARDFORK_0_4_TIME], libraries/chain/hardfork.d/0_4.hf:3 *)
Definition HARDFORK_0_4_TIME : Z := 1531629440.
(** [HARDFORK_0_5_TIME], libraries/chain/hardfork.d/0_5.hf:11 *)
Definition HARDFORK_0_5_TIME : Z := 1531629450.
(** [HARDFORK_0_6_TIME], libraries/chain/hardfork.d/0_6.hf:13 *)
Definition HARDFORK_0_6_TIME : Z := 1531629460.
(** [HARDFORK_0_7_TIME], libraries/chain/hardfork.d/0_7.hf:6 *)
Definition HARDFORK_0_7_TIME : Z := 1531629470.
(** [HARDFORK_0_8_TIME], libraries/chain/hardfork.d/0_8.hf:5 *)
Definition HARDFORK_0_8_TIME : Z := 1531629480.
(** [HARDFORK_0_9_TIME], libraries/chain/hardfork.d/0_9.hf:5 *)
Definition HARDFORK_0_9_TIME : Z := 1531629490.
(** [HARDFORK_0_10_TIME], libraries/chain/hardfork.d/0_10.hf:7 *)
Definition HARDFORK_0_10_TIME : Z := 1531630100.
(** [HARDFORK_0_11_TIME], libraries/chain/hardfork.d/0_11.hf:5 *)
Definition HARDFORK_0_11_TIME : Z := 1531630110.
(** [HARDFORK_0_12_TIME], libraries/chain/hardfork.d/0_12.hf:8 *)
Definition HARDFORK_0_12_TIME : Z := 1531630120.
(** [HARDFORK_0_13_TIME], libraries/chain/hardfork.d/0_13.hf:7 *)
Definition HARDFORK_0_13_TIME : Z := 1531630130.
(** [HARDFORK_0_14_TIME], libraries/chain/hardfork.d/0_14.hf:18 *)
Definition HARDFORK_0_14_TIME : Z := 1531630140.
(** [HARDFORK_0_15_TIME], libraries/chain/hardfork.d/0_15.hf:5 *)
Definition HARDFORK_0_15_TIME : Z := 1531630150.
(** [HARDFORK_0_16_TIME], libraries/chain/hardfork.d/0_16.hf:6 *)
Definition HARDFORK_0_16_TIME : Z := 1531630160.
(** [HARDFORK_0_17_TIME], libraries/chain/hardfork.d/0_17.hf:18 *)
Definition HARDFORK_0_17_TIME : Z := 1531630170.
(** [HARDFORK_0_18_TIME], libraries/chain/hardfork.d/0_18.hf:4 *)
Definition HARDFORK_0_18_TIME : Z := 1531630180.
(** [HARDFORK_0_19_TIME], libraries/chain/hardfork.d/0_19.hf:4 *)
Definition HARDFORK_0_19_TIME : Z := 1531630190.
(** [NUM_HARDFORKS], libraries/chain/hardfork.d/0-preamble.hf:51 *)
Definition NUM_HARDFORKS : Z := 19.

(** The three symbols are pairwise different. *)
Lemma SYMBOL_COIN_USD : SYMBOL_COIN ≠ SYMBOL_USD. Proof. done. Qed.
Lemma SYMBOL_COIN_SCORE : SYMBOL_COIN ≠ SYMBOL_SCORE. Proof. done. Qed.
Lemma SYMBOL_USD_SCORE : SYMBOL_USD ≠ SYMBOL_SCORE. Proof. done. Qed.
#[export] Hint Resolve SYMBOL_COIN_USD SYMBOL_COIN_SCORE SYMBOL_USD_SCORE : core.

(** [EQUIHASH_N], libraries/protocol/include/node/protocol/config.hpp:157 *)
Definition EQUIHASH_N : Z := 140.
(** [EQUIHASH_K], libraries/protocol/include/node/protocol/config.hpp:158 *)
Definition EQUIHASH_K : Z := 6.

(** [VIRTUAL_SCHEDULE_LAP_LENGTH], libraries/protocol/include/node/protocol/config.hpp:267 *)
Definition VIRTUAL_SCHEDULE_LAP_LENGTH : Z := 2 ^ 64 - 1.
(** [VIRTUAL_SCHEDULE_LAP_LENGTH2], libraries/protocol/include/node/protocol/config.hpp:268 *)
Definition VIRTUAL_SCHEDULE_LAP_LENGTH2 : Z := 2 ^ 128 - 1.
(** [MIN_LIQUIDITY_REWARD_PERIOD_SEC_HF10], libraries/chain/hardfork.d/0_10.hf:6 *)
Definition MIN_LIQUIDITY_REWARD_PERIOD_SEC_HF10 : Z := 60 * 30.
