(* ===== verification/Flat.v ===== *)
(** Ordered containers: boost's [flat_map] and [flat_set], [std::set].

    A [flat_map] is a vector of pairs sorted by key; iterating over it visits
    the keys in increasing order.  Names and keys are [string]s ordered
    lexicographically, which for names is the order of the stored integers
    (FixedString). *)

From Stdlib Require Import OrderedTypeEx.
From S2P Require Import Prelude.

Definition key_lt (a b : string) : Prop := String.compare a b = Lt.

#[export] Instance key_lt_dec a b : Decision (key_lt a b).
Proof. unfold key_lt. apply _. Defined.

Lemma key_compare_refl a : String.compare a a = Eq.
Proof. by apply String_as_OT.cmp_eq. Qed.

Lemma key_lt_trans a b c : key_lt a b → key_lt b c → key_lt a c.
Proof.
  unfold key_lt. rewrite !String_as_OT.cmp_lt. apply String_as_OT.lt_trans.
Qed.

Lemma key_lt_irrefl a : ¬ key_lt a a.
Proof. unfold key_lt. by rewrite key_compare_refl. Qed.

Lemma key_lt_total a b : a ≠ b → ¬ key_lt a b → key_lt b a.
Proof.
  unfold key_lt. rewrite (String.compare_antisym b a). intros Hne Hlt.
  destruct (String.compare a b) eqn:E; [by apply String_as_OT.cmp_eq in E|done|done].
Qed.

(** ** Maps *)

(** [m\[k\] = v] *)
Fixpoint fm_set {V} (k : string) (v : V) (m : list (string * V)) : list (string * V) :=
  match m with
  | [] => [(k, v)]
  | (k', v') :: m' =>
      if decide (k = k') then (k, v) :: m'
      else if decide (key_lt k k') then (k, v) :: m
      else (k', v') :: fm_set k v m'
  end.

Fixpoint fm_find {V} (k : string) (m : list (string * V)) : option V :=
  match m with
  | [] => None
  | (k', v) :: m' => if decide (k = k') then Some v else fm_find k m'
  end.

Definition fm_erase {V} (k : string) (m : list (string * V)) : list (string * V) :=
  filter (λ p, p.1 ≠ k) m.

Fixpoint fm_sorted {V} (m : list (string * V)) : Prop :=
  match m with [] => True | (k, _) :: m' => Forall (λ p, key_lt k p.1) m' ∧ fm_sorted m' end.

Section maps.
Context {V : Type}.
Implicit Types (m : list (string * V)) (k : string) (v : V).

Lemma fm_find_set_eq k v m : fm_find k (fm_set k v m) = Some v.
Proof.
  induction m as [|[k' v'] m IH]; cbn; [by rewrite decide_True|].
  repeat case_decide; cbn; repeat case_decide; done || congruence.
Qed.

Lemma fm_find_set_ne k k' v m : k ≠ k' → fm_find k (fm_set k' v m) = fm_find k m.
Proof.
  intros Hne. induction m as [|[j w] m IH]; cbn; [by rewrite decide_False|].
  repeat case_decide; subst; cbn; repeat case_decide; done || congruence.
Qed.

Lemma fm_set_keys k v m x : x ∈ (fm_set k v m).*1 ↔ x = k ∨ x ∈ m.*1.
Proof.
  induction m as [|[j w] m IH]; cbn; [set_solver|].
  repeat case_decide; subst; cbn; rewrite ?elem_of_cons, ?IH; set_solver.
Qed.

Lemma fm_sorted_set k v m : fm_sorted m → fm_sorted (fm_set k v m).
Proof.
  induction m as [|[j w] m IH]; cbn; [by repeat split|]. intros [Hj Hm].
  repeat case_decide; subst; cbn.
  - done.
  - split_and!; try done. constructor; [done|].
    eapply Forall_impl; [done|]. intros [? ?] ?. by eapply key_lt_trans.
  - split; [|auto]. apply Forall_forall. intros [x y] Hx%(list_elem_of_fmap_2 fst).
    apply fm_set_keys in Hx as [->|Hx].
    + by apply key_lt_total.
    + apply list_elem_of_fmap in Hx as ([x' y'] & -> & Hx).
      rewrite Forall_forall in Hj. by apply Hj in Hx.
Qed.

Lemma fm_find_elem k v m : fm_sorted m → (k, v) ∈ m → fm_find k m = Some v.
Proof.
  induction m as [|[j w] m IH]; cbn; [set_solver|]. intros [Hj Hm] [[= <- <-]|Hin]%elem_of_cons.
  - by rewrite decide_True.
  - rewrite decide_False; [auto|]. intros ->. rewrite Forall_forall in Hj.
    apply Hj in Hin. by apply key_lt_irrefl in Hin.
Qed.

Lemma fm_find_in k v m : fm_find k m = Some v → (k, v) ∈ m.
Proof.
  induction m as [|[j w] m IH]; cbn; [done|]. case_decide; [intros [= <-]; subst; set_solver|].
  intros ?%IH. set_solver.
Qed.
End maps.

(** ** Sets *)

(** [s.insert( k )] *)
Fixpoint fs_insert (k : string) (s : list string) : list string :=
  match s with
  | [] => [k]
  | k' :: s' =>
      if decide (k = k') then s
      else if decide (key_lt k k') then k :: s
      else k' :: fs_insert k s'
  end.

(** [s.erase( k )] *)
Definition fs_erase (k : string) (s : list string) : list string := filter (λ k', k' ≠ k) s.

Lemma fs_insert_elem k s x : x ∈ fs_insert k s ↔ x = k ∨ x ∈ s.
Proof.
  induction s as [|j s IH]; cbn; [set_solver|].
  repeat case_decide; subst; rewrite ?elem_of_cons, ?IH; set_solver.
Qed.

Lemma fs_erase_elem k s x : x ∈ fs_erase k s ↔ x ∈ s ∧ x ≠ k.
Proof. unfold fs_erase. rewrite list_elem_of_filter. tauto. Qed.

#[export] Hint Rewrite fs_insert_elem fs_erase_elem @fm_set_keys : flat.

(** * Index orders

    The order of a [composite_key]: the first key that differs decides. *)

Definition by_key {V K} (f : V → K) (c : K → K → comparison) (u v : V) : comparison := c (f u) (f v).
Definition then_by {V} (c d : V → V → comparison) (u v : V) : comparison :=
  match c u v with Eq => d u v | r => r end.
Definition descending {V} (c : V → V → comparison) (u v : V) : comparison := c v u.
Definition at_most {V} (c : V → V → comparison) (u v : V) : bool :=
  match c u v with Gt => false | _ => true end.

#[global] Typeclasses Opaque by_key then_by descending.

(** A comparison that orders its values. *)
Class IndexOrder {V} (c : V → V → comparison) : Prop := {
  order_opp u v : c v u = CompOpp (c u v);
  order_trans u v w : c u v ≠ Gt → c v w ≠ Gt → c u w ≠ Gt;
}.

#[export] Instance order_Z : IndexOrder Z.compare.
Proof.
  split; [intros; apply Z.compare_antisym|]. exact Z.le_trans.
Qed.

#[export] Instance order_string : IndexOrder String.compare.
Proof.
  split; [intros; apply String.compare_antisym|]. intros u v w H1 H2.
  destruct (String.compare u v) eqn:E1; [apply String_as_OT.cmp_eq in E1; by subst| |done].
  destruct (String.compare v w) eqn:E2; [apply String_as_OT.cmp_eq in E2; subst; congruence| |done].
  rewrite (key_lt_trans u v w) by done. done.
Qed.

#[export] Instance order_by_key {V K} (f : V → K) c `{!IndexOrder c} : IndexOrder (by_key f c).
Proof. unfold by_key. split; intros; [apply order_opp|by eapply order_trans]. Qed.

#[export] Instance order_descending {V} (c : V → V → comparison) `{!IndexOrder c} :
  IndexOrder (descending c).
Proof. unfold descending. split; intros; [apply order_opp|by eapply order_trans]. Qed.

Lemma order_eq_lt {V} (c : V → V → comparison) `{!IndexOrder c} u v w :
  c u v = Eq → c v w = Lt → c u w = Lt.
Proof.
  intros E L. destruct (c u w) eqn:U; [|done|].
  - exfalso. apply (order_trans (c:=c) w u v); [by rewrite (order_opp u w), U|by rewrite E|].
    by rewrite (order_opp v w), L.
  - exfalso. by apply (order_trans (c:=c) u v w); [rewrite E|rewrite L|].
Qed.

Lemma order_lt_le {V} (c : V → V → comparison) `{!IndexOrder c} u v w :
  c u v = Lt → c v w ≠ Gt → c u w = Lt.
Proof.
  intros L H. destruct (c v w) eqn:E; [| |done].
  - destruct (c u w) eqn:U; [|done|].
    + pose proof (order_eq_lt (descending c) v u w) as Hd. unfold descending in Hd.
      assert (c w v = Eq) by (by rewrite (order_opp v w), E).
      exfalso. apply (order_trans (c:=c) v w u); [by rewrite E|by rewrite (order_opp u w), U|].
      by rewrite (order_opp u v), L.
    + exfalso. by apply (order_trans (c:=c) u v w); [rewrite L|rewrite E|].
  - destruct (c u w) eqn:U; [|done|].
    + exfalso. apply (order_trans (c:=c) v w u); [by rewrite E|by rewrite (order_opp u w), U|].
      by rewrite (order_opp u v), L.
    + exfalso. by apply (order_trans (c:=c) u v w); [rewrite L|rewrite E|].
Qed.

#[export] Instance order_then_by {V} (c d : V → V → comparison) `{!IndexOrder c, !IndexOrder d} :
  IndexOrder (then_by c d).
Proof.
  unfold then_by. split.
  - intros u v. rewrite (order_opp (c:=c) u v). destruct (c u v); cbn; [apply order_opp|done|done].
  - intros u v w. destruct (c u v) eqn:E1; [| |done].
    + destruct (c v w) eqn:E2; [| |done].
      * intros H1 H2. destruct (c u w) eqn:E3; [by eapply order_trans|done|].
        exfalso. by apply (order_trans (c:=c) u v w); [rewrite E1|rewrite E2|].
      * intros _ _. by rewrite (order_eq_lt c u v w).
    + intros _ H2. rewrite (order_lt_le c u v w); [done|done|]. by destruct (c v w).
Qed.

Section at_most.
Context {V : Type} (c : V → V → comparison) `{!IndexOrder c}.

Lemma at_most_trans u v w : at_most c u v = true → at_most c v w = true → at_most c u w = true.
Proof.
  unfold at_most. intros H1 H2. pose proof (order_trans (c:=c) u v w).
  destruct (c u v), (c v w), (c u w); naive_solver.
Qed.

Lemma at_most_total u v : at_most c u v = true ∨ at_most c v u = true.
Proof. unfold at_most. rewrite (order_opp u v). destruct (c u v); naive_solver. Qed.
End at_most.

(** The leading key of an index order is monotone. *)
Lemma at_most_lead {V} (f : V → Z) (d : V → V → comparison) u v :
  at_most (then_by (by_key f Z.compare) d) u v = true → f u ≤ f v.
Proof. unfold at_most, then_by, by_key. destruct (Z.compare_spec (f u) (f v)); [lia|lia|done]. Qed.
