(* ===== verification/Kept.v ===== *)
(** Computations whose state survives a throw.

    Outside an undo session a C++ function that throws leaves the changes it has
    made; the object database and the fork database are modelled this way. *)

From S2P Require Import Prelude.

Definition K (S A : Type) : Type := S → result A * S.
#[export] Instance K_ret {S} : MRet (K S) := λ A a s, (Ok a, s).
#[export] Instance K_bind {S} : MBind (K S) :=
  λ A B f m s, match m s with (Ok a, s') => f a s' | (Err e, s') => (Err e, s') end.
Definition kget {S} : K S S := λ s, (Ok s, s).
Definition kupdate {S} (f : S → S) : K S unit := λ s, (Ok tt, f s).
Definition kthrow {S A} (e : exn) : K S A := λ s, (Err e, s).
Definition kassert {S} (c : bool) (msg : string) : K S unit := if c then mret tt else kthrow (assert_exception msg).
Definition ksome {S A} (x : option A) (e : exn) : K S A := match x with Some a => mret a | None => kthrow e end.
(** [try { m } catch( e ) ...]: the outcome of [m] as a value. *)
Definition ktry {S A} (m : K S A) : K S (result A) := λ s, let '(r, s') := m s in (Ok r, s').
Definition klift {S A} (r : result A) : K S A := λ s, (r, s).
Fixpoint keach {S A} (f : A → K S unit) (l : list A) : K S unit :=
  match l with
  | [] => mret tt
  | x :: l => f x ≫= λ _, keach f l
  end.

Lemma kbind_ok {S A B} (m : K S A) (f : A → K S B) s b s'' :
  (m ≫= f) s = (Ok b, s'') ↔ ∃ a s', m s = (Ok a, s') ∧ f a s' = (Ok b, s'').
Proof. unfold mbind, K_bind. destruct (m s) as [[a|e] s']; naive_solver. Qed.

Lemma kbind_intro {S A B} (m : K S A) (f : A → K S B) s a s' r :
  m s = (Ok a, s') → f a s' = r → (m ≫= f) s = r.
Proof. unfold mbind, K_bind. by intros -> <-. Qed.

Lemma keach_app {S A} (f : A → K S unit) l1 l2 s : keach f (l1 ++ l2) s = (keach f l1 ≫= λ _, keach f l2) s.
Proof.
  revert s. induction l1 as [|x l1 IH]; intros s; [done|]. cbn [keach app]. unfold mbind, K_bind in *.
  destruct (f x s) as [[u|e] s']; [apply IH|done].
Qed.

(** [R] relates the states before and after [m], whether it throws or not. *)
Definition kpreserves {S A} (R : S → S → Prop) (m : K S A) : Prop := ∀ s r s', m s = (r, s') → R s s'.

Section kpreserves.
Context {S : Type} (R : S → S → Prop) `{!PreOrder R}.
Lemma kpreserves_ret {A} (a : A) : kpreserves R (mret a).
Proof. intros s r s' [= <- <-]. done. Qed.
Lemma kpreserves_get : kpreserves R kget.
Proof. intros s r s' [= <- <-]. done. Qed.
Lemma kpreserves_throw {A} e : kpreserves R (kthrow (A:=A) e).
Proof. intros s r s' [= <- <-]. done. Qed.
Lemma kpreserves_assert c msg : kpreserves R (kassert c msg).
Proof. destruct c; [apply kpreserves_ret|apply kpreserves_throw]. Qed.
Lemma kpreserves_some {A} (x : option A) e : kpreserves R (ksome x e).
Proof. destruct x; [apply kpreserves_ret|apply kpreserves_throw]. Qed.
Lemma kpreserves_bind {A B} (m : K S A) (f : A → K S B) :
  kpreserves R m → (∀ a, kpreserves R (f a)) → kpreserves R (m ≫= f).
Proof.
  intros Hm Hf s r s'. unfold mbind, K_bind. destruct (m s) as [[a|e] s1] eqn:E; intros Hr.
  - etrans; [by eapply Hm|by eapply Hf].
  - injection Hr as <- <-. by eapply Hm.
Qed.
End kpreserves.
