(* ===== verification/Chainbase.v ===== *)
(** The object database: [chainbase/chainbase.hpp], [chainbase.cpp].

    A [generic_index] is a multi-index container of objects with an undo stack.
    The container is boost's and a parameter ([MultiIndex], with the documented
    behaviour of its operations as [MultiIndexLaws]); what chainbase adds, the
    ids, the undo states and the sessions, is modelled as written.  A throw
    keeps the changes made before it, so the computations here return the
    state beside the exception.

    [spec] is the abstract index: the objects, the next id and a stack of
    snapshots.  The theorems show that the undo states, which record only
    differences, implement it. *)

From S2P Require Import Prelude Kept.

(** * The multi-index container *)

(** Objects [V] with their id, containers [C].  Two objects clash when they have
    the same id or the same key in another unique index. *)
Class MultiIndex (V C : Type) := {
  object_id : V → Z;
  clash : V → V → bool;
  mi_objects : C → gmap Z V;
  mi_emplace : C → V → option C;
  mi_modify : C → Z → (V → V) → C * bool;
  mi_erase : C → Z → C;
}.

Section fits.
Context `{MultiIndex V C}.
(** [v] clashes with nothing in [m]. *)
Definition fits (m : gmap Z V) (v : V) : bool := bool_decide (map_Forall (λ _ w, clash w v = false) m).
End fits.

(** The documented behaviour: [emplace] inserts unless a uniqueness constraint is
    violated; [modify] of a contained object keeps the result unless it violates
    one, in which case the object is erased; [erase] removes. *)
Class MultiIndexLaws (V C : Type) `{MultiIndex V C} := {
  clash_sym : ∀ u v, clash u v = clash v u;
  clash_id : ∀ u v, object_id u = object_id v → clash u v = true;
  emplace_law : ∀ c v,
    match mi_emplace c v with
    | Some c' => fits (mi_objects c) v = true ∧ mi_objects c' = <[object_id v := v]> (mi_objects c)
    | None => fits (mi_objects c) v = false
    end;
  modify_law : ∀ c k v f c' ok, mi_objects c !! k = Some v → object_id (f v) = k →
    mi_modify c k f = (c', ok) →
    ok = fits (delete k (mi_objects c)) (f v) ∧
    mi_objects c' = (if ok then <[k := f v]> (mi_objects c) else delete k (mi_objects c));
  erase_law : ∀ c k, mi_objects (mi_erase c k) = delete k (mi_objects c);
}.

(** Iteration of a [std::map] or [std::set], in the order of the ids. *)
Definition id_le {A} (p q : Z * A) : Prop := p.1 ≤ q.1.
#[export] Instance id_le_dec {A} : RelDecision (@id_le A).
Proof. intros p q. unfold id_le. apply _. Defined.
Definition in_order {A} (m : gmap Z A) : list (Z * A) := merge_sort id_le (map_to_list m).
Definition ids_in_order (m : gset Z) : list Z := merge_sort Z.le (elements m).
(** [m.emplace( k, v )] of a [std::map]: no effect when the key is present. *)
Definition map_emplace {A} (k : Z) (v : A) (m : gmap Z A) : gmap Z A :=
  match m !! k with Some _ => m | None => <[k := v]> m end.

Lemma in_order_perm {A} (m : gmap Z A) : in_order m ≡ₚ map_to_list m.
Proof. apply merge_sort_Permutation. Qed.
Lemma ids_in_order_perm (m : gset Z) : ids_in_order m ≡ₚ elements m.
Proof. apply merge_sort_Permutation. Qed.

(** * The index *)

(** [undo_state], libraries/chainbase/include/chainbase/chainbase.hpp:126-148 *)
Record undo_state (V : Type) := UndoState {
  old_values : gmap Z V;
  removed_values : gmap Z V;
  new_ids : gset Z;
  old_next_id : Z;
  us_revision : Z;
}.
Arguments UndoState {V}.
Arguments old_values {V}.
Arguments removed_values {V}.
Arguments new_ids {V}.
Arguments old_next_id {V}.
Arguments us_revision {V}.

(** [generic_index], libraries/chainbase/include/chainbase/chainbase.hpp:524-534 *)
Record generic_index (V C : Type) := GenericIndex {
  stack : list (undo_state V);     (* the back of the deque first *)
  gi_revision : Z;
  gi_next_id : Z;
  indices : C;
}.
Arguments GenericIndex {V C}.
Arguments stack {V C}.
Arguments gi_revision {V C}.
Arguments gi_next_id {V C}.
Arguments indices {V C}.

Definition violated (what : string) : exn := logic_error what.

Section index.
Context `{MI : MultiIndex V C}.
Abbreviation index := (generic_index V C).
Abbreviation I := (K index).

Definition set_indices (c : C) (g : index) : index :=
  GenericIndex (stack g) (gi_revision g) (gi_next_id g) c.
Definition set_stack (l : list (undo_state V)) (g : index) : index :=
  GenericIndex l (gi_revision g) (gi_next_id g) (indices g).

(** [generic_index::enabled], libraries/chainbase/include/chainbase/chainbase.hpp:478 *)
Definition enabled (g : index) : bool := match stack g with [] => false | _ => true end.

(** Update the back of the stack. *)
Definition on_head (f : undo_state V → undo_state V) (g : index) : index :=
  match stack g with
  | [] => g
  | head :: l => set_stack (f head :: l) g
  end.

(** [generic_index::on_modify], libraries/chainbase/include/chainbase/chainbase.hpp:480-493 *)
Definition on_modify (v : V) (head : undo_state V) : undo_state V :=
  let 'UndoState old removed new next rev := head in
  if bool_decide (object_id v ∈ new) then head
  else match old !! object_id v with
  | Some _ => head
  | None => UndoState (map_emplace (object_id v) v old) removed new next rev
  end.

(** [generic_index::on_remove], libraries/chainbase/include/chainbase/chainbase.hpp:495-515 *)
Definition on_remove (v : V) (head : undo_state V) : undo_state V :=
  let 'UndoState old removed new next rev := head in
  if bool_decide (object_id v ∈ new) then UndoState old removed (new ∖ {[object_id v]}) next rev
  else match old !! object_id v with
  | Some w => UndoState (delete (object_id v) old) (map_emplace (object_id v) w removed) new next rev
  | None =>
      match removed !! object_id v with
      | Some _ => head
      | None => UndoState old (map_emplace (object_id v) v removed) new next rev
      end
  end.

(** [generic_index::on_create], libraries/chainbase/include/chainbase/chainbase.hpp:517-522 *)
Definition on_create (v : V) (head : undo_state V) : undo_state V :=
  let 'UndoState old removed new next rev := head in
  UndoState old removed ({[object_id v]} ∪ new) next rev.

(** [generic_index::emplace], libraries/chainbase/include/chainbase/chainbase.hpp:201-219 *)
Definition emplace (mk : Z → V) : I unit :=
  g ← kget;
  let v := mk (gi_next_id g) in
  match mi_emplace (indices g) v with
  | None => kthrow (violated "could not insert object, most likely a uniqueness constraint was violated")
  | Some c =>
      kupdate (λ g, GenericIndex (stack g) (gi_revision g) (gi_next_id g + 1) c);;
      kupdate (on_head (on_create v))
  end.

(** [generic_index::find], libraries/chainbase/include/chainbase/chainbase.hpp:233-238 *)
Definition gi_find (k : Z) : I (option V) := g ← kget; mret (mi_objects (indices g) !! k).
(** [generic_index::get], libraries/chainbase/include/chainbase/chainbase.hpp:240-245 *)
Definition gi_get (k : Z) : I V :=
  v ← gi_find k;
  match v with Some v => mret v | None => kthrow (out_of_range "key not found") end.

(** [generic_index::modify], libraries/chainbase/include/chainbase/chainbase.hpp:221-226 *)
Definition gi_modify (k : Z) (m : V → V) : I unit :=
  v ← gi_get k;
  kupdate (on_head (on_modify v));;
  g ← kget;
  let r := mi_modify (indices g) k m in
  kupdate (set_indices (fst r));;
  if (snd r : bool) then mret tt
  else kthrow (violated "Could not modify object, most likely a uniqueness constraint was violated").

(** [generic_index::remove], libraries/chainbase/include/chainbase/chainbase.hpp:228-231 *)
Definition gi_remove (k : Z) : I unit :=
  v ← gi_get k;
  kupdate (on_head (on_remove v));;
  kupdate (λ g, set_indices (mi_erase (indices g) k) g).

(** [generic_index::start_undo_session], libraries/chainbase/include/chainbase/chainbase.hpp:290-299 *)
Definition gi_start_undo_session : I unit :=
  kupdate (λ g,
    GenericIndex (UndoState ∅ ∅ ∅ (gi_next_id g) (gi_revision g + 1) :: stack g) (gi_revision g + 1)
      (gi_next_id g) (indices g)).

(** [generic_index::undo], libraries/chainbase/include/chainbase/chainbase.hpp:309-334 *)
Definition undo : I unit :=
  g ← kget;
  match stack g with
  | [] => mret tt
  | head :: _ =>
      keach (λ item,
        g ← kget;
        let r := mi_modify (indices g) (fst item) (λ _, snd item) in
        kupdate (set_indices (fst r));;
        if (snd r : bool) then mret tt
        else kthrow (violated "Could not modify object, most likely a uniqueness constraint was violated"))
        (in_order (old_values head));;
      keach (λ id, kupdate (λ g, set_indices (mi_erase (indices g) id) g)) (ids_in_order (new_ids head));;
      kupdate (λ g, GenericIndex (stack g) (gi_revision g) (old_next_id head) (indices g));;
      keach (λ item,
        g ← kget;
        match mi_emplace (indices g) (snd item) with
        | Some c => kupdate (set_indices c)
        | None => kthrow (violated "Could not restore object, most likely a uniqueness constraint was violated")
        end) (in_order (removed_values head));;
      kupdate (λ g, GenericIndex (tail (stack g)) (gi_revision g - 1) (gi_next_id g) (indices g))
  end.

(** The three loops of [squash] on the previous state. *)
Definition squash_old (item : Z * V) (prev : undo_state V) : undo_state V :=
  let 'UndoState old removed new next rev := prev in
  if bool_decide (fst item ∈ new) then prev
  else match old !! fst item with
  | Some _ => prev
  | None => UndoState (map_emplace (fst item) (snd item) old) removed new next rev
  end.
Definition squash_new (id : Z) (prev : undo_state V) : undo_state V :=
  let 'UndoState old removed new next rev := prev in UndoState old removed ({[id]} ∪ new) next rev.
Definition squash_removed (item : Z * V) (prev : undo_state V) : undo_state V :=
  let 'UndoState old removed new next rev := prev in
  if bool_decide (fst item ∈ new) then UndoState old removed (new ∖ {[fst item]}) next rev
  else match old !! fst item with
  | Some w => UndoState (delete (fst item) old) (map_emplace (fst item) w removed) new next rev
  | None => UndoState old (map_emplace (fst item) (snd item) removed) new next rev
  end.
Definition squash_states (state prev : undo_state V) : undo_state V :=
  foldl (λ p x, squash_removed x p)
    (foldl (λ p x, squash_new x p)
      (foldl (λ p x, squash_old x p) prev (in_order (old_values state)))
      (ids_in_order (new_ids state)))
    (in_order (removed_values state)).

(** [generic_index::squash], libraries/chainbase/include/chainbase/chainbase.hpp:342-442 *)
Definition squash : I unit :=
  kupdate (λ g,
    match stack g with
    | [] => g
    | [_] => set_stack [] g
    | state :: prev :: l =>
        GenericIndex (squash_states state prev :: l) (gi_revision g - 1) (gi_next_id g) (indices g)
    end).

(** The loop of [commit], on the deque front first. *)
Fixpoint pop_front_while (revision : Z) (l : list (undo_state V)) : list (undo_state V) :=
  match l with
  | [] => []
  | st :: l' => if us_revision st <=? revision then pop_front_while revision l' else l
  end.
(** [generic_index::commit], libraries/chainbase/include/chainbase/chainbase.hpp:447-453 *)
Definition commit (revision : Z) : I unit :=
  kupdate (λ g, set_stack (reverse (pop_front_while revision (reverse (stack g)))) g).

(** The loop of [undo_all]; [fuel] is the size of the stack, which every round shrinks. *)
Fixpoint undo_all_from (fuel : nat) : I unit :=
  match fuel with
  | O => mret tt
  | S fuel => g ← kget; if enabled g then undo;; undo_all_from fuel else mret tt
  end.
(** [generic_index::undo_all], libraries/chainbase/include/chainbase/chainbase.hpp:458-462 *)
Definition undo_all : I unit := g ← kget; undo_all_from (length (stack g)).

(** [generic_index::set_revision], libraries/chainbase/include/chainbase/chainbase.hpp:464-468 *)
Definition set_revision (revision : Z) : I unit :=
  g ← kget;
  match stack g with
  | [] => kupdate (λ g, GenericIndex (stack g) revision (gi_next_id g) (indices g))
  | _ => kthrow (logic_error "cannot set revision while there is an existing undo stack")
  end.

(** [generic_index::remove_object], libraries/chainbase/include/chainbase/chainbase.hpp:470-475 *)
Definition remove_object (id : Z) : I unit :=
  val ← gi_find id;
  match val with
  | None => kthrow (out_of_range "id")
  | Some _ => gi_remove id
  end.
End index.

(** Run a computation of known operations. *)
Ltac run_k H :=
  unfold mbind, K_bind, mret, K_ret, kget, kupdate, kthrow in H; cbv beta iota zeta in H;
  cbn [fst snd stack gi_revision gi_next_id indices set_stack set_indices] in H.

(** * What an undo state stands for *)

Section rewind.
Context `{MI : MultiIndex V C} {ML : MultiIndexLaws V C}.
Implicit Types (st prev : undo_state V) (m : gmap Z V) (j : Z).

(** The objects before the session, from those now. *)
Definition rewind st m : gmap Z V :=
  removed_values st ∪ (old_values st ∪ filter (λ p, p.1 ∉ new_ids st) m).

Arguments rewind : simpl never.

(** What an undo state says of one id: the old value, the removed value, and
    whether it is new. *)
Definition at_id j st : option V * option V * bool :=
  (old_values st !! j, removed_values st !! j, bool_decide (j ∈ new_ids st)).
Arguments at_id : simpl never.
Definition rewind_at (e : option V * option V * bool) (cur : option V) : option V :=
  let '(o, r, n) := e in
  match r with
  | Some x => Some x
  | None => match o with Some x => Some x | None => if n then None else cur end
  end.
(** The entry is consistent with the current object [cur]. *)
Definition entry_ok (e : option V * option V * bool) (cur : option V) : Prop :=
  match e with
  | (None, None, true) => is_Some cur
  | (Some _, None, false) => is_Some cur
  | (None, Some _, false) => cur = None
  | (None, None, false) => True
  | _ => False
  end.
(** The same unique keys, apart from the id. *)
Definition same_keys (v w : V) : Prop := ∀ x, clash v x = clash w x.
Definition entry_stable (e : option V * option V * bool) (cur : option V) : Prop :=
  match e, cur with
  | (Some x, _, _), Some w => same_keys x w
  | _, _ => True
  end.

Lemma lookup_rewind st m j : rewind st m !! j = rewind_at (at_id j st) (m !! j).
Proof.
  unfold rewind, rewind_at, at_id. rewrite lookup_union.
  destruct (removed_values st !! j) eqn:Er; [by rewrite union_Some_l|]. rewrite option_union_left_id, lookup_union.
  destruct (old_values st !! j) eqn:Eo; [by rewrite union_Some_l|]. rewrite option_union_left_id, map_lookup_filter.
  destruct (m !! j) as [v|]; cbn; case_bool_decide; try done; case_guard; done.
Qed.

(** Distinct objects do not clash. *)
Definition distinct m : Prop :=
  ∀ j k v w, j ≠ k → m !! j = Some v → m !! k = Some w → clash v w = false.
Record contents_ok m (next : Z) : Prop := {
  co_id : ∀ j v, m !! j = Some v → object_id v = j ∧ j < next;
  co_distinct : distinct m;
}.
Record undo_ok st m : Prop := {
  uo_entry : ∀ j, entry_ok (at_id j st) (m !! j);
  uo_new : ∀ j, j ∈ new_ids st → old_next_id st ≤ j;
}.
Fixpoint stack_ok (l : list (undo_state V)) m (next rev : Z) : Prop :=
  match l with
  | [] => True
  | st :: l =>
      undo_ok st m ∧ contents_ok (rewind st m) (old_next_id st) ∧ old_next_id st ≤ next ∧
      us_revision st = rev ∧ stack_ok l (rewind st m) (old_next_id st) (rev - 1)
  end.
Fixpoint stack_stable (l : list (undo_state V)) m : Prop :=
  match l with
  | [] => True
  | st :: l => (∀ j, entry_stable (at_id j st) (m !! j)) ∧ stack_stable l (rewind st m)
  end.
Definition index_ok (g : generic_index V C) : Prop :=
  contents_ok (mi_objects (indices g)) (gi_next_id g) ∧
  stack_ok (stack g) (mi_objects (indices g)) (gi_next_id g) (gi_revision g).
(** No object has changed its unique keys since it was recorded. *)
Definition keys_stable (g : generic_index V C) : Prop :=
  stack_stable (stack g) (mi_objects (indices g)).

(** ** The abstract index *)

Record spec := Spec {
  sp_now : gmap Z V;
  sp_next : Z;
  sp_rev : Z;
  sp_saved : list (gmap Z V * Z);      (* the latest snapshot first *)
}.
Fixpoint snapshots (l : list (undo_state V)) m : list (gmap Z V * Z) :=
  match l with
  | [] => []
  | st :: l => (rewind st m, old_next_id st) :: snapshots l (rewind st m)
  end.
Definition abs (g : generic_index V C) : spec :=
  Spec (mi_objects (indices g)) (gi_next_id g) (gi_revision g) (snapshots (stack g) (mi_objects (indices g))).

(** The operations of an index; [mk] constructs an object from its id. *)
Inductive index_op :=
| op_emplace (mk : Z → V)
| op_modify (k : Z) (f : V → V)
| op_remove (k : Z)
| op_start
| op_undo
| op_squash
| op_commit (revision : Z)
| op_undo_all
| op_set_revision (revision : Z).

(** Constructors and modifiers leave the id alone. *)
Definition op_ok (op : index_op) : Prop :=
  match op with
  | op_emplace mk => ∀ n, object_id (mk n) = n
  | op_modify _ f => ∀ v, object_id (f v) = object_id v
  | _ => True
  end.
(** Modifiers leave the other unique keys alone. *)
Definition op_stable (op : index_op) : Prop :=
  match op with op_modify _ f => ∀ v, same_keys v (f v) | _ => True end.

Definition spec_undo (a : spec) : spec :=
  match sp_saved a with
  | [] => a
  | (m, n) :: l => Spec m n (sp_rev a - 1) l
  end.
(** [None] is a throw. *)
Definition spec_op (op : index_op) (a : spec) : option spec :=
  let 'Spec m n r l := a in
  match op with
  | op_emplace mk =>
      if fits m (mk n) then Some (Spec (<[n := mk n]> m) (n + 1) r l) else None
  | op_modify k f =>
      v ← m !! k;
      if fits (delete k m) (f v) then Some (Spec (<[k := f v]> m) n r l) else None
  | op_remove k => v ← m !! k; Some (Spec (delete k m) n r l)
  | op_start => Some (Spec m n (r + 1) ((m, n) :: l))
  | op_undo => Some (spec_undo a)
  | op_squash =>
      Some (match l with [] => a | [_] => Spec m n r [] | _ :: l => Spec m n (r - 1) l end)
  | op_commit revision => Some (Spec m n r (take (Z.to_nat (r - revision)) l))
  | op_undo_all => Some (Nat.iter (length l) spec_undo a)
  | op_set_revision revision => match l with [] => Some (Spec m n revision []) | _ => None end
  end.
Definition run_op (op : index_op) : K (generic_index V C) unit :=
  match op with
  | op_emplace mk => emplace mk
  | op_modify k f => gi_modify k f
  | op_remove k => gi_remove k
  | op_start => gi_start_undo_session
  | op_undo => undo
  | op_squash => squash
  | op_commit revision => commit revision
  | op_undo_all => undo_all
  | op_set_revision revision => set_revision revision
  end.

(** ** Recording a change *)

Lemma stack_ok_next l m next next' rev : stack_ok l m next rev → next ≤ next' → stack_ok l m next' rev.
Proof. destruct l as [|st l]; cbn; [done|]. intros (? & ? & ? & ? & ?) ?. split_and!; try done. lia. Qed.

(** A change of the object [k] that [f] records keeps the stack and the snapshots. *)
Lemma record_change f k (l : list (undo_state V)) m m' next rev :
  (∀ j, j ≠ k → m' !! j = m !! j) →
  (∀ st j, j ≠ k → at_id j (f st) = at_id j st) →
  (∀ st, old_next_id (f st) = old_next_id st ∧ us_revision (f st) = us_revision st) →
  (∀ st, undo_ok st m → contents_ok (rewind st m) (old_next_id st) → old_next_id st ≤ next →
     entry_ok (at_id k (f st)) (m' !! k) ∧
     rewind_at (at_id k (f st)) (m' !! k) = rewind_at (at_id k st) (m !! k) ∧
     (k ∈ new_ids (f st) → old_next_id st ≤ k)) →
  stack_ok l m next rev →
  let l' := match l with [] => [] | st :: l => f st :: l end in
  stack_ok l' m' next rev ∧ snapshots l' m' = snapshots l m ∧
  ((∀ st, undo_ok st m → entry_stable (at_id k st) (m !! k) → entry_stable (at_id k (f st)) (m' !! k)) →
   stack_stable l m → stack_stable l' m').
Proof.
  intros Hm Hf Hnr Hk. destruct l as [|st l]; cbn; [done|]. intros (Hu & Hc & Hn & Hr & Hl).
  destruct (Hnr st) as [-> ->]. destruct (Hk st Hu Hc Hn) as (He & Hrew & Hnew).
  assert (rewind (f st) m' = rewind st m) as ->.
  { apply map_eq. intros j. rewrite !lookup_rewind. destruct (decide (j = k)) as [->|Hj]; [done|].
    by rewrite Hf, Hm. }
  split; [|split; [done|]].
  - split; [|done]. split.
    + intros j. destruct (decide (j = k)) as [->|Hj]; [done|]. rewrite Hf, Hm by done. apply Hu.
    + intros j Hj. destruct (Hnr st) as [-> _]. destruct (decide (j = k)) as [->|Hjk]; [by apply Hnew|].
      apply (uo_new _ _ Hu). pose proof (Hf st j Hjk) as E. unfold at_id in E. injection E as _ _ E.
      rewrite (bool_decide_eq_true_2 _ Hj) in E. symmetry in E. by apply bool_decide_eq_true in E.
  - intros Hst [H1 H2]. split; [|done]. intros j. destruct (decide (j = k)) as [->|Hj]; [apply Hst; [done|apply H1]|].
    rewrite Hf, Hm by done. apply H1.
Qed.

(** The entries the three hooks leave, of other ids and of their own. *)
Lemma lookup_map_emplace {A} k (v : A) (m : gmap Z A) j :
  map_emplace k v m !! j = if decide (k = j) then Some (default v (m !! j)) else m !! j.
Proof.
  unfold map_emplace. case_decide as Hj; [subst j|].
  - destruct (m !! k) eqn:E; cbn; [done|]. by rewrite lookup_insert_eq.
  - destruct (m !! k); [done|]. by rewrite lookup_insert_ne.
Qed.

Ltac entries :=
  repeat match goal with
  | |- context [map_emplace ?k ?v ?m !! ?j] => rewrite (lookup_map_emplace k v m j)
  | |- context [delete ?k ?m !! ?k] => rewrite (lookup_delete_eq m k)
  | |- context [decide (?k = ?k)] => rewrite (decide_True (P := k = k)) by done
  | H : ?j ≠ ?k |- context [decide (?k = ?j)] => rewrite (decide_False (P := k = j)) by congruence
  | H : ?j ≠ ?k |- context [delete ?k ?m !! ?j] => rewrite (lookup_delete_ne m k j) by congruence
  end.

Lemma at_id_on_create v st j :
  at_id j (on_create v st) = let '(o, r, n) := at_id j st in (o, r, n || bool_decide (j = object_id v)).
Proof.
  destruct st; unfold at_id; cbn. f_equal. rewrite <- (bool_decide_or (j ∈ new_ids0)).
  apply bool_decide_ext. set_solver.
Qed.
Lemma at_id_on_modify v st j :
  at_id j (on_modify v st) =
    if decide (object_id v = j) then
      match at_id j st with (None, r, false) => (Some v, r, false) | e => e end
    else at_id j st.
Proof.
  destruct st as [old removed new next rev]; unfold at_id; cbn [on_modify old_values removed_values new_ids].
  case_decide as Hj; [subst j|].
  - destruct (bool_decide (object_id v ∈ new)) eqn:Hn, (old !! object_id v) eqn:Ho;
      cbn [old_values removed_values new_ids]; rewrite ?Hn, ?Ho; entries; by rewrite ?Ho.
  - destruct (bool_decide (object_id v ∈ new)), (old !! object_id v); cbn [old_values removed_values new_ids]; try done.
    by rewrite lookup_map_emplace, decide_False.
Qed.
Lemma at_id_on_remove v st j :
  at_id j (on_remove v st) =
    if decide (object_id v = j) then
      match at_id j st with
      | (o, r, true) => (o, r, false)
      | (Some w, r, false) => (None, Some (default w r), false)
      | (None, None, false) => (None, Some v, false)
      | e => e
      end
    else at_id j st.
Proof.
  destruct st as [old removed new next rev]; unfold at_id; cbn [on_remove old_values removed_values new_ids].
  case_decide as Hj; [subst j|].
  - destruct (bool_decide (object_id v ∈ new)) eqn:Hn, (old !! object_id v) eqn:Ho, (removed !! object_id v) eqn:Hr;
      cbn [old_values removed_values new_ids]; rewrite ?Hn, ?Ho, ?Hr; entries; rewrite ?Ho, ?Hr; try done;
      by rewrite bool_decide_eq_false_2 by set_solver.
  - assert (bool_decide (j ∈ new ∖ {[object_id v]}) = bool_decide (j ∈ new)) as En by (apply bool_decide_ext; set_solver).
    destruct (bool_decide (object_id v ∈ new)), (old !! object_id v), (removed !! object_id v);
      cbn [old_values removed_values new_ids]; rewrite ?En, ?lookup_delete_ne, ?lookup_map_emplace, ?decide_False; done.
Qed.

(** ** The operations on objects *)

Lemma fits_spec m v : fits m v = true ↔ ∀ k w, m !! k = Some w → clash w v = false.
Proof. unfold fits. rewrite bool_decide_eq_true. done. Qed.

Lemma fits_submap m m' v : m ⊆ m' → fits m' v = true → fits m v = true.
Proof. rewrite !fits_spec. intros Hs Hf k w Hk. apply (Hf k). by eapply lookup_weaken. Qed.

Lemma fits_fresh m v : fits m v = true → contents_ok m (object_id v) → m !! object_id v = None.
Proof.
  intros _ Hc. destruct (m !! object_id v) as [w|] eqn:E; [|done]. apply (co_id _ _ Hc) in E as [? ?]. lia.
Qed.

Lemma contents_ok_insert m next next' v :
  contents_ok m next → fits (delete (object_id v) m) v = true → object_id v < next' → next ≤ next' →
  contents_ok (<[object_id v := v]> m) next'.
Proof.
  intros [Hid Hd] Hf Hv Hn. rewrite fits_spec in Hf. split.
  - intros j w [[<- <-]|[_ Hj]]%lookup_insert_Some; [done|]. apply Hid in Hj. lia.
  - intros j k w x Hne Hj Hk. rewrite lookup_insert_Some in Hj. rewrite lookup_insert_Some in Hk.
    destruct Hj as [[? ?]|[? Hj]], Hk as [[? ?]|[? Hk]]; subst; [done| | |exact (Hd _ _ _ _ Hne Hj Hk)].
    + rewrite clash_sym. apply (Hf k). by rewrite lookup_delete_ne.
    + apply (Hf j). by rewrite lookup_delete_ne.
Qed.

Lemma contents_ok_submap m m' next : contents_ok m next → m' ⊆ m → contents_ok m' next.
Proof.
  intros [Hid Hd] Hs. split.
  - intros j v Hj. apply Hid. by eapply lookup_weaken.
  - intros j k v w Hne Hj Hk. apply (Hd j k); [done|by eapply lookup_weaken..].
Qed.

Lemma on_head_eq f (g : generic_index V C) :
  on_head f g = set_stack (match stack g with [] => [] | st :: l => f st :: l end) g.
Proof. destruct g as [[|st l] ???]; done. Qed.

Lemma emplace_step mk g g' :
  index_ok g → (∀ n, object_id (mk n) = n) → emplace mk g = (Ok tt, g') →
  index_ok g' ∧ spec_op (op_emplace mk) (abs g) = Some (abs g') ∧ (keys_stable g → keys_stable g').
Proof.
  intros [Hc Hs] Hmk Hr. unfold emplace in Hr. run_k Hr. set (n := gi_next_id g) in *.
  pose proof (emplace_law (indices g) (mk n)) as Hl.
  destruct (mi_emplace (indices g) (mk n)) as [c|]; [|done]. destruct Hl as [Hf Ho]. rewrite Hmk in Ho.
  injection Hr as <-. rewrite on_head_eq. set (m := mi_objects (indices g)) in *.
  destruct (record_change (on_create (mk n)) n (stack g) m (mi_objects c) n (gi_revision g)) as (Hs' & Hsn & Hst).
  - intros j Hj. by rewrite Ho, lookup_insert_ne.
  - intros st j Hj. rewrite at_id_on_create, Hmk, bool_decide_eq_false_2 by done.
    destruct (at_id j st) as [[??]?]. by rewrite orb_false_r.
  - by intros [].
  - intros st Hu Hcr Hle. rewrite at_id_on_create, Hmk, bool_decide_eq_true_2 by done.
    pose proof (lookup_rewind st m n) as Hrw. pose proof (uo_entry _ _ Hu n) as He.
    assert (m !! n = None) as Hn by (rewrite <- (Hmk n); apply fits_fresh; rewrite ?Hmk; done).
    assert (rewind st m !! n = None) as Hrn.
    { destruct (rewind st m !! n) eqn:E; [|done]. apply (co_id _ _ Hcr) in E. lia. }
    rewrite Hrn, Hn in *. rewrite Ho, lookup_insert_eq. destruct (at_id n st) as [[[?|] [?|]] []]; cbn in *; try done;
      (split; [done|split; [done|]]); intros _; done.
  - done.
  - cbn in *. split.
    + split; cbn; [rewrite Ho, <- (Hmk n) at 1; apply (contents_ok_insert _ n); [done| |rewrite Hmk; lia|lia]|].
      * eapply fits_submap; [|exact Hf]. apply delete_subseteq.
      * eapply stack_ok_next; [exact Hs'|lia].
    + fold n m. rewrite Hf. unfold abs, keys_stable. cbn. rewrite Hsn, Ho. split; [done|].
      rewrite <- Ho. apply Hst. intros st Hu. rewrite at_id_on_create.
      assert (m !! n = None) as Hn by (rewrite <- (Hmk n); apply fits_fresh; rewrite ?Hmk; done).
      pose proof (uo_entry _ _ Hu n) as He. rewrite Hn in He.
      destruct (at_id n st) as [[[?|] [?|]] []]; cbn in *; try done; by destruct He.
Qed.

Lemma modify_step k f g g' :
  index_ok g → (∀ v, object_id (f v) = object_id v) → gi_modify k f g = (Ok tt, g') →
  index_ok g' ∧ spec_op (op_modify k f) (abs g) = Some (abs g') ∧
  ((∀ v, same_keys v (f v)) → keys_stable g → keys_stable g').
Proof.
  intros [Hc Hs] Hf Hr. unfold gi_modify, gi_get, gi_find in Hr. run_k Hr. set (m := mi_objects (indices g)) in *.
  destruct (m !! k) as [v|] eqn:Hk; [|done]. rewrite on_head_eq in Hr. cbn in Hr.
  destruct (co_id _ _ Hc _ _ Hk) as [Hv Hlt].
  destruct (mi_modify (indices g) k f) as [c ok] eqn:Hm. cbn in Hr.
  apply (modify_law _ _ v) in Hm as [Eok Ho]; [|done|by rewrite Hf]. destruct ok; [|done]. injection Hr as <-.
  symmetry in Eok. fold m in Eok, Ho.
  destruct (record_change (on_modify v) k (stack g) m (mi_objects c) (gi_next_id g) (gi_revision g)) as (Hs' & Hsn & Hst).
  - intros j Hj. by rewrite Ho, lookup_insert_ne.
  - intros st j Hj. by rewrite at_id_on_modify, decide_False by congruence.
  - intros [??? ??]. cbn. by repeat case_match.
  - intros st Hu Hcr Hle. rewrite at_id_on_modify, decide_True by done.
    pose proof (uo_entry _ _ Hu k) as He. rewrite Hk in He |- *. rewrite Ho, lookup_insert_eq.
    pose proof (uo_new _ _ Hu k) as Hn. destruct st as [old removed new next rev]. unfold at_id in *. cbn in *.
    destruct (old !! object_id v), (removed !! k), (bool_decide (k ∈ new)) eqn:Eb, (old !! k) eqn:Eo; cbn in *; try done;
      repeat split; try done; intros Hin; repeat case_match; apply Hn; exact Hin.
  - done.
  - cbn in *. split.
    + split; cbn; [|done]. rewrite Ho. replace (<[k := f v]> m) with (<[object_id (f v) := f v]> m) by (by rewrite Hf, Hv).
      by apply (contents_ok_insert _ (gi_next_id g)); rewrite ?Hf, ?Hv.
    + fold m. rewrite Hk. cbn. rewrite Eok. unfold abs, keys_stable. cbn. rewrite Hsn, Ho. split; [done|].
      intros Hkeys. rewrite <- Ho. apply Hst. intros st Hu. rewrite at_id_on_modify, decide_True by done.
      rewrite Ho, lookup_insert_eq, Hk. destruct (at_id k st) as [[[x|] r] []]; cbn; try done;
        intros Hx y; by rewrite <- (Hkeys v).
Qed.

Lemma remove_step k g g' :
  index_ok g → gi_remove k g = (Ok tt, g') →
  index_ok g' ∧ spec_op (op_remove k) (abs g) = Some (abs g') ∧ (keys_stable g → keys_stable g').
Proof.
  intros [Hc Hs] Hr. unfold gi_remove, gi_get, gi_find in Hr. run_k Hr. set (m := mi_objects (indices g)) in *.
  destruct (m !! k) as [v|] eqn:Hk; [|done]. rewrite on_head_eq in Hr. injection Hr as <-.
  destruct (co_id _ _ Hc _ _ Hk) as [Hv Hlt]. pose proof (erase_law (indices g) k) as Ho. fold m in Ho.
  destruct (record_change (on_remove v) k (stack g) m (mi_objects (mi_erase (indices g) k)) (gi_next_id g) (gi_revision g)) as (Hs' & Hsn & Hst).
  - intros j Hj. by rewrite Ho, lookup_delete_ne.
  - intros st j Hj. by rewrite at_id_on_remove, decide_False by congruence.
  - intros [??? ??]. cbn. by repeat case_match.
  - intros st Hu Hcr Hle. rewrite at_id_on_remove, decide_True by done.
    pose proof (uo_entry _ _ Hu k) as He. rewrite Hk in He |- *. rewrite Ho, lookup_delete_eq.
    pose proof (uo_new _ _ Hu k) as Hn. split; [|split].
    1, 2: by destruct (at_id k st) as [[[?|] [?|]] []]; cbn in *.
    intros Hin. apply Hn. destruct st as [old removed new next rev]. cbn in *. repeat case_match; set_solver.
  - done.
  - cbn in *. split.
    + split; cbn; [|done]. rewrite Ho. eapply contents_ok_submap; [done|apply delete_subseteq].
    + fold m. rewrite Hk. cbn. unfold abs, keys_stable. cbn. rewrite Hsn, Ho. split; [done|].
      rewrite <- Ho. apply Hst. intros st Hu _. rewrite Ho, lookup_delete_eq.
      by destruct (at_id k (on_remove v st)) as [[[?|] ?] ?].
Qed.

(** ** Undo *)

Lemma rewind_fresh m next rev : rewind (UndoState ∅ ∅ ∅ next rev) m = m.
Proof. apply map_eq. intros j. rewrite lookup_rewind. unfold at_id, rewind_at. cbn. by rewrite !lookup_empty. Qed.

Lemma start_step g g' :
  index_ok g → gi_start_undo_session g = (Ok tt, g') →
  index_ok g' ∧ spec_op op_start (abs g) = Some (abs g') ∧ (keys_stable g → keys_stable g').
Proof.
  unfold gi_start_undo_session, kupdate. intros [Hc Hs] Hr. injection Hr as <-. unfold abs, keys_stable; cbn.
  rewrite rewind_fresh. split; [|done]. split; [done|]. cbn.
  rewrite rewind_fresh. replace (gi_revision g + 1 - 1) with (gi_revision g) by lia. split_and!; try done.
Qed.

(** The loops of [undo], when none of them throws. *)
Lemma undo_modifies l : ∀ g g' : generic_index V C,
  NoDup l.*1 → (∀ i x, (i, x) ∈ l → object_id x = i ∧ is_Some (mi_objects (indices g) !! i)) →
  keach (λ item,
    g ← kget;
    let r := mi_modify (indices g) (fst item) (λ _, snd item) in
    kupdate (set_indices (fst r));;
    if (snd r : bool) then mret tt
    else kthrow (violated "Could not modify object, most likely a uniqueness constraint was violated")) l g
  = (Ok tt, g') →
  g' = set_indices (indices g') g ∧ mi_objects (indices g') = list_to_map l ∪ mi_objects (indices g).
Proof.
  induction l as [|[i x] l IH]; intros g g' Hnd Hin Hr.
  - injection Hr as <-. destruct g; cbn. by rewrite map_empty_union.
  - cbn [keach] in Hr. cbn in Hnd. apply NoDup_cons in Hnd as [Hi Hnd].
    destruct (Hin i x) as [Hx [w Hw]]; [by left|]. apply kbind_ok in Hr as (u & g1 & H1 & Hr). run_k H1.
    destruct (mi_modify (indices g) i (λ _, x)) as [c ok] eqn:Hm. cbn in H1. destruct ok; [|done]. injection H1 as _ <-.
    apply (modify_law _ _ w) in Hm as [_ Ho]; [|done..]. apply IH in Hr as [Hg Ho']; [|done|].
    + split; [rewrite Hg; by destruct g|]. rewrite Ho'. cbn. rewrite Ho.
      rewrite <- insert_union_r by (by apply not_elem_of_list_to_map_1). by rewrite insert_union_l.
    + intros j y Hj. destruct (Hin j y) as [? Hs]; [by right|]. split; [done|]. cbn. rewrite Ho.
      destruct (decide (i = j)) as [->|]; [rewrite lookup_insert_eq; eauto|by rewrite lookup_insert_ne].
Qed.

Lemma undo_erases l : ∀ g g' : generic_index V C,
  keach (λ id, kupdate (λ g, set_indices (mi_erase (indices g) id) g)) l g = (Ok tt, g') →
  g' = set_indices (indices g') g ∧
  mi_objects (indices g') = filter (λ p, p.1 ∉ l) (mi_objects (indices g)).
Proof.
  induction l as [|i l IH]; intros g g' Hr.
  - injection Hr as <-. destruct g; cbn. split; [done|]. symmetry. apply map_filter_id. set_solver.
  - cbn [keach] in Hr. apply kbind_ok in Hr as (u & g1 & H1 & Hr). injection H1 as _ <-.
    apply IH in Hr as [Hg Ho]. split; [rewrite Hg; by destruct g|]. rewrite Ho. cbn. rewrite erase_law.
    apply map_eq. intros j. rewrite !map_lookup_filter. destruct (decide (i = j)) as [->|Hj].
    + rewrite lookup_delete_eq. cbn. destruct (_ !! j); cbn; [|done]. case_guard; [set_solver|done].
    + rewrite lookup_delete_ne by done. destruct (_ !! j); cbn; [|done]. repeat case_guard; set_solver.
Qed.

Lemma undo_restores l : ∀ g g' : generic_index V C,
  NoDup l.*1 → (∀ i x, (i, x) ∈ l → object_id x = i) →
  keach (λ item,
    g ← kget;
    match mi_emplace (indices g) (snd item) with
    | Some c => kupdate (set_indices c)
    | None => kthrow (violated "Could not restore object, most likely a uniqueness constraint was violated")
    end) l g = (Ok tt, g') →
  g' = set_indices (indices g') g ∧ mi_objects (indices g') = list_to_map l ∪ mi_objects (indices g).
Proof.
  induction l as [|[i x] l IH]; intros g g' Hnd Hin Hr.
  - injection Hr as <-. destruct g; cbn. by rewrite map_empty_union.
  - cbn [keach] in Hr. cbn in Hnd. apply NoDup_cons in Hnd as [Hi Hnd].
    pose proof (Hin i x ltac:(by left)) as Hx. apply kbind_ok in Hr as (u & g1 & H1 & Hr). run_k H1.
    pose proof (emplace_law (indices g) x) as Hl. destruct (mi_emplace (indices g) x) as [c|]; [|done].
    injection H1 as _ <-. destruct Hl as [_ Ho]. apply IH in Hr as [Hg Ho']; [|done|].
    + split; [rewrite Hg; by destruct g|]. rewrite Ho'. cbn. rewrite Ho, Hx.
      rewrite <- insert_union_r by (by apply not_elem_of_list_to_map_1). by rewrite insert_union_l.
    + intros j y Hj. apply Hin. by right.
Qed.

Lemma in_order_nodup {A} (m : gmap Z A) : NoDup (in_order m).*1.
Proof. rewrite in_order_perm. apply NoDup_fst_map_to_list. Qed.
Lemma in_order_elem {A} (m : gmap Z A) i x : (i, x) ∈ in_order m ↔ m !! i = Some x.
Proof. rewrite in_order_perm. apply elem_of_map_to_list. Qed.
Lemma in_order_map {A} (m : gmap Z A) : list_to_map (in_order m) = m.
Proof.
  rewrite <- (list_to_map_to_list m) at 2. apply list_to_map_proper; [apply in_order_nodup|apply in_order_perm].
Qed.

(** What the entries of a consistent undo state say. *)
Lemma undo_ok_old st m j x : undo_ok st m → old_values st !! j = Some x →
  is_Some (m !! j) ∧ removed_values st !! j = None ∧ j ∉ new_ids st.
Proof.
  intros Hu Ho. pose proof (uo_entry _ _ Hu j) as He. unfold at_id in He. rewrite Ho in He.
  destruct (removed_values st !! j); [done|]. case_bool_decide; done.
Qed.
Lemma undo_ok_removed st m j x : undo_ok st m → removed_values st !! j = Some x →
  m !! j = None ∧ old_values st !! j = None ∧ j ∉ new_ids st.
Proof.
  intros Hu Ho. pose proof (uo_entry _ _ Hu j) as He. unfold at_id in He. rewrite Ho in He.
  destruct (old_values st !! j); [by case_bool_decide|]. case_bool_decide; done.
Qed.

(** The objects a session changed or removed kept their ids. *)
Lemma rewind_ids st m j x :
  undo_ok st m → contents_ok (rewind st m) (old_next_id st) →
  old_values st !! j = Some x ∨ removed_values st !! j = Some x → object_id x = j ∧ rewind st m !! j = Some x.
Proof.
  intros Hu Hc Hx. assert (rewind st m !! j = Some x) as Hj; [|by destruct (co_id _ _ Hc _ _ Hj)].
  rewrite lookup_rewind. unfold at_id. destruct Hx as [Hx|Hx].
  - destruct (undo_ok_old _ _ _ _ Hu Hx) as (_ & -> & _). by rewrite Hx.
  - by rewrite Hx.
Qed.

Lemma rewind_as_loops st m :
  undo_ok st m → removed_values st ∪ filter (λ p, p.1 ∉ ids_in_order (new_ids st)) (old_values st ∪ m) = rewind st m.
Proof.
  intros Hu. apply map_eq. intros j. rewrite lookup_union, map_lookup_filter, lookup_union, lookup_rewind.
  pose proof (undo_ok_old st m j) as Hold. unfold at_id, rewind_at.
  assert (j ∈ ids_in_order (new_ids st) ↔ j ∈ new_ids st) as Hj by (rewrite ids_in_order_perm; set_solver).
  destruct (removed_values st !! j); [by rewrite union_Some_l|]. rewrite option_union_left_id.
  destruct (old_values st !! j) as [x|].
  - destruct (Hold _ Hu eq_refl) as (_ & _ & Hn). rewrite union_Some_l. cbn. case_guard; [done|tauto].
  - rewrite option_union_left_id. destruct (m !! j); cbn; case_bool_decide; try done; case_guard as Hg;
      cbn in Hg; try done; exfalso; tauto.
Qed.

Lemma undo_step g g' :
  index_ok g → undo g = (Ok tt, g') →
  index_ok g' ∧ spec_op op_undo (abs g) = Some (abs g') ∧ (keys_stable g → keys_stable g').
Proof.
  intros [Hc Hs] Hr. unfold undo in Hr. apply kbind_ok in Hr as (g0 & ? & [= <- <-] & Hr).
  unfold abs, keys_stable; cbn. destruct (stack g) as [|st l] eqn:Est.
  { injection Hr as <-. cbn. rewrite Est. split; [|done]. split; [done|]. by rewrite Est. }
  cbn in Hs. destruct Hs as (Hu & Hcr & Hn & Hrev & Hl).
  apply kbind_ok in Hr as ([] & g1 & H1 & Hr). apply undo_modifies in H1 as [E1 O1];
    [|apply in_order_nodup|intros i x Hi%in_order_elem].
  2:{ destruct (rewind_ids _ _ i x Hu Hcr) as [? _]; [by left|].
      by destruct (undo_ok_old _ _ _ _ Hu Hi). }
  apply kbind_ok in Hr as ([] & g2 & H2 & Hr). apply undo_erases in H2 as [E2 O2].
  apply kbind_ok in Hr as ([] & g3 & [= <-] & Hr).
  apply kbind_ok in Hr as ([] & g4 & H4 & Hr). apply undo_restores in H4 as [E4 O4];
    [|apply in_order_nodup|intros i x Hi%in_order_elem].
  2:{ destruct (rewind_ids _ _ i x Hu Hcr) as [? _]; [by right|done]. }
  injection Hr as <-. rewrite E4, E2, E1. cbn. rewrite Est. cbn.
  cbn in O4. rewrite O2, O1, !in_order_map, rewind_as_loops in O4 by done.
  rewrite O4. split; [by split; cbn; rewrite O4|]. split; [done|]. by intros [_ ?].
Qed.

(** ** Squash *)

Abbreviation entry := (option V * option V * bool)%type.

(** What the loops of [squash] do to one entry of the previous state: the matrix
    of the comment in [squash]. *)
Definition merge_old (x : V) (e : entry) : entry :=
  match e with (None, r, false) => (Some x, r, false) | e => e end.
Definition merge_new (e : entry) : entry := let '(o, r, _) := e in (o, r, true).
Definition merge_removed (x : V) (e : entry) : entry :=
  match e with
  | (o, r, true) => (o, r, false)
  | (Some w, r, false) => (None, Some (default w r), false)
  | (None, r, false) => (None, Some (default x r), false)
  end.
Definition merge_entry (e prev : entry) : entry :=
  let '(o, r, n) := e in
  let p := match o with Some x => merge_old x prev | None => prev end in
  let p := if n then merge_new p else p in
  match r with Some x => merge_removed x p | None => p end.

Lemma at_id_squash_old item st j :
  at_id j (squash_old item st) = if decide (item.1 = j) then merge_old item.2 (at_id j st) else at_id j st.
Proof.
  destruct item as [i x], st as [old removed new next rev]; unfold at_id;
    cbn [squash_old old_values removed_values new_ids fst snd]. case_decide as Hj; [subst j|].
  - destruct (bool_decide (i ∈ new)) eqn:Hn, (old !! i) eqn:Ho;
      cbn [old_values removed_values new_ids]; rewrite ?Hn, ?Ho; entries; by rewrite ?Ho.
  - destruct (bool_decide (i ∈ new)), (old !! i); cbn [old_values removed_values new_ids]; try done.
    by rewrite lookup_map_emplace, decide_False.
Qed.
Lemma at_id_squash_removed item st j :
  at_id j (squash_removed item st) =
    if decide (item.1 = j) then merge_removed item.2 (at_id j st) else at_id j st.
Proof.
  destruct item as [i x], st as [old removed new next rev]; unfold at_id;
    cbn [squash_removed old_values removed_values new_ids fst snd]. case_decide as Hj; [subst j|].
  - destruct (bool_decide (i ∈ new)) eqn:Hn, (old !! i) eqn:Ho;
      cbn [old_values removed_values new_ids]; rewrite ?Hn, ?Ho; entries; rewrite ?Ho; try done;
      by rewrite bool_decide_eq_false_2 by set_solver.
  - assert (bool_decide (j ∈ new ∖ {[i]}) = bool_decide (j ∈ new)) as En by (apply bool_decide_ext; set_solver).
    destruct (bool_decide (i ∈ new)), (old !! i);
      cbn [old_values removed_values new_ids]; rewrite ?En, ?lookup_delete_ne, ?lookup_map_emplace, ?decide_False; done.
Qed.

Lemma at_id_fold (step : Z * V → undo_state V → undo_state V) (f : V → entry → entry) j :
  (∀ item st, at_id j (step item st) = if decide (item.1 = j) then f item.2 (at_id j st) else at_id j st) →
  ∀ (m : gmap Z V) st, at_id j (foldl (λ p x, step x p) st (in_order m)) =
    match m !! j with Some x => f x (at_id j st) | None => at_id j st end.
Proof.
  intros Hstep m st. pose proof (in_order_nodup m) as Hnd.
  assert (m !! j = list_to_map (M:=gmap Z V) (in_order m) !! j) as -> by (by rewrite in_order_map).
  revert st Hnd. induction (in_order m) as [|[i x] l IH]; intros st; cbn; [done|]. intros [Hi Hnd]%NoDup_cons.
  rewrite IH, Hstep by done. cbn. case_decide as Hj.
  - subst i. rewrite lookup_insert_eq. by rewrite (not_elem_of_list_to_map_1 (M:=gmap Z)).
  - by rewrite lookup_insert_ne.
Qed.

Lemma at_id_fold_new j l st :
  at_id j (foldl (λ p x, squash_new x p) st l) =
    let '(o, r, n) := at_id j st in (o, r, n || bool_decide (j ∈ l)).
Proof.
  revert st. induction l as [|i l IH]; intros st; cbn.
  - unfold at_id. by rewrite orb_false_r.
  - rewrite IH. destruct st as [old removed new next rev]. unfold at_id; cbn. f_equal.
    apply eq_true_iff_eq. rewrite !orb_true_iff, !bool_decide_eq_true. set_solver.
Qed.

Lemma at_id_squash state prev j :
  at_id j (squash_states state prev) = merge_entry (at_id j state) (at_id j prev).
Proof.
  unfold squash_states. rewrite (at_id_fold squash_removed merge_removed j (λ item st, at_id_squash_removed item st j)).
  rewrite at_id_fold_new, (at_id_fold squash_old merge_old j (λ item st, at_id_squash_old item st j)).
  assert (bool_decide (j ∈ ids_in_order (new_ids state)) = bool_decide (j ∈ new_ids state)) as ->
    by (apply bool_decide_ext; rewrite ids_in_order_perm; set_solver).
  unfold merge_entry. generalize (at_id j prev) as e. intros e. destruct (at_id j state) as [[o r] n] eqn:E. unfold at_id in E. injection E as -> -> ->.
  by destruct o, n, r, e as [[[?|] [?|]] []].
Qed.

(** Undoing the merged state is undoing the last and then the previous one. *)
Lemma merge_entry_ok (e e' : entry) cur :
  entry_ok e cur → entry_ok e' (rewind_at e cur) → (e.2 = true → e'.1.2 = None) →
  entry_ok (merge_entry e e') cur ∧ rewind_at (merge_entry e e') cur = rewind_at e' (rewind_at e cur) ∧
  (entry_stable e cur → entry_stable e' (rewind_at e cur) → entry_stable (merge_entry e e') cur) ∧
  ((merge_entry e e').2 = true → e.2 = true ∨ e'.2 = true).
Proof.
  destruct e as [[[x|] [y|]] []], e' as [[[x'|] [y'|]] []], cur as [w|]; cbn; intros H1 H2 H3;
    try done; try (destruct H1 as [? ?]); try (destruct H2 as [? ?]); try discriminate;
    try (specialize (H3 eq_refl); discriminate); repeat split; eauto.
  unfold same_keys in *. congruence.
Qed.

Lemma squash_keeps state prev :
  old_next_id (squash_states state prev) = old_next_id prev ∧
  us_revision (squash_states state prev) = us_revision prev.
Proof.
  unfold squash_states.
  assert (∀ (A : Type) (step : A → undo_state V → undo_state V) l st,
    (∀ x st, old_next_id (step x st) = old_next_id st ∧ us_revision (step x st) = us_revision st) →
    old_next_id (foldl (λ p x, step x p) st l) = old_next_id st ∧
    us_revision (foldl (λ p x, step x p) st l) = us_revision st) as Hf.
  { intros A step l st Hs. revert st. induction l as [|x l IH]; intros st; cbn; [done|].
    destruct (IH (step x st)) as [-> ->]. apply Hs. }
  destruct (Hf _ squash_removed (in_order (removed_values state)) (foldl (λ p x, squash_new x p)
    (foldl (λ p x, squash_old x p) prev (in_order (old_values state))) (ids_in_order (new_ids state)))) as [-> ->].
  { intros ? []; cbn; by repeat case_match. }
  destruct (Hf _ squash_new (ids_in_order (new_ids state))
    (foldl (λ p x, squash_old x p) prev (in_order (old_values state)))) as [-> ->]; [by intros ? []|].
  apply Hf. intros ? []; cbn; by repeat case_match.
Qed.

Lemma squash_states_ok state prev m next :
  undo_ok state m → contents_ok (rewind state m) (old_next_id state) →
  undo_ok prev (rewind state m) → contents_ok (rewind prev (rewind state m)) (old_next_id prev) →
  old_next_id prev ≤ old_next_id state → old_next_id state ≤ next →
  undo_ok (squash_states state prev) m ∧
  rewind (squash_states state prev) m = rewind prev (rewind state m) ∧
  ((∀ j, entry_stable (at_id j state) (m !! j)) → (∀ j, entry_stable (at_id j prev) (rewind state m !! j)) →
   ∀ j, entry_stable (at_id j (squash_states state prev)) (m !! j)).
Proof.
  intros Hu Hc Hu' Hc' Hn Hn'.
  assert (∀ j, let e := merge_entry (at_id j state) (at_id j prev) in
    entry_ok e (m !! j) ∧ rewind_at e (m !! j) = rewind_at (at_id j prev) (rewind_at (at_id j state) (m !! j)) ∧
    (entry_stable (at_id j state) (m !! j) → entry_stable (at_id j prev) (rewind_at (at_id j state) (m !! j)) →
     entry_stable e (m !! j)) ∧ (e.2 = true → (at_id j state).2 = true ∨ (at_id j prev).2 = true)) as Hm.
  { intros j. apply merge_entry_ok; [apply Hu| |].
    - rewrite <- lookup_rewind. apply Hu'.
    - intros Hj%bool_decide_eq_true. apply (uo_new _ _ Hu) in Hj.
      destruct (removed_values prev !! j) eqn:E; [|exact E]. exfalso.
      destruct (rewind_ids _ _ j v Hu' Hc') as [_ Hr]; [by right|]. apply (co_id _ _ Hc') in Hr. lia. }
  split; [split|split].
  - intros j. rewrite at_id_squash. apply Hm.
  - intros j Hj. destruct (squash_keeps state prev) as [-> _].
    destruct (Hm j) as (_ & _ & _ & Hnew). rewrite <- at_id_squash in Hnew.
    destruct Hnew as [Hk|Hk]; [by apply bool_decide_eq_true| |]; apply bool_decide_eq_true in Hk.
    + apply (uo_new _ _ Hu) in Hk. lia.
    + by apply (uo_new _ _ Hu').
  - apply map_eq. intros j. rewrite !lookup_rewind, at_id_squash. apply Hm.
  - intros H1 H2 j. rewrite at_id_squash. apply Hm; [apply H1|]. rewrite <- lookup_rewind. apply H2.
Qed.

Lemma squash_step g g' :
  index_ok g → squash g = (Ok tt, g') →
  index_ok g' ∧ spec_op op_squash (abs g) = Some (abs g') ∧ (keys_stable g → keys_stable g').
Proof.
  unfold squash, kupdate, keys_stable, index_ok. intros [Hc Hs] Hr. injection Hr as <-. unfold abs; cbn.
  destruct (stack g) as [|state [|prev l]] eqn:E.
  - cbn. rewrite E. done.
  - done.
  - cbn in Hs |- *. destruct Hs as (Hu & Hcr & Hn & Hrev & Hu' & Hcr' & Hn' & Hrev' & Hl).
    destruct (squash_states_ok _ _ _ _ Hu Hcr Hu' Hcr' Hn' Hn) as (Hm & Hrw & Hst).
    destruct (squash_keeps state prev) as [-> ->]. rewrite Hrw. split_and!; try done; [lia|].
    intros (H1 & H2 & H3). split; [by apply Hst|done].
Qed.

(** ** Commit, [undo_all], [set_revision] *)

Lemma pop_front_while_app r l (st : undo_state V) :
  pop_front_while r (l ++ [st]) =
    match pop_front_while r l with
    | [] => if us_revision st <=? r then [] else [st]
    | l' => l' ++ [st]
    end.
Proof. induction l as [|st' l IH]; cbn; [done|]. by destruct (us_revision st' <=? r). Qed.

Lemma commit_take r l : ∀ m next rev, stack_ok l m next rev →
  reverse (pop_front_while r (reverse l)) = take (Z.to_nat (rev - r)) l.
Proof.
  induction l as [|st l IH]; intros m next rev; cbn [stack_ok]; [by rewrite take_nil|].
  intros (_ & _ & _ & Hr & Hl). apply IH in Hl. rewrite reverse_cons, pop_front_while_app.
  destruct (Z.leb_spec (us_revision st) r).
  - replace (Z.to_nat (rev - 1 - r)) with O in Hl by lia. replace (Z.to_nat (rev - r)) with O by lia. cbn in *.
    destruct (pop_front_while r (reverse l)) eqn:E; [done|]. apply (f_equal length) in Hl.
    rewrite length_reverse in Hl. done.
  - replace (Z.to_nat (rev - r)) with (S (Z.to_nat (rev - 1 - r))) by lia. cbn [take].
    rewrite <- Hl. by destruct (pop_front_while r (reverse l)); [|rewrite reverse_app].
Qed.

Lemma stack_ok_take n l : ∀ m next rev, stack_ok l m next rev → stack_ok (take n l) m next rev.
Proof. revert l. induction n as [|n IH]; intros [|st l] m next rev; cbn; try done. naive_solver. Qed.
Lemma stack_stable_take n l : ∀ m, stack_stable l m → stack_stable (take n l) m.
Proof. revert l. induction n as [|n IH]; intros [|st l] m; cbn; try done. naive_solver. Qed.
Lemma snapshots_take n l : ∀ m, snapshots (take n l) m = take n (snapshots l m).
Proof. revert l. induction n as [|n IH]; intros [|st l] m; cbn; try done. by rewrite IH. Qed.
Lemma snapshots_length l : ∀ m, length (snapshots l m) = length l.
Proof. induction l as [|st l IH]; intros m; cbn; [done|]. by rewrite IH. Qed.

Lemma commit_step r g g' :
  index_ok g → commit r g = (Ok tt, g') →
  index_ok g' ∧ spec_op (op_commit r) (abs g) = Some (abs g') ∧ (keys_stable g → keys_stable g').
Proof.
  unfold commit, kupdate, keys_stable, index_ok, abs. intros [Hc Hs] Hr. injection Hr as <-. cbn.
  rewrite (commit_take _ _ _ _ _ Hs), snapshots_take. split; [|split; [done|apply stack_stable_take]].
  split; [done|by apply stack_ok_take].
Qed.

Lemma set_revision_step r g g' :
  index_ok g → set_revision r g = (Ok tt, g') →
  index_ok g' ∧ spec_op (op_set_revision r) (abs g) = Some (abs g') ∧ (keys_stable g → keys_stable g').
Proof.
  unfold set_revision, keys_stable, index_ok, abs. intros [Hc Hs] Hr. run_k Hr. cbn.
  destruct (stack g) eqn:E; [|done]. injection Hr as <-. cbn. by rewrite E.
Qed.

Lemma undo_all_step n : ∀ g g', length (stack g) = n →
  index_ok g → undo_all_from n g = (Ok tt, g') →
  index_ok g' ∧ abs g' = Nat.iter n spec_undo (abs g) ∧ (keys_stable g → keys_stable g').
Proof.
  induction n as [|n IH]; intros g g' Hn Hok Hr; cbn [undo_all_from] in Hr; [injection Hr as <-; done|].
  apply kbind_ok in Hr as (g0 & ? & [= <- <-] & Hr). unfold enabled in Hr.
  destruct (stack g) as [|st l] eqn:E; [done|]. apply kbind_ok in Hr as ([] & g1 & H1 & Hr).
  apply undo_step in H1 as (Hok1 & Ha1 & Hk1); [|done]. injection Ha1 as Ha1.
  apply IH in Hr as (Hok' & Ha & Hk); [|clear IH|done].
  - split; [done|]. split; [|by auto]. rewrite Ha, Nat.iter_succ_r. f_equal. by rewrite Ha1.
  - pose proof (snapshots_length (stack g1) (mi_objects (indices g1))) as Hl.
    change (snapshots (stack g1) (mi_objects (indices g1))) with (sp_saved (abs g1)) in Hl.
    rewrite <- Ha1 in Hl. unfold abs, spec_undo in Hl. rewrite E in Hl. cbn in Hl, Hn.
    rewrite snapshots_length in Hl. lia.
Qed.

(** Every operation that returns makes the step of the abstract index. *)
Lemma run_op_step op g g' :
  index_ok g → op_ok op → run_op op g = (Ok tt, g') →
  index_ok g' ∧ spec_op op (abs g) = Some (abs g') ∧ (op_stable op → keys_stable g → keys_stable g').
Proof.
  destruct op; cbn [op_ok run_op op_stable]; intros Hok Hop Hr.
  - apply emplace_step in Hr as (? & ? & ?); [by split_and!|done..].
  - by apply modify_step in Hr.
  - apply remove_step in Hr as (? & ? & ?); [by split_and!|done..].
  - apply start_step in Hr as (? & ? & ?); [by split_and!|done..].
  - apply undo_step in Hr as (? & ? & ?); [by split_and!|done..].
  - apply squash_step in Hr as (? & ? & ?); [by split_and!|done..].
  - apply commit_step in Hr as (? & ? & ?); [by split_and!|done..].
  - unfold undo_all in Hr. apply kbind_ok in Hr as (g0 & ? & [= <- <-] & Hr).
    apply undo_all_step in Hr as (? & Ha & ?); [|done..]. split; [done|]. split; [|done].
    rewrite Ha. unfold abs at 1. cbn. by rewrite snapshots_length.
  - apply set_revision_step in Hr as (? & ? & ?); [by split_and!|done..].
Qed.

(** ** Undo never throws when the keys are stable *)

Lemma same_keys_fits m v w : same_keys v w → fits m v = fits m w.
Proof.
  intros Hs. apply eq_true_iff_eq. rewrite !fits_spec. split; intros Hf k u Hk.
  - rewrite clash_sym, <- Hs, clash_sym. by eapply Hf.
  - rewrite clash_sym, Hs, clash_sym. by eapply Hf.
Qed.

Lemma distinct_fits m k v : distinct m → m !! k = Some v → fits (delete k m) v = true.
Proof. intros Hd Hk. apply fits_spec. intros j w [Hj Hw]%lookup_delete_Some. by eapply (Hd j k). Qed.

Lemma distinct_insert m k v w : distinct m → m !! k = Some w → same_keys v w → distinct (<[k := v]> m).
Proof.
  intros Hd Hk Hs i j x y Hij Hi Hj. rewrite lookup_insert_Some in Hi. rewrite lookup_insert_Some in Hj.
  destruct Hi as [[? ?]|[? Hi]], Hj as [[? ?]|[? Hj]]; subst; [done| | |exact (Hd _ _ _ _ Hij Hi Hj)].
  - rewrite Hs. by eapply (Hd i j).
  - rewrite clash_sym, Hs, clash_sym. by eapply (Hd i j).
Qed.

Lemma undo_modifies_total l : ∀ g : generic_index V C,
  NoDup l.*1 → distinct (mi_objects (indices g)) →
  (∀ i x, (i, x) ∈ l → object_id x = i ∧ ∃ w, mi_objects (indices g) !! i = Some w ∧ same_keys x w) →
  ∃ g', keach (λ item,
    g ← kget;
    let r := mi_modify (indices g) (fst item) (λ _, snd item) in
    kupdate (set_indices (fst r));;
    if (snd r : bool) then mret tt
    else kthrow (violated "Could not modify object, most likely a uniqueness constraint was violated")) l g
  = (Ok tt, g').
Proof.
  induction l as [|[i x] l IH]; intros g Hnd Hd Hin; [by eexists|].
  cbn in Hnd. apply NoDup_cons in Hnd as [Hi Hnd]. destruct (Hin i x) as [Hx (w & Hw & Hs)]; [by left|].
  cbn [keach]. unfold mbind, K_bind, kget, kupdate. cbn [fst snd].
  destruct (mi_modify (indices g) i (λ _, x)) as [c ok] eqn:Hm. cbn [fst snd].
  apply (modify_law _ _ w) in Hm as [Eok Ho]; [|done..].
  rewrite (same_keys_fits _ _ _ Hs), (distinct_fits _ _ _ Hd Hw) in Eok. subst ok. cbn.
  apply IH; [done| |]; cbn; rewrite Ho; [by eapply distinct_insert|].
  intros j y Hj. destruct (Hin j y) as [? ?]; [by right|]. split; [done|].
  assert (i ≠ j) by (intros ->; apply Hi; by apply (list_elem_of_fmap_2 fst _ (j, y))). by rewrite lookup_insert_ne.
Qed.

Lemma undo_restores_total l : ∀ (g : generic_index V C) m next,
  NoDup l.*1 → contents_ok m next → mi_objects (indices g) ⊆ m →
  (∀ i x, (i, x) ∈ l → m !! i = Some x ∧ mi_objects (indices g) !! i = None) →
  ∃ g', keach (λ item,
    g ← kget;
    match mi_emplace (indices g) (snd item) with
    | Some c => kupdate (set_indices c)
    | None => kthrow (violated "Could not restore object, most likely a uniqueness constraint was violated")
    end) l g = (Ok tt, g').
Proof.
  induction l as [|[i x] l IH]; intros g m next Hnd Hc Hs Hin; [by eexists|].
  cbn in Hnd. apply NoDup_cons in Hnd as [Hi Hnd]. destruct (Hin i x) as [Hm Hn]; [by left|].
  destruct (co_id _ _ Hc _ _ Hm) as [Hx _].
  assert (fits (mi_objects (indices g)) x = true) as Hf.
  { apply fits_spec. intros k w Hk. apply (co_distinct _ _ Hc k i); [|by eapply lookup_weaken|done]. congruence. }
  cbn [keach]. unfold mbind, K_bind, kget. cbn [snd].
  pose proof (emplace_law (indices g) x) as Hl. destruct (mi_emplace (indices g) x) as [c|]; [|congruence].
  destruct Hl as [_ Ho]. apply (IH _ m next); [done|done| |]; cbn; rewrite Ho, Hx.
  - by apply insert_subseteq_l.
  - intros j y Hj. destruct (Hin j y) as [? ?]; [by right|]. split; [done|].
    assert (i ≠ j) by (intros ->; apply Hi; by apply (list_elem_of_fmap_2 fst _ (j, y))). by rewrite lookup_insert_ne.
Qed.

Lemma undo_erases_total l : ∀ g : generic_index V C,
  ∃ g', keach (λ id, kupdate (λ g, set_indices (mi_erase (indices g) id) g)) l g = (Ok tt, g').
Proof. induction l as [|i l IH]; intros g; [by eexists|]. apply IH. Qed.

Lemma undo_total g : index_ok g → keys_stable g → ∃ g', undo g = (Ok tt, g').
Proof.
  intros [Hc Hs] Hk. unfold undo, keys_stable in *.
  destruct (stack g) as [|st l] eqn:Est; [eexists; eapply kbind_intro; [done|]; by rewrite Est|].
  cbn in Hs, Hk. destruct Hs as (Hu & Hcr & _), Hk as [Hk _].
  destruct (undo_modifies_total (in_order (old_values st)) g) as [g1 H1];
    [apply in_order_nodup|apply Hc|intros i x Hi%in_order_elem|].
  { destruct (rewind_ids _ _ i x Hu Hcr) as [? _]; [by left|]. split; [done|].
    destruct (undo_ok_old _ _ _ _ Hu Hi) as ([w Hw] & _). exists w. split; [done|].
    specialize (Hk i). unfold at_id in Hk. by rewrite Hi, Hw in Hk. }
  pose proof H1 as O1. apply undo_modifies in O1 as [_ O1]; [|apply in_order_nodup|intros i x Hi%in_order_elem].
  2:{ destruct (rewind_ids _ _ i x Hu Hcr) as [? _]; [by left|]. by destruct (undo_ok_old _ _ _ _ Hu Hi). }
  destruct (undo_erases_total (ids_in_order (new_ids st)) g1) as [g2 H2].
  pose proof H2 as O2. apply undo_erases in O2 as [_ O2]. rewrite O1, in_order_map in O2.
  pose proof (rewind_as_loops _ _ Hu) as Hrw.
  destruct (undo_restores_total (in_order (removed_values st))
    (GenericIndex (stack g2) (gi_revision g2) (old_next_id st) (indices g2)) _ _
    (in_order_nodup _) Hcr) as [g3 H3]; cbn; rewrite ?O2.
  - rewrite <- Hrw. apply map_subseteq_spec. intros j v Hj. apply lookup_union_Some_raw. right. split; [|done].
    destruct (removed_values st !! j) eqn:E; [|done]. destruct (undo_ok_removed _ _ _ _ Hu E) as (Hn & Ho & _).
    apply map_lookup_filter_Some in Hj as [Hj _]. by rewrite lookup_union, Ho, Hn in Hj.
  - intros i x Hi%in_order_elem. destruct (rewind_ids _ _ i x Hu Hcr) as [_ Hr]; [by right|]. split; [done|].
    destruct (undo_ok_removed _ _ _ _ Hu Hi) as (Hn & Ho & _). rewrite map_lookup_filter, lookup_union, Ho, Hn. done.
  - eexists. eapply kbind_intro; [done|]. cbn beta. rewrite Est. eapply kbind_intro; [exact H1|].
    eapply kbind_intro; [exact H2|]. eapply kbind_intro; [done|]. by eapply kbind_intro; [exact H3|].
Qed.

Lemma undo_all_total n : ∀ g, index_ok g → keys_stable g → ∃ g', undo_all_from n g = (Ok tt, g').
Proof.
  induction n as [|n IH]; intros g Hok Hk; cbn [undo_all_from]; [by eexists|].
  destruct (enabled g) eqn:E.
  - destruct (undo_total g Hok Hk) as [g1 H1]. destruct (undo_step _ _ Hok H1) as (Hok1 & _ & Hk1).
    destruct (IH g1 Hok1 (Hk1 Hk)) as [g2 H2]. exists g2. eapply kbind_intro; [done|]. cbn beta. rewrite E.
    by eapply kbind_intro.
  - eexists. eapply kbind_intro; [done|]. cbn beta. by rewrite E.
Qed.

Lemma run_op_total op g a :
  index_ok g → keys_stable g → op_ok op → spec_op op (abs g) = Some a → ∃ g', run_op op g = (Ok tt, g').
Proof.
  intros Hok Hk Hop Ha. destruct op as [mk|k f|k| | | |r| |r]; cbn in Ha, Hop |- *; try by eexists.
  - destruct (fits _ _) eqn:Hf; [|done]. unfold emplace, mbind, K_bind, kget, kupdate.
    pose proof (emplace_law (indices g) (mk (gi_next_id g))) as Hl.
    destruct (mi_emplace _ _); [by eexists|congruence].
  - destruct (mi_objects (indices g) !! k) as [v|] eqn:Hv; [|done]. cbn in Ha.
    destruct (fits _ _) eqn:Hf; [|done].
    unfold gi_modify, gi_get, gi_find, mbind, K_bind, kget, kupdate, mret, K_ret. rewrite Hv.
    rewrite on_head_eq. cbn. destruct (mi_modify (indices g) k f) as [c ok] eqn:Hm. cbn.
    destruct Hok as [Hc _]. destruct (co_id _ _ Hc _ _ Hv) as [Hid _].
    apply (modify_law _ _ v) in Hm as [-> _]; [|done|by rewrite Hop]. rewrite Hf. by eexists.
  - destruct (mi_objects (indices g) !! k) as [v|] eqn:Hv; [|done].
    unfold gi_remove, gi_get, gi_find, mbind, K_bind, kget, kupdate, mret, K_ret. rewrite Hv. by eexists.
  - by apply undo_total.
  - destruct (undo_all_total (length (stack g)) g) as [g' Hg]; [done..|]. exists g'. by eapply kbind_intro.
  - unfold set_revision, mbind, K_bind, kget, kupdate. destruct (stack g) eqn:E; [by eexists|]. cbn in Ha. done.
Qed.

(** ** Sessions *)

(** The operations that change objects. *)
Definition object_op (op : index_op) : Prop :=
  match op with op_emplace _ | op_modify _ _ | op_remove _ => True | _ => False end.

(** An operation on objects that returns leaves the undo stack below it alone. *)
Lemma object_op_returns op g g1 :
  index_ok g → object_op op → op_ok op → run_op op g = (Ok tt, g1) →
  index_ok g1 ∧ sp_saved (abs g1) = sp_saved (abs g) ∧ gi_revision g1 = gi_revision g.
Proof.
  intros Hok Hobj Hop Hr. apply run_op_step in Hr as (Hok1 & Ha & _); [|done..]. split; [done|].
  change (gi_revision g1) with (sp_rev (abs g1)). change (gi_revision g) with (sp_rev (abs g)).
  revert Ha. generalize (abs g1) (abs g). intros a1 [m n rv l] Ha.
  destruct op as [mk|k f|k| | | | | |]; try done; cbn in Ha; [|destruct (m !! k); cbn in Ha; [|done]..].
  1, 2: destruct (fits _ _); [|done]. all: by injection Ha as <-.
Qed.
Lemma body_returns body : ∀ g g1,
  index_ok g → Forall object_op body → Forall op_ok body → keach run_op body g = (Ok tt, g1) →
  index_ok g1 ∧ sp_saved (abs g1) = sp_saved (abs g) ∧ gi_revision g1 = gi_revision g.
Proof.
  induction body as [|op body IH]; intros g g1 Hok Hobj Hop Hr; cbn [keach] in Hr; [by injection Hr as <-|].
  apply Forall_cons in Hobj as [Hobj ?], Hop as [Hop ?]. apply kbind_ok in Hr as ([] & g' & E & Hr).
  apply object_op_returns in E as (? & E1 & E2); [|done..]. apply IH in Hr as (? & -> & ->); done.
Qed.

(** Also when it throws, an operation on objects leaves an index whose last
    session can be undone. *)
Lemma object_op_keeps op g r g1 :
  index_ok g → keys_stable g → object_op op → op_ok op → op_stable op → run_op op g = (r, g1) →
  index_ok g1 ∧ keys_stable g1 ∧ sp_saved (abs g1) = sp_saved (abs g) ∧ gi_revision g1 = gi_revision g.
Proof.
  intros Hok Hk Hobj Hop Hst Hr.
  assert (r = Ok tt ∨ g1 = g) as [->| ->]; [| |done].
  { destruct op as [mk|k f|k| | | | | |]; try done; cbn in Hr, Hop, Hst.
    - unfold emplace, mbind, K_bind, kget, kupdate in Hr. destruct (mi_emplace _ _); injection Hr as <- <-; auto.
    - unfold gi_modify, gi_get, gi_find, mbind, K_bind, kget, kupdate, mret, K_ret in Hr.
      destruct (mi_objects (indices g) !! k) as [v|] eqn:Hv; [|injection Hr as <- <-; auto].
      rewrite on_head_eq in Hr. cbn in Hr. destruct (mi_modify (indices g) k f) as [c ok] eqn:Hm. cbn in Hr.
      destruct Hok as [Hc _]. destruct (co_id _ _ Hc _ _ Hv) as [Hid _].
      apply (modify_law _ _ v) in Hm as [Eok _]; [|done|by rewrite Hop].
      rewrite <- (same_keys_fits _ v (f v)), (distinct_fits _ _ _ (co_distinct _ _ Hc) Hv) in Eok by apply Hst.
      subst ok. injection Hr as <- <-. auto.
    - unfold gi_remove, gi_get, gi_find, mbind, K_bind, kget, kupdate, mret, K_ret in Hr.
      destruct (mi_objects (indices g) !! k); injection Hr as <- <-; auto. }
  pose proof (object_op_returns _ _ _ Hok Hobj Hop Hr) as (? & ? & ?).
  apply run_op_step in Hr as (_ & _ & Hk1); [|done..]. by split_and!; auto.
Qed.

Lemma body_keeps body : ∀ g r g1,
  index_ok g → keys_stable g → Forall object_op body → Forall op_ok body → Forall op_stable body →
  keach run_op body g = (r, g1) →
  index_ok g1 ∧ keys_stable g1 ∧ sp_saved (abs g1) = sp_saved (abs g) ∧ gi_revision g1 = gi_revision g.
Proof.
  induction body as [|op body IH]; intros g r g1 Hok Hk Hobj Hop Hst Hr; cbn [keach] in Hr.
  - by injection Hr as <- <-.
  - apply Forall_cons in Hobj as [Hobj ?], Hop as [Hop ?], Hst as [Hst ?]. unfold mbind, K_bind in Hr.
    destruct (run_op op g) as [[[]|e] g'] eqn:E;
      (apply object_op_keeps in E as (? & ? & E1 & E2); [|done..]).
    + apply IH in Hr as (? & ? & -> & ->); done.
    + by injection Hr as <- <-.
Qed.

Lemma run_ops_keep ops : ∀ g g',
  index_ok g → keys_stable g → Forall op_ok ops → Forall op_stable ops →
  keach run_op ops g = (Ok tt, g') → index_ok g' ∧ keys_stable g'.
Proof.
  induction ops as [|op ops IH]; intros g g' Hok Hk Hop Hst Hr; cbn [keach] in Hr; [by injection Hr as <-|].
  apply Forall_cons in Hop as [? ?], Hst as [? ?]. apply kbind_ok in Hr as ([] & g1 & Hr1 & Hr).
  apply run_op_step in Hr1 as (? & _ & ?); [|done..]. eapply IH; [..|exact Hr]; auto.
Qed.

(** C2. The undo stack of an index, which records only differences, behaves like a
    stack of snapshots: every operation that returns makes the step of the
    abstract index and keeps the index well formed. *)
Theorem generic_index_refines op g g' :
  index_ok g → op_ok op → run_op op g = (Ok tt, g') →
  index_ok g' ∧ spec_op op (abs g) = Some (abs g').
Proof. intros Hok Hop Hr. by destruct (run_op_step op g g' Hok Hop Hr) as (? & ? & _). Qed.

(** As long as modifications leave the unique keys of objects alone, the index
    throws exactly when the abstract index does; in particular [undo] and
    [undo_all] never throw. *)
Theorem stable_index_exact op g a :
  index_ok g → keys_stable g → op_ok op → op_stable op →
  (∃ g', run_op op g = (Ok tt, g') ∧ abs g' = a ∧ keys_stable g') ↔ spec_op op (abs g) = Some a.
Proof.
  intros Hok Hk Hop Hst. split.
  - intros (g' & Hr & <- & _). by apply run_op_step in Hr as (_ & ? & _).
  - intros Ha. destruct (run_op_total op g a Hok Hk Hop Ha) as [g' Hr]. exists g'. split; [done|].
    apply run_op_step in Hr as (_ & Hs & ?); [|done..]. split; [congruence|by auto].
Qed.

(** What undoing a session does when it returns: the state below the session is back. *)
Lemma undo_session g g0 g1 g2 :
  index_ok g1 → gi_start_undo_session g = (Ok tt, g0) →
  sp_saved (abs g1) = sp_saved (abs g0) → gi_revision g1 = gi_revision g0 →
  undo g1 = (Ok tt, g2) → index_ok g2 ∧ abs g2 = abs g.
Proof.
  intros Hok1 E0 Hsaved Hrev H2. apply undo_step in H2 as (Hok2 & Ha2 & _); [|done]. split; [done|].
  assert (spec_undo (abs g1) = abs g2) as <- by (revert Ha2; generalize (abs g1) (abs g2); by intros [????] ? [= <-]).
  injection E0 as <-. unfold spec_undo. rewrite Hsaved. cbn in Hrev. unfold abs. cbn. rewrite rewind_fresh. f_equal. lia.
Qed.

(** C1. Undoing a session.  When the modifications of the session, and those recorded
    before it, leave the unique keys of objects alone, a session is atomic: whatever its
    operations on objects do, also when one of them throws, [undo] returns and restores
    the objects, the next id, the revision and the rest of the undo stack.  When
    modifications do change unique keys and the operations return, [undo] restores all of
    that too if it returns; that it may throw then is [undo_throws_on_reused_key]. *)
Theorem session_atomic body g r g1 :
  index_ok g → Forall object_op body → Forall op_ok body →
  (gi_start_undo_session ≫= λ _, keach run_op body) g = (r, g1) →
  (keys_stable g → Forall op_stable body → ∃ g2, undo g1 = (Ok tt, g2) ∧ index_ok g2 ∧ abs g2 = abs g) ∧
  (r = Ok tt → ∀ g2, undo g1 = (Ok tt, g2) → index_ok g2 ∧ abs g2 = abs g).
Proof.
  intros Hok Hobj Hop Hr. destruct (gi_start_undo_session g) as [r0 g0] eqn:E0.
  unfold mbind, K_bind in Hr. rewrite E0 in Hr. pose proof E0 as [= <- _].
  pose proof (start_step _ _ Hok E0) as (Hok0 & _ & Hk0). split.
  - intros Hk Hst. apply body_keeps in Hr as (Hok1 & Hk1 & Hsaved & Hrev); [|auto..].
    destruct (undo_total g1 Hok1 Hk1) as [g2 H2]. exists g2. split; [done|]. by apply (undo_session g g0 g1).
  - intros -> g2 H2. apply body_returns in Hr as (Hok1 & Hsaved & Hrev); [|done..]. by apply (undo_session g g0 g1).
Qed.
End rewind.

(** * A concrete container *)

(** Objects with an id and one more unique key. *)
Record keyed := Keyed { keyed_id : Z; keyed_key : Z; keyed_value : Z }.
#[global] Instance keyed_index : MultiIndex keyed (gmap Z keyed) := {
  object_id := keyed_id;
  clash u v := (keyed_id u =? keyed_id v) || (keyed_key u =? keyed_key v);
  mi_objects c := c;
  mi_emplace c v :=
    if bool_decide (map_Forall (λ _ w, (keyed_id w =? keyed_id v) || (keyed_key w =? keyed_key v) = false) c)
    then Some (<[keyed_id v := v]> c) else None;
  mi_modify c k f :=
    match c !! k with
    | None => (c, false)
    | Some v =>
        if bool_decide (map_Forall (λ _ w, (keyed_id w =? keyed_id (f v)) || (keyed_key w =? keyed_key (f v)) = false)
          (delete k c))
        then (<[k := f v]> c, true) else (delete k c, false)
    end;
  mi_erase c k := delete k c;
}.
#[global] Instance keyed_index_laws : MultiIndexLaws keyed (gmap Z keyed).
Proof.
  split; cbn.
  - intros u v. by rewrite (Z.eqb_sym (keyed_id u)), (Z.eqb_sym (keyed_key u)).
  - intros u v ->. by rewrite Z.eqb_refl.
  - intros c v. unfold fits. cbn. by case_bool_decide.
  - intros c k v f c' ok Hk Hid. rewrite Hk. unfold fits. cbn. case_bool_decide; intros [= <- <-]; done.
  - done.
Qed.

Abbreviation keyed_state := (generic_index keyed (gmap Z keyed)).
Definition empty_index : keyed_state := GenericIndex [] 0 0 ∅.
Definition new_keyed (key value : Z) (id : Z) : keyed := Keyed id key value.
Definition with_key (key : Z) (v : keyed) : keyed := Keyed (keyed_id v) key (keyed_value v).
Definition with_value (value : Z) (v : keyed) : keyed := Keyed (keyed_id v) (keyed_key v) value.
Definition run_ops (ops : list index_op) (g : keyed_state) : result unit * keyed_state := keach run_op ops g.

(** Undo restores the modified objects before it erases the new ones, so when a
    session gives an object's old key to a new object, undoing it throws and the
    changes stay. *)
Theorem undo_throws_on_reused_key :
  ∃ g', run_ops [op_emplace (new_keyed 7 0); op_start; op_modify 0 (with_key 8); op_emplace (new_keyed 7 1)]
          empty_index = (Ok tt, g') ∧
    is_ok (fst (run_ops [op_undo] g')) = false ∧
    mi_objects (indices (snd (run_ops [op_undo] g'))) !! 0 = None.
Proof. eexists. split; [vm_compute; reflexivity|]. split; vm_compute; reflexivity. Qed.

Lemma empty_index_ok : index_ok empty_index ∧ keys_stable empty_index.
Proof. split; [split; [split|]|]; done. Qed.

(** A state with one open session that changed an object. *)
Definition one_session : keyed_state :=
  snd (run_ops [op_emplace (new_keyed 7 0); op_start; op_modify 0 (with_value 5); op_emplace (new_keyed 8 1)] empty_index).
Lemma one_session_ok : index_ok one_session ∧ keys_stable one_session.
Proof.
  eapply (run_ops_keep [op_emplace (new_keyed 7 0); op_start; op_modify 0 (with_value 5); op_emplace (new_keyed 8 1)]);
    [apply empty_index_ok..|by repeat constructor|by repeat constructor|reflexivity].
Qed.

(** Undoing the session brings the first object back and drops the second. *)
Lemma generic_index_refines_witness :
  index_ok (snd (undo one_session)) ∧
  spec_op op_undo (abs one_session) = Some (abs (snd (undo one_session))).
Proof.
  apply (generic_index_refines op_undo one_session (snd (undo one_session)));
    [apply one_session_ok|done|vm_compute; reflexivity].
Defined.

Lemma stable_index_exact_witness :
  ∃ g', run_op op_undo one_session = (Ok tt, g') ∧ abs g' = spec_undo (abs one_session) ∧ keys_stable g'.
Proof.
  apply (stable_index_exact op_undo one_session (spec_undo (abs one_session)));
    [apply one_session_ok|apply one_session_ok|done|done|reflexivity].
Defined.

(** The second creation throws, and the session is undone. *)
Lemma session_atomic_witness :
  ∃ g2, undo (snd ((gi_start_undo_session ≫= λ _,
    keach run_op [op_emplace (new_keyed 9 1); op_emplace (new_keyed 7 2)]) one_session)) = (Ok tt, g2) ∧
    index_ok g2 ∧ abs g2 = abs one_session.
Proof.
  apply (session_atomic [op_emplace (new_keyed 9 1); op_emplace (new_keyed 7 2)] one_session
    (fst ((gi_start_undo_session ≫= λ _, keach run_op [op_emplace (new_keyed 9 1); op_emplace (new_keyed 7 2)]) one_session)));
    [apply one_session_ok|repeat constructor|repeat constructor|reflexivity|apply one_session_ok|repeat constructor].
Defined.
