(* ===== verification/FixedString.v ===== *)
(** Names stored in place: [protocol/fixed_string.hpp].

    A [fixed_string] keeps up to [n] characters (16 for account names) as one
    unsigned integer, the characters read as a big-endian number padded with
    zero bytes, so that comparing two names is comparing two integers.  The
    theorems show that this is the lexicographic order of the strings, which is
    why the rest of the development keeps account names as [string]s ordered by
    [String.compare]. *)

From Stdlib Require Import Ascii.
From S2P Require Import Prelude.

(** ** The representation *)

Definition byte_of (c : ascii) : Z := Z.of_N (Ascii.N_of_ascii c).
Definition char_of (b : Z) : ascii := Ascii.ascii_of_N (Z.to_N b).
Definition bytes_of (s : string) : list Z := byte_of <$> String.list_ascii_of_string s.
Definition of_bytes (l : list Z) : string := String.string_of_list_ascii (char_of <$> l).

(** Big-endian value of a byte list. *)
Fixpoint be_value (l : list Z) : Z :=
  match l with [] => 0 | b :: l' => b * 256 ^ Z.of_nat (length l') + be_value l' end.

(** The [n] bytes of a number, most significant first ([native_to_big]). *)
Fixpoint be_bytes (n : nat) (d : Z) : list Z :=
  match n with O => [] | S n' => be_bytes n' (d / 256) ++ [d mod 256] end.

(** [fixed_string( const std::string& )], libraries/protocol/include/node/protocol/fixed_string.hpp:71-80 *)
Definition fixed_string (n : nat) (str : string) : Z :=
  be_value (take n (bytes_of str) ++ replicate (n - String.length str) 0).

(** [strnlen] *)
Fixpoint strnlen (l : list Z) : nat :=
  match l with b :: l' => if b =? 0 then 0%nat else S (strnlen l') | [] => 0%nat end.

(** [fixed_string::size], libraries/protocol/include/node/protocol/fixed_string.hpp:97-105 *)
Definition fixed_size (n : nat) (data : Z) : nat :=
  let d := be_bytes n data in
  if negb (nth (n - 1) d 0 =? 0) then n else strnlen d.

(** [fixed_string::operator std::string], libraries/protocol/include/node/protocol/fixed_string.hpp:82-95 *)
Definition fixed_to_string (n : nat) (data : Z) : string :=
  let d := be_bytes n data in
  let s := if negb (nth (n - 1) d 0 =? 0) then n else strnlen d in
  of_bytes (take s d).

(** [operator <], libraries/protocol/include/node/protocol/fixed_string.hpp:127-132 *)
Definition fixed_lt (a b : Z) : bool := a <? b.

(** ** Facts about bytes *)

Definition is_byte (b : Z) : Prop := 0 ≤ b < 256.
(** No embedded NUL character. *)
Definition no_nul (s : string) : Prop := Forall (λ b, b ≠ 0) (bytes_of s).

Lemma byte_of_range c : is_byte (byte_of c).
Proof. unfold is_byte, byte_of. pose proof (N_ascii_bounded c). lia. Qed.

Lemma bytes_of_range s : Forall is_byte (bytes_of s).
Proof. apply Forall_fmap, Forall_true. intros. apply byte_of_range. Qed.

Lemma char_of_byte_of c : char_of (byte_of c) = c.
Proof. unfold char_of, byte_of. by rewrite N2Z.id, ascii_N_embedding. Qed.

Lemma of_bytes_of s : of_bytes (bytes_of s) = s.
Proof.
  unfold of_bytes, bytes_of. rewrite <- list_fmap_compose.
  rewrite (list_fmap_ext _ id); [|intros; apply char_of_byte_of].
  by rewrite list_fmap_id, String.string_of_list_ascii_of_string.
Qed.

Lemma length_bytes_of s : length (bytes_of s) = String.length s.
Proof. unfold bytes_of. rewrite length_fmap. induction s; cbn; auto. Qed.

Lemma be_value_range l : Forall is_byte l → 0 ≤ be_value l < 256 ^ Z.of_nat (length l).
Proof.
  induction 1 as [|b l Hb _ IH]; [cbn; lia|]. cbn [be_value length].
  rewrite Nat2Z.inj_succ, Z.pow_succ_r by lia. unfold is_byte in Hb. nia.
Qed.

Lemma be_value_snoc l b : be_value (l ++ [b]) = be_value l * 256 + b.
Proof.
  induction l as [|c l IH]; [cbn; lia|]. cbn [be_value app]. rewrite IH, length_app.
  cbn [length]. rewrite Nat.add_1_r, Nat2Z.inj_succ, Z.pow_succ_r by lia. lia.
Qed.

Lemma be_bytes_value l : Forall is_byte l → be_bytes (length l) (be_value l) = l.
Proof.
  induction l as [|b l IH] using rev_ind; [done|]. intros [Hl Hb]%Forall_app.
  rewrite Forall_singleton in Hb. unfold is_byte in Hb.
  rewrite length_app, Nat.add_1_r. cbn [be_bytes]. rewrite be_value_snoc.
  rewrite Z.div_add_l, Z.div_small, Z.add_0_r, IH by (done || lia).
  by rewrite Z.add_comm, Z.mod_add, Z.mod_small by lia.
Qed.

(** ** Padding *)

Definition padded (n : nat) (s : string) : list Z :=
  take n (bytes_of s) ++ replicate (n - String.length s) 0.

Lemma length_padded n s : length (padded n s) = n.
Proof.
  unfold padded. rewrite length_app, length_take, length_replicate, length_bytes_of. lia.
Qed.

Lemma padded_range n s : Forall is_byte (padded n s).
Proof.
  apply Forall_app. split.
  - apply Forall_take, bytes_of_range.
  - apply Forall_replicate. unfold is_byte. lia.
Qed.

Lemma be_bytes_fixed n s : be_bytes n (fixed_string n s) = padded n s.
Proof. rewrite <- (length_padded n s) at 1. apply be_bytes_value, padded_range. Qed.

Lemma strnlen_app l l' : Forall (λ b, b ≠ 0) l → strnlen (l ++ 0 :: l') = length l.
Proof.
  induction 1 as [|b l Hb _ IH]; [done|]. cbn. by rewrite (proj2 (Z.eqb_neq b 0) Hb), IH.
Qed.
Lemma strnlen_all l : Forall (λ b, b ≠ 0) l → strnlen l = length l.
Proof. induction 1 as [|b l Hb _ IH]; [done|]. cbn. by rewrite (proj2 (Z.eqb_neq b 0) Hb), IH. Qed.

(** Both [size] and the conversion find the end of the characters. *)
Lemma padded_end n s :
  no_nul s →
  (if negb (nth (n - 1) (padded n s) 0 =? 0) then n else strnlen (padded n s)) =
    length (take n (bytes_of s)).
Proof.
  intros Hs. assert (Forall (λ b, b ≠ 0) (take n (bytes_of s))) as Ht by by apply Forall_take.
  destruct (Nat.le_gt_cases n (String.length s)) as [Hn|Hn].
  - unfold padded. rewrite (proj2 (Nat.sub_0_le _ _) Hn). cbn [replicate]. rewrite app_nil_r.
    rewrite (strnlen_all _ Ht), length_take, length_bytes_of, Nat.min_l by lia. by case_match.
  - unfold padded. destruct (n - String.length s)%nat as [|k] eqn:Hk; [lia|].
    rewrite app_nth2 by (rewrite length_take, length_bytes_of; lia).
    cbn [replicate].
    match goal with |- context [nth ?i (0 :: replicate ?k 0) 0] =>
      assert (nth i (0 :: replicate k 0) 0 = 0) as -> end.
    { change (0 :: replicate k 0) with (replicate (S k) 0). generalize (S k). intros m.
      match goal with |- nth ?i _ _ = _ => generalize i end. clear.
      induction m as [|m IH]; intros [|i]; cbn; auto. }
    cbn. by apply strnlen_app.
Qed.

Lemma fixed_to_string_fixed n s :
  no_nul s → fixed_to_string n (fixed_string n s) = of_bytes (take n (bytes_of s)).
Proof.
  intros Hs. unfold fixed_to_string. rewrite be_bytes_fixed. rewrite padded_end by done.
  unfold padded. by rewrite take_app_length.
Qed.

Lemma fixed_to_string_short n s :
  no_nul s → (String.length s ≤ n)%nat → fixed_to_string n (fixed_string n s) = s.
Proof.
  intros Hs Hn. rewrite fixed_to_string_fixed, take_ge by (done || by rewrite length_bytes_of).
  apply of_bytes_of.
Qed.

(** A name survives being stored: up to 16 characters come back
    unchanged, longer strings come back cut, and [size()] is the length of what
    comes back. *)
Theorem fixed_string_roundtrip n s :
  no_nul s →
  fixed_to_string n (fixed_string n s) = of_bytes (take n (bytes_of s)) ∧
  (String.length s ≤ n → fixed_to_string n (fixed_string n s) = s)%nat ∧
  fixed_size n (fixed_string n s) = Nat.min n (String.length s).
Proof.
  intros Hs. split_and!.
  - by apply fixed_to_string_fixed.
  - by apply fixed_to_string_short.
  - unfold fixed_size. rewrite be_bytes_fixed, padded_end by done.
    by rewrite length_take, length_bytes_of.
Qed.

Lemma fixed_string_roundtrip_witness :
  fixed_to_string 16 (fixed_string 16 "alice") = "alice"%string.
Proof.
  apply (fixed_string_roundtrip 16 "alice").
  - unfold no_nul, bytes_of. cbn. repeat (constructor; [discriminate|]). constructor.
  - cbn. lia.
Defined.

(** ** Order *)

Lemma be_value_cons_lt a b l l' :
  is_byte a → is_byte b → Forall is_byte l → Forall is_byte l' → length l = length l' →
  be_value (a :: l) < be_value (b :: l') ↔ a < b ∨ (a = b ∧ be_value l < be_value l').
Proof.
  unfold is_byte. intros Ha Hb Hl%be_value_range Hl'%be_value_range E.
  cbn [be_value]. rewrite E in *. nia.
Qed.

Lemma padded_cons n c s : padded (S n) (String c s) = byte_of c :: padded n s.
Proof. done. Qed.
Lemma padded_nil n : padded n "" = replicate n 0.
Proof. unfold padded. cbn. rewrite take_nil. cbn. by rewrite Nat.sub_0_r. Qed.

Lemma be_value_zeros n : be_value (replicate n 0) = 0.
Proof. induction n; [done|]. cbn. done. Qed.

Lemma ascii_compare_byte a b : Ascii.compare a b = (byte_of a ?= byte_of b).
Proof. unfold Ascii.compare, byte_of. by rewrite N2Z.inj_compare. Qed.

Lemma byte_of_inj a b : byte_of a = byte_of b → a = b.
Proof. intros E. by rewrite <- (char_of_byte_of a), E, char_of_byte_of. Qed.

(** On names of at most [n] characters, the integer order and equality of
    the stored names are the lexicographic order and the equality of the
    strings. *)
Theorem fixed_string_order n a b :
  no_nul a → no_nul b → (String.length a ≤ n)%nat → (String.length b ≤ n)%nat →
  (fixed_lt (fixed_string n a) (fixed_string n b) = true ↔ String.compare a b = Lt) ∧
  (fixed_string n a = fixed_string n b ↔ a = b).
Proof.
  intros Ha Hb Hna Hnb. split.
  - unfold fixed_lt. rewrite Z.ltb_lt. unfold fixed_string. fold (padded n a) (padded n b).
    revert b n Hb Hna Hnb. induction a as [|c a IH]; intros [|c' b] n Hb Hna Hnb.
    + cbn. split; [lia|done].
    + destruct n as [|n]; [cbn in Hnb; lia|]. rewrite padded_nil, be_value_zeros, padded_cons.
      cbn [be_value String.compare]. apply Forall_cons in Hb as [Hb _].
      pose proof (byte_of_range c'). pose proof (be_value_range _ (padded_range n b)).
      unfold is_byte in *. split; [done|]. intros _. nia.
    + destruct n as [|n]; [cbn in Hna; lia|]. rewrite padded_nil, be_value_zeros.
      pose proof (be_value_range _ (padded_range (S n) (String c a))). cbn [String.compare]. split; [lia|done].
    + destruct n as [|n]; [cbn in Hna; lia|]. apply Forall_cons in Ha as [_ Ha].
      apply Forall_cons in Hb as [_ Hb]. rewrite !padded_cons. cbn [String.length] in *.
      rewrite be_value_cons_lt by (apply byte_of_range || apply padded_range || by rewrite !length_padded).
      rewrite (IH Ha b n) by (done || lia). cbn [String.compare]. rewrite ascii_compare_byte.
      destruct (Z.compare_spec (byte_of c) (byte_of c')); naive_solver lia.
  - split; [|by intros ->]. intros E.
    by rewrite <- (fixed_to_string_short n a), E, fixed_to_string_short.
Qed.

Lemma fixed_string_order_witness :
  fixed_lt (fixed_string 16 "alice") (fixed_string 16 "bob") = true.
Proof.
  apply (fixed_string_order 16 "alice" "bob"); try (cbn; lia);
    try (unfold no_nul, bytes_of; cbn; repeat (constructor; [discriminate|]); constructor).
Defined.
