(* ===== verification/Authority.v ===== *)
(** Authorities and account names: [protocol/authority.hpp], [authority.cpp].

    A public key is its serialized [key_data] (33 bytes), which is what the code
    compares; an account name is a string (FixedString). *)

From Stdlib Require Import Ascii.
From S2P Require Import Prelude Fc Config Flat.

(** [weight_type] is [uint16_t]; [account_name_type] and [public_key_type] are
    strings. *)
Abbreviation account_name := string (only parsing).
Abbreviation public_key := string (only parsing).

(** [struct authority], libraries/protocol/include/node/protocol/authority.hpp:7-55 *)
Record authority := Authority {
  weight_threshold : Z;
  account_auths : list (account_name * Z);
  key_auths : list (public_key * Z);
}.
#[export] Instance eta_authority : Eta authority :=
  λ r, Authority (weight_threshold r) (account_auths r) (key_auths r).
#[export] Instance authority_eq_dec : EqDecision authority.
Proof. solve_decision. Defined.

(** [authority::classification], libraries/protocol/include/node/protocol/authority.hpp:11-17 *)
Inductive classification := owner_class | active_class | key_class | posting_class.

(** [authority::authority()], libraries/protocol/include/node/protocol/authority.hpp:9-9 *)
Definition empty_authority : authority := Authority 0 [] [].

(** [authority::add_authority( public_key_type )], libraries/protocol/authority.cpp:6-9 *)
Definition add_key_authority (k : public_key) (w : Z) (a : authority) : authority :=
  a <| key_auths ::= fm_set k w |>.
(** [authority::add_authority( account_name_type )], libraries/protocol/authority.cpp:11-14 *)
Definition add_account_authority (k : account_name) (w : Z) (a : authority) : authority :=
  a <| account_auths ::= fm_set k w |>.
(** [authority::get_keys], libraries/protocol/authority.cpp:16-23 *)
Definition get_keys (a : authority) : list public_key := (key_auths a).*1.

(** Weights added up in a 64-bit variable. *)
Definition add_weights (l : list (string * Z)) (acc : Z) : Z :=
  fold_left (λ acc p, wrap_u64 (acc + p.2)) l acc.
(** [authority::is_impossible], libraries/protocol/authority.cpp:25-31 *)
Definition is_impossible (a : authority) : bool :=
  let auth_weights := add_weights (key_auths a) (add_weights (account_auths a) 0) in
  auth_weights <? weight_threshold a.
(** [authority::num_auths], libraries/protocol/authority.cpp:33-33 *)
Definition num_auths (a : authority) : Z :=
  wrap_u32 (Z.of_nat (length (account_auths a)) + Z.of_nat (length (key_auths a))).
(** [authority::clear], libraries/protocol/authority.cpp:35-35 *)
Definition authority_clear (a : authority) : authority :=
  a <| account_auths := [] |> <| key_auths := [] |>.
(** [operator == ( authority, authority )], libraries/protocol/authority.cpp:114-119 *)
Definition authority_eqb (a b : authority) : bool :=
  (weight_threshold a =? weight_threshold b) &&
  bool_decide (account_auths a = account_auths b) && bool_decide (key_auths a = key_auths b).
(** [add_authority_accounts], libraries/protocol/include/node/protocol/authority.hpp:57-65 *)
Definition add_authority_accounts (result : list account_name) (a : authority) : list account_name :=
  fold_left (λ r p, fs_insert p.1 r) (account_auths a) result.

(** * Account names *)

Definition in_chars (lo hi : N) (c : ascii) : bool :=
  let n := N_of_ascii c in ((lo <=? n) && (n <=? hi))%N.
(** The three [switch] statements of [is_valid_account_name]. *)
Definition is_letter (c : ascii) : bool := in_chars 97 122 c.
Definition is_let_dig (c : ascii) : bool := is_letter c || in_chars 48 57 c.
Definition is_let_dig_hyp (c : ascii) : bool := is_let_dig c || Ascii.eqb c "-"%char.

(** [name.find_first_of( '.', begin )], or the length when there is none. *)
Fixpoint find_dot (name : list ascii) (i : nat) : nat :=
  match name with
  | [] => 0%nat
  | c :: name' =>
      match i with
      | O => if Ascii.eqb c "."%char then 0%nat else S (find_dot name' 0)
      | S i' => S (find_dot name' i')
      end
  end.

(** [is_valid_account_name] (the loop over labels), libraries/protocol/authority.cpp:59-110 *)
Fixpoint valid_name_loop (fuel : nat) (name : list ascii) (begin : nat) : bool :=
  match fuel with
  | O => false
  | S fuel' =>
      let len := length name in
      let end_ := find_dot name begin in
      if (end_ - begin <? Z.to_nat MIN_ACCOUNT_NAME_LENGTH)%nat then false
      else if negb (is_letter (nth begin name zero)) then false
      else if negb (is_let_dig (nth (end_ - 1) name zero)) then false
      else if (2 <? len)%nat &&
              negb (forallb (λ i, is_let_dig_hyp (nth i name zero))
                      (seq (begin + 1) (end_ - 1 - (begin + 1)))) then false
      else if (end_ =? len)%nat then true
      else valid_name_loop fuel' name (end_ + 1)
  end.

(** [is_valid_account_name], libraries/protocol/authority.cpp:46-112 *)
Definition is_valid_account_name (name : string) : bool :=
  let len := String.length name in
  if (len <? Z.to_nat MIN_ACCOUNT_NAME_LENGTH)%nat then false
  else if (Z.to_nat MAX_ACCOUNT_NAME_LENGTH <? len)%nat then false
  else valid_name_loop (S len) (String.list_ascii_of_string name) 0.

(** [authority::validate], libraries/protocol/authority.cpp:37-43 *)
Definition authority_validate (a : authority) : result unit :=
  rfor (λ p, fc_check (is_valid_account_name p.1) EmptyString) (account_auths a).

(** ** The grammar of the header *)

(** The dot-separated labels of a name. *)
Fixpoint labels (l : list ascii) : list (list ascii) :=
  match l with
  | [] => [[]]
  | c :: l' =>
      if Ascii.eqb c "."%char then [] :: labels l'
      else match labels l' with lb :: lbs => (c :: lb) :: lbs | [] => [[c]] end
  end.

(** At least three characters, a letter first, a letter or digit last, letters,
    digits and hyphens throughout. *)
Definition valid_label (lb : list ascii) : Prop :=
  (3 ≤ length lb)%nat ∧
  (∃ c, head lb = Some c ∧ is_letter c) ∧
  (∃ c, last lb = Some c ∧ is_let_dig c) ∧
  Forall is_let_dig_hyp lb.

Lemma labels_nonempty l : labels l ≠ [].
Proof. destruct l as [|c l]; cbn; [done|]. repeat case_match; done. Qed.

Definition no_dot (l : list ascii) : Prop := Forall (λ c, c ≠ "."%char) l.

Lemma labels_last lb : no_dot lb → labels lb = [lb].
Proof.
  induction 1 as [|c l Hc _ IH]; [done|]. cbn. rewrite IH.
  by destruct (Ascii.eqb_spec c "."%char).
Qed.

Lemma labels_cons lb l : no_dot lb → labels (lb ++ "."%char :: l) = lb :: labels l.
Proof.
  induction 1 as [|c lb Hc _ IH]; [done|]. cbn. rewrite IH.
  by destruct (Ascii.eqb_spec c "."%char).
Qed.

(** Every list is a label followed by nothing or by a dot and a rest. *)
Lemma split_label l :
  ∃ lb, no_dot lb ∧ (l = lb ∨ ∃ r, l = lb ++ "."%char :: r).
Proof.
  induction l as [|c l (lb & Hlb & H)]; [exists []; split; [constructor|by left]|].
  destruct (Ascii.eqb_spec c "."%char) as [->|Hc].
  - exists []. split; [constructor|]. right. by exists l.
  - exists (c :: lb). split; [by constructor|].
    destruct H as [->|[r ->]]; [by left|right; by exists r].
Qed.

Lemma find_dot_skip pre l : find_dot (pre ++ l) (length pre) = (length pre + find_dot l 0)%nat.
Proof. induction pre as [|c pre IH]; cbn; [done|]. by rewrite IH. Qed.

Lemma find_dot_label lb : no_dot lb → find_dot lb 0 = length lb.
Proof.
  induction 1 as [|c lb Hc _ IH]; [done|]. cbn. rewrite IH. by destruct (Ascii.eqb_spec c "."%char).
Qed.
Lemma find_dot_label_dot lb r : no_dot lb → find_dot (lb ++ "."%char :: r) 0 = length lb.
Proof.
  induction 1 as [|c lb Hc _ IH]; [done|]. cbn. rewrite IH. by destruct (Ascii.eqb_spec c "."%char).
Qed.

Lemma nth_middle (pre l : list ascii) i :
  nth (length pre + i) (pre ++ l) zero = nth i l zero.
Proof. rewrite app_nth2 by lia. f_equal. lia. Qed.

(** The tests of one round of the loop are those of the grammar. *)
Lemma label_tests pre lb rest :
  (3 ≤ length lb)%nat →
  is_letter (nth (length pre) (pre ++ lb ++ rest) zero) = true →
  is_let_dig (nth (length pre + length lb - 1) (pre ++ lb ++ rest) zero) = true →
  forallb (λ i, is_let_dig_hyp (nth i (pre ++ lb ++ rest) zero))
    (seq (length pre + 1) (length pre + length lb - 1 - (length pre + 1))) = true →
  valid_label lb.
Proof.
  intros Hlen Hh Hl Hm.
  destruct lb as [|c lb _] using rev_ind; [cbn in Hlen; lia|].
  destruct lb as [|h lb]; [cbn in Hlen; lia|].
  rewrite <- (Nat.add_0_r (length pre)), nth_middle in Hh. cbn in Hh.
  rewrite length_app in Hl, Hm. cbn [length] in Hl, Hm.
  replace (length pre + (S (length lb) + 1) - 1)%nat with (length pre + S (length lb))%nat in Hl by lia.
  rewrite nth_middle in Hl. cbn in Hl. rewrite <- app_assoc, app_nth2, Nat.sub_diag in Hl by lia.
  cbn in Hl. split_and!.
  { exact Hlen. }
  { exists h. split; [done|]. apply Is_true_true, Hh. }
  { exists c. rewrite last_snoc. split; [done|]. apply Is_true_true, Hl. }
  change (Forall is_let_dig_hyp ((h :: lb) ++ [c])). rewrite Forall_app, Forall_cons, Forall_singleton.
  assert (∀ x, is_let_dig x = true → is_let_dig_hyp x) as Hld
    by (intros x Hx; unfold is_let_dig_hyp; by rewrite Hx).
  split_and!; [apply Hld; unfold is_let_dig; by rewrite Hh| |by apply Hld].
  rewrite forallb_forall in Hm. apply Forall_lookup. intros i x Hx.
  specialize (Hm (length pre + S i)%nat). rewrite nth_middle in Hm. cbn [nth app] in Hm.
  apply lookup_lt_Some in Hx as Hi. rewrite <- app_assoc, app_nth1 in Hm by lia.
  rewrite (nth_lookup_Some _ _ _ _ Hx) in Hm. apply Is_true_true, Hm, in_seq. lia.
Qed.

Lemma label_tests_complete pre lb rest :
  valid_label lb →
  is_letter (nth (length pre) (pre ++ lb ++ rest) zero) = true ∧
  is_let_dig (nth (length pre + length lb - 1) (pre ++ lb ++ rest) zero) = true ∧
  forallb (λ i, is_let_dig_hyp (nth i (pre ++ lb ++ rest) zero))
    (seq (length pre + 1) (length pre + length lb - 1 - (length pre + 1))) = true.
Proof.
  intros (Hlen & (h & Hh & Hh') & (c & Hc & Hc') & Hall).
  split_and!.
  - rewrite <- (Nat.add_0_r (length pre)), nth_middle. destruct lb as [|h' lb]; [done|].
    injection Hh as ->. cbn. by apply Is_true_true.
  - replace (length pre + length lb - 1)%nat with (length pre + (length lb - 1))%nat by lia.
    rewrite nth_middle, app_nth1 by lia. rewrite last_lookup in Hc.
    replace (length lb - 1)%nat with (pred (length lb)) by lia.
    rewrite (nth_lookup_Some _ _ _ _ Hc). apply Is_true_true, Hc'.
  - apply forallb_forall. intros i [Hi1 Hi2]%in_seq.
    replace i with (length pre + (i - length pre))%nat by lia.
    rewrite nth_middle, app_nth1 by lia.
    destruct (lookup_lt_is_Some_2 lb (i - length pre)) as [x Hx]; [lia|].
    rewrite (nth_lookup_Some _ _ _ _ Hx). apply Is_true_true. exact (Forall_lookup_1 _ _ _ _ Hall Hx).
Qed.

Lemma valid_name_loop_step fuel pre lb rest :
  no_dot lb → (rest = [] ∨ ∃ r, rest = "."%char :: r) →
  valid_name_loop (S fuel) (pre ++ lb ++ rest) (length pre) = true ↔
    valid_label lb ∧
    (rest = [] ∨ valid_name_loop fuel (pre ++ lb ++ rest) (length pre + length lb + 1) = true).
Proof.
  intros Hlb Hrest. cbn [valid_name_loop]. rewrite find_dot_skip.
  assert (find_dot (lb ++ rest) 0 = length lb) as Hfd.
  { destruct Hrest as [->|[r ->]]; [rewrite app_nil_r; by apply find_dot_label|].
    by apply find_dot_label_dot. }
  rewrite Hfd. change (Z.to_nat MIN_ACCOUNT_NAME_LENGTH) with 3%nat.
  destruct (Nat.ltb_spec (length pre + length lb - length pre) 3) as [Hs|Hs].
  { split; [done|]. intros [[? _] _]. lia. }
  assert (3 ≤ length lb)%nat as Hlen by lia.
  replace (2 <? length (pre ++ lb ++ rest))%nat with true
    by (symmetry; apply Nat.ltb_lt; rewrite !length_app; lia).
  cbn [andb].
  destruct (is_letter _) eqn:E1; cbn [negb].
  2:{ split; [done|]. intros [Hv _]. destruct (label_tests_complete pre lb rest Hv). congruence. }
  destruct (is_let_dig _) eqn:E2; cbn [negb].
  2:{ split; [done|]. intros [Hv _].
      destruct (label_tests_complete pre lb rest Hv) as (_ & ? & _). congruence. }
  destruct (forallb _ _) eqn:E3; cbn [negb].
  2:{ split; [done|]. intros [Hv _].
      destruct (label_tests_complete pre lb rest Hv) as (_ & _ & ?). congruence. }
  pose proof (label_tests pre lb rest Hlen E1 E2 E3) as Hv.
  rewrite !length_app. destruct Hrest as [->|[r ->]].
  - cbn. rewrite Nat.add_0_r, Nat.eqb_refl. naive_solver.
  - replace (_ =? _)%nat with false by (symmetry; apply Nat.eqb_neq; cbn; lia). naive_solver.
Qed.

Lemma valid_name_loop_labels fuel pre l :
  (length l < fuel)%nat →
  valid_name_loop fuel (pre ++ l) (length pre) = true ↔ Forall valid_label (labels l).
Proof.
  revert pre l. induction fuel as [|fuel IH]; intros pre l Hf; [lia|].
  destruct (split_label l) as (lb & Hlb & [->|[r ->]]).
  - rewrite <- (app_nil_r lb) at 1. rewrite valid_name_loop_step by (done || by left).
    rewrite labels_last by done. rewrite Forall_singleton. naive_solver.
  - rewrite valid_name_loop_step by (done || (right; by exists r)).
    rewrite labels_cons by done. rewrite Forall_cons.
    specialize (IH (pre ++ lb ++ ["."%char]) r). rewrite <- !app_assoc in IH. cbn [app] in IH.
    rewrite !length_app in IH. cbn [length] in IH.
    replace (length pre + length lb + 1)%nat with (length pre + (length lb + 1))%nat by lia.
    rewrite length_app in Hf. cbn in Hf. rewrite IH by lia. naive_solver.
Qed.

(** [is_valid_account_name] decides the grammar its header documents: 3 to
    16 characters, every dot-separated label of three or more characters,
    starting with a letter, ending with a letter or digit, made of letters,
    digits and hyphens.  The bound on the rounds of the loop is enough. *)
Theorem is_valid_account_name_grammar name :
  is_valid_account_name name = true ↔
  (3 ≤ String.length name ≤ 16)%nat ∧
  Forall valid_label (labels (String.list_ascii_of_string name)).
Proof.
  unfold is_valid_account_name.
  change (Z.to_nat MIN_ACCOUNT_NAME_LENGTH) with 3%nat.
  change (Z.to_nat MAX_ACCOUNT_NAME_LENGTH) with 16%nat.
  destruct (Nat.ltb_spec (String.length name) 3); [split; [done|lia]|].
  destruct (Nat.ltb_spec 16 (String.length name)); [split; [done|lia]|].
  assert (length (String.list_ascii_of_string name) = String.length name) as E
    by (clear; induction name; cbn; auto).
  pose proof (valid_name_loop_labels (S (String.length name)) [] (String.list_ascii_of_string name))
    as Hl. cbn [app length] in Hl. rewrite Hl by lia. split; [|tauto]. intros; split; [lia|done].
Qed.
