(* ===== verification/SignState.v ===== *)
(** Checking an authority against signatures: [protocol/sign_state.hpp/.cpp].

    The state is what a [sign_state] mutates; [get_active] and [available_keys],
    which it only holds references to, are section variables.  [depth] counts up
    to [max_recursion] in the code; here [remaining] counts down what is left of
    it, so that the recursion is structural. *)

From S2P Require Import Prelude Fc Config Flat Authority.

(** [struct sign_state], libraries/protocol/include/node/protocol/sign_state.hpp:30-35 *)
Record sign_state := SignState {
  provided_signatures : gmap public_key bool;
  approved_by : gset string;
}.
#[export] Instance eta_sign_state : Eta sign_state :=
  λ r, SignState (provided_signatures r) (approved_by r).

(** [authority_getter], libraries/protocol/include/node/protocol/sign_state.hpp:8-8 *)
Definition authority_getter : Type := string → result authority.

(** [sign_state::sign_state], libraries/protocol/sign_state.cpp:74-83 *)
Definition sign_state_init (sigs : list public_key) : sign_state :=
  SignState (list_to_map ((λ k, (k, false)) <$> sigs)) {[ "temp"%string ]}.

(** [s.approved_by.insert( id )] *)
Definition approve (id : string) (s : sign_state) : sign_state :=
  s <| approved_by ::= union {[ id ]} |>.

Section sign_state.
Context (get_active : authority_getter) (available_keys : gset public_key).

(** [sign_state::signed_by], libraries/protocol/sign_state.cpp:6-17 *)
Definition signed_by (k : public_key) : M sign_state bool :=
  s ← get_state;
  match provided_signatures s !! k with
  | None =>
      if bool_decide (k ∈ available_keys) then
        put_state (s <| provided_signatures ::= insert k true |>);; mret true
      else mret false
  | Some _ => put_state (s <| provided_signatures ::= insert k true |>);; mret true
  end.

(** The loop over [auth.key_auths]; [None] is the early [return true]. *)
Fixpoint check_keys (threshold : Z) (l : list (public_key * Z)) (total_weight : Z)
    : M sign_state (option Z) :=
  match l with
  | [] => mret (Some total_weight)
  | (k, w) :: l' =>
      signed ← signed_by k;
      if (signed : bool) then
        let total_weight := wrap_u32 (total_weight + w) in
        if threshold <=? total_weight then mret None
        else check_keys threshold l' total_weight
      else check_keys threshold l' total_weight
  end.

(** The loop over [auth.account_auths]; [recurse] is [None] at
    [depth == max_recursion]. *)
Fixpoint check_accounts (recurse : option (account_name → M sign_state bool))
    (threshold : Z) (l : list (account_name * Z)) (total_weight : Z) : M sign_state (option Z) :=
  match l with
  | [] => mret (Some total_weight)
  | (a, w) :: l' =>
      s ← get_state;
      ok ← (if bool_decide (a ∈ approved_by s) then mret true
            else match recurse with
                 | None => mret false
                 | Some check =>
                     checked ← check a;
                     if (checked : bool) then
                       s ← get_state; put_state (approve a s);; mret true
                     else mret false
                 end);
      if (ok : bool) then
        let total_weight := wrap_u32 (total_weight + w) in
        if threshold <=? total_weight then mret None
        else check_accounts recurse threshold l' total_weight
      else check_accounts recurse threshold l' total_weight
  end.

(** [sign_state::check_authority( authority, depth )], libraries/protocol/sign_state.cpp:25-60 *)
Fixpoint check_authority (remaining : nat) (auth : authority) : M sign_state bool :=
  r ← check_keys (weight_threshold auth) (key_auths auth) 0;
  match r with
  | None => mret true
  | Some total_weight =>
      let recurse :=
        match remaining with
        | O => None
        | S remaining' =>
            Some (λ a, active ← lift (get_active a); check_authority remaining' active)
        end in
      r ← check_accounts recurse (weight_threshold auth) (account_auths auth) total_weight;
      match r with
      | None => mret true
      | Some total_weight => mret (weight_threshold auth <=? total_weight)
      end
  end.

(** The call made for an account of the list. *)
Definition recurse_at (remaining : nat) : option (account_name → M sign_state bool) :=
  match remaining with
  | O => None
  | S remaining' => Some (λ a, active ← lift (get_active a); check_authority remaining' active)
  end.

Lemma check_authority_unfold n auth :
  check_authority n auth =
    (r ← check_keys (weight_threshold auth) (key_auths auth) 0;
     match r with
     | None => mret true
     | Some t =>
         r ← check_accounts (recurse_at n) (weight_threshold auth) (account_auths auth) t;
         match r with None => mret true | Some t => mret (weight_threshold auth <=? t) end
     end).
Proof. by destruct n. Qed.

(** [sign_state::check_authority( string )], libraries/protocol/sign_state.cpp:19-23 *)
Definition check_account_authority (max_recursion : nat) (id : string) : M sign_state bool :=
  s ← get_state;
  if bool_decide (id ∈ approved_by s) then mret true
  else active ← lift (get_active id); check_authority max_recursion active.
End sign_state.

(** [sign_state::remove_unused_signatures], libraries/protocol/sign_state.cpp:62-72 *)
Definition remove_unused_signatures : M sign_state bool :=
  s ← get_state;
  let remove_sigs := filter (λ p, p.2 = false) (provided_signatures s) in
  put_state (s <| provided_signatures ::= filter (λ p, p.2 = true) |>);;
  mret (negb (bool_decide (remove_sigs = ∅))).

(** * Specification *)

Definition weight_sum (l : list (string * Z)) : Z := foldr (λ p acc, p.2 + acc) 0 l.

(** Weights are unsigned. *)
Definition wf_weights (l : list (string * Z)) : Prop := Forall (λ p, 0 ≤ p.2) l.
Definition wf_authority (a : authority) : Prop := wf_weights (key_auths a) ∧ wf_weights (account_auths a).

Section spec.
Context (get_active : authority_getter) (keys : gset public_key) (approved : gset string).

(** The keys [keys] and the accounts [approved] suffice for an authority,
    delegating through the authorities of accounts to any depth. *)
Inductive authorized : authority → Prop :=
| authorized_intro auth ks accs :
    ks `sublist_of` key_auths auth → accs `sublist_of` account_auths auth →
    (∀ p, p ∈ ks → p.1 ∈ keys) →
    (∀ p, p ∈ accs → account_authorized p.1) →
    weight_threshold auth ≤ weight_sum ks + weight_sum accs →
    authorized auth
with account_authorized : string → Prop :=
| approved_account a : a ∈ approved → account_authorized a
| delegated_account a auth : get_active a = Ok auth → authorized auth → account_authorized a.

(** The same with at most [n] levels of delegation, as a function. *)
Fixpoint sufficient (n : nat) (auth : authority) : bool :=
  let ok a :=
    bool_decide (a ∈ approved) ||
    match n with
    | O => false
    | S n' => match get_active a with Ok auth' => sufficient n' auth' | Err _ => false end
    end in
  weight_threshold auth <=?
    weight_sum (filter (λ p, p.1 ∈ keys) (key_auths auth)) +
    weight_sum (filter (λ p, ok p.1 = true) (account_auths auth)).
End spec.

Lemma weight_sum_app l1 l2 : weight_sum (l1 ++ l2) = weight_sum l1 + weight_sum l2.
Proof. induction l1 as [|p l1 IH]; cbn; [done|]. fold (weight_sum (l1 ++ l2)). rewrite IH. unfold weight_sum. lia. Qed.

Lemma weight_sum_nonneg l : wf_weights l → 0 ≤ weight_sum l.
Proof. induction 1 as [|p l Hp _ IH]; cbn; [done|]. unfold weight_sum in IH. lia. Qed.

Lemma wrap_u32_le x : 0 ≤ x → 0 ≤ wrap_u32 x ≤ x.
Proof. intros Hx. unfold wrap_u32. split; [by apply Z.mod_pos_bound|by apply Z.mod_le]. Qed.

(** * Soundness *)

Section soundness.
Context (get_active : authority_getter) (available_keys : gset public_key).
Context (keys : gset public_key) (approved : gset string).
Hypothesis Hget : ∀ a auth, get_active a = Ok auth → wf_authority auth.

Abbreviation authorized := (authorized get_active keys approved).
Abbreviation account_authorized := (account_authorized get_active keys approved).

(** Every key the state knows is one of [keys], every account it has approved
    is authorized. *)
Definition sound_state (s : sign_state) : Prop :=
  dom (provided_signatures s) ∪ available_keys ⊆ keys ∧
  ∀ a, a ∈ approved_by s → account_authorized a.

Lemma signed_by_sound k s b s' :
  ⟨ signed_by available_keys k, s ⟩ ⇓ ⟨ b, s' ⟩ → sound_state s →
  sound_state s' ∧ (b = true → k ∈ keys).
Proof.
  unfold signed_by. intros Hrun [Hk Ha]. runs_step. runs_step.
  destruct (provided_signatures s !! k) as [?|] eqn:E.
  - runs_inv. assert (k ∈ dom (provided_signatures s)) by (apply elem_of_dom; eauto).
    split; [|set_solver]. split; [|exact Ha]. fields. rewrite dom_insert. set_solver.
  - destruct (bool_decide _) eqn:Ed; runs_inv; [|done]. apply bool_decide_eq_true in Ed.
    split; [|set_solver]. split; [|exact Ha]. fields. rewrite dom_insert. set_solver.
Qed.

(** What a loop has found so far: a part of the list [l] it has walked whose
    weights reach the total. *)
Definition found (P : string → Prop) (l : list (string * Z)) (total : Z) : Prop :=
  ∃ ks, ks `sublist_of` l ∧ (∀ p, p ∈ ks → P p.1) ∧ total ≤ weight_sum ks.

Lemma found_nil P : found P [] 0.
Proof. exists []. split_and!; [done|set_solver|done]. Qed.

Lemma found_skip P l p t : found P l t → found P (l ++ [p]) t.
Proof. intros (ks & ? & ? & ?). exists ks. split_and!; try done. by apply sublist_inserts_r. Qed.

Lemma found_take (P : string → Prop) l p t :
  found P l t → P p.1 → 0 ≤ t → 0 ≤ p.2 → found P (l ++ [p]) (wrap_u32 (t + p.2)).
Proof.
  intros (ks & Hs & HP & Ht) Hp H0 H1. exists (ks ++ [p]). split_and!.
  - by apply sublist_app.
  - intros q [?| ->%list_elem_of_singleton]%elem_of_app; auto.
  - rewrite weight_sum_app. cbn. pose proof (wrap_u32_le (t + p.2)). lia.
Qed.

Lemma check_keys_sound thr l : ∀ l0 total s r s',
  ⟨ check_keys available_keys thr l total, s ⟩ ⇓ ⟨ r, s' ⟩ →
  sound_state s → wf_weights l → 0 ≤ total → found (λ k, k ∈ keys) l0 total →
  sound_state s' ∧
  match r with
  | Some t => 0 ≤ t ∧ found (λ k, k ∈ keys) (l0 ++ l) t
  | None => ∃ t, thr ≤ t ∧ found (λ k, k ∈ keys) (l0 ++ l) t
  end.
Proof.
  induction l as [|[k w] l IH]; cbn [check_keys]; intros l0 total s r s' Hrun Hs Hw H0 Hf.
  - runs_inv. rewrite app_nil_r. auto.
  - apply Forall_cons in Hw as [Hw0 Hw]. cbn in Hw0.
    runs_step. apply signed_by_sound in Hr as [Hs1 Hk]; [|done].
    rewrite (cons_middle (k, w)). rewrite app_assoc. destruct v.
    + pose proof (found_take _ l0 (k, w) total Hf (Hk eq_refl) H0 Hw0) as Hf'. cbn in Hf'.
      pose proof (wrap_u32_le (total + w)).
      destruct (Z.leb_spec thr (wrap_u32 (total + w))).
      * runs_inv. split; [done|]. eexists. split; [done|].
        destruct Hf' as (ks & ? & ? & ?). exists ks. split_and!; try done.
        by apply sublist_inserts_r.
      * eapply IH; eauto. lia.
    + eapply IH; eauto. by apply found_skip.
Qed.

Lemma check_accounts_sound recurse thr l :
  (∀ check a s b s', recurse = Some check → ⟨ check a, s ⟩ ⇓ ⟨ b, s' ⟩ → sound_state s →
     sound_state s' ∧ (b = true → account_authorized a)) →
  ∀ l0 total s r s',
  ⟨ check_accounts recurse thr l total, s ⟩ ⇓ ⟨ r, s' ⟩ →
  sound_state s → wf_weights l → 0 ≤ total →
  ∀ base, found account_authorized l0 (total - base) → 0 ≤ base →
  sound_state s' ∧
  match r with
  | Some t => found account_authorized (l0 ++ l) (t - base)
  | None => ∃ t, thr ≤ t ∧ found account_authorized (l0 ++ l) (t - base)
  end.
Proof.
  intros Hrec. induction l as [|[a w] l IH]; cbn [check_accounts];
    intros l0 total s r s' Hrun Hs Hw H0 base Hf Hb.
  - runs_inv. rewrite app_nil_r. auto.
  - apply Forall_cons in Hw as [Hw0 Hw]. cbn in Hw0. runs_step. runs_step. runs_step.
    rewrite (cons_middle (a, w)). rewrite app_assoc.
    assert (sound_state s0 ∧ (v = true → account_authorized a)) as [Hs1 Ha].
    { destruct (bool_decide _) eqn:Ed.
      { runs_inv. split; [done|]. intros _. apply bool_decide_eq_true in Ed. by apply Hs. }
      destruct recurse as [check|]; [|by runs_inv].
      runs_step. eapply Hrec in Hr0 as [Hs1 Hok]; [|done|done].
      destruct v0; runs_inv; [|done]. split; [|auto]. destruct Hs1 as [Hk Hap].
      split; [done|]. unfold approve. fields. intros a' [->%elem_of_singleton|?]%elem_of_union; auto. }
    destruct v.
    + assert (found account_authorized (l0 ++ [(a, w)]) (wrap_u32 (total + w) - base)) as Hf'.
      { destruct Hf as (ks & Hsub & HP & Ht). exists (ks ++ [(a, w)]). split_and!.
        - by apply sublist_app.
        - intros q [?| ->%list_elem_of_singleton]%elem_of_app; auto.
        - rewrite weight_sum_app. cbn. pose proof (wrap_u32_le (total + w)). lia. }
      pose proof (wrap_u32_le (total + w)).
      destruct (Z.leb_spec thr (wrap_u32 (total + w))).
      * runs_inv. split; [done|]. eexists. split; [done|].
        destruct Hf' as (ks & ? & ? & ?). exists ks. split_and!; try done.
        by apply sublist_inserts_r.
      * eapply IH; eauto. lia.
    + eapply IH; eauto. by apply found_skip.
Qed.

Lemma found_authorized auth tk ta :
  found (λ k, k ∈ keys) (key_auths auth) tk →
  found account_authorized (account_auths auth) ta →
  weight_threshold auth ≤ tk + ta → authorized auth.
Proof.
  intros (ks & ? & ? & ?) (accs & ? & ? & ?) ?. eapply authorized_intro; eauto. lia.
Qed.

(** One level, given that the recursive calls are sound. *)
Lemma check_accounts_from recurse auth t s r s' :
  (∀ check a s b s', recurse = Some check → ⟨ check a, s ⟩ ⇓ ⟨ b, s' ⟩ → sound_state s →
     sound_state s' ∧ (b = true → account_authorized a)) →
  ⟨ check_accounts recurse (weight_threshold auth) (account_auths auth) t, s ⟩ ⇓ ⟨ r, s' ⟩ →
  wf_authority auth → sound_state s → 0 ≤ t → found (λ k, k ∈ keys) (key_auths auth) t →
  sound_state s' ∧
  (match r with Some t' => weight_threshold auth ≤ t' | None => True end → authorized auth).
Proof.
  intros Hrec Hrun [_ Hw] Hs Ht Hf.
  eapply (check_accounts_sound _ _ _ Hrec []) with (base := t) in Hrun as [Hs' Hr]; try done.
  2:{ rewrite Z.sub_diag. apply found_nil. }
  split; [done|]. cbn [app] in Hr. destruct r as [t'|]; intros Hthr.
  - eapply found_authorized; [done..|]. lia.
  - destruct Hr as (t' & ? & ?). eapply found_authorized; [done..|]. lia.
Qed.

Lemma check_authority_sound n : ∀ auth s b s',
  ⟨ check_authority get_active available_keys n auth, s ⟩ ⇓ ⟨ b, s' ⟩ →
  wf_authority auth → sound_state s →
  sound_state s' ∧ (b = true → authorized auth).
Proof.
  induction n as [n IH] using lt_wf_ind; intros auth s b s' Hrun Hwf Hs.
  rewrite check_authority_unfold in Hrun. runs_step.
  eapply (check_keys_sound _ _ []) in Hr as [Hs1 Hr]; [|done|apply Hwf|done|apply found_nil].
  cbn [app] in Hr. destruct v as [t|].
  - destruct Hr as [Ht Hr]. runs_step. eapply check_accounts_from in Hr0 as [Hs2 Hok]; try done.
    + destruct v as [t'|]; runs_inv; (split; [done|]); intros Hb; apply Hok; [by apply Z.leb_le|done].
    + intros check a s2 b2 s2' Hrec Hc Hs2. destruct n as [|n]; [done|]. injection Hrec as <-.
      runs_inv. eapply IH in Hc as [? Hau]; eauto. split; [done|]. intros Hb.
      eapply delegated_account; eauto.
  - runs_inv. split; [done|]. intros _. destruct Hr as (t & ? & ?).
    eapply (found_authorized _ t 0); [done|exists []; split_and!|lia];
      [apply sublist_nil_l|set_solver|done].
Qed.

Lemma check_account_sound n a s b s' :
  ⟨ check_account_authority get_active available_keys n a, s ⟩ ⇓ ⟨ b, s' ⟩ → sound_state s →
  sound_state s' ∧ (b = true → account_authorized a).
Proof.
  unfold check_account_authority. intros Hrun Hs. runs_step. runs_step.
  destruct (bool_decide _) eqn:Ed.
  - runs_inv. split; [done|]. intros _. apply bool_decide_eq_true in Ed. by apply Hs.
  - runs_step. runs_step. eapply check_authority_sound in Hrun as [? Hau]; eauto.
    split; [done|]. intros Hb. eapply delegated_account; eauto.
Qed.
End soundness.

(** * Completeness *)

Lemma weight_sum_filter_le (P : string * Z → Prop) `{∀ p, Decision (P p)} l :
  wf_weights l → 0 ≤ weight_sum (filter P l) ≤ weight_sum l.
Proof.
  induction 1 as [|p l Hp Hl IH]; [done|]. rewrite filter_cons.
  unfold weight_sum in *. case_decide; cbn; lia.
Qed.

(** The weights of an authority do not overflow the 32-bit total. *)
Definition bounded_authority (a : authority) : Prop :=
  weight_sum (key_auths a) + weight_sum (account_auths a) < 2 ^ 32.

Section completeness.
Context (get_active : authority_getter) (available_keys : gset public_key).
Context (keys : gset public_key) (approved : gset string).

(** Every authority met within [n] levels of delegation from this one is well formed and
    does not overflow: the getter answers for the accounts it names, except those that
    are approved already.  Of other accounts nothing is asked. *)
Fixpoint answered (n : nat) (auth : authority) : Prop :=
  wf_authority auth ∧ bounded_authority auth ∧
  match n with
  | O => True
  | S n' => ∀ a, a ∈ (account_auths auth).*1 → a ∉ approved → ∃ auth', get_active a = Ok auth' ∧ answered n' auth'
  end.
Lemma answered_here n auth : answered n auth → wf_authority auth ∧ bounded_authority auth.
Proof. destruct n; cbn; tauto. Qed.

(** The state knows all of [keys] and has approved all of [approved]. *)
Definition complete_state (s : sign_state) : Prop :=
  keys ⊆ dom (provided_signatures s) ∪ available_keys ∧ approved ⊆ approved_by s.

Lemma signed_by_complete k s :
  complete_state s →
  ∃ b s', ⟨ signed_by available_keys k, s ⟩ ⇓ ⟨ b, s' ⟩ ∧ complete_state s' ∧ (k ∈ keys → b = true).
Proof.
  intros [Hk Ha]. unfold runs, signed_by, mbind, M_bind, get_state.
  destruct (provided_signatures s !! k) as [?|] eqn:E.
  - eexists true, _. split; [reflexivity|]. split; [|done]. split; [|exact Ha].
    fields. rewrite dom_insert. set_solver.
  - case_bool_decide.
    + eexists true, _. split; [reflexivity|]. split; [|done]. split; [|exact Ha].
      fields. rewrite dom_insert. set_solver.
    + eexists false, _. split; [reflexivity|]. split; [done|]. intros [Hd|?]%Hk%elem_of_union; [|done].
      apply elem_of_dom in Hd as [??]. congruence.
Qed.

Lemma check_keys_complete thr l : ∀ total s,
  complete_state s → wf_weights l → 0 ≤ total → total + weight_sum l < 2 ^ 32 →
  ∃ r s', ⟨ check_keys available_keys thr l total, s ⟩ ⇓ ⟨ r, s' ⟩ ∧ complete_state s' ∧
    ∀ t, r = Some t → total + weight_sum (filter (λ p, p.1 ∈ keys) l) ≤ t ≤ total + weight_sum l.
Proof.
  induction l as [|[k w] l IH]; intros total s Hs Hw H0 Hb; cbn [check_keys].
  - eexists _, s. split; [by apply runs_ret|]. split; [done|]. intros t [= <-]. cbn. lia.
  - apply Forall_cons in Hw as [Hw0 Hw]. cbn in Hw0.
    destruct (signed_by_complete k s Hs) as (b & s1 & Hr & Hs1 & Hkb).
    pose proof (weight_sum_nonneg l Hw).
    change (weight_sum ((k, w) :: l)) with (w + weight_sum l) in *.
    rewrite filter_cons. cbn [fst].
    destruct b.
    + assert (wrap_u32 (total + w) = total + w) as E by (apply Z.mod_small; lia).
      destruct (Z.leb_spec thr (wrap_u32 (total + w))) as [Ht|Ht].
      * eexists None, s1. split; [|done]. eapply runs_bind_intro; [done|]. by apply runs_ret.
      * destruct (IH (wrap_u32 (total + w)) s1) as (r & s2 & Hr2 & Hs2 & Hres); [done..|lia|lia|].
        exists r, s2. split; [|split; [done|]].
        -- by eapply runs_bind_intro.
        -- intros t Hrt. specialize (Hres t Hrt).
           case_decide; [change (weight_sum (?p :: ?m)) with (p.2 + weight_sum m); cbn [snd]|]; lia.
    + destruct (IH total s1) as (r & s2 & Hr2 & Hs2 & Hres); [done..|lia|].
      exists r, s2. split; [by eapply runs_bind_intro|]. split; [done|]. intros t Hrt.
      specialize (Hres t Hrt). rewrite decide_False by (intros ?%Hkb; done). lia.
Qed.

(** Whether an account counts, given what the recursion decides. *)
Definition account_ok (sub : option (string → bool)) (a : string) : bool :=
  bool_decide (a ∈ approved) || match sub with Some f => f a | None => false end.

Lemma check_accounts_complete (Q : string → Prop) recurse sub thr l :
  match recurse, sub with
  | Some check, Some f => ∀ a s, Q a → complete_state s →
      ∃ b s', ⟨ check a, s ⟩ ⇓ ⟨ b, s' ⟩ ∧ complete_state s' ∧ (f a = true → b = true)
  | None, None => True
  | _, _ => False
  end → (∀ a, a ∈ l.*1 → a ∉ approved → Q a) → ∀ total s,
  complete_state s → wf_weights l → 0 ≤ total → total + weight_sum l < 2 ^ 32 →
  ∃ r s', ⟨ check_accounts recurse thr l total, s ⟩ ⇓ ⟨ r, s' ⟩ ∧ complete_state s' ∧
    ∀ t, r = Some t → total + weight_sum (filter (λ p, account_ok sub p.1 = true) l) ≤ t.
Proof.
  intros Hrec. induction l as [|[a w] l IH]; intros HQ total s Hs Hw H0 Hb; cbn [check_accounts].
  - eexists _, s. split; [by apply runs_ret|]. split; [done|]. intros t [= <-]. cbn. lia.
  - specialize (IH (λ x Hx, HQ x (list_elem_of_further _ _ _ Hx))).
    apply Forall_cons in Hw as [Hw0 Hw]. cbn in Hw0. pose proof (weight_sum_nonneg l Hw).
    change (weight_sum ((a, w) :: l)) with (w + weight_sum l) in *.
    rewrite filter_cons. cbn [fst].
    match goal with |- context [get_state ≫= λ s, @?m s ≫= ?k] => set (step := m); set (rest := k) end.
    assert (∃ b s1, ⟨ step s, s ⟩ ⇓ ⟨ b, s1 ⟩ ∧ complete_state s1 ∧
              (account_ok sub a = true → b = true)) as (b & s1 & Hr & Hs1 & Hab).
    { unfold step, account_ok. case_bool_decide as Ha.
      - eexists true, s. split; [by apply runs_ret|]. done.
      - assert (a ∉ approved) as Hna by (destruct Hs; set_solver). rewrite (bool_decide_eq_false_2 (a ∈ approved)) by done.
        destruct recurse as [check|], sub as [f|]; try done.
        + destruct (Hrec a s (HQ a (list_elem_of_here _ _) Hna) Hs) as (b & s1 & Hr & Hs1 & Hfb). destruct b.
          * eexists true, (approve a s1). split; [|split; [|done]].
            -- eapply runs_bind_intro; [done|]. done.
            -- destruct Hs1 as [Hk1 Ha1]. split; [done|]. unfold approve. fields. set_solver.
          * eexists false, s1. split; [|done]. eapply runs_bind_intro; [done|]. done.
        + eexists false, s. split; [by apply runs_ret|]. done. }
    assert (∀ r s2, ⟨ rest b, s1 ⟩ ⇓ ⟨ r, s2 ⟩ →
              ⟨ get_state ≫= λ s, step s ≫= rest, s ⟩ ⇓ ⟨ r, s2 ⟩) as Hgo.
    { intros r s2 Hrest. eapply (runs_bind_intro _ _ s s s); [done|]. by eapply runs_bind_intro. }
    destruct b; cbn in Hgo.
    + assert (wrap_u32 (total + w) = total + w) as E by (apply Z.mod_small; lia).
      destruct (Z.leb_spec thr (wrap_u32 (total + w))) as [Ht|Ht].
      * eexists None, s1. split; [|done]. apply Hgo. by apply runs_ret.
      * destruct (IH (wrap_u32 (total + w)) s1) as (r & s2 & Hr2 & Hs2 & Hres); [done..|lia|lia|].
        exists r, s2. split; [by apply Hgo|]. split; [done|].
        intros t Hrt. specialize (Hres t Hrt).
        case_decide; [change (weight_sum (?p :: ?m)) with (p.2 + weight_sum m); cbn [snd]|]; lia.
    + destruct (IH total s1) as (r & s2 & Hr2 & Hs2 & Hres); [done..|lia|].
      exists r, s2. split; [by apply Hgo|]. split; [done|]. intros t Hrt.
      specialize (Hres t Hrt). rewrite decide_False by (intros ?%Hab; done). lia.
Qed.

Definition sub_sufficient (n : nat) : option (string → bool) :=
  match n with
  | O => None
  | S n' => Some (λ a, match get_active a with
                       | Ok auth' => sufficient get_active keys approved n' auth'
                       | Err _ => false end)
  end.

Lemma sufficient_unfold n auth :
  sufficient get_active keys approved n auth = true ↔
  weight_threshold auth ≤
    weight_sum (filter (λ p, p.1 ∈ keys) (key_auths auth)) +
    weight_sum (filter (λ p, account_ok (sub_sufficient n) p.1 = true) (account_auths auth)).
Proof. destruct n; apply Z.leb_le. Qed.

Lemma check_authority_complete n : ∀ auth s,
  answered n auth → complete_state s →
  ∃ b s', ⟨ check_authority get_active available_keys n auth, s ⟩ ⇓ ⟨ b, s' ⟩ ∧
    complete_state s' ∧ (sufficient get_active keys approved n auth = true → b = true).
Proof.
  induction n as [n IH] using lt_wf_ind; intros auth s Ha Hs.
  destruct (answered_here _ _ Ha) as [[Hwk Hwa] Hb]. unfold bounded_authority in Hb. pose proof (weight_sum_nonneg _ Hwa).
  destruct (check_keys_complete (weight_threshold auth) (key_auths auth) 0 s)
    as (r & s1 & Hr & Hs1 & Hres); [done..|lia|].
  rewrite check_authority_unfold.
  destruct r as [t|]; [|eexists true, s1; split; [by eapply runs_bind_intro|done]].
  specialize (Hres t eq_refl).
  pose proof (weight_sum_filter_le (λ p, p.1 ∈ keys) _ Hwk) as Hfk.
  destruct (check_accounts_complete
    (λ a, match n with O => True | S n' => ∃ auth', get_active a = Ok auth' ∧ answered n' auth' end) (recurse_at get_active available_keys n) (sub_sufficient n)
    (weight_threshold auth) (account_auths auth)) with (total := t) (s := s1)
    as (r & s2 & Hr2 & Hs2 & Hres2); [| |done|done|lia|lia|].
  2:{ destruct n; [done|]. apply Ha. }
  { destruct n as [|n]; [done|]. intros a s2 (auth' & Hget & Ha') Hs2.
    destruct (IH n ltac:(lia) auth' s2 Ha' Hs2) as (b & s3 & Hr3 & Hs3 & Hok).
    exists b, s3. rewrite Hget. split; [|done]. eapply runs_bind_intro; [by apply runs_lift|done]. }
  destruct r as [t'|].
  - specialize (Hres2 t' eq_refl). eexists (weight_threshold auth <=? t'), s2.
    split; [|split; [done|]].
    2:{ intros Hsuf%sufficient_unfold. apply Z.leb_le. lia. }
    eapply runs_bind_intro; [done|]. by eapply runs_bind_intro.
  - eexists true, s2. split; [|done]. eapply runs_bind_intro; [done|]. by eapply runs_bind_intro.
Qed.
End completeness.

(** * The contract of [check_authority] *)

Definition example_getter : authority_getter :=
  λ a, if decide (a = "bob"%string) then Ok (Authority 1 [] [("K"%string, 1)])
       else Ok (Authority 1 [("bob"%string, 1)] []).

(** C37. [check_authority] accepts an authority only if the signing keys and the
    approved accounts satisfy it: some keys of the authority that signed and
    some of its accounts that are approved, or whose own authority is
    satisfied in the same way, weigh at least the threshold. *)
Theorem check_authority_contract get_active available_keys n auth s s' :
  (∀ a auth, get_active a = Ok auth → wf_authority auth) → wf_authority auth →
  ⟨ check_authority get_active available_keys n auth, s ⟩ ⇓ ⟨ true, s' ⟩ →
  authorized get_active (dom (provided_signatures s) ∪ available_keys) (approved_by s) auth.
Proof.
  intros Hget Hwf Hrun.
  eapply (check_authority_sound _ _ (dom (provided_signatures s) ∪ available_keys) (approved_by s))
    in Hrun as [_ Hok]; auto.
  split; [done|]. intros a Ha. by apply approved_account.
Qed.

Lemma check_authority_contract_witness :
  authorized example_getter ({[ "K"%string ]} ∪ ∅) {[ "temp"%string ]}
    (Authority 1 [("alice"%string, 1)] []).
Proof.
  pose proof (check_authority_contract example_getter ∅ 2 (Authority 1 [("alice"%string, 1)] [])
    (sign_state_init ["K"%string])) as Hc.
  rewrite (dom_singleton_L "K"%string false : dom (provided_signatures (sign_state_init ["K"%string]))
    = {[ "K"%string ]}) in Hc.
  eapply Hc.
  - intros a auth Ha. unfold example_getter in Ha. case_decide; injection Ha as <-;
      (split; repeat constructor; cbn; lia).
  - split; repeat constructor; cbn; lia.
  - vm_compute. reflexivity.
Defined.

(** C38. When the getter answers for the accounts that the authority delegates to, down
    to [n] levels and apart from those already approved, and the weights of none of the
    authorities met overflow 32 bits, [check_authority] returns, without throwing, and
    returns [true] whenever the authority is satisfied with at most [n] levels of
    delegation. *)
Theorem check_authority_total get_active available_keys n auth s :
  answered get_active (approved_by s) n auth →
  ∃ b s', ⟨ check_authority get_active available_keys n auth, s ⟩ ⇓ ⟨ b, s' ⟩ ∧
    (sufficient get_active (dom (provided_signatures s) ∪ available_keys) (approved_by s) n auth = true →
     b = true).
Proof.
  intros Ha.
  destruct (check_authority_complete get_active available_keys
    (dom (provided_signatures s) ∪ available_keys) (approved_by s) n auth s Ha)
    as (b & s' & ? & _ & ?); [done|]. eauto.
Qed.

(** Only Alice, Bob and their authorities are known. *)
Definition known_getter : authority_getter :=
  λ a, if decide (a = "bob"%string) then Ok (Authority 1 [("temp"%string, 1)] [("K"%string, 1)])
       else if decide (a = "alice"%string) then Ok (Authority 1 [("bob"%string, 1)] [])
       else Err (out_of_range "unknown key").
Lemma check_authority_total_witness :
  ∃ b s', ⟨ check_authority known_getter ∅ 2 (Authority 1 [("alice"%string, 1)] []),
            sign_state_init ["K"%string] ⟩ ⇓ ⟨ b, s' ⟩.
Proof.
  destruct (check_authority_total known_getter ∅ 2 (Authority 1 [("alice"%string, 1)] [])
    (sign_state_init ["K"%string])) as (b & s' & Hr & _).
  - assert (∀ a (l : list (string * Z)), (length l ≤ 1)%nat → Forall (λ p, p.2 = 1) l →
      wf_authority (Authority 1 [(a, 1)] l) ∧ bounded_authority (Authority 1 [(a, 1)] l)) as Hok.
    { intros a l Hl H1. unfold wf_authority, wf_weights, bounded_authority. destruct l as [|[k w] [|]]; cbn in *; [| |lia].
      - repeat split; repeat constructor; cbn; lia.
      - apply Forall_inv in H1. cbn in H1. subst. repeat split; repeat constructor; cbn; lia. }
    destruct (Hok "alice"%string []) as [H1 H2]; [cbn; lia|constructor|]. split; [exact H1|split; [exact H2|]].
    intros a Ha _. apply list_elem_of_singleton in Ha as ->. eexists. split; [vm_compute; reflexivity|].
    destruct (Hok "bob"%string []) as [H3 H4]; [cbn; lia|constructor|]. split; [exact H3|split; [exact H4|]].
    intros a Ha _. apply list_elem_of_singleton in Ha as ->. eexists. split; [vm_compute; reflexivity|].
    destruct (Hok "temp"%string [("K"%string, 1)]) as [H5 H6]; [cbn; lia|by repeat constructor|]. by split.
  - by exists b, s'.
Defined.

(** [remove_unused_signatures] answers whether some provided signature was
    never used, and leaves exactly the used ones. *)
Theorem remove_unused_signatures_spec s :
  ∃ b s', ⟨ remove_unused_signatures, s ⟩ ⇓ ⟨ b, s' ⟩ ∧
    (b = true ↔ ∃ k, provided_signatures s !! k = Some false) ∧
    (∀ k v, provided_signatures s' !! k = Some v ↔ provided_signatures s !! k = Some v ∧ v = true) ∧
    approved_by s' = approved_by s.
Proof.
  unfold remove_unused_signatures. eexists _, _. split.
  { eapply runs_bind_intro; [by apply runs_get|]. eapply runs_bind_intro; [by apply (runs_put _ _ tt)|].
    by apply runs_ret. }
  split_and!.
  - rewrite negb_true_iff, bool_decide_eq_false. split.
    + intros Hne. apply map_choose in Hne as (k & v & [Hk Hv]%map_lookup_filter_Some).
      cbn in Hv. exists k. by rewrite Hk, Hv.
    + intros [k Hk] He. by apply (map_filter_empty_not_lookup _ _ k false He).
  - intros k v. fields. rewrite map_lookup_filter_Some. done.
  - fields. done.
Qed.
