(* ===== verification/Asset.v ===== *)
(** Assets and prices: [protocol/asset.hpp] and [protocol/asset.cpp].

    An asset is an amount ([share_type], a checked 64-bit integer) and a symbol
    (an unsigned 64-bit integer whose byte 0 holds the number of decimals and
    whose bytes 1 to 6 hold the name).  Comparisons throw when the symbols
    differ, so they return a [result]. *)

From Stdlib Require Import Ascii.
From stdpp Require Import pretty.
From S2P Require Import Prelude Fc Config.

(** [struct asset], libraries/protocol/include/node/protocol/asset.hpp:9-15 *)
Record asset := Asset { amount : Z; symbol : Z }.
#[export] Instance eta_asset : Eta asset := λ r, Asset (amount r) (symbol r).
#[export] Instance asset_eq_dec : EqDecision asset.
Proof. solve_decision. Defined.

(** [struct price], libraries/protocol/include/node/protocol/asset.hpp:84-102 *)
Record price := Price { base : asset; quote : asset }.
#[export] Instance eta_price : Eta price := λ r, Price (base r) (quote r).
#[export] Instance price_eq_dec : EqDecision price.
Proof. solve_decision. Defined.

(** Bytes of a symbol, [(const char* )&symbol] on a little-endian machine. *)
Definition symbol_byte (s : Z) (i : Z) : Z := Z.land (Z.shiftr s (8 * i)) 255.

(** The C string at [p], reading at most the listed bytes. *)
Fixpoint c_string (bytes : list Z) : string :=
  match bytes with
  | [] => ""
  | b :: bs => if b =? 0 then "" else String (Ascii.ascii_of_N (Z.to_N b)) (c_string bs)
  end.

Section asset.
Context {F : Fc}.
Implicit Types (p q : price).

(** ** Comparison *)

(** [asset::operator ==], libraries/protocol/include/node/protocol/asset.hpp:44-47 *)
Definition asset_eqb a b : bool := (symbol a =? symbol b) && (amount a =? amount b).
(** [asset::operator <], libraries/protocol/include/node/protocol/asset.hpp:48-52 *)
Definition asset_lt a b : result bool :=
  fc_check (symbol a =? symbol b) "" ;; Ok (amount a <? amount b).
(** [asset::operator <=], libraries/protocol/include/node/protocol/asset.hpp:53-56 *)
Definition asset_le a b : result bool := if asset_eqb a b then Ok true else asset_lt a b.
(** [asset::operator !=], libraries/protocol/include/node/protocol/asset.hpp:58-61 *)
Definition asset_neb a b : bool := negb (asset_eqb a b).
(** [asset::operator >], libraries/protocol/include/node/protocol/asset.hpp:62-65 *)
Definition asset_gt a b : result bool := negb <$> asset_le a b.
(** [asset::operator >=], libraries/protocol/include/node/protocol/asset.hpp:66-69 *)
Definition asset_ge a b : result bool := negb <$> asset_lt a b.

(** ** Arithmetic *)

(** [asset::operator +, +=], libraries/protocol/include/node/protocol/asset.hpp:76-80 *)
Definition asset_add a b : result asset :=
  fc_check (symbol a =? symbol b) "" ;;
  x ← safe_add (amount a) (amount b); Ok (Asset x (symbol a)).
(** [asset::operator -, -=], libraries/protocol/include/node/protocol/asset.hpp:71-75 *)
Definition asset_sub a b : result asset :=
  fc_check (symbol a =? symbol b) "" ;;
  x ← safe_sub (amount a) (amount b); Ok (Asset x (symbol a)).
(** [asset::operator -()], libraries/protocol/include/node/protocol/asset.hpp:42-42 *)
Definition asset_neg a : result asset := x ← safe_neg (amount a); Ok (Asset x (symbol a)).

(** ** Symbols *)

(** [asset::decimals], libraries/protocol/asset.cpp:18-24 *)
Definition decimals a : result Z :=
  let r := symbol_byte (symbol a) 0 in
  fc_check (r <? 15) "" ;; Ok r.
(** [asset::set_decimals], libraries/protocol/asset.cpp:26-31 *)
Definition set_decimals (d : Z) a : result asset :=
  fc_check (d <? 15) "" ;;
  Ok (a <| symbol := Z.lor (Z.land (symbol a) (Z.lxor u64_max 255)) d |>).
(** [asset::symbol_name], libraries/protocol/asset.cpp:33-38 *)
Definition symbol_name a : result string :=
  fc_check (symbol_byte (symbol a) 7 =? 0) "" ;;
  Ok (c_string (symbol_byte (symbol a) <$> [1; 2; 3; 4; 5; 6; 7])).
(** [asset::precision], libraries/protocol/asset.cpp:40-51 *)
Definition precision_table : list Z :=
  [1; 10; 100; 1000; 10000; 100000; 1000000; 10000000; 100000000; 1000000000;
   10000000000; 100000000000; 1000000000000; 10000000000000; 100000000000000].
(** [asset::precision], libraries/protocol/asset.cpp:40-51 *)
Definition precision a : result Z :=
  d ← decimals a; Ok (nth (Z.to_nat d) precision_table 0).

(** ** Text *)

(** [std::string::erase( 0, 1 )] *)
Definition erase_first (s : string) : string :=
  match s with String _ s' => s' | EmptyString => EmptyString end.

(** [asset::to_string], libraries/protocol/asset.cpp:53-67 *)
Definition asset_to_string a : result string :=
  prec ← precision a;
  let result := fc_to_string (Z.quot (amount a) prec) in
  let result :=
    if 1 <? prec then
      let fract := Z.rem (amount a) prec in
      result +:+ "." +:+ erase_first (fc_to_string (prec + fract))
    else result in
  n ← symbol_name a;
  Ok (result +:+ " " +:+ n)%string.

(** [memcpy( sy + 1, s, s.size() )]: overwrite the bytes from byte [i] on. *)
Fixpoint write_bytes (sym : Z) (i : Z) (s : string) : Z :=
  match s with
  | EmptyString => sym
  | String c s' =>
      let cleared := Z.land sym (Z.lxor u64_max (Z.shiftl 255 (8 * i))) in
      write_bytes (Z.lor cleared (Z.shiftl (Z.of_N (Ascii.N_of_ascii c)) (8 * i))) (i + 1) s'
  end.

(** [asset::from_string], libraries/protocol/asset.cpp:69-114 *)
Definition asset_from_string (from : string) : result asset :=
  let s := fc_trim from in
  match String.index 0 " " s with
  | None => Err (assert_exception "")
  | Some space_pos =>
      let result := Asset 0 0 in
      result ←
        match String.index 0 "." s with
        | Some dot_pos =>
            fc_check (bool_decide (dot_pos < space_pos)%nat) "" ;;
            let intpart := String.substring 0 dot_pos s in
            let fractpart :=
              String "1" (String.substring (dot_pos + 1) (space_pos - dot_pos - 1) s) in
            result ← set_decimals (wrap_u8 (Z.of_nat (String.length fractpart) - 1)) result;
            i ← fc_to_int64 intpart;
            prec ← precision result;
            let x := wrap_i64 (i * prec) in
            f ← fc_to_int64 fractpart;
            let x := wrap_i64 (x + f) in
            Ok (result <| amount := wrap_i64 (x - prec) |>)
        | None =>
            i ← fc_to_int64 (String.substring 0 space_pos s);
            set_decimals 0 (result <| amount := i |>)
        end;
      let sym := String.substring (space_pos + 1) (String.length s - (space_pos + 1)) s in
      if (0 <? String.length sym)%nat then
        fc_check (String.length sym <=? 6)%nat "" ;;
        Ok (result <| symbol := write_bytes (symbol result) 1 sym |>)
      else Ok result
  end.

(** ** Prices *)

(** [uint128_t( x ) * y] of two amounts. *)
Definition wide_mul (x y : Z) : Z := u128_mul (u128 x) (u128 y).

(** [operator == ( price, price )], libraries/protocol/asset.cpp:116-125 *)
Definition price_eqb p q : bool :=
  (symbol (base p) =? symbol (base q)) && (symbol (quote p) =? symbol (quote q)) &&
  (wide_mul (amount (quote q)) (amount (base p)) =? wide_mul (amount (quote p)) (amount (base q))).
(** [operator < ( price, price )], libraries/protocol/asset.cpp:127-138 *)
Definition price_ltb p q : bool :=
  if symbol (base p) <? symbol (base q) then true
  else if symbol (base q) <? symbol (base p) then false
  else if symbol (quote p) <? symbol (quote q) then true
  else if symbol (quote q) <? symbol (quote p) then false
  else wide_mul (amount (quote q)) (amount (base p)) <? wide_mul (amount (quote p)) (amount (base q)).
(** [operator <= ( price, price )], libraries/protocol/asset.cpp:140-143 *)
Definition price_leb p q : bool := price_eqb p q || price_ltb p q.
(** [operator > ( price, price )], libraries/protocol/asset.cpp:150-153 *)
Definition price_gtb p q : bool := negb (price_leb p q).
(** [operator >= ( price, price )], libraries/protocol/asset.cpp:155-158 *)
Definition price_geb p q : bool := negb (price_ltb p q).

(** [operator ~ ( price )], libraries/protocol/include/node/protocol/asset.hpp:105-105 *)
Definition price_inv p : price := Price (quote p) (base p).

(** The 128-bit division both branches of [operator *] do. *)
Definition mul_div (x num den : Z) : Z := u128_div (wide_mul x num) (u128 den).

(** [operator * ( asset, price )], libraries/protocol/asset.cpp:160-177 *)
Definition asset_mul a p : result asset :=
  n ← symbol_name a; nb ← symbol_name (base p);
  if bool_decide (n = nb) then
    fc_check (0 <? amount (base p)) "" ;;
    let r := mul_div (amount a) (amount (quote p)) (amount (base p)) in
    fc_check (u128_hi r =? 0) "" ;;
    Ok (Asset (wrap_i64 (u128_lo r)) (symbol (quote p)))
  else
    nq ← symbol_name (quote p);
    if bool_decide (n = nq) then
      fc_check (0 <? amount (quote p)) "" ;;
      let r := mul_div (amount a) (amount (base p)) (amount (quote p)) in
      fc_check (u128_hi r =? 0) "" ;;
      Ok (Asset (wrap_i64 (u128_lo r)) (symbol (base p)))
    else Err (assert_exception "invalid asset * price").

(** [operator / ( asset, asset )], libraries/protocol/asset.cpp:179-183 *)
Definition asset_div a b : result price :=
  na ← symbol_name a; nb ← symbol_name b;
  fc_check (negb (bool_decide (na = nb))) "" ;; Ok (Price a b).

(** [price::max], libraries/protocol/asset.cpp:185-185 *)
Definition price_max (b q : Z) : result price := asset_div (Asset MAX_SCORE_SUPPLY b) (Asset 1 q).
(** [price::min], libraries/protocol/asset.cpp:186-186 *)
Definition price_min (b q : Z) : result price := asset_div (Asset 1 b) (Asset MAX_SCORE_SUPPLY q).

(** [price::is_null], libraries/protocol/asset.cpp:188-188 *)
Definition price_is_null p : bool :=
  price_eqb p (Price (Asset 0 SYMBOL_COIN) (Asset 0 SYMBOL_COIN)).

(** [price::validate], libraries/protocol/asset.cpp:190-195 *)
Definition price_validate p : result unit :=
  fc_check (0 <? amount (base p)) "" ;;
  fc_check (0 <? amount (quote p)) "" ;;
  nb ← symbol_name (base p); nq ← symbol_name (quote p);
  fc_check (negb (bool_decide (nb = nq))) "".
End asset.

Module AssetExamples.
Import FcRef.
Example coin_text : asset_to_string (Asset 7005 SYMBOL_COIN) = Ok "7.005 TME"%string.
Proof. vm_compute. reflexivity. Qed.
Example coin_parse : asset_from_string "7.005 TME" = Ok (Asset 7005 SYMBOL_COIN).
Proof. vm_compute. reflexivity. Qed.
Example neg_text : asset_to_string (Asset (-5) SYMBOL_COIN) = Ok "0.95 TME"%string.
Proof. vm_compute. reflexivity. Qed.
Example neg_parse : asset_from_string "-1.500 TME" = Ok (Asset (-500) SYMBOL_COIN).
Proof. vm_compute. reflexivity. Qed.
End AssetExamples.

(** * The text form *)

(** ** Strings of digits *)

Definition is_digit (c : ascii) : Prop := (48 ≤ Ascii.N_of_ascii c ≤ 57)%N.
Fixpoint all_chars (P : ascii → Prop) (s : string) : Prop :=
  match s with EmptyString => True | String c s' => P c ∧ all_chars P s' end.
Abbreviation all_digits := (all_chars is_digit).

Lemma append_nil s : "" +:+ s = s.
Proof. done. Qed.
Lemma append_cons c s t : String c s +:+ t = String c (s +:+ t).
Proof. done. Qed.

Lemma append_nil_r s : s +:+ "" = s.
Proof. induction s as [|c s IH]; [done|]. by rewrite append_cons, IH. Qed.
Lemma append_assoc s t u : (s +:+ t) +:+ u = s +:+ (t +:+ u).
Proof. induction s as [|c s IH]; [done|]. by rewrite !append_cons, IH. Qed.
Lemma length_append s t : String.length (s +:+ t) = (String.length s + String.length t)%nat.
Proof. induction s as [|c s IH]; [done|]. rewrite append_cons. cbn. by rewrite IH. Qed.

Lemma all_chars_app P s1 s2 : all_chars P (s1 +:+ s2) ↔ all_chars P s1 ∧ all_chars P s2.
Proof. induction s1 as [|c s1 IH]; [by cbn; tauto|]. rewrite append_cons. cbn. rewrite IH. tauto. Qed.

Lemma all_chars_impl (P Q : ascii → Prop) s :
  (∀ c, P c → Q c) → all_chars P s → all_chars Q s.
Proof. intros HPQ. induction s; cbn; naive_solver. Qed.

Lemma pretty_N_char_digit x : is_digit (pretty_N_char x).
Proof. unfold pretty_N_char, is_digit. by repeat case_match. Qed.

Lemma pretty_go_digits x s : all_digits s → all_digits (pretty_N_go x s).
Proof.
  revert s. induction (N.lt_wf_0 x) as [x _ IH]; intros s Hs.
  destruct (decide (0 < x)%N); [|by assert (x = 0)%N as -> by lia].
  rewrite pretty_N_go_step by done. apply IH; [apply N.div_lt; lia|].
  split; [apply pretty_N_char_digit|done].
Qed.

Lemma decimal_digits n : 0 ≤ n → all_digits (decimal n).
Proof.
  intros Hn. unfold decimal. destruct n as [|p|p]; [by repeat split|..|lia].
  change (pretty (Z.pos p)) with (pretty (N.pos p)). unfold pretty, pretty_N.
  case_decide; [done|]. by apply pretty_go_digits.
Qed.

Lemma decimal_nonempty n : 0 ≤ n → decimal n ≠ "".
Proof.
  intros Hn E. destruct (in_i64 0) eqn:?; [|done].
  destruct n as [|p|p]; [done|..|lia]. unfold decimal in E.
  change (pretty (Z.pos p)) with (pretty (N.pos p)) in E.
  pose proof (FcRef.parse_nonempty_pretty (N.pos p)) as Hp. rewrite E in Hp. discriminate.
Qed.

(** [prec + fract] prints as a 1 followed by exactly [d] digits. *)
Lemma pretty_leading_one (d : nat) (f : N) s :
  (f < 10 ^ N.of_nat d)%N →
  ∃ w, pretty_N_go (10 ^ N.of_nat d + f) s = String "1" (w +:+ s) ∧
       String.length w = d ∧ all_digits w.
Proof.
  revert f s. induction d as [|d IH]; intros f s Hf.
  - assert (f = 0)%N as -> by lia. by exists "".
  - rewrite Nat2N.inj_succ, N.pow_succ_r' in *.
    rewrite pretty_N_go_step by lia.
    replace ((10 * 10 ^ N.of_nat d + f) / 10)%N with (10 ^ N.of_nat d + f / 10)%N
      by (rewrite N.mul_comm, N.div_add_l; lia).
    destruct (IH (f / 10)%N (String (pretty_N_char ((10 * 10 ^ N.of_nat d + f) mod 10)) s))
      as (w & -> & Hw & Hd); [apply N.Div0.div_lt_upper_bound; lia|].
    eexists (w +:+ String _ ""). split; [|split].
    + by rewrite append_assoc.
    + rewrite length_append, Hw. cbn. lia.
    + apply all_chars_app. split; [done|]. by split; [apply pretty_N_char_digit|].
Qed.

Lemma decimal_leading_one (d : nat) f :
  0 ≤ f < 10 ^ Z.of_nat d →
  ∃ w, decimal (10 ^ Z.of_nat d + f) = String "1" w ∧ String.length w = d ∧ all_digits w.
Proof.
  intros Hf. assert (0 < 10 ^ Z.of_nat d) by lia.
  destruct (pretty_leading_one d (Z.to_N f) "") as (w & E & Hw & Hd).
  { apply N2Z.inj_lt. rewrite Z2N.id, N2Z.inj_pow, nat_N_Z by lia. lia. }
  exists w. split; [|done]. rewrite append_nil_r in E.
  replace (10 ^ Z.of_nat d + f) with (Z.of_N (10 ^ N.of_nat d + Z.to_N f))
    by (rewrite N2Z.inj_add, Z2N.id, N2Z.inj_pow, nat_N_Z by lia; done).
  unfold decimal. destruct (10 ^ N.of_nat d + Z.to_N f)%N as [|p] eqn:En; [lia|].
  change (pretty (Z.of_N (N.pos p))) with (pretty (N.pos p)).
  unfold pretty, pretty_N. by rewrite decide_False.
Qed.

(** ** Searching and cutting strings *)

Lemma index_app c s1 s2 :
  all_chars (λ c', c' ≠ c) s1 →
  String.index 0 (String c "") (s1 +:+ String c s2) = Some (String.length s1).
Proof.
  induction s1 as [|c' s1 IH]; intros Hs.
  - rewrite append_nil. cbn. destruct (ascii_dec c c); [by destruct s2|done].
  - rewrite append_cons. cbn in Hs |- *. destruct Hs as [Hc Hs]. destruct (ascii_dec c c'); [congruence|].
    cbn in IH. by rewrite IH.
Qed.

Lemma substring_app_l s1 s2 : String.substring 0 (String.length s1) (s1 +:+ s2) = s1.
Proof. induction s1 as [|c s1 IH]; [by destruct s2|]. rewrite append_cons. cbn. by f_equal. Qed.

Lemma substring_drop s1 s2 n k :
  String.substring (String.length s1 + n) k (s1 +:+ s2) = String.substring n k s2.
Proof. by induction s1 as [|c s1 IH]. Qed.

Lemma substring_all s : String.substring 0 (String.length s) s = s.
Proof. induction s as [|c s IH]; cbn; [done|]. by f_equal. Qed.

Lemma list_ascii_app s1 s2 :
  String.list_ascii_of_string (s1 +:+ s2) =
  String.list_ascii_of_string s1 ++ String.list_ascii_of_string s2.
Proof. induction s1 as [|c s1 IH]; [done|]. rewrite append_cons. cbn. by f_equal. Qed.

(** ** Round trip *)

(** The three symbols of the chain. *)
Definition chain_symbol (s : Z) : Prop := s = SYMBOL_COIN ∨ s = SYMBOL_SCORE ∨ s = SYMBOL_USD.

Lemma digit_not c c' : is_digit c → ¬ is_digit c' → c ≠ c'.
Proof. by intros ?? ->. Qed.
Lemma not_digit_dot : ¬ is_digit ".". Proof. unfold is_digit. cbn. lia. Qed.
Lemma not_digit_space : ¬ is_digit " ". Proof. unfold is_digit. cbn. lia. Qed.

Section roundtrip.
Context {F : Fc} {FL : FcLaws F}.

(** The pieces of the text of an asset with [d] decimals. *)
Lemma to_string_pieces a d name :
  0 ≤ amount a ≤ i64_max → (0 < d)%nat → symbol_name a = Ok name →
  precision a = Ok (10 ^ Z.of_nat d) → 10 ^ Z.of_nat d ≤ 10 ^ 14 →
  ∃ w, asset_to_string a =
         Ok (decimal (amount a / 10 ^ Z.of_nat d) +:+ String "." (w +:+ String " " name)) ∧
       decimal (10 ^ Z.of_nat d + amount a mod 10 ^ Z.of_nat d) = String "1" w ∧
       String.length w = d ∧ all_digits w.
Proof.
  intros Ha Hd Hn Hp Hb. assert (10 ≤ 10 ^ Z.of_nat d).
  { replace (Z.of_nat d) with (1 + Z.of_nat (d - 1)) by lia.
    rewrite Z.pow_add_r by lia. lia. }
  set (P := 10 ^ Z.of_nat d) in *. unfold i64_max in Ha.
  pose proof (Z.mod_pos_bound (amount a) P ltac:(lia)) as Hm.
  destruct (decimal_leading_one d (amount a mod P)) as (w & Hw & Hl & Hdig); [done|].
  fold P in Hw. exists w. split; [|done]. unfold asset_to_string. rewrite Hp, Hn. cbn.
  rewrite Z.quot_div_nonneg, Z.rem_mod_nonneg by lia.
  destruct (Z.ltb_spec 1 P); [|lia].
  assert (0 ≤ amount a / P ≤ amount a) by (split; [apply Z.div_pos|apply Z.div_le_upper_bound]; nia).
  rewrite !fc_to_string_law by (apply in_i64_iff; unfold i64_min, i64_max; lia).
  rewrite Hw. cbn. by rewrite append_cons, append_nil, !append_assoc.
Qed.

(** Reading the pieces back. *)
Lemma from_string_pieces i w name f s0 :
  no_space_at_ends (decimal i +:+ String "." (w +:+ String " " name)) →
  all_digits w → decimal f = String "1" w →
  0 ≤ i ≤ i64_max → 0 ≤ f ≤ i64_max → (0 < String.length w < 15)%nat →
  s0 = Z.of_nat (String.length w) → (0 < String.length name ≤ 6)%nat →
  asset_from_string (decimal i +:+ String "." (w +:+ String " " name)) =
    (prec ← precision (Asset 0 s0);
     Ok (Asset (wrap_i64 (wrap_i64 (wrap_i64 (i * prec) + f) - prec)) (write_bytes s0 1 name))).
Proof.
  intros Hsp Hdw Hf Hi Hfr Hlw -> Hln. set (I := decimal i).
  assert (HdI : all_digits I) by (apply decimal_digits; lia).
  assert (HtI : fc_to_int64 I = Ok i)
    by (apply fc_to_int64_law, in_i64_iff; unfold i64_min; lia).
  assert (Hnd : ∀ c s, ¬ is_digit c → all_digits s → all_chars (λ c', c' ≠ c) s)
    by (intros c s Hc; apply all_chars_impl; intros c' Hc' ->; done).
  unfold asset_from_string. rewrite fc_trim_law by done.
  replace (I +:+ String "." (w +:+ String " " name))
    with ((I +:+ String "." w) +:+ String " " name)
    by (by rewrite append_assoc, append_cons).
  rewrite index_app.
  2:{ apply all_chars_app. split; [by apply Hnd, HdI; apply not_digit_space|].
      split; [done|]. apply Hnd; [apply not_digit_space|done]. }
  rewrite append_assoc, append_cons, index_app by (apply Hnd; [apply not_digit_dot|done]).
  rewrite !length_append. cbn [String.length].
  rewrite bool_decide_true by lia. cbn [fc_check mbind result_bind].
  rewrite substring_app_l.
  replace (String.length I + S (String.length w) - String.length I - 1)%nat
    with (String.length w) by lia.
  rewrite substring_drop. change (String.substring 1 ?n (String ?c ?s)) with (String.substring 0 n s).
  rewrite substring_app_l. rewrite <- Hf.
  replace (wrap_u8 _) with (Z.of_nat (String.length w))
    by (cbn [String.length]; unfold wrap_u8; rewrite Z.mod_small; lia).
  unfold set_decimals at 1. destruct (Z.ltb_spec (Z.of_nat (String.length w)) 15); [|lia].
  cbn [fc_check mbind result_bind].
  rewrite HtI, fc_to_int64_law by (apply in_i64_iff; unfold i64_min; lia).
  cbn [mbind result_bind].
  replace (Asset 0 0 <| symbol := _ |>) with (Asset 0 (Z.of_nat (String.length w))) by done.
  destruct (precision _) as [prec|e]; [|done]. cbn [mbind result_bind].
  replace (String.length I + S (String.length w) + 1)%nat
    with (String.length I + (S (String.length w) + 1))%nat by lia.
  rewrite substring_drop.
  replace (S (String.length w) + 1)%nat with (S (String.length w + 1)) by lia.
  change (String.substring (S ?n) ?k (String ?c ?s)) with (String.substring n k s).
  rewrite substring_drop. change (String.substring 1 ?n (String ?c ?s)) with (String.substring 0 n s).
  replace (_ - _)%nat with (String.length name).
  2:{ rewrite ?length_append. cbn [String.length]. lia. }
  rewrite substring_all. destruct (Nat.ltb_spec 0 (String.length name)); [|lia].
  destruct (Nat.leb_spec (String.length name) 6); [done|lia].
Qed.
End roundtrip.

Lemma wrap_i64_id x : i64_min ≤ x ≤ i64_max → wrap_i64 x = x.
Proof.
  unfold wrap_i64, i64_min, i64_max. intros Hx. rewrite Z.mod_small by lia. lia.
Qed.

(** What the text form depends on: decimals and name of the chain's symbols. *)
Lemma chain_symbol_text `{Fc} s :
  chain_symbol s →
  ∃ (d : nat) name c,
    (d = 3 ∨ d = 6)%nat ∧ (0 < String.length name ≤ 6)%nat ∧
    last (String.list_ascii_of_string name) = Some c ∧ c ≠ " "%char ∧
    write_bytes (Z.of_nat d) 1 name = s ∧
    (∀ x, symbol_name (Asset x s) = Ok name ∧ precision (Asset x s) = Ok (10 ^ Z.of_nat d) ∧
          precision (Asset x (Z.of_nat d)) = Ok (10 ^ Z.of_nat d)).
Proof.
  intros [-> | [-> | ->]].
  - by exists 3%nat, "TME"%string, "E"%char; repeat split; try (cbn; lia); try (by left).
  - by exists 6%nat, "SCORE"%string, "E"%char; repeat split; try (cbn; lia); try (by right).
  - by exists 3%nat, "TSD"%string, "D"%char; repeat split; try (cbn; lia); try (by left).
Qed.

(** Printing an asset of the chain and reading it back gives the asset, for
    every amount from zero to the supply limit. *)
Theorem asset_roundtrip (F : Fc) (FL : FcLaws F) a :
  0 ≤ amount a ≤ MAX_SCORE_SUPPLY → chain_symbol (symbol a) →
  asset_to_string a ≫= asset_from_string = Ok a.
Proof.
  destruct a as [x s]. cbn [amount symbol]. intros Hx Hs.
  destruct (chain_symbol_text s Hs) as (d & name & c & Hd & Hn & Hlast & Hc & Hw & Hp).
  destruct (Hp x) as (Hname & Hprec & Hprec').
  assert (1000 ≤ 10 ^ Z.of_nat d ≤ 10 ^ 6) as HP by (destruct Hd as [-> | ->]; done).
  unfold MAX_SCORE_SUPPLY in Hx.
  destruct (to_string_pieces (Asset x s) d name) as (w & -> & Hw1 & Hl & Hdig);
    cbn [amount] in *; try done; try (unfold i64_max; lia).
  set (P := 10 ^ Z.of_nat d) in *.
  assert (0 ≤ x / P ≤ x) by (split; [apply Z.div_pos|apply Z.div_le_upper_bound]; nia).
  pose proof (Z.mod_pos_bound x P ltac:(lia)). pose proof (Z.div_mod x P ltac:(lia)).
  cbn [mbind result_bind].
  rewrite (from_string_pieces _ w name (P + x mod P) (Z.of_nat d));
    try done; try (unfold i64_max; lia).
  - destruct (Hp 0) as (_ & _ & ->). cbn [mbind result_bind]. do 2 f_equal; [|done].
    fold P. rewrite (wrap_i64_id (x / P * P)), (wrap_i64_id (x / P * P + _)), wrap_i64_id;
      unfold i64_min, i64_max; lia.
  - split.
    + pose proof (decimal_nonempty (x / P) ltac:(lia)).
      pose proof (decimal_digits (x / P) ltac:(lia)) as Hdg.
      destruct (decimal (x / P)) as [|c' s']; [done|]. rewrite append_cons. cbn in *.
      intros [= ->]. destruct (not_digit_space (proj1 Hdg)).
    + rewrite list_ascii_app. cbn. rewrite list_ascii_app. cbn.
      rewrite last_app_cons. rewrite last_cons, last_app, last_cons, Hlast. congruence.
Qed.

Lemma asset_roundtrip_witness :
  asset_to_string (F:=FcRef.fc_ref) (Asset 7005 SYMBOL_COIN) ≫= asset_from_string
  = Ok (Asset 7005 SYMBOL_COIN).
Proof.
  apply (asset_roundtrip FcRef.fc_ref FcRef.fc_ref_laws).
  - unfold MAX_SCORE_SUPPLY. cbn. lia.
  - by left.
Defined.

(** The text form is only right for amounts that are not negative: a negative
    amount with a fractional part prints with the wrong digits.  For the coin
    with three decimals, [-1 < amount] as a real number between -0.999 and 0
    prints as [1000 + amount] with its first digit dropped, without a sign. *)
Theorem negative_amount_text (F : Fc) (FL : FcLaws F) x :
  -1000 < x < 0 →
  asset_to_string (Asset x SYMBOL_COIN) =
  Ok ("0." +:+ erase_first (decimal (1000 + x)) +:+ " TME")%string.
Proof.
  intros Hx. unfold asset_to_string.
  change (precision (Asset x SYMBOL_COIN)) with (Ok 1000).
  change (symbol_name (Asset x SYMBOL_COIN)) with (Ok "TME"%string).
  cbn [mbind result_bind amount].
  replace (Z.quot x 1000) with 0 by (symmetry; apply Z.quot_small_iff; lia).
  replace (Z.rem x 1000) with x by (symmetry; apply Z.rem_small_iff; lia).
  rewrite !fc_to_string_law by (apply in_i64_iff; unfold i64_min, i64_max; lia).
  change (decimal 0) with "0"%string. cbn. rewrite !append_assoc. done.
Qed.

Lemma negative_amount_text_witness :
  asset_to_string (F:=FcRef.fc_ref) (Asset (-5) SYMBOL_COIN) = Ok "0.95 TME"%string.
Proof.
  rewrite (negative_amount_text FcRef.fc_ref FcRef.fc_ref_laws) by lia. reflexivity.
Defined.

(** * Prices *)

(** A price as [price::validate] accepts it, with amounts in range. *)
Definition valid_price (p : price) : Prop :=
  0 < amount (base p) ≤ i64_max ∧ 0 < amount (quote p) ≤ i64_max.

Section prices.
Context {F : Fc} {FL : FcLaws F}.
Implicit Types (p q : price).

Lemma wide_mul_exact x y : 0 ≤ x ≤ i64_max → 0 ≤ y ≤ i64_max → wide_mul x y = x * y.
Proof. apply u128_mul_exact. Qed.

Lemma mul_div_exact x n d :
  0 ≤ x ≤ i64_max → 0 ≤ n ≤ i64_max → 0 < d ≤ i64_max → mul_div x n d = x * n / d.
Proof.
  intros Hx Hn Hd. unfold mul_div. rewrite wide_mul_exact, u128_law by done.
  unfold i64_max in *. rewrite (Z.mod_small d) by lia. rewrite u128_div_law; [done|lia].
Qed.

(** Comparing two prices of one market compares the cross products. *)
Lemma price_ltb_iff p q :
  valid_price p → valid_price q →
  price_ltb p q = true ↔
    symbol (base p) < symbol (base q) ∨
    (symbol (base p) = symbol (base q) ∧ symbol (quote p) < symbol (quote q)) ∨
    (symbol (base p) = symbol (base q) ∧ symbol (quote p) = symbol (quote q) ∧
     amount (quote q) * amount (base p) < amount (quote p) * amount (base q)).
Proof.
  intros [] []. unfold price_ltb. rewrite !wide_mul_exact by lia.
  repeat match goal with |- context [if (?x <? ?y) then _ else _] => destruct (Z.ltb_spec x y) end;
    rewrite ?Z.ltb_lt; naive_solver lia.
Qed.

Lemma price_eqb_iff p q :
  valid_price p → valid_price q →
  price_eqb p q = true ↔
    symbol (base p) = symbol (base q) ∧ symbol (quote p) = symbol (quote q) ∧
    amount (quote q) * amount (base p) = amount (quote p) * amount (base q).
Proof.
  intros [] []. unfold price_eqb. rewrite !wide_mul_exact by lia.
  rewrite !andb_true_iff, !Z.eqb_eq. tauto.
Qed.

Lemma price_ltb_false p q :
  valid_price p → valid_price q →
  price_ltb p q = false ↔ price_eqb p q = true ∨ price_ltb q p = true.
Proof.
  intros Hp Hq. rewrite <- not_true_iff_false, price_ltb_iff, price_eqb_iff, price_ltb_iff by done.
  destruct (Z.lt_total (symbol (base p)) (symbol (base q))) as [|[|]];
    destruct (Z.lt_total (symbol (quote p)) (symbol (quote q))) as [|[|]];
    destruct (Z.lt_total (amount (quote q) * amount (base p)) (amount (quote p) * amount (base q)))
      as [|[|]]; naive_solver lia.
Qed.

(** Cross products are transitive. *)
Lemma cross_trans (a1 b1 a2 b2 a3 b3 : Z) :
  0 < a1 → 0 < b1 → 0 < a2 → 0 < b2 → 0 < a3 → 0 < b3 →
  b2 * a1 ≤ b1 * a2 → b3 * a2 ≤ b2 * a3 →
  b3 * a1 ≤ b1 * a3 ∧ (b2 * a1 < b1 * a2 ∨ b3 * a2 < b2 * a3 → b3 * a1 < b1 * a3).
Proof.
  intros Ha1 Hb1 Ha2 Hb2 Ha3 Hb3 H1 H2.
  pose proof (Z.mul_le_mono_nonneg_r _ _ b3 ltac:(lia) H1) as H3.
  pose proof (Z.mul_le_mono_nonneg_l _ _ b1 ltac:(lia) H2) as H4.
  split; [apply (Z.mul_le_mono_pos_l _ _ b2); lia|].
  intros Hs. apply (Z.mul_lt_mono_pos_l b2); [done|].
  destruct Hs as [Hs|Hs].
  - apply (Z.mul_lt_mono_pos_r b3) in Hs; lia.
  - apply (Z.mul_lt_mono_pos_l b1) in Hs; lia.
Qed.
End prices.

(** Prices with positive amounts are strictly weakly ordered by [<], and [==]
    is the equivalence the order induces, as the sorted indexes and
    [std::sort] of the feeds require. *)
Theorem price_strict_weak_order (F : Fc) (FL : FcLaws F) p q r :
  valid_price p → valid_price q → valid_price r →
  price_ltb p p = false ∧
  (price_ltb p q = true → price_ltb q r = true → price_ltb p r = true) ∧
  (price_eqb p q = true ↔ price_ltb p q = false ∧ price_ltb q p = false) ∧
  (price_eqb p q = true → price_eqb q r = true → price_eqb p r = true).
Proof.
  intros Hp Hq Hr. split_and!.
  - apply not_true_iff_false. rewrite price_ltb_iff by done. lia.
  - rewrite !price_ltb_iff by done. destruct Hp, Hq, Hr.
    intros Hpq Hqr. destruct Hpq as [|[[]|(?&?&?)]]; [lia|lia|].
    destruct Hqr as [|[[]|(?&?&?)]]; [lia|lia|].
    right; right. split; [lia|]. split; [lia|].
    eapply (cross_trans _ _ (amount (base q)) (amount (quote q))); lia.
  - rewrite !price_ltb_false by done. rewrite !price_eqb_iff, !price_ltb_iff by done.
    naive_solver lia.
  - rewrite !price_eqb_iff by done. destruct Hp, Hq, Hr. intros (?&?&?) (?&?&?).
    split; [lia|]. split; [lia|]. apply Z.le_antisymm.
    + eapply (cross_trans _ _ (amount (base q)) (amount (quote q))); lia.
    + pose proof (cross_trans (amount (base r)) (amount (quote r)) (amount (base q))
        (amount (quote q)) (amount (base p)) (amount (quote p))). lia.
Qed.

Lemma price_strict_weak_order_witness :
  let p x := Price (Asset x SYMBOL_COIN) (Asset 1000 SYMBOL_USD) in
  price_ltb (F:=FcRef.fc_ref) (p 1) (p 3) = true.
Proof.
  pose proof (price_strict_weak_order FcRef.fc_ref FcRef.fc_ref_laws
    (Price (Asset 1 SYMBOL_COIN) (Asset 1000 SYMBOL_USD))
    (Price (Asset 2 SYMBOL_COIN) (Asset 1000 SYMBOL_USD))
    (Price (Asset 3 SYMBOL_COIN) (Asset 1000 SYMBOL_USD))) as Ho.
  unfold valid_price, i64_max in Ho. cbn [amount base quote] in Ho.
  apply Ho; try lia; vm_compute; reflexivity.
Defined.

(** * Arithmetic that did not throw *)

Section arithmetic.
Context {F : Fc} {FL : FcLaws F}.
Implicit Types (a b c : asset).

Lemma asset_add_ok a b c :
  asset_add a b = Ok c →
  symbol a = symbol b ∧ symbol c = symbol a ∧ amount c = amount a + amount b ∧
  i64_min ≤ amount c ≤ i64_max.
Proof.
  unfold asset_add, fc_check. destruct (Z.eqb_spec (symbol a) (symbol b)); cbn; [|done].
  destruct (safe_add _ _) as [x|] eqn:E; cbn; [|done]. intros [= <-].
  apply safe_add_ok in E as [-> ?]. done.
Qed.

Lemma asset_sub_ok a b c :
  asset_sub a b = Ok c →
  symbol a = symbol b ∧ symbol c = symbol a ∧ amount c = amount a - amount b ∧
  i64_min ≤ amount c ≤ i64_max.
Proof.
  unfold asset_sub, fc_check. destruct (Z.eqb_spec (symbol a) (symbol b)); cbn; [|done].
  destruct (safe_sub _ _) as [x|] eqn:E; cbn; [|done]. intros [= <-].
  apply safe_sub_ok in E as [-> ?]. done.
Qed.

Lemma asset_neg_ok a b :
  asset_neg a = Ok b → symbol b = symbol a ∧ amount b = - amount a.
Proof.
  unfold asset_neg. destruct (safe_neg _) as [x|] eqn:E; cbn; [|done]. intros [= <-].
  apply safe_neg_ok in E as [-> ?]. done.
Qed.

Lemma asset_ge_value a b (c : bool) : asset_ge a b = Ok c → symbol a = symbol b ∧ c = (amount b <=? amount a).
Proof.
  unfold asset_ge, asset_lt, fc_check. destruct (Z.eqb_spec (symbol a) (symbol b)); cbn; [|done].
  intros [= <-]. by rewrite Z.leb_antisym.
Qed.
Lemma asset_ge_ok a b : asset_ge a b = Ok true → symbol a = symbol b ∧ amount b ≤ amount a.
Proof.
  unfold asset_ge, asset_lt, fc_check. destruct (Z.eqb_spec (symbol a) (symbol b)); cbn; [|done].
  intros [= H]. apply negb_true_iff, Z.ltb_ge in H. done.
Qed.

Lemma asset_mul_symbol a p b : asset_mul a p = Ok b → symbol b = symbol (quote p) ∨ symbol b = symbol (base p).
Proof.
  unfold asset_mul. intros H.
  repeat match type of H with
  | (?r ≫= _) = Ok _ => destruct r; cbn in H; [|done]
  | (if ?c then _ else _) = Ok _ => destruct c; cbn in H
  | Ok _ = Ok _ => injection H as <-; cbn; tauto
  | Err _ = Ok _ => done
  end.
Qed.
End arithmetic.

(** * Conversion at a price *)

Section conversion.
Context {F : Fc} {FL : FcLaws F}.
Implicit Types (a : asset) (p : price).

(** The quotient of a conversion as the code returns it: the guard only
    looks at the high 64 bits, and the low 64 bits are read as signed. *)
Definition conversion_result (x sym : Z) : result asset :=
  if x <? 2 ^ 63 then Ok (Asset x sym)
  else if x <? 2 ^ 64 then Ok (Asset (x - 2 ^ 64) sym)
  else Err (assert_exception "").

Lemma conversion_tail x sym :
  0 ≤ x →
  (fc_check (u128_hi x =? 0) "" ;; Ok (Asset (wrap_i64 (u128_lo x)) sym)) =
    conversion_result x sym.
Proof.
  intros Hx. rewrite u128_hi_law, u128_lo_law. unfold conversion_result, fc_check, wrap_i64.
  destruct (Z.eqb_spec (x / 2 ^ 64) 0) as [H0|H0]; cbn.
  - apply Z.div_small_iff in H0; [|lia]. rewrite (Z.mod_small x) by lia.
    destruct (Z.ltb_spec x (2 ^ 63)); [rewrite Z.mod_small by lia; do 2 f_equal; lia|].
    destruct (Z.ltb_spec x (2 ^ 64)); [|lia].
    replace (x + 2 ^ 63) with (x - 2 ^ 63 + 1 * 2 ^ 64) by lia.
    rewrite Z.mod_add, Z.mod_small by lia. do 2 f_equal. lia.
  - assert (2 ^ 64 ≤ x).
    { destruct (Z.le_gt_cases (2 ^ 64) x); [done|]. destruct H0. apply Z.div_small. lia. }
    destruct (Z.ltb_spec x (2 ^ 63)); [lia|]. destruct (Z.ltb_spec x (2 ^ 64)); [lia|done].
Qed.

Lemma asset_mul_base a p n :
  valid_price p → 0 ≤ amount a ≤ i64_max →
  symbol_name a = Ok n → symbol_name (base p) = Ok n →
  asset_mul a p =
    conversion_result (amount a * amount (quote p) / amount (base p)) (symbol (quote p)).
Proof.
  intros [] Ha Hn Hb. unfold asset_mul. rewrite Hn, Hb. cbn [mbind result_bind].
  rewrite bool_decide_eq_true_2 by done.
  replace (0 <? amount (base p)) with true by (symmetry; apply Z.ltb_lt; lia).
  cbn [fc_check mbind result_bind]. rewrite mul_div_exact by lia.
  apply conversion_tail. apply Z.div_pos; lia.
Qed.

Lemma asset_mul_quote a p n nb :
  valid_price p → 0 ≤ amount a ≤ i64_max →
  symbol_name a = Ok n → symbol_name (base p) = Ok nb → n ≠ nb → symbol_name (quote p) = Ok n →
  asset_mul a p =
    conversion_result (amount a * amount (base p) / amount (quote p)) (symbol (base p)).
Proof.
  intros [] Ha Hn Hb Hne Hq. unfold asset_mul. rewrite Hn, Hb. cbn [mbind result_bind].
  rewrite bool_decide_eq_false_2 by done. rewrite Hq. cbn [mbind result_bind].
  rewrite bool_decide_eq_true_2 by done.
  replace (0 <? amount (quote p)) with true by (symmetry; apply Z.ltb_lt; lia).
  cbn [fc_check mbind result_bind]. rewrite mul_div_exact by lia.
  apply conversion_tail. apply Z.div_pos; lia.
Qed.

Lemma conversion_result_ok x sym b :
  0 ≤ x → conversion_result x sym = Ok b → 0 ≤ amount b → amount b = x ∧ x ≤ i64_max ∧ symbol b = sym.
Proof.
  unfold conversion_result, i64_max.
  destruct (Z.ltb_spec x (2 ^ 63)); [intros _ Hb; injection Hb as <-; cbn; intros; split_and!; (done || lia)|].
  destruct (Z.ltb_spec x (2 ^ 64)); [intros _ Hb; injection Hb as <-; cbn; intros; lia|done].
Qed.
End conversion.

(** [asset * price] for an asset in the price's base symbol, on every
    branch: the floor of the exact quotient when it fits in 63 bits, a
    negative amount when it has 64 bits (the guard only tests the high word),
    an exception above. *)
Theorem asset_mul_spec (F : Fc) (FL : FcLaws F) a p n :
  valid_price p → 0 ≤ amount a ≤ i64_max →
  symbol_name a = Ok n → symbol_name (base p) = Ok n →
  let x := amount a * amount (quote p) / amount (base p) in
  (x < 2 ^ 63 → asset_mul a p = Ok (Asset x (symbol (quote p)))) ∧
  (2 ^ 63 ≤ x < 2 ^ 64 →
     ∃ b, asset_mul a p = Ok b ∧ amount b < 0 ∧ amount b = x - 2 ^ 64) ∧
  (2 ^ 64 ≤ x → asset_mul a p = Err (assert_exception "")).
Proof.
  intros Hp Ha Hn Hb x. rewrite (asset_mul_base a p n) by done. subst x.
  set (x := _ / _). unfold conversion_result. split_and!; intros Hx.
  - destruct (Z.ltb_spec x (2 ^ 63)); [done|lia].
  - destruct (Z.ltb_spec x (2 ^ 63)); [lia|]. destruct (Z.ltb_spec x (2 ^ 64)); [|lia].
    eexists. split; [done|]. cbn. lia.
  - destruct (Z.ltb_spec x (2 ^ 63)); [lia|]. destruct (Z.ltb_spec x (2 ^ 64)); [lia|done].
Qed.

Lemma asset_mul_spec_witness :
  asset_mul (F:=FcRef.fc_ref) (Asset 7 SYMBOL_USD)
    (Price (Asset 2 SYMBOL_USD) (Asset 3 SYMBOL_COIN)) = Ok (Asset 10 SYMBOL_COIN).
Proof.
  apply (asset_mul_spec FcRef.fc_ref FcRef.fc_ref_laws (Asset 7 SYMBOL_USD)
    (Price (Asset 2 SYMBOL_USD) (Asset 3 SYMBOL_COIN)) "TSD");
    unfold valid_price, i64_max; cbn; try lia; reflexivity.
Defined.

(** Converting at a price and back never gains value: the second
    conversion returns at most the first amount, and the first loses less
    than one unit of the target symbol. *)
Theorem conversion_round_trip (F : Fc) (FL : FcLaws F) a p b c n nq :
  valid_price p → 0 ≤ amount a ≤ i64_max →
  symbol_name a = Ok n → symbol_name (base p) = Ok n → symbol_name (quote p) = Ok nq → n ≠ nq →
  asset_mul a p = Ok b → 0 ≤ amount b →
  asset_mul b p = Ok c →
  0 ≤ amount c ≤ amount a ∧ symbol c = symbol (base p) ∧
  0 ≤ amount a * amount (quote p) - amount b * amount (base p) < amount (base p).
Proof.
  intros Hp Ha Hn Hb Hq Hne Hab Hbpos Hbc. destruct (Hp) as [Hpb Hpq].
  rewrite (asset_mul_base a p n) in Hab by done.
  apply conversion_result_ok in Hab as (Eb & Hbmax & Sb); [|apply Z.div_pos; lia|done].
  assert (symbol_name b = Ok nq) as Hnb by (unfold symbol_name in *; by rewrite Sb).
  rewrite (asset_mul_quote b p nq n) in Hbc by (done || lia).
  pose proof (Z.mul_div_le (amount a * amount (quote p)) (amount (base p)) ltac:(lia)) as H1.
  pose proof (Z.mul_succ_div_gt (amount a * amount (quote p)) (amount (base p)) ltac:(lia)) as H2.
  rewrite <- Eb in H1, H2.
  assert (amount b * amount (base p) / amount (quote p) ≤ amount a) as Hle.
  { apply Z.div_le_upper_bound; lia. }
  apply conversion_result_ok in Hbc; [|apply Z.div_pos; lia|].
  - destruct Hbc as (-> & _ & ->). split_and!; try done; try lia. apply Z.div_pos; lia.
  - unfold conversion_result in Hbc. unfold i64_max in Ha.
    destruct (Z.ltb_spec (amount b * amount (base p) / amount (quote p)) (2 ^ 63)); [|lia].
    injection Hbc as <-. cbn. apply Z.div_pos; lia.
Qed.

Lemma conversion_round_trip_witness :
  0 ≤ 6 ≤ 7 ∧ SYMBOL_USD = SYMBOL_USD ∧ 0 ≤ 7 * 3 - 10 * 2 < 2.
Proof.
  apply (conversion_round_trip FcRef.fc_ref FcRef.fc_ref_laws (Asset 7 SYMBOL_USD)
    (Price (Asset 2 SYMBOL_USD) (Asset 3 SYMBOL_COIN)) (Asset 10 SYMBOL_COIN)
    (Asset 6 SYMBOL_USD) "TSD" "TME");
    unfold valid_price, i64_max; cbn; try lia; try reflexivity. discriminate.
Defined.
