(* ===== verification/Version.v ===== *)
(** Versions: [protocol/version.hpp], [version.cpp].

    A version is a 32-bit number made of a major, a hard-fork and a release
    number; a hard-fork version has no release number. *)

From S2P Require Import Prelude Fc.

(** [version::version], libraries/protocol/version.cpp:26-31 *)
Definition make_version (m h r : Z) : Z :=
  let v_num := wrap_u32 (Z.shiftl (Z.lor 0 m) 8) in
  let v_num := wrap_u32 (Z.shiftl (Z.lor v_num h) 16) in
  Z.lor v_num r.

(** [hardfork_version( version )], libraries/protocol/include/node/protocol/version.hpp:34-39 *)
Definition hardfork_version_of (v : Z) : Z := Z.land v 0xFFFF0000.
Definition make_hardfork_version (m h : Z) : Z := make_version m h 0.

(** [hardfork_version::operator ==, <, >], libraries/protocol/include/node/protocol/version.hpp:41-53 *)
Definition hardfork_version_eqb (hv v : Z) : bool := hv =? Z.land v 0xFFFF0000.
(** [hardfork_version::operator <], libraries/protocol/include/node/protocol/version.hpp:48-53 *)
Definition hardfork_version_ltb (hv v : Z) : bool := hv <? Z.land v 0xFFFF0000.
(** [hardfork_version::operator >], libraries/protocol/include/node/protocol/version.hpp:48-53 *)
Definition hardfork_version_gtb (hv v : Z) : bool := Z.land v 0xFFFF0000 <? hv.

(** [version::operator fc::string], libraries/protocol/version.cpp:33-43 *)
Definition version_to_string (v_num : Z) : string :=
  decimal (Z.land (Z.shiftr v_num 24) 0xFF) +:+ "." +:+
  decimal (Z.land (Z.shiftr v_num 16) 0xFF) +:+ "." +:+
  decimal (Z.land v_num 0xFFFF).

(** [struct hardfork_version_vote], libraries/protocol/include/node/protocol/version.hpp:56-63 *)
Record hardfork_version_vote := { hf_version : Z; hf_time : Z }.

Lemma testbit_above b n i : 0 ≤ b < 2 ^ n → 0 ≤ n ≤ i → Z.testbit b i = false.
Proof.
  intros Hb Hi. rewrite Z.testbit_eqb, Z.div_small; [done| |lia].
  split; [lia|]. eapply Z.lt_le_trans; [apply Hb|]. apply Z.pow_le_mono_r; lia.
Qed.

Lemma lor_shiftl a b n : 0 ≤ n → 0 ≤ b < 2 ^ n → Z.lor (Z.shiftl a n) b = a * 2 ^ n + b.
Proof.
  intros Hn Hb. assert (Z.land (Z.shiftl a n) b = 0) as Hl.
  { apply Z.bits_inj'; intros i Hi. rewrite Z.land_spec, Z.shiftl_spec, Z.bits_0 by done.
    destruct (Z.lt_ge_cases i n) as [Hlt|Hge]; [by rewrite Z.testbit_neg_r by lia|].
    by rewrite (testbit_above b n), andb_false_r by lia. }
  by rewrite <- Z.lxor_lor, <- Z.add_nocarry_lxor, Z.shiftl_mul_pow2.
Qed.

Lemma make_version_value m h r :
  0 ≤ m < 256 → 0 ≤ h < 256 → 0 ≤ r < 2 ^ 16 →
  make_version m h r = m * 2 ^ 24 + h * 2 ^ 16 + r.
Proof.
  intros Hm Hh Hr. unfold make_version, wrap_u32. rewrite Z.lor_0_l.
  rewrite (Z.mod_small (Z.shiftl m 8)) by (rewrite Z.shiftl_mul_pow2; lia).
  rewrite lor_shiftl by lia.
  rewrite Z.mod_small by (rewrite Z.shiftl_mul_pow2; lia).
  rewrite lor_shiftl by lia. lia.
Qed.

Lemma hardfork_part m h r :
  0 ≤ m < 256 → 0 ≤ h < 256 → 0 ≤ r < 2 ^ 16 →
  hardfork_version_of (make_version m h r) = make_hardfork_version m h.
Proof.
  intros Hm Hh Hr. unfold hardfork_version_of, make_hardfork_version.
  rewrite !make_version_value by lia. change 0xFFFF0000 with (Z.shiftl (Z.ones 16) 16).
  replace (m * 2 ^ 24 + h * 2 ^ 16 + r) with (Z.lor (Z.shiftl (m * 256 + h) 16) r)
    by (rewrite lor_shiftl; lia).
  apply Z.bits_inj'; intros i Hi. rewrite Z.land_spec, Z.lor_spec.
  replace (m * 2 ^ 24 + h * 2 ^ 16 + 0) with (Z.shiftl (m * 256 + h) 16)
    by (rewrite Z.shiftl_mul_pow2; lia).
  rewrite !(Z.shiftl_spec _ _ i) by done.
  destruct (Z.lt_ge_cases i 16) as [Hlt|Hge].
  - rewrite !(Z.testbit_neg_r _ (i - 16)) by lia. apply andb_false_r.
  - rewrite Z.testbit_ones_nonneg by lia.
    rewrite (testbit_above r 16), orb_false_r by lia.
    destruct (Z.ltb_spec (i - 16) 16) as [|Hbig]; [apply andb_true_r|].
    rewrite andb_false_r. by rewrite (testbit_above _ 16) by lia.
Qed.

(** Versions compare as their (major, hard fork, release) triples, and
    comparing a hard-fork version with a full version ignores the release. *)
Theorem version_order m h r m' h' r' :
  0 ≤ m < 256 → 0 ≤ h < 256 → 0 ≤ r < 2 ^ 16 →
  0 ≤ m' < 256 → 0 ≤ h' < 256 → 0 ≤ r' < 2 ^ 16 →
  (make_version m h r < make_version m' h' r' ↔
     m < m' ∨ (m = m' ∧ h < h') ∨ (m = m' ∧ h = h' ∧ r < r')) ∧
  (hardfork_version_eqb (make_hardfork_version m h) (make_version m' h' r') = true ↔
     m = m' ∧ h = h') ∧
  (hardfork_version_gtb (make_hardfork_version m h) (make_version m' h' r') = true ↔
     m' < m ∨ (m = m' ∧ h' < h)).
Proof.
  intros. unfold hardfork_version_eqb, hardfork_version_gtb.
  fold (hardfork_version_of (make_version m' h' r')). rewrite hardfork_part by done.
  unfold make_hardfork_version. rewrite !make_version_value by lia.
  rewrite Z.eqb_eq, Z.ltb_lt. lia.
Qed.

Lemma version_order_witness : make_version 0 16 2 < make_version 0 17 0.
Proof. apply (version_order 0 16 2 0 17 0); lia. Defined.
