(* ===== verification/BlockHeader.v ===== *)
(** Block headers: [protocol/block_header.hpp], [protocol/block.cpp].

    A block id is a [ripemd160], five 32-bit words; its first word is replaced
    by the block number, byte-reversed. *)

From S2P Require Import Prelude Fc Version.

(** [block_id_type] *)
Definition block_id : Type := list Z.

(** [block_header_extensions], libraries/protocol/include/node/protocol/base.hpp:28-32 *)
Inductive block_header_extension :=
| ext_void
| ext_version (v : Z)
| ext_hardfork_version_vote (v : hardfork_version_vote).

(** [struct block_header], libraries/protocol/include/node/protocol/block_header.hpp:6-17 *)
Record block_header := {
  previous : block_id;
  timestamp : Z;
  hdr_witness : string;
  transaction_merkle_root : list Z;
  hdr_extensions : list block_header_extension;
}.

(** [struct signed_block_header], libraries/protocol/include/node/protocol/block_header.hpp:19-27 *)
Record signed_block_header := {
  header :> block_header;
  witness_signature : string;
}.

Section header.
Context {C : FcCrypto}.

(** [block_header::digest], libraries/protocol/block.cpp:7-10 *)
Definition header_digest (h : block_header) : string := sha256_hash (raw_pack h).

(** [block_header::num_from_id], libraries/protocol/block.cpp:12-15 *)
Definition num_from_id (id : block_id) : Z := endian_reverse_u32 (nth 0 id 0).

(** [block_header::block_num], libraries/protocol/include/node/protocol/block_header.hpp:10-10 *)
Definition block_num (h : block_header) : Z := wrap_u32 (num_from_id (previous h) + 1).

(** [signed_block_header::id], libraries/protocol/block.cpp:17-25 *)
Definition header_id (h : signed_block_header) : block_id :=
  let tmp := sha224_words (raw_pack h) in
  let tmp := <[0%nat := endian_reverse_u32 (block_num h)]> tmp in
  take 5 tmp.

(** [signed_block_header::signee], libraries/protocol/block.cpp:27-30 *)
Definition signee (h : signed_block_header) : result string :=
  recover_key (witness_signature h) (header_digest h) true.

(** [signed_block_header::validate_signee], libraries/protocol/block.cpp:37-40 *)
Definition validate_signee (expected : string) (h : signed_block_header) : result bool :=
  k ← signee h; Ok (bool_decide (k = expected)).
End header.

Lemma header_id_num `{FcCryptoLaws} h : num_from_id (header_id h) = block_num h.
Proof.
  unfold num_from_id at 1, header_id. pose proof (sha224_words_length (raw_pack h)) as Hlen.
  destruct (sha224_words (raw_pack h)) as [|w ws]; [done|]. cbn in *.
  apply endian_reverse_u32_involutive. unfold block_num, wrap_u32, u32_max.
  pose proof (Z.mod_pos_bound (num_from_id (previous h) + 1) (2 ^ 32)). lia.
Qed.

(** C40. The number of a block can be read back from its id, and it is one
    more than the number in the id of the previous block. *)
Theorem block_num_of_id (C : FcCrypto) (CL : FcCryptoLaws C) h :
  num_from_id (header_id h) = block_num h ∧
  (0 ≤ num_from_id (previous h) < u32_max → block_num h = num_from_id (previous h) + 1) ∧
  length (header_id h) = 5%nat.
Proof.
  split_and!; [apply header_id_num| |].
  - unfold block_num, wrap_u32, u32_max. intros. apply Z.mod_small. lia.
  - unfold header_id. rewrite length_take, length_insert, sha224_words_length. lia.
Qed.

Lemma block_num_of_id_witness :
  let h := {| header := {| previous := [0; 1; 2; 3; 4]; timestamp := 0; hdr_witness := "a";
                transaction_merkle_root := []; hdr_extensions := [] |};
              witness_signature := "s" |} in
  num_from_id (C:=FcCryptoRef.fc_crypto_ref) (header_id (C:=FcCryptoRef.fc_crypto_ref) h) = 1.
Proof.
  intros h.
  rewrite (proj1 (block_num_of_id FcCryptoRef.fc_crypto_ref FcCryptoRef.fc_crypto_ref_laws h)).
  vm_compute. reflexivity.
Defined.
