(* ===== verification/Operations.v ===== *)
(** Operations: [protocol/operations.hpp], [node_operations.hpp/.cpp],
    [node_virtual_operations.hpp].

    One record per operation with its fields, prefixed by the operation's name;
    [operation] is the static variant over them.  [operation_validate] and the
    four [get_required_*] functions dispatch to the operation's own methods.
    The [extensions] fields that only admit [void_t] are omitted. *)

From S2P Require Import Prelude Fc Config Asset Flat Authority Version BlockHeader.

(** * The operations *)

(** [struct accountCreate_operation], libraries/protocol/include/node/protocol/node_operations.hpp:22-35 *)
Record accountCreate_operation := {
  accountCreate_fee : asset;
  accountCreate_creator : account_name;
  accountCreate_newAccountName : account_name;
  accountCreate_owner : authority;
  accountCreate_active : authority;
  accountCreate_posting : authority;
  accountCreate_memoKey : public_key;
  accountCreate_json : string;
}.

(** [struct accountCreateWithDelegation_operation], libraries/protocol/include/node/protocol/node_operations.hpp:38-54 *)
Record accountCreateWithDelegation_operation := {
  accountCreateWithDelegation_fee : asset;
  accountCreateWithDelegation_delegation : asset;
  accountCreateWithDelegation_creator : account_name;
  accountCreateWithDelegation_newAccountName : account_name;
  accountCreateWithDelegation_owner : authority;
  accountCreateWithDelegation_active : authority;
  accountCreateWithDelegation_posting : authority;
  accountCreateWithDelegation_memoKey : public_key;
  accountCreateWithDelegation_json : string;
}.

(** [struct accountUpdate_operation], libraries/protocol/include/node/protocol/node_operations.hpp:57-73 *)
Record accountUpdate_operation := {
  accountUpdate_account : account_name;
  accountUpdate_owner : option authority;
  accountUpdate_active : option authority;
  accountUpdate_posting : option authority;
  accountUpdate_memoKey : public_key;
  accountUpdate_json : string;
}.

(** [struct comment_operation], libraries/protocol/include/node/protocol/node_operations.hpp:76-90 *)
Record comment_operation := {
  comment_parent_author : account_name;
  comment_parent_permlink : string;
  comment_author : account_name;
  comment_permlink : string;
  comment_title : string;
  comment_body : string;
  comment_json : string;
}.

(** [struct beneficiary_route_type], libraries/protocol/include/node/protocol/node_operations.hpp:92-102 *)
Record beneficiary_route_type := {
  beneficiary_account : account_name;
  beneficiary_weight : Z;
}.

(** [comment_options_extension], libraries/protocol/include/node/protocol/node_operations.hpp:104-115 *)
Inductive comment_options_extension :=
| comment_payout_beneficiaries (beneficiaries : list beneficiary_route_type).

(** [struct comment_options_operation], libraries/protocol/include/node/protocol/node_operations.hpp:125-138 *)
Record comment_options_operation := {
  comment_options_author : account_name;
  comment_options_permlink : string;
  comment_options_max_accepted_payout : asset;
  comment_options_percent_TSD : Z;
  comment_options_allow_votes : bool;
  comment_options_allow_curationRewards : bool;
  comment_options_extensions : list comment_options_extension;
}.

(** [struct challenge_authority_operation], libraries/protocol/include/node/protocol/node_operations.hpp:141-150 *)
Record challenge_authority_operation := {
  challenge_authority_challenger : account_name;
  challenge_authority_challenged : account_name;
  challenge_authority_require_owner : bool;
}.

(** [struct prove_authority_operation], libraries/protocol/include/node/protocol/node_operations.hpp:152-161 *)
Record prove_authority_operation := {
  prove_authority_challenged : account_name;
  prove_authority_require_owner : bool;
}.

(** [struct deleteComment_operation], libraries/protocol/include/node/protocol/node_operations.hpp:164-171 *)
Record deleteComment_operation := {
  deleteComment_author : account_name;
  deleteComment_permlink : string;
}.

(** [struct vote_operation], libraries/protocol/include/node/protocol/node_operations.hpp:174-183 *)
Record vote_operation := {
  vote_voter : account_name;
  vote_author : account_name;
  vote_permlink : string;
  vote_weight : Z;
}.

(** [struct transfer_operation], libraries/protocol/include/node/protocol/node_operations.hpp:191-206 *)
Record transfer_operation := {
  transfer_from : account_name;
  transfer_to : account_name;
  transfer_amount : asset;
  transfer_memo : string;
}.

(** [struct escrow_transfer_operation], libraries/protocol/include/node/protocol/node_operations.hpp:227-245 *)
Record escrow_transfer_operation := {
  escrow_transfer_from : account_name;
  escrow_transfer_to : account_name;
  escrow_transfer_agent : account_name;
  escrow_transfer_escrow_id : Z;
  escrow_transfer_TSDamount : asset;
  escrow_transfer_TMEamount : asset;
  escrow_transfer_fee : asset;
  escrow_transfer_ratification_deadline : Z;
  escrow_transfer_escrow_expiration : Z;
  escrow_transfer_json : string;
}.

(** [struct escrow_approve_operation], libraries/protocol/include/node/protocol/node_operations.hpp:253-265 *)
Record escrow_approve_operation := {
  escrow_approve_from : account_name;
  escrow_approve_to : account_name;
  escrow_approve_agent : account_name;
  escrow_approve_who : account_name;
  escrow_approve_escrow_id : Z;
  escrow_approve_approve : bool;
}.

(** [struct escrow_dispute_operation], libraries/protocol/include/node/protocol/node_operations.hpp:273-284 *)
Record escrow_dispute_operation := {
  escrow_dispute_from : account_name;
  escrow_dispute_to : account_name;
  escrow_dispute_agent : account_name;
  escrow_dispute_who : account_name;
  escrow_dispute_escrow_id : Z;
}.

(** [struct escrow_release_operation], libraries/protocol/include/node/protocol/node_operations.hpp:297-311 *)
Record escrow_release_operation := {
  escrow_release_from : account_name;
  escrow_release_to : account_name;
  escrow_release_agent : account_name;
  escrow_release_who : account_name;
  escrow_release_receiver : account_name;
  escrow_release_escrow_id : Z;
  escrow_release_TSDamount : asset;
  escrow_release_TMEamount : asset;
}.

(** [struct transferTMEtoSCOREfund_operation], libraries/protocol/include/node/protocol/node_operations.hpp:320-328 *)
Record transferTMEtoSCOREfund_operation := {
  transferTMEtoSCOREfund_from : account_name;
  transferTMEtoSCOREfund_to : account_name;
  transferTMEtoSCOREfund_amount : asset;
}.

(** [struct withdrawSCORE_operation], libraries/protocol/include/node/protocol/node_operations.hpp:342-349 *)
Record withdrawSCORE_operation := {
  withdrawSCORE_account : account_name;
  withdrawSCORE_SCORE : asset;
}.

(** [struct setWithdrawSCOREasTMEroute_operation], libraries/protocol/include/node/protocol/node_operations.hpp:359-368 *)
Record setWithdrawSCOREasTMEroute_operation := {
  setWithdrawRoute_from_account : account_name;
  setWithdrawRoute_to_account : account_name;
  setWithdrawRoute_percent : Z;
  setWithdrawRoute_autoSCORE : bool;
}.

(** [struct chain_properties], libraries/protocol/include/node/protocol/node_operations.hpp:376-401 *)
Record chain_properties := {
  props_account_creation_fee : asset;
  props_maximum_block_size : Z;
  props_TSD_interest_rate : Z;
}.

(** [struct witness_update_operation], libraries/protocol/include/node/protocol/node_operations.hpp:418-428 *)
Record witness_update_operation := {
  witness_update_owner : account_name;
  witness_update_url : string;
  witness_update_block_signing_key : public_key;
  witness_update_props : chain_properties;
  witness_update_fee : asset;
}.

(** [struct accountWitnessVote_operation], libraries/protocol/include/node/protocol/node_operations.hpp:436-444 *)
Record accountWitnessVote_operation := {
  accountWitnessVote_account : account_name;
  accountWitnessVote_witness : account_name;
  accountWitnessVote_approve : bool;
}.

(** [struct account_witness_proxy_operation], libraries/protocol/include/node/protocol/node_operations.hpp:447-454 *)
Record account_witness_proxy_operation := {
  witness_proxy_account : account_name;
  witness_proxy_proxy : account_name;
}.

(** [struct custom_operation], libraries/protocol/include/node/protocol/node_operations.hpp:463-471 *)
Record custom_operation := {
  custom_required_auths : list account_name;
  custom_id : Z;
  custom_data : string;
}.

(** [struct customJson_operation], libraries/protocol/include/node/protocol/node_operations.hpp:477-487 *)
Record customJson_operation := {
  customJson_required_auths : list account_name;
  customJson_required_posting_auths : list account_name;
  customJson_id : string;
  customJson_json : string;
}.

(** [struct custom_binary_operation], libraries/protocol/include/node/protocol/node_operations.hpp:490-505 *)
Record custom_binary_operation := {
  custom_binary_required_owner_auths : list account_name;
  custom_binary_required_active_auths : list account_name;
  custom_binary_required_posting_auths : list account_name;
  custom_binary_required_auths : list authority;
  custom_binary_id : string;
  custom_binary_data : string;
}.

(** [struct feed_publish_operation], libraries/protocol/include/node/protocol/node_operations.hpp:512-519 *)
Record feed_publish_operation := {
  feed_publish_publisher : account_name;
  feed_publish_exchange_rate : price;
}.

(** [struct convert_operation], libraries/protocol/include/node/protocol/node_operations.hpp:526-534 *)
Record convert_operation := {
  convert_owner : account_name;
  convert_requestid : Z;
  convert_amount : asset;
}.

(** [struct limit_order_create_operation], libraries/protocol/include/node/protocol/node_operations.hpp:540-560 *)
Record limit_order_create_operation := {
  limit_order_create_owner : account_name;
  limit_order_create_orderid : Z;
  limit_order_create_amount_to_sell : asset;
  limit_order_create_min_to_receive : asset;
  limit_order_create_fill_or_kill : bool;
  limit_order_create_expiration : Z;
}.

(** [struct limit_order_create2_operation], libraries/protocol/include/node/protocol/node_operations.hpp:567-587 *)
Record limit_order_create2_operation := {
  limit_order_create2_owner : account_name;
  limit_order_create2_orderid : Z;
  limit_order_create2_amount_to_sell : asset;
  limit_order_create2_fill_or_kill : bool;
  limit_order_create2_exchange_rate : price;
  limit_order_create2_expiration : Z;
}.

(** [struct limit_order_cancel_operation], libraries/protocol/include/node/protocol/node_operations.hpp:593-600 *)
Record limit_order_cancel_operation := {
  limit_order_cancel_owner : account_name;
  limit_order_cancel_orderid : Z;
}.

(** [struct pow], libraries/protocol/include/node/protocol/node_operations.hpp:603-612 *)
Record pow := {
  pow_worker : public_key;
  pow_input : string;
  pow_signature : string;
  pow_work : string;
}.

(** [struct pow_operation], libraries/protocol/include/node/protocol/node_operations.hpp:615-630 *)
Record pow_operation := {
  pow_op_worker_account : account_name;
  pow_op_block_id : list Z;
  pow_op_nonce : Z;
  pow_op_work : pow;
  pow_op_props : chain_properties;
}.

(** [struct pow2_input], libraries/protocol/include/node/protocol/node_operations.hpp:633-638 *)
Record pow2_input := {
  pow2_input_worker_account : account_name;
  pow2_input_prev_block : list Z;
  pow2_input_nonce : Z;
}.

(** [struct pow2], libraries/protocol/include/node/protocol/node_operations.hpp:641-648 *)
Record pow2 := {
  pow2_input_ : pow2_input;
  pow2_pow_summary : Z;
}.

(** [struct equihash_pow], libraries/protocol/include/node/protocol/node_operations.hpp:650-659 *)
Record equihash_pow := {
  equihash_pow_input : pow2_input;
  equihash_pow_proof_n : Z;
  equihash_pow_proof_k : Z;
  equihash_pow_proof_seed : string;
  equihash_pow_proof_inputs : list Z;
  equihash_pow_prev_block : list Z;
  equihash_pow_pow_summary : Z;
}.

(** [pow2_work], libraries/protocol/include/node/protocol/node_operations.hpp:661-661 *)
Inductive pow2_work :=
| pow2_work_pow2 (w : pow2)
| pow2_work_equihash (w : equihash_pow).

(** [struct pow2_operation], libraries/protocol/include/node/protocol/node_operations.hpp:663-680 *)
Record pow2_operation := {
  pow2_op_work : pow2_work;
  pow2_op_new_owner_key : option public_key;
  pow2_op_props : chain_properties;
}.

(** [struct report_over_production_operation], libraries/protocol/include/node/protocol/node_operations.hpp:696-703 *)
Record report_over_production_operation := {
  report_reporter : account_name;
  report_first_block : signed_block_header;
  report_second_block : signed_block_header;
}.

(** [struct request_account_recovery_operation], libraries/protocol/include/node/protocol/node_operations.hpp:733-747 *)
Record request_account_recovery_operation := {
  request_recovery_recoveryAccount : account_name;
  request_recovery_accountToRecover : account_name;
  request_recovery_new_owner_authority : authority;
}.

(** [struct recover_account_operation], libraries/protocol/include/node/protocol/node_operations.hpp:787-804 *)
Record recover_account_operation := {
  recover_account_accountToRecover : account_name;
  recover_account_new_owner_authority : authority;
  recover_account_recent_owner_authority : authority;
}.

(** [struct reset_account_operation], libraries/protocol/include/node/protocol/node_operations.hpp:811-818 *)
Record reset_account_operation := {
  reset_account_reset_account : account_name;
  reset_account_account_to_reset : account_name;
  reset_account_new_owner_authority : authority;
}.

(** [struct set_reset_account_operation], libraries/protocol/include/node/protocol/node_operations.hpp:824-840 *)
Record set_reset_account_operation := {
  set_reset_account_account : account_name;
  set_reset_account_current_reset_account : account_name;
  set_reset_account_reset_account : account_name;
}.

(** [struct change_recoveryAccount_operation], libraries/protocol/include/node/protocol/node_operations.hpp:861-869 *)
Record change_recoveryAccount_operation := {
  change_recovery_accountToRecover : account_name;
  change_recovery_new_recoveryAccount : account_name;
}.

(** [struct transferToSavings_operation], libraries/protocol/include/node/protocol/node_operations.hpp:872-880 *)
Record transferToSavings_operation := {
  transferToSavings_from : account_name;
  transferToSavings_to : account_name;
  transferToSavings_amount : asset;
  transferToSavings_memo : string;
}.

(** [struct transferFromSavings_operation], libraries/protocol/include/node/protocol/node_operations.hpp:883-892 *)
Record transferFromSavings_operation := {
  transferFromSavings_from : account_name;
  transferFromSavings_request_id : Z;
  transferFromSavings_to : account_name;
  transferFromSavings_amount : asset;
  transferFromSavings_memo : string;
}.

(** [struct cancelTransferFromSavings_operation], libraries/protocol/include/node/protocol/node_operations.hpp:895-901 *)
Record cancelTransferFromSavings_operation := {
  cancelTransferFromSavings_from : account_name;
  cancelTransferFromSavings_request_id : Z;
}.

(** [struct decline_voting_rights_operation], libraries/protocol/include/node/protocol/node_operations.hpp:904-911 *)
Record decline_voting_rights_operation := {
  decline_voting_rights_account : account_name;
  decline_voting_rights_decline : bool;
}.

(** [struct claimRewardBalance_operation], libraries/protocol/include/node/protocol/node_operations.hpp:913-922 *)
Record claimRewardBalance_operation := {
  claimRewardBalance_account : account_name;
  claimRewardBalance_TMEreward : asset;
  claimRewardBalance_TSDreward : asset;
  claimRewardBalance_SCOREreward : asset;
}.

(** [struct delegateSCORE_operation], libraries/protocol/include/node/protocol/node_operations.hpp:933-941 *)
Record delegateSCORE_operation := {
  delegateSCORE_delegator : account_name;
  delegateSCORE_delegatee : account_name;
  delegateSCORE_SCORE : asset;
}.

(** ** Virtual operations *)

(** [struct authorReward_operation], libraries/protocol/include/node/protocol/node_virtual_operations.hpp:10-20 *)
Record authorReward_operation := {
  authorReward_author : account_name;
  authorReward_permlink : string;
  authorReward_TSDpayout : asset;
  authorReward_TMEpayout : asset;
  authorReward_SCOREpayout : asset;
}.

(** [struct curationReward_operation], libraries/protocol/include/node/protocol/node_virtual_operations.hpp:23-33 *)
Record curationReward_operation := {
  curationReward_curator : account_name;
  curationReward_reward : asset;
  curationReward_comment_author : account_name;
  curationReward_comment_permlink : string;
}.

(** [struct comment_reward_operation], libraries/protocol/include/node/protocol/node_virtual_operations.hpp:36-45 *)
Record comment_reward_operation := {
  comment_reward_author : account_name;
  comment_reward_permlink : string;
  comment_reward_payout : asset;
}.

(** [struct liquidity_reward_operation], libraries/protocol/include/node/protocol/node_virtual_operations.hpp:48-55 *)
Record liquidity_reward_operation := {
  liquidity_reward_owner : account_name;
  liquidity_reward_payout : asset;
}.

(** [struct interest_operation], libraries/protocol/include/node/protocol/node_virtual_operations.hpp:58-65 *)
Record interest_operation := {
  interest_owner : account_name;
  interest_interest : asset;
}.

(** [struct fill_convert_request_operation], libraries/protocol/include/node/protocol/node_virtual_operations.hpp:68-78 *)
Record fill_convert_request_operation := {
  fill_convert_request_owner : account_name;
  fill_convert_request_requestid : Z;
  fill_convert_request_amount_in : asset;
  fill_convert_request_amount_out : asset;
}.

(** [struct fillSCOREWithdraw_operation], libraries/protocol/include/node/protocol/node_virtual_operations.hpp:81-91 *)
Record fillSCOREWithdraw_operation := {
  fillSCOREWithdraw_from_account : account_name;
  fillSCOREWithdraw_to_account : account_name;
  fillSCOREWithdraw_withdrawn : asset;
  fillSCOREWithdraw_deposited : asset;
}.

(** [struct shutdown_witness_operation], libraries/protocol/include/node/protocol/node_virtual_operations.hpp:94-100 *)
Record shutdown_witness_operation := {
  shutdown_witness_owner : account_name;
}.

(** [struct fill_order_operation], libraries/protocol/include/node/protocol/node_virtual_operations.hpp:103-115 *)
Record fill_order_operation := {
  fill_order_current_owner : account_name;
  fill_order_current_orderid : Z;
  fill_order_current_pays : asset;
  fill_order_open_owner : account_name;
  fill_order_open_orderid : Z;
  fill_order_open_pays : asset;
}.

(** [struct fill_transferFromSavings_operation], libraries/protocol/include/node/protocol/node_virtual_operations.hpp:118-129 *)
Record fill_transferFromSavings_operation := {
  fill_transferFromSavings_from : account_name;
  fill_transferFromSavings_to : account_name;
  fill_transferFromSavings_amount : asset;
  fill_transferFromSavings_request_id : Z;
  fill_transferFromSavings_memo : string;
}.

(** [struct hardfork_operation], libraries/protocol/include/node/protocol/node_virtual_operations.hpp:131-137 *)
Record hardfork_operation := {
  hardfork_op_hardfork_id : Z;
}.

(** [struct comment_payout_update_operation], libraries/protocol/include/node/protocol/node_virtual_operations.hpp:139-146 *)
Record comment_payout_update_operation := {
  comment_payout_update_author : account_name;
  comment_payout_update_permlink : string;
}.

(** [struct return_SCORE_delegation_operation], libraries/protocol/include/node/protocol/node_virtual_operations.hpp:148-155 *)
Record return_SCORE_delegation_operation := {
  return_SCORE_delegation_account : account_name;
  return_SCORE_delegation_SCORE : asset;
}.

(** [struct comment_benefactor_reward_operation], libraries/protocol/include/node/protocol/node_virtual_operations.hpp:157-167 *)
Record comment_benefactor_reward_operation := {
  comment_benefactor_reward_benefactor : account_name;
  comment_benefactor_reward_author : account_name;
  comment_benefactor_reward_permlink : string;
  comment_benefactor_reward_reward : asset;
}.

(** [struct producer_reward_operation], libraries/protocol/include/node/protocol/node_virtual_operations.hpp:169-177 *)
Record producer_reward_operation := {
  producer_reward_producer : account_name;
  producer_reward_SCORE : asset;
}.

(** [operation], libraries/protocol/include/node/protocol/operations.hpp:9-81 *)
Inductive operation :=
| vote_ (o : vote_operation)
| comment_ (o : comment_operation)
| transfer_ (o : transfer_operation)
| transferTMEtoSCOREfund_ (o : transferTMEtoSCOREfund_operation)
| withdrawSCORE_ (o : withdrawSCORE_operation)
| limit_order_create_ (o : limit_order_create_operation)
| limit_order_cancel_ (o : limit_order_cancel_operation)
| feed_publish_ (o : feed_publish_operation)
| convert_ (o : convert_operation)
| accountCreate_ (o : accountCreate_operation)
| accountUpdate_ (o : accountUpdate_operation)
| witness_update_ (o : witness_update_operation)
| accountWitnessVote_ (o : accountWitnessVote_operation)
| witness_proxy_ (o : account_witness_proxy_operation)
| pow_op_ (o : pow_operation)
| custom_ (o : custom_operation)
| report_ (o : report_over_production_operation)
| deleteComment_ (o : deleteComment_operation)
| customJson_ (o : customJson_operation)
| comment_options_ (o : comment_options_operation)
| setWithdrawRoute_ (o : setWithdrawSCOREasTMEroute_operation)
| limit_order_create2_ (o : limit_order_create2_operation)
| challenge_authority_ (o : challenge_authority_operation)
| prove_authority_ (o : prove_authority_operation)
| request_recovery_ (o : request_account_recovery_operation)
| recover_account_ (o : recover_account_operation)
| change_recovery_ (o : change_recoveryAccount_operation)
| escrow_transfer_ (o : escrow_transfer_operation)
| escrow_dispute_ (o : escrow_dispute_operation)
| escrow_release_ (o : escrow_release_operation)
| pow2_op_ (o : pow2_operation)
| escrow_approve_ (o : escrow_approve_operation)
| transferToSavings_ (o : transferToSavings_operation)
| transferFromSavings_ (o : transferFromSavings_operation)
| cancelTransferFromSavings_ (o : cancelTransferFromSavings_operation)
| custom_binary_ (o : custom_binary_operation)
| decline_voting_rights_ (o : decline_voting_rights_operation)
| reset_account_ (o : reset_account_operation)
| set_reset_account_ (o : set_reset_account_operation)
| claimRewardBalance_ (o : claimRewardBalance_operation)
| delegateSCORE_ (o : delegateSCORE_operation)
| accountCreateWithDelegation_ (o : accountCreateWithDelegation_operation)
| fill_convert_request_ (o : fill_convert_request_operation)
| authorReward_ (o : authorReward_operation)
| curationReward_ (o : curationReward_operation)
| comment_reward_ (o : comment_reward_operation)
| liquidity_reward_ (o : liquidity_reward_operation)
| interest_ (o : interest_operation)
| fillSCOREWithdraw_ (o : fillSCOREWithdraw_operation)
| fill_order_ (o : fill_order_operation)
| shutdown_witness_ (o : shutdown_witness_operation)
| fill_transferFromSavings_ (o : fill_transferFromSavings_operation)
| hardfork_op_ (o : hardfork_operation)
| comment_payout_update_ (o : comment_payout_update_operation)
| return_SCORE_delegation_ (o : return_SCORE_delegation_operation)
| comment_benefactor_reward_ (o : comment_benefactor_reward_operation)
| producer_reward_ (o : producer_reward_operation).

(** The operations are what their constructors wrap. *)

(** [is_virtual_operation], libraries/protocol/operations.cpp:22-33 *)
Definition is_virtual_operation (op : operation) : bool :=
  match op with
  | fill_convert_request_ _ | authorReward_ _ | curationReward_ _ | comment_reward_ _ |
    liquidity_reward_ _ | interest_ _ | fillSCOREWithdraw_ _ | fill_order_ _ | shutdown_witness_ _ |
    fill_transferFromSavings_ _ | hardfork_op_ _ | comment_payout_update_ _ |
    return_SCORE_delegation_ _ | comment_benefactor_reward_ _ | producer_reward_ _ => true
  | _ => false
  end.

(** [is_market_operation], libraries/protocol/operations.cpp:7-20 *)
Definition is_market_operation (op : operation) : bool :=
  match op with
  | limit_order_create_ _ | limit_order_cancel_ _ | transfer_ _ | transferTMEtoSCOREfund_ _ => true
  | _ => false
  end.

(** * Validation *)

(** [FC_ASSERT] of an expression that may itself throw. *)
Definition fc_check_r (r : result bool) (msg : string) : result unit := b ← r; fc_check b msg.

(** [s.size() > 0] *)
Definition nonempty (s : string) : bool := negb (bool_decide (s = EmptyString)).
Definition size (s : string) : Z := Z.of_nat (String.length s).
(** [a == b] of two strings. *)
Definition str_eqb (a b : string) : bool := bool_decide (a = b).
Lemma str_eqb_true a b : str_eqb a b = true ↔ a = b.
Proof. apply bool_decide_eq_true. Qed.
Lemma str_eqb_false a b : str_eqb a b = false ↔ a ≠ b.
Proof. apply bool_decide_eq_false. Qed.
Ltac guards :=
  repeat match goal with
  | H : str_eqb _ _ = true |- _ => apply str_eqb_true in H
  | H : str_eqb _ _ = false |- _ => apply str_eqb_false in H
  | H : (str_eqb _ _ || str_eqb _ _)%bool = true |- _ =>
      apply orb_true_iff in H; rewrite !str_eqb_true in H
  | _ => progress bool_hyps
  end.

(** [is_asset_type], libraries/protocol/node_operations.cpp:8-11 *)
Definition is_asset_type (a : asset) (sym : Z) : bool := symbol a =? sym.

(** [validate_account_name], libraries/protocol/include/node/protocol/node_operations.hpp:11-14 *)
Definition validate_account_name (name : string) : result unit :=
  fc_check (is_valid_account_name name) "Account name ${n} is invalid".

(** [chain_properties::validate], libraries/protocol/include/node/protocol/node_operations.hpp:394-400 *)
Definition chain_properties_validate (p : chain_properties) : result unit :=
  fc_check (MIN_ACCOUNT_CREATION_FEE <=? amount (props_account_creation_fee p)) EmptyString;;
  fc_check (MIN_BLOCK_SIZE_LIMIT <=? props_maximum_block_size p) EmptyString;;
  fc_check (0 <=? props_TSD_interest_rate p) EmptyString;;
  fc_check (props_TSD_interest_rate p <=? PERCENT_100) EmptyString.

(** [limit_order_create_operation::get_price], libraries/protocol/include/node/protocol/node_operations.hpp:552-552 *)
Definition limit_order_create_get_price `{Fc} (o : limit_order_create_operation) : result price :=
  asset_div (limit_order_create_amount_to_sell o) (limit_order_create_min_to_receive o).
(** [limit_order_create_operation::get_market], libraries/protocol/include/node/protocol/node_operations.hpp:554-559 *)
Definition limit_order_create_get_market (o : limit_order_create_operation) : Z * Z :=
  let a := symbol (limit_order_create_amount_to_sell o) in
  let b := symbol (limit_order_create_min_to_receive o) in
  if a <? b then (a, b) else (b, a).
(** [limit_order_create2_operation::get_market], libraries/protocol/include/node/protocol/node_operations.hpp:581-586 *)
Definition limit_order_create2_get_market (o : limit_order_create2_operation) : Z * Z :=
  let a := symbol (base (limit_order_create2_exchange_rate o)) in
  let b := symbol (quote (limit_order_create2_exchange_rate o)) in
  if a <? b then (a, b) else (b, a).

Section validate.
Context {F : Fc} {C : FcCrypto}.

(** [validate_permlink], libraries/protocol/include/node/protocol/node_operations.hpp:16-20 *)
Definition validate_permlink (permlink : string) : result unit :=
  fc_check (size permlink <? MAX_PERMLINK_LENGTH) "permlink is too long";;
  fc_check (is_utf8 permlink) "permlink not formatted in UTF8".

(** The check every optional JSON field gets. *)
Definition validate_json (json : string) : result unit :=
  if nonempty json then
    fc_check (is_utf8 json) "JSON Metadata not formatted in UTF8";;
    fc_check (json_is_valid json) "JSON Metadata not valid JSON"
  else Ok tt.

(** [accountCreate_operation::validate], libraries/protocol/node_operations.cpp:13-26 *)
Definition accountCreate_validate (o : accountCreate_operation) : result unit :=
  validate_account_name (accountCreate_newAccountName o);;
  fc_check (is_asset_type (accountCreate_fee o) SYMBOL_COIN) "Account creation fee must be TME";;
  authority_validate (accountCreate_owner o);;
  authority_validate (accountCreate_active o);;
  validate_json (accountCreate_json o);;
  fc_check_r (asset_ge (accountCreate_fee o) (Asset 0 SYMBOL_COIN))
    "Account creation fee cannot be negative".

(** [accountCreateWithDelegation_operation::validate], libraries/protocol/node_operations.cpp:28-47 *)
Definition accountCreateWithDelegation_validate
    (o : accountCreateWithDelegation_operation) : result unit :=
  validate_account_name (accountCreateWithDelegation_newAccountName o);;
  validate_account_name (accountCreateWithDelegation_creator o);;
  fc_check (is_asset_type (accountCreateWithDelegation_fee o) SYMBOL_COIN)
    "Account creation fee must be TME";;
  fc_check (is_asset_type (accountCreateWithDelegation_delegation o) SYMBOL_SCORE)
    "Delegation must be SCORE";;
  authority_validate (accountCreateWithDelegation_owner o);;
  authority_validate (accountCreateWithDelegation_active o);;
  authority_validate (accountCreateWithDelegation_posting o);;
  validate_json (accountCreateWithDelegation_json o);;
  fc_check_r (asset_ge (accountCreateWithDelegation_fee o) (Asset 0 SYMBOL_COIN))
    "Account creation fee cannot be negative";;
  fc_check_r (asset_ge (accountCreateWithDelegation_delegation o) (Asset 0 SYMBOL_SCORE))
    "Delegation cannot be negative".

(** [accountUpdate_operation::validate], libraries/protocol/node_operations.cpp:49-64 *)
Definition accountUpdate_validate (o : accountUpdate_operation) : result unit :=
  validate_account_name (accountUpdate_account o);;
  validate_json (accountUpdate_json o).

(** [comment_operation::validate], libraries/protocol/node_operations.cpp:66-84 *)
Definition comment_validate (o : comment_operation) : result unit :=
  fc_check (size (comment_title o) <? 256) "Title larger than size limit";;
  fc_check (is_utf8 (comment_title o)) "Title not formatted in UTF8";;
  fc_check (nonempty (comment_body o)) "Body is empty";;
  fc_check (is_utf8 (comment_body o)) "Body not formatted in UTF8";;
  (if nonempty (comment_parent_author o) then validate_account_name (comment_parent_author o)
   else Ok tt);;
  validate_account_name (comment_author o);;
  validate_permlink (comment_parent_permlink o);;
  validate_permlink (comment_permlink o);;
  if nonempty (comment_json o) then
    fc_check (json_is_valid (comment_json o)) "JSON Metadata not valid JSON"
  else Ok tt.

(** One round of the loop of [comment_payout_beneficiaries::validate]: the
    running sum, after the checks of the route. *)
Definition validate_beneficiary (sum : Z) (b : beneficiary_route_type) : result Z :=
  validate_account_name (beneficiary_account b);;
  fc_check (beneficiary_weight b <=? PERCENT_100)
    "Cannot allocate more than 100% of rewards to one account";;
  let sum := wrap_u32 (sum + beneficiary_weight b) in
  fc_check (sum <=? PERCENT_100) "Cannot allocate more than 100% of rewards to a comment";;
  Ok sum.
Fixpoint validate_beneficiaries_from (prev : beneficiary_route_type) (sum : Z)
    (l : list beneficiary_route_type) : result unit :=
  match l with
  | [] => Ok tt
  | b :: l' =>
      sum ← validate_beneficiary sum b;
      fc_check (bool_decide (key_lt (beneficiary_account prev) (beneficiary_account b)))
        "Benficiaries must be specified in sorted order (account ascending)";;
      validate_beneficiaries_from b sum l'
  end.

(** [comment_payout_beneficiaries::validate], libraries/protocol/node_operations.cpp:98-118 *)
Definition comment_payout_beneficiaries_validate (l : list beneficiary_route_type) : result unit :=
  fc_check (negb (bool_decide (l = []))) "Must specify at least one beneficiary";;
  fc_check (Z.of_nat (length l) <? 128) "Cannot specify more than 127 beneficiaries.";;
  match l with
  | [] => Ok tt
  | b :: l' => sum ← validate_beneficiary 0 b; validate_beneficiaries_from b sum l'
  end.

(** [comment_options_operation::validate], libraries/protocol/node_operations.cpp:120-129 *)
Definition comment_options_validate (o : comment_options_operation) : result unit :=
  validate_account_name (comment_options_author o);;
  fc_check (comment_options_percent_TSD o <=? PERCENT_100) "Percent cannot exceed 100%";;
  fc_check (symbol (comment_options_max_accepted_payout o) =? SYMBOL_USD)
    "Max accepted payout must be in TSD";;
  fc_check (0 <=? amount (comment_options_max_accepted_payout o))
    "Cannot accept less than 0 payout";;
  validate_permlink (comment_options_permlink o);;
  rfor (λ e, match e with
             | comment_payout_beneficiaries l => comment_payout_beneficiaries_validate l
             end) (comment_options_extensions o).

(** [deleteComment_operation::validate], libraries/protocol/node_operations.cpp:131-135 *)
Definition deleteComment_validate (o : deleteComment_operation) : result unit :=
  validate_permlink (deleteComment_permlink o);;
  validate_account_name (deleteComment_author o).

(** [challenge_authority_operation::validate], libraries/protocol/node_operations.cpp:137-142 *)
Definition challenge_authority_validate (o : challenge_authority_operation) : result unit :=
  validate_account_name (challenge_authority_challenger o);;
  validate_account_name (challenge_authority_challenged o);;
  fc_check (negb (str_eqb (challenge_authority_challenged o) (challenge_authority_challenger o)))
    "cannot challenge yourself".

(** [prove_authority_operation::validate], libraries/protocol/node_operations.cpp:144-147 *)
Definition prove_authority_validate (o : prove_authority_operation) : result unit :=
  validate_account_name (prove_authority_challenged o).

(** [vote_operation::validate], libraries/protocol/node_operations.cpp:149-155 *)
Definition vote_validate (o : vote_operation) : result unit :=
  validate_account_name (vote_voter o);;
  validate_account_name (vote_author o);;
  fc_check (Z.abs (vote_weight o) <=? PERCENT_100) "Weight is not a TME percentage";;
  validate_permlink (vote_permlink o).

(** The memo checks of the transfers. *)
Definition validate_memo (memo : string) : result unit :=
  fc_check (size memo <? MAX_MEMO_SIZE) "Memo is too large";;
  fc_check (is_utf8 memo) "Memo is not UTF8".

(** [transfer_operation::validate], libraries/protocol/node_operations.cpp:157-165 *)
Definition transfer_validate (o : transfer_operation) : result unit :=
  validate_account_name (transfer_from o);;
  validate_account_name (transfer_to o);;
  fc_check (negb (symbol (transfer_amount o) =? SYMBOL_SCORE))
    "transferring of WeYouMe Power (STMP) is not allowed.";;
  fc_check (0 <? amount (transfer_amount o))
    "Cannot transfer a negative amount (aka: stealing)";;
  validate_memo (transfer_memo o).

(** [transferTMEtoSCOREfund_operation::validate], libraries/protocol/node_operations.cpp:167-173 *)
Definition transferTMEtoSCOREfund_validate (o : transferTMEtoSCOREfund_operation) : result unit :=
  validate_account_name (transferTMEtoSCOREfund_from o);;
  fc_check (is_asset_type (transferTMEtoSCOREfund_amount o) SYMBOL_COIN) "Amount must be TME";;
  (if nonempty (transferTMEtoSCOREfund_to o)
   then validate_account_name (transferTMEtoSCOREfund_to o) else Ok tt);;
  fc_check_r (asset_gt (transferTMEtoSCOREfund_amount o) (Asset 0 SYMBOL_COIN))
    "Must transfer a nonzero amount".

(** [withdrawSCORE_operation::validate], libraries/protocol/node_operations.cpp:175-179 *)
Definition withdrawSCORE_validate (o : withdrawSCORE_operation) : result unit :=
  validate_account_name (withdrawSCORE_account o);;
  fc_check (is_asset_type (withdrawSCORE_SCORE o) SYMBOL_SCORE) "Amount must be SCORE".

(** [setWithdrawSCOREasTMEroute_operation::validate], libraries/protocol/node_operations.cpp:181-186 *)
Definition setWithdrawSCOREasTMEroute_validate
    (o : setWithdrawSCOREasTMEroute_operation) : result unit :=
  validate_account_name (setWithdrawRoute_from_account o);;
  validate_account_name (setWithdrawRoute_to_account o);;
  fc_check ((0 <=? setWithdrawRoute_percent o) && (setWithdrawRoute_percent o <=? PERCENT_100))
    "Percent must be valid TME percent".

(** [witness_update_operation::validate], libraries/protocol/node_operations.cpp:188-195 *)
Definition witness_update_validate (o : witness_update_operation) : result unit :=
  validate_account_name (witness_update_owner o);;
  fc_check (nonempty (witness_update_url o)) "URL size must be greater than 0";;
  fc_check (is_utf8 (witness_update_url o)) "URL is not valid UTF8";;
  fc_check_r (asset_ge (witness_update_fee o) (Asset 0 SYMBOL_COIN)) "Fee cannot be negative";;
  chain_properties_validate (witness_update_props o).

(** [accountWitnessVote_operation::validate], libraries/protocol/node_operations.cpp:197-201 *)
Definition accountWitnessVote_validate (o : accountWitnessVote_operation) : result unit :=
  validate_account_name (accountWitnessVote_account o);;
  validate_account_name (accountWitnessVote_witness o).

(** [account_witness_proxy_operation::validate], libraries/protocol/node_operations.cpp:203-209 *)
Definition account_witness_proxy_validate (o : account_witness_proxy_operation) : result unit :=
  validate_account_name (witness_proxy_account o);;
  (if nonempty (witness_proxy_proxy o) then validate_account_name (witness_proxy_proxy o)
   else Ok tt);;
  fc_check (negb (str_eqb (witness_proxy_proxy o) (witness_proxy_account o)))
    "Cannot proxy to self".

(** [custom_operation::validate], libraries/protocol/node_operations.cpp:211-214 *)
Definition custom_validate (o : custom_operation) : result unit :=
  fc_check (0 <? length (custom_required_auths o))%nat "at least on account must be specified".

(** [customJson_operation::validate], libraries/protocol/node_operations.cpp:215-221 *)
Definition customJson_validate (o : customJson_operation) : result unit :=
  fc_check (0 <? length (customJson_required_auths o) +
            length (customJson_required_posting_auths o))%nat
    "at least on account must be specified";;
  fc_check (size (customJson_id o) <=? 32) "id is too long";;
  fc_check (is_utf8 (customJson_json o)) "JSON Metadata not formatted in UTF8";;
  fc_check (json_is_valid (customJson_json o)) "JSON Metadata not valid JSON".

(** [custom_binary_operation::validate], libraries/protocol/node_operations.cpp:222-227 *)
Definition custom_binary_validate (o : custom_binary_operation) : result unit :=
  fc_check (0 <? length (custom_binary_required_owner_auths o) +
            length (custom_binary_required_active_auths o) +
            length (custom_binary_required_posting_auths o))%nat
    "at least on account must be specified";;
  fc_check (size (custom_binary_id o) <=? 32) "id is too long";;
  rfor authority_validate (custom_binary_required_auths o).

(** [pow_operation::work_input], libraries/protocol/node_operations.cpp:230-235 *)
Definition pow_work_input (o : pow_operation) : string :=
  let hash := sha256_hash (raw_pack (pow_op_block_id o)) in
  let hash := sha256_set_word0 (pow_op_nonce o) hash in
  sha256_hash (raw_pack hash).

(** [pow::validate], libraries/protocol/node_operations.cpp:325-332 *)
Definition pow_validate (p : pow) : result unit :=
  fc_check (negb (str_eqb (pow_work p) (String.string_of_list_ascii (replicate 32 Ascii.zero))))
    EmptyString;;
  k ← recover_key (pow_signature p) (pow_input p) false;
  fc_check (str_eqb k (pow_worker p)) EmptyString;;
  let sig_hash := sha256_hash (raw_pack (pow_signature p)) in
  recover ← recover_key (pow_signature p) sig_hash false;
  fc_check (str_eqb (pow_work p) (sha256_hash (raw_pack recover))) EmptyString.

(** [pow_operation::validate], libraries/protocol/node_operations.cpp:237-243 *)
Definition pow_operation_validate (o : pow_operation) : result unit :=
  chain_properties_validate (pow_op_props o);;
  validate_account_name (pow_op_worker_account o);;
  fc_check (str_eqb (pow_work_input o) (pow_input (pow_op_work o)))
    "Determninistic input does not match recorded input";;
  pow_validate (pow_op_work o).

(** [pow2::create], libraries/protocol/node_operations.cpp:297-312 *)
Definition pow2_create (prev : block_id) (account_name : string) (n : Z) : result pow2 :=
  let input := {| pow2_input_worker_account := account_name; pow2_input_prev_block := prev;
                  pow2_input_nonce := n |} in
  let prv_key := sha256_hash (raw_pack input) in
  let digest := sha256_hash (raw_pack prv_key) in
  let signature := sign_with_secret prv_key digest in
  let sig_hash := sha256_hash (raw_pack signature) in
  recover ← recover_key signature sig_hash true;
  let work := sha256_hash (raw_pack (digest, recover)) in
  Ok {| pow2_input_ := input; pow2_pow_summary := approx_log_32 work |}.

(** [pow2::validate], libraries/protocol/node_operations.cpp:334-339 *)
Definition pow2_validate (p : pow2) : result unit :=
  let input := pow2_input_ p in
  validate_account_name (pow2_input_worker_account input);;
  tmp ← pow2_create (pow2_input_prev_block input) (pow2_input_worker_account input)
          (pow2_input_nonce input);
  fc_check (pow2_pow_summary p =? pow2_pow_summary tmp)
    "reported work does not match calculated work".

(** [equihash_pow::validate], libraries/protocol/node_operations.cpp:341-350 *)
Definition equihash_pow_validate (p : equihash_pow) : result unit :=
  validate_account_name (pow2_input_worker_account (equihash_pow_input p));;
  let seed := sha256_hash (raw_pack (equihash_pow_input p)) in
  fc_check (equihash_pow_proof_n p =? EQUIHASH_N) "proof of work 'n' value is incorrect";;
  fc_check (equihash_pow_proof_k p =? EQUIHASH_K) "proof of work 'k' value is incorrect";;
  fc_check (str_eqb (equihash_pow_proof_seed p) seed)
    "proof of work seed does not match expected seed";;
  fc_check (equihash_is_valid (equihash_pow_proof_n p) (equihash_pow_proof_k p)
    (equihash_pow_proof_seed p) (equihash_pow_proof_inputs p))
    "proof of work is not a solution";;
  fc_check (equihash_pow_pow_summary p =?
    approx_log_32 (sha256_hash (raw_pack (equihash_pow_proof_inputs p)))) EmptyString.

(** [pow2_operation::validate], libraries/protocol/node_operations.cpp:245-260 *)
Definition pow2_operation_validate (o : pow2_operation) : result unit :=
  chain_properties_validate (pow2_op_props o);;
  match pow2_op_work o with
  | pow2_work_pow2 w => pow2_validate w
  | pow2_work_equihash w => equihash_pow_validate w
  end.

(** The two assets are TME and TSD, in either order. *)
Definition tme_tsd (a b : asset) : bool :=
  (is_asset_type a SYMBOL_COIN && is_asset_type b SYMBOL_USD) ||
  (is_asset_type a SYMBOL_USD && is_asset_type b SYMBOL_COIN).

(** [feed_publish_operation::validate], libraries/protocol/node_operations.cpp:352-359 *)
Definition feed_publish_validate (o : feed_publish_operation) : result unit :=
  validate_account_name (feed_publish_publisher o);;
  let p := feed_publish_exchange_rate o in
  fc_check (tme_tsd (base p) (quote p)) "Price feed must be a TME/TSD price";;
  price_validate p.

(** [limit_order_create_operation::validate], libraries/protocol/node_operations.cpp:361-368 *)
Definition limit_order_create_validate (o : limit_order_create_operation) : result unit :=
  validate_account_name (limit_order_create_owner o);;
  fc_check (tme_tsd (limit_order_create_amount_to_sell o) (limit_order_create_min_to_receive o))
    "Limit order must be for the TME:TSD market";;
  p ← asset_div (limit_order_create_amount_to_sell o) (limit_order_create_min_to_receive o);
  price_validate p.

(** [limit_order_create2_operation::validate], libraries/protocol/node_operations.cpp:369-380 *)
Definition limit_order_create2_validate (o : limit_order_create2_operation) : result unit :=
  validate_account_name (limit_order_create2_owner o);;
  let a := limit_order_create2_amount_to_sell o in
  let p := limit_order_create2_exchange_rate o in
  fc_check (symbol a =? symbol (base p)) "Sell asset must be the base of the price";;
  price_validate p;;
  fc_check (tme_tsd a (quote p)) "Limit order must be for the TME:TSD market";;
  r ← asset_mul a p;
  fc_check (0 <? amount r) "Amount to sell cannot round to 0 when traded".

(** [limit_order_cancel_operation::validate], libraries/protocol/node_operations.cpp:382-385 *)
Definition limit_order_cancel_validate (o : limit_order_cancel_operation) : result unit :=
  validate_account_name (limit_order_cancel_owner o).

(** [convert_operation::validate], libraries/protocol/node_operations.cpp:387-394 *)
Definition convert_validate (o : convert_operation) : result unit :=
  validate_account_name (convert_owner o);;
  fc_check (is_asset_type (convert_amount o) SYMBOL_USD) "Can only convert TSD to TME";;
  fc_check (0 <? amount (convert_amount o)) "Must convert some TSD".

(** [report_over_production_operation::validate], libraries/protocol/node_operations.cpp:396-404 *)
Definition report_over_production_validate (o : report_over_production_operation) : result unit :=
  let first := report_first_block o in
  let second := report_second_block o in
  validate_account_name (report_reporter o);;
  validate_account_name (hdr_witness first);;
  fc_check (str_eqb (hdr_witness first) (hdr_witness second)) EmptyString;;
  fc_check (timestamp first =? timestamp second) EmptyString;;
  k1 ← signee first; k2 ← signee second;
  fc_check (str_eqb k1 k2) EmptyString;;
  fc_check (negb (bool_decide (header_id first = header_id second))) EmptyString.

(** [escrow_transfer_operation::validate], libraries/protocol/node_operations.cpp:406-425 *)
Definition escrow_transfer_validate (o : escrow_transfer_operation) : result unit :=
  validate_account_name (escrow_transfer_from o);;
  validate_account_name (escrow_transfer_to o);;
  validate_account_name (escrow_transfer_agent o);;
  fc_check (0 <=? amount (escrow_transfer_fee o)) "fee cannot be negative";;
  fc_check (0 <=? amount (escrow_transfer_TSDamount o)) "TSD amount cannot be negative";;
  fc_check (0 <=? amount (escrow_transfer_TMEamount o)) "TME amount cannot be negative";;
  fc_check ((0 <? amount (escrow_transfer_TSDamount o)) || (0 <? amount (escrow_transfer_TMEamount o)))
    "escrow must transfer a non-zero amount";;
  fc_check (negb (str_eqb (escrow_transfer_from o) (escrow_transfer_agent o)) &&
            negb (str_eqb (escrow_transfer_to o) (escrow_transfer_agent o)))
    "agent must be a third party";;
  fc_check ((symbol (escrow_transfer_fee o) =? SYMBOL_COIN) || (symbol (escrow_transfer_fee o) =? SYMBOL_USD))
    "fee must be TME or TSD";;
  fc_check (symbol (escrow_transfer_TSDamount o) =? SYMBOL_USD) "TSD amount must contain TSD";;
  fc_check (symbol (escrow_transfer_TMEamount o) =? SYMBOL_COIN) "TME amount must contain TME";;
  fc_check (escrow_transfer_ratification_deadline o <? escrow_transfer_escrow_expiration o)
    "ratification deadline must be before escrow expiration";;
  validate_json (escrow_transfer_json o).

(** [escrow_approve_operation::validate], libraries/protocol/node_operations.cpp:427-434 *)
Definition escrow_approve_validate (o : escrow_approve_operation) : result unit :=
  validate_account_name (escrow_approve_from o);;
  validate_account_name (escrow_approve_to o);;
  validate_account_name (escrow_approve_agent o);;
  validate_account_name (escrow_approve_who o);;
  fc_check (str_eqb (escrow_approve_who o) (escrow_approve_to o) ||
            str_eqb (escrow_approve_who o) (escrow_approve_agent o))
    "to or agent must approve escrow".

(** [escrow_dispute_operation::validate], libraries/protocol/node_operations.cpp:436-443 *)
Definition escrow_dispute_validate (o : escrow_dispute_operation) : result unit :=
  validate_account_name (escrow_dispute_from o);;
  validate_account_name (escrow_dispute_to o);;
  validate_account_name (escrow_dispute_agent o);;
  validate_account_name (escrow_dispute_who o);;
  fc_check (str_eqb (escrow_dispute_who o) (escrow_dispute_from o) ||
            str_eqb (escrow_dispute_who o) (escrow_dispute_to o))
    "who must be from or to".

(** [escrow_release_operation::validate], libraries/protocol/node_operations.cpp:445-459 *)
Definition escrow_release_validate (o : escrow_release_operation) : result unit :=
  validate_account_name (escrow_release_from o);;
  validate_account_name (escrow_release_to o);;
  validate_account_name (escrow_release_agent o);;
  validate_account_name (escrow_release_who o);;
  validate_account_name (escrow_release_receiver o);;
  fc_check (str_eqb (escrow_release_who o) (escrow_release_from o) ||
            str_eqb (escrow_release_who o) (escrow_release_to o) ||
            str_eqb (escrow_release_who o) (escrow_release_agent o))
    "who must be from or to or agent";;
  fc_check (str_eqb (escrow_release_receiver o) (escrow_release_from o) ||
            str_eqb (escrow_release_receiver o) (escrow_release_to o))
    "receiver must be from or to";;
  fc_check (0 <=? amount (escrow_release_TSDamount o)) "TSD amount cannot be negative";;
  fc_check (0 <=? amount (escrow_release_TMEamount o)) "TME amount cannot be negative";;
  fc_check ((0 <? amount (escrow_release_TSDamount o)) || (0 <? amount (escrow_release_TMEamount o)))
    "escrow must release a non-zero amount";;
  fc_check (symbol (escrow_release_TSDamount o) =? SYMBOL_USD) "TSD amount must contain TSD";;
  fc_check (symbol (escrow_release_TMEamount o) =? SYMBOL_COIN) "TME amount must contain TME".

(** [request_account_recovery_operation::validate], libraries/protocol/node_operations.cpp:461-466 *)
Definition request_account_recovery_validate (o : request_account_recovery_operation) : result unit :=
  validate_account_name (request_recovery_recoveryAccount o);;
  validate_account_name (request_recovery_accountToRecover o);;
  authority_validate (request_recovery_new_owner_authority o).

(** [recover_account_operation::validate], libraries/protocol/node_operations.cpp:468-477 *)
Definition recover_account_validate (o : recover_account_operation) : result unit :=
  validate_account_name (recover_account_accountToRecover o);;
  let new := recover_account_new_owner_authority o in
  let recent := recover_account_recent_owner_authority o in
  fc_check (negb (authority_eqb new recent))
    "Cannot set new owner authority to the recent owner authority";;
  fc_check (negb (is_impossible new)) "new owner authority cannot be impossible";;
  fc_check (negb (is_impossible recent)) "recent owner authority cannot be impossible";;
  fc_check (negb (weight_threshold new =? 0)) "new owner authority cannot be trivial";;
  authority_validate new;;
  authority_validate recent.

(** [change_recoveryAccount_operation::validate], libraries/protocol/node_operations.cpp:479-483 *)
Definition change_recoveryAccount_validate (o : change_recoveryAccount_operation) : result unit :=
  validate_account_name (change_recovery_accountToRecover o);;
  validate_account_name (change_recovery_new_recoveryAccount o).

(** [transferToSavings_operation::validate], libraries/protocol/node_operations.cpp:485-492 *)
Definition transferToSavings_validate (o : transferToSavings_operation) : result unit :=
  validate_account_name (transferToSavings_from o);;
  validate_account_name (transferToSavings_to o);;
  fc_check (0 <? amount (transferToSavings_amount o)) EmptyString;;
  fc_check ((symbol (transferToSavings_amount o) =? SYMBOL_COIN) ||
            (symbol (transferToSavings_amount o) =? SYMBOL_USD)) EmptyString;;
  validate_memo (transferToSavings_memo o).

(** [transferFromSavings_operation::validate], libraries/protocol/node_operations.cpp:493-500 *)
Definition transferFromSavings_validate (o : transferFromSavings_operation) : result unit :=
  validate_account_name (transferFromSavings_from o);;
  validate_account_name (transferFromSavings_to o);;
  fc_check (0 <? amount (transferFromSavings_amount o)) EmptyString;;
  fc_check ((symbol (transferFromSavings_amount o) =? SYMBOL_COIN) ||
            (symbol (transferFromSavings_amount o) =? SYMBOL_USD)) EmptyString;;
  validate_memo (transferFromSavings_memo o).

(** [cancelTransferFromSavings_operation::validate], libraries/protocol/node_operations.cpp:501-503 *)
Definition cancelTransferFromSavings_validate (o : cancelTransferFromSavings_operation) : result unit :=
  validate_account_name (cancelTransferFromSavings_from o).

(** [decline_voting_rights_operation::validate], libraries/protocol/node_operations.cpp:505-508 *)
Definition decline_voting_rights_validate (o : decline_voting_rights_operation) : result unit :=
  validate_account_name (decline_voting_rights_account o).

(** [reset_account_operation::validate], libraries/protocol/node_operations.cpp:510-517 *)
Definition reset_account_validate (o : reset_account_operation) : result unit :=
  validate_account_name (reset_account_reset_account o);;
  validate_account_name (reset_account_account_to_reset o);;
  let new := reset_account_new_owner_authority o in
  fc_check (negb (is_impossible new)) "new owner authority cannot be impossible";;
  fc_check (negb (weight_threshold new =? 0)) "new owner authority cannot be trivial";;
  authority_validate new.

(** [set_reset_account_operation::validate], libraries/protocol/node_operations.cpp:519-526 *)
Definition set_reset_account_validate (o : set_reset_account_operation) : result unit :=
  validate_account_name (set_reset_account_account o);;
  (if nonempty (set_reset_account_current_reset_account o)
   then validate_account_name (set_reset_account_current_reset_account o) else Ok tt);;
  validate_account_name (set_reset_account_reset_account o);;
  fc_check (negb (str_eqb (set_reset_account_current_reset_account o)
                    (set_reset_account_reset_account o)))
    "new reset account cannot be current reset account".

(** [claimRewardBalance_operation::validate], libraries/protocol/node_operations.cpp:528-538 *)
Definition claimRewardBalance_validate (o : claimRewardBalance_operation) : result unit :=
  validate_account_name (claimRewardBalance_account o);;
  fc_check (is_asset_type (claimRewardBalance_TMEreward o) SYMBOL_COIN) "TMEreward must be TME";;
  fc_check (is_asset_type (claimRewardBalance_TSDreward o) SYMBOL_USD) "TSDreward must be TSD";;
  fc_check (is_asset_type (claimRewardBalance_SCOREreward o) SYMBOL_SCORE)
    "SCOREreward must be SCORE";;
  fc_check (0 <=? amount (claimRewardBalance_TMEreward o)) "Cannot claim a negative amount";;
  fc_check (0 <=? amount (claimRewardBalance_TSDreward o)) "Cannot claim a negative amount";;
  fc_check (0 <=? amount (claimRewardBalance_SCOREreward o)) "Cannot claim a negative amount";;
  fc_check ((0 <? amount (claimRewardBalance_TMEreward o)) ||
            (0 <? amount (claimRewardBalance_TSDreward o)) ||
            (0 <? amount (claimRewardBalance_SCOREreward o))) "Must claim something.".

(** [delegateSCORE_operation::validate], libraries/protocol/node_operations.cpp:540-547 *)
Definition delegateSCORE_validate (o : delegateSCORE_operation) : result unit :=
  validate_account_name (delegateSCORE_delegator o);;
  validate_account_name (delegateSCORE_delegatee o);;
  fc_check (negb (str_eqb (delegateSCORE_delegator o) (delegateSCORE_delegatee o)))
    "You cannot delegate SCORE to yourself";;
  fc_check (is_asset_type (delegateSCORE_SCORE o) SYMBOL_SCORE) "Delegation must be SCORE";;
  fc_check_r (asset_ge (delegateSCORE_SCORE o) (Asset 0 SYMBOL_SCORE))
    "Delegation cannot be negative".

(** [operation_validate_visitor], libraries/protocol/include/node/protocol/operation_util_impl.hpp:44-49 *)
Definition operation_validate (op : operation) : result unit :=
  match op with
  | vote_ o => vote_validate o
  | comment_ o => comment_validate o
  | transfer_ o => transfer_validate o
  | transferTMEtoSCOREfund_ o => transferTMEtoSCOREfund_validate o
  | withdrawSCORE_ o => withdrawSCORE_validate o
  | limit_order_create_ o => limit_order_create_validate o
  | limit_order_cancel_ o => limit_order_cancel_validate o
  | feed_publish_ o => feed_publish_validate o
  | convert_ o => convert_validate o
  | accountCreate_ o => accountCreate_validate o
  | accountUpdate_ o => accountUpdate_validate o
  | witness_update_ o => witness_update_validate o
  | accountWitnessVote_ o => accountWitnessVote_validate o
  | witness_proxy_ o => account_witness_proxy_validate o
  | pow_op_ o => pow_operation_validate o
  | custom_ o => custom_validate o
  | report_ o => report_over_production_validate o
  | deleteComment_ o => deleteComment_validate o
  | customJson_ o => customJson_validate o
  | comment_options_ o => comment_options_validate o
  | setWithdrawRoute_ o => setWithdrawSCOREasTMEroute_validate o
  | limit_order_create2_ o => limit_order_create2_validate o
  | challenge_authority_ o => challenge_authority_validate o
  | prove_authority_ o => prove_authority_validate o
  | request_recovery_ o => request_account_recovery_validate o
  | recover_account_ o => recover_account_validate o
  | change_recovery_ o => change_recoveryAccount_validate o
  | escrow_transfer_ o => escrow_transfer_validate o
  | escrow_dispute_ o => escrow_dispute_validate o
  | escrow_release_ o => escrow_release_validate o
  | pow2_op_ o => pow2_operation_validate o
  | escrow_approve_ o => escrow_approve_validate o
  | transferToSavings_ o => transferToSavings_validate o
  | transferFromSavings_ o => transferFromSavings_validate o
  | cancelTransferFromSavings_ o => cancelTransferFromSavings_validate o
  | custom_binary_ o => custom_binary_validate o
  | decline_voting_rights_ o => decline_voting_rights_validate o
  | reset_account_ o => reset_account_validate o
  | set_reset_account_ o => set_reset_account_validate o
  | claimRewardBalance_ o => claimRewardBalance_validate o
  | delegateSCORE_ o => delegateSCORE_validate o
  | accountCreateWithDelegation_ o => accountCreateWithDelegation_validate o
  | _ => Err (assert_exception "This is a virtual operation")
  end.
End validate.

(** * Required authorities *)

(** Insert every name of a list, [for( i : l ) a.insert( i )]. *)
Definition insert_all (l : list account_name) (a : list account_name) : list account_name :=
  fold_left (λ a i, fs_insert i a) l a.

(** [get_required_active_authorities], libraries/protocol/node_operations.cpp:262-285 *)
Definition get_required_active_authorities (op : operation) (a : list account_name) : list account_name :=
  match op with
  | accountCreate_ o => fs_insert (accountCreate_creator o) a
  | accountCreateWithDelegation_ o => fs_insert (accountCreateWithDelegation_creator o) a
  | challenge_authority_ o => fs_insert (challenge_authority_challenger o) a
  | escrow_transfer_ o => fs_insert (escrow_transfer_from o) a
  | escrow_approve_ o => fs_insert (escrow_approve_who o) a
  | escrow_dispute_ o => fs_insert (escrow_dispute_who o) a
  | escrow_release_ o => fs_insert (escrow_release_who o) a
  | transferTMEtoSCOREfund_ o => fs_insert (transferTMEtoSCOREfund_from o) a
  | withdrawSCORE_ o => fs_insert (withdrawSCORE_account o) a
  | setWithdrawRoute_ o => fs_insert (setWithdrawRoute_from_account o) a
  | witness_update_ o => fs_insert (witness_update_owner o) a
  | accountWitnessVote_ o => fs_insert (accountWitnessVote_account o) a
  | witness_proxy_ o => fs_insert (witness_proxy_account o) a
  | feed_publish_ o => fs_insert (feed_publish_publisher o) a
  | convert_ o => fs_insert (convert_owner o) a
  | limit_order_create_ o => fs_insert (limit_order_create_owner o) a
  | limit_order_create2_ o => fs_insert (limit_order_create2_owner o) a
  | limit_order_cancel_ o => fs_insert (limit_order_cancel_owner o) a
  | request_recovery_ o => fs_insert (request_recovery_recoveryAccount o) a
  | reset_account_ o => fs_insert (reset_account_reset_account o) a
  | transferToSavings_ o => fs_insert (transferToSavings_from o) a
  | transferFromSavings_ o => fs_insert (transferFromSavings_from o) a
  | cancelTransferFromSavings_ o => fs_insert (cancelTransferFromSavings_from o) a
  | delegateSCORE_ o => fs_insert (delegateSCORE_delegator o) a
  | accountUpdate_ o =>
      match accountUpdate_owner o with
      | None => fs_insert (accountUpdate_account o) a
      | Some _ => a
      end
  | prove_authority_ o =>
      if prove_authority_require_owner o then a else fs_insert (prove_authority_challenged o) a
  | transfer_ o =>
      if negb (symbol (transfer_amount o) =? SYMBOL_SCORE) then fs_insert (transfer_from o) a else a
  | custom_ o => insert_all (custom_required_auths o) a
  | customJson_ o => insert_all (customJson_required_auths o) a
  | custom_binary_ o => insert_all (custom_binary_required_active_auths o) a
  | pow2_op_ o =>
      match pow2_op_new_owner_key o with
      | None =>
          let input := match pow2_op_work o with
                       | pow2_work_pow2 w => pow2_input_ w
                       | pow2_work_equihash w => equihash_pow_input w
                       end in
          fs_insert (pow2_input_worker_account input) a
      | Some _ => a
      end
  | _ => a
  end.

(** [get_required_owner_authorities], libraries/protocol/include/node/protocol/node_operations.hpp:829-833 *)
Definition get_required_owner_authorities (op : operation) (a : list account_name) : list account_name :=
  match op with
  | accountUpdate_ o =>
      match accountUpdate_owner o with
      | Some _ => fs_insert (accountUpdate_account o) a
      | None => a
      end
  | prove_authority_ o =>
      if prove_authority_require_owner o then fs_insert (prove_authority_challenged o) a else a
  | transfer_ o =>
      if symbol (transfer_amount o) =? SYMBOL_SCORE then fs_insert (transfer_from o) a else a
  | custom_binary_ o => insert_all (custom_binary_required_owner_auths o) a
  | set_reset_account_ o =>
      if nonempty (set_reset_account_current_reset_account o)
      then fs_insert (set_reset_account_account o) a else a
  | change_recovery_ o => fs_insert (change_recovery_accountToRecover o) a
  | decline_voting_rights_ o => fs_insert (decline_voting_rights_account o) a
  | _ => a
  end.

(** [get_required_posting_authorities], libraries/protocol/include/node/protocol/node_operations.hpp:835-839 *)
Definition get_required_posting_authorities (op : operation) (a : list account_name) : list account_name :=
  match op with
  | comment_ o => fs_insert (comment_author o) a
  | comment_options_ o => fs_insert (comment_options_author o) a
  | deleteComment_ o => fs_insert (deleteComment_author o) a
  | vote_ o => fs_insert (vote_voter o) a
  | customJson_ o => insert_all (customJson_required_posting_auths o) a
  | custom_binary_ o => insert_all (custom_binary_required_posting_auths o) a
  | set_reset_account_ o =>
      if nonempty (set_reset_account_current_reset_account o)
      then a else fs_insert (set_reset_account_account o) a
  | claimRewardBalance_ o => fs_insert (claimRewardBalance_account o) a
  | _ => a
  end.

(** [get_required_authorities], libraries/protocol/include/node/protocol/node_operations.hpp:673-679 *)
Definition get_required_authorities (op : operation) (a : list authority) : list authority :=
  match op with
  | custom_binary_ o => a ++ custom_binary_required_auths o
  | pow2_op_ o =>
      match pow2_op_new_owner_key o with
      | Some k => a ++ [add_key_authority k 1 (Authority 1 [] [])]
      | None => a
      end
  | recover_account_ o =>
      a ++ [recover_account_new_owner_authority o; recover_account_recent_owner_authority o]
  | _ => a
  end.

(** The four containers the visitor fills. *)
Record required := Required {
  req_active : list account_name;
  req_owner : list account_name;
  req_posting : list account_name;
  req_other : list authority;
}.

(** [operation_get_required_auth_visitor], libraries/protocol/include/node/protocol/operation_util_impl.hpp:51-75 *)
Definition operation_get_required_authorities (r : required) (op : operation) : required :=
  Required (get_required_active_authorities op (req_active r))
    (get_required_owner_authorities op (req_owner r))
    (get_required_posting_authorities op (req_posting r))
    (get_required_authorities op (req_other r)).

(** The authorities a list of operations requires. *)
Definition required_of (ops : list operation) : required :=
  fold_left operation_get_required_authorities ops (Required [] [] [] []).

(** * Properties *)

Lemma result_seq_ok {A B} (m : result A) (n : result B) b :
  (m;; n) = Ok b ↔ (∃ a, m = Ok a) ∧ n = Ok b.
Proof. destruct m; cbn; naive_solver. Qed.

Lemma fc_check_seq {B} c msg (n : result B) b :
  (fc_check c msg;; n) = Ok b ↔ c = true ∧ n = Ok b.
Proof. destruct c; cbn; naive_solver. Qed.

Lemma validate_account_name_seq {B} name (n : result B) b :
  (validate_account_name name;; n) = Ok b ↔ is_valid_account_name name = true ∧ n = Ok b.
Proof. apply fc_check_seq. Qed.

Lemma validate_account_name_ok n u :
  validate_account_name n = Ok u ↔ is_valid_account_name n = true.
Proof. apply fc_check_ok. Qed.

(** Break the run of a [validate] function into its checks. *)
Ltac validate_inv H :=
  repeat first
    [ apply result_seq_ok in H; destruct H as [[[] ?] H]
    | apply result_bind_ok in H; destruct H as (? & ? & H) ].

(** What a list of routes must satisfy for the payout of a comment. *)
Definition valid_routes (l : list beneficiary_route_type) : Prop :=
  (1 ≤ length l ≤ 127)%nat ∧
  Forall (λ b, is_valid_account_name (beneficiary_account b) = true) l ∧
  StronglySorted (λ a b, key_lt (beneficiary_account a) (beneficiary_account b)) l ∧
  foldr (λ b acc, beneficiary_weight b + acc) 0 l ≤ PERCENT_100.

Section beneficiaries.
Context {F : Fc} {C : FcCrypto}.
Abbreviation total_weight := (foldr (λ b acc, beneficiary_weight b + acc) 0).
Definition wf_routes (l : list beneficiary_route_type) : Prop :=
  Forall (λ b, 0 ≤ beneficiary_weight b ≤ u16_max) l.

Lemma total_weight_nonneg l : wf_routes l → 0 ≤ total_weight l.
Proof. induction 1 as [|b l [Hb _] _ IH]; cbn; lia. Qed.

Lemma validate_beneficiary_ok sum b t :
  0 ≤ sum ≤ PERCENT_100 → 0 ≤ beneficiary_weight b ≤ u16_max →
  validate_beneficiary sum b = Ok t ↔
    is_valid_account_name (beneficiary_account b) = true ∧
    t = sum + beneficiary_weight b ∧ t ≤ PERCENT_100.
Proof.
  intros Hs Hb. unfold validate_beneficiary, u16_max in *.
  assert (wrap_u32 (sum + beneficiary_weight b) = sum + beneficiary_weight b) as ->.
  { apply Z.mod_small. change PERCENT_100 with 10000 in *. lia. }
  rewrite validate_account_name_seq, !fc_check_seq, !Z.leb_le. split.
  - intros (? & ? & ? & [= <-]). done.
  - intros (? & -> & ?). split_and!; done || lia.
Qed.

Lemma validate_from_ok prev sum l :
  0 ≤ sum ≤ PERCENT_100 → wf_routes l →
  validate_beneficiaries_from prev sum l = Ok tt ↔
    Forall (λ b, is_valid_account_name (beneficiary_account b) = true) l ∧
    StronglySorted (λ a b, key_lt (beneficiary_account a) (beneficiary_account b)) (prev :: l) ∧
    sum + total_weight l ≤ PERCENT_100.
Proof.
  intros Hs Hl. revert prev sum Hs.
  induction Hl as [|b l Hb Hl IH]; intros prev sum Hs; cbn [validate_beneficiaries_from foldr].
  { split; [|done]. intros _. split_and!; [done|repeat constructor|lia]. }
  rewrite result_bind_ok. pose proof (total_weight_nonneg l Hl). split.
  - intros (t & (Hn & -> & Ht)%validate_beneficiary_ok & [Hlt%bool_decide_eq_true Hrest]%fc_check_seq); [|done..].
    apply IH in Hrest as (Hall & Hsort & Hsum); [|lia]. split_and!; [by constructor| |lia].
    constructor; [done|]. constructor; [done|].
    inversion Hsort as [|? ? ? Hfa]; subst. eapply Forall_impl; [exact Hfa|].
    intros ?. by apply key_lt_trans.
  - intros (Hall & Hsort & Hsum). apply Forall_cons in Hall as [Hn Hall].
    inversion Hsort as [|? ? Hsort' Hfa]; subst. apply Forall_cons in Hfa as [Hlt _].
    exists (sum + beneficiary_weight b). split; [apply validate_beneficiary_ok; [done..|]; split_and!; done || lia|].
    apply fc_check_seq. split; [by apply bool_decide_eq_true|]. apply IH; [lia|]. split_and!; [done..|lia].
Qed.
End beneficiaries.

(** The beneficiaries of a comment are accepted exactly when there are 1 to
    127 of them, with valid names in strictly increasing order (so no account
    twice) and weights that add up to at most 100%. *)
Theorem beneficiaries_validate_spec l :
  wf_routes l →
  comment_payout_beneficiaries_validate l = Ok tt ↔ valid_routes l.
Proof.
  intros Hl. unfold comment_payout_beneficiaries_validate, valid_routes.
  rewrite !fc_check_seq. destruct Hl as [|b l Hb Hl].
  { split; [intros [? _]; done|]. cbn. lia. }
  pose proof (total_weight_nonneg l Hl). cbn [foldr].
  rewrite result_bind_ok, Z.ltb_lt. split.
  - intros (_ & Hlen & t & Ht & Hrest).
    apply validate_beneficiary_ok in Ht as (Hn & -> & Ht); [|done..].
    apply validate_from_ok in Hrest as (Hall & Hsort & Hsum); [|lia|done].
    split_and!; [cbn in *; lia|cbn in *; lia|by constructor|done|lia].
  - intros ([_ Hlen] & Hall & Hsort & Hsum). apply Forall_cons in Hall as [Hn Hall].
    split; [done|]. split; [cbn in *; lia|]. exists (0 + beneficiary_weight b). split.
    + apply validate_beneficiary_ok; [done..|]. split_and!; done || lia.
    + apply validate_from_ok; [lia|done|]. split_and!; [done..|lia].
Qed.

Lemma beneficiaries_validate_spec_witness :
  comment_payout_beneficiaries_validate
    [Build_beneficiary_route_type "alice" 6000; Build_beneficiary_route_type "bob" 4000] = Ok tt.
Proof.
  apply beneficiaries_validate_spec.
  - repeat constructor; cbn; unfold u16_max; lia.
  - unfold valid_routes. cbn. split_and!; [lia..|repeat constructor| |done].
    repeat constructor.
Defined.

(** A virtual operation never passes validation, so no transaction can
    carry one. *)
Theorem virtual_operation_rejected (F : Fc) (C : FcCrypto) op :
  is_virtual_operation op = true →
  operation_validate op = Err (assert_exception "This is a virtual operation").
Proof. by destruct op. Qed.

Lemma virtual_operation_rejected_witness :
  operation_validate (F:=FcRef.fc_ref) (C:=FcCryptoRef.fc_crypto_ref)
    (hardfork_op_ (Build_hardfork_operation 3)) =
  Err (assert_exception "This is a virtual operation").
Proof.
  apply (virtual_operation_rejected FcRef.fc_ref FcCryptoRef.fc_crypto_ref). reflexivity.
Defined.

Lemma fs_insert_nonempty k s : fs_insert k s ≠ [].
Proof. destruct s; cbn; repeat case_decide; done. Qed.

Lemma insert_all_elem l a x : x ∈ insert_all l a ↔ x ∈ l ∨ x ∈ a.
Proof.
  revert a. induction l as [|y l IH]; intros a; cbn; [set_solver|].
  fold (insert_all l (fs_insert y a)). rewrite IH, fs_insert_elem. set_solver.
Qed.

Lemma insert_all_nonempty l a : l ≠ [] → insert_all l a ≠ [].
Proof.
  destruct l as [|x l]; [done|]. intros _ E.
  assert (x ∈ insert_all (x :: l) a) as Hx by (rewrite insert_all_elem; set_solver).
  rewrite E in Hx. set_solver.
Qed.
#[local] Hint Resolve fs_insert_nonempty insert_all_nonempty : core.

(** Operations that pay with something other than a signature. *)
Definition needs_no_signature (op : operation) : Prop :=
  match op with
  | pow_op_ _ | report_ _ => True
  | _ => False
  end.

(** Every operation that passes validation requires the authority of at
    least one account or an explicit authority, except the mining operation
    [pow_operation] and [report_over_production_operation]: nothing else gets
    on the chain unsigned. *)
Theorem validated_operation_requires_authority (F : Fc) (C : FcCrypto) op r :
  operation_validate op = Ok tt → ¬ needs_no_signature op →
  let r' := operation_get_required_authorities r op in
  req_active r' ≠ [] ∨ req_owner r' ≠ [] ∨ req_posting r' ≠ [] ∨ req_other r' ≠ [].
Proof.
  intros Hv Hn r'. subst r'. unfold operation_get_required_authorities.
  destruct op; cbn [get_required_active_authorities get_required_owner_authorities
    get_required_posting_authorities get_required_authorities req_active req_owner req_posting
    req_other]; try done; try (cbn in Hn; tauto); auto 10; cbn [operation_validate] in Hv.
  - destruct (negb _) eqn:E; [auto|]. apply negb_false_iff in E. rewrite E. auto.
  - destruct (accountUpdate_owner o); auto.
  - unfold custom_validate in Hv. apply fc_check_ok, Nat.ltb_lt in Hv. left.
    apply insert_all_nonempty. by destruct (custom_required_auths o); cbn in Hv; [lia|].
  - unfold customJson_validate in Hv. validate_inv Hv. apply fc_check_ok, Nat.ltb_lt in H.
    destruct (customJson_required_auths o) eqn:E; [|by left; apply insert_all_nonempty].
    right; right; left. apply insert_all_nonempty. intros E'. rewrite E' in H. cbn in H. lia.
  - destruct (prove_authority_require_owner o); auto.
  - right; right; right. by destruct (req_other r).
  - destruct (pow2_op_new_owner_key o); [|auto]. right; right; right. by destruct (req_other r).
  - unfold custom_binary_validate in Hv. validate_inv Hv. apply fc_check_ok, Nat.ltb_lt in H.
    destruct (custom_binary_required_owner_auths o) eqn:E1;
      [|by right; left; apply insert_all_nonempty].
    destruct (custom_binary_required_active_auths o) eqn:E2; [|by left; apply insert_all_nonempty].
    right; right; left. apply insert_all_nonempty. intros E'. rewrite E' in H. cbn in H. lia.
  - destruct (nonempty _); auto.
Qed.

Lemma validated_operation_requires_authority_witness :
  let r' := operation_get_required_authorities (Required [] [] [] [])
    (custom_ (Build_custom_operation ["alice"%string] 0 EmptyString)) in
  req_active r' ≠ [] ∨ req_owner r' ≠ [] ∨ req_posting r' ≠ [] ∨ req_other r' ≠ [].
Proof.
  apply (validated_operation_requires_authority FcRef.fc_ref FcCryptoRef.fc_crypto_ref);
    [reflexivity|intros []].
Defined.
