(* ===== verification/Transaction.v ===== *)
(** Transactions: [protocol/transaction.hpp], [transaction.cpp].

    Verification runs a [sign_state] over the authorities that the operations
    require.  The authority getters, the digests and the key recovery are
    parameters of the code as well. *)

From S2P Require Import Prelude Fc Config Flat Authority SignState BlockHeader Operations.

(** [struct transaction], libraries/protocol/include/node/protocol/transaction.hpp:10-49 *)
Record transaction := Transaction {
  ref_block_num : Z;
  ref_block_prefix : Z;
  expiration : Z;
  operations : list operation;
}.
#[export] Instance eta_transaction : Eta transaction :=
  λ r, Transaction (ref_block_num r) (ref_block_prefix r) (expiration r) (operations r).

(** [struct signed_transaction], libraries/protocol/include/node/protocol/transaction.hpp:51-92 *)
Record signed_transaction := SignedTransaction {
  trx :> transaction;
  signatures : list string;
}.

(** [transaction::set_expiration], libraries/protocol/transaction.cpp:65-68 *)
Definition set_expiration (t : Z) (tx : transaction) : transaction := tx <| expiration := t |>.

(** [transaction::set_reference_block], libraries/protocol/transaction.cpp:70-74 *)
Definition set_reference_block `{FcCrypto} (id : block_id) (tx : transaction) : transaction :=
  tx <| ref_block_num := wrap_u16 (endian_reverse_u32 (nth 0 id 0)) |>
     <| ref_block_prefix := nth 1 id 0 |>.

Section digests.
Context {F : Fc} {C : FcCrypto}.

(** [signed_transaction::merkle_digest], libraries/protocol/transaction.cpp:13-18 *)
Definition merkle_digest (tx : signed_transaction) : string := sha256_hash (raw_pack tx).
(** [transaction::digest], libraries/protocol/transaction.cpp:20-25 *)
Definition digest (tx : transaction) : string := sha256_hash (raw_pack tx).
(** [transaction::sig_digest], libraries/protocol/transaction.cpp:27-33 *)
Definition sig_digest (chain_id : string) (tx : transaction) : string :=
  sha256_hash (raw_pack chain_id +:+ raw_pack tx).
(** [transaction::id], libraries/protocol/transaction.cpp:42-48 *)
Definition transaction_id (tx : transaction) : string := String.substring 0 20 (digest tx).
(** [transaction::validate], libraries/protocol/transaction.cpp:35-40 *)
Definition transaction_validate (tx : transaction) : result unit :=
  fc_check (0 <? length (operations tx))%nat "A transaction must have at least one operation";;
  rfor operation_validate (operations tx).

(** The loop of [get_signature_keys]: insert each recovered key, refusing one
    that is already there. *)
Fixpoint recover_keys (d : string) (sigs : list string) (result : list public_key)
    : Prelude.result (list public_key) :=
  match sigs with
  | [] => Ok result
  | sig :: sigs' =>
      k ← recover_key sig d true;
      if bool_decide (k ∈ result) then Err tx_duplicate_sig
      else recover_keys d sigs' (fs_insert k result)
  end.
(** [signed_transaction::get_signature_keys], libraries/protocol/transaction.cpp:175-187 *)
Definition get_signature_keys (chain_id : string) (tx : signed_transaction)
    : result (list public_key) :=
  recover_keys (sig_digest chain_id tx) (signatures tx) [].
End digests.

(** [transaction::get_required_authorities], libraries/protocol/transaction.cpp:76-83 *)
Definition transaction_required (tx : transaction) : required := required_of (operations tx).

(** [a || b] of two computations. *)
Definition m_or {S} (a b : M S bool) : M S bool := x ← a; if (x : bool) then mret true else b.
(** [ASSERT( e, exc )]. *)
Definition m_require {S} (c : M S bool) (e : exn) : M S unit :=
  x ← c; if (x : bool) then mret tt else throw e.

Section verify.
Context (get_active get_owner get_posting : authority_getter).

Section checks.
Context (get : authority_getter) (avail : gset public_key) (max_recursion : nat).
(** [s.check_authority( g( id ) )]. *)
Definition check_getter (g : authority_getter) (id : string) : M sign_state bool :=
  auth ← lift (g id); check_authority get avail max_recursion auth.

Definition verify_posting (id : string) : M sign_state unit :=
  m_require
    (m_or (check_account_authority get avail max_recursion id)
       (m_or (check_getter get_active id) (check_getter get_owner id)))
    (tx_missing_posting_auth id).
Definition verify_other (auth : authority) : M sign_state unit :=
  m_require (check_authority get avail max_recursion auth) tx_missing_other_auth.
Definition verify_active (id : string) : M sign_state unit :=
  m_require (m_or (check_account_authority get avail max_recursion id) (check_getter get_owner id))
    (tx_missing_active_auth id).
Definition verify_owner (owner_approvals : list string) (id : string) : M sign_state unit :=
  m_require
    (if bool_decide (id ∈ owner_approvals) then mret true else check_getter get_owner id)
    (tx_missing_owner_auth id).
End checks.

(** No signature may be left unused. *)
Definition verify_all_used : M sign_state unit :=
  unused ← remove_unused_signatures;
  if (unused : bool) then throw tx_irrelevant_sig else mret tt.

(** [verify_authority], libraries/protocol/transaction.cpp:85-172 *)
Definition verify_authority (ops : list operation) (sigs : list public_key)
    (max_recursion_depth : nat)
    (active_approvals owner_approvals posting_approvals : list string) : result unit :=
  let r := required_of ops in
  if negb (bool_decide (req_posting r = [])) then
    fc_check (bool_decide (req_active r = [])) EmptyString;;
    fc_check (bool_decide (req_owner r = [])) EmptyString;;
    fc_check (bool_decide (req_other r = [])) EmptyString;;
    let s := fold_left (λ s id, approve id s) posting_approvals (sign_state_init sigs) in
    fst <$> (mfor (verify_posting get_posting ∅ max_recursion_depth) (req_posting r);;
             verify_all_used) s
  else
    let s := fold_left (λ s id, approve id s) active_approvals (sign_state_init sigs) in
    let s := fold_left (λ s id, approve id s) owner_approvals s in
    fst <$> (mfor (verify_other get_active ∅ max_recursion_depth) (req_other r);;
             mfor (verify_active get_active ∅ max_recursion_depth) (req_active r);;
             mfor (verify_owner get_active ∅ max_recursion_depth owner_approvals) (req_owner r);;
             verify_all_used) s.

Context {F : Fc} {C : FcCrypto}.

(** Keys that are provided or used after the checks and available. *)
Definition available_used (available_keys : gset public_key) (s : sign_state) : gset public_key :=
  dom (provided_signatures s) ∩ available_keys.

(** Run a check for its effect only. *)
Definition ignore {S} (m : M S bool) : M S unit := m ≫= λ _, mret tt.

(** [signed_transaction::get_required_signatures], libraries/protocol/transaction.cpp:191-246 *)
Definition get_required_signatures (chain_id : string) (available_keys : gset public_key)
    (max_recursion_depth : nat) (tx : signed_transaction) : result (gset public_key) :=
  let r := required_of (operations tx) in
  let check get := check_authority get available_keys max_recursion_depth in
  let check_id get := check_account_authority get available_keys max_recursion_depth in
  if negb (bool_decide (req_posting r = [])) then
    sigs ← get_signature_keys chain_id tx;
    fc_check (bool_decide (req_owner r = [])) EmptyString;;
    fc_check (bool_decide (req_active r = [])) EmptyString;;
    p ← (mfor (λ id, ignore (check_id get_posting id)) (req_posting r);;
         ignore remove_unused_signatures;; get_state) (sign_state_init sigs);
    Ok (available_used available_keys p.2)
  else
    sigs ← get_signature_keys chain_id tx;
    p ← (mfor (λ auth, ignore (check get_active auth)) (req_other r);;
         mfor (λ id, ignore (auth ← lift (get_owner id); check get_active auth)) (req_owner r);;
         mfor (λ id, ignore (check_id get_active id)) (req_active r);;
         ignore remove_unused_signatures;; get_state) (sign_state_init sigs);
    Ok (available_used available_keys p.2).

(** The exceptions the loop of [minimize_required_signatures] catches. *)
Definition is_missing_auth (e : exn) : bool :=
  match e with
  | tx_missing_owner_auth _ | tx_missing_active_auth _ | tx_missing_posting_auth _
  | tx_missing_other_auth => true
  | _ => false
  end.

(** The loop of [minimize_required_signatures]. *)
Fixpoint minimize_loop (ops : list operation) (max_recursion : nat) (s : list public_key)
    (result : list public_key) : Prelude.result (list public_key) :=
  match s with
  | [] => Ok result
  | k :: s' =>
      let result := fs_erase k result in
      match verify_authority ops result max_recursion [] [] [] with
      | Ok _ => minimize_loop ops max_recursion s' result
      | Err e =>
          if is_missing_auth e then minimize_loop ops max_recursion s' (fs_insert k result)
          else Err e
      end
  end.

(** [signed_transaction::minimize_required_signatures], libraries/protocol/transaction.cpp:248-275 *)
Definition minimize_required_signatures (chain_id : string) (available_keys : gset public_key)
    (max_recursion : nat) (tx : signed_transaction) : result (list public_key) :=
  s ← get_required_signatures chain_id available_keys max_recursion tx;
  let s := fold_left (λ l k, fs_insert k l) (elements s) [] in
  minimize_loop (operations tx) max_recursion s s.

(** [signed_transaction::verify_authority], libraries/protocol/transaction.cpp:277-285 *)
Definition transaction_verify_authority (chain_id : string) (max_recursion : nat)
    (tx : signed_transaction) : result unit :=
  sigs ← get_signature_keys chain_id tx;
  verify_authority (operations tx) sigs max_recursion [] [] [].
End verify.

(** * Soundness of verification *)

Section soundness.
Context (get_active get_owner get_posting : authority_getter).
Hypothesis Hactive : ∀ a auth, get_active a = Ok auth → wf_authority auth.
Hypothesis Howner : ∀ a auth, get_owner a = Ok auth → wf_authority auth.
Hypothesis Hposting : ∀ a auth, get_posting a = Ok auth → wf_authority auth.
Context (keys : gset public_key) (approved : gset string).

Lemma runs_require {S} (c : M S bool) e s u s' :
  ⟨ m_require c e, s ⟩ ⇓ ⟨ u, s' ⟩ → ⟨ c, s ⟩ ⇓ ⟨ true, s' ⟩.
Proof.
  unfold m_require. intros Hrun. runs_step. destruct v.
  - by apply runs_ret in Hrun as [_ <-].
  - by apply runs_throw in Hrun.
Qed.

Lemma runs_or {S} (a b : M S bool) s s' :
  ⟨ m_or a b, s ⟩ ⇓ ⟨ true, s' ⟩ →
  ⟨ a, s ⟩ ⇓ ⟨ true, s' ⟩ ∨ ∃ s1, ⟨ a, s ⟩ ⇓ ⟨ false, s1 ⟩ ∧ ⟨ b, s1 ⟩ ⇓ ⟨ true, s' ⟩.
Proof.
  unfold m_or. intros Hrun. runs_step. destruct v; [|eauto].
  apply runs_ret in Hrun as [_ <-]. auto.
Qed.

(** The authority [g] returns for an account is satisfied, delegating to
    accounts through [get]. *)
Definition getter_authorized (get g : authority_getter) (id : string) : Prop :=
  ∃ auth, g id = Ok auth ∧ authorized get keys approved auth.

Section one_getter.
Context (get : authority_getter).
Hypothesis Hget : ∀ a auth, get a = Ok auth → wf_authority auth.
Abbreviation sound := (sound_state get ∅ keys approved).

Lemma check_getter_sound (g : authority_getter) n id s b s' :
  (∀ a auth, g a = Ok auth → wf_authority auth) →
  ⟨ check_getter get ∅ n g id, s ⟩ ⇓ ⟨ b, s' ⟩ → sound s →
  sound s' ∧ (b = true → getter_authorized get g id).
Proof.
  intros Hg Hrun Hs. unfold check_getter in Hrun. runs_inv.
  eapply check_authority_sound in Hrun as [? Hok]; eauto.
  split; [done|]. intros Hb. eexists. eauto.
Qed.

Lemma verify_posting_sound n id s u s' :
  ⟨ verify_posting get_active get_owner get ∅ n id, s ⟩ ⇓ ⟨ u, s' ⟩ → sound s →
  sound s' ∧ (account_authorized get keys approved id ∨
              getter_authorized get get_active id ∨ getter_authorized get get_owner id).
Proof.
  intros Hrun%runs_require Hs. apply runs_or in Hrun as [Hrun|(s1 & Hf & Hrun)].
  { eapply check_account_sound in Hrun as [? Hok]; eauto. }
  eapply check_account_sound in Hf as [Hs1 _]; eauto.
  apply runs_or in Hrun as [Hrun|(s2 & Hf & Hrun)].
  { eapply check_getter_sound in Hrun as [? Hok]; eauto. }
  eapply check_getter_sound in Hf as [Hs2 _]; eauto.
  eapply check_getter_sound in Hrun as [? Hok]; eauto.
Qed.

Lemma verify_active_sound n id s u s' :
  ⟨ verify_active get_owner get ∅ n id, s ⟩ ⇓ ⟨ u, s' ⟩ → sound s →
  sound s' ∧ (account_authorized get keys approved id ∨ getter_authorized get get_owner id).
Proof.
  intros Hrun%runs_require Hs. apply runs_or in Hrun as [Hrun|(s1 & Hf & Hrun)].
  { eapply check_account_sound in Hrun as [? Hok]; eauto. }
  eapply check_account_sound in Hf as [Hs1 _]; eauto.
  eapply check_getter_sound in Hrun as [? Hok]; eauto.
Qed.

Lemma verify_owner_sound n owner_approvals id s u s' :
  ⟨ verify_owner get_owner get ∅ n owner_approvals id, s ⟩ ⇓ ⟨ u, s' ⟩ → sound s →
  sound s' ∧ (id ∈ owner_approvals ∨ getter_authorized get get_owner id).
Proof.
  intros Hrun%runs_require Hs. case_bool_decide; [by apply runs_ret in Hrun as [_ <-]; auto|].
  eapply check_getter_sound in Hrun as [? Hok]; eauto.
Qed.

Lemma verify_other_sound n auth s u s' :
  wf_authority auth →
  ⟨ verify_other get ∅ n auth, s ⟩ ⇓ ⟨ u, s' ⟩ → sound s →
  sound s' ∧ authorized get keys approved auth.
Proof.
  intros Hwf Hrun%runs_require Hs. eapply check_authority_sound in Hrun as [? Hok]; eauto.
Qed.
End one_getter.
End soundness.

Lemma dom_init sigs : dom (provided_signatures (sign_state_init sigs)) = list_to_set sigs.
Proof.
  unfold sign_state_init. cbn. rewrite dom_list_to_map_L. f_equal.
  induction sigs as [|k sigs IH]; cbn; [done|]. by rewrite IH.
Qed.

Lemma approve_all ids s :
  let s' := fold_left (λ s id, approve id s) ids s in
  provided_signatures s' = provided_signatures s ∧ approved_by s' = list_to_set ids ∪ approved_by s.
Proof.
  revert s. induction ids as [|id ids IH]; intros s; cbn; [split; [done|set_solver]|].
  destruct (IH (approve id s)) as [-> ->]. unfold approve. fields. split; [done|set_solver].
Qed.

Lemma sound_init get keys approved s :
  dom (provided_signatures s) = keys → approved_by s = approved → sound_state get ∅ keys approved s.
Proof.
  intros <- <-. split; [set_solver|]. intros a Ha. by apply approved_account.
Qed.

(** The accounts that count as approved when verification starts. *)
Definition initially_approved (ids : list string) : gset string :=
  list_to_set ids ∪ {[ "temp"%string ]}.

Lemma fmap_result_ok {A B} (f : A → B) (r : result A) b :
  f <$> r = Ok b ↔ ∃ a, r = Ok a ∧ f a = b.
Proof. destruct r; cbn; naive_solver. Qed.

Section verify_theorems.
Context (get_active get_owner get_posting : authority_getter).
Hypothesis Hactive : ∀ a auth, get_active a = Ok auth → wf_authority auth.
Hypothesis Howner : ∀ a auth, get_owner a = Ok auth → wf_authority auth.
Hypothesis Hposting : ∀ a auth, get_posting a = Ok auth → wf_authority auth.

Lemma verify_posting_case ops sigs n aa oa pa :
  req_posting (required_of ops) ≠ [] →
  verify_authority get_active get_owner get_posting ops sigs n aa oa pa = Ok tt →
  req_active (required_of ops) = [] ∧ req_owner (required_of ops) = [] ∧
  req_other (required_of ops) = [] ∧
  Forall (λ id,
    account_authorized get_posting (list_to_set sigs) (initially_approved pa) id ∨
    getter_authorized (list_to_set sigs) (initially_approved pa) get_posting get_active id ∨
    getter_authorized (list_to_set sigs) (initially_approved pa) get_posting get_owner id)
    (req_posting (required_of ops)).
Proof.
  intros Hne. unfold verify_authority. rewrite bool_decide_eq_false_2 by done. cbn [negb].
  rewrite !fc_check_seq, !bool_decide_eq_true, fmap_result_ok.
  intros (? & ? & ? & ([] & s') & Hrun & _). split_and!; try done.
  change (⟨ mfor (verify_posting get_active get_owner get_posting ∅ n) (req_posting (required_of ops));;
    verify_all_used, fold_left (λ s id, approve id s) pa (sign_state_init sigs) ⟩ ⇓ ⟨ tt, s' ⟩) in Hrun.
  apply runs_bind in Hrun as (u & s1 & Hfor & _).
  destruct (approve_all pa (sign_state_init sigs)) as [Hp Ha].
  eapply (mfor_forall (sound_state get_posting ∅ (list_to_set sigs) (initially_approved pa))) in Hfor as [_ Hall]; [exact Hall| |].
  - intros id t v t' _ Hr Ht. eapply verify_posting_sound in Hr; [exact Hr|eauto..].
  - apply sound_init; [by rewrite Hp, dom_init|]. rewrite Ha. done.
Qed.

Lemma verify_active_case ops sigs n aa oa pa :
  Forall wf_authority (req_other (required_of ops)) →
  req_posting (required_of ops) = [] →
  verify_authority get_active get_owner get_posting ops sigs n aa oa pa = Ok tt →
  let keys := list_to_set sigs in
  let approved := list_to_set oa ∪ initially_approved aa in
  Forall (authorized get_active keys approved) (req_other (required_of ops)) ∧
  Forall (λ id, account_authorized get_active keys approved id ∨
                getter_authorized keys approved get_active get_owner id)
    (req_active (required_of ops)) ∧
  Forall (λ id, id ∈ oa ∨ getter_authorized keys approved get_active get_owner id)
    (req_owner (required_of ops)).
Proof.
  intros Hwf He Hv keys approved. unfold verify_authority in Hv.
  rewrite bool_decide_eq_true_2 in Hv by done. cbn [negb] in Hv.
  apply fmap_result_ok in Hv as (([] & s') & Hrun & _).
  set (s0 := fold_left (λ s id, approve id s) oa
               (fold_left (λ s id, approve id s) aa (sign_state_init sigs))) in Hrun.
  assert (sound_state get_active ∅ keys approved s0) as Hs0.
  { destruct (approve_all aa (sign_state_init sigs)) as [Hp Ha].
    destruct (approve_all oa (fold_left (λ s id, approve id s) aa (sign_state_init sigs))) as [Hp' Ha'].
    apply sound_init; unfold s0; [by rewrite Hp', Hp, dom_init|]. by rewrite Ha', Ha. }
  change (⟨ mfor (verify_other get_active ∅ n) (req_other (required_of ops));;
             mfor (verify_active get_owner get_active ∅ n) (req_active (required_of ops));;
             mfor (verify_owner get_owner get_active ∅ n oa) (req_owner (required_of ops));;
             verify_all_used, s0 ⟩ ⇓ ⟨ tt, s' ⟩) in Hrun.
  apply runs_bind in Hrun as (? & s1 & Hother & Hrun).
  apply runs_bind in Hrun as (? & s2 & Hact & Hrun).
  apply runs_bind in Hrun as (? & s3 & Hown & _).
  eapply (mfor_forall (sound_state get_active ∅ keys approved)) in Hother as [Hs1 Ho]; [| |exact Hs0].
  2:{ intros auth t u t' Hin Hr Ht. rewrite Forall_forall in Hwf.
      eapply verify_other_sound in Hr; [exact Hr|eauto..]. }
  eapply (mfor_forall (sound_state get_active ∅ keys approved)) in Hact as [Hs2 Hact]; [| |exact Hs1].
  2:{ intros id t u t' _ Hr Ht. eapply verify_active_sound in Hr; [exact Hr|eauto..]. }
  eapply (mfor_forall (sound_state get_active ∅ keys approved)) in Hown as [_ Hown]; [| |exact Hs2].
  2:{ intros id t u t' _ Hr Ht. eapply verify_owner_sound in Hr; [exact Hr|eauto..]. }
  done.
Qed.
End verify_theorems.

(** C36. A transaction that passes [verify_authority] is authorized.  If some
    operation requires posting authority, none requires another kind, and every
    account concerned is satisfied through its posting, active or owner
    authority.  Otherwise every explicit authority, every account's active or
    owner authority and every account's owner authority required is satisfied
    by the signing keys. *)
Theorem verify_authority_sound get_active get_owner get_posting ops sigs n aa oa pa :
  (∀ a auth, get_active a = Ok auth → wf_authority auth) →
  (∀ a auth, get_owner a = Ok auth → wf_authority auth) →
  (∀ a auth, get_posting a = Ok auth → wf_authority auth) →
  Forall wf_authority (req_other (required_of ops)) →
  verify_authority get_active get_owner get_posting ops sigs n aa oa pa = Ok tt →
  let r := required_of ops in
  let keys := list_to_set sigs in
  (req_posting r ≠ [] →
     req_active r = [] ∧ req_owner r = [] ∧ req_other r = [] ∧
     Forall (λ id,
       account_authorized get_posting keys (initially_approved pa) id ∨
       getter_authorized keys (initially_approved pa) get_posting get_active id ∨
       getter_authorized keys (initially_approved pa) get_posting get_owner id) (req_posting r)) ∧
  (req_posting r = [] →
     let approved := list_to_set oa ∪ initially_approved aa in
     Forall (authorized get_active keys approved) (req_other r) ∧
     Forall (λ id, account_authorized get_active keys approved id ∨
                   getter_authorized keys approved get_active get_owner id) (req_active r) ∧
     Forall (λ id, id ∈ oa ∨ getter_authorized keys approved get_active get_owner id) (req_owner r)).
Proof.
  intros Ha Ho Hp Hwf Hv r keys. split.
  - intros Hne. eapply verify_posting_case; eauto.
  - intros He. eapply verify_active_case; eauto.
Qed.

Definition example_active : authority_getter :=
  λ a, if decide (a = "alice"%string) then Ok (Authority 1 [] [("K"%string, 1)])
       else Err (assert_exception EmptyString).
Definition example_transfer : operation :=
  transfer_ (Build_transfer_operation "alice" "bob" (Asset.Asset 5 SYMBOL_COIN) EmptyString).

Lemma verify_authority_sound_witness :
  let keys := list_to_set ["K"%string] in
  let approved := list_to_set [] ∪ initially_approved [] in
  Forall (λ id, account_authorized example_active keys approved id ∨
                getter_authorized keys approved example_active example_active id) ["alice"%string].
Proof.
  pose proof (verify_authority_sound example_active example_active example_active
    [example_transfer] ["K"%string] 2 [] [] []) as Hs.
  assert (∀ a auth, example_active a = Ok auth → wf_authority auth) as Hwf.
  { intros a auth Ha. unfold example_active in Ha. case_decide; [|done]. injection Ha as <-.
    split; repeat constructor; cbn; lia. }
  specialize (Hs Hwf Hwf Hwf).
  assert (Forall wf_authority (req_other (required_of [example_transfer]))) as Ho by constructor.
  specialize (Hs Ho ltac:(vm_compute; reflexivity)) as [_ Hs].
  destruct (Hs eq_refl) as (_ & Hact & _).
  exact Hact.
Defined.

Section signature_keys.
Context {F : Fc} {C : FcCrypto}.

Lemma recover_keys_ok d sigs acc ks :
  recover_keys d sigs acc = Ok ks →
  ∃ new, mapM (λ sig, match recover_key sig d true with Ok k => Some k | Err _ => None end) sigs
           = Some new ∧ NoDup new ∧ (∀ k, k ∈ new → k ∉ acc) ∧ (∀ k, k ∈ ks ↔ k ∈ new ∨ k ∈ acc).
Proof.
  revert acc. induction sigs as [|sig sigs IH]; intros acc; cbn [recover_keys mapM].
  { intros [= <-]. exists []. split_and!; [done|constructor|set_solver|set_solver]. }
  destruct (recover_key sig d true) as [k|e]; cbn; [|done].
  case_bool_decide as Hk; [done|]. intros Hr.
  destruct (IH _ Hr) as (new & -> & Hnd & Hdisj & Hks). exists (k :: new). split_and!.
  - done.
  - constructor; [|done]. intros Hin. apply (Hdisj _ Hin), fs_insert_elem. by left.
  - intros k' [->|Hin]%elem_of_cons; [done|]. intros Ha. apply (Hdisj _ Hin), fs_insert_elem. by right.
  - intros k'. rewrite Hks, fs_insert_elem, elem_of_cons. tauto.
Qed.
End signature_keys.

(** [get_signature_keys] returns exactly the keys recovered from the
    signatures, and only when they are pairwise different: two signatures by
    one key are refused. *)
Theorem get_signature_keys_spec (C : FcCrypto) chain_id tx ks :
  get_signature_keys chain_id tx = Ok ks →
  ∃ new,
    mapM (λ sig, match recover_key sig (sig_digest chain_id tx) true with
                 | Ok k => Some k | Err _ => None end) (signatures tx) = Some new ∧
    NoDup new ∧ length new = length (signatures tx) ∧ (∀ k, k ∈ ks ↔ k ∈ new).
Proof.
  unfold get_signature_keys. intros Hr. apply recover_keys_ok in Hr as (new & Hm & Hnd & _ & Hks).
  exists new. split_and!; [done|done|symmetry; by eapply length_mapM|]. intros k. rewrite Hks. set_solver.
Qed.

Lemma get_signature_keys_spec_witness :
  ∃ new : list string, NoDup new ∧ length new = 2%nat ∧ (∀ k, k ∈ ["a"; "b"]%string ↔ k ∈ new).
Proof.
  destruct (get_signature_keys_spec FcCryptoRef.fc_crypto_ref "chain"
    (SignedTransaction (Transaction 0 0 0 []) ["b"; "a"]%string) ["a"; "b"]%string ltac:(reflexivity))
    as (new & _ & Hnd & Hlen & Hks).
  by exists new.
Defined.
