(* ===== verification/Block.v ===== *)
(** Blocks: [protocol/block.hpp] and the Merkle root of [protocol/block.cpp].

    The root is computed in place: each round hashes neighbouring digests into the
    front of the same array and carries an odd last one over.  [merkle_tree] is
    the tree that computation walks; the theorems show that the loop computes its
    root and that the root binds the transactions. *)

From stdpp Require Import pretty.
From S2P Require Import Prelude Fc Version BlockHeader Operations Transaction.

(** [struct signed_block], libraries/protocol/include/node/protocol/block.hpp:7-11 *)
Record signed_block := SignedBlock {
  sb_header :> signed_block_header;
  transactions : list signed_transaction;
}.

(** The digests of the computation. *)
Class MerkleHash := {
  leaf_hash : signed_transaction → string;
  pair_hash : string → string → string;
  root_hash : string → list Z;
}.
#[export] Instance merkle_hash `{FcCrypto} : MerkleHash := {
  leaf_hash := merkle_digest;
  pair_hash a b := sha256_hash (raw_pack (a, b));
  root_hash d := ripemd160_words (raw_pack d);
}.

Section merkle.
Context {H : MerkleHash}.

Definition at_index (ids : list string) (i : nat) : string := nth i ids EmptyString.

(** The inner loop: [ids[k++] = hash( ids[i], ids[i+1] )] for [i += 2] up to [i_max]. *)
Fixpoint hash_pairs (fuel i i_max k : nat) (ids : list string) : nat * list string :=
  match fuel with
  | O => (k, ids)
  | S fuel =>
      if (i <? i_max)%nat then
        hash_pairs fuel (i + 2) i_max (k + 1) (<[k := pair_hash (at_index ids i) (at_index ids (i + 1))]> ids)
      else (k, ids)
  end.

(** One round over the first [n] digests: how many there are next, and the array. *)
Definition merkle_round (n : nat) (ids : list string) : nat * list string :=
  let i_max := (n - n mod 2)%nat in
  let '(k, ids) := hash_pairs n 0 i_max 0 ids in
  if (n mod 2 =? 1)%nat then ((k + 1)%nat, <[k := at_index ids i_max]> ids) else (k, ids).

Fixpoint merkle_rounds (fuel n : nat) (ids : list string) : list string :=
  match fuel with
  | O => ids
  | S fuel =>
      if (1 <? n)%nat then let '(k, ids) := merkle_round n ids in merkle_rounds fuel k ids else ids
  end.

(** [signed_block::calculate_merkle_root], libraries/protocol/block.cpp:42-67 *)
Definition calculate_merkle_root (b : signed_block) : list Z :=
  match transactions b with
  | [] => replicate 5 0
  | txs =>
      let ids := leaf_hash <$> txs in
      root_hash (at_index (merkle_rounds (length ids) (length ids) ids) 0)
  end.

(** * The tree *)

Inductive merkle_tree : Type :=
| Leaf (d : string)
| Node (l r : merkle_tree).
Fixpoint tree_root (t : merkle_tree) : string :=
  match t with Leaf d => d | Node l r => pair_hash (tree_root l) (tree_root r) end.
Fixpoint leaves (t : merkle_tree) : list string :=
  match t with Leaf d => [d] | Node l r => leaves l ++ leaves r end.

(** Neighbours joined; an odd last tree stays. *)
Fixpoint join_pairs (l : list merkle_tree) : list merkle_tree :=
  match l with
  | a :: b :: l => Node a b :: join_pairs l
  | _ => l
  end.
Fixpoint join_all (fuel : nat) (l : list merkle_tree) : list merkle_tree :=
  match fuel, l with
  | S fuel, _ :: _ :: _ => join_all fuel (join_pairs l)
  | _, _ => l
  end.
(** The tree over the given digests, for at least one. *)
Definition tree_of (ids : list string) : merkle_tree :=
  match join_all (length ids) (Leaf <$> ids) with t :: _ => t | [] => Leaf EmptyString end.
End merkle.

(** * The loop computes the root of the tree *)

Section correctness.
Context {H : MerkleHash}.

Fixpoint pair_list (l : list string) : list string :=
  match l with
  | a :: b :: l => pair_hash a b :: pair_list l
  | _ => []
  end.

Lemma pair_list_snoc k : ∀ l, (2 * k + 2 ≤ length l)%nat →
  pair_list (take (2 * k + 2) l) =
    pair_list (take (2 * k) l) ++ [pair_hash (at_index l (2 * k)) (at_index l (2 * k + 1))].
Proof.
  induction k as [|k IH]; intros l Hl.
  - destruct l as [|a [|b l]]; cbn in *; [lia..|done].
  - destruct l as [|a [|b l]]; cbn [length] in Hl; [lia..|].
    replace (2 * S k + 2)%nat with (S (S (2 * k + 2))) by lia. replace (2 * S k)%nat with (S (S (2 * k))) by lia.
    replace (S (S (2 * k)) + 1)%nat with (S (S (2 * k + 1))) by lia.
    cbn [take pair_list at_index nth app]. f_equal. apply IH. lia.
Qed.

Lemma at_index_drop l n i : at_index (drop n l) i = at_index l (n + i).
Proof. unfold at_index. rewrite !nth_lookup, lookup_drop. done. Qed.

Lemma hash_pairs_spec m l fuel : ∀ k ids,
  (k ≤ m)%nat → (m ≤ k + fuel)%nat → (2 * m ≤ length l)%nat → length ids = length l →
  take k ids = pair_list (take (2 * k) l) → drop (2 * k) ids = drop (2 * k) l →
  ∃ ids', hash_pairs fuel (2 * k) (2 * m) k ids = (m, ids') ∧ length ids' = length l ∧
    take m ids' = pair_list (take (2 * m) l) ∧ drop (2 * m) ids' = drop (2 * m) l.
Proof.
  induction fuel as [|fuel IH]; intros k ids Hk Hf Hl Hlen Ht Hd; cbn [hash_pairs].
  { assert (k = m) as -> by lia. by exists ids. }
  destruct (Nat.ltb_spec (2 * k) (2 * m)) as [Hlt|]; [|assert (k = m) as -> by lia; by exists ids].
  replace (2 * k + 2)%nat with (2 * (k + 1))%nat by lia. apply IH; try lia.
  - by rewrite length_insert.
  - rewrite Nat.add_1_r, (take_S_r _ _ (pair_hash (at_index ids (2 * k)) (at_index ids (2 * k + 1))))
      by (apply list_lookup_insert_eq; lia).
    rewrite take_insert_ge by lia. rewrite Ht.
    replace (2 * S k)%nat with (2 * k + 2)%nat by lia. rewrite pair_list_snoc by lia. do 3 f_equal.
    + rewrite <- (Nat.add_0_r (2 * k)), <- !at_index_drop. by rewrite Hd.
    + rewrite <- !at_index_drop. by rewrite Hd.
  - rewrite drop_insert_lt by lia.
    replace (2 * (k + 1))%nat with (2 * k + 2)%nat by lia. rewrite <- !drop_drop. by rewrite Hd.
Qed.

(** Neighbours hashed; an odd last digest stays. *)
Fixpoint pair_up (l : list string) : list string :=
  match l with
  | a :: b :: l => pair_hash a b :: pair_up l
  | _ => l
  end.

Lemma pair_up_even m : ∀ l, (2 * m ≤ length l)%nat → pair_up l = pair_list (take (2 * m) l) ++ pair_up (drop (2 * m) l).
Proof.
  induction m as [|m IH]; intros l Hl; [done|].
  destruct l as [|a [|b l]]; cbn [length] in Hl; [lia..|].
  replace (2 * S m)%nat with (S (S (2 * m))) by lia. cbn. f_equal. apply IH. lia.
Qed.

Lemma merkle_round_spec n ids :
  (n ≤ length ids)%nat →
  ∃ k ids', merkle_round n ids = (k, ids') ∧ (k = (n + 1) / 2)%nat ∧ (k ≤ length ids')%nat ∧
    take k ids' = pair_up (take n ids).
Proof.
  intros Hn. unfold merkle_round. pose proof (Nat.div_mod_eq n 2) as Hdiv.
  pose proof (Nat.mod_upper_bound n 2). set (m := (n / 2)%nat) in *.
  replace (n - n mod 2)%nat with (2 * m)%nat by lia.
  destruct (hash_pairs_spec m ids n 0 ids) as (ids' & E & Hlen & Ht & Hd); [lia..|done|done|].
  change (2 * 0)%nat with 0%nat in E. rewrite E.
  assert ((n + 1) / 2 = if (n mod 2 =? 1) then m + 1 else m)%nat as Hk.
  { symmetry. destruct (Nat.eqb_spec (n mod 2) 1).
    - apply (Nat.div_unique _ _ _ 0); lia.
    - apply (Nat.div_unique _ _ _ 1); lia. }
  rewrite Hk. assert (length (take n ids) = n) as Htn by (rewrite length_take; lia).
  assert (take (2 * m) (take n ids) = take (2 * m) ids) as Htt by (rewrite take_take; f_equal; lia).
  assert (drop (2 * m) (take n ids) = take (n mod 2) (drop (2 * m) ids)) as Hdt
    by (rewrite skipn_firstn_comm; f_equal; lia).
  assert (pair_up (take n ids) = pair_list (take (2 * m) ids) ++ pair_up (take (n mod 2) (drop (2 * m) ids))) as Hp
    by (rewrite (pair_up_even m) by lia; by rewrite Htt, Hdt).
  destruct (Nat.eqb_spec (n mod 2) 1) as [E1|E1].
  - exists (m + 1)%nat, (<[m := at_index ids' (2 * m)]> ids'). split_and!; [done|done|rewrite length_insert; lia|].
    rewrite Hp, E1, Nat.add_1_r, (take_S_r _ _ (at_index ids' (2 * m))) by (apply list_lookup_insert_eq; lia).
    rewrite take_insert_ge by lia. rewrite Ht. f_equal.
    assert (at_index ids' (2 * m) = at_index ids (2 * m)) as ->
      by (rewrite <- (Nat.add_0_r (2 * m)), <- !at_index_drop; by rewrite Hd).
    destruct (drop (2 * m) ids) as [|d l] eqn:Ed; [apply (f_equal length) in Ed; rewrite length_drop in Ed; cbn [length] in Ed; lia|].
    assert (at_index ids (2 * m) = d) as -> by (by rewrite <- (Nat.add_0_r (2 * m)), <- at_index_drop, Ed). done.
  - exists m, ids'. split_and!; [done|done|lia|]. rewrite Hp. assert (n mod 2 = 0)%nat as -> by lia.
    cbn. by rewrite app_nil_r.
Qed.

Lemma pair_up_length l : length (pair_up l) = ((length l + 1) / 2)%nat.
Proof.
  assert (∀ n l, (length l ≤ n)%nat → length (pair_up l) = ((length l + 1) / 2)%nat) as Hn; [|by eapply Hn].
  clear l. induction n as [|n IH]; intros [|a [|b l]] Hl; cbn [length] in Hl; try done; try lia.
  cbn [pair_up length]. rewrite IH by lia. replace (S (S (length l)) + 1)%nat with (length l + 1 + 1 * 2)%nat by lia.
  rewrite Nat.div_add by lia. lia.
Qed.

(** The rounds as a function of the digests alone. *)
Fixpoint reduce (fuel : nat) (l : list string) : list string :=
  match fuel with
  | O => l
  | S fuel => if (1 <? length l)%nat then reduce fuel (pair_up l) else l
  end.

Lemma merkle_rounds_reduce fuel : ∀ n ids,
  (n ≤ length ids)%nat → (n ≤ fuel)%nat → (0 < n)%nat →
  take 1 (merkle_rounds fuel n ids) = reduce fuel (take n ids) ∧ length (reduce fuel (take n ids)) = 1%nat.
Proof.
  induction fuel as [|fuel IH]; intros n ids Hn Hf H0; [lia|]. cbn [merkle_rounds reduce].
  assert (length (take n ids) = n) as Hl by (rewrite length_take; lia). rewrite Hl.
  destruct (Nat.ltb_spec 1 n).
  - destruct (merkle_round_spec n ids Hn) as (k & ids' & E & Hk & Hk' & Ht). rewrite E, <- Ht.
    pose proof (Nat.div_mod_eq (n + 1) 2). pose proof (Nat.mod_upper_bound (n + 1) 2). apply IH; lia.
  - by assert (n = 1)%nat as -> by lia.
Qed.

Lemma join_pairs_roots ts : tree_root <$> join_pairs ts = pair_up (tree_root <$> ts).
Proof.
  assert (∀ n ts, (length ts ≤ n)%nat → tree_root <$> join_pairs ts = pair_up (tree_root <$> ts)) as Hn; [|by eapply Hn].
  clear ts. induction n as [|n IH]; intros [|a [|b ts]] Hl; cbn [length] in Hl; try done; try lia.
  cbn. f_equal. apply IH. lia.
Qed.
Lemma join_pairs_leaves ts : mjoin (leaves <$> join_pairs ts) = mjoin (leaves <$> ts).
Proof.
  assert (∀ n ts, (length ts ≤ n)%nat → mjoin (leaves <$> join_pairs ts) = mjoin (leaves <$> ts)) as Hn; [|by eapply Hn].
  clear ts. induction n as [|n IH]; intros [|a [|b ts]] Hl; cbn [length] in Hl; try done; try lia.
  cbn. rewrite <- app_assoc. do 2 f_equal. apply IH. lia.
Qed.

Lemma join_all_spec fuel : ∀ ts,
  tree_root <$> join_all fuel ts = reduce fuel (tree_root <$> ts) ∧
  mjoin (leaves <$> join_all fuel ts) = mjoin (leaves <$> ts).
Proof.
  induction fuel as [|fuel IH]; intros ts; [done|]. destruct ts as [|a [|b ts]]; [done..|].
  destruct (IH (join_pairs (a :: b :: ts))) as [E1 E2]. cbn [join_all reduce]. split.
  - rewrite E1, join_pairs_roots. by rewrite length_fmap.
  - rewrite E2. apply join_pairs_leaves.
Qed.

Lemma tree_of_spec ids : ids ≠ [] →
  tree_root (tree_of ids) = at_index (merkle_rounds (length ids) (length ids) ids) 0 ∧ leaves (tree_of ids) = ids.
Proof.
  intros Hne. assert (0 < length ids)%nat by (destruct ids; cbn; [done|lia]).
  destruct (merkle_rounds_reduce (length ids) (length ids) ids) as [E Hl]; [lia..|]. rewrite firstn_all in E, Hl.
  destruct (join_all_spec (length ids) (Leaf <$> ids)) as [Er El].
  assert (tree_root <$> (Leaf <$> ids) = ids) as Eids by (rewrite <- list_fmap_compose; apply list_fmap_id).
  rewrite Eids in Er. unfold tree_of.
  destruct (join_all (length ids) (Leaf <$> ids)) as [|t ts]; [rewrite <- Er in Hl; done|].
  destruct ts; [|rewrite <- Er in Hl; done]. split.
  - assert (take 1 (merkle_rounds (length ids) (length ids) ids) = [tree_root t]) as E0 by (by rewrite E, <- Er).
    destruct (merkle_rounds _ _ _) as [|d l]; [done|]. cbn in E0. by injection E0 as ->.
  - cbn in El. rewrite app_nil_r in El. rewrite El. clear. induction ids as [|d ids IH]; cbn; [done|]. by f_equal.
Qed.
End correctness.

(** * The root binds the transactions *)

Section binding.
Context {H : MerkleHash}.

Fixpoint same_shape (t u : merkle_tree) : Prop :=
  match t, u with
  | Leaf _, Leaf _ => True
  | Node l r, Node l' r' => same_shape l l' ∧ same_shape r r'
  | _, _ => False
  end.

Lemma join_all_shape fuel : ∀ ts us, Forall2 same_shape ts us → Forall2 same_shape (join_all fuel ts) (join_all fuel us).
Proof.
  assert (∀ n ts us, (length ts ≤ n)%nat → Forall2 same_shape ts us →
    Forall2 same_shape (join_pairs ts) (join_pairs us)) as Hp.
  { induction n as [|n IH]; intros ts us Hl Hs; [by destruct Hs; cbn in *; [constructor|lia]|].
    destruct Hs as [|a a' ts us Ha [|b b' ts' us' Hb Hs]]; cbn in *; [constructor|by repeat constructor|].
    constructor; [done|]. apply IH; [lia|done]. }
  induction fuel as [|fuel IH]; intros ts us Hs; [done|].
  destruct Hs as [|a a' ts us Ha [|b b' ts' us' Hb Hs]]; cbn [join_all]; [constructor|by repeat constructor|].
  apply IH. eapply Hp; [done|]. by repeat constructor.
Qed.

Lemma leaf_shapes ids : ∀ ids', length ids = length ids' → Forall2 same_shape (Leaf <$> ids) (Leaf <$> ids').
Proof. induction ids as [|d ids IH]; intros [|d' ids'] Hl; try done; cbn; constructor; [done|]. apply IH. by injection Hl. Qed.

Lemma tree_of_shape ids ids' : length ids = length ids' → ids ≠ [] → same_shape (tree_of ids) (tree_of ids').
Proof.
  intros Hl Hne. unfold tree_of. rewrite <- Hl.
  assert (Forall2 same_shape (join_all (length ids) (Leaf <$> ids)) (join_all (length ids) (Leaf <$> ids'))) as Hs.
  { by apply join_all_shape, leaf_shapes. }
  by destruct Hs.
Qed.

Lemma same_root_same_leaves (Hinj : ∀ a b c d, pair_hash a b = pair_hash c d → a = c ∧ b = d) t :
  ∀ u, same_shape t u → tree_root t = tree_root u → leaves t = leaves u.
Proof.
  induction t as [d|l IHl r IHr]; intros [d'|l' r'] Hs Hr; cbn in *; try done; [by subst|].
  apply Hinj in Hr as [? ?]. destruct Hs. f_equal; auto.
Qed.
End binding.

(** The in-place loop of [calculate_merkle_root] computes the root of one binary
    tree whose leaves are the digests of the block's transactions, in order. *)
Theorem merkle_root_of_tree {H : MerkleHash} b :
  transactions b ≠ [] →
  ∃ t, leaves t = leaf_hash <$> transactions b ∧ calculate_merkle_root b = root_hash (tree_root t).
Proof.
  intros Hne. unfold calculate_merkle_root. destruct (transactions b) as [|x txs] eqn:E; [done|].
  destruct (tree_of_spec (leaf_hash <$> (x :: txs))) as [Er El]; [done|]. eexists. split; [exact El|]. by rewrite Er.
Qed.

(** When the hashes do not collide, two blocks with as many transactions and the
    same Merkle root have the same transactions. *)
Theorem merkle_root_binds {H : MerkleHash} b b' :
  (∀ x y, x ∈ transactions b → y ∈ transactions b' → leaf_hash x = leaf_hash y → x = y) →
  (∀ x y z w, pair_hash x y = pair_hash z w → x = z ∧ y = w) →
  (∀ x y, root_hash x = root_hash y → x = y) →
  length (transactions b) = length (transactions b') → calculate_merkle_root b = calculate_merkle_root b' →
  transactions b = transactions b'.
Proof.
  intros Hleaf Hpair Hroot Hl Hr. unfold calculate_merkle_root in Hr.
  destruct (transactions b) as [|x txs] eqn:E, (transactions b') as [|x' txs'] eqn:E'; [done..|].
  apply Hroot in Hr. destruct (tree_of_spec (leaf_hash <$> (x :: txs))) as [Er El]; [done|].
  destruct (tree_of_spec (leaf_hash <$> (x' :: txs'))) as [Er' El']; [done|].
  rewrite <- Er, <- Er' in Hr. apply same_root_same_leaves in Hr; [|done|apply tree_of_shape; [by rewrite !length_fmap|done]].
  rewrite El, El' in Hr. clear -Hleaf Hr. revert Hleaf Hr. generalize (x :: txs) (x' :: txs').
  induction l as [|y l IH]; intros [|y' l'] Hleaf Hll; try done. injection Hll as Hy Hll.
  apply Hleaf in Hy as ->; [|set_solver..]. f_equal. apply IH; [|done]. intros. apply Hleaf; set_solver.
Qed.

(** * Witnesses *)

Definition toy_hash : MerkleHash := {|
  leaf_hash t := pretty (ref_block_num t);
  pair_hash a b := pretty (Npos (encode (a, b)));
  root_hash d := [Zpos (encode d)]
|}.
Definition toy_transaction (n : Z) : signed_transaction :=
  SignedTransaction (Transaction n 0 0 []) [].
Definition toy_block (t : Z) (txs : list Z) : signed_block :=
  SignedBlock {| header := {| previous := [0; 1; 2; 3; 4]; timestamp := t; hdr_witness := "a";
                   transaction_merkle_root := []; hdr_extensions := [] |};
                 witness_signature := "s" |} (toy_transaction <$> txs).

Lemma merkle_root_of_tree_witness :
  ∃ t, leaves t = leaf_hash (MerkleHash := toy_hash) <$> transactions (toy_block 0 [1; 2; 3]) ∧
    calculate_merkle_root (H := toy_hash) (toy_block 0 [1; 2; 3]) = root_hash (MerkleHash := toy_hash) (tree_root (H := toy_hash) t).
Proof. apply (merkle_root_of_tree (H := toy_hash)). discriminate. Defined.
Lemma merkle_root_binds_witness : transactions (toy_block 0 [1; 2; 3]) = transactions (toy_block 7 [1; 2; 3]).
Proof.
  apply (merkle_root_binds (H := toy_hash)).
  - intros x y Hx Hy Hxy. cbn in Hx, Hy. set_unfold.
    destruct Hx as [->|[->|[->|[]]]], Hy as [->|[->|[->|[]]]]; reflexivity || (vm_compute in Hxy; discriminate Hxy).
  - intros x y z w E. assert (encode (x, y) = encode (z, w)) as Ee.
    { assert (Npos (encode (x, y)) = Npos (encode (z, w))) as En by (apply (inj pretty); exact E). by injection En. }
    apply (inj encode) in Ee. by injection Ee.
  - intros x y E. injection E as E. by apply (inj encode) in E.
  - reflexivity.
  - reflexivity.
Defined.
