(* ===== verification/ForkDatabase.v ===== *)
(** The fork database: [chain/fork_database.hpp], [chain/fork_database.cpp].

    It caches recent blocks as a forest of items linked by weak pointers to their
    parents.  A [shared_ptr< fork_item >] is the item with the address [make_shared]
    gave it: the code writes an item only before it stores it, so the item travels
    with the pointer.  A [weak_ptr] is an address; [lock] finds the item
    as long as a container, the head or a caller still owns it.  A throw keeps what
    was done before it ([K]).

    The theorems: every sequence of operations keeps the forest well formed, and
    [fetch_branch_from] finds exactly the two branches down to the most recent common
    ancestor. *)

From S2P Require Import Prelude Fc Kept BlockHeader Block.

(** The ids of blocks: the hash of the header. *)
Class BlockIds := { id_of : signed_block → block_id }.
#[export] Instance header_ids `{FcCrypto} : BlockIds := {| id_of b := header_id b |}.
(** What the fork database relies on: an id carries the block's number. *)
Class BlockIdsLaw `{FcCrypto, BlockIds} : Prop :=
  id_of_num b : num_from_id (id_of b) = block_num (sb_header b).
#[export] Instance header_ids_law `{FcCryptoLaws} : BlockIdsLaw.
Proof. intros b. apply header_id_num. Qed.

(** * Items and pointers *)

(** [fork_item], libraries/chain/include/node/chain/fork_database.hpp:18-34 *)
Record fork_item := ForkItem {
  address : Z;                     (* where [make_shared] put it *)
  fi_prev : option Z;
  fi_num : Z;
  fi_invalid : bool;
  fi_id : block_id;
  fi_data : signed_block;
}.
#[export] Instance eta_fork_item : Eta fork_item :=
  λ r, ForkItem (address r) (fi_prev r) (fi_num r) (fi_invalid r) (fi_id r) (fi_data r).

Abbreviation item_ptr := fork_item.

(** [previous_id], libraries/chain/include/node/chain/fork_database.hpp:23-23 *)
Definition previous_id (i : fork_item) : block_id := previous (fi_data i).

(** [fork_database], libraries/chain/include/node/chain/fork_database.hpp:48-105 *)
Record fork_database := ForkDatabase {
  fd_max_size : Z;
  fd_unlinked : list item_ptr;     (* containers in the order of insertion *)
  fd_index : list item_ptr;
  fd_head : option item_ptr;
  fd_next : Z;                     (* the next address [make_shared] returns *)
}.
#[export] Instance eta_fork_database : Eta fork_database :=
  λ r, ForkDatabase (fd_max_size r) (fd_unlinked r) (fd_index r) (fd_head r) (fd_next r).

(** [block_id_type()], the id of the block before the first. *)
Definition null_id : block_id := replicate 5 0.

Section fork_database.
Context {C : FcCrypto} {B : BlockIds}.

(** [fork_item::fork_item], libraries/chain/include/node/chain/fork_database.hpp:20-21 *)
Definition new_fork_item (a : Z) (d : signed_block) : fork_item := ForkItem a None (block_num d) false (id_of d) d.

(** [fork_database::fork_database], libraries/chain/include/node/chain/fork_database.hpp:100-104 *)
Definition empty_fork_database : fork_database := ForkDatabase 1024 [] [] None 0.

(** [std::make_shared<fork_item>( b )] *)
Definition make_shared (b : signed_block) : K fork_database item_ptr :=
  d ← kget; kupdate (λ d, d <| fd_next ::= Z.succ |>);; mret (new_fork_item (fd_next d) b).

(** The items somebody owns; [held] are the pointers callers hold. *)
Definition alive (held : list item_ptr) (d : fork_database) : list item_ptr :=
  fd_index d ++ fd_unlinked d ++ option_list (fd_head d) ++ held.
Definition lock (held : list item_ptr) (d : fork_database) (w : option Z) : option item_ptr :=
  a ← w; find (λ i : item_ptr, address i =? a) (alive held d).

(** [index.find( id )] and [_index.insert( item )] of the unique id index. *)
Definition find_id (l : list item_ptr) (id : block_id) : option item_ptr :=
  find (λ i : item_ptr, bool_decide (fi_id i = id)) l.
Definition insert_item (i : item_ptr) (l : list item_ptr) : list item_ptr :=
  match find_id l (fi_id i) with Some _ => l | None => l ++ [i] end.

(** * Operations *)

(** [fork_database::reset], libraries/chain/fork_database.cpp:10-14 *)
Definition reset : K fork_database unit :=
  kupdate (λ d, d <| fd_head := None |>);; kupdate (λ d, d <| fd_index := [] |>).

(** [fork_database::pop_block], libraries/chain/fork_database.cpp:16-22 *)
Definition fork_pop_block (held : list item_ptr) : K fork_database unit :=
  d ← kget;
  head ← ksome (fd_head d) (assert_exception "cannot pop an empty fork database");
  prev ← ksome (lock held d (fi_prev head)) (assert_exception "popping head block would leave fork DB empty");
  kupdate (λ d, d <| fd_head := Some prev |>).

(** [fork_database::start_block], libraries/chain/fork_database.cpp:24-29 *)
Definition start_block (b : signed_block) : K fork_database unit :=
  item ← make_shared b;
  kupdate (λ d, d <| fd_index ::= insert_item item |>);;
  kupdate (λ d, d <| fd_head := Some item |>).

(** Link a new item to its parent. *)
Definition link_item (item : item_ptr) : K fork_database item_ptr :=
  d ← kget;
  match fd_head d with
  | Some _ =>
      if bool_decide (previous_id item = null_id) then mret item
      else
        parent ← ksome (find_id (fd_index d) (previous_id item)) unlinkable_block_exception;
        kassert (negb (fi_invalid parent)) "!(*itr)->invalid";;
        mret (item <| fi_prev := Some (address parent) |>)
  | None => mret item
  end.

(** [fork_database::_push_block], libraries/chain/fork_database.cpp:51-71 *)
Definition fork_push_item (item : item_ptr) : K fork_database unit :=
  d ← kget;
  match fd_head d with
  | Some head =>
      kassert (Z.max 0 (fi_num head - fd_max_size d) <? fi_num item) "attempting to push a block that is too old"
  | None => mret tt
  end;;
  item ← link_item item;
  kupdate (λ d, d <| fd_index ::= insert_item item |>);;
  d ← kget;
  match fd_head d with
  | Some head => if fi_num head <? fi_num item then kupdate (λ d, d <| fd_head := Some item |>) else mret tt
  | None => kupdate (λ d, d <| fd_head := Some item |>)
  end.

(* The handler logs and rethrows; the insertion into [_unlinked_index] after its
   [throw] is never reached.  [_push_next], which would empty that cache, has no caller. *)
(** [fork_database::push_block], libraries/chain/fork_database.cpp:35-49 *)
Definition fork_push_block (b : signed_block) : K fork_database (option item_ptr) :=
  item ← make_shared b;
  fork_push_item item;;
  d ← kget; mret (fd_head d).

(** The loop of [set_max_size]: erase the first item by number while it is too old. *)
Fixpoint lowest (l : list item_ptr) : option item_ptr :=
  match l with
  | [] => None
  | i :: l => match lowest l with
              | Some j => if fi_num j <? fi_num i then Some j else Some i
              | None => Some i
              end
  end.
Fixpoint erase_old (fuel : nat) (bound : Z) (l : list item_ptr) : list item_ptr :=
  match fuel, lowest l with
  | S fuel, Some i =>
      if fi_num i <? bound then erase_old fuel bound (filter (λ j, address j ≠ address i) l) else l
  | _, _ => l
  end.

(** [fork_database::set_max_size], libraries/chain/fork_database.cpp:94-123 *)
Definition set_max_size (s : Z) : K fork_database unit :=
  kupdate (λ d, d <| fd_max_size := s |>);;
  d ← kget;
  match fd_head d with
  | None => mret tt
  | Some head =>
      let bound := Z.max 0 (fi_num head - s) in
      kupdate (λ d, d <| fd_index ::= λ l, erase_old (length l) bound l |>);;
      kupdate (λ d, d <| fd_unlinked ::= λ l, erase_old (length l) bound l |>)
  end.

(** [fork_database::set_head], libraries/chain/fork_database.cpp:233-236 *)
Definition set_head (h : option item_ptr) : K fork_database unit := kupdate (λ d, d <| fd_head := h |>).

(** [fork_database::remove], libraries/chain/fork_database.cpp:238-241 *)
Definition fork_remove (id : block_id) : K fork_database unit :=
  kupdate (λ d, d <| fd_index ::= λ l, filter (λ i : item_ptr, fi_id i ≠ id) l |>).

(** * Queries *)

(** [fork_database::is_known_block], libraries/chain/fork_database.cpp:125-134 *)
Definition is_known_block (d : fork_database) (id : block_id) : bool :=
  match find_id (fd_index d) id with
  | Some _ => true
  | None => match find_id (fd_unlinked d) id with Some _ => true | None => false end
  end.

(** [fork_database::fetch_block], libraries/chain/fork_database.cpp:136-147 *)
Definition fetch_block (d : fork_database) (id : block_id) : option item_ptr :=
  match find_id (fd_index d) id with
  | Some i => Some i
  | None => find_id (fd_unlinked d) id
  end.

(** [fork_database::fetch_block_by_number], libraries/chain/fork_database.cpp:149-166 *)
Definition fetch_block_by_number (d : fork_database) (num : Z) : list item_ptr :=
  filter (λ i : item_ptr, fi_num i = num) (fd_index d).

(** The loops of [fetch_branch_from].  Following the parents lowers the address, so an
    item's address bounds the rounds from it. *)
Definition rounds (i : item_ptr) : nat := S (Z.to_nat (address i)).
#[global] Arguments rounds : simpl never.
Definition lock_assert (held : list item_ptr) (d : fork_database) (i : item_ptr) (msg : string) : result item_ptr :=
  match lock held d (fi_prev i) with Some p => Ok p | None => Err (assert_exception msg) end.

(** [while( i->data.block_num() > n ) { branch.push_back( i ); i = i->prev.lock(); }] *)
Fixpoint descend (fuel : nat) (held : list item_ptr) (d : fork_database) (i : item_ptr) (n : Z) (msg : string) :
    result (list item_ptr * item_ptr) :=
  if n <? block_num (fi_data i) then
    match fuel with
    | O => Err (logic_error "no round left")
    | S fuel =>
        p ← lock_assert held d i msg;
        '(l, j) ← descend fuel held d p n msg;
        Ok (i :: l, j)
    end
  else Ok ([], i).

(** The third loop: both branches in step, while the previous blocks differ. *)
Fixpoint descend_both (fuel : nat) (held : list item_ptr) (d : fork_database) (i j : item_ptr) :
    result (list item_ptr * list item_ptr) :=
  if bool_decide (previous_id i ≠ previous_id j) then
    match fuel with
    | O => Err (logic_error "no round left")
    | S fuel =>
        p ← lock_assert held d i "first_branch";
        q ← lock_assert held d j "second_branch";
        '(l, m) ← descend_both fuel held d p q;
        Ok (i :: l, j :: m)
    end
  else Ok ([i], [j]).

(** [fork_database::fetch_branch_from], libraries/chain/fork_database.cpp:168-210 *)
Definition fetch_branch_from (held : list item_ptr) (d : fork_database) (first second : block_id) :
    result (list item_ptr * list item_ptr) :=
  first_branch ← from_option Ok (Err (assert_exception "first_branch_itr != end")) (find_id (fd_index d) first);
  second_branch ← from_option Ok (Err (assert_exception "second_branch_itr != end")) (find_id (fd_index d) second);
  '(l1, first_branch) ← descend (rounds first_branch) held d first_branch (block_num (fi_data second_branch)) "first_branch";
  '(l2, second_branch) ← descend (rounds second_branch) held d second_branch (block_num (fi_data first_branch)) "second_branch";
  '(b1, b2) ← descend_both (rounds first_branch) held d first_branch second_branch;
  Ok (l1 ++ b1, l2 ++ b2).

(** The loop of [walk_main_branch_to_num]. *)
Fixpoint walk_down (fuel : nat) (held : list item_ptr) (d : fork_database) (next : option item_ptr) (n : Z) : option item_ptr :=
  match fuel, next with
  | S fuel, Some i => if n <? fi_num i then walk_down fuel held d (lock held d (fi_prev i)) n else Some i
  | _, _ => next
  end.

(** [fork_database::walk_main_branch_to_num], libraries/chain/fork_database.cpp:212-221 *)
Definition walk_main_branch_to_num (held : list item_ptr) (d : fork_database) (n : Z) : result (option item_ptr) :=
  match fd_head d with
  | None => Err (logic_error "null pointer")
  | Some next => if fi_num next <? n then Ok None else Ok (walk_down (rounds next) held d (Some next) n)
  end.

(** [fork_database::fetch_block_on_main_branch_by_number], libraries/chain/fork_database.cpp:223-231 *)
Definition fetch_block_on_main_branch_by_number (held : list item_ptr) (d : fork_database) (n : Z) :
    result (option item_ptr) :=
  match fetch_block_by_number d n with
  | [b] => Ok (Some b)
  | [] => Ok None
  | _ => walk_main_branch_to_num held d n
  end.
End fork_database.

(** * The forest is well formed *)

Section invariant.
Context {C : FcCrypto} {CL : FcCryptoLaws C} {B : BlockIds} {BL : BlockIdsLaw}.

Record item_ok (next : Z) (i : item_ptr) : Prop := {
  io_num : fi_num i = block_num (fi_data i);
  io_id : fi_id i = id_of (fi_data i);
  io_positive : 0 < fi_num i;
  io_address : 0 ≤ address i < next;
  io_prev w : fi_prev i = Some w → w < address i;
}.

(** Owned items are what they say they are and a parent pointer leads to an older item
    with the previous id; ids in the index are unique; nothing waits to be linked. *)
Record fork_ok (held : list item_ptr) (d : fork_database) : Prop := {
  fo_items i : i ∈ alive held d → item_ok (fd_next d) i;
  fo_same i j : i ∈ alive held d → j ∈ alive held d → address i = address j → i = j;
  fo_link i j : i ∈ alive held d → j ∈ alive held d → fi_prev i = Some (address j) → fi_id j = previous_id i;
  fo_ids : NoDup (fi_id <$> fd_index d);
  fo_unlinked : fd_unlinked d = [];
  fo_next : 0 ≤ fd_next d;
}.

Lemma fork_ok_empty : fork_ok [] empty_fork_database.
Proof. split; cbn; [set_solver..|constructor|done|lia]. Qed.

Lemma item_ok_weaken next next' i : next ≤ next' → item_ok next i → item_ok next' i.
Proof. intros Hn []. split; try done. lia. Qed.

(** Owning less keeps the forest well formed. *)
Lemma fork_ok_less held d held' d' :
  fork_ok held d → alive held' d' ⊆ alive held d → NoDup (fi_id <$> fd_index d') →
  fd_unlinked d' = [] → fd_next d ≤ fd_next d' → fork_ok held' d'.
Proof.
  intros [] Hsub Hids Hun Hn. split; [|intros; eauto..|lia]; [|done..].
  intros i Hi. eapply item_ok_weaken; [exact Hn|auto].
Qed.

Lemma insert_item_subset i l : insert_item i l ⊆ i :: l.
Proof. unfold insert_item. destruct (find_id l (fi_id i)); set_solver. Qed.
Lemma find_id_spec l id : 
  match find_id l id with Some i => i ∈ l ∧ fi_id i = id | None => ∀ i, i ∈ l → fi_id i ≠ id end.
Proof.
  unfold find_id. destruct (find _ l) as [i|] eqn:E.
  - apply find_some in E as [Hi Hb]. apply list_elem_of_In in Hi. by case_bool_decide.
  - intros i Hi Hid. apply list_elem_of_In in Hi. eapply find_none in E; [|exact Hi]. by case_bool_decide.
Qed.
Lemma insert_item_ids i l : NoDup (fi_id <$> l) → NoDup (fi_id <$> insert_item i l).
Proof.
  intros Hl. unfold insert_item. pose proof (find_id_spec l (fi_id i)) as Hf.
  destruct (find_id l (fi_id i)); [done|]. rewrite fmap_app. apply NoDup_app. split_and!; [done| |apply NoDup_singleton].
  intros id (j & -> & Hj)%list_elem_of_fmap. cbn. intros Hx%list_elem_of_singleton. by eapply Hf.
Qed.

(** A fresh item whose parent, if any, is owned. *)
Lemma fork_ok_add held d d' item :
  fork_ok held d → item_ok (fd_next d + 1) item → address item = fd_next d →
  (∀ w, fi_prev item = Some w → ∃ p, p ∈ alive held d ∧ address p = w ∧ fi_id p = previous_id item) →
  alive held d' ⊆ item :: alive held d → NoDup (fi_id <$> fd_index d') → fd_unlinked d' = [] →
  fd_next d' = fd_next d + 1 → fork_ok held d'.
Proof.
  intros Hok Hitem Ha Hp Hsub Hids Hun Hn. pose proof (fo_items _ _ Hok) as Hio.
  assert (∀ i, i ∈ alive held d → address i ≠ address item) as Hne by (intros i Hi; destruct (Hio _ Hi); lia).
  assert (∀ i, i ∈ alive held d' → i = item ∨ i ∈ alive held d) as Hcase by set_solver.
  split; try done; [..|pose proof (fo_next _ _ Hok); lia].
  - intros i [->|Hi]%Hcase; rewrite Hn; [done|]. eapply item_ok_weaken; [|by apply Hio]. lia.
  - intros i j [->|Hi]%Hcase [->|Hj]%Hcase Hij; [done|by destruct (Hne j)|by destruct (Hne i)|by eapply fo_same].
  - intros i j [->|Hi]%Hcase [->|Hj]%Hcase Hij.
    + pose proof (io_prev _ _ Hitem _ Hij). lia.
    + destruct (Hp _ Hij) as (p & Hp' & Hpa & Hid). by rewrite (fo_same _ _ Hok p j Hp' Hj Hpa) in Hid.
    + pose proof (io_prev _ _ (Hio _ Hi) _ Hij). destruct (Hio _ Hi). lia.
    + by eapply fo_link.
Qed.

Lemma new_item_ok a b : 0 ≤ a → 0 < block_num (sb_header b) → item_ok (a + 1) (new_fork_item a b).
Proof. intros. split; cbn; try done. lia. Qed.
Lemma find_alive held d id i : find_id (fd_index d) id = Some i → i ∈ alive held d ∧ fi_id i = id.
Proof. intros E. pose proof (find_id_spec (fd_index d) id) as Hf. rewrite E in Hf. unfold alive. set_solver. Qed.

(** * Every operation keeps it *)

Lemma reset_ok held d r d' : reset d = (r, d') → fork_ok held d → fork_ok held d'.
Proof.
  intros [= <- <-] Hok. eapply fork_ok_less; [exact Hok|..]; cbn; [|constructor|apply (fo_unlinked _ _ Hok)|done].
  unfold alive; cbn. set_solver.
Qed.

Lemma lock_spec held d w i : lock held d w = Some i → i ∈ alive held d ∧ w = Some (address i).
Proof.
  unfold lock. destruct w as [a|]; [|done]. cbn. intros [Hi Ha]%find_some. apply list_elem_of_In in Hi.
  apply Z.eqb_eq in Ha as ->. done.
Qed.
Lemma lock_alive held d i : fork_ok held d → i ∈ alive held d → lock held d (Some (address i)) = Some i.
Proof.
  intros Hok Hi. unfold lock. cbn. destruct (find _ _) as [j|] eqn:E.
  - apply find_some in E as [Hj Ha]. apply list_elem_of_In in Hj. apply Z.eqb_eq in Ha. f_equal. by eapply fo_same.
  - apply list_elem_of_In in Hi. eapply find_none in E; [|exact Hi]. cbn in E. lia.
Qed.

Lemma pop_block_ok held d r d' : fork_pop_block held d = (r, d') → fork_ok held d → fork_ok held d'.
Proof.
  intros Hr Hok. unfold fork_pop_block, mbind, K_bind, kget, ksome in Hr.
  destruct (fd_head d) as [h|] eqn:Eh; [|by injection Hr as <- <-]. cbn in Hr.
  destruct (lock held d (fi_prev h)) as [p|] eqn:El; [|by injection Hr as <- <-]. injection Hr as <- <-.
  apply lock_spec in El as [Hp _]. eapply fork_ok_less; [exact Hok|..]; cbn; [|apply (fo_ids _ _ Hok)|apply (fo_unlinked _ _ Hok)|done].
  unfold alive in *; cbn in *. set_solver.
Qed.

Lemma start_block_ok held d b r d' :
  0 < block_num (sb_header b) → start_block b d = (r, d') → fork_ok held d → fork_ok held d'.
Proof.
  intros Hb [= <- <-] Hok. pose proof (fo_next _ _ Hok).
  apply (fork_ok_add held d _ (new_fork_item (fd_next d) b)); cbn; try done.
  - by apply new_item_ok.
  - pose proof (insert_item_subset (new_fork_item (fd_next d) b) (fd_index d)). unfold alive; cbn. set_solver.
  - apply insert_item_ids, (fo_ids _ _ Hok).
  - apply (fo_unlinked _ _ Hok).
Qed.

(** What [_push_block] does to a fresh item. *)
Definition push_refused (d : fork_database) (b : signed_block) : option exn :=
  match fd_head d with
  | None => None
  | Some head =>
      if Z.max 0 (fi_num head - fd_max_size d) <? block_num b then
        if bool_decide (previous b = null_id) then None
        else match find_id (fd_index d) (previous b) with
             | None => Some unlinkable_block_exception
             | Some parent => if fi_invalid parent then Some (assert_exception "!(*itr)->invalid") else None
             end
      else Some (assert_exception "attempting to push a block that is too old")
  end.
Definition parent_of (d : fork_database) (b : signed_block) : option Z :=
  match fd_head d with
  | None => None
  | Some _ => if bool_decide (previous b = null_id) then None else address <$> find_id (fd_index d) (previous b)
  end.
Definition higher (h : option item_ptr) (i : item_ptr) : item_ptr :=
  match h with Some h => if fi_num h <? fi_num i then i else h | None => i end.

Lemma push_block_spec d b :
  fork_push_block b d =
    match push_refused d b with
    | Some e => (Err e, d <| fd_next ::= Z.succ |>)
    | None =>
        let item := new_fork_item (fd_next d) b <| fi_prev := parent_of d b |> in
        let head := higher (fd_head d) item in
        (Ok (Some head), d <| fd_next ::= Z.succ |> <| fd_index ::= insert_item item |> <| fd_head := Some head |>)
    end.
Proof.
  unfold fork_push_block, make_shared, fork_push_item, link_item, push_refused, parent_of, higher.
  unfold mbind, K_bind, kget, kupdate, kassert, ksome, mret, K_ret, kthrow. cbn -[Z.max].
  unfold previous_id, set_field. destruct d as [m u x h n]; cbn -[Z.max null_id find_id].
  destruct h as [h|]; cbn -[Z.max null_id find_id]; [|done].
  destruct (_ <? _); [|done]. cbn -[null_id find_id]. case_bool_decide; cbn -[find_id].
  - by destruct (_ <? _).
  - destruct (find_id x (previous b)) as [p|]; cbn; [|done]. destruct (fi_invalid p); [done|]. cbn. by destruct (_ <? _).
Qed.
Lemma push_ok held d b r d' :
  0 < block_num (sb_header b) → fork_push_block b d = (r, d') → fork_ok held d → fork_ok held d'.
Proof.
  intros Hb Hr Hok. rewrite push_block_spec in Hr. pose proof (fo_next _ _ Hok).
  destruct (push_refused d b) as [e|] eqn:Er.
  { injection Hr as <- <-. eapply fork_ok_less; [exact Hok|done|apply (fo_ids _ _ Hok)|apply (fo_unlinked _ _ Hok)|fields; lia]. }
  cbv zeta in Hr. injection Hr as <- <-. set (item := new_fork_item (fd_next d) b <| fi_prev := parent_of d b |>).
  assert (∀ w, parent_of d b = Some w → ∃ p, find_id (fd_index d) (previous b) = Some p ∧ address p = w) as Hp.
  { intros w. unfold parent_of. destruct (fd_head d); [|done]. case_bool_decide; [done|].
    destruct (find_id (fd_index d) (previous b)) as [p|]; [|done]. naive_solver. }
  apply (fork_ok_add held d _ item); try done.
  - destruct (new_item_ok (fd_next d) b) as []; [lia..|]. split; try done. change (address item) with (fd_next d). intros w Hw.
    destruct (Hp w Hw) as (p & Hf & <-). destruct (find_alive held _ _ _ Hf) as [Hp' _].
    pose proof (io_address _ _ (fo_items _ _ Hok p Hp')). lia.
  - intros w Hw. destruct (Hp w Hw) as (p & Hf & <-). exists p. by destruct (find_alive held _ _ _ Hf).
  - pose proof (insert_item_subset item (fd_index d)). unfold alive, higher. cbn.
    destruct (fd_head d); [case_match|]; set_solver.
  - apply insert_item_ids, (fo_ids _ _ Hok).
  - apply (fo_unlinked _ _ Hok).
Qed.

Lemma lowest_spec l : match lowest l with
  | None => l = []
  | Some i => i ∈ l ∧ ∀ j, j ∈ l → fi_num i ≤ fi_num j
  end.
Proof.
  induction l as [|i l IH]; [done|]. cbn. destruct (lowest l) as [j|].
  - destruct IH as [Hj IH]. destruct (Z.ltb_spec (fi_num j) (fi_num i)).
    + split; [by right|]. intros k [->|Hk]%elem_of_cons; [lia|auto].
    + split; [by left|]. intros k [->|Hk]%elem_of_cons; [lia|]. specialize (IH k Hk). lia.
  - subst. split; [by left|]. intros k ->%list_elem_of_singleton. lia.
Qed.

(** The loop leaves the items that are recent enough, in their order. *)
Lemma erase_old_spec bound fuel : ∀ l, (length l ≤ fuel)%nat →
  (∀ i j : item_ptr, i ∈ l → j ∈ l → address i = address j → i = j) →
  erase_old fuel bound l = filter (λ i : item_ptr, bound ≤ fi_num i) l.
Proof.
  induction fuel as [|fuel IH]; intros l Hl Hsame; [by destruct l; [|cbn in Hl; lia]|].
  cbn [erase_old]. pose proof (lowest_spec l) as Hlow. destruct (lowest l) as [i|]; [|by subst].
  destruct Hlow as [Hi Hlow]. destruct (Z.ltb_spec (fi_num i) bound).
  - rewrite IH.
    + rewrite list_filter_filter. apply filter_ext_in. intros j Hj. split; [naive_solver|]. intros Hb. split; [done|].
      intros Ha. rewrite (Hsame j i Hj Hi Ha) in Hb. lia.
    + assert (length (filter (λ j : item_ptr, address j ≠ address i) l) < length l)%nat; [|lia].
      apply length_filter_lt with i; [done|]. tauto.
    + intros j k [_ ?]%list_elem_of_filter [_ ?]%list_elem_of_filter. by apply Hsame.
  - symmetry. apply filter_all_in. intros j Hj. specialize (Hlow j Hj). lia.
Qed.

(** Items of the containers pruned by number. *)
Definition prune (bound : Z) (l : list item_ptr) : list item_ptr := filter (λ i : item_ptr, bound ≤ fi_num i) l.

Lemma set_max_size_spec held d s : fork_ok held d →
  set_max_size s d =
    (Ok tt, d <| fd_max_size := s |>
              <| fd_index := match fd_head d with
                             | Some h => prune (Z.max 0 (fi_num h - s)) (fd_index d) | None => fd_index d end |>).
Proof.
  intros Hok. unfold set_max_size, kupdate, kget, mbind, K_bind, mret, K_ret, set_field.
  pose proof (fo_unlinked _ _ Hok) as Hun. destruct d as [m u x h n] eqn:Ed. cbn in Hun. subst u.
  cbn -[erase_old lowest Z.max]. destruct h as [h|]; [|done]. cbn -[erase_old lowest Z.max]. do 2 f_equal.
  apply erase_old_spec; [done|]. intros i j Hi Hj. apply (fo_same _ _ Hok); unfold alive; cbn; set_solver.
Qed.
Lemma filter_subset (P : item_ptr → Prop) `{!∀ i, Decision (P i)} (l : list item_ptr) : filter P l ⊆ l.
Proof. intros i [_ ?]%list_elem_of_filter. done. Qed.
Lemma filter_ids (P : item_ptr → Prop) `{!∀ i, Decision (P i)} (l : list item_ptr) :
  NoDup (fi_id <$> l) → NoDup (fi_id <$> filter P l).
Proof.
  intros Hl. eapply sublist_NoDup; [exact Hl|]. apply fmap_sublist, sublist_filter.
Qed.

Lemma set_max_size_ok held d s r d' : set_max_size s d = (r, d') → fork_ok held d → fork_ok held d'.
Proof.
  intros Hr Hok. rewrite (set_max_size_spec held) in Hr by done. injection Hr as <- <-.
  eapply fork_ok_less; [exact Hok|..]; [|fields; destruct (fd_head d); [apply filter_ids|]; apply (fo_ids _ _ Hok)|apply (fo_unlinked _ _ Hok)|fields; lia].
  unfold alive. fields. destruct (fd_head d) as [i|]; [|done].
  pose proof (filter_subset (λ j : item_ptr, Z.max 0 (fi_num i - s) ≤ fi_num j) (fd_index d)). unfold prune. set_solver.
Qed.
Lemma remove_ok held d id r d' : fork_remove id d = (r, d') → fork_ok held d → fork_ok held d'.
Proof.
  intros [= <- <-] Hok.
  eapply fork_ok_less; [exact Hok|..]; [|fields; apply filter_ids, (fo_ids _ _ Hok)|apply (fo_unlinked _ _ Hok)|fields; lia].
  pose proof (filter_subset (λ i : item_ptr, fi_id i ≠ id) (fd_index d)). unfold alive. fields. set_solver.
Qed.
Lemma set_head_ok held d h r d' :
  (∀ i, h = Some i → i ∈ alive held d) → set_head h d = (r, d') → fork_ok held d → fork_ok held d'.
Proof.
  intros Hh [= <- <-] Hok.
  eapply fork_ok_less; [exact Hok|..]; [|apply (fo_ids _ _ Hok)|apply (fo_unlinked _ _ Hok)|fields; lia].
  unfold alive in *. fields. destruct h as [i|]; [specialize (Hh i eq_refl)|]; set_solver.
Qed.
End invariant.

(** * Runs of the fork database *)

Section reachable.
Context {C : FcCrypto} {CL : FcCryptoLaws C} {B : BlockIds} {BL : BlockIdsLaw}.

Inductive fork_op :=
| Reset
| PopBlock
| StartBlock (b : signed_block)
| PushBlock (b : signed_block)
| SetMaxSize (s : Z)
| SetHead (h : option item_ptr)
| Remove (id : block_id).

Definition run_fork_op (held : list item_ptr) (op : fork_op) : K fork_database unit :=
  match op with
  | Reset => reset
  | PopBlock => fork_pop_block held
  | StartBlock b => start_block b
  | PushBlock b => fork_push_block b ≫= λ _, mret tt
  | SetMaxSize s => set_max_size s
  | SetHead h => set_head h
  | Remove id => fork_remove id
  end.

(** A block has a number and callers only pass pointers they hold. *)
Definition fork_op_legal (held : list item_ptr) (d : fork_database) (op : fork_op) : Prop :=
  match op with
  | StartBlock b | PushBlock b => 0 < block_num (sb_header b)
  | SetHead (Some i) => i ∈ alive held d
  | _ => True
  end.

(** An operation, whether it throws or not, or callers taking and dropping pointers. *)
Inductive fork_step : list item_ptr * fork_database → list item_ptr * fork_database → Prop :=
| fork_runs held d op r d' :
    fork_op_legal held d op → run_fork_op held op d = (r, d') → fork_step (held, d) (held, d')
| fork_callers held held' d : held' ⊆ alive held d → fork_step (held, d) (held', d).

Lemma fork_step_ok held d held' d' : fork_step (held, d) (held', d') → fork_ok held d → fork_ok held' d'.
Proof.
  intros Hs Hok. inversion Hs as [? ? op r ? Hl Hr|? ? ? Hsub]; subst.
  - destruct op; cbn in Hl, Hr.
    + by eapply reset_ok.
    + by eapply pop_block_ok.
    + by eapply start_block_ok.
    + unfold mbind, K_bind in Hr. destruct (fork_push_block b d) as [[a|e] d1] eqn:E; injection Hr as <- <-; by eapply push_ok.
    + by eapply set_max_size_ok.
    + eapply set_head_ok; [|done..]. intros i ->. done.
    + by eapply remove_ok.
  - eapply fork_ok_less; [exact Hok| |apply (fo_ids _ _ Hok)|apply (fo_unlinked _ _ Hok)|lia].
    unfold alive in *. set_solver.
Qed.

Definition fork_reachable : list item_ptr * fork_database → Prop := rtc fork_step ([], empty_fork_database).

Lemma reachable_ok held d : fork_reachable (held, d) → fork_ok held d.
Proof.
  intros Hr. cut (∀ s s', rtc fork_step s s' → fork_ok s.1 s.2 → fork_ok s'.1 s'.2).
  { intros Hc. apply (Hc _ _ Hr). apply fork_ok_empty. }
  clear held d Hr. induction 1 as [|[held d] [held1 d1] s Hs _ IH]; [done|]. intros Hok. apply IH. by eapply fork_step_ok.
Qed.
End reachable.

(** * Branches *)

Section branches.
Context {C : FcCrypto} {CL : FcCryptoLaws C} {B : BlockIds} {BL : BlockIdsLaw}.
Context (held : list item_ptr) (d : fork_database).

(** Following the parents from [i] through [l], which starts with [i], to [j]. *)
Inductive path : item_ptr → list item_ptr → item_ptr → Prop :=
| path_end i : path i [] i
| path_step i p l j : lock held d (fi_prev i) = Some p → path p l j → path i (i :: l) j.

Context (Hok : fork_ok held d).

Lemma parent_num i p : i ∈ alive held d → lock held d (fi_prev i) = Some p →
  fi_num i = fi_num p + 1 ∧ address p < address i ∧ p ∈ alive held d ∧ previous_id i = fi_id p.
Proof.
  intros Hi Hl. apply lock_spec in Hl as [Hp Hw].
  pose proof (fo_items _ _ Hok i Hi) as Hio. pose proof (fo_items _ _ Hok p Hp) as Hpo.
  assert (previous_id i = fi_id p) as Hid by (symmetry; by eapply fo_link).
  split_and!; [|by eapply io_prev|done|done].
  pose proof (io_positive _ _ Hio) as Hpos. rewrite (io_num _ _ Hio) in Hpos |- *. unfold block_num in Hpos |- *.
  change (previous (fi_data i)) with (previous_id i) in *. rewrite Hid, (io_id _ _ Hpo), id_of_num, <- (io_num _ _ Hpo) in Hpos |- *.
  assert (0 ≤ fi_num p < 2 ^ 32) as Hr.
  { rewrite (io_num _ _ Hpo). unfold block_num, wrap_u32. apply Z.mod_pos_bound. lia. }
  unfold wrap_u32 in *. destruct (decide (fi_num p + 1 = 2 ^ 32)) as [E|]; [rewrite E in Hpos; vm_compute in Hpos; done|].
  apply Z.mod_small. lia.
Qed.

Lemma path_props i l j : path i l j → i ∈ alive held d →
  j ∈ alive held d ∧ fi_num i = fi_num j + Z.of_nat (length l) ∧ address j + Z.of_nat (length l) ≤ address i ∧
  (∀ u, u ∈ l → fi_num j < fi_num u ∧ u ∈ alive held d).
Proof.
  induction 1 as [i|i p l j Hp _ IH]; intros Hi; [split_and!; cbn; [done|lia|lia|set_solver]|].
  destruct (parent_num _ _ Hi Hp) as (Hn & Ha & Hpa & _). destruct (IH Hpa) as (Hj & Hnum & Hadd & Hl).
  split_and!; [done|cbn; lia|cbn; lia|]. intros u [->|Hu]%elem_of_cons; [split; [lia|done]|auto].
Qed.
Lemma path_app i l m l' j : path i l m → path m l' j → path i (l ++ l') j.
Proof. induction 1; [done|]. intros. cbn. econstructor; eauto. Qed.
Lemma path_unique i l j : path i l j → ∀ l' j', path i l' j' → length l = length l' → l = l' ∧ j = j'.
Proof.
  induction 1 as [i|i p l j Hp _ IH]; intros l' j' H'; inversion H' as [|? ? l0 ? Hp' Hq]; subst; cbn; try done.
  intros [= Hl]. assert (p0 = p) as -> by congruence. by destruct (IH _ _ Hq Hl) as [-> ->].
Qed.

(** The part of a path above a height. *)
Lemma path_cut i l j n : path i l j → i ∈ alive held d → fi_num j ≤ n →
  ∃ l1 l2 m, l = l1 ++ l2 ∧ path i l1 m ∧ path m l2 j ∧ fi_num m = Z.min n (fi_num i) ∧ ∀ u, u ∈ l1 → n < fi_num u.
Proof.
  induction 1 as [i|i p l j Hp Hpath IH]; intros Hi Hn.
  - exists [], [], i. split_and!; try constructor; [lia|set_solver].
  - destruct (parent_num _ _ Hi Hp) as (Hnum & _ & Hpa & _). destruct (decide (fi_num i ≤ n)).
    + exists [], (i :: l), i. split_and!; [done|constructor|by econstructor|lia|set_solver].
    + destruct (IH Hpa Hn) as (l1 & l2 & m & -> & H1 & H2 & Hm & Hu).
      exists (i :: l1), l2, m. split_and!; [done|by econstructor|done|lia|].
      intros u [->|Hul]%elem_of_cons; [lia|auto].
Qed.

Lemma num_of i : i ∈ alive held d → block_num (fi_data i) = fi_num i.
Proof. intros Hi. symmetry. apply (fo_items _ _ Hok i Hi). Qed.

Lemma descend_spec fuel n msg : ∀ i l j, i ∈ alive held d → descend fuel held d i n msg = Ok (l, j) →
  path i l j ∧ fi_num j = Z.min n (fi_num i) ∧ ∀ u, u ∈ l → n < fi_num u.
Proof.
  induction fuel as [|fuel IH]; intros i l j Hi; cbn [descend]; rewrite (num_of i Hi); destruct (Z.ltb_spec n (fi_num i)).
  1: done.
  1,3: intros [= <- <-]; split_and!; [constructor|lia|set_solver].
  unfold lock_assert. destruct (lock held d (fi_prev i)) as [p|] eqn:Ep; [|done]. cbn.
  destruct (parent_num _ _ Hi Ep) as (Hnum & _ & Hpa & _).
  destruct (descend fuel held d p n msg) as [[l' j']|] eqn:E; [|done]. intros [= <- <-].
  destruct (IH _ _ _ Hpa E) as (Hp & Hm & Hu). split_and!; [by econstructor|lia|].
  intros u [->|Hul]%elem_of_cons; [lia|auto].
Qed.
Lemma descend_complete n msg i l j : path i l j → i ∈ alive held d → fi_num j ≤ n →
  (∀ u, u ∈ l → n < fi_num u) → ∀ fuel, (length l ≤ fuel)%nat → descend fuel held d i n msg = Ok (l, j).
Proof.
  induction 1 as [i|i p l j Hp _ IH]; intros Hi Hj Hu fuel Hf.
  - destruct fuel; cbn [descend]; rewrite (num_of i Hi); destruct (Z.ltb_spec n (fi_num i)); (lia || done).
  - destruct fuel as [|fuel]; [cbn in Hf; lia|]. cbn [descend]. rewrite (num_of i Hi).
    specialize (Hu i ltac:(by left)) as Hi'. destruct (Z.ltb_spec n (fi_num i)); [|lia].
    unfold lock_assert. rewrite Hp. cbn. destruct (parent_num _ _ Hi Hp) as (_ & _ & Hpa & _).
    rewrite IH; [done|done|done| |cbn in Hf; lia]. intros u Hul. apply Hu. by right.
Qed.

Lemma descend_both_spec fuel : ∀ i j b1 b2, i ∈ alive held d → j ∈ alive held d →
  descend_both fuel held d i j = Ok (b1, b2) →
  ∃ l1 u l2 v, b1 = l1 ++ [u] ∧ b2 = l2 ++ [v] ∧ path i l1 u ∧ path j l2 v ∧ previous_id u = previous_id v ∧
    Forall2 (λ x y, previous_id x ≠ previous_id y) l1 l2.
Proof.
  induction fuel as [|fuel IH]; intros i j b1 b2 Hi Hj; cbn [descend_both]; case_bool_decide as Hne; try done.
  1,3: intros [= <- <-]; exists [], i, [], j; split_and!; try constructor; try done;
    destruct (decide (previous_id i = previous_id j)); tauto.
  unfold lock_assert. destruct (lock held d (fi_prev i)) as [p|] eqn:Ep; [|done].
  destruct (lock held d (fi_prev j)) as [q|] eqn:Eq; [|done]. cbn.
  destruct (parent_num _ _ Hi Ep) as (_ & _ & Hp & _), (parent_num _ _ Hj Eq) as (_ & _ & Hq & _).
  destruct (descend_both fuel held d p q) as [[l m]|] eqn:E; [|done]. intros [= <- <-].
  destruct (IH _ _ _ _ Hp Hq E) as (l1 & u & l2 & v & -> & -> & H1 & H2 & Huv & Hf).
  exists (i :: l1), u, (j :: l2), v. split_and!; [done..| | |done|by constructor]; by econstructor.
Qed.
Lemma descend_both_complete i l1 u : path i l1 u → ∀ j l2 v, path j l2 v → i ∈ alive held d → j ∈ alive held d →
  previous_id u = previous_id v → Forall2 (λ x y, previous_id x ≠ previous_id y) l1 l2 →
  ∀ fuel, (length l1 ≤ fuel)%nat → descend_both fuel held d i j = Ok (l1 ++ [u], l2 ++ [v]).
Proof.
  induction 1 as [i|i p l1 u Hp _ IH]; intros j l2 v Hpath Hi Hj Huv Hf fuel Hfuel.
  - inversion Hf; subst. inversion Hpath; subst. destruct fuel; cbn [descend_both]; by rewrite bool_decide_eq_false_2 by tauto.
  - inversion Hf as [|? y ? l2' Hxy Hf']; subst. inversion Hpath as [|? q ? ? Hq Hpath']; subst.
    destruct fuel as [|fuel]; [cbn in Hfuel; lia|]. cbn [descend_both]. rewrite bool_decide_eq_true_2 by done.
    unfold lock_assert. rewrite Hp, Hq. cbn.
    destruct (parent_num _ _ Hi Hp) as (_ & _ & Hpa & _), (parent_num _ _ Hj Hq) as (_ & _ & Hqa & _).
    rewrite (IH _ _ _ Hpath' Hpa Hqa Huv Hf' fuel) by (cbn in Hfuel; lia). done.
Qed.

(** The branches of [x] and [y] down to their most recent common previous block: both
    follow the parents, end with the same previous block, and part before it. *)
Definition forks_at (x y : item_ptr) (b1 b2 : list item_ptr) : Prop :=
  ∃ l1 u l2 v, b1 = l1 ++ [u] ∧ b2 = l2 ++ [v] ∧ path x l1 u ∧ path y l2 v ∧ previous_id u = previous_id v ∧
    ∀ i j, i ∈ l1 → j ∈ l2 → previous_id i ≠ previous_id j.

Lemma same_previous_num i j : i ∈ alive held d → j ∈ alive held d → previous_id i = previous_id j → fi_num i = fi_num j.
Proof.
  intros Hi Hj E. rewrite <- (num_of i Hi), <- (num_of j Hj). unfold block_num.
  change (previous (fi_data i)) with (previous_id i). change (previous (fi_data j)) with (previous_id j). by rewrite E.
Qed.

Lemma path_lookup i l j : path i l j → i ∈ alive held d → ∀ k x, l !! k = Some x → fi_num x = fi_num i - Z.of_nat k.
Proof.
  induction 1 as [i|i p l j Hp _ IH]; intros Hi k x; [done|].
  destruct (parent_num _ _ Hi Hp) as (Hn & _ & Hpa & _). destruct k as [|k]; cbn; [intros [= ->]; lia|].
  intros Hk. rewrite (IH Hpa k x Hk). lia.
Qed.

(** Two paths from the same height that never meet, compared item by item. *)
Lemma paths_part i l1 u j l2 v : path i l1 u → path j l2 v → i ∈ alive held d → j ∈ alive held d →
  fi_num i = fi_num j → fi_num u = fi_num v →
  (∀ x y, x ∈ l1 → y ∈ l2 → previous_id x ≠ previous_id y) ↔ Forall2 (λ x y, previous_id x ≠ previous_id y) l1 l2.
Proof.
  intros H1 H2 Hi Hj Hij Huv. destruct (path_props _ _ _ H1 Hi) as (_ & Hn1 & _ & Hl1).
  destruct (path_props _ _ _ H2 Hj) as (_ & Hn2 & _ & Hl2). split.
  - intros Hne. apply Forall2_same_length_lookup. split; [lia|]. intros k x y Hx Hy.
    apply Hne; by eapply list_elem_of_lookup_2.
  - intros Hf x y [k Hx]%list_elem_of_lookup_1 [m Hy]%list_elem_of_lookup_1 E.
    assert (fi_num x = fi_num y) as Hxy.
    { apply same_previous_num; [|..|done]; [apply Hl1|apply Hl2]; by eapply list_elem_of_lookup_2. }
    rewrite (path_lookup _ _ _ H1 Hi k x Hx), (path_lookup _ _ _ H2 Hj m y Hy) in Hxy.
    assert (k = m) as -> by lia. by eapply Forall2_lookup_lr in Hf; [apply Hf|..].
Qed.

Lemma rounds_enough i l j : path i l j → i ∈ alive held d → (length l ≤ rounds i)%nat.
Proof.
  intros Hp Hi. destruct (path_props _ _ _ Hp Hi) as (Hj & _ & Ha & _).
  pose proof (io_address _ _ (fo_items _ _ Hok j Hj)). unfold rounds. lia.
Qed.

Lemma fetch_branch_from_sound first second b1 b2 :
  fetch_branch_from held d first second = Ok (b1, b2) →
  ∃ x y, find_id (fd_index d) first = Some x ∧ find_id (fd_index d) second = Some y ∧ forks_at x y b1 b2.
Proof.
  unfold fetch_branch_from. intros Hr.
  destruct (find_id (fd_index d) first) as [x|] eqn:Ex; [|done]. cbn in Hr.
  destruct (find_id (fd_index d) second) as [y|] eqn:Ey; [|done]. cbn in Hr.
  destruct (find_alive held _ _ _ Ex) as [Hx _], (find_alive held _ _ _ Ey) as [Hy _].
  destruct (descend (rounds x) held d x (block_num (fi_data y)) _) as [[l1 x']|] eqn:E1; [|done]. cbn in Hr.
  apply descend_spec in E1 as (P1 & N1 & U1); [|done]. destruct (path_props _ _ _ P1 Hx) as (Hx' & _).
  destruct (descend (rounds y) held d y (block_num (fi_data x')) _) as [[l2 y']|] eqn:E2; [|done]. cbn in Hr.
  apply descend_spec in E2 as (P2 & N2 & U2); [|done]. destruct (path_props _ _ _ P2 Hy) as (Hy' & _).
  destruct (descend_both (rounds x') held d x' y') as [[c1 c2]|] eqn:E3; [|done]. injection Hr as <- <-.
  destruct (descend_both_spec _ _ _ _ _ Hx' Hy' E3) as (m1 & u & m2 & v & -> & -> & Q1 & Q2 & Huv & Hf).
  rewrite (num_of y Hy) in *. rewrite (num_of x' Hx') in *. exists x, y. split_and!; [done..|].
  exists (l1 ++ m1), u, (l2 ++ m2), v. split_and!; [by rewrite app_assoc..| | |done|]; [by eapply path_app..|].
  destruct (path_props _ _ _ Q1 Hx') as (Hu & _ & _ & Hm1), (path_props _ _ _ Q2 Hy') as (Hv & _ & _ & Hm2).
  pose proof (path_props _ _ _ P1 Hx) as (_ & _ & _ & Hl1). pose proof (path_props _ _ _ P2 Hy) as (_ & _ & _ & Hl2).
  assert (fi_num x' = fi_num y') as Hxy by lia.
  pose proof (same_previous_num _ _ Hu Hv Huv) as Huvn.
  assert (∀ i, i ∈ m1 → fi_num i ≤ fi_num x') as B1.
  { intros i [k Hk]%list_elem_of_lookup_1. rewrite (path_lookup _ _ _ Q1 Hx' k i Hk). lia. }
  assert (∀ i, i ∈ m2 → fi_num i ≤ fi_num y') as B2.
  { intros i [k Hk]%list_elem_of_lookup_1. rewrite (path_lookup _ _ _ Q2 Hy' k i Hk). lia. }
  intros i j [Hi|Hi]%elem_of_app [Hj|Hj]%elem_of_app E.
  - pose proof (same_previous_num i j (proj2 (Hl1 _ Hi)) (proj2 (Hl2 _ Hj)) E). specialize (U1 _ Hi). specialize (U2 _ Hj).
    pose proof (path_lookup _ _ _ P2 Hy). apply list_elem_of_lookup_1 in Hj as [k Hk].
    pose proof (path_lookup _ _ _ P2 Hy k j Hk). lia.
  - pose proof (same_previous_num i j (proj2 (Hl1 _ Hi)) (proj2 (Hm2 _ Hj)) E). specialize (U1 _ Hi). specialize (B2 _ Hj). lia.
  - pose proof (same_previous_num i j (proj2 (Hm1 _ Hi)) (proj2 (Hl2 _ Hj)) E). specialize (U2 _ Hj). specialize (B1 _ Hi). lia.
  - by eapply (paths_part x' m1 u y' m2 v).
Qed.

Lemma fetch_branch_from_complete first second x y b1 b2 :
  find_id (fd_index d) first = Some x → find_id (fd_index d) second = Some y → forks_at x y b1 b2 →
  fetch_branch_from held d first second = Ok (b1, b2).
Proof.
  intros Ex Ey (l1 & u & l2 & v & -> & -> & P1 & P2 & Huv & Hne).
  destruct (find_alive held _ _ _ Ex) as [Hx _], (find_alive held _ _ _ Ey) as [Hy _].
  destruct (path_props _ _ _ P1 Hx) as (Hu & Nx & _ & _), (path_props _ _ _ P2 Hy) as (Hv & Ny & _ & _).
  pose proof (same_previous_num _ _ Hu Hv Huv) as Huvn.
  unfold fetch_branch_from. rewrite Ex, Ey. cbn. rewrite (num_of y Hy).
  destruct (path_cut _ _ _ (fi_num y) P1 Hx ltac:(lia)) as (k1 & m1 & x' & -> & A1 & M1 & N1 & U1).
  rewrite (descend_complete (fi_num y) _ _ _ _ A1 Hx ltac:(lia) U1) by (by eapply rounds_enough). cbn.
  destruct (path_props _ _ _ A1 Hx) as (Hx' & _). rewrite (num_of x' Hx').
  destruct (path_cut _ _ _ (fi_num x') P2 Hy) as (k2 & m2 & y' & -> & A2 & M2 & N2 & U2).
  { rewrite <- Huvn. destruct (path_props _ _ _ M1 Hx') as (_ & Hm1 & _). lia. }
  rewrite (descend_complete (fi_num x') _ _ _ _ A2 Hy ltac:(lia) U2) by (by eapply rounds_enough). cbn.
  destruct (path_props _ _ _ A2 Hy) as (Hy' & _).
  rewrite (descend_both_complete _ _ _ M1 _ _ _ M2 Hx' Hy' Huv).
  - cbn. by rewrite !app_assoc.
  - apply (paths_part x' m1 u y' m2 v); try done; [lia|]. intros i j Hi Hj. apply Hne; apply elem_of_app; by right.
  - by eapply rounds_enough.
Qed.
End branches.

Section theorems.
Context {C : FcCrypto} {CL : FcCryptoLaws C} {B : BlockIds} {BL : BlockIdsLaw}.

(** C11. In every state the fork database can get into, every item somebody owns carries
    the number and id of its block, a live parent pointer leads to the block its header
    names as the previous one, whose number is one less; ids are unique in the index;
    and no block ever waits in the unlinked cache. *)
Theorem fork_database_well_formed held d :
  fork_reachable (held, d) →
  (∀ i, i ∈ alive held d → fi_num i = block_num (fi_data i) ∧ fi_id i = id_of (fi_data i) ∧ 0 < fi_num i) ∧
  (∀ i p, i ∈ alive held d → lock held d (fi_prev i) = Some p →
     fi_id p = previous (fi_data i) ∧ fi_num i = fi_num p + 1) ∧
  NoDup (fi_id <$> fd_index d) ∧ fd_unlinked d = [].
Proof.
  intros Hok%reachable_ok. split_and!.
  - intros i []%(fo_items _ _ Hok). done.
  - intros i p Hi Hp. by destruct (parent_num _ _ Hok i p Hi Hp) as (? & _ & _ & ?).
  - apply (fo_ids _ _ Hok).
  - apply (fo_unlinked _ _ Hok).
Qed.

(** [push_block] either refuses a block and leaves the containers and the head
    alone, with [unlinkable_block_exception] when the block is recent enough and its
    previous block is not in the index (and then the block is not cached either), or
    the block is known afterwards, nothing else in the index changes, and the head it
    returns is the higher of the old head and the new block. *)
Theorem push_block_result held d b r d' :
  fork_ok held d → fork_push_block b d = (r, d') →
  match r with
  | Ok h =>
      push_refused d b = None ∧ fd_head d' = h ∧ is_known_block d' (id_of b) = true ∧
      (∀ id, id ≠ id_of b → find_id (fd_index d') id = find_id (fd_index d) id) ∧
      ∃ head, h = Some head ∧
        match fd_head d with
        | Some old => fi_num head = Z.max (fi_num old) (block_num b) ∧ (block_num b ≤ fi_num old → head = old)
        | None => fi_data head = b
        end
  | Err e =>
      push_refused d b = Some e ∧ fd_index d' = fd_index d ∧ fd_unlinked d' = fd_unlinked d ∧ fd_head d' = fd_head d
  end.
Proof.
  intros Hok Hr. rewrite push_block_spec in Hr. destruct (push_refused d b) as [e|]; injection Hr as <- <-; [done|].
  cbv zeta. split_and!; [done|done| | |].
  - unfold is_known_block. fields. pose proof (find_id_spec
      (insert_item (new_fork_item (fd_next d) b <| fi_prev := parent_of d b |>) (fd_index d)) (id_of b)) as Hf.
    destruct (find_id _ _) as [i|] eqn:E; [done|]. exfalso. revert Hf. unfold insert_item.
    set (item := new_fork_item (fd_next d) b <| fi_prev := parent_of d b |>). change (fi_id item) with (id_of b).
    pose proof (find_id_spec (fd_index d) (id_of b)) as Hf'. destruct (find_id (fd_index d) (id_of b)) as [j|] eqn:Ej; intros Hf.
    + destruct Hf' as [Hj Hid]. by apply (Hf j Hj).
    + apply (Hf item); [set_solver|done].
  - intros id Hid. fields. unfold insert_item. destruct (find_id (fd_index d) _); [done|].
    unfold find_id. generalize (fd_index d). intros l. induction l as [|j l IH]; cbn; [by rewrite bool_decide_eq_false_2 by done|].
    case_bool_decide; [done|apply IH].
  - eexists. split; [done|]. unfold higher. destruct (fd_head d) as [old|]; [|done]. fields. cbn [new_fork_item fi_num].
    destruct (Z.ltb_spec (fi_num old) (block_num b)); fields; cbn [new_fork_item fi_num]; split; (lia || done).
Qed.

(** C10. [fetch_branch_from] returns two branches exactly when both blocks are in the
    index and their parents lead to a common previous block; the branches it returns
    then follow the parents down to the most recent such block. *)
Theorem fetch_branch_from_spec held d first second b1 b2 :
  fork_ok held d →
  fetch_branch_from held d first second = Ok (b1, b2) ↔
  ∃ x y, find_id (fd_index d) first = Some x ∧ find_id (fd_index d) second = Some y ∧ forks_at held d x y b1 b2.
Proof.
  intros Hok. split; [by apply fetch_branch_from_sound|].
  intros (x & y & Hx & Hy & Hf). by eapply fetch_branch_from_complete.
Qed.

(** [walk_main_branch_to_num] finds the ancestor of the head at that height. *)
Lemma walk_main_branch_spec held d n i :
  fork_ok held d →
  walk_main_branch_to_num held d n = Ok (Some i) ↔ ∃ h l, fd_head d = Some h ∧ path held d h l i ∧ fi_num i = n.
Proof.
  intros Hok.
  assert (∀ h, fd_head d = Some h → h ∈ alive held d) as Hh by (intros h E; unfold alive; rewrite E; set_solver).
  assert (∀ fuel j, j ∈ alive held d → n ≤ fi_num j → (Z.to_nat (address j) < fuel)%nat →
    walk_down fuel held d (Some j) n = Some i ↔ ∃ l, path held d j l i ∧ fi_num i = n) as Hw.
  { induction fuel as [|fuel IH]; intros j Hj Hn Hf; [lia|]. cbn [walk_down].
    destruct (Z.ltb_spec n (fi_num j)).
    - destruct (lock held d (fi_prev j)) as [p|] eqn:Ep.
      + destruct (parent_num _ _ Hok j p Hj Ep) as (Hnum & Ha & Hp & _). pose proof (io_address _ _ (fo_items _ _ Hok p Hp)).
        rewrite (IH p Hp ltac:(lia) ltac:(lia)). split.
        * intros (l & Hpath & Hi). exists (j :: l). split; [by econstructor|done].
        * intros (l & Hpath & Hi). inversion Hpath as [|? p' l' ? Hp' Hpath']; subst; [lia|].
          assert (p' = p) as -> by congruence. eauto.
      + split; [by destruct fuel|]. intros (l & Hpath & Hi). inversion Hpath; subst; [lia|congruence].
    - split; [intros [= ->]; exists []; split; [constructor|lia]|]. intros (l & Hpath & Hi).
      destruct (path_props _ _ Hok _ _ _ Hpath Hj) as (_ & Hnum & _). inversion Hpath; subst; [done|cbn in Hnum; lia]. }
  unfold walk_main_branch_to_num. destruct (fd_head d) as [h|]; [|naive_solver]. specialize (Hh h eq_refl).
  destruct (Z.ltb_spec (fi_num h) n).
  - split; [done|]. intros (h' & l & [= <-] & Hpath & Hi). destruct (path_props _ _ Hok _ _ _ Hpath Hh) as (_ & ? & _). lia.
  - pose proof (Hw (rounds h) h Hh ltac:(lia) ltac:(unfold rounds; lia)) as Hiff. revert Hiff.
    generalize (walk_down (rounds h) held d (Some h) n). intros w Hiff. split.
    + intros [= ->]. destruct (proj1 Hiff eq_refl) as (l & ? & ?). eauto.
    + intros (h' & l & [= <-] & Hpath & Hi). f_equal. apply Hiff. eauto.
Qed.
End theorems.

(** * Witnesses *)

#[local] Existing Instance FcCryptoRef.fc_crypto_ref.
#[local] Existing Instance FcCryptoRef.fc_crypto_ref_laws.
(** Blocks told apart by their time. *)
#[local] Instance toy_ids : BlockIds :=
  {| id_of b := [endian_reverse_u32 (block_num b); timestamp b; 0; 0; 0] |}.
#[local] Instance toy_ids_law : BlockIdsLaw.
Proof.
  intros b. unfold num_from_id. cbn [id_of toy_ids nth]. apply endian_reverse_u32_involutive.
  unfold block_num, wrap_u32, u32_max. pose proof (Z.mod_pos_bound (num_from_id (previous b) + 1) (2 ^ 32)). lia.
Qed.
Definition block_after (prev : block_id) (t : Z) : signed_block :=
  SignedBlock {| header := {| previous := prev; timestamp := t; hdr_witness := "w";
                   transaction_merkle_root := []; hdr_extensions := [] |};
                 witness_signature := "s" |} [].
Definition block_1 := block_after null_id 1.
Definition block_2a := block_after (id_of block_1) 2.
Definition block_3a := block_after (id_of block_2a) 3.
Definition block_2b := block_after (id_of block_1) 4.
Definition after_fork_ops (ops : list fork_op) : fork_database :=
  snd (keach (run_fork_op []) ops empty_fork_database).
Definition forked : fork_database :=
  after_fork_ops [StartBlock block_1; PushBlock block_2a; PushBlock block_3a; PushBlock block_2b].

Lemma forked_reachable : fork_reachable ([], forked).
Proof.
  unfold fork_reachable.
  assert (∀ d op, fork_op_legal [] d op → fork_step ([], d) ([], snd (run_fork_op [] op d))) as Hs
    by (intros d op Hl; eapply fork_runs; [exact Hl|apply surjective_pairing]).
  eapply rtc_l; [apply (Hs _ (StartBlock block_1)); reflexivity|].
  eapply rtc_l; [apply (Hs _ (PushBlock block_2a)); reflexivity|].
  eapply rtc_l; [apply (Hs _ (PushBlock block_3a)); reflexivity|].
  eapply rtc_l; [apply (Hs _ (PushBlock block_2b)); reflexivity|].
  match goal with |- rtc _ (_, ?d) _ => replace forked with d by (vm_compute; reflexivity) end. constructor.
Qed.

Lemma fork_database_well_formed_witness : NoDup (fi_id <$> fd_index forked).
Proof. apply (fork_database_well_formed [] forked). exact forked_reachable. Defined.
Lemma push_block_result_witness :
  push_refused forked (block_after (id_of block_2b) 5) = None.
Proof.
  destruct (fork_push_block (block_after (id_of block_2b) 5) forked) as [r d'] eqn:E.
  pose proof (push_block_result [] forked _ r d' (reachable_ok _ _ forked_reachable) E) as H.
  destruct r; [exact (proj1 H)|vm_compute in E; discriminate E].
Defined.
Lemma fetch_branch_from_spec_witness :
  ∃ b1 b2 x y, fi_data <$> b1 = [block_3a; block_2a] ∧ fi_data <$> b2 = [block_2b] ∧ forks_at [] forked x y b1 b2.
Proof.
  destruct (fetch_branch_from [] forked (id_of block_3a) (id_of block_2b)) as [[b1 b2]|] eqn:E;
    [|vm_compute in E; discriminate E].
  pose proof E as E'. apply (fetch_branch_from_spec [] forked) in E' as (x & y & _ & _ & Hf); [|apply reachable_ok, forked_reachable].
  exists b1, b2, x, y. vm_compute in E. injection E as <- <-. split_and!; [reflexivity|reflexivity|exact Hf].
Defined.
