(* ===== verification/ForkSwitch.v ===== *)
(** Pushing blocks: [database::_push_block], [pop_block], [apply_block] of
    [chain/database.cpp], with the fork database, the undo stack and the block log.

    What a block does to the chain state is behind the interface [BlockApply]: the
    steps of [_apply_block] before and after [update_last_irreversible_block] commits
    undo states, appends to the log and prunes the fork database.  The undo stack is
    the stack of snapshots that [Chainbase] implements.

    The theorems: a switch of forks ends at the new head; one that fails restores the
    state; and in both cases the head of the fork database stays behind. *)

From S2P Require Import Prelude Fc Kept BlockHeader Transaction Block ForkDatabase.

(** The chain state and what applying a block does to it.  A throw keeps the changes;
    the undo session discards them. *)
Class BlockApply (D : Type) := {
  head_block_id : D → block_id;
  head_block_num : D → Z;
  last_irreversible_block_num : D → Z;
  apply_before : signed_block → K D unit;
  apply_after : signed_block → K D unit;
  skips_block_log : signed_block → bool;   (* the flag in force while the block is applied *)
}.

(** The parts of [class database] that pushing blocks uses. *)
Record chain (D : Type) := Chain {
  ch_state : D;
  ch_undo : list D;                  (* snapshots, the last one first *)
  ch_revision : Z;
  ch_fork_db : fork_database;
  ch_log : list signed_block;        (* the block log, from block 1 *)
  ch_popped : list signed_transaction;
}.
#[global] Arguments chain D : clear implicits.
#[global] Arguments Chain {D}.
#[global] Arguments ch_popped {D}.
#[global] Arguments ch_log {D}.
#[global] Arguments ch_fork_db {D}.
#[global] Arguments ch_revision {D}.
#[global] Arguments ch_undo {D}.
#[global] Arguments ch_state {D}.
#[export] Instance eta_chain {D} : Eta (chain D) :=
  λ c, Chain (ch_state c) (ch_undo c) (ch_revision c) (ch_fork_db c) (ch_log c) (ch_popped c).

Section chain.
Context {C : FcCrypto} {B : BlockIds} {D : Type} {A : BlockApply D}.
Local Abbreviation chain := (chain D).

Definition on_state {T} (m : K D T) : K chain T :=
  λ c, let '(r, s) := m (ch_state c) in (r, c <| ch_state := s |>).
Definition on_fork_db {T} (m : K fork_database T) : K chain T :=
  λ c, let '(r, d) := m (ch_fork_db c) in (r, c <| ch_fork_db := d |>).

(** ** Undo *)

(** [start_undo_session( true )], [undo()] and [commit( n )]: undo states have
    consecutive revisions, the last one [ch_revision]. *)
Definition start_undo_session : K chain unit :=
  kupdate (λ c, c <| ch_undo ::= cons (ch_state c) |> <| ch_revision ::= Z.succ |>).
Definition chain_undo : K chain unit :=
  kupdate (λ c, match ch_undo c with
                | [] => c
                | s :: l => c <| ch_state := s |> <| ch_undo := l |> <| ch_revision ::= Z.pred |>
                end).
Definition chain_commit (n : Z) : K chain unit :=
  kupdate (λ c, c <| ch_undo ::= take (Z.to_nat (ch_revision c - n)) |>).

(** [{ auto session = start_undo_session( true ); m; session.push(); }] *)
Definition in_session (m : K chain unit) : K chain unit :=
  start_undo_session;;
  r ← ktry m;
  match r with Ok u => mret u | Err e => chain_undo;; kthrow e end.

(** ** Applying a block *)

Definition log_head_num (log : list signed_block) : Z :=
  match last log with Some b => block_num (sb_header b) | None => 0 end.
Definition read_block_by_num (log : list signed_block) (n : Z) : option signed_block :=
  find (λ b : signed_block, block_num b =? n) log.

(** The loop that appends blocks to the log. *)
Fixpoint append_to_log (fuel : nat) (held : list item_ptr) (lib : Z) (log_head : Z) : K chain unit :=
  match fuel with
  | O => mret tt
  | S fuel =>
      if log_head <? lib then
        c ← kget;
        block ← klift (fetch_block_on_main_branch_by_number held (ch_fork_db c) (log_head + 1));
        block ← ksome block (assert_exception "Current fork in the fork database does not contain the last_irreversible_block");
        kupdate (λ c, c <| ch_log ::= λ l, l ++ [fi_data block] |>);;
        append_to_log fuel held lib (log_head + 1)
      else mret tt
  end.

(** [database::update_last_irreversible_block], libraries/chain/database.cpp:3101-3126 *)
Definition store_irreversible (held : list item_ptr) (skip_block_log : bool) : K chain unit :=
  c ← kget;
  let lib := last_irreversible_block_num (ch_state c) in
  chain_commit lib;;
  (if skip_block_log then mret tt
   else let log_head := log_head_num (ch_log c) in append_to_log (Z.to_nat (lib - log_head)) held lib log_head);;
  on_fork_db (set_max_size (wrap_u32 (head_block_num (ch_state c) - lib + 1))).

(** [database::_apply_block], libraries/chain/database.cpp:2676-2681 *)
Definition apply_block (held : list item_ptr) (b : signed_block) : K chain unit :=
  on_state (apply_before b);;
  store_irreversible held (skips_block_log b);;
  on_state (apply_after b).

(** ** Popping and pushing blocks *)

(** [database::fetch_block_by_id], libraries/chain/database.cpp:289-304 *)
Definition fetch_block_by_id (c : chain) (id : block_id) : option signed_block :=
  match fetch_block (ch_fork_db c) id with
  | Some i => Some (fi_data i)
  | None =>
      match read_block_by_num (ch_log c) (num_from_id id) with
      | Some tmp => if bool_decide (id_of tmp = id) then Some tmp else None
      | None => None
      end
  end.

(** [database::pop_block], libraries/chain/database.cpp:844-862 *)
Definition pop_block (held : list item_ptr) : K chain unit :=
  c ← kget;
  head_block ← ksome (fetch_block_by_id c (head_block_id (ch_state c))) pop_empty_chain;
  on_fork_db (fork_pop_block held);;
  chain_undo;;
  kupdate (λ c, c <| ch_popped ::= app (transactions head_block) |>).

(** [while( head_block_id() != target ) pop_block();]  Every round lowers the head of
    the fork database or throws. *)
Fixpoint pop_to (fuel : nat) (held : list item_ptr) (target : block_id) : K chain unit :=
  c ← kget;
  if bool_decide (head_block_id (ch_state c) = target) then mret tt
  else match fuel with
       | O => kthrow (logic_error "no round left")
       | S fuel => pop_block held;; pop_to fuel held target
       end.
Definition pop_rounds (c : chain) : nat :=
  match fd_head (ch_fork_db c) with Some h => rounds h | None => 1 end.
Definition pop_blocks_to (held : list item_ptr) (target : block_id) : K chain unit :=
  c ← kget; pop_to (pop_rounds c) held target.

(** After an exception: drop the rest of the new fork, return to the old one. *)
Definition restore_fork (held old : list item_ptr) (target : block_id) (rest : list item_ptr) (e : exn) : K chain unit :=
  keach (λ i : item_ptr, on_fork_db (fork_remove (id_of (fi_data i)))) rest;;
  on_fork_db (set_head (head old));;
  pop_blocks_to held target;;
  keach (λ i : item_ptr, in_session (apply_block held (fi_data i))) (reverse old);;
  kthrow e.

(** The loop over the new fork, the oldest block first. *)
Fixpoint push_fork (held old : list item_ptr) (target : block_id) (new : list item_ptr) : K chain unit :=
  match new with
  | [] => mret tt
  | i :: rest =>
      r ← ktry (in_session (apply_block held (fi_data i)));
      match r with
      | Ok _ => push_fork held old target rest
      | Err e => restore_fork held old target (i :: rest) e
      end
  end.

Definition switch_forks (new_head : item_ptr) : K chain unit :=
  c ← kget;
  branches ← klift (fetch_branch_from [new_head] (ch_fork_db c) (id_of (fi_data new_head)) (head_block_id (ch_state c)));
  let '(new, old) := branches in
  let held := new_head :: new ++ old in
  target ← ksome (previous_id <$> last old) (logic_error "null pointer");
  pop_blocks_to held target;;
  push_fork held old target (reverse new).

(** [database::_push_block], libraries/chain/database.cpp:546-628 *)
Definition _push_block (skip_fork_db : bool) (new_block : signed_block) : K chain bool :=
  returned ←
    (if skip_fork_db then mret None
     else
       new_head ← on_fork_db (fork_push_block new_block);
       new_head ← ksome new_head (logic_error "null pointer");
       c ← kget;
       if bool_decide (previous_id new_head ≠ head_block_id (ch_state c)) then
         if head_block_num (ch_state c) <? block_num (fi_data new_head) then
           switch_forks new_head;; mret (Some true)
         else mret (Some false)
       else mret None);
  match returned with
  | Some r => mret r
  | None =>
      r ← ktry (in_session (apply_block [] new_block));
      match r with
      | Ok _ => mret false
      | Err e => on_fork_db (fork_remove (id_of new_block));; kthrow e
      end
  end.
End chain.

(** What the rest of the node promises: a block applies on top of the head its header
    names and becomes the head; what follows the commit leaves that alone. *)
Class BlockApplyLaws `{FcCrypto, BlockIds} (D : Type) `{!BlockApply D} : Prop := {
  before_links b s s1 : apply_before b s = (Ok tt, s1) →
    previous b = head_block_id s ∧ head_block_id s1 = id_of b ∧ head_block_num s1 = block_num (sb_header b);
  after_keeps b s r s1 : apply_after b s = (r, s1) →
    head_block_id s1 = head_block_id s ∧ head_block_num s1 = head_block_num s ∧
    last_irreversible_block_num s1 = last_irreversible_block_num s;
}.

Section proofs.
Context {C : FcCrypto} {CL : FcCryptoLaws C} {B : BlockIds} {BL : BlockIdsLaw}.
Context {D : Type} {A : BlockApply D} {AL : BlockApplyLaws D}.
Implicit Types c : chain D.

(** [b] takes the state [s] to [s']. *)
Definition applies (b : signed_block) (s s' : D) : Prop :=
  ∃ s1, apply_before b s = (Ok tt, s1) ∧ apply_after b s1 = (Ok tt, s').
Lemma applies_links b s s' : applies b s s' →
  previous b = head_block_id s ∧ head_block_id s' = id_of b ∧ head_block_num s' = block_num (sb_header b).
Proof.
  intros (s1 & H1 & H2). apply before_links in H1 as (? & ? & ?). apply after_keeps in H2 as (? & ? & ?). by split_and!; congruence.
Qed.

(** The states [s :: u] came from applying the blocks, the newest first. *)
Inductive history : D → list D → list signed_block → Prop :=
| history_end s u : history s u []
| history_step s s0 u b bl : applies b s0 s → history s0 u bl → history s (s0 :: u) (b :: bl).
Lemma history_cons s u b bl : history s u (b :: bl) → ∃ s0 u0, u = s0 :: u0 ∧ applies b s0 s ∧ history s0 u0 bl.
Proof. inversion 1; subst. eauto 10. Qed.
(** [s'] comes from [s] by applying the blocks, the oldest first. *)
Inductive applied : D → list signed_block → D → Prop :=
| applied_end s : applied s [] s
| applied_step s s1 s' b bl : applies b s s1 → applied s1 bl s' → applied s (b :: bl) s'.

(** * Undo states above the irreversible block *)

Definition recent (L : Z) c : list D := take (Z.to_nat (ch_revision c - L)) (ch_undo c).

Lemma recent_start L c : L ≤ ch_revision c →
  ∃ c', start_undo_session c = (Ok tt, c') ∧ ch_state c' = ch_state c ∧ recent L c' = ch_state c :: recent L c ∧
    ch_revision c' = ch_revision c + 1 ∧ ch_fork_db c' = ch_fork_db c ∧ ch_log c' = ch_log c ∧ ch_popped c' = ch_popped c.
Proof.
  intros HL. eexists. split; [done|]. split_and!; try done; fields. unfold recent. fields.
  by replace (Z.to_nat (Z.succ (ch_revision c) - L)) with (S (Z.to_nat (ch_revision c - L))) by lia.
Qed.
Lemma recent_undo L c s l : recent L c = s :: l →
  ∃ c', chain_undo c = (Ok tt, c') ∧ ch_state c' = s ∧ recent L c' = l ∧
    ch_revision c' = ch_revision c - 1 ∧ ch_fork_db c' = ch_fork_db c ∧ ch_log c' = ch_log c ∧ ch_popped c' = ch_popped c.
Proof.
  unfold recent, chain_undo, kupdate. intros Hr.
  destruct (Z.to_nat (ch_revision c - L)) as [|n] eqn:En; [done|].
  destruct (ch_undo c) as [|s0 u] eqn:Eu; [done|]. injection Hr as <- <-.
  eexists. split; [done|]. split_and!; try done; fields.
  by replace (Z.to_nat (Z.pred (ch_revision c) - L)) with n by lia.
Qed.

(** ** Committing, logging and pruning *)

Lemma append_base fuel held lib : ∀ n, kpreserves (λ c c', ch_state c' = ch_state c ∧ ch_undo c' = ch_undo c ∧
  ch_revision c' = ch_revision c ∧ ch_popped c' = ch_popped c ∧ ch_fork_db c' = ch_fork_db c) (append_to_log fuel held lib n).
Proof.
  induction fuel as [|fuel IH]; intros n c r c' Hr; cbn [append_to_log] in Hr; [by injection Hr as <- <-|].
  destruct (n <? lib); [|by injection Hr as <- <-].
  unfold mbind, K_bind, kget, klift, ksome, kupdate, kthrow, mret, K_ret in Hr.
  destruct (fetch_block_on_main_branch_by_number _ _ _) as [[blk|]|e]; [|by injection Hr as <- <-..].
  apply IH in Hr as (-> & -> & -> & -> & ->). done.
Qed.
Lemma set_max_size_head s d : ∃ d', set_max_size s d = (Ok tt, d') ∧ fd_head d' = fd_head d.
Proof.
  unfold set_max_size, mbind, K_bind, kget, kupdate. fields.
  destruct (fd_head d) as [h|] eqn:Eh; eexists; (split; [reflexivity|]); fields; done.
Qed.

(** Whatever [store_irreversible] does, it moves neither the state nor the heads. *)
Lemma store_base held sl c r c' : store_irreversible held sl c = (r, c') →
  ch_state c' = ch_state c ∧ ch_revision c' = ch_revision c ∧ ch_popped c' = ch_popped c ∧
  fd_head (ch_fork_db c') = fd_head (ch_fork_db c) ∧
  ch_undo c' = take (Z.to_nat (ch_revision c - last_irreversible_block_num (ch_state c))) (ch_undo c).
Proof.
  unfold store_irreversible, chain_commit, on_fork_db. unfold mbind, K_bind, kget, kupdate. fields. intros Hr.
  match type of Hr with context [match ?m with pair _ _ => _ end] => destruct m as [r1 c1] eqn:E1 end.
  assert (ch_state c1 = ch_state c ∧ ch_undo c1 = take (Z.to_nat (ch_revision c - last_irreversible_block_num (ch_state c))) (ch_undo c) ∧
    ch_revision c1 = ch_revision c ∧ ch_popped c1 = ch_popped c ∧ ch_fork_db c1 = ch_fork_db c) as (Es & Eu & Er & Ep & Ef).
  { destruct sl; [by injection E1 as _ <-|]. by apply append_base in E1. }
  destruct r1 as [[]|e]; [|injection Hr as <- <-; rewrite Ef; done].
  edestruct (set_max_size_head) as (d' & Ed & Eh). rewrite Ed in Hr. injection Hr as <- <-. fields.
  rewrite Eh, Ef. done.
Qed.

(** When nothing new is irreversible, it only prunes the fork database. *)
Lemma store_quiet L held sl c : log_head_num (ch_log c) = L → last_irreversible_block_num (ch_state c) ≤ L →
  fork_ok held (ch_fork_db c) →
  ∃ c', store_irreversible held sl c = (Ok tt, c') ∧ ch_log c' = ch_log c ∧ recent L c' = recent L c ∧
    ch_fork_db c' = snd (set_max_size (wrap_u32 (head_block_num (ch_state c) - last_irreversible_block_num (ch_state c) + 1)) (ch_fork_db c)).
Proof.
  intros HL Hlib Hok. unfold store_irreversible, chain_commit, on_fork_db. unfold mbind, K_bind, kget, kupdate. fields.
  rewrite HL. replace (Z.to_nat (_ - L)) with 0%nat by lia. cbn [append_to_log].
  replace (if sl then mret tt else mret tt) with (mret (M:=K (chain D)) tt) by by destruct sl. unfold mret, K_ret. fields.
  edestruct (set_max_size_head) as (d' & Ed & _). rewrite Ed. eexists. split; [done|]. fields. split_and!; [done| |done].
  unfold recent. fields. rewrite take_take. f_equal. lia.
Qed.

(** The part of the fork database such a step leaves: what is high enough for the head. *)
Definition fork_kept (N : Z) (d d' : fork_database) : Prop :=
  fd_head d' = fd_head d ∧ (∀ i, i ∈ fd_index d' → i ∈ fd_index d) ∧
  (∀ i, i ∈ fd_index d → N ≤ fi_num i → i ∈ fd_index d').
#[local] Instance fork_kept_preorder N : PreOrder (fork_kept N).
Proof. split; [done|]. intros x y z (? & ? & ?) (? & ? & ?). split_and!; [congruence|auto..]. Qed.

Lemma set_max_size_kept held d s N : fork_ok held d →
  (∀ h, fd_head d = Some h → Z.max 0 (fi_num h - s) ≤ N) → fork_kept N d (snd (set_max_size s d)).
Proof.
  intros Hok HN. rewrite (set_max_size_spec held) by done. cbn [snd]. unfold fork_kept. fields.
  destruct (fd_head d) as [h|]; [|done]. specialize (HN h eq_refl). unfold prune. split_and!; [done|..].
  - intros i [_ ?]%list_elem_of_filter. done.
  - intros i Hi Hn. apply list_elem_of_filter. split; [lia|done].
Qed.

Definition fork_less (d d' : fork_database) : Prop := fd_head d' = fd_head d ∧ ∀ i, i ∈ fd_index d' → i ∈ fd_index d.
Lemma set_max_size_less held d s : fork_ok held d → fork_less d (snd (set_max_size s d)).
Proof.
  intros Hok. edestruct (set_max_size_kept held d s) as (? & ? & _); [done| |by split].
  intros h Eh. instantiate (1 := match fd_head d with Some h => Z.max 0 (fi_num h - s) | None => 0 end). by rewrite Eh.
Qed.

(** ** A block in its session *)

Definition settled (L : Z) (s : D) : Prop := 0 ≤ last_irreversible_block_num s ≤ L.
(** Applying [b] to [s] makes no block above [L] irreversible. *)
Definition quiet (L : Z) (s : D) (b : signed_block) : Prop :=
  ∀ s1, apply_before b s = (Ok tt, s1) → settled L s1.
(** Nor does applying the blocks one after the other, as far as they apply. *)
Fixpoint quiet_run (L : Z) (s : D) (bl : list signed_block) : Prop :=
  match bl with
  | [] => True
  | b :: bl => quiet L s b ∧ ∀ s', applies b s s' → quiet_run L s' bl
  end.
(** The blocks that led to settled states were quiet. *)
Lemma applies_quiet L b s s' : applies b s s' → settled L s' → quiet L s b.
Proof.
  intros (s1 & H1 & H2) Hs s2 H. rewrite H1 in H. injection H as <-.
  apply after_keeps in H2 as (_ & _ & El). unfold settled in *. by rewrite <- El.
Qed.

(** The heads stay low enough that pruning for [b] keeps what is at height [N]. *)
Definition low_heads (N : Z) (d : fork_database) (b : signed_block) : Prop :=
  (∀ h, fd_head d = Some h → fi_num h ≤ N + 1) ∧ N < block_num (sb_header b) < u32_max.

Lemma prune_kept L held d b s1 N : fork_ok held d → settled L s1.2 → apply_before b s1.1 = (Ok tt, s1.2) →
  L ≤ N → low_heads N d b →
  fork_kept N d (snd (set_max_size (wrap_u32 (head_block_num s1.2 - last_irreversible_block_num s1.2 + 1)) d)).
Proof.
  destruct s1 as [s s1]. cbn. intros Hok Hq H1 HN (Hh & Hb). unfold settled in Hq. pose proof (before_links _ _ _ H1) as (_ & _ & ->).
  eapply set_max_size_kept; [done|]. intros h Eh. specialize (Hh h Eh).
  unfold wrap_u32. rewrite Z.mod_small by (unfold u32_max in *; lia). lia.
Qed.

Lemma session_ok L held b c s' : L ≤ ch_revision c → log_head_num (ch_log c) = L → fork_ok held (ch_fork_db c) →
  quiet L (ch_state c) b → applies b (ch_state c) s' →
  ∃ c', in_session (apply_block held b) c = (Ok tt, c') ∧ ch_state c' = s' ∧ settled L s' ∧ recent L c' = ch_state c :: recent L c ∧
    ch_revision c' = ch_revision c + 1 ∧ ch_log c' = ch_log c ∧ ch_popped c' = ch_popped c ∧
    fork_ok held (ch_fork_db c') ∧ fork_less (ch_fork_db c) (ch_fork_db c') ∧
    ∀ N, L ≤ N → low_heads N (ch_fork_db c) b → fork_kept N (ch_fork_db c) (ch_fork_db c').
Proof.
  intros Hrev Hlog Hok Hq (s1 & H1 & H2). pose proof (Hq _ H1) as Hlib. unfold settled in Hlib.
  destruct (recent_start L c Hrev) as (c0 & E0 & Es & Er & Ev & Ef & El & Ep).
  pose proof (after_keeps _ _ _ _ H2) as (_ & _ & Hl2).
  destruct (store_quiet L held (skips_block_log b) (c0 <| ch_state := s1 |>)) as (c1 & E1 & El1 & Er1 & Ef1); [fields; congruence|fields; lia|fields; by rewrite Ef|].
  pose proof (store_base _ _ _ _ _ E1) as (Es1 & Ev1 & Ep1 & _ & _). fields.
  eexists (c1 <| ch_state := s' |>). split.
  { unfold in_session, mbind at 1, K_bind at 1. rewrite E0. unfold ktry, mbind, K_bind, apply_block.
    unfold mbind, K_bind, on_state at 1. rewrite Es, H1, E1. unfold on_state. rewrite Es1, H2. done. }
  fields. rewrite Ef in Ef1. split_and!; try done; try congruence; [unfold settled; lia|..].
  - transitivity (recent L c0); [|exact Er]. unfold recent in *. fields. rewrite <- Er1. done.
  - rewrite Ef1. eapply set_max_size_ok; [apply surjective_pairing|done].
  - rewrite Ef1. by eapply set_max_size_less.
  - intros N HN Hb. rewrite Ef1. by apply (prune_kept L held _ b (ch_state c, s1)).
Qed.

Lemma session_err L held b c e c' : L ≤ ch_revision c → log_head_num (ch_log c) = L → fork_ok held (ch_fork_db c) →
  quiet L (ch_state c) b → in_session (apply_block held b) c = (Err e, c') →
  ch_state c' = ch_state c ∧ recent L c' = recent L c ∧ ch_revision c' = ch_revision c ∧
    ch_log c' = ch_log c ∧ ch_popped c' = ch_popped c ∧ fork_ok held (ch_fork_db c') ∧
    fork_less (ch_fork_db c) (ch_fork_db c') ∧
    ∀ N, L ≤ N → low_heads N (ch_fork_db c) b → fork_kept N (ch_fork_db c) (ch_fork_db c').
Proof.
  intros Hrev Hlog Hok Hq Hr.
  destruct (recent_start L c Hrev) as (c0 & E0 & Es & Er & Ev & Ef & El & Ep).
  unfold in_session, mbind at 1, K_bind at 1 in Hr. rewrite E0 in Hr. unfold ktry, mbind at 1, K_bind at 1 in Hr.
  unfold apply_block, mbind, K_bind in Hr. unfold on_state at 1 in Hr. rewrite Es in Hr.
  destruct (apply_before b (ch_state c)) as [[[]|e1] s1] eqn:H1.
  - pose proof (Hq _ H1) as Hlib. unfold settled in Hlib.
    destruct (store_quiet L held (skips_block_log b) (c0 <| ch_state := s1 |>)) as (c1 & E1 & El1 & Er1 & Ef1); [fields; congruence|fields; lia|fields; by rewrite Ef|].
    pose proof (store_base _ _ _ _ _ E1) as (Es1 & Ev1 & Ep1 & _ & _). fields. rewrite E1 in Hr. unfold on_state in Hr.
    destruct (apply_after b (ch_state c1)) as [[[]|e2] s2] eqn:H2; [done|].
    assert (recent L (c1 <| ch_state := s2 |>) = ch_state c :: recent L c) as Hrec.
    { transitivity (recent L c0); [|exact Er]. unfold recent in *. fields. rewrite <- Er1. done. }
    destruct (recent_undo _ _ _ _ Hrec) as (c2 & E2 & Es2 & Er2 & Ev2 & Ef2 & El2 & Ep2). rewrite E2 in Hr. fields.
    injection Hr as <- <-. rewrite Ef2, Ef1, Ef. split_and!; try congruence; try lia.
    + eapply set_max_size_ok; [apply surjective_pairing|done].
    + by eapply set_max_size_less.
    + intros N HN Hb. by apply (prune_kept L held _ b (ch_state c, s1)).
  - assert (recent L (c0 <| ch_state := s1 |>) = ch_state c :: recent L c) as Hrec by (rewrite <- Er; done).
    destruct (recent_undo _ _ _ _ Hrec) as (c2 & E2 & Es2 & Er2 & Ev2 & Ef2 & El2 & Ep2). rewrite E2 in Hr. fields.
    injection Hr as <- <-. rewrite Ef2, Ef. split_and!; try congruence; try lia; done.
Qed.

(** * Popping back to the fork *)

(** Parent pointers from [i] through [l] to [j]. *)
Inductive links : item_ptr → list item_ptr → item_ptr → Prop :=
| links_end i : links i [] i
| links_step i p l j : fi_prev i = Some (address p) → links p l j → links i (i :: l) j.
Lemma path_links held d i l j : path held d i l j → links i l j.
Proof. induction 1 as [|i p l j Hp _ IH]; [constructor|]. apply lock_spec in Hp as [_ Hw]. by econstructor. Qed.

Lemma find_in_index held d i : fork_ok held d → i ∈ fd_index d → find_id (fd_index d) (fi_id i) = Some i.
Proof.
  intros Hok Hi. pose proof (find_id_spec (fd_index d) (fi_id i)) as Hf.
  destruct (find_id _ _) as [j|]; [|by destruct (Hf i Hi)]. destruct Hf as [Hj Hid]. f_equal.
  pose proof (fo_ids _ _ Hok) as Hnd. apply list_elem_of_lookup_1 in Hi as [n Hn]. apply list_elem_of_lookup_1 in Hj as [m Hm].
  assert (n = m) as ->; [|congruence]. eapply (NoDup_lookup _ _ _ (fi_id i)); [exact Hnd|..]; rewrite list_lookup_fmap.
  - by rewrite Hn.
  - rewrite Hm. cbn. by rewrite Hid.
Qed.

Lemma pop_block_step L held c i h p s l :
  fork_ok held (ch_fork_db c) → i ∈ fd_index (ch_fork_db c) → head_block_id (ch_state c) = fi_id i →
  recent L c = s :: l → fd_head (ch_fork_db c) = Some h → fi_prev h = Some (address p) →
  p ∈ held ∨ p ∈ fd_index (ch_fork_db c) →
  ∃ c', pop_block held c = (Ok tt, c') ∧ ch_state c' = s ∧ recent L c' = l ∧ ch_revision c' = ch_revision c - 1 ∧
    ch_fork_db c' = ch_fork_db c <| fd_head := Some p |> ∧ ch_log c' = ch_log c ∧
    ch_popped c' = transactions (fi_data i) ++ ch_popped c.
Proof.
  intros Hok Hi Hid Hr Hh Hp Hin.
  assert (lock held (ch_fork_db c) (Some (address p)) = Some p) as Hl.
  { apply lock_alive; [done|]. unfold alive. destruct Hin; set_solver. }
  destruct (recent_undo L (c <| ch_fork_db := ch_fork_db c <| fd_head := Some p |> |>) s l) as
    (c1 & E1 & Es & Er & Ev & Ef & El & Ep); [done|].
  exists (c1 <| ch_popped ::= app (transactions (fi_data i)) |>). split.
  { unfold pop_block, fetch_block_by_id, fetch_block, mbind, K_bind, kget, ksome, kupdate, mret, K_ret, on_fork_db.
    rewrite Hid, (find_in_index held) by done. unfold fork_pop_block, mbind, K_bind, kget, ksome, kupdate, mret, K_ret.
    rewrite Hh, Hp, Hl, E1. done. }
  fields. split_and!; try done. by rewrite Ep.
Qed.
(** Popping the blocks of [old], whose newest block is the head, while the head of the
    fork database goes from [h] down to [m]. *)
Lemma pop_to_spec L held target : ∀ old c h l m fuel,
  fork_ok held (ch_fork_db c) → (∀ i, i ∈ old → i ∈ fd_index (ch_fork_db c) ∧ fi_id i ≠ target) →
  history (ch_state c) (recent L c) (fi_data <$> old) →
  (∀ s, last (take (length old) (recent L c)) = Some s → head_block_id s = target) →
  (old = [] → head_block_id (ch_state c) = target) →
  fd_head (ch_fork_db c) = Some h → links h l m → length l = length old →
  (∀ p, p ∈ tail l ++ [m] → p ∈ held ∨ p ∈ fd_index (ch_fork_db c)) → (length old ≤ fuel)%nat →
  ∃ c', pop_to fuel held target c = (Ok tt, c') ∧ head_block_id (ch_state c') = target ∧
    ch_state c :: recent L c = take (length old) (ch_state c :: recent L c) ++ ch_state c' :: recent L c' ∧
    ch_revision c' = ch_revision c - Z.of_nat (length old) ∧
    ch_fork_db c' = ch_fork_db c <| fd_head := Some m |> ∧ ch_log c' = ch_log c ∧
    ch_popped c' = mjoin (reverse ((λ i, transactions (fi_data i)) <$> old)) ++ ch_popped c.
Proof.
  induction old as [|i old IH]; intros c h l m fuel Hok Hold Hhist Hlast Hnil Hh Hlinks Hlen Hin Hfuel.
  - destruct l; [|done]. inversion Hlinks; subst. exists c. split_and!; try done; [|by apply Hnil|cbn; lia|].
    + destruct fuel; cbn [pop_to]; unfold mbind, K_bind, kget; by rewrite bool_decide_eq_true_2 by auto.
    + destruct c as [? ? ? [] ? ?]. cbn in Hh. by subst.
  - destruct l as [|h' l]; [done|]. inversion Hlinks as [|? p ? ? Hp Hl]; subst. cbn in Hhist.
    inversion Hhist as [|? s0 u ? ? Happ Hhist']; subst.
    match goal with H : _ :: _ = recent L c |- _ => rename H into Eu end.
    destruct (Hold i ltac:(by left)) as [Hi Hne]. pose proof (applies_links _ _ _ Happ) as (_ & Hid & _).
    assert (head_block_id (ch_state c) = fi_id i) as Hid'.
    { rewrite Hid. symmetry. apply (fo_items _ _ Hok i). unfold alive. set_solver. }
    assert (p ∈ held ∨ p ∈ fd_index (ch_fork_db c)) as Hpin.
    { apply Hin. cbn. inversion Hl; subst; set_solver. }
    destruct (pop_block_step L held c i h' p s0 u) as (c1 & E1 & Es & Er & Ev & Ef & El & Ep); [done..|].
    destruct fuel as [|fuel]; [cbn in Hfuel; lia|].
    destruct (IH c1 p l m fuel) as (c2 & E2 & Et & Esp & Ev2 & Ef2 & El2 & Ep2).
    + rewrite Ef. eapply (set_head_ok held (ch_fork_db c) (Some p)); [|done|done].
      intros ? [= <-]. unfold alive. destruct Hpin; set_solver.
    + intros j Hj. rewrite Ef. apply Hold. by right.
    + by rewrite Es, Er.
    + intros s Hs. apply Hlast. rewrite <- Eu. cbn [length take]. rewrite Er in Hs. rewrite last_cons. by rewrite Hs.
    + intros ->. rewrite Es. apply Hlast. by rewrite <- Eu.
    + by rewrite Ef.
    + done.
    + cbn in Hlen. lia.
    + intros q Hq. rewrite Ef. apply Hin. destruct l; cbn in *; set_solver.
    + cbn in Hfuel. lia.
    + exists c2. split_and!; [|done| | | |congruence|].
      * cbn [pop_to]. unfold mbind at 1, K_bind at 1, kget at 1. rewrite bool_decide_eq_false_2 by congruence.
        unfold mbind, K_bind. by rewrite E1.
      * cbn [length]. rewrite firstn_cons. cbn [app]. f_equal. by rewrite <- Es, <- Er.
      * cbn [length]. lia.
      * rewrite Ef2, Ef. done.
      * rewrite Ep2, Ep. cbn [fmap list_fmap]. rewrite reverse_cons, join_app. cbn. rewrite app_nil_r. by rewrite app_assoc.
Qed.

(** * The two branches *)

Lemma links_prefix h l u : links h l u → ∀ k, (k ≤ length l)%nat →
  ∃ m, links h (take k l) m ∧ (l ++ [u]) !! k = Some m.
Proof.
  induction 1 as [i|i p l j Hp Hl IH]; intros k Hk.
  - assert (k = 0)%nat as -> by (cbn in Hk; lia). exists i. split; [constructor|done].
  - destruct k as [|k]; [exists i; split; [constructor|done]|].
    destruct (IH k) as (m & Hm & E); [cbn in Hk; lia|]. exists m. split; [by econstructor|done].
Qed.
Lemma links_snoc h l u p : links h l u → fi_prev u = Some (address p) → links h (l ++ [u]) p.
Proof. induction 1; intros Hp; cbn; econstructor; eauto. constructor. Qed.
Lemma links_path held d i l j : fork_ok held d → links i l j → (∀ x, x ∈ l ++ [j] → x ∈ alive held d) → path held d i l j.
Proof.
  intros Hok Hl. induction Hl as [i|i p l j Hp Hl IH]; intros Hin; [constructor|].
  econstructor; [|apply IH; set_solver]. rewrite Hp. apply lock_alive; [done|]. apply Hin. inversion Hl; subst; set_solver.
Qed.
Lemma links_head h l u : links h l u → head (l ++ [u]) = Some h.
Proof. by destruct 1. Qed.

Lemma history_base s u bl b s0 : history s u bl → last bl = Some b → last (take (length bl) u) = Some s0 →
  head_block_id s0 = previous b.
Proof.
  induction 1 as [|s s1 u b' bl Happ Hh IH]; [done|]. cbn [length take]. rewrite !last_cons.
  destruct (last bl) as [b0|] eqn:Eb.
  - intros Hb. intros Hs. apply IH; [done|]. destruct (last (take (length bl) u)) eqn:E; [done|].
    apply last_None in E. destruct bl as [|b1 bl]; [done|]. inversion Hh; subst. done.
  - intros [= <-]. apply last_None in Eb as ->. cbn. intros [= <-]. symmetry. apply (applies_links _ _ _ Happ).
Qed.

(** A switch of forks about to happen: pushing [b] made [h] the head of the fork
    database, higher than the block the chain state is at and not on top of it;
    [new] and [old] are the branches, [v] the last block of [old]; the blocks of [old]
    can be undone. *)
Record fork_setup (L : Z) c (b : signed_block) (h : item_ptr) (d : fork_database) (new old : list item_ptr) (v : item_ptr) : Prop := {
  fs_ok : fork_ok [] (ch_fork_db c);
  fs_number : 0 < block_num (sb_header b);
  fs_push : fork_push_block b (ch_fork_db c) = (Ok (Some h), d);
  fs_in : h ∈ fd_index d;
  fs_off : previous_id h ≠ head_block_id (ch_state c);
  fs_higher : head_block_num (ch_state c) < fi_num h;
  fs_branches : fetch_branch_from [h] d (id_of (fi_data h)) (head_block_id (ch_state c)) = Ok (new, old);
  fs_last : last old = Some v;
  fs_history : history (ch_state c) (recent L c) (fi_data <$> old);
}.

Section switch.
Context (L : Z) (c : chain D) (b : signed_block) (h : item_ptr) (d : fork_database) (new old : list item_ptr) (v : item_ptr).
Context (FS : fork_setup L c b h d new old v).
Local Abbreviation held := (h :: new ++ old).
Local Abbreviation target := (previous_id v).

Lemma fs_head : fd_head d = Some h.
Proof.
  pose proof (fs_push _ _ _ _ _ _ _ _ FS) as Hp. rewrite push_block_spec in Hp.
  destruct (push_refused _ _); [done|]. cbv zeta in Hp. injection Hp as <- <-. done.
Qed.
Lemma fs_alive i : i ∈ alive [h] d → i ∈ fd_index d.
Proof.
  pose proof (push_ok [] _ _ _ _ (fs_number _ _ _ _ _ _ _ _ FS) (fs_push _ _ _ _ _ _ _ _ FS) (fs_ok _ _ _ _ _ _ _ _ FS)) as Hok.
  unfold alive. rewrite (fo_unlinked _ _ Hok), fs_head. pose proof (fs_in _ _ _ _ _ _ _ _ FS). set_solver.
Qed.
Lemma fs_ok' held' : held' ⊆ fd_index d → fork_ok held' d.
Proof.
  intros Hsub.
  pose proof (push_ok [] _ _ _ _ (fs_number _ _ _ _ _ _ _ _ FS) (fs_push _ _ _ _ _ _ _ _ FS) (fs_ok _ _ _ _ _ _ _ _ FS)) as Hok.
  eapply fork_ok_less; [exact Hok| |apply (fo_ids _ _ Hok)|apply (fo_unlinked _ _ Hok)|done].
  unfold alive. set_solver.
Qed.

(** What the branches are. *)
Lemma fs_shape : ∃ y l1 u l2, new = l1 ++ [u] ∧ old = l2 ++ [v] ∧ links h l1 u ∧ links y l2 v ∧
  head old = Some y ∧ previous_id u = target ∧ fi_num u = fi_num v ∧
  fi_num h = fi_num v + Z.of_nat (length l1) ∧ fi_num y = fi_num v + Z.of_nat (length l2) ∧
  head_block_num (ch_state c) = fi_num y ∧
  (∀ i, i ∈ new ++ old → i ∈ fd_index d ∧ fi_num v ≤ fi_num i) ∧ (∀ i, i ∈ new → fi_num i ≤ fi_num h).
Proof.
  assert (fork_ok [h] d) as Hok by (apply fs_ok'; pose proof (fs_in _ _ _ _ _ _ _ _ FS); set_solver).
  pose proof (fs_branches _ _ _ _ _ _ _ _ FS) as Hb. apply (fetch_branch_from_sound _ _ Hok) in Hb as (x & y & Hx & Hy & Hf).
  assert (x = h) as ->.
  { pose proof (find_in_index [h] d h Hok (fs_in _ _ _ _ _ _ _ _ FS)) as E.
    rewrite (io_id _ _ (fo_items _ _ Hok h ltac:(unfold alive; set_solver))) in E. congruence. }
  destruct Hf as (l1 & u & l2 & v' & Enew & Eold & P1 & P2 & Huv & _).
  assert (v' = v) as ->.
  { pose proof (fs_last _ _ _ _ _ _ _ _ FS) as El. rewrite Eold, last_snoc in El. by injection El. }
  destruct (find_alive [h] _ _ _ Hy) as [Hya Hyid].
  assert (h ∈ alive [h] d) as Hha by (unfold alive; set_solver).
  destruct (path_props _ _ Hok _ _ _ P1 Hha) as (Hu & Nu & _ & Hl1), (path_props _ _ Hok _ _ _ P2 Hya) as (Hv & Nv & _ & Hl2).
  pose proof (same_previous_num _ _ Hok _ _ Hu Hv Huv) as Huvn.
  pose proof (links_head _ _ _ (path_links _ _ _ _ _ P2)) as Hhead.
  exists y, l1, u, l2. split_and!; try done; [by eapply path_links..|by rewrite Eold|lia| | |].
  - pose proof (fs_history _ _ _ _ _ _ _ _ FS) as Hh. rewrite Eold in Hh.
    destruct (l2 ++ [v]) as [|y' l] eqn:E; [done|]. injection Hhead as ->. cbn in Hh.
    inversion Hh as [|? s0 u0 ? ? Happ _]; subst. destruct (applies_links _ _ _ Happ) as (_ & _ & ->). symmetry.
    apply (fo_items _ _ Hok y Hya).
  - rewrite Enew, Eold. intros i. rewrite !elem_of_app, !list_elem_of_singleton.
    intros [[Hi| ->]|[Hi| ->]]; (split; [apply fs_alive|]); try apply Hl1 in Hi; try apply Hl2 in Hi; (tauto || lia).
  - rewrite Enew. intros i [Hi|Hi%list_elem_of_singleton]%elem_of_app; [|subst; lia].
    apply list_elem_of_lookup_1 in Hi as [k Hk]. rewrite (path_lookup _ _ Hok _ _ _ P1 Hha k i Hk). lia.
Qed.

Lemma fs_held : fork_ok held d.
Proof.
  apply fs_ok'. destruct fs_shape as (_ & _ & _ & _ & _ & _ & _ & _ & _ & _ & _ & _ & _ & _ & Hall & _).
  pose proof (fs_in _ _ _ _ _ _ _ _ FS). intros i [->|Hi]%elem_of_cons; [done|]. by apply Hall.
Qed.

(** A block above the fork is not the block before it. *)
Lemma above_target i : i ∈ fd_index d → fi_num v ≤ fi_num i → fi_id i ≠ target.
Proof.
  intros Hi Hn E. destruct fs_shape as (_ & _ & _ & l2 & _ & Eold & _ & _ & _ & _ & _ & _ & _ & _ & Hall & _).
  assert (∀ j, j ∈ fd_index d → j ∈ alive held d) as Hal by (unfold alive; set_solver).
  pose proof (fo_items _ _ fs_held i (Hal _ Hi)) as Hio.
  assert (v ∈ fd_index d) as Hv by (apply Hall; rewrite Eold; set_solver).
  pose proof (fo_items _ _ fs_held v (Hal _ Hv)) as Hvo.
  pose proof (io_positive _ _ Hvo) as Hpos. rewrite (io_num _ _ Hvo) in Hpos, Hn. unfold block_num in Hpos, Hn.
  change (previous (fi_data v)) with target in *. rewrite <- E, (io_id _ _ Hio), id_of_num, <- (io_num _ _ Hio) in Hpos, Hn.
  assert (0 ≤ fi_num i < 2 ^ 32) by (rewrite (io_num _ _ Hio); apply Z.mod_pos_bound; lia).
  unfold wrap_u32 in *. destruct (decide (fi_num i + 1 = 2 ^ 32)) as [E'|]; [rewrite E' in Hpos; vm_compute in Hpos; done|].
  rewrite Z.mod_small in Hn by lia. lia.
Qed.

Definition popped_txs (l : list item_ptr) : list signed_transaction :=
  mjoin (reverse ((λ i : item_ptr, transactions (fi_data i)) <$> l)).

(** The first loop of the switch undoes exactly the old branch. *)
Lemma switch_pops : ∃ c1 m,
  pop_blocks_to held target (c <| ch_fork_db := d |>) = (Ok tt, c1) ∧ head_block_id (ch_state c1) = target ∧
  ch_state c :: recent L c = take (length old) (ch_state c :: recent L c) ++ ch_state c1 :: recent L c1 ∧
  ch_revision c1 = ch_revision c - Z.of_nat (length old) ∧
  ch_fork_db c1 = d <| fd_head := Some m |> ∧ new !! length old = Some m ∧ ch_log c1 = ch_log c ∧
  ch_popped c1 = popped_txs old ++ ch_popped c.
Proof.
  destruct fs_shape as (y & l1 & u & l2 & Enew & Eold & P1 & P2 & Hhead & Hprev & Huv & Nh & Ny & Nc & Hall & _).
  pose proof (fs_higher _ _ _ _ _ _ _ _ FS) as Hhigh.
  assert (length old = S (length l2)) as Hlen by (rewrite Eold, length_app; cbn; lia).
  destruct (links_prefix _ _ _ P1 (length old)) as (m & Hl & Em); [lia|]. rewrite <- Enew in Em.
  pose proof fs_held as Hok.
  destruct (pop_to_spec L held target old (c <| ch_fork_db := d |>) h (take (length old) l1) m
    (pop_rounds (c <| ch_fork_db := d |>))) as (c1 & E1 & Ht & Hst & Hrev & Hf & Hlog & Hpop).
  - exact Hok.
  - intros i Hi. destruct (Hall i) as [Hii Hn]; [set_solver|]. split; [done|]. by apply above_target.
  - apply (fs_history _ _ _ _ _ _ _ _ FS).
  - intros s Hs. apply (history_base (ch_state c) (recent L c) (fi_data <$> old) (fi_data v)).
    + apply (fs_history _ _ _ _ _ _ _ _ FS).
    + rewrite fmap_last, (fs_last _ _ _ _ _ _ _ _ FS). done.
    + by rewrite length_fmap.
  - intros E. rewrite E in Hlen. done.
  - exact fs_head.
  - exact Hl.
  - rewrite length_take. lia.
  - intros p [Hp|Hp%list_elem_of_singleton]%elem_of_app; left.
    + assert (p ∈ take (length old) l1) as Hp' by (destruct (take _ _); cbn in *; [set_solver|by right]).
      apply elem_of_take in Hp' as (k & Hk & _). apply list_elem_of_lookup_2 in Hk. rewrite Enew. set_solver.
    + subst p. apply list_elem_of_lookup_2 in Em. set_solver.
  - unfold pop_rounds. fields. rewrite fs_head.
    assert (h ∈ alive held d) as Hha by (unfold alive; rewrite fs_head; set_solver).
    assert (path held d h l1 u) as Hp1 by (apply links_path; [done|done|]; rewrite <- Enew; unfold alive; set_solver).
    pose proof (rounds_enough held d Hok _ _ _ Hp1 Hha). lia.
  - exists c1, m. split_and!; try done.
Qed.
End switch.

(** * The loop over the new branch *)

Lemma session_inv held b c c' : in_session (apply_block held b) c = (Ok tt, c') →
  applies b (ch_state c) (ch_state c') ∧ fd_head (ch_fork_db c') = fd_head (ch_fork_db c) ∧ ch_popped c' = ch_popped c.
Proof.
  unfold in_session, ktry, apply_block, start_undo_session, on_state, mbind, K_bind, kupdate. fields.
  destruct (apply_before b (ch_state c)) as [[[]|e1] s1] eqn:H1; [|intros Hx; apply (f_equal fst) in Hx; discriminate Hx].
  destruct (store_irreversible held _ _) as [[[]|e2] c2] eqn:H2; [|intros Hx; apply (f_equal fst) in Hx; discriminate Hx].
  apply store_base in H2 as (Es & _ & Ep & Eh & _). fields.
  destruct (apply_after b (ch_state c2)) as [[[]|e3] s3] eqn:H3; [|intros Hx; apply (f_equal fst) in Hx; discriminate Hx].
  intros [= <-]. fields. split_and!; [|done|done]. exists s1. split; [done|]. by rewrite <- Es.
Qed.
Lemma restore_throws held old target rest e c u c' : restore_fork held old target rest e c ≠ (Ok u, c').
Proof.
  unfold restore_fork, mbind, K_bind, kthrow. 
  repeat match goal with |- context [match ?m with pair _ _ => _ end] => destruct m as [[]] end; done.
Qed.
Lemma push_fork_ok held old target new : ∀ c u c', push_fork held old target new c = (Ok u, c') →
  applied (ch_state c) (fi_data <$> new) (ch_state c') ∧ fd_head (ch_fork_db c') = fd_head (ch_fork_db c) ∧ ch_popped c' = ch_popped c.
Proof.
  induction new as [|i new IH]; intros c u c'; cbn [push_fork].
  { intros [= <- <-]. split_and!; [constructor|done..]. }
  unfold mbind, K_bind, ktry. destruct (in_session _ c) as [[[]|e] c1] eqn:E.
  - apply session_inv in E as (Ha & Eh & Ep). intros (Hap & -> & ->)%IH. split_and!; [by econstructor|done..].
  - by intros ?%restore_throws.
Qed.
Lemma applied_last s bl b s' : applied s (bl ++ [b]) s' → head_block_id s' = id_of b.
Proof.
  remember (bl ++ [b]) as l eqn:E. intros Ha. revert bl E. induction Ha as [|s s1 s' b' bl' H1 H2 IH]; intros bl E; [by destruct bl|].
  destruct bl as [|b0 bl]; injection E as -> ->; [|by eapply IH].
  inversion H2; subst. apply (applies_links _ _ _ H1).
Qed.

Lemma push_block_switches L c b h d new old v c1 : fork_setup L c b h d new old v →
  pop_blocks_to (h :: new ++ old) (previous_id v) (c <| ch_fork_db := d |>) = (Ok tt, c1) →
  _push_block false b c =
    match push_fork (h :: new ++ old) old (previous_id v) (reverse new) c1 with
    | (Ok _, c') => (Ok true, c')
    | (Err e, c') => (Err e, c')
    end.
Proof.
  intros FS Hp. unfold _push_block, on_fork_db, switch_forks, klift, ksome. unfold mbind, K_bind, kget, mret, K_ret.
  rewrite (fs_push _ _ _ _ _ _ _ _ FS). fields.
  rewrite bool_decide_eq_true_2 by apply (fs_off _ _ _ _ _ _ _ _ FS).
  assert (block_num (fi_data h) = fi_num h) as ->.
  { symmetry. apply (fo_items _ _ (fs_held _ _ _ _ _ _ _ _ FS)). unfold alive. set_solver. }
  destruct (Z.ltb_spec (head_block_num (ch_state c)) (fi_num h)) as [_|Hn]; [|pose proof (fs_higher _ _ _ _ _ _ _ _ FS); lia].
  fields. rewrite (fs_branches _ _ _ _ _ _ _ _ FS). cbn beta iota. rewrite (fs_last _ _ _ _ _ _ _ _ FS). cbn [fmap option_fmap option_map].
  rewrite Hp. by destruct (push_fork _ _ _ _ _) as [[]].
Qed.

(** * Restoring the old branch *)

(** [c] is on the way along the new branch from [c1], with the blocks of [past] applied. *)
Record on_new_fork (L : Z) (held : list item_ptr) (N : Z) (c1 : chain D) (past : list item_ptr) c : Prop := {
  nf_log : ch_log c = ch_log c1;
  nf_popped : ch_popped c = ch_popped c1;
  nf_ok : fork_ok held (ch_fork_db c);
  nf_kept : fork_kept N (ch_fork_db c1) (ch_fork_db c);
  nf_history : history (ch_state c) (recent L c) (fi_data <$> past);
  nf_base : ch_state c :: recent L c =
    take (length past) (ch_state c :: recent L c) ++ ch_state c1 :: recent L c1;
  nf_revision : ch_revision c = ch_revision c1 + Z.of_nat (length past);
}.

(** When the loop throws, some block of the new branch did not apply and the handler ran. *)
Lemma push_fork_err L held N c1 old target rest : L ≤ N → L ≤ ch_revision c1 → log_head_num (ch_log c1) = L →
  (∀ h, fd_head (ch_fork_db c1) = Some h → fi_num h ≤ N + 1) →
  (∀ i : item_ptr, i ∈ rest → N < block_num (fi_data i) < u32_max) →
  ∀ c past e c', quiet_run L (ch_state c) (fi_data <$> rest) → on_new_fork L held N c1 past c → push_fork held old target rest c = (Err e, c') →
  ∃ c2 pre i post e0, rest = pre ++ i :: post ∧ on_new_fork L held N c1 (reverse pre ++ past) c2 ∧
    restore_fork held old target (i :: post) e0 c2 = (Err e, c').
Proof.
  intros HLN Hrev Hlog Hlow. induction rest as [|i rest IH]; intros Hq c past e c' Hqr Hnf; cbn [push_fork]; [done|].
  destruct Hqr as [Hqi Hqr]. pose proof (Hq i ltac:(by left)) as Hni. pose proof (nf_revision _ _ _ _ _ _ Hnf) as Er.
  assert (L ≤ ch_revision c) as HLr by lia.
  assert (log_head_num (ch_log c) = L) as Hlogc by (by rewrite (nf_log _ _ _ _ _ _ Hnf)).
  assert (low_heads N (ch_fork_db c) (fi_data i)) as Hlh.
  { split; [|done]. by destruct (nf_kept _ _ _ _ _ _ Hnf) as (-> & _ & _). }
  unfold mbind, K_bind, ktry. destruct (in_session (apply_block held (fi_data i)) c) as [[[]|e0] c2] eqn:E.
  - pose proof (session_inv _ _ _ _ E) as (Ha & _ & _).
    destruct (session_ok L held (fi_data i) c (ch_state c2)) as (c2' & E' & _ & _ & Erec & Ev & El & Ep & Hok & _ & Hk);
      [done|done|apply (nf_ok _ _ _ _ _ _ Hnf)|done|done|].
    rewrite E in E'. injection E' as <-. intros Hr.
    destruct (IH (λ j Hj, Hq j (list_elem_of_further _ _ _ Hj)) c2 (i :: past) e c') as (c3 & pre & j & post & e1 & -> & Hnf3 & Hres); [by apply Hqr| |done|].
    + split; [by rewrite El, (nf_log _ _ _ _ _ _ Hnf)|by rewrite Ep, (nf_popped _ _ _ _ _ _ Hnf)|done|..].
      * etrans; [apply (nf_kept _ _ _ _ _ _ Hnf)|]. by apply Hk.
      * rewrite Erec. cbn. econstructor; [done|apply (nf_history _ _ _ _ _ _ Hnf)].
      * rewrite Erec. cbn [length take app]. f_equal. apply (nf_base _ _ _ _ _ _ Hnf).
      * cbn [length]. lia.
    + exists c3, (i :: pre), j, post, e1. split_and!; [done| |done]. by rewrite reverse_cons, <- app_assoc.
  - intros Hr. destruct (session_err L held (fi_data i) c e0 c2) as (Es & Erec & Ev & El & Ep & Hok & _ & Hk);
      [done|done|apply (nf_ok _ _ _ _ _ _ Hnf)|done|done|].
    exists c2, [], i, rest, e0. split_and!; [done| |done]. cbn.
    split; [by rewrite El, (nf_log _ _ _ _ _ _ Hnf)|by rewrite Ep, (nf_popped _ _ _ _ _ _ Hnf)|done|..].
    + etrans; [apply (nf_kept _ _ _ _ _ _ Hnf)|]. by apply Hk.
    + rewrite Es, Erec. apply (nf_history _ _ _ _ _ _ Hnf).
    + rewrite Es, Erec. apply (nf_base _ _ _ _ _ _ Hnf).
    + lia.
Qed.

(** Applying the old branch again gives the states it had. *)
Lemma reapply L held c1 s : log_head_num (ch_log c1) = L → L ≤ ch_revision c1 → fork_ok held (ch_fork_db c1) →
  ∀ old u, history s u (fi_data <$> old) → s :: u = take (length old) (s :: u) ++ ch_state c1 :: recent L c1 →
  (∀ s', s' ∈ s :: u → settled L s') →
  ∃ c', keach (λ i : item_ptr, in_session (apply_block held (fi_data i))) (reverse old) c1 = (Ok tt, c') ∧
    ch_state c' = s ∧ recent L c' = u ∧ ch_revision c' = ch_revision c1 + Z.of_nat (length old) ∧
    ch_log c' = ch_log c1 ∧ ch_popped c' = ch_popped c1 ∧ fork_ok held (ch_fork_db c') ∧
    fd_head (ch_fork_db c') = fd_head (ch_fork_db c1) ∧ (∀ i, i ∈ fd_index (ch_fork_db c') → i ∈ fd_index (ch_fork_db c1)).
Proof.
  intros Hlog Hrev Hok. intros old. revert s. induction old as [|i old IH]; intros s u Hh Hb Hq.
  { cbn in Hb. injection Hb as -> ->. exists c1. split_and!; try done. cbn; lia. }
  apply history_cons in Hh as (s0 & u0 & -> & Happ & Hh0). cbn [length] in Hb. rewrite firstn_cons in Hb. injection Hb as Hb.
  destruct (IH s0 u0 Hh0 Hb) as (c2 & E2 & Es & Er & Ev & El & Ep & Hok2 & Ehd & Hin); [intros; apply Hq; by right|].
  destruct (session_ok L held (fi_data i) c2 s) as (c3 & E3 & Es3 & _ & Er3 & Ev3 & El3 & Ep3 & Hok3 & (Ehd3 & Hin3) & _);
    [lia|congruence|done|rewrite Es; eapply applies_quiet; [done|apply Hq; by left]|by rewrite Es|].
  exists c3. rewrite reverse_cons, keach_app. unfold mbind, K_bind. rewrite E2. cbn [keach]. unfold mbind, K_bind. rewrite E3.
  split_and!; try done; try congruence; [cbn [length]; lia|auto].
Qed.

Lemma remove_all (l : list item_ptr) : ∀ c, ∃ d',
  keach (λ i : item_ptr, on_fork_db (fork_remove (id_of (fi_data i)))) l c = (Ok tt, c <| ch_fork_db := d' |>) ∧
  fd_head d' = fd_head (ch_fork_db c) ∧ (∀ held, fork_ok held (ch_fork_db c) → fork_ok held d') ∧
  ∀ i, i ∈ fd_index d' ↔ i ∈ fd_index (ch_fork_db c) ∧ ∀ j, j ∈ l → fi_id i ≠ id_of (fi_data j).
Proof.
  induction l as [|j l IH]; intros c.
  - exists (ch_fork_db c). split_and!; [by destruct c|done..|]. intros i. set_solver.
  - destruct (IH (c <| ch_fork_db := snd (fork_remove (id_of (fi_data j)) (ch_fork_db c)) |>)) as (d' & E & Eh & Hok & Hin).
    exists d'. fields. split_and!; [|done| |].
    + cbn [keach]. unfold mbind, K_bind, on_fork_db at 1. cbn [fork_remove kupdate]. exact E.
    + intros held Hh. apply Hok. eapply remove_ok; [apply surjective_pairing|done].
    + intros i. rewrite Hin. unfold fork_remove, kupdate. cbn [snd]. fields. rewrite list_elem_of_filter. set_solver.
Qed.

Lemma path_nodup held d i l j : fork_ok held d → path held d i l j → i ∈ alive held d → NoDup (l ++ [j]).
Proof.
  intros Hok. induction 1 as [i|i p l j Hp Hpath IH]; intros Hi; [apply NoDup_singleton|]. cbn.
  destruct (parent_num _ _ Hok _ _ Hi Hp) as (Hn & _ & Hpa & _). apply NoDup_cons. split; [|by apply IH].
  destruct (path_props _ _ Hok _ _ _ Hpath Hpa) as (_ & Hnum & _ & _).
  intros [Hin|Hin%list_elem_of_singleton]%elem_of_app; [|subst; lia].
  apply list_elem_of_lookup_1 in Hin as [k Hk]. pose proof (path_lookup _ _ Hok _ _ _ Hpath Hpa k i Hk). lia.
Qed.
Lemma index_id_inj held d i j : fork_ok held d → i ∈ fd_index d → j ∈ fd_index d → fi_id i = fi_id j → i = j.
Proof.
  intros Hok Hi Hj E. pose proof (find_in_index _ _ _ Hok Hi) as H1. rewrite E, (find_in_index _ _ _ Hok Hj) in H1. by injection H1.
Qed.

Section restore.
Context (L : Z) (c : chain D) (b : signed_block) (h : item_ptr) (d : fork_database) (new old : list item_ptr) (v p : item_ptr).
Context (FS : fork_setup L c b h d new old v).
Context (Hp : fi_prev v = Some (address p)) (Hpin : p ∈ fd_index d).
Local Abbreviation held := (h :: new ++ old).
Local Abbreviation target := (previous_id v).

Lemma common_num : fi_num v = fi_num p + 1.
Proof.
  pose proof (fs_held _ _ _ _ _ _ _ _ FS) as Hok.
  destruct (fs_shape _ _ _ _ _ _ _ _ FS) as (_ & _ & _ & l2 & _ & Eold & _ & _ & _ & _ & _ & _ & _ & _ & Hall & _).
  assert (v ∈ fd_index d) as Hv by (apply Hall; rewrite Eold; set_solver).
  eapply (parent_num held d Hok v p); [unfold alive; set_solver|]. rewrite Hp. apply lock_alive; [done|]. unfold alive; set_solver.
Qed.

Lemma last_below (x y s : D) l l' n : x :: l = take n (x :: l) ++ y :: l' → last (take n l) = Some s → s = y.
Proof.
  destruct n as [|n]; [done|]. cbn [take app]. intros [= E] Hs.
  assert (length (take n l) = n) as Hn by (apply (f_equal length) in E; rewrite length_app, !length_take in E; cbn in E; rewrite length_take; lia).
  rewrite (take_S_r _ _ y), last_snoc in Hs; [by injection Hs|]. rewrite E, lookup_app_r by (rewrite Hn; lia).
  by rewrite Hn, Nat.sub_diag.
Qed.

(** The blocks that applied and the rest are different items of the new branch. *)
Lemma branch_parts past rest : new = reverse rest ++ past →
  (∀ j, j ∈ past → j ∈ new ∧ j ∉ rest) ∧ (∀ j, j ∈ rest → j ∈ new).
Proof.
  intros Esplit. destruct (fs_shape _ _ _ _ _ _ _ _ FS) as (y & l1 & u & l2 & Enew & _ & P1 & _ & _ & _ & _ & _ & _ & _ & Hall & _).
  pose proof (fs_held _ _ _ _ _ _ _ _ FS) as Hok.
  assert (NoDup new) as Hnd.
  { rewrite Enew. eapply (path_nodup held d h); [done| |unfold alive; set_solver].
    apply links_path; [done|done|]. intros x Hx. unfold alive. apply elem_of_app. left. apply Hall. rewrite Enew. set_solver. }
  rewrite Esplit in Hnd |- *. apply NoDup_app in Hnd as (_ & Hd & _). split; [|set_solver].
  intros j Hj. split; [set_solver|]. intros Hj'. eapply (Hd j); [by apply elem_of_reverse|done].
Qed.

(** What removing the rest leaves. *)
Lemma rest_removed c1 past rest c2 d' j : new = reverse rest ++ past →
  fd_index (ch_fork_db c1) = fd_index d → on_new_fork L held (fi_num p) c1 past c2 →
  (∀ i, i ∈ fd_index d' ↔ i ∈ fd_index (ch_fork_db c2) ∧ ∀ k, k ∈ rest → fi_id i ≠ id_of (fi_data k)) →
  j ∈ fd_index d → fi_num p ≤ fi_num j → j ∉ rest → j ∈ fd_index d'.
Proof.
  intros Esplit Hidx Hnf Hin Hj Hn Hjr. pose proof (fs_held _ _ _ _ _ _ _ _ FS) as Hok.
  destruct (fs_shape _ _ _ _ _ _ _ _ FS) as (_ & _ & _ & _ & _ & _ & _ & _ & _ & _ & _ & _ & _ & _ & Hall & _).
  destruct (branch_parts past rest Esplit) as [_ Hrest].
  apply Hin. split; [apply (nf_kept _ _ _ _ _ _ Hnf); [by rewrite Hidx|done]|]. intros k Hk E.
  destruct (Hall k) as [Hkd _]; [apply elem_of_app; left; by apply Hrest|].
  rewrite <- (io_id _ _ (fo_items _ _ Hok k ltac:(unfold alive; set_solver))) in E.
  by rewrite (index_id_inj held d j k) in Hjr.
Qed.

(** The handler's loop undoes the blocks of the new branch that applied. *)
Lemma restore_pops c1 past rest c2 d' y : new = reverse rest ++ past → (length past ≤ length old)%nat →
  head_block_id (ch_state c1) = target → fd_index (ch_fork_db c1) = fd_index d →
  on_new_fork L held (fi_num p) c1 past c2 → head old = Some y → fork_ok held d' →
  (∀ i, i ∈ fd_index d' ↔ i ∈ fd_index (ch_fork_db c2) ∧ ∀ k, k ∈ rest → fi_id i ≠ id_of (fi_data k)) →
  ∃ c3 m, pop_blocks_to held target (c2 <| ch_fork_db := d' <| fd_head := Some y |> |>) = (Ok tt, c3) ∧
    ch_state c3 = ch_state c1 ∧ recent L c3 = recent L c1 ∧ ch_revision c3 = ch_revision c1 ∧
    ch_log c3 = ch_log c2 ∧ ch_popped c3 = popped_txs past ++ ch_popped c2 ∧
    ch_fork_db c3 = d' <| fd_head := Some m |> ∧ (old ++ [p]) !! length past = Some m ∧ fork_ok held (ch_fork_db c3).
Proof.
  intros Esplit Hlp Ht Hidx Hnf Hhead Hokd Hin. pose proof common_num as Np.
  destruct (fs_shape _ _ _ _ _ _ _ _ FS) as (y' & l1 & u & l2 & Enew & Eold & _ & P2 & Hhead' & _ & _ & _ & _ & _ & Hall & _).
  rewrite Hhead in Hhead'. injection Hhead' as <-. destruct (branch_parts past rest Esplit) as [Hpast Hrest].
  assert (y ∈ old) as Hy by (destruct old; [done|]; injection Hhead as ->; by left).
  assert (∀ j, j ∈ fd_index d → fi_num p ≤ fi_num j → j ∉ rest → j ∈ fd_index d') as Hkeep
    by (intros; by eapply rest_removed).
  assert (p ∈ fd_index d') as Hpd.
  { apply Hkeep; [done|lia|]. intros Hj%Hrest. destruct (Hall p) as [_ ?]; [set_solver|]. lia. }
  assert (fork_ok held (d' <| fd_head := Some y |>)) as Hok3.
  { eapply (set_head_ok held d' (Some y)); [|done|done]. intros ? [= <-]. unfold alive. set_solver. }
  destruct (links_prefix _ _ _ (links_snoc _ _ _ _ P2 Hp) (length past)) as (m & Hl & Em); [by rewrite <- Eold|].
  rewrite <- Eold in Hl, Em.
  assert (∀ j, j ∈ old ++ [p] → j ∈ held ∨ j ∈ fd_index d') as Hjs.
  { intros j [Hj|Hj%list_elem_of_singleton]%elem_of_app; [left; set_solver|right; by subst]. }
  assert (∀ j, j ∈ take (length past) old ++ [m] → j ∈ old ++ [p]) as Hsub.
  { intros j [Hj|Hj%list_elem_of_singleton]%elem_of_app; [|subst; by eapply list_elem_of_lookup_2].
    apply elem_of_take in Hj as (k & Hk & _). apply list_elem_of_lookup_2 in Hk. set_solver. }
  pose proof (nf_base _ _ _ _ _ _ Hnf) as Hnb.
  destruct (pop_to_spec L held target past (c2 <| ch_fork_db := d' <| fd_head := Some y |> |>) y (take (length past) old) m
    (pop_rounds (c2 <| ch_fork_db := d' <| fd_head := Some y |> |>))) as (c3 & E3 & Ht3 & Hst & Hrev & Hf & Hlog & Hpop).
  - exact Hok3.
  - intros j Hj. destruct (Hpast j Hj) as [Hjn Hjr]. destruct (Hall j) as [Hjd Hjv]; [set_solver|]. split; [apply Hkeep; [done|lia|done]|].
    by eapply above_target.
  - apply (nf_history _ _ _ _ _ _ Hnf).
  - intros s Hs. rewrite <- Ht. f_equal. by eapply last_below.
  - intros ->. rewrite <- Ht. injection Hnb as Hnb _. fields. by rewrite Hnb.
  - done.
  - done.
  - rewrite length_take. lia.
  - intros j [Hj|Hj]%elem_of_app; apply Hjs, Hsub; apply elem_of_app; [left|by right].
    destruct (take (length past) old); cbn in *; [by apply not_elem_of_nil in Hj|by right].
  - unfold pop_rounds. fields. pose proof (fs_held _ _ _ _ _ _ _ _ FS) as Hok.
    assert (∀ x, x ∈ old → x ∈ alive held d) as Hal by (unfold alive; set_solver).
    assert (path held d y l2 v) as Hpath by (apply links_path; [done|done|]; rewrite <- Eold; exact Hal).
    destruct (path_props _ _ Hok _ _ _ Hpath (Hal y Hy)) as (Hv & _ & Ha & _).
    pose proof (io_address _ _ (fo_items _ _ Hok v Hv)). rewrite Eold, length_app in Hlp. cbn in Hlp. unfold rounds. lia.
  - exists c3, m. assert (ch_state c3 :: recent L c3 = ch_state c1 :: recent L c1) as [= -> ->].
    { apply (app_inj_1 (take (length past) (ch_state c2 :: recent L c2)) (take (length past) (ch_state c2 :: recent L c2))); [done|].
      rewrite <- Hnb. symmetry. exact Hst. }
    split_and!; try done; [rewrite Hrev; fields; rewrite (nf_revision _ _ _ _ _ _ Hnf); lia|].
    rewrite Hf. fields. eapply (set_head_ok held _ (Some m)); [|done|exact Hok3].
    intros ? [= <-]. apply list_elem_of_lookup_2 in Em. unfold alive. fields. rewrite !elem_of_app. destruct (Hjs m Em); auto.
Qed.

(** The whole handler: the old branch is back. *)
Lemma restore_spec c1 past i post c2 e0 : log_head_num (ch_log c) = L → L ≤ ch_revision c1 → (length new ≤ S (length old))%nat →
  (∀ s, s ∈ ch_state c :: recent L c → settled L s) →
  head_block_id (ch_state c1) = target → fd_index (ch_fork_db c1) = fd_index d → ch_log c1 = ch_log c →
  ch_state c :: recent L c = take (length old) (ch_state c :: recent L c) ++ ch_state c1 :: recent L c1 →
  ch_revision c1 = ch_revision c - Z.of_nat (length old) →
  new = reverse (i :: post) ++ past → on_new_fork L held (fi_num p) c1 past c2 →
  ∃ c', restore_fork held old target (i :: post) e0 c2 = (Err e0, c') ∧
    ch_state c' = ch_state c ∧ recent L c' = recent L c ∧ ch_revision c' = ch_revision c ∧ ch_log c' = ch_log c ∧
    ch_popped c' = popped_txs past ++ ch_popped c1 ∧ fd_head (ch_fork_db c') = (old ++ [p]) !! length past ∧
    (∀ j, j ∈ i :: post → is_known_block (ch_fork_db c') (id_of (fi_data j)) = false).
Proof.
  intros Hlog Hrev Hnew Hq Ht Hidx Hlog1 Hbase Hrev1 Esplit Hnf.
  assert (length past ≤ length old)%nat as Hlp.
  { apply (f_equal length) in Esplit. rewrite length_app, length_reverse in Esplit. cbn in Esplit. lia. }
  destruct (remove_all (i :: post) c2) as (d' & Erm & Ehd & Hokd & Hin).
  destruct (fs_shape _ _ _ _ _ _ _ _ FS) as (y & _ & _ & _ & _ & _ & _ & _ & Hhead & _).
  destruct (restore_pops c1 past (i :: post) c2 d' y) as (c3 & m & E3 & Es3 & Er3 & Ev3 & El3 & Ep3 & Ef3 & Em & Hok3); try done.
  { apply Hokd, (nf_ok _ _ _ _ _ _ Hnf). }
  destruct (reapply L held c3 (ch_state c)) with (old := old) (u := recent L c)
    as (c4 & E4 & Es4 & Er4 & Ev4 & El4 & Ep4 & Hok4 & Eh4 & Hin4); try done.
  { rewrite El3, (nf_log _ _ _ _ _ _ Hnf). congruence. }
  { lia. }
  { apply (fs_history _ _ _ _ _ _ _ _ FS). }
  { rewrite Es3, Er3. exact Hbase. }
  exists c4. split_and!; try congruence.
  - unfold restore_fork. unfold mbind at 1, K_bind at 1. rewrite Erm. unfold mbind at 1, K_bind at 1, on_fork_db at 1, set_head, kupdate.
    rewrite Hhead. unfold mbind, K_bind. change (ch_fork_db (c2 <| ch_fork_db := d' |>)) with d'.
    change (c2 <| ch_fork_db := d' |> <| ch_fork_db := d' <| fd_head := Some y |> |>) with (c2 <| ch_fork_db := d' <| fd_head := Some y |> |>).
    by rewrite E3, E4.
  - lia.
  - rewrite El4, El3, (nf_log _ _ _ _ _ _ Hnf). done.
  - rewrite Ep4, Ep3, (nf_popped _ _ _ _ _ _ Hnf). done.
  - rewrite Eh4, Ef3. by rewrite Em.
  - intros j Hj. unfold is_known_block. rewrite (fo_unlinked _ _ Hok4). cbn.
    pose proof (find_id_spec (fd_index (ch_fork_db c4)) (id_of (fi_data j))) as Hf.
    destruct (find_id _ _) as [k|]; [|done]. destruct Hf as [Hk E]. apply Hin4 in Hk. rewrite Ef3 in Hk.
    apply Hin in Hk as [_ Hk]. by destruct (Hk j Hj).
Qed.
End restore.

(** * The theorems *)

(** C4. A switch of forks that succeeds ends at the new head: the state is what
    applying the new branch to the common block gives, the transactions of the old
    branch are kept for the pending queue.  The fork database's own head is left as
    many blocks behind the new head as the old branch is long. *)
Theorem switch_reaches_new_head L c b h d new old v u c' :
  fork_setup L c b h d new old v → _push_block false b c = (Ok u, c') →
  u = true ∧ head_block_id (ch_state c') = id_of (fi_data h) ∧
  (∃ base, base ∈ recent L c ∧ head_block_id base = previous_id v ∧ applied base (fi_data <$> reverse new) (ch_state c')) ∧
  ch_popped c' = popped_txs old ++ ch_popped c ∧
  fd_head (ch_fork_db c') = new !! length old.
Proof.
  intros FS Hr. destruct (switch_pops _ _ _ _ _ _ _ _ FS) as (c1 & m & E1 & Ht & Hb & _ & Ef & Em & _ & Ep).
  rewrite (push_block_switches _ _ _ _ _ _ _ _ _ FS E1) in Hr.
  destruct (push_fork _ _ _ _ c1) as [[[]|e] c2] eqn:E2; [|done]. injection Hr as <- <-.
  apply push_fork_ok in E2 as (Ha & Eh & Ep2).
  destruct (fs_shape _ _ _ _ _ _ _ _ FS) as (y & l1 & u & l2 & Enew & Eold & P1 & _ & _ & _ & _ & _ & _ & _ & Hall & _).
  split_and!; [done| | |congruence|by rewrite Eh, Ef, Em].
  - pose proof (links_head _ _ _ P1) as Hh. destruct (l1 ++ [u]) as [|h' l] eqn:El; [done|]. injection Hh as ->.
    rewrite Enew, reverse_cons, fmap_app in Ha. by apply applied_last in Ha.
  - exists (ch_state c1). split_and!; [|done|done]. rewrite Eold, length_app in Hb. cbn in Hb. rewrite Nat.add_comm in Hb.
    injection Hb as Hb. rewrite Hb. set_solver.
Qed.

(** C3. A switch of forks that fails restores the node.  Conditions: the new branch is
    one block longer than the old one, their common block [p] is in the fork database
    and not below the head [L] of the block log, and block numbers are within 32 bits;
    the revision counts undo states for the whole old branch; no state of the old branch
    has an irreversible block above [L]; and applying the new branch to the common
    state, as far as it applies, makes none irreversible either.  Then the chain state, the states it can
    return to, the revision and the block log are what they were, the block that failed
    and those after it are no longer known, and the popped transactions are those of the
    old branch and of the part of the new one that had applied. *)
Theorem failed_switch_restores L c b h d new old v p e c' :
  fork_setup L c b h d new old v → fi_prev v = Some (address p) → p ∈ fd_index d →
  fi_num h = head_block_num (ch_state c) + 1 → fi_num h < u32_max →
  log_head_num (ch_log c) = L → L ≤ fi_num p → L + Z.of_nat (length old) ≤ ch_revision c →
  (∀ s, s ∈ ch_state c :: recent L c → settled L s) →
  (∀ s, (ch_state c :: recent L c) !! length old = Some s → quiet_run L s (fi_data <$> reverse new)) →
  _push_block false b c = (Err e, c') →
  ch_state c' = ch_state c ∧ recent L c' = recent L c ∧ ch_revision c' = ch_revision c ∧ ch_log c' = ch_log c ∧
  ∃ past rest, new = reverse rest ++ past ∧ rest ≠ [] ∧
    (∀ j, j ∈ rest → is_known_block (ch_fork_db c') (id_of (fi_data j)) = false) ∧
    ch_popped c' = popped_txs past ++ popped_txs old ++ ch_popped c ∧
    fd_head (ch_fork_db c') = (old ++ [p]) !! length past.
Proof.
  intros FS Hp Hpin Hh1 Hmax Hlog HLN Hrev Hset Hq Hr.
  destruct (switch_pops _ _ _ _ _ _ _ _ FS) as (c1 & m & E1 & Ht & Hb & Hv & Ef & Em & El & Ep).
  rewrite (push_block_switches _ _ _ _ _ _ _ _ _ FS E1) in Hr.
  destruct (push_fork _ _ _ _ c1) as [[[]|e1] c2] eqn:E2; [done|]. injection Hr as <- <-.
  destruct (fs_shape _ _ _ _ _ _ _ _ FS) as (y & l1 & u & l2 & Enew & Eold & P1 & _ & _ & _ & Huv & Nh & Ny & Nc & Hall & Hup).
  pose proof (common_num _ _ _ _ _ _ _ _ _ FS Hp Hpin) as Np. pose proof (fs_held _ _ _ _ _ _ _ _ FS) as Hok.
  assert ((ch_state c :: recent L c) !! length old = Some (ch_state c1)) as Hbase.
  { assert (length (take (length old) (ch_state c :: recent L c)) = length old) as Hlt.
    { apply (f_equal length) in Hb. rewrite length_app, !length_take in *. cbn [length] in *. lia. }
    rewrite Hb, lookup_app_r by (rewrite Hlt; lia). by rewrite Hlt, Nat.sub_diag. }
  assert (length new = S (length old)) as Hlen by (rewrite Enew, Eold, !length_app; cbn; lia).
  apply (push_fork_err L (h :: new ++ old) (fi_num p) c1) with (past := []) in E2
    as (c3 & pre & i & post & e0 & Esplit & Hnf & Hres).
  - rewrite app_nil_r in Hnf.
    assert (new = reverse (i :: post) ++ reverse pre) as Esplit'.
    { rewrite <- (reverse_involutive new), Esplit, reverse_app. done. }
    destruct (restore_spec _ _ _ _ _ _ _ _ _ FS Hp Hpin c1 (reverse pre) i post c3 e0)
      as (c4 & E4 & Es & Er & Ev & El4 & Ep4 & Eh & Hk); try done; [lia|lia|by rewrite Ef|].
    rewrite Hres in E4. injection E4 as -> ->. split_and!; [done..|].
    exists (reverse pre), (i :: post). split_and!; [done..| |done]. by rewrite Ep4, Ep.
  - done.
  - lia.
  - congruence.
  - rewrite Ef. fields. intros ? [= <-]. assert (m = u) as ->; [|lia].
    rewrite Enew, lookup_app_r in Em by (rewrite Enew in Hlen; rewrite length_app in Hlen; cbn in Hlen; lia).
    replace (length old - length l1)%nat with 0%nat in Em by (rewrite Enew, length_app in Hlen; cbn in Hlen; lia). by injection Em.
  - intros i Hi. apply elem_of_reverse in Hi. rewrite ?reverse_involutive in Hi. destruct (Hall i) as [Hi1 Hi2]; [set_solver|].
    rewrite <- (io_num _ _ (fo_items _ _ Hok i ltac:(unfold alive; set_solver))). specialize (Hup i Hi). lia.
  - by apply Hq.
  - split; try done; [|constructor|cbn; lia]. rewrite Ef. eapply (set_head_ok _ d (Some m)); [|done|done].
    intros ? [= <-]. apply list_elem_of_lookup_2 in Em. unfold alive. set_solver.
Qed.

(** Pushing a block that builds on the head applies it; when it does not apply, the
    chain state, the states it can return to, the revision and the block log are what
    they were and the block is not known. *)
Theorem push_block_extends L c b h d r c' :
  fork_ok [] (ch_fork_db c) → 0 < block_num (sb_header b) → fork_push_block b (ch_fork_db c) = (Ok (Some h), d) →
  previous_id h = head_block_id (ch_state c) → log_head_num (ch_log c) = L → L ≤ ch_revision c →
  quiet L (ch_state c) b → _push_block false b c = (r, c') →
  match r with
  | Ok u => u = false ∧ applies b (ch_state c) (ch_state c') ∧ recent L c' = ch_state c :: recent L c ∧
      ch_revision c' = ch_revision c + 1
  | Err _ => ch_state c' = ch_state c ∧ recent L c' = recent L c ∧ ch_revision c' = ch_revision c ∧
      is_known_block (ch_fork_db c') (id_of b) = false
  end ∧ ch_log c' = ch_log c ∧ ch_popped c' = ch_popped c ∧ fd_head (ch_fork_db c') = Some h.
Proof.
  intros Hok Hb Hpush Hprev Hlog Hrev Hq Hr. pose proof (push_ok _ _ _ _ _ Hb Hpush Hok) as Hokd.
  assert (fd_head d = Some h) as Hd.
  { rewrite push_block_spec in Hpush. destruct (push_refused _ _); [done|]. cbv zeta in Hpush. by injection Hpush as <- <-. }
  unfold _push_block, on_fork_db, ksome in Hr. unfold mbind, K_bind, kget, mret, K_ret, ktry in Hr.
  rewrite Hpush in Hr. fields. rewrite bool_decide_eq_false_2 in Hr by tauto.
  destruct (in_session (apply_block [] b) (c <| ch_fork_db := d |>)) as [[[]|e] c1] eqn:E.
  - injection Hr as <- <-. pose proof (session_inv _ _ _ _ E) as (Ha & _ & _).
    destruct (session_ok L [] b (c <| ch_fork_db := d |>) (ch_state c1)) as (c2 & E2 & _ & _ & Er & Ev & El & Ep & _ & (Eh & _) & _); [done..|].
    rewrite E in E2. injection E2 as <-. split_and!; try done. by rewrite Eh.
  - destruct (session_err L [] b (c <| ch_fork_db := d |>) e c1) as (Es & Er & Ev & El & Ep & Hok1 & (Eh & _) & _); [done..|].
    unfold fork_remove, kupdate, kthrow in Hr. injection Hr as <- <-. fields. split_and!; try done; [|by rewrite Eh].
    unfold is_known_block. fields. rewrite (fo_unlinked _ _ Hok1). cbn.
    pose proof (find_id_spec (filter (λ i : item_ptr, fi_id i ≠ id_of b) (fd_index (ch_fork_db c1))) (id_of b)) as Hf.
    destruct (find_id _ _) as [k|]; [|done]. destruct Hf as [[Hk _]%list_elem_of_filter E']. done.
Qed.
End proofs.

(** * Worked examples *)

(** A chain state that only follows the blocks: a block whose time is 99 is refused, and
    one signed by ["final"] makes block 2 irreversible. *)
Record toy_state := ToyState { toy_id : block_id; toy_num : Z; toy_lib : Z }.
#[local] Existing Instance FcCryptoRef.fc_crypto_ref.
#[local] Existing Instance FcCryptoRef.fc_crypto_ref_laws.
#[local] Existing Instance toy_ids.
#[local] Existing Instance toy_ids_law.
#[export] Instance toy_apply : BlockApply toy_state := {|
  head_block_id := toy_id;
  head_block_num := toy_num;
  last_irreversible_block_num := toy_lib;
  apply_before b := s ← kget;
    kassert (bool_decide (previous b = toy_id s)) "head_block_id() == next_block.previous";;
    kupdate (λ s, ToyState (id_of b) (block_num b) (if bool_decide (hdr_witness b = "final"%string) then 2 else toy_lib s));;
    kassert (negb (timestamp b =? 99)) "refused";
  apply_after _ := mret tt;
  skips_block_log _ := false
|}.
#[export] Instance toy_apply_laws : BlockApplyLaws toy_state.
Proof.
  split.
  - intros b s s1. cbn. unfold mbind, K_bind, kget, kassert, kupdate. case_bool_decide; [|done]. cbn.
    destruct (negb _); [|done]. by intros [= <-].
  - intros b s r s1 [= <- <-]. done.
Qed.

Definition block_3b := block_after (id_of block_2b) 5.
Definition block_3b' := block_after (id_of block_2b) 99.
Definition toy_start (ops : list fork_op) (blocks : list signed_block) : chain toy_state :=
  let c := Chain (ToyState null_id 0 0) [] 0 empty_fork_database [] [] in
  let c := snd (keach (λ b, in_session (apply_block [] b)) blocks c) in
  c <| ch_fork_db := after_fork_ops ops |>.
(** At block 2a, with block 2b in the fork database. *)
Definition at_fork : chain toy_state :=
  toy_start [StartBlock block_1; PushBlock block_2a; PushBlock block_2b] [block_1; block_2a].
Definition pushed (b : signed_block) : fork_database := snd (fork_push_block b (ch_fork_db at_fork)).
Definition some_item : item_ptr := new_fork_item 0 block_1.
Definition top (b : signed_block) : item_ptr := default some_item (fd_head (pushed b)).
Definition branches (b : signed_block) : list item_ptr * list item_ptr :=
  match fetch_branch_from [top b] (pushed b) (id_of b) (head_block_id (ch_state at_fork)) with Ok p => p | Err _ => ([], []) end.
Definition fork_point (b : signed_block) : item_ptr := default some_item (last (branches b).2).

Lemma at_fork_ok : fork_ok [] (ch_fork_db at_fork).
Proof.
  assert (∀ ops, (∀ op, op ∈ ops → match op with StartBlock b | PushBlock b => 0 < block_num (sb_header b) | _ => False end) →
    ∀ d, fork_ok [] d → fork_ok [] (snd (keach (run_fork_op []) ops d))) as Hops.
  { induction ops as [|op ops IH]; intros Hl d Hd; [done|]. cbn [keach]. unfold mbind, K_bind.
    destruct (run_fork_op [] op d) as [r d'] eqn:E.
    assert (fork_ok [] d') as Hd'.
    { eapply fork_step_ok; [eapply fork_runs; [|exact E]|done]. specialize (Hl op ltac:(by left)). by destruct op. }
    destruct r; [|done]. apply IH; [|done]. intros. apply Hl. by right. }
  apply Hops; [|apply fork_ok_empty]. intros op Hop. set_unfold. destruct Hop as [->|[->|[->|[]]]]; reflexivity.
Qed.
Lemma at_fork_history old : fi_data <$> old = [block_2a] → history (ch_state at_fork) (recent 0 at_fork) (fi_data <$> old).
Proof.
  intros ->. replace (recent 0 at_fork) with [ToyState (id_of block_1) 1 0; ToyState null_id 0 0] by (vm_compute; reflexivity).
  replace (ch_state at_fork) with (ToyState (id_of block_2a) 2 0) by (vm_compute; reflexivity).
  apply history_step; [|constructor]. exists (ToyState (id_of block_2a) 2 0). split; vm_compute; reflexivity.
Qed.
Lemma at_fork_setup b : b = block_3b ∨ b = block_3b' →
  fork_setup 0 at_fork b (top b) (pushed b) (branches b).1 (branches b).2 (fork_point b).
Proof.
  intros [->| ->]; (split; [exact at_fork_ok|vm_compute; reflexivity|vm_compute; reflexivity|vm_compute; apply list_elem_of_In; cbn; tauto
    |vm_compute; discriminate|vm_compute; reflexivity|vm_compute; reflexivity|vm_compute; reflexivity
    |apply at_fork_history; vm_compute; reflexivity]).
Qed.

Lemma switch_reaches_new_head_witness :
  fd_head (ch_fork_db (snd (_push_block false block_3b at_fork))) = (branches block_3b).1 !! length (branches block_3b).2.
Proof.
  destruct (_push_block false block_3b at_fork) as [r c'] eqn:E. destruct r as [u|e]; [|vm_compute in E; discriminate E].
  apply (switch_reaches_new_head 0 at_fork block_3b _ _ _ _ _ u c' (at_fork_setup _ (or_introl eq_refl)) E).
Defined.
Lemma toy_quiet (b : signed_block) s : hdr_witness b = "w"%string → settled 0 s → quiet 0 s b.
Proof.
  intros Hb Hs s1. unfold settled in *. cbn. unfold mbind, K_bind, kget, kassert, kupdate. case_bool_decide; [|done]. cbn.
  rewrite Hb. destruct (negb _); [|done]. intros [= <-]. cbn. exact Hs.
Qed.

Lemma toy_quiet_run bl : ∀ s, (∀ b : signed_block, b ∈ bl → hdr_witness b = "w"%string) → settled 0 s → quiet_run 0 s bl.
Proof.
  induction bl as [|b bl IH]; intros s Hbl Hs; [done|]. split; [apply toy_quiet; [apply Hbl; by left|done]|].
  intros s' (s1 & H1 & [= <-]). apply IH; [intros; apply Hbl; by right|]. by apply (toy_quiet b s (Hbl b ltac:(by left)) Hs).
Qed.

Lemma failed_switch_restores_witness :
  ch_state (snd (_push_block false block_3b' at_fork)) = ToyState (id_of block_2a) 2 0.
Proof.
  destruct (_push_block false block_3b' at_fork) as [r c'] eqn:E. destruct r as [u|e]; [vm_compute in E; discriminate E|].
  assert (∃ p, p ∈ fd_index (pushed block_3b') ∧ fi_prev (fork_point block_3b') = Some (address p) ∧ fi_num p = 1) as (p & Hp & Hv & Hn).
  { exists (default some_item (fd_index (pushed block_3b') !! 0%nat)). split_and!; [|vm_compute; reflexivity..].
    vm_compute. apply list_elem_of_In. by left. }
  assert (∀ s, s ∈ ch_state at_fork :: recent 0 at_fork → settled 0 s) as Hset.
  { replace (ch_state at_fork :: recent 0 at_fork) with [ToyState (id_of block_2a) 2 0; ToyState (id_of block_1) 1 0; ToyState null_id 0 0]
      by (vm_compute; reflexivity).
    apply Forall_forall. repeat constructor; vm_compute; discriminate. }
  etransitivity; [apply (failed_switch_restores 0 at_fork block_3b' _ _ _ _ _ p e c' (at_fork_setup _ (or_intror eq_refl)) Hv Hp)|vm_compute; reflexivity].
  - vm_compute. reflexivity.
  - vm_compute. reflexivity.
  - vm_compute. reflexivity.
  - lia.
  - vm_compute. discriminate.
  - exact Hset.
  - intros s Hs%list_elem_of_lookup_2%Hset. apply toy_quiet_run; [|exact Hs]. apply Forall_forall. vm_compute. repeat constructor.
  - exact E.
Defined.
Lemma push_block_extends_witness : ch_revision (snd (_push_block false (block_after (id_of block_2a) 6) at_fork)) = 3.
Proof.
  destruct (_push_block false (block_after (id_of block_2a) 6) at_fork) as [r c'] eqn:E. destruct r as [u|e]; [|vm_compute in E; discriminate E].
  destruct (fork_push_block (block_after (id_of block_2a) 6) (ch_fork_db at_fork)) as [[[h|]|] d] eqn:Ed;
    [|vm_compute in Ed; discriminate Ed..].
  assert (Hh : previous_id h = head_block_id (ch_state at_fork)) by (vm_compute in Ed |- *; injection Ed as <- _; reflexivity).
  assert (H0 : ch_revision at_fork = 2) by (vm_compute; reflexivity).
  assert (H1 : 0 < block_num (block_after (id_of block_2a) 6)) by (vm_compute; reflexivity).
  assert (H2 : log_head_num (ch_log at_fork) = 0) by (vm_compute; reflexivity).
  assert (H3 : 0 ≤ ch_revision at_fork) by (rewrite H0; discriminate).
  assert (H4 : settled 0 (ch_state at_fork)) by (vm_compute; split; discriminate).
  pose proof (push_block_extends 0 at_fork _ h d (Ok u) c' at_fork_ok H1 Ed Hh H2 H3 (toy_quiet (block_after (id_of block_2a) 6) _ eq_refl H4) E) as ((_ & _ & _ & Hrev) & _).
  cbn [snd]. rewrite Hrev, H0. reflexivity.
Defined.

(** ** A failed switch can lose blocks *)

Fixpoint branch_on (prev : block_id) (times : list Z) : list signed_block :=
  match times with
  | [] => []
  | t :: times => let b := block_after prev t in b :: branch_on (id_of b) times
  end.
(** Six blocks; a branch on the first whose second block will be refused; and a block on
    the sixth that makes block 2 irreversible. *)
Definition main_branch : list signed_block := branch_on null_id [1; 2; 3; 4; 5; 6].
Definition bad_branch : list signed_block := branch_on (id_of block_1) [99; 13; 14; 15; 16; 17].
Definition next_block : signed_block :=
  let b := block_after (default null_id (id_of <$> last main_branch)) 7 in
  SignedBlock {| header := {| previous := previous b; timestamp := timestamp b; hdr_witness := "final";
                   transaction_merkle_root := []; hdr_extensions := [] |};
                 witness_signature := "s" |} [].
Definition before_bad_switch : chain toy_state :=
  toy_start (StartBlock block_1 :: (PushBlock <$> (tail main_branch ++ take 5 bad_branch))) main_branch.
Definition after_bad_switch : chain toy_state :=
  snd (_push_block false (default block_1 (last bad_branch)) before_bad_switch).

(** While the handler applies the old branch again, [update_last_irreversible_block]
    prunes the fork database by the height of its head, which is already that of the
    old head: blocks of the current chain are dropped.  In this run the next block is
    applied before the failed switch but can not be applied after it, because block 1
    is missing when block 2 becomes irreversible. *)
Example failed_switch_loses_blocks :
  ch_state after_bad_switch = ch_state before_bad_switch ∧
  fst (_push_block false next_block before_bad_switch) = Ok false ∧
  fst (_push_block false next_block after_bad_switch) =
    Err (assert_exception "Current fork in the fork database does not contain the last_irreversible_block").
Proof. split_and!; vm_compute; reflexivity. Qed.
