(* ===== verification/Objects.v ===== *)
(** The objects of the chain state: [chain/account_object.hpp],
    [node_objects.hpp], [witness_objects.hpp], [comment_object.hpp],
    [global_property_object.hpp].

    One record per object, its fields prefixed by a short tag of the object, and
    the [database] holding one table per index.  A table is keyed by the unique
    key the code looks its objects up with; [next_id] is the id chainbase gives
    the next object.  The singletons (global properties, witness schedule, feed
    history, hard-fork properties) are fields of their own.  [virtual_ops] logs
    the virtual operations pushed to observers. *)

From S2P Require Import Prelude Fc Config Asset Flat Authority Version BlockHeader Operations.

(** [curve_id], libraries/chain/include/node/chain/node_objects.hpp:252-258 *)
Inductive curve_id := quadratic | quadratic_curation | linear | square_root.

(** [witness_schedule_type], libraries/chain/include/node/chain/witness_objects.hpp:31-37 *)
Inductive witness_schedule_type := sched_top19 | sched_timeshare | sched_miner | sched_none.

(** [account_object], libraries/chain/include/node/chain/account_object.hpp:19-127 *)
Record account_object := Make_account_object {
  acc_id : Z;
  acc_name : account_name;
  acc_memoKey : public_key;
  acc_json : string;
  acc_proxy : account_name;
  acc_last_accountUpdate : Z;
  acc_created : Z;
  acc_mined : bool;
  acc_owner_challenged : bool;
  acc_active_challenged : bool;
  acc_last_owner_proved : Z;
  acc_last_active_proved : Z;
  acc_recoveryAccount : account_name;
  acc_reset_account : account_name;
  acc_last_account_recovery : Z;
  acc_comment_count : Z;
  acc_lifetime_vote_count : Z;
  acc_post_count : Z;
  acc_can_vote : bool;
  acc_voting_power : Z;
  acc_last_vote_time : Z;
  acc_balance : asset;
  acc_TMEsavingsBalance : asset;
  acc_TSDbalance : asset;
  acc_TSD_seconds : Z;
  acc_TSD_seconds_last_update : Z;
  acc_TSD_last_interest_payment : Z;
  acc_TSDsavingsBalance : asset;
  acc_savings_TSD_seconds : Z;
  acc_savings_TSD_seconds_last_update : Z;
  acc_savings_TSD_last_interest_payment : Z;
  acc_savings_withdraw_requests : Z;
  acc_SCORErewardBalanceInTME : asset;
  acc_TMErewardBalance : asset;
  acc_SCORErewardBalance : asset;
  acc_TSDrewardBalance : asset;
  acc_curationRewards : Z;
  acc_posting_rewards : Z;
  acc_SCORE : asset;
  acc_SCOREDelegated : asset;
  acc_SCOREreceived : asset;
  acc_SCOREwithdrawRateInTME : asset;
  acc_nextSCOREwithdrawalTime : Z;
  acc_withdrawn : Z;
  acc_to_withdraw : Z;
  acc_withdraw_routes : Z;
  acc_proxied_votes : list Z;
  acc_witnesses_voted_for : Z;
  acc_last_post : Z;
  acc_last_root_post : Z;
  acc_post_bandwidth : Z;
}.
#[export] Instance eta_account_object : Eta account_object :=
  λ r, Make_account_object (acc_id r) (acc_name r) (acc_memoKey r) (acc_json r) (acc_proxy r)
    (acc_last_accountUpdate r) (acc_created r) (acc_mined r) (acc_owner_challenged r)
    (acc_active_challenged r) (acc_last_owner_proved r) (acc_last_active_proved r)
    (acc_recoveryAccount r) (acc_reset_account r) (acc_last_account_recovery r)
    (acc_comment_count r) (acc_lifetime_vote_count r) (acc_post_count r) (acc_can_vote r)
    (acc_voting_power r) (acc_last_vote_time r) (acc_balance r) (acc_TMEsavingsBalance r)
    (acc_TSDbalance r) (acc_TSD_seconds r) (acc_TSD_seconds_last_update r)
    (acc_TSD_last_interest_payment r) (acc_TSDsavingsBalance r) (acc_savings_TSD_seconds r)
    (acc_savings_TSD_seconds_last_update r) (acc_savings_TSD_last_interest_payment r)
    (acc_savings_withdraw_requests r) (acc_SCORErewardBalanceInTME r) (acc_TMErewardBalance r)
    (acc_SCORErewardBalance r) (acc_TSDrewardBalance r) (acc_curationRewards r)
    (acc_posting_rewards r) (acc_SCORE r) (acc_SCOREDelegated r) (acc_SCOREreceived r)
    (acc_SCOREwithdrawRateInTME r) (acc_nextSCOREwithdrawalTime r) (acc_withdrawn r)
    (acc_to_withdraw r) (acc_withdraw_routes r) (acc_proxied_votes r) (acc_witnesses_voted_for
    r) (acc_last_post r) (acc_last_root_post r) (acc_post_bandwidth r).

(** [account_authority_object], libraries/chain/include/node/chain/account_object.hpp:129-150 *)
Record account_authority_object := Make_account_authority_object {
  aao_id : Z;
  aao_account : account_name;
  aao_owner : authority;
  aao_active : authority;
  aao_posting : authority;
  aao_last_owner_update : Z;
}.
#[export] Instance eta_account_authority_object : Eta account_authority_object :=
  λ r, Make_account_authority_object (aao_id r) (aao_account r) (aao_owner r) (aao_active r)
    (aao_posting r) (aao_last_owner_update r).

(** [TME_fund_for_SCORE_delegation_object], libraries/chain/include/node/chain/account_object.hpp:152-168 *)
Record TME_fund_for_SCORE_delegation_object := Make_TME_fund_for_SCORE_delegation_object {
  dlg_id : Z;
  dlg_delegator : account_name;
  dlg_delegatee : account_name;
  dlg_SCORE : asset;
  dlg_min_delegation_time : Z;
}.
#[export] Instance eta_TME_fund_for_SCORE_delegation_object : Eta TME_fund_for_SCORE_delegation_object :=
  λ r, Make_TME_fund_for_SCORE_delegation_object (dlg_id r) (dlg_delegator r) (dlg_delegatee r)
    (dlg_SCORE r) (dlg_min_delegation_time r).

(** [TME_fund_for_SCORE_delegation_expiration_object], libraries/chain/include/node/chain/account_object.hpp:170-185 *)
Record TME_fund_for_SCORE_delegation_expiration_object := Make_TME_fund_for_SCORE_delegation_expiration_object {
  dlx_id : Z;
  dlx_delegator : account_name;
  dlx_SCORE : asset;
  dlx_expiration : Z;
}.
#[export] Instance eta_TME_fund_for_SCORE_delegation_expiration_object : Eta TME_fund_for_SCORE_delegation_expiration_object :=
  λ r, Make_TME_fund_for_SCORE_delegation_expiration_object (dlx_id r) (dlx_delegator r) (dlx_SCORE
    r) (dlx_expiration r).

(** [owner_authority_history_object], libraries/chain/include/node/chain/account_object.hpp:187-204 *)
Record owner_authority_history_object := Make_owner_authority_history_object {
  oah_id : Z;
  oah_account : account_name;
  oah_previous_owner_authority : authority;
  oah_last_valid_time : Z;
}.
#[export] Instance eta_owner_authority_history_object : Eta owner_authority_history_object :=
  λ r, Make_owner_authority_history_object (oah_id r) (oah_account r) (oah_previous_owner_authority
    r) (oah_last_valid_time r).

(** [account_recovery_request_object], libraries/chain/include/node/chain/account_object.hpp:206-223 *)
Record account_recovery_request_object := Make_account_recovery_request_object {
  arr_id : Z;
  arr_accountToRecover : account_name;
  arr_new_owner_authority : authority;
  arr_expires : Z;
}.
#[export] Instance eta_account_recovery_request_object : Eta account_recovery_request_object :=
  λ r, Make_account_recovery_request_object (arr_id r) (arr_accountToRecover r)
    (arr_new_owner_authority r) (arr_expires r).

(** [change_recoveryAccount_request_object], libraries/chain/include/node/chain/account_object.hpp:225-239 *)
Record change_recoveryAccount_request_object := Make_change_recoveryAccount_request_object {
  crr_id : Z;
  crr_accountToRecover : account_name;
  crr_recoveryAccount : account_name;
  crr_effective_on : Z;
}.
#[export] Instance eta_change_recoveryAccount_request_object : Eta change_recoveryAccount_request_object :=
  λ r, Make_change_recoveryAccount_request_object (crr_id r) (crr_accountToRecover r)
    (crr_recoveryAccount r) (crr_effective_on r).

(** [convert_request_object], libraries/chain/include/node/chain/node_objects.hpp:23-40 *)
Record convert_request_object := Make_convert_request_object {
  cnv_id : Z;
  cnv_owner : account_name;
  cnv_requestid : Z;
  cnv_amount : asset;
  cnv_conversion_date : Z;
}.
#[export] Instance eta_convert_request_object : Eta convert_request_object :=
  λ r, Make_convert_request_object (cnv_id r) (cnv_owner r) (cnv_requestid r) (cnv_amount r)
    (cnv_conversion_date r).

(** [escrow_object], libraries/chain/include/node/chain/node_objects.hpp:43-70 *)
Record escrow_object := Make_escrow_object {
  esc_id : Z;
  esc_escrow_id : Z;
  esc_from : account_name;
  esc_to : account_name;
  esc_agent : account_name;
  esc_ratification_deadline : Z;
  esc_escrow_expiration : Z;
  esc_TSDbalance : asset;
  esc_TMEbalance : asset;
  esc_pending_fee : asset;
  esc_to_approved : bool;
  esc_agent_approved : bool;
  esc_disputed : bool;
}.
#[export] Instance eta_escrow_object : Eta escrow_object :=
  λ r, Make_escrow_object (esc_id r) (esc_escrow_id r) (esc_from r) (esc_to r) (esc_agent r)
    (esc_ratification_deadline r) (esc_escrow_expiration r) (esc_TSDbalance r) (esc_TMEbalance
    r) (esc_pending_fee r) (esc_to_approved r) (esc_agent_approved r) (esc_disputed r).

(** [savings_withdraw_object], libraries/chain/include/node/chain/node_objects.hpp:73-93 *)
Record savings_withdraw_object := Make_savings_withdraw_object {
  swd_id : Z;
  swd_from : account_name;
  swd_to : account_name;
  swd_memo : string;
  swd_request_id : Z;
  swd_amount : asset;
  swd_complete : Z;
}.
#[export] Instance eta_savings_withdraw_object : Eta savings_withdraw_object :=
  λ r, Make_savings_withdraw_object (swd_id r) (swd_from r) (swd_to r) (swd_memo r) (swd_request_id
    r) (swd_amount r) (swd_complete r).

(** [liquidity_reward_balance_object], libraries/chain/include/node/chain/node_objects.hpp:107-147 *)
Record liquidity_reward_balance_object := Make_liquidity_reward_balance_object {
  lrb_id : Z;
  lrb_owner : Z;
  lrb_TME_volume : Z;
  lrb_TSD_volume : Z;
  lrb_weight : Z;
  lrb_last_update : Z;
}.
#[export] Instance eta_liquidity_reward_balance_object : Eta liquidity_reward_balance_object :=
  λ r, Make_liquidity_reward_balance_object (lrb_id r) (lrb_owner r) (lrb_TME_volume r)
    (lrb_TSD_volume r) (lrb_weight r) (lrb_last_update r).

(** [feed_history_object], libraries/chain/include/node/chain/node_objects.hpp:153-169 *)
Record feed_history_object := Make_feed_history_object {
  fdh_current_median_history : price;
  fdh_price_history : list price;
}.
#[export] Instance eta_feed_history_object : Eta feed_history_object :=
  λ r, Make_feed_history_object (fdh_current_median_history r) (fdh_price_history r).

(** [limit_order_object], libraries/chain/include/node/chain/node_objects.hpp:180-209 *)
Record limit_order_object := Make_limit_order_object {
  ord_id : Z;
  ord_created : Z;
  ord_expiration : Z;
  ord_seller : account_name;
  ord_orderid : Z;
  ord_for_sale : Z;
  ord_sell_price : price;
}.
#[export] Instance eta_limit_order_object : Eta limit_order_object :=
  λ r, Make_limit_order_object (ord_id r) (ord_created r) (ord_expiration r) (ord_seller r)
    (ord_orderid r) (ord_for_sale r) (ord_sell_price r).

(** [withdrawSCORE_route_object], libraries/chain/include/node/chain/node_objects.hpp:215-232 *)
Record withdrawSCORE_route_object := Make_withdrawSCORE_route_object {
  rte_id : Z;
  rte_from_account : Z;
  rte_to_account : Z;
  rte_percent : Z;
  rte_autoSCORE : bool;
}.
#[export] Instance eta_withdrawSCORE_route_object : Eta withdrawSCORE_route_object :=
  λ r, Make_withdrawSCORE_route_object (rte_id r) (rte_from_account r) (rte_to_account r)
    (rte_percent r) (rte_autoSCORE r).

(** [decline_voting_rights_request_object], libraries/chain/include/node/chain/node_objects.hpp:235-250 *)
Record decline_voting_rights_request_object := Make_decline_voting_rights_request_object {
  dvr_id : Z;
  dvr_account : Z;
  dvr_effective_date : Z;
}.
#[export] Instance eta_decline_voting_rights_request_object : Eta decline_voting_rights_request_object :=
  λ r, Make_decline_voting_rights_request_object (dvr_id r) (dvr_account r) (dvr_effective_date r).

(** [reward_fund_object], libraries/chain/include/node/chain/node_objects.hpp:260-281 *)
Record reward_fund_object := Make_reward_fund_object {
  rwf_id : Z;
  rwf_name : account_name;
  rwf_reward_balance : asset;
  rwf_recent_claims : Z;
  rwf_last_update : Z;
  rwf_content_constant : Z;
  rwf_percent_curationRewards : Z;
  rwf_percent_content_rewards : Z;
  rwf_authorReward_curve : curve_id;
  rwf_curationReward_curve : curve_id;
}.
#[export] Instance eta_reward_fund_object : Eta reward_fund_object :=
  λ r, Make_reward_fund_object (rwf_id r) (rwf_name r) (rwf_reward_balance r) (rwf_recent_claims r)
    (rwf_last_update r) (rwf_content_constant r) (rwf_percent_curationRewards r)
    (rwf_percent_content_rewards r) (rwf_authorReward_curve r) (rwf_curationReward_curve r).

(** [dynamic_global_property_object], libraries/chain/include/node/chain/global_property_object.hpp:22-116 *)
Record dynamic_global_property_object := Make_dynamic_global_property_object {
  gpo_head_block_number : Z;
  gpo_head_block_id : block_id;
  gpo_time : Z;
  gpo_current_witness : account_name;
  gpo_total_pow : Z;
  gpo_num_pow_witnesses : Z;
  gpo_virtual_supply : asset;
  gpo_current_supply : asset;
  gpo_confidential_supply : asset;
  gpo_current_TSD_supply : asset;
  gpo_confidential_TSD_supply : asset;
  gpo_totalTMEfundForSCORE : asset;
  gpo_totalSCORE : asset;
  gpo_total_reward_fund_TME : asset;
  gpo_totalSCOREreward2 : Z;
  gpo_pending_rewarded_SCORE : asset;
  gpo_pending_rewarded_SCOREvalueInTME : asset;
  gpo_TSD_interest_rate : Z;
  gpo_TSD_print_rate : Z;
  gpo_maximum_block_size : Z;
  gpo_current_aslot : Z;
  gpo_recent_slots_filled : Z;
  gpo_participation_count : Z;
  gpo_last_irreversible_block_num : Z;
  gpo_vote_power_reserve_rate : Z;
}.
#[export] Instance eta_dynamic_global_property_object : Eta dynamic_global_property_object :=
  λ r, Make_dynamic_global_property_object (gpo_head_block_number r) (gpo_head_block_id r)
    (gpo_time r) (gpo_current_witness r) (gpo_total_pow r) (gpo_num_pow_witnesses r)
    (gpo_virtual_supply r) (gpo_current_supply r) (gpo_confidential_supply r)
    (gpo_current_TSD_supply r) (gpo_confidential_TSD_supply r) (gpo_totalTMEfundForSCORE r)
    (gpo_totalSCORE r) (gpo_total_reward_fund_TME r) (gpo_totalSCOREreward2 r)
    (gpo_pending_rewarded_SCORE r) (gpo_pending_rewarded_SCOREvalueInTME r)
    (gpo_TSD_interest_rate r) (gpo_TSD_print_rate r) (gpo_maximum_block_size r)
    (gpo_current_aslot r) (gpo_recent_slots_filled r) (gpo_participation_count r)
    (gpo_last_irreversible_block_num r) (gpo_vote_power_reserve_rate r).

(** [witness_object], libraries/chain/include/node/chain/witness_objects.hpp:26-119 *)
Record witness_object := Make_witness_object {
  wit_id : Z;
  wit_owner : account_name;
  wit_created : Z;
  wit_url : string;
  wit_total_missed : Z;
  wit_last_aslot : Z;
  wit_last_confirmed_block_num : Z;
  wit_pow_worker : Z;
  wit_signing_key : public_key;
  wit_props : chain_properties;
  wit_TSD_exchange_rate : price;
  wit_last_TSD_exchange_update : Z;
  wit_votes : Z;
  wit_schedule : witness_schedule_type;
  wit_virtual_last_update : Z;
  wit_virtual_position : Z;
  wit_virtual_scheduled_time : Z;
  wit_last_work : string;
  wit_running_version : Z;
  wit_hardfork_version_vote : Z;
  wit_hardfork_time_vote : Z;
}.
#[export] Instance eta_witness_object : Eta witness_object :=
  λ r, Make_witness_object (wit_id r) (wit_owner r) (wit_created r) (wit_url r) (wit_total_missed
    r) (wit_last_aslot r) (wit_last_confirmed_block_num r) (wit_pow_worker r) (wit_signing_key
    r) (wit_props r) (wit_TSD_exchange_rate r) (wit_last_TSD_exchange_update r) (wit_votes r)
    (wit_schedule r) (wit_virtual_last_update r) (wit_virtual_position r)
    (wit_virtual_scheduled_time r) (wit_last_work r) (wit_running_version r)
    (wit_hardfork_version_vote r) (wit_hardfork_time_vote r).

(** [witness_vote_object], libraries/chain/include/node/chain/witness_objects.hpp:122-137 *)
Record witness_vote_object := Make_witness_vote_object {
  wvo_id : Z;
  wvo_witness : Z;
  wvo_account : Z;
}.
#[export] Instance eta_witness_vote_object : Eta witness_vote_object :=
  λ r, Make_witness_vote_object (wvo_id r) (wvo_witness r) (wvo_account r).

(** [witness_schedule_object], libraries/chain/include/node/chain/witness_objects.hpp:139-167 *)
Record witness_schedule_object := Make_witness_schedule_object {
  wso_current_virtual_time : Z;
  wso_next_shuffle_block_num : Z;
  wso_current_shuffled_witnesses : list account_name;
  wso_num_scheduled_witnesses : Z;
  wso_top19_weight : Z;
  wso_timeshare_weight : Z;
  wso_miner_weight : Z;
  wso_witness_pay_normalization_factor : Z;
  wso_median_props : chain_properties;
  wso_majority_version : Z;
  wso_max_voted_witnesses : Z;
  wso_max_miner_witnesses : Z;
  wso_max_runner_witnesses : Z;
  wso_hardfork_required_witnesses : Z;
}.
#[export] Instance eta_witness_schedule_object : Eta witness_schedule_object :=
  λ r, Make_witness_schedule_object (wso_current_virtual_time r) (wso_next_shuffle_block_num r)
    (wso_current_shuffled_witnesses r) (wso_num_scheduled_witnesses r) (wso_top19_weight r)
    (wso_timeshare_weight r) (wso_miner_weight r) (wso_witness_pay_normalization_factor r)
    (wso_median_props r) (wso_majority_version r) (wso_max_voted_witnesses r)
    (wso_max_miner_witnesses r) (wso_max_runner_witnesses r) (wso_hardfork_required_witnesses r).

(** [comment_object], libraries/chain/include/node/chain/comment_object.hpp:40-102 *)
Record comment_object := Make_comment_object {
  cmt_id : Z;
  cmt_category : string;
  cmt_parent_author : account_name;
  cmt_parent_permlink : string;
  cmt_author : account_name;
  cmt_permlink : string;
  cmt_title : string;
  cmt_body : string;
  cmt_json : string;
  cmt_last_update : Z;
  cmt_created : Z;
  cmt_active : Z;
  cmt_last_payout : Z;
  cmt_depth : Z;
  cmt_children : Z;
  cmt_net_SCOREreward : Z;
  cmt_abs_SCOREreward : Z;
  cmt_vote_SCOREreward : Z;
  cmt_children_abs_SCOREreward : Z;
  cmt_cashout_time : Z;
  cmt_max_cashout_time : Z;
  cmt_total_vote_weight : Z;
  cmt_reward_weight : Z;
  cmt_total_payout_value : asset;
  cmt_curator_payout_value : asset;
  cmt_beneficiary_payout_value : asset;
  cmt_authorRewards : Z;
  cmt_net_votes : Z;
  cmt_root_comment : Z;
  cmt_max_accepted_payout : asset;
  cmt_percent_TSD : Z;
  cmt_allow_replies : bool;
  cmt_allow_votes : bool;
  cmt_allow_curationRewards : bool;
  cmt_beneficiaries : list beneficiary_route_type;
}.
#[export] Instance eta_comment_object : Eta comment_object :=
  λ r, Make_comment_object (cmt_id r) (cmt_category r) (cmt_parent_author r) (cmt_parent_permlink
    r) (cmt_author r) (cmt_permlink r) (cmt_title r) (cmt_body r) (cmt_json r) (cmt_last_update
    r) (cmt_created r) (cmt_active r) (cmt_last_payout r) (cmt_depth r) (cmt_children r)
    (cmt_net_SCOREreward r) (cmt_abs_SCOREreward r) (cmt_vote_SCOREreward r)
    (cmt_children_abs_SCOREreward r) (cmt_cashout_time r) (cmt_max_cashout_time r)
    (cmt_total_vote_weight r) (cmt_reward_weight r) (cmt_total_payout_value r)
    (cmt_curator_payout_value r) (cmt_beneficiary_payout_value r) (cmt_authorRewards r)
    (cmt_net_votes r) (cmt_root_comment r) (cmt_max_accepted_payout r) (cmt_percent_TSD r)
    (cmt_allow_replies r) (cmt_allow_votes r) (cmt_allow_curationRewards r) (cmt_beneficiaries
    r).

(** [comment_vote_object], libraries/chain/include/node/chain/comment_object.hpp:109-127 *)
Record comment_vote_object := Make_comment_vote_object {
  cvo_id : Z;
  cvo_voter : Z;
  cvo_comment : Z;
  cvo_weight : Z;
  cvo_SCOREreward : Z;
  cvo_vote_percent : Z;
  cvo_last_update : Z;
  cvo_num_changes : Z;
}.
#[export] Instance eta_comment_vote_object : Eta comment_vote_object :=
  λ r, Make_comment_vote_object (cvo_id r) (cvo_voter r) (cvo_comment r) (cvo_weight r)
    (cvo_SCOREreward r) (cvo_vote_percent r) (cvo_last_update r) (cvo_num_changes r).

(** [hardfork_property_object], libraries/chain/hardfork.d/0-preamble.hf:17-34 *)
Record hardfork_property_object := Make_hardfork_property_object {
  hpo_processed_hardforks : list Z;
  hpo_last_hardfork : Z;
  hpo_current_hardfork_version : Z;
  hpo_next_hardfork : Z;
  hpo_next_hardfork_time : Z;
}.
#[export] Instance eta_hardfork_property_object : Eta hardfork_property_object :=
  λ r, Make_hardfork_property_object (hpo_processed_hardforks r) (hpo_last_hardfork r)
    (hpo_current_hardfork_version r) (hpo_next_hardfork r) (hpo_next_hardfork_time r).

(** [transaction_object], libraries/chain/include/node/chain/transaction_object.hpp:17-34 *)
Record transaction_object := Make_transaction_object {
  tro_id : Z;
  tro_packed_trx : string;
  tro_trx_id : string;
  tro_expiration : Z;
}.
#[export] Instance eta_transaction_object : Eta transaction_object :=
  λ r, Make_transaction_object (tro_id r) (tro_packed_trx r) (tro_trx_id r) (tro_expiration r).

(** [block_summary_object], libraries/chain/include/node/chain/block_summary_object.hpp:17-30 *)
Record block_summary_object := Make_block_summary_object {
  bso_id : Z;
  bso_block_id : block_id;
}.
#[export] Instance eta_block_summary_object : Eta block_summary_object :=
  λ r, Make_block_summary_object (bso_id r) (bso_block_id r).

(** * Tables and the database *)

(** A chainbase index: its objects by key, and the next id. *)
Record table (K V : Type) `{Countable K} := Table { rows : gmap K V; next_id : Z }.
Arguments Table {K V _ _} rows next_id.
Arguments rows {K V _ _} t.
Arguments next_id {K V _ _} t.

Record database := Make_database {
  gpo : dynamic_global_property_object;
  accounts : table account_name account_object;
  account_authorities : table account_name account_authority_object;
  witnesses : table account_name witness_object;
  witness_votes : table (Z * Z) witness_vote_object;
  witness_schedule : witness_schedule_object;
  feed_history : feed_history_object;
  hardforks : hardfork_property_object;
  limit_orders : table (account_name * Z) limit_order_object;
  convert_requests : table (account_name * Z) convert_request_object;
  escrows : table (account_name * Z) escrow_object;
  savings_withdraws : table (account_name * Z) savings_withdraw_object;
  delegations : table (account_name * account_name) TME_fund_for_SCORE_delegation_object;
  delegation_expirations : table Z TME_fund_for_SCORE_delegation_expiration_object;
  withdraw_routes : table (Z * Z) withdrawSCORE_route_object;
  decline_requests : table Z decline_voting_rights_request_object;
  owner_histories : table Z owner_authority_history_object;
  recovery_requests : table account_name account_recovery_request_object;
  change_recovery_requests : table account_name change_recoveryAccount_request_object;
  comments : table (account_name * string) comment_object;
  comment_votes : table (Z * Z) comment_vote_object;
  liquidity_rewards : table Z liquidity_reward_balance_object;
  reward_funds : table account_name reward_fund_object;
  transactions : table string transaction_object;
  block_summaries : table Z block_summary_object;
  virtual_ops : list operation;
}.
#[export] Instance eta_database : Eta database :=
  λ r, Make_database (gpo r) (accounts r) (account_authorities r) (witnesses r)
    (witness_votes r) (witness_schedule r) (feed_history r) (hardforks r)
    (limit_orders r) (convert_requests r) (escrows r) (savings_withdraws r)
    (delegations r) (delegation_expirations r) (withdraw_routes r) (decline_requests
    r) (owner_histories r) (recovery_requests r) (change_recovery_requests r)
    (comments r) (comment_votes r) (liquidity_rewards r) (reward_funds r)
    (transactions r) (block_summaries r) (virtual_ops r).
