(* ===== verification/Database.v ===== *)
(** The database: access to the tables, [chain/database.cpp] and
    [chainbase/chainbase.hpp].

    A computation over the [database] is a [DB]; the table operations are generic
    in the field of [database] that holds the table.  [set_row] and the other
    pure updates are what the lemmas about later components talk about. *)

From S2P Require Import Prelude Fc Config Asset Flat Authority Operations Objects.

Abbreviation DB := (M database).

Definition set_row `{Countable K} {V} (t : database → table K V) `{!Setter t}
    (k : K) (v : V) (s : database) : database :=
  s <| t ::= λ tb, Table (<[k := v]> (rows tb)) (next_id tb) |>.
Definition del_row `{Countable K} {V} (t : database → table K V) `{!Setter t}
    (k : K) (s : database) : database :=
  s <| t ::= λ tb, Table (delete k (rows tb)) (next_id tb) |>.
Definition add_row `{Countable K} {V} (t : database → table K V) `{!Setter t}
    (k : K) (v : V) (s : database) : database :=
  s <| t ::= λ tb, Table (<[k := v]> (rows tb)) (next_id tb + 1) |>.

Section tables.
Context `{Countable K} {V : Type} (t : database → table K V) `{!Setter t}.

(** [database::find], libraries/chainbase/include/chainbase/chainbase.hpp:860-880 *)
Definition find (k : K) : DB (option V) := s ← get_state; mret (rows (t s) !! k).
(** [database::get], libraries/chainbase/include/chainbase/chainbase.hpp:882-898 *)
Definition get (k : K) : DB V :=
  v ← find k;
  match v with Some v => mret v | None => throw (out_of_range "unknown key") end.
(** [database::modify], libraries/chainbase/include/chainbase/chainbase.hpp:900-906 *)
Definition modify (k : K) (f : V → result V) : DB unit :=
  v ← get k; v' ← lift (f v); s ← get_state; put_state (set_row t k v' s).
(** [database::remove], libraries/chainbase/include/chainbase/chainbase.hpp:908-914 *)
Definition remove (k : K) : DB unit := s ← get_state; put_state (del_row t k s).
(** [database::create], libraries/chainbase/include/chainbase/chainbase.hpp:916-922 *)
Definition create (k : K) (mk : Z → V) : DB unit :=
  v ← find k;
  match v with
  | Some _ => throw (logic_error
      "could not insert object, most likely a uniqueness constraint was violated")
  | None => s ← get_state; put_state (add_row t k (mk (next_id (t s))) s)
  end.

Lemma runs_find k s v s' : ⟨ find k, s ⟩ ⇓ ⟨ v, s' ⟩ ↔ v = rows (t s) !! k ∧ s' = s.
Proof. unfold runs, find, mbind, M_bind, get_state, mret, M_ret. naive_solver. Qed.

Lemma runs_getr k s v s' : ⟨ get k, s ⟩ ⇓ ⟨ v, s' ⟩ ↔ rows (t s) !! k = Some v ∧ s' = s.
Proof.
  unfold get. split.
  - intros (o & s1 & [-> ->]%runs_find & Hr)%runs_bind.
    destruct (rows (t s) !! k) eqn:E; [|by apply runs_throw in Hr].
    by apply runs_ret in Hr as [-> <-].
  - intros [Hk ->]. apply (runs_bind_intro _ _ s (Some v) s); [by apply runs_find|by apply runs_ret].
Qed.

Lemma runs_modify k f s u s' :
  ⟨ modify k f, s ⟩ ⇓ ⟨ u, s' ⟩ ↔
    ∃ v v', rows (t s) !! k = Some v ∧ f v = Ok v' ∧ s' = set_row t k v' s.
Proof.
  unfold modify. split.
  - intros Hr. apply runs_bind in Hr as (v & s1 & [Hk ->]%runs_getr & Hr). runs_inv. eauto.
  - intros (v & v' & Hk & Hf & ->). destruct u. eapply runs_bind_intro; [by apply runs_getr|].
    eapply runs_bind_intro; [by apply runs_lift|]. done.
Qed.

Lemma runs_remove k s u s' : ⟨ remove k, s ⟩ ⇓ ⟨ u, s' ⟩ ↔ s' = del_row t k s.
Proof. destruct u. unfold runs, remove, mbind, M_bind, get_state, put_state. naive_solver. Qed.

Lemma runs_create k mk s u s' :
  ⟨ create k mk, s ⟩ ⇓ ⟨ u, s' ⟩ ↔
    rows (t s) !! k = None ∧ s' = add_row t k (mk (next_id (t s))) s.
Proof.
  unfold create. split.
  - intros (o & s1 & [-> ->]%runs_find & Hr)%runs_bind.
    destruct (rows (t s) !! k) eqn:E; [by apply runs_throw in Hr|]. runs_inv. done.
  - intros [Hk ->]. destruct u. apply (runs_bind_intro _ _ s None s); [by apply runs_find|].
    eapply runs_bind_intro; [by apply runs_get|]. by apply (runs_put _ _ tt).
Qed.
End tables.

(** A singleton object is a field of the database; [modify] on it. *)
Definition modify1 {V} (f : database → V) `{!Setter f} (g : V → result V) : DB unit :=
  s ← get_state; v ← lift (g (f s)); put_state (s <| f := v |>).

Lemma runs_modify1 {V} (f : database → V) `{!Setter f} g s u s' :
  ⟨ modify1 f g, s ⟩ ⇓ ⟨ u, s' ⟩ ↔ ∃ v, g (f s) = Ok v ∧ s' = s <| f := v |>.
Proof.
  unfold modify1. split.
  - intros Hr. runs_inv. eauto.
  - intros (v & Hg & ->). destruct u. eapply runs_bind_intro; [by apply runs_get|].
    eapply runs_bind_intro; [by apply runs_lift|]. done.
Qed.

(** Read a field of the state. *)
Definition asks {A} (f : database → A) : DB A := s ← get_state; mret (f s).
Lemma runs_asks {A} (f : database → A) s a s' : ⟨ asks f, s ⟩ ⇓ ⟨ a, s' ⟩ ↔ a = f s ∧ s' = s.
Proof. unfold runs, asks, mbind, M_bind, get_state, mret, M_ret. naive_solver. Qed.

Ltac db_step :=
  match goal with
  | H : ⟨ find _ _, _ ⟩ ⇓ ⟨ _, _ ⟩ |- _ => apply runs_find in H as [-> ->]
  | H : ⟨ get _ _, _ ⟩ ⇓ ⟨ _, _ ⟩ |- _ =>
      let G := fresh "Hrow" in apply runs_getr in H as [G ->]
  | H : ⟨ modify _ _ _, _ ⟩ ⇓ ⟨ _, _ ⟩ |- _ =>
      let v := fresh "v" in let v' := fresh "v" in let G := fresh "Hrow" in
      let F := fresh "Hval" in apply runs_modify in H as (v & v' & G & F & ->)
  | H : ⟨ modify1 _ _, _ ⟩ ⇓ ⟨ _, _ ⟩ |- _ =>
      let v := fresh "v" in let F := fresh "Hval" in apply runs_modify1 in H as (v & F & ->)
  | H : ⟨ remove _ _, _ ⟩ ⇓ ⟨ _, _ ⟩ |- _ => apply runs_remove in H as ->
  | H : ⟨ create _ _ _, _ ⟩ ⇓ ⟨ _, _ ⟩ |- _ =>
      let G := fresh "Hnew" in apply runs_create in H as [G ->]
  | H : ⟨ asks _, _ ⟩ ⇓ ⟨ _, _ ⟩ |- _ => apply runs_asks in H as [-> ->]
  | _ => runs_step
  end.
Ltac db_inv := repeat db_step.

(** * Accessors *)

(** [database::get_account], libraries/chain/database.cpp:365-368 *)
Definition get_account (name : account_name) : DB account_object := get accounts name.
(** [database::find_account], libraries/chain/database.cpp:370-373 *)
Definition find_account (name : account_name) : DB (option account_object) := find accounts name.
(** [database::get_witness], libraries/chain/database.cpp:352-358 *)
Definition get_witness (name : account_name) : DB witness_object := get witnesses name.
(** [database::find_witness], libraries/chain/database.cpp:360-363 *)
Definition find_witness (name : account_name) : DB (option witness_object) := find witnesses name.
(** [database::get_escrow], libraries/chain/database.cpp:395-398 *)
Definition get_escrow (name : account_name) (escrow_id : Z) : DB escrow_object :=
  get escrows (name, escrow_id).
(** [database::get_savings_withdraw], libraries/chain/database.cpp:421-424 *)
Definition get_savings_withdraw (owner : account_name) (request_id : Z) : DB savings_withdraw_object :=
  get savings_withdraws (owner, request_id).
(** [database::get_dynamic_global_properties], libraries/chain/database.cpp:431-434 *)
Definition get_dynamic_global_properties : DB dynamic_global_property_object := asks gpo.
(** [database::get_feed_history], libraries/chain/database.cpp:441-444 *)
Definition get_feed_history : DB feed_history_object := asks feed_history.
(** [database::get_witness_schedule_object], libraries/chain/database.cpp:446-449 *)
Definition get_witness_schedule_object : DB witness_schedule_object := asks witness_schedule.
(** [database::head_block_time], libraries/chain/database.cpp:2165-2168 *)
Definition head_block_time : DB Z := asks (λ s, gpo_time (gpo s)).
(** [database::head_block_num], libraries/chain/database.cpp:2170-2173 *)
Definition head_block_num : DB Z := asks (λ s, gpo_head_block_number (gpo s)).

(** [database::has_hardfork], libraries/chain/database.cpp:3609-3612 *)
Definition hardfork_active (s : database) (hardfork : Z) : bool :=
  hardfork <? Z.of_nat (length (hpo_processed_hardforks (hardforks s))).
Definition has_hardfork (hardfork : Z) : DB bool := asks (λ s, hardfork_active s hardfork).

(** [database::get_limit_order], libraries/chain/database.cpp:405-411 *)
Definition get_limit_order (name : account_name) (orderid : Z) : DB limit_order_object :=
  hf ← has_hardfork HARDFORK_0_6;
  get limit_orders (name, if (hf : bool) then orderid else Z.land orderid 0xFFFF).
(** [database::find_limit_order], libraries/chain/database.cpp:413-419 *)
Definition find_limit_order (name : account_name) (orderid : Z) : DB (option limit_order_object) :=
  hf ← has_hardfork HARDFORK_0_6;
  find limit_orders (name, if (hf : bool) then orderid else Z.land orderid 0xFFFF).

(** [database::push_virtual_operation], libraries/chain/database.cpp:890-904 *)
Definition push_virtual_operation (op : operation) : DB unit :=
  fc_assert (is_virtual_operation op) EmptyString;;
  modify1 virtual_ops (λ l, Ok (l ++ [op])).

(** [FC_ASSERT] of a comparison that may itself throw. *)
Definition db_assert (c : result bool) (msg : string) : DB unit := b ← lift c; fc_assert b msg.
Lemma runs_db_assert c msg s u s' : ⟨ db_assert c msg, s ⟩ ⇓ ⟨ u, s' ⟩ ↔ c = Ok true ∧ s' = s.
Proof.
  unfold db_assert. split.
  - intros Hr. runs_inv. by subst.
  - intros [Hc ->]. eapply runs_bind_intro; [by apply runs_lift|]. by apply runs_assert.
Qed.

(** Run a computation forwards, leaving its guards and look-ups to prove. *)
Ltac db_forward_step :=
  lazymatch goal with
  | |- ⟨ (_ ≫= _) ≫= _, _ ⟩ ⇓ ⟨ _, _ ⟩ => eapply runs_bind_intro
  | |- ⟨ asks _ ≫= _, _ ⟩ ⇓ ⟨ _, _ ⟩ => eapply runs_bind_intro; [by apply runs_asks|]
  | |- ⟨ get _ _ ≫= _, _ ⟩ ⇓ ⟨ _, _ ⟩ => eapply runs_bind_intro; [apply runs_getr; split; [eassumption|reflexivity]|]
  | |- ⟨ fc_assert _ _ ≫= _, _ ⟩ ⇓ ⟨ _, _ ⟩ => eapply runs_bind_intro; [apply (runs_assert _ _ _ tt); split; [|reflexivity]|]
  | |- ⟨ db_assert _ _ ≫= _, _ ⟩ ⇓ ⟨ _, _ ⟩ => eapply runs_bind_intro; [apply (runs_db_assert _ _ _ tt); split; [|reflexivity]|]
  | |- ⟨ fc_assert _ _, _ ⟩ ⇓ ⟨ _, _ ⟩ => apply (runs_assert _ _ _ tt); split; [|reflexivity]
  | |- ⟨ db_assert _ _, _ ⟩ ⇓ ⟨ _, _ ⟩ => apply (runs_db_assert _ _ _ tt); split; [|reflexivity]
  | |- ⟨ mret _, _ ⟩ ⇓ ⟨ _, _ ⟩ => apply runs_ret; split; [reflexivity|]
  end; cbv beta.
Ltac db_forward := repeat db_forward_step.

(** Read the fields of a state updated in rows. *)
Ltac db_fields := unfold set_row, del_row, add_row; fields; cbn [rows next_id].
Tactic Notation "db_fields" "in" hyp(H) :=
  unfold set_row, del_row, add_row in H; fields; cbn [rows next_id] in H.

(** * Draining a queue *)

(** The loops that empty an index ordered by time:
    [itr = idx.begin(); while( itr != idx.end() && due( *itr ) ) { body; itr = idx.begin(); }].
    Every body removes the row it is given, so one round per row is enough. *)
Section first_row.
Context `{Countable K} {V : Type} (le : V → V → bool).

Definition row_le (p q : K * V) : Prop := le p.2 q.2 = true.
#[export] Instance row_le_dec : RelDecision row_le.
Proof. intros p q. unfold row_le. apply _. Defined.

(** The first row in the order of the index. *)
Definition first_row (m : gmap K V) : option (K * V) :=
  head (merge_sort row_le (map_to_list m)).

Lemma first_row_in m k v : first_row m = Some (k, v) → m !! k = Some v.
Proof.
  unfold first_row. intros Hh. apply elem_of_map_to_list. rewrite <- (merge_sort_Permutation row_le).
  destruct (merge_sort _ _); inversion Hh. set_solver.
Qed.

Lemma first_row_none m : first_row m = None → m = ∅.
Proof.
  unfold first_row. intros Hh. apply map_to_list_empty_iff.
  pose proof (merge_sort_Permutation row_le (map_to_list m)) as Hp.
  destruct (merge_sort _ _); [by apply Permutation_nil_l in Hp|done].
Qed.

End first_row.

Section drain.
Context `{Countable K} {V : Type} (t : database → table K V).
Context (le : V → V → bool) (due : V → bool).

Fixpoint drain_from (fuel : nat) (body : K → V → DB unit) : DB unit :=
  match fuel with
  | O => mret tt
  | S fuel =>
      r ← asks (λ s, first_row le (rows (t s)));
      match r with
      | Some (k, v) => if due v then body k v;; drain_from fuel body else mret tt
      | None => mret tt
      end
  end.
Definition drain (body : K → V → DB unit) : DB unit :=
  n ← asks (λ s, base.size (rows (t s))); drain_from n body.

(** What every round preserves, the loop preserves. *)
Lemma drain_preserves (R : database → database → Prop) `{!PreOrder R} body :
  (∀ k v s u s', rows (t s) !! k = Some v → due v = true → ⟨ body k v, s ⟩ ⇓ ⟨ u, s' ⟩ → R s s') →
  preserves R (drain body).
Proof.
  intros Hbody s u s' Hr. unfold drain in Hr. runs_step. db_step.
  remember (base.size (rows (t s))) as n eqn:Hn. clear Hn. revert s u s' Hr.
  induction n as [|n IH]; intros s u s' Hr; cbn [drain_from] in Hr; [by runs_inv|].
  runs_step. db_step. destruct (first_row le (rows (t s))) as [[k v]|] eqn:Hf; [|by runs_inv].
  pose proof (first_row_in _ _ _ _ Hf). destruct (due v) eqn:Hd; [|by runs_inv].
  runs_step. etrans; [by eapply Hbody|by eapply IH].
Qed.
Context (le_trans : ∀ u v w, le u v = true → le v w = true → le u w = true).
Context (le_total : ∀ u v, le u v = true ∨ le v u = true).

(** When the first row is not due, none is. *)
Lemma first_row_not_due (m : gmap K V) k v k' v' :
  (∀ i u j w, m !! i = Some u → m !! j = Some w → le u w = true → due w = true → due u = true) →
  first_row le m = Some (k, v) → due v = false → m !! k' = Some v' → due v' = false.
Proof.
  intros Hdue. unfold first_row. intros Hh Hd Hk'. pose proof Hk' as Hm'. apply elem_of_map_to_list in Hk'.
  assert (m !! k = Some v) as Hm by (by eapply first_row_in).
  rewrite <- (merge_sort_Permutation (row_le (K:=K) le)) in Hk'.
  assert (Transitive (row_le (K:=K) le)) by (intros ???; unfold row_le; apply le_trans).
  assert (Total (row_le (K:=K) le)) by (intros ??; unfold row_le; apply le_total).
  pose proof (StronglySorted_merge_sort (row_le (K:=K) le) (map_to_list m)) as Hs.
  destruct (merge_sort _ _) as [|p l]; inversion Hh; subst p.
  apply elem_of_cons in Hk' as [[= -> ->]|Hin]; [done|].
  apply StronglySorted_inv in Hs as [_ Hall]. rewrite Forall_forall in Hall.
  specialize (Hall _ Hin). unfold row_le in Hall. cbn in Hall. destruct (due v') eqn:E; [|done].
  by rewrite (Hdue _ _ _ _ Hm Hm' Hall E) in Hd.
Qed.

(** A drained queue has exactly the rows that were not due, if the rows due come
    first in it. *)
Lemma drain_rows_in body s u s' :
  (∀ i u j w, rows (t s) !! i = Some u → rows (t s) !! j = Some w → le u w = true → due w = true → due u = true) →
  (∀ k v s u s', ⟨ body k v, s ⟩ ⇓ ⟨ u, s' ⟩ → rows (t s') = delete k (rows (t s))) →
  ⟨ drain body, s ⟩ ⇓ ⟨ u, s' ⟩ → rows (t s') = filter (λ p, due p.2 = false) (rows (t s)).
Proof.
  intros Hdue Hbody Hr. unfold drain in Hr. runs_step. db_step.
  remember (base.size (rows (t s))) as n eqn:Hn. revert s u s' Hdue Hn Hr.
  induction n as [|n IH]; intros s u s' Hdue Hn Hr; cbn [drain_from] in Hr.
  - runs_inv. symmetry in Hn. apply map_size_empty_inv in Hn. rewrite Hn. by rewrite map_filter_empty.
  - runs_step. db_step. destruct (first_row le (rows (t s))) as [[k v]|] eqn:Hf.
    + pose proof (first_row_in _ _ _ _ Hf) as Hk. destruct (due v) eqn:Hd.
      * runs_step. apply Hbody in Hr0. apply IH in Hr.
        -- rewrite Hr, Hr0. rewrite map_filter_delete_not; [done|]. intros w Hw. cbn. congruence.
        -- rewrite Hr0. intros i x j y [_ Hi]%lookup_delete_Some [_ Hj]%lookup_delete_Some. by eapply Hdue.
        -- rewrite Hr0, map_size_delete, Hk. cbn. lia.
      * runs_inv. symmetry. apply map_filter_id. intros k' v' Hk'. cbn. by eapply first_row_not_due.
    + runs_inv. apply first_row_none in Hf. rewrite Hf. by rewrite map_filter_empty.
Qed.

Lemma drain_rows body s u s' :
  (∀ u v, le u v = true → due v = true → due u = true) →
  (∀ k v s u s', ⟨ body k v, s ⟩ ⇓ ⟨ u, s' ⟩ → rows (t s') = delete k (rows (t s))) →
  ⟨ drain body, s ⟩ ⇓ ⟨ u, s' ⟩ → rows (t s') = filter (λ p, due p.2 = false) (rows (t s)).
Proof. intros Hdue. apply drain_rows_in. intros ?????? Hle. by apply Hdue. Qed.

End drain.
