(* ===== verification/Samples.v ===== *)
(** Small concrete chain states, on which the witnesses of the theorems evaluate
    the evaluators. *)

From S2P Require Import Prelude Fc Config Asset Flat Authority Version BlockHeader Operations Objects Database.

Definition coin (x : Z) : asset := Asset x SYMBOL_COIN.
Definition usd (x : Z) : asset := Asset x SYMBOL_USD.
Definition score (x : Z) : asset := Asset x SYMBOL_SCORE.
Definition null_price : price := Price (coin 0) (coin 0).
(** One TSD is worth two TME. *)
Definition median : price := Price (usd 1000) (coin 2000).
Definition sample_props : chain_properties :=
  {| props_account_creation_fee := coin 1; props_maximum_block_size := 131072; props_TSD_interest_rate := 0 |}.

(** An account with its liquid balances and its SCORE. *)
Definition sample_account (id : Z) (name : account_name) (tme tsd sc : Z) : account_object :=
  {| acc_id := id; acc_name := name; acc_memoKey := EmptyString; acc_json := EmptyString; acc_proxy :=
     EmptyString; acc_last_accountUpdate := 0; acc_created := 0; acc_mined := false; acc_owner_challenged
     := false; acc_active_challenged := false; acc_last_owner_proved := 0; acc_last_active_proved := 0;
     acc_recoveryAccount := EmptyString; acc_reset_account := EmptyString; acc_last_account_recovery :=
     0; acc_comment_count := 0; acc_lifetime_vote_count := 0; acc_post_count := 0; acc_can_vote := true;
     acc_voting_power := 0; acc_last_vote_time := 0; acc_balance := coin tme; acc_TMEsavingsBalance :=
     coin 0; acc_TSDbalance := usd tsd; acc_TSD_seconds := 0; acc_TSD_seconds_last_update := 1000;
     acc_TSD_last_interest_payment := 0; acc_TSDsavingsBalance := usd 0; acc_savings_TSD_seconds := 0;
     acc_savings_TSD_seconds_last_update := 1000; acc_savings_TSD_last_interest_payment := 0;
     acc_savings_withdraw_requests := 0; acc_SCORErewardBalanceInTME := coin 0; acc_TMErewardBalance :=
     coin 0; acc_SCORErewardBalance := score 0; acc_TSDrewardBalance := usd 0; acc_curationRewards := 0;
     acc_posting_rewards := 0; acc_SCORE := score sc; acc_SCOREDelegated := score 0; acc_SCOREreceived :=
     score 0; acc_SCOREwithdrawRateInTME := score 0; acc_nextSCOREwithdrawalTime := u32_max; acc_withdrawn :=
     0; acc_to_withdraw := 0; acc_withdraw_routes := 0; acc_proxied_votes := [0; 0; 0; 0];
     acc_witnesses_voted_for := 0; acc_last_post := 0; acc_last_root_post := 0; acc_post_bandwidth := 0 |}.
(** The global properties at time 1000, with the given supplies. *)
Definition sample_gpo (tme tsd sc : Z) : dynamic_global_property_object :=
  {| gpo_head_block_number := 10; gpo_head_block_id := []; gpo_time := 1000; gpo_current_witness :=
     EmptyString; gpo_total_pow := 0; gpo_num_pow_witnesses := 0; gpo_virtual_supply := coin tme;
     gpo_current_supply := coin tme; gpo_confidential_supply := coin 0; gpo_current_TSD_supply := usd
     tsd; gpo_confidential_TSD_supply := usd 0; gpo_totalTMEfundForSCORE := coin 0; gpo_totalSCORE :=
     score sc; gpo_total_reward_fund_TME := coin 0; gpo_totalSCOREreward2 := 0;
     gpo_pending_rewarded_SCORE := score 0; gpo_pending_rewarded_SCOREvalueInTME := coin 0;
     gpo_TSD_interest_rate := 0; gpo_TSD_print_rate := 0; gpo_maximum_block_size := 0; gpo_current_aslot
     := 0; gpo_recent_slots_filled := 0; gpo_participation_count := 0; gpo_last_irreversible_block_num :=
     0; gpo_vote_power_reserve_rate := 0 |}.
(** The schedule. *)
Definition sample_schedule : witness_schedule_object :=
  {| wso_current_virtual_time := 0; wso_next_shuffle_block_num := 0; wso_current_shuffled_witnesses :=
     []; wso_num_scheduled_witnesses := 0; wso_top19_weight := 0; wso_timeshare_weight := 0;
     wso_miner_weight := 0; wso_witness_pay_normalization_factor := 0; wso_median_props := sample_props;
     wso_majority_version := 0; wso_max_voted_witnesses := 0; wso_max_miner_witnesses := 0;
     wso_max_runner_witnesses := 0; wso_hardfork_required_witnesses := 0 |}.
(** A state with the given accounts and supplies, all hard forks applied, and
    every other table empty. *)
Definition sample_db (accs : gmap account_name account_object) (tme tsd sc : Z) : database :=
  {| gpo := sample_gpo tme tsd sc;
     accounts := Table accs 10;
     account_authorities := Table ∅ 0;
     witnesses := Table ∅ 0;
     witness_votes := Table ∅ 0;
     witness_schedule := sample_schedule;
     feed_history := {| fdh_current_median_history := median; fdh_price_history := [median] |};
     hardforks := {| hpo_processed_hardforks := replicate 20 0; hpo_last_hardfork := 19; hpo_current_hardfork_version := 0;
       hpo_next_hardfork := 0; hpo_next_hardfork_time := 0 |};
     limit_orders := Table ∅ 0;
     convert_requests := Table ∅ 0;
     escrows := Table ∅ 0;
     savings_withdraws := Table ∅ 0;
     delegations := Table ∅ 0;
     delegation_expirations := Table ∅ 0;
     withdraw_routes := Table ∅ 0;
     decline_requests := Table ∅ 0;
     owner_histories := Table ∅ 0;
     recovery_requests := Table ∅ 0;
     change_recovery_requests := Table ∅ 0;
     comments := Table ∅ 0;
     comment_votes := Table ∅ 0;
     liquidity_rewards := Table ∅ 0;
     reward_funds := Table ∅ 0;
     transactions := Table ∅ 0;
     block_summaries := Table ∅ 0;
     virtual_ops := [] |}.

(** Alice with 100 TME and Bob with 10 TSD. *)
Definition two_accounts : gmap account_name account_object :=
  <["alice" := sample_account 1 "alice" 100 0 0]> (<["bob" := sample_account 2 "bob" 0 10 0]> ∅).
Definition sample : database := sample_db two_accounts 100 10 0.

(** The state a computation ends in, and that it ends there. *)
Definition outcome (m : DB unit) (s : database) : database :=
  match m s with Ok (_, s') => s' | Err _ => s end.
Lemma ran m s : is_ok (m s) = true → ⟨ m, s ⟩ ⇓ ⟨ tt, outcome m s ⟩.
Proof. unfold runs, outcome. by destruct (m s) as [[[] ?]|]. Qed.
(** A run on a concrete state. *)
Ltac runs_ok := apply ran; vm_compute; reflexivity.

(** Two savings withdrawals of Alice, due and not due at time 1000. *)
Definition sample_withdraw (id complete : Z) : savings_withdraw_object :=
  {| swd_id := id; swd_from := "alice"; swd_to := "bob"; swd_memo := EmptyString; swd_request_id := id;
     swd_amount := coin 7; swd_complete := complete |}.
Definition sample_withdraws : database :=
  set_row savings_withdraws ("alice"%string, 1) (sample_withdraw 1 900)
    (set_row savings_withdraws ("alice"%string, 2) (sample_withdraw 2 1100) sample).
Definition sample_transfer (x : Z) : transfer_operation :=
  {| transfer_from := "alice"; transfer_to := "bob"; transfer_amount := coin x; transfer_memo := EmptyString |}.

(** An agreement of Alice with Bob, with Carol as agent. *)
Definition sample_escrow (deadline : Z) (to_approved agent_approved : bool) : escrow_object :=
  {| esc_id := 1; esc_escrow_id := 1; esc_from := "alice"; esc_to := "bob"; esc_agent := "carol";
     esc_ratification_deadline := deadline; esc_escrow_expiration := 5000;
     esc_TSDbalance := usd 0; esc_TMEbalance := coin 20; esc_pending_fee := coin 3;
     esc_to_approved := to_approved; esc_agent_approved := agent_approved; esc_disputed := false |}.
Definition sample_escrows (deadline : Z) : database :=
  set_row accounts "carol"%string (sample_account 3 "carol" 0 0 0)
    (set_row escrows ("alice"%string, 1) (sample_escrow deadline true false) sample).
Definition sample_approve : escrow_approve_operation :=
  {| escrow_approve_from := "alice"; escrow_approve_to := "bob"; escrow_approve_agent := "carol";
     escrow_approve_who := "carol"; escrow_approve_escrow_id := 1; escrow_approve_approve := true |}.

(** Alice's agreement from its start. *)
Definition three_accounts : database :=
  set_row accounts "carol"%string (sample_account 3 "carol" 0 0 0) sample.
Definition alice_agreement : escrow_transfer_operation :=
  {| escrow_transfer_from := "alice"; escrow_transfer_to := "bob"; escrow_transfer_agent := "carol";
     escrow_transfer_escrow_id := 1; escrow_transfer_TSDamount := usd 0; escrow_transfer_TMEamount := coin 20;
     escrow_transfer_fee := coin 3; escrow_transfer_ratification_deadline := 2000;
     escrow_transfer_escrow_expiration := 5000; escrow_transfer_json := EmptyString |}.
Definition bob_approve : escrow_approve_operation :=
  {| escrow_approve_from := "alice"; escrow_approve_to := "bob"; escrow_approve_agent := "carol";
     escrow_approve_who := "bob"; escrow_approve_escrow_id := 1; escrow_approve_approve := true |}.
Definition alice_release : escrow_release_operation :=
  {| escrow_release_from := "alice"; escrow_release_to := "bob"; escrow_release_agent := "carol";
     escrow_release_who := "alice"; escrow_release_receiver := "bob"; escrow_release_escrow_id := 1;
     escrow_release_TSDamount := usd 0; escrow_release_TMEamount := coin 5 |}.

(** Orders of Alice, who sells coins, and of Bob, who sells dollars. *)
Definition sample_order (id : Z) (seller : account_name) (expiration : Z) (sale : asset) (q : asset) : limit_order_object :=
  {| ord_id := id; ord_created := 500; ord_expiration := expiration; ord_seller := seller; ord_orderid := id;
     ord_for_sale := amount sale; ord_sell_price := Price sale q |}.
Definition alice_order : limit_order_object := sample_order 1 "alice" 5000 (coin 30) (usd 12).
Definition bob_order : limit_order_object := sample_order 2 "bob" 900 (usd 6) (coin 10).
Definition sample_book : database :=
  set_row limit_orders ("alice"%string, 1) alice_order
    (set_row limit_orders ("bob"%string, 2) bob_order sample).

(** Alice, half way through withdrawing 100 SCORE in four steps, with a step due
    at time 900 and a route of 40% to Bob. *)
Definition withdrawing : account_object :=
  sample_account 1 "alice" 0 0 1000 <| acc_SCOREwithdrawRateInTME := score 25 |>
    <| acc_nextSCOREwithdrawalTime := 900 |> <| acc_withdrawn := 50 |> <| acc_to_withdraw := 100 |>
    <| acc_withdraw_routes := 1 |>.
Definition sample_withdrawals : database :=
  set_row withdraw_routes (1, 2)
    {| rte_id := 0; rte_from_account := 1; rte_to_account := 2; rte_percent := 4000; rte_autoSCORE := false |}
    (set_row accounts "alice"%string withdrawing (sample_db two_accounts 500 10 1000))
    <| gpo ::= λ g, g <| gpo_totalTMEfundForSCORE := coin 500 |> |>.
(** Alice lends Bob 100 SCORE. *)
Definition alice_delegates : delegateSCORE_operation :=
  {| delegateSCORE_delegator := "alice"; delegateSCORE_delegatee := "bob"; delegateSCORE_SCORE := score 100 |}.

(** Twelve witnesses, the [i]-th of which confirmed block 99990 + i and publishes
    the price of (2000 + i) TME for 1000 TSD. *)
Definition witness_names : list account_name :=
  (λ c, String c "witness") <$> String.list_ascii_of_string "abcdefghijkl".
Definition sample_witness (i : nat) (name : account_name) : witness_object :=
  {| wit_id := Z.of_nat i; wit_owner := name; wit_created := 0; wit_url := EmptyString; wit_total_missed := 0;
     wit_last_aslot := 0; wit_last_confirmed_block_num := 99990 + Z.of_nat i; wit_pow_worker := 0;
     wit_signing_key := name; wit_props := sample_props;
     wit_TSD_exchange_rate := Price (usd 1000) (coin (2000 + Z.of_nat i)); wit_last_TSD_exchange_update := 900;
     wit_votes := 0; wit_schedule := sched_top19; wit_virtual_last_update := 0; wit_virtual_position := 0;
     wit_virtual_scheduled_time := 0; wit_last_work := EmptyString; wit_running_version := 0;
     wit_hardfork_version_vote := 0; wit_hardfork_time_vote := 0 |}.
(** They are all scheduled, at block 100800, the time 1000 and the slot 7. *)
Definition sample_producers : database :=
  sample <| witnesses := Table (list_to_map (imap (λ i n, (n, sample_witness i n)) witness_names)) 12 |>
    <| witness_schedule ::= λ w, w <| wso_current_shuffled_witnesses := witness_names |> <| wso_num_scheduled_witnesses := 12 |> |>
    <| gpo ::= λ g, g <| gpo_head_block_number := 100800 |> <| gpo_current_aslot := 7 |> |>.
