(* ===== verification/Slots.v ===== *)
(** Slots and blocks: who may produce a block when, and what a block records in the
    global properties ([chain/database.cpp]).

    Time is divided into slots of [BLOCK_INTERVAL]; a slot belongs to one of the
    scheduled witnesses in turn.  A block is accepted from the witness of its slot;
    slots passed over count as missed; a block that enough scheduled witnesses have
    built on becomes irreversible. *)

From S2P Require Import Prelude Fc Config Asset Flat Authority Version BlockHeader Operations Objects Database Samples.

Section slots.
Context {F : Fc} {C : FcCrypto}.

(** * Slots *)

(** [database::get_scheduled_witness], libraries/chain/database.cpp:931-937 *)
Definition get_scheduled_witness (slot_num : Z) : DB account_name :=
  dpo ← get_dynamic_global_properties;
  wso ← get_witness_schedule_object;
  let current_aslot := wrap_u64 (gpo_current_aslot dpo + slot_num) in
  if wso_num_scheduled_witnesses wso =? 0 then throw (logic_error "division by zero")
  else mret (nth (Z.to_nat (current_aslot mod wso_num_scheduled_witnesses wso))
               (wso_current_shuffled_witnesses wso) EmptyString).

(** [database::get_slot_time], libraries/chain/database.cpp:939-964 *)
Definition slot_time (s : database) (slot_num : Z) : Z :=
  if slot_num =? 0 then tps_min
  else if gpo_head_block_number (gpo s) =? 0 then tps_add (gpo_time (gpo s)) (wrap_u32 (slot_num * BLOCK_INTERVAL))
  else
    let head_block_abs_slot := gpo_time (gpo s) / BLOCK_INTERVAL in
    let head_slot_time := head_block_abs_slot * BLOCK_INTERVAL in
    tps_add head_slot_time (wrap_u32 (slot_num * BLOCK_INTERVAL)).

(** [database::get_slot_at_time], libraries/chain/database.cpp:966-972 *)
Definition slot_at_time (s : database) (time : Z) : Z :=
  let first_slot_time := slot_time s 1 in
  if time <? first_slot_time then 0
  else wrap_u32 (tps_diff time first_slot_time / BLOCK_INTERVAL + 1).
Definition get_slot_at_time (time : Z) : DB Z := asks (λ s, slot_at_time s time).

(** * Accepting a block *)

(** [database::head_block_id], libraries/chain/database.cpp:2175-2178 *)
Definition head_block_id_of (s : database) : block_id := gpo_head_block_id (gpo s).

(** [database::validate_block_header], libraries/chain/database.cpp:2925-2946 *)
Definition validate_block_header (skip_witness_signature skip_witness_schedule_check : bool)
    (next_block : signed_block_header) : DB witness_object :=
  id ← asks head_block_id_of;
  fc_assert (bool_decide (id = previous next_block)) EmptyString;;
  now ← head_block_time;
  fc_assert (now <? timestamp next_block) EmptyString;;
  witness ← get_witness (hdr_witness next_block);
  mwhen (negb skip_witness_signature)
    (db_assert (validate_signee (wit_signing_key witness) next_block) EmptyString);;
  mwhen (negb skip_witness_schedule_check)
    (slot_num ← get_slot_at_time (timestamp next_block);
     fc_assert (0 <? slot_num) EmptyString;;
     scheduled_witness ← get_scheduled_witness slot_num;
     fc_assert (str_eqb (wit_owner witness) scheduled_witness) "Witness produced block at wrong time");;
  mret witness.

(** One block header extension of [process_header_extensions]. *)
Definition process_header_extension (producer : account_name) (e : block_header_extension) : DB unit :=
  match e with
  | ext_void => mret tt
  | ext_version reported_version =>
      signing_witness ← get_witness producer;
      mwhen (negb (reported_version =? wit_running_version signing_witness))
        (modify witnesses producer (λ wo, Ok (wo <| wit_running_version := reported_version |>)))
  | ext_hardfork_version_vote hfv =>
      signing_witness ← get_witness producer;
      mwhen (negb (hf_version hfv =? wit_hardfork_version_vote signing_witness) ||
             negb (hf_time hfv =? wit_hardfork_time_vote signing_witness))
        (modify witnesses producer (λ wo, Ok (wo <| wit_hardfork_version_vote := hf_version hfv |>
                                                 <| wit_hardfork_time_vote := hf_time hfv |>)))
  end.

(** [database::process_header_extensions], libraries/chain/database.cpp:2713-2759 *)
Definition process_header_extensions (next_block : signed_block_header) : DB unit :=
  mfor (process_header_extension (hdr_witness next_block)) (hdr_extensions next_block).

(** * Recording a block *)

(** [public_key_type()]. *)
Definition null_key : public_key := EmptyString.

(** One missed slot of [update_global_dynamic_data]. *)
Definition miss_slot (producer : account_name) (i : Z) : DB unit :=
  name ← get_scheduled_witness (i + 1);
  witness_missed ← get_witness name;
  mwhen (negb (str_eqb (wit_owner witness_missed) producer))
    (hf ← has_hardfork HARDFORK_0_14;
     head ← head_block_num;
     let absent := wrap_u64 (head - wit_last_confirmed_block_num witness_missed) in
     modify witnesses name (λ w,
       let w := w <| wit_total_missed ::= λ n, wrap_u32 (n + 1) |> in
       Ok (if (hf : bool) && (BLOCKS_PER_DAY <? absent) then w <| wit_signing_key := null_key |> else w));;
     mwhen ((hf : bool) && (BLOCKS_PER_DAY <? absent))
       (push_virtual_operation (shutdown_witness_ {| shutdown_witness_owner := wit_owner witness_missed |}))).

(** One round of the loop over the slots since the head block. *)
Definition fill_slot (i : nat) (dgp : dynamic_global_property_object) : dynamic_global_property_object :=
  let dgp := dgp <| gpo_participation_count ::= λ n, wrap_u8 (n -
               (if Z.land (u128_hi (gpo_recent_slots_filled dgp)) 0x8000000000000000 =? 0 then 0 else 1)) |> in
  let filled := match i with O => 1 | S _ => 0 end in
  dgp <| gpo_recent_slots_filled ::= λ f, u128_add (u128_shl f 1) (u128 filled) |>
      <| gpo_participation_count ::= λ n, wrap_u8 (n + filled) |>.

(** All the slots from the head block to a new one. *)
Definition fill_slots (n : nat) (dgp : dynamic_global_property_object) : dynamic_global_property_object :=
  fold_left (λ d i, fill_slot i d) (seq 0 n) dgp.

(** [database::update_global_dynamic_data], libraries/chain/database.cpp:2956-3013 *)
Definition update_global_dynamic_data (skip_undo_history_check : bool) (b : signed_block_header) : DB unit :=
  now ← head_block_time;
  missed_blocks ←
    (if now =? tps_min then mret 0
     else
       slot ← get_slot_at_time (timestamp b);
       let missed_blocks := wrap_u32 (slot - 1) in
       mfor (miss_slot (hdr_witness b)) (seqZ 0 missed_blocks);;
       mret missed_blocks);
  modify1 gpo (λ dgp,
    let dgp := fill_slots (Z.to_nat (wrap_u32 (missed_blocks + 1))) dgp in
    Ok (dgp <| gpo_head_block_number := block_num b |>
            <| gpo_head_block_id := header_id b |>
            <| gpo_time := timestamp b |>
            <| gpo_current_aslot ::= λ n, wrap_u64 (n + wrap_u32 (missed_blocks + 1)) |>));;
  dgp ← get_dynamic_global_properties;
  mwhen (negb skip_undo_history_check)
    (if wrap_u32 (gpo_head_block_number dgp - gpo_last_irreversible_block_num dgp) <? MAX_UNDO_HISTORY then mret tt
     else throw undo_database_exception).

(** [database::update_signing_witness], libraries/chain/database.cpp:3039-3049 *)
Definition update_signing_witness (signing_witness : account_name) (new_block : signed_block_header) : DB unit :=
  dpo ← get_dynamic_global_properties;
  slot ← get_slot_at_time (timestamp new_block);
  let new_block_aslot := wrap_u64 (gpo_current_aslot dpo + slot) in
  modify witnesses signing_witness (λ w,
    Ok (w <| wit_last_aslot := new_block_aslot |> <| wit_last_confirmed_block_num := block_num new_block |>)).

(** * Irreversible blocks *)

(** The [offset]-th of the witnesses by their last confirmed block. *)
Definition irreversible_offset (n : nat) : nat :=
  Z.to_nat ((PERCENT_100 - IRREVERSIBLE_THRESHOLD) * Z.of_nat n / PERCENT_100).
Fixpoint scheduled_objects (l : list account_name) : DB (list witness_object) :=
  match l with
  | [] => mret []
  | n :: l => w ← get_witness n; ws ← scheduled_objects l; mret (w :: ws)
  end.

(** [database::update_last_irreversible_block], libraries/chain/database.cpp:3051-3099 *)
Definition update_irreversible_num : DB unit :=
  head ← head_block_num;
  if head <? START_MINER_VOTING_BLOCK then
    modify1 gpo (λ dpo, Ok (if MAX_WITNESSES <? head
                            then dpo <| gpo_last_irreversible_block_num := head - MAX_WITNESSES |> else dpo))
  else
    wso ← get_witness_schedule_object;
    wit_objs ← scheduled_objects (take (Z.to_nat (wso_num_scheduled_witnesses wso)) (wso_current_shuffled_witnesses wso));
    let offset := irreversible_offset (length wit_objs) in
    match merge_sort Z.le (wit_last_confirmed_block_num <$> wit_objs) !! offset with
    | None => throw (logic_error "out of range")
    | Some n =>
        let new_last_irreversible_block_num := wrap_u32 n in
        dpo ← get_dynamic_global_properties;
        mwhen (gpo_last_irreversible_block_num dpo <? new_last_irreversible_block_num)
          (modify1 gpo (λ dpo, Ok (dpo <| gpo_last_irreversible_block_num := new_last_irreversible_block_num |>)))
    end.

(** * Theorems *)

Context {FL : FcLaws F}.

(** ** Slots and time *)

(** The state of a chain whose clock has not run out. *)
Definition clock_ok (s : database) : Prop := 0 ≤ gpo_time (gpo s) < u32_max.

Lemma slot_time_value s n :
  clock_ok s → 0 < n → gpo_time (gpo s) + n ≤ u32_max → slot_time s n = gpo_time (gpo s) + n.
Proof.
  unfold clock_ok, slot_time, BLOCK_INTERVAL, u32_max. intros Hc Hn Hb.
  destruct (Z.eqb_spec n 0); [lia|]. unfold wrap_u32. rewrite Z.mul_1_r, Z.mod_small by lia.
  rewrite Z.div_1_r, Z.mul_1_r.
  destruct (gpo_head_block_number (gpo s) =? 0); apply tps_add_law; unfold u32_max; lia.
Qed.

Lemma slot_at_time_value s t :
  clock_ok s → 0 ≤ t ≤ u32_max → slot_at_time s t = Z.max 0 (t - gpo_time (gpo s)).
Proof.
  intros Hc Ht. unfold slot_at_time. unfold clock_ok, u32_max in *. rewrite slot_time_value by (done || unfold u32_max; lia).
  destruct (Z.ltb_spec t (gpo_time (gpo s) + 1)); [lia|].
  rewrite tps_diff_law by (unfold u32_max; lia). unfold BLOCK_INTERVAL, wrap_u32. rewrite Z.div_1_r, Z.mod_small by lia. lia.
Qed.

(** The slots from 1 on are the intervals of [BLOCK_INTERVAL] seconds after the
    head block: [get_slot_at_time] names the slot a time is in, [get_slot_time]
    is its first second, and times before the next slot are in slot 0. *)
Theorem slots_partition_time s t n :
  clock_ok s → 0 ≤ t ≤ u32_max → 0 < n → gpo_time (gpo s) + n ≤ u32_max →
  (slot_at_time s t = n ↔ slot_time s n ≤ t < slot_time s n + BLOCK_INTERVAL) ∧
  (slot_at_time s t = 0 ↔ t < slot_time s 1).
Proof.
  intros Hc Ht Hn Hb. rewrite slot_at_time_value, !slot_time_value by (done || lia).
  unfold BLOCK_INTERVAL. lia.
Qed.

(** ** The schedule *)

(** The schedule has [k] witnesses. *)
Definition scheduled (s : database) (l : list account_name) : Prop :=
  l = take (Z.to_nat (wso_num_scheduled_witnesses (witness_schedule s))) (wso_current_shuffled_witnesses (witness_schedule s)) ∧
  Z.of_nat (length l) = wso_num_scheduled_witnesses (witness_schedule s) ∧ l ≠ [].

Lemma get_scheduled_witness_run s l n :
  scheduled s l → 0 ≤ gpo_current_aslot (gpo s) + n ≤ u64_max →
  ⟨ get_scheduled_witness n, s ⟩ ⇓
    ⟨ nth (Z.to_nat ((gpo_current_aslot (gpo s) + n) mod Z.of_nat (length l))) l EmptyString, s ⟩.
Proof.
  intros (Hl & Hk & Hne) Hb. destruct l as [|x l']; [done|]. remember (x :: l') as l eqn:E.
  assert (0 < Z.of_nat (length l)) by (subst l; cbn; lia). clear E x l' Hne.
  unfold get_scheduled_witness, get_dynamic_global_properties, get_witness_schedule_object.
  eapply runs_bind_intro; [by apply runs_asks|]. eapply runs_bind_intro; [by apply runs_asks|]. cbv zeta.
  rewrite <- Hk. destruct (Z.eqb_spec (Z.of_nat (length l)) 0); [lia|]. apply runs_ret. split; [|done].
  unfold wrap_u64, u64_max in *. rewrite (Z.mod_small (_ + n)) by lia.
  set (i := Z.to_nat _). assert (i < length l)%nat as Hi.
  { pose proof (Z.mod_pos_bound (gpo_current_aslot (gpo s) + n) (Z.of_nat (length l))). unfold i. lia. }
  rewrite <- Hk, Nat2Z.id in Hl.
  rewrite !nth_lookup. rewrite Hl, lookup_take_lt by done. done.
Qed.

Lemma window_indices (a n : Z) (k : nat) :
  (λ i, Z.to_nat ((a + i) mod Z.of_nat k)) <$> seqZ n (Z.of_nat k) ≡ₚ seq 0 k.
Proof.
  apply submseteq_length_Permutation.
  - apply NoDup_submseteq.
    + apply NoDup_fmap_2_strong; [|apply NoDup_seqZ]. intros i j Hi%elem_of_seqZ Hj%elem_of_seqZ Hij.
      pose proof (Z.mod_pos_bound (a + i) (Z.of_nat k)). pose proof (Z.mod_pos_bound (a + j) (Z.of_nat k)).
      assert ((a + i) mod Z.of_nat k = (a + j) mod Z.of_nat k) as E by lia.
      pose proof (Z.div_mod (a + i) (Z.of_nat k) ltac:(lia)). pose proof (Z.div_mod (a + j) (Z.of_nat k) ltac:(lia)).
      rewrite E in *. revert H1 H2. generalize ((a + i) / Z.of_nat k), ((a + j) / Z.of_nat k), ((a + j) mod Z.of_nat k).
      intros p q r H1 H2. assert (p = q) as -> by nia. lia.
    + intros x (i & -> & Hi%elem_of_seqZ)%list_elem_of_fmap. apply elem_of_seq.
      pose proof (Z.mod_pos_bound (a + i) (Z.of_nat k)). lia.
  - rewrite length_fmap, length_seqZ, length_seq. lia.
Qed.

Lemma nth_all {A} (d : A) l : (λ i, nth i l d) <$> seq 0 (length l) = l.
Proof.
  apply list_eq. intros i. rewrite list_lookup_fmap. destruct (decide (i < length l)%nat) as [Hi|Hi].
  - rewrite lookup_seq_lt by done. cbn. rewrite nth_lookup. by destruct (lookup_lt_is_Some_2 l i Hi) as [x ->].
  - rewrite lookup_seq_ge by lia. cbn. symmetry. apply lookup_ge_None_2. lia.
Qed.


(** ** Participation *)

(** The ones among the lowest [n] bits. *)
Fixpoint popcount (n : nat) (z : Z) : Z :=
  match n with O => 0 | S n => Z.b2z (Z.testbit z (Z.of_nat n)) + popcount n z end.

Lemma popcount_bound n z : 0 ≤ popcount n z ≤ Z.of_nat n.
Proof. induction n as [|n IH]; cbn [popcount]; [lia|]. destruct (Z.testbit z (Z.of_nat n)); cbn; lia. Qed.

Lemma popcount_ext n z w :
  (∀ i, 0 ≤ i < Z.of_nat n → Z.testbit z i = Z.testbit w i) → popcount n z = popcount n w.
Proof.
  induction n as [|n IH]; intros Hb; cbn [popcount]; [done|]. rewrite Hb by lia. rewrite IH; [done|].
  intros. apply Hb. lia.
Qed.

Lemma popcount_mod n k z : (n ≤ k)%nat → popcount n (z mod 2 ^ Z.of_nat k) = popcount n z.
Proof. intros Hk. apply popcount_ext. intros i Hi. apply Z.mod_pow2_bits_low. lia. Qed.

Lemma popcount_shift n z (b : bool) : popcount (S n) (2 * z + Z.b2z b) = Z.b2z b + popcount n z.
Proof.
  induction n as [|n IH].
  - cbn. by rewrite Z.testbit_0_r, Z.add_0_r.
  - change (popcount (S (S n)) (2 * z + Z.b2z b)) with
      (Z.b2z (Z.testbit (2 * z + Z.b2z b) (Z.of_nat (S n))) + popcount (S n) (2 * z + Z.b2z b)).
    rewrite IH, Nat2Z.inj_succ, Z.testbit_succ_r by lia. cbn [popcount]. lia.
Qed.

(** [participation_count] is the number of slots filled among the last 128. *)
Definition participation_exact (g : dynamic_global_property_object) : Prop :=
  gpo_participation_count g = popcount 128 (gpo_recent_slots_filled g).

Lemma high_bit f : 0 ≤ f → (Z.land (u128_hi f) 0x8000000000000000 =? 0) = negb (Z.testbit f 127).
Proof.
  intros Hf. rewrite u128_hi_law. change 0x8000000000000000 with (2 ^ 63).
  assert (Z.testbit f 127 = Z.testbit (f / 2 ^ 64) 63) as ->.
  { rewrite <- Z.shiftr_div_pow2, Z.shiftr_spec by lia. done. }
  generalize (f / 2 ^ 64). intros x. destruct (Z.testbit x 63) eqn:E; cbn [negb].
  - apply Z.eqb_neq. intros H0. apply (f_equal (λ y, Z.testbit y 63)) in H0.
    rewrite Z.land_spec, E, Z.pow2_bits_true, Z.bits_0 in H0 by lia. done.
  - apply Z.eqb_eq. apply Z.bits_inj'. intros i Hi. rewrite Z.land_spec, Z.bits_0.
    destruct (decide (i = 63)) as [->|]; [by rewrite E|]. rewrite Z.pow2_bits_false by lia. apply andb_false_r.
Qed.

Lemma fill_slot_exact i g :
  0 ≤ gpo_recent_slots_filled g < 2 ^ 128 → participation_exact g →
  participation_exact (fill_slot i g) ∧
  gpo_recent_slots_filled (fill_slot i g) =
    (2 * gpo_recent_slots_filled g + match i with O => 1 | S _ => 0 end) mod 2 ^ 128.
Proof.
  intros Hf Hp. unfold participation_exact, fill_slot in *. fields.
  set (f := gpo_recent_slots_filled g) in *. set (b := match i with O => 1 | S _ => 0 end).
  assert (∃ c : bool, b = Z.b2z c) as [c ->] by (destruct i; [by exists true|by exists false]).
  assert (u128_add (u128_shl f 1) (u128 (Z.b2z c)) = (2 * f + Z.b2z c) mod 2 ^ 128) as ->.
  { rewrite u128_add_law, u128_shl_law, u128_law by lia. rewrite <- Zplus_mod. f_equal. lia. }
  split; [|done]. rewrite high_bit by lia. rewrite Hp.
  change (2 ^ 128) with (2 ^ Z.of_nat 128). rewrite (popcount_mod 128) by lia.
  rewrite (popcount_shift 127). pose proof (popcount_bound 127 f) as Hb.
  change (popcount 128 f) with (Z.b2z (Z.testbit f 127) + popcount 127 f).
  unfold wrap_u8. destruct (Z.testbit f 127), c; cbn [negb Z.b2z]; rewrite ?(Z.mod_small (_ - _)) by lia; rewrite Z.mod_small by lia; lia.
Qed.

Lemma fill_slots_exact missed g :
  0 ≤ gpo_recent_slots_filled g < 2 ^ 128 → participation_exact g →
  participation_exact (fill_slots (S missed) g) ∧
  gpo_recent_slots_filled (fill_slots (S missed) g) =
    ((2 * gpo_recent_slots_filled g + 1) * 2 ^ Z.of_nat missed) mod 2 ^ 128.
Proof.
  intros Hf Hp. induction missed as [|m IH].
  - destruct (fill_slot_exact 0 g Hf Hp) as [H1 H2]. split; [done|]. by rewrite Z.mul_1_r.
  - assert (fill_slots (S (S m)) g = fill_slot (S m) (fill_slots (S m) g)) as ->.
    { unfold fill_slots. rewrite (seq_S (S m)), fold_left_app. done. }
    destruct IH as [IH1 IH2]. destruct (fill_slot_exact (S m) (fill_slots (S m) g)) as [H1 H2]; [|done|].
    { rewrite IH2. apply Z.mod_pos_bound. lia. }
    split; [done|]. rewrite H2, IH2, Z.add_0_r, Zmult_mod_idemp_r. f_equal.
    rewrite Nat2Z.inj_succ, Z.pow_succ_r by lia. lia.
Qed.

(** ** Irreversible blocks *)

(** How many of the witnesses have confirmed block [m] or a later one, and
    whether that is [IRREVERSIBLE_THRESHOLD] of them. *)
Definition confirmations (m : Z) (ws : list witness_object) : Z :=
  Z.of_nat (length (filter (λ w, m ≤ wit_last_confirmed_block_num w) ws)).
Definition confirmed (ws : list witness_object) (m : Z) : Prop :=
  IRREVERSIBLE_THRESHOLD * Z.of_nat (length ws) ≤ PERCENT_100 * confirmations m ws.

Lemma scheduled_objects_run l ws s s' :
  ⟨ scheduled_objects l, s ⟩ ⇓ ⟨ ws, s' ⟩ → s' = s ∧ Forall2 (λ n w, rows (witnesses s) !! n = Some w) l ws.
Proof.
  revert ws. induction l as [|n l IH]; intros ws Hr; cbn [scheduled_objects] in Hr.
  - db_inv. by subst.
  - apply runs_bind in Hr as (w & s1 & Hw & Hr). unfold get_witness in Hw. db_inv.
    apply IH in Hr0 as [-> Hl]. split; [done|]. by constructor.
Qed.

(** The number at [offset] among the sorted numbers. *)
Lemma sorted_rank (xs : list Z) (off : nat) (N m : Z) :
  merge_sort Z.le xs !! off = Some N →
  ((length xs - off)%nat ≤ length (filter (λ x, (N ≤ x)%Z) xs))%nat ∧
  (N < m → (off + length (filter (λ x, (m ≤ x)%Z) xs) < length xs)%nat).
Proof.
  intros HN. rewrite <- (merge_sort_Permutation Z.le xs) at 1 2 3 4.
  pose proof (StronglySorted_merge_sort Z.le xs) as Hs. set (l := merge_sort Z.le xs) in *. clearbody l. clear xs.
  pose proof (lookup_lt_Some _ _ _ HN) as Hlt.
  pose proof (take_drop_middle _ _ _ HN) as E. rewrite <- E in Hs. rewrite <- E. clear E.
  rewrite !filter_app, !length_app, length_cons, length_take, length_drop.
  apply StronglySorted_app in Hs as (H12 & _ & Hs). apply StronglySorted_inv in Hs as [_ Htl].
  rewrite Forall_forall in Htl. split.
  - rewrite (filter_all_in (λ x, N ≤ x) (N :: drop (S off) l)).
    + rewrite length_cons, length_drop. lia.
    + intros x [->|Hx]%elem_of_cons; [done|]. by apply Htl.
  - intros Hm. rewrite (filter_none_in (λ x, m ≤ x) (take off l)).
    + rewrite filter_cons_False by lia. pose proof (length_filter (λ x, m ≤ x) (drop (S off) l)) as Hd.
      rewrite length_drop in Hd. cbn [length]. lia.
    + intros x Hx. assert (x ≤ N) by (apply H12; [done|by left]). lia.
Qed.

(** The number at the offset is the largest one that enough witnesses have confirmed. *)
Lemma offset_confirmed (ws : list witness_object) N :
  merge_sort Z.le (wit_last_confirmed_block_num <$> ws) !! irreversible_offset (length ws) = Some N →
  confirmed ws N ∧ ∀ m, confirmed ws m → m ≤ N.
Proof.
  intros HN. pose proof (sorted_rank _ _ _ N HN) as [Hge _]. pose proof (λ m, sorted_rank _ _ _ m HN) as Hlt.
  assert (∀ m, confirmations m ws = Z.of_nat (length (filter (λ x, m ≤ x) (wit_last_confirmed_block_num <$> ws)))) as Hc.
  { intros m. unfold confirmations. f_equal. clear. induction ws as [|w ws IH]; [done|].
    rewrite fmap_cons, !filter_cons. case_decide; rewrite ?length_cons; by rewrite ?IH. }
  pose proof (lookup_lt_Some _ _ _ HN) as Hoff. rewrite (merge_sort_Permutation Z.le), length_fmap in Hoff.
  unfold irreversible_offset in *.
  change (PERCENT_100 - IRREVERSIBLE_THRESHOLD) with 2500 in *. change PERCENT_100 with 10000 in *.
  pose proof (Z.div_mod (2500 * Z.of_nat (length ws)) 10000 ltac:(lia)) as Hdm.
  pose proof (Z.mod_pos_bound (2500 * Z.of_nat (length ws)) 10000 ltac:(lia)) as Hmb.
  rewrite length_fmap in Hge. split.
  - unfold confirmed. rewrite Hc. change IRREVERSIBLE_THRESHOLD with 7500. change PERCENT_100 with 10000. lia.
  - unfold confirmed. intros m. rewrite Hc. change IRREVERSIBLE_THRESHOLD with 7500. change PERCENT_100 with 10000.
    intros Hm. destruct (Z.le_gt_cases m N) as [|Hgt]; [done|]. specialize (Hlt m).
    destruct Hlt as [_ Hlt]. specialize (Hlt ltac:(lia)). rewrite length_fmap in Hlt. lia.
Qed.

(** Before witnesses are voted in, the last irreversible block is [MAX_WITNESSES] or more
    blocks below the head, or still the first state; a new head keeps that. *)
Definition early_lag (s : database) : Prop :=
  gpo_head_block_number (gpo s) < START_MINER_VOTING_BLOCK →
  gpo_last_irreversible_block_num (gpo s) ≤ Z.max 0 (gpo_head_block_number (gpo s) - MAX_WITNESSES).
Definition set_irreversible (n : Z) (s : database) : database :=
  s <| gpo ::= λ g, g <| gpo_last_irreversible_block_num := n |> |>.
Lemma set_irreversible_same s : set_irreversible (gpo_last_irreversible_block_num (gpo s)) s = s.
Proof. by destruct s as [[]]. Qed.

(** The two eras. *)
Lemma irreversible_update s u s' :
  (∀ n w, rows (witnesses s) !! n = Some w → 0 ≤ wit_last_confirmed_block_num w ≤ u32_max) →
  ⟨ update_irreversible_num, s ⟩ ⇓ ⟨ u, s' ⟩ →
  let head := gpo_head_block_number (gpo s) in
  let lib := gpo_last_irreversible_block_num (gpo s) in
  let l := take (Z.to_nat (wso_num_scheduled_witnesses (witness_schedule s))) (wso_current_shuffled_witnesses (witness_schedule s)) in
  if head <? START_MINER_VOTING_BLOCK
  then s' = set_irreversible (if MAX_WITNESSES <? head then head - MAX_WITNESSES else lib) s
  else ∃ ws N, Forall2 (λ n w, rows (witnesses s) !! n = Some w) l ws ∧
    confirmed ws N ∧ (∀ m, confirmed ws m → m ≤ N) ∧ s' = set_irreversible (Z.max N lib) s.
Proof.
  intros Hw Hr head lib l.
  unfold update_irreversible_num, head_block_num, get_witness_schedule_object, get_dynamic_global_properties in Hr.
  runs_step. db_step. fold head in Hr. destruct (head <? START_MINER_VOTING_BLOCK).
  - apply runs_modify1 in Hr as (g & [= <-] & ->). unfold set_irreversible.
    destruct (MAX_WITNESSES <? head); [done|]. unfold lib. by destruct s as [[]].
  - runs_step. db_step. runs_step. apply scheduled_objects_run in Hr0 as [-> Hws]. fold l in Hws.
    rename v into ws. destruct (merge_sort _ _ !! _) as [N|] eqn:HN; [|by db_inv].
    assert (0 ≤ N ≤ u32_max) as HNr.
    { apply list_elem_of_lookup_2 in HN. rewrite (merge_sort_Permutation Z.le) in HN.
      apply list_elem_of_fmap in HN as (w & -> & Hin). apply list_elem_of_lookup in Hin as [i Hi].
      eapply Forall2_lookup_r in Hws as (n & _ & Hn); [|done]. by eapply Hw. }
    apply offset_confirmed in HN as [Hc Hmax]. exists ws, N. split_and!; [done..|].
    runs_step. db_step. unfold wrap_u32 in Hr. rewrite Z.mod_small in Hr by (unfold u32_max in *; lia).
    apply runs_when in Hr. fold lib in Hr. destruct (Z.ltb_spec lib N).
    + db_inv. injection Hval as <-. rewrite Z.max_l by lia. done.
    + subst s'. rewrite Z.max_r by lia. symmetry. apply set_irreversible_same.
Qed.

(** C13. [update_last_irreversible_block] changes nothing but the number of the last
    irreversible block.  Below [START_MINER_VOTING_BLOCK] it becomes the head less
    [MAX_WITNESSES], or stays when the head is not above that.  From there on it becomes
    the largest block that [IRREVERSIBLE_THRESHOLD] of the scheduled witnesses have
    confirmed, or stays when a later block was irreversible before.  Hence it does not
    decrease, provided that in the first era it lags behind the head as [early_lag]
    says, which holds of the first state and is kept. *)
Theorem irreversible_confirmed s u s' :
  (∀ n w, rows (witnesses s) !! n = Some w → 0 ≤ wit_last_confirmed_block_num w ≤ u32_max) →
  ⟨ update_irreversible_num, s ⟩ ⇓ ⟨ u, s' ⟩ →
  let head := gpo_head_block_number (gpo s) in
  let lib := gpo_last_irreversible_block_num (gpo s) in
  let l := take (Z.to_nat (wso_num_scheduled_witnesses (witness_schedule s))) (wso_current_shuffled_witnesses (witness_schedule s)) in
  (head < START_MINER_VOTING_BLOCK →
    s' = set_irreversible (if MAX_WITNESSES <? head then head - MAX_WITNESSES else lib) s) ∧
  (START_MINER_VOTING_BLOCK ≤ head →
    ∃ ws N, Forall2 (λ n w, rows (witnesses s) !! n = Some w) l ws ∧
      confirmed ws N ∧ (∀ m, confirmed ws m → m ≤ N) ∧ s' = set_irreversible (Z.max N lib) s) ∧
  (early_lag s → lib ≤ gpo_last_irreversible_block_num (gpo s') ∧ early_lag s').
Proof.
  intros Hw Hr head lib l.
  pose proof (irreversible_update s u s' Hw Hr) as Hu. cbv zeta in Hu. fold head lib l in Hu.
  unfold early_lag. destruct (Z.ltb_spec head START_MINER_VOTING_BLOCK) as [Hlt|Hge]; (split_and!; [intros ?; (done || lia)..|]); intros He.
  - specialize (He Hlt). fold head lib in He. rewrite Hu. unfold set_irreversible. fields. fold head.
    destruct (Z.ltb_spec MAX_WITNESSES head); lia.
  - destruct Hu as (ws & N & _ & _ & _ & ->). unfold set_irreversible. fields. fold head. lia.
Qed.

(** ** Recording a block *)

(** Who is scheduled [n] slots from now. *)
Definition slot_owner (s : database) (n : Z) : account_name :=
  nth (Z.to_nat (wrap_u64 (gpo_current_aslot (gpo s) + n) mod wso_num_scheduled_witnesses (witness_schedule s)))
    (wso_current_shuffled_witnesses (witness_schedule s)) EmptyString.

Lemma runs_scheduled_witness s n a s' :
  ⟨ get_scheduled_witness n, s ⟩ ⇓ ⟨ a, s' ⟩ ↔
    wso_num_scheduled_witnesses (witness_schedule s) ≠ 0 ∧ a = slot_owner s n ∧ s' = s.
Proof.
  unfold get_scheduled_witness, get_dynamic_global_properties, get_witness_schedule_object. split.
  - intros Hr. runs_step. db_step. runs_step. db_step. cbv zeta in Hr. destruct (Z.eqb_spec (wso_num_scheduled_witnesses (witness_schedule s)) 0); by db_inv.
  - intros (Hn & -> & ->). eapply runs_bind_intro; [by apply runs_asks|]. eapply runs_bind_intro; [by apply runs_asks|].
    cbv zeta. destruct (Z.eqb_spec (wso_num_scheduled_witnesses (witness_schedule s)) 0); [done|]. by apply runs_ret.
Qed.

(** Every witness is stored under its owner. *)
Definition witnesses_keyed (s : database) : Prop := ∀ k w, rows (witnesses s) !! k = Some w → wit_owner w = k.

(** What missing slots changes: the slots in [names] are charged to their owners,
    except to the producer of the block. *)
Definition charge (producer : account_name) (names : list account_name) (k : account_name) : Z :=
  if str_eqb k producer then 0 else Z.of_nat (length (filter (λ n, n = k) names)).
Record missed (producer : account_name) (names : list account_name) (s s' : database) : Prop := Missed {
  missed_rest : s' = s <| witnesses := witnesses s' |> <| virtual_ops := virtual_ops s' |>;
  missed_rows : ∀ k w, rows (witnesses s) !! k = Some w →
    ∃ w', rows (witnesses s') !! k = Some w' ∧
      wrap_u32 (wit_total_missed w') = wrap_u32 (wit_total_missed w + charge producer names k) ∧
      w' = w <| wit_total_missed := wit_total_missed w' |> <| wit_signing_key := wit_signing_key w' |> ∧
      (wit_signing_key w' = wit_signing_key w ∨ wit_signing_key w' = null_key);
  missed_no_new : ∀ k, is_Some (rows (witnesses s') !! k) → is_Some (rows (witnesses s) !! k);
}.

Lemma missed_refl p s : missed p [] s s.
Proof.
  split; [by destruct s| |done]. intros k w Hk. exists w. split_and!; [done| |by destruct w|by left].
  unfold charge. destruct (str_eqb k p); cbn; by rewrite Z.add_0_r.
Qed.

Lemma missed_trans p l1 l2 s s1 s2 : missed p l1 s s1 → missed p l2 s1 s2 → missed p (l1 ++ l2) s s2.
Proof.
  intros [Hr1 Hw1 Hn1] [Hr2 Hw2 Hn2]. split.
  - rewrite Hr2, Hr1. by destruct s, s1, s2.
  - intros k w Hk. destruct (Hw1 k w Hk) as (w1 & Hk1 & Ht1 & Hf1 & Hs1).
    destruct (Hw2 k w1 Hk1) as (w2 & Hk2 & Ht2 & Hf2 & Hs2). exists w2. split_and!; [done| | |].
    + rewrite Ht2. unfold wrap_u32 in *. rewrite <- Zplus_mod_idemp_l, Ht1, Zplus_mod_idemp_l. f_equal.
      unfold charge. destruct (str_eqb k p); [lia|]. rewrite filter_app, length_app. lia.
    + rewrite Hf2, Hf1. by destruct w, w1, w2.
    + destruct Hs2 as [->| ->]; [done|by right].
  - auto.
Qed.

Lemma missed_keyed p l s s' : missed p l s s' → witnesses_keyed s → witnesses_keyed s'.
Proof.
  intros [_ Hw Hn] Hk k w' Hw'. destruct (Hn k) as [w Hkw]; [eauto|]. destruct (Hw k w Hkw) as (w1 & Hk1 & _ & Hf & _).
  rewrite Hw' in Hk1. injection Hk1 as <-. rewrite Hf. fields. by apply Hk.
Qed.

Lemma missed_slot_owner p l s s' n : missed p l s s' → slot_owner s' n = slot_owner s n.
Proof. intros [Hr _ _]. by rewrite Hr. Qed.

Lemma miss_slot_missed p i s u s' :
  witnesses_keyed s → ⟨ miss_slot p i, s ⟩ ⇓ ⟨ u, s' ⟩ → missed p [slot_owner s (i + 1)] s s'.
Proof.
  intros Hk Hr. unfold miss_slot in Hr. runs_step. apply runs_scheduled_witness in Hr0 as (_ & -> & ->).
  set (n := slot_owner s (i + 1)) in *. unfold get_witness, has_hardfork, head_block_num in Hr.
  runs_step. db_step. rename v into w. pose proof (Hk _ _ Hrow) as Ho. apply runs_when in Hr. rewrite Ho in Hr.
  destruct (str_eqb n p) eqn:E; cbn [negb] in Hr.
  - subst s'. destruct (missed_refl p s) as [Hr0 Hw Hn]. split; [done| |done]. intros k v Hv.
    destruct (Hw k v Hv) as (v' & ? & Ht & ? & ?). exists v'. split_and!; try done. rewrite Ht. unfold charge.
    destruct (str_eqb k p) eqn:Ek; [done|]. rewrite filter_cons_False; [done|].
    intros ->. congruence.
  - runs_step. db_step. runs_step. db_step. runs_step. db_step. rewrite Hrow in Hrow0. injection Hrow0 as <-.
    injection Hval as <-. set (w' := if _ : bool then _ else _) in Hr.
    assert (missed p [n] s (set_row witnesses n w' s)) as Hm.
    { split.
      - by destruct s.
      - intros k x Hv. db_fields. unfold charge. destruct (decide (n = k)) as [<-|Hne].
        + rewrite Hrow in Hv. injection Hv as <-. exists w'. rewrite lookup_insert_eq, E. split_and!; [done| | |].
          * rewrite filter_cons_True by done. cbn [filter]. unfold w'. destruct (_ && _); fields; unfold wrap_u32; by rewrite Zmod_mod.
          * unfold w'. destruct (_ && _), w; done.
          * unfold w'. destruct (_ && _); fields; auto.
        + rewrite lookup_insert_ne by done. exists x. rewrite filter_cons_False by done. split_and!; [done| |by destruct x|by left].
          destruct (str_eqb k p); cbn; by rewrite Z.add_0_r.
      - intros k. db_fields. destruct (decide (n = k)) as [<-|Hne]; [by rewrite Hrow|by rewrite lookup_insert_ne]. }
    apply runs_when in Hr. destruct (_ && _) in Hr; [|by subst].
    unfold push_virtual_operation in Hr. db_inv. injection Hval as <-. destruct Hm as [Hm1 Hm2 Hm3]. split; [by rewrite Hm1|done..].
Qed.

Lemma miss_slots_missed p l s u s' :
  witnesses_keyed s → ⟨ mfor (miss_slot p) l, s ⟩ ⇓ ⟨ u, s' ⟩ →
  missed p ((λ i, slot_owner s (i + 1)) <$> l) s s'.
Proof.
  revert s. induction l as [|i l IH]; intros s Hk Hr; cbn [mfor] in Hr.
  - db_inv. apply missed_refl.
  - apply runs_bind in Hr as (? & s1 & H1 & Hr). apply miss_slot_missed in H1; [|done].
    apply IH in Hr; [|by eapply missed_keyed]. pose proof (missed_trans _ _ _ _ _ _ H1 Hr) as H12.
    erewrite (list_fmap_ext _ (λ i, slot_owner s (i + 1)) l) in H12; [done|]. intros. by eapply missed_slot_owner.
Qed.

Lemma fill_slots_rest n g :
  fill_slots n g = g <| gpo_recent_slots_filled := gpo_recent_slots_filled (fill_slots n g) |>
                     <| gpo_participation_count := gpo_participation_count (fill_slots n g) |>.
Proof.
  induction n as [|n IH]; [by destruct g|].
  assert (fill_slots (S n) g = fill_slot n (fill_slots n g)) as ->.
  { unfold fill_slots. by rewrite seq_S, fold_left_app. }
  rewrite IH. unfold fill_slot. fields. by destruct g.
Qed.

Lemma seqZ_succ n : 0 ≤ n → (λ i, i + 1) <$> seqZ 0 n = seqZ 1 n.
Proof. intros Hn. rewrite <- (Z2Nat.id n) by done. rewrite <- (fmap_add_seqZ 1 0). apply list_fmap_ext. intros. lia. Qed.

(** C14. [update_global_dynamic_data]: recording the block of the [slot]-th slot after
    the head makes it the head, moves the schedule on by [slot] slots, charges
    each of the [slot - 1] slots passed over to the witness scheduled for it unless
    that is the producer itself, keeps [participation_count] the number of filled
    slots among the last 128, and leaves enough undo history. *)
Theorem block_recorded skip (b : signed_block_header) s u s' :
  witnesses_keyed s → clock_ok s → gpo_time (gpo s) ≠ 0 → gpo_time (gpo s) < timestamp b ≤ u32_max →
  0 ≤ gpo_recent_slots_filled (gpo s) < 2 ^ 128 → participation_exact (gpo s) →
  0 ≤ gpo_current_aslot (gpo s) → gpo_current_aslot (gpo s) + u32_max ≤ u64_max →
  ⟨ update_global_dynamic_data skip b, s ⟩ ⇓ ⟨ u, s' ⟩ →
  let slot := timestamp b - gpo_time (gpo s) in
  (gpo_head_block_number (gpo s') = block_num b ∧ gpo_head_block_id (gpo s') = header_id b ∧
   gpo_time (gpo s') = timestamp b ∧ gpo_current_aslot (gpo s') = gpo_current_aslot (gpo s) + slot) ∧
  (participation_exact (gpo s') ∧
   gpo_recent_slots_filled (gpo s') =
     ((2 * gpo_recent_slots_filled (gpo s) + 1) * 2 ^ (slot - 1)) mod 2 ^ 128) ∧
  (∀ k w, rows (witnesses s) !! k = Some w →
    ∃ w', rows (witnesses s') !! k = Some w' ∧
      wrap_u32 (wit_total_missed w') =
        wrap_u32 (wit_total_missed w + charge (hdr_witness b) (slot_owner s <$> seqZ 1 (slot - 1)) k)) ∧
  (skip = false →
     wrap_u32 (gpo_head_block_number (gpo s') - gpo_last_irreversible_block_num (gpo s')) < MAX_UNDO_HISTORY).
Proof.
  intros Hk Hc H0 Ht Hf Hp Ha Hab Hr slot. unfold update_global_dynamic_data, head_block_time, get_slot_at_time in Hr.
  runs_step. db_step. rewrite tps_min_law in Hr. destruct (Z.eqb_spec (gpo_time (gpo s)) 0); [done|].
  apply runs_bind in Hr as (m & v & Hm & Hr). apply runs_bind in Hm as (sl & s3 & H3 & Hm). apply runs_asks in H3 as [-> ->]. rewrite slot_at_time_value in Hm by (done || unfold clock_ok in Hc; lia).
  rewrite Z.max_r in Hm by lia. fold slot in Hm. cbv zeta in Hm.
  assert (0 < slot ≤ u32_max) as Hslot by (unfold clock_ok in Hc; lia).
  unfold wrap_u32 in Hm. rewrite Z.mod_small in Hm by (unfold u32_max in *; lia).
  apply runs_bind in Hm as (? & s4 & Hr0 & Hm). apply miss_slots_missed in Hr0; [|done]. apply runs_ret in Hm as [<- ->].
  assert ((λ i, slot_owner s (i + 1)) <$> seqZ 0 (slot - 1) = slot_owner s <$> seqZ 1 (slot - 1)) as E.
  { rewrite <- seqZ_succ by lia. by rewrite <- list_fmap_compose. }
  rewrite E in Hr0. clear E. destruct Hr0 as [Hrest Hrows _].
  apply runs_bind in Hr as (? & s2 & H2 & Hr). apply runs_modify1 in H2 as (g & Hg & ->). injection Hg as <-.
  unfold wrap_u32 in Hr. rewrite Z.sub_add, Z.mod_small in Hr by (unfold u32_max in *; lia).
  assert (gpo v = gpo s) as Eg by (by rewrite Hrest). rewrite Eg in Hr.
  destruct (fill_slots_exact (Z.to_nat (slot - 1)) (gpo s) Hf Hp) as [Hp1 Hf1].
  replace (S (Z.to_nat (slot - 1))) with (Z.to_nat slot) in Hp1, Hf1 by lia.
  rewrite Z2Nat.id in Hf1 by lia. set (g' := fill_slots (Z.to_nat slot) (gpo s)) in *.
  assert (gpo_current_aslot g' = gpo_current_aslot (gpo s)) as Hg' by (unfold g'; rewrite fill_slots_rest; fields; done).
  unfold get_dynamic_global_properties in Hr. runs_step. db_step. fields.
  assert (s' = v <| gpo := gpo s' |> ∧ gpo s' = g' <| gpo_head_block_number := block_num b |> <| gpo_head_block_id := header_id b |>
    <| gpo_time := timestamp b |> <| gpo_current_aslot ::= λ n, wrap_u64 (n + slot) |> ∧ (skip = false →
     wrap_u32 (gpo_head_block_number (gpo s') - gpo_last_irreversible_block_num (gpo s')) < MAX_UNDO_HISTORY)) as (Hs' & Hg & Hskip).
  { apply runs_when in Hr. destruct skip; cbn [negb] in Hr; [subst s'; by fields|].
    change ((block_num b - _) mod _) with (wrap_u32 (block_num b - gpo_last_irreversible_block_num g')) in Hr.
    destruct (Z.ltb_spec (wrap_u32 (block_num b - gpo_last_irreversible_block_num g')) MAX_UNDO_HISTORY); db_inv; fields; done. }
  split_and!; [..|exact Hskip]; rewrite ?Hg; fields; try done.
  - rewrite Hg'. unfold wrap_u64. apply Z.mod_small. unfold u64_max, u32_max in *. lia.
  - intros k w Hkw. destruct (Hrows k w Hkw) as (w' & Hk' & Ht' & _). exists w'. split; [|exact Ht']. rewrite Hs'. fields. done.
Qed.

(** ** Accepting a block *)

(** C12. [validate_block_header] accepts a block exactly when it builds on the head
    block, is later than it, falls into a slot after it, comes from the witness
    scheduled for that slot and is signed with that witness's key. *)
Theorem validate_block_header_spec (b : signed_block_header) s w s' :
  clock_ok s → 0 ≤ timestamp b ≤ u32_max → witnesses_keyed s →
  ⟨ validate_block_header false false b, s ⟩ ⇓ ⟨ w, s' ⟩ ↔
    s' = s ∧ previous b = gpo_head_block_id (gpo s) ∧ gpo_time (gpo s) < timestamp b ∧
    rows (witnesses s) !! hdr_witness b = Some w ∧ signee b = Ok (wit_signing_key w) ∧
    wso_num_scheduled_witnesses (witness_schedule s) ≠ 0 ∧
    hdr_witness b = slot_owner s (timestamp b - gpo_time (gpo s)).
Proof.
  intros Hc Ht Hk. unfold validate_block_header, head_block_time, get_witness, get_slot_at_time, mwhen; cbn [negb].
  assert (slot_at_time s (timestamp b) = Z.max 0 (timestamp b - gpo_time (gpo s))) as Hslot by (by apply slot_at_time_value).
  split.
  - intros Hr. unfold db_assert, validate_signee in Hr. repeat (apply runs_bind in Hr as (? & ? & ? & Hr)). db_inv.
    apply runs_scheduled_witness in Hr as (Hn & -> & ->). apply str_eqb_true in Hguard2.
    rewrite Hslot in *. rewrite Z.max_r in * by (bool_hyps; lia). bool_hyps.
    destruct (signee b) as [k|] eqn:Hsig; [|done]. injection Hval as <-. bool_hyps.
    rewrite (Hk _ _ Hrow) in Hguard2. subst k. done.
  - intros (-> & Hprev & Hlt & Hw & Hsig & Hn & Ho). pose proof (Hk _ _ Hw) as Hown. db_forward.
    + by apply bool_decide_eq_true.
    + by apply Z.ltb_lt.
    + unfold validate_signee. rewrite Hsig. cbn. by rewrite bool_decide_true.
    + apply Z.ltb_lt. lia.
    + eapply runs_bind_intro; [by apply runs_scheduled_witness|]. db_forward.
      apply str_eqb_true. rewrite Hown, Ho. f_equal. lia.
    + done.
Qed.
End slots.

(** * Examples *)

Module SlotExamples.
Import FcRef FcCryptoRef.

Lemma keyed_sample : witnesses_keyed sample_producers.
Proof.
  intros k w Hk. change (rows (witnesses sample_producers)) with
    (list_to_map (M:=gmap account_name witness_object) (imap (λ i n, (n, sample_witness i n)) witness_names)) in Hk.
  apply elem_of_list_to_map_2, elem_of_lookup_imap_1 in Hk as (i & n & [= -> ->] & _). done.
Qed.
Lemma scheduled_sample : scheduled sample_producers witness_names.
Proof. done. Qed.
(** The witness of the third slot produces the next block. *)
Definition next_block : signed_block_header :=
  {| header := {| previous := []; timestamp := 1003; hdr_witness := "kwitness"; transaction_merkle_root := []; hdr_extensions := [] |};
     witness_signature := "kwitness" |}.
Lemma clock_sample : clock_ok sample_producers.
Proof. done. Qed.
End SlotExamples.

Lemma slots_partition_time_witness :
  slot_at_time (F:=FcRef.fc_ref) sample_producers 1003 = 3 ↔
    slot_time (F:=FcRef.fc_ref) sample_producers 3 ≤ 1003 < slot_time (F:=FcRef.fc_ref) sample_producers 3 + BLOCK_INTERVAL.
Proof. apply (slots_partition_time sample_producers 1003 3); done. Defined.


Lemma irreversible_confirmed_witness :
  ∃ N, gpo_last_irreversible_block_num (gpo (outcome update_irreversible_num sample_producers)) = Z.max N 0.
Proof.
  pose proof (irreversible_confirmed sample_producers tt (outcome update_irreversible_num sample_producers)) as Hi.
  destruct Hi as (_ & Hi & _).
  - intros k w Hk. change (rows (witnesses sample_producers)) with
      (list_to_map (M:=gmap account_name witness_object) (imap (λ i n, (n, sample_witness i n)) witness_names)) in Hk.
    apply elem_of_list_to_map_2, elem_of_lookup_imap_1 in Hk as (i & n & [= -> ->] & Hin).
    apply lookup_lt_Some in Hin. change (length witness_names) with 12%nat in Hin.
    unfold u32_max. cbn [wit_last_confirmed_block_num sample_witness]. lia.
  - runs_ok.
  - destruct Hi as (ws & N & _ & _ & _ & E); [done|]. exists N. rewrite E. done.
Defined.

(** A comment in the code gives 2 for these ten confirmed numbers, by a threshold of seven
    tenths; by [IRREVERSIBLE_THRESHOLD] it is 1. *)
Example irreversible_of_ten : merge_sort Z.le [1; 1; 1; 2; 2; 2; 2; 2; 2; 2] !! irreversible_offset 10 = Some 1.
Proof. vm_compute. reflexivity. Qed.

Lemma block_recorded_witness :
  gpo_current_aslot (gpo (outcome (update_global_dynamic_data (F:=FcRef.fc_ref) (C:=FcCryptoRef.fc_crypto_ref) true SlotExamples.next_block)
    sample_producers)) = 10.
Proof.
  pose proof (block_recorded (F:=FcRef.fc_ref) (C:=FcCryptoRef.fc_crypto_ref) true SlotExamples.next_block sample_producers tt
    (outcome (update_global_dynamic_data (F:=FcRef.fc_ref) (C:=FcCryptoRef.fc_crypto_ref) true SlotExamples.next_block) sample_producers)
    SlotExamples.keyed_sample SlotExamples.clock_sample) as Hb.
  destruct Hb as ((_ & _ & _ & Ha) & _); [done..|by runs_ok|by rewrite Ha].
Defined.

Lemma validate_block_header_spec_witness :
  ∃ w, ⟨ validate_block_header (F:=FcRef.fc_ref) (C:=FcCryptoRef.fc_crypto_ref) false false SlotExamples.next_block, sample_producers ⟩
    ⇓ ⟨ w, sample_producers ⟩.
Proof.
  eexists. apply (validate_block_header_spec (F:=FcRef.fc_ref) (C:=FcCryptoRef.fc_crypto_ref) SlotExamples.next_block sample_producers);
    [apply SlotExamples.clock_sample|done|apply SlotExamples.keyed_sample|]. done.
Defined.
