(* ===== verification/Feeds.v ===== *)
(** Price feeds and the virtual supply ([chain/database.cpp]).

    Once an hour the median of the prices the scheduled witnesses publish enters a
    window of recent medians, whose own median is the price the chain converts at.
    With that price the TSD count towards the virtual supply, and the share of the
    TSD in it decides how much of a reward may be paid in TSD. *)

From S2P Require Import Prelude Fc Config Asset Flat Authority Version BlockHeader Operations Objects Database Samples Slots.

(** * Medians *)

(** [std::sort( v.begin(), v.end() )] followed by [v\[v.size() / 2\]]. *)
Definition middle {A} (le : A → A → Prop) `{!RelDecision le} (l : list A) : option A :=
  merge_sort le l !! (length l / 2)%nat.

Section middle.
Context {A : Type} (le : A → A → Prop) `{!RelDecision le, !Total le} (V : A → Prop).
Context (le_trans : ∀ x y z, V x → V y → V z → le x y → le y z → le x z).

Lemma strongly_sorted l : Forall V l → Sorted le l → StronglySorted le l.
Proof.
  induction l as [|x l IH]; intros HV Hs; [constructor|]. apply Forall_cons in HV as [Hx HV].
  apply Sorted_inv in Hs as [Hs Hh]. specialize (IH HV Hs). constructor; [done|].
  destruct l as [|y l]; [done|]. inversion Hh; subst. apply Forall_cons in HV as [Hy HV].
  apply StronglySorted_inv in IH as [_ Hall]. constructor; [done|]. rewrite !Forall_forall in *. eauto.
Qed.

(** A majority of the values between two bounds keeps the middle one there. *)
Lemma middle_between l lo hi m :
  Forall V l → V lo → V hi → middle le l = Some m →
  (length l < 2 * length (filter (λ x, le lo x ∧ le x hi) l))%nat → m ∈ l ∧ le lo m ∧ le m hi.
Proof.
  unfold middle. intros HV Hlo Hhi Hm Hmaj. pose proof (merge_sort_Permutation le l) as Hp.
  rewrite <- Hp in Hmaj, HV |- *. rewrite <- (Permutation_length Hp) in Hm.
  pose proof (strongly_sorted _ HV (Sorted_merge_sort le l)) as Hs.
  set (k := merge_sort le l) in *. clearbody k. clear Hp l.
  pose proof (list_elem_of_lookup_2 _ _ _ Hm) as Hin. split; [done|].
  assert (V m) as Hvm by (rewrite Forall_forall in HV; by apply HV).
  pose proof (lookup_lt_Some _ _ _ Hm) as Hlt. pose proof (take_drop_middle _ _ _ Hm) as E.
  set (i := (length k / 2)%nat) in *. pose proof (Nat.div_mod (length k) 2 ltac:(lia)) as Hd.
  pose proof (Nat.mod_upper_bound (length k) 2 ltac:(lia)). fold i in Hd.
  assert (length (take i k) = i) as H1 by (rewrite length_take; lia).
  assert (length (drop (S i) k) = length k - S i)%nat as H2 by (by rewrite length_drop).
  set (k1 := take i k) in *. set (k2 := drop (S i) k) in *.
  rewrite <- E in Hs, HV, Hmaj. rewrite filter_app, !length_app, length_cons in Hmaj.
  apply Forall_app in HV as [HV1 HV2]. apply Forall_cons in HV2 as [_ HV2]. rewrite Forall_forall in HV1, HV2.
  apply StronglySorted_app in Hs as (H12 & _ & Hs). apply StronglySorted_inv in Hs as [_ Htl]. rewrite Forall_forall in Htl.
  split; destruct (decide (le lo m)) as [Hl|Hl]; try done.
  - exfalso. rewrite (filter_none_in _ k1) in Hmaj; [|intros x Hx [Hx1 _]; apply Hl; eapply le_trans; [..|apply Hx1|]; eauto; apply H12; [done|by left]].
    rewrite filter_cons_False in Hmaj by tauto. pose proof (length_filter (λ x, le lo x ∧ le x hi) k2). cbn [length] in Hmaj. lia.
  - destruct (decide (le m hi)) as [Hh|Hh]; [done|]. exfalso.
    rewrite (filter_none_in _ (m :: k2)) in Hmaj.
    + pose proof (length_filter (λ x, le lo x ∧ le x hi) k1). cbn [length] in Hmaj. lia.
    + intros x [->|Hx]%elem_of_cons [Hx1 Hx2]; [done|]. apply Hh. eapply le_trans; [..|apply Hx2]; eauto.
  - destruct (decide (le m hi)) as [Hh|Hh]; [done|]. exfalso.
    rewrite (filter_none_in _ (m :: k2)) in Hmaj.
    + pose proof (length_filter (λ x, le lo x ∧ le x hi) k1). cbn [length] in Hmaj. lia.
    + intros x [->|Hx]%elem_of_cons [Hx1 Hx2]; [done|]. apply Hh. eapply le_trans; [..|apply Hx2]; eauto.
Qed.
End middle.

Section feeds.
Context {F : Fc}.

(** The order [std::sort] puts prices in. *)
Definition price_le (p q : price) : Prop := price_ltb q p = false.
#[export] Instance price_le_dec : RelDecision price_le.
Proof. intros p q. unfold price_le. apply _. Defined.

(** * The median feed *)

(** The test on one witness's price in [update_median_feed]. *)
Definition feed_counts (hf19 : bool) (now : Z) (w : witness_object) : bool :=
  (if hf19 then now <? tps_add (wit_last_TSD_exchange_update w) MAX_FEED_AGE_SECONDS
   else wit_last_TSD_exchange_update w <? tps_add now MAX_FEED_AGE_SECONDS) &&
  negb (price_is_null (wit_TSD_exchange_rate w)).

(** The prices that count. *)
Definition current_feeds (hf19 : bool) (now : Z) (ws : list witness_object) : list price :=
  wit_TSD_exchange_rate <$> filter (λ w, feed_counts hf19 now w = true) ws.

(** A new median enters the window. *)
Definition push_median (window : Z) (m : price) (h : list price) : list price :=
  let h := h ++ [m] in if window <? Z.of_nat (length h) then tail h else h.

(** The update of the feed history. *)
Definition record_median (hf14 hf16 : bool) (g : dynamic_global_property_object) (m : price)
    (fho : feed_history_object) : result feed_history_object :=
  let window := if hf16 then FEED_HISTORY_WINDOW else FEED_HISTORY_WINDOW_PRE_HF_16 in
  let fho := fho <| fdh_price_history ::= push_median window m |> in
  match middle price_le (fdh_price_history fho) with
  | None => Ok fho
  | Some c =>
      let fho := fho <| fdh_current_median_history := c |> in
      if hf14 then
        n ← safe_mul 9 (amount (gpo_current_TSD_supply g));
        let min_price := Price (Asset n SYMBOL_USD) (gpo_current_supply g) in
        Ok (if price_gtb min_price c then fho <| fdh_current_median_history := min_price |> else fho)
      else Ok fho
  end.

(** [database::update_median_feed], libraries/chain/database.cpp:2763-2830 *)
Definition update_median_feed : DB unit :=
  head ← head_block_num;
  if negb (head mod FEED_INTERVAL_BLOCKS =? 0) then mret tt
  else
    now ← head_block_time;
    wso ← get_witness_schedule_object;
    ws ← scheduled_objects (take (Z.to_nat (wso_num_scheduled_witnesses wso)) (wso_current_shuffled_witnesses wso));
    hf19 ← has_hardfork HARDFORK_0_19;
    let feeds := current_feeds hf19 now ws in
    if MIN_FEEDS <=? Z.of_nat (length feeds) then
      match middle price_le feeds with
      | None => throw (logic_error "out of range")
      | Some median_feed =>
          hf14 ← has_hardfork HARDFORK_0_14;
          hf16 ← has_hardfork HARDFORK_0_16;
          g ← get_dynamic_global_properties;
          modify1 feed_history (record_median hf14 hf16 g median_feed)
      end
    else mret tt.

(** * The virtual supply *)

(** The rate for TSD that make up [percent] of the virtual supply. *)
Definition print_rate (percent : Z) : Z :=
  if percent <=? TSD_START_PERCENT then PERCENT_100
  else if TSD_STOP_PERCENT <=? percent then 0
  else wrap_u16 (Z.quot ((TSD_STOP_PERCENT - percent) * PERCENT_100) (TSD_STOP_PERCENT - TSD_START_PERCENT)).

(** [database::update_virtual_supply], libraries/chain/database.cpp:3015-3037 *)
Definition update_virtual_supply : DB unit :=
  fh ← get_feed_history;
  hf14 ← has_hardfork HARDFORK_0_14;
  modify1 gpo (λ dgp,
    let median_price := fdh_current_median_history fh in
    v ← (if price_is_null median_price then Ok (Asset 0 SYMBOL_COIN)
         else asset_mul (gpo_current_TSD_supply dgp) median_price);
    virt ← asset_add (gpo_current_supply dgp) v;
    let dgp := dgp <| gpo_virtual_supply := virt |> in
    if negb (price_is_null median_price) && hf14 then
      worth ← asset_mul (gpo_current_TSD_supply dgp) median_price;
      percent ← u128_to_u64 (u128_div (u128_mul (u128 (amount worth)) (u128 PERCENT_100)) (u128 (amount virt)));
      Ok (dgp <| gpo_TSD_print_rate := print_rate (wrap_u16 percent) |>)
    else Ok dgp).

Context {FL : FcLaws F}.

(** * The median feed is robust *)

#[export] Instance price_le_total : Total price_le.
Proof.
  intros p q. unfold price_le, price_ltb.
  destruct (Z.ltb_spec (symbol (base p)) (symbol (base q))), (Z.ltb_spec (symbol (base q)) (symbol (base p))); try lia; try tauto.
  destruct (Z.ltb_spec (symbol (quote p)) (symbol (quote q))), (Z.ltb_spec (symbol (quote q)) (symbol (quote p))); try lia; try tauto.
Qed.

Lemma price_le_trans p q r :
  valid_price p → valid_price q → valid_price r → price_le p q → price_le q r → price_le p r.
Proof.
  unfold price_le. intros Hp Hq Hr. rewrite <- !not_true_iff_false, !price_ltb_iff by done.
  destruct Hp, Hq, Hr. intros L1 L2 L3.
  destruct (Z.lt_total (symbol (base q)) (symbol (base p))) as [|[Eb|]]; [lia| |lia].
  destruct (Z.lt_total (symbol (base r)) (symbol (base q))) as [|[Eb'|]]; [lia| |lia].
  destruct (Z.lt_total (symbol (quote q)) (symbol (quote p))) as [|[Eq|]]; [lia| |lia].
  destruct (Z.lt_total (symbol (quote r)) (symbol (quote q))) as [|[Eq'|]]; [lia| |lia].
  pose proof (cross_trans (amount (base p)) (amount (quote p)) (amount (base q)) (amount (quote q))
    (amount (base r)) (amount (quote r))). lia.
Qed.

Lemma scheduled_objects_unique s l ws ws' :
  Forall2 (λ n w, rows (witnesses s) !! n = Some w) l ws → Forall2 (λ n w, rows (witnesses s) !! n = Some w) l ws' → ws = ws'.
Proof.
  intros H. revert ws'. induction H as [|n w l ws Hn _ IH]; intros ws' H'; inversion H'; subst; [done|].
  f_equal; [congruence|auto].
Qed.

Lemma push_median_length w m h : 0 ≤ w → Z.of_nat (length h) ≤ w → Z.of_nat (length (push_median w m h)) ≤ w.
Proof.
  intros Hw Hh. unfold push_median. cbv zeta. destruct (Z.ltb_spec w (Z.of_nat (length (h ++ [m])))) as [|]; [|lia].
  destruct h as [|x h]; cbn in *; rewrite ?length_app in *; cbn in *; lia.
Qed.

(** C18. [update_median_feed]: when more than half of the prices that count lie between
    two bounds, so does the median that enters the window; the window keeps its
    length, the chain's price is the median of the window, and once the market
    cap of the TSD is limited never less than the price of that limit. *)
Theorem median_feed_robust s u s' ws lo hi :
  gpo_head_block_number (gpo s) mod FEED_INTERVAL_BLOCKS = 0 →
  Forall2 (λ n w, rows (witnesses s) !! n = Some w)
    (take (Z.to_nat (wso_num_scheduled_witnesses (witness_schedule s))) (wso_current_shuffled_witnesses (witness_schedule s))) ws →
  let feeds := current_feeds (hardfork_active s HARDFORK_0_19) (gpo_time (gpo s)) ws in
  let window := if hardfork_active s HARDFORK_0_16 then FEED_HISTORY_WINDOW else FEED_HISTORY_WINDOW_PRE_HF_16 in
  MIN_FEEDS ≤ Z.of_nat (length feeds) → Forall valid_price feeds → valid_price lo → valid_price hi →
  (length feeds < 2 * length (filter (λ x, price_le lo x ∧ price_le x hi) feeds))%nat →
  Z.of_nat (length (fdh_price_history (feed_history s))) ≤ window →
  ⟨ update_median_feed, s ⟩ ⇓ ⟨ u, s' ⟩ →
  ∃ m c fh, m ∈ feeds ∧ price_le lo m ∧ price_le m hi ∧
    s' = s <| feed_history := fh |> ∧
    fdh_price_history fh = push_median window m (fdh_price_history (feed_history s)) ∧
    Z.of_nat (length (fdh_price_history fh)) ≤ window ∧
    middle price_le (fdh_price_history fh) = Some c ∧
    (if hardfork_active s HARDFORK_0_14 then
       let min_price := Price (Asset (9 * amount (gpo_current_TSD_supply (gpo s))) SYMBOL_USD) (gpo_current_supply (gpo s)) in
       fdh_current_median_history fh = if price_gtb min_price c then min_price else c
     else fdh_current_median_history fh = c).
Proof.
  intros Hh Hws feeds window Hmin HV Hlo Hhi Hmaj Hwin Hr.
  unfold update_median_feed, head_block_num, head_block_time, get_witness_schedule_object, has_hardfork, get_dynamic_global_properties in Hr.
  runs_step. db_step. rewrite Hh in Hr. cbn [negb Z.eqb] in Hr. do 2 (runs_step; db_step).
  apply runs_bind in Hr as (ws' & s1 & Hs & Hr). apply scheduled_objects_run in Hs as [-> Hs].
  rewrite (scheduled_objects_unique _ _ _ _ Hs Hws) in Hr. clear Hs ws'. runs_step. db_step. cbv zeta in Hr. fold feeds in Hr.
  destruct (Z.leb_spec MIN_FEEDS (Z.of_nat (length feeds))); [|lia].
  destruct (middle price_le feeds) as [m|] eqn:Em; [|by db_inv].
  destruct (middle_between price_le valid_price price_le_trans feeds lo hi m HV Hlo Hhi Em Hmaj) as (Hin & H1 & H2).
  do 3 (apply runs_bind in Hr as (? & ? & [-> ->]%runs_asks & Hr)). apply runs_modify1 in Hr as (fh & Hfh & ->).
  unfold record_median in Hfh. fold window in Hfh. cbv zeta in Hfh. fields.
  pose proof (push_median_length window m (fdh_price_history (feed_history s))) as Hlen.
  specialize (Hlen ltac:(unfold window; destruct (hardfork_active s HARDFORK_0_16); done) Hwin).
  destruct (middle price_le (push_median window m (fdh_price_history (feed_history s)))) as [c|] eqn:Ec.
  - exists m, c, fh. destruct (hardfork_active s HARDFORK_0_14).
    + apply result_bind_ok in Hfh as (n & Hn & Hfh). apply safe_mul_ok in Hn as [-> _].
      injection Hfh as <-. cbv zeta. destruct (price_gtb _ c); fields; done.
    + injection Hfh as <-. fields. done.
  - exfalso. unfold middle in Ec. apply lookup_ge_None_1 in Ec. rewrite (Permutation_length (merge_sort_Permutation _ _)) in Ec.
    assert (length (push_median window m (fdh_price_history (feed_history s))) ≠ 0%nat) as Hne.
    { unfold push_median. cbv zeta. destruct (Z.ltb_spec window (Z.of_nat (length (fdh_price_history (feed_history s) ++ [m])))) as [Hw|_].
      - rewrite length_app in Hw. cbn in Hw. destruct (fdh_price_history (feed_history s)) as [|x h]; cbn in *.
        + unfold window in Hw. destruct (hardfork_active s HARDFORK_0_16); vm_compute in Hw; done.
        + rewrite length_app. cbn. lia.
      - rewrite length_app. cbn. lia. }
    pose proof (Nat.div_lt (length (push_median window m (fdh_price_history (feed_history s)))) 2). lia.
Qed.

(** * The virtual supply is exact *)

Lemma print_rate_value p :
  0 ≤ p ≤ PERCENT_100 →
  print_rate p = Z.min PERCENT_100 (Z.max 0 ((TSD_STOP_PERCENT - p) * PERCENT_100 / (TSD_STOP_PERCENT - TSD_START_PERCENT))).
Proof.
  unfold print_rate. change TSD_START_PERCENT with 100. change TSD_STOP_PERCENT with 200. change PERCENT_100 with 10000.
  change (200 - 100) with 100. intros Hp.
  assert ((200 - p) * 10000 / 100 = (200 - p) * 100) as ->.
  { replace ((200 - p) * 10000) with ((200 - p) * 100 * 100) by lia. by rewrite Z.div_mul. }
  destruct (Z.leb_spec p 100); [lia|]. destruct (Z.leb_spec 200 p); [lia|].
  replace ((200 - p) * 10000) with ((200 - p) * 100 * 100) by lia. rewrite Z.quot_mul by lia.
  unfold wrap_u16. rewrite Z.mod_small by lia. lia.
Qed.

(** [update_virtual_supply]: the virtual supply is the TME supply plus what the
    TSD are worth at the median price, rounded down, and the print rate falls
    linearly from 100% to nothing while the TSD's share of the virtual supply
    rises from [TSD_START_PERCENT] to [TSD_STOP_PERCENT]. *)
Theorem virtual_supply_exact s x y :
  fdh_current_median_history (feed_history s) = Price (Asset x SYMBOL_USD) (Asset y SYMBOL_COIN) →
  0 < x ≤ i64_max → 0 < y ≤ i64_max → hardfork_active s HARDFORK_0_14 = true →
  let tsd := gpo_current_TSD_supply (gpo s) in
  let cur := gpo_current_supply (gpo s) in
  symbol tsd = SYMBOL_USD → symbol cur = SYMBOL_COIN → 0 ≤ amount tsd ≤ i64_max →
  let worth := amount tsd * y / x in
  0 ≤ amount cur → 0 < amount cur + worth ≤ i64_max →
  let percent := worth * PERCENT_100 / (amount cur + worth) in
  let rate := Z.min PERCENT_100
    (Z.max 0 ((TSD_STOP_PERCENT - percent) * PERCENT_100 / (TSD_STOP_PERCENT - TSD_START_PERCENT))) in
  ⟨ update_virtual_supply, s ⟩ ⇓ ⟨ tt, s <| gpo ::= λ g,
    g <| gpo_virtual_supply := Asset (amount cur + worth) SYMBOL_COIN |> <| gpo_TSD_print_rate := rate |> |> ⟩.
Proof.
  intros Hm Hx Hy H14 tsd cur Ht Hc Htr worth Hcur Hw percent rate.
  assert (0 ≤ worth) as Hw0 by (apply Z.div_pos; lia).
  assert (price_is_null (Price (Asset x SYMBOL_USD) (Asset y SYMBOL_COIN)) = false) as Hnull by done.
  assert (asset_mul tsd (Price (Asset x SYMBOL_USD) (Asset y SYMBOL_COIN)) = Ok (Asset worth SYMBOL_COIN)) as Hmul.
  { rewrite (asset_mul_base tsd _ "TSD"%string); [|done|lia| |done].
    - cbn [base quote amount symbol]. unfold conversion_result. fold worth.
      destruct (Z.ltb_spec worth (2 ^ 63)) as [|Hbig]; [done|]. unfold i64_max in Hw. lia.
    - unfold symbol_name. rewrite Ht. done. }
  unfold update_virtual_supply, get_feed_history, has_hardfork.
  eapply runs_bind_intro; [by apply runs_asks|]. eapply runs_bind_intro; [by apply runs_asks|].
  apply runs_modify1. eexists. rewrite ?H14, Hm. cbv zeta. rewrite Hnull. cbn [negb andb].
  fold tsd cur. rewrite Hmul. cbn [mbind result_bind].
  assert (asset_add cur (Asset worth SYMBOL_COIN) = Ok (Asset (amount cur + worth) SYMBOL_COIN)) as ->.
  { unfold asset_add. cbn [symbol amount]. rewrite Hc, Z.eqb_refl. cbn. rewrite safe_add_law, checked_in by (unfold i64_min; lia). done. }
  cbn [mbind result_bind]. fields. fold tsd. rewrite Hmul. cbn [mbind result_bind amount].
  rewrite u128_mul_exact by (done || lia). rewrite u128_law, u128_div_law by (unfold i64_max in *; rewrite Z.mod_small; lia).
  rewrite (Z.mod_small (amount cur + worth)) by (unfold i64_max in *; lia). fold percent.
  assert (0 ≤ percent ≤ PERCENT_100) as Hp.
  { unfold percent. change PERCENT_100 with 10000. split; [apply Z.div_pos; lia|]. apply Z.div_le_upper_bound; lia. }
  rewrite u128_to_u64_small by (change PERCENT_100 with 10000 in Hp; lia). cbn [mbind result_bind].
  split; [reflexivity|]. unfold wrap_u16. rewrite Z.mod_small by (change PERCENT_100 with 10000 in Hp; lia).
  rewrite print_rate_value by done. done.
Qed.
End feeds.

(** * Examples *)

Lemma median_feed_robust_witness :
  ∃ m c fh, price_le (F:=FcRef.fc_ref) (Price (usd 1000) (coin 2011)) m ∧
    outcome (update_median_feed (F:=FcRef.fc_ref)) sample_producers = sample_producers <| feed_history := fh |> ∧
    middle (price_le (F:=FcRef.fc_ref)) (fdh_price_history fh) = Some c.
Proof.
  pose proof (median_feed_robust (F:=FcRef.fc_ref) sample_producers tt (outcome (update_median_feed (F:=FcRef.fc_ref)) sample_producers)
    (imap sample_witness witness_names) (Price (usd 1000) (coin 2011)) (Price (usd 1000) (coin 2003))) as Hm.
  destruct Hm as (m & c & fh & _ & Hlo & _ & E & _ & _ & Hc & _).
  - reflexivity.
  - repeat constructor.
  - vm_compute. congruence.
  - repeat (constructor; [vm_compute; split; split; congruence|]). constructor.
  - vm_compute. split; split; congruence.
  - vm_compute. split; split; congruence.
  - vm_compute. lia.
  - vm_compute. congruence.
  - runs_ok.
  - exists m, c, fh. done.
Defined.

Lemma virtual_supply_exact_witness :
  gpo_virtual_supply (gpo (outcome (update_virtual_supply (F:=FcRef.fc_ref)) sample)) = coin 120.
Proof.
  pose proof (virtual_supply_exact (F:=FcRef.fc_ref) sample 1000 2000 eq_refl ltac:(done) ltac:(done) eq_refl eq_refl eq_refl
    ltac:(done) ltac:(done) ltac:(vm_compute; split; congruence)) as Hv.
  unfold outcome. unfold runs in Hv. rewrite Hv. reflexivity.
Defined.
