(* ===== verification/Ledger.v ===== *)
(** Balances and supply: the [adjust_*] functions of [chain/database.cpp] and
    the routines that create TSD and SCORE. *)

From S2P Require Import Prelude Fc Config Asset Flat Authority Operations Objects Database.

Section ledger.
Context {F : Fc}.

(** ** Interest *)

(** What the TSD branches of the two balance functions update. *)
Record interest_state := InterestState {
  int_balance : asset;
  int_seconds : Z;
  int_last_update : Z;
  int_last_payment : Z;
}.

(** The interest code of [adjust_balance] and [adjust_TMEsavingsBalance]:
    the updated fields and the interest paid, if any was due. *)
Definition accrue_interest (now rate : Z) (i : interest_state)
    : result (interest_state * option (asset * bool)) :=
  if int_last_update i =? now then Ok (i, None)
  else
    let seconds := u128_add (int_seconds i)
      (u128_mul (u128 (amount (int_balance i))) (u128 (tps_diff now (int_last_update i)))) in
    if (0 <? seconds) &&
       (TSD_INTEREST_COMPOUND_INTERVAL_SEC <? tps_diff now (int_last_payment i)) then
      let interest := u128_div seconds (u128 SECONDS_PER_YEAR) in
      let interest := u128_mul interest (u128 rate) in
      let interest := u128_div interest (u128 PERCENT_100) in
      paid ← u128_to_u64 interest;
      let interest_paid := Asset (wrap_i64 paid) SYMBOL_USD in
      b ← asset_add (int_balance i) interest_paid;
      Ok (InterestState b 0 now now, Some (interest_paid, 0 <? interest))
    else Ok (InterestState (int_balance i) seconds now (int_last_payment i), None).

(** Record interest paid to [name]: the virtual operation and the supplies. *)
Definition pay_interest (name : account_name) (paid : option (asset * bool)) : DB unit :=
  match paid with
  | None => mret tt
  | Some (p, positive) =>
      mwhen positive
        (push_virtual_operation (interest_ (Build_interest_operation name p)));;
      fh ← get_feed_history;
      modify1 gpo (λ props,
        tsd ← asset_add (gpo_current_TSD_supply props) p;
        v ← asset_mul p (fdh_current_median_history fh);
        virt ← asset_add (gpo_virtual_supply props) v;
        Ok (props <| gpo_current_TSD_supply := tsd |> <| gpo_virtual_supply := virt |>))
  end.

(** ** Balances *)

(** [database::adjust_balance], libraries/chain/database.cpp:3341-3383 *)
Definition adjust_balance (name : account_name) (delta : asset) : DB unit :=
  if symbol delta =? SYMBOL_COIN then
    modify accounts name (λ a, b ← asset_add (acc_balance a) delta; Ok (a <| acc_balance := b |>))
  else if symbol delta =? SYMBOL_USD then
    a ← get_account name;
    now ← head_block_time; props ← get_dynamic_global_properties;
    r ← lift (accrue_interest now (gpo_TSD_interest_rate props)
      (InterestState (acc_TSDbalance a) (acc_TSD_seconds a) (acc_TSD_seconds_last_update a)
        (acc_TSD_last_interest_payment a)));
    pay_interest (acc_name a) (snd r);;
    modify accounts name (λ a,
      let i := fst r in
      b ← asset_add (int_balance i) delta;
      Ok (a <| acc_TSDbalance := b |> <| acc_TSD_seconds := int_seconds i |>
            <| acc_TSD_seconds_last_update := int_last_update i |>
            <| acc_TSD_last_interest_payment := int_last_payment i |>))
  else fc_assert false "invalid symbol".

(** [database::adjust_TMEsavingsBalance], libraries/chain/database.cpp:3386-3428 *)
Definition adjust_TMEsavingsBalance (name : account_name) (delta : asset) : DB unit :=
  if symbol delta =? SYMBOL_COIN then
    modify accounts name (λ a,
      b ← asset_add (acc_TMEsavingsBalance a) delta; Ok (a <| acc_TMEsavingsBalance := b |>))
  else if symbol delta =? SYMBOL_USD then
    a ← get_account name;
    now ← head_block_time; props ← get_dynamic_global_properties;
    r ← lift (accrue_interest now (gpo_TSD_interest_rate props)
      (InterestState (acc_TSDsavingsBalance a) (acc_savings_TSD_seconds a)
        (acc_savings_TSD_seconds_last_update a) (acc_savings_TSD_last_interest_payment a)));
    pay_interest (acc_name a) (snd r);;
    modify accounts name (λ a,
      let i := fst r in
      b ← asset_add (int_balance i) delta;
      Ok (a <| acc_TSDsavingsBalance := b |> <| acc_savings_TSD_seconds := int_seconds i |>
            <| acc_savings_TSD_seconds_last_update := int_last_update i |>
            <| acc_savings_TSD_last_interest_payment := int_last_payment i |>))
  else fc_assert false EmptyString.

(** [database::adjust_reward_balance], libraries/chain/database.cpp:3431-3447 *)
Definition adjust_reward_balance (name : account_name) (delta : asset) : DB unit :=
  modify accounts name (λ a,
    if symbol delta =? SYMBOL_COIN then
      b ← asset_add (acc_TMErewardBalance a) delta; Ok (a <| acc_TMErewardBalance := b |>)
    else if symbol delta =? SYMBOL_USD then
      b ← asset_add (acc_TSDrewardBalance a) delta; Ok (a <| acc_TSDrewardBalance := b |>)
    else Err (assert_exception "invalid symbol")).

(** [database::adjust_supply], libraries/chain/database.cpp:3450-3479 *)
Definition adjust_supply (delta : asset) (adjust_TME_fund_for_SCORE : bool) : DB unit :=
  fh ← get_feed_history;
  modify1 gpo (λ props,
    let adjust := if gpo_head_block_number props <? BLOCKS_PER_DAY * 7 then false
                  else adjust_TME_fund_for_SCORE in
    if symbol delta =? SYMBOL_COIN then
      n ← (if adjust && (0 <? amount delta) then safe_mul (amount delta) 9 else Ok 0);
      let newSCORE := Asset n SYMBOL_COIN in
      d ← asset_add delta newSCORE;
      cur ← asset_add (gpo_current_supply props) d;
      virt ← asset_add (gpo_virtual_supply props) d;
      fund ← asset_add (gpo_totalTMEfundForSCORE props) newSCORE;
      Ok (props <| gpo_current_supply := cur |> <| gpo_virtual_supply := virt |>
                <| gpo_totalTMEfundForSCORE := fund |>)
    else if symbol delta =? SYMBOL_USD then
      tsd ← asset_add (gpo_current_TSD_supply props) delta;
      v ← asset_mul tsd (fdh_current_median_history fh);
      virt ← asset_add v (gpo_current_supply props);
      Ok (props <| gpo_current_TSD_supply := tsd |> <| gpo_virtual_supply := virt |>)
    else Err (assert_exception "invalid symbol")).

(** [database::get_balance], libraries/chain/database.cpp:3482-3493 *)
Definition get_balance (a : account_object) (sym : Z) : result asset :=
  if sym =? SYMBOL_COIN then Ok (acc_balance a)
  else if sym =? SYMBOL_USD then Ok (acc_TSDbalance a)
  else Err (assert_exception "invalid symbol").

(** [database::get_TMEsavingsBalance], libraries/chain/database.cpp:3495-3506 *)
Definition get_TMEsavingsBalance (a : account_object) (sym : Z) : result asset :=
  if sym =? SYMBOL_COIN then Ok (acc_TMEsavingsBalance a)
  else if sym =? SYMBOL_USD then Ok (acc_TSDsavingsBalance a)
  else Err (assert_exception EmptyString).

(** [get_balance] of the named account. *)
Definition balance_of (name : account_name) (sym : Z) : DB asset :=
  a ← get_account name; lift (get_balance a sym).

(** [database::pay_fee], libraries/chain/database.cpp:469-478 *)
Definition pay_fee (name : account_name) (fee : asset) : DB unit :=
  fc_assert (0 <=? amount fee) EmptyString;;
  if amount fee =? 0 then mret tt
  else
    a ← get_account name;
    db_assert (asset_ge (acc_balance a) fee) EmptyString;;
    neg ← lift (asset_neg fee);
    adjust_balance name neg;;
    neg ← lift (asset_neg fee);
    adjust_supply neg false.

(** ** SCORE prices *)

(** [dynamic_global_property_object::get_SCORE_price], libraries/chain/include/node/chain/global_property_object.hpp:64-70 *)
Definition get_SCORE_price (g : dynamic_global_property_object) : price :=
  if (amount (gpo_totalTMEfundForSCORE g) =? 0) || (amount (gpo_totalSCORE g) =? 0) then
    Price (Asset 1000 SYMBOL_COIN) (Asset 1000000 SYMBOL_SCORE)
  else Price (gpo_totalSCORE g) (gpo_totalTMEfundForSCORE g).

(** [dynamic_global_property_object::get_SCOREreward_price], libraries/chain/include/node/chain/global_property_object.hpp:72-76 *)
Definition get_SCOREreward_price (g : dynamic_global_property_object) : result price :=
  b ← asset_add (gpo_totalSCORE g) (gpo_pending_rewarded_SCORE g);
  q ← asset_add (gpo_totalTMEfundForSCORE g) (gpo_pending_rewarded_SCOREvalueInTME g);
  Ok (Price b q).

(** ** Witness votes *)

(** [get( witness_id )] and [get( account_id )]: look an object up by its id. *)
Definition witness_with_id (id : Z) (s : database) : option account_name :=
  match list_find (λ p, wit_id p.2 = id) (map_to_list (rows (witnesses s))) with
  | Some (_, p) => Some p.1
  | None => None
  end.
Definition account_with_id (id : Z) (s : database) : option account_name :=
  match list_find (λ p, acc_id p.2 = id) (map_to_list (rows (accounts s))) with
  | Some (_, p) => Some p.1
  | None => None
  end.
Definition get_witness_by_id (id : Z) : DB account_name :=
  w ← asks (witness_with_id id);
  match w with Some n => mret n | None => throw (out_of_range "unknown key") end.
Definition get_account_by_id (id : Z) : DB account_name :=
  a ← asks (account_with_id id);
  match a with Some n => mret n | None => throw (out_of_range "unknown key") end.

(** [database::adjust_witness_vote], libraries/chain/database.cpp:1171-1195 *)
Definition adjust_witness_vote (witness : account_name) (delta : Z) : DB unit :=
  wso ← get_witness_schedule_object;
  props ← get_dynamic_global_properties;
  hf2 ← has_hardfork HARDFORK_0_2;
  hf4 ← has_hardfork HARDFORK_0_4;
  let now := wso_current_virtual_time wso in
  modify witnesses witness (λ w,
    let delta_pos := u128_mul (u128 (wit_votes w)) (u128_sub now (wit_virtual_last_update w)) in
    let pos := u128_add (wit_virtual_position w) delta_pos in
    votes ← safe_add (wit_votes w) delta;
    fc_check (votes <=? amount (gpo_totalSCORE props)) EmptyString;;
    let lap := if (hf2 : bool) then VIRTUAL_SCHEDULE_LAP_LENGTH2 else VIRTUAL_SCHEDULE_LAP_LENGTH in
    let scheduled := u128_add now
      (u128_div (u128_sub lap pos) (u128 (wrap_i64 (votes + 1)))) in
    let scheduled :=
      if (hf4 : bool) && (scheduled <? now) then u128_max else scheduled in
    Ok (w <| wit_virtual_position := pos |> <| wit_virtual_last_update := now |>
          <| wit_votes := votes |> <| wit_virtual_scheduled_time := scheduled |>)).

(** The witnesses an account votes for, in the order of the index. *)
Definition voted_witnesses (account_id : Z) (s : database) : list Z :=
  merge_sort Z.le
    (snd <$> filter (λ k, k.1 = account_id) (fst <$> map_to_list (rows (witness_votes s)))).

(** [database::adjust_witness_votes], libraries/chain/database.cpp:1160-1169 *)
Definition adjust_witness_votes (account_id : Z) (delta : Z) : DB unit :=
  l ← asks (voted_witnesses account_id);
  mfor (λ id, w ← get_witness_by_id id; adjust_witness_vote w delta) l.

(** [database::adjust_proxied_witness_votes( a, share_type, depth )], libraries/chain/database.cpp:1137-1158 *)
Fixpoint adjust_proxied_from (remaining : nat) (name : account_name) (delta : Z) : DB unit :=
  a ← get_account name;
  if str_eqb (acc_proxy a) PROXY_TO_SELF_ACCOUNT then adjust_witness_votes (acc_id a) delta
  else
    match remaining with
    | O => mret tt
    | S remaining' =>
        let depth := (Z.to_nat MAX_PROXY_RECURSION_DEPTH - remaining)%nat in
        modify accounts (acc_proxy a) (λ p,
          v ← safe_add (nth depth (acc_proxied_votes p) 0) delta;
          Ok (p <| acc_proxied_votes ::= insert depth v |>));;
        adjust_proxied_from remaining' (acc_proxy a) delta
    end.
Definition adjust_proxied_witness_votes (name : account_name) (delta : Z) : DB unit :=
  adjust_proxied_from (Z.to_nat MAX_PROXY_RECURSION_DEPTH) name delta.

(** The sum of the first [n] deltas, from the last to the first. *)
Definition sum_deltas (n : nat) (delta : list Z) : result Z :=
  fold_left (λ acc i, t ← acc; safe_add t (nth i delta 0)) (rev (seq 0 n)) (Ok 0).

(** The update of a proxy's votes at [depth], from index [n - 1] down to 0. *)
Fixpoint add_deltas (n depth : nat) (delta votes : list Z) : result (list Z) :=
  match n with
  | O => Ok votes
  | S i =>
      v ← safe_add (nth (i + depth) votes 0) (nth i delta 0);
      add_deltas i depth delta (<[(i + depth)%nat := v]> votes)
  end.

(** [database::adjust_proxied_witness_votes( a, array, depth )], libraries/chain/database.cpp:1106-1135 *)
Fixpoint adjust_proxied_array_from (remaining : nat) (name : account_name) (delta : list Z) : DB unit :=
  a ← get_account name;
  if str_eqb (acc_proxy a) PROXY_TO_SELF_ACCOUNT then
    total ← lift (sum_deltas (remaining + 1) delta);
    adjust_witness_votes (acc_id a) total
  else
    match remaining with
    | O => mret tt
    | S remaining' =>
        let depth := (Z.to_nat MAX_PROXY_RECURSION_DEPTH - remaining)%nat in
        modify accounts (acc_proxy a) (λ p,
          v ← add_deltas remaining depth delta (acc_proxied_votes p);
          Ok (p <| acc_proxied_votes := v |>));;
        adjust_proxied_array_from remaining' (acc_proxy a) delta
    end.
Definition adjust_proxied_witness_votes_array (name : account_name) (delta : list Z) : DB unit :=
  adjust_proxied_array_from (Z.to_nat MAX_PROXY_RECURSION_DEPTH) name delta.

(** [database::clear_witness_votes], libraries/chain/database.cpp:1197-1213 *)
Definition clear_witness_votes (name : account_name) : DB unit :=
  a ← get_account name;
  l ← asks (voted_witnesses (acc_id a));
  mfor (λ id, remove witness_votes (acc_id a, id)) l;;
  hf6 ← has_hardfork HARDFORK_0_6;
  mwhen hf6 (modify accounts name (λ a, Ok (a <| acc_witnesses_voted_for := 0 |>))).

(** ** Creating SCORE and TSD *)

(** [database::createTMEfundForSCORE], libraries/chain/database.cpp:1028-1080 *)
Definition createTMEfundForSCORE (to_account : account_name) (TME : asset) (to_reward_balance : bool)
    : DB asset :=
  cprops ← get_dynamic_global_properties;
  p ← lift (if to_reward_balance then get_SCOREreward_price cprops else Ok (get_SCORE_price cprops));
  newSCORE ← lift (asset_mul TME p);
  modify accounts to_account (λ a,
    if to_reward_balance then
      r ← asset_add (acc_SCORErewardBalance a) newSCORE;
      t ← asset_add (acc_SCORErewardBalanceInTME a) TME;
      Ok (a <| acc_SCORErewardBalance := r |> <| acc_SCORErewardBalanceInTME := t |>)
    else v ← asset_add (acc_SCORE a) newSCORE; Ok (a <| acc_SCORE := v |>));;
  modify1 gpo (λ props,
    if to_reward_balance then
      r ← asset_add (gpo_pending_rewarded_SCORE props) newSCORE;
      t ← asset_add (gpo_pending_rewarded_SCOREvalueInTME props) TME;
      Ok (props <| gpo_pending_rewarded_SCORE := r |>
                <| gpo_pending_rewarded_SCOREvalueInTME := t |>)
    else
      t ← asset_add (gpo_totalTMEfundForSCORE props) TME;
      v ← asset_add (gpo_totalSCORE props) newSCORE;
      Ok (props <| gpo_totalTMEfundForSCORE := t |> <| gpo_totalSCORE := v |>));;
  mwhen (negb to_reward_balance) (adjust_proxied_witness_votes to_account (amount newSCORE));;
  mret newSCORE.

(** [database::create_TSD], libraries/chain/database.cpp:978-1022 *)
Definition create_TSD (to_account : account_name) (TME : asset) (to_reward_balance : bool)
    : DB (asset * asset) :=
  if amount TME =? 0 then mret (Asset 0 SYMBOL_USD, Asset 0 SYMBOL_COIN)
  else
    fh ← get_feed_history;
    let median_price := fdh_current_median_history fh in
    if negb (price_is_null median_price) then
      g ← get_dynamic_global_properties;
      x ← lift (safe_mul (gpo_TSD_print_rate g) (amount TME));
      to_TSD ← lift (safe_div x PERCENT_100);
      to_TME ← lift (safe_sub (amount TME) to_TSD);
      TSD ← lift (asset_mul (Asset to_TSD SYMBOL_COIN) median_price);
      (if to_reward_balance then
         adjust_reward_balance to_account TSD;;
         adjust_reward_balance to_account (Asset to_TME SYMBOL_COIN)
       else
         adjust_balance to_account TSD;;
         adjust_balance to_account (Asset to_TME SYMBOL_COIN));;
      neg ← lift (safe_neg to_TSD);
      adjust_supply (Asset neg SYMBOL_COIN) false;;
      adjust_supply TSD false;;
      mret (TSD, Asset to_TME SYMBOL_COIN)
    else
      adjust_balance to_account TME;;
      mret (Asset 0 SYMBOL_USD, TME).
End ledger.
