(* ===== verification/Frame.v ===== *)
(** What the ledger primitives leave alone.

    [frame s s'] says that [s'] differs from [s] at most in accounts, witnesses,
    supplies and the log of virtual operations.  Every primitive of the ledger is
    framed, so the evaluators may keep what they read from the other tables
    across calls of them, as the references of the code do. *)

From S2P Require Import Prelude Fc Config Asset Flat Authority Operations Objects Database Ledger.

Record frame (s s' : database) : Prop := Frame {
  fr_account_authorities : account_authorities s' = account_authorities s;
  fr_witness_votes : witness_votes s' = witness_votes s;
  fr_witness_schedule : witness_schedule s' = witness_schedule s;
  fr_feed_history : feed_history s' = feed_history s;
  fr_hardforks : hardforks s' = hardforks s;
  fr_limit_orders : limit_orders s' = limit_orders s;
  fr_convert_requests : convert_requests s' = convert_requests s;
  fr_escrows : escrows s' = escrows s;
  fr_savings_withdraws : savings_withdraws s' = savings_withdraws s;
  fr_delegations : delegations s' = delegations s;
  fr_delegation_expirations : delegation_expirations s' = delegation_expirations s;
  fr_withdraw_routes : withdraw_routes s' = withdraw_routes s;
  fr_decline_requests : decline_requests s' = decline_requests s;
  fr_owner_histories : owner_histories s' = owner_histories s;
  fr_recovery_requests : recovery_requests s' = recovery_requests s;
  fr_change_recovery_requests : change_recovery_requests s' = change_recovery_requests s;
  fr_comments : comments s' = comments s;
  fr_comment_votes : comment_votes s' = comment_votes s;
  fr_liquidity_rewards : liquidity_rewards s' = liquidity_rewards s;
  fr_reward_funds : reward_funds s' = reward_funds s;
  fr_transactions : transactions s' = transactions s;
  fr_block_summaries : block_summaries s' = block_summaries s;
  fr_time : gpo_time (gpo s') = gpo_time (gpo s);
  fr_head : gpo_head_block_number (gpo s') = gpo_head_block_number (gpo s);
  fr_accounts : ∀ k, is_Some (rows (accounts s') !! k) ↔ is_Some (rows (accounts s) !! k);
}.

#[export] Instance frame_preorder : PreOrder frame.
Proof.
  split.
  - intros s. by split.
  - intros s1 s2 s3 [] []. split; try congruence. naive_solver.
Qed.

Lemma frame_set_account s k a a' :
  rows (accounts s) !! k = Some a → frame s (set_row accounts k a' s).
Proof.
  intros Hk. split; db_fields; try done. intros k'. destruct (decide (k = k')) as [<-|].
  - rewrite lookup_insert_eq, Hk. split; eauto.
  - by rewrite lookup_insert_ne.
Qed.

Lemma frame_gpo s g :
  gpo_time g = gpo_time (gpo s) → gpo_head_block_number g = gpo_head_block_number (gpo s) →
  frame s (s <| gpo := g |>).
Proof. intros. split; fields; done. Qed.

Lemma frame_modify_account name f : preserves frame (modify accounts name f).
Proof. intros s u s' Hr. db_inv. by eapply frame_set_account. Qed.
Lemma frame_modify_witness name f : preserves frame (modify witnesses name f).
Proof. intros s u s' Hr. db_inv. split; db_fields; done. Qed.
Lemma frame_modify_gpo f :
  (∀ g g', f g = Ok g' → gpo_time g' = gpo_time g ∧ gpo_head_block_number g' = gpo_head_block_number g) →
  preserves frame (modify1 gpo f).
Proof. intros Hf s u s' Hr. db_inv. apply Hf in Hval as []. by apply frame_gpo. Qed.
Lemma frame_get `{Countable K} {V} (t : database → table K V) k : preserves frame (get t k).
Proof. intros s u s' Hr. by db_inv. Qed.
Lemma frame_asks {A} (f : database → A) : preserves frame (asks f).
Proof. intros s u s' Hr. by db_inv. Qed.
Lemma frame_push op : preserves frame (push_virtual_operation op).
Proof. unfold push_virtual_operation. intros s u s' Hr. db_inv. split; fields; done. Qed.
Lemma frame_db_assert c msg : preserves frame (db_assert c msg).
Proof. intros s u s' [_ ->]%runs_db_assert. done. Qed.

#[export] Hint Resolve frame_modify_account frame_modify_witness frame_get frame_asks frame_push
  frame_db_assert : preserve.

Ltac gpo_keeps :=
  apply frame_modify_gpo; intros ? ? Hg;
  repeat match goal with
  | H : (_ ≫= _) = Ok _ |- _ => apply result_bind_ok in H as (? & ? & H)
  | H : context [if ?c then _ else _] |- _ => destruct c
  | H : Err _ = Ok _ |- _ => discriminate H
  | H : Ok _ = Ok _ |- _ => injection H as <-
  end; fields; done.

(** Prove a computation framed, part by part. *)
Ltac framed_step :=
  lazymatch goal with
  | |- ∀ _, _ => intros
  | |- _ = true → _ => intros _
  | |- preserves _ (modify1 gpo _) => gpo_keeps
  | |- preserves _ (_ ≫= _) => apply (preserves_bind frame)
  | |- preserves _ (mret _) => apply (preserves_ret frame)
  | |- preserves _ (lift _) => apply (preserves_lift frame)
  | |- preserves _ (throw _) => apply (preserves_throw frame)
  | |- preserves _ (fc_assert _ _) => apply (preserves_assert frame)
  | |- preserves _ (mwhen _ _) => apply (preserves_when frame)
  | |- preserves _ (mfor _ _) => apply (preserves_for frame)
  | |- preserves _ (match ?x with _ => _ end) => destruct x
  | |- preserves _ _ => solve [auto with preserve]
  end.
Ltac framed := repeat framed_step.

Section frames.
Context {F : Fc}.

Lemma pay_interest_frame name p : preserves frame (pay_interest name p).
Proof. unfold pay_interest, get_feed_history. framed. Qed.
Hint Resolve pay_interest_frame : preserve.

Lemma adjust_balance_frame name d : preserves frame (adjust_balance name d).
Proof. unfold adjust_balance, get_account, head_block_time, get_dynamic_global_properties. framed. Qed.
Lemma adjust_TMEsavingsBalance_frame name d : preserves frame (adjust_TMEsavingsBalance name d).
Proof. unfold adjust_TMEsavingsBalance, get_account, head_block_time, get_dynamic_global_properties. framed. Qed.
Lemma adjust_reward_balance_frame name d : preserves frame (adjust_reward_balance name d).
Proof. unfold adjust_reward_balance. framed. Qed.
Lemma adjust_supply_frame d b : preserves frame (adjust_supply d b).
Proof. unfold adjust_supply, get_feed_history. framed. Qed.
Hint Resolve adjust_balance_frame adjust_TMEsavingsBalance_frame adjust_reward_balance_frame
  adjust_supply_frame : preserve.

Lemma pay_fee_frame name fee : preserves frame (pay_fee name fee).
Proof. unfold pay_fee, get_account. framed. Qed.

Lemma adjust_witness_votes_frame id d : preserves frame (adjust_witness_votes id d).
Proof.
  unfold adjust_witness_votes, get_witness_by_id, adjust_witness_vote, get_witness_schedule_object,
    get_dynamic_global_properties, has_hardfork. framed.
Qed.
Hint Resolve adjust_witness_votes_frame : preserve.

Lemma adjust_proxied_from_frame n : ∀ name d, preserves frame (adjust_proxied_from n name d).
Proof. induction n as [|n IH]; intros name d; cbn [adjust_proxied_from]; unfold get_account; framed. Qed.
Lemma adjust_proxied_array_from_frame n : ∀ name d, preserves frame (adjust_proxied_array_from n name d).
Proof. induction n as [|n IH]; intros name d; cbn [adjust_proxied_array_from]; unfold get_account; framed. Qed.
Hint Resolve adjust_proxied_from_frame adjust_proxied_array_from_frame : preserve.

Lemma createTMEfundForSCORE_frame name a b : preserves frame (createTMEfundForSCORE name a b).
Proof.
  unfold createTMEfundForSCORE, get_dynamic_global_properties, adjust_proxied_witness_votes. framed.
Qed.
Lemma create_TSD_frame name a b : preserves frame (create_TSD name a b).
Proof. unfold create_TSD, get_feed_history, get_dynamic_global_properties. framed. Qed.
End frames.

#[export] Hint Resolve pay_interest_frame adjust_balance_frame adjust_TMEsavingsBalance_frame
  adjust_reward_balance_frame adjust_supply_frame pay_fee_frame adjust_witness_votes_frame
  adjust_proxied_from_frame adjust_proxied_array_from_frame createTMEfundForSCORE_frame
  create_TSD_frame : preserve.

(** * What the ledger primitives leave of an account

    [keeps view s s'] says that every account has the same [view] in both
    states.  The primitives that move balances and votes keep the [score_view]:
    identity, SCORE, delegations and withdrawals. *)

Definition score_view (a : account_object) :=
  (acc_id a, acc_name a, acc_SCORE a, acc_SCOREDelegated a, acc_SCOREreceived a,
   acc_SCOREwithdrawRateInTME a, acc_nextSCOREwithdrawalTime a, (acc_withdrawn a, acc_to_withdraw a)).

Section keeps.
Context {X : Type} (view : account_object → X).

Definition keeps (s s' : database) : Prop :=
  ∀ k, view <$> (rows (accounts s') !! k) = view <$> (rows (accounts s) !! k).

#[export] Instance keeps_preorder : PreOrder keeps.
Proof. split; [by intros s k|]. intros s1 s2 s3 H1 H2 k. by rewrite H2. Qed.

Lemma keeps_lookup s s' k a' :
  keeps s s' → rows (accounts s') !! k = Some a' →
  ∃ a, rows (accounts s) !! k = Some a ∧ view a' = view a.
Proof.
  intros Hk Ha. specialize (Hk k). rewrite Ha in Hk. cbn in Hk. symmetry in Hk.
  apply fmap_Some in Hk as (a & Ha' & Hv). eauto.
Qed.

Lemma keeps_set_account s k a a' :
  rows (accounts s) !! k = Some a → view a' = view a → keeps s (set_row accounts k a' s).
Proof.
  intros Hk Hv k'. db_fields. destruct (decide (k = k')) as [<-|].
  - rewrite lookup_insert_eq, Hk. cbn. by rewrite Hv.
  - by rewrite lookup_insert_ne.
Qed.

Lemma keeps_modify_account name f :
  (∀ a a', f a = Ok a' → view a' = view a) → preserves keeps (modify accounts name f).
Proof. intros Hf s u s' Hr. db_inv. eapply keeps_set_account; eauto. Qed.
Lemma keeps_modify_witness name f : preserves keeps (modify witnesses name f).
Proof. intros s u s' Hr. db_inv. intros k. by db_fields. Qed.
Lemma keeps_modify_gpo f : preserves keeps (modify1 gpo f).
Proof. intros s u s' Hr. db_inv. intros k. by fields. Qed.
Lemma keeps_get `{Countable K} {V} (t : database → table K V) k : preserves keeps (get t k).
Proof. intros s u s' Hr. by db_inv. Qed.
Lemma keeps_asks {A} (f : database → A) : preserves keeps (asks f).
Proof. intros s u s' Hr. by db_inv. Qed.
Lemma keeps_push op : preserves keeps (push_virtual_operation op).
Proof. unfold push_virtual_operation. intros s u s' Hr. db_inv. intros k. by fields. Qed.
Lemma keeps_db_assert c msg : preserves keeps (db_assert c msg).
Proof. intros s u s' [_ ->]%runs_db_assert. done. Qed.
End keeps.

Create HintDb keep discriminated.
#[export] Hint Resolve keeps_modify_witness keeps_modify_gpo keeps_get keeps_asks keeps_push
  keeps_db_assert : keep.

(** The view of an account after the updates of one [modify]. *)
Ltac account_keeps :=
  apply keeps_modify_account; intros ? ? Hg;
  repeat match goal with
  | H : (_ ≫= _) = Ok _ |- _ => apply result_bind_ok in H as (? & ? & H)
  | H : context [if ?c then _ else _] |- _ => destruct c
  | H : Err _ = Ok _ |- _ => discriminate H
  | H : Ok _ = Ok _ |- _ => injection H as <-
  end; unfold score_view; fields; done.

Ltac kept_step :=
  lazymatch goal with
  | |- ∀ _, _ => intros
  | |- _ = true → _ => intros _
  | |- preserves _ (modify accounts _ _) => account_keeps
  | |- preserves ?R (_ ≫= _) => apply (preserves_bind R)
  | |- preserves ?R (mret _) => apply (preserves_ret R)
  | |- preserves ?R (lift _) => apply (preserves_lift R)
  | |- preserves ?R (throw _) => apply (preserves_throw R)
  | |- preserves ?R (fc_assert _ _) => apply (preserves_assert R)
  | |- preserves ?R (mwhen _ _) => apply (preserves_when R)
  | |- preserves ?R (mfor _ _) => apply (preserves_for R)
  | |- preserves _ (match ?x with _ => _ end) => destruct x
  | |- preserves _ _ => solve [auto with keep]
  end.
Ltac kept := repeat kept_step.

Section kept.
Context {F : Fc}.

Lemma pay_interest_keeps name p : preserves (keeps score_view) (pay_interest name p).
Proof. unfold pay_interest, get_feed_history. kept. Qed.
Hint Resolve pay_interest_keeps : keep.
Lemma adjust_balance_keeps name d : preserves (keeps score_view) (adjust_balance name d).
Proof. unfold adjust_balance, get_account, head_block_time, get_dynamic_global_properties. kept. Qed.
Lemma adjust_reward_balance_keeps name d : preserves (keeps score_view) (adjust_reward_balance name d).
Proof. unfold adjust_reward_balance. kept. Qed.
Lemma adjust_witness_votes_keeps id d : preserves (keeps score_view) (adjust_witness_votes id d).
Proof.
  unfold adjust_witness_votes, get_witness_by_id, adjust_witness_vote, get_witness_schedule_object,
    get_dynamic_global_properties, has_hardfork. kept.
Qed.
Hint Resolve adjust_witness_votes_keeps : keep.
Lemma adjust_proxied_from_keeps n : ∀ name d, preserves (keeps score_view) (adjust_proxied_from n name d).
Proof. induction n as [|n IH]; intros name d; cbn [adjust_proxied_from]; unfold get_account; kept. Qed.
End kept.

#[export] Hint Resolve pay_interest_keeps adjust_balance_keeps adjust_reward_balance_keeps
  adjust_witness_votes_keeps adjust_proxied_from_keeps : keep.
