(* ===== verification/Supply.v ===== *)
(** Supply accounting.

    [database::validate_invariants] demands that the recorded TME, TSD and SCORE
    supplies equal what is held.  Here the four differences it compares are
    defined as functions of the state, the [gaps]; a step is described by how
    far it shifts each of them ([shifts]).  The lemmas of this file give the
    shift of every primitive; the evaluators are then shown to shift nothing by
    adding up the shifts of their steps. *)

From S2P Require Import Prelude Fc Config Asset Flat Authority Operations Objects Database Ledger Frame.

(** * What each object holds *)

(** An amount counted when its symbol is [sym]. *)
Definition of_symbol (sym : Z) (a : asset) : Z := if symbol a =? sym then amount a else 0.

Definition acc_tme (a : account_object) : Z :=
  amount (acc_balance a) + amount (acc_TMEsavingsBalance a) + amount (acc_TMErewardBalance a).
Definition acc_tsd (a : account_object) : Z :=
  amount (acc_TSDbalance a) + amount (acc_TSDsavingsBalance a) + amount (acc_TSDrewardBalance a).
Definition acc_score (a : account_object) : Z := amount (acc_SCORE a) + amount (acc_SCORErewardBalance a).
Definition acc_pend (a : account_object) : Z := amount (acc_SCORErewardBalanceInTME a).

Definition ord_held (sym : Z) (o : limit_order_object) : Z :=
  of_symbol sym (Asset (ord_for_sale o) (symbol (base (ord_sell_price o)))).
Definition cnv_held (sym : Z) (c : convert_request_object) : Z := of_symbol sym (cnv_amount c).
Definition swd_held (sym : Z) (w : savings_withdraw_object) : Z := of_symbol sym (swd_amount w).
Definition esc_tme (e : escrow_object) : Z :=
  amount (esc_TMEbalance e) + of_symbol SYMBOL_COIN (esc_pending_fee e).
Definition esc_tsd (e : escrow_object) : Z :=
  amount (esc_TSDbalance e) + of_symbol SYMBOL_USD (esc_pending_fee e).
Definition rwf_held (r : reward_fund_object) : Z := amount (rwf_reward_balance r).

Definition gpo_tme (g : dynamic_global_property_object) : Z :=
  amount (gpo_current_supply g) - amount (gpo_totalTMEfundForSCORE g) -
  amount (gpo_total_reward_fund_TME g) - amount (gpo_pending_rewarded_SCOREvalueInTME g).
Definition gpo_tsd (g : dynamic_global_property_object) : Z := amount (gpo_current_TSD_supply g).
Definition gpo_score (g : dynamic_global_property_object) : Z :=
  amount (gpo_totalSCORE g) + amount (gpo_pending_rewarded_SCORE g).
Definition gpo_pend (g : dynamic_global_property_object) : Z :=
  amount (gpo_pending_rewarded_SCOREvalueInTME g).

(** * The gaps *)

(** [gpo.current_supply - total_supply] of [validate_invariants], libraries/chain/database.cpp:3921-4045 *)
Definition tme_gap (s : database) : Z :=
  gpo_tme (gpo s) - map_sum acc_tme (rows (accounts s)) -
  map_sum (cnv_held SYMBOL_COIN) (rows (convert_requests s)) -
  map_sum (ord_held SYMBOL_COIN) (rows (limit_orders s)) -
  map_sum esc_tme (rows (escrows s)) -
  map_sum (swd_held SYMBOL_COIN) (rows (savings_withdraws s)) -
  map_sum rwf_held (rows (reward_funds s)).

(** [gpo.current_TSD_supply - TSDtotal] of [validate_invariants], libraries/chain/database.cpp:3944-4032 *)
Definition tsd_gap (s : database) : Z :=
  gpo_tsd (gpo s) - map_sum acc_tsd (rows (accounts s)) -
  map_sum (cnv_held SYMBOL_USD) (rows (convert_requests s)) -
  map_sum (ord_held SYMBOL_USD) (rows (limit_orders s)) -
  map_sum esc_tsd (rows (escrows s)) -
  map_sum (swd_held SYMBOL_USD) (rows (savings_withdraws s)).

(** [gpo.totalSCORE + gpo.pending_rewarded_SCORE - totalSCORE] of [validate_invariants], libraries/chain/database.cpp:3947-4033 *)
Definition score_gap (s : database) : Z :=
  gpo_score (gpo s) - map_sum acc_score (rows (accounts s)).

(** [gpo.pending_rewarded_SCOREvalueInTME - pending_SCOREvalueInTME] of [validate_invariants], libraries/chain/database.cpp:3949-4035 *)
Definition pend_gap (s : database) : Z :=
  gpo_pend (gpo s) - map_sum acc_pend (rows (accounts s)).

(** How far a step moves the four gaps. *)
Record shifts (dT dU dS dP : Z) (s s' : database) : Prop := Shifts {
  shift_tme : tme_gap s' = tme_gap s + dT;
  shift_tsd : tsd_gap s' = tsd_gap s + dU;
  shift_score : score_gap s' = score_gap s + dS;
  shift_pend : pend_gap s' = pend_gap s + dP;
}.

(** A step that creates and destroys nothing off the books. *)
Abbreviation conserves := (shifts 0 0 0 0).

Lemma shifts_refl s : conserves s s.
Proof. split; lia. Qed.

#[export] Hint Resolve shifts_refl : core.

Lemma shifts_trans dT dU dS dP dT' dU' dS' dP' s s' s'' :
  shifts dT dU dS dP s s' → shifts dT' dU' dS' dP' s' s'' →
  shifts (dT + dT') (dU + dU') (dS + dS') (dP + dP') s s''.
Proof. intros [] []. split; lia. Qed.

Lemma shifts_eq dT dU dS dP dT' dU' dS' dP' s s' :
  shifts dT dU dS dP s s' → dT = dT' → dU = dU' → dS = dS' → dP = dP' →
  shifts dT' dU' dS' dP' s s'.
Proof. by intros ? -> -> -> ->. Qed.

#[export] Instance conserves_preorder : PreOrder conserves.
Proof.
  split; [intros s; apply shifts_refl|].
  intros s1 s2 s3 H1 H2. apply (shifts_trans _ _ _ _ _ _ _ _ _ _ _ H1 H2).
Qed.

(** Add up all the shifts among the hypotheses. *)
Ltac add_shifts :=
  repeat match goal with H : shifts _ _ _ _ _ _ |- _ => destruct H end; split; lia.

(** * Shifts of table updates *)

Ltac gap_fields :=
  unfold tme_gap, tsd_gap, score_gap, pend_gap; db_fields.

Section updates.
Implicit Types s : database.

Lemma shifts_set_account s k a a' :
  rows (accounts s) !! k = Some a →
  shifts (acc_tme a - acc_tme a') (acc_tsd a - acc_tsd a') (acc_score a - acc_score a')
    (acc_pend a - acc_pend a') s (set_row accounts k a' s).
Proof. intros Hk. split; gap_fields; rewrite !(map_sum_insert _ _ _ _ _ Hk); lia. Qed.

Lemma shifts_add_account s k a :
  rows (accounts s) !! k = None →
  shifts (- acc_tme a) (- acc_tsd a) (- acc_score a) (- acc_pend a) s (add_row accounts k a s).
Proof. intros Hk. split; gap_fields; rewrite !(map_sum_insert_new _ _ _ _ Hk); lia. Qed.

Lemma shifts_gpo s g :
  shifts (gpo_tme g - gpo_tme (gpo s)) (gpo_tsd g - gpo_tsd (gpo s))
    (gpo_score g - gpo_score (gpo s)) (gpo_pend g - gpo_pend (gpo s)) s (s <| gpo := g |>).
Proof. split; gap_fields; lia. Qed.

Lemma shifts_set_order s k o o' :
  rows (limit_orders s) !! k = Some o →
  shifts (ord_held SYMBOL_COIN o - ord_held SYMBOL_COIN o')
    (ord_held SYMBOL_USD o - ord_held SYMBOL_USD o') 0 0 s (set_row limit_orders k o' s).
Proof. intros Hk. split; gap_fields; rewrite ?(map_sum_insert _ _ _ _ _ Hk); lia. Qed.

Lemma shifts_add_order s k o :
  rows (limit_orders s) !! k = None →
  shifts (- ord_held SYMBOL_COIN o) (- ord_held SYMBOL_USD o) 0 0 s (add_row limit_orders k o s).
Proof. intros Hk. split; gap_fields; rewrite ?(map_sum_insert_new _ _ _ _ Hk); lia. Qed.

Lemma shifts_del_order s k o :
  rows (limit_orders s) !! k = Some o →
  shifts (ord_held SYMBOL_COIN o) (ord_held SYMBOL_USD o) 0 0 s (del_row limit_orders k s).
Proof. intros Hk. split; gap_fields; rewrite ?(map_sum_delete _ _ _ _ Hk); lia. Qed.

Lemma shifts_set_escrow s k e e' :
  rows (escrows s) !! k = Some e →
  shifts (esc_tme e - esc_tme e') (esc_tsd e - esc_tsd e') 0 0 s (set_row escrows k e' s).
Proof. intros Hk. split; gap_fields; rewrite ?(map_sum_insert _ _ _ _ _ Hk); lia. Qed.

Lemma shifts_add_escrow s k e :
  rows (escrows s) !! k = None →
  shifts (- esc_tme e) (- esc_tsd e) 0 0 s (add_row escrows k e s).
Proof. intros Hk. split; gap_fields; rewrite ?(map_sum_insert_new _ _ _ _ Hk); lia. Qed.

Lemma shifts_del_escrow s k e :
  rows (escrows s) !! k = Some e → shifts (esc_tme e) (esc_tsd e) 0 0 s (del_row escrows k s).
Proof. intros Hk. split; gap_fields; rewrite ?(map_sum_delete _ _ _ _ Hk); lia. Qed.

Lemma shifts_add_convert s k c :
  rows (convert_requests s) !! k = None →
  shifts (- cnv_held SYMBOL_COIN c) (- cnv_held SYMBOL_USD c) 0 0 s (add_row convert_requests k c s).
Proof. intros Hk. split; gap_fields; rewrite ?(map_sum_insert_new _ _ _ _ Hk); lia. Qed.

Lemma shifts_del_convert s k c :
  rows (convert_requests s) !! k = Some c →
  shifts (cnv_held SYMBOL_COIN c) (cnv_held SYMBOL_USD c) 0 0 s (del_row convert_requests k s).
Proof. intros Hk. split; gap_fields; rewrite ?(map_sum_delete _ _ _ _ Hk); lia. Qed.

Lemma shifts_add_savings s k w :
  rows (savings_withdraws s) !! k = None →
  shifts (- swd_held SYMBOL_COIN w) (- swd_held SYMBOL_USD w) 0 0 s (add_row savings_withdraws k w s).
Proof. intros Hk. split; gap_fields; rewrite ?(map_sum_insert_new _ _ _ _ Hk); lia. Qed.

Lemma shifts_del_savings s k w :
  rows (savings_withdraws s) !! k = Some w →
  shifts (swd_held SYMBOL_COIN w) (swd_held SYMBOL_USD w) 0 0 s (del_row savings_withdraws k s).
Proof. intros Hk. split; gap_fields; rewrite ?(map_sum_delete _ _ _ _ Hk); lia. Qed.

Lemma shifts_set_fund s k r r' :
  rows (reward_funds s) !! k = Some r →
  shifts (rwf_held r - rwf_held r') 0 0 0 s (set_row reward_funds k r' s).
Proof. intros Hk. split; gap_fields; rewrite ?(map_sum_insert _ _ _ _ _ Hk); lia. Qed.
End updates.

(** * Shifts of the primitives *)

Lemma of_symbol_coin x : symbol x = SYMBOL_COIN →
  of_symbol SYMBOL_COIN x = amount x ∧ of_symbol SYMBOL_USD x = 0.
Proof. intros E. unfold of_symbol. rewrite E. done. Qed.
Lemma of_symbol_usd x : symbol x = SYMBOL_USD →
  of_symbol SYMBOL_COIN x = 0 ∧ of_symbol SYMBOL_USD x = amount x.
Proof. intros E. unfold of_symbol. rewrite E. done. Qed.
Lemma of_symbol_score x : symbol x = SYMBOL_SCORE →
  of_symbol SYMBOL_COIN x = 0 ∧ of_symbol SYMBOL_USD x = 0.
Proof. intros E. unfold of_symbol. rewrite E. done. Qed.
Lemma of_symbol_coin_lit x :
  of_symbol SYMBOL_COIN (Asset x SYMBOL_COIN) = x ∧ of_symbol SYMBOL_USD (Asset x SYMBOL_COIN) = 0.
Proof. done. Qed.
Lemma of_symbol_usd_lit x :
  of_symbol SYMBOL_COIN (Asset x SYMBOL_USD) = 0 ∧ of_symbol SYMBOL_USD (Asset x SYMBOL_USD) = x.
Proof. done. Qed.
Lemma of_symbol_zero sym a : amount a = 0 → of_symbol sym a = 0.
Proof. intros E. unfold of_symbol. rewrite E. by case_match. Qed.
Lemma of_symbol_opp sym a b : symbol b = symbol a → amount b = - amount a →
  of_symbol sym b = - of_symbol sym a.
Proof. intros E1 E2. unfold of_symbol. rewrite E1, E2. by case_match. Qed.

(** Rewrite the part of each negated amount in terms of the amount itself. *)
Ltac opposites :=
  repeat match goal with
  | H : symbol ?b = symbol ?a, H' : amount ?b = - amount ?a, K : context [of_symbol ?y ?b] |- _ =>
      rewrite (of_symbol_opp y a b H H') in K
  end.

(** Evaluate the part of literal amounts. *)
Ltac literals :=
  repeat match goal with
  | K : context [of_symbol ?y (Asset 0 ?z)] |- _ => rewrite (of_symbol_zero y (Asset 0 z) eq_refl) in K
  | K : context [of_symbol _ (Asset ?x SYMBOL_COIN)] |- _ =>
      rewrite ?(proj1 (of_symbol_coin_lit x)), ?(proj2 (of_symbol_coin_lit x)) in K
  | K : context [of_symbol _ (Asset ?x SYMBOL_USD)] |- _ =>
      rewrite ?(proj1 (of_symbol_usd_lit x)), ?(proj2 (of_symbol_usd_lit x)) in K
  end.

(** Evaluate the part of amounts whose symbol follows from the hypotheses. *)
Ltac known_symbols :=
  repeat match goal with
  | K : context [of_symbol SYMBOL_COIN ?x] |- _ =>
      first [ rewrite (proj1 (of_symbol_coin x ltac:(cbn; congruence))) in K
            | rewrite (proj1 (of_symbol_usd x ltac:(cbn; congruence))) in K ]
  | K : context [of_symbol SYMBOL_USD ?x] |- _ =>
      first [ rewrite (proj2 (of_symbol_coin x ltac:(cbn; congruence))) in K
            | rewrite (proj2 (of_symbol_usd x ltac:(cbn; congruence))) in K ]
  end.

(** Split the successful runs of asset arithmetic. *)
Ltac asset_step :=
  match goal with
  | H : (_ ≫= _) = Ok _ |- _ => apply result_bind_ok in H as (? & ? & H); cbv beta in H
  | H : (_ ;; _) = Ok _ |- _ => apply result_bind_ok in H as (? & ? & H); cbv beta in H
  | H : Ok _ = Ok _ |- _ => injection H; clear H; intros; subst
  | H : Err _ = Ok _ |- _ => discriminate H
  | H : asset_add _ _ = Ok _ |- _ => apply asset_add_ok in H as (? & ? & ? & ?)
  | H : asset_sub _ _ = Ok _ |- _ => apply asset_sub_ok in H as (? & ? & ? & ?)
  | H : asset_neg _ = Ok _ |- _ => apply asset_neg_ok in H as [? ?]
  | H : safe_add _ _ = Ok _ |- _ => apply safe_add_ok in H as [? ?]
  | H : safe_sub _ _ = Ok _ |- _ => apply safe_sub_ok in H as [? ?]
  | H : safe_neg _ = Ok _ |- _ => apply safe_neg_ok in H as [? ?]
  | H : asset_ge _ _ = Ok true |- _ => apply asset_ge_ok in H as [? ?]
  | H : fc_check _ _ = Ok _ |- _ => apply fc_check_ok in H
  end.
Ltac asset_inv := repeat asset_step.

Ltac holdings :=
  unfold acc_tme, acc_tsd, acc_score, acc_pend, gpo_tme, gpo_tsd, gpo_score, gpo_pend,
    esc_tme, esc_tsd, rwf_held, swd_held, cnv_held, ord_held in *; fields;
  cbn [acc_balance acc_TMEsavingsBalance acc_TMErewardBalance acc_TSDbalance acc_TSDsavingsBalance
    acc_TSDrewardBalance acc_SCORE acc_SCORErewardBalance acc_SCORErewardBalanceInTME
    swd_amount cnv_amount ord_for_sale ord_sell_price esc_TMEbalance esc_TSDbalance esc_pending_fee] in *.

(** A step that touches only what [validate_invariants] does not add up. *)
Ltac off_books := split; gap_fields; lia.

Section primitives.
Context {F : Fc} {FL : FcLaws F}.

Lemma push_virtual_operation_shifts op s u s' :
  ⟨ push_virtual_operation op, s ⟩ ⇓ ⟨ u, s' ⟩ → conserves s s' ∧ accounts s' = accounts s ∧ gpo s' = gpo s.
Proof. unfold push_virtual_operation. intros Hr. db_inv. split; [off_books|]. by fields. Qed.

Definition paid_amount (p : option (asset * bool)) : Z :=
  match p with Some (a, _) => amount a | None => 0 end.

Lemma accrue_interest_ok now rate i i' p :
  accrue_interest now rate i = Ok (i', p) →
  amount (int_balance i') = amount (int_balance i) + paid_amount p ∧
  symbol (int_balance i') = symbol (int_balance i).
Proof.
  unfold accrue_interest. repeat case_match; intros Hi; asset_inv; cbn in *; split; lia || done.
Qed.

Lemma pay_interest_shifts name p s u s' :
  ⟨ pay_interest name p, s ⟩ ⇓ ⟨ u, s' ⟩ →
  shifts 0 (paid_amount p) 0 0 s s' ∧ accounts s' = accounts s.
Proof.
  unfold pay_interest. destruct p as [[p b]|]; intros Hr; [|by runs_inv].
  runs_step. assert (conserves s s0 ∧ accounts s0 = accounts s) as [Hc Ha].
  { apply runs_when in Hr0. destruct b; [|by subst].
    by apply push_virtual_operation_shifts in Hr0 as (? & ? & _). }
  unfold get_feed_history in Hr. db_inv. asset_inv. fields. split; [|done].
  eapply shifts_eq; [eapply shifts_trans; [exact Hc|apply shifts_gpo]|..]; holdings; cbn; lia.
Qed.

Lemma adjust_balance_shifts name delta s u s' :
  ⟨ adjust_balance name delta, s ⟩ ⇓ ⟨ u, s' ⟩ →
  shifts (- of_symbol SYMBOL_COIN delta) (- of_symbol SYMBOL_USD delta) 0 0 s s'.
Proof.
  unfold adjust_balance. destruct (Z.eqb_spec (symbol delta) SYMBOL_COIN) as [E|E].
  { intros Hr. db_inv. asset_inv. destruct (of_symbol_coin _ E) as [-> ->].
    eapply shifts_eq; [by eapply shifts_set_account|..]; holdings; lia. }
  destruct (Z.eqb_spec (symbol delta) SYMBOL_USD) as [E'|E']; intros Hr; [|db_inv; done].
  unfold get_account, head_block_time, get_dynamic_global_properties in Hr. db_inv.
  destruct v0 as [i p]. apply accrue_interest_ok in Hval as [Hi _]. cbn in Hi, Hr0.
  apply pay_interest_shifts in Hr0 as [Hp Ha]. rewrite Ha, Hrow in Hrow0. injection Hrow0 as <-.
  cbn [fst snd] in Hval0. asset_inv. destruct (of_symbol_usd _ E') as [-> ->].
  eapply shifts_eq; [eapply shifts_trans; [exact Hp|]|..].
  { eapply shifts_set_account. by rewrite Ha. }
  all: holdings; lia.
Qed.

Lemma adjust_TMEsavingsBalance_shifts name delta s u s' :
  ⟨ adjust_TMEsavingsBalance name delta, s ⟩ ⇓ ⟨ u, s' ⟩ →
  shifts (- of_symbol SYMBOL_COIN delta) (- of_symbol SYMBOL_USD delta) 0 0 s s'.
Proof.
  unfold adjust_TMEsavingsBalance. destruct (Z.eqb_spec (symbol delta) SYMBOL_COIN) as [E|E].
  { intros Hr. db_inv. asset_inv. destruct (of_symbol_coin _ E) as [-> ->].
    eapply shifts_eq; [by eapply shifts_set_account|..]; holdings; lia. }
  destruct (Z.eqb_spec (symbol delta) SYMBOL_USD) as [E'|E']; intros Hr; [|db_inv; done].
  unfold get_account, head_block_time, get_dynamic_global_properties in Hr. db_inv.
  destruct v0 as [i p]. apply accrue_interest_ok in Hval as [Hi _]. cbn in Hi, Hr0.
  apply pay_interest_shifts in Hr0 as [Hp Ha]. rewrite Ha, Hrow in Hrow0. injection Hrow0 as <-.
  cbn [fst snd] in Hval0. asset_inv. destruct (of_symbol_usd _ E') as [-> ->].
  eapply shifts_eq; [eapply shifts_trans; [exact Hp|]|..].
  { eapply shifts_set_account. by rewrite Ha. }
  all: holdings; lia.
Qed.

Lemma adjust_reward_balance_shifts name delta s u s' :
  ⟨ adjust_reward_balance name delta, s ⟩ ⇓ ⟨ u, s' ⟩ →
  shifts (- of_symbol SYMBOL_COIN delta) (- of_symbol SYMBOL_USD delta) 0 0 s s'.
Proof.
  unfold adjust_reward_balance. intros Hr. db_inv.
  destruct (Z.eqb_spec (symbol delta) SYMBOL_COIN) as [E|E].
  { asset_inv. destruct (of_symbol_coin _ E) as [-> ->].
    eapply shifts_eq; [by eapply shifts_set_account|..]; holdings; lia. }
  destruct (Z.eqb_spec (symbol delta) SYMBOL_USD) as [E'|E']; [|done].
  asset_inv. destruct (of_symbol_usd _ E') as [-> ->].
  eapply shifts_eq; [by eapply shifts_set_account|..]; holdings; lia.
Qed.

Lemma adjust_supply_shifts delta b s u s' :
  ⟨ adjust_supply delta b, s ⟩ ⇓ ⟨ u, s' ⟩ →
  shifts (of_symbol SYMBOL_COIN delta) (of_symbol SYMBOL_USD delta) 0 0 s s'.
Proof.
  unfold adjust_supply, get_feed_history. intros Hr. db_inv.
  destruct (Z.eqb_spec (symbol delta) SYMBOL_COIN) as [E|E].
  { asset_inv. destruct (of_symbol_coin _ E) as [-> ->].
    eapply shifts_eq; [apply shifts_gpo|..]; holdings; cbn in *; lia. }
  destruct (Z.eqb_spec (symbol delta) SYMBOL_USD) as [E'|E']; [|done].
  asset_inv. destruct (of_symbol_usd _ E') as [-> ->].
  eapply shifts_eq; [apply shifts_gpo|..]; holdings; lia.
Qed.

Lemma pay_fee_shifts name fee s u s' :
  ⟨ pay_fee name fee, s ⟩ ⇓ ⟨ u, s' ⟩ → conserves s s'.
Proof.
  unfold pay_fee. intros Hr. runs_step. runs_step.
  destruct (amount fee =? 0); [by runs_inv|].
  unfold get_account, db_assert in Hr. db_inv. asset_inv.
  apply adjust_balance_shifts in Hr1. apply adjust_supply_shifts in Hr.
  opposites. add_shifts.
Qed.

Lemma adjust_witness_votes_shifts id d s u s' :
  ⟨ adjust_witness_votes id d, s ⟩ ⇓ ⟨ u, s' ⟩ → conserves s s'.
Proof.
  unfold adjust_witness_votes. intros Hr. db_inv. revert Hr. apply preserves_for; [apply _|].
  intros w t v t' Ht. unfold get_witness_by_id in Ht. db_inv.
  destruct (witness_with_id w t); db_inv.
  unfold adjust_witness_vote, get_witness_schedule_object, get_dynamic_global_properties,
    has_hardfork in Ht. db_inv. off_books.
Qed.

Lemma adjust_proxied_from_shifts n : ∀ name d s u s',
  ⟨ adjust_proxied_from n name d, s ⟩ ⇓ ⟨ u, s' ⟩ → conserves s s'.
Proof.
  induction n as [|n IH]; intros name d s u s' Hr; cbn [adjust_proxied_from] in Hr;
    unfold get_account in Hr; runs_step; db_step; destruct (str_eqb _ _);
    try by eapply adjust_witness_votes_shifts.
  - by runs_inv.
  - runs_step. db_step. asset_inv. apply IH in Hr.
    etrans; [|exact Hr]. eapply shifts_eq; [by eapply shifts_set_account|..]; holdings; lia.
Qed.

Lemma adjust_proxied_array_from_shifts n : ∀ name d s u s',
  ⟨ adjust_proxied_array_from n name d, s ⟩ ⇓ ⟨ u, s' ⟩ → conserves s s'.
Proof.
  induction n as [|n IH]; intros name d s u s' Hr; cbn [adjust_proxied_array_from] in Hr;
    unfold get_account in Hr; runs_step; db_step; destruct (str_eqb _ _);
    try (runs_step; db_step; by eapply adjust_witness_votes_shifts).
  - by runs_inv.
  - runs_step. db_step. asset_inv. apply IH in Hr.
    etrans; [|exact Hr]. eapply shifts_eq; [by eapply shifts_set_account|..]; holdings; lia.
Qed.

Lemma createTMEfundForSCORE_shifts name TME b s r s' :
  ⟨ createTMEfundForSCORE name TME b, s ⟩ ⇓ ⟨ r, s' ⟩ → shifts (- amount TME) 0 0 0 s s'.
Proof.
  unfold createTMEfundForSCORE, get_dynamic_global_properties. intros Hr. db_inv.
  match goal with H : if negb b then ⟨ _, ?t ⟩ ⇓ ⟨ _, ?t' ⟩ else _ |- _ =>
    assert (conserves t t') as H2 by (destruct b; cbn [negb] in H;
      [by subst|by eapply adjust_proxied_from_shifts]); clear H
  end.
  eapply shifts_eq; [eapply shifts_trans; [|exact H2]|..];
    [eapply shifts_trans; [by eapply shifts_set_account|apply shifts_gpo]|..];
    db_fields; destruct b; db_fields in Hval2; asset_inv; holdings; lia.
Qed.

Lemma create_TSD_shifts name TME b s r s' :
  symbol TME = SYMBOL_COIN →
  ⟨ create_TSD name TME b, s ⟩ ⇓ ⟨ r, s' ⟩ → shifts (- amount TME) 0 0 0 s s'.
Proof.
  unfold create_TSD, get_feed_history, get_dynamic_global_properties. intros Hs Hr.
  destruct (Z.eqb_spec (amount TME) 0) as [E|E].
  { runs_inv. rewrite E. apply shifts_refl. }
  runs_step. db_step. destruct (negb _).
  - do 5 (runs_step; db_step). runs_step.
    match goal with H : context [Asset ?y SYMBOL_COIN], H' : ⟨ (if b then _ else _), ?t ⟩ ⇓ ⟨ _, ?t' ⟩,
        K : safe_sub (amount TME) _ = Ok ?y |- _ =>
      assert (shifts (- of_symbol SYMBOL_COIN v2 - y) (- of_symbol SYMBOL_USD v2) 0 0 t t') as Hs1;
        [|clear H']
    end.
    { destruct b; apply runs_bind in Hr0 as ([] & s1 & Ha & Hb).
      - apply adjust_reward_balance_shifts in Ha, Hb. literals. add_shifts.
      - apply adjust_balance_shifts in Ha, Hb. literals. add_shifts. }
    db_inv. apply adjust_supply_shifts in Hr1, Hr0. asset_inv. literals. add_shifts.
  - db_inv. apply adjust_balance_shifts in Hr0.
    destruct (of_symbol_coin _ Hs) as [E1 E2]. rewrite E1, E2 in Hr0. done.
Qed.
End primitives.

(** * The books of a run

    [books Hr] breaks the run [Hr] into its primitives, turns each into its shift
    and adds the shifts up. *)

#[global] Hint Unfold get_account find_account get_witness find_witness get_escrow
  get_savings_withdraw get_dynamic_global_properties get_feed_history
  get_witness_schedule_object head_block_time head_block_num has_hardfork get_limit_order
  find_limit_order balance_of adjust_proxied_witness_votes
  adjust_proxied_witness_votes_array : accessors.

(** Read the tables at the start of the run: through row updates and framed calls. *)
Ltac frames :=
  repeat (db_fields; match goal with
  | F : frame ?s ?s' |- context [?p ?s'] =>
      first
        [ rewrite (fr_escrows _ _ F) | rewrite (fr_limit_orders _ _ F)
        | rewrite (fr_convert_requests _ _ F) | rewrite (fr_savings_withdraws _ _ F)
        | rewrite (fr_reward_funds _ _ F) | rewrite (fr_hardforks _ _ F)
        | rewrite (fr_feed_history _ _ F) | rewrite (fr_witness_schedule _ _ F)
        | rewrite (fr_delegations _ _ F) | rewrite (fr_liquidity_rewards _ _ F)
        | rewrite (fr_time _ _ F) | rewrite (fr_comments _ _ F)
        | rewrite (fr_withdraw_routes _ _ F) | rewrite (fr_head _ _ F) ]
  end); db_fields.

(** Keep the frame of a call next to its shift. *)
Ltac with_frame H frame_lemma :=
  let G := fresh "Hframe" in pose proof (frame_lemma _ _ _ H) as G; move G at top.

Ltac ledger_step :=
  match goal with
  | H : ⟨ adjust_balance ?n ?d, _ ⟩ ⇓ ⟨ _, _ ⟩ |- _ =>
      with_frame H (adjust_balance_frame n d); apply adjust_balance_shifts in H
  | H : ⟨ adjust_TMEsavingsBalance ?n ?d, _ ⟩ ⇓ ⟨ _, _ ⟩ |- _ =>
      with_frame H (adjust_TMEsavingsBalance_frame n d); apply adjust_TMEsavingsBalance_shifts in H
  | H : ⟨ adjust_reward_balance ?n ?d, _ ⟩ ⇓ ⟨ _, _ ⟩ |- _ =>
      with_frame H (adjust_reward_balance_frame n d); apply adjust_reward_balance_shifts in H
  | H : ⟨ adjust_supply ?d ?b, _ ⟩ ⇓ ⟨ _, _ ⟩ |- _ =>
      with_frame H (adjust_supply_frame d b); apply adjust_supply_shifts in H
  | H : ⟨ pay_fee ?n ?d, _ ⟩ ⇓ ⟨ _, _ ⟩ |- _ => with_frame H (pay_fee_frame n d); apply pay_fee_shifts in H
  | H : ⟨ push_virtual_operation ?o, _ ⟩ ⇓ ⟨ _, _ ⟩ |- _ =>
      with_frame H (frame_push o);
      let A := fresh "Haccounts" in let G := fresh "Hgpo" in
      apply push_virtual_operation_shifts in H as (H & A & G)
  | H : ⟨ adjust_witness_votes ?i ?d, _ ⟩ ⇓ ⟨ _, _ ⟩ |- _ =>
      with_frame H (adjust_witness_votes_frame i d); apply adjust_witness_votes_shifts in H
  | H : ⟨ adjust_proxied_from ?n ?a ?d, _ ⟩ ⇓ ⟨ _, _ ⟩ |- _ =>
      with_frame H (adjust_proxied_from_frame n a d); apply adjust_proxied_from_shifts in H
  | H : ⟨ adjust_proxied_array_from ?n ?a ?d, _ ⟩ ⇓ ⟨ _, _ ⟩ |- _ =>
      with_frame H (adjust_proxied_array_from_frame n a d); apply adjust_proxied_array_from_shifts in H
  | H : ⟨ createTMEfundForSCORE ?n ?a ?b, _ ⟩ ⇓ ⟨ _, _ ⟩ |- _ =>
      with_frame H (createTMEfundForSCORE_frame n a b); apply createTMEfundForSCORE_shifts in H
  | H : ⟨ db_assert _ _, _ ⟩ ⇓ ⟨ _, _ ⟩ |- _ =>
      let G := fresh "Hguard" in apply runs_db_assert in H as [G ->]
  | H : ⟨ (if ?c then _ else _), _ ⟩ ⇓ ⟨ _, _ ⟩ |- _ => destruct c eqn:?
  | H : (if ?c then ⟨ _, _ ⟩ ⇓ ⟨ _, _ ⟩ else _ = _) |- _ => destruct c eqn:?; [|subst]
  | H : ⟨ (match ?o with Some _ => _ | None => _ end), _ ⟩ ⇓ ⟨ _, _ ⟩ |- _ => destruct o eqn:?
  | _ => db_step
  end.

Ltac learn pf :=
  let T := type of pf in
  lazymatch goal with H : T |- _ => fail | _ => pose proof pf end.

(** [H], a fact about a table at an earlier state, as the fact [T]. *)
Ltac at_state T H k :=
  lazymatch type of H with
  | T => fail
  | _ => let G := fresh "Hrow" in assert (G : T) by (frames; exact H); k G
  end.

(** Read back a row the run wrote. *)
Ltac own_rows :=
  repeat match goal with
  | H : rows (?t (set_row ?t ?k ?v ?s)) !! ?k = Some ?w |- _ =>
      db_fields in H; rewrite lookup_insert_eq in H; injection H as H; subst w
  end.

(** Read back, through framed calls, a row the run wrote. *)
Ltac written_row H :=
  match type of H with
  | rows (?t ?s) !! ?k = Some ?w =>
      let E := fresh in
      eassert (E : rows (t s) !! k = Some _) by (frames; apply lookup_insert_eq);
      rewrite E in H; injection H as H; subst w
  end.

(** Two reads of one row of a framed table give the same object. *)
Ltac same_rows :=
  repeat match goal with
  | H : rows (?t ?s) !! ?k = Some ?a, H' : rows (?t ?s') !! ?k = Some ?b |- _ =>
      lazymatch a with b => fail | _ => idtac end;
      let E := fresh in
      assert (E : Some b = Some a) by (rewrite <- H, <- H'; frames; reflexivity);
      injection E as E; subst b
  end.

(** The shift of every row written by the run. *)
Lemma own_escrow k e s : rows (escrows (set_row escrows k e s)) !! k = Some e.
Proof. db_fields. apply lookup_insert_eq. Qed.
Lemma own_order k o s : rows (limit_orders (set_row limit_orders k o s)) !! k = Some o.
Proof. db_fields. apply lookup_insert_eq. Qed.

Ltac off_the_books s s' :=
  lazymatch goal with
  | _ : conserves s s' |- _ => fail
  | _ => assert (conserves s s') by off_books
  end.
Ltac row_shift t :=
  match t with
  | context [del_row escrows ?k (set_row escrows ?k ?e ?s)] =>
      learn (shifts_del_escrow (set_row escrows k e s) k e (own_escrow k e s))
  | context [del_row limit_orders ?k (set_row limit_orders ?k ?o ?s)] =>
      learn (shifts_del_order (set_row limit_orders k o s) k o (own_order k o s))
  | context [set_row accounts ?k ?v ?s] =>
      match goal with H : rows (accounts s) !! k = Some ?a |- _ => learn (shifts_set_account s k a v H) end
  | context [add_row accounts ?k ?v ?s] =>
      match goal with H : rows (accounts s) !! k = None |- _ => learn (shifts_add_account s k v H) end
  | context [set_row limit_orders ?k ?v ?s] =>
      match goal with H : rows (limit_orders _) !! k = Some ?a |- _ =>
        first [learn (shifts_set_order s k a v H) | at_state (rows (limit_orders s) !! k = Some a) H ltac:(fun G => learn (shifts_set_order s k a v G))] end
  | context [add_row limit_orders ?k ?v ?s] =>
      match goal with H : rows (limit_orders s) !! k = None |- _ => learn (shifts_add_order s k v H) end
  | context [del_row limit_orders ?k ?s] =>
      match goal with H : rows (limit_orders _) !! k = Some ?a |- _ =>
        first [learn (shifts_del_order s k a H) | at_state (rows (limit_orders s) !! k = Some a) H ltac:(fun G => learn (shifts_del_order s k a G))] end
  | context [set_row escrows ?k ?v ?s] =>
      match goal with H : rows (escrows _) !! k = Some ?a |- _ =>
        first [learn (shifts_set_escrow s k a v H) | at_state (rows (escrows s) !! k = Some a) H ltac:(fun G => learn (shifts_set_escrow s k a v G))] end
  | context [add_row escrows ?k ?v ?s] =>
      match goal with H : rows (escrows s) !! k = None |- _ => learn (shifts_add_escrow s k v H) end
  | context [del_row escrows ?k ?s] =>
      match goal with H : rows (escrows _) !! k = Some ?a |- _ =>
        first [learn (shifts_del_escrow s k a H) | at_state (rows (escrows s) !! k = Some a) H ltac:(fun G => learn (shifts_del_escrow s k a G))] end
  | context [add_row convert_requests ?k ?v ?s] =>
      match goal with H : rows (convert_requests s) !! k = None |- _ => learn (shifts_add_convert s k v H) end
  | context [del_row convert_requests ?k ?s] =>
      match goal with H : rows (convert_requests _) !! k = Some ?a |- _ =>
        first [learn (shifts_del_convert s k a H) | at_state (rows (convert_requests s) !! k = Some a) H ltac:(fun G => learn (shifts_del_convert s k a G))] end
  | context [add_row savings_withdraws ?k ?v ?s] =>
      match goal with H : rows (savings_withdraws s) !! k = None |- _ => learn (shifts_add_savings s k v H) end
  | context [del_row savings_withdraws ?k ?s] =>
      match goal with H : rows (savings_withdraws _) !! k = Some ?a |- _ =>
        first [learn (shifts_del_savings s k a H) | at_state (rows (savings_withdraws s) !! k = Some a) H ltac:(fun G => learn (shifts_del_savings s k a G))] end
  | context [set_row reward_funds ?k ?v ?s] =>
      match goal with H : rows (reward_funds _) !! k = Some ?a |- _ =>
        first [learn (shifts_set_fund s k a v H) | at_state (rows (reward_funds s) !! k = Some a) H ltac:(fun G => learn (shifts_set_fund s k a v G))] end
  | context [@set_field database _ gpo ?i (λ _, ?v) ?s] => learn (shifts_gpo s v)
  | context [set_row ?t ?k ?v ?s] => off_the_books s (set_row t k v s)
  | context [add_row ?t ?k ?v ?s] => off_the_books s (add_row t k v s)
  | context [del_row ?t ?k ?s] => off_the_books s (del_row t k s)
  end.
Ltac row_shifts :=
  repeat match goal with
  | |- shifts _ _ _ _ _ ?t => row_shift t
  | H : shifts _ _ _ _ ?s ?t |- _ => first [row_shift s | row_shift t]
  | H : _ = Some _ |- _ => let T := type of H in row_shift T
  | H : _ = None |- _ => let T := type of H in row_shift T
  end.

Ltac asset_cleanup :=
  repeat match goal with
  | H : symbol ?a =? ?y = true |- _ => apply Z.eqb_eq in H
  | H : symbol ?a =? ?y = false |- _ => apply Z.eqb_neq in H
  end.

Ltac run_through Hr :=
  repeat autounfold with accessors in Hr; repeat (ledger_step || asset_step); own_rows; same_rows.
(** The global properties are read through updates of rows. *)
Ltac gpo_reads :=
  repeat match goal with
  | H : context [gpo (set_row ?t ?k ?v ?s)] |- _ => change (gpo (set_row t k v s)) with (gpo s) in H
  | H : context [gpo (add_row ?t ?k ?v ?s)] |- _ => change (gpo (add_row t k v s)) with (gpo s) in H
  end.
Ltac settle := row_shifts; gpo_reads; holdings; literals; opposites; try add_shifts.
Ltac books Hr := run_through Hr; settle.
