(* ===== verification/Transfers.v ===== *)
(** Liquid transfers, savings and conversions: the evaluators [transfer],
    [transferToSavings], [transferFromSavings], [cancelTransferFromSavings] and
    [convert] of [chain/node_evaluator.cpp] and the two queues that complete
    them each block, [process_savings_withdraws] and [process_conversions] of
    [chain/database.cpp]. *)

From S2P Require Import Prelude Fc Config Asset Flat Authority Operations Objects Database Samples Ledger Frame Supply.

Section transfers.
Context {F : Fc}.

(** [transfer_evaluator::do_apply], libraries/chain/node_evaluator.cpp:862-879 *)
Definition transfer_apply (o : transfer_operation) : DB unit :=
  from ← get_account (transfer_from o);
  _ ← get_account (transfer_to o);
  now ← head_block_time;
  mwhen (acc_active_challenged from)
    (modify accounts (transfer_from o) (λ a,
       Ok (a <| acc_active_challenged := false |> <| acc_last_active_proved := now |>)));;
  b ← balance_of (transfer_from o) (symbol (transfer_amount o));
  db_assert (asset_ge b (transfer_amount o)) "Account does not have sufficient funds for transfer.";;
  neg ← lift (asset_neg (transfer_amount o));
  adjust_balance (transfer_from o) neg;;
  adjust_balance (transfer_to o) (transfer_amount o).

(** [transferToSavings_evaluator::do_apply], libraries/chain/node_evaluator.cpp:2045-2053 *)
Definition transferToSavings_apply (o : transferToSavings_operation) : DB unit :=
  from ← get_account (transferToSavings_from o);
  _ ← get_account (transferToSavings_to o);
  b ← lift (get_balance from (symbol (transferToSavings_amount o)));
  db_assert (asset_ge b (transferToSavings_amount o))
    "Account does not have sufficient funds to transfer to savings.";;
  neg ← lift (asset_neg (transferToSavings_amount o));
  adjust_balance (transferToSavings_from o) neg;;
  adjust_TMEsavingsBalance (transferToSavings_to o) (transferToSavings_amount o).

(** [transferFromSavings_evaluator::do_apply], libraries/chain/node_evaluator.cpp:2055-2079 *)
Definition transferFromSavings_apply (o : transferFromSavings_operation) : DB unit :=
  from ← get_account (transferFromSavings_from o);
  _ ← get_account (transferFromSavings_to o);
  fc_assert (acc_savings_withdraw_requests from <? SAVINGS_WITHDRAW_REQUEST_LIMIT)
    "Account has reached limit for pending withdraw requests.";;
  b ← lift (get_TMEsavingsBalance from (symbol (transferFromSavings_amount o)));
  db_assert (asset_ge b (transferFromSavings_amount o)) EmptyString;;
  neg ← lift (asset_neg (transferFromSavings_amount o));
  adjust_TMEsavingsBalance (transferFromSavings_from o) neg;;
  now ← head_block_time;
  create savings_withdraws (transferFromSavings_from o, transferFromSavings_request_id o) (λ id,
    {| swd_id := id; swd_from := transferFromSavings_from o; swd_to := transferFromSavings_to o;
       swd_memo := transferFromSavings_memo o; swd_request_id := transferFromSavings_request_id o;
       swd_amount := transferFromSavings_amount o;
       swd_complete := tps_add now SAVINGS_WITHDRAW_TIME |});;
  modify accounts (transferFromSavings_from o) (λ a,
    Ok (a <| acc_savings_withdraw_requests ::= λ n, wrap_u8 (n + 1) |>)).

(** [cancelTransferFromSavings_evaluator::do_apply], libraries/chain/node_evaluator.cpp:2081-2092 *)
Definition cancelTransferFromSavings_apply (o : cancelTransferFromSavings_operation) : DB unit :=
  swo ← get_savings_withdraw (cancelTransferFromSavings_from o) (cancelTransferFromSavings_request_id o);
  _ ← get_account (swd_from swo);
  adjust_TMEsavingsBalance (swd_from swo) (swd_amount swo);;
  remove savings_withdraws (cancelTransferFromSavings_from o, cancelTransferFromSavings_request_id o);;
  modify accounts (cancelTransferFromSavings_from o) (λ a,
    Ok (a <| acc_savings_withdraw_requests ::= λ n, wrap_u8 (n - 1) |>)).

(** [convert_evaluator::do_apply], libraries/chain/node_evaluator.cpp:1784-1806 *)
Definition convert_apply (o : convert_operation) : DB unit :=
  owner ← get_account (convert_owner o);
  b ← lift (get_balance owner (symbol (convert_amount o)));
  db_assert (asset_ge b (convert_amount o)) "Account does not have sufficient balance for conversion.";;
  neg ← lift (asset_neg (convert_amount o));
  adjust_balance (convert_owner o) neg;;
  fhistory ← get_feed_history;
  fc_assert (negb (price_is_null (fdh_current_median_history fhistory)))
    "Cannot convert TSD because there is no price feed.";;
  hf ← has_hardfork HARDFORK_0_16;
  now ← head_block_time;
  let delay := if (hf : bool) then CONVERSION_DELAY else CONVERSION_DELAY_PRE_HF_16 in
  create convert_requests (convert_owner o, convert_requestid o) (λ id,
    {| cnv_id := id; cnv_owner := convert_owner o; cnv_requestid := convert_requestid o;
       cnv_amount := convert_amount o; cnv_conversion_date := tps_add now delay |}).

(** ** The queues *)

(** [by_complete_from_rid], libraries/chain/include/node/chain/node_objects.hpp:446-452 *)
Definition by_complete_from_rid : savings_withdraw_object → savings_withdraw_object → comparison :=
  then_by (by_key swd_complete Z.compare)
    (then_by (by_key swd_from String.compare) (by_key swd_request_id Z.compare)).
#[export] Instance by_complete_from_rid_order : IndexOrder by_complete_from_rid.
Proof. unfold by_complete_from_rid. apply _. Qed.

(** [database::process_savings_withdraws], libraries/chain/database.cpp:1868-1887 *)
Definition process_savings_withdraws : DB unit :=
  now ← head_block_time;
  drain savings_withdraws (at_most by_complete_from_rid) (λ w, swd_complete w <=? now) (λ k w,
    adjust_balance (swd_to w) (swd_amount w);;
    modify accounts (swd_from w) (λ a,
      Ok (a <| acc_savings_withdraw_requests ::= λ n, wrap_u8 (n - 1) |>));;
    push_virtual_operation (fill_transferFromSavings_
      {| fill_transferFromSavings_from := swd_from w; fill_transferFromSavings_to := swd_to w;
         fill_transferFromSavings_amount := swd_amount w;
         fill_transferFromSavings_request_id := swd_request_id w;
         fill_transferFromSavings_memo := swd_memo w |});;
    remove savings_withdraws k).

(** [by_conversion_date], libraries/chain/include/node/chain/node_objects.hpp:314-319 *)
Definition by_conversion_date : convert_request_object → convert_request_object → comparison :=
  then_by (by_key cnv_conversion_date Z.compare) (by_key cnv_id Z.compare).
#[export] Instance by_conversion_date_order : IndexOrder by_conversion_date.
Proof. unfold by_conversion_date. apply _. Qed.

(** The loop of [process_conversions], with the sums it accumulates. *)
Fixpoint conversions_loop (fuel : nat) (now : Z) (median : price) (net_TSD net_TME : asset)
    : DB (asset * asset) :=
  match fuel with
  | O => mret (net_TSD, net_TME)
  | S fuel =>
      r ← asks (λ s, first_row (at_most by_conversion_date) (rows (convert_requests s)));
      match r with
      | Some (k, c) =>
          if cnv_conversion_date c <=? now then
            user ← get_account (cnv_owner c);
            amount_to_issue ← lift (asset_mul (cnv_amount c) median);
            adjust_balance (cnv_owner c) amount_to_issue;;
            net_TSD ← lift (asset_add net_TSD (cnv_amount c));
            net_TME ← lift (asset_add net_TME amount_to_issue);
            push_virtual_operation (fill_convert_request_
              {| fill_convert_request_owner := acc_name user;
                 fill_convert_request_requestid := cnv_requestid c;
                 fill_convert_request_amount_in := cnv_amount c;
                 fill_convert_request_amount_out := amount_to_issue |});;
            remove convert_requests k;;
            conversions_loop fuel now median net_TSD net_TME
          else mret (net_TSD, net_TME)
      | None => mret (net_TSD, net_TME)
      end
  end.

(** [database::process_conversions], libraries/chain/database.cpp:2030-2067 *)
Definition process_conversions : DB unit :=
  now ← head_block_time;
  fhistory ← get_feed_history;
  let median := fdh_current_median_history fhistory in
  if price_is_null median then mret tt
  else
    n ← asks (λ s, base.size (rows (convert_requests s)));
    r ← conversions_loop n now median (Asset 0 SYMBOL_USD) (Asset 0 SYMBOL_COIN);
    let net_TSD := fst r in
    let net_TME := snd r in
    modify1 gpo (λ p,
      cur ← asset_add (gpo_current_supply p) net_TME;
      tsd ← asset_sub (gpo_current_TSD_supply p) net_TSD;
      virt ← asset_add (gpo_virtual_supply p) net_TME;
      v ← asset_mul net_TSD median;
      virt ← asset_sub virt v;
      Ok (p <| gpo_current_supply := cur |> <| gpo_current_TSD_supply := tsd |>
            <| gpo_virtual_supply := virt |>)).
End transfers.

(** * Supply *)

Section supply.
Context {F : Fc} {FL : FcLaws F}.

Lemma modify_accounts_off_books name f s u s' :
  (∀ a a', f a = Ok a' → acc_tme a' = acc_tme a ∧ acc_tsd a' = acc_tsd a ∧
     acc_score a' = acc_score a ∧ acc_pend a' = acc_pend a) →
  ⟨ modify accounts name f, s ⟩ ⇓ ⟨ u, s' ⟩ → conserves s s'.
Proof.
  intros Hf Hr. db_inv. apply Hf in Hval as (? & ? & ? & ?).
  eapply shifts_eq; [by eapply shifts_set_account|..]; lia.
Qed.

Lemma transfer_conserves o s u s' : ⟨ transfer_apply o, s ⟩ ⇓ ⟨ u, s' ⟩ → conserves s s'.
Proof. unfold transfer_apply. intros Hr. books Hr. Qed.
Lemma transferToSavings_conserves o s u s' :
  ⟨ transferToSavings_apply o, s ⟩ ⇓ ⟨ u, s' ⟩ → conserves s s'.
Proof. unfold transferToSavings_apply. intros Hr. books Hr. Qed.

Lemma transferFromSavings_conserves o s u s' :
  ⟨ transferFromSavings_apply o, s ⟩ ⇓ ⟨ u, s' ⟩ → conserves s s'.
Proof. unfold transferFromSavings_apply. intros Hr. books Hr. Qed.

Lemma cancelTransferFromSavings_conserves o s u s' :
  ⟨ cancelTransferFromSavings_apply o, s ⟩ ⇓ ⟨ u, s' ⟩ → conserves s s'.
Proof. unfold cancelTransferFromSavings_apply. intros Hr. books Hr. Qed.

Lemma convert_conserves o s u s' : ⟨ convert_apply o, s ⟩ ⇓ ⟨ u, s' ⟩ → conserves s s'.
Proof. unfold convert_apply. intros Hr. books Hr. Qed.

Lemma process_savings_withdraws_conserves s u s' :
  ⟨ process_savings_withdraws, s ⟩ ⇓ ⟨ u, s' ⟩ → conserves s s'.
Proof.
  unfold process_savings_withdraws, head_block_time. intros Hr. runs_step. db_step.
  revert Hr. apply drain_preserves; [apply _|]. intros k w t v t' Hk _ Hr. books Hr.
Qed.

Lemma conversions_loop_shifts n now median : ∀ tsd tme s r s',
  symbol tsd = SYMBOL_USD → symbol tme = SYMBOL_COIN →
  ⟨ conversions_loop n now median tsd tme, s ⟩ ⇓ ⟨ r, s' ⟩ →
  symbol r.1 = SYMBOL_USD ∧ symbol r.2 = SYMBOL_COIN ∧
  shifts (amount tme - amount r.2) (amount r.1 - amount tsd) 0 0 s s'.
Proof.
  induction n as [|n IH]; intros tsd tme s r s' Htsd Htme Hr; cbn [conversions_loop] in Hr.
  { runs_inv. cbn. repeat split; try done; lia. }
  runs_step. db_step. destruct (first_row _ _) as [[k c]|] eqn:Hf; [|runs_inv; cbn; repeat split; try done; lia].
  apply first_row_in in Hf. destruct (cnv_conversion_date c <=? now);
    [|runs_inv; cbn; repeat split; try done; lia].
  unfold get_account in Hr. do 6 (runs_step; try db_step). runs_step. db_step. runs_step.
  asset_inv. apply IH in Hr as (? & ? & Hs); [|congruence..]. split; [done|]. split; [done|].
  destruct (of_symbol_usd (cnv_amount c)) as [Eu Eu']; [congruence|].
  destruct (of_symbol_coin v0) as [Ec Ec']; [congruence|].
  repeat ledger_step. row_shifts. holdings. rewrite Eu, Eu', Ec, Ec' in *. add_shifts.
Qed.

Lemma process_conversions_conserves s u s' :
  ⟨ process_conversions, s ⟩ ⇓ ⟨ u, s' ⟩ → conserves s s'.
Proof.
  unfold process_conversions, head_block_time, get_feed_history. intros Hr.
  do 2 (runs_step; db_step). destruct (price_is_null _); [by runs_inv|].
  runs_step. db_step. runs_step. apply conversions_loop_shifts in Hr0 as (? & ? & Hs); [|done..].
  cbn in Hs. db_inv. asset_inv. row_shifts. holdings. add_shifts.
Qed.
End supply.

(** * What the operations do *)

Section effects.
Context {F : Fc} {FL : FcLaws F}.

Lemma set_account_twice k a b s : set_row accounts k b (set_row accounts k a s) = set_row accounts k b s.
Proof.
  unfold set_row, set_field. cbn. destruct s; cbn. by rewrite insert_insert_eq.
Qed.

(** The account that pays a transfer, after it proved its active key. *)
Definition proved (now : Z) (a : account_object) : account_object :=
  if acc_active_challenged a then
    a <| acc_active_challenged := false |> <| acc_last_active_proved := now |>
  else a.

(** Once due, a savings withdrawal is paid: after [process_savings_withdraws] the
    table holds exactly the requests that were not due. *)
Theorem process_savings_withdraws_complete s u s' :
  ⟨ process_savings_withdraws, s ⟩ ⇓ ⟨ u, s' ⟩ →
  rows (savings_withdraws s') =
    filter (λ p, (swd_complete p.2 <=? gpo_time (gpo s)) = false) (rows (savings_withdraws s)).
Proof.
  unfold process_savings_withdraws, head_block_time. intros Hr. runs_step. db_step.
  eapply (drain_rows savings_withdraws (at_most by_complete_from_rid)
    (λ w, swd_complete w <=? gpo_time (gpo s))) in Hr; [done|..].
  - intros ???. apply at_most_trans; apply _.
  - intros ??. apply at_most_total; apply _.
  - intros ?? Hle%at_most_lead Hd%Z.leb_le. apply Z.leb_le. lia.
  - intros k w t v t' Ht. repeat ledger_step. frames. done.
Qed.

Lemma asset_neg_exact a : - i64_max ≤ amount a ≤ i64_max → asset_neg a = Ok (Asset (- amount a) (symbol a)).
Proof.
  intros Ha. unfold asset_neg, safe_neg. rewrite safe_sub_law, checked_in by (unfold i64_min, i64_max in *; lia).
  done.
Qed.

Lemma asset_add_exact a b :
  symbol a = symbol b → i64_min ≤ amount a + amount b ≤ i64_max →
  asset_add a b = Ok (Asset (amount a + amount b) (symbol a)).
Proof.
  intros Hs Hr. unfold asset_add. rewrite Hs, Z.eqb_refl. cbn.
  by rewrite safe_add_law, checked_in.
Qed.

(** [adjust_balance] of a coin amount adds it to the balance. *)
Lemma adjust_coin_balance name d s u s' a :
  symbol d = SYMBOL_COIN → rows (accounts s) !! name = Some a → symbol (acc_balance a) = SYMBOL_COIN →
  ⟨ adjust_balance name d, s ⟩ ⇓ ⟨ u, s' ⟩ ↔
    i64_min ≤ amount (acc_balance a) + amount d ≤ i64_max ∧
    s' = set_row accounts name (a <| acc_balance := Asset (amount (acc_balance a) + amount d) SYMBOL_COIN |>) s.
Proof.
  intros Hd Ha Hs. unfold adjust_balance. rewrite Hd, Z.eqb_refl, runs_modify. split.
  - intros (v & v' & Hv & Hval & ->). rewrite Ha in Hv. injection Hv as <-. asset_inv.
    assert (x = Asset (amount (acc_balance a) + amount d) SYMBOL_COIN) as ->; [|split; [lia|done]].
    destruct x; cbn in *; congruence.
  - intros [Hr ->]. exists a. eexists. split; [done|]. rewrite asset_add_exact by (congruence || done).
    cbn. by rewrite Hs.
Qed.

(** Clearing the challenge of an account, as the state it leads to. *)
Lemma clear_challenge name s a :
  rows (accounts s) !! name = Some a →
  let now := gpo_time (gpo s) in
  ∃ s1,
    (∀ u s', ⟨ mwhen (acc_active_challenged a) (modify accounts name (λ a,
       Ok (a <| acc_active_challenged := false |> <| acc_last_active_proved := now |>))), s ⟩ ⇓ ⟨ u, s' ⟩
       ↔ s' = s1) ∧
    rows (accounts s1) !! name = Some (proved now a) ∧
    (∀ k, k ≠ name → rows (accounts s1) !! k = rows (accounts s) !! k) ∧
    (∀ x, set_row accounts name x s1 = set_row accounts name x s).
Proof.
  intros Ha now. unfold proved. destruct (acc_active_challenged a); cbn.
  - eexists (set_row accounts name _ s). split_and!.
    + intros u s'. rewrite runs_modify. split; [|by eauto 10].
      intros (v & v' & Hv & [= <-] & ->). by simplify_eq.
    + db_fields. by rewrite lookup_insert_eq.
    + intros k Hk. db_fields. by rewrite lookup_insert_ne.
    + intros x. apply set_account_twice.
  - exists s. split_and!; try done. intros [] s'. rewrite runs_ret. naive_solver.
Qed.

(** A transfer of coins between two accounts succeeds exactly when the sender
    has the funds and the receiver's balance does not overflow; it moves the
    amount, clears a pending challenge of the sender's active key, and changes
    nothing else. *)
Theorem transfer_spec o s s' a b :
  symbol (transfer_amount o) = SYMBOL_COIN → 0 ≤ amount (transfer_amount o) ≤ i64_max →
  transfer_from o ≠ transfer_to o →
  rows (accounts s) !! transfer_from o = Some a → rows (accounts s) !! transfer_to o = Some b →
  symbol (acc_balance a) = SYMBOL_COIN → symbol (acc_balance b) = SYMBOL_COIN →
  0 ≤ amount (acc_balance a) ≤ i64_max → 0 ≤ amount (acc_balance b) →
  ⟨ transfer_apply o, s ⟩ ⇓ ⟨ tt, s' ⟩ ↔
    amount (transfer_amount o) ≤ amount (acc_balance a) ∧
    amount (acc_balance b) + amount (transfer_amount o) ≤ i64_max ∧
    s' = set_row accounts (transfer_to o)
           (b <| acc_balance := Asset (amount (acc_balance b) + amount (transfer_amount o)) SYMBOL_COIN |>)
        (set_row accounts (transfer_from o)
           (proved (gpo_time (gpo s)) a
              <| acc_balance := Asset (amount (acc_balance a) - amount (transfer_amount o)) SYMBOL_COIN |>) s).
Proof.
  intros Hsym Hamt Hne Ha Hb Hsa Hsb Hra Hrb. unfold transfer_apply, get_account, head_block_time, balance_of.
  pose proof (clear_challenge (transfer_from o) s a Ha) as (s1 & H1 & Ha1 & Hother & Htwice).
  assert (Hb1 : rows (accounts s1) !! transfer_to o = Some b) by (rewrite Hother; done).
  assert (Hp : acc_balance (proved (gpo_time (gpo s)) a) = acc_balance a).
  { unfold proved. destruct (acc_active_challenged a); fields; done. }
  set (x := transfer_amount o) in *.
  assert (Hneg : asset_neg x = Ok (Asset (- amount x) SYMBOL_COIN)).
  { rewrite asset_neg_exact by (unfold i64_max in *; lia). by rewrite Hsym. }
  set (s2 := set_row accounts (transfer_from o)
    (proved (gpo_time (gpo s)) a <| acc_balance := Asset (amount (acc_balance a) - amount x) SYMBOL_COIN |>) s).
  assert (Hb2 : rows (accounts s2) !! transfer_to o = Some b).
  { unfold s2. db_fields. by rewrite lookup_insert_ne. }
  assert (Hfrom : ∀ t, ⟨ adjust_balance (transfer_from o) (Asset (- amount x) SYMBOL_COIN), s1 ⟩ ⇓ ⟨ tt, t ⟩ ↔ t = s2).
  { intros t. rewrite (adjust_coin_balance _ (Asset (- amount x) SYMBOL_COIN) _ _ _ _ eq_refl Ha1) by (by rewrite Hp).
    rewrite Htwice, Hp. split; [by intros [_ ->]|]. intros ->. split; [|done].
    cbn [amount]. unfold i64_min, i64_max in *. lia. }
  assert (Hguard : ∀ c, asset_ge (acc_balance a) x = Ok c ↔ c = (amount x <=? amount (acc_balance a))).
  { intros c. unfold asset_ge, asset_lt. rewrite Hsa, Hsym, Z.eqb_refl. cbn. rewrite <- Z.leb_antisym. naive_solver. }
  split.
  - intros Hr. do 3 (runs_step; db_step). rewrite Ha in Hrow. injection Hrow as <-.
    runs_step. apply H1 in Hr0 as ->. unfold db_assert, get_account in Hr. db_inv.
    rewrite Ha1 in Hrow. injection Hrow as <-. rewrite Hneg in Hval. injection Hval as <-.
    unfold get_balance in Hval1. rewrite Hsym, Z.eqb_refl, Hp in Hval1. injection Hval1 as <-.
    apply Hguard in Hval0. apply Hfrom in Hr2 as ->.
    apply (adjust_coin_balance _ _ _ _ _ _ Hsym Hb2 Hsb) in Hr as [? ->].
    rewrite Hval0 in Hguard0. apply Z.leb_le in Hguard0. split; [done|]. split; [lia|done].
  - intros (Hle & Hmax & ->).
    eapply runs_bind_intro; [by apply runs_getr|]. eapply runs_bind_intro; [by apply runs_getr|].
    eapply runs_bind_intro; [by apply runs_asks|]. apply (runs_bind_intro _ _ _ tt s1); [by apply H1|].
    eapply runs_bind_intro.
    { eapply runs_bind_intro; [by apply runs_getr|]. unfold get_balance. rewrite Hsym, Z.eqb_refl, Hp. by apply runs_lift. }
    apply (runs_bind_intro _ _ _ tt s1). { apply runs_db_assert. split; [|done]. apply Hguard. symmetry. by apply Z.leb_le. }
    eapply runs_bind_intro; [by apply runs_lift|]. eapply runs_bind_intro; [by apply Hfrom|].
    apply (adjust_coin_balance _ _ _ _ _ _ Hsym Hb2 Hsb). split; [|done]. unfold i64_min, i64_max in *. lia.
Qed.
End effects.

(** * The theorems on concrete states *)

(** Of Alice's two withdrawals the one that is due is paid. *)
Lemma process_savings_withdraws_complete_witness :
  rows (savings_withdraws (outcome process_savings_withdraws sample_withdraws))
  = {[ ("alice"%string, 2) := sample_withdraw 2 1100 ]}.
Proof.
  rewrite (process_savings_withdraws_complete sample_withdraws tt
    (outcome process_savings_withdraws sample_withdraws)) by runs_ok.
  vm_compute. reflexivity.
Defined.

(** Alice pays Bob 40 of her 100 TME. *)
Lemma transfer_spec_witness :
  ∃ s', ⟨ transfer_apply (F:=FcRef.fc_ref) (sample_transfer 40), sample ⟩ ⇓ ⟨ tt, s' ⟩.
Proof.
  eexists. apply (transfer_spec (F:=FcRef.fc_ref) (sample_transfer 40) sample _
    (sample_account 1 "alice" 100 0 0) (sample_account 2 "bob" 0 10 0)).
  1-9: first [reflexivity | discriminate | cbn; unfold i64_max; lia].
  split; [cbn; lia|]. split; [cbn; unfold i64_max; lia|reflexivity].
Defined.
