(* ===== verification/Escrow.v ===== *)
(** Escrow: the four evaluators [escrow_transfer], [escrow_approve],
    [escrow_dispute] and [escrow_release] of [chain/node_evaluator.cpp] and the
    queue [expire_escrow_ratification] of [chain/database.cpp].

    [escrow_step] is the life of one agreement as the protocol describes it.  The
    evaluators are shown to refine it, and what the protocol promises the three
    parties is proved of its runs. *)

From S2P Require Import Prelude Fc Config Asset Flat Authority Operations Objects Database Samples Ledger Frame Supply.

Section escrow.
Context {F : Fc}.

(** [escrow_object::is_approved], libraries/chain/include/node/chain/node_objects.hpp:69 *)
Definition esc_is_approved (e : escrow_object) : bool := esc_to_approved e && esc_agent_approved e.

(** [escrow_transfer_evaluator::do_apply], libraries/chain/node_evaluator.cpp:684-722 *)
Definition escrow_transfer_apply (o : escrow_transfer_operation) : DB unit :=
  from_account ← get_account (escrow_transfer_from o);
  _ ← get_account (escrow_transfer_to o);
  _ ← get_account (escrow_transfer_agent o);
  now ← head_block_time;
  fc_assert (now <? escrow_transfer_ratification_deadline o)
    "The escorw ratification deadline must be after head block time.";;
  fc_assert (now <? escrow_transfer_escrow_expiration o)
    "The escrow expiration must be after head block time.";;
  let fee := escrow_transfer_fee o in
  TME_spent ← lift (if symbol fee =? SYMBOL_COIN then asset_add (escrow_transfer_TMEamount o) fee
                    else Ok (escrow_transfer_TMEamount o));
  TSD_spent ← lift (if symbol fee =? SYMBOL_COIN then Ok (escrow_transfer_TSDamount o)
                    else asset_add (escrow_transfer_TSDamount o) fee);
  db_assert (asset_ge (acc_balance from_account) TME_spent) "Account cannot cover TME costs of escrow.";;
  db_assert (asset_ge (acc_TSDbalance from_account) TSD_spent) "Account cannot cover TSD costs of escrow.";;
  neg ← lift (asset_neg TME_spent);
  adjust_balance (escrow_transfer_from o) neg;;
  neg ← lift (asset_neg TSD_spent);
  adjust_balance (escrow_transfer_from o) neg;;
  create escrows (escrow_transfer_from o, escrow_transfer_escrow_id o) (λ id,
    {| esc_id := id; esc_escrow_id := escrow_transfer_escrow_id o; esc_from := escrow_transfer_from o;
       esc_to := escrow_transfer_to o; esc_agent := escrow_transfer_agent o;
       esc_ratification_deadline := escrow_transfer_ratification_deadline o;
       esc_escrow_expiration := escrow_transfer_escrow_expiration o;
       esc_TSDbalance := escrow_transfer_TSDamount o; esc_TMEbalance := escrow_transfer_TMEamount o;
       esc_pending_fee := escrow_transfer_fee o;
       esc_to_approved := false; esc_agent_approved := false; esc_disputed := false |}).

(** [escrow_approve_evaluator::do_apply], libraries/chain/node_evaluator.cpp:724-783 *)
Definition escrow_approve_apply (o : escrow_approve_operation) : DB unit :=
  let key := (escrow_approve_from o, escrow_approve_escrow_id o) in
  escrow ← get escrows key;
  fc_assert (str_eqb (esc_to escrow) (escrow_approve_to o)) "Operation 'to' does not match escrow 'to'.";;
  fc_assert (str_eqb (esc_agent escrow) (escrow_approve_agent o))
    "Operation 'agent' does not match escrow 'agent'.";;
  now ← head_block_time;
  fc_assert (now <=? esc_ratification_deadline escrow)
    "The escrow ratification deadline has passed. Escrow can no longer be ratified.";;
  let reject_escrow := negb (escrow_approve_approve o) in
  mwhen (str_eqb (escrow_approve_who o) (escrow_approve_to o))
    (escrow ← get escrows key;
     fc_assert (negb (esc_to_approved escrow)) "Account 'to' has already approved the escrow.";;
     mwhen (negb reject_escrow) (modify escrows key (λ e, Ok (e <| esc_to_approved := true |>))));;
  mwhen (str_eqb (escrow_approve_who o) (escrow_approve_agent o))
    (escrow ← get escrows key;
     fc_assert (negb (esc_agent_approved escrow)) "Account 'agent' has already approved the escrow.";;
     mwhen (negb reject_escrow) (modify escrows key (λ e, Ok (e <| esc_agent_approved := true |>))));;
  escrow ← get escrows key;
  if (reject_escrow : bool) then
    _ ← get_account (escrow_approve_from o);
    adjust_balance (escrow_approve_from o) (esc_TMEbalance escrow);;
    adjust_balance (escrow_approve_from o) (esc_TSDbalance escrow);;
    adjust_balance (escrow_approve_from o) (esc_pending_fee escrow);;
    remove escrows key
  else if esc_to_approved escrow && esc_agent_approved escrow then
    _ ← get_account (escrow_approve_agent o);
    adjust_balance (escrow_approve_agent o) (esc_pending_fee escrow);;
    modify escrows key (λ e, Ok (e <| esc_pending_fee ::= λ f, Asset 0 (symbol f) |>))
  else mret tt.

(** [escrow_dispute_evaluator::do_apply], libraries/chain/node_evaluator.cpp:785-804 *)
Definition escrow_dispute_apply (o : escrow_dispute_operation) : DB unit :=
  _ ← get_account (escrow_dispute_from o);
  let key := (escrow_dispute_from o, escrow_dispute_escrow_id o) in
  e ← get escrows key;
  now ← head_block_time;
  fc_assert (now <? esc_escrow_expiration e) "Disputing the escrow must happen before expiration.";;
  fc_assert (esc_to_approved e && esc_agent_approved e)
    "The escrow must be approved by all parties before a dispute can be raised.";;
  fc_assert (negb (esc_disputed e)) "The escrow is already under dispute.";;
  fc_assert (str_eqb (esc_to e) (escrow_dispute_to o)) "Operation 'to' does not match escrow 'to'.";;
  fc_assert (str_eqb (esc_agent e) (escrow_dispute_agent o))
    "Operation 'agent' does not match escrow 'agent'.";;
  modify escrows key (λ e, Ok (e <| esc_disputed := true |>)).

(** Who may release to whom, the nested conditions of
    [escrow_release_evaluator::do_apply]. *)
Definition release_guard (now : Z) (e : escrow_object) (who receiver : account_name) : DB unit :=
  if esc_disputed e then
    fc_assert (str_eqb who (esc_agent e)) "Only 'agent' can release funds in a disputed escrow."
  else
    fc_assert (str_eqb who (esc_from e) || str_eqb who (esc_to e))
      "Only 'from' and 'to' can release funds from a non-disputed escrow";;
    mwhen (now <? esc_escrow_expiration e)
      (if str_eqb who (esc_from e) then
         fc_assert (str_eqb receiver (esc_to e)) "Only 'from' can release funds to 'to'."
       else mwhen (str_eqb who (esc_to e))
         (fc_assert (str_eqb receiver (esc_from e)) "Only 'to' can release funds to 'from'.")).

(** [escrow_release_evaluator::do_apply], libraries/chain/node_evaluator.cpp:806-860 *)
Definition escrow_release_apply (o : escrow_release_operation) : DB unit :=
  _ ← get_account (escrow_release_from o);
  _ ← get_account (escrow_release_receiver o);
  let key := (escrow_release_from o, escrow_release_escrow_id o) in
  e ← get escrows key;
  db_assert (asset_ge (esc_TMEbalance e) (escrow_release_TMEamount o)) "Release amount exceeds escrow balance.";;
  db_assert (asset_ge (esc_TSDbalance e) (escrow_release_TSDamount o)) "Release amount exceeds escrow balance.";;
  fc_assert (str_eqb (esc_to e) (escrow_release_to o)) "Operation 'to' does not match escrow 'to'.";;
  fc_assert (str_eqb (esc_agent e) (escrow_release_agent o))
    "Operation 'agent' does not match escrow 'agent'.";;
  let who := escrow_release_who o in
  let receiver := escrow_release_receiver o in
  fc_assert (str_eqb receiver (esc_from e) || str_eqb receiver (esc_to e))
    "Funds must be released to 'from' or 'to'";;
  fc_assert (esc_to_approved e && esc_agent_approved e)
    "Funds cannot be released prior to escrow approval.";;
  now ← head_block_time;
  release_guard now e who receiver;;
  adjust_balance receiver (escrow_release_TMEamount o);;
  adjust_balance receiver (escrow_release_TSDamount o);;
  modify escrows key (λ e,
    tme ← asset_sub (esc_TMEbalance e) (escrow_release_TMEamount o);
    tsd ← asset_sub (esc_TSDbalance e) (escrow_release_TSDamount o);
    Ok (e <| esc_TMEbalance := tme |> <| esc_TSDbalance := tsd |>));;
  e ← get escrows key;
  mwhen ((amount (esc_TMEbalance e) =? 0) && (amount (esc_TSDbalance e) =? 0)) (remove escrows key).

(** [by_ratification_deadline], libraries/chain/include/node/chain/node_objects.hpp:407-414 *)
Definition by_ratification_deadline : escrow_object → escrow_object → comparison :=
  then_by (by_key (λ e, Z.b2z (esc_is_approved e)) Z.compare)
    (then_by (by_key esc_ratification_deadline Z.compare) (by_key esc_id Z.compare)).
#[export] Instance by_ratification_deadline_order : IndexOrder by_ratification_deadline.
Proof. unfold by_ratification_deadline. apply _. Qed.

(** [database::expire_escrow_ratification], libraries/chain/database.cpp:2117-2134 *)
Definition expire_escrow_ratification : DB unit :=
  now ← head_block_time;
  drain escrows (at_most by_ratification_deadline)
    (λ e, negb (esc_is_approved e) && (esc_ratification_deadline e <=? now))
    (λ k e,
      _ ← get_account (esc_from e);
      adjust_balance (esc_from e) (esc_TMEbalance e);;
      adjust_balance (esc_from e) (esc_TSDbalance e);;
      adjust_balance (esc_from e) (esc_pending_fee e);;
      remove escrows k).
End escrow.

(** * The agreement *)

(** What happens to an agreement. *)
Inductive escrow_event :=
| ev_transfer
| ev_approve (who : account_name)
| ev_reject (who : account_name)
| ev_expire
| ev_dispute
| ev_release (who receiver : account_name).

(** The funds an agreement holds. *)
Definition esc_funds (e : escrow_object) : Z := amount (esc_TMEbalance e) + amount (esc_TSDbalance e).

(** The parties and the terms do not change. *)
Definition same_terms (e e' : escrow_object) : Prop :=
  esc_from e' = esc_from e ∧ esc_to e' = esc_to e ∧ esc_agent e' = esc_agent e ∧
  esc_escrow_id e' = esc_escrow_id e ∧ esc_ratification_deadline e' = esc_ratification_deadline e ∧
  esc_escrow_expiration e' = esc_escrow_expiration e.

(** Who may release to whom at time [now]: in a dispute the agent decides, otherwise
    [from] and [to] release to each other, and to anyone of the two after the
    expiration. *)
Definition may_release (now : Z) (e : escrow_object) (who receiver : account_name) : Prop :=
  (receiver = esc_from e ∨ receiver = esc_to e) ∧
  if esc_disputed e then who = esc_agent e
  else (who = esc_from e ∨ who = esc_to e) ∧
       (now < esc_escrow_expiration e →
          (who = esc_from e → receiver = esc_to e) ∧
          (who = esc_to e → who ≠ esc_from e → receiver = esc_from e)).

(** One step of an agreement at time [now]; [None] is no agreement. *)
Inductive escrow_step (now : Z) : escrow_event → option escrow_object → option escrow_object → Prop :=
| step_transfer e :
    esc_to_approved e = false → esc_agent_approved e = false → esc_disputed e = false →
    now < esc_ratification_deadline e → now < esc_escrow_expiration e →
    escrow_step now ev_transfer None (Some e)
| step_approve_to e e' :
    now ≤ esc_ratification_deadline e → esc_to_approved e = false →
    same_terms e e' → esc_to_approved e' = true → esc_agent_approved e' = esc_agent_approved e →
    esc_disputed e' = esc_disputed e → esc_TMEbalance e' = esc_TMEbalance e →
    esc_TSDbalance e' = esc_TSDbalance e →
    esc_pending_fee e' = (if esc_agent_approved e then Asset 0 (symbol (esc_pending_fee e)) else esc_pending_fee e) →
    escrow_step now (ev_approve (esc_to e)) (Some e) (Some e')
| step_approve_agent e e' :
    now ≤ esc_ratification_deadline e → esc_agent_approved e = false →
    same_terms e e' → esc_agent_approved e' = true → esc_to_approved e' = esc_to_approved e →
    esc_disputed e' = esc_disputed e → esc_TMEbalance e' = esc_TMEbalance e →
    esc_TSDbalance e' = esc_TSDbalance e →
    esc_pending_fee e' = (if esc_to_approved e then Asset 0 (symbol (esc_pending_fee e)) else esc_pending_fee e) →
    escrow_step now (ev_approve (esc_agent e)) (Some e) (Some e')
| step_reject e who :
    now ≤ esc_ratification_deadline e →
    (who = esc_to e ∧ esc_to_approved e = false ∨ who = esc_agent e ∧ esc_agent_approved e = false) →
    escrow_step now (ev_reject who) (Some e) None
| step_expire e :
    esc_is_approved e = false → esc_ratification_deadline e ≤ now →
    escrow_step now ev_expire (Some e) None
| step_dispute e :
    esc_is_approved e = true → esc_disputed e = false → now < esc_escrow_expiration e →
    escrow_step now ev_dispute (Some e) (Some (e <| esc_disputed := true |>))
| step_release e e' who receiver :
    esc_is_approved e = true → may_release now e who receiver →
    same_terms e e' → esc_to_approved e' = true → esc_agent_approved e' = true →
    esc_disputed e' = esc_disputed e → esc_pending_fee e' = esc_pending_fee e →
    amount (esc_TMEbalance e') ≤ amount (esc_TMEbalance e) →
    amount (esc_TSDbalance e') ≤ amount (esc_TSDbalance e) →
    0 < esc_funds e' →
    escrow_step now (ev_release who receiver) (Some e) (Some e')
| step_release_all e who receiver :
    esc_is_approved e = true → may_release now e who receiver →
    escrow_step now (ev_release who receiver) (Some e) None.

(** What holds of every agreement in the table. *)
Record escrow_ok (k : account_name * Z) (e : escrow_object) : Prop := {
  eok_key : k = (esc_from e, esc_escrow_id e);
  eok_tme : symbol (esc_TMEbalance e) = SYMBOL_COIN ∧ 0 ≤ amount (esc_TMEbalance e);
  eok_tsd : symbol (esc_TSDbalance e) = SYMBOL_USD ∧ 0 ≤ amount (esc_TSDbalance e);
  eok_funds : 0 < esc_funds e;
  eok_fee : (symbol (esc_pending_fee e) = SYMBOL_COIN ∨ symbol (esc_pending_fee e) = SYMBOL_USD) ∧
            0 ≤ amount (esc_pending_fee e);
  eok_agent : esc_agent e ≠ esc_from e ∧ esc_agent e ≠ esc_to e;
  eok_paid : esc_is_approved e = true → amount (esc_pending_fee e) = 0;
  eok_disputed : esc_disputed e = true → esc_is_approved e = true;
}.
Definition escrows_ok (s : database) : Prop := map_Forall escrow_ok (rows (escrows s)).

(** The effect of an operation on the table of agreements: one step of the
    agreement under [k]. *)
Definition escrow_effect (k : account_name * Z) (ev : escrow_event) (s s' : database) : Prop :=
  ∃ e', rows (escrows s') = partial_alter (λ _, e') k (rows (escrows s)) ∧
        escrow_step (gpo_time (gpo s)) ev (rows (escrows s) !! k) e'.

Section refinement.
Context {F : Fc} {FL : FcLaws F}.

Ltac shift_escrow :=
  repeat match goal with H : symbol _ = _ ∧ _ |- _ => destruct H end;
  row_shifts; holdings; literals; known_symbols; add_shifts.

Lemma release_guard_ok now e who receiver s u s' :
  receiver = esc_from e ∨ receiver = esc_to e →
  ⟨ release_guard now e who receiver, s ⟩ ⇓ ⟨ u, s' ⟩ → s' = s ∧ may_release now e who receiver.
Proof.
  intros Hrec Hr. unfold release_guard, may_release in *.
  repeat ledger_step; guards; (split; [done|split; [done|]]); try done; split; naive_solver lia.
Qed.

Ltac run_escrow Hr :=
  repeat autounfold with accessors in Hr; repeat (ledger_step || asset_step); guards;
  repeat match goal with H : @eq database ?s ?t |- _ => subst t end; own_rows; same_rows; fields.
(** Every operation makes one step of one agreement, keeps the others, keeps the
    agreements well formed and conserves the supplies. *)
Definition escrow_correct (k : account_name * Z) (ev : escrow_event) (s s' : database) : Prop :=
  conserves s s' ∧ escrow_effect k ev s s' ∧ escrows_ok s'.

Lemma escrow_transfer_effect o s u s' :
  escrow_transfer_validate o = Ok tt → escrows_ok s →
  ⟨ escrow_transfer_apply o, s ⟩ ⇓ ⟨ u, s' ⟩ →
  escrow_correct (escrow_transfer_from o, escrow_transfer_escrow_id o) ev_transfer s s'.
Proof.
  unfold escrow_transfer_validate, escrow_transfer_apply. intros Hv Hok Hr. asset_inv. run_escrow Hr.
  split; [|split].
  - destruct (Z.eqb_spec (symbol (escrow_transfer_fee o)) SYMBOL_COIN); asset_inv; guards.
    + shift_escrow.
    + apply orb_true_iff in H7 as [?|?]; guards; [done|]. shift_escrow.
  - eexists (Some _). split; [frames; reflexivity|].
    assert (rows (escrows s) !! (escrow_transfer_from o, escrow_transfer_escrow_id o) = None) as ->
      by (rewrite <- Hnew; frames; done).
    by apply step_transfer.
  - unfold escrows_ok. db_fields. frames. apply map_Forall_insert_2; [|done].
    split; unfold esc_funds, esc_is_approved; cbn; try done.
    + apply orb_true_iff in H5. rewrite !Z.ltb_lt in H5. lia.
    + split; [|done]. apply orb_true_iff in H7. by rewrite !Z.eqb_eq in H7.
Qed.

Lemma escrow_dispute_effect o s u s' :
  escrows_ok s → ⟨ escrow_dispute_apply o, s ⟩ ⇓ ⟨ u, s' ⟩ →
  escrow_correct (escrow_dispute_from o, escrow_dispute_escrow_id o) ev_dispute s s'.
Proof.
  unfold escrow_dispute_apply. intros Hok Hr. run_escrow Hr.
  assert (esc_is_approved v0 = true) as Happ by (unfold esc_is_approved; by rewrite H, H0).
  pose proof (Hok _ _ Hrow0) as []. split; [shift_escrow|split].
  - eexists (Some _). split; [db_fields; reflexivity|]. rewrite Hrow0. by apply step_dispute.
  - unfold escrows_ok. db_fields. apply map_Forall_insert_2; [|done].
    split; unfold esc_funds, esc_is_approved in *; fields; done.
Qed.

Lemma escrow_release_effect o s u s' :
  escrows_ok s → escrow_release_validate o = Ok tt →
  ⟨ escrow_release_apply o, s ⟩ ⇓ ⟨ u, s' ⟩ →
  escrow_correct (escrow_release_from o, escrow_release_escrow_id o)
    (ev_release (escrow_release_who o) (escrow_release_receiver o)) s s'.
Proof.
  unfold escrow_release_validate, escrow_release_apply. intros Hok Hv Hr. asset_inv.
  run_escrow Hr.
  all: match goal with H : ⟨ release_guard _ _ _ _, _ ⟩ ⇓ ⟨ _, _ ⟩ |- _ =>
    apply release_guard_ok in H as [-> Hmay]; [|done] end.
  all: own_rows; same_rows; fields; pose proof (Hok _ _ Hrow1) as [].
  all: assert (esc_is_approved v1 = true) as Happ by (by apply andb_true_iff).
  - pose proof (λ sym, of_symbol_zero sym _ (eok_paid0 Happ)) as Hfee.
    pose proof (Hfee SYMBOL_COIN). pose proof (Hfee SYMBOL_USD).
    split; [shift_escrow|split].
    + exists None. split; [frames; by rewrite delete_insert_eq|]. rewrite Hrow1. by apply step_release_all.
    + unfold escrows_ok. frames. rewrite delete_insert_eq. by apply map_Forall_delete.
  - assert (0 < amount x + amount x0) as Hfunds.
    { apply andb_false_iff in Heqb. rewrite !Z.eqb_neq in Heqb. lia. }
    split; [shift_escrow|split].
    + eexists (Some _). split; [frames; reflexivity|]. rewrite Hrow1.
      apply step_release; unfold same_terms, esc_funds; fields; try done; lia.
    + unfold escrows_ok. frames. apply map_Forall_insert_2; [|done].
      split; unfold esc_funds, esc_is_approved in *; fields; try done; (split; [congruence|lia]).
Qed.

(** An approval keeps an agreement well formed. *)
Lemma escrow_ok_approve k e e' :
  escrow_ok k e → esc_is_approved e = false → same_terms e e' → esc_disputed e' = esc_disputed e →
  esc_TMEbalance e' = esc_TMEbalance e → esc_TSDbalance e' = esc_TSDbalance e →
  symbol (esc_pending_fee e') = symbol (esc_pending_fee e) → 0 ≤ amount (esc_pending_fee e') →
  (esc_is_approved e' = true → amount (esc_pending_fee e') = 0) → escrow_ok k e'.
Proof.
  intros [] Happ (? & ? & ? & ? & ? & ?) Hd Ht Hu Hf Hfee Hpaid.
  assert (esc_disputed e = false) by (destruct (esc_disputed e); [by rewrite eok_disputed0 in Happ|done]).
  split; unfold esc_funds in *; rewrite ?Ht, ?Hu, ?Hf; try congruence; try done.
  by destruct eok_fee0.
Qed.

Lemma escrow_approve_effect o s u s' :
  escrows_ok s → escrow_approve_validate o = Ok tt →
  ⟨ escrow_approve_apply o, s ⟩ ⇓ ⟨ u, s' ⟩ →
  escrow_correct (escrow_approve_from o, escrow_approve_escrow_id o)
    (if escrow_approve_approve o then ev_approve (escrow_approve_who o) else ev_reject (escrow_approve_who o)) s s'.
Proof.
  unfold escrow_approve_validate, escrow_approve_apply. intros Hok Hv Hr. asset_inv. guards.
  destruct (escrow_approve_approve o); cbn [negb] in Hr.
  2:{ (* rejected *)
    run_escrow Hr; pose proof (Hok _ _ Hrow) as []; destruct eok_agent0 as [_ Hne]; try (destruct Hv; congruence);
      (split; [shift_escrow|split]).
    all: try (unfold escrows_ok; frames; by apply map_Forall_delete).
    all: exists None; (split; [frames; reflexivity|]); rewrite Hrow; apply step_reject; [done|].
    - left. split; [congruence|done].
    - right. split; [congruence|done]. }
  run_escrow Hr; pose proof (Hok _ _ Hrow) as []; destruct eok_agent0 as [Hne' Hne]; try (destruct Hv; congruence);
    try written_row Hrow2; (split; [shift_escrow|split]); unfold escrows_ok; frames; rewrite ?insert_insert_eq.
  (* well-formedness *)
  2, 4, 6, 8: apply map_Forall_insert_2; [|done]; apply (escrow_ok_approve _ _ _ (Hok _ _ Hrow));
    unfold same_terms, esc_is_approved in *; fields; cbn [amount symbol];
    rewrite ?andb_true_r in *; try done; try (by destruct eok_fee0); try (apply andb_false_iff; by auto); try congruence.
  (* the steps *)
  all: eexists (Some _); (split; [frames; rewrite ?insert_insert_eq; reflexivity|]); rewrite Hrow.
  1, 2: replace (escrow_approve_who o) with (esc_to v) by congruence; apply step_approve_to.
  all: try (replace (escrow_approve_who o) with (esc_agent v) by congruence; apply step_approve_agent).
  all: unfold same_terms; fields; cbn [negb]; try done.
  all: cbn [andb] in *; rewrite ?andb_true_r in *.
  all: repeat match goal with
       | H : ?b = true |- context [?b] => rewrite H
       | H : ?b = false |- context [?b] => rewrite H end; done.
Qed.

(** Refund an agreement, the body of [expire_escrow_ratification]. *)
Lemma refund_effect k e s u s' :
  ⟨ _ ← get_account (esc_from e);
    adjust_balance (esc_from e) (esc_TMEbalance e);;
    adjust_balance (esc_from e) (esc_TSDbalance e);;
    adjust_balance (esc_from e) (esc_pending_fee e);;
    remove escrows k, s ⟩ ⇓ ⟨ u, s' ⟩ →
  rows (escrows s') = delete k (rows (escrows s)) ∧
  (escrows_ok s → rows (escrows s) !! k = Some e → conserves s s' ∧ escrows_ok s').
Proof.
  intros Hr. run_escrow Hr. split; [frames; done|]. intros Hok Hk. pose proof (Hok _ _ Hk) as [].
  split; [shift_escrow|]. unfold escrows_ok. frames. by apply map_Forall_delete.
Qed.
End refinement.

(** * What the agreement promises *)

Section promises.
Context {F : Fc} {FL : FcLaws F} {C : FcCrypto}.

(** The evaluator of an escrow operation, the agreement it is about and the
    step it takes. *)
Definition escrow_apply (op : operation) : option (DB unit * (account_name * Z) * escrow_event) :=
  match op with
  | escrow_transfer_ o => Some (escrow_transfer_apply o,
      (escrow_transfer_from o, escrow_transfer_escrow_id o), ev_transfer)
  | escrow_approve_ o => Some (escrow_approve_apply o,
      (escrow_approve_from o, escrow_approve_escrow_id o),
      if escrow_approve_approve o then ev_approve (escrow_approve_who o) else ev_reject (escrow_approve_who o))
  | escrow_dispute_ o => Some (escrow_dispute_apply o,
      (escrow_dispute_from o, escrow_dispute_escrow_id o), ev_dispute)
  | escrow_release_ o => Some (escrow_release_apply o,
      (escrow_release_from o, escrow_release_escrow_id o),
      ev_release (escrow_release_who o) (escrow_release_receiver o))
  | _ => None
  end.

Lemma escrow_apply_correct op m k ev s u s' :
  escrow_apply op = Some (m, k, ev) → operation_validate op = Ok tt → escrows_ok s →
  ⟨ m, s ⟩ ⇓ ⟨ u, s' ⟩ → escrow_correct k ev s s'.
Proof.
  destruct op; intros [= <- <- <-] Hv Hok Hr; cbn [operation_validate] in Hv.
  - by eapply escrow_transfer_effect.
  - by eapply escrow_dispute_effect.
  - by eapply escrow_release_effect.
  - by eapply escrow_approve_effect.
Qed.

(** C31. Every escrow operation that validates and succeeds takes one step of the
    agreement it names and touches no other agreement, keeps all agreements
    well formed, and conserves the recorded supplies. *)
Theorem escrow_refinement op m k ev s u s' :
  escrow_apply op = Some (m, k, ev) → operation_validate op = Ok tt → escrows_ok s →
  ⟨ m, s ⟩ ⇓ ⟨ u, s' ⟩ →
  escrow_effect k ev s s' ∧ escrows_ok s' ∧ conserves s s'.
Proof.
  intros Ha Hv Hok Hr. by destruct (escrow_apply_correct op m k ev s u s' Ha Hv Hok Hr) as (? & ? & ?).
Qed.

(** The history of one agreement between [f], [t] and [a], last event first. *)
Inductive agreement (f t a : account_name) : list escrow_event → option escrow_object → Prop :=
| agreement_start now e :
    escrow_step now ev_transfer None (Some e) →
    esc_from e = f → esc_to e = t → esc_agent e = a → agreement f t a [ev_transfer] (Some e)
| agreement_next now ev evs e o :
    agreement f t a evs (Some e) → escrow_step now ev (Some e) o → agreement f t a (ev :: evs) o.

Lemma agreement_inv f t a evs e :
  a ≠ t → agreement f t a evs (Some e) →
  esc_from e = f ∧ esc_to e = t ∧ esc_agent e = a ∧
  (esc_to_approved e = true ↔ ev_approve t ∈ evs) ∧
  (esc_agent_approved e = true ↔ ev_approve a ∈ evs) ∧
  (esc_disputed e = true ↔ ev_dispute ∈ evs).
Proof.
  intros Hne Ha. remember (Some e) as o eqn:Eo. revert e Eo.
  induction Ha as [now e' Hs Hf Ht Hag|now ev evs e0 o Ha IH Hs]; intros e Eo; subst.
  - injection Eo as <-. inversion Hs; subst. rewrite !list_elem_of_singleton.
    repeat split; try done; congruence.
  - destruct (IH _ eq_refl) as (Hf & Ht & Hag & I1 & I2 & I3). clear IH.
    inversion Hs; subst; unfold same_terms, esc_is_approved in *;
      repeat match goal with H : _ ∧ _ |- _ => destruct H end; guards; fields;
      rewrite !elem_of_cons; repeat split; try congruence; naive_solver congruence.
Qed.

Lemma released_parties now f t a e who receiver evs o :
  a ≠ f → a ≠ t → agreement f t a evs (Some e) → escrow_step now (ev_release who receiver) (Some e) o →
  ev_approve t ∈ evs ∧ ev_approve a ∈ evs ∧ (receiver = f ∨ receiver = t) ∧
  (who = a ↔ ev_dispute ∈ evs).
Proof.
  intros Hf Ht Hpre Hs. apply agreement_inv in Hpre as (Ef & Et & Eg & I1 & I2 & I3); [|done].
  assert (esc_is_approved e = true ∧ may_release now e who receiver) as [Happ [Hrec Hwho]]
    by (inversion Hs; subst; done).
  unfold esc_is_approved in Happ. guards. rewrite <- I1, <- I2, <- I3.
  destruct (esc_disputed e); repeat split; try done; naive_solver congruence.
Qed.

(** What every refund preserves. *)
Definition refunds (s s' : database) : Prop := escrows_ok s → conserves s s' ∧ escrows_ok s'.
#[local] Instance refunds_preorder : PreOrder refunds.
Proof.
  split; [by intros s|]. intros s1 s2 s3 H1 H2 H. destruct (H1 H) as [? H']. destruct (H2 H') as [? ?].
  split; [by etrans|done].
Qed.

Lemma due_by_deadline now u v :
  at_most by_ratification_deadline u v = true →
  negb (esc_is_approved v) && (esc_ratification_deadline v <=? now) = true →
  negb (esc_is_approved u) && (esc_ratification_deadline u <=? now) = true.
Proof.
  unfold at_most, by_ratification_deadline, then_by, by_key.
  destruct (esc_is_approved u), (esc_is_approved v); cbn; try done.
  destruct (Z.compare_spec (esc_ratification_deadline u) (esc_ratification_deadline v)); rewrite ?Z.leb_le; lia || done.
Qed.

Lemma expire_effect s u s' :
  escrows_ok s → ⟨ expire_escrow_ratification, s ⟩ ⇓ ⟨ u, s' ⟩ →
  conserves s s' ∧ escrows_ok s' ∧
  rows (escrows s') =
    filter (λ p, negb (esc_is_approved p.2) && (esc_ratification_deadline p.2 <=? gpo_time (gpo s)) = false)
      (rows (escrows s)).
Proof.
  intros Hok Hr. unfold expire_escrow_ratification, head_block_time in Hr. runs_step. db_step.
  pose proof Hr as Hrows. eapply (drain_rows escrows) in Hrows.
  2:{ intros ???. apply at_most_trans; apply _. }
  2:{ intros ??. apply at_most_total; apply _. }
  2:{ exact (due_by_deadline _). }
  2:{ intros k e t v t' Ht. by apply refund_effect in Ht as [? _]. }
  assert (refunds s s') as Hc; [|by destruct (Hc Hok)].
  eapply drain_preserves in Hr; [exact Hr|apply _|].
  intros k e t v t' Hk _ Ht Ht0. apply refund_effect in Ht as [_ Ht]. by apply Ht.
Qed.

(** After [expire_escrow_ratification] the agreements are exactly those that were
    approved or whose deadline had not passed; the others were refunded. *)
Theorem expire_escrow_ratification_complete s u s' :
  escrows_ok s → ⟨ expire_escrow_ratification, s ⟩ ⇓ ⟨ u, s' ⟩ →
  conserves s s' ∧ escrows_ok s' ∧
  rows (escrows s') =
    filter (λ p, negb (esc_is_approved p.2) && (esc_ratification_deadline p.2 <=? gpo_time (gpo s)) = false)
      (rows (escrows s)).
Proof. apply expire_effect. Qed.

(** ** Histories *)

(** A new agreement starts a new history. *)
Definition record_event (ev : escrow_event) (evs : list escrow_event) : list escrow_event :=
  match ev with ev_transfer => [ev_transfer] | _ => ev :: evs end.

(** The events, last first, of the agreement under [k] in a run of the chain: of
    escrow operations, of the expiry of each block, and of steps that leave the
    agreements alone. *)
Inductive escrow_history (k : account_name * Z) : list escrow_event → database → Prop :=
| history_start s : escrows_ok s → rows (escrows s) !! k = None → escrow_history k [] s
| history_operation evs s s' op m k' ev u :
    escrow_history k evs s → escrow_apply op = Some (m, k', ev) → operation_validate op = Ok tt →
    ⟨ m, s ⟩ ⇓ ⟨ u, s' ⟩ →
    escrow_history k (if decide (k' = k) then record_event ev evs else evs) s'
| history_expiry evs s s' u :
    escrow_history k evs s → ⟨ expire_escrow_ratification, s ⟩ ⇓ ⟨ u, s' ⟩ →
    escrow_history k (match rows (escrows s') !! k with Some _ => evs | None => ev_expire :: evs end) s'
| history_other evs s s' :
    escrow_history k evs s → rows (escrows s') = rows (escrows s) → escrow_history k evs s'.

Lemma escrow_step_terms now ev e e' : escrow_step now ev (Some e) (Some e') → same_terms e e'.
Proof. intros Hs. inversion Hs; subst; unfold same_terms in *; fields; try done. Qed.

Lemma escrow_step_start now ev e' :
  escrow_step now ev None (Some e') → ev = ev_transfer.
Proof. by inversion 1. Qed.

Lemma escrow_step_next now ev e o : escrow_step now ev (Some e) o → ∀ evs, record_event ev evs = ev :: evs.
Proof. by inversion 1. Qed.

(** A history is a history of its agreement. *)
Lemma history_agreement k evs s :
  escrow_history k evs s → escrows_ok s ∧
  ∀ e, rows (escrows s) !! k = Some e → agreement (esc_from e) (esc_to e) (esc_agent e) evs (Some e).
Proof.
  induction 1 as [s Hok Hk|evs s s' op m k' ev u _ [Hok IH] Ha Hv Hr|evs s s' u _ [Hok IH] Hr|evs s s' _ [Hok IH] He].
  - split; [done|]. congruence.
  - destruct (escrow_apply_correct op m k' ev s u s' Ha Hv Hok Hr) as (_ & (e' & Hrows & Hs) & Hok').
    split; [done|]. intros e He. rewrite Hrows in He. case_decide as Hk.
    + subst k'. rewrite lookup_partial_alter_eq in He. subst e'.
      destruct (rows (escrows s) !! k) as [e0|] eqn:Hk.
      * rewrite (escrow_step_next _ _ _ _ Hs). destruct (escrow_step_terms _ _ _ _ Hs) as (-> & -> & -> & _).
        eapply agreement_next; [by apply IH|done].
      * pose proof (escrow_step_start _ _ _ Hs) as ->. by eapply agreement_start.
    + rewrite lookup_partial_alter_ne in He by done. by apply IH.
  - destruct (expire_effect s u s' Hok Hr) as (_ & Hok' & Hrows). split; [done|]. intros e He.
    rewrite He. apply IH. rewrite Hrows in He. by apply map_lookup_filter_Some in He as [? _].
  - unfold escrows_ok. rewrite He. done.
Qed.

Lemma escrow_release_parties o s u s' :
  ⟨ escrow_release_apply o, s ⟩ ⇓ ⟨ u, s' ⟩ →
  ∃ e, rows (escrows s) !! (escrow_release_from o, escrow_release_escrow_id o) = Some e ∧
    esc_to e = escrow_release_to o ∧ esc_agent e = escrow_release_agent o.
Proof.
  unfold escrow_release_apply, get_account. intros Hr. do 7 (runs_step; try db_step).
  exists v1. split; [done|]. runs_step. apply runs_db_assert in Hr0 as [_ ->]. do 4 runs_step. by guards.
Qed.

(** Funds of an agreement are only released after both the receiving party and
    the agent approved it, and only to one of the two parties.  Its agent
    releases exactly when a dispute was raised. *)
Theorem release_after_agreement o evs s u s' :
  escrow_history (escrow_release_from o, escrow_release_escrow_id o) evs s →
  operation_validate (escrow_release_ o) = Ok tt → ⟨ escrow_release_apply o, s ⟩ ⇓ ⟨ u, s' ⟩ →
  ev_approve (escrow_release_to o) ∈ evs ∧ ev_approve (escrow_release_agent o) ∈ evs ∧
  (escrow_release_receiver o = escrow_release_from o ∨ escrow_release_receiver o = escrow_release_to o) ∧
  (escrow_release_who o = escrow_release_agent o ↔ ev_dispute ∈ evs).
Proof.
  intros Hh Hv Hr. destruct (history_agreement _ _ _ Hh) as [Hok Hag].
  destruct (escrow_release_parties _ _ _ _ Hr) as (e & He & Et & Ea).
  destruct (escrow_release_effect o s u s' Hok Hv Hr) as (_ & (e' & _ & Hs) & _).
  destruct (eok_agent _ _ (Hok _ _ He)) as [Hf Ht]. pose proof (eok_key _ _ (Hok _ _ He)) as [= Ef _].
  rewrite He in Hs. rewrite <- Et, <- Ea, Ef. by eapply released_parties; [..|apply Hag|].
Qed.
End promises.

(** * The theorems on concrete states *)

Lemma sample_escrows_ok deadline : escrows_ok (sample_escrows deadline).
Proof.
  intros k e. change (rows (escrows (sample_escrows deadline))) with
    (<[("alice"%string, 1) := sample_escrow deadline true false]> (∅ : gmap (account_name * Z) escrow_object)).
  rewrite insert_empty, lookup_singleton_Some. intros [<- <-].
  split; cbn; unfold SYMBOL_COIN, SYMBOL_USD, esc_funds; cbn; try done; auto with lia.
Qed.

(** Carol, the agent, approves: the agreement is ratified and her fee is paid. *)
Lemma escrow_refinement_witness :
  let s' := outcome (escrow_approve_apply sample_approve) (sample_escrows 2000) in
  escrow_effect ("alice"%string, 1) (ev_approve "carol") (sample_escrows 2000) s' ∧
  escrows_ok s' ∧ conserves (sample_escrows 2000) s'.
Proof.
  apply (escrow_refinement (F:=FcRef.fc_ref) (C:=FcCryptoRef.fc_crypto_ref) (escrow_approve_ sample_approve)
    (escrow_approve_apply sample_approve) _ _ _ tt).
  - reflexivity.
  - vm_compute. reflexivity.
  - apply sample_escrows_ok.
  - runs_ok.
Defined.

(** Alice makes an agreement, Bob and Carol approve, and she releases 5 TME to Bob. *)
Lemma release_after_agreement_witness :
  ev_approve "bob" ∈ [ev_approve "carol"; ev_approve "bob"; ev_transfer].
Proof.
  apply (release_after_agreement (F:=FcRef.fc_ref) (C:=FcCryptoRef.fc_crypto_ref) alice_release _
    (outcome (escrow_approve_apply sample_approve) (outcome (escrow_approve_apply bob_approve)
      (outcome (escrow_transfer_apply alice_agreement) three_accounts))) tt
    (outcome (escrow_release_apply alice_release) (outcome (escrow_approve_apply sample_approve)
      (outcome (escrow_approve_apply bob_approve) (outcome (escrow_transfer_apply alice_agreement) three_accounts))))).
  - eapply (history_operation ("alice"%string, 1) [ev_approve "bob"; ev_transfer] _ _ (escrow_approve_ sample_approve) _ ("alice"%string, 1) (ev_approve "carol") tt);
      [|reflexivity|vm_compute; reflexivity|runs_ok].
    eapply (history_operation ("alice"%string, 1) [ev_transfer] _ _ (escrow_approve_ bob_approve) _ ("alice"%string, 1) (ev_approve "bob") tt);
      [|reflexivity|vm_compute; reflexivity|runs_ok].
    eapply (history_operation ("alice"%string, 1) [] three_accounts _ (escrow_transfer_ alice_agreement) _ ("alice"%string, 1) ev_transfer tt);
      [|reflexivity|vm_compute; reflexivity|runs_ok].
    apply history_start; [intros k e Hk; discriminate Hk|reflexivity].
  - vm_compute. reflexivity.
  - runs_ok.
Defined.

(** An agreement that was not ratified before time 900 is refunded at time 1000. *)
Lemma expire_escrow_ratification_complete_witness :
  rows (escrows (outcome expire_escrow_ratification (sample_escrows 900))) = ∅.
Proof.
  destruct (expire_escrow_ratification_complete (F:=FcRef.fc_ref) (sample_escrows 900) tt
    (outcome expire_escrow_ratification (sample_escrows 900))) as (_ & _ & Hr).
  - apply sample_escrows_ok.
  - runs_ok.
  - rewrite Hr. vm_compute. reflexivity.
Defined.
