(* ===== verification/Market.v ===== *)
(** The internal market: the evaluators of limit orders of
    [chain/node_evaluator.cpp] and the matching engine of [chain/database.cpp]
    ([apply_order], [match], [fill_order], [cancel_order],
    [adjust_liquidity_reward], [clear_expired_orders]).

    An order is named by its key, the seller and the order id; where the code
    holds a reference to an order the model reads it again under its key.
    [trade] is the arithmetic of [match], apart from the state. *)

From S2P Require Import Prelude Fc Config Asset Flat Authority Operations Objects Database Samples Ledger Frame Supply.

Abbreviation order_key := (account_name * Z)%type.

Section market.
Context {F : Fc}.

(** [limit_order_object::amount_for_sale], libraries/chain/include/node/chain/node_objects.hpp:206 *)
Definition amount_for_sale (o : limit_order_object) : asset :=
  Asset (ord_for_sale o) (symbol (base (ord_sell_price o))).
(** [limit_order_object::amount_to_receive], libraries/chain/include/node/chain/node_objects.hpp:207 *)
Definition amount_to_receive (o : limit_order_object) : result asset :=
  asset_mul (amount_for_sale o) (ord_sell_price o).

(** ** Liquidity rewards *)

(** [liquidity_reward_balance_object::is_positive], libraries/chain/include/node/chain/node_objects.hpp:143-146 *)
Definition is_positive (r : liquidity_reward_balance_object) : Z :=
  if (0 <? lrb_TME_volume r) && (0 <? lrb_TSD_volume r) then 1 else 0.
(** [liquidity_reward_balance_object::volume_weight], libraries/chain/include/node/chain/node_objects.hpp:128-131 *)
Definition volume_weight (r : liquidity_reward_balance_object) : Z :=
  u128 (wrap_i64 (wrap_i64 (lrb_TME_volume r * lrb_TSD_volume r) * is_positive r)).
(** [liquidity_reward_balance_object::min_volume_weight], libraries/chain/include/node/chain/node_objects.hpp:133-136 *)
Definition min_volume_weight (r : liquidity_reward_balance_object) : Z :=
  u128 (Z.min (lrb_TME_volume r) (lrb_TSD_volume r) * is_positive r).
(** [liquidity_reward_balance_object::update_weight], libraries/chain/include/node/chain/node_objects.hpp:138-141 *)
Definition update_weight (hf9 : bool) (r : liquidity_reward_balance_object) : liquidity_reward_balance_object :=
  r <| lrb_weight := if hf9 then min_volume_weight r else volume_weight r |>.

(** [database::adjust_liquidity_reward], libraries/chain/database.cpp:3213-3251 *)
Definition adjust_liquidity_reward (owner : Z) (volume : asset) (is_sdb : bool) : DB unit :=
  now ← head_block_time;
  itr ← find liquidity_rewards owner;
  match itr with
  | Some _ =>
      hf ← has_hardfork HARDFORK_0_10;
      modify liquidity_rewards owner (λ r,
        let r := if LIQUIDITY_TIMEOUT_SEC <=? tps_diff now (lrb_last_update r) then
                   r <| lrb_TSD_volume := 0 |> <| lrb_TME_volume := 0 |> <| lrb_weight := 0 |>
                 else r in
        let r := if is_sdb then r <| lrb_TSD_volume ::= λ v, wrap_i64 (v + amount volume) |>
                 else r <| lrb_TME_volume ::= λ v, wrap_i64 (v + amount volume) |> in
        Ok (update_weight hf r <| lrb_last_update := now |>))
  | None =>
      hf ← has_hardfork HARDFORK_0_9;
      create liquidity_rewards owner (λ id,
        let r := {| lrb_id := id; lrb_owner := owner;
                    lrb_TME_volume := if is_sdb then 0 else amount volume;
                    lrb_TSD_volume := if is_sdb then amount volume else 0;
                    lrb_weight := 0; lrb_last_update := tps_min |} in
        update_weight hf r <| lrb_last_update := now |>)
  end.

(** ** Matching *)

(** [database::cancel_order], libraries/chain/database.cpp:3293-3297 *)
Definition cancel_order (k : order_key) : DB unit :=
  order ← get limit_orders k;
  _ ← get_account (ord_seller order);
  adjust_balance (ord_seller order) (amount_for_sale order);;
  remove limit_orders k.

(** [database::fill_order], libraries/chain/database.cpp:3254-3291 *)
Definition fill_order (k : order_key) (pays receives : asset) : DB bool :=
  order ← get limit_orders k;
  fc_assert (symbol (amount_for_sale order) =? symbol pays) EmptyString;;
  fc_assert (negb (symbol pays =? symbol receives)) EmptyString;;
  _ ← get_account (ord_seller order);
  adjust_balance (ord_seller order) receives;;
  if asset_eqb pays (amount_for_sale order) then
    remove limit_orders k;; mret true
  else
    modify limit_orders k (λ b, x ← safe_sub (ord_for_sale b) (amount pays); Ok (b <| ord_for_sale := x |>));;
    order ← get limit_orders k;
    r ← lift (amount_to_receive order);
    if amount r =? 0 then cancel_order k;; mret true
    else mret false.

(** What the new order pays and receives when it meets the old one. *)
Definition trade (new_order old_order : limit_order_object) : result (asset * asset) :=
  let match_price := ord_sell_price old_order in
  let new_order_for_sale := amount_for_sale new_order in
  let old_order_for_sale := amount_for_sale old_order in
  v ← asset_mul old_order_for_sale match_price;
  c ← asset_le new_order_for_sale v;
  if (c : bool) then
    new_order_receives ← asset_mul new_order_for_sale match_price;
    Ok (new_order_for_sale, new_order_receives)
  else
    old_order_receives ← asset_mul old_order_for_sale match_price;
    Ok (old_order_receives, old_order_for_sale).

(** The liquidity rewards of [match]: the maker gains the volume, the taker
    loses it. *)
Definition reward_liquidity (new_order old_order : limit_order_object) (old_order_receives new_order_receives : asset)
    : DB unit :=
  now ← head_block_time;
  hf12 ← has_hardfork HARDFORK_0_12;
  hf10 ← has_hardfork HARDFORK_0_10;
  let age := tps_diff now (ord_created old_order) in
  mwhen (negb hf12 &&
    (((MIN_LIQUIDITY_REWARD_PERIOD_SEC <=? age) && negb hf10) ||
     ((MIN_LIQUIDITY_REWARD_PERIOD_SEC_HF10 <=? age) && hf10)))
    (old_seller ← get_account (ord_seller old_order);
     new_seller ← get_account (ord_seller new_order);
     let in_coin := symbol old_order_receives =? SYMBOL_COIN in
     let volume := if in_coin then old_order_receives else new_order_receives in
     adjust_liquidity_reward (acc_id old_seller) volume (negb in_coin);;
     neg ← lift (asset_neg volume);
     adjust_liquidity_reward (acc_id new_seller) neg (negb in_coin)).

(** [database::match], libraries/chain/database.cpp:3152-3210 *)
Definition match_orders (new_key old_key : order_key) : DB Z :=
  new_order ← get limit_orders new_key;
  old_order ← get limit_orders old_key;
  t ← lift (trade new_order old_order);
  let new_order_pays := fst t in
  let new_order_receives := snd t in
  let old_order_pays := new_order_receives in
  let old_order_receives := new_order_pays in
  reward_liquidity new_order old_order old_order_receives new_order_receives;;
  push_virtual_operation (fill_order_
    {| fill_order_current_owner := ord_seller new_order; fill_order_current_orderid := ord_orderid new_order;
       fill_order_current_pays := new_order_pays; fill_order_open_owner := ord_seller old_order;
       fill_order_open_orderid := ord_orderid old_order; fill_order_open_pays := old_order_pays |});;
  r1 ← fill_order new_key new_order_pays new_order_receives;
  r2 ← fill_order old_key old_order_pays old_order_receives;
  mret (Z.lor (Z.b2z r1) (Z.shiftl (Z.b2z r2) 1)).

(** [by_price], libraries/chain/include/node/chain/node_objects.hpp:291-297 *)
Definition by_price (u v : limit_order_object) : comparison :=
  if price_gtb (ord_sell_price u) (ord_sell_price v) then Lt
  else if price_gtb (ord_sell_price v) (ord_sell_price u) then Gt
  else (ord_id u ?= ord_id v).

(** The orders from [lower_bound( max_price.max() )] to [upper_bound( max_price )]. *)
Definition in_range (top max_price : price) (o : limit_order_object) : bool :=
  negb (price_gtb (ord_sell_price o) top) && negb (price_gtb max_price (ord_sell_price o)).
Definition candidates (top max_price : price) (m : gmap order_key limit_order_object)
    : list (order_key * limit_order_object) :=
  merge_sort (row_le (at_most by_price)) (filter (λ p, in_range top max_price p.2 = true) (map_to_list m)).

(** The loop of [apply_order]: it stops as soon as the new order is done. *)
Fixpoint match_loop (new_key : order_key) (l : list (order_key * limit_order_object)) : DB unit :=
  match l with
  | [] => mret tt
  | (old_key, _) :: l =>
      r ← match_orders new_key old_key;
      if Z.testbit r 0 then mret tt else match_loop new_key l
  end.

(** [database::apply_order], libraries/chain/database.cpp:3130-3150 *)
Definition apply_order (new_key : order_key) : DB bool :=
  new_order ← get limit_orders new_key;
  let max_price := price_inv (ord_sell_price new_order) in
  top ← lift (price_max (symbol (base max_price)) (symbol (quote max_price)));
  l ← asks (λ s, candidates top max_price (rows (limit_orders s)));
  match_loop new_key l;;
  o ← find limit_orders new_key;
  mret (match o with Some _ => false | None => true end).

(** ** Evaluators *)

(** The steps the two creation evaluators share. *)
Definition create_order (owner : account_name) (orderid : Z) (amount_to_sell : asset) (get_price : result price)
    (expiration : Z) (fill_or_kill : bool) : DB unit :=
  now ← head_block_time;
  fc_assert (now <? expiration) "Limit order has to expire after head block time.";;
  a ← get_account owner;
  b ← lift (get_balance a (symbol amount_to_sell));
  db_assert (asset_ge b amount_to_sell) "Account does not have sufficient funds for limit order.";;
  neg ← lift (asset_neg amount_to_sell);
  adjust_balance owner neg;;
  sell_price ← lift get_price;
  create limit_orders (owner, orderid) (λ id,
    {| ord_id := id; ord_created := now; ord_expiration := expiration; ord_seller := owner;
       ord_orderid := orderid; ord_for_sale := amount amount_to_sell; ord_sell_price := sell_price |});;
  filled ← apply_order (owner, orderid);
  mwhen fill_or_kill (fc_assert filled "Cancelling order because it was not filled.").

(** [limit_order_create_evaluator::do_apply], libraries/chain/node_evaluator.cpp:1808-1831 *)
Definition limit_order_create_apply (o : limit_order_create_operation) : DB unit :=
  create_order (limit_order_create_owner o) (limit_order_create_orderid o)
    (limit_order_create_amount_to_sell o) (limit_order_create_get_price o)
    (limit_order_create_expiration o) (limit_order_create_fill_or_kill o).

(** [limit_order_create2_evaluator::do_apply], libraries/chain/node_evaluator.cpp:1833-1856 *)
Definition limit_order_create2_apply (o : limit_order_create2_operation) : DB unit :=
  create_order (limit_order_create2_owner o) (limit_order_create2_orderid o)
    (limit_order_create2_amount_to_sell o) (Ok (limit_order_create2_exchange_rate o))
    (limit_order_create2_expiration o) (limit_order_create2_fill_or_kill o).

(** [limit_order_cancel_evaluator::do_apply], libraries/chain/node_evaluator.cpp:1858-1861 *)
Definition limit_order_cancel_apply (o : limit_order_cancel_operation) : DB unit :=
  order ← get_limit_order (limit_order_cancel_owner o) (limit_order_cancel_orderid o);
  cancel_order (ord_seller order, ord_orderid order).

(** [by_expiration], libraries/chain/include/node/chain/node_objects.hpp:290 *)
Definition by_expiration : limit_order_object → limit_order_object → comparison :=
  then_by (by_key ord_expiration Z.compare) (by_key ord_id Z.compare).
#[export] Instance by_expiration_order : IndexOrder by_expiration.
Proof. unfold by_expiration. apply _. Qed.

(** [database::clear_expired_orders], libraries/chain/database.cpp:3310-3320 *)
Definition clear_expired_orders : DB unit :=
  now ← head_block_time;
  drain limit_orders (at_most by_expiration) (λ o, ord_expiration o <? now) (λ k _, cancel_order k).
End market.

(** * What matching does *)

Section matching.
Context {F : Fc} {FL : FcLaws F}.

(** What a fill leaves of the orders: the filled order is gone, or remains with
    less to sell. *)
Definition fill_effect (k : order_key) (filled : bool) (m m' : gmap order_key limit_order_object) : Prop :=
  ∃ o, m !! k = Some o ∧
    if filled then m' = delete k m
    else ∃ o', m' = <[k := o']> m ∧ ord_sell_price o' = ord_sell_price o ∧ ord_id o' = ord_id o.

Lemma cancel_order_effect k s u s' :
  ⟨ cancel_order k, s ⟩ ⇓ ⟨ u, s' ⟩ →
  conserves s s' ∧ rows (limit_orders s') = delete k (rows (limit_orders s)) ∧
  gpo_time (gpo s') = gpo_time (gpo s).
Proof.
  unfold cancel_order, amount_for_sale. intros Hr. run_through Hr.
  split; [settle|]. split; frames; done.
Qed.

Lemma asset_eqb_true a b : asset_eqb a b = true → a = b.
Proof. unfold asset_eqb. destruct a, b; cbn. intros. bool_hyps. by subst. Qed.
Lemma asset_eqb_refl a : asset_eqb a a = true.
Proof. unfold asset_eqb. by rewrite !Z.eqb_refl. Qed.

Lemma of_symbol_eta sym a : of_symbol sym (Asset (amount a) (symbol a)) = of_symbol sym a.
Proof. done. Qed.
Lemma of_symbol_part sym n a :
  of_symbol sym (Asset n (symbol a)) - of_symbol sym (Asset (n - amount a) (symbol a)) = of_symbol sym a.
Proof. unfold of_symbol. cbn. case_match; lia. Qed.

(** A partial fill takes what it pays out of the order. *)
Lemma partial_fill_shifts s k v x pays :
  rows (limit_orders s) !! k = Some v → symbol (amount_for_sale v) = symbol pays →
  x = ord_for_sale v - amount pays →
  shifts (of_symbol SYMBOL_COIN pays) (of_symbol SYMBOL_USD pays) 0 0 s
    (set_row limit_orders k (v <| ord_for_sale := x |>) s).
Proof.
  intros Hk Hs ->. eapply shifts_eq; [by apply shifts_set_order| | |done|done];
    unfold ord_held; fields; unfold amount_for_sale in Hs; cbn in Hs; rewrite Hs; apply of_symbol_part.
Qed.

Lemma fill_order_effect k pays receives s b s' :
  ⟨ fill_order k pays receives, s ⟩ ⇓ ⟨ b, s' ⟩ →
  shifts (of_symbol SYMBOL_COIN pays - of_symbol SYMBOL_COIN receives)
    (of_symbol SYMBOL_USD pays - of_symbol SYMBOL_USD receives) 0 0 s s' ∧
  fill_effect k b (rows (limit_orders s)) (rows (limit_orders s')) ∧
  (∀ o, rows (limit_orders s) !! k = Some o → pays = amount_for_sale o → b = true).
Proof.
  unfold fill_order. intros Hr. run_through Hr; bool_hyps.
  - apply asset_eqb_true in Heqb0 as ->. split; [unfold amount_for_sale in *; settle|]. split; [|done].
    exists v. split; [done|]. by frames.
  - match goal with H : ⟨ cancel_order _, _ ⟩ ⇓ ⟨ _, _ ⟩ |- _ =>
      apply cancel_order_effect in H as (Hc & Ho & _) end.
    pose proof (partial_fill_shifts s0 k v x pays Hrow1 Hguard H).
    split; [add_shifts|split; [|done]]. exists v. split; [done|]. rewrite Ho. frames. by rewrite delete_insert_eq.
  - pose proof (partial_fill_shifts s0 k v x pays Hrow1 Hguard H).
    split; [add_shifts|split].
    + exists v. split; [done|]. eexists. split; [frames; reflexivity|]. by fields.
    + intros o Ho ->. simplify_eq. by rewrite asset_eqb_refl in Heqb0.
Qed.

(** The liquidity rewards touch nothing but their own table. *)
Definition only_liquidity (s s' : database) : Prop := ∃ t, s' = s <| liquidity_rewards := t |>.
#[local] Instance only_liquidity_preorder : PreOrder only_liquidity.
Proof.
  split; [intros s; exists (liquidity_rewards s); by destruct s|].
  intros s1 s2 s3 [t1 ->] [t2 ->]. by exists t2.
Qed.

Lemma adjust_liquidity_reward_only owner v b : preserves only_liquidity (adjust_liquidity_reward owner v b).
Proof.
  unfold adjust_liquidity_reward, head_block_time, has_hardfork. intros s u s' Hr.
  db_inv. destruct (rows (liquidity_rewards s) !! owner); db_inv; by eexists.
Qed.

Lemma reward_liquidity_only n o x y : preserves only_liquidity (reward_liquidity n o x y).
Proof.
  unfold reward_liquidity, head_block_time, has_hardfork, get_account. intros s u s' Hr.
  do 3 (runs_step; db_step). runs_step. case_match; [|by subst].
  do 2 (runs_step; db_step). do 4 runs_step.
  etrans; [by eapply adjust_liquidity_reward_only|by eapply adjust_liquidity_reward_only].
Qed.

Lemma only_liquidity_books s s' : only_liquidity s s' → conserves s s' ∧ limit_orders s' = limit_orders s.
Proof. intros [t ->]. split; [off_books|by fields]. Qed.

(** One of the two orders always pays all it has. *)
Lemma trade_fills n o pays receives :
  trade n o = Ok (pays, receives) → pays = amount_for_sale n ∨ receives = amount_for_sale o.
Proof.
  unfold trade. intros Ht. asset_inv. destruct x0; asset_inv; [by left|by right].
Qed.

Lemma match_orders_effect nk ok s r s' :
  nk ≠ ok → ⟨ match_orders nk ok, s ⟩ ⇓ ⟨ r, s' ⟩ →
  conserves s s' ∧
  ∃ b1 b2 m, r = Z.lor (Z.b2z b1) (Z.shiftl (Z.b2z b2) 1) ∧ b1 || b2 = true ∧
    fill_effect nk b1 (rows (limit_orders s)) m ∧ fill_effect ok b2 m (rows (limit_orders s')).
Proof.
  intros Hne. unfold match_orders. intros Hr. do 3 (runs_step; db_step). destruct v1 as [pays receives].
  cbn [fst snd] in Hr. repeat (runs_step; try db_step).
  apply reward_liquidity_only, only_liquidity_books in Hr0 as [Hc1 Ho1].
  pose proof (fr_limit_orders _ _ (frame_push _ _ _ _ Hr1)) as Ho2.
  apply push_virtual_operation_shifts in Hr1 as (Hc2 & _ & _).
  apply fill_order_effect in Hr2 as (Hc3 & He1 & Hf1), Hr3 as (Hc4 & He2 & Hf2).
  rewrite Ho2, Ho1 in *. split; [add_shifts|]. exists v3, v4, (rows (limit_orders s2)).
  split; [done|]. split; [|done]. apply orb_true_iff. apply trade_fills in Hval as [Hp|Hp].
  - left. by eapply Hf1.
  - right. eapply (Hf2 v0); [|done]. destruct He1 as (w & Hw & Hm).
    destruct v3; [rewrite Hm; by rewrite lookup_delete_ne|].
    destruct Hm as (w' & -> & _). by rewrite lookup_insert_ne.
Qed.

Lemma result_bits b1 b2 : Z.testbit (Z.lor (Z.b2z b1) (Z.shiftl (Z.b2z b2) 1)) 0 = b1.
Proof. by destruct b1, b2. Qed.

Lemma fill_effect_other k b m m' k' : fill_effect k b m m' → k' ≠ k → m' !! k' = m !! k'.
Proof.
  intros (o & Ho & Hm) Hk. destruct b; [subst; by rewrite lookup_delete_ne|].
  destruct Hm as (o' & -> & _). by rewrite lookup_insert_ne.
Qed.

(** What is left of the order [nk], and of the orders it was matched with. *)
Lemma match_loop_effect nk l : ∀ s u s' o,
  nk ∉ l.*1 → rows (limit_orders s) !! nk = Some o → ⟨ match_loop nk l, s ⟩ ⇓ ⟨ u, s' ⟩ →
  conserves s s' ∧
  (∀ k, k ≠ nk → k ∉ l.*1 → rows (limit_orders s') !! k = rows (limit_orders s) !! k) ∧
  (rows (limit_orders s') !! nk = None ∨
   ∃ o', rows (limit_orders s') !! nk = Some o' ∧ ord_sell_price o' = ord_sell_price o ∧
     ∀ k, k ∈ l.*1 → rows (limit_orders s') !! k = None).
Proof.
  induction l as [|[k0 o0] l IH]; intros s u s' o Hnk Ho Hr; cbn [match_loop] in Hr.
  { runs_inv. split; [done|]. split; [done|]. right. exists o. split; [done|]. split; [done|]. set_solver. }
  cbn in Hnk. apply not_elem_of_cons in Hnk as [Hne Hnl]. runs_step.
  apply match_orders_effect in Hr0 as (Hc & b1 & b2 & m & -> & Hb & He1 & He2); [|done].
  rewrite result_bits in Hr. pose proof (fill_effect_other _ _ _ _ nk He2 Hne) as Hnk2.
  destruct b1.
  - runs_inv. destruct He1 as (w & _ & ->). split; [done|]. split.
    + intros k Hk Hkl. cbn in Hkl. apply not_elem_of_cons in Hkl as [? _].
      rewrite (fill_effect_other _ _ _ _ _ He2) by done. by rewrite lookup_delete_ne.
    + left. rewrite Hnk2. apply lookup_delete_eq.
  - cbn in Hb. subst b2. destruct He1 as (w & Hw & w' & -> & Hpr & _). rewrite Ho in Hw. injection Hw as <-.
    destruct He2 as (w2 & _ & He2). rewrite lookup_insert_eq in Hnk2.
    apply (IH _ _ _ w') in Hr as (Hc' & Hother & Hend); [|done..].
    split; [by etrans|]. split.
    + intros k Hk Hkl. cbn in Hkl. apply not_elem_of_cons in Hkl as [? ?]. rewrite Hother by done.
      by rewrite He2, lookup_delete_ne, lookup_insert_ne.
    + destruct Hend as [?|(o' & ? & ? & Hall)]; [by left|]. right. exists o'. split; [done|].
      split; [congruence|]. cbn. intros k [->|Hk]%elem_of_cons; [|by apply Hall].
      destruct (decide (k0 ∈ l.*1)); [by apply Hall|]. rewrite Hother by done. rewrite He2. apply lookup_delete_eq.
Qed.

Lemma candidates_in top mp m k o : (k, o) ∈ candidates top mp m ↔ m !! k = Some o ∧ in_range top mp o = true.
Proof.
  unfold candidates. rewrite (merge_sort_Permutation (row_le (at_most by_price))), list_elem_of_filter.
  cbn. rewrite elem_of_map_to_list. naive_solver.
Qed.

Lemma price_leb_base p q : price_leb p q = true → symbol (base p) ≤ symbol (base q).
Proof.
  unfold price_leb, price_eqb, price_ltb. intros [H|H]%orb_true_iff; bool_hyps; [lia|].
  destruct (Z.ltb_spec (symbol (base p)) (symbol (base q))); [lia|].
  destruct (Z.ltb_spec (symbol (base q)) (symbol (base p))); [done|lia].
Qed.

(** An order whose price is in the range sells what the new order buys. *)
Lemma in_range_symbols top mp o :
  symbol (base top) = symbol (base mp) → in_range top mp o = true →
  symbol (base (ord_sell_price o)) = symbol (base mp).
Proof.
  unfold in_range, price_gtb. intros Hs Hr. bool_hyps. apply price_leb_base in H, H0. lia.
Qed.

Lemma price_max_ok b q p : price_max b q = Ok p → p = Price (Asset MAX_SCORE_SUPPLY b) (Asset 1 q) ∧ b ≠ q.
Proof.
  unfold price_max, asset_div. intros Hp. asset_inv. split; [done|]. intros ->.
  unfold symbol_name in *. cbn [symbol] in *.
  match goal with H : ?r = Ok x, H' : ?r = Ok x0 |- _ => rewrite H in H'; injection H' as <- end.
  match goal with H : negb (bool_decide (x = x)) = true |- _ => rewrite bool_decide_eq_true_2 in H by done end.
  done.
Qed.

(** The price range a new order can be matched in: the prices [match] takes. *)
Definition crosses (o other : limit_order_object) : Prop :=
  let mp := price_inv (ord_sell_price o) in
  in_range (Price (Asset MAX_SCORE_SUPPLY (symbol (base mp))) (Asset 1 (symbol (quote mp)))) mp other = true.

Lemma apply_order_effect nk s b s' o :
  rows (limit_orders s) !! nk = Some o → ⟨ apply_order nk, s ⟩ ⇓ ⟨ b, s' ⟩ →
  conserves s s' ∧
  (∀ k o', k ≠ nk → rows (limit_orders s) !! k = Some o' → ¬ crosses o o' →
     rows (limit_orders s') !! k = Some o') ∧
  (if b then rows (limit_orders s') !! nk = None
   else ∃ o', rows (limit_orders s') !! nk = Some o' ∧ ord_sell_price o' = ord_sell_price o ∧
     ∀ k c, rows (limit_orders s') !! k = Some c → ¬ crosses o c).
Proof.
  unfold apply_order. intros Ho Hr. runs_step. db_step. rewrite Ho in Hrow. injection Hrow as <-.
  runs_step. db_step. apply price_max_ok in Hval as [-> Hne]. cbn [price_inv base quote symbol] in *.
  runs_step. db_step. runs_step. runs_step. db_step.
  set (mp := price_inv (ord_sell_price o)) in *.
  set (top := Price _ _) in *. set (l := candidates top mp (rows (limit_orders s))) in *.
  assert (Hcand : ∀ k, k ∈ l.*1 ↔ ∃ c, rows (limit_orders s) !! k = Some c ∧ crosses o c).
  { intros k. rewrite list_elem_of_fmap. split.
    - intros ([k' c] & -> & Hin). apply candidates_in in Hin as [? ?]. by exists c.
    - intros (c & Hk & Hc). exists (k, c). split; [done|]. by apply candidates_in. }
  assert (Hnk : nk ∉ l.*1).
  { rewrite Hcand. intros (c & Hc & Hx). rewrite Ho in Hc. injection Hc as <-.
    apply in_range_symbols in Hx; [|done]. cbn in Hx. congruence. }
  apply (match_loop_effect nk l _ _ _ o) in Hr0 as (Hc & Hother & Hend); [|done..].
  assert (Hkeep : ∀ k o', k ≠ nk → rows (limit_orders s) !! k = Some o' → ¬ crosses o o' →
    rows (limit_orders s0) !! k = Some o').
  { intros k o' Hk Hko Hx. rewrite Hother; [done|done|]. rewrite Hcand. intros (c & Hkc & Hcc).
    rewrite Hko in Hkc. injection Hkc as <-. done. }
  apply runs_ret in Hr as [<- <-]. split; [done|]. split; [done|].
  destruct Hend as [->|(o' & Ho' & Hp & Hall)]; [done|]. rewrite Ho'. exists o'. split; [done|]. split; [done|].
  intros k c Hk Hx. destruct (decide (k = nk)) as [->|Hkn].
  - rewrite Ho' in Hk. injection Hk as <-. apply in_range_symbols in Hx; [|done]. rewrite Hp in Hx. cbn in Hx. congruence.
  - destruct (decide (k ∈ l.*1)) as [Hin|Hin]; [rewrite (Hall k Hin) in Hk; done|].
    rewrite Hother in Hk by done. apply Hin, Hcand. eauto.
Qed.

Lemma create_order_conserves owner orderid sell p expiration fok s u s' :
  (∀ sell_price, p = Ok sell_price → symbol (base sell_price) = symbol sell) →
  ⟨ create_order owner orderid sell p expiration fok, s ⟩ ⇓ ⟨ u, s' ⟩ → conserves s s'.
Proof.
  intros Hp Hr. unfold create_order in Hr. run_through Hr.
  all: pose proof (Hp _ ltac:(first [eassumption|reflexivity])) as Hs.
  all: match goal with H : ⟨ apply_order ?k, ?t ⟩ ⇓ ⟨ _, _ ⟩ |- _ =>
    eapply apply_order_effect in H as (H & _); [|db_fields; apply lookup_insert_eq] end.
  all: row_shifts; holdings; rewrite Hs, !of_symbol_eta in *; opposites; add_shifts.
Qed.

Lemma limit_order_create_conserves o s u s' :
  ⟨ limit_order_create_apply o, s ⟩ ⇓ ⟨ u, s' ⟩ → conserves s s'.
Proof.
  apply create_order_conserves. unfold limit_order_create_get_price, asset_div. intros p Hp. asset_inv. done.
Qed.

Lemma limit_order_create2_conserves o s u s' :
  limit_order_create2_validate o = Ok tt →
  ⟨ limit_order_create2_apply o, s ⟩ ⇓ ⟨ u, s' ⟩ → conserves s s'.
Proof.
  intros Hv. apply create_order_conserves. intros p [= <-].
  unfold limit_order_create2_validate in Hv. asset_inv. guards. done.
Qed.

Lemma limit_order_cancel_conserves o s u s' :
  ⟨ limit_order_cancel_apply o, s ⟩ ⇓ ⟨ u, s' ⟩ → conserves s s'.
Proof.
  unfold limit_order_cancel_apply. intros Hr. repeat autounfold with accessors in Hr.
  do 4 (try db_step). by apply cancel_order_effect in Hr as (? & _).
Qed.

(** ** Prices *)

(** The two sides of the market. *)
Definition market_pair (b q : Z) : Prop :=
  (b = SYMBOL_COIN ∧ q = SYMBOL_USD) ∨ (b = SYMBOL_USD ∧ q = SYMBOL_COIN).

(** What holds of every order in the book: it sells a positive amount at a valid
    price of the market, worth at least one unit and at most what fits. *)
Record order_ok (o : limit_order_object) : Prop := {
  ook_price : valid_price (ord_sell_price o);
  ook_pair : market_pair (symbol (base (ord_sell_price o))) (symbol (quote (ord_sell_price o)));
  ook_sale : 0 < ord_for_sale o ≤ i64_max;
  ook_worth : 1 ≤ ord_for_sale o * amount (quote (ord_sell_price o)) / amount (base (ord_sell_price o)) ≤ i64_max;
}.

Lemma symbol_names b q x y : market_pair b q →
  ∃ nb nq, symbol_name (Asset x b) = Ok nb ∧ symbol_name (Asset y q) = Ok nq ∧ nb ≠ nq.
Proof. intros [[-> ->]|[-> ->]]; do 2 eexists; (split; [reflexivity|split; [reflexivity|done]]). Qed.

Lemma symbol_name_asset a : symbol_name a = symbol_name (Asset 0 (symbol a)).
Proof. done. Qed.

(** Multiplying by a price of the market, in both directions. *)
Lemma market_mul_base p x :
  valid_price p → market_pair (symbol (base p)) (symbol (quote p)) → 0 ≤ x ≤ i64_max →
  asset_mul (Asset x (symbol (base p))) p = conversion_result (x * amount (quote p) / amount (base p)) (symbol (quote p)).
Proof.
  intros Hp Hm Hx. destruct (symbol_names _ _ 0 0 Hm) as (nb & nq & Hb & Hq & _).
  by rewrite (asset_mul_base _ _ nb).
Qed.
Lemma market_mul_quote p x :
  valid_price p → market_pair (symbol (base p)) (symbol (quote p)) → 0 ≤ x ≤ i64_max →
  asset_mul (Asset x (symbol (quote p))) p = conversion_result (x * amount (base p) / amount (quote p)) (symbol (base p)).
Proof.
  intros Hp Hm Hx. destruct (symbol_names _ _ 0 0 Hm) as (nb & nq & Hb & Hq & Hne).
  by rewrite (asset_mul_quote _ _ nq nb).
Qed.

Lemma conversion_result_small x sym : x ≤ i64_max → conversion_result x sym = Ok (Asset x sym).
Proof. intros Hx. unfold conversion_result, i64_max in *. destruct (Z.ltb_spec x (2 ^ 63)); [done|lia]. Qed.

Lemma amount_to_receive_ok o :
  order_ok o → amount_to_receive o = Ok (Asset (ord_for_sale o * amount (quote (ord_sell_price o)) /
    amount (base (ord_sell_price o))) (symbol (quote (ord_sell_price o)))).
Proof.
  intros [Hp Hm Hs Hw]. unfold amount_to_receive, amount_for_sale. rewrite market_mul_base by (done || lia).
  apply conversion_result_small. lia.
Qed.

(** Two orders of opposite sides. *)
Definition opposite (n o : limit_order_object) : Prop :=
  symbol (base (ord_sell_price o)) = symbol (quote (ord_sell_price n)) ∧
  symbol (quote (ord_sell_price o)) = symbol (base (ord_sell_price n)).

Lemma asset_le_same x z y : asset_le (Asset x y) (Asset z y) = Ok (x <=? z).
Proof.
  unfold asset_le, asset_eqb, asset_lt. cbn. rewrite Z.eqb_refl, ?andb_true_r. cbn.
  destruct (Z.eqb_spec x z) as [->|]; [by rewrite Z.leb_refl|]. f_equal.
  destruct (Z.leb_spec x z), (Z.ltb_spec x z); lia || done.
Qed.

(** The arithmetic of a trade: one side pays all it has, the other the value of
    that at the old order's price, rounded down. *)
Lemma trade_exact n o :
  order_ok n → order_ok o → opposite n o →
  let B := amount (base (ord_sell_price o)) in let Q := amount (quote (ord_sell_price o)) in
  let sell := symbol (base (ord_sell_price n)) in let buy := symbol (base (ord_sell_price o)) in
  trade n o =
    if ord_for_sale n <=? ord_for_sale o * Q / B then
      Ok (Asset (ord_for_sale n) sell, Asset (ord_for_sale n * B / Q) buy)
    else Ok (Asset (ord_for_sale o * Q / B) sell, Asset (ord_for_sale o) buy).
Proof.
  intros Hn Ho [Eb Eq] B Q sell buy. pose proof (ook_price _ Ho) as Hp. destruct (Hp) as [HB HQ].
  pose proof (ook_sale _ Ho). pose proof (ook_sale _ Hn). pose proof (ook_worth _ Ho) as Hw.
  pose proof (amount_to_receive_ok o Ho) as Hv. unfold amount_to_receive in Hv.
  unfold trade. rewrite Hv. cbn [mbind result_bind]. fold B Q in Hw |- *. rewrite Eq. fold sell.
  rewrite (asset_le_same (ord_for_sale n) _ sell : asset_le (amount_for_sale n) _ = _). cbn [mbind result_bind].
  destruct (Z.leb_spec (ord_for_sale n) (ord_for_sale o * Q / B)) as [Hle|Hlt]; [|done].
  unfold amount_for_sale. rewrite <- Eq. rewrite market_mul_quote by (done || apply ook_pair || lia; done).
  fold B Q. rewrite conversion_result_small; [by rewrite Eq|].
  transitivity (ord_for_sale o); [|lia]. apply Z.div_le_upper_bound; [lia|].
  pose proof (Z.mul_div_le (ord_for_sale o * Q) B). fold B in HB. fold Q in HQ. nia.
Qed.

(** Rounded-down conversions at the larger of two rates give more. *)
Lemma rate_mono x a b c d : 0 ≤ x → 0 < b → 0 < d → a * d ≤ b * c → x * a / b ≤ x * c / d.
Proof.
  intros Hx Hb Hd Hr. apply Z.div_le_lower_bound; [done|].
  pose proof (Z.mul_div_le (x * a) b Hb) as H. set (r := x * a / b) in *.
  apply (Z.mul_le_mono_pos_r _ _ b); [done|]. transitivity (x * a * d); [nia|]. nia.
Qed.

(** Converting a rounded-down value back does not exceed the original. *)
Lemma convert_back_le x y a b : 0 < a → 0 < b → 0 ≤ x → x ≤ y * a / b → x * b / a ≤ y.
Proof.
  intros Ha Hb Hx Hxy. apply Z.div_le_upper_bound; [done|].
  pose proof (Z.mul_div_le (y * a) b Hb). nia.
Qed.

Lemma crosses_rate n o :
  order_ok n → order_ok o → opposite n o → crosses n o →
  amount (quote (ord_sell_price n)) * amount (quote (ord_sell_price o)) ≤
    amount (base (ord_sell_price n)) * amount (base (ord_sell_price o)).
Proof.
  intros Hn Ho [Eb Eq] Hx. pose proof (ook_price _ Ho) as Hp. destruct (ook_price _ Hn) as [Hnb Hnq].
  unfold crosses, in_range, price_gtb in Hx. apply andb_true_iff in Hx as [_ Hx].
  rewrite negb_involutive in Hx. apply orb_true_iff in Hx.
  assert (Hi : valid_price (price_inv (ord_sell_price n))) by done.
  rewrite price_eqb_iff, price_ltb_iff in Hx by done. cbn [price_inv base quote] in Hx.
  destruct Hx as [(_ & _ & ?)|[?|[[? ?]|(_ & _ & ?)]]]; lia.
Qed.

Lemma trade_bounds n o pays receives :
  order_ok n → order_ok o → opposite n o → crosses n o →
  trade n o = Ok (pays, receives) →
  symbol pays = symbol (base (ord_sell_price n)) ∧ symbol receives = symbol (base (ord_sell_price o)) ∧
  0 ≤ amount pays ≤ ord_for_sale n ∧ 0 ≤ amount receives ≤ ord_for_sale o ∧
  amount pays * amount (quote (ord_sell_price n)) / amount (base (ord_sell_price n)) ≤ amount receives ∧
  amount receives * amount (quote (ord_sell_price o)) / amount (base (ord_sell_price o)) ≤ amount pays ∧
  (pays = amount_for_sale n ∨ receives = amount_for_sale o).
Proof.
  intros Hn Ho Hop Hx Ht. pose proof (trade_fills _ _ _ _ Ht) as Hfill.
  pose proof (crosses_rate n o Hn Ho Hop Hx) as Hrate. rewrite trade_exact in Ht by done.
  destruct (ook_price _ Hn) as [Hnb Hnq], (ook_price _ Ho) as [HB HQ].
  pose proof (ook_sale _ Hn). pose proof (ook_sale _ Ho). pose proof (ook_worth _ Ho).
  assert (∀ x, 0 ≤ x → x * amount (quote (ord_sell_price n)) / amount (base (ord_sell_price n)) ≤
    x * amount (base (ord_sell_price o)) / amount (quote (ord_sell_price o))) as Hmono.
  { intros x Hx0. apply rate_mono; lia. }
  destruct (Z.leb_spec (ord_for_sale n) (ord_for_sale o * amount (quote (ord_sell_price o)) /
    amount (base (ord_sell_price o)))) as [Hle|Hlt]; injection Ht as <- <-; cbn [symbol amount].
  - split_and!; try done; try lia.
    + apply Z.div_pos; nia.
    + apply convert_back_le; lia.
    + apply Hmono. lia.
    + apply convert_back_le; [lia|lia|apply Z.div_pos; nia|lia].
  - split_and!; try done; try lia.
    etrans; [apply Hmono; lia|]. apply convert_back_le; lia.
Qed.

(** ** The book *)

Definition book_ok (m : gmap order_key limit_order_object) : Prop := map_Forall (λ _, order_ok) m.

(** What is left of an order that still asks for something is well formed. *)
Lemma partial_order_ok o x r :
  order_ok o → 0 < x ≤ ord_for_sale o → amount_to_receive (o <| ord_for_sale := x |>) = Ok r → amount r ≠ 0 →
  order_ok (o <| ord_for_sale := x |>).
Proof.
  intros [Hp Hm Hs Hw] Hx Hr Hne. destruct (Hp) as [HB HQ].
  set (w := x * amount (quote (ord_sell_price o)) / amount (base (ord_sell_price o))).
  assert (w ≤ i64_max) as Hmax by (etrans; [apply Z.div_le_mono; [lia|]|apply Hw]; nia).
  assert (0 ≤ w) as Hmin by (apply Z.div_pos; nia).
  unfold amount_to_receive, amount_for_sale in Hr. fields.
  rewrite market_mul_base, conversion_result_small in Hr by (done || lia). injection Hr as <-. cbn in Hne. fold w in Hne.
  split; fields; try done; [lia|]. fold w. lia.
Qed.

Lemma fill_order_keeps k pays receives s b s' o :
  book_ok (rows (limit_orders s)) → rows (limit_orders s) !! k = Some o →
  0 ≤ amount pays ≤ ord_for_sale o →
  ⟨ fill_order k pays receives, s ⟩ ⇓ ⟨ b, s' ⟩ → book_ok (rows (limit_orders s')).
Proof.
  intros Hok Hk Hpays Hr. unfold fill_order in Hr. run_through Hr; bool_hyps; simplify_eq.
  - frames. by apply map_Forall_delete.
  - match goal with H : ⟨ cancel_order _, _ ⟩ ⇓ ⟨ _, _ ⟩ |- _ =>
      apply cancel_order_effect in H as (_ & -> & _) end.
    frames. rewrite delete_insert_eq. by apply map_Forall_delete.
  - frames. apply map_Forall_insert_2; [|done]. pose proof (Hok _ _ Hk) as Hoo.
    assert (amount pays ≠ ord_for_sale o) as Hne.
    { intros E. assert (pays = amount_for_sale o) as ->; [|by rewrite asset_eqb_refl in Heqb0].
      unfold amount_for_sale in *; destruct pays; cbn in *; congruence. }
    eapply partial_order_ok; [done|lia|done|done].
Qed.

(** One match keeps the book well formed. *)
Lemma match_orders_keeps nk ok s r s' n o :
  nk ≠ ok → book_ok (rows (limit_orders s)) →
  rows (limit_orders s) !! nk = Some n → rows (limit_orders s) !! ok = Some o →
  opposite n o → crosses n o →
  ⟨ match_orders nk ok, s ⟩ ⇓ ⟨ r, s' ⟩ → book_ok (rows (limit_orders s')).
Proof.
  intros Hne Hok Hn Ho Hop Hx Hr. unfold match_orders in Hr. do 3 (runs_step; db_step).
  destruct v1 as [pays receives]. cbn [fst snd] in Hr. repeat (runs_step; try db_step). simplify_eq.
  apply reward_liquidity_only, only_liquidity_books in Hr0 as [_ Ho1].
  pose proof (fr_limit_orders _ _ (frame_push _ _ _ _ Hr1)) as Ho2.
  apply trade_bounds in Hval as (_ & _ & Hp & Hrc & _); try done; [|by eapply Hok..].
  pose proof Hr2 as (_ & He & _)%fill_order_effect.
  eapply fill_order_keeps in Hr2; [|by rewrite Ho2, Ho1|rewrite Ho2, Ho1; exact Hn|done].
  eapply fill_order_keeps in Hr3; [exact Hr3|done| |exact Hrc].
  rewrite (fill_effect_other _ _ _ _ _ He), Ho2, Ho1 by done. done.
Qed.

Lemma match_loop_keeps nk l : ∀ s u s' n,
  NoDup l.*1 → nk ∉ l.*1 → book_ok (rows (limit_orders s)) → rows (limit_orders s) !! nk = Some n →
  (∀ k o, (k, o) ∈ l → rows (limit_orders s) !! k = Some o ∧ opposite n o ∧ crosses n o) →
  ⟨ match_loop nk l, s ⟩ ⇓ ⟨ u, s' ⟩ → book_ok (rows (limit_orders s')).
Proof.
  induction l as [|[k0 o0] l IH]; intros s u s' n Hnd Hnk Hok Hn Hl Hr; cbn [match_loop] in Hr; [by runs_inv|].
  cbn in Hnk, Hnd. apply not_elem_of_cons in Hnk as [Hne Hnl]. apply NoDup_cons in Hnd as [Hk0 Hnd]. runs_step.
  destruct (Hl k0 o0) as (Ho0 & Hop & Hx); [set_solver|].
  pose proof Hr0 as (_ & b1 & b2 & m & -> & Hb & He1 & He2)%match_orders_effect; [|done].
  eapply match_orders_keeps in Hr0; [|done..]. rewrite result_bits in Hr. destruct b1; [by runs_inv|].
  destruct He1 as (w & Hw & w' & -> & Hpr & _). rewrite Hn in Hw. injection Hw as <-.
  eapply (IH _ _ _ w'); [done|done|done| | |exact Hr].
  - rewrite (fill_effect_other _ _ _ _ _ He2) by done. by rewrite lookup_insert_eq.
  - intros k o Hin. destruct (Hl k o) as (Hk & Hop' & Hx'); [set_solver|].
    assert (k ∈ l.*1) by (apply list_elem_of_fmap; by exists (k, o)).
    assert (k ≠ nk) by congruence. assert (k ≠ k0) by congruence.
    rewrite (fill_effect_other _ _ _ _ _ He2), lookup_insert_ne by done.
    split; [done|]. unfold opposite, crosses in *. by rewrite Hpr.
Qed.

Lemma price_leb_quote p q :
  symbol (base p) = symbol (base q) → price_leb p q = true → symbol (quote p) ≤ symbol (quote q).
Proof.
  unfold price_leb, price_eqb, price_ltb. intros Hs [H|H]%orb_true_iff; bool_hyps; [lia|].
  rewrite Hs, Z.ltb_irrefl in H. destruct (Z.ltb_spec (symbol (quote p)) (symbol (quote q))); [lia|].
  destruct (Z.ltb_spec (symbol (quote q)) (symbol (quote p))); [done|lia].
Qed.

Lemma crosses_opposite n o : crosses n o → opposite n o.
Proof.
  intros Hx. assert (symbol (base (ord_sell_price o)) = symbol (quote (ord_sell_price n))) as Hb
    by (by eapply in_range_symbols in Hx).
  split; [done|].
  unfold crosses, in_range, price_gtb in Hx. bool_hyps.
  apply price_leb_quote in H; [|done]. apply price_leb_quote in H0; [|done]. cbn in *. lia.
Qed.

Lemma apply_order_keeps nk s b s' n :
  book_ok (rows (limit_orders s)) → rows (limit_orders s) !! nk = Some n →
  ⟨ apply_order nk, s ⟩ ⇓ ⟨ b, s' ⟩ → book_ok (rows (limit_orders s')).
Proof.
  intros Hok Hn Hr. unfold apply_order in Hr. runs_step. db_step. simplify_eq.
  runs_step. db_step. apply price_max_ok in Hval as [-> Hne].
  do 2 (runs_step; try db_step). apply runs_find in Hr1 as [_ ->]. apply runs_ret in Hr as [_ <-].
  eapply (match_loop_keeps nk) in Hr0; [exact Hr0| | |done|exact Hn|].
  - unfold candidates. rewrite (merge_sort_Permutation (row_le (at_most by_price))).
    eapply sublist_NoDup; [apply (NoDup_fst_map_to_list (rows (limit_orders s)))|]. apply fmap_sublist, sublist_filter.
  - intros ([k o] & -> & [Hk Hx]%candidates_in)%list_elem_of_fmap. cbn in Hn. simplify_eq.
    apply in_range_symbols in Hx; [|done]. cbn in *. congruence.
  - intros k o [Hk Hx]%candidates_in. split; [done|]. split; [|done]. by apply crosses_opposite.
Qed.

(** A product by a price that comes out positive had a positive factor. *)
Lemma asset_mul_positive a p r :
  valid_price p → i64_min ≤ amount a ≤ i64_max → market_pair (symbol (base p)) (symbol (quote p)) →
  symbol a = symbol (base p) → asset_mul a p = Ok r → 0 < amount r →
  0 < amount a ∧ 1 ≤ amount a * amount (quote p) / amount (base p) ≤ i64_max.
Proof.
  intros Hp Ha Hm Hs Hr Hpos. destruct (Hp) as [HB HQ]. destruct a as [x y]. cbn in Hs, Ha. subst y. cbn [amount].
  destruct (Z.le_gt_cases 0 x).
  - rewrite market_mul_base in Hr by (done || lia).
    apply conversion_result_ok in Hr as (E & ? & _); [|apply Z.div_pos; nia|lia].
    set (w := x * amount (quote p) / amount (base p)) in *. split; [|lia].
    destruct (decide (x = 0)) as [->|]; [|lia]. unfold w in E. rewrite Z.mul_0_l, Z.div_0_l in E by lia. lia.
  - exfalso. destruct (symbol_names _ _ 0 0 Hm) as (nb & nq & Hb & _ & _).
    assert (symbol_name (Asset x (symbol (base p))) = Ok nb) as E1 by exact Hb.
    assert (symbol_name (base p) = Ok nb) as E2 by exact Hb.
    unfold asset_mul in Hr. rewrite E1, E2 in Hr. cbn [mbind result_bind] in Hr.
    rewrite bool_decide_eq_true_2 in Hr by done. asset_inv.
    match goal with H : (u128_hi _ =? 0) = true |- _ => rename H into Hhi end. apply Z.eqb_eq in Hhi.
    rewrite u128_hi_law in Hhi. apply Z.div_small_iff in Hhi; [|lia].
    unfold mul_div, wide_mul, i64_min, i64_max in *. cbn [amount] in Hhi.
    set (q := amount (quote p)) in *. set (b := amount (base p)) in *.
    assert (u128_mul (u128 x) (u128 q) = x * q + 2 ^ 128) as E.
    { rewrite u128_mul_law, !u128_law, <- Z.mul_mod by lia.
      symmetry. apply (Z.mod_unique _ _ (-1)); nia. }
    rewrite E, u128_law, (Z.mod_small b), u128_div_law in Hhi by lia.
    assert (2 ^ 64 ≤ (x * q + 2 ^ 128) / b); [|lia]. apply Z.div_le_lower_bound; nia.
Qed.

Lemma create_order_keeps owner orderid sell p expiration fok s u s' :
  (∀ id created sell_price, p = Ok sell_price →
     order_ok {| ord_id := id; ord_created := created; ord_expiration := expiration; ord_seller := owner;
       ord_orderid := orderid; ord_for_sale := amount sell; ord_sell_price := sell_price |}) →
  book_ok (rows (limit_orders s)) →
  ⟨ create_order owner orderid sell p expiration fok, s ⟩ ⇓ ⟨ u, s' ⟩ →
  book_ok (rows (limit_orders s')).
Proof.
  intros Hnew Hok Hr. unfold create_order in Hr. run_through Hr.
  all: match goal with H : ⟨ apply_order ?k, ?t ⟩ ⇓ ⟨ _, _ ⟩ |- _ =>
    eapply apply_order_keeps in H; [exact H| |db_fields; apply lookup_insert_eq] end.
  all: frames; apply map_Forall_insert_2; [by eapply Hnew|done].
Qed.

(** An asset as the 64-bit amount of an operation. *)
Definition wf_asset (a : asset) : Prop := i64_min ≤ amount a ≤ i64_max.

Lemma tme_tsd_pair a b : tme_tsd a b = true → market_pair (symbol a) (symbol b).
Proof.
  unfold tme_tsd, is_asset_type. intros [H|H]%orb_true_iff; bool_hyps; [left|right]; done.
Qed.

Lemma limit_order_create_keeps o s u s' :
  wf_asset (limit_order_create_amount_to_sell o) → wf_asset (limit_order_create_min_to_receive o) →
  limit_order_create_validate o = Ok tt → book_ok (rows (limit_orders s)) →
  ⟨ limit_order_create_apply o, s ⟩ ⇓ ⟨ u, s' ⟩ → book_ok (rows (limit_orders s')).
Proof.
  intros Hs Hm Hv. apply create_order_keeps. intros id created p Hp.
  unfold limit_order_create_validate in Hv. unfold limit_order_create_get_price in Hp.
  asset_inv. rewrite Hp in *. unfold asset_div in Hp. asset_inv. unfold price_validate in Hv. asset_inv.
  guards. cbn [base quote] in *. unfold wf_asset in *.
  split; cbn [ord_sell_price ord_for_sale base quote]; unfold valid_price; cbn [base quote].
  - lia.
  - by apply tme_tsd_pair.
  - lia.
  - rewrite Z.mul_comm, Z.div_mul by lia. lia.
Qed.

Lemma limit_order_create2_keeps o s u s' :
  wf_asset (limit_order_create2_amount_to_sell o) → wf_asset (base (limit_order_create2_exchange_rate o)) →
  wf_asset (quote (limit_order_create2_exchange_rate o)) →
  limit_order_create2_validate o = Ok tt → book_ok (rows (limit_orders s)) →
  ⟨ limit_order_create2_apply o, s ⟩ ⇓ ⟨ u, s' ⟩ → book_ok (rows (limit_orders s')).
Proof.
  intros Hs Hb Hq Hv. apply create_order_keeps. intros id created p [= <-].
  unfold limit_order_create2_validate, price_validate in Hv. asset_inv. guards.
  set (p := limit_order_create2_exchange_rate o) in *. set (a := limit_order_create2_amount_to_sell o) in *.
  unfold wf_asset in *. assert (valid_price p) as Hp by (unfold valid_price; lia).
  match goal with H : tme_tsd _ _ = true |- _ => apply tme_tsd_pair in H as Hm end.
  match goal with H : symbol a = symbol (base p) |- _ => rewrite H in Hm end.
  match goal with H : asset_mul a p = Ok _ |- _ => apply asset_mul_positive in H as [? ?]; [|done..] end.
  split; cbn [ord_sell_price ord_for_sale]; (done || lia).
Qed.

(** A trade between well-formed orders of opposite sides is fair.  Neither order
    pays more than it has, each side receives at least what its own price asks
    for what it pays, rounded down, and one side pays all it has. *)
Theorem trade_fair n o pays receives :
  order_ok n → order_ok o → opposite n o → crosses n o →
  trade n o = Ok (pays, receives) →
  symbol pays = symbol (base (ord_sell_price n)) ∧ symbol receives = symbol (base (ord_sell_price o)) ∧
  0 ≤ amount pays ≤ ord_for_sale n ∧ 0 ≤ amount receives ≤ ord_for_sale o ∧
  amount pays * amount (quote (ord_sell_price n)) / amount (base (ord_sell_price n)) ≤ amount receives ∧
  amount receives * amount (quote (ord_sell_price o)) / amount (base (ord_sell_price o)) ≤ amount pays ∧
  (pays = amount_for_sale n ∨ receives = amount_for_sale o).
Proof. apply trade_bounds. Qed.

(** C35. The book stays well formed.  Every order that either creation operation
    puts in the book after validation, and every order left by the matching it
    starts, sells a positive amount at a valid price of the market, and what it
    asks for neither rounds to zero nor overflows. *)
Theorem book_stays_well_formed o o2 s s1 s2 :
  wf_asset (limit_order_create_amount_to_sell o) → wf_asset (limit_order_create_min_to_receive o) →
  wf_asset (limit_order_create2_amount_to_sell o2) → wf_asset (base (limit_order_create2_exchange_rate o2)) →
  wf_asset (quote (limit_order_create2_exchange_rate o2)) →
  limit_order_create_validate o = Ok tt → limit_order_create2_validate o2 = Ok tt →
  book_ok (rows (limit_orders s)) →
  (⟨ limit_order_create_apply o, s ⟩ ⇓ ⟨ tt, s1 ⟩ → book_ok (rows (limit_orders s1))) ∧
  (⟨ limit_order_create2_apply o2, s ⟩ ⇓ ⟨ tt, s2 ⟩ → book_ok (rows (limit_orders s2))).
Proof. intros. split; [by apply limit_order_create_keeps|by apply limit_order_create2_keeps]. Qed.

(** Matching two orders conserves the supplies and always fills at least one of
    them completely, so the result [match] asserts is never zero; a filled order
    leaves the book, the other stays with its price. *)
Theorem match_fills_one nk ok s r s' :
  nk ≠ ok → ⟨ match_orders nk ok, s ⟩ ⇓ ⟨ r, s' ⟩ →
  conserves s s' ∧ r ≠ 0 ∧
  (Z.testbit r 0 = true ↔ rows (limit_orders s') !! nk = None) ∧
  (Z.testbit r 1 = true ↔ rows (limit_orders s') !! ok = None).
Proof.
  intros Hne Hr. apply match_orders_effect in Hr as (Hc & b1 & b2 & m & -> & Hb & H1 & H2); [|done].
  rewrite (fill_effect_other _ _ _ _ nk H2) by done.
  assert (∀ k b m m', fill_effect k b m m' → b = true ↔ m' !! k = None) as Hgone.
  { intros k b m1 m2 (o & _ & Hm). destruct b; [subst; by rewrite lookup_delete_eq|].
    destruct Hm as (o' & -> & _). by rewrite lookup_insert_eq. }
  split; [done|]. split; [by destruct b1, b2|].
  split; rewrite <- Hgone by done; by destruct b1, b2.
Qed.

(** C34. After a new order has been matched, either it is gone or the book is
    uncrossed: no order is left at a price the new order accepts.  Orders it
    does not cross are untouched, and the supplies are conserved. *)
Theorem apply_order_uncrosses nk s b s' o :
  rows (limit_orders s) !! nk = Some o → ⟨ apply_order nk, s ⟩ ⇓ ⟨ b, s' ⟩ →
  conserves s s' ∧
  (∀ k o', k ≠ nk → rows (limit_orders s) !! k = Some o' → ¬ crosses o o' →
     rows (limit_orders s') !! k = Some o') ∧
  (if b then rows (limit_orders s') !! nk = None
   else ∃ o', rows (limit_orders s') !! nk = Some o' ∧ ord_sell_price o' = ord_sell_price o ∧
     ∀ k c, rows (limit_orders s') !! k = Some c → ¬ crosses o c).
Proof. apply apply_order_effect. Qed.

(** After [clear_expired_orders] exactly the orders that have not expired are
    left; the funds of the others went back to their sellers. *)
Theorem clear_expired_orders_complete s u s' :
  ⟨ clear_expired_orders, s ⟩ ⇓ ⟨ u, s' ⟩ →
  conserves s s' ∧
  rows (limit_orders s') = filter (λ p, (ord_expiration p.2 <? gpo_time (gpo s)) = false) (rows (limit_orders s)).
Proof.
  unfold clear_expired_orders, head_block_time. intros Hr. runs_step. db_step. split.
  - revert Hr. apply drain_preserves; [apply _|]. intros k o t v t' _ _ Ht. by apply cancel_order_effect in Ht as [? _].
  - eapply (drain_rows limit_orders (at_most by_expiration) (λ o, ord_expiration o <? gpo_time (gpo s))) in Hr; [done|..].
    + intros ???. apply at_most_trans; apply _.
    + intros ??. apply at_most_total; apply _.
    + intros ?? Hle%at_most_lead Hd%Z.ltb_lt. apply Z.ltb_lt. lia.
    + intros k o t v t' Ht. by apply cancel_order_effect in Ht as (_ & ? & _).
Qed.
End matching.

(** * The theorems on concrete states *)

Lemma alice_order_ok : order_ok alice_order.
Proof. split; [done|by left|done|done]. Qed.
Lemma bob_order_ok : order_ok bob_order.
Proof. split; [done|by right|done|done]. Qed.

(** Alice, who sells 30 TME at 2.5 TME per TSD, takes all of Bob's 6 TSD at his
    price of 10 TME. *)
Lemma trade_fair_witness :
  trade (F:=FcRef.fc_ref) alice_order bob_order = Ok (coin 10, usd 6) ∧ 10 * 12 / 30 ≤ 6.
Proof.
  split; [vm_compute; reflexivity|].
  apply (trade_fair (F:=FcRef.fc_ref) alice_order bob_order (coin 10) (usd 6)
    alice_order_ok bob_order_ok); vm_compute; auto.
Defined.

(** Alice's offer as both operations. *)
Definition alice_offer : limit_order_create_operation :=
  {| limit_order_create_owner := "alice"; limit_order_create_orderid := 7;
     limit_order_create_amount_to_sell := coin 30; limit_order_create_min_to_receive := usd 12;
     limit_order_create_fill_or_kill := false; limit_order_create_expiration := 4000 |}.
Definition alice_offer2 : limit_order_create2_operation :=
  {| limit_order_create2_owner := "alice"; limit_order_create2_orderid := 8;
     limit_order_create2_amount_to_sell := coin 30; limit_order_create2_fill_or_kill := false;
     limit_order_create2_exchange_rate := Price (coin 5) (usd 2); limit_order_create2_expiration := 4000 |}.
(** The book with Bob's order alone. *)
Definition bob_book : database := set_row limit_orders ("bob"%string, 2) bob_order sample.

(** Alice's offer fills Bob's order and the rest of it joins the book. *)
Lemma book_stays_well_formed_witness :
  let s' := outcome (limit_order_create_apply alice_offer) bob_book in
  book_ok (rows (limit_orders s')) ∧
  ord_for_sale <$> rows (limit_orders s') !! ("alice"%string, 7) = Some 20.
Proof.
  split; [|vm_compute; reflexivity].
  apply (book_stays_well_formed (F:=FcRef.fc_ref) alice_offer alice_offer2 bob_book
    (outcome (limit_order_create_apply alice_offer) bob_book) bob_book).
  1-5: unfold wf_asset, i64_min, i64_max; cbn; lia.
  1-2: vm_compute; reflexivity.
  - change (rows (limit_orders bob_book)) with
      (<[("bob"%string, 2) := bob_order]> (∅ : gmap order_key limit_order_object)).
    apply map_Forall_insert_2; [apply bob_order_ok|apply map_Forall_empty].
  - runs_ok.
Defined.

(** Bob's order is filled. *)
Lemma match_fills_one_witness :
  ∃ s', conserves sample_book s' ∧ rows (limit_orders s') !! ("bob"%string, 2) = None.
Proof.
  destruct (match_orders ("alice"%string, 1) ("bob"%string, 2) sample_book) as [[r s']|e] eqn:E.
  - exists s'. destruct (match_fills_one (F:=FcRef.fc_ref) ("alice"%string, 1) ("bob"%string, 2) sample_book r s')
      as (Hc & _ & _ & Hb); [discriminate|exact E|]. split; [done|]. apply Hb.
    vm_compute in E. injection E as <- _. reflexivity.
  - vm_compute in E. discriminate.
Defined.

(** Alice's order stays with what Bob did not buy. *)
Lemma apply_order_uncrosses_witness :
  ∃ s', ⟨ apply_order ("alice"%string, 1), sample_book ⟩ ⇓ ⟨ false, s' ⟩ ∧ conserves sample_book s'.
Proof.
  eexists. assert (∀ s', ⟨ apply_order ("alice"%string, 1), sample_book ⟩ ⇓ ⟨ false, s' ⟩ → conserves sample_book s')
    as Hc.
  { intros s' Hr. by apply (apply_order_uncrosses (F:=FcRef.fc_ref) ("alice"%string, 1) sample_book false s' alice_order). }
  match goal with |- ?P ∧ _ => assert P as Hr end; [vm_compute; reflexivity|]. split; [exact Hr|by apply Hc].
Defined.

(** Bob's order has expired, Alice's has not. *)
Lemma clear_expired_orders_complete_witness :
  rows (limit_orders (outcome clear_expired_orders sample_book)) = {[ ("alice"%string, 1) := alice_order ]}.
Proof.
  destruct (clear_expired_orders_complete (F:=FcRef.fc_ref) sample_book tt
    (outcome clear_expired_orders sample_book)) as [_ Hr]; [runs_ok|].
  rewrite Hr. vm_compute. reflexivity.
Defined.
