(* ===== verification/ScoreFund.v ===== *)
(** SCORE: buying it, withdrawing it as TME and delegating it.  The evaluators
    [transferTMEtoSCOREfund], [withdrawSCORE], [setWithdrawSCOREasTMEroute],
    [claimRewardBalance] and [delegateSCORE] of [chain/node_evaluator.cpp], and
    [process_TME_fund_for_SCORE_withdrawals] and [clear_expired_delegations] of
    [chain/database.cpp].

    The code walks the accounts by next withdrawal time with an iterator it moves
    on before it changes the account under it; [withdrawals_from] keeps the name
    of the account that iterator stands at. *)

From S2P Require Import Prelude Fc Config Asset Flat Authority Operations Objects Database Samples Ledger Frame Supply.

Section score_fund.
Context {F : Fc}.

(** [transferTMEtoSCOREfund_evaluator::do_apply], libraries/chain/node_evaluator.cpp:881-889 *)
Definition transferTMEtoSCOREfund_apply (o : transferTMEtoSCOREfund_operation) : DB unit :=
  from_account ← get_account (transferTMEtoSCOREfund_from o);
  let to := if str_eqb (transferTMEtoSCOREfund_to o) EmptyString then transferTMEtoSCOREfund_from o
            else transferTMEtoSCOREfund_to o in
  _ ← get_account to;
  b ← lift (get_balance from_account SYMBOL_COIN);
  db_assert (asset_ge b (transferTMEtoSCOREfund_amount o)) "Account does not have sufficient TME for transfer.";;
  neg ← lift (asset_neg (transferTMEtoSCOREfund_amount o));
  adjust_balance (transferTMEtoSCOREfund_from o) neg;;
  _ ← createTMEfundForSCORE to (transferTMEtoSCOREfund_amount o) false;
  mret tt.

(** ** Withdrawals *)

(** The last block at which a negative withdrawal was let pass. *)
Definition LAST_NEGATIVE_WITHDRAW_BLOCK : Z := 23847548.

(** The check on accounts registered by another account. *)
Definition check_min_SCORE (o : withdrawSCORE_operation) (account : account_object) : DB unit :=
  hf1 ← has_hardfork HARDFORK_0_1;
  mwhen (negb (acc_mined account) && hf1)
    (props ← get_dynamic_global_properties;
     wso ← get_witness_schedule_object;
     m ← lift (asset_mul (props_account_creation_fee (wso_median_props wso)) (get_SCORE_price props));
     let min_SCORE := m <| amount ::= λ x, wrap_i64 (x * 10) |> in
     c ← lift (asset_gt (acc_SCORE account) min_SCORE);
     hf16 ← has_hardfork HARDFORK_0_16;
     fc_assert (c || (hf16 && (amount (withdrawSCORE_SCORE o) =? 0)))
       "Account registered by another account requires 10x account creation fee worth of WeYouMe Power before it can be powered down.").

(** [withdrawSCORE_evaluator::do_apply], libraries/chain/node_evaluator.cpp:891-961 *)
Definition withdrawSCORE_apply (o : withdrawSCORE_operation) : DB unit :=
  account ← get_account (withdrawSCORE_account o);
  if amount (withdrawSCORE_SCORE o) <? 0 then
    n ← head_block_num;
    fc_assert (n <=? LAST_NEGATIVE_WITHDRAW_BLOCK) "Cannot withdraw negative SCORE."
  else
    db_assert (asset_ge (acc_SCORE account) (Asset 0 SYMBOL_SCORE))
      "Account does not have sufficient WeYouMe Power for withdraw.";;
    d ← lift (asset_sub (acc_SCORE account) (acc_SCOREDelegated account));
    db_assert (asset_ge d (withdrawSCORE_SCORE o))
      "Account does not have sufficient WeYouMe Power for withdraw.";;
    check_min_SCORE o account;;
    hf5 ← has_hardfork HARDFORK_0_5;
    if amount (withdrawSCORE_SCORE o) =? 0 then
      mwhen hf5 (fc_assert (negb (amount (acc_SCOREwithdrawRateInTME account) =? 0))
        "This operation would not change the SCORE TME fund withdraw rate.");;
      modify accounts (withdrawSCORE_account o) (λ a,
        Ok (a <| acc_SCOREwithdrawRateInTME := Asset 0 SYMBOL_SCORE |>
              <| acc_nextSCOREwithdrawalTime := tps_max |>
              <| acc_to_withdraw := 0 |> <| acc_withdrawn := 0 |>))
    else
      hf16 ← has_hardfork HARDFORK_0_16;
      let intervals := if (hf16 : bool) then TME_fund_for_SCORE_WITHDRAW_INTERVALS
                       else TME_fund_for_SCORE_WITHDRAW_INTERVALS_PRE_HF_16 in
      now ← head_block_time;
      modify accounts (withdrawSCORE_account o) (λ a,
        r ← safe_div (amount (withdrawSCORE_SCORE o)) intervals;
        let new_rate := Asset (if r =? 0 then 1 else r) SYMBOL_SCORE in
        (if (hf5 : bool) then
           fc_check (asset_neb (acc_SCOREwithdrawRateInTME account) new_rate)
             "This operation would not change the SCORE TME fund withdraw rate."
         else Ok tt);;
        Ok (a <| acc_SCOREwithdrawRateInTME := new_rate |>
              <| acc_nextSCOREwithdrawalTime := tps_add now SCORE_WITHDRAW_INTERVAL_SECONDS |>
              <| acc_to_withdraw := amount (withdrawSCORE_SCORE o) |> <| acc_withdrawn := 0 |>)).

(** The routes of an account in the order of [by_withdraw_route], from
    [upper_bound( from, account_id_type() )]: those to an account with id above 0. *)
Definition to_le (p q : Z * Z * withdrawSCORE_route_object) : Prop := p.1.2 ≤ q.1.2.
#[export] Instance to_le_dec : RelDecision to_le.
Proof. intros p q. unfold to_le. apply _. Defined.
Definition routes_from (id : Z) (s : database) : list withdrawSCORE_route_object :=
  snd <$> merge_sort to_le (filter (λ p, p.1.1 = id ∧ 0 < p.1.2) (map_to_list (rows (withdraw_routes s)))).

(** [setWithdrawSCOREasTMEroute_evaluator::do_apply], libraries/chain/node_evaluator.cpp:963-1022 *)
Definition setWithdrawSCOREasTMEroute_apply (o : setWithdrawSCOREasTMEroute_operation) : DB unit :=
  from_account ← get_account (setWithdrawRoute_from_account o);
  to_account ← get_account (setWithdrawRoute_to_account o);
  let key := (acc_id from_account, acc_id to_account) in
  itr ← find withdraw_routes key;
  match itr with
  | None =>
      fc_assert (negb (setWithdrawRoute_percent o =? 0)) "Cannot create a 0% destination.";;
      fc_assert (acc_withdraw_routes from_account <? MAX_WITHDRAW_ROUTES)
        "Account already has the maximum number of routes.";;
      create withdraw_routes key (λ id,
        {| rte_id := id; rte_from_account := acc_id from_account; rte_to_account := acc_id to_account;
           rte_percent := setWithdrawRoute_percent o; rte_autoSCORE := setWithdrawRoute_autoSCORE o |});;
      modify accounts (setWithdrawRoute_from_account o) (λ a,
        Ok (a <| acc_withdraw_routes ::= λ n, wrap_u16 (n + 1) |>))
  | Some _ =>
      if setWithdrawRoute_percent o =? 0 then
        remove withdraw_routes key;;
        modify accounts (setWithdrawRoute_from_account o) (λ a,
          Ok (a <| acc_withdraw_routes ::= λ n, wrap_u16 (n - 1) |>))
      else
        modify withdraw_routes key (λ r,
          Ok (r <| rte_from_account := acc_id from_account |> <| rte_to_account := acc_id to_account |>
                <| rte_percent := setWithdrawRoute_percent o |>
                <| rte_autoSCORE := setWithdrawRoute_autoSCORE o |>))
  end;;
  l ← asks (routes_from (acc_id from_account));
  let total_percent := fold_left (λ t r, wrap_u16 (t + rte_percent r)) l 0 in
  fc_assert (total_percent <=? PERCENT_100)
    "More than 100% of SCORE TME fund withdrawals allocated to destinations.".

(** What a route gets of [to_withdraw]. *)
Definition route_share (to_withdraw : Z) (r : withdrawSCORE_route_object) : result Z :=
  x ← u128_to_u64 (u128_div (u128_mul (u128 to_withdraw) (u128 (rte_percent r))) (u128 PERCENT_100));
  Ok (wrap_i64 x).

(** The deposit of a route to SCORE. *)
Definition deposit_route_SCORE (from : account_name) (to_deposit : Z) (r : withdrawSCORE_route_object) : DB unit :=
  mwhen (0 <? to_deposit)
    (to_account ← get_account_by_id (rte_to_account r);
     modify accounts to_account (λ a,
       x ← safe_add (amount (acc_SCORE a)) to_deposit;
       Ok (a <| acc_SCORE ::= λ v, v <| amount := x |> |>));;
     adjust_proxied_witness_votes to_account to_deposit;;
     push_virtual_operation (fillSCOREWithdraw_
       {| fillSCOREWithdraw_from_account := from; fillSCOREWithdraw_to_account := to_account;
          fillSCOREWithdraw_withdrawn := Asset to_deposit SYMBOL_SCORE;
          fillSCOREWithdraw_deposited := Asset to_deposit SYMBOL_SCORE |})).

(** The first pass over the routes: deposits as SCORE. *)
Fixpoint deposit_as_SCORE (from : account_name) (to_withdraw : Z) (l : list withdrawSCORE_route_object)
    (deposited : Z) : DB Z :=
  match l with
  | [] => mret deposited
  | r :: l =>
      if rte_autoSCORE r then
        to_deposit ← lift (route_share to_withdraw r);
        deposited ← lift (safe_add deposited to_deposit);
        deposit_route_SCORE from to_deposit r;;
        deposit_as_SCORE from to_withdraw l deposited
      else deposit_as_SCORE from to_withdraw l deposited
  end.

(** Take converted TME and the SCORE it was converted from out of the fund. *)
Definition take_from_fund (converted : asset) (score : Z) : DB unit :=
  modify1 gpo (λ o,
    f ← asset_sub (gpo_totalTMEfundForSCORE o) converted;
    x ← safe_sub (amount (gpo_totalSCORE o)) score;
    Ok (o <| gpo_totalTMEfundForSCORE := f |> <| gpo_totalSCORE ::= λ v, v <| amount := x |> |>)).

(** The deposit of a route to TME. *)
Definition deposit_route_TME (from to_account : account_name) (to_deposit : Z) (converted : asset) : DB unit :=
  mwhen (0 <? to_deposit)
    (modify accounts to_account (λ a,
       b ← asset_add (acc_balance a) converted; Ok (a <| acc_balance := b |>));;
     take_from_fund converted to_deposit;;
     push_virtual_operation (fillSCOREWithdraw_
       {| fillSCOREWithdraw_from_account := from; fillSCOREWithdraw_to_account := to_account;
          fillSCOREWithdraw_withdrawn := Asset to_deposit SYMBOL_SCORE;
          fillSCOREWithdraw_deposited := converted |})).

(** The second pass: deposits as TME. *)
Fixpoint deposit_as_TME (from : account_name) (to_withdraw : Z) (l : list withdrawSCORE_route_object)
    (deposited : Z) (total : asset) : DB (Z * asset) :=
  match l with
  | [] => mret (deposited, total)
  | r :: l =>
      if rte_autoSCORE r then deposit_as_TME from to_withdraw l deposited total
      else
        to_account ← get_account_by_id (rte_to_account r);
        to_deposit ← lift (route_share to_withdraw r);
        deposited ← lift (safe_add deposited to_deposit);
        cprops ← get_dynamic_global_properties;
        converted ← lift (asset_mul (Asset to_deposit SYMBOL_SCORE) (get_SCORE_price cprops));
        total ← lift (asset_add total converted);
        deposit_route_TME from to_account to_deposit converted;;
        deposit_as_TME from to_withdraw l deposited total
  end.

(** How much an account withdraws in one step. *)
Definition withdraw_amount (a : account_object) : result Z :=
  rest ← safe_sub (acc_to_withdraw a) (acc_withdrawn a);
  let rate := amount (acc_SCOREwithdrawRateInTME a) in
  if rest <? rate then
    m ← safe_mod (acc_to_withdraw a) rate; Ok (Z.min (amount (acc_SCORE a)) m)
  else Ok (Z.min (amount (acc_SCORE a)) rate).

(** The account that withdrew [to_withdraw], [converted] of it as TME. *)
Definition after_withdraw (to_withdraw : Z) (converted : asset) (a : account_object) : result account_object :=
  x ← safe_sub (amount (acc_SCORE a)) to_withdraw;
  b ← asset_add (acc_balance a) converted;
  w ← safe_add (acc_withdrawn a) to_withdraw;
  let a := a <| acc_SCORE ::= λ v, v <| amount := x |> |> <| acc_balance := b |> <| acc_withdrawn := w |> in
  if (acc_to_withdraw a <=? acc_withdrawn a) || (amount (acc_SCORE a) =? 0) then
    Ok (a <| acc_SCOREwithdrawRateInTME ::= λ r, r <| amount := 0 |> |>
          <| acc_nextSCOREwithdrawalTime := tps_max |>)
  else Ok (a <| acc_nextSCOREwithdrawalTime ::= λ t, tps_add t SCORE_WITHDRAW_INTERVAL_SECONDS |>).

(** The body of the loop of [process_TME_fund_for_SCORE_withdrawals]. *)
Definition withdraw_step (name : account_name) : DB unit :=
  from_account ← get_account name;
  to_withdraw ← lift (withdraw_amount from_account);
  l ← asks (routes_from (acc_id from_account));
  as_SCORE ← deposit_as_SCORE name to_withdraw l 0;
  r ← deposit_as_TME name to_withdraw l 0 (Asset 0 SYMBOL_COIN);
  x ← lift (safe_sub to_withdraw (fst r));
  to_convert ← lift (safe_sub x as_SCORE);
  fc_assert (0 <=? to_convert) "Deposited more SCORE than were supposed to be withdrawn";;
  cprops ← get_dynamic_global_properties;
  converted ← lift (asset_mul (Asset to_convert SYMBOL_SCORE) (get_SCORE_price cprops));
  modify accounts name (after_withdraw to_withdraw converted);;
  take_from_fund converted to_convert;;
  mwhen (0 <? to_withdraw)
    (neg ← lift (safe_neg to_withdraw); adjust_proxied_witness_votes name neg);;
  push_virtual_operation (fillSCOREWithdraw_
    {| fillSCOREWithdraw_from_account := name; fillSCOREWithdraw_to_account := name;
       fillSCOREWithdraw_withdrawn := Asset to_withdraw SYMBOL_SCORE;
       fillSCOREWithdraw_deposited := converted |}).

(** [by_nextSCOREwithdrawalTime], libraries/chain/include/node/chain/account_object.hpp:267-272 *)
Definition by_nextSCOREwithdrawalTime : account_object → account_object → comparison :=
  then_by (by_key acc_nextSCOREwithdrawalTime Z.compare) (by_key acc_id Z.compare).
#[export] Instance by_nextSCOREwithdrawalTime_order : IndexOrder by_nextSCOREwithdrawalTime.
Proof. unfold by_nextSCOREwithdrawalTime. apply _. Qed.

(** [++current]: the account after [a] in the index. *)
Definition account_after (a : account_object) (s : database) : option account_name :=
  fst <$> first_row (at_most by_nextSCOREwithdrawalTime)
    (filter (λ p, by_nextSCOREwithdrawalTime a p.2 = Lt) (rows (accounts s))).

Fixpoint withdrawals_from (fuel : nat) (current : option account_name) : DB unit :=
  match fuel, current with
  | S fuel, Some name =>
      from_account ← get_account name;
      now ← head_block_time;
      if acc_nextSCOREwithdrawalTime from_account <=? now then
        next ← asks (account_after from_account);
        withdraw_step name;;
        withdrawals_from fuel next
      else mret tt
  | _, _ => mret tt
  end.

(** How many steps are due: an account whose next time is [t] is due again every
    interval after [t]. *)
Definition rounds_due (now : Z) (a : account_object) : Z :=
  if acc_nextSCOREwithdrawalTime a <=? now then
    1 + (now - acc_nextSCOREwithdrawalTime a) / SCORE_WITHDRAW_INTERVAL_SECONDS
  else 0.
Definition all_rounds_due (s : database) : Z := map_sum (rounds_due (gpo_time (gpo s))) (rows (accounts s)).

(** [database::process_TME_fund_for_SCORE_withdrawals], libraries/chain/database.cpp:1340-1459 *)
Definition process_TME_fund_for_SCORE_withdrawals : DB unit :=
  n ← asks all_rounds_due;
  begin ← asks (λ s, fst <$> first_row (at_most by_nextSCOREwithdrawalTime) (rows (accounts s)));
  withdrawals_from (S (Z.to_nat n)) begin.

(** ** Rewards *)

(** How much of the TME behind the SCORE rewards is claimed with [SCOREreward]. *)
Definition claimed_TME (SCOREreward : asset) (acnt : account_object) : result asset :=
  if asset_eqb SCOREreward (acc_SCORErewardBalance acnt) then Ok (acc_SCORErewardBalanceInTME acnt)
  else
    x ← u128_to_u64 (u128_div
      (u128_mul (u128 (amount SCOREreward)) (u128 (amount (acc_SCORErewardBalanceInTME acnt))))
      (u128 (amount (acc_SCORErewardBalance acnt))));
    Ok (Asset (wrap_i64 x) SYMBOL_COIN).

(** [claimRewardBalance_evaluator::do_apply], libraries/chain/node_evaluator.cpp:2150-2190 *)
Definition claimRewardBalance_apply (op : claimRewardBalance_operation) : DB unit :=
  let name := claimRewardBalance_account op in
  acnt ← get_account name;
  db_assert (asset_le (claimRewardBalance_TMEreward op) (acc_TMErewardBalance acnt)) "Cannot claim that much TME.";;
  db_assert (asset_le (claimRewardBalance_TSDreward op) (acc_TSDrewardBalance acnt)) "Cannot claim that much TSD.";;
  db_assert (asset_le (claimRewardBalance_SCOREreward op) (acc_SCORErewardBalance acnt))
    "Cannot claim that much SCORE.";;
  to_move ← lift (claimed_TME (claimRewardBalance_SCOREreward op) acnt);
  neg ← lift (asset_neg (claimRewardBalance_TMEreward op));
  adjust_reward_balance name neg;;
  neg ← lift (asset_neg (claimRewardBalance_TSDreward op));
  adjust_reward_balance name neg;;
  adjust_balance name (claimRewardBalance_TMEreward op);;
  adjust_balance name (claimRewardBalance_TSDreward op);;
  modify accounts name (λ a,
    v ← asset_add (acc_SCORE a) (claimRewardBalance_SCOREreward op);
    r ← asset_sub (acc_SCORErewardBalance a) (claimRewardBalance_SCOREreward op);
    t ← asset_sub (acc_SCORErewardBalanceInTME a) to_move;
    Ok (a <| acc_SCORE := v |> <| acc_SCORErewardBalance := r |> <| acc_SCORErewardBalanceInTME := t |>));;
  modify1 gpo (λ g,
    v ← asset_add (gpo_totalSCORE g) (claimRewardBalance_SCOREreward op);
    f ← asset_add (gpo_totalTMEfundForSCORE g) to_move;
    r ← asset_sub (gpo_pending_rewarded_SCORE g) (claimRewardBalance_SCOREreward op);
    t ← asset_sub (gpo_pending_rewarded_SCOREvalueInTME g) to_move;
    Ok (g <| gpo_totalSCORE := v |> <| gpo_totalTMEfundForSCORE := f |>
          <| gpo_pending_rewarded_SCORE := r |> <| gpo_pending_rewarded_SCOREvalueInTME := t |>));;
  adjust_proxied_witness_votes name (amount (claimRewardBalance_SCOREreward op)).

(** ** Delegation *)

(** The SCORE an account has neither delegated nor promised to withdraw. *)
Definition available_SCORE (a : account_object) : result asset :=
  d ← asset_sub (acc_SCORE a) (acc_SCOREDelegated a);
  w ← safe_sub (acc_to_withdraw a) (acc_withdrawn a);
  asset_sub d (Asset w SYMBOL_SCORE).

Definition add_delegated (name : account_name) (delta : asset) : DB unit :=
  modify accounts name (λ a, d ← asset_add (acc_SCOREDelegated a) delta; Ok (a <| acc_SCOREDelegated := d |>)).
Definition sub_delegated (name : account_name) (delta : asset) : DB unit :=
  modify accounts name (λ a, d ← asset_sub (acc_SCOREDelegated a) delta; Ok (a <| acc_SCOREDelegated := d |>)).
Definition add_received (name : account_name) (delta : asset) : DB unit :=
  modify accounts name (λ a, d ← asset_add (acc_SCOREreceived a) delta; Ok (a <| acc_SCOREreceived := d |>)).
Definition sub_received (name : account_name) (delta : asset) : DB unit :=
  modify accounts name (λ a, d ← asset_sub (acc_SCOREreceived a) delta; Ok (a <| acc_SCOREreceived := d |>)).

(** The branch of a first delegation. *)
Definition delegate_new (op : delegateSCORE_operation) (available min_delegation : asset) : DB unit :=
  db_assert (asset_ge available (delegateSCORE_SCORE op)) "Account does not have enough SCORE to delegate.";;
  db_assert (asset_ge (delegateSCORE_SCORE op) min_delegation) "Account must delegate a minimum";;
  now ← head_block_time;
  create delegations (delegateSCORE_delegator op, delegateSCORE_delegatee op) (λ id,
    {| dlg_id := id; dlg_delegator := delegateSCORE_delegator op; dlg_delegatee := delegateSCORE_delegatee op;
       dlg_SCORE := delegateSCORE_SCORE op; dlg_min_delegation_time := now |});;
  add_delegated (delegateSCORE_delegator op) (delegateSCORE_SCORE op);;
  add_received (delegateSCORE_delegatee op) (delegateSCORE_SCORE op).

(** The branch that raises a delegation. *)
Definition delegate_more (op : delegateSCORE_operation) (available min_update : asset)
    (delegation : TME_fund_for_SCORE_delegation_object) : DB unit :=
  delta ← lift (asset_sub (delegateSCORE_SCORE op) (dlg_SCORE delegation));
  db_assert (asset_ge delta min_update) "WeYouMe Power increase is not enough of a difference.";;
  db_assert (asset_ge available delta) "Account does not have enough SCORE to delegate.";;
  add_delegated (delegateSCORE_delegator op) delta;;
  add_received (delegateSCORE_delegatee op) delta;;
  modify delegations (delegateSCORE_delegator op, delegateSCORE_delegatee op)
    (λ d, Ok (d <| dlg_SCORE := delegateSCORE_SCORE op |>)).

(** The branch that lowers or removes a delegation. *)
Definition delegate_less (op : delegateSCORE_operation) (min_delegation min_update : asset)
    (delegation : TME_fund_for_SCORE_delegation_object) : DB unit :=
  let new := delegateSCORE_SCORE op in
  let key := (delegateSCORE_delegator op, delegateSCORE_delegatee op) in
  delta ← lift (asset_sub (dlg_SCORE delegation) new);
  (if 0 <? amount new then
     db_assert (asset_ge delta min_update) "WeYouMe Power decrease is not enough of a difference.";;
     db_assert (asset_ge new min_delegation) "Delegation must be removed or leave minimum delegation amount"
   else
     fc_assert (0 <? amount (dlg_SCORE delegation)) "Delegation would set SCORE to zero, but it is already zero");;
  now ← head_block_time;
  n ← asks (λ s, next_id (delegation_expirations s));
  create delegation_expirations n (λ id,
    {| dlx_id := id; dlx_delegator := delegateSCORE_delegator op; dlx_SCORE := delta;
       dlx_expiration := Z.max (tps_add now CASHOUT_WINDOW_SECONDS) (dlg_min_delegation_time delegation) |});;
  sub_received (delegateSCORE_delegatee op) delta;;
  (if 0 <? amount new then modify delegations key (λ d, Ok (d <| dlg_SCORE := new |>))
   else remove delegations key).

(** [delegateSCORE_evaluator::do_apply], libraries/chain/node_evaluator.cpp:2192-2291 *)
Definition delegateSCORE_apply (op : delegateSCORE_operation) : DB unit :=
  delegator ← get_account (delegateSCORE_delegator op);
  _ ← get_account (delegateSCORE_delegatee op);
  delegation ← find delegations (delegateSCORE_delegator op, delegateSCORE_delegatee op);
  available ← lift (available_SCORE delegator);
  wso ← get_witness_schedule_object;
  g ← get_dynamic_global_properties;
  let fee := props_account_creation_fee (wso_median_props wso) in
  ten ← lift (safe_mul (amount fee) 10);
  min_delegation ← lift (asset_mul (Asset ten SYMBOL_COIN) (get_SCORE_price g));
  min_update ← lift (asset_mul fee (get_SCORE_price g));
  match delegation with
  | None => delegate_new op available min_delegation
  | Some d =>
      c ← lift (asset_ge (delegateSCORE_SCORE op) (dlg_SCORE d));
      if (c : bool) then delegate_more op available min_update d
      else delegate_less op min_delegation min_update d
  end.

(** [by_expiration], libraries/chain/include/node/chain/account_object.hpp:389-396 *)
Definition delegations_by_expiration :
    TME_fund_for_SCORE_delegation_expiration_object → TME_fund_for_SCORE_delegation_expiration_object → comparison :=
  then_by (by_key dlx_expiration Z.compare) (by_key dlx_id Z.compare).
#[export] Instance delegations_by_expiration_order : IndexOrder delegations_by_expiration.
Proof. unfold delegations_by_expiration. apply _. Qed.

(** [database::clear_expired_delegations], libraries/chain/database.cpp:3322-3339 *)
Definition clear_expired_delegations : DB unit :=
  now ← head_block_time;
  drain delegation_expirations (at_most delegations_by_expiration) (λ x, dlx_expiration x <? now) (λ k x,
    sub_delegated (dlx_delegator x) (dlx_SCORE x);;
    push_virtual_operation (return_SCORE_delegation_
      {| return_SCORE_delegation_account := dlx_delegator x; return_SCORE_delegation_SCORE := dlx_SCORE x |});;
    remove delegation_expirations k).
End score_fund.

(** * Supply *)

Section supply.
Context {F : Fc} {FL : FcLaws F}.

Lemma transferTMEtoSCOREfund_conserves o s u s' :
  transferTMEtoSCOREfund_validate o = Ok tt →
  ⟨ transferTMEtoSCOREfund_apply o, s ⟩ ⇓ ⟨ u, s' ⟩ → conserves s s'.
Proof.
  unfold transferTMEtoSCOREfund_validate, transferTMEtoSCOREfund_apply. intros Hv Hr.
  apply result_bind_ok in Hv as (? & _ & Hv). apply result_bind_ok in Hv as (? & Hv & _).
  apply fc_check_ok, Z.eqb_eq in Hv. apply of_symbol_coin in Hv as [E1 E2].
  run_through Hr; settle; rewrite E1, E2 in *; add_shifts.
Qed.

Lemma withdrawSCORE_conserves o s u s' : ⟨ withdrawSCORE_apply o, s ⟩ ⇓ ⟨ u, s' ⟩ → conserves s s'.
Proof. unfold withdrawSCORE_apply, check_min_SCORE. intros Hr. books Hr. Qed.

Lemma setWithdrawSCOREasTMEroute_conserves o s u s' :
  ⟨ setWithdrawSCOREasTMEroute_apply o, s ⟩ ⇓ ⟨ u, s' ⟩ → conserves s s'.
Proof. unfold setWithdrawSCOREasTMEroute_apply. intros Hr. books Hr. Qed.

Lemma claimRewardBalance_conserves op s u s' :
  ⟨ claimRewardBalance_apply op, s ⟩ ⇓ ⟨ u, s' ⟩ → conserves s s'.
Proof. unfold claimRewardBalance_apply, adjust_proxied_witness_votes. intros Hr. books Hr. Qed.

Lemma delegateSCORE_conserves op s u s' : ⟨ delegateSCORE_apply op, s ⟩ ⇓ ⟨ u, s' ⟩ → conserves s s'.
Proof. unfold delegateSCORE_apply, delegate_new, delegate_more, delegate_less, add_delegated, add_received, sub_received. intros Hr. books Hr. Qed.

Lemma clear_expired_delegations_conserves s u s' :
  ⟨ clear_expired_delegations, s ⟩ ⇓ ⟨ u, s' ⟩ → conserves s s'.
Proof.
  unfold clear_expired_delegations, head_block_time, sub_delegated. intros Hr. runs_step. db_step.
  revert Hr. apply drain_preserves; [apply _|]. intros k x t v t' Hk _ Hr. books Hr.
Qed.
End supply.
