(* ===== verification/Withdrawals.v ===== *)
(** Withdrawals of SCORE: [process_TME_fund_for_SCORE_withdrawals] of
    [chain/database.cpp], its arithmetic and its invariant.

    [withdraw_ok] is what the evaluators of [ScoreFund] keep of every account:
    what it has delegated and what it still will withdraw is covered by its
    SCORE.  The loop of the withdrawals keeps it and conserves the supplies. *)

From S2P Require Import Prelude Fc Config Asset Flat Authority Operations Objects Database Samples Ledger Frame Supply ScoreFund.

(** What deposits of SCORE leave of an account. *)
Definition other_view (a : account_object) :=
  (acc_id a, acc_name a, acc_SCOREDelegated a, acc_SCOREreceived a,
   acc_SCOREwithdrawRateInTME a, acc_nextSCOREwithdrawalTime a, (acc_withdrawn a, acc_to_withdraw a)).

(** Accounts at most gain SCORE. *)
Record grows (s s' : database) : Prop := Grows {
  gr_view : keeps other_view s s';
  gr_score : ∀ k a a', rows (accounts s) !! k = Some a → rows (accounts s') !! k = Some a' →
    amount (acc_SCORE a) ≤ amount (acc_SCORE a');
}.
#[export] Instance grows_preorder : PreOrder grows.
Proof.
  split.
  - intros s. split; [done|]. intros k a a' H1 H2. simplify_eq. lia.
  - intros s1 s2 s3 [V1 S1] [V2 S2]. split; [by etrans|]. intros k a1 a3 H1 H3.
    destruct (keeps_lookup _ _ _ _ _ V2 H3) as (a2 & H2 & _).
    specialize (S1 _ _ _ H1 H2). specialize (S2 _ _ _ H2 H3). lia.
Qed.

Lemma keeps_grows s s' : keeps score_view s s' → grows s s'.
Proof.
  intros Hk. split.
  - intros k. specialize (Hk k). destruct (rows (accounts s') !! k), (rows (accounts s) !! k); cbn in *; try done.
    injection Hk as Hk. unfold score_view, other_view in *. congruence.
  - intros k a a' Ha Ha'. destruct (keeps_lookup _ _ _ _ _ Hk Ha') as (b & Hb & Hv). unfold score_view in Hv.
    assert (acc_SCORE a' = acc_SCORE a) as -> by congruence. done.
Qed.

Lemma grows_set_account s k a a' :
  rows (accounts s) !! k = Some a → other_view a' = other_view a → amount (acc_SCORE a) ≤ amount (acc_SCORE a') →
  grows s (set_row accounts k a' s).
Proof.
  intros Hk Hv Hs. split; [by eapply keeps_set_account|]. intros k' b b' Hb Hb'. db_fields in Hb'.
  rewrite lookup_insert_Some in Hb'. destruct Hb' as [[<- <-]|[_ Hb']]; simplify_eq; lia.
Qed.

Lemma grows_same_accounts s s' : accounts s' = accounts s → grows s s'.
Proof. intros E. split; [intros k; by rewrite E|]. intros k a a'. rewrite E. intros. simplify_eq. lia. Qed.

(** ** Withdrawals of an account *)

Section invariant.
Context {F : Fc}.

(** What an account has delegated and what it still will withdraw is covered by
    its SCORE; a withdrawal in progress has a positive rate and paid whole
    multiples of it. *)
Record withdraw_ok (a : account_object) : Prop := {
  wok_delegated : 0 ≤ amount (acc_SCOREDelegated a);
  wok_covered : amount (acc_SCOREDelegated a) + (acc_to_withdraw a - acc_withdrawn a) ≤ amount (acc_SCORE a);
  wok_withdrawn : 0 ≤ acc_withdrawn a ≤ acc_to_withdraw a;
  wok_rate : acc_nextSCOREwithdrawalTime a ≠ tps_max →
    0 < amount (acc_SCOREwithdrawRateInTME a) ∧ (amount (acc_SCOREwithdrawRateInTME a) | acc_withdrawn a);
}.
Definition withdraws_ok (s : database) : Prop := map_Forall (λ _, withdraw_ok) (rows (accounts s)).
Definition routes_ok (s : database) : Prop :=
  map_Forall (λ _ r, 0 ≤ rte_percent r ≤ PERCENT_100) (rows (withdraw_routes s)).

Lemma withdraw_ok_grows a a' :
  withdraw_ok a → other_view a' = other_view a → amount (acc_SCORE a) ≤ amount (acc_SCORE a') → withdraw_ok a'.
Proof.
  intros [] Hv Hs. unfold other_view in Hv.
  assert (acc_SCOREDelegated a' = acc_SCOREDelegated a ∧ acc_SCOREwithdrawRateInTME a' = acc_SCOREwithdrawRateInTME a ∧
    acc_nextSCOREwithdrawalTime a' = acc_nextSCOREwithdrawalTime a ∧ acc_withdrawn a' = acc_withdrawn a ∧
    acc_to_withdraw a' = acc_to_withdraw a) as (E1 & E2 & E3 & E4 & E5) by (split_and!; congruence).
  split; rewrite ?E1, ?E2, ?E3, ?E4, ?E5; auto; lia.
Qed.

Lemma withdraws_ok_grows s s' : withdraws_ok s → grows s s' → withdraws_ok s'.
Proof.
  intros Hok [Hv Hs] k a' Ha'. destruct (keeps_lookup _ _ _ _ _ Hv Ha') as (a & Ha & E).
  apply (withdraw_ok_grows a); [by eapply Hok|done|by eapply Hs].
Qed.

Lemma routes_from_in id s r : r ∈ routes_from id s → ∃ k, rows (withdraw_routes s) !! k = Some r.
Proof.
  unfold routes_from. intros ([k r'] & -> & Hin)%list_elem_of_fmap.
  rewrite (merge_sort_Permutation to_le), list_elem_of_filter, elem_of_map_to_list in Hin. exists k. by destruct Hin.
Qed.
End invariant.

(** * Withdrawals *)

Section withdrawals.
Context {F : Fc} {FL : FcLaws F}.

(** An account withdraws its rate, or what is left when that is less. *)
Lemma withdraw_amount_exact a w :
  withdraw_ok a → acc_nextSCOREwithdrawalTime a ≠ tps_max → withdraw_amount a = Ok w →
  w = Z.min (amount (acc_SCOREwithdrawRateInTME a)) (acc_to_withdraw a - acc_withdrawn a) ∧
  0 ≤ w ≤ i64_max ∧ w ≤ amount (acc_SCORE a).
Proof.
  intros [] Hn Hw. destruct (wok_rate0 Hn) as [Hr [k Hk]]. unfold withdraw_amount in Hw. asset_inv.
  assert (x ≤ i64_max) by (unfold in_i64 in *; lia).
  destruct (Z.ltb_spec x (amount (acc_SCOREwithdrawRateInTME a))).
  - apply result_bind_ok in Hw as (m & Hm & [= <-]). rewrite safe_mod_law in Hm by lia.
    apply checked_ok in Hm as [-> _]. rewrite Z.rem_mod_nonneg by lia.
    assert (acc_to_withdraw a mod amount (acc_SCOREwithdrawRateInTME a) = x) as ->; [|lia].
    replace (acc_to_withdraw a) with (x + k * amount (acc_SCOREwithdrawRateInTME a)) by lia.
    rewrite Z.mod_add by lia. apply Z.mod_small. lia.
  - injection Hw as <-. lia.
Qed.

(** What a withdrawal changes of an account, and what it does not. *)
Lemma after_withdraw_fields w c a a' :
  after_withdraw w c a = Ok a' →
  amount (acc_SCORE a') = amount (acc_SCORE a) - w ∧ amount (acc_balance a') = amount (acc_balance a) + amount c ∧
  acc_withdrawn a' = acc_withdrawn a + w ∧
  (acc_TMEsavingsBalance a', acc_TMErewardBalance a', acc_TSDbalance a', acc_TSDsavingsBalance a',
   acc_TSDrewardBalance a', acc_SCORErewardBalance a', acc_SCORErewardBalanceInTME a') =
  (acc_TMEsavingsBalance a, acc_TMErewardBalance a, acc_TSDbalance a, acc_TSDsavingsBalance a,
   acc_TSDrewardBalance a, acc_SCORErewardBalance a, acc_SCORErewardBalanceInTME a) ∧
  (acc_SCOREDelegated a', acc_SCOREreceived a', acc_to_withdraw a') =
  (acc_SCOREDelegated a, acc_SCOREreceived a, acc_to_withdraw a) ∧
  (if (acc_to_withdraw a <=? acc_withdrawn a') || (amount (acc_SCORE a') =? 0) then
     acc_nextSCOREwithdrawalTime a' = tps_max
   else
     acc_nextSCOREwithdrawalTime a' = tps_add (acc_nextSCOREwithdrawalTime a) SCORE_WITHDRAW_INTERVAL_SECONDS ∧
     acc_SCOREwithdrawRateInTME a' = acc_SCOREwithdrawRateInTME a).
Proof.
  unfold after_withdraw. intros Ha. apply result_bind_ok in Ha as (x & [-> _]%safe_sub_ok & Ha).
  apply result_bind_ok in Ha as (b & Hb & Ha). apply asset_add_ok in Hb as (_ & _ & Hb & _).
  apply result_bind_ok in Ha as (y & [-> _]%safe_add_ok & Ha). cbv zeta in Ha.
  set (a1 := a <| acc_SCORE ::= _ |> <| acc_balance := _ |> <| acc_withdrawn := _ |>) in Ha.
  change (acc_to_withdraw a1) with (acc_to_withdraw a) in Ha.
  change (acc_withdrawn a1) with (acc_withdrawn a + w) in Ha.
  change (amount (acc_SCORE a1)) with (amount (acc_SCORE a) - w) in Ha.
  destruct (_ || _) eqn:E; injection Ha as <-;
    (split; [reflexivity|]; split; [exact Hb|]; split; [reflexivity|]; split; [reflexivity|]; split; [reflexivity|]).
  - change (if (acc_to_withdraw a <=? acc_withdrawn a + w) || (amount (acc_SCORE a) - w =? 0) then tps_max = tps_max
      else tps_max = tps_add (acc_nextSCOREwithdrawalTime a) SCORE_WITHDRAW_INTERVAL_SECONDS ∧
        (acc_SCOREwithdrawRateInTME a) <| amount := 0 |> = acc_SCOREwithdrawRateInTME a). by rewrite E.
  - set (t := tps_add (acc_nextSCOREwithdrawalTime a) SCORE_WITHDRAW_INTERVAL_SECONDS).
    change (if (acc_to_withdraw a <=? acc_withdrawn a + w) || (amount (acc_SCORE a) - w =? 0) then t = tps_max
      else t = t ∧ acc_SCOREwithdrawRateInTME a = acc_SCOREwithdrawRateInTME a). by rewrite E.
Qed.

Lemma after_withdraw_ok w c a0 a a' :
  withdraw_ok a0 → acc_nextSCOREwithdrawalTime a0 ≠ tps_max →
  w = Z.min (amount (acc_SCOREwithdrawRateInTME a0)) (acc_to_withdraw a0 - acc_withdrawn a0) →
  other_view a = other_view a0 → amount (acc_SCORE a0) ≤ amount (acc_SCORE a) →
  after_withdraw w c a = Ok a' → withdraw_ok a'.
Proof.
  intros Hok Hn Hw Hv Hs Ha. assert (withdraw_ok a) as [] by (by eapply withdraw_ok_grows).
  unfold other_view in Hv.
  assert (acc_SCOREwithdrawRateInTME a = acc_SCOREwithdrawRateInTME a0 ∧
    acc_nextSCOREwithdrawalTime a = acc_nextSCOREwithdrawalTime a0 ∧ acc_withdrawn a = acc_withdrawn a0 ∧
    acc_to_withdraw a = acc_to_withdraw a0) as (E1 & E2 & E3 & E4) by (split_and!; congruence).
  rewrite E2 in wok_rate0. destruct (wok_rate0 Hn) as [Hr Hk]. rewrite E1, E3 in Hk. rewrite E1 in Hr.
  rewrite E3, E4 in *. destruct (after_withdraw_fields _ _ _ _ Ha) as (F1 & _ & F2 & _ & F3 & F4). rewrite E3, E4 in *.
  injection F3 as F3 F5 F6. split; rewrite ?F1, ?F2, ?F3, ?F6; [done|lia|lia|].
  destruct (_ || _) eqn:E; [done|]. destruct F4 as [_ ->]. bool_hyps. rewrite E1. intros _. split; [done|].
  assert (w = amount (acc_SCOREwithdrawRateInTME a0)) as -> by lia. by apply Z.divide_add_r.
Qed.

Lemma route_share_exact w r x :
  0 ≤ w ≤ i64_max → 0 ≤ rte_percent r ≤ PERCENT_100 → route_share w r = Ok x →
  x = w * rte_percent r / PERCENT_100 ∧ 0 ≤ x.
Proof.
  intros Hw Hp Hx. unfold route_share in Hx. apply result_bind_ok in Hx as (y & Hy & [= <-]).
  assert (0 ≤ w * rte_percent r / PERCENT_100 ≤ w) as Hq.
  { unfold PERCENT_100 in *. split; [apply Z.div_pos; nia|]. apply Z.div_le_upper_bound; nia. }
  apply u128_to_u64_law in Hy as [-> _].
  rewrite u128_mul_exact by (unfold PERCENT_100, i64_max in *; lia).
  replace (u128 PERCENT_100) with PERCENT_100 by (by rewrite u128_law).
  rewrite u128_div_law by done.
  rewrite wrap_i64_id by (unfold i64_min, i64_max in *; lia). lia.
Qed.

(** What a deposit pass does to everything but the amounts. *)
Record deposits (s s' : database) : Prop := Deposits { dp_frame : frame s s'; dp_grows : grows s s' }.
#[export] Instance deposits_preorder : PreOrder deposits.
Proof. split; [by split|]. intros ??? [] []. split; by etrans. Qed.

Lemma deposits_keeps s s' : frame s s' → keeps score_view s s' → deposits s s'.
Proof. intros ? ?%keeps_grows. by split. Qed.
Lemma deposits_gpo s g :
  gpo_time g = gpo_time (gpo s) → gpo_head_block_number g = gpo_head_block_number (gpo s) →
  deposits s (s <| gpo := g |>).
Proof. intros. split; [by apply frame_gpo|by apply grows_same_accounts]. Qed.
Lemma deposits_set_account s k a a' :
  rows (accounts s) !! k = Some a → other_view a' = other_view a → amount (acc_SCORE a) ≤ amount (acc_SCORE a') →
  deposits s (set_row accounts k a' s).
Proof. intros. split; [by eapply frame_set_account|by eapply grows_set_account]. Qed.

Lemma push_deposits op s u s' : ⟨ push_virtual_operation op, s ⟩ ⇓ ⟨ u, s' ⟩ → deposits s s'.
Proof. intros Hr. apply deposits_keeps; [by eapply frame_push|by eapply keeps_push]. Qed.
Lemma proxied_deposits n name d s u s' : ⟨ adjust_proxied_from n name d, s ⟩ ⇓ ⟨ u, s' ⟩ → deposits s s'.
Proof. intros Hr. apply deposits_keeps; [by eapply adjust_proxied_from_frame|by eapply adjust_proxied_from_keeps]. Qed.

Lemma get_account_by_id_ok id s n s' : ⟨ get_account_by_id id, s ⟩ ⇓ ⟨ n, s' ⟩ → s' = s.
Proof. unfold get_account_by_id. intros Hr. runs_step. db_step. destruct (account_with_id id s); by db_inv. Qed.

Lemma deposit_route_SCORE_effect from v rt s u s' :
  0 ≤ v → ⟨ deposit_route_SCORE from v rt, s ⟩ ⇓ ⟨ u, s' ⟩ → shifts 0 0 (- v) 0 s s' ∧ deposits s s'.
Proof.
  unfold deposit_route_SCORE. intros Hv Hr. apply runs_when in Hr. destruct (Z.ltb_spec 0 v) as [|Hz].
  - unfold adjust_proxied_witness_votes in Hr. runs_step. apply get_account_by_id_ok in Hr0 as ->.
    apply runs_bind in Hr as (? & ? & Hm & Hr). db_step. asset_inv.
    apply runs_bind in Hr as (? & ? & Hp & Hr).
    pose proof (proxied_deposits _ _ _ _ _ _ Hp) as Hd1. pose proof (push_deposits _ _ _ _ Hr) as Hd2.
    repeat ledger_step. split.
    + row_shifts. holdings. add_shifts.
    + etrans; [|etrans; [exact Hd1|exact Hd2]]. eapply deposits_set_account; [done|by unfold other_view; fields|fields; cbn; lia].
  - subst. split; [|done]. apply (shifts_eq 0 0 0 0); lia || done.
Qed.

Lemma deposit_as_SCORE_effect from w l : ∀ d s r s',
  0 ≤ w ≤ i64_max → Forall (λ r, 0 ≤ rte_percent r ≤ PERCENT_100) l →
  ⟨ deposit_as_SCORE from w l d, s ⟩ ⇓ ⟨ r, s' ⟩ →
  shifts 0 0 (d - r) 0 s s' ∧ deposits s s'.
Proof.
  induction l as [|rt l IH]; intros d s r s' Hw Hl Hr; cbn [deposit_as_SCORE] in Hr.
  { runs_inv. split; [|done]. apply (shifts_eq 0 0 0 0); lia || done. }
  apply Forall_cons in Hl as [Hp Hl]. destruct (rte_autoSCORE rt); [|by eapply IH].
  do 4 runs_step. apply safe_add_ok in Hval0 as [-> _]. runs_step.
  apply route_share_exact in Hval as [_ Hv]; [|done..]. apply IH in Hr as [Hs Hd]; [|done..].
  apply deposit_route_SCORE_effect in Hr0 as [Hs0 Hd0]; [|done].
  split; [add_shifts|by etrans].
Qed.
Lemma take_from_fund_effect c v s u s' :
  ⟨ take_from_fund c v, s ⟩ ⇓ ⟨ u, s' ⟩ → shifts (amount c) 0 (- v) 0 s s' ∧ deposits s s'.
Proof.
  unfold take_from_fund. intros Hr. db_inv. asset_inv. split.
  - eapply shifts_eq; [apply shifts_gpo|..]; holdings; cbn; lia.
  - apply deposits_gpo; by fields.
Qed.

Lemma deposit_route_TME_effect from to v c s u s' :
  0 ≤ v → ⟨ deposit_route_TME from to v c, s ⟩ ⇓ ⟨ u, s' ⟩ → shifts 0 0 (- v) 0 s s' ∧ deposits s s'.
Proof.
  unfold deposit_route_TME. intros Hv Hr. apply runs_when in Hr. destruct (Z.ltb_spec 0 v) as [|Hz].
  - apply runs_bind in Hr as (? & ? & Hm & Hr). db_step. asset_inv.
    apply runs_bind in Hr as (? & ? & Ht & Hr). apply take_from_fund_effect in Ht as [Ht Hd1].
    pose proof (push_deposits _ _ _ _ Hr) as Hd2. repeat ledger_step. split.
    + row_shifts. holdings. add_shifts.
    + etrans; [|etrans; [exact Hd1|exact Hd2]]. eapply deposits_set_account; [done|by unfold other_view; fields|by fields].
  - subst. split; [|done]. apply (shifts_eq 0 0 0 0); lia || done.
Qed.

Lemma deposit_as_TME_effect from w l : ∀ d tot s r s',
  0 ≤ w ≤ i64_max → Forall (λ r, 0 ≤ rte_percent r ≤ PERCENT_100) l →
  ⟨ deposit_as_TME from w l d tot, s ⟩ ⇓ ⟨ r, s' ⟩ →
  shifts 0 0 (d - fst r) 0 s s' ∧ deposits s s'.
Proof.
  induction l as [|rt l IH]; intros d tot s r s' Hw Hl Hr; cbn [deposit_as_TME] in Hr.
  { runs_inv. split; [|done]. apply (shifts_eq 0 0 0 0); cbn; lia || done. }
  apply Forall_cons in Hl as [Hp Hl]. destruct (rte_autoSCORE rt); [by eapply IH|].
  apply runs_bind in Hr as (to & ? & Hid & Hr). apply get_account_by_id_ok in Hid as ->.
  unfold get_dynamic_global_properties in Hr. do 5 (runs_step; try db_step).
  apply runs_bind in Hr as (? & ? & Hd & Hr).
  match goal with H : safe_add d ?v = Ok _, H' : route_share w rt = Ok ?v |- _ =>
    apply safe_add_ok in H as [-> _]; apply route_share_exact in H' as [_ Hv]; [|done..] end.
  apply deposit_route_TME_effect in Hd as [Hs0 Hd0]; [|done]. apply IH in Hr as [Hs Hd]; [|done..].
  split; [add_shifts|by etrans].
Qed.
(** What an account has delegated and what was delegated to it. *)
Definition grant_view (a : account_object) := (acc_SCOREDelegated a, acc_SCOREreceived a).
Lemma grows_grants s s' : grows s s' → keeps grant_view s s'.
Proof.
  intros [Hv _] k. specialize (Hv k). destruct (rows (accounts s') !! k), (rows (accounts s) !! k); cbn in *; try done.
  injection Hv as Hv. unfold other_view, grant_view in *. congruence.
Qed.

(** What one step of [name], which withdraws [w], does to the accounts. *)
Record withdrew (name : account_name) (w : Z) (s s' : database) : Prop := Withdrew {
  wd_frame : frame s s';
  wd_grants : keeps grant_view s s';
  wd_other : ∀ k, k ≠ name → other_view <$> (rows (accounts s') !! k) = other_view <$> (rows (accounts s) !! k);
  wd_account : ∀ a a', rows (accounts s) !! name = Some a → rows (accounts s') !! name = Some a' →
    acc_withdrawn a' = acc_withdrawn a + w ∧
    acc_to_withdraw a' = acc_to_withdraw a ∧
    acc_nextSCOREwithdrawalTime a' =
      if acc_to_withdraw a <=? acc_withdrawn a + w then tps_max
      else tps_add (acc_nextSCOREwithdrawalTime a) SCORE_WITHDRAW_INTERVAL_SECONDS;
}.

Lemma routes_from_ok id s : routes_ok s → Forall (λ r, 0 ≤ rte_percent r ≤ PERCENT_100) (routes_from id s).
Proof. intros Hro. apply Forall_forall. intros r [k Hk]%routes_from_in. by eapply Hro. Qed.

Lemma after_withdraw_next w c a0 a a' :
  withdraw_ok a0 → w ≤ acc_to_withdraw a0 - acc_withdrawn a0 →
  other_view a = other_view a0 → amount (acc_SCORE a0) ≤ amount (acc_SCORE a) → after_withdraw w c a = Ok a' →
  acc_withdrawn a' = acc_withdrawn a0 + w ∧ acc_to_withdraw a' = acc_to_withdraw a0 ∧
  acc_nextSCOREwithdrawalTime a' =
    if acc_to_withdraw a0 <=? acc_withdrawn a0 + w then tps_max
    else tps_add (acc_nextSCOREwithdrawalTime a0) SCORE_WITHDRAW_INTERVAL_SECONDS.
Proof.
  intros [] Hw Hv Hs Ha. unfold other_view in Hv.
  assert (acc_nextSCOREwithdrawalTime a = acc_nextSCOREwithdrawalTime a0 ∧ acc_withdrawn a = acc_withdrawn a0 ∧
    acc_to_withdraw a = acc_to_withdraw a0) as (E1 & E2 & E3) by (split_and!; congruence).
  destruct (after_withdraw_fields _ _ _ _ Ha) as (F1 & _ & F2 & _ & F3 & F4). injection F3 as F3 F5 F6.
  rewrite F1, F2 in F4. rewrite E3 in F4. rewrite E2 in F4, F2. rewrite F6, F2, E3. split; [done|]. split; [done|].
  destruct (Z.leb_spec (acc_to_withdraw a0) (acc_withdrawn a0 + w)); [exact F4|].
  destruct (Z.eqb_spec (amount (acc_SCORE a) - w) 0); [lia|]. cbn [orb] in F4. by rewrite (proj1 F4), E1.
Qed.

Lemma after_withdraw_holdings w c a a' :
  after_withdraw w c a = Ok a' →
  acc_tme a' = acc_tme a + amount c ∧ acc_tsd a' = acc_tsd a ∧
  acc_score a' = acc_score a - w ∧ acc_pend a' = acc_pend a.
Proof.
  intros (F1 & F2 & _ & F4 & _)%after_withdraw_fields. unfold acc_tme, acc_tsd, acc_score, acc_pend.
  injection F4 as G1 G2 G3 G4 G5 G6 G7. rewrite F1, F2, G1, G2, G3, G4, G5, G6, G7. split_and!; lia.
Qed.

Lemma runs_withdraw_step name a s u s' :
  withdraws_ok s → routes_ok s → rows (accounts s) !! name = Some a → acc_nextSCOREwithdrawalTime a ≠ tps_max →
  ⟨ withdraw_step name, s ⟩ ⇓ ⟨ u, s' ⟩ →
  ∃ w c a2 a3 s2, withdraw_amount a = Ok w ∧ conserves s s' ∧ deposits s s2 ∧
    rows (accounts s2) !! name = Some a2 ∧ after_withdraw w c a2 = Ok a3 ∧
    deposits (set_row accounts name a3 s2) s'.
Proof.
  intros Hok Hro Ha Hn Hr. unfold withdraw_step, get_account in Hr. do 2 (runs_step; db_step).
  rewrite Ha in Hrow. injection Hrow as <-.
  apply runs_bind in Hr as (l & ? & Hl & Hr). db_step.
  apply runs_bind in Hr as (r1 & s1 & Hd1 & Hr). apply runs_bind in Hr as (r2 & s2 & Hd2 & Hr).
  destruct (withdraw_amount_exact _ _ (Hok _ _ Ha) Hn Hval) as (_ & Hw & _).
  apply deposit_as_SCORE_effect in Hd1 as [Hs1 Hd1]; [|done|by apply routes_from_ok].
  apply deposit_as_TME_effect in Hd2 as [Hs2 Hd2]; [|done|by apply routes_from_ok].
  unfold get_dynamic_global_properties in Hr. do 5 (runs_step; db_step).
  apply runs_bind in Hr as (? & s3 & Hm & Hr). apply runs_modify in Hm as (a2 & a3 & Ha2 & Ha3 & ->).
  apply runs_bind in Hr as (? & s4 & Ht & Hr). apply take_from_fund_effect in Ht as [Hs4 Hd4].
  apply runs_bind in Hr as (? & s5 & Hp & Hr). asset_inv.
  assert (conserves s4 s5 ∧ deposits s4 s5) as [Hs5 Hd5].
  { apply runs_when in Hp. case_match; [|by subst]. apply runs_bind in Hp as (? & ? & Hn0 & Hp). db_step.
    split; [by eapply adjust_proxied_from_shifts|by eapply proxied_deposits]. }
  pose proof (push_deposits _ _ _ _ Hr) as Hd6. apply push_virtual_operation_shifts in Hr as (Hs6 & _ & _).
  pose proof (shifts_set_account s2 name a2 a3 Ha2) as Hs3. pose proof (after_withdraw_holdings _ _ _ _ Ha3).
  exists v0, v3, a2, a3, s2. split_and!; [done|add_shifts|by etrans|done|done|etrans; [exact Hd4|by etrans]].
Qed.

Lemma withdraw_step_effect name a s u s' :
  withdraws_ok s → routes_ok s → rows (accounts s) !! name = Some a → acc_nextSCOREwithdrawalTime a ≠ tps_max →
  ⟨ withdraw_step name, s ⟩ ⇓ ⟨ u, s' ⟩ →
  conserves s s' ∧ withdraws_ok s' ∧ routes_ok s' ∧
  withdrew name (Z.min (amount (acc_SCOREwithdrawRateInTME a)) (acc_to_withdraw a - acc_withdrawn a)) s s'.
Proof.
  intros Hok Hro Ha Hn Hr.
  destruct (runs_withdraw_step _ _ _ _ _ Hok Hro Ha Hn Hr) as (w & c & a2 & a3 & s2 & Hw & Hs & Hd & Ha2 & Ha3 & Hd').
  destruct (withdraw_amount_exact _ _ (Hok _ _ Ha) Hn Hw) as (Ew & Hb & Hle).
  destruct (keeps_lookup _ _ _ _ _ (gr_view _ _ (dp_grows _ _ Hd)) Ha2) as (b & Hb' & Hv). rewrite Ha in Hb'.
  injection Hb' as <-. pose proof (gr_score _ _ (dp_grows _ _ Hd) _ _ _ Ha Ha2) as Hsc.
  assert (frame s s') as Hf.
  { etrans; [exact (dp_frame _ _ Hd)|]. etrans; [by eapply frame_set_account|exact (dp_frame _ _ Hd')]. }
  split_and!; [done| | |].
  - eapply withdraws_ok_grows; [|exact (dp_grows _ _ Hd')]. intros k a' Hk. db_fields in Hk.
    apply lookup_insert_Some in Hk as [[<- <-]|[_ Hk]]; 
      [exact (after_withdraw_ok _ _ _ _ _ (Hok _ _ Ha) Hn Ew Hv Hsc Ha3)|].
    by eapply withdraws_ok_grows in Hok; [eapply Hok|exact (dp_grows _ _ Hd)].
  - unfold routes_ok. by rewrite (fr_withdraw_routes _ _ Hf).
  - rewrite <- Ew. split; [done| | |].
    + etrans; [exact (grows_grants _ _ (dp_grows _ _ Hd))|].
      etrans; [|exact (grows_grants _ _ (dp_grows _ _ Hd'))]. eapply keeps_set_account; [done|].
      apply after_withdraw_fields in Ha3 as (_ & _ & _ & _ & E & _). unfold grant_view. congruence.
    + intros k Hk. rewrite (gr_view _ _ (dp_grows _ _ Hd') k). db_fields. rewrite lookup_insert_ne by done.
      apply (gr_view _ _ (dp_grows _ _ Hd)).
    + intros b a' Hb0 Ha'. rewrite Ha in Hb0. injection Hb0 as <-.
      destruct (keeps_lookup _ _ _ _ _ (gr_view _ _ (dp_grows _ _ Hd')) Ha') as (b & Hb1 & Hv').
      db_fields in Hb1. rewrite lookup_insert_eq in Hb1. injection Hb1 as <-.
      destruct (after_withdraw_next w c a a2 a3) as (E1 & E2 & E3); [by eapply Hok|lia|done..|].
      unfold other_view in Hv'. split_and!; [congruence..|]. rewrite <- E3. congruence.
Qed.
(** ** The loop *)

(** What the loop keeps. *)
Record books_kept (s s' : database) : Prop := BooksKept {
  bk_conserves : conserves s s';
  bk_withdraws : withdraws_ok s';
  bk_frame : frame s s';
  bk_grants : keeps grant_view s s';
}.

Lemma due_not_max now a : acc_nextSCOREwithdrawalTime a <= now → now < tps_max → acc_nextSCOREwithdrawalTime a ≠ tps_max.
Proof. lia. Qed.

Lemma withdrawals_from_kept fuel : ∀ cur s u s',
  withdraws_ok s → routes_ok s → gpo_time (gpo s) < tps_max →
  ⟨ withdrawals_from fuel cur, s ⟩ ⇓ ⟨ u, s' ⟩ → books_kept s s'.
Proof.
  induction fuel as [|fuel IH]; intros cur s u s' Hok Hro Hnow Hr; cbn [withdrawals_from] in Hr; [by runs_inv|].
  destruct cur as [name|]; [|by runs_inv]. unfold get_account, head_block_time in Hr. do 2 (runs_step; db_step).
  destruct (Z.leb_spec (acc_nextSCOREwithdrawalTime v) (gpo_time (gpo s))) as [Hdue|]; [|by runs_inv].
  runs_step. db_step. apply runs_bind in Hr as (? & s1 & Hstep & Hr).
  apply withdraw_step_effect with (a := v) in Hstep as (Hc & Hok1 & Hro1 & Hw); [|done..|lia].
  apply IH in Hr as [Hc' Hok' Hf' Hg']; [|done..|by rewrite (fr_time _ _ (wd_frame _ _ _ _ Hw))].
  split; [by etrans|done| |]; (etrans; [apply Hw|done]).
Qed.

Lemma rounds_due_nonneg now a : 0 ≤ rounds_due now a.
Proof.
  unfold rounds_due. destruct (Z.leb_spec (acc_nextSCOREwithdrawalTime a) now); [|lia].
  enough (0 ≤ (now - acc_nextSCOREwithdrawalTime a) / SCORE_WITHDRAW_INTERVAL_SECONDS) by lia.
  apply Z.div_pos; [lia|done].
Qed.

Lemma all_rounds_due_nonneg s : 0 ≤ all_rounds_due s.
Proof. apply map_sum_nonneg. intros. apply rounds_due_nonneg. Qed.

(** Times are unsigned. *)
Definition times_ok (s : database) : Prop :=
  map_Forall (λ _ a, 0 ≤ acc_nextSCOREwithdrawalTime a) (rows (accounts s)).

(** A step that is due leaves one round less. *)
Lemma withdrew_rounds name w a s s' :
  withdrew name w s s' → rows (accounts s) !! name = Some a →
  0 ≤ acc_nextSCOREwithdrawalTime a ≤ gpo_time (gpo s) →
  gpo_time (gpo s) + SCORE_WITHDRAW_INTERVAL_SECONDS ≤ u32_max → times_ok s →
  times_ok s' ∧ all_rounds_due s' + 1 ≤ all_rounds_due s.
Proof.
  intros [Hf _ Ho Ha] Hrow Hdue Hnow Htimes.
  destruct (proj2 (fr_accounts _ _ Hf name)) as [a' Hrow']; [by eexists|].
  destruct (Ha _ _ Hrow Hrow') as (_ & _ & En). split.
  { intros k b' Hb'. destruct (decide (k = name)) as [->|Hk].
    - simplify_eq. rewrite En. unfold SCORE_WITHDRAW_INTERVAL_SECONDS in *.
      case_match; [by rewrite tps_max_law|]. rewrite tps_add_law; lia.
    - specialize (Ho k Hk). rewrite Hb' in Ho. symmetry in Ho. apply fmap_Some in Ho as (b & Hb & Hv).
      unfold other_view in Hv. specialize (Htimes _ _ Hb). cbn beta in Htimes.
      assert (acc_nextSCOREwithdrawalTime b' = acc_nextSCOREwithdrawalTime b) as -> by congruence. done. }
  unfold all_rounds_due. rewrite (fr_time _ _ Hf).
  rewrite (map_sum_but_one (rounds_due (gpo_time (gpo s))) (rows (accounts s)) _ name a a'); [|done..|].
  - enough (rounds_due (gpo_time (gpo s)) a' + 1 ≤ rounds_due (gpo_time (gpo s)) a) by lia.
    unfold rounds_due at 2. destruct (Z.leb_spec (acc_nextSCOREwithdrawalTime a) (gpo_time (gpo s))); [|lia].
    unfold SCORE_WITHDRAW_INTERVAL_SECONDS in *.
    pose proof (Z.div_pos (gpo_time (gpo s) - acc_nextSCOREwithdrawalTime a) (60 * 60 * 24 * 7)).
    unfold rounds_due. rewrite En. destruct (_ <=? _).
    + rewrite tps_max_law. destruct (Z.leb_spec u32_max (gpo_time (gpo s))); lia.
    + rewrite tps_add_law by lia. case_match eqn:E; [|lia].
      replace (gpo_time (gpo s) - (acc_nextSCOREwithdrawalTime a + 60 * 60 * 24 * 7))
        with (gpo_time (gpo s) - acc_nextSCOREwithdrawalTime a + (-1) * (60 * 60 * 24 * 7)) by lia.
      rewrite Z.div_add by done. unfold SCORE_WITHDRAW_INTERVAL_SECONDS. lia.
  - intros k Hk. specialize (Ho k Hk).
    destruct (rows (accounts s') !! k), (rows (accounts s) !! k); cbn in *; try done.
    injection Ho as Ho. unfold other_view in Ho. f_equal. unfold rounds_due.
    assert (acc_nextSCOREwithdrawalTime a0 = acc_nextSCOREwithdrawalTime a1) as -> by congruence. done.
Qed.

Lemma withdrawals_from_fuel n : ∀ m cur s,
  withdraws_ok s → routes_ok s → times_ok s → gpo_time (gpo s) + SCORE_WITHDRAW_INTERVAL_SECONDS ≤ u32_max →
  all_rounds_due s < Z.of_nat n → all_rounds_due s < Z.of_nat m →
  withdrawals_from n cur s = withdrawals_from m cur s.
Proof.
  induction n as [|n IH]; intros [|m] cur s Hok Hro Ht Hnow Hn Hm;
    try (pose proof (all_rounds_due_nonneg s); lia).
  cbn [withdrawals_from]. destruct cur as [name|]; [|done]. unfold get_account, head_block_time.
  apply bind_ext. intros a s1 Ha. db_step. apply bind_ext. intros now s1 Hs1. db_step.
  destruct (Z.leb_spec (acc_nextSCOREwithdrawalTime a) (gpo_time (gpo s))) as [Hdue|]; [|done].
  apply bind_ext. intros next s1 Hs1. db_step. apply bind_ext. intros [] s1 Hstep.
  assert (gpo_time (gpo s) < tps_max) by (rewrite tps_max_law; unfold SCORE_WITHDRAW_INTERVAL_SECONDS in *; lia).
  apply withdraw_step_effect with (a := a) in Hstep as (_ & Hok1 & Hro1 & Hw); [|done..|lia].
  assert (0 ≤ acc_nextSCOREwithdrawalTime a) by (by eapply Ht).
  destruct (withdrew_rounds _ _ _ _ _ Hw Hrow) as [Ht1 Hr1]; [done..|].
  apply IH; [done..| |lia|lia]. by rewrite (fr_time _ _ (wd_frame _ _ _ _ Hw)).
Qed.

(** One due step of an account withdraws the smaller of its rate and what is
    left to withdraw; the account is scheduled again one interval later, or never
    again when all is withdrawn.  The other accounts keep their withdrawals, and
    the TME and SCORE supplies still add up whatever the routes. *)
Theorem withdraw_step_exact name a s u s' :
  withdraws_ok s → routes_ok s → rows (accounts s) !! name = Some a → acc_nextSCOREwithdrawalTime a ≠ tps_max →
  ⟨ withdraw_step name, s ⟩ ⇓ ⟨ u, s' ⟩ →
  conserves s s' ∧ withdraws_ok s' ∧
  withdrew name (Z.min (amount (acc_SCOREwithdrawRateInTME a)) (acc_to_withdraw a - acc_withdrawn a)) s s'.
Proof.
  intros Hok Hro Ha Hn Hr. destruct (withdraw_step_effect name a s u s') as (? & ? & _ & ?); done.
Qed.

(** [process_TME_fund_for_SCORE_withdrawals] never pays out SCORE that is
    delegated or was not promised: every account still covers its delegations and
    the rest of its withdrawal, and the supplies add up as before. *)
Theorem process_withdrawals_safe s u s' :
  withdraws_ok s → routes_ok s → gpo_time (gpo s) < tps_max →
  ⟨ process_TME_fund_for_SCORE_withdrawals, s ⟩ ⇓ ⟨ u, s' ⟩ → books_kept s s'.
Proof.
  intros Hok Hro Hnow Hr. unfold process_TME_fund_for_SCORE_withdrawals in Hr. do 2 (runs_step; db_step).
  by eapply withdrawals_from_kept.
Qed.

(** C33. The loop of [process_TME_fund_for_SCORE_withdrawals] ends because no
    account at its iterator is due, never for want of rounds: with any bound above
    the number of rounds due it computes the same. *)
Theorem process_withdrawals_terminates s n :
  withdraws_ok s → routes_ok s → times_ok s → gpo_time (gpo s) + SCORE_WITHDRAW_INTERVAL_SECONDS ≤ u32_max →
  all_rounds_due s < Z.of_nat n →
  process_TME_fund_for_SCORE_withdrawals s =
    withdrawals_from n (fst <$> first_row (at_most by_nextSCOREwithdrawalTime) (rows (accounts s))) s.
Proof.
  intros Hok Hro Ht Hnow Hn. pose proof (all_rounds_due_nonneg s).
  unfold process_TME_fund_for_SCORE_withdrawals. cbn [mbind M_bind asks get_state mret M_ret].
  apply withdrawals_from_fuel; try done. lia.
Qed.
End withdrawals.

(** * Witnesses *)

Lemma sample_withdrawals_ok : withdraws_ok sample_withdrawals ∧ routes_ok sample_withdrawals ∧ times_ok sample_withdrawals.
Proof.
  assert (map_Forall (λ _ a, withdraw_ok a ∧ 0 ≤ acc_nextSCOREwithdrawalTime a) (rows (accounts sample_withdrawals))) as Ha.
  { unfold sample_withdrawals, sample_db, two_accounts. db_fields. cbn [accounts rows]. intros k a Hk.
    apply lookup_insert_Some in Hk as [[<- <-]|[_ Hk]]; [|apply lookup_insert_Some in Hk as [[<- <-]|[_ Hk]];
      [|apply lookup_insert_Some in Hk as [[<- <-]|[_ Hk]]; [|done]]];
      (split; [split|]); try (split; vm_compute; discriminate); try (vm_compute; discriminate);
      try (intros Hn; by destruct (Hn eq_refl)).
    intros _. split; [reflexivity|]. by exists 2. }
  split_and!.
  - intros k a Hk. by apply Ha in Hk as [? _].
  - unfold routes_ok, sample_withdrawals. db_fields. cbn [withdraw_routes rows sample_db]. intros k r Hk.
    apply lookup_insert_Some in Hk as [[<- <-]|[_ Hk]]; [by cbn|done].
  - intros k a Hk. by apply Ha in Hk as [_ ?].
Qed.

(** Alice's step pays 25 SCORE, 10 of them to Bob. *)
Lemma withdraw_step_exact_witness :
  acc_withdrawn <$> (rows (accounts (outcome (withdraw_step "alice") sample_withdrawals)) !! "alice"%string) = Some 75.
Proof.
  destruct (withdraw_step_exact "alice" withdrawing sample_withdrawals tt
    (outcome (withdraw_step "alice") sample_withdrawals)) as (_ & _ & Hw);
    [apply sample_withdrawals_ok|apply sample_withdrawals_ok|reflexivity|discriminate|runs_ok|].
  destruct (rows (accounts (outcome (withdraw_step "alice") sample_withdrawals)) !! "alice"%string) as [a'|] eqn:E.
  - destruct (wd_account _ _ _ _ Hw withdrawing a') as [Hn _]; [reflexivity|exact E|].
    cbn. rewrite Hn. reflexivity.
  - discriminate (eq_trans (eq_sym E) ltac:(vm_compute; reflexivity)).
Defined.
Lemma process_withdrawals_safe_witness :
  withdraws_ok (outcome process_TME_fund_for_SCORE_withdrawals sample_withdrawals).
Proof.
  apply (process_withdrawals_safe sample_withdrawals tt);
    [apply sample_withdrawals_ok|apply sample_withdrawals_ok|reflexivity|runs_ok].
Defined.
Lemma process_withdrawals_terminates_witness :
  process_TME_fund_for_SCORE_withdrawals sample_withdrawals =
    withdrawals_from 2 (Some "alice"%string) sample_withdrawals.
Proof.
  apply (process_withdrawals_terminates sample_withdrawals 2);
    [apply sample_withdrawals_ok|apply sample_withdrawals_ok|apply sample_withdrawals_ok|vm_compute; discriminate|reflexivity].
Defined.
