(* ===== verification/Delegation.v ===== *)
(** Delegated SCORE: the books of [delegateSCORE] and [clear_expired_delegations].

    An account's [SCOREDelegated] and [SCOREreceived] are caches of the
    delegations, and of the delegations taken back that still wait to return.
    [delegations_ok] says the caches are exact; together with [withdraws_ok] it is
    the invariant of everything that touches SCORE. *)

From S2P Require Import Prelude Fc Config Asset Flat Authority Operations Objects Database Samples Ledger Frame Supply ScoreFund Withdrawals.

(** * The books *)

Definition by_delegator (name : account_name) (d : TME_fund_for_SCORE_delegation_object) : Z :=
  if decide (dlg_delegator d = name) then amount (dlg_SCORE d) else 0.
Definition to_delegatee (name : account_name) (d : TME_fund_for_SCORE_delegation_object) : Z :=
  if decide (dlg_delegatee d = name) then amount (dlg_SCORE d) else 0.
Definition returning_to (name : account_name) (x : TME_fund_for_SCORE_delegation_expiration_object) : Z :=
  if decide (dlx_delegator x = name) then amount (dlx_SCORE x) else 0.

Definition delegated_by (name : account_name) (s : database) : Z :=
  map_sum (by_delegator name) (rows (delegations s)) + map_sum (returning_to name) (rows (delegation_expirations s)).
Definition received_by (name : account_name) (s : database) : Z :=
  map_sum (to_delegatee name) (rows (delegations s)).

Record delegations_ok (s : database) : Prop := {
  dok_rows : map_Forall (λ k d, k = (dlg_delegator d, dlg_delegatee d) ∧ 0 ≤ amount (dlg_SCORE d))
    (rows (delegations s));
  dok_returning : map_Forall (λ _ x, 0 ≤ amount (dlx_SCORE x)) (rows (delegation_expirations s));
  dok_delegated : ∀ k a, rows (accounts s) !! k = Some a → amount (acc_SCOREDelegated a) = delegated_by k s;
  dok_received : ∀ k a, rows (accounts s) !! k = Some a → amount (acc_SCOREreceived a) = received_by k s;
}.

(** * Changes of the caches *)

(** What a change of the caches leaves of an account. *)
Definition withdraw_view (a : account_object) :=
  (acc_SCORE a, acc_SCOREwithdrawRateInTME a, acc_nextSCOREwithdrawalTime a, acc_withdrawn a, acc_to_withdraw a).

(** The caches move by [fd] and [fr]. *)
Record regrants (fd fr : account_name → Z) (s s' : database) : Prop := Regrants {
  rg_frame : frame s s';
  rg_accounts : ∀ k a', rows (accounts s') !! k = Some a' → ∃ a, rows (accounts s) !! k = Some a ∧
    amount (acc_SCOREDelegated a') = amount (acc_SCOREDelegated a) + fd k ∧
    amount (acc_SCOREreceived a') = amount (acc_SCOREreceived a) + fr k ∧
    withdraw_view a' = withdraw_view a;
}.

Definition nowhere : account_name → Z := λ _, 0.
Definition at_name (n : account_name) (x : Z) : account_name → Z := λ k, if decide (n = k) then x else 0.

Lemma regrants_refl s : regrants nowhere nowhere s s.
Proof. split; [done|]. intros k a Ha. exists a. unfold nowhere. split_and!; [done|lia|lia|done]. Qed.

Lemma regrants_trans fd fr fd' fr' s s1 s' :
  regrants fd fr s s1 → regrants fd' fr' s1 s' → regrants (λ k, fd k + fd' k) (λ k, fr k + fr' k) s s'.
Proof.
  intros [F1 A1] [F2 A2]. split; [by etrans|]. intros k a' Ha'.
  destruct (A2 _ _ Ha') as (a1 & H1 & E1 & E2 & E3). destruct (A1 _ _ H1) as (a & H & E4 & E5 & E6).
  exists a. split_and!; [done|lia|lia|congruence].
Qed.

Lemma regrants_set_account s n a a' dd dr :
  rows (accounts s) !! n = Some a → amount (acc_SCOREDelegated a') = amount (acc_SCOREDelegated a) + dd →
  amount (acc_SCOREreceived a') = amount (acc_SCOREreceived a) + dr → withdraw_view a' = withdraw_view a →
  regrants (at_name n dd) (at_name n dr) s (set_row accounts n a' s).
Proof.
  intros Hn Hd Hr Hv. split; [by eapply frame_set_account|]. intros k b Hb. db_fields in Hb. unfold at_name.
  apply lookup_insert_Some in Hb as [[<- <-]|[Hk Hb]].
  - exists a. rewrite !decide_True by done. by split_and!.
  - rewrite !decide_False by done. exists b. split_and!; [done|lia|lia|done].
Qed.

Lemma at_name_zero n k : at_name n 0 k = 0.
Proof. unfold at_name. by case_decide. Qed.

Lemma regrants_ext fd fr fd' fr' s s' :
  regrants fd fr s s' → (∀ k, fd k = fd' k) → (∀ k, fr k = fr' k) → regrants fd' fr' s s'.
Proof.
  intros [Hf Ha] Ed Er. split; [done|]. intros k a' Ha'. destruct (Ha _ _ Ha') as (a & ?). exists a.
  by rewrite <- Ed, <- Er.
Qed.

Section caches.
Context {F : Fc} {FL : FcLaws F}.

Lemma add_delegated_regrants n x s u s' :
  ⟨ add_delegated n x, s ⟩ ⇓ ⟨ u, s' ⟩ → regrants (at_name n (amount x)) nowhere s s'.
Proof.
  unfold add_delegated. intros Hr. db_inv. asset_inv. eapply regrants_ext;
    [apply (regrants_set_account s n v _ (amount x) 0)|done|apply at_name_zero]; fields; done || lia.
Qed.
Lemma sub_delegated_regrants n x s u s' :
  ⟨ sub_delegated n x, s ⟩ ⇓ ⟨ u, s' ⟩ → regrants (at_name n (- amount x)) nowhere s s'.
Proof.
  unfold sub_delegated. intros Hr. db_inv. asset_inv. eapply regrants_ext;
    [apply (regrants_set_account s n v _ (- amount x) 0)|done|apply at_name_zero]; fields; done || lia.
Qed.
Lemma add_received_regrants n x s u s' :
  ⟨ add_received n x, s ⟩ ⇓ ⟨ u, s' ⟩ → regrants nowhere (at_name n (amount x)) s s'.
Proof.
  unfold add_received. intros Hr. db_inv. asset_inv. eapply regrants_ext;
    [apply (regrants_set_account s n v _ 0 (amount x))|apply at_name_zero|done]; fields; done || lia.
Qed.
Lemma sub_received_regrants n x s u s' :
  ⟨ sub_received n x, s ⟩ ⇓ ⟨ u, s' ⟩ → regrants nowhere (at_name n (- amount x)) s s'.
Proof.
  unfold sub_received. intros Hr. db_inv. asset_inv. eapply regrants_ext;
    [apply (regrants_set_account s n v _ 0 (- amount x))|apply at_name_zero|done]; fields; done || lia.
Qed.

End caches.

(** * [delegateSCORE] *)

Section delegate.
Context {F : Fc} {FL : FcLaws F}.

Lemma available_SCORE_ok a x :
  available_SCORE a = Ok x →
  amount x = amount (acc_SCORE a) - amount (acc_SCOREDelegated a) - (acc_to_withdraw a - acc_withdrawn a).
Proof. unfold available_SCORE. intros Ha. asset_inv. cbn [amount] in *. lia. Qed.

(** The account a delegation is taken from covers it. *)
Lemma covered_grant s dr x v :
  withdraws_ok s → rows (accounts s) !! dr = Some v → 0 ≤ x →
  x ≤ amount (acc_SCORE v) - amount (acc_SCOREDelegated v) - (acc_to_withdraw v - acc_withdrawn v) →
  ∀ k a, rows (accounts s) !! k = Some a → 0 ≤ amount (acc_SCOREDelegated a) + at_name dr x k ∧
    amount (acc_SCOREDelegated a) + at_name dr x k + (acc_to_withdraw a - acc_withdrawn a) ≤ amount (acc_SCORE a).
Proof.
  intros Hok Hv Hx Hle k a Hk. destruct (Hok _ _ Hk). unfold at_name. case_decide; simplify_eq; lia.
Qed.

(** What delegating keeps. *)
Record grants_kept (s s' : database) : Prop := GrantsKept {
  gk_withdraws : withdraws_ok s';
  gk_delegations : delegations_ok s';
  gk_routes : withdraw_routes s' = withdraw_routes s;
  gk_time : gpo_time (gpo s') = gpo_time (gpo s);
}.

(** States that differ in the delegations only. *)
Definition same_accounts (s t : database) : Prop :=
  accounts t = accounts s ∧ withdraw_routes t = withdraw_routes s ∧ gpo t = gpo s.

(** Caches that move with the delegations stay exact, and covered. *)
Lemma grants_kept_intro fd fr s t s1 s' :
  withdraws_ok s → delegations_ok s → same_accounts s t → regrants fd fr t s1 → same_accounts s1 s' →
  (∀ k a, rows (accounts s) !! k = Some a → 0 ≤ amount (acc_SCOREDelegated a) + fd k ∧
     amount (acc_SCOREDelegated a) + fd k + (acc_to_withdraw a - acc_withdrawn a) ≤ amount (acc_SCORE a)) →
  (∀ k, delegated_by k s' = delegated_by k s + fd k) → (∀ k, received_by k s' = received_by k s + fr k) →
  map_Forall (λ k d, k = (dlg_delegator d, dlg_delegatee d) ∧ 0 ≤ amount (dlg_SCORE d)) (rows (delegations s')) →
  map_Forall (λ _ x, 0 ≤ amount (dlx_SCORE x)) (rows (delegation_expirations s')) →
  grants_kept s s'.
Proof.
  intros Hok [_ _ Hd Hr] (E1 & E2 & E3) [Hf Ha] (E4 & E5 & E6) Hfd Ed Er Hrows Hret.
  rewrite E1 in Ha. split.
  - intros k a' Ha'. rewrite E4 in Ha'. destruct (Ha _ _ Ha') as (a & Hk & F0 & _ & Hv).
    destruct (Hok _ _ Hk). destruct (Hfd _ _ Hk). unfold withdraw_view in Hv.
    assert (acc_SCORE a' = acc_SCORE a ∧ acc_SCOREwithdrawRateInTME a' = acc_SCOREwithdrawRateInTME a ∧
      acc_nextSCOREwithdrawalTime a' = acc_nextSCOREwithdrawalTime a ∧ acc_withdrawn a' = acc_withdrawn a ∧
      acc_to_withdraw a' = acc_to_withdraw a) as (F1 & F2 & F3 & F4 & F5) by (split_and!; congruence).
    split; rewrite ?F0, ?F1, ?F2, ?F3, ?F4, ?F5; done || lia.
  - split; [done|done|..]; intros k a' Ha'; rewrite E4 in Ha'; destruct (Ha _ _ Ha') as (a & Hk & F1 & F2 & _).
    + rewrite F1, Ed, (Hd _ _ Hk). done.
    + rewrite F2, Er, (Hr _ _ Hk). done.
  - by rewrite E5, (fr_withdraw_routes _ _ Hf), E2.
  - by rewrite E6, (fr_time _ _ Hf), E3.
Qed.

(** Compare the books before and after a change of one row. *)
Ltac sums := unfold delegated_by, received_by, by_delegator, to_delegatee, returning_to, at_name, nowhere; db_fields.

Lemma delegate_new_kept op v x m s u s' :
  rows (accounts s) !! delegateSCORE_delegator op = Some v → available_SCORE v = Ok x →
  0 ≤ amount (delegateSCORE_SCORE op) → withdraws_ok s → delegations_ok s →
  ⟨ delegate_new op x m, s ⟩ ⇓ ⟨ u, s' ⟩ → grants_kept s s'.
Proof.
  intros Hrow Hx Hpos Hok Hdel Hr. unfold delegate_new, head_block_time in Hr.
  apply available_SCORE_ok in Hx. repeat ledger_step. apply asset_ge_ok in Hguard as [_ Hle].
  apply add_delegated_regrants in Hr0. apply add_received_regrants in Hr.
  pose proof (regrants_trans _ _ _ _ _ _ _ Hr0 Hr) as Hg. destruct (rg_frame _ _ _ _ Hg) as [].
  eapply grants_kept_intro; [done..| |exact Hg|done| | | | |].
  - unfold same_accounts. by db_fields.
  - intros k a Hk. unfold nowhere. rewrite Z.add_0_r. eapply covered_grant; [done..|lia|done].
  - intros k. sums. rewrite fr_delegations, fr_delegation_expirations. sums.
    rewrite map_sum_insert_new by done. cbn [dlg_delegator dlg_SCORE]. lia.
  - intros k. sums. rewrite fr_delegations. sums.
    rewrite map_sum_insert_new by done. cbn [dlg_delegatee dlg_SCORE]. lia.
  - rewrite fr_delegations. db_fields. apply map_Forall_insert_2; [done|apply Hdel].
  - rewrite fr_delegation_expirations. db_fields. apply Hdel.
Qed.

Lemma delegate_more_kept op v x m d s u s' :
  rows (accounts s) !! delegateSCORE_delegator op = Some v → available_SCORE v = Ok x →
  rows (delegations s) !! (delegateSCORE_delegator op, delegateSCORE_delegatee op) = Some d →
  amount (dlg_SCORE d) ≤ amount (delegateSCORE_SCORE op) → withdraws_ok s → delegations_ok s →
  ⟨ delegate_more op x m d, s ⟩ ⇓ ⟨ u, s' ⟩ → grants_kept s s'.
Proof.
  intros Hrow Hx Hd Hpos Hok Hdel Hr. unfold delegate_more in Hr.
  apply available_SCORE_ok in Hx. repeat ledger_step. asset_inv.
  apply add_delegated_regrants in Hr0. apply add_received_regrants in Hr1.
  pose proof (regrants_trans _ _ _ _ _ _ _ Hr0 Hr1) as Hg. destruct (rg_frame _ _ _ _ Hg) as [].
  rewrite fr_delegations in *. simplify_eq.
  assert (delegateSCORE_delegator op = dlg_delegator d ∧ delegateSCORE_delegatee op = dlg_delegatee d ∧
    0 ≤ amount (dlg_SCORE d)) as (E1 & E2 & Hpos') by (destruct (dok_rows _ Hdel _ _ Hd) as [[= ? ?] ?]; done).
  eapply grants_kept_intro; [done..|exact Hg| | | | | |].
  - unfold same_accounts. by db_fields.
  - intros k a Hk. unfold nowhere. rewrite Z.add_0_r. eapply covered_grant; [done|done|lia|lia|done].
  - intros k. sums. rewrite fr_delegations, fr_delegation_expirations.
    rewrite (map_sum_insert _ _ _ _ _ Hd). fields. rewrite E1. case_decide; lia.
  - intros k. sums. rewrite fr_delegations.
    rewrite (map_sum_insert _ _ _ _ _ Hd). fields. rewrite E2. case_decide; lia.
  - db_fields. rewrite fr_delegations. apply map_Forall_insert_2; [fields; split; [congruence|lia]|apply Hdel].
  - db_fields. rewrite fr_delegation_expirations. apply Hdel.
Qed.

Lemma delegate_less_kept op v m1 m2 d s u s' :
  rows (accounts s) !! delegateSCORE_delegator op = Some v →
  rows (delegations s) !! (delegateSCORE_delegator op, delegateSCORE_delegatee op) = Some d →
  0 ≤ amount (delegateSCORE_SCORE op) ≤ amount (dlg_SCORE d) → withdraws_ok s → delegations_ok s →
  ⟨ delegate_less op m1 m2 d, s ⟩ ⇓ ⟨ u, s' ⟩ → grants_kept s s'.
Proof.
  intros Hrow Hd Hpos Hok Hdel Hr. unfold delegate_less, head_block_time in Hr.
  assert (delegateSCORE_delegator op = dlg_delegator d ∧ delegateSCORE_delegatee op = dlg_delegatee d)
    as [E1 E2] by (destruct (dok_rows _ Hdel _ _ Hd) as [[= ? ?] _]; done).
  do 2 runs_step. asset_inv. apply runs_bind in Hr as (? & s1 & Hg & Hr).
  assert (s1 = s) as -> by (destruct (0 <? _); repeat ledger_step; done).
  do 3 (runs_step; db_step). apply runs_bind in Hr as (? & s1 & Hsub & Hr).
  apply sub_received_regrants in Hsub as Hg1. destruct (rg_frame _ _ _ _ Hg1) as [].
  assert (same_accounts s1 s' ∧ delegation_expirations s' = delegation_expirations s1 ∧
    rows (delegations s') = if 0 <? amount (delegateSCORE_SCORE op)
      then <[(dlg_delegator d, dlg_delegatee d) := d <| dlg_SCORE := delegateSCORE_SCORE op |>]> (rows (delegations s))
      else delete (dlg_delegator d, dlg_delegatee d) (rows (delegations s))) as (Hsame & Ex & Edel).
  { unfold same_accounts. rewrite <- E1, <- E2. clear Hg. destruct (0 <? _); db_inv;
      [rewrite fr_delegations in Hrow0|]; db_fields; rewrite ?fr_delegations; db_fields; [|done].
    db_fields in Hrow0. rewrite Hd in Hrow0. injection Hrow0 as <-. by injection Hval as <-. }
  rewrite E1, E2 in Hd. pose proof (dok_rows _ Hdel) as Hrows.
  assert (∀ (f : TME_fund_for_SCORE_delegation_object → Z) e, (∀ d', f d' = if (e d' : bool) then amount (dlg_SCORE d') else 0) →
    e (d <| dlg_SCORE := delegateSCORE_SCORE op |>) = e d →
    map_sum f (rows (delegations s')) = map_sum f (rows (delegations s)) - if e d then amount v0 else 0) as Hsum.
  { intros f e Hf He. rewrite Edel. destruct (Z.ltb_spec 0 (amount (delegateSCORE_SCORE op))).
    - rewrite (map_sum_insert _ _ _ _ _ Hd), !Hf, He. fields. destruct (e d); lia.
    - rewrite (map_sum_delete _ _ _ _ Hd), !Hf. destruct (e d); lia. }
  eapply grants_kept_intro; [done..| |exact Hg1|exact Hsame| | | | |].
  - unfold same_accounts. by db_fields.
  - intros k a Hk. unfold nowhere. destruct (Hok _ _ Hk). lia.
  - intros k. unfold delegated_by. rewrite Ex, fr_delegation_expirations.
    rewrite (Hsum _ (λ d, bool_decide (dlg_delegator d = k))); [|intros; unfold by_delegator; by repeat case_decide|by fields].
    sums. rewrite map_sum_insert_new by done. cbn [dlx_delegator dlx_SCORE]. rewrite E1, bool_decide_decide.
    case_decide; lia.
  - intros k. unfold received_by. rewrite E2.
    rewrite (Hsum _ (λ d, bool_decide (dlg_delegatee d = k))); [|intros; unfold to_delegatee; by repeat case_decide|by fields].
    unfold at_name. rewrite bool_decide_decide. case_decide; lia.
  - rewrite Edel. destruct (0 <? _).
    + apply map_Forall_insert_2; [fields; split; [done|lia]|done].
    + by apply map_Forall_delete.
  - rewrite Ex, fr_delegation_expirations. db_fields. apply map_Forall_insert_2; [cbn; lia|apply Hdel].
Qed.

Lemma delegateSCORE_kept op s u s' :
  delegateSCORE_validate op = Ok tt → withdraws_ok s → delegations_ok s →
  ⟨ delegateSCORE_apply op, s ⟩ ⇓ ⟨ u, s' ⟩ → grants_kept s s'.
Proof.
  intros Hv Hok Hdel Hr.
  assert (0 ≤ amount (delegateSCORE_SCORE op)) as Hpos.
  { unfold delegateSCORE_validate in Hv. asset_inv. unfold fc_check_r in Hv. asset_inv.
    subst. match goal with H : asset_ge _ _ = Ok _ |- _ => apply asset_ge_ok in H as [_ H]; exact H end. }
  unfold delegateSCORE_apply, get_account, get_witness_schedule_object, get_dynamic_global_properties in Hr.
  do 9 (runs_step; db_step).
  destruct (rows (delegations s) !! _) as [d|] eqn:Hd; [|by eapply delegate_new_kept].
  do 2 runs_step. apply asset_ge_value in Hval3 as [_ Hc]. destruct v5; symmetry in Hc; bool_hyps.
  - by eapply delegate_more_kept.
  - eapply delegate_less_kept; [done..|lia|done|done|done].
Qed.

(** ** [clear_expired_delegations] *)

Definition grants_keep (s s' : database) : Prop := withdraws_ok s → delegations_ok s → grants_kept s s'.
#[local] Instance grants_keep_preorder : PreOrder grants_keep.
Proof.
  split; [intros s ??; by split|]. intros s1 s2 s3 H1 H2 Hw Hd. destruct (H1 Hw Hd) as [W D R T].
  destruct (H2 W D) as [W' D' R' T']. split; [done|done|by rewrite R', R|by rewrite T', T].
Qed.

Lemma returning_covered s k x :
  delegations_ok s → rows (delegation_expirations s) !! k = Some x → amount (dlx_SCORE x) ≤ delegated_by (dlx_delegator x) s.
Proof.
  intros Hdel Hk. unfold delegated_by.
  assert (returning_to (dlx_delegator x) x ≤ map_sum (returning_to (dlx_delegator x)) (rows (delegation_expirations s))) as Hle.
  { apply (map_sum_lookup_le _ _ k); [|done]. intros k' y Hy. pose proof (dok_returning _ Hdel _ _ Hy). cbn beta in *.
    unfold returning_to. case_decide; lia. }
  assert (0 ≤ map_sum (by_delegator (dlx_delegator x)) (rows (delegations s))).
  { apply map_sum_nonneg. intros k' d Hd. destruct (dok_rows _ Hdel _ _ Hd). unfold by_delegator. case_decide; lia. }
  assert (returning_to (dlx_delegator x) x = amount (dlx_SCORE x)) as E by (unfold returning_to; by rewrite decide_True).
  lia.
Qed.

Lemma clear_expired_delegations_kept : preserves grants_keep clear_expired_delegations.
Proof.
  intros s u s' Hr. unfold clear_expired_delegations, head_block_time in Hr. runs_step. db_step.
  revert Hr. apply drain_preserves; [apply _|]. intros k x t v t' Hk _ Hr. clear s u s'. rename t into s, t' into s'.
  intros Hok Hdel. apply runs_bind in Hr as (? & s1 & Hg & Hr). apply sub_delegated_regrants in Hg.
  destruct (rg_frame _ _ _ _ Hg) as [].
  unfold push_virtual_operation in Hr. db_inv.
  eapply grants_kept_intro; [done..| |exact Hg| | | | | |].
  - done.
  - unfold same_accounts. by db_fields.
  - intros k' a Hk'. pose proof (returning_covered _ _ _ Hdel Hk). destruct (Hok _ _ Hk').
    rewrite (dok_delegated _ Hdel _ _ Hk') in *. pose proof (dok_returning _ Hdel _ _ Hk). cbn beta in *. unfold at_name.
    case_decide; [subst|]; lia.
  - intros k'. sums. rewrite fr_delegations, fr_delegation_expirations.
    rewrite (map_sum_delete _ _ _ _ Hk). case_decide; lia.
  - intros k'. sums. rewrite fr_delegations. lia.
  - db_fields. rewrite fr_delegations. apply Hdel.
  - db_fields. rewrite fr_delegation_expirations. apply map_Forall_delete, Hdel.
Qed.

(** ** The other evaluators *)

(** The books only depend on the delegations and the caches. *)
Lemma delegations_ok_keeps s s' :
  delegations s' = delegations s → delegation_expirations s' = delegation_expirations s → keeps grant_view s s' →
  delegations_ok s → delegations_ok s'.
Proof.
  intros E1 E2 Hk [D1 D2 D3 D4].
  assert (∀ k, delegated_by k s' = delegated_by k s ∧ received_by k s' = received_by k s) as Hb
    by (intros k; unfold delegated_by, received_by; by rewrite E1, E2).
  split; [by rewrite E1|by rewrite E2|..]; intros k a' Ha';
    destruct (keeps_lookup _ _ _ _ _ Hk Ha') as (a & Ha & Hv); injection Hv as Hv1 Hv2.
  - rewrite Hv1, (D3 _ _ Ha). symmetry. apply Hb.
  - rewrite Hv2, (D4 _ _ Ha). symmetry. apply Hb.
Qed.

(** What leaves the tables and at most adds SCORE keeps the books. *)
Lemma deposits_kept s s' : deposits s s' → grants_keep s s'.
Proof.
  intros [Hf Hg] Hok Hdel. split.
  - by eapply withdraws_ok_grows.
  - eapply delegations_ok_keeps; [apply Hf|apply Hf|by apply grows_grants|done].
  - apply (fr_withdraw_routes _ _ Hf).
  - apply (fr_time _ _ Hf).
Qed.

Lemma adjust_balance_deposits n d s u s' : ⟨ adjust_balance n d, s ⟩ ⇓ ⟨ u, s' ⟩ → deposits s s'.
Proof. intros Hr. apply deposits_keeps; [exact (adjust_balance_frame _ _ _ _ _ Hr)|exact (adjust_balance_keeps _ _ _ _ _ Hr)]. Qed.
Lemma adjust_reward_balance_deposits n d s u s' : ⟨ adjust_reward_balance n d, s ⟩ ⇓ ⟨ u, s' ⟩ → deposits s s'.
Proof. intros Hr. apply deposits_keeps; [exact (adjust_reward_balance_frame _ _ _ _ _ Hr)|exact (adjust_reward_balance_keeps _ _ _ _ _ Hr)]. Qed.

Lemma adjust_balance_coin n d s u s' :
  symbol d = SYMBOL_COIN → ⟨ adjust_balance n d, s ⟩ ⇓ ⟨ u, s' ⟩ → gpo s' = gpo s.
Proof. intros Hd Hr. unfold adjust_balance in Hr. rewrite Hd, Z.eqb_refl in Hr. db_inv. by db_fields. Qed.

Lemma createTMEfundForSCORE_deposits n a s r s' :
  (∀ x, asset_mul a (get_SCORE_price (gpo s)) = Ok x → 0 ≤ amount x) →
  ⟨ createTMEfundForSCORE n a false, s ⟩ ⇓ ⟨ r, s' ⟩ → deposits s s'.
Proof.
  intros Hpos Hr. unfold createTMEfundForSCORE, get_dynamic_global_properties, adjust_proxied_witness_votes in Hr.
  cbn [negb mwhen] in Hr. db_inv. injection Hval as <-. specialize (Hpos _ Hval0). clear Hval0. asset_inv.
  etrans; [|by eapply proxied_deposits].
  match goal with H : ⟨ _, set_field _ _ ?t ⟩ ⇓ ⟨ _, _ ⟩ |- _ => trans t end.
  - eapply deposits_set_account; [done|by unfold other_view; fields|fields; lia].
  - apply deposits_gpo; by fields.
Qed.

Lemma transferTMEtoSCOREfund_deposits o s u s' :
  transferTMEtoSCOREfund_validate o = Ok tt →
  (∀ x, asset_mul (transferTMEtoSCOREfund_amount o) (get_SCORE_price (gpo s)) = Ok x → 0 ≤ amount x) →
  ⟨ transferTMEtoSCOREfund_apply o, s ⟩ ⇓ ⟨ u, s' ⟩ → deposits s s'.
Proof.
  unfold transferTMEtoSCOREfund_validate, transferTMEtoSCOREfund_apply. intros Hv Hpos Hr.
  apply result_bind_ok in Hv as (? & _ & Hv). apply result_bind_ok in Hv as (? & Hv & _).
  apply fc_check_ok, Z.eqb_eq in Hv. unfold get_account in Hr. do 6 (runs_step; try db_step). db_inv.
  apply runs_db_assert in Hr0 as [_ ->]. asset_inv. pose proof (adjust_balance_coin _ _ _ _ _ ltac:(by etrans) Hr1) as Hg.
  etrans; [by eapply adjust_balance_deposits|]. eapply createTMEfundForSCORE_deposits; [|done]. by rewrite Hg.
Qed.

Lemma deposits_modify_account n f :
  (∀ a a', f a = Ok a' → other_view a' = other_view a ∧ amount (acc_SCORE a) ≤ amount (acc_SCORE a')) →
  preserves deposits (modify accounts n f).
Proof. intros Hf s u s' Hr. db_inv. destruct (Hf _ _ Hval). by eapply deposits_set_account. Qed.
Lemma deposits_modify_gpo f :
  (∀ g g', f g = Ok g' → gpo_time g' = gpo_time g ∧ gpo_head_block_number g' = gpo_head_block_number g) →
  preserves deposits (modify1 gpo f).
Proof. intros Hf s u s' Hr. db_inv. apply Hf in Hval as []. by apply deposits_gpo. Qed.
Lemma deposits_reads {A} (m : DB A) : (∀ s a s', ⟨ m, s ⟩ ⇓ ⟨ a, s' ⟩ → s' = s) → preserves deposits m.
Proof. by intros Hm s a s' ->%Hm. Qed.

Lemma claimRewardBalance_deposits o s u s' :
  claimRewardBalance_validate o = Ok tt → ⟨ claimRewardBalance_apply o, s ⟩ ⇓ ⟨ u, s' ⟩ → deposits s s'.
Proof.
  intros Hv. revert s u s'. change (preserves deposits (claimRewardBalance_apply o)).
  unfold claimRewardBalance_validate in Hv. asset_inv. bool_hyps.
  unfold claimRewardBalance_apply, get_account, adjust_proxied_witness_votes.
  repeat first
    [ exact (proxied_deposits _ _ _) | exact (adjust_balance_deposits _ _) | exact (adjust_reward_balance_deposits _ _)
    | apply deposits_modify_account; intros ? ? ?; asset_inv; unfold other_view; fields; split; [done|lia]
    | apply deposits_modify_gpo; intros ? ? ?; asset_inv; fields; done
    | apply (preserves_lift deposits)
    | apply deposits_reads; intros; by repeat ledger_step
    | apply (preserves_bind deposits); [|intros ?] ].
Qed.

Lemma modify_withdrawal_kept n a a' s :
  rows (accounts s) !! n = Some a → grant_view a' = grant_view a → (withdraw_ok a → withdraw_ok a') →
  grants_keep s (set_row accounts n a' s).
Proof.
  intros Hn Hg Hw Hok Hdel. split; [| |by db_fields..].
  - intros k b Hb. db_fields in Hb. apply lookup_insert_Some in Hb as [[<- <-]|[_ Hb]]; [|by eapply Hok].
    apply Hw. by eapply Hok.
  - eapply delegations_ok_keeps; [by db_fields..|by eapply keeps_set_account|done].
Qed.

Lemma check_min_SCORE_reads o a s u s' : ⟨ check_min_SCORE o a, s ⟩ ⇓ ⟨ u, s' ⟩ → s' = s.
Proof. unfold check_min_SCORE. autounfold with accessors. intros Hr. by repeat ledger_step. Qed.

Lemma withdrawSCORE_kept o s u s' : ⟨ withdrawSCORE_apply o, s ⟩ ⇓ ⟨ u, s' ⟩ → grants_keep s s'.
Proof.
  unfold withdrawSCORE_apply. autounfold with accessors. intros Hr.
  runs_step; db_step. destruct (Z.ltb_spec (amount (withdrawSCORE_SCORE o)) 0); [by repeat ledger_step|].
  do 3 (runs_step; try ledger_step). apply runs_bind in Hr as (? & s1 & Hm & Hr).
  apply check_min_SCORE_reads in Hm as ->. runs_step. db_step.
  asset_inv. destruct (Z.eqb_spec (amount (withdrawSCORE_SCORE o)) 0) as [E|E].
  - apply runs_bind in Hr as (? & s1 & Hm & Hr). assert (s1 = s) as -> by (by repeat ledger_step).
    db_inv. simplify_eq. apply (modify_withdrawal_kept _ v); [done|unfold grant_view; by fields|].
    intros []. split; fields; cbn; try lia; done.
  - do 2 (runs_step; db_step). db_inv. simplify_eq.
    apply result_bind_ok in Hval as (r & Hq & Hval). apply result_bind_ok in Hval as (? & _ & [= <-]).
    assert (0 ≤ r) as Hrate.
    { destruct (hardfork_active s HARDFORK_0_16); apply safe_div_ok in Hq as [-> _]; try done; apply Z.quot_pos; done. }
    apply (modify_withdrawal_kept _ v); [done|unfold grant_view; by fields|].
    intros []. split; fields; cbn [amount]; try lia.
    intros _. split; [destruct (Z.eqb_spec r 0); lia|apply Z.divide_0_r].
Qed.

(** States that differ in the routes only. *)
Lemma routes_changed s s1 :
  accounts s1 = accounts s → delegations s1 = delegations s → delegation_expirations s1 = delegation_expirations s →
  withdraws_ok s → delegations_ok s → withdraws_ok s1 ∧ delegations_ok s1.
Proof.
  intros E1 E2 E3 Hok Hdel. split; [unfold withdraws_ok; by rewrite E1|].
  eapply delegations_ok_keeps; [done|done| |done]. intros k. by rewrite E1.
Qed.

Lemma count_routes_kept n f s u s' :
  withdraws_ok s ∧ delegations_ok s → routes_ok s →
  ⟨ modify accounts n (λ a, Ok (a <| acc_withdraw_routes ::= f |>)), s ⟩ ⇓ ⟨ u, s' ⟩ →
  withdraws_ok s' ∧ delegations_ok s' ∧ routes_ok s'.
Proof.
  intros [Hok Hdel] Hro Hm. db_inv. injection Hval as <-.
  assert (grants_keep s (set_row accounts n (v <| acc_withdraw_routes ::= f |>) s)) as Hk.
  { eapply modify_withdrawal_kept; [done|unfold grant_view; by fields|]. intros []. split; fields; auto. }
  destruct (Hk Hok Hdel) as [K1 K2 _ _]. exact (conj K1 (conj K2 Hro)).
Qed.

Lemma setWithdrawSCOREasTMEroute_kept o s u s' :
  setWithdrawSCOREasTMEroute_validate o = Ok tt → ⟨ setWithdrawSCOREasTMEroute_apply o, s ⟩ ⇓ ⟨ u, s' ⟩ →
  withdraws_ok s → delegations_ok s → routes_ok s → withdraws_ok s' ∧ delegations_ok s' ∧ routes_ok s'.
Proof.
  unfold setWithdrawSCOREasTMEroute_validate, setWithdrawSCOREasTMEroute_apply, get_account. intros Hv Hr Hok Hdel Hro.
  assert (0 ≤ setWithdrawRoute_percent o ≤ PERCENT_100) as Hp by (clear Hr; asset_inv; bool_hyps; lia). clear Hv.
  do 3 (runs_step; db_step). apply runs_bind in Hr as (? & s1 & Hr & Hc).
  assert (s' = s1) as -> by (by repeat ledger_step).
  destruct (rows (withdraw_routes s) !! (acc_id v, acc_id v0)) as [r|] eqn:Hrt.
  - destruct (setWithdrawRoute_percent o =? 0).
    + runs_step. db_step. refine (count_routes_kept _ _ _ _ _ _ _ Hr); [by apply (routes_changed s)|].
      unfold routes_ok. db_fields. by apply map_Forall_delete.
    + db_inv. split_and!; [by apply (routes_changed s)..|]. unfold routes_ok. db_fields.
      injection Hval as <-. apply map_Forall_insert_2; [by fields|done].
  - clear Hc. apply runs_bind in Hr as (? & ? & Hg & Hr). apply runs_assert in Hg as [_ ->].
    apply runs_bind in Hr as (? & ? & Hg & Hr). apply runs_assert in Hg as [_ ->].
    apply runs_bind in Hr as (? & ? & Hg & Hr). apply runs_create in Hg as [_ ->].
    refine (count_routes_kept _ _ _ _ _ _ _ Hr); [by apply (routes_changed s)|].
    unfold routes_ok. db_fields. by apply map_Forall_insert_2.
Qed.

(** * The invariant of SCORE *)

(** Everything that moves SCORE, as steps of the state.  Buying SCORE assumes that
    the conversion did not wrap to a negative amount ([Asset.asset_mul_spec]). *)
Inductive score_step (s s' : database) : Prop :=
  | step_buy o u :
      transferTMEtoSCOREfund_validate o = Ok tt →
      (∀ x, asset_mul (transferTMEtoSCOREfund_amount o) (get_SCORE_price (gpo s)) = Ok x → 0 ≤ amount x) →
      ⟨ transferTMEtoSCOREfund_apply o, s ⟩ ⇓ ⟨ u, s' ⟩ → score_step s s'
  | step_withdraw o u : ⟨ withdrawSCORE_apply o, s ⟩ ⇓ ⟨ u, s' ⟩ → score_step s s'
  | step_route o u :
      setWithdrawSCOREasTMEroute_validate o = Ok tt → ⟨ setWithdrawSCOREasTMEroute_apply o, s ⟩ ⇓ ⟨ u, s' ⟩ →
      score_step s s'
  | step_claim o u :
      claimRewardBalance_validate o = Ok tt → ⟨ claimRewardBalance_apply o, s ⟩ ⇓ ⟨ u, s' ⟩ → score_step s s'
  | step_delegate o u :
      delegateSCORE_validate o = Ok tt → ⟨ delegateSCORE_apply o, s ⟩ ⇓ ⟨ u, s' ⟩ → score_step s s'
  | step_return u : ⟨ clear_expired_delegations, s ⟩ ⇓ ⟨ u, s' ⟩ → score_step s s'
  | step_withdrawals u :
      gpo_time (gpo s) < tps_max → ⟨ process_TME_fund_for_SCORE_withdrawals, s ⟩ ⇓ ⟨ u, s' ⟩ → score_step s s'.

Record score_ok (s : database) : Prop := {
  sok_withdraws : withdraws_ok s;
  sok_delegations : delegations_ok s;
  sok_routes : routes_ok s;
}.

Lemma grants_kept_score s s' : score_ok s → grants_kept s s' → score_ok s'.
Proof. intros [_ _ Hro] [Hw Hd Er _]. split; [done|done|]. unfold routes_ok. by rewrite Er. Qed.

Lemma score_step_kept s s' : score_step s s' → score_ok s → score_ok s' ∧ conserves s s'.
Proof.
  intros Hstep Hok. destruct (Hok) as [Hw Hd Hro]. destruct Hstep as [o u Hv Hp Hr|o u Hr|o u Hv Hr|o u Hv Hr|o u Hv Hr|u Hr|u Hnow Hr].
  - split; [|by eapply transferTMEtoSCOREfund_conserves]. apply (grants_kept_score s); [done|].
    apply deposits_kept; [|done..]. by eapply transferTMEtoSCOREfund_deposits.
  - split; [|by eapply withdrawSCORE_conserves]. apply (grants_kept_score s); [done|]. by eapply withdrawSCORE_kept.
  - split; [|by eapply setWithdrawSCOREasTMEroute_conserves].
    destruct (setWithdrawSCOREasTMEroute_kept _ _ _ _ Hv Hr Hw Hd Hro) as (? & ? & ?). done.
  - split; [|by eapply claimRewardBalance_conserves]. apply (grants_kept_score s); [done|].
    apply deposits_kept; [|done..]. by eapply claimRewardBalance_deposits.
  - split; [|by eapply delegateSCORE_conserves]. apply (grants_kept_score s); [done|]. by eapply delegateSCORE_kept.
  - split; [|by eapply clear_expired_delegations_conserves]. apply (grants_kept_score s); [done|].
    by eapply clear_expired_delegations_kept.
  - unfold process_TME_fund_for_SCORE_withdrawals in Hr. do 2 (runs_step; db_step).
    apply withdrawals_from_kept in Hr as [Hc Hw' Hf Hg]; [|done..]. split; [|done].
    split; [done| |unfold routes_ok; by rewrite (fr_withdraw_routes _ _ Hf)].
    eapply delegations_ok_keeps; [apply Hf|apply Hf|done|done].
Qed.

(** C32. Buying, withdrawing, routing, claiming, delegating and returning SCORE, in
    any order and number, keep every account's delegated SCORE equal to the
    delegations on record, keep its SCORE enough for what it delegated and still
    withdraws, and neither create nor destroy TME, TSD or SCORE off the books. *)
Theorem score_invariant s s' :
  rtc score_step s s' → score_ok s → score_ok s' ∧ conserves s s'.
Proof.
  induction 1 as [s|s1 s2 s3 Hstep _ IH]; intros Hok; [done|].
  destruct (score_step_kept _ _ Hstep Hok) as [Hok2 Hc]. destruct (IH Hok2) as [Hok3 Hc']. split; [done|by etrans].
Qed.
End delegate.

(** * Witnesses *)

Lemma sample_score_ok : score_ok sample_withdrawals.
Proof.
  destruct sample_withdrawals_ok as (Hw & Hro & _). split; [done| |done].
  assert (map_Forall (λ _ a, grant_view a = (score 0, score 0)) (rows (accounts sample_withdrawals))) as Ha.
  { unfold sample_withdrawals, sample_db, two_accounts. db_fields. cbn [accounts rows]. intros k a Hk.
    apply lookup_insert_Some in Hk as [[<- <-]|[_ Hk]]; [|apply lookup_insert_Some in Hk as [[<- <-]|[_ Hk]];
      [|apply lookup_insert_Some in Hk as [[<- <-]|[_ Hk]]; [|done]]]; reflexivity. }
  split; [apply map_Forall_empty|apply map_Forall_empty|..]; intros k a Hk; apply Ha in Hk; injection Hk as Hd Hr.
  - by rewrite Hd.
  - by rewrite Hr.
Qed.

(** Alice, who is withdrawing, lends Bob 100 SCORE; then her next step is due. *)
Lemma score_invariant_witness :
  score_ok (outcome process_TME_fund_for_SCORE_withdrawals
    (outcome (delegateSCORE_apply alice_delegates) sample_withdrawals)).
Proof.
  apply (score_invariant sample_withdrawals); [|exact sample_score_ok].
  eapply rtc_l; [|apply rtc_once].
  - apply (step_delegate _ _ alice_delegates tt); [reflexivity|runs_ok].
  - apply (step_withdrawals _ _ tt); [reflexivity|runs_ok].
Defined.
