(* ===== verification/Votes.v ===== *)
(** Witness votes: the voting evaluators of [chain/node_evaluator.cpp] and
    [process_decline_voting_rights] of [chain/database.cpp].

    An account votes for witnesses with its SCORE, or hands its SCORE to a proxy,
    whose own proxy gets it in turn, up to [MAX_PROXY_RECURSION_DEPTH] accounts
    away.  The votes of a witness and the SCORE proxied to an account are cached
    in their objects; the theorems show that the caches are exact. *)

From S2P Require Import Prelude Fc Config Asset Flat Authority Operations Objects Database Samples Ledger Frame Supply.

Section votes.
Context {F : Fc}.

(** [account_object::witness_vote_weight], libraries/chain/include/node/chain/account_object.hpp:115-119 *)
Definition witness_vote_weight (a : account_object) : result Z :=
  foldl (λ acc v, t ← acc; safe_add t v) (Ok (amount (acc_SCORE a))) (acc_proxied_votes a).

(** The array the proxy code passes to [adjust_proxied_witness_votes]: minus the
    SCORE of the account and minus what is proxied to it. *)
Fixpoint negate_all (l : list Z) : result (list Z) :=
  match l with
  | [] => Ok []
  | x :: l => y ← safe_neg x; ys ← negate_all l; Ok (y :: ys)
  end.
Definition own_votes (a : account_object) : list Z := amount (acc_SCORE a) :: acc_proxied_votes a.

(** The walk over the new proxy's proxies in [account_witness_proxy]. *)
Fixpoint check_proxy_chain (fuel : nat) (proxy_chain : list Z) (cprox : account_object) : DB unit :=
  if negb (nonempty (acc_proxy cprox)) then mret tt
  else
    match fuel with
    | O => throw (logic_error "out of fuel")
    | S fuel =>
        next_proxy ← get_account (acc_proxy cprox);
        fc_assert (negb (bool_decide (acc_id next_proxy ∈ proxy_chain))) "This proxy would create a proxy loop.";;
        let proxy_chain := acc_id next_proxy :: proxy_chain in
        fc_assert (Z.of_nat (length proxy_chain) <=? MAX_PROXY_RECURSION_DEPTH) "Proxy chain is too long.";;
        check_proxy_chain fuel proxy_chain next_proxy
    end.

(** [account_witness_proxy_evaluator::do_apply], libraries/chain/node_evaluator.cpp:1024-1068 *)
Definition account_witness_proxy_apply (o : account_witness_proxy_operation) : DB unit :=
  let name := witness_proxy_account o in
  let proxy := witness_proxy_proxy o in
  account ← get_account name;
  fc_assert (negb (str_eqb (acc_proxy account) proxy)) "Proxy must change.";;
  fc_assert (acc_can_vote account) "Account has declined the ability to vote and cannot proxy votes.";;
  delta ← lift (negate_all (own_votes account));
  adjust_proxied_witness_votes_array name delta;;
  if nonempty proxy then
    account ← get_account name;
    new_proxy ← get_account proxy;
    let proxy_chain := if acc_id account =? acc_id new_proxy then [acc_id account]
                       else [acc_id account; acc_id new_proxy] in
    check_proxy_chain (Z.to_nat MAX_PROXY_RECURSION_DEPTH) proxy_chain new_proxy;;
    clear_witness_votes name;;
    modify accounts name (λ a, Ok (a <| acc_proxy := proxy |>));;
    delta ← lift (negate_all delta);
    adjust_proxied_witness_votes_array name delta
  else modify accounts name (λ a, Ok (a <| acc_proxy := proxy |>)).

(** [accountWitnessVote_evaluator::do_apply], libraries/chain/node_evaluator.cpp:1071-1136 *)
Definition accountWitnessVote_apply (o : accountWitnessVote_operation) : DB unit :=
  let name := accountWitnessVote_account o in
  let witness_name := accountWitnessVote_witness o in
  voter ← get_account name;
  fc_assert (negb (nonempty (acc_proxy voter)))
    "A proxy is currently set, please clear the proxy before voting for a witness.";;
  mwhen (accountWitnessVote_approve o)
    (fc_assert (acc_can_vote voter) "Account has declined its voting rights.");;
  witness ← get_witness witness_name;
  let k := (acc_id voter, wit_id witness) in
  itr ← find witness_votes k;
  hf2 ← has_hardfork HARDFORK_0_2;
  hf3 ← has_hardfork HARDFORK_0_3;
  let new_vote id := {| wvo_id := id; wvo_witness := wit_id witness; wvo_account := acc_id voter |} in
  match itr with
  | None =>
      fc_assert (accountWitnessVote_approve o) "Vote doesn't exist, user must indicate a desire to approve witness.";;
      (if (hf2 : bool) then
         fc_assert (acc_witnesses_voted_for voter <? MAX_accountWitnessVoteS) "Account has voted for too many witnesses.";;
         create witness_votes k new_vote;;
         weight ← lift (witness_vote_weight voter);
         if (hf3 : bool) then adjust_witness_vote witness_name weight
         else adjust_proxied_witness_votes name weight
       else
         create witness_votes k new_vote;;
         modify witnesses witness_name (λ w,
           weight ← witness_vote_weight voter; v ← safe_add (wit_votes w) weight; Ok (w <| wit_votes := v |>)));;
      modify accounts name (λ a, Ok (a <| acc_witnesses_voted_for ::= λ n, wrap_u16 (n + 1) |>))
  | Some _ =>
      fc_assert (negb (accountWitnessVote_approve o)) "Vote currently exists, user must indicate a desire to reject witness.";;
      (if (hf2 : bool) then
         weight ← lift (witness_vote_weight voter ≫= safe_neg);
         if (hf3 : bool) then adjust_witness_vote witness_name weight
         else adjust_proxied_witness_votes name weight
       else
         modify witnesses witness_name (λ w,
           weight ← witness_vote_weight voter; v ← safe_sub (wit_votes w) weight; Ok (w <| wit_votes := v |>)));;
      modify accounts name (λ a, Ok (a <| acc_witnesses_voted_for ::= λ n, wrap_u16 (n - 1) |>));;
      remove witness_votes k
  end.

(** [decline_voting_rights_evaluator::do_apply], libraries/chain/node_evaluator.cpp:2094-2117 *)
Definition decline_voting_rights_apply (o : decline_voting_rights_operation) : DB unit :=
  hf ← has_hardfork HARDFORK_0_14;
  fc_assert hf EmptyString;;
  account ← get_account (decline_voting_rights_account o);
  itr ← find decline_requests (acc_id account);
  if decline_voting_rights_decline o then
    fc_assert (bool_decide (itr = None)) "Cannot create new request because one already exists.";;
    now ← head_block_time;
    create decline_requests (acc_id account) (λ id,
      {| dvr_id := id; dvr_account := acc_id account; dvr_effective_date := tps_add now OWNER_AUTH_RECOVERY_PERIOD |})
  else
    fc_assert (negb (bool_decide (itr = None))) "Cannot cancel the request because it does not exist.";;
    remove decline_requests (acc_id account).

(** The body of the loop of [process_decline_voting_rights]. *)
Definition decline_votes (k : Z) (r : decline_voting_rights_request_object) : DB unit :=
  name ← get_account_by_id (dvr_account r);
  account ← get_account name;
  delta ← lift (negate_all (own_votes account));
  adjust_proxied_witness_votes_array name delta;;
  clear_witness_votes name;;
  modify accounts name (λ a, Ok (a <| acc_can_vote := false |> <| acc_proxy := PROXY_TO_SELF_ACCOUNT |>));;
  remove decline_requests k.

(** The order of the index [by_effective_date]. *)
Definition decline_order : decline_voting_rights_request_object → decline_voting_rights_request_object → comparison :=
  then_by (by_key dvr_effective_date Z.compare) (by_key dvr_account Z.compare).

(** [database::process_decline_voting_rights], libraries/chain/database.cpp:2136-2163 *)
Definition process_decline_voting_rights : DB unit :=
  now ← head_block_time;
  drain decline_requests (at_most decline_order) (λ r, dvr_effective_date r <=? now) decline_votes.

(** * What the caches should hold *)

Context {FL : FcLaws F}.

Definition sumZ (l : list Z) : Z := foldr Z.add 0 l.
Lemma sumZ_app l1 l2 : sumZ (l1 ++ l2) = sumZ l1 + sumZ l2.
Proof. induction l1 as [|x l1 IH]; cbn in *; [done|]. unfold sumZ in *. cbn. lia. Qed.
Lemma sumZ_perm l1 l2 : l1 ≡ₚ l2 → sumZ l1 = sumZ l2.
Proof. unfold sumZ. induction 1; cbn; lia. Qed.
Lemma sumZ_insert i x l v : l !! i = Some x → sumZ (<[i := v]> l) = sumZ l - x + v.
Proof.
  revert i. induction l as [|y l IH]; intros [|i] Hi; cbn in Hi; try done.
  - injection Hi as ->. unfold sumZ. cbn. lia.
  - specialize (IH _ Hi). change (y + sumZ (<[i := v]> l) = y + sumZ l - x + v). lia.
Qed.

(** The weight of an account that votes itself, and what it counts for in
    [validate_invariants]: the votes that stop at it. *)
Definition acc_weight (a : account_object) : Z := amount (acc_SCORE a) + sumZ (acc_proxied_votes a).
Definition votes_counted (a : account_object) : Z :=
  if bool_decide (acc_proxy a = PROXY_TO_SELF_ACCOUNT) then acc_weight a
  else nth (Z.to_nat (MAX_PROXY_RECURSION_DEPTH - 1)) (acc_proxied_votes a) 0.

Lemma witness_vote_weight_ok a w : witness_vote_weight a = Ok w → w = acc_weight a.
Proof.
  unfold witness_vote_weight, acc_weight. generalize (amount (acc_SCORE a)) as x. intros x.
  assert (∀ l r, foldl (λ acc v, t ← acc; safe_add t v) r l = Ok w → ∃ y, r = Ok y ∧ w = y + sumZ l) as Hl.
  { induction l as [|v l IH]; intros r Hr; cbn in Hr; [exists w; split; [done|change (sumZ []) with 0; lia]|].
    apply IH in Hr as (y & Hy & ->). apply result_bind_ok in Hy as (z & -> & [-> _]%safe_add_ok).
    exists z. split; [done|]. change (sumZ (v :: l)) with (v + sumZ l). lia. }
  intros Hr. apply Hl in Hr as (y & [= <-] & ->). done.
Qed.

(** [gpo.totalSCORE - totalSCOREfundTMEbalance_votes] of [validate_invariants], libraries/chain/database.cpp:3930-4034 *)
Definition vote_gap (s : database) : Z :=
  amount (gpo_totalSCORE (gpo s)) - map_sum votes_counted (rows (accounts s)).

(** Does the account vote for the witness, and what do its supporters weigh? *)
Definition voted (s : database) (account witness : Z) : bool :=
  bool_decide (is_Some (rows (witness_votes s) !! (account, witness))).
Definition supporters (s : database) (witness : Z) : Z :=
  map_sum (λ a, if voted s (acc_id a) witness then acc_weight a else 0) (rows (accounts s)).

(** The cached votes are the supporters' weight, up to [f]. *)
Definition exact_up_to (f : Z → Z) (s : database) : Prop :=
  ∀ n w, rows (witnesses s) !! n = Some w → wit_votes w = supporters s (wit_id w) + f (wit_id w).
Abbreviation votes_exact := (exact_up_to (λ _, 0)).

(** The proxies of an account end at an account without one. *)
Inductive chain_ends (s : database) : account_name → Prop :=
| ends_here k a : rows (accounts s) !! k = Some a → acc_proxy a = PROXY_TO_SELF_ACCOUNT → chain_ends s k
| ends_above k a : rows (accounts s) !! k = Some a → acc_proxy a ≠ PROXY_TO_SELF_ACCOUNT →
    chain_ends s (acc_proxy a) → chain_ends s k.

(** The state the voting code relies on and keeps. *)
Record votes_wf (s : database) : Prop := VotesWf {
  vw_array k a : rows (accounts s) !! k = Some a → length (acc_proxied_votes a) = Z.to_nat MAX_PROXY_RECURSION_DEPTH;
  vw_ids k k' a a' : rows (accounts s) !! k = Some a → rows (accounts s) !! k' = Some a' → acc_id a = acc_id a' → k = k';
  vw_witness_ids n n' w w' : rows (witnesses s) !! n = Some w → rows (witnesses s) !! n' = Some w' → wit_id w = wit_id w' → n = n';
  vw_voters k a w : rows (accounts s) !! k = Some a → acc_proxy a ≠ PROXY_TO_SELF_ACCOUNT → rows (witness_votes s) !! (acc_id a, w) = None;
  vw_chains k a : rows (accounts s) !! k = Some a → chain_ends s k;
}.

(** ** Moving votes *)

Record votes_moved (f : Z → Z) (s s' : database) : Prop := VotesMoved {
  vm_rest : s' = s <| witnesses := witnesses s' |>;
  vm_rows : ∀ n w', rows (witnesses s') !! n = Some w' →
    ∃ w, rows (witnesses s) !! n = Some w ∧ wit_id w' = wit_id w ∧ wit_votes w' = wit_votes w + f (wit_id w);
}.

Lemma votes_moved_refl s : votes_moved (λ _, 0) s s.
Proof. split; [by destruct s|]. intros n w Hw. exists w. split_and!; [done..|lia]. Qed.

Lemma votes_moved_trans f g s s1 s2 :
  votes_moved f s s1 → votes_moved g s1 s2 → votes_moved (λ w, f w + g w) s s2.
Proof.
  intros [Hr1 Hw1] [Hr2 Hw2]. split.
  - rewrite Hr2, Hr1. by destruct s, s1, s2.
  - intros n w2 H2. apply Hw2 in H2 as (w1 & H1 & Hi1 & Hv1). apply Hw1 in H1 as (w & H0 & Hi & Hv).
    exists w. rewrite Hi1, Hv1, Hv, Hi. split_and!; [done..|lia].
Qed.

Lemma votes_moved_ext f g s s' : votes_moved f s s' → (∀ w, f w = g w) → votes_moved g s s'.
Proof. intros [Hr Hw] Hfg. split; [done|]. intros n w' H'. destruct (Hw _ _ H') as (w & ? & ? & ?). exists w. by rewrite <- Hfg. Qed.

Lemma votes_moved_exact f g s s' :
  votes_moved f s s' → exact_up_to g s → exact_up_to (λ w, g w + f w) s'.
Proof.
  intros [Hr Hw] Hg n w' H'. apply Hw in H' as (w & H0 & Hi & Hv). rewrite Hv, Hi.
  assert (supporters s' (wit_id w) = supporters s (wit_id w)) as ->; [|rewrite (Hg _ _ H0); lia].
  unfold supporters, voted. rewrite Hr. by fields.
Qed.

Lemma votes_moved_wf f s s' : votes_moved f s s' → votes_wf s → votes_wf s'.
Proof.
  intros [Hr Hw] []. assert (accounts s' = accounts s) as Ha by (rewrite Hr; by fields).
  assert (witness_votes s' = witness_votes s) as Hv by (rewrite Hr; by fields).
  split; rewrite ?Ha, ?Hv; try done.
  - intros n n' w w' (v & ? & Hi & _)%Hw (v' & ? & Hi' & _)%Hw E. rewrite Hi, Hi' in E. eauto.
  - intros k a Hk. apply vw_chains0 in Hk. induction Hk; [eapply ends_here|eapply ends_above]; rewrite ?Ha; eauto.
Qed.

Lemma adjust_witness_vote_moved n d s u s' w :
  votes_wf s → rows (witnesses s) !! n = Some w → ⟨ adjust_witness_vote n d, s ⟩ ⇓ ⟨ u, s' ⟩ →
  votes_moved (λ i, if i =? wit_id w then d else 0) s s'.
Proof.
  intros Hwf Hn Hr. unfold adjust_witness_vote, get_witness_schedule_object, get_dynamic_global_properties, has_hardfork in Hr.
  db_inv. rewrite Hn in Hrow. injection Hrow as <-. apply result_bind_ok in Hval as (x & [-> _]%safe_add_ok & Hval).
  apply result_bind_ok in Hval as (? & _ & [= <-]). split; [by destruct s|].
  intros n' w'. db_fields. destruct (decide (n = n')) as [<-|Hne].
  - rewrite lookup_insert_eq. intros [= <-]. exists w. fields. rewrite Z.eqb_refl. done.
  - rewrite lookup_insert_ne by done. intros Hw'. exists w'. destruct (Z.eqb_spec (wit_id w') (wit_id w)) as [E|_].
    + destruct Hne. eapply vw_witness_ids; [done|..|symmetry; exact E]; done.
    + split_and!; [done..|lia].
Qed.

Lemma voted_witnesses_spec s aid :
  NoDup (voted_witnesses aid s) ∧ ∀ w, w ∈ voted_witnesses aid s ↔ voted s aid w = true.
Proof.
  unfold voted_witnesses. rewrite merge_sort_Permutation.
  assert (∀ k : Z * Z, k ∈ filter (λ k, k.1 = aid) (fst <$> map_to_list (rows (witness_votes s))) ↔
    k.1 = aid ∧ is_Some (rows (witness_votes s) !! k)) as Hin.
  { intros k. rewrite list_elem_of_filter, list_elem_of_fmap. apply and_iff_compat_l. split.
    - intros ([k' v] & -> & Hkv%elem_of_map_to_list). eauto.
    - intros [v Hv]. exists (k, v). by rewrite elem_of_map_to_list. }
  split.
  - apply NoDup_fmap_2_strong.
    + intros [a w] [a' w'] [Ha _]%Hin [Ha' _]%Hin E. cbn in *. congruence.
    + apply NoDup_filter, NoDup_fst_map_to_list.
  - intros w. unfold voted. rewrite bool_decide_eq_true, merge_sort_Permutation, list_elem_of_fmap. split.
    + intros ([a w'] & -> & [Ha Hs]%Hin). cbn in *. by subst a.
    + intros Hs. exists (aid, w). by rewrite Hin.
Qed.

Lemma witness_with_id_ok id s n :
  witness_with_id id s = Some n → ∃ w, rows (witnesses s) !! n = Some w ∧ wit_id w = id.
Proof.
  unfold witness_with_id. destruct (list_find _ _) as [[i [k w]]|] eqn:Hf; [|done].
  intros Hn. injection Hn as <-. apply list_find_Some in Hf as (Hl & Hid & _). cbn in *.
  exists w. split; [|done]. apply elem_of_map_to_list. by eapply list_elem_of_lookup_2.
Qed.

Lemma adjust_witness_votes_moved aid d s u s' :
  votes_wf s → ⟨ adjust_witness_votes aid d, s ⟩ ⇓ ⟨ u, s' ⟩ →
  votes_moved (λ w, if voted s aid w then d else 0) s s'.
Proof.
  intros Hwf Hr. unfold adjust_witness_votes in Hr. runs_step. db_step.
  destruct (voted_witnesses_spec s aid) as [Hnd Hin].
  eapply votes_moved_ext with (f := λ w, if bool_decide (w ∈ voted_witnesses aid s) then d else 0).
  2: { intros w. case_bool_decide as Hw; [by apply Hin in Hw as ->|]. destruct (voted s aid w) eqn:E; [|done]. by apply Hin in E. }
  clear Hin. revert Hr Hnd. generalize (voted_witnesses aid s) as l. intros l. revert s Hwf.
  induction l as [|x l IH]; intros s Hwf Hr Hnd; cbn [mfor] in Hr.
  - runs_inv. eapply votes_moved_ext; [apply votes_moved_refl|]. intros w. by case_bool_decide; [set_solver|].
  - apply NoDup_cons in Hnd as [Hx Hnd]. apply runs_bind in Hr as (? & s1 & H1 & Hr).
    apply runs_bind in H1 as (n & s2 & Hg & H1). unfold get_witness_by_id in Hg. runs_step. db_step.
    destruct (witness_with_id x s) as [n'|] eqn:En; [|by db_inv]. apply runs_ret in Hg as [-> <-].
    apply witness_with_id_ok in En as (w & Hw & <-). eapply adjust_witness_vote_moved in H1; [|done..].
    eapply votes_moved_ext; [eapply votes_moved_trans; [exact H1|apply IH; [by eapply votes_moved_wf|exact Hr|done]]|].
    intros i. cbn. destruct (Z.eqb_spec i (wit_id w)) as [->|Hne].
    + rewrite bool_decide_false by done. rewrite bool_decide_true by (by left). lia.
    + destruct (bool_decide (i ∈ l)) eqn:E; bool_hyps; [rewrite bool_decide_true by (by right)|rewrite bool_decide_false by set_solver]; lia.
Qed.

(** ** Changing an account *)

(** What the voting code leaves of an account while it moves votes. *)
Definition proxy_view (a : account_object) := (acc_id a, acc_proxy a, acc_SCORE a, acc_can_vote a).

Lemma set_account_exact f k a a' s :
  rows (accounts s) !! k = Some a → acc_id a' = acc_id a → exact_up_to f s →
  exact_up_to (λ w, f w - if voted s (acc_id a) w then acc_weight a' - acc_weight a else 0) (set_row accounts k a' s).
Proof.
  intros Hk Hid Hf n w Hw. db_fields in Hw. rewrite (Hf n w Hw). unfold supporters, voted. db_fields.
  rewrite (map_sum_insert _ _ _ _ _ Hk). rewrite Hid. unfold voted in *. destruct (bool_decide _); lia.
Qed.

Lemma set_account_wf k a a' s :
  rows (accounts s) !! k = Some a → acc_id a' = acc_id a → acc_proxy a' = acc_proxy a →
  length (acc_proxied_votes a') = length (acc_proxied_votes a) → votes_wf s → votes_wf (set_row accounts k a' s).
Proof.
  intros Hk Hid Hp Hl Hwf.
  assert (∀ x b, rows (accounts (set_row accounts k a' s)) !! x = Some b →
    ∃ b', rows (accounts s) !! x = Some b' ∧ acc_id b = acc_id b' ∧ acc_proxy b = acc_proxy b' ∧
      length (acc_proxied_votes b) = length (acc_proxied_votes b')) as Hback.
  { intros x b. db_fields. destruct (decide (k = x)) as [<-|].
    - rewrite lookup_insert_eq. intros [= <-]. by exists a.
    - rewrite lookup_insert_ne by done. by exists b. }
  assert (∀ x b, rows (accounts s) !! x = Some b →
    ∃ b', rows (accounts (set_row accounts k a' s)) !! x = Some b' ∧ acc_proxy b' = acc_proxy b) as Hforth.
  { intros x b Hx. db_fields. destruct (decide (k = x)) as [<-|].
    - rewrite lookup_insert_eq. rewrite Hk in Hx. injection Hx as <-. by exists a'.
    - rewrite lookup_insert_ne by done. by exists b. }
  destruct Hwf. split.
  - intros x b (b' & Hb & _ & _ & ->)%Hback. eauto.
  - intros x x' b b' (c & Hc & -> & _)%Hback (c' & Hc' & -> & _)%Hback. eauto.
  - done.
  - intros x b w (c & Hc & -> & -> & _)%Hback. exact (vw_voters0 x c w Hc).
  - intros x b (c & Hc & _)%Hback. apply vw_chains0 in Hc. clear b c.
    induction Hc as [x c Hc Hp'|x c Hc Hp' _ IH]; apply Hforth in Hc as (b & Hb & Eb).
    + eapply ends_here; [done|congruence].
    + eapply ends_above; [done|congruence|by rewrite Eb].
Qed.

(** ** Passing votes up the proxies *)

(** [x] is reached from [k] through one proxy or more. *)
Inductive above (s : database) : account_name → account_name → Prop :=
| above_one k a : rows (accounts s) !! k = Some a → acc_proxy a ≠ PROXY_TO_SELF_ACCOUNT → above s k (acc_proxy a)
| above_more k a x : rows (accounts s) !! k = Some a → acc_proxy a ≠ PROXY_TO_SELF_ACCOUNT →
    above s (acc_proxy a) x → above s k x.

Lemma above_trans s x y z : above s x y → above s y z → above s x z.
Proof. induction 1; intros; [by eapply above_more|eapply above_more; eauto]. Qed.

Lemma chain_acyclic s k : chain_ends s k → ¬ above s k k.
Proof.
  induction 1 as [k a Hk Hp|k a Hk Hp _ IH]; intros Ha.
  - inversion Ha; congruence.
  - apply IH. inversion Ha as [k' b Hb Hpb|k' b x Hb Hpb Hab]; subst.
    + rewrite Hk in Hb. injection Hb as <-. congruence.
    + rewrite Hk in Hb. injection Hb as <-. eapply above_trans; [exact Hab|]. by eapply above_one.
Qed.

Lemma keeps_above s s' k x : keeps proxy_view s s' → above s' k x → above s k x.
Proof.
  intros Hv. induction 1 as [k a Hk Hp|k a x Hk Hp _ IH];
    destruct (keeps_lookup _ _ _ _ _ Hv Hk) as (b & Hb & E); unfold proxy_view in E; injection E as _ E _ _;
    rewrite E in *; [by eapply above_one|by eapply above_more].
Qed.

(** Votes passed up from [a]: [own] reaches the witnesses if [a] votes itself,
    [up] is counted at the accounts above it otherwise. *)
Definition self_voting (a : account_object) : bool := bool_decide (acc_proxy a = PROXY_TO_SELF_ACCOUNT).
Definition counted (s : database) : Z := map_sum votes_counted (rows (accounts s)).
Record passed (name : account_name) (a : account_object) (own up : Z) (f : Z → Z) (s s' : database) : Prop := Passed {
  pa_exact : exact_up_to (λ w, f w + if self_voting a && voted s (acc_id a) w then own else 0) s';
  pa_counted : counted s' = counted s + if self_voting a then 0 else up;
  pa_wf : votes_wf s';
  pa_keeps : keeps proxy_view s s';
  pa_votes : witness_votes s' = witness_votes s;
  pa_gpo : gpo s' = gpo s;
  pa_others k : ¬ above s name k → rows (accounts s') !! k = rows (accounts s) !! k;
}.

Lemma str_eqb_self a : str_eqb (acc_proxy a) PROXY_TO_SELF_ACCOUNT = self_voting a.
Proof. done. Qed.

Lemma passed_self name a own up f s s' u :
  self_voting a = true → votes_wf s → exact_up_to f s →
  ⟨ adjust_witness_votes (acc_id a) own, s ⟩ ⇓ ⟨ u, s' ⟩ → passed name a own up f s s'.
Proof.
  intros Ha Hwf Hf Hr. apply adjust_witness_votes_moved in Hr as Hm; [|done].
  destruct (Hm) as [Hrest Hrows]. assert (accounts s' = accounts s) as Eacc by (rewrite Hrest; by fields).
  split; rewrite ?Ha; cbn [andb].
  - by eapply votes_moved_exact.
  - unfold counted. rewrite Eacc. lia.
  - by eapply votes_moved_wf.
  - intros k. by rewrite Eacc.
  - rewrite Hrest. by fields.
  - rewrite Hrest. by fields.
  - intros. by rewrite Eacc.
Qed.

Lemma passed_stop name a own f s :
  self_voting a = false → votes_wf s → exact_up_to f s → passed name a own 0 f s s.
Proof.
  intros Ha Hwf Hf. split; rewrite ?Ha; cbn [andb]; try done; [|lia].
  intros n w Hw. rewrite (Hf n w Hw). lia.
Qed.

(** One step to the proxy [p] of [a], which takes [t] in all and [e] of it at the
    last place, and then further up. *)
Lemma passed_step name a p p' own t e up f s s' :
  rows (accounts s) !! name = Some a → self_voting a = false → votes_wf s → exact_up_to f s →
  rows (accounts s) !! acc_proxy a = Some p →
  p' = p <| acc_proxied_votes := acc_proxied_votes p' |> → length (acc_proxied_votes p') = length (acc_proxied_votes p) →
  sumZ (acc_proxied_votes p') = sumZ (acc_proxied_votes p) + t →
  nth 3 (acc_proxied_votes p') 0 = nth 3 (acc_proxied_votes p) 0 + e →
  (∀ g, exact_up_to g (set_row accounts (acc_proxy a) p' s) → votes_wf (set_row accounts (acc_proxy a) p' s) →
    passed (acc_proxy a) p' t up g (set_row accounts (acc_proxy a) p' s) s') →
  passed name a own (if self_voting p then t else e + up) f s s'.
Proof.
  intros Hn Ha Hwf Hf Hp Hp' Hlen Hsum Hnth Hup.
  assert (acc_id p' = acc_id p ∧ acc_proxy p' = acc_proxy p ∧ acc_SCORE p' = acc_SCORE p ∧ acc_can_vote p' = acc_can_vote p)
    as (Eid & Epr & Esc & Ecv) by (rewrite Hp'; by fields).
  assert (self_voting p' = self_voting p) as Esv by (unfold self_voting; by rewrite Epr).
  assert (acc_weight p' = acc_weight p + t) as Ew by (unfold acc_weight; rewrite Esc; lia).
  apply bool_decide_eq_false in Ha as Ha'. set (s1 := set_row accounts (acc_proxy a) p' s) in *.
  assert (votes_wf s1) as Hwf1 by (by apply set_account_wf with p).
  pose proof (set_account_exact _ _ _ _ _ Hp Eid Hf) as Hf1. fold s1 in Hf1.
  destruct (Hup _ Hf1 Hwf1) as [Hx Hc Hw Hk Hv Hg Ho]. clear Hup.
  assert (keeps proxy_view s s1) as Hk1.
  { eapply keeps_set_account; [done|]. unfold proxy_view. congruence. }
  split; try done.
  - rewrite Ha. cbn [andb]. intros n w Hnw. rewrite (Hx n w Hnw).
    assert (voted s1 (acc_id p') (wit_id w) = voted s (acc_id p) (wit_id w)) as -> by (rewrite Eid; done).
    rewrite Esv. destruct (voted s (acc_id p) (wit_id w)) eqn:Evo; [|rewrite andb_false_r; lia].
    destruct (self_voting p) eqn:Esp; cbn [andb]; [lia|]. exfalso. apply bool_decide_eq_false in Esp.
    unfold voted in Evo. rewrite (vw_voters _ Hwf _ _ _ Hp Esp) in Evo. bool_hyps. by destruct Evo.
  - rewrite Ha, Hc, Esv. unfold counted, s1. db_fields. rewrite (map_sum_insert _ _ _ _ _ Hp).
    unfold votes_counted. fold (self_voting p) (self_voting p'). rewrite Esv.
    change (Z.to_nat (MAX_PROXY_RECURSION_DEPTH - 1)) with 3%nat. destruct (self_voting p); lia.
  - by etrans.
  - intros k Hab. rewrite Ho.
    + unfold s1. db_fields. rewrite lookup_insert_ne; [done|]. intros E. apply Hab. rewrite <- E. by eapply above_one.
    + intros Hab1. apply Hab. eapply above_more; [done..|]. by eapply keeps_above.
Qed.

Lemma adjust_proxied_from_passed n : ∀ name a d f s u s',
  (n ≤ 4)%nat → rows (accounts s) !! name = Some a → votes_wf s → exact_up_to f s →
  ⟨ adjust_proxied_from n name d, s ⟩ ⇓ ⟨ u, s' ⟩ →
  passed name a d (match n with O => 0 | S _ => d end) f s s'.
Proof.
  induction n as [|n IH]; intros name a d f s u s' Hn4 Hn Hwf Hf Hr; cbn [adjust_proxied_from] in Hr;
    unfold get_account in Hr; apply runs_bind in Hr as (a' & s1 & Hg & Hr); apply runs_getr in Hg as [Hg ->];
    rewrite Hn in Hg; injection Hg as <-; rewrite str_eqb_self in Hr; destruct (self_voting a) eqn:Ha;
    try (by eapply passed_self).
  - runs_inv. by apply passed_stop.
  - apply runs_bind in Hr as (? & s1 & H1 & Hr). apply runs_modify in H1 as (p & p' & Hp & Hv & ->).
    apply result_bind_ok in Hv as (v & [-> _]%safe_add_ok & [= <-]). cbv zeta in *.
    change (Z.to_nat MAX_PROXY_RECURSION_DEPTH - S n)%nat with (3 - n)%nat in Hr.
    remember (3 - n)%nat as depth eqn:Hd.
    pose proof (vw_array _ Hwf _ _ Hp) as Hlen. change (Z.to_nat MAX_PROXY_RECURSION_DEPTH) with 4%nat in Hlen.
    destruct (lookup_lt_is_Some_2 (acc_proxied_votes p) depth) as [y Hx]; [lia|].
    assert (nth depth (acc_proxied_votes p) 0 = y) as Enth by (by rewrite nth_lookup, Hx).
    replace d with (if self_voting p then d else match n with O => d | S _ => 0 end + match n with O => 0 | S _ => d end) at 2
      by (destruct (self_voting p), n; lia).
    match type of Hr with runs _ (set_row _ _ ?q _) _ _ => eapply (passed_step name a p q) end; [done..| | | | |].
    + by destruct p.
    + fields. by rewrite length_insert.
    + fields. rewrite (sumZ_insert _ _ _ _ Hx), Enth. lia.
    + fields. rewrite !nth_lookup. destruct n as [|n].
      * replace depth with 3%nat in * by lia. rewrite list_lookup_insert_eq by lia. rewrite Hx. cbn. lia.
      * rewrite list_lookup_insert_ne by lia. lia.
    + intros g Hg Hwf1. eapply IH; [lia| |done..|exact Hr]. db_fields. by rewrite lookup_insert_eq.
Qed.

Lemma take_sum_S n (l : list Z) : (n < length l)%nat → sumZ (take (S n) l) = sumZ (take n l) + nth n l 0.
Proof.
  intros Hn. destruct (lookup_lt_is_Some_2 l n Hn) as [x Hx]. rewrite (take_S_r _ _ _ Hx), sumZ_app, nth_lookup, Hx.
  change (sumZ [x]) with (x + 0). cbn [default id]. lia.
Qed.

Lemma sum_deltas_ok n delta t :
  (n ≤ length delta)%nat → sum_deltas n delta = Ok t → t = sumZ (take n delta).
Proof.
  unfold sum_deltas. intros Hn Ht.
  assert (∀ l r, fold_left (λ acc i, t ← acc; safe_add t (nth i delta 0)) l r = Ok t →
    ∃ x, r = Ok x ∧ t = x + sumZ ((λ i, nth i delta 0) <$> l)) as Hl.
  { clear Ht. induction l as [|i l IH]; intros r Hr; cbn in Hr; [exists t; split; [done|cbn; lia]|].
    apply IH in Hr as (y & Hy & ->). apply result_bind_ok in Hy as (x & -> & [-> _]%safe_add_ok).
    exists x. split; [done|]. change (x + nth i delta 0 + sumZ ((λ i, nth i delta 0) <$> l) = x + (nth i delta 0 + sumZ ((λ i, nth i delta 0) <$> l))). lia. }
  apply Hl in Ht as (x & [= <-] & ->). clear Hl. rewrite Z.add_0_l. induction n as [|n IH]; [done|].
  rewrite take_sum_S, seq_S, rev_app_distr, fmap_app, sumZ_app by lia. rewrite IH by lia.
  change (nth n delta 0 + 0 + sumZ (take n delta) = sumZ (take n delta) + nth n delta 0). lia.
Qed.

Lemma add_deltas_ok depth delta : ∀ n votes v,
  (n ≤ length delta)%nat → (n + depth ≤ length votes)%nat → add_deltas n depth delta votes = Ok v →
  length v = length votes ∧ sumZ v = sumZ votes + sumZ (take n delta) ∧
  ∀ j, nth j v 0 = nth j votes 0 + if bool_decide (depth ≤ j < n + depth)%nat then nth (j - depth) delta 0 else 0.
Proof.
  induction n as [|n IH]; intros votes v Hn Hl Hv; cbn [add_deltas] in Hv.
  - injection Hv as <-. split_and!; [done|change (sumZ votes = sumZ votes + 0); lia|]. intros j. case_bool_decide; lia.
  - apply result_bind_ok in Hv as (x & [-> _]%safe_add_ok & Hv).
    destruct (lookup_lt_is_Some_2 votes (n + depth)) as [y Hy]; [lia|].
    assert (nth (n + depth) votes 0 = y) as Ey by (by rewrite nth_lookup, Hy).
    apply IH in Hv as (H1 & H2 & H3); rewrite ?length_insert in *; try lia.
    split_and!; [done| |].
    + rewrite H2, (sumZ_insert _ _ _ _ Hy), take_sum_S, Ey by lia. lia.
    + intros j. rewrite H3. rewrite !(nth_lookup _ j). destruct (decide (j = n + depth)%nat) as [->|Hne].
      * rewrite list_lookup_insert_eq, Hy by lia. cbn. rewrite bool_decide_false, bool_decide_true by lia.
        replace (n + depth - depth)%nat with n by lia. lia.
      * rewrite list_lookup_insert_ne by done. f_equal.
        destruct (decide (depth ≤ j < n + depth)%nat); [rewrite !bool_decide_true by lia|rewrite !bool_decide_false by lia]; done.
Qed.

Lemma adjust_proxied_array_from_passed n : ∀ name a delta f s u s',
  (n ≤ 4)%nat → length delta = 5%nat → rows (accounts s) !! name = Some a → votes_wf s → exact_up_to f s →
  ⟨ adjust_proxied_array_from n name delta, s ⟩ ⇓ ⟨ u, s' ⟩ →
  passed name a (sumZ (take (S n) delta)) (sumZ (take n delta)) f s s'.
Proof.
  induction n as [|n IH]; intros name a delta f s u s' Hn4 Hd5 Hn Hwf Hf Hr; cbn [adjust_proxied_array_from] in Hr;
    unfold get_account in Hr; apply runs_bind in Hr as (a' & s1 & Hg & Hr); apply runs_getr in Hg as [Hg ->];
    rewrite Hn in Hg; injection Hg as <-; rewrite str_eqb_self in Hr; destruct (self_voting a) eqn:Ha;
    try (apply runs_bind in Hr as (t & s1 & [Ht ->]%runs_lift & Hr); apply sum_deltas_ok in Ht; [|lia];
         rewrite Nat.add_1_r in Ht; rewrite <- Ht; by eapply passed_self).
  - runs_inv. by apply passed_stop.
  - apply runs_bind in Hr as (? & s1 & H1 & Hr). apply runs_modify in H1 as (p & p' & Hp & Hv & ->).
    apply result_bind_ok in Hv as (v & Hv & [= <-]).
    change (Z.to_nat MAX_PROXY_RECURSION_DEPTH - S n)%nat with (3 - n)%nat in Hv.
    pose proof (vw_array _ Hwf _ _ Hp) as Hlen. change (Z.to_nat MAX_PROXY_RECURSION_DEPTH) with 4%nat in Hlen.
    apply add_deltas_ok in Hv as (Hl & Hsum & Hnth); [|lia|lia].
    replace (sumZ (take (S n) delta)) with
      (if self_voting p then sumZ (take (S n) delta) else nth n delta 0 + sumZ (take n delta))
      by (rewrite take_sum_S by lia; destruct (self_voting p); lia).
    match type of Hr with runs _ (set_row _ _ ?q _) _ _ => eapply (passed_step name a p q) end; [done..| | | | |].
    + by destruct p.
    + fields. done.
    + fields. done.
    + fields. rewrite Hnth. rewrite bool_decide_true by lia. replace (3 - (3 - n))%nat with n by lia. done.
    + intros g Hg Hwf1. eapply IH; [lia|done| |done..|exact Hr]. db_fields. by rewrite lookup_insert_eq.
Qed.

(** ** The votes that each account has been handed *)

(** What the accounts whose proxy is [k] hand to it at place [i]: their SCORE at place 0,
    and further up what they were handed at the place before. *)
Definition handed (k : account_name) (i : nat) (a : account_object) : Z :=
  if bool_decide (acc_proxy a = k) then nth i (own_votes a) 0 else 0.
Definition inflow (s : database) (k : account_name) (i : nat) : Z := map_sum (handed k i) (rows (accounts s)).
(** The proxied votes of every account are that, up to [g]. *)
Definition proxied_up_to (g : account_name → nat → Z) (s : database) : Prop :=
  ∀ k p i, k ≠ PROXY_TO_SELF_ACCOUNT → rows (accounts s) !! k = Some p → (i < Z.to_nat MAX_PROXY_RECURSION_DEPTH)%nat →
    nth i (acc_proxied_votes p) 0 = inflow s k i + g k i.
Abbreviation proxied_exact := (proxied_up_to (λ _ _, 0)).

Lemma proxied_ext f g s : (∀ k i, k ≠ PROXY_TO_SELF_ACCOUNT → (i < 4)%nat → f k i = g k i) → proxied_up_to f s → proxied_up_to g s.
Proof. intros Hfg Hf k p i Hk Hp Hi. rewrite (Hf k p i) by done. by rewrite Hfg. Qed.

(** An account changes: what it was handed, and what it hands on. *)
Lemma set_account_proxied g k a a' s :
  rows (accounts s) !! k = Some a → proxied_up_to g s →
  proxied_up_to (λ x i, g x i + (if bool_decide (x = k) then nth i (acc_proxied_votes a') 0 - nth i (acc_proxied_votes a) 0 else 0)
    + handed x i a - handed x i a') (set_row accounts k a' s).
Proof.
  intros Ha Hg x p i Hx Hp Hi. unfold inflow. db_fields in Hp. db_fields. rewrite (map_sum_insert _ _ _ _ _ Ha).
  destruct (decide (k = x)) as [<-|Hne].
  - rewrite lookup_insert_eq in Hp. injection Hp as <-. rewrite bool_decide_eq_true_2 by done.
    pose proof (Hg k a i Hx Ha Hi) as E. unfold inflow in E. lia.
  - rewrite lookup_insert_ne in Hp by done. rewrite bool_decide_eq_false_2 by done. rewrite (Hg x p i Hx Hp Hi). unfold inflow. lia.
Qed.
Lemma same_accounts_proxied g s s' : accounts s' = accounts s → proxied_up_to g s → proxied_up_to g s'.
Proof. intros E Hg k p i. unfold inflow. rewrite E. apply Hg. Qed.

(** All arrays have their length. *)
Definition arrays_full (s : database) : Prop :=
  ∀ k a, rows (accounts s) !! k = Some a → length (acc_proxied_votes a) = Z.to_nat MAX_PROXY_RECURSION_DEPTH.
Lemma set_account_full k a s : arrays_full s → length (acc_proxied_votes a) = Z.to_nat MAX_PROXY_RECURSION_DEPTH → arrays_full (set_row accounts k a s).
Proof. intros Hs Ha x b. db_fields. intros [[_ <-]|[_ Hb]]%lookup_insert_Some; [done|by eapply Hs]. Qed.
Lemma adjust_witness_votes_accounts aid d s u s' : ⟨ adjust_witness_votes aid d, s ⟩ ⇓ ⟨ u, s' ⟩ → accounts s' = accounts s.
Proof.
  intros Hr. unfold adjust_witness_votes in Hr. apply runs_bind in Hr as (l & s1 & [_ ->]%runs_asks & Hr).
  assert (PreOrder (λ s s', accounts s' = accounts s)) as HR by (split; [done|intros ??? E1 E2; congruence]).
  refine (preserves_for (λ s s', accounts s' = accounts s) _ l _ s u s' Hr). clear Hr. intros id s1 v s2 Hr.
  apply runs_bind in Hr as (n & s3 & Hg & Hr). apply runs_bind in Hg as (o & ? & [-> ->]%runs_asks & Hg).
  assert (s3 = s1) as -> by (destruct (witness_with_id id s1); [by apply runs_ret in Hg as [_ <-]|by db_inv]).
  unfold adjust_witness_vote, get_witness_schedule_object, get_dynamic_global_properties, has_hardfork in Hr. by db_inv.
Qed.

Lemma nth_opp i (l : list Z) : nth i (Z.opp <$> l) 0 = - nth i l 0.
Proof. revert i. induction l as [|x l IH]; intros [|i]; cbn; [done..|apply IH]. Qed.

(** [delta] moved up by [m] places. *)
Definition shifted (m : nat) (delta : list Z) (i : nat) : Z := if bool_decide (m ≤ i)%nat then nth (i - m) delta 0 else 0.

Lemma shifted_0 delta i : shifted (4 - 4) delta i = nth i delta 0.
Proof. unfold shifted. rewrite bool_decide_eq_true_2 by lia. by rewrite Nat.sub_0_r. Qed.

(** The walk hands [delta] to the proxy, and changes nothing else in what is still due. *)
Lemma adjust_proxied_array_from_handed n : ∀ name a delta g s u s',
  (n ≤ 4)%nat → length delta = 5%nat → rows (accounts s) !! name = Some a → arrays_full s → proxied_up_to g s →
  ⟨ adjust_proxied_array_from n name delta, s ⟩ ⇓ ⟨ u, s' ⟩ →
  proxied_up_to (λ k i, g k i + if bool_decide (acc_proxy a = k) then shifted (4 - n) delta i else 0) s'.
Proof.
  induction n as [|n IH]; intros name a delta g s u s' Hn4 Hd5 Hn Hwf Hg Hr; cbn [adjust_proxied_array_from] in Hr;
    unfold get_account in Hr; apply runs_bind in Hr as (a' & s1 & [Ha' ->]%runs_getr & Hr);
    rewrite Hn in Ha'; injection Ha' as <-; rewrite str_eqb_self in Hr; destruct (self_voting a) eqn:Ha;
    try (apply runs_bind in Hr as (t & s1 & [_ ->]%runs_lift & Hr); apply adjust_witness_votes_accounts in Hr as E;
         apply bool_decide_eq_true in Ha; eapply same_accounts_proxied; [exact E|]; eapply proxied_ext; [|exact Hg];
         intros k i Hk _; cbv beta; rewrite bool_decide_eq_false_2 by congruence; lia).
  - runs_inv. eapply proxied_ext; [|exact Hg]. intros k i _ Hi. cbv beta. unfold shifted. rewrite (bool_decide_eq_false_2 (_ ≤ _)%nat) by lia.
    destruct (bool_decide _); lia.
  - apply runs_bind in Hr as (? & s1 & (p & p' & Hp & Hv & ->)%runs_modify & Hr).
    apply result_bind_ok in Hv as (v & Hv & [= <-]). set (p' := p <| acc_proxied_votes := v |>) in *.
    change (Z.to_nat MAX_PROXY_RECURSION_DEPTH - S n)%nat with (3 - n)%nat in Hv.
    pose proof (Hwf _ _ Hp) as Hlen. change (Z.to_nat MAX_PROXY_RECURSION_DEPTH) with 4%nat in Hlen.
    apply add_deltas_ok in Hv as (Hl & _ & Hnth); [|lia|lia].
    eapply (IH _ p') in Hr; [|lia|done|db_fields; apply lookup_insert_eq|apply set_account_full; [done|]; unfold p'; fields; by rewrite Hl|by eapply set_account_proxied].
    eapply proxied_ext; [|exact Hr]. intros k i Hk Hi. cbv beta.
    change (acc_proxied_votes p') with v. change (acc_proxy p') with (acc_proxy p). rewrite Hnth.
    unfold handed, own_votes, shifted. change (acc_proxy p') with (acc_proxy p). change (acc_SCORE p') with (acc_SCORE p). change (acc_proxied_votes p') with v.
    rewrite (bool_decide_ext (k = acc_proxy a) (acc_proxy a = k)) by done.
    rewrite (bool_decide_ext (3 - n ≤ i < S n + (3 - n))%nat (4 - S n ≤ i)%nat) by lia. replace (3 - n)%nat with (4 - S n)%nat by lia.
    assert ((if bool_decide (acc_proxy p = k) then nth i (amount (acc_SCORE p) :: v) 0 else 0) =
      (if bool_decide (acc_proxy p = k) then nth i (amount (acc_SCORE p) :: acc_proxied_votes p) 0 else 0) +
      (if bool_decide (acc_proxy p = k) then if bool_decide (4 - n ≤ i)%nat then nth (i - (4 - n)) delta 0 else 0 else 0)) as ->; [|destruct (bool_decide (acc_proxy a = k)); lia].
    destruct (bool_decide (acc_proxy p = k)); [|done]. destruct i as [|i]; [rewrite bool_decide_eq_false_2 by lia; cbn; lia|].
    cbn [nth]. rewrite Hnth. rewrite (bool_decide_ext (3 - n ≤ i < S n + (3 - n))%nat (4 - n ≤ S i)%nat) by lia.
    by replace (S i - (4 - n))%nat with (i - (3 - n))%nat by lia.
Qed.

(** ** Dropping votes and changing the proxy *)

Lemma negate_all_ok l d : negate_all l = Ok d → d = Z.opp <$> l.
Proof.
  revert d. induction l as [|x l IH]; intros d Hd; cbn [negate_all] in Hd; [by injection Hd as <-|].
  apply result_bind_ok in Hd as (y & [-> _]%safe_neg_ok & Hd). apply result_bind_ok in Hd as (ys & Hys & [= <-]).
  cbn. f_equal. by apply IH.
Qed.

Lemma sumZ_opp n l : sumZ (take n (Z.opp <$> l)) = - sumZ (take n l).
Proof.
  revert n. induction l as [|x l IH]; intros [|n]; try done.
  change (- x + sumZ (take n (Z.opp <$> l)) = - (x + sumZ (take n l))). rewrite IH. lia.
Qed.

Lemma own_votes_sum a :
  length (acc_proxied_votes a) = 4%nat →
  sumZ (take 5 (own_votes a)) = acc_weight a ∧
  sumZ (take 4 (own_votes a)) = acc_weight a - nth 3 (acc_proxied_votes a) 0.
Proof.
  unfold own_votes, acc_weight. destruct (acc_proxied_votes a) as [|x0 [|x1 [|x2 [|x3 [|? ?]]]]]; try done.
  intros _. unfold sumZ. cbn. lia.
Qed.

Lemma remove_votes_run aid l : ∀ s u s',
  ⟨ mfor (λ id, remove witness_votes (aid, id)) l, s ⟩ ⇓ ⟨ u, s' ⟩ →
  ∃ t, s' = s <| witness_votes := t |> ∧
    ∀ k, rows t !! k = if bool_decide (k.1 = aid ∧ k.2 ∈ l) then None else rows (witness_votes s) !! k.
Proof.
  induction l as [|w l IH]; intros s u s' Hr; cbn [mfor] in Hr.
  - runs_inv. exists (witness_votes s). split; [by destruct s|]. intros k. rewrite bool_decide_false; [done|]. set_solver.
  - apply runs_bind in Hr as (? & s1 & ->%runs_remove & Hr). apply IH in Hr as (t & -> & Ht).
    exists t. split; [by destruct s|]. intros [a v]. rewrite Ht. db_fields. cbn [fst snd].
    destruct (decide (a = aid ∧ v ∈ l)) as [Hd|Hd]; [rewrite !bool_decide_true; [done|destruct Hd; split; [done|by right]|done]|].
    rewrite (bool_decide_false (a = aid ∧ v ∈ l)) by done. destruct (decide ((aid, w) = (a, v))) as [[= <- <-]|Hne].
    + rewrite lookup_delete_eq, bool_decide_true; [done|]. split; [done|by left].
    + rewrite lookup_delete_ne by done. rewrite bool_decide_false; [done|]. intros [-> [->|Hv]%elem_of_cons]; tauto.
Qed.

Lemma set_account_same s name a : rows (accounts s) !! name = Some a → set_row accounts name a s = s.
Proof. intros Ha. destruct s as [g [r n]]. unfold set_row, set_field. cbn in *. by rewrite insert_id. Qed.

Lemma clear_witness_votes_run name a s u s' :
  rows (accounts s) !! name = Some a → ⟨ clear_witness_votes name, s ⟩ ⇓ ⟨ u, s' ⟩ →
  ∃ t a', s' = set_row accounts name a' (s <| witness_votes := t |>) ∧
    a' = a <| acc_witnesses_voted_for := acc_witnesses_voted_for a' |> ∧
    ∀ x w, rows t !! (x, w) = if x =? acc_id a then None else rows (witness_votes s) !! (x, w).
Proof.
  intros Ha Hr. unfold clear_witness_votes, get_account, has_hardfork in Hr.
  apply runs_bind in Hr as (b & s1 & Hg & Hr). apply runs_getr in Hg as [Hg ->]. rewrite Ha in Hg. injection Hg as <-.
  apply runs_bind in Hr as (l & s1 & [-> ->]%runs_asks & Hr). apply runs_bind in Hr as (? & s1 & H1 & Hr).
  apply remove_votes_run in H1 as (t & -> & Ht).
  assert (∀ y w, rows t !! (y, w) = if y =? acc_id a then None else rows (witness_votes s) !! (y, w)) as Ht'.
  { intros y w. rewrite Ht. cbn [fst snd]. destruct (voted_witnesses_spec s (acc_id a)) as [_ Hin].
    destruct (Z.eqb_spec y (acc_id a)) as [->|Hne]; [|by rewrite bool_decide_false by tauto].
    case_bool_decide as Hd; [done|]. destruct (rows (witness_votes s) !! (acc_id a, w)) as [v|] eqn:Hv; [|done].
    destruct Hd. split; [done|]. apply Hin. unfold voted. rewrite Hv. by apply bool_decide_eq_true. }
  apply runs_bind in Hr as (hf & s1 & [-> ->]%runs_asks & Hr). apply runs_when in Hr. destruct (hardfork_active _ _).
  - apply runs_modify in Hr as (b & b' & Hb & [= <-] & ->). fields. rewrite Ha in Hb. injection Hb as <-.
    eexists t, _. split; [reflexivity|]. split; [by destruct a|done].
  - subst s'. exists t, a. rewrite set_account_same by (by fields). split; [done|]. split; [by destruct a|done].
Qed.

(** The votes of an account are dropped. *)
Lemma dropped_votes name a a' t s f :
  rows (accounts s) !! name = Some a → votes_wf s → exact_up_to f s →
  a' = a <| acc_witnesses_voted_for := acc_witnesses_voted_for a' |> →
  (∀ x w, rows t !! (x, w) = if x =? acc_id a then None else rows (witness_votes s) !! (x, w)) →
  let s' := set_row accounts name a' (s <| witness_votes := t |>) in
  votes_wf s' ∧ exact_up_to (λ w, f w + if voted s (acc_id a) w then acc_weight a else 0) s' ∧
  counted s' = counted s ∧ (∀ w, voted s' (acc_id a) w = false).
Proof.
  intros Ha Hwf Hf Ea Ht. cbv zeta.
  assert (acc_id a' = acc_id a ∧ acc_proxy a' = acc_proxy a ∧ acc_weight a' = acc_weight a ∧ acc_proxied_votes a' = acc_proxied_votes a)
    as (Eid & Epr & Ew & Epv) by (rewrite Ea; unfold acc_weight; by fields).
  set (s1 := s <| witness_votes := t |>).
  assert (∀ x w, voted s1 x w = if x =? acc_id a then false else voted s x w) as Hvo.
  { intros x w. unfold voted, s1. fields. rewrite Ht. by destruct (x =? acc_id a). }
  assert (votes_wf s1) as Hwf1.
  { destruct Hwf. unfold s1. split; fields; try done.
    - intros k b w Hk Hp. rewrite Ht. destruct (_ =? _); [done|eauto].
    - intros k b Hk. apply vw_chains0 in Hk. induction Hk; [by eapply ends_here|by eapply ends_above]. }
  assert (exact_up_to (λ w, f w + if voted s (acc_id a) w then acc_weight a else 0) s1) as Hf1.
  { intros n w Hn. rewrite (Hf n w) by done. unfold supporters, s1. fields.
    pose proof (map_sum_delete (λ b, if voted s (acc_id b) (wit_id w) then acc_weight b else 0) _ _ _ Ha) as E1.
    pose proof (map_sum_delete (λ b, if voted (s <| witness_votes := t |>) (acc_id b) (wit_id w) then acc_weight b else 0) _ _ _ Ha) as E2.
    cbv beta in E1, E2. fold s1 in E2 |- *. rewrite Hvo, Z.eqb_refl in E2.
    rewrite (map_sum_ext (λ b, if voted s1 (acc_id b) (wit_id w) then acc_weight b else 0)
      (λ b, if voted s (acc_id b) (wit_id w) then acc_weight b else 0) (delete name _)) in E2; [lia|].
    intros k b [Hne Hk]%lookup_delete_Some. rewrite Hvo. destruct (Z.eqb_spec (acc_id b) (acc_id a)) as [E|]; [|done].
    destruct Hne. symmetry. eapply vw_ids; [exact Hwf|exact Hk|exact Ha|exact E]. }
  assert (rows (accounts s1) !! name = Some a) as Ha1 by (unfold s1; by fields). split_and!.
  - apply set_account_wf with a; [done..|by rewrite Epv|done].
  - intros n w Hn. rewrite (set_account_exact _ _ _ a' _ Ha1 Eid Hf1 n w Hn), Hvo, Z.eqb_refl. lia.
  - unfold counted, s1. db_fields. rewrite (map_sum_insert_same _ _ _ _ _ Ha); [done|]. unfold votes_counted. by rewrite Epr, Epv, Ew.
  - intros w. change (voted s1 (acc_id a) w = false). by rewrite Hvo, Z.eqb_refl.
Qed.

(** The proxy of an account changes to [q]. *)
Lemma set_proxy_wf name a a' q s :
  rows (accounts s) !! name = Some a → votes_wf s → acc_id a' = acc_id a → acc_proxied_votes a' = acc_proxied_votes a →
  acc_proxy a' = q →
  (q ≠ PROXY_TO_SELF_ACCOUNT → chain_ends s q ∧ q ≠ name ∧ ¬ above s q name ∧
    ∀ w, rows (witness_votes s) !! (acc_id a, w) = None) →
  votes_wf (set_row accounts name a' s).
Proof.
  intros Ha Hwf Eid Epv Epr Hq. destruct (Hwf).
  assert (∀ x b, rows (accounts (set_row accounts name a' s)) !! x = Some b →
    (x = name ∧ b = a') ∨ (x ≠ name ∧ rows (accounts s) !! x = Some b)) as Hback.
  { intros x b. db_fields. destruct (decide (name = x)) as [<-|].
    - rewrite lookup_insert_eq. intros [= <-]. by left.
    - rewrite lookup_insert_ne by done. by right. }
  assert (∀ x, chain_ends s x → x ≠ name → ¬ above s x name → chain_ends (set_row accounts name a' s) x) as Hoff.
  { induction 1 as [x b Hx Hp|x b Hx Hp Hc IH]; intros Hne Hab.
    - eapply ends_here; [|done]. db_fields. by rewrite lookup_insert_ne.
    - eapply ends_above; [db_fields; by rewrite lookup_insert_ne|done|]. apply IH.
      + intros E. apply Hab. rewrite <- E. by eapply above_one.
      + intros Hab'. apply Hab. by eapply above_more. }
  assert (chain_ends (set_row accounts name a' s) name) as Hname.
  { destruct (decide (q = PROXY_TO_SELF_ACCOUNT)) as [Es|Hne].
    - eapply ends_here; [db_fields; apply lookup_insert_eq|congruence].
    - destruct (Hq Hne) as (Hc & Hqn & Hab & _). eapply ends_above; [db_fields; apply lookup_insert_eq|congruence|].
      rewrite Epr. by apply Hoff. }
  split.
  - intros x b [[-> ->]|[_ Hb]]%Hback; [rewrite Epv|]; eauto.
  - intros x x' b b' [[-> ->]|[_ Hb]]%Hback [[-> ->]|[_ Hb']]%Hback; rewrite ?Eid; intros; eauto.
  - done.
  - intros x b w [[-> ->]|[_ Hb]]%Hback Hp; [|exact (vw_voters0 x b w Hb Hp)]. rewrite Eid. apply Hq. congruence.
  - intros x b [[-> _]|[Hne Hb]]%Hback; [done|]. apply vw_chains0 in Hb. revert Hne. clear b.
    induction Hb as [x b Hx Hp|x b Hx Hp Hc IH]; intros Hne.
    + eapply ends_here; [|done]. db_fields. by rewrite lookup_insert_ne.
    + eapply ends_above; [db_fields; by rewrite lookup_insert_ne|done|].
      destruct (decide (acc_proxy b = name)) as [->|]; auto.
Qed.

(** An account that passes the check is above none of the accounts in the chain. *)
Lemma check_proxy_chain_ok fuel : ∀ chain cprox k s u s',
  rows (accounts s) !! k = Some cprox → ⟨ check_proxy_chain fuel chain cprox, s ⟩ ⇓ ⟨ u, s' ⟩ →
  s' = s ∧ ∀ x b, above s k x → rows (accounts s) !! x = Some b → acc_id b ∉ chain.
Proof.
  assert (∀ k cprox x s, rows (accounts s) !! k = Some cprox → above s k x → acc_proxy cprox ≠ PROXY_TO_SELF_ACCOUNT) as Hself
    by (intros ? ? ? ? ? Hab; inversion Hab; simplify_eq; congruence).
  induction fuel as [|fuel IH]; intros chain cprox k s u s' Hk Hr; cbn [check_proxy_chain] in Hr;
    unfold nonempty in Hr; rewrite negb_involutive in Hr; case_bool_decide as Eq.
  - apply runs_ret in Hr as [_ ->]. split; [done|]. intros x b Hab. by eapply Hself in Hab.
  - by db_inv.
  - apply runs_ret in Hr as [_ ->]. split; [done|]. intros x b Hab. by eapply Hself in Hab.
  - unfold get_account in Hr. apply runs_bind in Hr as (next & s1 & [Hn ->]%runs_getr & Hr).
    apply runs_bind in Hr as (? & s1 & [Hg ->]%runs_assert & Hr). apply runs_bind in Hr as (? & s1 & [_ ->]%runs_assert & Hr).
    destruct (IH _ _ _ _ _ _ Hn Hr) as [-> Hx]. split; [done|]. intros y b Hab Hb.
    inversion Hab as [k' a' Hk' _|k' a' x' Hk' _ Hab']; subst k'.
    + subst y. rewrite Hk in Hk'. injection Hk' as <-. rewrite Hn in Hb. injection Hb as <-. by bool_hyps.
    + rewrite Hk in Hk'. injection Hk' as <-. specialize (Hx y b Hab' Hb). set_solver.
Qed.

(** What the theorems of this file maintain. *)
Definition votes_ok (s : database) : Prop := votes_wf s ∧ votes_exact s.

Lemma exact_ext f g s : (∀ w, f w = g w) → exact_up_to f s → exact_up_to g s.
Proof. intros Hfg Hf n w Hn. rewrite <- Hfg. exact (Hf n w Hn). Qed.

Lemma nonempty_self q : nonempty q = negb (bool_decide (q = PROXY_TO_SELF_ACCOUNT)).
Proof. by destruct q. Qed.

(** All the votes of [name] are taken back from where they went. *)
Lemma votes_taken name a s u s' delta :
  rows (accounts s) !! name = Some a → votes_ok s → negate_all (own_votes a) = Ok delta →
  ⟨ adjust_proxied_witness_votes_array name delta, s ⟩ ⇓ ⟨ u, s' ⟩ →
  passed name a (- acc_weight a) (nth 3 (acc_proxied_votes a) 0 - acc_weight a) (λ _, 0) s s' ∧
  rows (accounts s') !! name = Some a.
Proof.
  intros Ha [Hwf Hex] Hd Hr. apply negate_all_ok in Hd as ->.
  pose proof (vw_array _ Hwf _ _ Ha) as Hlen. change (Z.to_nat MAX_PROXY_RECURSION_DEPTH) with 4%nat in Hlen.
  destruct (own_votes_sum a Hlen) as [E5 E4].
  eapply (adjust_proxied_array_from_passed 4 name a) in Hr; [|lia|unfold own_votes; cbn; rewrite length_fmap; lia|done..].
  rewrite !sumZ_opp, E5, E4 in Hr. replace (- (acc_weight a - nth 3 (acc_proxied_votes a) 0)) with
    (nth 3 (acc_proxied_votes a) 0 - acc_weight a) in Hr by lia. split; [done|].
  rewrite (pa_others _ _ _ _ _ _ _ Hr); [done|]. apply chain_acyclic. by eapply vw_chains.
Qed.

Lemma counted_set name a a' s :
  rows (accounts s) !! name = Some a → counted (set_row accounts name a' s) = counted s - votes_counted a + votes_counted a'.
Proof. intros Ha. unfold counted. db_fields. by apply map_sum_insert. Qed.

(** The account, which votes for nobody through the proxies any more, gets the
    proxy [q]. *)
Lemma set_proxy_exact name a a' q s :
  rows (accounts s) !! name = Some a → votes_ok s → acc_id a' = acc_id a → acc_SCORE a' = acc_SCORE a →
  acc_proxied_votes a' = acc_proxied_votes a → acc_proxy a' = q →
  (q ≠ PROXY_TO_SELF_ACCOUNT → chain_ends s q ∧ q ≠ name ∧ ¬ above s q name ∧ ∀ w, voted s (acc_id a) w = false) →
  let s' := set_row accounts name a' s in
  votes_ok s' ∧ counted s' = counted s - votes_counted a +
    (if bool_decide (q = PROXY_TO_SELF_ACCOUNT) then acc_weight a else nth 3 (acc_proxied_votes a) 0).
Proof.
  intros Ha [Hwf Hex] Eid Esc Epv Epr Hq. assert (acc_weight a' = acc_weight a) as Ew by (unfold acc_weight; congruence).
  split; [split|].
  - eapply set_proxy_wf; [done..|]. intros Hne. destruct (Hq Hne) as (? & ? & ? & Hv). split_and!; [done..|].
    intros w. specialize (Hv w). unfold voted in Hv. bool_hyps. by apply eq_None_not_Some.
  - eapply exact_ext; [|eapply set_account_exact; [exact Ha|done|exact Hex]]. intros w. cbv beta. rewrite Ew, Z.sub_diag. by destruct (voted _ _ _).
  - rewrite (counted_set _ a) by done. unfold votes_counted at 2. by rewrite Epr, Ew, Epv.
Qed.

(** The votes of [name] are taken back and dropped. *)
Lemma votes_dropped name a s s1 u s2 :
  rows (accounts s) !! name = Some a → votes_ok s →
  passed name a (- acc_weight a) (nth 3 (acc_proxied_votes a) 0 - acc_weight a) (λ _, 0) s s1 →
  rows (accounts s1) !! name = Some a → ⟨ clear_witness_votes name, s1 ⟩ ⇓ ⟨ u, s2 ⟩ →
  ∃ a2, votes_ok s2 ∧ counted s2 = counted s1 ∧ gpo s2 = gpo s ∧ keeps proxy_view s1 s2 ∧
    rows (accounts s2) !! name = Some a2 ∧ a2 = a <| acc_witnesses_voted_for := acc_witnesses_voted_for a2 |> ∧
    ∀ w, voted s2 (acc_id a) w = false.
Proof.
  intros Ha [Hwf _] [Hx _ Hwf1 _ Hv1 Hg1 _] Ha1 Hr.
  destruct (clear_witness_votes_run _ _ _ _ _ Ha1 Hr) as (t & a2 & -> & Ea2 & Ht).
  destruct (dropped_votes _ _ _ _ _ _ Ha1 Hwf1 Hx Ea2 Ht) as (Hwf2 & Hx2 & Hc2 & Hno).
  exists a2. split_and!; try done.
  - split; [done|]. eapply exact_ext; [|exact Hx2]. intros w. cbv beta.
    assert (voted s1 (acc_id a) w = voted s (acc_id a) w) as -> by (unfold voted; by rewrite Hv1).
    destruct (voted s (acc_id a) w) eqn:Ev; [|rewrite andb_false_r; lia]. destruct (self_voting a) eqn:Ha'; cbn [andb]; [lia|].
    exfalso. apply bool_decide_eq_false in Ha'. unfold voted in Ev. rewrite (vw_voters _ Hwf _ _ _ Ha Ha') in Ev.
    bool_hyps. by destruct Ev.
  - intros k. db_fields. destruct (decide (name = k)) as [<-|]; [|by rewrite lookup_insert_ne].
    rewrite lookup_insert_eq, Ha1, Ea2. cbn. unfold proxy_view. by fields.
  - db_fields. apply lookup_insert_eq.
Qed.

Lemma opp_opp (l : list Z) : Z.opp <$> (Z.opp <$> l) = l.
Proof. rewrite <- list_fmap_compose. rewrite <- (list_fmap_id l) at 2. apply list_fmap_ext. intros. cbn. lia. Qed.

(** All the votes of [name] are handed to its proxy. *)
Lemma votes_handed name a s u s' :
  rows (accounts s) !! name = Some a → self_voting a = false → votes_ok s →
  ⟨ adjust_proxied_witness_votes_array name (own_votes a), s ⟩ ⇓ ⟨ u, s' ⟩ →
  votes_ok s' ∧ counted s' = counted s + acc_weight a - nth 3 (acc_proxied_votes a) 0 ∧ gpo s' = gpo s ∧
  rows (accounts s') !! name = Some a.
Proof.
  intros Ha Hsv [Hwf Hex] Hr. pose proof (vw_array _ Hwf _ _ Ha) as Hlen.
  change (Z.to_nat MAX_PROXY_RECURSION_DEPTH) with 4%nat in Hlen. destruct (own_votes_sum a Hlen) as [E5 E4].
  eapply (adjust_proxied_array_from_passed 4 name a) in Hr; [|lia|unfold own_votes; cbn; lia|done..].
  pose proof (pa_others _ _ _ _ _ _ _ Hr name) as Hn. destruct Hr as [Hx Hc Hwf' _ _ Hg _]. split_and!; [split; [done|]|..].
  - eapply exact_ext; [|exact Hx]. intros w. cbv beta. by rewrite Hsv.
  - rewrite Hc, Hsv, E4. lia.
  - done.
  - rewrite Hn; [done|]. apply chain_acyclic. by eapply vw_chains.
Qed.

(** The steps of the evaluator: the votes are taken back, then dropped when there is a
    new proxy, and handed to it. *)
Lemma account_witness_proxy_run o s u s' :
  let name := witness_proxy_account o in
  let q := witness_proxy_proxy o in
  ⟨ account_witness_proxy_apply o, s ⟩ ⇓ ⟨ u, s' ⟩ →
  ∃ a a1 s1, rows (accounts s) !! name = Some a ∧ acc_proxy a ≠ q ∧ negate_all (own_votes a) = Ok (Z.opp <$> own_votes a) ∧
    ⟨ adjust_proxied_witness_votes_array name (Z.opp <$> own_votes a), s ⟩ ⇓ ⟨ tt, s1 ⟩ ∧ rows (accounts s1) !! name = Some a1 ∧
    if bool_decide (q = PROXY_TO_SELF_ACCOUNT) then s' = set_row accounts name (a1 <| acc_proxy := q |>) s1
    else ∃ np chain s2 a2, rows (accounts s1) !! q = Some np ∧ acc_id a1 ∈ chain ∧
      ⟨ check_proxy_chain (Z.to_nat MAX_PROXY_RECURSION_DEPTH) chain np, s1 ⟩ ⇓ ⟨ tt, s1 ⟩ ∧
      ⟨ clear_witness_votes name, s1 ⟩ ⇓ ⟨ tt, s2 ⟩ ∧ rows (accounts s2) !! name = Some a2 ∧
      ⟨ adjust_proxied_witness_votes_array name (own_votes a), set_row accounts name (a2 <| acc_proxy := q |>) s2 ⟩ ⇓ ⟨ u, s' ⟩.
Proof.
  intros name q Hr. unfold account_witness_proxy_apply, get_account in Hr. cbv zeta in Hr. fold name q in Hr.
  apply runs_bind in Hr as (a & s1 & [Ha ->]%runs_getr & Hr).
  apply runs_bind in Hr as (? & s1 & [Hne ->]%runs_assert & Hr). apply negb_true_iff, str_eqb_false in Hne.
  apply runs_bind in Hr as (? & s1 & [_ ->]%runs_assert & Hr).
  apply runs_bind in Hr as (delta & s1 & [Hd ->]%runs_lift & Hr). pose proof (negate_all_ok _ _ Hd) as ->.
  apply runs_bind in Hr as ([] & s1 & H1 & Hr). rewrite nonempty_self in Hr. case_bool_decide as Eq; cbn [negb] in Hr.
  - apply runs_modify in Hr as (a1 & a3 & Ha1 & [= <-] & ->). by exists a, a1, s1.
  - apply runs_bind in Hr as (a1 & s2 & [Ha1 ->]%runs_getr & Hr). exists a, a1, s1. split_and!; [done..|].
    apply runs_bind in Hr as (np & s2 & [Hnp ->]%runs_getr & Hr). cbv zeta in Hr.
    match type of Hr with runs (check_proxy_chain _ ?c _ ≫= _) _ _ _ => set (chain := c) in *; assert (acc_id a1 ∈ chain) as Hin by (unfold chain; destruct (_ =? _); by left) end.
    clearbody chain. apply runs_bind in Hr as ([] & s2 & H2 & Hr).
    pose proof (check_proxy_chain_ok _ _ _ _ _ _ _ Hnp H2) as [-> _]. apply runs_bind in Hr as ([] & s2 & H3 & Hr).
    apply runs_bind in Hr as (? & s3 & (a2 & a3 & Ha2 & [= <-] & ->)%runs_modify & Hr).
    apply runs_bind in Hr as (delta' & s4 & [Hd'%negate_all_ok ->]%runs_lift & Hr). rewrite Hd', opp_opp in Hr.
    exists np, chain, s2, a2. by split_and!.
Qed.

(** What the evaluator takes from the old proxy is what the account handed to it, and
    the new proxy gets the same. *)
Lemma account_witness_proxy_handed o s u s' :
  votes_ok s → proxied_exact s → ⟨ account_witness_proxy_apply o, s ⟩ ⇓ ⟨ u, s' ⟩ →
  witness_proxy_proxy o ≠ witness_proxy_account o → proxied_exact s'.
Proof.
  intros Hok Hpx Hr Hqn. apply account_witness_proxy_run in Hr as (a & a1 & s1 & Ha & _ & Hd & H1 & Ha1 & Hr).
  destruct (votes_taken _ _ _ _ _ _ Ha Hok Hd H1) as [Hp Ha1']. rewrite Ha1 in Ha1'. injection Ha1' as ->.
  destruct Hok as [Hwf _]. pose proof (vw_array _ Hwf) as Hfull. pose proof (vw_array _ (pa_wf _ _ _ _ _ _ _ Hp)) as Hfull1.
  assert (length (own_votes a) = 5%nat) as Hlen by (unfold own_votes; cbn; by rewrite (Hfull _ _ Ha)).
  eapply (adjust_proxied_array_from_handed 4 _ a) in H1; [|lia|by rewrite length_fmap|done..].
  assert (proxied_up_to (λ k i, - handed k i a) s1) as Hx1.
  { eapply proxied_ext; [|exact H1]. intros k i _ _. cbv beta. unfold handed. rewrite shifted_0, nth_opp.
    repeat case_bool_decide; (done || lia). }
  case_bool_decide as Eq.
  - subst s'. eapply proxied_ext; [|by eapply set_account_proxied]. intros k i Hk _. cbv beta. unfold handed, own_votes. fields.
    rewrite (bool_decide_eq_false_2 (witness_proxy_proxy o = k)) by congruence. repeat case_bool_decide; (done || lia).
  - destruct Hr as (np & chain & s2 & a2 & _ & _ & _ & H2 & Ha2 & H3).
    destruct (clear_witness_votes_run _ _ _ _ _ Ha1 H2) as (t & a' & -> & Ea & _).
    db_fields in Ha2. rewrite lookup_insert_eq in Ha2. injection Ha2 as ->.
    assert (own_votes a2 = own_votes a ∧ acc_proxied_votes a2 = acc_proxied_votes a ∧ acc_proxy a2 = acc_proxy a) as (Eo & Ev & Ep)
      by (rewrite Ea; unfold own_votes; by fields).
    set (s2 := s1 <| witness_votes := t |>) in *. assert (proxied_up_to (λ k i, - handed k i a) s2) as Hx2 by done.
    set (a3 := a2 <| acc_proxy := witness_proxy_proxy o |>) in *. set (name := witness_proxy_account o) in *.
    assert (proxied_up_to (λ k i, - handed k i a3) (set_row accounts name a3 (set_row accounts name a2 s2))) as Hx3.
    { eapply proxied_ext; [|eapply set_account_proxied; [|eapply set_account_proxied; [|exact Hx2]]]; [|db_fields; apply lookup_insert_eq|exact Ha1].
      intros k i _ _. cbv beta. change (acc_proxied_votes a3) with (acc_proxied_votes a2). rewrite Ev. unfold handed. rewrite Eo, Ep.
      repeat case_bool_decide; (done || lia). }
    eapply (adjust_proxied_array_from_handed 4 _ a3) in H3; [|lia|done|db_fields; apply lookup_insert_eq| |exact Hx3].
    + eapply proxied_ext; [|exact H3]. intros k i _ _. cbv beta. unfold handed. rewrite shifted_0.
      change (own_votes a3) with (own_votes a2). rewrite Eo. repeat case_bool_decide; (done || lia).
    + repeat apply set_account_full; [done|..]; change (acc_proxied_votes a3) with (acc_proxied_votes a2); rewrite Ev; eauto.
Qed.

(** No loop, exact witness votes, and the votes counted stay the total. *)
Lemma account_witness_proxy_votes o s u s' :
  votes_ok s → ⟨ account_witness_proxy_apply o, s ⟩ ⇓ ⟨ u, s' ⟩ → witness_proxy_proxy o ≠ witness_proxy_account o →
  votes_ok s' ∧ vote_gap s' = vote_gap s ∧
  ∃ a, rows (accounts s') !! witness_proxy_account o = Some a ∧ acc_proxy a = witness_proxy_proxy o.
Proof.
  intros Hok Hr Hqn. apply account_witness_proxy_run in Hr as (a & a1 & s1 & Ha & Hne & Hd & H1 & Ha1 & Hr).
  set (name := witness_proxy_account o) in *. set (q := witness_proxy_proxy o) in *.
  destruct (votes_taken _ _ _ _ _ _ Ha Hok Hd H1) as [Hp Ha1']. rewrite Ha1 in Ha1'. injection Ha1' as ->.
  destruct Hok as [Hwf Hex]. pose proof Hp as Hpass. destruct Hp as [Hx Hc Hwf1 Hk1 Hv1 Hg1 _].
  case_bool_decide as Eq.
  - subst s'. assert (self_voting a = false) as Hsv by (apply bool_decide_eq_false; congruence). rewrite Hsv in Hx, Hc.
    edestruct (set_proxy_exact name a (a <| acc_proxy := q |>) q s1) as [Hok' Hc']; [exact Ha1|by split|by fields..|by rewrite Eq|].
    split_and!; [exact Hok'| |eexists; split; [db_fields; apply lookup_insert_eq|by fields]].
    change (amount (gpo_totalSCORE (gpo s1)) - counted (set_row accounts name (a <| acc_proxy := q |>) s1) = amount (gpo_totalSCORE (gpo s)) - counted s).
    rewrite Hg1, Hc', Hc, bool_decide_true by done. unfold votes_counted. fold (self_voting a). rewrite Hsv.
    change (Z.to_nat (MAX_PROXY_RECURSION_DEPTH - 1)) with 3%nat. lia.
  - destruct Hr as (np & chain & s2 & a2 & Hnp & Hin & Hchk & H2 & Ha2 & Hr).
    eapply check_proxy_chain_ok in Hchk as [_ Hchain]; [|done].
    assert (¬ above s1 q name) as Hab by (intros Hab; by apply (Hchain name a Hab Ha1)).
    destruct (votes_dropped _ _ _ _ _ _ Ha (conj Hwf Hex) Hpass Ha1 H2) as (a2' & Hok2 & Hc2 & Hg2 & Hk2 & Ha2' & Ea2 & Hno).
    rewrite Ha2 in Ha2'. injection Ha2' as <-.
    assert (acc_id a2 = acc_id a ∧ acc_weight a2 = acc_weight a ∧ acc_proxied_votes a2 = acc_proxied_votes a ∧ acc_proxy a2 = acc_proxy a)
      as (Eid & Ew & Epv & Epr) by (rewrite Ea2; unfold acc_weight; by fields).
    set (a3 := a2 <| acc_proxy := q |>) in *.
    edestruct (set_proxy_exact name a2 a3 q s2) as [[Hwf3 Hx3] Hc3]; [done|done|by unfold a3; fields..|by unfold a3; fields| |].
    { intros _. pose proof (Hk2 q) as Hkq. rewrite Hnp in Hkq. destruct (rows (accounts s2) !! q) as [b|] eqn:Hb; [|done].
      split_and!; [by eapply vw_chains; [apply Hok2|]|done| |].
      - intros Hab2. apply Hab. by eapply keeps_above.
      - intros w. rewrite Eid. apply Hno. }
    assert (own_votes a = own_votes a3) as Eown by (unfold own_votes, a3; fields; rewrite Ea2; by fields).
    rewrite Eown in Hr. eapply votes_handed in Hr as (Hok' & Hc' & Hg' & Hn'); [|db_fields; apply lookup_insert_eq| |by split].
    2: { apply bool_decide_eq_false. unfold a3. by fields. }
    split_and!; [done| |exists a3; split; [done|by unfold a3; fields]].
    unfold vote_gap. fold (counted s') (counted s). rewrite Hg', Hc', Hc3, Hc2, Hc, bool_decide_false by done.
    change (gpo (set_row accounts name a3 s2)) with (gpo s2). assert (acc_weight a3 = acc_weight a2 ∧ acc_proxied_votes a3 = acc_proxied_votes a2)
      as [-> ->] by (unfold a3, acc_weight; by fields). rewrite Hg2.
    unfold votes_counted. fold (self_voting a) (self_voting a2). assert (self_voting a2 = self_voting a) as -> by (unfold self_voting; by rewrite Epr).
    rewrite Ew, Epv. change (Z.to_nat (MAX_PROXY_RECURSION_DEPTH - 1)) with 3%nat. destruct (self_voting a); lia.
Qed.

(** C19. [account_witness_proxy]: no proxy is accepted that would close a loop, the
    votes of every witness stay exactly the weight of its supporters, and the difference
    between the total SCORE and the votes counted for the accounts stays.  The proxied votes of every account
    stay what the accounts with that proxy hand to it: at place 0 the sum of their
    SCORE, at each further place the sum of what they hold at the place before. *)
Theorem account_witness_proxy_exact o s u s' :
  account_witness_proxy_validate o = Ok tt → votes_ok s →
  ⟨ account_witness_proxy_apply o, s ⟩ ⇓ ⟨ u, s' ⟩ →
  votes_ok s' ∧ (proxied_exact s → proxied_exact s') ∧ vote_gap s' = vote_gap s ∧
  ∃ a, rows (accounts s') !! witness_proxy_account o = Some a ∧ acc_proxy a = witness_proxy_proxy o.
Proof.
  intros Hval Hok Hr. assert (witness_proxy_proxy o ≠ witness_proxy_account o) as Hqn.
  { unfold account_witness_proxy_validate in Hval. apply result_bind_ok in Hval as (? & _ & Hval).
    apply result_bind_ok in Hval as (? & _ & Hval). by apply fc_check_ok, negb_true_iff, str_eqb_false in Hval. }
  destruct (account_witness_proxy_votes _ _ _ _ Hok Hr Hqn) as (H1 & H2 & H3). split_and!; [done| |done..].
  intros Hpx. by apply (account_witness_proxy_handed o s u).
Qed.

(** ** Voting *)

(** One vote is recorded or removed. *)
Lemma vote_toggled name a wid t s f :
  rows (accounts s) !! name = Some a → acc_proxy a = PROXY_TO_SELF_ACCOUNT → votes_wf s → exact_up_to f s →
  (∀ k, k ≠ (acc_id a, wid) → rows t !! k = rows (witness_votes s) !! k) →
  let s' := s <| witness_votes := t |> in
  let weight (v : bool) := if v then acc_weight a else 0 in
  votes_wf s' ∧
  exact_up_to (λ w, f w + if w =? wid then weight (voted s (acc_id a) wid) - weight (voted s' (acc_id a) wid) else 0) s'.
Proof.
  intros Ha Hp Hwf Hf Ht s' weight. split.
  - destruct (Hwf). unfold s'. split; fields; try done.
    + intros k b w Hk Hb. rewrite Ht; [eauto|]. intros [= E _]. destruct Hb. assert (k = name) as -> by eauto. congruence.
    + intros k b Hk. apply vw_chains0 in Hk. induction Hk; [by eapply ends_here|by eapply ends_above].
  - intros n w Hn. rewrite (Hf n w Hn). unfold supporters, s'. fields.
    pose proof (map_sum_delete (λ b, if voted s (acc_id b) (wit_id w) then acc_weight b else 0) _ _ _ Ha) as E1.
    pose proof (map_sum_delete (λ b, if voted s' (acc_id b) (wit_id w) then acc_weight b else 0) _ _ _ Ha) as E2.
    cbv beta in E1, E2. fold s'.
    rewrite (map_sum_ext (λ b, if voted s' (acc_id b) (wit_id w) then acc_weight b else 0)
      (λ b, if voted s (acc_id b) (wit_id w) then acc_weight b else 0) (delete name _)) in E2.
    + destruct (Z.eqb_spec (wit_id w) wid) as [<-|Hne]; unfold weight; [lia|].
      assert (voted s' (acc_id a) (wit_id w) = voted s (acc_id a) (wit_id w)) as Ev by (unfold voted, s'; fields; rewrite Ht; [done|congruence]).
      rewrite Ev in E2. lia.
    + intros k b [Hne Hk]%lookup_delete_Some. unfold voted, s'. fields. rewrite Ht; [done|]. intros [= E _].
      destruct Hne. symmetry. by eapply vw_ids.
Qed.

Lemma set_voted_for name a a' s :
  rows (accounts s) !! name = Some a → votes_ok s → a' = a <| acc_witnesses_voted_for := acc_witnesses_voted_for a' |> →
  votes_ok (set_row accounts name a' s) ∧ counted (set_row accounts name a' s) = counted s.
Proof.
  intros Ha [Hwf Hex] Ea. assert (acc_id a' = acc_id a ∧ acc_proxy a' = acc_proxy a ∧ acc_weight a' = acc_weight a ∧ acc_proxied_votes a' = acc_proxied_votes a)
    as (Eid & Epr & Ew & Epv) by (rewrite Ea; unfold acc_weight; by fields). split; [split|].
  - eapply set_account_wf; [done..|by rewrite Epv|done].
  - eapply exact_ext; [|eapply set_account_exact; [exact Ha|done|exact Hex]]. intros w. cbv beta. rewrite Ew, Z.sub_diag. by destruct (voted _ _ _).
  - rewrite (counted_set _ a) by done. unfold votes_counted. rewrite Epr, Ew, Epv. lia.
Qed.

Lemma moved_accounts f s s' : votes_moved f s s' → accounts s' = accounts s ∧ witness_votes s' = witness_votes s ∧ gpo s' = gpo s.
Proof. intros [Hr _]. rewrite Hr. by fields. Qed.

Lemma vote_added name a wn w v g s u1 s2 u2 s' :
  rows (accounts s) !! name = Some a → acc_proxy a = PROXY_TO_SELF_ACCOUNT → rows (witnesses s) !! wn = Some w →
  rows (witness_votes s) !! (acc_id a, wit_id w) = None → votes_ok s →
  ⟨ adjust_witness_vote wn (acc_weight a), add_row witness_votes (acc_id a, wit_id w) v s ⟩ ⇓ ⟨ u1, s2 ⟩ →
  ⟨ modify accounts name (λ a, Ok (a <| acc_witnesses_voted_for ::= g |>)), s2 ⟩ ⇓ ⟨ u2, s' ⟩ →
  votes_ok s' ∧ vote_gap s' = vote_gap s ∧ voted s' (acc_id a) (wit_id w) = true.
Proof.
  intros Ha Hp Hw Hv [Hwf Hex] H1 H2. set (s1 := add_row witness_votes (acc_id a, wit_id w) v s) in *.
  edestruct (vote_toggled name a (wit_id w) (witness_votes s1) s) as [Hwf1 Hx1]; [done..| |].
  { intros k Hk. unfold s1. db_fields. by rewrite lookup_insert_ne. }
  change (s <| witness_votes := witness_votes s1 |>) with s1 in *.
  assert (voted s (acc_id a) (wit_id w) = false) as Ev by (unfold voted; by rewrite Hv).
  assert (voted s1 (acc_id a) (wit_id w) = true) as Ev1.
  { unfold voted, s1. db_fields. rewrite lookup_insert_eq. by apply bool_decide_eq_true. }
  rewrite Ev, Ev1 in Hx1. eapply adjust_witness_vote_moved in H1 as Hm; [|done|exact Hw].
  destruct (moved_accounts _ _ _ Hm) as (Eacc & Evot & Egpo).
  apply runs_modify in H2 as (b & b' & Hb & [= <-] & ->). rewrite Eacc in Hb. change (accounts s1) with (accounts s) in Hb.
  rewrite Ha in Hb. injection Hb as <-.
  assert (votes_ok s2) as Hok2.
  { split; [by eapply votes_moved_wf|]. eapply exact_ext; [|by eapply votes_moved_exact]. intros i. cbv beta. destruct (_ =? _); lia. }
  edestruct (set_voted_for name a (a <| acc_witnesses_voted_for ::= g |>) s2) as [Hok3 Hc3]; [by rewrite Eacc|done|by destruct a|].
  split_and!; [done| |].
  - unfold vote_gap. fold (counted s) (counted (set_row accounts name (a <| acc_witnesses_voted_for ::= g |>) s2)).
    rewrite Hc3. unfold counted. rewrite Eacc. change (gpo (set_row _ _ _ s2)) with (gpo s2). by rewrite Egpo.
  - unfold voted in *. db_fields. by rewrite Evot.
Qed.

Lemma vote_removed name a wn w v g s u1 s1 u2 s' :
  rows (accounts s) !! name = Some a → acc_proxy a = PROXY_TO_SELF_ACCOUNT → rows (witnesses s) !! wn = Some w →
  rows (witness_votes s) !! (acc_id a, wit_id w) = Some v → votes_ok s →
  ⟨ adjust_witness_vote wn (- acc_weight a), s ⟩ ⇓ ⟨ u1, s1 ⟩ →
  ⟨ modify accounts name (λ a, Ok (a <| acc_witnesses_voted_for ::= g |>));; remove witness_votes (acc_id a, wit_id w), s1 ⟩ ⇓ ⟨ u2, s' ⟩ →
  votes_ok s' ∧ vote_gap s' = vote_gap s ∧ voted s' (acc_id a) (wit_id w) = false.
Proof.
  intros Ha Hp Hw Hv [Hwf Hex] H1 H2. eapply adjust_witness_vote_moved in H1 as Hm; [|done|exact Hw].
  destruct (moved_accounts _ _ _ Hm) as (Eacc & Evot & Egpo).
  apply runs_bind in H2 as (? & s2 & H2 & ->%runs_remove).
  apply runs_modify in H2 as (b & b' & Hb & [= <-] & ->). rewrite Eacc, Ha in Hb. injection Hb as <-.
  set (a' := a <| acc_witnesses_voted_for ::= g |>).
  assert (votes_wf s1) as Hwf1 by (by eapply votes_moved_wf). pose proof (votes_moved_exact _ _ _ _ Hm Hex) as Hx1.
  assert (rows (accounts s1) !! name = Some a) as Ha1 by (by rewrite Eacc).
  assert (acc_id a' = acc_id a ∧ acc_proxy a' = acc_proxy a ∧ acc_weight a' = acc_weight a ∧ acc_proxied_votes a' = acc_proxied_votes a)
    as (Eid & Epr & Ew & Epv) by (unfold a', acc_weight; by fields).
  assert (votes_wf (set_row accounts name a' s1)) as Hwf2 by (eapply set_account_wf; [done..|by rewrite Epv|done]).
  pose proof (set_account_exact _ _ _ a' _ Ha1 Eid Hx1) as Hx2. set (s2 := set_row accounts name a' s1) in *.
  edestruct (vote_toggled name a' (wit_id w) (witness_votes (del_row witness_votes (acc_id a, wit_id w) s2)) s2) as [Hwf3 Hx3];
    [by unfold s2; db_fields; apply lookup_insert_eq|congruence|done|exact Hx2| |].
  { intros k Hk. db_fields. rewrite lookup_delete_ne; [done|]. rewrite Eid in Hk. done. }
  change (s2 <| witness_votes := _ |>) with (del_row witness_votes (acc_id a, wit_id w) s2) in *. rewrite Eid, Ew in Hx3.
  assert (voted s2 (acc_id a) (wit_id w) = true) as Ev2.
  { unfold voted, s2. db_fields. rewrite Evot, Hv. by apply bool_decide_eq_true. }
  assert (voted (del_row witness_votes (acc_id a, wit_id w) s2) (acc_id a) (wit_id w) = false) as Ev3.
  { unfold voted. db_fields. by rewrite lookup_delete_eq. }
  rewrite Ev2, Ev3 in Hx3. split_and!; [split; [done|]| |done].
  - eapply exact_ext; [|exact Hx3]. intros i. cbv beta. rewrite Z.sub_diag. destruct (voted s1 _ _), (_ =? _); lia.
  - unfold vote_gap, s2. db_fields. rewrite Egpo, Eacc. rewrite (map_sum_insert_same _ _ _ _ _ Ha); [done|].
    unfold votes_counted. by rewrite Epr, Ew, Epv.
Qed.

(** [accountWitnessVote]: a vote for or against a witness changes the cached votes
    of that witness by exactly the weight of the voter. *)
Theorem account_witness_vote_exact o s u s' :
  hardfork_active s HARDFORK_0_3 = true → votes_ok s →
  ⟨ accountWitnessVote_apply o, s ⟩ ⇓ ⟨ u, s' ⟩ →
  votes_ok s' ∧ vote_gap s' = vote_gap s ∧
  ∃ a w, rows (accounts s) !! accountWitnessVote_account o = Some a ∧
    rows (witnesses s) !! accountWitnessVote_witness o = Some w ∧
    voted s (acc_id a) (wit_id w) = negb (accountWitnessVote_approve o) ∧
    voted s' (acc_id a) (wit_id w) = accountWitnessVote_approve o.
Proof.
  intros H3 Hok Hr. assert (hardfork_active s HARDFORK_0_2 = true) as H2.
  { unfold hardfork_active in *. bool_hyps. apply Z.ltb_lt. change HARDFORK_0_3 with 3 in H3. change HARDFORK_0_2 with 2. lia. }
  unfold accountWitnessVote_apply, get_account, get_witness, has_hardfork in Hr. cbv zeta in Hr.
  set (name := accountWitnessVote_account o) in *. set (wn := accountWitnessVote_witness o) in *.
  apply runs_bind in Hr as (a & s1 & [Ha ->]%runs_getr & Hr).
  apply runs_bind in Hr as (? & s1 & [Hp ->]%runs_assert & Hr). rewrite nonempty_self, negb_involutive in Hp. bool_hyps.
  apply runs_bind in Hr as (? & s1 & Hcan & Hr). assert (s1 = s) as ->.
  { destruct (accountWitnessVote_approve o); cbn in Hcan; [by apply runs_assert in Hcan as [_ ->]|by apply runs_ret in Hcan as [_ ->]]. }
  apply runs_bind in Hr as (w & s1 & [Hw ->]%runs_getr & Hr). apply runs_bind in Hr as (itr & s1 & [-> ->]%runs_find & Hr).
  apply runs_bind in Hr as (hf2 & s1 & [-> ->]%runs_asks & Hr). apply runs_bind in Hr as (hf3 & s1 & [-> ->]%runs_asks & Hr).
  rewrite H2, H3 in Hr. destruct (rows (witness_votes s) !! (acc_id a, wit_id w)) as [v|] eqn:Hv;
    apply runs_bind in Hr as (? & s1 & [Hop ->]%runs_assert & Hr); apply runs_bind in Hr as (? & s1 & H1 & Hr).
  - apply runs_bind in H1 as (wt & s2 & [Hwt ->]%runs_lift & H1). apply result_bind_ok in Hwt as (y & Hy%witness_vote_weight_ok & [-> _]%safe_neg_ok).
    subst y. destruct (vote_removed _ _ _ _ _ _ _ _ _ _ _ Ha Hp Hw Hv Hok H1 Hr) as (Hok' & Hc & Hno). bool_hyps. rewrite Hop. cbn [negb].
    split_and!; [done|done|]. exists a, w. split_and!; [done..| |done]. unfold voted. by rewrite Hv.
  - apply runs_bind in H1 as (? & s2 & [_ ->]%runs_assert & H1). apply runs_bind in H1 as (? & s2 & [Hn ->]%runs_create & H1).
    apply runs_bind in H1 as (wt & s2 & [Hwt ->]%runs_lift & H1). apply witness_vote_weight_ok in Hwt as ->.
    destruct (vote_added _ _ _ _ _ _ _ _ _ _ _ Ha Hp Hw Hv Hok H1 Hr) as (Hok' & Hc & Hyes). rewrite Hop. cbn [negb].
    split_and!; [done|done|]. exists a, w. split_and!; [done..| |done]. unfold voted. by rewrite Hv.
Qed.

(** ** Declining the right to vote *)

(** A step that keeps the votes exact and the difference to the total SCORE. *)
Definition votes_step (s s' : database) : Prop := votes_ok s → votes_ok s' ∧ vote_gap s' = vote_gap s.
#[export] Instance votes_step_preorder : PreOrder votes_step.
Proof.
  split; [by intros s H|]. intros s1 s2 s3 H1 H2 H. destruct (H1 H) as [H' E]. destruct (H2 H') as [H'' E']. by rewrite E'.
Qed.

Lemma account_with_id_ok id s n :
  account_with_id id s = Some n → ∃ a, rows (accounts s) !! n = Some a ∧ acc_id a = id.
Proof.
  unfold account_with_id. destruct (list_find _ _) as [[i [k a]]|] eqn:Hf; [|done].
  intros Hn. injection Hn as <-. apply list_find_Some in Hf as (Hl & Hid & _). cbn in *.
  exists a. split; [|done]. apply elem_of_map_to_list. by eapply list_elem_of_lookup_2.
Qed.

Lemma decline_votes_step k r s u s' :
  ⟨ decline_votes k r, s ⟩ ⇓ ⟨ u, s' ⟩ → votes_step s s'.
Proof.
  intros Hr Hok. unfold decline_votes, get_account_by_id, get_account in Hr.
  apply runs_bind in Hr as (name & s1 & Hn & Hr). apply runs_bind in Hn as (o & s2 & [-> ->]%runs_asks & Hn).
  destruct (account_with_id _ s) as [n|]; [|by db_inv]. apply runs_ret in Hn as [-> <-].
  apply runs_bind in Hr as (a & s1 & [Ha ->]%runs_getr & Hr). apply runs_bind in Hr as (delta & s1 & [Hd ->]%runs_lift & Hr).
  apply runs_bind in Hr as (? & s1 & H1 & Hr). destruct (votes_taken _ _ _ _ _ _ Ha Hok Hd H1) as [Hp Ha1].
  apply runs_bind in Hr as (? & s2 & H2 & Hr).
  destruct (votes_dropped _ _ _ _ _ _ Ha Hok Hp Ha1 H2) as (a2 & Hok2 & Hc2 & Hg2 & _ & Ha2 & Ea2 & _).
  apply runs_bind in Hr as (? & s3 & H3 & ->%runs_remove). apply runs_modify in H3 as (b & b' & Hb & [= <-] & ->).
  rewrite Ha2 in Hb. injection Hb as <-. set (a3 := a2 <| acc_can_vote := false |> <| acc_proxy := PROXY_TO_SELF_ACCOUNT |>) in *.
  edestruct (set_proxy_exact name a2 a3 PROXY_TO_SELF_ACCOUNT s2) as [[Hwf3 Hx3] Hc3]; [done|done|by unfold a3; fields..|done|].
  split.
  - split; [|exact Hx3]. destruct Hwf3. split; db_fields; eauto. intros y b Hy. apply vw_chains0 in Hy.
    induction Hy; [by eapply ends_here|by eapply ends_above].
  - unfold vote_gap. db_fields. fold (counted (set_row accounts name a3 s2)). change (map_sum votes_counted (<[name := a3]> (rows (accounts s2)))) with (counted (set_row accounts name a3 s2)).
    rewrite Hc3, Hc2, (pa_counted _ _ _ _ _ _ _ Hp), Hg2, bool_decide_true by done. fold (counted s).
    unfold votes_counted. rewrite Ea2. fields. fold (self_voting a). unfold acc_weight. fields.
    change (Z.to_nat (MAX_PROXY_RECURSION_DEPTH - 1)) with 3%nat. destruct (self_voting a); lia.
Qed.

(** [process_decline_voting_rights] keeps all the caches exact. *)
Lemma process_decline_step : preserves votes_step process_decline_voting_rights.
Proof.
  unfold process_decline_voting_rights. intros s u s' Hr. runs_step. unfold head_block_time in *. db_step.
  revert Hr. apply drain_preserves; [apply _|]. intros k r t v t' _ _ Ht. by eapply decline_votes_step.
Qed.

(** ** Moving SCORE *)

(** The SCORE of an account changes by [d] and its votes follow. *)
Lemma score_moved name a a' d s u s' :
  rows (accounts s) !! name = Some a → votes_ok s → acc_id a' = acc_id a → acc_proxy a' = acc_proxy a →
  acc_proxied_votes a' = acc_proxied_votes a → amount (acc_SCORE a') = amount (acc_SCORE a) + d →
  ⟨ adjust_proxied_witness_votes name d, set_row accounts name a' s ⟩ ⇓ ⟨ u, s' ⟩ →
  votes_ok s' ∧ counted s' = counted s + d ∧ gpo s' = gpo s.
Proof.
  intros Ha [Hwf Hex] Eid Epr Epv Esc Hr. assert (acc_weight a' = acc_weight a + d) as Ew by (unfold acc_weight; rewrite Epv; lia).
  assert (votes_wf (set_row accounts name a' s)) as Hwf1 by (eapply set_account_wf; [done..|by rewrite Epv|done]).
  pose proof (set_account_exact _ _ _ a' _ Ha Eid Hex) as Hx1. set (s1 := set_row accounts name a' s) in *.
  eapply (adjust_proxied_from_passed 4 name a') in Hr; [|lia|unfold s1; db_fields; apply lookup_insert_eq|done..].
  destruct Hr as [Hx Hc Hwf' _ _ Hg _]. split_and!; [split; [done|]| |done].
  - eapply exact_ext; [|exact Hx]. intros w. cbv beta. rewrite Eid, Ew.
    assert (self_voting a' = self_voting a) as -> by (unfold self_voting; by rewrite Epr).
    change (voted s1 (acc_id a) w) with (voted s (acc_id a) w). destruct (voted s (acc_id a) w) eqn:Ev; [|rewrite andb_false_r; lia].
    destruct (self_voting a) eqn:Hsv; cbn [andb]; [lia|]. apply bool_decide_eq_false in Hsv. unfold voted in Ev.
    rewrite (vw_voters _ Hwf _ _ _ Ha Hsv) in Ev. bool_hyps. by destruct Ev.
  - rewrite Hc. unfold s1. rewrite (counted_set _ a) by done. unfold votes_counted. fold (self_voting a) (self_voting a').
    assert (self_voting a' = self_voting a) as -> by (unfold self_voting; by rewrite Epr). rewrite Ew, Epv. destruct (self_voting a); lia.
Qed.

(** What the voting code reads of the state is the same. *)
Record votes_same (s s' : database) : Prop := VotesSame {
  vs_accounts : keeps (λ a, (proxy_view a, acc_proxied_votes a)) s s';
  vs_witnesses n : (λ w, (wit_id w, wit_votes w)) <$> (rows (witnesses s') !! n) = (λ w, (wit_id w, wit_votes w)) <$> (rows (witnesses s) !! n);
  vs_votes : witness_votes s' = witness_votes s;
  vs_score : gpo_totalSCORE (gpo s') = gpo_totalSCORE (gpo s);
}.

#[export] Instance votes_same_preorder : PreOrder votes_same.
Proof.
  split; [by intros s; split|]. intros s1 s2 s3 [] []. split; congruence.
Qed.

Lemma votes_same_step s s' : votes_same s s' → votes_step s s'.
Proof.
  intros [Ha Hw Hv Hg] [Hwf Hex]. set (view := λ a : account_object, (proxy_view a, acc_proxied_votes a)) in *.
  assert (∀ k b, rows (accounts s') !! k = Some b → ∃ a, rows (accounts s) !! k = Some a ∧ acc_id b = acc_id a ∧
    acc_proxy b = acc_proxy a ∧ acc_proxied_votes b = acc_proxied_votes a) as Hback.
  { intros k b Hb. destruct (keeps_lookup _ _ _ _ _ Ha Hb) as (a & Hk & E). injection E as ? ? _ _ ?. exists a. done. }
  assert (∀ n w', rows (witnesses s') !! n = Some w' → ∃ w, rows (witnesses s) !! n = Some w ∧ wit_id w' = wit_id w ∧ wit_votes w' = wit_votes w) as Hwb.
  { intros n w' Hn. specialize (Hw n). rewrite Hn in Hw. symmetry in Hw. apply fmap_Some in Hw as (w & Hk & E). injection E as ? ?. exists w. done. }
  split; [split|].
  - destruct Hwf. split.
    + intros k b (a & Hk & _ & _ & ->)%Hback. eauto.
    + intros k k' b b' (a & Hk & -> & _)%Hback (a' & Hk' & -> & _)%Hback. eauto.
    + intros n n' w w' (v & Hn & -> & _)%Hwb (v' & Hn' & -> & _)%Hwb. eauto.
    + intros k b w (a & Hk & -> & -> & _)%Hback. rewrite Hv. exact (vw_voters0 k a w Hk).
    + intros k b (a & Hk & _)%Hback. apply vw_chains0 in Hk. clear a b.
      induction Hk as [k a Hk Hp|k a Hk Hp _ IH]; pose proof (Ha k) as Hb; rewrite Hk in Hb; cbn in Hb;
        apply fmap_Some in Hb as (b & Hb & E); injection E as _ E _ _ _.
      * eapply ends_here; [done|congruence].
      * eapply ends_above; [done|congruence|by rewrite <- E].
  - intros n w' Hn. destruct (Hwb n w' Hn) as (w & Hk & -> & ->). rewrite (Hex n w Hk). f_equal. unfold supporters, voted. rewrite Hv.
    symmetry. refine (map_sum_view view _ (λ v, if bool_decide (is_Some (rows (witness_votes s) !! (v.1.1.1.1, wit_id w))) then amount v.1.1.2 + sumZ v.2 else 0) _ _ _ Ha).
    done.
  - unfold vote_gap. rewrite Hg. f_equal. refine (map_sum_view view _ (λ v, if bool_decide (v.1.1.1.2 = PROXY_TO_SELF_ACCOUNT) then amount v.1.1.2 + sumZ v.2
      else nth (Z.to_nat (MAX_PROXY_RECURSION_DEPTH - 1)) v.2 0) _ _ _ Ha). done.
Qed.
End votes.

(** * Examples *)

Module VoteExamples.
Import FcRef.

(** Alice has 100 SCORE and votes for a witness, Bob has 50. *)
Definition voters : gmap account_name account_object :=
  <["alice" := sample_account 1 "alice" 0 0 100]> (<["bob" := sample_account 2 "bob" 0 0 50]> ∅).
Definition candidate : witness_object := sample_witness 0 "awitness" <| wit_votes := 100 |>.
Definition election : database :=
  sample_db voters 0 0 150 <| witnesses := Table (<["awitness"%string := candidate]> ∅) 1 |>
    <| witness_votes := Table (<[(1, 0) := {| wvo_id := 0; wvo_witness := 0; wvo_account := 1 |}]> ∅) 1 |>.

Lemma voter_cases k a : rows (accounts election) !! k = Some a →
  (k = "alice"%string ∧ a = sample_account 1 "alice" 0 0 100) ∨ (k = "bob"%string ∧ a = sample_account 2 "bob" 0 0 50).
Proof.
  change (rows (accounts election)) with voters. unfold voters. intros [[<- <-]|[_ Hk]]%lookup_insert_Some; [by left|].
  apply lookup_insert_Some in Hk as [[<- <-]|[_ Hk]]; [by right|done].
Qed.
Lemma candidate_cases n w : rows (witnesses election) !! n = Some w → n = "awitness"%string ∧ w = candidate.
Proof.
  change (rows (witnesses election)) with (<["awitness"%string := candidate]> (∅ : gmap account_name witness_object)).
  intros [[<- <-]|[_ Hk]]%lookup_insert_Some; done.
Qed.

Lemma election_ok : votes_ok election.
Proof.
  split; [split|].
  - intros k a [[-> ->]|[-> ->]]%voter_cases; done.
  - intros k k' a a' [[-> ->]|[-> ->]]%voter_cases [[-> ->]|[-> ->]]%voter_cases; done.
  - intros n n' w w' [-> ->]%candidate_cases [-> ->]%candidate_cases; done.
  - intros k a w [[-> ->]|[-> ->]]%voter_cases Hp; by destruct Hp.
  - intros k a [[-> ->]|[-> ->]]%voter_cases; by eapply ends_here.
  - intros n w [-> ->]%candidate_cases. vm_compute. reflexivity.
Qed.
Lemma election_handed : proxied_up_to (λ _ _, 0) election.
Proof.
  intros k p i _ [[-> ->]|[-> ->]]%voter_cases Hi; change (Z.to_nat MAX_PROXY_RECURSION_DEPTH) with 4%nat in Hi;
    (destruct i as [|[|[|[|i]]]]; [vm_compute; reflexivity..|lia]).
Qed.
Definition alice_proxies : account_witness_proxy_operation :=
  {| witness_proxy_account := "alice"; witness_proxy_proxy := "bob" |}.
Definition bob_votes : accountWitnessVote_operation :=
  {| accountWitnessVote_account := "bob"; accountWitnessVote_witness := "awitness"; accountWitnessVote_approve := true |}.
End VoteExamples.

Lemma account_witness_proxy_exact_witness :
  let s' := outcome (account_witness_proxy_apply (F:=FcRef.fc_ref) VoteExamples.alice_proxies) VoteExamples.election in
  votes_ok s' ∧ proxied_up_to (λ _ _, 0) s' ∧ acc_proxied_votes <$> rows (accounts s') !! "bob"%string = Some [100; 0; 0; 0].
Proof.
  intros s'. destruct (account_witness_proxy_exact (F:=FcRef.fc_ref) VoteExamples.alice_proxies VoteExamples.election tt s') as (H1 & H2 & _);
    [vm_compute; reflexivity|apply VoteExamples.election_ok|runs_ok|].
  split; [exact H1|split; [apply H2, VoteExamples.election_handed|vm_compute; reflexivity]].
Defined.

Lemma account_witness_vote_exact_witness :
  vote_gap (outcome (accountWitnessVote_apply (F:=FcRef.fc_ref) VoteExamples.bob_votes) VoteExamples.election) = vote_gap VoteExamples.election.
Proof.
  apply (account_witness_vote_exact (F:=FcRef.fc_ref) VoteExamples.bob_votes VoteExamples.election tt);
    [reflexivity|apply VoteExamples.election_ok|runs_ok].
Defined.
