(* ===== verification/Quiet.v ===== *)
(** Steps that move no money, no SCORE and no votes.

    Most of what the node does between two payments is bookkeeping: comments,
    authorities, witness properties, the schedule.  [quiet s s'] says that a step
    changed nothing any of the sums of [database::validate_invariants] reads, nor
    the delegations, withdrawals and votes behind them; it then keeps every
    invariant over them ([quiet_conserves], [quiet_score], [quiet_votes]). *)

From S2P Require Import Prelude Fc Config Asset Flat Authority Operations Objects Database Ledger Frame Supply ScoreFund Withdrawals Delegation Votes.

Definition quiet_view (a : account_object) :=
  (score_view a, (acc_proxy a, acc_can_vote a, acc_proxied_votes a), (acc_tme a, acc_tsd a, acc_score a, acc_pend a)).
Definition quiet_witness (w : witness_object) := (wit_id w, wit_votes w).
Definition quiet_tables (s : database) :=
  (witness_votes s, limit_orders s, convert_requests s, escrows s, savings_withdraws s, delegations s,
   delegation_expirations s, withdraw_routes s, reward_funds s, next_id (accounts s), next_id (witnesses s)).
Definition quiet_gpo (g : dynamic_global_property_object) :=
  (gpo_current_supply g, gpo_totalTMEfundForSCORE g, gpo_total_reward_fund_TME g, gpo_current_TSD_supply g,
   gpo_totalSCORE g, gpo_pending_rewarded_SCORE g, gpo_pending_rewarded_SCOREvalueInTME g).

Record quiet (s s' : database) : Prop := Quiet {
  q_accounts : keeps quiet_view s s';
  q_witnesses n : quiet_witness <$> (rows (witnesses s') !! n) = quiet_witness <$> (rows (witnesses s) !! n);
  q_tables : quiet_tables s' = quiet_tables s;
  q_gpo : quiet_gpo (gpo s') = quiet_gpo (gpo s);
}.

#[export] Instance quiet_preorder : PreOrder quiet.
Proof.
  split; [by intros s|]. intros s1 s2 s3 [] []. split; [by etrans|..]; congruence.
Qed.

(** * Quiet computations *)

Section quiet.
Context `{Countable K} {V : Type} (t : database → table K V) `{!Setter t}.

Lemma quiet_modify k f : (∀ v s, quiet s (set_row t k v s)) → preserves quiet (modify t k f).
Proof. intros Hq s u s' Hr. db_inv. apply Hq. Qed.
Lemma quiet_create k f : (∀ v s, quiet s (add_row t k v s)) → preserves quiet (create t k f).
Proof. intros Hq s u s' Hr. db_inv. apply Hq. Qed.
Lemma quiet_remove k : (∀ s, quiet s (del_row t k s)) → preserves quiet (remove t k).
Proof. intros Hq s u s' Hr. db_inv. apply Hq. Qed.
Lemma quiet_getr k : preserves quiet (get t k).
Proof. intros s u s' Hr. by db_inv. Qed.
Lemma quiet_find k : preserves quiet (find t k).
Proof. intros s u s' Hr. by db_inv. Qed.
Lemma quiet_drain le due body : (∀ k v, preserves quiet (body k v)) → preserves quiet (drain t le due body).
Proof. intros Hb. intros s u s'. apply drain_preserves; [apply _|]. intros. by eapply Hb. Qed.
End quiet.

Lemma quiet_asks {A} (f : database → A) : preserves quiet (asks f).
Proof. intros s u s' Hr. by db_inv. Qed.
Lemma quiet_db_assert c msg : preserves quiet (db_assert c msg).
Proof. intros s u s' [_ ->]%runs_db_assert. done. Qed.

Lemma quiet_modify1 {V} (p : database → V) `{!Setter p} f :
  (∀ v s, f (p s) = Ok v → quiet s (s <| p := v |>)) → preserves quiet (modify1 p f).
Proof. intros Hq s u s' Hr. db_inv. by apply Hq. Qed.

Lemma quiet_modify_account name f :
  (∀ a a', f a = Ok a' → quiet_view a' = quiet_view a) → preserves quiet (modify accounts name f).
Proof.
  intros Hf s u s' Hr. db_inv. split; [|done..]. eapply keeps_set_account; eauto.
Qed.

Lemma quiet_modify_witness name f :
  (∀ w w', f w = Ok w' → quiet_witness w' = quiet_witness w) → preserves quiet (modify witnesses name f).
Proof.
  intros Hf s u s' Hr. db_inv. split; [done| |done..]. intros n. db_fields.
  destruct (decide (name = n)) as [<-|]; [|by rewrite lookup_insert_ne].
  rewrite lookup_insert_eq, Hrow. cbn. f_equal. by apply Hf.
Qed.

Lemma quiet_push op : preserves quiet (push_virtual_operation op).
Proof. unfold push_virtual_operation. intros s u s' Hr. db_inv. done. Qed.

Create HintDb quiet discriminated.
#[export] Hint Resolve quiet_getr quiet_find quiet_asks quiet_db_assert quiet_push : quiet.

(** The value a function of [modify] returns. *)
Ltac returned H :=
  repeat match type of H with
  | (_ ≫= _) = Ok _ => apply result_bind_ok in H as (? & ? & H); cbv beta in H
  | context [if ?c then _ else _] => destruct c
  | context [match ?c with Some _ => _ | None => _ end] => destruct c
  | Err _ = Ok _ => discriminate H
  | Ok _ = Ok _ => injection H as <-
  end.
Ltac quiet_step :=
  lazymatch goal with
  | |- ∀ _, _ => intros
  | |- _ = true → _ => intros _
  | |- preserves quiet (modify accounts _ _) =>
      apply quiet_modify_account; let H := fresh in intros ? ? H; returned H; reflexivity
  | |- preserves quiet (modify witnesses _ _) =>
      apply quiet_modify_witness; let H := fresh in intros ? ? H; returned H; reflexivity
  | |- preserves quiet (modify1 _ _) =>
      apply quiet_modify1; let H := fresh in intros ? ? H; returned H; split; try (intros ?); reflexivity
  | |- preserves quiet (modify _ _ _) => apply quiet_modify; intros; split; try (intros ?); reflexivity
  | |- preserves quiet (create _ _ _) => apply quiet_create; intros; split; try (intros ?); reflexivity
  | |- preserves quiet (remove _ _) => apply quiet_remove; intros; split; try (intros ?); reflexivity
  | |- preserves quiet (_ ≫= _) => apply (preserves_bind quiet)
  | |- preserves quiet (mret _) => apply (preserves_ret quiet)
  | |- preserves quiet (lift _) => apply (preserves_lift quiet)
  | |- preserves quiet (throw _) => apply (preserves_throw quiet)
  | |- preserves quiet (fc_assert _ _) => apply (preserves_assert quiet)
  | |- preserves quiet (mwhen _ _) => apply (preserves_when quiet)
  | |- preserves quiet (mfor _ _) => apply (preserves_for quiet)
  | |- preserves quiet (drain _ _ _ _) => apply quiet_drain
  | |- preserves quiet (let _ := _ in _) => cbv zeta
  | |- preserves quiet (match ?x with _ => _ end) => destruct x
  | |- preserves quiet _ => solve [auto with quiet]
  end.
Ltac quieted := repeat autounfold with accessors; repeat quiet_step.

(** * What quiet steps keep *)

Section keep.
Context {F : Fc} {FL : FcLaws F}.

Lemma keeps_of_quiet {X} (view : account_object → X) (g : _ → X) s s' :
  (∀ a, view a = g (quiet_view a)) → keeps quiet_view s s' → keeps view s s'.
Proof.
  intros Hg Hk k. specialize (Hk k). destruct (rows (accounts s') !! k), (rows (accounts s) !! k); cbn in *; try done.
  apply (inj Some) in Hk. by rewrite !Hg, Hk.
Qed.

Lemma quiet_conserves s s' : quiet s s' → conserves s s'.
Proof.
  intros [Ha _ Ht Hg]. injection Ht as _ Ho Hc He Hs _ _ _ Hf _ _. injection Hg as H1 H2 H3 H4 H5 H6 H7.
  assert (∀ f g, (∀ a, f a = g (quiet_view a)) → map_sum f (rows (accounts s')) = map_sum f (rows (accounts s))) as Hsum
    by (intros f g Hfg; eapply (map_sum_view quiet_view); [exact Hfg|exact Ha]).
  split; unfold tme_gap, tsd_gap, score_gap, pend_gap, gpo_tme, gpo_tsd, gpo_score, gpo_pend;
    rewrite ?Ho, ?Hc, ?He, ?Hs, ?Hf, ?H1, ?H2, ?H3, ?H4, ?H5, ?H6, ?H7.
  - rewrite (Hsum acc_tme (λ v, v.2.1.1.1)) by done. lia.
  - rewrite (Hsum acc_tsd (λ v, v.2.1.1.2)) by done. lia.
  - rewrite (Hsum acc_score (λ v, v.2.1.2)) by done. lia.
  - rewrite (Hsum acc_pend (λ v, v.2.2)) by done. lia.
Qed.

Lemma quiet_votes_same s s' : quiet s s' → votes_same s s'.
Proof.
  intros [Ha Hw Ht Hg]. injection Ht as Hv _ _ _ _ _ _ _ _ _ _. injection Hg as _ _ _ _ Hs _ _. split; try done.
  eapply (keeps_of_quiet _ (λ v, let '(sv, (pr, cv, pv), _) := v in let '(i, _, sc, _, _, _, _, _) := sv in
    (i, pr, sc, cv, pv))); [|exact Ha]. by intros [].
Qed.

Lemma quiet_votes s s' : quiet s s' → votes_step s s'.
Proof. intros Hq. by apply votes_same_step, quiet_votes_same. Qed.

Lemma quiet_score s s' : quiet s s' → score_ok s → score_ok s'.
Proof.
  intros [Ha _ Ht _] [Hw Hd Hro]. injection Ht as _ _ _ _ _ Ed Ee Er _ _ _.
  assert (keeps score_view s s') as Hk by (by eapply (keeps_of_quiet _ (λ v, v.1.1))).
  split; [|eapply delegations_ok_keeps; try done|unfold routes_ok; by rewrite Er].
  - intros k a Hka. destruct (keeps_lookup _ _ _ _ _ Hk Hka) as (b & Hb & E). injection E as _ _ E1 E2 E3 E4 E5 E6 E7.
    destruct (Hw _ _ Hb). split; by rewrite ?E1, ?E2, ?E3, ?E4, ?E5, ?E6, ?E7.
  - intros k. specialize (Hk k). destruct (rows (accounts s') !! k), (rows (accounts s) !! k); cbn in *; try done.
    injection Hk as _ _ _ E1 E2 _ _ _ _. unfold grant_view. by rewrite E1, E2.
Qed.
End keep.
