(* ===== verification/Accounts.v ===== *)
(** Accounts, their authorities and their recovery: the evaluators of
    [chain/node_evaluator.cpp] that create and update accounts and witnesses, and
    [database::update_owner_authority] and [account_recovery_processing].

    An owner authority is replaced either by the owner or, within the 30 days in
    which the old one is kept in the history, by the recovery partner together
    with an owner authority of the past. *)

From S2P Require Import Prelude Fc Config Asset Flat Authority Operations Objects Database Samples Slots Ledger Frame Supply ScoreFund Quiet.

Section accounts_model.
Context {F : Fc}.

(** ** New objects *)

(** The members of a new [account_object]. *)
Definition account_defaults (id : Z) : account_object :=
  {| acc_id := id; acc_name := EmptyString; acc_memoKey := null_key; acc_json := EmptyString;
     acc_proxy := EmptyString; acc_last_accountUpdate := tps_min; acc_created := tps_min; acc_mined := true;
     acc_owner_challenged := false; acc_active_challenged := false; acc_last_owner_proved := tps_min;
     acc_last_active_proved := tps_min; acc_recoveryAccount := EmptyString; acc_reset_account := NULL_ACCOUNT;
     acc_last_account_recovery := tps_min; acc_comment_count := 0; acc_lifetime_vote_count := 0;
     acc_post_count := 0; acc_can_vote := true; acc_voting_power := PERCENT_100; acc_last_vote_time := tps_min;
     acc_balance := Asset 0 SYMBOL_COIN; acc_TMEsavingsBalance := Asset 0 SYMBOL_COIN;
     acc_TSDbalance := Asset 0 SYMBOL_USD; acc_TSD_seconds := 0; acc_TSD_seconds_last_update := tps_min;
     acc_TSD_last_interest_payment := tps_min; acc_TSDsavingsBalance := Asset 0 SYMBOL_USD;
     acc_savings_TSD_seconds := 0; acc_savings_TSD_seconds_last_update := tps_min;
     acc_savings_TSD_last_interest_payment := tps_min; acc_savings_withdraw_requests := 0;
     acc_SCORErewardBalanceInTME := Asset 0 SYMBOL_COIN; acc_TMErewardBalance := Asset 0 SYMBOL_COIN;
     acc_SCORErewardBalance := Asset 0 SYMBOL_SCORE; acc_TSDrewardBalance := Asset 0 SYMBOL_USD;
     acc_curationRewards := 0; acc_posting_rewards := 0; acc_SCORE := Asset 0 SYMBOL_SCORE;
     acc_SCOREDelegated := Asset 0 SYMBOL_SCORE; acc_SCOREreceived := Asset 0 SYMBOL_SCORE;
     acc_SCOREwithdrawRateInTME := Asset 0 SYMBOL_SCORE; acc_nextSCOREwithdrawalTime := tps_max;
     acc_withdrawn := 0; acc_to_withdraw := 0; acc_withdraw_routes := 0; acc_proxied_votes := [0; 0; 0; 0];
     acc_witnesses_voted_for := 0; acc_last_post := tps_min; acc_last_root_post := tps_min;
     acc_post_bandwidth := 0 |}.

(** The members of a new [witness_object]. *)
Definition witness_defaults (id : Z) (props : chain_properties) : witness_object :=
  {| wit_id := id; wit_owner := EmptyString; wit_created := tps_min; wit_url := EmptyString; wit_total_missed := 0;
     wit_last_aslot := 0; wit_last_confirmed_block_num := 0; wit_pow_worker := 0; wit_signing_key := null_key;
     wit_props := props; wit_TSD_exchange_rate := Price (Asset 0 SYMBOL_COIN) (Asset 0 SYMBOL_COIN);
     wit_last_TSD_exchange_update := tps_min; wit_votes := 0; wit_schedule := sched_none;
     wit_virtual_last_update := 0; wit_virtual_position := 0; wit_virtual_scheduled_time := u128_max;
     wit_last_work := EmptyString; wit_running_version := 0; wit_hardfork_version_vote := 0;
     wit_hardfork_time_vote := GENESIS_TIME |}.

(** ** Witnesses *)

(** [witness_update_evaluator::do_apply], libraries/chain/node_evaluator.cpp:64-108 *)
Definition witness_update_apply (o : witness_update_operation) : DB unit :=
  _ ← get_account (witness_update_owner o);
  hf1 ← has_hardfork HARDFORK_0_1;
  mwhen hf1 (fc_assert (Z.of_nat (String.length (witness_update_url o)) <=? MAX_WITNESS_URL_LENGTH) "URL is too long");;
  hf14 ← has_hardfork HARDFORK_0_14;
  mwhen hf14 (fc_assert (symbol (props_account_creation_fee (witness_update_props o)) =? SYMBOL_COIN) EmptyString);;
  wit_itr ← find witnesses (witness_update_owner o);
  match wit_itr with
  | Some _ =>
      modify witnesses (witness_update_owner o) (λ w,
        Ok (w <| wit_url := witness_update_url o |> <| wit_signing_key := witness_update_block_signing_key o |>
              <| wit_props := witness_update_props o |>))
  | None =>
      now ← head_block_time;
      create witnesses (witness_update_owner o) (λ id,
        witness_defaults id (witness_update_props o) <| wit_owner := witness_update_owner o |>
          <| wit_url := witness_update_url o |> <| wit_signing_key := witness_update_block_signing_key o |>
          <| wit_created := now |>)
  end.

(** [feed_publish_evaluator::do_apply], libraries/chain/node_evaluator.cpp:1775-1782 *)
Definition feed_publish_apply (o : feed_publish_operation) : DB unit :=
  _ ← get_witness (feed_publish_publisher o);
  now ← head_block_time;
  modify witnesses (feed_publish_publisher o) (λ w,
    Ok (w <| wit_TSD_exchange_rate := feed_publish_exchange_rate o |> <| wit_last_TSD_exchange_update := now |>)).

(** [report_over_production_evaluator::do_apply], libraries/chain/node_evaluator.cpp:1863-1866 *)
Definition report_over_production_apply (o : report_over_production_operation) : DB unit :=
  hf ← has_hardfork HARDFORK_0_4;
  fc_assert (negb hf) "report_over_production_operation is disabled.".

(** ** Creating accounts *)

(** The accounts an authority names exist. *)
Definition get_accounts_of (a : authority) : DB unit :=
  mfor (λ p, _ ← get_account p.1; mret tt) (account_auths a).

(** The new account and its authorities. *)
Definition create_account (name recovery : account_name) (memoKey : public_key) (json : string)
    (received : asset) (owner active posting : authority) : DB unit :=
  now ← head_block_time;
  create accounts name (λ id,
    account_defaults id <| acc_name := name |> <| acc_memoKey := memoKey |> <| acc_created := now |>
      <| acc_last_vote_time := now |> <| acc_mined := false |> <| acc_recoveryAccount := recovery |>
      <| acc_SCOREreceived := received |> <| acc_json := json |>);;
  create account_authorities name (λ id,
    {| aao_id := id; aao_account := name; aao_owner := owner; aao_active := active; aao_posting := posting;
       aao_last_owner_update := tps_min |}).

(** The fee the witnesses ask for, since hard fork 1. *)
Definition creation_fee_guard (fee : asset) : DB unit :=
  hf19 ← has_hardfork HARDFORK_0_19;
  hf1 ← has_hardfork HARDFORK_0_1;
  wso ← get_witness_schedule_object;
  let required := props_account_creation_fee (wso_median_props wso) in
  if (hf19 : bool) then db_assert (asset_ge fee (Asset (amount required) SYMBOL_COIN)) "Insufficient Fee"
  else mwhen hf1 (db_assert (asset_ge fee required) "Insufficient Fee").

(** [accountCreate_evaluator::do_apply], libraries/chain/node_evaluator.cpp:110-185 *)
Definition accountCreate_apply (o : accountCreate_operation) : DB unit :=
  creator ← get_account (accountCreate_creator o);
  db_assert (asset_ge (acc_balance creator) (accountCreate_fee o)) "Insufficient balance to create account.";;
  creation_fee_guard (accountCreate_fee o);;
  hf15 ← has_hardfork HARDFORK_0_15;
  mwhen hf15 (get_accounts_of (accountCreate_owner o);; get_accounts_of (accountCreate_active o);;
    get_accounts_of (accountCreate_posting o));;
  modify accounts (accountCreate_creator o) (λ c,
    b ← asset_sub (acc_balance c) (accountCreate_fee o); Ok (c <| acc_balance := b |>));;
  hf11 ← has_hardfork HARDFORK_0_11;
  create_account (accountCreate_newAccountName o)
    (if (hf11 : bool) then accountCreate_creator o else "WeYouMe"%string) (accountCreate_memoKey o)
    (accountCreate_json o) (Asset 0 SYMBOL_SCORE) (accountCreate_owner o) (accountCreate_active o)
    (accountCreate_posting o);;
  if 0 <? amount (accountCreate_fee o) then
    _ ← createTMEfundForSCORE (accountCreate_newAccountName o) (accountCreate_fee o) false; mret tt
  else mret tt.

(** Fee and delegation together must be worth the fee the witnesses ask for. *)
Definition delegation_guard (o : accountCreateWithDelegation_operation) (required : asset) (p : price) : DB unit :=
  t ← lift (safe_mul (amount required) CREATE_ACCOUNT_DELEGATION_RATIO);
  target_delegation ← lift (asset_mul (Asset t SYMBOL_COIN) p);
  c ← lift (safe_mul (amount (accountCreateWithDelegation_fee o)) CREATE_ACCOUNT_DELEGATION_RATIO);
  c ← lift (asset_mul (Asset c SYMBOL_COIN) p);
  current_delegation ← lift (asset_add c (accountCreateWithDelegation_delegation o));
  db_assert (asset_ge current_delegation target_delegation) "Inssufficient Delegation".

(** [accountCreateWithDelegation_evaluator::do_apply], libraries/chain/node_evaluator.cpp:187-278 *)
Definition accountCreateWithDelegation_apply (o : accountCreateWithDelegation_operation) : DB unit :=
  let fee := accountCreateWithDelegation_fee o in
  let delegation := accountCreateWithDelegation_delegation o in
  let new := accountCreateWithDelegation_newAccountName o in
  hf17 ← has_hardfork HARDFORK_0_17;
  fc_assert hf17 "Account creation with delegation is not enabled until hardfork 17";;
  creator ← get_account (accountCreateWithDelegation_creator o);
  props ← get_dynamic_global_properties;
  wso ← get_witness_schedule_object;
  let required := props_account_creation_fee (wso_median_props wso) in
  db_assert (asset_ge (acc_balance creator) fee) "Insufficient balance to create account.";;
  db_assert (available ← available_SCORE creator; asset_ge available delegation)
    "Insufficient SCORE to delegate to new account.";;
  delegation_guard o required (get_SCORE_price props);;
  db_assert (asset_ge fee required) "Insufficient Fee";;
  get_accounts_of (accountCreateWithDelegation_owner o);;
  get_accounts_of (accountCreateWithDelegation_active o);;
  get_accounts_of (accountCreateWithDelegation_posting o);;
  modify accounts (accountCreateWithDelegation_creator o) (λ c,
    b ← asset_sub (acc_balance c) fee;
    d ← asset_add (acc_SCOREDelegated c) delegation;
    Ok (c <| acc_balance := b |> <| acc_SCOREDelegated := d |>));;
  create_account new (accountCreateWithDelegation_creator o)
    (accountCreateWithDelegation_memoKey o) (accountCreateWithDelegation_json o) delegation
    (accountCreateWithDelegation_owner o) (accountCreateWithDelegation_active o) (accountCreateWithDelegation_posting o);;
  hf19 ← has_hardfork HARDFORK_0_19;
  mwhen ((0 <? amount delegation) || negb hf19)
    (now ← head_block_time;
     create delegations (accountCreateWithDelegation_creator o, new) (λ id,
       {| dlg_id := id; dlg_delegator := accountCreateWithDelegation_creator o; dlg_delegatee := new;
          dlg_SCORE := delegation; dlg_min_delegation_time := tps_add now CREATE_ACCOUNT_DELEGATION_TIME |}));;
  if 0 <? amount fee then _ ← createTMEfundForSCORE new fee false; mret tt else mret tt.

(** ** Updating accounts *)

(** [database::update_owner_authority], libraries/chain/database.cpp:1320-1338 *)
Definition update_owner_authority (account : account_name) (owner_authority : authority) : DB unit :=
  head ← head_block_num;
  now ← head_block_time;
  mwhen (OWNER_AUTH_HISTORY_TRACKING_START_BLOCK_NUM <=? head)
    (auth ← get account_authorities account;
     n ← asks (λ s, next_id (owner_histories s));
     create owner_histories n (λ id,
       {| oah_id := id; oah_account := account; oah_previous_owner_authority := aao_owner auth;
          oah_last_valid_time := now |}));;
  modify account_authorities account (λ auth,
    Ok (auth <| aao_owner := owner_authority |> <| aao_last_owner_update := now |>)).

(** An optional authority of an operation. *)
Definition when_some {A} (o : option A) (f : A → DB unit) : DB unit :=
  match o with Some a => f a | None => mret tt end.
Definition given {A} (o : option A) : bool := match o with Some _ => true | None => false end.

(** The branch of [accountUpdate] for a new owner authority. *)
Definition update_owner (account : account_name) (account_auth : account_authority_object) (owner : authority) : DB unit :=
  hf11 ← has_hardfork HARDFORK_0_11;
  now ← head_block_time;
  mwhen hf11 (fc_assert (OWNER_UPDATE_LIMIT <? tps_diff now (aao_last_owner_update account_auth))
    "Owner authority can only be updated once an hour.");;
  hf15 ← has_hardfork HARDFORK_0_15;
  mwhen hf15 (get_accounts_of owner);;
  update_owner_authority account owner.

(** [accountUpdate_evaluator::do_apply], libraries/chain/node_evaluator.cpp:281-354 *)
Definition accountUpdate_apply (o : accountUpdate_operation) : DB unit :=
  let name := accountUpdate_account o in
  hf1 ← has_hardfork HARDFORK_0_1;
  mwhen hf1 (fc_assert (negb (str_eqb name TEMP_ACCOUNT)) "Cannot update temp account.");;
  hf15 ← has_hardfork HARDFORK_0_15;
  mwhen hf15 (when_some (accountUpdate_posting o) (λ a, lift (authority_validate a)));;
  _ ← get_account name;
  account_auth ← get account_authorities name;
  when_some (accountUpdate_owner o) (update_owner name account_auth);;
  mwhen hf15 (when_some (accountUpdate_active o) get_accounts_of);;
  mwhen hf15 (when_some (accountUpdate_posting o) get_accounts_of);;
  now ← head_block_time;
  modify accounts name (λ acc,
    let acc := if negb (str_eqb (accountUpdate_memoKey o) null_key) then acc <| acc_memoKey := accountUpdate_memoKey o |> else acc in
    let acc :=
      if (given (accountUpdate_active o) || given (accountUpdate_owner o)) && acc_active_challenged acc
      then acc <| acc_active_challenged := false |> <| acc_last_active_proved := now |> else acc in
    let acc := acc <| acc_last_accountUpdate := now |> in
    Ok (if nonempty (accountUpdate_json o) then acc <| acc_json := accountUpdate_json o |> else acc));;
  mwhen (given (accountUpdate_active o) || given (accountUpdate_posting o))
    (modify account_authorities name (λ auth,
       let auth := match accountUpdate_active o with Some a => auth <| aao_active := a |> | None => auth end in
       Ok (match accountUpdate_posting o with Some a => auth <| aao_posting := a |> | None => auth end))).

(** ** Challenges *)

(** [ACTIVE_CHALLENGE_FEE], libraries/protocol/include/node/protocol/config.hpp:170-170 *)
Definition ACTIVE_CHALLENGE_FEE : asset := Asset 2000 SYMBOL_COIN.
(** [OWNER_CHALLENGE_FEE], libraries/protocol/include/node/protocol/config.hpp:171-171 *)
Definition OWNER_CHALLENGE_FEE : asset := Asset 30000 SYMBOL_COIN.
(** [ACTIVE_CHALLENGE_COOLDOWN], libraries/protocol/include/node/protocol/config.hpp:172-172 *)
Definition ACTIVE_CHALLENGE_COOLDOWN : Z := 86400.
(** [OWNER_CHALLENGE_COOLDOWN], libraries/protocol/include/node/protocol/config.hpp:173-173 *)
Definition OWNER_CHALLENGE_COOLDOWN : Z := 86400.

(** The challenger pays the fee, which buys the challenged account SCORE. *)
Definition pay_challenge (challenger challenged : account_name) (fee : asset) : DB unit :=
  neg ← lift (asset_neg fee);
  adjust_balance challenger neg;;
  _ ← get_account challenged;
  _ ← createTMEfundForSCORE challenged fee false;
  mret tt.

(** [challenge_authority_evaluator::do_apply], libraries/chain/node_evaluator.cpp:1868-1903 *)
Definition challenge_authority_apply (o : challenge_authority_operation) : DB unit :=
  hf14 ← has_hardfork HARDFORK_0_14;
  mwhen hf14 (fc_assert false "Challenge authority operation is currently disabled.");;
  challenged ← get_account (challenge_authority_challenged o);
  challenger ← get_account (challenge_authority_challenger o);
  now ← head_block_time;
  if challenge_authority_require_owner o then
    fc_assert (str_eqb (acc_reset_account challenged) (challenge_authority_challenger o))
      "Owner authority can only be challenged by its reset account.";;
    db_assert (asset_ge (acc_balance challenger) OWNER_CHALLENGE_FEE) EmptyString;;
    fc_assert (negb (acc_owner_challenged challenged)) EmptyString;;
    fc_assert (OWNER_CHALLENGE_COOLDOWN <? tps_diff now (acc_last_owner_proved challenged)) EmptyString;;
    pay_challenge (challenge_authority_challenger o) (challenge_authority_challenged o) OWNER_CHALLENGE_FEE;;
    modify accounts (challenge_authority_challenged o) (λ a, Ok (a <| acc_owner_challenged := true |>))
  else
    db_assert (asset_ge (acc_balance challenger) ACTIVE_CHALLENGE_FEE)
      "Account does not have sufficient funds to pay challenge fee.";;
    fc_assert (negb (acc_owner_challenged challenged || acc_active_challenged challenged)) "Account is already challenged.";;
    fc_assert (ACTIVE_CHALLENGE_COOLDOWN <? tps_diff now (acc_last_active_proved challenged))
      "Account cannot be challenged because it was recently challenged.";;
    pay_challenge (challenge_authority_challenger o) (challenge_authority_challenged o) ACTIVE_CHALLENGE_FEE;;
    modify accounts (challenge_authority_challenged o) (λ a, Ok (a <| acc_active_challenged := true |>)).

(** [prove_authority_evaluator::do_apply], libraries/chain/node_evaluator.cpp:1905-1920 *)
Definition prove_authority_apply (o : prove_authority_operation) : DB unit :=
  challenged ← get_account (prove_authority_challenged o);
  fc_assert (acc_owner_challenged challenged || acc_active_challenged challenged)
    "Account is not challeneged. No need to prove authority.";;
  now ← head_block_time;
  modify accounts (prove_authority_challenged o) (λ a,
    let a := a <| acc_active_challenged := false |> <| acc_last_active_proved := now |> in
    Ok (if prove_authority_require_owner o
        then a <| acc_owner_challenged := false |> <| acc_last_owner_proved := now |> else a)).

(** ** Recovery *)

(** [by_vote_name], libraries/chain/include/node/chain/witness_objects.hpp:186-192 *)
Definition by_vote_name : witness_object → witness_object → comparison :=
  then_by (descending (by_key wit_votes Z.compare)) (by_key wit_owner String.compare).
#[export] Instance by_vote_name_order : IndexOrder by_vote_name.
Proof. unfold by_vote_name. apply _. Qed.

(** The owner of the witness with most votes. *)
Definition top_witness (s : database) : option account_name :=
  (λ p : account_name * witness_object, wit_owner p.2) <$> first_row (at_most by_vote_name) (rows (witnesses s)).

(** Whether the account's recovery partner asks. *)
Definition is_recovery_partner (account : account_object) (partner : account_name) : DB unit :=
  if nonempty (acc_recoveryAccount account) then
    fc_assert (str_eqb (acc_recoveryAccount account) partner)
      "Cannot recover an account that does not have you as there recovery partner."
  else
    top ← asks top_witness;
    match top with
    | Some top => fc_assert (str_eqb top partner) "Top witness must recover an account with no recovery partner."
    | None => throw (out_of_range "begin")
    end.

(** [request_account_recovery_evaluator::do_apply], libraries/chain/node_evaluator.cpp:1922-1978 *)
Definition request_account_recovery_apply (o : request_account_recovery_operation) : DB unit :=
  let name := request_recovery_accountToRecover o in
  let new_authority := request_recovery_new_owner_authority o in
  accountToRecover ← get_account name;
  is_recovery_partner accountToRecover (request_recovery_recoveryAccount o);;
  request ← find recovery_requests name;
  now ← head_block_time;
  hf15 ← has_hardfork HARDFORK_0_15;
  let expires := tps_add now ACCOUNT_RECOVERY_REQUEST_EXPIRATION_PERIOD in
  match request with
  | None =>
      fc_assert (negb (is_impossible new_authority)) "Cannot recover using an impossible authority.";;
      fc_assert (negb (weight_threshold new_authority =? 0)) "Cannot recover using an open authority.";;
      mwhen hf15 (get_accounts_of new_authority);;
      create recovery_requests name (λ id,
        {| arr_id := id; arr_accountToRecover := name; arr_new_owner_authority := new_authority; arr_expires := expires |})
  | Some _ =>
      if weight_threshold new_authority =? 0 then remove recovery_requests name
      else
        fc_assert (negb (is_impossible new_authority)) "Cannot recover using an impossible authority.";;
        mwhen hf15 (get_accounts_of new_authority);;
        modify recovery_requests name (λ req,
          Ok (req <| arr_new_owner_authority := new_authority |> <| arr_expires := expires |>))
  end.

(** Whether the history of [name] holds [a]. *)
Definition in_history (name : account_name) (a : authority) (s : database) : bool :=
  existsb (λ p : Z * owner_authority_history_object,
    str_eqb (oah_account p.2) name && authority_eqb (oah_previous_owner_authority p.2) a)
    (map_to_list (rows (owner_histories s))).

(** [recover_account_evaluator::do_apply], libraries/chain/node_evaluator.cpp:1980-2012 *)
Definition recover_account_apply (o : recover_account_operation) : DB unit :=
  let name := recover_account_accountToRecover o in
  account ← get_account name;
  hf12 ← has_hardfork HARDFORK_0_12;
  now ← head_block_time;
  mwhen hf12 (fc_assert (OWNER_UPDATE_LIMIT <? tps_diff now (acc_last_account_recovery account))
    "Owner authority can only be updated once an hour.");;
  request ← find recovery_requests name;
  match request with
  | None => fc_assert false "There are no active recovery requests for this account."
  | Some request =>
      fc_assert (authority_eqb (arr_new_owner_authority request) (recover_account_new_owner_authority o))
        "New owner authority does not match recovery request.";;
      found ← asks (in_history name (recover_account_recent_owner_authority o));
      fc_assert found "Recent authority not found in authority history.";;
      remove recovery_requests name;;
      update_owner_authority name (recover_account_new_owner_authority o);;
      modify accounts name (λ a, Ok (a <| acc_last_account_recovery := now |>))
  end.

(** [change_recoveryAccount_evaluator::do_apply], libraries/chain/node_evaluator.cpp:2014-2043 *)
Definition change_recoveryAccount_apply (o : change_recoveryAccount_operation) : DB unit :=
  let name := change_recovery_accountToRecover o in
  let partner := change_recovery_new_recoveryAccount o in
  _ ← get_account partner;
  accountToRecover ← get_account name;
  request ← find change_recovery_requests name;
  now ← head_block_time;
  let effective := tps_add now OWNER_AUTH_RECOVERY_PERIOD in
  match request with
  | None => create change_recovery_requests name (λ id,
      {| crr_id := id; crr_accountToRecover := name; crr_recoveryAccount := partner; crr_effective_on := effective |})
  | Some _ =>
      if negb (str_eqb (acc_recoveryAccount accountToRecover) partner) then
        modify change_recovery_requests name (λ req,
          Ok (req <| crr_recoveryAccount := partner |> <| crr_effective_on := effective |>))
      else remove change_recovery_requests name
  end.

(** [reset_account_evaluator::do_apply], libraries/chain/node_evaluator.cpp:2119-2131 *)
Definition reset_account_apply (o : reset_account_operation) : DB unit :=
  fc_assert false "Reset Account Operation is currently disabled.".

(** [set_reset_account_evaluator::do_apply], libraries/chain/node_evaluator.cpp:2133-2148 *)
Definition set_reset_account_apply (o : set_reset_account_operation) : DB unit :=
  fc_assert false "Set Reset Account Operation is currently disabled.".

(** [account_recovery_request_index::by_expiration], libraries/chain/include/node/chain/account_object.hpp:423-429 *)
Definition requests_by_expiration : account_recovery_request_object → account_recovery_request_object → comparison :=
  then_by (by_key arr_expires Z.compare) (by_key arr_id Z.compare).
#[export] Instance requests_by_expiration_order : IndexOrder requests_by_expiration.
Proof. unfold requests_by_expiration. apply _. Qed.
(** [change_recoveryAccount_request_index::by_effective_date], libraries/chain/include/node/chain/account_object.hpp:448-454 *)
Definition changes_by_effective_date :
    change_recoveryAccount_request_object → change_recoveryAccount_request_object → comparison :=
  then_by (by_key crr_effective_on Z.compare) (by_key crr_id Z.compare).
#[export] Instance changes_by_effective_date_order : IndexOrder changes_by_effective_date.
Proof. unfold changes_by_effective_date. apply _. Qed.
Definition history_by_id : owner_authority_history_object → owner_authority_history_object → comparison :=
  by_key oah_id Z.compare.

(** [database::account_recovery_processing], libraries/chain/database.cpp:2079-2115 *)
Definition account_recovery_processing : DB unit :=
  now ← head_block_time;
  drain recovery_requests (at_most requests_by_expiration) (λ r, arr_expires r <=? now)
    (λ k _, remove recovery_requests k);;
  drain owner_histories (at_most history_by_id)
    (λ h, tps_add (oah_last_valid_time h) OWNER_AUTH_RECOVERY_PERIOD <? now) (λ k _, remove owner_histories k);;
  drain change_recovery_requests (at_most changes_by_effective_date) (λ r, crr_effective_on r <=? now) (λ k r,
    modify accounts (crr_accountToRecover r) (λ a, Ok (a <| acc_recoveryAccount := crr_recoveryAccount r |>));;
    remove change_recovery_requests k).
End accounts_model.

(** * Supply *)

Section supply.
Context {F : Fc} {FL : FcLaws F}.

Lemma get_accounts_of_reads a s u s' : ⟨ get_accounts_of a, s ⟩ ⇓ ⟨ u, s' ⟩ → s' = s.
Proof.
  unfold get_accounts_of. revert s. induction (account_auths a) as [|p l IH]; intros s Hr; cbn [mfor] in Hr; [by db_inv|].
  unfold get_account in *. runs_step. runs_step. db_step. apply runs_ret in Hr0 as [_ <-]. by apply IH.
Qed.
Lemma creation_fee_guard_reads fee s u s' : ⟨ creation_fee_guard fee, s ⟩ ⇓ ⟨ u, s' ⟩ → s' = s.
Proof.
  unfold creation_fee_guard, has_hardfork, get_witness_schedule_object. intros Hr. do 3 (runs_step; db_step).
  destruct (hardfork_active s HARDFORK_0_19); [by apply runs_db_assert in Hr as [_ ->]|].
  apply runs_when in Hr. destruct (hardfork_active s HARDFORK_0_1); [by apply runs_db_assert in Hr as [_ ->]|done].
Qed.
Lemma delegation_guard_reads o r p s u s' : ⟨ delegation_guard o r p, s ⟩ ⇓ ⟨ u, s' ⟩ → s' = s.
Proof. unfold delegation_guard. intros Hr. db_inv. by apply runs_db_assert in Hr as [_ ->]. Qed.
Lemma is_recovery_partner_reads a p s u s' : ⟨ is_recovery_partner a p, s ⟩ ⇓ ⟨ u, s' ⟩ → s' = s.
Proof. unfold is_recovery_partner. intros Hr. destruct (nonempty _); db_inv; [done|]. by destruct (top_witness s); db_inv. Qed.

(** One guard that only reads. *)
Ltac read_step :=
  match goal with
  | H : ⟨ get_accounts_of _, _ ⟩ ⇓ ⟨ _, _ ⟩ |- _ => apply get_accounts_of_reads in H; subst
  | H : ⟨ creation_fee_guard _, _ ⟩ ⇓ ⟨ _, _ ⟩ |- _ => apply creation_fee_guard_reads in H; subst
  | H : ⟨ delegation_guard _ _ _, _ ⟩ ⇓ ⟨ _, _ ⟩ |- _ => apply delegation_guard_reads in H; subst
  | H : ⟨ is_recovery_partner _ _, _ ⟩ ⇓ ⟨ _, _ ⟩ |- _ => apply is_recovery_partner_reads in H; subst
  | H : ⟨ db_assert _ _, _ ⟩ ⇓ ⟨ _, _ ⟩ |- _ =>
      let G := fresh "Hguard" in apply runs_db_assert in H as [G ->]
  | H : (if ?c then ⟨ _, _ ⟩ ⇓ ⟨ _, _ ⟩ else _ = _) |- _ => destruct c eqn:?; [|subst]
  end.
Ltac account_run Hr := repeat autounfold with accessors in Hr; repeat (read_step || db_step).

Lemma create_account_conserves n r m j d a b c s u s' :
  ⟨ create_account n r m j d a b c, s ⟩ ⇓ ⟨ u, s' ⟩ → conserves s s'.
Proof.
  unfold create_account, head_block_time. intros Hr. do 2 (runs_step; db_step). db_step.
  set (t := add_row accounts _ _ _) in *. assert (conserves s t) as Hc.
  { eapply shifts_eq; [by eapply shifts_add_account|done..]. }
  db_step. etrans; [exact Hc|]. off_books.
Qed.

(** The fee buys SCORE for the new account. *)
Lemma fee_shifts n fee s u s' :
  0 ≤ amount fee →
  ⟨ if 0 <? amount fee then _ ← createTMEfundForSCORE n fee false; mret tt else mret tt, s ⟩ ⇓ ⟨ u, s' ⟩ →
  shifts (- amount fee) 0 0 0 s s'.
Proof.
  intros Hfee Hr. destruct (Z.ltb_spec 0 (amount fee)).
  - apply runs_bind in Hr as (x & s1 & Hr & [_ <-]%runs_ret). by apply createTMEfundForSCORE_shifts in Hr.
  - db_inv. eapply shifts_eq; [apply shifts_refl|lia..].
Qed.

Ltac create_steps Hr :=
  match goal with
  | H : ⟨ create_account _ _ _ _ _ _ _ _, _ ⟩ ⇓ ⟨ _, _ ⟩ |- _ => apply create_account_conserves in H
  end;
  apply fee_shifts in Hr; [|done].

Lemma accountCreate_fee_nonneg o : accountCreate_validate o = Ok tt → 0 ≤ amount (accountCreate_fee o).
Proof.
  unfold accountCreate_validate. intros Hv. do 5 (apply result_bind_ok in Hv as (? & _ & Hv)).
  unfold fc_check_r in Hv. apply result_bind_ok in Hv as (b & Hb & Hv). apply fc_check_ok in Hv as ->.
  by apply asset_ge_ok in Hb as [_ ?].
Qed.

Lemma accountCreateWithDelegation_validated o :
  accountCreateWithDelegation_validate o = Ok tt →
  0 ≤ amount (accountCreateWithDelegation_fee o) ∧ 0 ≤ amount (accountCreateWithDelegation_delegation o).
Proof.
  unfold accountCreateWithDelegation_validate. intros Hv. do 8 (apply result_bind_ok in Hv as (? & _ & Hv)).
  apply result_bind_ok in Hv as (? & Hf & Hv). unfold fc_check_r in *.
  apply result_bind_ok in Hf as (b & Hb & Hf). apply fc_check_ok in Hf as ->.
  apply result_bind_ok in Hv as (c & Hc & Hv). apply fc_check_ok in Hv as ->.
  apply asset_ge_ok in Hb as [_ ?], Hc as [_ ?]. done.
Qed.

Lemma accountCreate_conserves o s u s' :
  accountCreate_validate o = Ok tt → ⟨ accountCreate_apply o, s ⟩ ⇓ ⟨ u, s' ⟩ → conserves s s'.
Proof.
  intros Hv%accountCreate_fee_nonneg. unfold accountCreate_apply, get_account, has_hardfork. intros Hr.
  account_run Hr; asset_inv; create_steps Hr; row_shifts; holdings; add_shifts.
Qed.

Lemma accountCreateWithDelegation_conserves o s u s' :
  accountCreateWithDelegation_validate o = Ok tt →
  ⟨ accountCreateWithDelegation_apply o, s ⟩ ⇓ ⟨ u, s' ⟩ → conserves s s'.
Proof.
  intros [Hv _]%accountCreateWithDelegation_validated. unfold accountCreateWithDelegation_apply. intros Hr.
  account_run Hr; asset_inv; create_steps Hr; row_shifts; holdings; add_shifts.
Qed.

(** Updates, challenges answered and recovery are quiet. *)
Lemma get_accounts_of_quiet a : preserves quiet (get_accounts_of a).
Proof. intros s u s' ->%get_accounts_of_reads. done. Qed.
Lemma is_recovery_partner_quiet a p : preserves quiet (is_recovery_partner a p).
Proof. intros s u s' ->%is_recovery_partner_reads. done. Qed.
Hint Resolve get_accounts_of_quiet is_recovery_partner_quiet : quiet.

Lemma update_owner_authority_quiet n a : preserves quiet (update_owner_authority n a).
Proof. unfold update_owner_authority. quieted. Qed.
Hint Resolve update_owner_authority_quiet : quiet.

Lemma accountUpdate_quiet o : preserves quiet (accountUpdate_apply o).
Proof. unfold accountUpdate_apply, when_some, update_owner. quieted. Qed.
Lemma feed_publish_quiet o : preserves quiet (feed_publish_apply o).
Proof. unfold feed_publish_apply. quieted. Qed.
Lemma report_over_production_quiet o : preserves quiet (report_over_production_apply o).
Proof. unfold report_over_production_apply. quieted. Qed.
Lemma prove_authority_quiet o : preserves quiet (prove_authority_apply o).
Proof. unfold prove_authority_apply. quieted. Qed.
Lemma request_account_recovery_quiet o : preserves quiet (request_account_recovery_apply o).
Proof. unfold request_account_recovery_apply. quieted. Qed.
Lemma recover_account_quiet o : preserves quiet (recover_account_apply o).
Proof. unfold recover_account_apply. quieted. Qed.
Lemma change_recoveryAccount_quiet o : preserves quiet (change_recoveryAccount_apply o).
Proof. unfold change_recoveryAccount_apply. quieted. Qed.
Lemma account_recovery_processing_quiet : preserves quiet account_recovery_processing.
Proof. unfold account_recovery_processing. quieted. Qed.

Lemma witness_update_conserves o s u s' : ⟨ witness_update_apply o, s ⟩ ⇓ ⟨ u, s' ⟩ → conserves s s'.
Proof.
  unfold witness_update_apply. intros Hr. account_run Hr;
    (destruct (rows (witnesses _) !! _); account_run Hr; off_books).
Qed.
Lemma challenge_authority_conserves o s u s' : ⟨ challenge_authority_apply o, s ⟩ ⇓ ⟨ u, s' ⟩ → conserves s s'.
Proof.
  unfold challenge_authority_apply, pay_challenge, OWNER_CHALLENGE_FEE, ACTIVE_CHALLENGE_FEE.
  intros Hr. books Hr; literals; cbn [amount] in *; add_shifts.
Qed.
End supply.

(** * Recovery *)

Section recovery.
Context {F : Fc} {FL : FcLaws F}.

Lemma authority_eqb_true a b : authority_eqb a b = true ↔ a = b.
Proof.
  unfold authority_eqb. destruct a, b; cbn. rewrite !andb_true_iff, Z.eqb_eq, !bool_decide_eq_true. naive_solver.
Qed.

(** The state after the owner authority of [name] is replaced: the old one is on
    record as the next row of the history. *)
Definition owner_replaced (name : account_name) (auth : account_authority_object) (owner : authority) (s : database) : database :=
  let now := gpo_time (gpo s) in
  set_row account_authorities name (auth <| aao_owner := owner |> <| aao_last_owner_update := now |>)
    (add_row owner_histories (next_id (owner_histories s))
       {| oah_id := next_id (owner_histories s); oah_account := name;
          oah_previous_owner_authority := aao_owner auth; oah_last_valid_time := now |} s).

Lemma update_owner_authority_spec name owner s u s' :
  OWNER_AUTH_HISTORY_TRACKING_START_BLOCK_NUM ≤ gpo_head_block_number (gpo s) →
  ⟨ update_owner_authority name owner, s ⟩ ⇓ ⟨ u, s' ⟩ ↔
    ∃ auth, rows (account_authorities s) !! name = Some auth ∧
      rows (owner_histories s) !! next_id (owner_histories s) = None ∧ s' = owner_replaced name auth owner s.
Proof.
  intros Hhead. unfold update_owner_authority, head_block_num, head_block_time.
  apply Z.leb_le in Hhead. split.
  - intros Hr. do 2 (runs_step; db_step). rewrite Hhead in Hr. cbn [mwhen] in Hr. db_inv.
    db_fields in Hrow. rewrite Hrow0 in Hrow. injection Hrow as <-. injection Hval as <-. eauto.
  - intros (auth & Hauth & Hfresh & ->). do 2 (eapply runs_bind_intro; [by apply runs_asks|]). rewrite Hhead. cbn [mwhen].
    eapply runs_bind_intro.
    + eapply runs_bind_intro; [by apply runs_getr|]. eapply runs_bind_intro; [by apply runs_asks|].
      apply (runs_create _ _ _ _ tt). done.
    + apply (runs_modify _ _ _ _ u). exists auth. eexists. split; [by db_fields|]. split; [done|]. by destruct u.
Qed.

Lemma in_history_spec name a s :
  in_history name a s = true ↔ ∃ h x, rows (owner_histories s) !! h = Some x ∧ oah_account x = name ∧
    oah_previous_owner_authority x = a.
Proof.
  unfold in_history. rewrite existsb_exists. split.
  - intros ([h x] & Hin & Hx). apply list_elem_of_In, elem_of_map_to_list in Hin. cbn in Hx. unfold str_eqb in Hx. bool_hyps.
    exists h, x. split_and!; [done..|by apply authority_eqb_true].
  - intros (h & x & Hx & Hn & Ha). exists (h, x). split; [by apply list_elem_of_In, elem_of_map_to_list|].
    cbn. unfold str_eqb. rewrite bool_decide_true by done. by apply authority_eqb_true.
Qed.

(** C30. [recover_account] succeeds exactly when the recovery partner's request is
    open and names the new owner authority, the history of the account holds the
    recent one, and the last recovery is more than an hour ago; it then closes the
    request, replaces the owner authority and puts the old one on record. *)
Theorem recover_account_spec o s s' :
  hardfork_active s HARDFORK_0_12 = true →
  OWNER_AUTH_HISTORY_TRACKING_START_BLOCK_NUM ≤ gpo_head_block_number (gpo s) →
  let name := recover_account_accountToRecover o in
  let new := recover_account_new_owner_authority o in
  let now := gpo_time (gpo s) in
  ⟨ recover_account_apply o, s ⟩ ⇓ ⟨ tt, s' ⟩ ↔
    ∃ account auth request h x,
      rows (accounts s) !! name = Some account ∧ OWNER_UPDATE_LIMIT < tps_diff now (acc_last_account_recovery account) ∧
      rows (recovery_requests s) !! name = Some request ∧ arr_new_owner_authority request = new ∧
      rows (owner_histories s) !! h = Some x ∧ oah_account x = name ∧
      oah_previous_owner_authority x = recover_account_recent_owner_authority o ∧
      rows (account_authorities s) !! name = Some auth ∧ rows (owner_histories s) !! next_id (owner_histories s) = None ∧
      s' = set_row accounts name (account <| acc_last_account_recovery := now |>)
             (owner_replaced name auth new (del_row recovery_requests name s)).
Proof.
  intros Hhf Hhead name new now. unfold recover_account_apply, get_account, has_hardfork, head_block_time.
  fold name new. split.
  - intros Hr. do 3 (runs_step; db_step). rewrite Hhf in Hr. cbn [mwhen] in Hr. runs_step. runs_step. runs_step. db_step.
    destruct (rows (recovery_requests s) !! name) as [request|] eqn:Hreq; [|by db_inv].
    runs_step. runs_step. runs_step. db_step. runs_step. runs_step.
    apply authority_eqb_true in Hguard0. apply in_history_spec in Hguard1 as (h & x & Hh & Hn & Hp).
    runs_step. db_step. runs_step. apply update_owner_authority_spec in Hr0 as (auth & Hauth & Hfresh & ->); [|done].
    db_inv. injection Hval as <-. unfold owner_replaced in Hrow0. db_fields in Hrow0. rewrite Hrow in Hrow0. injection Hrow0 as <-.
    exists v, auth, request, h, x. split_and!; try done. by apply Z.ltb_lt.
  - intros (account & auth & request & h & x & Ha & Ht & Hreq & Hnew & Hh & Hn & Hp & Hauth & Hfresh & ->).
    eapply runs_bind_intro; [by apply runs_getr|]. do 2 (eapply runs_bind_intro; [by apply runs_asks|]).
    cbv beta. rewrite ?Hhf. cbn [mwhen]. eapply runs_bind_intro; [apply (runs_assert _ _ _ tt); split; [by apply Z.ltb_lt|done]|].
    eapply runs_bind_intro; [by apply runs_find|]. rewrite ?Hreq.
    eapply runs_bind_intro; [apply (runs_assert _ _ _ tt); split; [by apply authority_eqb_true|done]|].
    eapply runs_bind_intro; [by apply runs_asks|].
    eapply runs_bind_intro; [apply (runs_assert _ _ _ tt); split; [apply in_history_spec; eauto|done]|].
    eapply runs_bind_intro; [by apply (runs_remove _ _ _ tt)|].
    eapply runs_bind_intro; [apply (update_owner_authority_spec _ _ _ tt); [done|by exists auth]|].
    apply runs_modify. exists account. eexists. split_and!; [by unfold owner_replaced; db_fields|done|done].
Qed.

(** ** The queues of a block *)

Definition only_requests (s s' : database) : Prop := s' = s <| recovery_requests := recovery_requests s' |>.
Definition only_histories (s s' : database) : Prop := s' = s <| owner_histories := owner_histories s' |>.
#[local] Instance only_requests_preorder : PreOrder only_requests.
Proof. split; [by intros []|]. intros [] [] [] H1 H2. unfold only_requests in *. rewrite H2, H1. done. Qed.
#[local] Instance only_histories_preorder : PreOrder only_histories.
Proof. split; [by intros []|]. intros [] [] [] H1 H2. unfold only_histories in *. rewrite H2, H1. done. Qed.

Definition changes_keyed (s : database) : Prop :=
  map_Forall (λ k r, crr_accountToRecover r = k) (rows (change_recovery_requests s)).
(** The changes of recovery partners applied so far. *)
Definition changes_applied (now : Z) (s s' : database) : Prop :=
  changes_keyed s → changes_keyed s' ∧ recovery_requests s' = recovery_requests s ∧
  owner_histories s' = owner_histories s ∧ ∀ k,
    (rows (change_recovery_requests s') !! k = rows (change_recovery_requests s) !! k ∧
     rows (accounts s') !! k = rows (accounts s) !! k) ∨
    ∃ r, rows (change_recovery_requests s) !! k = Some r ∧ crr_effective_on r ≤ now ∧
      rows (change_recovery_requests s') !! k = None ∧
      rows (accounts s') !! k = (λ a, a <| acc_recoveryAccount := crr_recoveryAccount r |>) <$> (rows (accounts s) !! k).
#[local] Instance changes_applied_preorder now : PreOrder (changes_applied now).
Proof.
  split; [intros s Hk; split_and!; [done..|]; intros k; by left|].
  intros s1 s2 s3 H1 H2 Hk. destruct (H1 Hk) as (Hk2 & ? & ? & E1). destruct (H2 Hk2) as (Hk3 & ? & ? & E2).
  split_and!; [done|congruence..|].
  intros k. destruct (E1 k) as [[Er Ea]|(r & Hr & Hd & Hn & Ea)], (E2 k) as [[Er' Ea']|(r' & Hr' & Hd' & Hn' & Ea')].
  - left. split; congruence.
  - right. exists r'. rewrite <- Er, Ea', Ea. done.
  - right. exists r. rewrite Er', Ea', Ea. done.
  - congruence.
Qed.

Lemma change_applied now k r s u s' :
  rows (change_recovery_requests s) !! k = Some r → crr_effective_on r ≤ now →
  ⟨ modify accounts (crr_accountToRecover r) (λ a, Ok (a <| acc_recoveryAccount := crr_recoveryAccount r |>));;
    remove change_recovery_requests k, s ⟩ ⇓ ⟨ u, s' ⟩ → changes_applied now s s'.
Proof.
  intros Hk Hd Hr Hkeyed. pose proof (Hkeyed _ _ Hk) as E. db_inv. injection Hval as <-. db_fields.
  split_and!; [|done..|].
  - intros j x. db_fields. intros [_ Hj]%lookup_delete_Some. by apply Hkeyed.
  - intros j. destruct (decide (k = j)) as [<-|].
    + right. exists r. rewrite E in Hrow |- *. rewrite lookup_delete_eq, lookup_insert_eq, Hrow. done.
    + left. rewrite E. by rewrite lookup_delete_ne, lookup_insert_ne.
Qed.

(** The history is in the order of its times. *)
Definition history_in_order (s : database) : Prop :=
  ∀ i x j y, rows (owner_histories s) !! i = Some x → rows (owner_histories s) !! j = Some y →
    0 ≤ oah_last_valid_time x ≤ u32_max - OWNER_AUTH_RECOVERY_PERIOD ∧
    (oah_id x ≤ oah_id y → oah_last_valid_time x ≤ oah_last_valid_time y).

Lemma histories_drained now s u s' :
  history_in_order s →
  ⟨ drain owner_histories (at_most history_by_id)
      (λ h, tps_add (oah_last_valid_time h) OWNER_AUTH_RECOVERY_PERIOD <? now) (λ k _, remove owner_histories k), s ⟩
    ⇓ ⟨ u, s' ⟩ →
  only_histories s s' ∧ rows (owner_histories s') =
    filter (λ p, (oah_last_valid_time p.2 + OWNER_AUTH_RECOVERY_PERIOD <? now) = false) (rows (owner_histories s)).
Proof.
  intros Hord Hr. split.
  { revert Hr. apply drain_preserves; [apply _|]. intros k v t x t' _ _ ->%runs_remove. by destruct t. }
  assert (∀ i x, rows (owner_histories s) !! i = Some x →
    tps_add (oah_last_valid_time x) OWNER_AUTH_RECOVERY_PERIOD = oah_last_valid_time x + OWNER_AUTH_RECOVERY_PERIOD) as Hadd.
  { intros i x Hi. destruct (Hord _ _ _ _ Hi Hi) as [Ht _]. apply tps_add_law. unfold OWNER_AUTH_RECOVERY_PERIOD in *. lia. }
  eapply drain_rows_in in Hr; [|apply at_most_trans; apply _|apply at_most_total; apply _| |].
  - rewrite Hr. apply map_filter_ext. intros i x Hi. cbn. by rewrite (Hadd i).
  - intros i x j y Hi Hj Hle Hd%Z.ltb_lt. rewrite (Hadd j y Hj) in Hd. rewrite (Hadd i x Hi). apply Z.ltb_lt.
    destruct (Hord _ _ _ _ Hi Hj) as [_ Ht]. unfold at_most, history_by_id, by_key in Hle.
    destruct (Z.compare_spec (oah_id x) (oah_id y)); [lia|lia|done].
  - intros k v t x t' ->%runs_remove. by db_fields.
Qed.

Lemma changes_drained now s u s' :
  changes_keyed s →
  ⟨ drain change_recovery_requests (at_most changes_by_effective_date) (λ r, crr_effective_on r <=? now) (λ k r,
      modify accounts (crr_accountToRecover r) (λ a, Ok (a <| acc_recoveryAccount := crr_recoveryAccount r |>));;
      remove change_recovery_requests k), s ⟩ ⇓ ⟨ u, s' ⟩ →
  changes_applied now s s' ∧ rows (change_recovery_requests s') =
    filter (λ p, (crr_effective_on p.2 <=? now) = false) (rows (change_recovery_requests s)).
Proof.
  intros Hkeyed Hr. split.
  - revert Hr. apply drain_preserves; [apply _|]. intros k r t x t' Hk Hd%Z.leb_le Ht. by eapply change_applied.
  - eapply drain_rows in Hr; [exact Hr|apply at_most_trans; apply _|apply at_most_total; apply _| |].
    + intros x y Hle%at_most_lead Hd%Z.leb_le. apply Z.leb_le. lia.
    + intros k v t x t' Ht. db_inv. by db_fields.
Qed.

(** After [account_recovery_processing] the recovery requests that expired are
    gone, the history holds exactly the owner authorities of the last thirty
    days, and every change of a recovery partner that is due is made. *)
Theorem account_recovery_processing_spec s u s' :
  changes_keyed s → history_in_order s → ⟨ account_recovery_processing, s ⟩ ⇓ ⟨ u, s' ⟩ →
  let now := gpo_time (gpo s) in
  rows (recovery_requests s') = filter (λ p, (arr_expires p.2 <=? now) = false) (rows (recovery_requests s)) ∧
  rows (owner_histories s') =
    filter (λ p, (oah_last_valid_time p.2 + OWNER_AUTH_RECOVERY_PERIOD <? now) = false) (rows (owner_histories s)) ∧
  rows (change_recovery_requests s') =
    filter (λ p, (crr_effective_on p.2 <=? now) = false) (rows (change_recovery_requests s)) ∧
  ∀ k, rows (accounts s') !! k = (λ a,
    match rows (change_recovery_requests s) !! k with
    | Some r => if crr_effective_on r <=? now then a <| acc_recoveryAccount := crr_recoveryAccount r |> else a
    | None => a
    end) <$> (rows (accounts s) !! k).
Proof.
  intros Hkeyed Hord Hr now. unfold account_recovery_processing, head_block_time in Hr. runs_step. db_step.
  fold now in Hr. apply runs_bind in Hr as (u1 & s1 & H1 & Hr). apply runs_bind in Hr as (u2 & s2 & H2 & H3).
  assert (only_requests s s1) as E1.
  { revert H1. apply drain_preserves; [apply _|]. intros k v t x t' _ _ ->%runs_remove. by destruct t. }
  eapply drain_rows in H1; [|apply at_most_trans; apply _|apply at_most_total; apply _| |].
  2: { intros x y Hle%at_most_lead Hd%Z.leb_le. apply Z.leb_le. lia. }
  2: { intros k v t x t' ->%runs_remove. by db_fields. }
  unfold only_requests in E1. assert (owner_histories s1 = owner_histories s) as Eh1 by (rewrite E1; by fields).
  apply histories_drained in H2 as [E2 H2]; [|unfold history_in_order; by rewrite Eh1]. unfold only_histories in E2.
  assert (recovery_requests s2 = recovery_requests s1) as Er2 by (rewrite E2; by fields).
  assert (change_recovery_requests s2 = change_recovery_requests s) as Ec2 by (rewrite E2, E1; by fields).
  assert (accounts s2 = accounts s) as Ea2 by (rewrite E2, E1; by fields).
  apply changes_drained in H3 as [E3 H3]; [|unfold changes_keyed; by rewrite Ec2].
  destruct E3 as (_ & E4 & E5 & E6); [unfold changes_keyed; by rewrite Ec2|]. rewrite Ec2 in *. rewrite Ea2 in E6.
  split_and!; [congruence|congruence|done|]. intros k.
  assert (rows (change_recovery_requests s') !! k = r ← rows (change_recovery_requests s) !! k;
    if crr_effective_on r <=? now then None else Some r) as Hk.
  { rewrite H3, map_lookup_filter. destruct (rows (change_recovery_requests s) !! k) as [r|]; [|done]. cbn.
    destruct (crr_effective_on r <=? now); by repeat case_guard. }
  destruct (E6 k) as [[Er ->]|(r & Hr & Hd%Z.leb_le & Hn & ->)].
  - rewrite Er in Hk. destruct (rows (accounts s) !! k) as [a|]; [|done]. cbn.
    destruct (rows (change_recovery_requests s) !! k) as [r|]; [|done]. cbn in Hk. by destruct (crr_effective_on r <=? now).
  - rewrite Hr. cbn. rewrite Hd. done.
Qed.
End recovery.

(** * Examples *)

Module RecoveryExamples.
Import FcRef.

(** Alice's owner key was replaced by a thief at time 900; Bob, her partner, asked
    for the key she has now. *)
Definition key_authority (k : public_key) : authority := Authority 1 [] [(k, 1)].
Definition replaced : owner_authority_history_object :=
  {| oah_id := 0; oah_account := "alice"; oah_previous_owner_authority := key_authority "old"; oah_last_valid_time := 900 |}.
Definition stolen : database :=
  sample <| account_authorities := Table {["alice"%string :=
      {| aao_id := 0; aao_account := "alice"; aao_owner := key_authority "thief"; aao_active := key_authority "thief";
         aao_posting := key_authority "thief"; aao_last_owner_update := 900 |}]} 1 |>
    <| owner_histories := Table {[0 := replaced]} 1 |>
    <| recovery_requests := Table {["alice"%string := {| arr_id := 0; arr_accountToRecover := "alice";
      arr_new_owner_authority := key_authority "new"; arr_expires := 2000 |}]} 1 |>
    <| gpo ::= λ g, g <| gpo_time := 4000 |> |>.
Definition alice_recovers : recover_account_operation :=
  {| recover_account_accountToRecover := "alice"; recover_account_new_owner_authority := key_authority "new";
     recover_account_recent_owner_authority := key_authority "old" |}.

(** Alice recovers her account. *)
Lemma recover_account_spec_witness :
  ∃ account auth, outcome (recover_account_apply alice_recovers) stolen =
    set_row accounts "alice"%string (account <| acc_last_account_recovery := 4000 |>)
      (owner_replaced "alice" auth (key_authority "new") (del_row recovery_requests "alice"%string stolen)).
Proof.
  assert (⟨ recover_account_apply alice_recovers, stolen ⟩ ⇓ ⟨ tt, outcome (recover_account_apply alice_recovers) stolen ⟩) as Hr
    by runs_ok.
  apply (recover_account_spec alice_recovers stolen) in Hr; [|reflexivity|by vm_compute].
  destruct Hr as (account & auth & request & h & x & _ & _ & _ & _ & _ & _ & _ & _ & _ & E).
  exists account, auth. exact E.
Defined.

(** The request expired at time 2000; the history is kept until 900 + 30 days. *)
Lemma account_recovery_processing_spec_witness :
  let s' := outcome account_recovery_processing stolen in
  rows (recovery_requests s') = ∅ ∧ rows (owner_histories s') = rows (owner_histories stolen).
Proof.
  assert (⟨ account_recovery_processing, stolen ⟩ ⇓ ⟨ tt, outcome account_recovery_processing stolen ⟩) as Hr by runs_ok.
  apply account_recovery_processing_spec in Hr as (H1 & H2 & _).
  - cbv zeta. rewrite H1, H2. split; reflexivity.
  - apply map_Forall_empty.
  - assert (∀ i x, rows (owner_histories stolen) !! i = Some x → x = replaced) as Hx.
    { intros i x. change (rows (owner_histories stolen)) with ({[0 := replaced]} : gmap Z owner_authority_history_object).
      by intros [_ <-]%lookup_singleton_Some. }
    intros i x j y ->%Hx ->%Hx. unfold u32_max, OWNER_AUTH_RECOVERY_PERIOD. cbn [replaced oah_last_valid_time oah_id]. lia.
Defined.
End RecoveryExamples.
