(* ===== verification/Rewards.v ===== *)
(** The reward arithmetic: [chain/util/reward.cpp], [util/asset.hpp] and
    [compound.hpp].

    How much of a reward fund a comment is due, and the curves that turn the
    SCORE that voted for it into claims. *)

From S2P Require Import Prelude Fc Config Asset Objects.

Section rewards.
Context {F : Fc}.

(** [to_TSD], libraries/chain/include/node/chain/util/asset.hpp:10-16 *)
Definition to_TSD (p : price) (TME : asset) : result asset :=
  fc_check (symbol TME =? SYMBOL_COIN) EmptyString;;
  if price_is_null p then Ok (Asset 0 SYMBOL_USD) else asset_mul TME p.
(** [to_TME], libraries/chain/include/node/chain/util/asset.hpp:18-24 *)
Definition to_TME (p : price) (TSD : asset) : result asset :=
  fc_check (symbol TSD =? SYMBOL_USD) EmptyString;;
  if price_is_null p then Ok (Asset 0 SYMBOL_COIN) else asset_mul TSD p.

(** ** The square root *)

(** [find_msb], libraries/chain/util/reward.cpp:7-15 *)
Definition find_msb (u : Z) : Z :=
  let x := if u128_lo u =? 0 then 1 else u128_lo u in
  let places := if u128_hi u =? 0 then 0 else 64 in
  let x := if u128_hi u =? 0 then x else u128_hi u in
  wrap_u8 (Z.log2 x + places).

(** [approx_sqrt], libraries/chain/util/reward.cpp:17-36 *)
Definition approx_sqrt (x : Z) : Z :=
  if (u128_lo x =? 0) && (u128_hi x =? 0) then 0
  else
    let msb_x := find_msb x in
    let msb_z := Z.shiftr msb_x 1 in
    let msb_x_bit := u128_shl (u128 1) msb_x in
    let msb_z_bit := wrap_u64 (Z.shiftl 1 msb_z) in
    let mantissa_mask := u128_sub msb_x_bit (u128 1) in
    let mantissa_x := u128_and x mantissa_mask in
    let mantissa_z_hi := if Z.land msb_x 1 =? 0 then 0 else msb_z_bit in
    let mantissa_z_lo := u128_lo (u128_shr mantissa_x (msb_x - msb_z)) in
    let mantissa_z := Z.shiftr (Z.lor mantissa_z_hi mantissa_z_lo) 1 in
    Z.lor msb_z_bit mantissa_z.

(** ** Claims *)

(** [evaluate_reward_curve], libraries/chain/util/reward.cpp:68-95 *)
Definition evaluate_reward_curve (SCOREreward : Z) (curve : curve_id) (content_constant : Z) : Z :=
  match curve with
  | quadratic =>
      let plus_s := u128_add SCOREreward content_constant in
      u128_sub (u128_mul plus_s plus_s) (u128_mul content_constant content_constant)
  | quadratic_curation =>
      let two_alpha := u128_mul content_constant (u128 2) in
      u128_div (u128_shl (u128_lo SCOREreward) 64) (u128_add two_alpha SCOREreward)
  | linear => SCOREreward
  | square_root => approx_sqrt SCOREreward
  end.
(** The curve and constant [evaluate_reward_curve] defaults to. *)
Definition evaluate_default (SCOREreward : Z) : Z :=
  evaluate_reward_curve SCOREreward quadratic (u128 CONTENT_CONSTANT_HF0).

(** [MIN_PAYOUT_TSD], libraries/protocol/include/node/protocol/config.hpp:217-217 *)
Definition MIN_PAYOUT_TSD : asset := Asset 20 SYMBOL_USD.

(** [is_comment_payout_dust], libraries/chain/include/node/chain/util/reward.hpp:43-46 *)
Definition is_comment_payout_dust (p : price) (TMEpayout : Z) : result bool :=
  t ← to_TSD p (Asset (wrap_i64 TMEpayout) SYMBOL_COIN); asset_lt t MIN_PAYOUT_TSD.

(** [comment_reward_context], libraries/chain/include/node/chain/util/reward.hpp:22-32 *)
Record comment_reward_context := Make_comment_reward_context {
  ctx_SCOREreward : Z;
  ctx_reward_weight : Z;
  ctx_max_TSD : asset;
  ctx_totalSCOREreward2 : Z;
  ctx_total_reward_fund_TME : asset;
  ctx_current_TME_price : price;
  ctx_reward_curve : curve_id;
  ctx_content_constant : Z;
}.
#[export] Instance eta_comment_reward_context : Eta comment_reward_context :=
  λ r, Make_comment_reward_context (ctx_SCOREreward r) (ctx_reward_weight r) (ctx_max_TSD r)
    (ctx_totalSCOREreward2 r) (ctx_total_reward_fund_TME r) (ctx_current_TME_price r) (ctx_reward_curve r)
    (ctx_content_constant r).

(** A 64-bit integer as a 256-bit one, modulo [2 ^ 256]. *)
Definition u256 (x : Z) : Z := x mod 2 ^ 256.

(** [get_SCORE_reward], libraries/chain/util/reward.cpp:38-66 *)
Definition get_SCORE_reward (ctx : comment_reward_context) : result Z :=
  fc_check (0 <? ctx_SCOREreward ctx) EmptyString;;
  fc_check (0 <? ctx_totalSCOREreward2 ctx) EmptyString;;
  let rf := u256 (amount (ctx_total_reward_fund_TME ctx)) in
  let total_claims := ctx_totalSCOREreward2 ctx in
  let claim := evaluate_reward_curve (u128 (ctx_SCOREreward ctx)) (ctx_reward_curve ctx) (ctx_content_constant ctx) in
  let claim := (u256 (claim * ctx_reward_weight ctx)) / PERCENT_100 in
  let payout := u256 (rf * claim) / total_claims in
  fc_check (payout <=? i64_max) EmptyString;;
  dust ← is_comment_payout_dust (ctx_current_TME_price ctx) payout;
  let payout := if (dust : bool) then 0 else payout in
  max_TME ← to_TME (ctx_current_TME_price ctx) (ctx_max_TSD ctx);
  Ok (Z.min payout (wrap_u64 (amount max_TME))).

(** ** Interest *)

(** [calc_percent_reward], libraries/chain/include/node/chain/compound.hpp:12-29 *)
Definition calc_percent_reward (percent multiply shift : Z) (current_supply : Z) : result Z :=
  let half := u128_shl (u128 1) (shift - 1) in
  let reward := u128_mul (u128 current_supply) (u128 (percent * multiply)) in
  let reward := u128_add reward half in
  r ← u128_to_u64 (u128_shr reward shift); Ok (wrap_i64 r).
End rewards.

(** * The square root *)

Section sqrt.
Context {F : Fc} {FL : FcLaws F}.

Lemma find_msb_log2 x : 0 < x < 2 ^ 128 → find_msb x = Z.log2 x.
Proof.
  intros Hx. unfold find_msb. rewrite u128_hi_law, u128_lo_law by apply FL.
  assert (0 ≤ x / 2 ^ 64 < 2 ^ 64) as Hhi by (split; [apply Z.div_pos; lia|apply Z.div_lt_upper_bound; lia]).
  destruct (Z.eqb_spec (x / 2 ^ 64) 0) as [H0|H0].
  - assert (x < 2 ^ 64) by (apply Z.div_small_iff in H0; lia). rewrite (Z.mod_small x) by lia.
    destruct (Z.eqb_spec x 0); [lia|]. rewrite Z.add_0_r. apply Z.mod_small.
    pose proof (Z.log2_nonneg x). assert (Z.log2 x < 64) by (apply Z.log2_lt_pow2; lia). lia.
  - assert (Z.log2 (x / 2 ^ 64) = Z.log2 x - 64) as ->.
    { rewrite <- Z.shiftr_div_pow2, Z.log2_shiftr by lia.
      assert (64 ≤ Z.log2 x); [|lia]. apply Z.log2_le_pow2; [lia|].
      destruct (Z.lt_ge_cases x (2 ^ 64)); [|lia]. rewrite Z.div_small in H0; lia. }
    replace (Z.log2 x - 64 + 64) with (Z.log2 x) by lia. apply Z.mod_small.
    pose proof (Z.log2_nonneg x). assert (Z.log2 x < 128) by (apply Z.log2_lt_pow2; lia). lia.
Qed.

Lemma lor_disjoint c y z : 0 ≤ z → 0 ≤ y < 2 ^ z → Z.lor (c * 2 ^ z) y = c * 2 ^ z + y.
Proof.
  intros Hz Hy. assert (Z.land (c * 2 ^ z) y = 0) as Hl.
  { apply Z.bits_inj'. intros n Hn. rewrite Z.land_spec, Z.bits_0. destruct (Z.lt_ge_cases n z).
    - by rewrite Z.mul_pow2_bits_low.
    - destruct (Z.eq_dec y 0) as [->|]; [by rewrite Z.bits_0, andb_false_r|].
      rewrite (Z.bits_above_log2 y n), andb_false_r; [done|lia|]. apply Z.log2_lt_pow2; [lia|].
      apply Z.lt_le_trans with (2 ^ z); [lia|]. apply Z.pow_le_mono_r; lia. }
  rewrite Z.add_nocarry_lxor by done. by rewrite Z.lxor_lor.
Qed.

(** [x] is [2 ^ (2 z + b)] plus the mantissa [f]; the root is computed from the
    mantissa. *)
Lemma approx_sqrt_value x z b f :
  0 ≤ z → 0 ≤ b ≤ 1 → 2 * z + b < 128 → 0 ≤ f < 2 ^ (2 * z + b) → x = 2 ^ (2 * z + b) + f →
  approx_sqrt x = 2 ^ z + (b * 2 ^ z + f / 2 ^ (z + b)) / 2.
Proof.
  intros Hz Hb Hm Hf Hx.
  assert (2 ^ (2 * z + b) < 2 ^ 128) as Hm' by (apply Z.pow_lt_mono_r; lia).
  assert (2 ^ (2 * z + b + 1) ≤ 2 ^ 128) as Hm'' by (apply Z.pow_le_mono_r; lia). rewrite Z.pow_add_r in Hm'' by lia.
  assert (0 < 2 ^ (2 * z + b)) as Hp by (apply Z.pow_pos_nonneg; lia).
  assert (Z.log2 x = 2 * z + b) as Hlog by (apply Z.log2_unique; [lia|]; rewrite Z.pow_succ_r by lia; lia).
  unfold approx_sqrt. rewrite find_msb_log2 by lia. rewrite Hlog.
  rewrite !u128_lo_law, !u128_hi_law by apply FL.
  assert ((x mod 2 ^ 64 =? 0) && (x / 2 ^ 64 =? 0) = false) as ->.
  { pose proof (Z.div_mod x (2 ^ 64) ltac:(lia)). destruct (Z.eqb_spec (x mod 2 ^ 64) 0), (Z.eqb_spec (x / 2 ^ 64) 0); cbn; lia. }
  assert (Z.shiftr (2 * z + b) 1 = z) as ->.
  { rewrite Z.shiftr_div_pow2 by lia. change (2 ^ 1) with 2. rewrite (Z.mul_comm 2), Z.div_add_l by lia.
    rewrite Z.div_small; lia. }
  assert (z ≤ 63) as Hz63 by lia. assert (2 ^ z ≤ 2 ^ 63) as Hpz by (apply Z.pow_le_mono_r; lia).
  assert (0 < 2 ^ z) as Hpz0 by (apply Z.pow_pos_nonneg; lia).
  assert (wrap_u64 (Z.shiftl 1 z) = 2 ^ z) as ->.
  { rewrite Z.shiftl_mul_pow2, Z.mul_1_l by lia. apply Z.mod_small. lia. }
  change 1 with (Z.ones 1) at 1. rewrite Z.land_ones by lia. change (2 ^ 1) with 2.
  rewrite (Z.add_comm (2 * z)), (Z.mul_comm 2), Z.mod_add, (Z.mod_small b) by lia.
  replace (b + z * 2) with (2 * z + b) by lia. replace (2 * z + b - z) with (z + b) by lia.
  rewrite u128_shr_law, u128_and_law, u128_sub_law, u128_shl_law, !u128_law by (apply FL || lia).
  rewrite (Z.mod_small 1), Z.mul_1_l by lia. rewrite (Z.mod_small (2 ^ (2 * z + b))) by lia.
  rewrite (Z.mod_small (_ - 1)) by lia. rewrite Z.sub_1_r, <- Z.ones_equiv, Z.land_ones by lia.
  assert (x mod 2 ^ (2 * z + b) = f) as ->.
  { rewrite Hx. rewrite Z.add_comm, <- (Z.mul_1_l (2 ^ _)) at 1. rewrite Z.mod_add by lia. apply Z.mod_small. lia. }
  set (y := f / 2 ^ (z + b)). assert (0 ≤ y < 2 ^ z) as Hy.
  { assert (0 < 2 ^ (z + b)) by (apply Z.pow_pos_nonneg; lia). split; [apply Z.div_pos; lia|].
    apply Z.div_lt_upper_bound; [lia|]. rewrite <- Z.pow_add_r by lia. replace (z + b + z) with (2 * z + b) by lia. lia. }
  rewrite (Z.mod_small y) by lia.
  assert (Z.lor (if b =? 0 then 0 else 2 ^ z) y = b * 2 ^ z + y) as ->.
  { rewrite <- lor_disjoint by lia. f_equal. destruct (Z.eqb_spec b 0) as [->|]; [lia|]. assert (b = 1) as -> by lia. lia. }
  rewrite Z.shiftr_div_pow2 by lia. change (2 ^ 1) with 2.
  rewrite <- (Z.mul_1_l (2 ^ z)) at 1. rewrite lor_disjoint; [lia|lia|].
  split; [apply Z.div_pos; nia|]. apply Z.div_lt_upper_bound; nia.
Qed.

Lemma sqrt_parts x : 0 < x < 2 ^ 128 →
  ∃ z b f, 0 ≤ z ∧ 0 ≤ b ≤ 1 ∧ 2 * z + b < 128 ∧ 0 ≤ f < 2 ^ (2 * z + b) ∧ x = 2 ^ (2 * z + b) + f.
Proof.
  intros Hx. pose proof (Z.log2_spec x ltac:(lia)) as [H1 H2]. pose proof (Z.log2_nonneg x).
  assert (Z.log2 x < 128) by (apply Z.log2_lt_pow2; lia). rewrite Z.pow_succ_r in H2 by lia.
  pose proof (Z.div_mod (Z.log2 x) 2 ltac:(lia)) as E. pose proof (Z.mod_pos_bound (Z.log2 x) 2 ltac:(lia)).
  exists (Z.log2 x / 2), (Z.log2 x mod 2), (x - 2 ^ Z.log2 x). rewrite <- E. split_and!; try lia.
Qed.

(** Rounding the mantissa. *)
Lemma root_rounds P f b y w :
  0 < P → 0 ≤ b ≤ 1 → (P = 1 ∨ ∃ q, P = 2 * q) → 0 ≤ f < (1 + b) * P * P →
  y = f / ((1 + b) * P) → w = (b * P + y) / 2 →
  let x := (1 + b) * P * P + f in let r := P + w in x < (r + 1) * (r + 1) ∧ 8 * (r * r) ≤ 9 * x.
Proof.
  intros HP Hb Heven Hf Hy Hw x r.
  pose proof (Z.div_mod f ((1 + b) * P) ltac:(nia)) as E1. pose proof (Z.mod_pos_bound f ((1 + b) * P) ltac:(nia)) as B1.
  pose proof (Z.div_mod (b * P + y) 2 ltac:(lia)) as E2. pose proof (Z.mod_pos_bound (b * P + y) 2 ltac:(lia)) as B2.
  rewrite <- Hy in E1. rewrite <- Hw in E2. clear Hy Hw. revert E1 E2 B1 B2.
  generalize (f mod ((1 + b) * P)), ((b * P + y) mod 2). intros p q E1 E2 B1 B2.
  assert (b = 0 ∨ b = 1) as [-> | ->] by lia.
  - assert (0 ≤ y < P) by nia. assert (0 ≤ w) by lia. assert (2 * w < P) by lia. subst x r. split; nia.
  - assert (0 ≤ y < P) by nia. assert (0 ≤ w ≤ P) by lia. assert (x < 4 * P * (w + 1)) by (subst x; nia).
    assert (4 * P * w ≤ x) by (subst x; nia). subst r. split.
    + assert (0 ≤ (P - (w + 1)) * (P - (w + 1))) by apply Z.square_nonneg. nia.
    + destruct Heven as [->|[c ->]].
      * assert (y = 0) as -> by lia. assert (w = 0) as -> by lia. subst x. lia.
      * assert (c ≤ w) by lia. assert (0 ≤ (2 * (2 * c) - w) * (2 * w - 2 * c)) by nia. nia.
Qed.

Lemma approx_sqrt_near x :
  0 ≤ x < 2 ^ 128 → Z.sqrt x ≤ approx_sqrt x ∧ 8 * (approx_sqrt x * approx_sqrt x) ≤ 9 * x.
Proof.
  intros Hx. destruct (Z.eq_dec x 0) as [->|Hx0].
  { assert (approx_sqrt 0 = 0) as ->; [|done]. unfold approx_sqrt. by rewrite (u128_lo_law 0), (u128_hi_law 0). }
  destruct (sqrt_parts x ltac:(lia)) as (z & b & f & Hz & Hb & Hm & Hf & E).
  rewrite (approx_sqrt_value x z b f) by done.
  assert (2 ^ (2 * z + b) = (1 + b) * 2 ^ z * 2 ^ z) as Ep.
  { replace (2 * z + b) with (z + z + b) by lia. rewrite !Z.pow_add_r by lia.
    assert (b = 0 ∨ b = 1) as [-> | ->] by lia; change (2 ^ 0) with 1; change (2 ^ 1) with 2; lia. }
  assert (2 ^ (z + b) = (1 + b) * 2 ^ z) as Eq.
  { rewrite Z.pow_add_r by lia. assert (b = 0 ∨ b = 1) as [-> | ->] by lia; change (2 ^ 0) with 1; change (2 ^ 1) with 2; lia. }
  rewrite Ep in *. rewrite Eq. assert (0 < 2 ^ z) by (apply Z.pow_pos_nonneg; lia).
  edestruct (root_rounds (2 ^ z) f b) as [Hlt Hle]; [done|done| |done|done|done|].
  { destruct (Z.eq_dec z 0) as [->|]; [by left|right]. exists (2 ^ (z - 1)). rewrite <- Z.pow_succ_r by lia. f_equal. lia. }
  cbv zeta in Hlt, Hle. rewrite <- E in Hlt, Hle. split; [|exact Hle].
  destruct (Z.sqrt_spec x ltac:(lia)) as [Hs _]. set (r := 2 ^ z + _) in *. assert (0 ≤ r).
  { subst r. assert (0 ≤ f / ((1 + b) * 2 ^ z)) by (apply Z.div_pos; nia).
    assert (0 ≤ (b * 2 ^ z + f / ((1 + b) * 2 ^ z)) / 2) by (apply Z.div_pos; nia). lia. }
  apply Z.lt_succ_r. destruct (Z.lt_ge_cases (Z.sqrt x) (Z.succ r)); [done|]. nia.
Qed.

(** [approx_sqrt] never falls below the integer square root and exceeds the
    root by at most the factor 3/(2 sqrt 2). *)
Theorem approx_sqrt_bounds x :
  0 ≤ x < 2 ^ 128 → Z.sqrt x ≤ approx_sqrt x ∧ 8 * (approx_sqrt x * approx_sqrt x) ≤ 9 * x.
Proof. apply approx_sqrt_near. Qed.

Lemma approx_sqrt_mono x x' : 0 ≤ x ≤ x' → x' < 2 ^ 128 → approx_sqrt x ≤ approx_sqrt x'.
Proof.
  intros Hx Hx'. destruct (Z.eq_dec x 0) as [->|Hx0].
  { assert (approx_sqrt 0 = 0) as -> by (unfold approx_sqrt; by rewrite (u128_lo_law 0), (u128_hi_law 0)).
    destruct (Z.eq_dec x' 0) as [->|]; [unfold approx_sqrt; by rewrite (u128_lo_law 0), (u128_hi_law 0)|].
    destruct (sqrt_parts x' ltac:(lia)) as (z & b & f & Hz & Hb & Hm & Hf & E). rewrite (approx_sqrt_value x' z b f) by done.
    assert (0 < 2 ^ z) by (apply Z.pow_pos_nonneg; lia). assert (0 < 2 ^ (z + b)) by (apply Z.pow_pos_nonneg; lia).
    assert (0 ≤ f / 2 ^ (z + b)) by (apply Z.div_pos; lia). assert (0 ≤ (b * 2 ^ z + f / 2 ^ (z + b)) / 2) by (apply Z.div_pos; nia). lia. }
  destruct (sqrt_parts x ltac:(lia)) as (z & b & f & Hz & Hb & Hm & Hf & E).
  destruct (sqrt_parts x' ltac:(lia)) as (z' & b' & f' & Hz' & Hb' & Hm' & Hf' & E').
  rewrite (approx_sqrt_value x z b f), (approx_sqrt_value x' z' b' f') by done.
  assert (0 < 2 ^ z) by (apply Z.pow_pos_nonneg; lia). assert (0 < 2 ^ (z + b)) by (apply Z.pow_pos_nonneg; lia).
  assert (0 < 2 ^ z') by (apply Z.pow_pos_nonneg; lia). assert (0 < 2 ^ (z' + b')) by (apply Z.pow_pos_nonneg; lia).
  assert (2 * z + b ≤ 2 * z' + b').
  { destruct (Z.le_gt_cases (2 * z + b) (2 * z' + b')); [done|].
    assert (2 ^ (2 * z' + b' + 1) ≤ 2 ^ (2 * z + b)) as Hle by (apply Z.pow_le_mono_r; lia).
    rewrite Z.pow_add_r in Hle by lia. lia. }
  assert (f / 2 ^ (z + b) < 2 ^ z) as Hy.
  { apply Z.div_lt_upper_bound; [lia|]. rewrite <- Z.pow_add_r by lia. replace (z + b + z) with (2 * z + b) by lia. lia. }
  assert (0 ≤ f' / 2 ^ (z' + b')) by (apply Z.div_pos; lia).
  destruct (Z.eq_dec z z') as [<-|Hne].
  - destruct (Z.eq_dec b b') as [<-|].
    + assert (f / 2 ^ (z + b) ≤ f' / 2 ^ (z + b)) by (apply Z.div_le_mono; lia).
      assert ((b * 2 ^ z + f / 2 ^ (z + b)) / 2 ≤ (b * 2 ^ z + f' / 2 ^ (z + b)) / 2) by (apply Z.div_le_mono; lia). lia.
    + assert (b = 0) as -> by lia. assert (b' = 1) as -> by lia.
      apply Z.add_le_mono_l, Z.div_le_mono; lia.
  - assert (2 ^ (z + 1) ≤ 2 ^ z') as Hp by (apply Z.pow_le_mono_r; lia). rewrite Z.pow_add_r in Hp by lia. change (2 ^ 1) with 2 in Hp.
    assert ((b * 2 ^ z + f / 2 ^ (z + b)) / 2 < 2 ^ z) by (apply Z.div_lt_upper_bound; nia).
    assert (0 ≤ (b' * 2 ^ z' + f' / 2 ^ (z' + b')) / 2) by (apply Z.div_pos; nia). lia.
Qed.

Lemma approx_sqrt_zero : approx_sqrt 0 = 0.
Proof. unfold approx_sqrt. by rewrite (u128_lo_law 0), (u128_hi_law 0). Qed.
Lemma approx_sqrt_nonneg x : 0 ≤ x < 2 ^ 128 → 0 ≤ approx_sqrt x.
Proof. intros Hx. rewrite <- approx_sqrt_zero. apply approx_sqrt_mono; lia. Qed.

(** * The curves *)

Lemma curve_mono curve s r r' :
  0 ≤ r ≤ r' → r' ≤ i64_max → 0 < s < 2 ^ 62 →
  0 ≤ evaluate_reward_curve (u128 r) curve s ≤ evaluate_reward_curve (u128 r') curve s.
Proof.
  intros Hr Hr' Hs. unfold i64_max in *. rewrite !u128_law, (Z.mod_small r), (Z.mod_small r') by lia.
  destruct curve; unfold evaluate_reward_curve.
  - rewrite !u128_sub_law, !u128_mul_law, !u128_add_law. rewrite (Z.mod_small (r + s)), (Z.mod_small (r' + s)) by lia.
    rewrite (Z.mod_small (s * s)), (Z.mod_small ((r + s) * (r + s))), (Z.mod_small ((r' + s) * (r' + s))) by nia.
    rewrite !Z.mod_small by nia. nia.
  - rewrite !u128_mul_law, !u128_add_law, !u128_law. rewrite (Z.mod_small 2), (Z.mod_small (s * 2)) by lia.
    rewrite (Z.mod_small (s * 2 + r)), (Z.mod_small (s * 2 + r')) by lia. rewrite !u128_div_law by lia.
    rewrite !u128_shl_law, !u128_lo_law by (apply FL || lia). rewrite (Z.mod_small r), (Z.mod_small r') by lia.
    rewrite !Z.mod_small by lia. split; [apply Z.div_pos; lia|].
    apply Z.div_le_lower_bound; [lia|]. 
    pose proof (Z.mul_div_le (r * 2 ^ 64) (s * 2 + r) ltac:(lia)) as Hd. revert Hd. generalize (r * 2 ^ 64 / (s * 2 + r)) as q. intros q Hd. nia.
  - done.
  - split; [|apply approx_sqrt_mono; lia]. apply approx_sqrt_nonneg. lia.
Qed.

(** Every reward curve is monotone on the 63 bits of SCORE: more SCORE never
    claims less, so the weight [vote] gives a curator, which is a difference of
    two unsigned values of a curve, does not wrap. *)
Theorem reward_curve_monotone curve s r r' :
  0 ≤ r ≤ r' → r' ≤ i64_max → 0 < s < 2 ^ 62 →
  0 ≤ evaluate_reward_curve (u128 r) curve s ≤ evaluate_reward_curve (u128 r') curve s.
Proof. apply curve_mono. Qed.

(** * The share of a claim *)

(** A comment is paid at most the share of the fund that its claim is of all
    claims. *)
Lemma get_SCORE_reward_share ctx p :
  0 ≤ amount (ctx_total_reward_fund_TME ctx) ≤ i64_max → 0 ≤ ctx_reward_weight ctx ≤ PERCENT_100 →
  let claim := evaluate_reward_curve (u128 (ctx_SCOREreward ctx)) (ctx_reward_curve ctx) (ctx_content_constant ctx) in
  0 ≤ claim < 2 ^ 128 → get_SCORE_reward ctx = Ok p →
  0 < ctx_SCOREreward ctx ∧ 0 < ctx_totalSCOREreward2 ctx ∧ 0 ≤ p ≤ i64_max ∧
  p * ctx_totalSCOREreward2 ctx ≤ amount (ctx_total_reward_fund_TME ctx) * claim.
Proof.
  unfold get_SCORE_reward, i64_max, PERCENT_100. intros Hrf Hw. cbv zeta.
  set (claim := evaluate_reward_curve _ _ _). intros Hc Hp.
  apply result_bind_ok in Hp as (? & H1%fc_check_ok%Z.ltb_lt & Hp). apply result_bind_ok in Hp as (? & H2%fc_check_ok%Z.ltb_lt & Hp).
  apply result_bind_ok in Hp as (? & H3%fc_check_ok%Z.leb_le & Hp). apply result_bind_ok in Hp as (dust & _ & Hp).
  apply result_bind_ok in Hp as (m & _ & [= <-]). revert H3. unfold u256.
  rewrite (Z.mod_small (amount _)), (Z.mod_small (claim * _)) by nia.
  set (c := claim * ctx_reward_weight ctx / 10000). assert (0 ≤ c ≤ claim) as Hcc.
  { unfold c. split; [apply Z.div_pos; nia|]. apply Z.div_le_upper_bound; nia. }
  rewrite (Z.mod_small (_ * c)) by nia. intros H3.
  pose proof (Z.mul_div_le (amount (ctx_total_reward_fund_TME ctx) * c) (ctx_totalSCOREreward2 ctx) H2) as Hd.
  set (q := amount (ctx_total_reward_fund_TME ctx) * c / ctx_totalSCOREreward2 ctx) in *.
  assert (0 ≤ q) by (apply Z.div_pos; nia). pose proof (Z.mod_pos_bound (amount m) (2 ^ 64) ltac:(lia)) as Hm. unfold wrap_u64.
  assert (0 ≤ (if dust : bool then 0 else q) ≤ q) as Hq by (destruct dust; lia). split_and!; [done|done|lia|lia|nia].
Qed.
End sqrt.

Lemma approx_sqrt_bounds_witness :
  let r := approx_sqrt (F:=FcRef.fc_ref) 1000000 in 1000 ≤ r ∧ 8 * (r * r) ≤ 9 * 1000000.
Proof. apply (approx_sqrt_bounds (F:=FcRef.fc_ref) 1000000). lia. Defined.

Lemma reward_curve_monotone_witness :
  evaluate_reward_curve (F:=FcRef.fc_ref) (u128 5) square_root CONTENT_CONSTANT_HF0 ≤
  evaluate_reward_curve (F:=FcRef.fc_ref) (u128 9) square_root CONTENT_CONSTANT_HF0.
Proof. apply (reward_curve_monotone (F:=FcRef.fc_ref) square_root CONTENT_CONSTANT_HF0 5 9); unfold i64_max, CONTENT_CONSTANT_HF0; lia. Defined.
