(* ===== verification/Same.v ===== *)
(** Parts of the state that a step leaves alone.

    [same π s s'] says that a step did not change [π] of the state: a table, or
    what a view shows of its rows.  A computation whose updates are all of this
    kind is [preserves (same π)], which [samed] proves. *)

From S2P Require Import Prelude Fc Config Asset Flat Authority Operations Objects Database Ledger Quiet.

Definition same {X} (π : database → X) (s s' : database) : Prop := π s' = π s.
#[export] Instance same_preorder {X} (π : database → X) : PreOrder (same π).
Proof. split; [by intros s|]. unfold same. intros s1 s2 s3 H1 H2. by rewrite H2. Qed.

Section same.
Context {X : Type} (π : database → X).

Section tables.
Context `{Countable K} {V : Type} (t : database → table K V) `{!Setter t}.
Lemma same_modify k f :
  (∀ v v' s, rows (t s) !! k = Some v → f v = Ok v' → π (set_row t k v' s) = π s) → preserves (same π) (modify t k f).
Proof. intros Hq s u s' Hr. db_inv. by eapply Hq. Qed.
Lemma same_create k f : (∀ v s, rows (t s) !! k = None → π (add_row t k v s) = π s) → preserves (same π) (create t k f).
Proof. intros Hq s u s' Hr. db_inv. by apply Hq. Qed.
Lemma same_remove k : (∀ s, π (del_row t k s) = π s) → preserves (same π) (remove t k).
Proof. intros Hq s u s' Hr. db_inv. apply Hq. Qed.
Lemma same_getr k : preserves (same π) (get t k).
Proof. intros s u s' Hr. by db_inv. Qed.
Lemma same_find k : preserves (same π) (find t k).
Proof. intros s u s' Hr. by db_inv. Qed.
Lemma same_drain le due body : (∀ k v, preserves (same π) (body k v)) → preserves (same π) (drain t le due body).
Proof. intros Hb. intros s u s'. apply drain_preserves; [apply _|]. intros. by eapply Hb. Qed.
End tables.

Lemma same_asks {A} (f : database → A) : preserves (same π) (asks f).
Proof. intros s u s' Hr. by db_inv. Qed.
Lemma same_db_assert c msg : preserves (same π) (db_assert c msg).
Proof. intros s u s' [_ ->]%runs_db_assert. done. Qed.
Lemma same_modify1 {V} (p : database → V) `{!Setter p} f :
  (∀ v s, f (p s) = Ok v → π (s <| p := v |>) = π s) → preserves (same π) (modify1 p f).
Proof. intros Hq s u s' Hr. db_inv. by apply Hq. Qed.
End same.

(** What a view shows of a table does not change when it shows the new row as the
    old one. *)
Lemma view_set_row `{Countable K} {V W} (t : database → table K V) `{!Setter t} (view : V → W) k v v' s :
  (∀ g, t (s <| t ::= g |>) = g (t s)) →
  rows (t s) !! k = Some v → view v' = view v →
  view <$> rows (t (set_row t k v' s)) = view <$> rows (t s).
Proof.
  intros Hset Hk Hv. unfold set_row. rewrite Hset. cbn [rows]. rewrite fmap_insert. apply insert_id. by rewrite lookup_fmap, Hk, Hv.
Qed.

Create HintDb same discriminated.
#[export] Hint Resolve same_getr same_find same_asks same_db_assert : same.

Ltac same_unfold := lazymatch goal with |- ?p _ = ?p _ => try unfold p end.
Ltac same_row :=
  let H := fresh in intros ? ? ? ? H; returned H;
  first [reflexivity
        |same_unfold; first [apply (f_equal2 pair); [|reflexivity]|idtac];
         (eapply view_set_row; [intros ?; reflexivity|eassumption|reflexivity])].
Ltac same_step :=
  lazymatch goal with
  | |- ∀ _, _ => intros
  | |- _ = true → _ => intros _
  | |- preserves (same ?p) (modify1 _ _) =>
      apply same_modify1; let H := fresh in intros ? ? H; returned H; reflexivity
  | |- preserves (same ?p) (modify _ _ _) => apply same_modify; same_row
  | |- preserves (same ?p) (create _ _ _) => apply same_create; intros; reflexivity
  | |- preserves (same ?p) (remove _ _) => apply same_remove; intros; reflexivity
  | |- preserves ?R (_ ≫= _) => apply (preserves_bind R)
  | |- preserves ?R (mret _) => apply (preserves_ret R)
  | |- preserves ?R (lift _) => apply (preserves_lift R)
  | |- preserves ?R (throw _) => apply (preserves_throw R)
  | |- preserves ?R (fc_assert _ _) => apply (preserves_assert R)
  | |- preserves ?R (mwhen _ _) => apply (preserves_when R)
  | |- preserves ?R (mfor _ _) => apply (preserves_for R)
  | |- preserves ?R (drain _ _ _ _) => apply same_drain
  | |- preserves ?R (let _ := _ in _) => cbv zeta
  | |- preserves ?R (match ?x with _ => _ end) => destruct x
  | |- preserves ?R _ => solve [auto with same]
  end.
Ltac samed := repeat autounfold with accessors; repeat same_step.

Lemma same_push {X} (π : database → X) op :
  (∀ s l, π (s <| virtual_ops := l |>) = π s) → preserves (same π) (push_virtual_operation op).
Proof. unfold push_virtual_operation. intros Hp s u s' Hr. db_inv. apply Hp. Qed.
#[export] Hint Extern 1 (preserves (same _) (push_virtual_operation _)) => (apply same_push; intros; reflexivity) : same.
