(* ===== verification/Comments.v ===== *)
(** Comments and votes on them: [comment], [deleteComment], [comment_options] and
    [vote] of [chain/node_evaluator.cpp].

    A comment is found by author and permlink; replies point to their parent and
    to the root of the discussion.  Votes are rows of their own, keyed by comment
    and voter, and a comment caches their sums. *)

From Stdlib Require Import Ascii.
From S2P Require Import Prelude Fc Config Asset Flat Authority Operations Objects Database Samples Ledger Frame Supply Rewards Quiet.

(** [diff_match_patch] and the conversions around it: the text a patch makes of a
    body, [None] when there is nothing to patch; [fc::prune_invalid_utf8]. *)
Class TextPatch := {
  apply_patch : string → string → result (option string);
  prune_invalid_utf8 : string → string;
}.

Section comments_model.
Context {F : Fc} {TP : TextPatch}.

(** ** Access *)

(** [database::get_comment], libraries/chain/database.cpp:375-378 *)
Definition get_comment (author : account_name) (permlink : string) : DB comment_object := get comments (author, permlink).

(** [get( comment_id )]: the key of the comment with an id. *)
Definition comment_with_id (id : Z) (s : database) : option (account_name * string) :=
  match list_find (λ p : account_name * string * comment_object, cmt_id p.2 = id) (map_to_list (rows (comments s))) with
  | Some (_, p) => Some p.1
  | None => None
  end.
Definition get_comment_key (id : Z) : DB (account_name * string) :=
  k ← asks (comment_with_id id);
  match k with Some k => mret k | None => throw (out_of_range "unknown key") end.

(** [database::calculate_discussion_payout_time], libraries/chain/database.cpp:456-462 *)
Definition calculate_discussion_payout_time (comment : comment_object) : DB Z :=
  hf17 ← has_hardfork HARDFORK_0_17;
  if (hf17 : bool) || str_eqb (cmt_parent_author comment) ROOT_POST_PARENT then mret (cmt_cashout_time comment)
  else k ← get_comment_key (cmt_root_comment comment); root ← get comments k; mret (cmt_cashout_time root).

(** [POST_REWARD_FUND_NAME], libraries/protocol/include/node/protocol/config.hpp:175-175 *)
Definition POST_REWARD_FUND_NAME : string := "post".
(** [database::get_reward_fund], libraries/chain/database.cpp:464-467 *)
Definition get_reward_fund (c : comment_object) : DB reward_fund_object := get reward_funds POST_REWARD_FUND_NAME.

(** [database::get_curationRewards_percent], libraries/chain/database.cpp:1991-1999 *)
Definition get_curationRewards_percent (c : comment_object) : DB Z :=
  hf17 ← has_hardfork HARDFORK_0_17;
  hf8 ← has_hardfork HARDFORK_0_8;
  if hf17 : bool then f ← get_reward_fund c; mret (rwf_percent_curationRewards f)
  else if hf8 : bool then mret (PERCENT_1 * 25)
  else mret (PERCENT_1 * 50).

(** [database::adjust_SCOREreward2], libraries/chain/database.cpp:1309-1318 *)
Definition adjust_SCOREreward2 (old_SCOREreward2 new_SCOREreward2 : Z) : DB unit :=
  modify1 gpo (λ p, Ok (p <| gpo_totalSCOREreward2 ::=
    λ t, u128_add (u128_sub t old_SCOREreward2) new_SCOREreward2 |>)).

(** The guard of every operation on comments since hard fork 10. *)
Definition not_challenged (auth : account_object) : DB unit :=
  hf10 ← has_hardfork HARDFORK_0_10;
  mwhen hf10 (fc_assert (negb (acc_owner_challenged auth || acc_active_challenged auth))
    "Operation cannot be processed because account is currently challenged.").

(** ** Creating and editing *)

(** [validate_permlink_0_1], libraries/chain/node_evaluator.cpp:36-53 *)
Definition validate_permlink_0_1 (permlink : string) : result unit :=
  let size := Z.of_nat (String.length permlink) in
  fc_check ((MIN_PERMLINK_LENGTH <? size) && (size <? MAX_PERMLINK_LENGTH)) "Permlink is not a valid size.";;
  rfor (λ c, fc_check (is_let_dig_hyp c) "Invalid permlink character") (String.list_ascii_of_string permlink).

(** The characters before the first NUL. *)
Fixpoint c_str (s : string) : string :=
  match s with
  | EmptyString => EmptyString
  | String c s' => if Ascii.eqb c zero then EmptyString else String c (c_str s')
  end.
(** [strcmp_equal], libraries/chain/node_evaluator.cpp:56-62 *)
Definition strcmp_equal (a b : string) : bool :=
  (String.length a =? String.length b)%nat || str_eqb (c_str a) (c_str b).

(** Change a comment and all above it. *)
Fixpoint climb (fuel : nat) (f : comment_object → comment_object) (k : account_name * string) : DB unit :=
  match fuel with
  | O => throw (logic_error "out of fuel")
  | S fuel =>
      modify comments k (λ p, Ok (f p));;
      parent ← get comments k;
      if nonempty (cmt_parent_author parent)
      then climb fuel f (cmt_parent_author parent, cmt_parent_permlink parent)
      else mret tt
  end.
(** The count of children, and the time of the last activity. *)
Definition counted (count : Z → Z) (now : Z) (c : comment_object) : comment_object :=
  c <| cmt_children ::= count |> <| cmt_active := now |>.
(** The depth of a comment bounds the walk to its root. *)
Definition touch_from (count : Z → Z) (k : account_name * string) : DB unit :=
  p ← get comments k;
  now ← head_block_time;
  climb (S (Z.to_nat (cmt_depth p))) (counted count now) k.

(** The parent of a new or edited comment, and the limit on its depth. *)
Definition find_parent (o : comment_operation) : DB (option comment_object) :=
  if nonempty (comment_parent_author o) then
    parent ← get_comment (comment_parent_author o) (comment_parent_permlink o);
    hf17 ← has_hardfork HARDFORK_0_17;
    fc_assert (cmt_depth parent <? (if hf17 : bool then MAX_COMMENT_DEPTH else MAX_COMMENT_DEPTH_PRE_HF17))
      "Comment is nested too deep";;
    mret (Some parent)
  else mret None.

(** The time an author has to wait between two posts. *)
Definition post_interval_guard (is_root : bool) (auth : account_object) : DB unit :=
  now ← head_block_time;
  hf12 ← has_hardfork HARDFORK_0_12;
  hf6 ← has_hardfork HARDFORK_0_6;
  if hf12 : bool then
    if is_root then fc_assert (MIN_ROOT_COMMENT_INTERVAL <? tps_diff now (acc_last_root_post auth)) "You may only post once every 5 minutes."
    else fc_assert (MIN_REPLY_INTERVAL <? tps_diff now (acc_last_post auth)) "You may only comment once every 20 seconds."
  else if hf6 : bool then
    if is_root then fc_assert (MIN_ROOT_COMMENT_INTERVAL <? tps_diff now (acc_last_post auth)) "You may only post once every 5 minutes."
    else fc_assert (MIN_REPLY_INTERVAL <? tps_diff now (acc_last_post auth)) "You may only comment once every 20 seconds."
  else fc_assert (60 <? tps_diff now (acc_last_post auth)) "You may only post once per minute.".

(** The bandwidth an author has used, and the weight a new root post gets for it. *)
Definition post_weight (now : Z) (auth : account_object) : Z * Z :=
  let post_delta_time := Z.min (wrap_u32 (now - acc_last_root_post auth)) POST_AVERAGE_WINDOW in
  let old_weight := wrap_u32 (wrap_u64 (acc_post_bandwidth auth * (POST_AVERAGE_WINDOW - post_delta_time)) / POST_AVERAGE_WINDOW) in
  let post_bandwidth := wrap_u32 (old_weight + PERCENT_100) in
  (post_bandwidth,
   wrap_u16 (Z.min (wrap_u64 (POST_WEIGHT_CONSTANT * PERCENT_100) / wrap_u64 (post_bandwidth * post_bandwidth)) PERCENT_100)).

(** The members of a new [comment_object], libraries/chain/include/node/chain/comment_object.hpp:52-101 *)
Definition comment_defaults (id : Z) : comment_object :=
  {| cmt_id := id; cmt_category := EmptyString; cmt_parent_author := EmptyString; cmt_parent_permlink := EmptyString;
     cmt_author := EmptyString; cmt_permlink := EmptyString; cmt_title := EmptyString; cmt_body := EmptyString;
     cmt_json := EmptyString; cmt_last_update := tps_min; cmt_created := tps_min; cmt_active := tps_min;
     cmt_last_payout := tps_min; cmt_depth := 0; cmt_children := 0; cmt_net_SCOREreward := 0;
     cmt_abs_SCOREreward := 0; cmt_vote_SCOREreward := 0; cmt_children_abs_SCOREreward := 0;
     cmt_cashout_time := tps_min; cmt_max_cashout_time := tps_min; cmt_total_vote_weight := 0;
     cmt_reward_weight := 0; cmt_total_payout_value := Asset 0 SYMBOL_USD; cmt_curator_payout_value := Asset 0 SYMBOL_USD;
     cmt_beneficiary_payout_value := Asset 0 SYMBOL_USD; cmt_authorRewards := 0; cmt_net_votes := 0;
     cmt_root_comment := 0; cmt_max_accepted_payout := Asset 1000000000 SYMBOL_USD; cmt_percent_TSD := PERCENT_100;
     cmt_allow_replies := true; cmt_allow_votes := true; cmt_allow_curationRewards := true; cmt_beneficiaries := [] |}.

(** The new comment. *)
Definition make_comment (o : comment_operation) (parent : option comment_object) (reward_weight now : Z) (hf12 hf17 : bool)
    (id : Z) : comment_object :=
  let com := comment_defaults id <| cmt_author := comment_author o |> <| cmt_permlink := comment_permlink o |>
    <| cmt_last_update := now |> <| cmt_created := now |> <| cmt_active := now |> <| cmt_last_payout := tps_min |>
    <| cmt_max_cashout_time := tps_max |> <| cmt_reward_weight := reward_weight |> in
  let com :=
    match parent with
    | None =>
        com <| cmt_parent_author := EmptyString |> <| cmt_parent_permlink := comment_parent_permlink o |>
          <| cmt_category := comment_parent_permlink o |> <| cmt_root_comment := id |>
          <| cmt_cashout_time := if hf12 then tps_add now CASHOUT_WINDOW_SECONDS_PRE_HF17 else tps_max |>
    | Some parent =>
        com <| cmt_parent_author := cmt_author parent |> <| cmt_parent_permlink := cmt_permlink parent |>
          <| cmt_depth := wrap_u16 (cmt_depth parent + 1) |> <| cmt_category := cmt_category parent |>
          <| cmt_root_comment := cmt_root_comment parent |> <| cmt_cashout_time := tps_max |>
    end in
  let com := if hf17 then com <| cmt_cashout_time := tps_add now CASHOUT_WINDOW_SECONDS |> else com in
  let com := com <| cmt_title := comment_title o |> in
  let com := if Z.of_nat (String.length (comment_body o)) <? 1024 * 1024 * 128 then com <| cmt_body := comment_body o |> else com in
  if is_utf8 (comment_json o) then com <| cmt_json := comment_json o |> else com.

(** The branch of [comment] for a new comment. *)
Definition comment_new (o : comment_operation) (auth : account_object) (parent : option comment_object) : DB unit :=
  hf1 ← has_hardfork HARDFORK_0_1;
  hf12 ← has_hardfork HARDFORK_0_12;
  hf17 ← has_hardfork HARDFORK_0_17;
  now ← head_block_time;
  match parent with
  | Some parent =>
      root_key ← get_comment_key (cmt_root_comment parent);
      root ← get comments root_key;
      fc_assert (cmt_allow_replies root) "The parent comment has disabled replies.";;
      mwhen ((hf12 : bool) && negb hf17)
        (t ← calculate_discussion_payout_time parent; fc_assert (negb (t =? tps_max)) "Discussion is frozen.")
  | None => mret tt
  end;;
  let is_root := match parent with None => true | Some _ => false end in
  post_interval_guard is_root auth;;
  let weighed := if (hf12 : bool) && negb hf17 && is_root then post_weight now auth else (acc_post_bandwidth auth, PERCENT_100) in
  modify accounts (comment_author o) (λ a,
    let a := if is_root then a <| acc_last_root_post := now |> <| acc_post_bandwidth := wrap_u32 (weighed.1) |> else a in
    Ok (a <| acc_last_post := now |> <| acc_post_count ::= λ n, wrap_u32 (n + 1) |>));;
  mwhen hf1 (lift (validate_permlink_0_1 (comment_parent_permlink o));; lift (validate_permlink_0_1 (comment_permlink o)));;
  create comments (comment_author o, comment_permlink o) (make_comment o parent weighed.2 now hf12 hf17);;
  match parent with
  | Some parent => touch_from (λ n, wrap_u32 (n + 1)) (cmt_author parent, cmt_permlink parent)
  | None => mret tt
  end.

(** The body of an edited comment. *)
Definition patched_body (new old : string) : string :=
  match apply_patch new old with
  | Ok (Some t) => if is_utf8 t then t else prune_invalid_utf8 t
  | Ok None => new
  | Err _ => new
  end.

(** The branch of [comment] for an edit. *)
Definition comment_edit (o : comment_operation) (comment : comment_object) (parent : option comment_object) : DB unit :=
  hf10 ← has_hardfork HARDFORK_0_10;
  hf14 ← has_hardfork HARDFORK_0_14;
  hf17 ← has_hardfork HARDFORK_0_17;
  mwhen (negb hf17)
    (if hf14 : bool then
       t ← calculate_discussion_payout_time comment; fc_assert (negb (t =? tps_max)) "The comment is archived."
     else mwhen hf10 (fc_assert (cmt_last_payout comment =? tps_min) "Can only edit during the first 24 hours."));;
  now ← head_block_time;
  modify comments (comment_author o, comment_permlink o) (λ com,
    let com := com <| cmt_last_update := now |> <| cmt_active := now |> in
    fc_check (str_eqb (cmt_parent_author com) (match parent with None => EmptyString | Some _ => comment_parent_author o end))
      "The parent of a comment cannot change.";;
    fc_check (strcmp_equal (cmt_parent_permlink com) (comment_parent_permlink o)) "The permlink of a comment cannot change.";;
    let com := if nonempty (comment_title o) then com <| cmt_title := comment_title o |> else com in
    let com := if nonempty (comment_json o) && is_utf8 (comment_json o) then com <| cmt_json := comment_json o |> else com in
    Ok (if nonempty (comment_body o) then com <| cmt_body ::= patched_body (comment_body o) |> else com)).

(** [comment_evaluator::do_apply], libraries/chain/node_evaluator.cpp:467-682 *)
Definition comment_apply (o : comment_operation) : DB unit :=
  hf5 ← has_hardfork HARDFORK_0_5;
  mwhen hf5 (fc_assert (nonempty (comment_title o) || nonempty (comment_body o) || nonempty (comment_json o))
    "Cannot update comment because nothing appears to be changing.");;
  itr ← find comments (comment_author o, comment_permlink o);
  auth ← get_account (comment_author o);
  not_challenged auth;;
  parent ← find_parent o;
  hf17 ← has_hardfork HARDFORK_0_17;
  mwhen ((hf17 : bool) && nonempty (comment_json o)) (fc_assert (is_utf8 (comment_json o)) "JSON Metadata must be UTF-8");;
  match itr with
  | None => comment_new o auth parent
  | Some comment => comment_edit o comment parent
  end.

(** ** Deleting *)

(** The votes on a comment, in the order of [by_comment_voter]. *)
Definition votes_on (comment : Z) (s : database) : list (Z * Z) :=
  (λ voter, (comment, voter)) <$> merge_sort Z.le
    (snd <$> filter (λ k, k.1 = comment) (fst <$> map_to_list (rows (comment_votes s)))).

(** [deleteComment_evaluator::do_apply], libraries/chain/node_evaluator.cpp:360-409 *)
Definition deleteComment_apply (o : deleteComment_operation) : DB unit :=
  let k := (deleteComment_author o, deleteComment_permlink o) in
  hf10 ← has_hardfork HARDFORK_0_10;
  mwhen hf10 (auth ← get_account (deleteComment_author o); not_challenged auth);;
  comment ← get_comment (deleteComment_author o) (deleteComment_permlink o);
  fc_assert (cmt_children comment =? 0) "Cannot delete a comment with replies.";;
  hf19 ← has_hardfork HARDFORK_0_19;
  mwhen hf19 (fc_assert (negb (cmt_cashout_time comment =? tps_max)) EmptyString);;
  mwhen hf19 (fc_assert (cmt_net_SCOREreward comment <=? 0) "Cannot delete a comment with net positive votes.");;
  if 0 <? cmt_net_SCOREreward comment then mret tt
  else
    l ← asks (votes_on (cmt_id comment));
    mfor (remove comment_votes) l;;
    hf6 ← has_hardfork HARDFORK_0_6;
    mwhen ((hf6 : bool) && nonempty (cmt_parent_author comment))
      (touch_from (λ n, wrap_u32 (n - 1)) (cmt_parent_author comment, cmt_parent_permlink comment));;
    remove comments k.

(** ** Options *)

(** [comment_options_extension_visitor], libraries/chain/node_evaluator.cpp:411-435 *)
Definition visit_extension (k : account_name * string) (e : comment_options_extension) : DB unit :=
  match e with
  | comment_payout_beneficiaries beneficiaries =>
      c ← get comments k;
      fc_assert (match cmt_beneficiaries c with [] => true | _ => false end) "Comment already has beneficiaries specified.";;
      fc_assert (cmt_abs_SCOREreward c =? 0) "Comment must not have been voted on before specifying beneficiaries.";;
      mfor (λ b, acc ← find_account (beneficiary_account b);
        fc_assert (match acc with Some _ => true | None => false end) "Beneficiary must exist.") beneficiaries;;
      modify comments k (λ c, Ok (c <| cmt_beneficiaries := beneficiaries |>))
  end.

(** [comment_options_evaluator::do_apply], libraries/chain/node_evaluator.cpp:437-465 *)
Definition comment_options_apply (o : comment_options_operation) : DB unit :=
  let k := (comment_options_author o, comment_options_permlink o) in
  hf10 ← has_hardfork HARDFORK_0_10;
  mwhen hf10 (auth ← get_account (comment_options_author o); not_challenged auth);;
  comment ← get_comment (comment_options_author o) (comment_options_permlink o);
  restricts ← lift (if negb (comment_options_allow_curationRewards o) then Ok true
                    else if negb (comment_options_allow_votes o) then Ok true
                    else asset_lt (comment_options_max_accepted_payout o) (cmt_max_accepted_payout comment));
  mwhen restricts (fc_assert (cmt_abs_SCOREreward comment =? 0)
    "One of the included comment options requires the comment to have no SCOREreward allocated to it.");;
  fc_assert (implb (comment_options_allow_curationRewards o) (cmt_allow_curationRewards comment))
    "Curation rewards cannot be re-enabled.";;
  fc_assert (implb (comment_options_allow_votes o) (cmt_allow_votes comment)) "Voting cannot be re-enabled.";;
  db_assert (asset_ge (cmt_max_accepted_payout comment) (comment_options_max_accepted_payout o))
    "A comment cannot accept a greater payout.";;
  fc_assert (comment_options_percent_TSD o <=? cmt_percent_TSD comment) "A comment cannot accept a greater percent TSD.";;
  modify comments k (λ c,
    Ok (c <| cmt_max_accepted_payout := comment_options_max_accepted_payout o |>
          <| cmt_percent_TSD := comment_options_percent_TSD o |> <| cmt_allow_votes := comment_options_allow_votes o |>
          <| cmt_allow_curationRewards := comment_options_allow_curationRewards o |>));;
  mfor (visit_extension k) (comment_options_extensions o).

(** ** Voting *)

(** [account_object::effective_SCORE], libraries/chain/include/node/chain/account_object.hpp:126-126 *)
Definition effective_SCORE (a : account_object) : result asset :=
  d ← asset_sub (acc_SCORE a) (acc_SCOREDelegated a); asset_add d (acc_SCOREreceived a).

(** The power a voter has, and the power a vote of this weight uses. *)
Definition vote_power (voter : account_object) (elapsed_seconds weight reserve_rate : Z) (hf14 : bool) : result (Z * Z) :=
  let regenerated_power := Z.quot (PERCENT_100 * elapsed_seconds) VOTE_REGENERATION_SECONDS in
  let current_power := Z.min (acc_voting_power voter + regenerated_power) PERCENT_100 in
  fc_check (0 <? current_power) "Account currently does not have voting power.";;
  let used_power := Z.quot (current_power * Z.abs weight) PERCENT_100 in
  let max_vote_denom := Z.quot (reserve_rate * VOTE_REGENERATION_SECONDS) (60 * 60 * 24) in
  fc_check (0 <? max_vote_denom) EmptyString;;
  (if hf14 then Ok tt else fc_check (max_vote_denom =? 200) EmptyString);;
  let used_power := if hf14 then Z.quot (used_power + max_vote_denom - 1) max_vote_denom
                    else Z.quot used_power max_vote_denom + 1 in
  fc_check (used_power <=? current_power) "Account does not have enough power to vote.";;
  Ok (current_power, used_power).

(** The SCORE behind the vote. *)
Definition vote_SCORE (voter : account_object) (used_power weight : Z) (hf13 hf14 : bool) : result Z :=
  e ← effective_SCORE voter;
  x ← u128_to_u64 (u128_div (u128_mul (u128 (amount e)) (u128 used_power)) (u128 PERCENT_100));
  let abs_SCOREreward := wrap_i64 x in
  let abs_SCOREreward := if negb hf14 && (abs_SCOREreward =? 0) then 1 else abs_SCOREreward in
  (if hf14 then fc_check ((VOTE_DUST_THRESHOLD <? abs_SCOREreward) || (weight =? 0)) "Voting weight is too small"
   else if hf13 then fc_check ((VOTE_DUST_THRESHOLD <? abs_SCOREreward) || (abs_SCOREreward =? 1)) "Voting weight is too small"
   else Ok tt);;
  Ok abs_SCOREreward.

(** The time before the payout in which a payout can not be raised. *)
Definition lockout_guard (comment : comment_object) : DB unit :=
  now ← head_block_time;
  hf17 ← has_hardfork HARDFORK_0_17;
  hf7 ← has_hardfork HARDFORK_0_7;
  if hf17 : bool then
    fc_assert (UPVOTE_LOCKOUT_HF17 <? tps_diff (cmt_cashout_time comment) now)
      "Cannot increase payout within last twelve hours before payout."
  else mwhen hf7
    (t ← calculate_discussion_payout_time comment;
     fc_assert (UPVOTE_LOCKOUT_HF7 <? tps_diff t now) "Cannot increase payout within last minute before payout.").

(** The average of the cashout times of the votes, before hard fork 17. *)
Definition average_cashout (comment : comment_object) (old_root_abs abs_SCOREreward : Z) (changing : bool) : DB Z :=
  hf12 ← has_hardfork HARDFORK_0_12;
  hf13 ← has_hardfork HARDFORK_0_13;
  hf14 ← has_hardfork HARDFORK_0_14;
  hf17 ← has_hardfork HARDFORK_0_17;
  if hf17 : bool then mret 0
  else
    now ← head_block_time;
    t ← calculate_discussion_payout_time comment;
    let cur := u128 t in
    let new := u128 (wrap_u32 (now + if (hf12 : bool) && negb hf13 then CASHOUT_WINDOW_SECONDS_PRE_HF17
                                     else CASHOUT_WINDOW_SECONDS_PRE_HF12)) in
    if changing && (hf14 : bool) && (abs_SCOREreward =? 0) then mret cur
    else mret (u128_div (u128_add (u128_mul cur (u128 old_root_abs)) (u128_mul new (u128 abs_SCOREreward)))
                 (u128 (wrap_i64 (old_root_abs + abs_SCOREreward)))).

(** The SCORE that voted in the discussion, and its cashout time before hard fork 17. *)
Definition count_in_root (root : account_name * string) (abs_SCOREreward avg_cashout_sec : Z) : DB unit :=
  now ← head_block_time;
  hf12 ← has_hardfork HARDFORK_0_12;
  hf17 ← has_hardfork HARDFORK_0_17;
  modify comments root (λ c,
    x ← safe_add (cmt_children_abs_SCOREreward c) abs_SCOREreward;
    let c := c <| cmt_children_abs_SCOREreward := x |> in
    if hf17 : bool then Ok c
    else
      a ← u128_to_u64 avg_cashout_sec;
      let c := c <| cmt_cashout_time :=
        if (hf12 : bool) && (tps_min <? cmt_last_payout c) then tps_add (cmt_last_payout c) SECOND_CASHOUT_WINDOW
        else Z.min (wrap_u32 a) (cmt_max_cashout_time c) |> in
      Ok (if cmt_max_cashout_time c =? tps_max
          then c <| cmt_max_cashout_time := tps_add now MAX_CASHOUT_WINDOW_SECONDS |> else c)).

(** ** The weight of a curator *)

(** [HARDFORK_0_6_REVERSE_AUCTION_TIME], libraries/chain/hardfork.d/0_6.hf:18-18 *)
Definition HARDFORK_0_6_REVERSE_AUCTION_TIME : Z := 1.
(** [HF_19_SQRT_PRE_CALC], libraries/chain/hardfork.d/0_19.hf:19-20 *)
Definition HF_19_SQRT_PRE_CALC : Z := 1531630199 - CASHOUT_WINDOW_SECONDS.

(** The curation weight by the share of votes, before hard fork 17. *)
Definition share_weight (scale old new : Z) : result Z :=
  let two_s := u128_mul (u128 2) (u128 CONTENT_CONSTANT_HF0) in
  let share v := u128_to_u64 (u128_div (u128_mul (u128 u64_max) (u128 (wrap_i64 (scale * v)))) (u128_add two_s (u128 (wrap_i64 (scale * v))))) in
  o ← share old; n ← share new; Ok (wrap_u64 (n - o)).

(** The weight a positive vote adds: the growth of the curve by it. *)
Definition curation_weight (comment : comment_object) (old_vote_SCOREreward SCOREreward : Z) (fund : option reward_fund_object)
    (hf1 hf19 : bool) : result Z :=
  if cmt_created comment <? HARDFORK_0_6_REVERSE_AUCTION_TIME then
    let scale := if hf1 then 1 else 1000000 in
    let SCOREreward3 := SCOREreward * scale in
    let total2 := u256 (cmt_abs_SCOREreward comment * scale) in
    Ok (wrap_u64 (SCOREreward3 * SCOREreward3 * SCOREreward3 / u256 (total2 * total2)))
  else
    match fund with
    | Some fund =>
        let curve := if negb hf19 && (HF_19_SQRT_PRE_CALC <? cmt_created comment) then square_root
                     else rwf_curationReward_curve fund in
        o ← u128_to_u64 (evaluate_reward_curve (u128 old_vote_SCOREreward) curve (rwf_content_constant fund));
        n ← u128_to_u64 (evaluate_reward_curve (u128 (cmt_vote_SCOREreward comment)) curve (rwf_content_constant fund));
        Ok (wrap_u64 (n - o))
    | None => share_weight (if hf1 then 1 else 1000000) old_vote_SCOREreward (cmt_vote_SCOREreward comment)
    end.

(** The weight, discounted while the comment is younger than ten minutes. *)
Definition auction_weight (now created weight : Z) : result Z :=
  if HARDFORK_0_6_REVERSE_AUCTION_TIME <? now then
    let delta_t := Z.min (wrap_u64 (tps_diff now created)) REVERSE_AUCTION_WINDOW_SECONDS in
    u128_to_u64 (u128_div (u128_mul (u128 weight) (u128 delta_t)) (u128 REVERSE_AUCTION_WINDOW_SECONDS))
  else Ok weight.

(** The weight of a new vote: what it adds to the total, and what it is paid for. *)
Definition curator_weight (k : account_name * string) (old_vote_SCOREreward SCOREreward : Z) : DB (Z * Z) :=
  comment ← get comments k;
  now ← head_block_time;
  hf1 ← has_hardfork HARDFORK_0_1;
  hf17 ← has_hardfork HARDFORK_0_17;
  hf19 ← has_hardfork HARDFORK_0_19;
  let eligible := (0 <? SCOREreward) && (cmt_last_payout comment =? tps_min) && cmt_allow_curationRewards comment in
  eligible ← (if eligible && (hf17 : bool) then p ← get_curationRewards_percent comment; mret (0 <? p) else mret eligible);
  if eligible : bool then
    fund ← (if hf17 : bool then f ← get_reward_fund comment; mret (Some f) else mret None);
    max_vote_weight ← lift (curation_weight comment old_vote_SCOREreward SCOREreward fund hf1 hf19);
    weight ← lift (auction_weight now (cmt_created comment) max_vote_weight);
    mret (max_vote_weight, weight)
  else mret (0, 0).

(** The voter pays with voting power. *)
Definition spend_power (voter : account_name) (current_power used_power : Z) : DB unit :=
  now ← head_block_time;
  modify accounts voter (λ a, Ok (a <| acc_voting_power := wrap_u16 (current_power - used_power) |> <| acc_last_vote_time := now |>)).

(** The branch of [vote] for a first vote. *)
Definition vote_new (o : vote_operation) (voter : account_object) (current_power used_power abs_SCOREreward : Z) : DB unit :=
  let k := (vote_author o, vote_permlink o) in
  comment ← get comments k;
  fc_assert (negb (vote_weight o =? 0)) "Vote weight cannot be 0.";;
  let SCOREreward := if vote_weight o <? 0 then - abs_SCOREreward else abs_SCOREreward in
  mwhen (0 <? SCOREreward) (lockout_guard comment);;
  spend_power (vote_voter o) current_power used_power;;
  let old_SCOREreward := u128 (Z.max (cmt_net_SCOREreward comment) 0) in
  root_key ← get_comment_key (cmt_root_comment comment);
  root ← get comments root_key;
  avg ← average_cashout comment (cmt_children_abs_SCOREreward root) abs_SCOREreward false;
  fc_assert (0 <? abs_SCOREreward) "Cannot vote with 0 SCOREreward.";;
  hf6 ← has_hardfork HARDFORK_0_6;
  modify comments k (λ c,
    net ← safe_add (cmt_net_SCOREreward c) SCOREreward;
    abs ← safe_add (cmt_abs_SCOREreward c) abs_SCOREreward;
    up ← (if 0 <? SCOREreward then safe_add (cmt_vote_SCOREreward c) SCOREreward else Ok (cmt_vote_SCOREreward c));
    let votes := wrap_i32 (cmt_net_votes c + if 0 <? SCOREreward then 1 else -1) in
    (if negb hf6 && (net =? - abs) then fc_check (votes <? 0) "Comment has negative net votes?" else Ok tt);;
    Ok (c <| cmt_net_SCOREreward := net |> <| cmt_abs_SCOREreward := abs |> <| cmt_vote_SCOREreward := up |>
          <| cmt_net_votes := votes |>));;
  count_in_root root_key abs_SCOREreward avg;;
  after ← get comments k;
  let new_SCOREreward := u128 (Z.max (cmt_net_SCOREreward after) 0) in
  weights ← curator_weight k (cmt_vote_SCOREreward comment) SCOREreward;
  now ← head_block_time;
  create comment_votes (cmt_id comment, acc_id voter) (λ id,
    {| cvo_id := id; cvo_voter := acc_id voter; cvo_comment := cmt_id comment; cvo_weight := weights.2;
       cvo_SCOREreward := SCOREreward; cvo_vote_percent := vote_weight o; cvo_last_update := now; cvo_num_changes := 0 |});;
  mwhen (negb (weights.1 =? 0)) (modify comments k (λ c, Ok (c <| cmt_total_vote_weight ::= λ t, wrap_u64 (t + weights.1) |>)));;
  hf17 ← has_hardfork HARDFORK_0_17;
  mwhen (negb hf17) (adjust_SCOREreward2 (evaluate_default old_SCOREreward) (evaluate_default new_SCOREreward)).

(** How a changed vote changes the count of votes. *)
Definition net_votes_change (old new : Z) : Z :=
  if (0 <? new) && (old <? 0) then 2
  else if (0 <? new) && (old =? 0) then 1
  else if (new =? 0) && (old <? 0) then 1
  else if (new =? 0) && (0 <? old) then -1
  else if (new <? 0) && (old =? 0) then -1
  else if (new <? 0) && (0 <? old) then -2
  else 0.

(** The branch of [vote] for a changed vote. *)
Definition vote_change (o : vote_operation) (voter : account_object) (cv : comment_vote_object)
    (current_power used_power abs_SCOREreward : Z) : DB unit :=
  let k := (vote_author o, vote_permlink o) in
  comment ← get comments k;
  fc_assert (cvo_num_changes cv <? MAX_VOTE_CHANGES) "Voter has used the maximum number of vote changes on this comment.";;
  hf6 ← has_hardfork HARDFORK_0_6;
  mwhen hf6 (fc_assert (negb (cvo_vote_percent cv =? vote_weight o)) "You have already voted in a similar way.");;
  let SCOREreward := if vote_weight o <? 0 then - abs_SCOREreward else abs_SCOREreward in
  mwhen (cvo_SCOREreward cv <? SCOREreward) (lockout_guard comment);;
  spend_power (vote_voter o) current_power used_power;;
  let old_SCOREreward := u128 (Z.max (cmt_net_SCOREreward comment) 0) in
  root_key ← get_comment_key (cmt_root_comment comment);
  root ← get comments root_key;
  avg ← average_cashout comment (cmt_children_abs_SCOREreward root) abs_SCOREreward true;
  modify comments k (λ c,
    net ← safe_sub (cmt_net_SCOREreward c) (cvo_SCOREreward cv);
    net ← safe_add net SCOREreward;
    abs ← safe_add (cmt_abs_SCOREreward c) abs_SCOREreward;
    Ok (c <| cmt_net_SCOREreward := net |> <| cmt_abs_SCOREreward := abs |>
          <| cmt_net_votes ::= λ n, wrap_i32 (n + net_votes_change (cvo_SCOREreward cv) SCOREreward) |>));;
  count_in_root root_key abs_SCOREreward avg;;
  after ← get comments k;
  let new_SCOREreward := u128 (Z.max (cmt_net_SCOREreward after) 0) in
  now ← head_block_time;
  modify comments k (λ c, Ok (c <| cmt_total_vote_weight ::= λ t, wrap_u64 (t - cvo_weight cv) |>));;
  modify comment_votes (cmt_id comment, acc_id voter) (λ cv,
    Ok (cv <| cvo_SCOREreward := SCOREreward |> <| cvo_vote_percent := vote_weight o |> <| cvo_last_update := now |>
          <| cvo_weight := 0 |> <| cvo_num_changes ::= λ n, n + 1 |>));;
  hf17 ← has_hardfork HARDFORK_0_17;
  mwhen (negb hf17) (adjust_SCOREreward2 (evaluate_default old_SCOREreward) (evaluate_default new_SCOREreward)).

(** The vote on record, after a vote that was paid out is dropped. *)
Definition current_vote (key : Z * Z) : DB (option comment_vote_object) :=
  itr ← find comment_votes key;
  match itr with
  | Some cv =>
      if cvo_num_changes cv =? -1 then
        hf12 ← has_hardfork HARDFORK_0_12;
        mwhen hf12 (fc_assert false "Cannot vote again on a comment after payout.");;
        remove comment_votes key;; mret None
      else mret (Some cv)
  | None => mret None
  end.

(** [vote_evaluator::do_apply], libraries/chain/node_evaluator.cpp:1138-1521 *)
Definition vote_apply (o : vote_operation) : DB unit :=
  comment ← get_comment (vote_author o) (vote_permlink o);
  voter ← get_account (vote_voter o);
  not_challenged voter;;
  fc_assert (acc_can_vote voter) "Voter has declined their voting rights.";;
  mwhen (0 <? vote_weight o) (fc_assert (cmt_allow_votes comment) "Votes are not allowed on the comment.");;
  hf11 ← has_hardfork HARDFORK_0_11;
  hf12 ← has_hardfork HARDFORK_0_12;
  hf13 ← has_hardfork HARDFORK_0_13;
  hf14 ← has_hardfork HARDFORK_0_14;
  archived ← (if hf12 : bool then t ← calculate_discussion_payout_time comment; mret (t =? tps_max) else mret false);
  if archived : bool then mret tt
  else
    now ← head_block_time;
    let elapsed_seconds := tps_diff now (acc_last_vote_time voter) in
    mwhen hf11 (fc_assert (MIN_VOTE_INTERVAL_SEC <=? elapsed_seconds) "Can only vote once every few seconds.");;
    dgpo ← get_dynamic_global_properties;
    power ← lift (vote_power voter elapsed_seconds (vote_weight o) (gpo_vote_power_reserve_rate dgpo) hf14);
    abs_SCOREreward ← lift (vote_SCORE voter power.2 (vote_weight o) hf13 hf14);
    itr ← current_vote (cmt_id comment, acc_id voter);
    match itr with
    | None => vote_new o voter power.1 power.2 abs_SCOREreward
    | Some cv => vote_change o voter cv power.1 power.2 abs_SCOREreward
    end.
End comments_model.

(** * Quiet operations *)

Section quiet_comments.
Context {F : Fc} {TP : TextPatch}.

Lemma climb_quiet fuel f k : preserves quiet (climb fuel f k).
Proof. revert k. induction fuel as [|fuel IH]; intros k; cbn [climb]; quieted. Qed.
Lemma touch_from_quiet count k : preserves quiet (touch_from count k).
Proof. unfold touch_from. quieted. apply climb_quiet. Qed.
Hint Resolve touch_from_quiet : quiet.

Lemma comment_quiet o : preserves quiet (comment_apply o).
Proof.
  unfold comment_apply, comment_new, comment_edit, find_parent, not_challenged, post_interval_guard,
    calculate_discussion_payout_time, get_comment_key, get_comment. quieted.
Qed.
Lemma deleteComment_quiet o : preserves quiet (deleteComment_apply o).
Proof. unfold deleteComment_apply, not_challenged, get_comment. quieted. Qed.
Lemma comment_options_quiet o : preserves quiet (comment_options_apply o).
Proof. unfold comment_options_apply, not_challenged, get_comment, visit_extension. quieted. Qed.

Lemma vote_quiet o : preserves quiet (vote_apply o).
Proof.
  unfold vote_apply, vote_new, vote_change, current_vote, curator_weight, count_in_root, average_cashout,
    lockout_guard, spend_power, not_challenged, calculate_discussion_payout_time, get_comment_key, get_comment,
    get_curationRewards_percent, get_reward_fund, adjust_SCOREreward2. quieted.
Qed.
End quiet_comments.
