(* ===== verification/Discussions.v ===== *)
(** Discussions: the tree of comments.

    A comment names its parent; its depth, its root and the count of the comments
    below it are kept beside it.  [tree_ok] says that these caches are what the
    links between the comments say, and every evaluator keeps it. *)

From S2P Require Import Prelude Fc Config Asset Flat Authority Operations Objects Database Samples Ledger Frame Supply Rewards Quiet Same Comments.

(** * Trees of links *)

(** The parent's key and the depth of each comment. *)
Abbreviation ckey := (prod string string).
Definition link_of (c : comment_object) : ckey * Z := ((cmt_parent_author c, cmt_parent_permlink c), cmt_depth c).

Fixpoint ancestors (n : nat) (L : gmap ckey (ckey * Z)) (x : ckey * Z) : list ckey :=
  match n with
  | O => []
  | S n => if nonempty x.1.1 then x.1 :: match L !! x.1 with Some y => ancestors n L y | None => [] end else []
  end.
(** All comments above one, up to its root. *)
Definition above (L : gmap ckey (ckey * Z)) (x : ckey * Z) : list ckey := ancestors (Z.to_nat x.2) L x.
(** How many comments are below [k]. *)
Definition replies (L : gmap ckey (ckey * Z)) (k : ckey) : Z :=
  map_sum (λ x, if bool_decide (k ∈ above L x) then 1 else 0) L.

Definition well_linked (L : gmap ckey (ckey * Z)) : Prop :=
  ∀ k x, L !! k = Some x → 0 ≤ x.2 ≤ MAX_COMMENT_DEPTH ∧
    (if nonempty x.1.1 then ∃ y, L !! x.1 = Some y ∧ x.2 = y.2 + 1 else x.2 = 0).

Lemma ancestors_S n L x :
  ancestors (S n) L x = if nonempty x.1.1 then x.1 :: match L !! x.1 with Some y => ancestors n L y | None => [] end else [].
Proof. done. Qed.

Lemma map_sum_size `{Countable K} {V} (f : V → Z) (m : gmap K V) :
  (∀ v, f v ≤ 1) → map_sum f m ≤ Z.of_nat (base.size m).
Proof.
  intros Hf. induction m as [|q y m Hq IH] using map_ind; [by rewrite map_sum_empty|].
  rewrite map_sum_insert_new, map_size_insert_None by done. specialize (Hf y). lia.
Qed.

Section links.
Context (L : gmap ckey (ckey * Z)) (HL : well_linked L).

Lemma above_root x : nonempty x.1.1 = false → above L x = [].
Proof. unfold above. intros E. destruct (Z.to_nat x.2); [done|]. by rewrite ancestors_S, E. Qed.

Lemma above_reply x y :
  nonempty x.1.1 = true → L !! x.1 = Some y → x.2 = y.2 + 1 → above L x = x.1 :: above L y.
Proof.
  intros E Hy Hd. destruct (HL _ _ Hy) as [? _]. unfold above.
  replace (Z.to_nat x.2) with (S (Z.to_nat y.2)) by lia. by rewrite ancestors_S, E, Hy.
Qed.

(** What is above a comment exists and is less deep. *)
Lemma above_in n : ∀ x, x.2 = Z.of_nat n →
  (if nonempty x.1.1 then ∃ y, L !! x.1 = Some y ∧ x.2 = y.2 + 1 else x.2 = 0) →
  ∀ q, q ∈ above L x → ∃ z, L !! q = Some z ∧ z.2 < x.2.
Proof.
  induction n as [|n IH]; intros x Hn Hx q Hq.
  - unfold above in Hq. rewrite Hn in Hq. cbn in Hq. by apply not_elem_of_nil in Hq.
  - destruct (nonempty x.1.1) eqn:E; [|lia]. destruct Hx as (y & Hy & Hd).
    rewrite (above_reply x y) in Hq by done. apply elem_of_cons in Hq as [->|Hq]; [exists y; split; [done|lia]|].
    destruct (HL _ _ Hy) as [? Hpy]. destruct (IH y ltac:(lia) Hpy q Hq) as (z & ? & ?). exists z. split; [done|lia].
Qed.

Lemma above_known k x q : L !! k = Some x → q ∈ above L x → ∃ z, L !! q = Some z ∧ z.2 < x.2.
Proof. intros Hk. destruct (HL _ _ Hk) as [? ?]. eapply (above_in (Z.to_nat x.2)); [lia|done]. Qed.

Lemma above_not_self k x : L !! k = Some x → k ∉ above L x.
Proof. intros Hk Hin. destruct (above_known _ _ _ Hk Hin) as (z & Hz & ?). simplify_eq. lia. Qed.

(** Links outside a comment's ancestors do not matter. *)
Lemma above_agree L' n : ∀ x, x.2 = Z.of_nat n →
  (if nonempty x.1.1 then ∃ y, L !! x.1 = Some y ∧ x.2 = y.2 + 1 else x.2 = 0) →
  (∀ q, q ∈ above L x → L' !! q = L !! q) → above L' x = above L x.
Proof.
  induction n as [|n IH]; intros x Hn Hx Hag.
  - unfold above. by rewrite Hn.
  - destruct (nonempty x.1.1) eqn:E; [|lia]. destruct Hx as (y & Hy & Hd).
    rewrite (above_reply x y) in Hag |- * by done. destruct (HL _ _ Hy) as [? Hpy].
    rewrite <- (IH y ltac:(lia) Hpy) by (intros q ?; apply Hag; by right).
    unfold above. replace (Z.to_nat x.2) with (S (Z.to_nat y.2)) by lia.
    by rewrite ancestors_S, E, (Hag x.1) by left; rewrite Hy.
Qed.

Lemma above_insert k x n z : L !! n = None → L !! k = Some x → above (<[n := z]> L) x = above L x.
Proof.
  intros Hn Hk. destruct (HL _ _ Hk) as [? ?]. apply (above_agree _ (Z.to_nat x.2)); [lia|done|].
  intros q Hq. destruct (above_known _ _ _ Hk Hq) as (w & Hw & _). apply lookup_insert_ne. by intros ->; simplify_eq.
Qed.
Lemma above_delete k x n : (∀ k x, L !! k = Some x → n ∉ above L x) → L !! k = Some x → above (delete n L) x = above L x.
Proof.
  intros Hn Hk. destruct (HL _ _ Hk) as [? ?]. apply (above_agree _ (Z.to_nat x.2)); [lia|done|].
  intros q Hq. apply lookup_delete_ne. intros ->. by eapply Hn.
Qed.

Lemma replies_unknown n : L !! n = None → replies L n = 0.
Proof.
  intros Hn. apply map_sum_zero. intros k x Hk. case_bool_decide as Hin; [|done].
  destruct (above_known _ _ _ Hk Hin) as (w & ? & _). simplify_eq.
Qed.

Lemma replies_insert n x k :
  L !! n = None → replies (<[n := x]> L) k = replies L k + if bool_decide (k ∈ above (<[n := x]> L) x) then 1 else 0.
Proof.
  intros Hn. unfold replies. rewrite map_sum_insert_new by done. rewrite Z.add_comm. f_equal.
  apply map_sum_ext. intros q y Hq. by rewrite (above_insert q y).
Qed.

Lemma replies_zero n : Z.of_nat (base.size L) < 2 ^ 32 → wrap_u32 (replies L n) = 0 → ∀ k x, L !! k = Some x → n ∉ above L x.
Proof.
  intros Hsize Hw k x Hk Hin. set (f := λ x, if bool_decide (n ∈ above L x) then 1 else 0) in *.
  assert (∀ k v, L !! k = Some v → 0 ≤ f v) as Hnn by (intros; unfold f; case_bool_decide; lia).
  pose proof (map_sum_lookup_le f L k x Hnn Hk) as Hle. replace (f x) with 1 in Hle by (unfold f; by rewrite bool_decide_true).
  assert (map_sum f L ≤ Z.of_nat (base.size L)) as Hub.
  { apply map_sum_size. intros y. unfold f. case_bool_decide; lia. }
  unfold replies, wrap_u32 in Hw. fold f in Hw. rewrite Z.mod_small in Hw; lia.
Qed.

Lemma replies_delete n x k :
  L !! n = Some x → (∀ k x, L !! k = Some x → n ∉ above L x) →
  replies (delete n L) k = replies L k - if bool_decide (k ∈ above L x) then 1 else 0.
Proof.
  intros Hn Hno. unfold replies. rewrite <- (map_sum_delete (λ x, if bool_decide (k ∈ above L x) then 1 else 0) L n x) by done.
  apply map_sum_ext. intros q y [_ Hq]%lookup_delete_Some. by rewrite (above_delete q y).
Qed.

Lemma well_linked_delete n :
  (∀ k x, L !! k = Some x → n ∉ above L x) → well_linked (delete n L).
Proof.
  intros Hno k x [Hne Hk]%lookup_delete_Some. destruct (HL _ _ Hk) as [? Hx]. split; [done|].
  destruct (nonempty x.1.1) eqn:E; [|done]. destruct Hx as (y & Hy & Hd). exists y. split; [|done].
  apply lookup_delete_Some. split; [|done]. intros ->. apply (Hno k x Hk). rewrite (above_reply x y) by done. by left.
Qed.
Lemma well_linked_insert n x :
  L !! n = None → 0 ≤ x.2 ≤ MAX_COMMENT_DEPTH →
  (if nonempty x.1.1 then ∃ y, L !! x.1 = Some y ∧ x.2 = y.2 + 1 else x.2 = 0) → well_linked (<[n := x]> L).
Proof.
  intros Hn Hd Hx k y Hk. assert (∀ q z, L !! q = Some z → <[n := x]> L !! q = Some z) as Hold.
  { intros q z Hq. rewrite lookup_insert_ne; [done|]. by intros ->; simplify_eq. }
  apply lookup_insert_Some in Hk as [[-> ->]|[_ Hk]].
  - split; [done|]. destruct (nonempty y.1.1); [|done]. destruct Hx as (z & ? & ?). eauto.
  - destruct (HL _ _ Hk) as [? Hy]. split; [done|]. destruct (nonempty y.1.1); [|done]. destruct Hy as (z & ? & ?). eauto.
Qed.
End links.

(** * The caches *)

Definition links (s : database) : gmap ckey (ckey * Z) := link_of <$> rows (comments s).

(** Every comment is stored under its key, has an id of its own and the root of
    its parent. *)
Definition node_view (c : comment_object) := (cmt_id c, cmt_author c, cmt_permlink c, link_of c, cmt_root_comment c).
Record node_ok (m : gmap ckey comment_object) (next : Z) (k : ckey) (c : comment_object) : Prop := NodeOk {
  nd_key : (cmt_author c, cmt_permlink c) = k;
  nd_id : 0 ≤ cmt_id c < next;
  nd_root : if nonempty (cmt_parent_author c)
            then ∃ p, m !! (cmt_parent_author c, cmt_parent_permlink c) = Some p ∧ cmt_root_comment c = cmt_root_comment p
            else cmt_root_comment c = cmt_id c;
}.
Record forest (m : gmap ckey comment_object) (next : Z) : Prop := Forest {
  fo_links : well_linked (link_of <$> m);
  fo_nodes k c : m !! k = Some c → node_ok m next k c;
  fo_ids k c k' c' : m !! k = Some c → m !! k' = Some c' → cmt_id c = cmt_id c' → k = k';
}.
(** The count of children is the number of comments below, modulo [2 ^ 32]. *)
Definition counts (m : gmap ckey comment_object) : Prop :=
  ∀ k c, m !! k = Some c → cmt_children c = wrap_u32 (replies (link_of <$> m) k).
Definition tree_ok (s : database) : Prop :=
  forest (rows (comments s)) (next_id (comments s)) ∧ counts (rows (comments s)).

Lemma links_lookup s k : links s !! k = link_of <$> rows (comments s) !! k.
Proof. apply lookup_fmap. Qed.
Lemma links_some s k c : rows (comments s) !! k = Some c → links s !! k = Some (link_of c).
Proof. intros Hk. by rewrite links_lookup, Hk. Qed.

Section forest.
Context (m : gmap ckey comment_object) (next : Z) (Hm : forest m next).

Lemma links_view (m' : gmap ckey comment_object) : (∀ k, node_view <$> (m' !! k) = node_view <$> (m !! k)) → link_of <$> m' = link_of <$> m.
Proof.
  intros Hv. apply map_eq. intros k. rewrite !lookup_fmap. specialize (Hv k).
  destruct (m' !! k), (m !! k); cbn in *; try done. unfold node_view, link_of in *. congruence.
Qed.
Lemma view_lookup (m' : gmap ckey comment_object) k c' :
  (∀ k, node_view <$> (m' !! k) = node_view <$> (m !! k)) → m' !! k = Some c' →
  ∃ c, m !! k = Some c ∧ node_view c' = node_view c.
Proof.
  intros Hv Hc. specialize (Hv k). rewrite Hc in Hv. cbn in Hv. symmetry in Hv. apply fmap_Some in Hv as (c & ? & ?). eauto.
Qed.
Lemma forest_view (m' : gmap ckey comment_object) : (∀ k, node_view <$> (m' !! k) = node_view <$> (m !! k)) → forest m' next.
Proof.
  intros Hv. pose proof (links_view _ Hv) as El. destruct Hm as [Hl Hn Hi]. split; [by rewrite El|..].
  - intros k c Hk. destruct (view_lookup _ _ _ Hv Hk) as (c0 & Hk0 & E). injection E as E1 E2 E3 E4 E5 E6 E7.
    destruct (Hn _ _ Hk0) as [H1 H2 H3]. split; [congruence|by rewrite E1|]. rewrite E4.
    destruct (nonempty _); [|congruence]. destruct H3 as (p & Hp & Er). specialize (Hv (cmt_parent_author c0, cmt_parent_permlink c0)).
    rewrite Hp in Hv. apply fmap_Some in Hv as (p' & Hp' & Ep). injection Ep as _ _ _ _ _ _ Ep.
    exists p'. rewrite E5. split; [done|congruence].
  - intros k c k' c' Hk Hk' E. destruct (view_lookup _ _ _ Hv Hk) as (c0 & Hk0 & E0). injection E0 as E0 _ _ _ _ _ _.
    destruct (view_lookup _ _ _ Hv Hk') as (c1 & Hk1 & E1). injection E1 as E1 _ _ _ _ _ _. eapply Hi; eauto; congruence.
Qed.

(** A new root or reply. *)
Lemma forest_insert k c :
  m !! k = None → (cmt_author c, cmt_permlink c) = k → cmt_id c = next → 0 ≤ next →
  (if nonempty (cmt_parent_author c)
   then ∃ p, m !! (cmt_parent_author c, cmt_parent_permlink c) = Some p ∧ cmt_root_comment c = cmt_root_comment p ∧
             cmt_depth c = cmt_depth p + 1 ∧ cmt_depth p < MAX_COMMENT_DEPTH
   else cmt_root_comment c = cmt_id c ∧ cmt_depth c = 0) →
  forest (<[k := c]> m) (next + 1).
Proof.
  intros Hk Hkey Hid Hnext Hp. destruct Hm as [Hl Hn Hi].
  assert (∀ q d, m !! q = Some d → <[k := c]> m !! q = Some d) as Hold.
  { intros q d Hq. rewrite lookup_insert_ne; [done|]. by intros ->; simplify_eq. }
  split.
  - rewrite fmap_insert. apply well_linked_insert; [done|by rewrite lookup_fmap, Hk|..]; cbn [link_of fst snd];
      destruct (nonempty _); [|unfold MAX_COMMENT_DEPTH; lia| |lia].
    + destruct Hp as (p & Hp & _ & Hd & ?). destruct (Hl (cmt_parent_author c, cmt_parent_permlink c) (link_of p)) as [Hdp _]; [by rewrite lookup_fmap, Hp|].
      cbn [link_of snd] in Hdp. lia.
    + destruct Hp as (p & Hp & _ & Hd & ?). exists (link_of p). by rewrite lookup_fmap, Hp.
  - intros q d [[<- <-]|[_ Hq]]%lookup_insert_Some.
    + split; [done|lia|]. destruct (nonempty _); [|by destruct Hp]. destruct Hp as (p & Hp & ? & _). eauto.
    + destruct (Hn _ _ Hq) as [H1 H2 H3]. split; [done|lia|]. destruct (nonempty (cmt_parent_author d)); [|done]. destruct H3 as (p & ? & ?). eauto.
  - intros q d q' d' [[<- <-]|[_ Hq]]%lookup_insert_Some [[<- <-]|[_ Hq']]%lookup_insert_Some E; [done|..|by eapply Hi].
    + destruct (Hn _ _ Hq') as [_ ? _]. lia.
    + destruct (Hn _ _ Hq) as [_ ? _]. lia.
Qed.

(** A comment with nothing below it goes. *)
Lemma forest_delete k :
  (∀ q x, (link_of <$> m) !! q = Some x → k ∉ above (link_of <$> m) x) → forest (delete k m) next.
Proof.
  intros Hno. destruct Hm as [Hl Hn Hi]. split.
  - rewrite fmap_delete. by apply well_linked_delete.
  - intros q d [Hne Hq]%lookup_delete_Some. destruct (Hn _ _ Hq) as [H1 H2 H3]. split; [done|done|].
    destruct (nonempty _) eqn:E; [|done]. destruct H3 as (p & Hp & ?). exists p. split; [|done].
    apply lookup_delete_Some. split; [|done]. intros ->. assert ((link_of <$> m) !! q = Some (link_of d)) as Hlq by by rewrite lookup_fmap, Hq.
    apply (Hno q _ Hlq). destruct (Hl _ _ Hlq) as [_ Hpar]. cbn [link_of fst] in Hpar. rewrite E in Hpar. destruct Hpar as (y & Hy & Hd).
    rewrite (above_reply _ Hl _ y) by done. by left.
  - intros q d q' d' [_ Hq]%lookup_delete_Some [_ Hq']%lookup_delete_Some. by apply Hi.
Qed.
End forest.

(** ** Steps that leave the tree alone *)

Definition shape_view (c : comment_object) := (node_view c, cmt_children c).
Definition shape_of (s : database) : gmap ckey _ * Z := (shape_view <$> rows (comments s), next_id (comments s)).
Abbreviation shape := (same shape_of).

Lemma sh_comments s s' k : shape s s' → shape_view <$> (rows (comments s') !! k) = shape_view <$> (rows (comments s) !! k).
Proof. intros [= Hv _]. by rewrite <- !lookup_fmap, Hv. Qed.
Lemma sh_next s s' : shape s s' → next_id (comments s') = next_id (comments s).
Proof. by intros [= _ Hn]. Qed.
Lemma shape_nodes s s' k : shape s s' → node_view <$> (rows (comments s') !! k) = node_view <$> (rows (comments s) !! k).
Proof.
  intros Hv%(sh_comments _ _ k). destruct (rows (comments s') !! k), (rows (comments s) !! k); cbn in *; try done.
  unfold shape_view in *. congruence.
Qed.
Lemma shape_tree s s' : shape s s' → tree_ok s → tree_ok s'.
Proof.
  intros Hs [Hf Hc]. split.
  - rewrite (sh_next _ _ Hs). eapply forest_view; [done|]. intros k. by apply shape_nodes.
  - intros k c Hk. rewrite (links_view (rows (comments s))) by (intros q; by apply shape_nodes).
    pose proof (sh_comments _ _ k Hs) as Hv. rewrite Hk in Hv. cbn in Hv. symmetry in Hv.
    apply fmap_Some in Hv as (c0 & Hc0 & E). unfold shape_view in E. injection E as _ _ _ _ _ _ _ E. rewrite E. by apply Hc.
Qed.

Section samed.
Context {F : Fc} {TP : TextPatch}.

Lemma comment_options_shape o : preserves shape (comment_options_apply o).
Proof. unfold comment_options_apply, not_challenged, get_comment, visit_extension. samed. Qed.
Lemma vote_shape o : preserves shape (vote_apply o).
Proof.
  unfold vote_apply, vote_new, vote_change, current_vote, curator_weight, count_in_root, average_cashout,
    lockout_guard, spend_power, not_challenged, calculate_discussion_payout_time, get_comment_key, get_comment,
    get_curationRewards_percent, get_reward_fund, adjust_SCOREreward2. samed.
Qed.
Lemma comment_edit_shape o c p : preserves shape (comment_edit o c p).
Proof. unfold comment_edit, calculate_discussion_payout_time, get_comment_key, get_comment. samed. Qed.
End samed.

(** * Counting *)

(** The comments [l] of a table, changed by [f]. *)
Definition touched (l : list ckey) (f : comment_object → comment_object) (m : gmap ckey comment_object) : gmap ckey comment_object :=
  map_imap (λ k c, Some (if bool_decide (k ∈ l) then f c else c)) m.
Definition with_comments (m : gmap ckey comment_object) (s : database) : database :=
  s <| comments ::= λ t, Table m (next_id t) |>.

Lemma touched_lookup l f m k :
  touched l f m !! k = (λ c, if bool_decide (k ∈ l) then f c else c) <$> m !! k.
Proof. unfold touched. rewrite map_lookup_imap. by destruct (m !! k). Qed.

Lemma touched_cons k l f m c :
  m !! k = Some c → k ∉ l → touched l f (<[k := f c]> m) = touched (k :: l) f m.
Proof.
  intros Hk Hl. apply map_eq. intros q. rewrite !touched_lookup. destruct (decide (q = k)) as [->|Hne].
  - rewrite lookup_insert_eq, Hk. cbn. rewrite bool_decide_false, bool_decide_true by (done || by left). done.
  - rewrite lookup_insert_ne by done. destruct (m !! q); [|done]. cbn. f_equal.
    destruct (decide (q ∈ l)); [rewrite !bool_decide_true by (done || by right); done|].
    rewrite !bool_decide_false; [done| |done]. by intros [->|]%elem_of_cons.
Qed.

Lemma links_touched l f m :
  (∀ c, link_of (f c) = link_of c) → link_of <$> touched l f m = link_of <$> m.
Proof.
  intros Hf. apply map_eq. intros k. rewrite !lookup_fmap, touched_lookup. destruct (m !! k); [|done]. cbn. f_equal.
  by case_bool_decide.
Qed.

Section touch.
Context {F : Fc}.

Lemma set_row_comments k c s : set_row comments k c s = with_comments (<[k := c]> (rows (comments s))) s.
Proof. done. Qed.
Lemma with_comments_twice m m' s : with_comments m (with_comments m' s) = with_comments m s.
Proof. by destruct s. Qed.
Lemma with_comments_rows m s : rows (comments (with_comments m s)) = m.
Proof. by destruct s. Qed.

Lemma with_comments_next m s : next_id (comments (with_comments m s)) = next_id (comments s).
Proof. by destruct s. Qed.

(** The walk ends at the root: the depth is fuel enough. *)
Lemma climb_runs f fuel : (∀ c, link_of (f c) = link_of c) → ∀ s k c,
  well_linked (links s) → rows (comments s) !! k = Some c → cmt_depth c < Z.of_nat fuel →
  ⟨ climb fuel f k, s ⟩ ⇓
  ⟨ tt, with_comments (touched (k :: above (links s) (link_of c)) f (rows (comments s))) s ⟩.
Proof.
  intros Hlink. induction fuel as [|fuel IH]; intros s k c HL Hk Hf; pose proof (links_some _ _ _ Hk) as Hlk; destruct (HL _ _ Hlk) as [Hd Hp];
    cbn [link_of fst snd] in Hd, Hp; [lia|]. cbn [climb].
  set (c' := f c). set (m1 := <[k := c']> (rows (comments s))).
  assert (link_of <$> m1 = links s) as El.
  { unfold m1, links. rewrite fmap_insert. apply insert_id. unfold c'. by rewrite lookup_fmap, Hk, Hlink. }
  eapply (runs_bind_intro _ _ _ tt); [apply runs_modify; exists c, c'; split_and!; [done|done|reflexivity]|].
  rewrite set_row_comments. fold m1.
  eapply runs_bind_intro; [apply runs_getr; rewrite with_comments_rows; split; [apply lookup_insert_eq|done]|].
  assert (cmt_parent_author c' = cmt_parent_author c ∧ cmt_parent_permlink c' = cmt_parent_permlink c) as [-> ->]
    by (unfold c'; specialize (Hlink c); injection Hlink as ???; done).
  pose proof (above_not_self _ HL _ _ Hlk) as Hself.
  rewrite <- (touched_cons k _ _ _ c) by done. fold c' m1. destruct (nonempty (cmt_parent_author c)) eqn:Ep.
  - destruct Hp as (y & Hy & Hdy). rewrite links_lookup in Hy. apply fmap_Some in Hy as (p & Hpp & ->). cbn [link_of snd] in Hdy.
    assert (rows (comments s) !! (cmt_parent_author c, cmt_parent_permlink c) = Some p) as Hpp' by done.
    rewrite (above_reply _ HL (link_of c) (link_of p)) in Hself |- * by (done || by apply links_some).
    assert (m1 !! (cmt_parent_author c, cmt_parent_permlink c) = Some p) as Hp1.
    { unfold m1. rewrite lookup_insert_ne; [done|]. intros ->. apply Hself. by left. }
    pose proof (IH (with_comments m1 s) (cmt_parent_author c, cmt_parent_permlink c) p) as Hr.
    unfold links in Hr. rewrite !with_comments_rows, with_comments_twice, El in Hr. apply Hr; [done|done|lia].
  - rewrite above_root by done. apply runs_ret. split; [done|].
    f_equal. unfold touched. apply map_eq. intros q. rewrite map_lookup_imap. by destruct (m1 !! q).
Qed.

Lemma touch_from_runs count s k c :
  well_linked (links s) → rows (comments s) !! k = Some c →
  ⟨ touch_from count k, s ⟩ ⇓
  ⟨ tt, with_comments (touched (k :: above (links s) (link_of c)) (counted count (gpo_time (gpo s))) (rows (comments s))) s ⟩.
Proof.
  intros HL Hk. destruct (HL _ _ (links_some _ _ _ Hk)) as [Hd _]. cbn [link_of snd] in Hd. unfold touch_from, head_block_time.
  eapply runs_bind_intro; [by apply runs_getr|]. eapply runs_bind_intro; [by apply runs_asks|].
  apply climb_runs; [done|done|done|lia].
Qed.
End touch.

(** * The tree is kept *)

(** Counting by [d] the comments [l] of a table whose counts are off by that. *)
Lemma touched_tree m next l d now :
  forest m next →
  (∀ k c, m !! k = Some c →
     (if bool_decide (k ∈ l) then wrap_u32 (cmt_children c + d) else cmt_children c) = wrap_u32 (replies (link_of <$> m) k)) →
  let m' := touched l (counted (λ n, wrap_u32 (n + d)) now) m in forest m' next ∧ counts m'.
Proof.
  intros Hf Hc. cbv zeta. split.
  - apply (forest_view m); [done|]. intros k. rewrite touched_lookup. destruct (m !! k); [|done]. cbn. f_equal. by case_bool_decide.
  - intros k c. rewrite touched_lookup, links_touched by done. intros (c0 & Hk & ->)%fmap_Some. rewrite <- (Hc _ _ Hk). by case_bool_decide.
Qed.

Lemma wrap_u32_add x y : wrap_u32 (wrap_u32 x + y) = wrap_u32 (x + y).
Proof. unfold wrap_u32. apply Zplus_mod_idemp_l. Qed.

Section insert.
Context (m : gmap ckey comment_object) (next : Z) (k : ckey) (c : comment_object).
Context (Hf : forest m next) (Hc : counts m) (Hk : m !! k = None) (Hch : cmt_children c = 0).

Lemma insert_counts l now :
  forest (<[k := c]> m) (next + 1) → l = above (link_of <$> <[k := c]> m) (link_of c) →
  let m' := touched l (counted (λ n, wrap_u32 (n + 1)) now) (<[k := c]> m) in forest m' (next + 1) ∧ counts m'.
Proof.
  intros Hf' ->. apply touched_tree; [done|]. intros q e Hq. pose proof (fo_links _ _ Hf) as HL.
  assert ((link_of <$> m) !! k = None) as Hlk by by rewrite lookup_fmap, Hk.
  rewrite fmap_insert. rewrite (replies_insert _ HL) by done.
  pose proof (above_not_self _ (fo_links _ _ Hf') k (link_of c)) as Hself. rewrite fmap_insert, lookup_insert_eq in Hself.
  apply lookup_insert_Some in Hq as [[<- <-]|[_ Hq]].
  - rewrite bool_decide_false, Hch, (replies_unknown _ HL) by (done || by apply Hself). done.
  - rewrite (Hc _ _ Hq). case_bool_decide; [by rewrite wrap_u32_add|]. by rewrite Z.add_0_r.
Qed.
End insert.

Section delete.
Context (m : gmap ckey comment_object) (next : Z) (k : ckey) (c : comment_object).
Context (Hf : forest m next) (Hc : counts m) (Hk : m !! k = Some c) (Hch : cmt_children c = 0).
Context (Hsize : Z.of_nat (base.size m) < 2 ^ 32).

Lemma childless q x : (link_of <$> m) !! q = Some x → k ∉ above (link_of <$> m) x.
Proof.
  apply replies_zero; [by rewrite map_size_fmap|]. by rewrite <- (Hc _ _ Hk), Hch.
Qed.

Lemma delete_counts l now :
  l = above (link_of <$> m) (link_of c) →
  let m' := delete k (touched l (counted (λ n, wrap_u32 (n + -1)) now) m) in forest m' next ∧ counts m'.
Proof.
  intros ->. pose proof (fo_links _ _ Hf) as HL. set (l := above _ _). cbv zeta.
  assert (link_of <$> touched l (counted (λ n, wrap_u32 (n + -1)) now) m = link_of <$> m) as El by by apply links_touched.
  assert ((link_of <$> m) !! k = Some (link_of c)) as Hlk by by rewrite lookup_fmap, Hk. split.
  - apply forest_delete; [|rewrite El; apply childless]. apply (forest_view m); [done|].
    intros q. rewrite touched_lookup. destruct (m !! q); [|done]. cbn. f_equal. by case_bool_decide.
  - intros q e [_ Hq]%lookup_delete_Some. rewrite fmap_delete, El.
    rewrite (replies_delete _ HL k (link_of c)) by (done || apply childless). rewrite touched_lookup in Hq.
    apply fmap_Some in Hq as (e0 & Hq & ->). fold l. case_bool_decide; cbn.
    + change (wrap_u32 (cmt_children e0 + -1) = wrap_u32 (replies (link_of <$> m) q - 1)). by rewrite (Hc _ _ Hq), wrap_u32_add.
    + by rewrite (Hc _ _ Hq), Z.sub_0_r.
Qed.
End delete.

Section tree.
Context {F : Fc} {TP : TextPatch}.

Lemma runs_det {S A} (m : M S A) s a b s1 s2 : ⟨ m, s ⟩ ⇓ ⟨ a, s1 ⟩ → ⟨ m, s ⟩ ⇓ ⟨ b, s2 ⟩ → a = b ∧ s1 = s2.
Proof. unfold runs. intros H1 H2. rewrite H1 in H2. by injection H2. Qed.

(** The readers and guards of a new comment. *)
Lemma find_parent_spec o s p s' :
  ⟨ find_parent o, s ⟩ ⇓ ⟨ p, s' ⟩ → s' = s ∧
    match p with
    | Some p => nonempty (comment_parent_author o) = true ∧ cmt_depth p < MAX_COMMENT_DEPTH ∧
        rows (comments s) !! (comment_parent_author o, comment_parent_permlink o) = Some p
    | None => nonempty (comment_parent_author o) = false
    end.
Proof.
  unfold find_parent, get_comment, has_hardfork. destruct (nonempty _) eqn:E; intros Hr; db_inv; [|done].
  split_and!; try done. bool_hyps. unfold MAX_COMMENT_DEPTH, MAX_COMMENT_DEPTH_PRE_HF17 in *. destruct (hardfork_active _ _); lia.
Qed.

Lemma post_interval_guard_reads b a s u s' : ⟨ post_interval_guard b a, s ⟩ ⇓ ⟨ u, s' ⟩ → s' = s.
Proof.
  unfold post_interval_guard, head_block_time, has_hardfork. intros Hr. do 3 (runs_step; db_step).
  by destruct (hardfork_active s HARDFORK_0_12), (hardfork_active s HARDFORK_0_6), b; db_inv.
Qed.

Lemma make_comment_node o p w now hf12 hf17 id :
  let c := make_comment o p w now hf12 hf17 id in
  (cmt_author c, cmt_permlink c) = (comment_author o, comment_permlink o) ∧ cmt_id c = id ∧ cmt_children c = 0 ∧
  (cmt_parent_author c, cmt_parent_permlink c, cmt_depth c, cmt_root_comment c) =
    match p with
    | Some p => (cmt_author p, cmt_permlink p, wrap_u16 (cmt_depth p + 1), cmt_root_comment p)
    | None => (EmptyString, comment_parent_permlink o, 0, id)
    end.
Proof. cbv zeta. unfold make_comment. by destruct p, hf17, (_ <? _), (is_utf8 _). Qed.

Lemma get_comment_key_reads id s k s' : ⟨ get_comment_key id, s ⟩ ⇓ ⟨ k, s' ⟩ → s' = s ∧ comment_with_id id s = Some k.
Proof. unfold get_comment_key. intros Hr. db_inv. destruct (comment_with_id id s); by db_inv. Qed.
Lemma calculate_discussion_payout_time_reads c s t s' :
  ⟨ calculate_discussion_payout_time c, s ⟩ ⇓ ⟨ t, s' ⟩ → s' = s.
Proof.
  unfold calculate_discussion_payout_time, has_hardfork. intros (? & ? & [-> ->]%runs_asks & Hr)%runs_bind.
  destruct (_ || _); [by db_inv|]. by apply runs_bind in Hr as (k & ? & [-> _]%get_comment_key_reads & Hr); db_inv.
Qed.

(** What a new comment does to the tables, once its guards have passed. *)
Lemma comment_new_runs o auth parent s u s' :
  ⟨ comment_new o auth parent, s ⟩ ⇓ ⟨ u, s' ⟩ →
  let k := (comment_author o, comment_permlink o) in
  ∃ s1 w hf12 hf17, let now := gpo_time (gpo s) in
    comments s1 = comments s ∧ (comment_votes s1, reward_funds s1) = (comment_votes s, reward_funds s) ∧ rows (comments s) !! k = None ∧
    let s2 := add_row comments k (make_comment o parent w now hf12 hf17 (next_id (comments s))) s1 in
    match parent with
    | Some p => ⟨ touch_from (λ n, wrap_u32 (n + 1)) (cmt_author p, cmt_permlink p), s2 ⟩ ⇓ ⟨ u, s' ⟩
    | None => s' = s2
    end.
Proof.
  unfold comment_new, has_hardfork, head_block_time. intros Hr. cbv zeta.
  do 4 (apply runs_bind in Hr as (? & ? & [-> ->]%runs_asks & Hr)).
  apply runs_bind in Hr as ([] & s1 & Hr1 & Hr).
  assert (s1 = s) as ->.
  { clear Hr. destruct parent as [p|]; [|by db_inv].
    apply runs_bind in Hr1 as (? & ? & [-> _]%get_comment_key_reads & Hr1). do 2 (runs_step; db_step).
    apply runs_when in Hr1. destruct (_ && _); [|done].
    by apply runs_bind in Hr1 as (? & ? & ->%calculate_discussion_payout_time_reads & [_ ->]%runs_assert). }
  clear Hr1. apply runs_bind in Hr as ([] & s1 & ->%post_interval_guard_reads & Hr).
  apply runs_bind in Hr as ([] & s1 & (a & a' & _ & _ & ->)%runs_modify & Hr).
  set (sa := set_row accounts _ _ _) in *.
  apply runs_bind in Hr as ([] & s1 & Hr1 & Hr).
  assert (s1 = sa) as -> by
    (clear Hr; apply runs_when in Hr1; destruct (hardfork_active s HARDFORK_0_1); [|done];
     by apply runs_bind in Hr1 as (? & ? & [_ ->]%runs_lift & [_ ->]%runs_lift)).
  clear Hr1.
  apply runs_bind in Hr as ([] & s1 & [Hnew ->]%runs_create & Hr).
  destruct parent as [p|]; [|apply runs_ret in Hr as [_ <-]]; eexists sa, _, _, _;
    (cbv zeta; split; [done|]; split; [done|]; split; [done|]; first [exact Hr|reflexivity]).
Qed.

Lemma comment_new_tree o auth s parent u s' :
  tree_ok s → 0 ≤ next_id (comments s) →
  match parent with
  | Some p => nonempty (comment_parent_author o) = true ∧ cmt_depth p < MAX_COMMENT_DEPTH ∧
      rows (comments s) !! (comment_parent_author o, comment_parent_permlink o) = Some p
  | None => nonempty (comment_parent_author o) = false
  end →
  ⟨ comment_new o auth parent, s ⟩ ⇓ ⟨ u, s' ⟩ → tree_ok s'.
Proof.
  intros [Hf Hc] Hnext Hp (s1 & w & hf12 & hf17 & E1 & _ & Hnew & Hr)%comment_new_runs.
  set (k := (comment_author o, comment_permlink o)) in *. cbv zeta in Hr.
  destruct (make_comment_node o parent w (gpo_time (gpo s)) hf12 hf17 (next_id (comments s))) as (Hkey & Hid & Hch & Hpar).
  set (c := make_comment _ _ _ _ _ _ _) in *. set (m := rows (comments s)) in *. set (n := next_id (comments s)) in *.
  assert (comments (add_row comments k c s1) = Table (<[k := c]> m) (n + 1)) as E2 by (db_fields; by rewrite E1).
  destruct parent as [p|]; injection Hpar as Hpa Hpp Hd Hroot.
  - destruct Hp as (Hpne & Hmax & Hp). assert ((cmt_author p, cmt_permlink p) = (comment_parent_author o, comment_parent_permlink o)) as Ep
      by by destruct (fo_nodes _ _ Hf _ _ Hp).
    injection Ep as Epa Epp. assert (0 ≤ cmt_depth p) as Hdp.
    { destruct (fo_links _ _ Hf (comment_parent_author o, comment_parent_permlink o) (link_of p)) as [Hdp _]; [by rewrite lookup_fmap, Hp|].
      cbn [link_of snd] in Hdp. lia. }
    assert (cmt_depth c = cmt_depth p + 1) as Hd' by (rewrite Hd; unfold wrap_u16, MAX_COMMENT_DEPTH in *; apply Z.mod_small; lia).
    assert (forest (<[k := c]> m) (n + 1)) as Hf'.
    { apply forest_insert; try done. rewrite Hpa, Hpp, Epa, Epp, Hpne. by exists p. }
    assert (rows (comments (add_row comments k c s1)) !! (cmt_author p, cmt_permlink p) = Some p) as Hp2.
    { rewrite E2, Epa, Epp. cbn [rows]. rewrite lookup_insert_ne; [done|]. intros E. rewrite <- E in Hp. by rewrite Hp in Hnew. }
    assert (links (add_row comments k c s1) = link_of <$> <[k := c]> m) as El by (unfold links; by rewrite E2).
    destruct (runs_det _ _ _ _ _ _ Hr (touch_from_runs (λ n, wrap_u32 (n + 1)) _ _ _ ltac:(rewrite El; apply Hf') Hp2)) as [_ ->].
    unfold tree_ok. rewrite with_comments_rows, with_comments_next, El, E2. cbn [rows next_id].
    eapply insert_counts; try done. rewrite (above_reply _ (fo_links _ _ Hf') (link_of c) (link_of p)); cbn [link_of fst snd].
    + by rewrite Hpa, Hpp.
    + by rewrite Hpa, Epa.
    + rewrite lookup_fmap. rewrite E2 in Hp2. cbn [rows] in Hp2. by rewrite Hpa, Hpp, Hp2.
    + done.
  - subst s'. unfold tree_ok. rewrite E2. cbn [rows next_id]. split.
    + apply forest_insert; try done. rewrite Hpa. cbn. by rewrite Hroot, Hid.
    + destruct (insert_counts m n k c Hf Hc Hnew Hch [] 0) as [_ Hcounts].
      * apply forest_insert; try done. rewrite Hpa. cbn. by rewrite Hroot, Hid.
      * rewrite above_root; [done|]. cbn. by rewrite Hpa.
      * intros q e Hq. specialize (Hcounts q e). rewrite links_touched, touched_lookup, Hq in Hcounts by done. by apply Hcounts.
Qed.

Lemma with_comments_self s : with_comments (rows (comments s)) s = s.
Proof. destruct s; unfold with_comments; fields. by destruct comments. Qed.
Lemma touched_nil f m : touched [] f m = m.
Proof. apply map_eq. intros k. rewrite touched_lookup. by destruct (m !! k). Qed.

Lemma remove_votes_comments l s u s' : ⟨ mfor (remove comment_votes) l, s ⟩ ⇓ ⟨ u, s' ⟩ → comments s' = comments s.
Proof.
  revert s. induction l as [|k l IH]; intros s Hr; cbn [mfor] in Hr; [by db_inv|].
  apply runs_bind in Hr as (? & ? & ->%runs_remove & Hr). by rewrite (IH _ Hr).
Qed.

(** The branch that deletes: what is above the comment counts one less. *)
Lemma delete_branch_tree s k c u s' :
  tree_ok s → Z.of_nat (base.size (rows (comments s))) < 2 ^ 32 →
  rows (comments s) !! k = Some c → cmt_children c = 0 →
  ⟨ mwhen (nonempty (cmt_parent_author c))
      (touch_from (λ n, wrap_u32 (n - 1)) (cmt_parent_author c, cmt_parent_permlink c));; remove comments k, s ⟩ ⇓ ⟨ u, s' ⟩ →
  tree_ok s'.
Proof.
  intros [Hf Hc] Hsize Hk Hch Hr. pose proof (fo_links _ _ Hf : well_linked (links s)) as HL. pose proof (links_some _ _ _ Hk) as Hlk.
  set (l := above (links s) (link_of c)). apply runs_bind in Hr as ([] & s1 & Hr & ->%runs_remove).
  assert (∃ now, s1 = with_comments (touched l (counted (λ n, wrap_u32 (n + -1)) now) (rows (comments s))) s) as (now & ->).
  { apply runs_when in Hr. destruct (HL _ _ Hlk) as [_ Hp]. cbn [link_of fst] in Hp. destruct (nonempty _) eqn:E.
    - destruct Hp as (y & Hy & Hd). rewrite links_lookup in Hy. apply fmap_Some in Hy as (p & Hp & ->).
      destruct (runs_det _ _ _ _ _ _ Hr (touch_from_runs _ _ _ _ HL Hp)) as [_ ->]. exists (gpo_time (gpo s)).
      unfold l. rewrite (above_reply _ HL (link_of c) (link_of p)); [done|done|by apply links_some|done].
    - subst s1. exists 0. unfold l. rewrite above_root by done. by rewrite touched_nil, with_comments_self. }
  unfold tree_ok, del_row. rewrite <- (with_comments_next (touched l (counted (λ n, wrap_u32 (n + -1)) now) (rows (comments s)))).
  db_fields. rewrite with_comments_rows, with_comments_next. by apply (delete_counts _ _ k c).
Qed.

Lemma runs_when_assert {S} c d msg (s : S) u s' :
  ⟨ mwhen c (fc_assert d msg), s ⟩ ⇓ ⟨ u, s' ⟩ ↔ implb c d = true ∧ s' = s.
Proof. rewrite runs_when. destruct c; [apply runs_assert|]. naive_solver. Qed.
Lemma not_challenged_reads a s u s' : ⟨ not_challenged a, s ⟩ ⇓ ⟨ u, s' ⟩ → s' = s.
Proof. unfold not_challenged, has_hardfork. by intros (? & ? & [-> ->]%runs_asks & [_ ->]%runs_when_assert)%runs_bind. Qed.

Lemma comment_apply_tree o s u s' :
  tree_ok s → 0 ≤ next_id (comments s) → ⟨ comment_apply o, s ⟩ ⇓ ⟨ u, s' ⟩ → tree_ok s'.
Proof.
  intros Ht Hnext. unfold comment_apply, has_hardfork, get_account. intros Hr.
  apply runs_bind in Hr as (? & ? & [-> ->]%runs_asks & Hr). apply runs_bind in Hr as (? & ? & [_ ->]%runs_when_assert & Hr).
  apply runs_bind in Hr as (? & ? & [-> ->]%runs_find & Hr). apply runs_bind in Hr as (auth & ? & [_ ->]%runs_getr & Hr).
  apply runs_bind in Hr as (? & ? & ->%not_challenged_reads & Hr).
  apply runs_bind in Hr as (parent & ? & [-> Hp]%find_parent_spec & Hr).
  apply runs_bind in Hr as (? & ? & [-> ->]%runs_asks & Hr). apply runs_bind in Hr as (? & ? & [_ ->]%runs_when_assert & Hr).
  match type of Hr with ⟨ match ?x with _ => _ end, _ ⟩ ⇓ ⟨ _, _ ⟩ => destruct x end.
  - apply comment_edit_shape in Hr. by eapply shape_tree.
  - by eapply comment_new_tree.
Qed.

Lemma deleteComment_apply_tree o s u s' :
  tree_ok s → Z.of_nat (base.size (rows (comments s))) < 2 ^ 32 → hardfork_active s HARDFORK_0_6 = true →
  ⟨ deleteComment_apply o, s ⟩ ⇓ ⟨ u, s' ⟩ → tree_ok s'.
Proof.
  intros Ht Hsize H6. unfold deleteComment_apply, has_hardfork, get_comment, get_account. intros Hr.
  apply runs_bind in Hr as (? & ? & [-> ->]%runs_asks & Hr). apply runs_bind in Hr as ([] & s1 & Hr1 & Hr).
  assert (s1 = s) as ->.
  { clear Hr. apply runs_when in Hr1. destruct (hardfork_active s HARDFORK_0_10); [|done].
    by apply runs_bind in Hr1 as (? & ? & [_ ->]%runs_getr & ->%not_challenged_reads). }
  clear Hr1. apply runs_bind in Hr as (c & ? & [Hk ->]%runs_getr & Hr).
  apply runs_bind in Hr as (? & ? & [Hch%Z.eqb_eq ->]%runs_assert & Hr).
  apply runs_bind in Hr as (? & ? & [-> ->]%runs_asks & Hr). apply runs_bind in Hr as (? & ? & [_ ->]%runs_when_assert & Hr).
  apply runs_bind in Hr as (? & ? & [_ ->]%runs_when_assert & Hr).
  destruct (_ <? _); [by apply runs_ret in Hr as [_ <-]|].
  apply runs_bind in Hr as (l & ? & [_ ->]%runs_asks & Hr). apply runs_bind in Hr as ([] & s1 & Hrm & Hr).
  pose proof (remove_votes_comments _ _ _ _ Hrm) as E1. apply runs_bind in Hr as (? & ? & [-> ->]%runs_asks & Hr).
  assert (hardfork_active s1 HARDFORK_0_6 = true) as H6'.
  { rewrite <- H6. clear -Hrm. revert s Hrm. induction l as [|k l IH]; intros s Hr; cbn [mfor] in Hr; [by db_inv|].
    apply runs_bind in Hr as (? & ? & ->%runs_remove & Hr). by rewrite (IH _ Hr). }
  rewrite H6' in Hr. cbn [andb] in Hr. apply (delete_branch_tree s1 (deleteComment_author o, deleteComment_permlink o) c u s'); rewrite ?E1; try done.
  unfold tree_ok. by rewrite E1.
Qed.

(** C20. The tree of comments: the parent of every comment exists, a comment is one
    deeper than its parent and has its root, and its count of children is the
    number of comments below it.  Every operation on comments keeps this (since
    hard fork 6, with less than [2 ^ 32] comments), and the walks to the root
    that keep the counts end. *)
Theorem comment_tree_kept s u s' :
  tree_ok s → 0 ≤ next_id (comments s) → Z.of_nat (base.size (rows (comments s))) < 2 ^ 32 →
  hardfork_active s HARDFORK_0_6 = true →
  (∀ o, ⟨ comment_apply o, s ⟩ ⇓ ⟨ u, s' ⟩ → tree_ok s') ∧
  (∀ o, ⟨ deleteComment_apply o, s ⟩ ⇓ ⟨ u, s' ⟩ → tree_ok s') ∧
  (∀ o, ⟨ comment_options_apply o, s ⟩ ⇓ ⟨ u, s' ⟩ → tree_ok s') ∧
  (∀ o, ⟨ vote_apply o, s ⟩ ⇓ ⟨ u, s' ⟩ → tree_ok s') ∧
  (∀ count k c, rows (comments s) !! k = Some c → ∃ t, ⟨ touch_from count k, s ⟩ ⇓ ⟨ tt, t ⟩).
Proof.
  intros Ht Hnext Hsize H6. split_and!.
  - intros o. by apply comment_apply_tree.
  - intros o. by apply deleteComment_apply_tree.
  - intros o Hr%comment_options_shape. by eapply shape_tree.
  - intros o Hr%vote_shape. by eapply shape_tree.
  - intros count k c Hk. eexists. apply touch_from_runs; [apply Ht|done].
Qed.
End tree.

(** * Examples *)

Module DiscussionExamples.
Import FcRef.

(** No text is ever a patch. *)
#[export] Instance plain_text : TextPatch := {| apply_patch _ _ := Ok None; prune_invalid_utf8 t := t |}.

Definition alice_posts : comment_operation :=
  {| comment_parent_author := ""; comment_parent_permlink := "news"; comment_author := "alice"; comment_permlink := "hello";
     comment_title := "Hello"; comment_body := "world"; comment_json := "" |}.
Definition bob_replies : comment_operation :=
  {| comment_parent_author := "alice"; comment_parent_permlink := "hello"; comment_author := "bob"; comment_permlink := "re-hello";
     comment_title := ""; comment_body := "Hello Alice"; comment_json := "" |}.
Definition posting_time : database := sample <| gpo ::= λ g, g <| gpo_time := 100000 |> |>.
Definition posted : database := outcome (comment_apply alice_posts) posting_time.
Definition replied : database := outcome (comment_apply bob_replies) posted.

Example bob_counts : (λ c, (cmt_children c, cmt_depth c)) <$> rows (comments replied) !! ("alice", "hello")%string = Some (1, 0).
Proof. vm_compute. done. Qed.

Lemma empty_tree : tree_ok posting_time.
Proof.
  unfold tree_ok. change (rows (comments posting_time)) with (∅ : gmap ckey comment_object).
  split; [split|]; intros k ?; rewrite ?fmap_empty, ?lookup_empty; done.
Qed.

(** Alice posts, Bob replies. *)
Lemma comment_tree_kept_witness :
  tree_ok replied ∧ (λ c, cmt_children c) <$> rows (comments replied) !! ("alice", "hello")%string = Some 1.
Proof.
  split; [|vm_compute; done].
  assert (⟨ comment_apply alice_posts, posting_time ⟩ ⇓ ⟨ tt, posted ⟩) as Ha by runs_ok.
  assert (⟨ comment_apply bob_replies, posted ⟩ ⇓ ⟨ tt, replied ⟩) as Hb by runs_ok.
  assert (0 ≤ next_id (comments posting_time)) as H0 by (apply Z.leb_le; vm_compute; reflexivity).
  pose proof (comment_apply_tree alice_posts _ _ _ empty_tree H0 Ha) as Hp.
  assert (0 ≤ next_id (comments posted)) as H1 by (apply Z.leb_le; vm_compute; reflexivity).
  assert (Z.of_nat (base.size (rows (comments posted))) < 2 ^ 32) as H2 by (apply Z.ltb_lt; vm_compute; reflexivity).
  assert (hardfork_active posted HARDFORK_0_6 = true) as H6 by (vm_compute; reflexivity).
  destruct (comment_tree_kept posted tt replied Hp H1 H2 H6) as [Hk _]. exact (Hk bob_replies Hb).
Defined.
End DiscussionExamples.
