(* ===== verification/VoteTally.v ===== *)
(** The tally of votes on comments.

    Each vote is a row of its own; a comment caches the sums it needs when it is
    paid.  [tally_ok] says that the caches are the sums of the votes on record,
    and that the curators' weights never exceed what the curve of the reward fund
    gives for the SCORE that voted; every evaluator keeps it (since hard fork 19),
    and it is what bounds the curators' pay. *)

From S2P Require Import Prelude Fc Config Asset Flat Authority Operations Objects Database Samples Ledger Frame Supply Rewards Quiet Same Comments Discussions.

Lemma wrap_i32_add x y : wrap_i32 (wrap_i32 x + y) = wrap_i32 (x + y).
Proof.
  unfold wrap_i32. f_equal. replace ((x + 2 ^ 31) mod 2 ^ 32 - 2 ^ 31 + y + 2 ^ 31) with ((x + 2 ^ 31) mod 2 ^ 32 + y) by lia.
  rewrite Zplus_mod_idemp_l. f_equal. lia.
Qed.

Lemma map_sum_filter `{Countable K} {V} (f : V → Z) (P : K * V → Prop) `{!∀ x, Decision (P x)} (m : gmap K V) :
  (∀ k v, m !! k = Some v → ¬ P (k, v) → f v = 0) → map_sum f (filter P m) = map_sum f m.
Proof.
  induction m as [|k v m Hk IH] using map_ind; intros Hz; [by rewrite map_filter_empty|].
  assert (map_sum f (filter P m) = map_sum f m) as E.
  { apply IH. intros q w Hq. apply Hz. apply lookup_insert_Some. right. split; [intros ->; by rewrite Hk in Hq|done]. }
  destruct (decide (P (k, v))) as [Hp|Hp].
  - rewrite map_filter_insert_True by done. rewrite !map_sum_insert_new; [by rewrite E|done|].
    apply map_lookup_filter_None. by left.
  - rewrite map_filter_insert_False, delete_id by done. rewrite map_sum_insert_new, E by done.
    rewrite (Hz k v); [done|apply lookup_insert_eq|done].
Qed.

(** * Tallies *)

(** What a comment caches of its votes. *)
Record tally := Tally {
  ty_id : Z;
  ty_created : Z;
  ty_cashout : Z;
  ty_vote_SCOREreward : Z;
  ty_weight : Z;
  ty_net : Z;
  ty_count : Z;
}.
Definition tally_of (c : comment_object) : tally :=
  Tally (cmt_id c) (cmt_created c) (cmt_cashout_time c) (cmt_vote_SCOREreward c) (cmt_total_vote_weight c)
    (cmt_net_SCOREreward c) (cmt_net_votes c).

(** The sum of [f] over the votes on a comment. *)
Definition over_votes (V : gmap (Z * Z) comment_vote_object) (f : comment_vote_object → Z) (id : Z) : Z :=
  map_sum (λ v, if cvo_comment v =? id then f v else 0) V.

Section over_votes.
Context (V : gmap (Z * Z) comment_vote_object) (f : comment_vote_object → Z).

Lemma over_votes_none id : (∀ k v, V !! k = Some v → cvo_comment v ≠ id) → over_votes V f id = 0.
Proof. intros Hn. apply map_sum_zero. intros k v Hk. destruct (Z.eqb_spec (cvo_comment v) id); [|done]. by destruct (Hn _ _ Hk). Qed.
Lemma over_votes_nonneg id : (∀ k v, V !! k = Some v → 0 ≤ f v) → 0 ≤ over_votes V f id.
Proof. intros Hf. apply map_sum_nonneg. intros k v Hk. destruct (_ =? _); [by eapply Hf|done]. Qed.
Lemma over_votes_le k v : (∀ k v, V !! k = Some v → 0 ≤ f v) → V !! k = Some v → f v ≤ over_votes V f (cvo_comment v).
Proof.
  intros Hf Hk. etrans; [|eapply (map_sum_lookup_le _ _ k v); [|done]]; cbn; [by rewrite Z.eqb_refl|].
  intros q w Hq. destruct (_ =? _); [by eapply Hf|done].
Qed.
Lemma over_votes_insert k v id :
  V !! k = None → over_votes (<[k := v]> V) f id = over_votes V f id + if cvo_comment v =? id then f v else 0.
Proof. intros Hk. unfold over_votes. rewrite map_sum_insert_new by done. lia. Qed.
Lemma over_votes_update k v w id :
  V !! k = Some v → cvo_comment w = cvo_comment v →
  over_votes (<[k := w]> V) f id = over_votes V f id + if cvo_comment v =? id then f w - f v else 0.
Proof. intros Hk E. unfold over_votes. rewrite (map_sum_insert _ _ _ _ _ Hk), E. destruct (_ =? _); lia. Qed.
End over_votes.

(** The votes that are not on a comment. *)
Definition drop_votes (id : Z) (V : gmap (Z * Z) comment_vote_object) : gmap (Z * Z) comment_vote_object :=
  filter (λ kv, kv.1.1 ≠ id) V.

(** ** The invariant *)

Section tally.
Context {F : Fc} {FL : FcLaws F}.

(** What a curve gives for the SCORE that voted. *)
Definition curation_curve (fund : reward_fund_object) (SCOREreward : Z) : Z :=
  evaluate_reward_curve (u128 SCOREreward) (rwf_curationReward_curve fund) (rwf_content_constant fund).

Record ty_ok (fund : option reward_fund_object) (V : gmap (Z * Z) comment_vote_object) (t : tally) : Prop := TyOk {
  to_created : HARDFORK_0_6_REVERSE_AUCTION_TIME ≤ ty_created t;
  to_votes : 0 ≤ ty_vote_SCOREreward t ≤ i64_max;
  to_weight : over_votes V cvo_weight (ty_id t) ≤ ty_weight t < 2 ^ 64;
  to_curve f : fund = Some f → ty_weight t ≤ curation_curve f (ty_vote_SCOREreward t);
  to_open : ty_cashout t ≠ tps_max →
    ty_net t = over_votes V cvo_SCOREreward (ty_id t) ∧
    ty_count t = wrap_i32 (over_votes V (λ v, Z.sgn (cvo_SCOREreward v)) (ty_id t));
}.
Record tally_ok (fund : option reward_fund_object) (T : gmap ckey tally) (V : gmap (Z * Z) comment_vote_object) (next : Z) : Prop := TallyOk {
  tk_fund f : fund = Some f → 0 < rwf_content_constant f < 2 ^ 62;
  tk_votes k v : V !! k = Some v → k = (cvo_comment v, cvo_voter v) ∧ 0 ≤ cvo_weight v ∧ ∃ q t, T !! q = Some t ∧ ty_id t = cvo_comment v;
  tk_rows k t : T !! k = Some t → ty_ok fund V t;
  tk_fresh k t : T !! k = Some t → ty_id t < next;
  tk_ids k t k' t' : T !! k = Some t → T !! k' = Some t' → ty_id t = ty_id t' → k = k';
}.

Lemma ty_ok_votes fund V V' t :
  (∀ f, over_votes V' f (ty_id t) = over_votes V f (ty_id t)) → ty_ok fund V t → ty_ok fund V' t.
Proof. intros E []. split; rewrite ?E; auto. Qed.

Lemma curve_grows f v v' : 0 < rwf_content_constant f < 2 ^ 62 → 0 ≤ v ≤ v' → v' ≤ i64_max → 0 ≤ curation_curve f v ≤ curation_curve f v'.
Proof. intros. by apply curve_mono. Qed.

Section steps.
Context (fund : option reward_fund_object) (T : gmap ckey tally) (V : gmap (Z * Z) comment_vote_object) (next : Z).
Context (Hok : tally_ok fund T V next).

(** A new comment has no votes. *)
Lemma tally_new k t :
  T !! k = None → ty_id t = next → HARDFORK_0_6_REVERSE_AUCTION_TIME ≤ ty_created t →
  ty_vote_SCOREreward t = 0 → ty_weight t = 0 → ty_net t = 0 → ty_count t = 0 →
  tally_ok fund (<[k := t]> T) V (next + 1).
Proof.
  intros Hk Hid Hcr Hv Hw Hn Hc. pose proof Hok as [Hf Hvo Hr Hfr Hi].
  assert (∀ q u, V !! q = Some u → cvo_comment u ≠ ty_id t) as Hno.
  { intros q u Hq. destruct (Hvo _ _ Hq) as (_ & _ & p & t' & Hp & E). pose proof (Hfr _ _ Hp). lia. }
  split; [done|..].
  - intros q u Hq. destruct (Hvo _ _ Hq) as (? & ? & p & t' & Hp & E). split_and!; [done..|]. exists p, t'.
    split; [|done]. apply lookup_insert_Some. right. split; [by intros ->; simplify_eq|done].
  - intros q t' [[<- <-]|[_ Hq]]%lookup_insert_Some; [|by eapply Hr].
    split; rewrite ?Hv, ?Hw, ?Hn, ?Hc, ?over_votes_none by done; [done|unfold i64_max; lia|lia| |done].
    intros f E. by destruct (curve_grows f 0 0 (Hf _ E) ltac:(lia) ltac:(unfold i64_max; lia)).
  - intros q t' [[<- <-]|[_ Hq]]%lookup_insert_Some; [lia|]. pose proof (Hfr _ _ Hq). lia.
  - intros q t' q' t'' [[<- <-]|[_ Hq]]%lookup_insert_Some [[<- <-]|[_ Hq']]%lookup_insert_Some E; [done|..|by eapply Hi].
    + pose proof (Hfr _ _ Hq'). lia.
    + pose proof (Hfr _ _ Hq). lia.
Qed.

(** The row of one comment and the votes on it change; the others' stay. *)
Lemma tally_change_row k t t' V' :
  T !! k = Some t → ty_id t' = ty_id t →
  (∀ q v, V' !! q = Some v → cvo_comment v ≠ ty_id t → V !! q = Some v) →
  (∀ q v, V' !! q = Some v → cvo_comment v = ty_id t → q = (cvo_comment v, cvo_voter v) ∧ 0 ≤ cvo_weight v) →
  (∀ f id, id ≠ ty_id t → over_votes V' f id = over_votes V f id) →
  ty_ok fund V' t' → tally_ok fund (<[k := t']> T) V' next.
Proof.
  intros Hk Hid Hold Hnew Hsum Ht. pose proof Hok as [Hf Hvo Hr Hfr Hi].
  split; [done|..].
  - intros q v Hq. destruct (decide (cvo_comment v = ty_id t)) as [E|E].
    + destruct (Hnew _ _ Hq E) as [? ?]. split_and!; [done..|]. exists k, t'. rewrite lookup_insert_eq. split; [done|congruence].
    + destruct (Hvo _ _ (Hold _ _ Hq E)) as (? & ? & p & u & Hp & Eu). split_and!; [done..|]. exists p, u. split; [|done].
      apply lookup_insert_Some. right. split; [|done]. intros ->. simplify_eq.
  - intros q u [[<- <-]|[Hne Hq]]%lookup_insert_Some; [done|]. apply (ty_ok_votes _ V); [|by eapply Hr].
    intros f. apply Hsum. intros E. apply Hne. by eapply Hi.
  - intros q u [[<- <-]|[_ Hq]]%lookup_insert_Some; [rewrite Hid|]; by eapply Hfr.
  - assert (∀ q u, <[k := t']> T !! q = Some u → ∃ u', T !! q = Some u' ∧ ty_id u' = ty_id u) as Hback.
    { intros q u [[<- <-]|[_ Hq]]%lookup_insert_Some; eauto. }
    intros q u q' u' (x & Hx & Ex)%Hback (y & Hy & Ey)%Hback E. eapply Hi; eauto. congruence.
Qed.

(** One vote more. *)
Lemma tally_vote k t v up w :
  let id := ty_id t in
  T !! k = Some t → V !! (id, cvo_voter v) = None → cvo_comment v = id → 0 ≤ cvo_weight v ≤ w →
  0 ≤ up → ty_vote_SCOREreward t + up ≤ i64_max → ty_weight t + w < 2 ^ 64 →
  (∀ f, fund = Some f → ty_weight t + w ≤ curation_curve f (ty_vote_SCOREreward t + up)) →
  tally_ok fund
    (<[k := Tally id (ty_created t) (ty_cashout t) (ty_vote_SCOREreward t + up) (ty_weight t + w)
        (ty_net t + cvo_SCOREreward v) (wrap_i32 (ty_count t + Z.sgn (cvo_SCOREreward v)))]> T)
    (<[(id, cvo_voter v) := v]> V) next.
Proof.
  cbv zeta. intros Hk Hno Hcv Hw Hup Hmax Hfit Hcurve. pose proof Hok as [Hf Hvo Hr Hfr Hi].
  destruct (Hr _ _ Hk) as [H1 H2 H3 H4 H5].
  apply (tally_change_row k t); [done|done|..].
  - intros q u [[<- <-]|[_ Hq]]%lookup_insert_Some Hne; done.
  - intros q u [[<- <-]|[_ Hq]]%lookup_insert_Some E; [rewrite Hcv; split; [done|lia]|]. by destruct (Hvo _ _ Hq) as (? & ? & _).
  - intros f id Hne. rewrite over_votes_insert by done. destruct (Z.eqb_spec (cvo_comment v) id); [congruence|lia].
  - split; cbn [ty_id ty_created ty_cashout ty_vote_SCOREreward ty_weight ty_net ty_count]; rewrite ?over_votes_insert, ?Hcv, ?Z.eqb_refl by done.
    + done.
    + lia.
    + lia.
    + done.
    + intros Hopen. destruct (H5 Hopen) as [-> ->]. split; [done|]. by rewrite wrap_i32_add.
Qed.

(** One vote changed: it loses its weight. *)
Lemma tally_change k t v v' :
  let id := ty_id t in
  T !! k = Some t → V !! (id, cvo_voter v) = Some v → cvo_comment v = id →
  cvo_comment v' = id → cvo_voter v' = cvo_voter v → cvo_weight v' = 0 →
  tally_ok fund
    (<[k := Tally id (ty_created t) (ty_cashout t) (ty_vote_SCOREreward t) (ty_weight t - cvo_weight v)
        (ty_net t - cvo_SCOREreward v + cvo_SCOREreward v')
        (wrap_i32 (ty_count t + (Z.sgn (cvo_SCOREreward v') - Z.sgn (cvo_SCOREreward v))))]> T)
    (<[(id, cvo_voter v) := v']> V) next ∧ 0 ≤ ty_weight t - cvo_weight v.
Proof.
  cbv zeta. intros Hk Hv Hcv Hcv' Hvv' Hw'. pose proof Hok as [Hf Hvo Hr Hfr Hi].
  destruct (Hr _ _ Hk) as [H1 H2 H3 H4 H5]. assert (cvo_weight v ≤ over_votes V cvo_weight (ty_id t)) as Hle.
  { rewrite <- Hcv. apply (over_votes_le _ _ (ty_id t, cvo_voter v)); [|done]. intros q u Hq. by destruct (Hvo _ _ Hq) as (_ & ? & _). }
  split; [|lia]. destruct (Hvo _ _ Hv) as (_ & Hwv & _).
  apply (tally_change_row k t); [done|done|..].
  - intros q u [[<- <-]|[_ Hq]]%lookup_insert_Some Hne; done.
  - intros q u [[<- <-]|[_ Hq]]%lookup_insert_Some E; [rewrite Hcv', Hvv', Hw'; done|]. by destruct (Hvo _ _ Hq) as (? & ? & _).
  - intros f id Hne. rewrite (over_votes_update _ _ _ v) by congruence. destruct (Z.eqb_spec (cvo_comment v) id); [congruence|lia].
  - split; cbn [ty_id ty_created ty_cashout ty_vote_SCOREreward ty_weight ty_net ty_count];
      rewrite ?(over_votes_update _ _ _ v), ?Hcv, ?Z.eqb_refl by congruence.
    + done.
    + done.
    + lia.
    + intros f E. specialize (H4 f E). lia.
    + intros Hopen. destruct (H5 Hopen) as [-> ->]. split; [lia|]. by rewrite wrap_i32_add.
Qed.

Lemma drop_votes_some id k v :
  drop_votes id V !! k = Some v ↔ V !! k = Some v ∧ cvo_comment v ≠ id.
Proof.
  unfold drop_votes. rewrite map_lookup_filter_Some. cbn. split; intros [Hk Hne]; (split; [done|]);
    destruct (tk_votes _ _ _ _ Hok _ _ Hk) as (-> & _); done.
Qed.
Lemma over_votes_drop f id id' : id' ≠ id → over_votes (drop_votes id V) f id' = over_votes V f id'.
Proof.
  intros Hne. unfold over_votes, drop_votes. apply map_sum_filter. intros k v Hk Hid. cbn in Hid. apply dec_stable in Hid.
  destruct (tk_votes _ _ _ _ Hok _ _ Hk) as (-> & _). cbn in Hid. destruct (Z.eqb_spec (cvo_comment v) id'); [congruence|done].
Qed.
Lemma over_votes_dropped f id : over_votes (drop_votes id V) f id = 0.
Proof. apply over_votes_none. by intros k v [_ ?]%drop_votes_some. Qed.

(** The votes of one comment go; the comment goes too, or is paid out. *)
Lemma tally_drop k t :
  T !! k = Some t → tally_ok fund (delete k T) (drop_votes (ty_id t) V) next.
Proof.
  intros Hk. pose proof Hok as [Hf Hvo Hr Hfr Hi]. split; [done|..].
  - intros q v [Hq Hne]%drop_votes_some. destruct (Hvo _ _ Hq) as (? & ? & p & u & Hp & Eu). split_and!; [done..|]. exists p, u.
    split; [|done]. apply lookup_delete_Some. split; [|done]. intros ->. simplify_eq.
  - intros q u [Hne Hq]%lookup_delete_Some. apply (ty_ok_votes _ V); [|by eapply Hr]. intros f. apply over_votes_drop.
    intros E. apply Hne. by eapply Hi.
  - intros q u [_ Hq]%lookup_delete_Some. by eapply Hfr.
  - intros q u q' u' [_ Hq]%lookup_delete_Some [_ Hq']%lookup_delete_Some. by apply Hi.
Qed.
Lemma tally_paid k t net count :
  T !! k = Some t →
  tally_ok fund (<[k := Tally (ty_id t) (ty_created t) tps_max 0 0 net count]> T) (drop_votes (ty_id t) V) next.
Proof.
  intros Hk. pose proof Hok as [Hf Hvo Hr Hfr Hi]. apply (tally_change_row k t); [done|done|..].
  - by intros q v [? _]%drop_votes_some.
  - by intros q v [_ ?]%drop_votes_some.
  - intros f id. apply over_votes_drop.
  - split; cbn [ty_id ty_created ty_cashout ty_vote_SCOREreward ty_weight ty_net ty_count];
      rewrite ?over_votes_dropped; [by destruct (Hr _ _ Hk)|unfold i64_max; lia|lia| |done].
    intros f E. by destruct (curve_grows f 0 0 (Hf _ E) ltac:(lia) ltac:(unfold i64_max; lia)).
Qed.
End steps.

(** ** The weight of a curator *)

Lemma auction_weight_le now created w w' :
  0 ≤ w < 2 ^ 64 → auction_weight now created w = Ok w' → 0 ≤ w' ≤ w.
Proof.
  unfold auction_weight. change REVERSE_AUCTION_WINDOW_SECONDS with 600. intros Hw. destruct (_ <? _); [|by intros [= <-]; lia].
  intros [-> _]%u128_to_u64_law. set (d := Z.min _ _). pose proof (Z.mod_pos_bound (tps_diff now created) (2 ^ 64) ltac:(lia)) as Hd.
  assert (0 ≤ d ≤ 600) as Hd' by (unfold d, wrap_u64; lia).
  rewrite !u128_law, u128_mul_law, (Z.mod_small w), (Z.mod_small d), (Z.mod_small 600), (Z.mod_small (w * d)) by nia.
  rewrite u128_div_law by lia. split; [apply Z.div_pos; nia|]. apply Z.div_le_upper_bound; nia.
Qed.

Lemma curation_weight_grows fund c old S mw :
  0 < rwf_content_constant fund < 2 ^ 62 → HARDFORK_0_6_REVERSE_AUCTION_TIME ≤ cmt_created c →
  0 ≤ old ≤ cmt_vote_SCOREreward c → cmt_vote_SCOREreward c ≤ i64_max →
  curation_weight c old S (Some fund) true true = Ok mw →
  mw = curation_curve fund (cmt_vote_SCOREreward c) - curation_curve fund old ∧ 0 ≤ mw ∧
  curation_curve fund (cmt_vote_SCOREreward c) < 2 ^ 64.
Proof.
  unfold curation_weight. intros Hs Hcr Hold Hmax. destruct (Z.ltb_spec (cmt_created c) HARDFORK_0_6_REVERSE_AUCTION_TIME); [lia|].
  cbn [negb andb]. intros Hr. apply result_bind_ok in Hr as (o & [-> Ho]%u128_to_u64_law & Hr).
  apply result_bind_ok in Hr as (n & [-> Hn]%u128_to_u64_law & [= <-]).
  destruct (curve_grows fund old (cmt_vote_SCOREreward c)) as [? ?]; [done..|]. fold (curation_curve fund (cmt_vote_SCOREreward c)) in *.
  fold (curation_curve fund old) in *. unfold wrap_u64. rewrite Z.mod_small by lia. lia.
Qed.

Definition fund_of (s : database) : option reward_fund_object := rows (reward_funds s) !! POST_REWARD_FUND_NAME.

(** The weights of a vote: nothing, or the growth of the curve. *)
Lemma curator_weight_bounds k old S s w s' c :
  hardfork_active s HARDFORK_0_1 = true → hardfork_active s HARDFORK_0_17 = true → hardfork_active s HARDFORK_0_19 = true →
  rows (comments s) !! k = Some c → (∀ f, fund_of s = Some f → 0 < rwf_content_constant f < 2 ^ 62) →
  HARDFORK_0_6_REVERSE_AUCTION_TIME ≤ cmt_created c → 0 ≤ old ≤ cmt_vote_SCOREreward c → cmt_vote_SCOREreward c ≤ i64_max →
  ⟨ curator_weight k old S, s ⟩ ⇓ ⟨ w, s' ⟩ → s' = s ∧ 0 ≤ w.2 ≤ w.1 ∧
    ∀ t, (∀ f, fund_of s = Some f → t ≤ curation_curve f old) → 
      (w.1 ≠ 0 → t + w.1 < 2 ^ 64) ∧ ∀ f, fund_of s = Some f → t + w.1 ≤ curation_curve f (cmt_vote_SCOREreward c).
Proof.
  intros H1 H17 H19 Hk Hs Hcr Hold Hmax. unfold curator_weight, has_hardfork, head_block_time. intros Hr.
  apply runs_bind in Hr as (c' & ? & [Hk' ->]%runs_getr & Hr). rewrite Hk in Hk'. injection Hk' as <-.
  do 4 (apply runs_bind in Hr as (? & ? & [-> ->]%runs_asks & Hr)). rewrite H1, H17, H19, andb_true_r in Hr.
  apply runs_bind in Hr as (e & s1 & He & Hr). assert (s1 = s) as ->.
  { clear Hr. destruct (_ && _); [|by db_inv]. unfold get_curationRewards_percent, get_reward_fund, has_hardfork in He.
    apply runs_bind in He as (p & ? & He & [_ <-]%runs_ret). do 2 (apply runs_bind in He as (? & ? & [-> ->]%runs_asks & He)).
    rewrite H17 in He. by apply runs_bind in He as (f & ? & [_ ->]%runs_getr & [_ <-]%runs_ret). }
  clear He. assert (∀ t, (∀ f, fund_of s = Some f → t ≤ curation_curve f old) →
    ∀ f, fund_of s = Some f → t ≤ curation_curve f (cmt_vote_SCOREreward c)) as Hgrow.
  { intros t Ht f Hf. specialize (Ht f Hf). destruct (curve_grows f old (cmt_vote_SCOREreward c)); [by apply Hs|done|done|lia]. }
  destruct e; [|apply runs_ret in Hr as [<- <-]; cbn [fst snd]; split_and!; try done;
    intros t Ht; split; [done|]; intros f Hf; rewrite Z.add_0_r; by apply Hgrow].
  apply runs_bind in Hr as (o & s1 & Ho & Hr). apply runs_bind in Ho as (f & ? & [Hf ->]%runs_getr & [<- <-]%runs_ret).
  apply runs_bind in Hr as (mw & ? & [Hmw ->]%runs_lift & Hr). apply runs_bind in Hr as (wt & ? & [Hwt ->]%runs_lift & Hr).
  apply runs_ret in Hr as [<- <-]. cbn [fst snd]. destruct (curation_weight_grows _ _ _ _ _ (Hs _ Hf) Hcr Hold Hmax Hmw) as (Emw & Hnn & Hlt).
  destruct (curve_grows f old (cmt_vote_SCOREreward c)) as [H0 ?]; [by apply Hs|done..|].
  split; [done|]. split; [eapply auction_weight_le; [|done]; lia|]. intros t Ht. pose proof (Ht f Hf). split; [lia|].
  intros f' Hf'. unfold fund_of in *. rewrite Hf in Hf'. injection Hf' as <-. lia.
Qed.
End tally.

(** * Votes *)

Definition tallies (s : database) : gmap ckey tally := tally_of <$> rows (comments s).
(** All that a tally depends on. *)
Definition tally_frame (s : database) :=
  (tally_of <$> rows (comments s), (comment_votes s, reward_funds s, next_id (comments s), hardforks s)).
Definition votes_tally `{F : Fc} (s : database) : Prop :=
  tally_ok (fund_of s) (tallies s) (rows (comment_votes s)) (next_id (comments s)).

Lemma tallies_some s k c : rows (comments s) !! k = Some c → tallies s !! k = Some (tally_of c).
Proof. intros Hk. unfold tallies. by rewrite lookup_fmap, Hk. Qed.
Lemma tallies_lookup s k t : tallies s !! k = Some t → ∃ c, rows (comments s) !! k = Some c ∧ t = tally_of c.
Proof. unfold tallies. rewrite lookup_fmap. intros (c & ? & ->)%fmap_Some. eauto. Qed.
Lemma tallies_set_row s k c : tallies (set_row comments k c s) = <[k := tally_of c]> (tallies s).
Proof. unfold tallies. db_fields. by rewrite fmap_insert. Qed.

Section votes.
Context {F : Fc} {FL : FcLaws F}.

Lemma same_tally s s' : same tally_frame s s' → votes_tally s → votes_tally s'.
Proof. unfold votes_tally, tallies, fund_of. by intros [= -> -> -> -> _]. Qed.

Lemma lockout_guard_reads c s u s' : ⟨ lockout_guard c, s ⟩ ⇓ ⟨ u, s' ⟩ → s' = s.
Proof.
  unfold lockout_guard, head_block_time, has_hardfork. intros Hr. do 3 (apply runs_bind in Hr as (? & ? & [-> ->]%runs_asks & Hr)).
  destruct (hardfork_active s HARDFORK_0_17); [by apply runs_assert in Hr as [_ ->]|].
  apply runs_when in Hr. destruct (hardfork_active s HARDFORK_0_7); [|done].
  by apply runs_bind in Hr as (? & ? & ->%calculate_discussion_payout_time_reads & [_ ->]%runs_assert).
Qed.
Lemma average_cashout_reads c x y b s a s' : ⟨ average_cashout c x y b, s ⟩ ⇓ ⟨ a, s' ⟩ → s' = s.
Proof.
  unfold average_cashout, head_block_time, has_hardfork. intros Hr. do 4 (apply runs_bind in Hr as (? & ? & [-> ->]%runs_asks & Hr)).
  destruct (hardfork_active s HARDFORK_0_17); [by apply runs_ret in Hr as [_ <-]|].
  apply runs_bind in Hr as (? & ? & [-> ->]%runs_asks & Hr).
  apply runs_bind in Hr as (? & ? & ->%calculate_discussion_payout_time_reads & Hr). cbv zeta in Hr.
  by destruct (_ && _); apply runs_ret in Hr as [_ <-].
Qed.

Lemma count_in_root_same k a avg s u s' :
  hardfork_active s HARDFORK_0_17 = true → ⟨ count_in_root k a avg, s ⟩ ⇓ ⟨ u, s' ⟩ → same tally_frame s s'.
Proof.
  intros H17. unfold count_in_root, head_block_time, has_hardfork. intros Hr.
  do 3 (apply runs_bind in Hr as (? & ? & [-> ->]%runs_asks & Hr)). rewrite H17 in Hr.
  apply runs_modify in Hr as (c & c' & Hk & Hv & ->). apply result_bind_ok in Hv as (x & _ & [= <-]).
  unfold same, tally_frame. apply (f_equal2 pair); [|reflexivity]. by eapply view_set_row.
Qed.

Lemma spend_power_same n x y : preserves (same tally_frame) (spend_power n x y).
Proof. unfold spend_power, head_block_time. samed. Qed.
Lemma adjust_SCOREreward2_same x y : preserves (same tally_frame) (adjust_SCOREreward2 x y).
Proof. unfold adjust_SCOREreward2. samed. Qed.

(** The first part of both branches: voting power, and what the root counts. *)
Lemma hardfork_same s s' h : same tally_frame s s' → hardfork_active s' h = hardfork_active s h.
Proof. intros [= _ _ _ _ E]. unfold hardfork_active. by rewrite E. Qed.


(** The comment's sums after a first vote worth [S]. *)
Definition voted (t : tally) (S w : Z) : tally :=
  Tally (ty_id t) (ty_created t) (ty_cashout t) (ty_vote_SCOREreward t + Z.max S 0) (ty_weight t + w) (ty_net t + S)
    (wrap_i32 (ty_count t + Z.sgn S)).
Definition voted_SCORE (o : vote_operation) (a : Z) : Z := if vote_weight o <? 0 then - a else a.

Lemma vote_sums_value hf6 a S c0 c c1 :
  S ≠ 0 → tally_of c0 = tally_of c → ty_vote_SCOREreward (tally_of c) ≤ i64_max →
  (net ← safe_add (cmt_net_SCOREreward c0) S;
   abs ← safe_add (cmt_abs_SCOREreward c0) a;
   up ← (if 0 <? S then safe_add (cmt_vote_SCOREreward c0) S else Ok (cmt_vote_SCOREreward c0));
   let votes := wrap_i32 (cmt_net_votes c0 + if 0 <? S then 1 else -1) in
   (if negb hf6 && (net =? - abs) then fc_check (votes <? 0) "Comment has negative net votes?" else Ok tt);;
   Ok (c0 <| cmt_net_SCOREreward := net |> <| cmt_abs_SCOREreward := abs |> <| cmt_vote_SCOREreward := up |>
        <| cmt_net_votes := votes |>)) = Ok c1 →
  tally_of c1 = voted (tally_of c) S 0 ∧ cmt_vote_SCOREreward c + Z.max S 0 ≤ i64_max.
Proof.
  intros HS E0 Hmax Hv. injection E0 as E1 E2 E3 E4 E5 E6 E7. cbn in Hmax.
  apply result_bind_ok in Hv as (net & [-> _]%safe_add_ok & Hv). apply result_bind_ok in Hv as (ab & _ & Hv).
  apply result_bind_ok in Hv as (up & Hup & Hv). apply result_bind_ok in Hv as (? & _ & [= <-]).
  unfold tally_of, voted. cbn [ty_id ty_created ty_cashout ty_vote_SCOREreward ty_weight ty_net ty_count]. db_fields.
  rewrite E1, E2, E3, E5, E6, E7, Z.add_0_r.
  destruct (Z.ltb_spec 0 S).
  - apply safe_add_ok in Hup as [-> Hup]. rewrite E4 in *. replace (Z.sgn S) with 1 by lia. replace (Z.max S 0) with S by lia.
    split; [done|lia].
  - injection Hup as <-. rewrite E4. replace (Z.sgn S) with (-1) by lia. replace (Z.max S 0) with 0 by lia. rewrite Z.add_0_r. done.
Qed.

(** The guards and the sums of a first vote, before its weight is known. *)
Lemma vote_new_sums o voter cp up a s u s' c :
  let k := (vote_author o, vote_permlink o) in let S := voted_SCORE o a in
  hardfork_active s HARDFORK_0_17 = true → rows (comments s) !! k = Some c → cmt_vote_SCOREreward c ≤ i64_max →
  ⟨ vote_new o voter cp up a, s ⟩ ⇓ ⟨ u, s' ⟩ → 0 < a ∧ cmt_vote_SCOREreward c + Z.max S 0 ≤ i64_max ∧
  ∃ t x y, tallies t = <[k := voted (tally_of c) S 0]> (tallies s) ∧
    (comment_votes t, reward_funds t, next_id (comments t), hardforks t) = (comment_votes s, reward_funds s, next_id (comments s), hardforks s) ∧
    ⟨ (weights ← curator_weight k (cmt_vote_SCOREreward c) S;
       now ← head_block_time;
       create comment_votes (cmt_id c, acc_id voter) (λ id,
         {| cvo_id := id; cvo_voter := acc_id voter; cvo_comment := cmt_id c; cvo_weight := weights.2;
            cvo_SCOREreward := S; cvo_vote_percent := vote_weight o; cvo_last_update := now; cvo_num_changes := 0 |});;
       mwhen (negb (weights.1 =? 0)) (modify comments k (λ c, Ok (c <| cmt_total_vote_weight ::= λ t, wrap_u64 (t + weights.1) |>)));;
       hf17 ← has_hardfork HARDFORK_0_17;
       mwhen (negb hf17) (adjust_SCOREreward2 x y)), t ⟩ ⇓ ⟨ u, s' ⟩.
Proof.
  cbv zeta. intros H17 Hk Hle Hr. unfold vote_new in Hr. fold (voted_SCORE o a) in Hr. cbv zeta in Hr.
  apply runs_bind in Hr as (c' & ? & [Hk' ->]%runs_getr & Hr). rewrite Hk in Hk'. injection Hk' as <-.
  apply runs_bind in Hr as (? & ? & [_ ->]%runs_assert & Hr). set (S := voted_SCORE o a) in *.
  apply runs_bind in Hr as (? & s1 & Hg & Hr). assert (s1 = s) as ->.
  { apply runs_when in Hg. destruct (0 <? S); [by apply lockout_guard_reads in Hg|done]. }
  apply runs_bind in Hr as (? & s1 & Hsp%spend_power_same & Hr).
  apply runs_bind in Hr as (rk & ? & [-> _]%get_comment_key_reads & Hr). apply runs_bind in Hr as (root & ? & [_ ->]%runs_getr & Hr).
  apply runs_bind in Hr as (avg & ? & ->%average_cashout_reads & Hr).
  apply runs_bind in Hr as (? & ? & [Ha%Z.ltb_lt ->]%runs_assert & Hr). apply runs_bind in Hr as (hf6 & ? & [-> ->]%runs_asks & Hr).
  apply runs_bind in Hr as (? & s2 & Hm & Hr). apply runs_bind in Hr as (? & s3 & Hc & Hr).
  apply runs_bind in Hr as (after & ? & [_ ->]%runs_getr & Hr).
  pose proof Hsp as E1. injection E1 as ET EV ER EN EH.
  apply runs_modify in Hm as (c0 & c1 & Hk1 & Hv & ->).
  assert (tally_of c0 = tally_of c) as E0.
  { pose proof (tallies_some _ _ _ Hk) as E. unfold tallies in E. rewrite <- ET, lookup_fmap, Hk1 in E. by apply (inj Some) in E. }
  assert (S ≠ 0) as HS by (unfold S, voted_SCORE; destruct (vote_weight o <? 0); lia).
  assert (tally_of c1 = voted (tally_of c) S 0 ∧ cmt_vote_SCOREreward c + Z.max S 0 ≤ i64_max) as [Ec Hmax].
  { by eapply vote_sums_value. }
  assert (same tally_frame (set_row comments (vote_author o, vote_permlink o) c1 s1) s3) as E3.
  { eapply count_in_root_same; [|exact Hc]. rewrite <- H17. unfold hardfork_active. db_fields. by rewrite EH. }
  injection E3 as E3T E3V E3R E3N E3H. split; [done|]. split; [done|]. exists s3. do 2 eexists. split_and!; [| |exact Hr].
  - transitivity (tallies (set_row comments (vote_author o, vote_permlink o) c1 s1)); [exact E3T|].
    rewrite tallies_set_row, Ec. f_equal. exact ET.
  - rewrite E3V, E3R, E3N, E3H. db_fields. by rewrite EV, ER, EN, EH.
Qed.

Lemma vote_new_tally o voter cp up a s u s' c :
  let k := (vote_author o, vote_permlink o) in
  hardfork_active s HARDFORK_0_1 = true → hardfork_active s HARDFORK_0_17 = true → hardfork_active s HARDFORK_0_19 = true →
  votes_tally s → rows (comments s) !! k = Some c → rows (comment_votes s) !! (cmt_id c, acc_id voter) = None →
  ⟨ vote_new o voter cp up a, s ⟩ ⇓ ⟨ u, s' ⟩ → votes_tally s'.
Proof.
  cbv zeta. intros H1 H17 H19 Hok Hk Hno Hr. pose proof (tk_rows _ _ _ _ Hok _ _ (tallies_some _ _ _ Hk)) as [T1 T2 T3 T4 T5].
  cbn [tally_of ty_id ty_created ty_cashout ty_vote_SCOREreward ty_weight ty_net ty_count] in T1, T2, T3, T4, T5.
  apply (vote_new_sums _ _ _ _ _ _ _ _ _ H17 Hk) in Hr as (Ha & Hmax & t & x & y & Et & Ef & Hr); [|lia].
  set (S := voted_SCORE o a) in *. set (k := (vote_author o, vote_permlink o)) in *. injection Ef as EV ER EN EH.
  assert (∃ c1, rows (comments t) !! k = Some c1 ∧ tally_of c1 = voted (tally_of c) S 0) as (c1 & Hc1 & Ec1).
  { destruct (tallies_lookup t k (voted (tally_of c) S 0)) as (c1 & ? & ?); [|by eauto]. rewrite Et. apply lookup_insert_eq. }
  injection Ec1 as C1 C2 C3 C4 C5 C6 C7. assert (fund_of t = fund_of s) as EF by (unfold fund_of; by rewrite ER).
  apply runs_bind in Hr as (w & t1 & Hw & Hr).
  apply (curator_weight_bounds _ _ _ _ _ _ c1) in Hw as (-> & Hw & Hb);
    [|unfold hardfork_active; by rewrite EH|unfold hardfork_active; by rewrite EH|unfold hardfork_active; by rewrite EH|done
     |rewrite EF; by apply (tk_fund _ _ _ _ Hok)|rewrite C2; done|lia|lia].
  assert (0 ≤ cmt_total_vote_weight c) as Hnn.
  { etrans; [|apply T3]. apply over_votes_nonneg. intros q u0 Hq. by destruct (tk_votes _ _ _ _ Hok _ _ Hq) as (_ & ? & _). }
  rewrite EF in Hb. destruct (Hb (cmt_total_vote_weight c)) as [Hfit Hcurve]; [done|]. clear Hb.
  apply runs_bind in Hr as (now & ? & [_ ->]%runs_asks & Hr). apply runs_bind in Hr as (? & t2 & [Hnew ->]%runs_create & Hr).
  set (v := Make_comment_vote_object _ _ _ _ _ _ _ _) in Hr. set (t2 := add_row comment_votes _ v t) in *.
  apply runs_bind in Hr as (? & t3 & Hm & Hr). apply runs_bind in Hr as (? & ? & [-> ->]%runs_asks & Hr).
  assert (same tally_frame t3 s') as E3.
  { apply runs_when in Hr. destruct (negb (hardfork_active t3 _)); [by apply adjust_SCOREreward2_same in Hr|by subst]. }
  apply (same_tally _ _ E3). clear E3 Hr.
  assert (tallies t3 = <[k := voted (tally_of c) S w.1]> (tallies s) ∧
    (comment_votes t3, reward_funds t3, next_id (comments t3)) = (comment_votes t2, reward_funds t2, next_id (comments t2))) as [E3 E3'].
  { apply runs_when in Hm. destruct (Z.eqb_spec w.1 0) as [E|E]; cbn [negb] in Hm.
    - subst t3. rewrite E. split; [|done]. exact Et.
    - apply runs_modify in Hm as (c2 & c3 & Hc2 & [= <-] & ->). split; [|done]. rewrite tallies_set_row.
      change (tallies t2) with (tallies t). rewrite Et, insert_insert_eq. f_equal. change (comments t2) with (comments t) in Hc2.
      rewrite Hc1 in Hc2. injection Hc2 as <-. unfold tally_of, voted. db_fields. cbn.
      rewrite C1, C2, C3, C4, C5, C6, C7, Z.add_0_r. unfold wrap_u64.
      specialize (Hfit E). by rewrite Z.mod_small by lia. }
  injection E3' as E3V E3R E3N. unfold votes_tally, fund_of. rewrite E3, E3V, E3R, E3N. unfold t2. db_fields. rewrite EV, ER, EN.
  apply (tally_vote _ _ _ _ Hok k (tally_of c) v (Z.max S 0) w.1); try done; [by apply tallies_some|lia| |].
  { cbn [tally_of ty_weight]. destruct (Z.eq_dec w.1 0); [lia|by apply Hfit]. }
  intros f Hf. cbn [tally_of ty_weight ty_vote_SCOREreward]. rewrite <- C4. by apply Hcurve.
Qed.

Lemma net_votes_change_sgn x y : net_votes_change x y = Z.sgn y - Z.sgn x.
Proof.
  unfold net_votes_change. destruct (Z.ltb_spec 0 y), (Z.ltb_spec x 0), (Z.eqb_spec x 0), (Z.eqb_spec y 0), (Z.ltb_spec 0 x), (Z.ltb_spec y 0);
    cbn [andb]; lia.
Qed.

(** The comment's sums after a vote worth [S] replaced one worth [S0]. *)
Definition revoted (t : tally) (S0 S w : Z) : tally :=
  Tally (ty_id t) (ty_created t) (ty_cashout t) (ty_vote_SCOREreward t) (ty_weight t - w) (ty_net t - S0 + S)
    (wrap_i32 (ty_count t + (Z.sgn S - Z.sgn S0))).

Lemma change_sums_value a S S0 c0 c c1 :
  tally_of c0 = tally_of c →
  (net ← safe_sub (cmt_net_SCOREreward c0) S0;
   net ← safe_add net S;
   abs ← safe_add (cmt_abs_SCOREreward c0) a;
   Ok (c0 <| cmt_net_SCOREreward := net |> <| cmt_abs_SCOREreward := abs |>
          <| cmt_net_votes ::= λ n, wrap_i32 (n + net_votes_change S0 S) |>)) = Ok c1 →
  tally_of c1 = revoted (tally_of c) S0 S 0.
Proof.
  intros E0 Hv. injection E0 as E1 E2 E3 E4 E5 E6 E7.
  apply result_bind_ok in Hv as (net & [-> _]%safe_sub_ok & Hv). apply result_bind_ok in Hv as (net & [-> _]%safe_add_ok & Hv).
  apply result_bind_ok in Hv as (ab & _ & [= <-]).
  unfold tally_of, revoted. cbn [ty_id ty_created ty_cashout ty_vote_SCOREreward ty_weight ty_net ty_count]. db_fields.
  by rewrite E1, E2, E3, E4, E5, E6, E7, net_votes_change_sgn, Z.sub_0_r.
Qed.

Lemma vote_change_sums o voter cv cp up a s u s' c :
  let k := (vote_author o, vote_permlink o) in let S := voted_SCORE o a in
  hardfork_active s HARDFORK_0_17 = true → rows (comments s) !! k = Some c →
  ⟨ vote_change o voter cv cp up a, s ⟩ ⇓ ⟨ u, s' ⟩ →
  ∃ t now x y, tallies t = <[k := revoted (tally_of c) (cvo_SCOREreward cv) S 0]> (tallies s) ∧
    (comment_votes t, reward_funds t, next_id (comments t), hardforks t) = (comment_votes s, reward_funds s, next_id (comments s), hardforks s) ∧
    ⟨ (modify comments k (λ c, Ok (c <| cmt_total_vote_weight ::= λ t, wrap_u64 (t - cvo_weight cv) |>));;
       modify comment_votes (cmt_id c, acc_id voter) (λ cv,
         Ok (cv <| cvo_SCOREreward := S |> <| cvo_vote_percent := vote_weight o |> <| cvo_last_update := now |>
               <| cvo_weight := 0 |> <| cvo_num_changes ::= λ n, n + 1 |>));;
       hf17 ← has_hardfork HARDFORK_0_17;
       mwhen (negb hf17) (adjust_SCOREreward2 x y)), t ⟩ ⇓ ⟨ u, s' ⟩.
Proof.
  cbv zeta. intros H17 Hk Hr. unfold vote_change in Hr. fold (voted_SCORE o a) in Hr. cbv zeta in Hr.
  apply runs_bind in Hr as (c' & ? & [Hk' ->]%runs_getr & Hr). rewrite Hk in Hk'. injection Hk' as <-.
  apply runs_bind in Hr as (? & ? & [_ ->]%runs_assert & Hr). apply runs_bind in Hr as (? & ? & [-> ->]%runs_asks & Hr).
  apply runs_bind in Hr as (? & ? & [_ ->]%runs_when_assert & Hr). set (S := voted_SCORE o a) in *.
  apply runs_bind in Hr as (? & s1 & Hg & Hr). assert (s1 = s) as ->.
  { apply runs_when in Hg. destruct (_ <? S); [by apply lockout_guard_reads in Hg|done]. }
  apply runs_bind in Hr as (? & s1 & Hsp%spend_power_same & Hr).
  apply runs_bind in Hr as (rk & ? & [-> _]%get_comment_key_reads & Hr). apply runs_bind in Hr as (root & ? & [_ ->]%runs_getr & Hr).
  apply runs_bind in Hr as (avg & ? & ->%average_cashout_reads & Hr).
  apply runs_bind in Hr as (? & s2 & Hm & Hr). apply runs_bind in Hr as (? & s3 & Hc & Hr).
  apply runs_bind in Hr as (after & ? & [_ ->]%runs_getr & Hr). apply runs_bind in Hr as (now & ? & [_ ->]%runs_asks & Hr).
  pose proof Hsp as E1. injection E1 as ET EV ER EN EH.
  apply runs_modify in Hm as (c0 & c1 & Hk1 & Hv & ->).
  assert (tally_of c0 = tally_of c) as E0.
  { pose proof (tallies_some _ _ _ Hk) as E. unfold tallies in E. rewrite <- ET, lookup_fmap, Hk1 in E. by apply (inj Some) in E. }
  pose proof (change_sums_value _ _ _ _ _ _ E0 Hv) as Ec.
  assert (same tally_frame (set_row comments (vote_author o, vote_permlink o) c1 s1) s3) as E3.
  { eapply count_in_root_same; [|exact Hc]. rewrite <- H17. unfold hardfork_active. db_fields. by rewrite EH. }
  injection E3 as E3T E3V E3R E3N E3H. exists s3, now. do 2 eexists. split_and!; [| |exact Hr].
  - transitivity (tallies (set_row comments (vote_author o, vote_permlink o) c1 s1)); [exact E3T|].
    rewrite tallies_set_row, Ec. f_equal. exact ET.
  - rewrite E3V, E3R, E3N, E3H. db_fields. by rewrite EV, ER, EN, EH.
Qed.

Lemma vote_change_tally o voter cv cp up a s u s' c :
  let k := (vote_author o, vote_permlink o) in
  hardfork_active s HARDFORK_0_17 = true → votes_tally s → rows (comments s) !! k = Some c →
  rows (comment_votes s) !! (cmt_id c, acc_id voter) = Some cv →
  ⟨ vote_change o voter cv cp up a, s ⟩ ⇓ ⟨ u, s' ⟩ → votes_tally s'.
Proof.
  cbv zeta. intros H17 Hok Hk Hcv Hr.
  apply (vote_change_sums _ _ _ _ _ _ _ _ _ _ H17 Hk) in Hr as (t & now & x & y & Et & Ef & Hr).
  set (S := voted_SCORE o a) in *. set (k := (vote_author o, vote_permlink o)) in *. injection Ef as EV ER EN EH.
  destruct (tk_votes _ _ _ _ Hok _ _ Hcv) as ([= Eid Evoter] & Hwv & _).
  apply runs_bind in Hr as (? & t1 & (c1 & c2 & Hc1 & [= <-] & ->)%runs_modify & Hr).
  apply runs_bind in Hr as (? & t2 & (v & v' & Hv & [= <-] & ->)%runs_modify & Hr).
  apply runs_bind in Hr as (? & ? & [-> ->]%runs_asks & Hr).
  match type of Hr with ⟨ _, ?x ⟩ ⇓ ⟨ _, _ ⟩ => set (t2 := x) in * end.
  assert (same tally_frame t2 s') as E3.
  { apply runs_when in Hr. destruct (negb (hardfork_active t2 _)); [by apply adjust_SCOREreward2_same in Hr|by subst]. }
  apply (same_tally _ _ E3). clear E3 Hr. change (comment_votes (set_row comments _ _ t)) with (comment_votes t) in Hv.
  rewrite EV, Hcv in Hv. injection Hv as <-.
  assert (tally_of c1 = revoted (tally_of c) (cvo_SCOREreward cv) S 0) as Ec1.
  { pose proof (tallies_some _ _ _ Hc1) as E. rewrite Et, lookup_insert_eq in E. by apply (inj Some) in E. }
  set (v' := cv <| cvo_SCOREreward := S |> <| cvo_vote_percent := vote_weight o |> <| cvo_last_update := now |>
               <| cvo_weight := 0 |> <| cvo_num_changes ::= λ n, n + 1 |>) in *.
  rewrite Evoter in Hcv. destruct (tally_change _ _ _ _ Hok k (tally_of c) cv v') as [Hdone Hnn]; try done.
  { by apply tallies_some. }
  assert (tallies t2 = <[k := revoted (tally_of c) (cvo_SCOREreward cv) S (cvo_weight cv)]> (tallies s)) as E2.
  { transitivity (<[k := tally_of (c1 <| cmt_total_vote_weight ::= λ t, wrap_u64 (t - cvo_weight cv) |>)]> (tallies t)).
    - unfold t2, tallies. db_fields. by rewrite fmap_insert.
    - rewrite Et, insert_insert_eq. f_equal. injection Ec1 as C1 C2 C3 C4 C5 C6 C7. unfold tally_of, revoted. db_fields.
      cbn [ty_id ty_created ty_cashout ty_vote_SCOREreward ty_weight ty_net ty_count]. rewrite C1, C2, C3, C4, C5, C6, C7, Z.sub_0_r.
      pose proof (to_weight _ _ _ (tk_rows _ _ _ _ Hok _ _ (tallies_some _ _ _ Hk))) as [_ Hlt].
      cbn [tally_of ty_weight] in Hlt, Hnn. unfold wrap_u64. by rewrite Z.mod_small by lia. }
  unfold votes_tally. rewrite E2. unfold t2, fund_of. db_fields. rewrite EV, ER, EN, Evoter. exact Hdone.
Qed.

(** ** The other evaluators *)

Lemma comment_options_tally o : preserves (same tally_frame) (comment_options_apply o).
Proof. unfold comment_options_apply, not_challenged, get_comment, visit_extension. samed. Qed.
Lemma climb_tally fuel count now k : preserves (same tally_frame) (climb fuel (counted count now) k).
Proof. revert k. induction fuel as [|fuel IH]; intros k; cbn [climb]; samed. Qed.
Lemma touch_from_tally count k : preserves (same tally_frame) (touch_from count k).
Proof. unfold touch_from. samed. apply climb_tally. Qed.

Context {TP : TextPatch}.
Lemma comment_edit_tally o c p : preserves (same tally_frame) (comment_edit o c p).
Proof. unfold comment_edit, calculate_discussion_payout_time, get_comment_key, get_comment. samed. Qed.

Lemma comment_new_tally o auth parent s u s' :
  votes_tally s → HARDFORK_0_6_REVERSE_AUCTION_TIME ≤ gpo_time (gpo s) →
  ⟨ comment_new o auth parent, s ⟩ ⇓ ⟨ u, s' ⟩ → votes_tally s'.
Proof.
  intros Hok Hnow (s1 & w & hf12 & hf17 & E1 & E2 & Hnew & Hr)%comment_new_runs. cbv zeta in Hr. injection E2 as EV ER.
  set (k := (comment_author o, comment_permlink o)) in *. set (c := make_comment _ _ _ _ _ _ _) in *.
  assert (same tally_frame (add_row comments k c s1) s') as Hs.
  { destruct parent; [by apply touch_from_tally in Hr|by subst]. }
  apply (same_tally _ _ Hs). unfold votes_tally, fund_of, tallies. db_fields. rewrite E1, EV, ER, fmap_insert.
  assert (tally_of c = Tally (next_id (comments s)) (gpo_time (gpo s)) (cmt_cashout_time c) 0 0 0 0) as ->.
  { unfold c, make_comment, tally_of. by destruct parent, hf17, (_ <? _), (is_utf8 _). }
  apply (tally_new _ _ _ _ Hok); try done. unfold tallies. by rewrite lookup_fmap, Hnew.
Qed.

Lemma remove_votes_rows l s u s' :
  ⟨ mfor (remove comment_votes) l, s ⟩ ⇓ ⟨ u, s' ⟩ →
  comments s' = comments s ∧ reward_funds s' = reward_funds s ∧
  ∀ k, rows (comment_votes s') !! k = if bool_decide (k ∈ l) then None else rows (comment_votes s) !! k.
Proof.
  revert s. induction l as [|q l IH]; intros s Hr; cbn [mfor] in Hr; [by apply runs_ret in Hr as [_ <-]|].
  apply runs_bind in Hr as (? & ? & ->%runs_remove & Hr). apply IH in Hr as (H1 & H2 & H3). split_and!; [done|done|].
  intros k. rewrite H3. db_fields. destruct (decide (k ∈ l)) as [Hl|Hl].
  - rewrite !bool_decide_true; [done|by right|done].
  - rewrite bool_decide_false by done. destruct (decide (k = q)) as [->|Hne].
    + rewrite lookup_delete_eq, bool_decide_true by left. done.
    + rewrite lookup_delete_ne, bool_decide_false by (done || by intros [?|?]%elem_of_cons). done.
Qed.

Lemma elem_of_votes_on id s k : k ∈ votes_on id s ↔ k.1 = id ∧ ∃ v, rows (comment_votes s) !! k = Some v.
Proof.
  unfold votes_on. rewrite list_elem_of_fmap. setoid_rewrite merge_sort_Permutation. setoid_rewrite list_elem_of_fmap.
  setoid_rewrite list_elem_of_filter. setoid_rewrite list_elem_of_fmap. split.
  - intros (x & -> & (y & -> & E & [q v] & -> & Hq%elem_of_map_to_list)). cbn in *. split; [done|]. exists v. by destruct q; cbn in *; subst.
  - intros [E [v Hv]]. exists k.2. split; [by destruct k; cbn in *; subst|]. exists k. split; [done|]. split; [done|].
    exists (k, v). split; [done|]. by apply elem_of_map_to_list.
Qed.

Lemma remove_votes_drop id s u s' :
  ⟨ mfor (remove comment_votes) (votes_on id s), s ⟩ ⇓ ⟨ u, s' ⟩ →
  comments s' = comments s ∧ reward_funds s' = reward_funds s ∧ rows (comment_votes s') = drop_votes id (rows (comment_votes s)).
Proof.
  intros (H1 & H2 & H3)%remove_votes_rows. split_and!; [done|done|]. apply map_eq. intros k. rewrite H3. unfold drop_votes.
  destruct (rows (comment_votes s) !! k) as [v|] eqn:Hk.
  - case_bool_decide as Hin; rewrite elem_of_votes_on in Hin; symmetry.
    + apply map_lookup_filter_None. right. intros w _ Hne. by apply Hne, Hin.
    + apply map_lookup_filter_Some. split; [done|]. intros E. apply Hin. eauto.
  - symmetry. destruct (bool_decide _); apply map_lookup_filter_None; by left.
Qed.

Lemma deleteComment_tally o s u s' :
  votes_tally s → ⟨ deleteComment_apply o, s ⟩ ⇓ ⟨ u, s' ⟩ → votes_tally s'.
Proof.
  intros Hok. unfold deleteComment_apply, has_hardfork, get_comment, get_account. intros Hr.
  apply runs_bind in Hr as (? & ? & [-> ->]%runs_asks & Hr). apply runs_bind in Hr as ([] & s1 & Hr1 & Hr).
  assert (s1 = s) as ->.
  { clear Hr. apply runs_when in Hr1. destruct (hardfork_active s HARDFORK_0_10); [|done].
    by apply runs_bind in Hr1 as (? & ? & [_ ->]%runs_getr & ->%not_challenged_reads). }
  clear Hr1. apply runs_bind in Hr as (c & ? & [Hk ->]%runs_getr & Hr).
  apply runs_bind in Hr as (? & ? & [_ ->]%runs_assert & Hr).
  apply runs_bind in Hr as (? & ? & [-> ->]%runs_asks & Hr). apply runs_bind in Hr as (? & ? & [_ ->]%runs_when_assert & Hr).
  apply runs_bind in Hr as (? & ? & [_ ->]%runs_when_assert & Hr).
  destruct (_ <? _); [by apply runs_ret in Hr as [_ <-]|].
  apply runs_bind in Hr as (l & ? & [-> ->]%runs_asks & Hr).
  apply runs_bind in Hr as ([] & s1 & (E1 & E2 & E3)%remove_votes_drop & Hr).
  apply runs_bind in Hr as (? & ? & [-> ->]%runs_asks & Hr). apply runs_bind in Hr as (? & s2 & Hr2 & ->%runs_remove).
  assert (same tally_frame s1 s2) as Hs.
  { apply runs_when in Hr2. destruct (_ && _); [by apply touch_from_tally in Hr2|by subst]. }
  injection Hs as ET EV ER EN _. unfold votes_tally, tallies, fund_of. db_fields. rewrite fmap_delete, ET, EV, ER, EN, E1, E2, E3.
  apply (tally_drop _ _ _ _ Hok _ (tally_of c)). by apply tallies_some.
Qed.

Lemma current_vote_reads key s v s' :
  hardfork_active s HARDFORK_0_12 = true → ⟨ current_vote key, s ⟩ ⇓ ⟨ v, s' ⟩ → s' = s ∧ rows (comment_votes s) !! key = v.
Proof.
  intros H12 (o & ? & [-> ->]%runs_find & Hr)%runs_bind. destruct (rows (comment_votes s) !! key) as [cv|]; [|by apply runs_ret in Hr as [<- <-]].
  destruct (_ =? _); [|by apply runs_ret in Hr as [<- <-]]. unfold has_hardfork in Hr.
  apply runs_bind in Hr as (? & ? & [-> ->]%runs_asks & Hr). rewrite H12 in Hr.
  by apply runs_bind in Hr as (? & ? & [? _]%runs_assert & _).
Qed.

Lemma vote_tally o s u s' :
  hardfork_active s HARDFORK_0_1 = true → hardfork_active s HARDFORK_0_12 = true →
  hardfork_active s HARDFORK_0_17 = true → hardfork_active s HARDFORK_0_19 = true →
  votes_tally s → ⟨ vote_apply o, s ⟩ ⇓ ⟨ u, s' ⟩ → votes_tally s'.
Proof.
  intros H1 H12 H17 H19 Hok. unfold vote_apply, has_hardfork, get_comment, get_account, head_block_time, get_dynamic_global_properties. intros Hr.
  apply runs_bind in Hr as (c & ? & [Hk ->]%runs_getr & Hr). apply runs_bind in Hr as (voter & ? & [_ ->]%runs_getr & Hr).
  apply runs_bind in Hr as (? & ? & ->%not_challenged_reads & Hr). apply runs_bind in Hr as (? & ? & [_ ->]%runs_assert & Hr).
  apply runs_bind in Hr as (? & ? & [_ ->]%runs_when_assert & Hr). do 4 (apply runs_bind in Hr as (? & ? & [-> ->]%runs_asks & Hr)).
  apply runs_bind in Hr as (archived & s1 & Ha & Hr). assert (s1 = s) as ->.
  { clear Hr. rewrite H12 in Ha. by apply runs_bind in Ha as (? & ? & ->%calculate_discussion_payout_time_reads & [_ <-]%runs_ret). }
  destruct archived; [by apply runs_ret in Hr as [_ <-]|].
  apply runs_bind in Hr as (? & ? & [-> ->]%runs_asks & Hr). cbv zeta in Hr.
  apply runs_bind in Hr as (? & ? & [_ ->]%runs_when_assert & Hr). apply runs_bind in Hr as (? & ? & [-> ->]%runs_asks & Hr).
  apply runs_bind in Hr as (power & ? & [_ ->]%runs_lift & Hr). apply runs_bind in Hr as (a & ? & [_ ->]%runs_lift & Hr).
  apply runs_bind in Hr as (cv & ? & [-> Hcv]%(current_vote_reads _ _ _ _ H12) & Hr). destruct cv as [cv|].
  - by eapply vote_change_tally.
  - by eapply vote_new_tally.
Qed.

Lemma comment_apply_tally o s u s' :
  HARDFORK_0_6_REVERSE_AUCTION_TIME ≤ gpo_time (gpo s) → votes_tally s → ⟨ comment_apply o, s ⟩ ⇓ ⟨ u, s' ⟩ → votes_tally s'.
Proof.
  intros Hnow Hok Hr. unfold comment_apply, has_hardfork, get_account in Hr.
  apply runs_bind in Hr as (? & ? & [-> ->]%runs_asks & Hr). apply runs_bind in Hr as (? & ? & [_ ->]%runs_when_assert & Hr).
  apply runs_bind in Hr as (? & ? & [-> ->]%runs_find & Hr). apply runs_bind in Hr as (auth & ? & [_ ->]%runs_getr & Hr).
  apply runs_bind in Hr as (? & ? & ->%not_challenged_reads & Hr).
  apply runs_bind in Hr as (parent & ? & [-> _]%find_parent_spec & Hr).
  apply runs_bind in Hr as (? & ? & [-> ->]%runs_asks & Hr). apply runs_bind in Hr as (? & ? & [_ ->]%runs_when_assert & Hr).
  match type of Hr with ⟨ match ?x with _ => _ end, _ ⟩ ⇓ ⟨ _, _ ⟩ => destruct x end.
  - apply comment_edit_tally in Hr. by eapply same_tally.
  - by eapply comment_new_tally.
Qed.

(** C21. The tally of votes: every vote on record belongs to a comment; as long as a
    comment can be paid its net SCORE and its count of votes are the sums over
    its votes; the weights of its curators add up to no more than its total
    weight, and that to no more than the curve gives for the SCORE that voted.
    Every operation on comments and votes keeps this, since hard fork 19. *)
Theorem vote_tally_kept s u s' :
  hardfork_active s HARDFORK_0_1 = true → hardfork_active s HARDFORK_0_12 = true →
  hardfork_active s HARDFORK_0_17 = true → hardfork_active s HARDFORK_0_19 = true →
  HARDFORK_0_6_REVERSE_AUCTION_TIME ≤ gpo_time (gpo s) → votes_tally s →
  (∀ o, ⟨ vote_apply o, s ⟩ ⇓ ⟨ u, s' ⟩ → votes_tally s') ∧
  (∀ o, ⟨ comment_apply o, s ⟩ ⇓ ⟨ u, s' ⟩ → votes_tally s') ∧
  (∀ o, ⟨ deleteComment_apply o, s ⟩ ⇓ ⟨ u, s' ⟩ → votes_tally s') ∧
  (∀ o, ⟨ comment_options_apply o, s ⟩ ⇓ ⟨ u, s' ⟩ → votes_tally s').
Proof.
  intros H1 H12 H17 H19 Hnow Hok. split_and!; intros o.
  - by apply vote_tally.
  - by apply comment_apply_tally.
  - by apply deleteComment_tally.
  - intros Hr%comment_options_tally. by eapply same_tally.
Qed.
End votes.

(** * Examples *)

Module VoteExamples.
Import FcRef DiscussionExamples.

(** The post fund with a square root for curators; Bob has SCORE. *)
Definition post_fund : reward_fund_object :=
  {| rwf_id := 0; rwf_name := "post"; rwf_reward_balance := coin 0; rwf_recent_claims := 0; rwf_last_update := 0;
     rwf_content_constant := CONTENT_CONSTANT_HF0; rwf_percent_curationRewards := PERCENT_1 * 25;
     rwf_percent_content_rewards := PERCENT_100; rwf_authorReward_curve := linear; rwf_curationReward_curve := square_root |}.
Definition curated : database :=
  posting_time <| reward_funds := Table {["post"%string := post_fund]} 1 |>
    <| accounts ::= λ t, Table (<["bob"%string := sample_account 2 "bob" 0 10 1000000000000]> (rows t)) (next_id t) |>
    <| gpo ::= λ g, g <| gpo_vote_power_reserve_rate := 10 |> |>.
Definition curated_post : database := outcome (comment_apply alice_posts) curated.
Definition bob_votes : vote_operation :=
  {| vote_voter := "bob"; vote_author := "alice"; vote_permlink := "hello"; vote_weight := PERCENT_100 |}.
Definition bob_voted : database := outcome (vote_apply bob_votes) (curated_post <| gpo ::= λ g, g <| gpo_time := 100600 |> |>).

Example bob_voted_sums :
  (λ c, (cmt_net_SCOREreward c, cmt_total_vote_weight c, cmt_net_votes c)) <$> rows (comments bob_voted) !! ("alice", "hello")%string
  = Some (13000000000, 115127, 1).
Proof. vm_compute. reflexivity. Qed.

Lemma curated_tally : votes_tally (F:=fc_ref) curated.
Proof.
  assert (rows (comments curated) = ∅) as E1 by reflexivity. assert (rows (comment_votes curated) = ∅) as E2 by reflexivity.
  unfold votes_tally, tallies. rewrite E1, E2, fmap_empty. split.
  - intros f Hf. assert (fund_of curated = Some post_fund) as E by reflexivity. rewrite E in Hf. injection Hf as <-.
    cbn [post_fund rwf_content_constant]. unfold CONTENT_CONSTANT_HF0. lia.
  - intros k v Hk. by rewrite lookup_empty in Hk.
  - intros k v Hk. by rewrite lookup_empty in Hk.
  - intros k v Hk. by rewrite lookup_empty in Hk.
  - intros k t k' t' Hk. by rewrite lookup_empty in Hk.
Qed.

(** Bob votes for Alice's post, ten minutes after it. *)
Lemma vote_tally_kept_witness : votes_tally (F:=fc_ref) bob_voted.
Proof.
  assert (⟨ comment_apply alice_posts, curated ⟩ ⇓ ⟨ tt, curated_post ⟩) as Ha by runs_ok.
  set (later := curated_post <| gpo ::= λ g, g <| gpo_time := 100600 |> |>).
  assert (⟨ vote_apply bob_votes, later ⟩ ⇓ ⟨ tt, bob_voted ⟩) as Hb by runs_ok.
  assert (votes_tally curated_post) as Hp.
  { refine (comment_apply_tally alice_posts _ _ _ _ curated_tally Ha). apply Z.leb_le. vm_compute. reflexivity. }
  assert (same tally_frame curated_post later) as Hs by (vm_compute; reflexivity).
  assert (hardfork_active later HARDFORK_0_1 = true) as H1 by (vm_compute; reflexivity).
  assert (hardfork_active later HARDFORK_0_12 = true) as H12 by (vm_compute; reflexivity).
  assert (hardfork_active later HARDFORK_0_17 = true) as H17 by (vm_compute; reflexivity).
  assert (hardfork_active later HARDFORK_0_19 = true) as H19 by (vm_compute; reflexivity).
  assert (HARDFORK_0_6_REVERSE_AUCTION_TIME ≤ gpo_time (gpo later)) as Hnow by (apply Z.leb_le; vm_compute; reflexivity).
  destruct (vote_tally_kept later tt bob_voted H1 H12 H17 H19 Hnow (same_tally _ _ Hs Hp)) as [Hk _]. exact (Hk bob_votes Hb).
Defined.
End VoteExamples.
