(* ===== verification/Cashout.v ===== *)
(** The payout of comments: [pay_curators], [cashout_comment_helper] and
    [process_comment_cashout] of [chain/database.cpp].

    Each block pays the comments that are due, oldest first.  A comment is paid
    its share of a reward fund; the share is split between the curators, by the
    weight of their votes, the beneficiaries the author named, and the author.
    Since hard fork 17 the share is taken from a snapshot of the fund made before
    the first payout of the block, and what was paid is written back at the end. *)

From S2P Require Import Prelude Fc Config Asset Flat Authority Operations Objects Database Samples Ledger Frame Supply Rewards Quiet Same Comments Discussions VoteTally.

(** * Sums over lists *)

Fixpoint zsum {A} (f : A → Z) (l : list A) : Z := match l with [] => 0 | x :: l => f x + zsum f l end.

Section zsum.
Context {A : Type} (f : A → Z).
Lemma zsum_app l l' : zsum f (l ++ l') = zsum f l + zsum f l'.
Proof. induction l as [|x l IH]; cbn; [done|]. rewrite IH. lia. Qed.
Lemma zsum_insert l i x y : l !! i = Some x → zsum f (<[i := y]> l) = zsum f l - f x + f y.
Proof. revert i. induction l as [|z l IH]; intros [|i] Hi; cbn in *; simplify_eq; [lia|]. specialize (IH i Hi). unfold insert in *. lia. Qed.
Lemma zsum_perm l l' : l ≡ₚ l' → zsum f l = zsum f l'.
Proof. induction 1; cbn; lia. Qed.
Lemma zsum_zero l : Forall (λ x, f x = 0) l → zsum f l = 0.
Proof. induction 1; cbn; lia. Qed.
Lemma zsum_nonneg l : Forall (λ x, 0 ≤ f x) l → 0 ≤ zsum f l.
Proof. induction 1; cbn; lia. Qed.
Lemma zsum_map_sum `{Countable K} (m : gmap K A) : zsum f (snd <$> map_to_list m) = map_sum f m.
Proof.
  induction m as [|k v m Hk IH] using map_ind; [by rewrite map_to_list_empty|].
  rewrite (zsum_perm _ (v :: (snd <$> map_to_list m))) by (by rewrite map_to_list_insert).
  rewrite map_sum_insert_new by done. cbn [zsum]. lia.
Qed.
End zsum.

Section cashout_model.
Context {F : Fc}.

(** [database::to_TSD], libraries/chain/database.cpp:2069-2072 *)
Definition db_to_TSD (TME : asset) : DB asset :=
  fh ← get_feed_history; lift (to_TSD (fdh_current_median_history fh) TME).

(** [database::adjust_total_payout], libraries/chain/database.cpp:1461-1471 *)
Definition adjust_total_payout (cur : ckey) (TSD_created curator_TSD_value beneficiary_value : asset) : DB unit :=
  modify comments cur (λ c,
    t ← (if symbol (cmt_total_payout_value c) =? symbol TSD_created
         then asset_add (cmt_total_payout_value c) TSD_created else Ok (cmt_total_payout_value c));
    u ← asset_add (cmt_curator_payout_value c) curator_TSD_value;
    b ← asset_add (cmt_beneficiary_payout_value c) beneficiary_value;
    Ok (c <| cmt_total_payout_value := t |> <| cmt_curator_payout_value := u |> <| cmt_beneficiary_payout_value := b |>)).

(** ** The curators *)

(** [comment_vote_index::by_comment_weight_voter], libraries/chain/include/node/chain/comment_object.hpp:157-164 *)
Definition by_weight_voter : comment_vote_object → comment_vote_object → comparison :=
  then_by (descending (by_key cvo_weight Z.compare)) (by_key cvo_voter Z.compare).
#[export] Instance by_weight_voter_order : IndexOrder by_weight_voter.
Proof. unfold by_weight_voter. apply _. Qed.
(** The votes on a comment in the order of that index. *)
Definition weighed_votes (comment : Z) (s : database) : list comment_vote_object :=
  snd <$> merge_sort (row_le (at_most by_weight_voter))
    (filter (λ p, cvo_comment p.2 = comment) (map_to_list (rows (comment_votes s)))).

(** What a curator gets for a vote. *)
Definition curator_claim (max_rewards total_weight weight : Z) : result Z :=
  u128_to_u64 (u128_div (u128_mul (u128 max_rewards) (u128 weight)) (u128 total_weight)).

(** One round of the loop of [pay_curators]: the rewards not claimed yet. *)
Definition pay_curator (c : comment_object) (max_rewards unclaimed : Z) (v : comment_vote_object) : DB Z :=
  claim ← lift (curator_claim max_rewards (cmt_total_vote_weight c) (cvo_weight v));
  if 0 <? claim then
    unclaimed ← lift (safe_sub unclaimed (wrap_i64 claim));
    voter ← get_account_by_id (cvo_voter v);
    hf17 ← has_hardfork HARDFORK_0_17;
    reward ← createTMEfundForSCORE voter (Asset (wrap_i64 claim) SYMBOL_COIN) hf17;
    push_virtual_operation (curationReward_
      {| curationReward_curator := voter; curationReward_reward := reward;
         curationReward_comment_author := cmt_author c; curationReward_comment_permlink := cmt_permlink c |});;
    modify accounts voter (λ a, x ← safe_add (acc_curationRewards a) (wrap_i64 claim); Ok (a <| acc_curationRewards := x |>));;
    mret unclaimed
  else mret unclaimed.
Fixpoint pay_votes (c : comment_object) (max_rewards unclaimed : Z) (l : list comment_vote_object) : DB Z :=
  match l with
  | [] => mret unclaimed
  | v :: l => unclaimed ← pay_curator c max_rewards unclaimed v; pay_votes c max_rewards unclaimed l
  end.

(** [database::pay_curators], libraries/chain/database.cpp:1479-1522 *)
Definition pay_curators (c : comment_object) (max_rewards : Z) : DB (Z * Z) :=
  if negb (cmt_allow_curationRewards c) then mret (0, 0)
  else
    l ← (if 0 <? cmt_total_vote_weight c then asks (weighed_votes (cmt_id c)) else mret []);
    unclaimed ← pay_votes c max_rewards max_rewards l;
    paid ← lift (safe_sub max_rewards unclaimed);
    mret (unclaimed, paid).

(** ** One comment *)

(** The loop over the beneficiaries: what they got of [author_tokens]. *)
Fixpoint pay_beneficiaries (c : comment_object) (author_tokens total : Z) (l : list beneficiary_route_type) : DB Z :=
  match l with
  | [] => mret total
  | b :: l =>
      x ← lift (safe_mul author_tokens (beneficiary_weight b));
      benefactor_tokens ← lift (safe_div x PERCENT_100);
      _ ← get_account (beneficiary_account b);
      hf17 ← has_hardfork HARDFORK_0_17;
      created ← createTMEfundForSCORE (beneficiary_account b) (Asset benefactor_tokens SYMBOL_COIN) hf17;
      push_virtual_operation (comment_benefactor_reward_
        {| comment_benefactor_reward_benefactor := beneficiary_account b; comment_benefactor_reward_author := cmt_author c;
           comment_benefactor_reward_permlink := cmt_permlink c; comment_benefactor_reward_reward := created |});;
      total ← lift (safe_add total benefactor_tokens);
      pay_beneficiaries c author_tokens total l
  end.

(** The author's share, half of the part in TSD the author asked for and the rest
    in SCORE, and the records of the payout. *)
Definition pay_author (k : ckey) (c : comment_object) (author_tokens curation_tokens total_beneficiary claimed_reward : Z) : DB unit :=
  x ← lift (safe_mul author_tokens (cmt_percent_TSD c));
  TSDvalueInTME ← lift (safe_div x (2 * PERCENT_100));
  SCOREvalueInTME ← lift (safe_sub author_tokens TSDvalueInTME);
  _ ← get_account (cmt_author c);
  hf17 ← has_hardfork HARDFORK_0_17;
  created ← createTMEfundForSCORE (cmt_author c) (Asset SCOREvalueInTME SYMBOL_COIN) hf17;
  TSDpayout ← create_TSD (cmt_author c) (Asset TSDvalueInTME SYMBOL_COIN) hf17;
  TME ← lift (asset_add TSDpayout.2 (Asset SCOREvalueInTME SYMBOL_COIN));
  worth ← db_to_TSD TME;
  author_worth ← lift (asset_add TSDpayout.1 worth);
  curator_worth ← db_to_TSD (Asset curation_tokens SYMBOL_COIN);
  beneficiary_worth ← db_to_TSD (Asset total_beneficiary SYMBOL_COIN);
  adjust_total_payout k author_worth curator_worth beneficiary_worth;;
  push_virtual_operation (authorReward_
    {| authorReward_author := cmt_author c; authorReward_permlink := cmt_permlink c; authorReward_TSDpayout := TSDpayout.1;
       authorReward_TMEpayout := TSDpayout.2; authorReward_SCOREpayout := created |});;
  claimed_worth ← db_to_TSD (Asset claimed_reward SYMBOL_COIN);
  push_virtual_operation (comment_reward_
    {| comment_reward_author := cmt_author c; comment_reward_permlink := cmt_permlink c; comment_reward_payout := claimed_worth |});;
  modify comments k (λ c, x ← safe_add (cmt_authorRewards c) author_tokens; Ok (c <| cmt_authorRewards := x |>));;
  modify accounts (cmt_author c) (λ a, x ← safe_add (acc_posting_rewards a) author_tokens; Ok (a <| acc_posting_rewards := x |>)).

(** The split of the reward of a comment: what of it was claimed. *)
Definition pay_reward (k : ckey) (c : comment_object) (reward : Z) : DB Z :=
  percent ← get_curationRewards_percent c;
  curation_tokens ← lift (u128_to_u64 (u128_div (u128_mul (u128 reward) (u128 percent)) (u128 PERCENT_100)));
  let curation_tokens := wrap_i64 curation_tokens in
  tokens ← lift (u128_to_u64 (u128 reward));
  author_tokens ← lift (safe_sub (wrap_i64 tokens) curation_tokens);
  curators ← pay_curators c curation_tokens;
  author_tokens ← lift (safe_add author_tokens curators.1);
  claimed_reward ← lift (safe_add author_tokens curators.2);
  total_beneficiary ← pay_beneficiaries c author_tokens 0 (cmt_beneficiaries c);
  author_tokens ← lift (safe_sub author_tokens total_beneficiary);
  pay_author k c author_tokens curators.2 total_beneficiary claimed_reward;;
  mret claimed_reward.

(** [fill_comment_reward_context_local_state], libraries/chain/database.cpp:1524-1529 *)
Definition fill_comment_reward_context_local_state (ctx : comment_reward_context) (comment : comment_object) : comment_reward_context :=
  ctx <| ctx_SCOREreward := cmt_net_SCOREreward comment |> <| ctx_reward_weight := cmt_reward_weight comment |>
    <| ctx_max_TSD := cmt_max_accepted_payout comment |>.

(** The comment as it is after its payout. *)
Definition paid_comment (now : Z) (hf12 hf17 : bool) (c : comment_object) : comment_object :=
  let cashout :=
    if hf17 then tps_max
    else if str_eqb (cmt_parent_author c) ROOT_POST_PARENT then
      if hf12 && (cmt_last_payout c =? tps_min) then tps_add now SECOND_CASHOUT_WINDOW else tps_max
    else cmt_cashout_time c in
  c <| cmt_net_SCOREreward ::= λ n, if 0 <? n then 0 else n |> <| cmt_children_abs_SCOREreward := 0 |>
    <| cmt_abs_SCOREreward := 0 |> <| cmt_vote_SCOREreward := 0 |> <| cmt_total_vote_weight := 0 |>
    <| cmt_max_cashout_time := tps_max |> <| cmt_cashout_time := cashout |> <| cmt_last_payout := now |>.

(** The votes of a comment that will be paid again are marked, the others go. *)
Definition close_vote (k : ckey) (v : Z * Z) : DB unit :=
  hf12 ← has_hardfork HARDFORK_0_12;
  c ← get comments k;
  again ← (if hf12 : bool then t ← calculate_discussion_payout_time c; mret (negb (t =? tps_max)) else mret true);
  if again : bool then modify comment_votes v (λ cv, Ok (cv <| cvo_num_changes := -1 |>))
  else remove comment_votes v.

(** The rest of [cashout_comment_helper], after the reward. *)
Definition close_comment (k : ckey) : DB unit :=
  now ← head_block_time;
  hf12 ← has_hardfork HARDFORK_0_12;
  hf17 ← has_hardfork HARDFORK_0_17;
  modify comments k (λ c, Ok (paid_comment now hf12 hf17 c));;
  c ← get comments k;
  push_virtual_operation (comment_payout_update_
    {| comment_payout_update_author := cmt_author c; comment_payout_update_permlink := cmt_permlink c |});;
  l ← asks (votes_on (cmt_id c));
  mfor (close_vote k) l.

(** The payout of a comment with a positive reward. *)
Definition cashout_positive (ctx : comment_reward_context) (k : ckey) (c : comment_object) : DB Z :=
  let ctx := fill_comment_reward_context_local_state ctx c in
  hf17 ← has_hardfork HARDFORK_0_17;
  ctx ← (if hf17 : bool then
           rf ← get_reward_fund c;
           mret (ctx <| ctx_reward_curve := rwf_authorReward_curve rf |> <| ctx_content_constant := rwf_content_constant rf |>)
         else mret ctx);
  reward ← lift (get_SCORE_reward ctx);
  claimed_reward ← (if 0 <? u128 (wrap_i64 reward) then pay_reward k c (wrap_i64 reward) else mret 0);
  mwhen (negb hf17) (adjust_SCOREreward2 (evaluate_default (u128 (cmt_net_SCOREreward c))) 0);;
  mret claimed_reward.

(** [database::cashout_comment_helper], libraries/chain/database.cpp:1531-1654 *)
Definition cashout_comment_helper (ctx : comment_reward_context) (k : ckey) : DB Z :=
  c ← get comments k;
  claimed_reward ← (if 0 <? cmt_net_SCOREreward c then cashout_positive ctx k c else mret 0);
  close_comment k;;
  mret claimed_reward.

(** ** All comments that are due *)

(** [reward_fund_context], libraries/chain/database.cpp:71-76 *)
Record reward_fund_context := Make_reward_fund_context {
  rfx_recent_claims : Z;
  rfx_reward_balance : asset;
  rfx_TME_awarded : Z;
}.
#[export] Instance eta_reward_fund_context : Eta reward_fund_context :=
  λ r, Make_reward_fund_context (rfx_recent_claims r) (rfx_reward_balance r) (rfx_TME_awarded r).

(** [RECENT_RSCORE_DECAY_RATE_HF17], libraries/protocol/include/node/protocol/config.hpp:177-177 *)
Definition RECENT_RSCORE_DECAY_RATE_HF17 : Z := 30 * 24 * 60 * 60.
(** [RECENT_RSCORE_DECAY_RATE_HF19], libraries/protocol/include/node/protocol/config.hpp:178-178 *)
Definition RECENT_RSCORE_DECAY_RATE_HF19 : Z := 15 * 24 * 60 * 60.

(** The recent claims of a fund, with the passed time taken off. *)
Definition decay_claims (now : Z) (hf19 : bool) (rfo : reward_fund_object) : reward_fund_object :=
  let decay_rate := if hf19 then RECENT_RSCORE_DECAY_RATE_HF19 else RECENT_RSCORE_DECAY_RATE_HF17 in
  let lost := u128_div (u128_mul (rwf_recent_claims rfo) (u128 (tps_diff now (rwf_last_update rfo)))) (u128 decay_rate) in
  rfo <| rwf_recent_claims ::= λ c, u128_sub c lost |> <| rwf_last_update := now |>.

(** The reward funds by id. *)
Definition funds_by_id (s : database) : list account_name :=
  fst <$> merge_sort (row_le (at_most (by_key rwf_id Z.compare))) (map_to_list (rows (reward_funds s))).
(** [get< reward_fund_object, by_id >( id )] *)
Definition fund_with_id (id : Z) (s : database) : option account_name :=
  fst <$> head (filter (λ p, rwf_id p.2 = id) (map_to_list (rows (reward_funds s)))).
Definition get_fund_by_id (id : Z) : DB account_name :=
  k ← asks (fund_with_id id);
  match k with Some k => mret k | None => throw (out_of_range "unknown key") end.

(** The first loop: the funds' claims decay, and the funds are copied. *)
Fixpoint snapshot_funds (l : list account_name) (funds : list reward_fund_context) : DB (list reward_fund_context) :=
  match l with
  | [] => mret funds
  | k :: l =>
      now ← head_block_time;
      hf19 ← has_hardfork HARDFORK_0_19;
      modify reward_funds k (λ rfo, Ok (decay_claims now hf19 rfo));;
      rfo ← get reward_funds k;
      snapshot_funds l (funds ++ [Make_reward_fund_context (rwf_recent_claims rfo) (rwf_reward_balance rfo) 0])
  end.

(** [funds\[ i \]], with an error where the code indexes past the end. *)
Definition fund_at (funds : list reward_fund_context) (i : Z) : DB reward_fund_context :=
  match funds !! Z.to_nat i with Some f => mret f | None => throw (out_of_range "funds") end.

(** [comment_index::by_cashout_time], libraries/chain/include/node/chain/comment_object.hpp:193-198 *)
Definition by_cashout_time : comment_object → comment_object → comparison :=
  then_by (by_key cmt_cashout_time Z.compare) (by_key cmt_id Z.compare).
#[export] Instance by_cashout_time_order : IndexOrder by_cashout_time.
Proof. unfold by_cashout_time. apply _. Qed.
Definition comments_due (s : database) : list comment_object :=
  snd <$> merge_sort (row_le (at_most by_cashout_time))
    (filter (λ p, cmt_cashout_time p.2 ≤ gpo_time (gpo s)) (map_to_list (rows (comments s)))).
(** [comment_index::by_root], libraries/chain/include/node/chain/comment_object.hpp:206-211 *)
Definition by_root_id : comment_object → comment_object → comparison :=
  then_by (by_key cmt_root_comment Z.compare) (by_key cmt_id Z.compare).
#[export] Instance by_root_id_order : IndexOrder by_root_id.
Proof. unfold by_root_id. apply _. Qed.
Definition comments_of_root (root : Z) (s : database) : list ckey :=
  fst <$> merge_sort (row_le (at_most by_root_id))
    (filter (λ p, cmt_root_comment p.2 = root) (map_to_list (rows (comments s)))).

(** The second loop: the claims of the comments that will be paid. *)
Fixpoint add_claims (l : list comment_object) (funds : list reward_fund_context) : DB (list reward_fund_context) :=
  match l with
  | [] => mret funds
  | c :: l =>
      if 0 <? cmt_net_SCOREreward c then
        rf ← get_reward_fund c;
        f ← fund_at funds (rwf_id rf);
        let claim := evaluate_reward_curve (u128 (cmt_net_SCOREreward c)) (rwf_authorReward_curve rf) (rwf_content_constant rf) in
        add_claims l (<[Z.to_nat (rwf_id rf) := f <| rfx_recent_claims ::= λ t, u128_add t claim |>]> funds)
      else add_claims l funds
  end.

(** The members of a new [comment_reward_context], and the price. *)
Definition fresh_context (price : price) : comment_reward_context :=
  {| ctx_SCOREreward := 0; ctx_reward_weight := 0; ctx_max_TSD := Asset 0 SYMBOL_COIN; ctx_totalSCOREreward2 := 0;
     ctx_total_reward_fund_TME := Asset 0 SYMBOL_COIN; ctx_current_TME_price := price; ctx_reward_curve := quadratic;
     ctx_content_constant := u128 CONTENT_CONSTANT_HF0 |}.

(** A payout from the snapshot of the fund. *)
Definition cashout_from_fund (price : price) (k : ckey) (c : comment_object) (funds : list reward_fund_context) : DB (list reward_fund_context) :=
  rf ← get_reward_fund c;
  f ← fund_at funds (rwf_id rf);
  let ctx := fresh_context price <| ctx_totalSCOREreward2 := rfx_recent_claims f |>
               <| ctx_total_reward_fund_TME := rfx_reward_balance f |> in
  reward ← cashout_comment_helper ctx k;
  awarded ← lift (safe_add (rfx_TME_awarded f) reward);
  mret (<[Z.to_nat (rwf_id rf) := f <| rfx_TME_awarded := awarded |>]> funds).

(** Before hard fork 17, the payouts of a whole discussion from the global fund. *)
Definition cashout_from_gpo (price : price) (k : ckey) : DB unit :=
  p ← get_dynamic_global_properties;
  let ctx := fresh_context price <| ctx_totalSCOREreward2 := gpo_totalSCOREreward2 p |>
               <| ctx_total_reward_fund_TME := gpo_total_reward_fund_TME p |> in
  reward ← cashout_comment_helper ctx k;
  mwhen (0 <? reward)
    (modify1 gpo (λ p,
       x ← safe_sub (amount (gpo_total_reward_fund_TME p)) reward;
       Ok (p <| gpo_total_reward_fund_TME ::= λ a, Asset x (symbol a) |>))).
Definition cashout_discussion (price : price) (c : comment_object) : DB unit :=
  l ← asks (comments_of_root (cmt_root_comment c));
  mfor (cashout_from_gpo price) l.

(** The loop over the comments that are due. *)
Fixpoint cashouts_from (fuel : nat) (price : price) (funds : list reward_fund_context) : DB (list reward_fund_context) :=
  match fuel with
  | O => mret funds
  | S fuel =>
      current ← asks (λ s, first_row (at_most by_cashout_time) (rows (comments s)));
      now ← head_block_time;
      match current with
      | Some (k, c) =>
          if cmt_cashout_time c <=? now then
            hf17 ← has_hardfork HARDFORK_0_17;
            funds ← (if hf17 : bool then cashout_from_fund price k c funds
                     else cashout_discussion price c;; mret funds);
            cashouts_from fuel price funds
          else mret funds
      | None => mret funds
      end
  end.

(** The last loop: the copies are written back. *)
Fixpoint write_back (i : Z) (funds : list reward_fund_context) : DB unit :=
  match funds with
  | [] => mret tt
  | f :: funds =>
      k ← get_fund_by_id i;
      modify reward_funds k (λ rfo,
        b ← asset_sub (rwf_reward_balance rfo) (Asset (rfx_TME_awarded f) SYMBOL_COIN);
        Ok (rfo <| rwf_recent_claims := rfx_recent_claims f |> <| rwf_reward_balance := b |>));;
      write_back (i + 1) funds
  end.

(** [FIRST_CASHOUT_TIME], libraries/chain/hardfork.d/0_7.hf:4-4 *)
Definition FIRST_CASHOUT_TIME : Z := HARDFORK_0_7.
(** [database::process_comment_cashout], libraries/chain/database.cpp:1656-1778 *)
Definition process_comment_cashout : DB unit :=
  started ← has_hardfork FIRST_CASHOUT_TIME;
  if negb started then mret tt
  else
    fh ← get_feed_history;
    let price := fdh_current_median_history fh in
    ids ← asks funds_by_id;
    funds ← snapshot_funds ids [];
    hf17 ← has_hardfork HARDFORK_0_17;
    funds ← (if hf17 : bool then l ← asks comments_due; add_claims l funds else mret funds);
    n ← asks (λ s, base.size (rows (comments s)));
    funds ← cashouts_from n price funds;
    write_back 0 funds.
End cashout_model.

(** * The books of a payout *)

Section books.
Context {F : Fc} {FL : FcLaws F}.

Lemma db_to_TSD_reads TME s a s' : ⟨ db_to_TSD TME, s ⟩ ⇓ ⟨ a, s' ⟩ → s' = s.
Proof. unfold db_to_TSD, get_feed_history. intros Hr. by db_inv. Qed.

Lemma get_account_by_id_reads id s n s' : ⟨ get_account_by_id id, s ⟩ ⇓ ⟨ n, s' ⟩ → s' = s ∧ account_with_id id s = Some n.
Proof.
  intros (o & ? & [-> ->]%runs_asks & Hr)%runs_bind. destruct (account_with_id id s); [|by apply runs_throw in Hr].
  by apply runs_ret in Hr as [-> <-].
Qed.

Lemma pay_curator_shifts c max u v s u' s' :
  ⟨ pay_curator c max u v, s ⟩ ⇓ ⟨ u', s' ⟩ → shifts (u' - u) 0 0 0 s s'.
Proof.
  unfold pay_curator. intros Hr. apply runs_bind in Hr as (claim & ? & [_ ->]%runs_lift & Hr).
  destruct (0 <? claim); [|apply runs_ret in Hr as [<- <-]; rewrite Z.sub_diag; apply shifts_refl].
  apply runs_bind in Hr as (u1 & ? & [[-> _]%safe_sub_ok ->]%runs_lift & Hr).
  apply runs_bind in Hr as (n & ? & [-> _]%get_account_by_id_reads & Hr). books Hr. cbn [amount] in *. add_shifts.
Qed.

Lemma pay_votes_shifts c max l u s u' s' :
  ⟨ pay_votes c max u l, s ⟩ ⇓ ⟨ u', s' ⟩ → shifts (u' - u) 0 0 0 s s'.
Proof.
  revert u s. induction l as [|v l IH]; intros u s Hr; cbn [pay_votes] in Hr.
  - apply runs_ret in Hr as [<- <-]. rewrite Z.sub_diag. apply shifts_refl.
  - apply runs_bind in Hr as (u1 & s1 & H1%pay_curator_shifts & H2%IH). add_shifts.
Qed.

Lemma pay_curators_shifts c max s r s' :
  ⟨ pay_curators c max, s ⟩ ⇓ ⟨ r, s' ⟩ → shifts (- r.2) 0 0 0 s s'.
Proof.
  unfold pay_curators. destruct (negb _); [intros [<- <-]%runs_ret; apply shifts_refl|]. intros Hr.
  apply runs_bind in Hr as (l & s1 & Hl & Hr). assert (s1 = s) as ->.
  { destruct (0 <? _); [by apply runs_asks in Hl as [_ ->]|by apply runs_ret in Hl as [_ <-]]. }
  apply runs_bind in Hr as (u & s1 & Hp%pay_votes_shifts & Hr). apply runs_bind in Hr as (p & ? & [[-> _]%safe_sub_ok ->]%runs_lift & Hr).
  apply runs_ret in Hr as [<- <-]. cbn [snd]. add_shifts.
Qed.

Lemma pay_beneficiaries_shifts c a l t s t' s' :
  ⟨ pay_beneficiaries c a t l, s ⟩ ⇓ ⟨ t', s' ⟩ → shifts (t - t') 0 0 0 s s'.
Proof.
  revert t s. induction l as [|b l IH]; intros t s Hr; cbn [pay_beneficiaries] in Hr.
  - apply runs_ret in Hr as [<- <-]. rewrite Z.sub_diag. apply shifts_refl.
  - apply runs_bind in Hr as (x & ? & [_ ->]%runs_lift & Hr). apply runs_bind in Hr as (y & ? & [_ ->]%runs_lift & Hr).
    apply runs_bind in Hr as (? & ? & [_ ->]%runs_getr & Hr). apply runs_bind in Hr as (hf & ? & [_ ->]%runs_asks & Hr).
    apply runs_bind in Hr as (r & s1 & H1%createTMEfundForSCORE_shifts & Hr). cbn [amount] in H1.
    apply runs_bind in Hr as (? & s2 & (H2 & _)%push_virtual_operation_shifts & Hr).
    apply runs_bind in Hr as (t1 & ? & [[-> _]%safe_add_ok ->]%runs_lift & Hr%IH). add_shifts.
Qed.

Lemma pay_author_shifts k c a cu b cl s u s' :
  ⟨ pay_author k c a cu b cl, s ⟩ ⇓ ⟨ u, s' ⟩ → shifts (- a) 0 0 0 s s'.
Proof.
  unfold pay_author, adjust_total_payout. intros Hr. apply runs_bind in Hr as (x & ? & [_ ->]%runs_lift & Hr).
  apply runs_bind in Hr as (t & ? & [_ ->]%runs_lift & Hr). apply runs_bind in Hr as (sc & ? & [[-> _]%safe_sub_ok ->]%runs_lift & Hr).
  apply runs_bind in Hr as (? & ? & [_ ->]%runs_getr & Hr). apply runs_bind in Hr as (hf & ? & [_ ->]%runs_asks & Hr).
  apply runs_bind in Hr as (cr & s1 & H1%createTMEfundForSCORE_shifts & Hr).
  apply runs_bind in Hr as (p & s2 & H2 & Hr). apply create_TSD_shifts in H2; [|done]. cbn [amount] in H1, H2.
  apply runs_bind in Hr as (x1 & ? & [_ ->]%runs_lift & Hr). apply runs_bind in Hr as (x2 & ? & ->%db_to_TSD_reads & Hr).
  apply runs_bind in Hr as (x3 & ? & [_ ->]%runs_lift & Hr). apply runs_bind in Hr as (x4 & ? & ->%db_to_TSD_reads & Hr).
  apply runs_bind in Hr as (x5 & ? & ->%db_to_TSD_reads & Hr).
  assert (conserves s2 s') as H3; [|add_shifts]. clear H1 H2.
  apply runs_bind in Hr as (? & s3 & Hm & Hr). apply runs_bind in Hr as (? & s4 & (H4 & _)%push_virtual_operation_shifts & Hr).
  apply runs_bind in Hr as (w6 & ? & ->%db_to_TSD_reads & Hr). books Hr.
Qed.

Lemma pay_reward_shifts k c reward s x s' :
  ⟨ pay_reward k c reward, s ⟩ ⇓ ⟨ x, s' ⟩ → shifts (- x) 0 0 0 s s'.
Proof.
  unfold pay_reward. intros Hr. apply runs_bind in Hr as (pc & s0 & H0 & Hr).
  assert (s0 = s) as ->.
  { clear Hr. unfold get_curationRewards_percent, get_reward_fund, has_hardfork in H0.
    do 2 (apply runs_bind in H0 as (? & ? & [_ ->]%runs_asks & H0)). destruct (_ : bool).
    - apply runs_bind in H0 as (? & ? & [_ ->]%runs_getr & [_ ->]%runs_ret). done.
    - destruct (_ : bool); by apply runs_ret in H0 as [_ ->]. }
  apply runs_bind in Hr as (ct & ? & [_ ->]%runs_lift & Hr). cbv zeta in Hr.
  apply runs_bind in Hr as (tk & ? & [_ ->]%runs_lift & Hr). apply runs_bind in Hr as (a0 & ? & [_ ->]%runs_lift & Hr).
  apply runs_bind in Hr as (cu & s1 & H1%pay_curators_shifts & Hr). apply runs_bind in Hr as (a1 & ? & [_ ->]%runs_lift & Hr).
  apply runs_bind in Hr as (cl & ? & [[-> _]%safe_add_ok ->]%runs_lift & Hr).
  apply runs_bind in Hr as (b & s2 & H2%pay_beneficiaries_shifts & Hr).
  apply runs_bind in Hr as (a2 & ? & [[-> _]%safe_sub_ok ->]%runs_lift & Hr).
  apply runs_bind in Hr as (? & s3 & H3%pay_author_shifts & [<- <-]%runs_ret). add_shifts.
Qed.

(** A step that leaves all that holds supplies alone conserves them. *)
Definition holders_of (s : database) :=
  (gpo s, accounts s, (convert_requests s, limit_orders s, escrows s, savings_withdraws s, reward_funds s)).
Lemma same_holders s s' : same holders_of s s' → conserves s s'.
Proof. intros [= E1 E2 E3 E4 E5 E6 E7]. split; unfold tme_gap, tsd_gap, score_gap, pend_gap; rewrite E1, E2, ?E3, ?E4, ?E5, ?E6, ?E7; lia. Qed.

Lemma close_votes_same k l : preserves (same holders_of) (mfor (close_vote k) l).
Proof. unfold close_vote, calculate_discussion_payout_time, get_comment_key. samed. Qed.

Lemma close_comment_shifts k s u s' : ⟨ close_comment k, s ⟩ ⇓ ⟨ u, s' ⟩ → conserves s s'.
Proof.
  unfold close_comment. intros Hr. apply runs_bind in Hr as (now & ? & [_ ->]%runs_asks & Hr).
  apply runs_bind in Hr as (h12 & ? & [_ ->]%runs_asks & Hr). apply runs_bind in Hr as (h17 & ? & [_ ->]%runs_asks & Hr).
  apply runs_bind in Hr as (? & s1 & Hm & Hr). apply runs_bind in Hr as (c & ? & [_ ->]%runs_getr & Hr).
  apply runs_bind in Hr as (? & s2 & (H2 & _)%push_virtual_operation_shifts & Hr).
  apply runs_bind in Hr as (l & ? & [_ ->]%runs_asks & Hr). assert (conserves s s1) as H1 by books Hm. clear Hm.
  etrans; [exact H1|]. etrans; [exact H2|]. by apply same_holders, (close_votes_same _ _ _ _ _ Hr).
Qed.

Lemma cashout_positive_shifts ctx k c s x s' :
  ⟨ cashout_positive ctx k c, s ⟩ ⇓ ⟨ x, s' ⟩ → shifts (- x) 0 0 0 s s'.
Proof.
  unfold cashout_positive. cbv zeta. intros Hr. apply runs_bind in Hr as (hf & ? & [_ ->]%runs_asks & Hr).
  apply runs_bind in Hr as (ctx' & s0 & H0 & Hr). assert (s0 = s) as ->.
  { destruct (hf : bool); [|by apply runs_ret in H0 as [_ ->]].
    by apply runs_bind in H0 as (? & ? & [_ ->]%runs_getr & [_ ->]%runs_ret). }
  apply runs_bind in Hr as (rw & ? & [_ ->]%runs_lift & Hr). apply runs_bind in Hr as (cl & s1 & H1 & Hr).
  apply runs_bind in Hr as (? & s2 & H2 & [<- <-]%runs_ret). assert (conserves s1 s2) as Hc.
  { apply runs_when in H2. unfold adjust_SCOREreward2 in H2. destruct (negb _); [books H2|by subst]. }
  destruct (0 <? _); [apply pay_reward_shifts in H1; add_shifts|]. apply runs_ret in H1 as [<- <-]. add_shifts.
Qed.

(** What a comment is paid leaves the fund it was claimed from, and nothing else
    is created. *)
Lemma cashout_comment_helper_shifts ctx k s x s' :
  ⟨ cashout_comment_helper ctx k, s ⟩ ⇓ ⟨ x, s' ⟩ → shifts (- x) 0 0 0 s s'.
Proof.
  unfold cashout_comment_helper. intros Hr. apply runs_bind in Hr as (c & ? & [_ ->]%runs_getr & Hr).
  apply runs_bind in Hr as (cl & s1 & H1 & Hr). apply runs_bind in Hr as (? & s2 & H2%close_comment_shifts & [<- <-]%runs_ret).
  destruct (0 <? _); [apply cashout_positive_shifts in H1; add_shifts|]. apply runs_ret in H1 as [<- <-]. add_shifts.
Qed.

(** ** What a payout claims *)

Lemma get_SCORE_reward_range ctx p : get_SCORE_reward ctx = Ok p → 0 ≤ p ≤ i64_max.
Proof.
  unfold get_SCORE_reward. cbv zeta. intros Hp. apply result_bind_ok in Hp as (? & _ & Hp).
  apply result_bind_ok in Hp as (? & Ht%fc_check_ok%Z.ltb_lt & Hp). apply result_bind_ok in Hp as (? & H3%fc_check_ok%Z.leb_le & Hp).
  apply result_bind_ok in Hp as (dust & _ & Hp). apply result_bind_ok in Hp as (m & _ & [= <-]). revert H3.
  set (q := u256 _ / _). intros H3. assert (0 ≤ q) as Hq by (apply Z.div_pos; [apply Z.mod_pos_bound; lia|done]). clearbody q.
  pose proof (Z.mod_pos_bound (amount m) (2 ^ 64) ltac:(lia)) as Hm. unfold wrap_u64. unfold i64_max in *. destruct dust; lia.
Qed.

Lemma pay_curators_sum c max s r s' :
  ⟨ pay_curators c max, s ⟩ ⇓ ⟨ r, s' ⟩ → r.1 + r.2 = if cmt_allow_curationRewards c then max else 0.
Proof.
  unfold pay_curators. destruct (cmt_allow_curationRewards c); cbn [negb]; [|by intros [<- <-]%runs_ret]. intros Hr.
  apply runs_bind in Hr as (l & s1 & Hl & Hr). apply runs_bind in Hr as (u & s2 & Hp & Hr).
  apply runs_bind in Hr as (p & ? & [[-> _]%safe_sub_ok ->]%runs_lift & Hr). apply runs_ret in Hr as [<- <-]. cbn. lia.
Qed.

(** The share of the curators. *)
Lemma curation_share reward pc ct :
  0 ≤ reward ≤ i64_max → 0 ≤ pc ≤ PERCENT_100 →
  u128_to_u64 (u128_div (u128_mul (u128 reward) (u128 pc)) (u128 PERCENT_100)) = Ok ct →
  ct = reward * pc / PERCENT_100 ∧ 0 ≤ ct ≤ reward.
Proof.
  unfold i64_max, PERCENT_100. intros Hr Hp [-> _]%u128_to_u64_law. rewrite !u128_law, u128_mul_law.
  rewrite (Z.mod_small reward), (Z.mod_small pc), (Z.mod_small 10000), (Z.mod_small (reward * pc)) by nia.
  rewrite u128_div_law by lia. split; [done|]. split; [apply Z.div_pos; nia|]. apply Z.div_le_upper_bound; nia.
Qed.

Definition percents_ok (s : database) : Prop :=
  hardfork_active s HARDFORK_0_17 = true → ∀ f, fund_of s = Some f → 0 ≤ rwf_percent_curationRewards f ≤ PERCENT_100.

Lemma percent_bounds c s p s' : percents_ok s → ⟨ get_curationRewards_percent c, s ⟩ ⇓ ⟨ p, s' ⟩ → s' = s ∧ 0 ≤ p ≤ PERCENT_100.
Proof.
  intros Hok. unfold get_curationRewards_percent, get_reward_fund, has_hardfork. intros H0.
  do 2 (apply runs_bind in H0 as (? & ? & [-> ->]%runs_asks & H0)). destruct (hardfork_active s HARDFORK_0_17) eqn:E17.
  - apply runs_bind in H0 as (? & ? & [E ->]%runs_getr & [<- ->]%runs_ret). split; [done|]. by apply Hok.
  - destruct (hardfork_active s HARDFORK_0_8); apply runs_ret in H0 as [<- ->]; (split; [done|split; apply Z.leb_le; reflexivity]).
Qed.

Lemma pay_reward_claimed k c reward s x s' :
  percents_ok s → 0 ≤ reward ≤ i64_max → ⟨ pay_reward k c reward, s ⟩ ⇓ ⟨ x, s' ⟩ → 0 ≤ x ≤ reward.
Proof.
  intros Hok Hrw. unfold pay_reward. intros Hr. apply runs_bind in Hr as (pc & s0 & H0 & Hr).
  apply percent_bounds in H0 as [-> Hpc]; [|done].
  apply runs_bind in Hr as (ct & ? & [Hct ->]%runs_lift & Hr). apply curation_share in Hct as [_ Hct]; [|done..]. cbv zeta in Hr.
  apply runs_bind in Hr as (tk & ? & [Htk ->]%runs_lift & Hr). apply u128_to_u64_law in Htk as [-> _].
  rewrite u128_law, Z.mod_small, (wrap_i64_id reward), (wrap_i64_id ct) in Hr by (unfold i64_min, i64_max in *; lia).
  apply runs_bind in Hr as (a0 & ? & [[-> _]%safe_sub_ok ->]%runs_lift & Hr).
  apply runs_bind in Hr as (cu & s1 & H1%pay_curators_sum & Hr). apply runs_bind in Hr as (a1 & ? & [[-> _]%safe_add_ok ->]%runs_lift & Hr).
  apply runs_bind in Hr as (cl & ? & [[-> _]%safe_add_ok ->]%runs_lift & Hr).
  apply runs_bind in Hr as (b & s2 & _ & Hr). apply runs_bind in Hr as (a2 & ? & _ & Hr).
  apply runs_bind in Hr as (? & s3 & _ & [<- _]%runs_ret). destruct (cmt_allow_curationRewards c); lia.
Qed.

(** A payout claims at most what the fund owes the comment. *)
Lemma cashout_comment_helper_claimed ctx k s x s' :
  percents_ok s → ⟨ cashout_comment_helper ctx k, s ⟩ ⇓ ⟨ x, s' ⟩ →
  x = 0 ∨ ∃ c ctx' p, rows (comments s) !! k = Some c ∧ 0 < cmt_net_SCOREreward c ∧ get_SCORE_reward ctx' = Ok p ∧ 0 ≤ x ≤ p ∧
    ctx' = fill_comment_reward_context_local_state ctx c <| ctx_reward_curve := ctx_reward_curve ctx' |>
             <| ctx_content_constant := ctx_content_constant ctx' |> ∧
    (hardfork_active s HARDFORK_0_17 = true → ∀ f, fund_of s = Some f →
       ctx_reward_curve ctx' = rwf_authorReward_curve f ∧ ctx_content_constant ctx' = rwf_content_constant f).
Proof.
  intros Hok. unfold cashout_comment_helper. intros Hr. apply runs_bind in Hr as (c & ? & [Hk ->]%runs_getr & Hr).
  apply runs_bind in Hr as (cl & s1 & H1 & Hr). apply runs_bind in Hr as (? & s2 & _ & [<- _]%runs_ret).
  destruct (Z.ltb_spec 0 (cmt_net_SCOREreward c)); [|apply runs_ret in H1 as [<- _]; by left].
  unfold cashout_positive in H1. cbv zeta in H1. apply runs_bind in H1 as (hf & ? & [-> ->]%runs_asks & Hr).
  apply runs_bind in Hr as (ctx' & s0 & H0 & Hr). set (c0 := fill_comment_reward_context_local_state ctx c) in *.
  assert (s0 = s ∧ ctx' = c0 <| ctx_reward_curve := ctx_reward_curve ctx' |> <| ctx_content_constant := ctx_content_constant ctx' |> ∧
    (hardfork_active s HARDFORK_0_17 = true → ∀ f, fund_of s = Some f →
       ctx_reward_curve ctx' = rwf_authorReward_curve f ∧ ctx_content_constant ctx' = rwf_content_constant f)) as (-> & Ec & Ef).
  { destruct (hardfork_active s HARDFORK_0_17); [|by apply runs_ret in H0 as [<- ->]].
    apply runs_bind in H0 as (f & ? & [Hf ->]%runs_getr & [<- ->]%runs_ret). split; [done|]. split; [done|].
    unfold fund_of. intros _ f' Hf'. rewrite Hf in Hf'. apply (inj Some) in Hf' as <-. done. }
  apply runs_bind in Hr as (rw & ? & [Hrw ->]%runs_lift & Hr). apply runs_bind in Hr as (cl' & s1' & H1 & Hr).
  apply runs_bind in Hr as (? & s2' & _ & [<- _]%runs_ret). pose proof (get_SCORE_reward_range _ _ Hrw) as Hrange.
  rewrite wrap_i64_id in H1 by (unfold i64_min, i64_max in *; lia).
  assert (0 ≤ cl' ≤ rw) as Hcl.
  { destruct (0 <? u128 rw); [by eapply pay_reward_claimed|]. apply runs_ret in H1 as [<- _]. lia. }
  right. exists c, ctx', rw. by destruct Hcl.
Qed.

(** ** What a payout leaves alone *)

(** A comment without the sums of its payouts. *)
Definition unpaid (c : comment_object) : comment_object :=
  c <| cmt_total_payout_value := Asset 0 SYMBOL_USD |> <| cmt_curator_payout_value := Asset 0 SYMBOL_USD |>
    <| cmt_beneficiary_payout_value := Asset 0 SYMBOL_USD |> <| cmt_authorRewards := 0 |>.
Definition payout_frame (s : database) :=
  (unpaid <$> rows (comments s),
   (next_id (comments s), comment_votes s, reward_funds s, hardforks s, feed_history s, gpo_time (gpo s))).

Lemma frame_payout s s' : frame s s' → same payout_frame s s'.
Proof. intros []. unfold same, payout_frame. congruence. Qed.
Lemma createTMEfundForSCORE_payout n a b : preserves (same payout_frame) (createTMEfundForSCORE n a b).
Proof. intros s r s' Hr. eapply frame_payout, createTMEfundForSCORE_frame, Hr. Qed.
Lemma create_TSD_payout n a b : preserves (same payout_frame) (create_TSD n a b).
Proof. intros s r s' Hr. eapply frame_payout, create_TSD_frame, Hr. Qed.
Lemma push_payout o : preserves (same payout_frame) (push_virtual_operation o).
Proof. intros s r s' Hr. eapply frame_payout, frame_push, Hr. Qed.
Hint Resolve createTMEfundForSCORE_payout create_TSD_payout push_payout : same.

Lemma pay_votes_payout c max u l : preserves (same payout_frame) (pay_votes c max u l).
Proof. revert u. induction l as [|v l IH]; intros u; cbn [pay_votes]; unfold pay_curator, get_account_by_id; samed. Qed.
Lemma pay_beneficiaries_payout c a t l : preserves (same payout_frame) (pay_beneficiaries c a t l).
Proof. revert t. induction l as [|b l IH]; intros t; cbn [pay_beneficiaries]; samed. Qed.
Hint Resolve pay_votes_payout pay_beneficiaries_payout : same.

Lemma cashout_positive_payout ctx k c : preserves (same payout_frame) (cashout_positive ctx k c).
Proof.
  unfold cashout_positive, pay_reward, pay_author, pay_curators, adjust_total_payout, adjust_SCOREreward2, db_to_TSD,
    get_curationRewards_percent, get_reward_fund. samed.
Qed.

Lemma unpaid_paid now h12 h17 c : unpaid (paid_comment now h12 h17 c) = paid_comment now h12 h17 (unpaid c).
Proof. reflexivity. Qed.

Lemma close_vote_removes k v s u s' c :
  hardfork_active s HARDFORK_0_12 = true → hardfork_active s HARDFORK_0_17 = true →
  rows (comments s) !! k = Some c → cmt_cashout_time c = tps_max →
  ⟨ close_vote k v, s ⟩ ⇓ ⟨ u, s' ⟩ → s' = del_row comment_votes v s.
Proof.
  intros H12 H17 Hk Ht. unfold close_vote, calculate_discussion_payout_time, has_hardfork. intros Hr.
  apply runs_bind in Hr as (? & ? & [-> ->]%runs_asks & Hr). apply runs_bind in Hr as (c' & ? & [Hk' ->]%runs_getr & Hr).
  rewrite Hk in Hk'. apply (inj Some) in Hk' as <-. rewrite H12 in Hr. apply runs_bind in Hr as (b & s1 & Hb & Hr).
  apply runs_bind in Hb as (t & s2 & H & [<- <-]%runs_ret). apply runs_bind in H as (? & ? & [-> ->]%runs_asks & H). rewrite H17 in H.
  apply runs_ret in H as [<- <-]. rewrite Ht, Z.eqb_refl in Hr. by apply runs_remove in Hr.
Qed.

Lemma close_votes_remove k l c : ∀ s u s',
  hardfork_active s HARDFORK_0_12 = true → hardfork_active s HARDFORK_0_17 = true →
  rows (comments s) !! k = Some c → cmt_cashout_time c = tps_max →
  ⟨ mfor (close_vote k) l, s ⟩ ⇓ ⟨ u, s' ⟩ → ⟨ mfor (remove comment_votes) l, s ⟩ ⇓ ⟨ u, s' ⟩.
Proof.
  induction l as [|v l IH]; intros s u s' H12 H17 Hk Ht Hr; cbn [mfor] in *; [done|].
  apply runs_bind in Hr as ([] & s1 & H1 & Hr). apply (close_vote_removes _ _ _ _ _ c) in H1 as ->; [|done..].
  eapply runs_bind_intro; [by apply (runs_remove _ _ _ tt)|]. by apply IH.
Qed.

(** What a step of the payouts may do to the tables: it pays the comments [l]. *)
Definition fixed_frame (s : database) :=
  (next_id (comments s), reward_funds s, hardforks s, feed_history s, gpo_time (gpo s)).
Definition pay_row (now : Z) (c : comment_object) : comment_object := unpaid (paid_comment now true true c).

Lemma close_votes_fixed k l : preserves (same (λ s, (rows (comments s), fixed_frame s))) (mfor (close_vote k) l).
Proof. unfold close_vote, calculate_discussion_payout_time, get_comment_key. samed. Qed.

Lemma cashout_comment_helper_effect ctx k s x s' c :
  hardfork_active s HARDFORK_0_12 = true → hardfork_active s HARDFORK_0_17 = true →
  rows (comments s) !! k = Some c → ⟨ cashout_comment_helper ctx k, s ⟩ ⇓ ⟨ x, s' ⟩ →
  unpaid <$> rows (comments s') = <[k := pay_row (gpo_time (gpo s)) c]> (unpaid <$> rows (comments s)) ∧
  same fixed_frame s s' ∧ rows (comment_votes s') = drop_votes (cmt_id c) (rows (comment_votes s)).
Proof.
  intros H12 H17 Hk. unfold cashout_comment_helper. intros Hr. apply runs_bind in Hr as (c' & ? & [Hk' ->]%runs_getr & Hr).
  rewrite Hk in Hk'. apply (inj Some) in Hk' as <-. apply runs_bind in Hr as (cl & s1 & H1 & Hr).
  apply runs_bind in Hr as (? & s2 & H2 & [_ <-]%runs_ret). assert (same payout_frame s s1) as E.
  { destruct (0 <? _); [by apply cashout_positive_payout in H1|]. by apply runs_ret in H1 as [_ <-]. }
  clear H1. injection E as EC EN EV ER EH EF ET. rewrite <- ET.
  unfold close_comment, head_block_time, has_hardfork in H2. apply runs_bind in H2 as (now & ? & [-> ->]%runs_asks & Hr).
  apply runs_bind in Hr as (? & ? & [-> ->]%runs_asks & Hr). apply runs_bind in Hr as (? & ? & [-> ->]%runs_asks & Hr).
  assert (∀ h, hardfork_active s1 h = hardfork_active s h) as Ehf by (intros h; unfold hardfork_active; by rewrite EH).
  rewrite !Ehf, H12, H17 in Hr. apply runs_bind in Hr as (? & t & Hm & Hr).
  apply runs_modify in Hm as (c1 & c2 & Hk1 & [= <-] & ->). set (c2 := paid_comment _ _ _ c1) in *.
  assert (unpaid c1 = unpaid c) as Ec1.
  { assert (unpaid <$> rows (comments s1) !! k = unpaid <$> rows (comments s) !! k) as Eq by (by rewrite <- !lookup_fmap, EC).
    rewrite Hk1, Hk in Eq. by apply (inj Some) in Eq. }
  assert (cmt_id c1 = cmt_id c) as Eid by exact (f_equal cmt_id Ec1).
  apply runs_bind in Hr as (c' & ? & [Hk' ->]%runs_getr & Hr). db_fields in Hk'. rewrite lookup_insert_eq in Hk'.
  apply (inj Some) in Hk' as <-. apply runs_bind in Hr as (? & s3 & H3%frame_push & Hr).
  apply runs_bind in Hr as (l & ? & [-> ->]%runs_asks & Hr).
  assert (cmt_id c2 = cmt_id c) as Eid2 by exact Eid. rewrite Eid2 in Hr.
  pose proof (close_votes_fixed _ _ _ _ _ Hr) as E2. injection E2 as E2C E2N E2R E2H E2F E2T.
  assert (∀ h, hardfork_active s3 h = hardfork_active s h) as Ehf3.
  { intros h. rewrite <- Ehf. unfold hardfork_active. by rewrite (fr_hardforks _ _ H3). }
  apply (close_votes_remove _ _ c2) in Hr; [|by rewrite Ehf3|by rewrite Ehf3|rewrite (fr_comments _ _ H3); db_fields; apply lookup_insert_eq|done].
  apply remove_votes_drop in Hr as (_ & _ & E3V). split_and!.
  - rewrite E2C, (fr_comments _ _ H3). db_fields. rewrite fmap_insert, EC. f_equal.
    unfold pay_row. rewrite unpaid_paid. unfold c2. rewrite unpaid_paid. by rewrite Ec1.
  - unfold same, fixed_frame. rewrite E2N, E2R, E2H, E2F, E2T.
    rewrite (fr_comments _ _ H3), (fr_reward_funds _ _ H3), (fr_hardforks _ _ H3), (fr_feed_history _ _ H3), (fr_time _ _ H3).
    db_fields. by rewrite EN, ER, EH, EF, ET.
  - rewrite E3V, (fr_comment_votes _ _ H3). db_fields. by rewrite EV.
Qed.

(** ** All payouts *)

Definition awarded (funds : list reward_fund_context) : Z := zsum rfx_TME_awarded funds.

Lemma fund_at_reads funds i s f s' : ⟨ fund_at funds i, s ⟩ ⇓ ⟨ f, s' ⟩ → s' = s ∧ funds !! Z.to_nat i = Some f.
Proof.
  unfold fund_at. destruct (funds !! Z.to_nat i); [|by intros ?%runs_throw]. by intros [-> ->]%runs_ret.
Qed.

Lemma snapshot_funds_conserves l : ∀ funds s funds' s',
  ⟨ snapshot_funds l funds, s ⟩ ⇓ ⟨ funds', s' ⟩ → conserves s s' ∧ awarded funds' = awarded funds.
Proof.
  induction l as [|k l IH]; intros funds s funds' s' Hr; cbn [snapshot_funds] in Hr; [by apply runs_ret in Hr as [-> ->]|].
  apply runs_bind in Hr as (now & ? & [_ ->]%runs_asks & Hr). apply runs_bind in Hr as (h & ? & [_ ->]%runs_asks & Hr).
  apply runs_bind in Hr as (? & s1 & Hm & Hr). apply runs_bind in Hr as (rfo & ? & [_ ->]%runs_getr & Hr).
  apply IH in Hr as [H2 ->]. unfold awarded. rewrite zsum_app. cbn. split; [|lia]. etrans; [|exact H2].
  apply runs_modify in Hm as (v & v' & Hk & [= <-] & ->). eapply shifts_eq; [by eapply shifts_set_fund|..]; try lia.
  unfold rwf_held, decay_claims. cbv zeta. db_fields. lia.
Qed.

Lemma add_claims_reads l : ∀ funds s funds' s',
  ⟨ add_claims l funds, s ⟩ ⇓ ⟨ funds', s' ⟩ → s' = s ∧ awarded funds' = awarded funds.
Proof.
  induction l as [|c l IH]; intros funds s funds' s' Hr; cbn [add_claims] in Hr; [by apply runs_ret in Hr as [-> ->]|].
  destruct (0 <? _); [|by apply IH]. apply runs_bind in Hr as (rf & ? & [_ ->]%runs_getr & Hr).
  apply runs_bind in Hr as (f & ? & [-> Hf]%fund_at_reads & Hr). cbv zeta in Hr. apply IH in Hr as [-> ->]. split; [done|].
  unfold awarded. rewrite (zsum_insert _ _ _ _ _ Hf). fields. lia.
Qed.

Lemma cashout_from_fund_shifts price k c funds s funds' s' :
  ⟨ cashout_from_fund price k c funds, s ⟩ ⇓ ⟨ funds', s' ⟩ → shifts (awarded funds - awarded funds') 0 0 0 s s'.
Proof.
  unfold cashout_from_fund. intros Hr. apply runs_bind in Hr as (rf & ? & [_ ->]%runs_getr & Hr).
  apply runs_bind in Hr as (f & ? & [-> Hf]%fund_at_reads & Hr). cbv zeta in Hr.
  apply runs_bind in Hr as (x & s1 & H1%cashout_comment_helper_shifts & Hr).
  apply runs_bind in Hr as (y & ? & [[-> _]%safe_add_ok ->]%runs_lift & [<- <-]%runs_ret).
  unfold awarded. rewrite (zsum_insert _ _ _ _ _ Hf). fields. eapply shifts_eq; [exact H1|..]; lia.
Qed.

Lemma cashout_from_gpo_conserves price k s u s' :
  hardfork_active s HARDFORK_0_17 = false → ⟨ cashout_from_gpo price k, s ⟩ ⇓ ⟨ u, s' ⟩ → conserves s s'.
Proof.
  unfold cashout_from_gpo. intros H17 Hr. apply runs_bind in Hr as (p & ? & [_ ->]%runs_asks & Hr). cbv zeta in Hr.
  apply runs_bind in Hr as (x & s1 & H1 & Hr). assert (0 ≤ x) as Hx.
  { apply cashout_comment_helper_claimed in H1; [|by unfold percents_ok; rewrite H17].
    destruct H1 as [->|(c & ctx' & q & _ & _ & _ & ? & _)]; lia. }
  apply cashout_comment_helper_shifts in H1. apply runs_when in Hr. destruct (Z.ltb_spec 0 x).
  - apply runs_modify1 in Hr as (g & Hg & ->). apply result_bind_ok in Hg as (y & [-> _]%safe_sub_ok & [= <-]).
    eapply shifts_eq; [eapply shifts_trans; [exact H1|apply shifts_gpo]|..];
      unfold gpo_tme, gpo_tsd, gpo_score, gpo_pend; fields; cbn [amount]; lia.
  - subst. replace x with 0 in H1 by lia. exact H1.
Qed.

Lemma close_comment_forks k : preserves (same hardforks) (close_comment k).
Proof.
  unfold close_comment. unfold close_vote, calculate_discussion_payout_time, get_comment_key. samed.
Qed.
Lemma cashout_comment_helper_forks ctx k : preserves (same hardforks) (cashout_comment_helper ctx k).
Proof.
  intros s x s' Hr. unfold cashout_comment_helper in Hr. apply runs_bind in Hr as (c & ? & [_ ->]%runs_getr & Hr).
  apply runs_bind in Hr as (cl & s1 & H1 & Hr). apply runs_bind in Hr as (? & s2 & H2%close_comment_forks & [_ <-]%runs_ret).
  etrans; [|exact H2]. destruct (0 <? _); [|by apply runs_ret in H1 as [_ <-]].
  apply cashout_positive_payout in H1. by injection H1 as _ _ _ _ E _ _.
Qed.

Lemma cashout_discussion_conserves price c s u s' :
  hardfork_active s HARDFORK_0_17 = false → ⟨ cashout_discussion price c, s ⟩ ⇓ ⟨ u, s' ⟩ → conserves s s'.
Proof.
  unfold cashout_discussion. intros H17 Hr. apply runs_bind in Hr as (l & ? & [_ ->]%runs_asks & Hr).
  revert s H17 Hr. induction l as [|k l IH]; intros s H17 Hr; cbn [mfor] in Hr; [by apply runs_ret in Hr as [_ <-]|].
  apply runs_bind in Hr as (? & s1 & H1 & Hr). assert (same hardforks s s1) as E.
  { unfold cashout_from_gpo in H1. apply runs_bind in H1 as (p & ? & [_ ->]%runs_asks & H1). cbv zeta in H1.
    apply runs_bind in H1 as (x0 & s2 & H2%cashout_comment_helper_forks & H3). etrans; [exact H2|].
    apply runs_when in H3. destruct (0 <? x0); [by apply runs_modify1 in H3 as (g & _ & ->)|by subst]. }
  etrans; [by eapply cashout_from_gpo_conserves|]. eapply IH; [|exact Hr]. unfold hardfork_active in *. by rewrite E.
Qed.

Lemma cashouts_from_shifts n price : ∀ funds s funds' s',
  ⟨ cashouts_from n price funds, s ⟩ ⇓ ⟨ funds', s' ⟩ → shifts (awarded funds - awarded funds') 0 0 0 s s'.
Proof.
  induction n as [|n IH]; intros funds s funds' s' Hr; cbn [cashouts_from] in Hr.
  { apply runs_ret in Hr as [<- <-]. rewrite Z.sub_diag. apply shifts_refl. }
  apply runs_bind in Hr as (cur & ? & [_ ->]%runs_asks & Hr). apply runs_bind in Hr as (now & ? & [_ ->]%runs_asks & Hr).
  destruct cur as [[k c]|]; [|apply runs_ret in Hr as [<- <-]; rewrite Z.sub_diag; apply shifts_refl].
  destruct (_ <=? _); [|apply runs_ret in Hr as [<- <-]; rewrite Z.sub_diag; apply shifts_refl].
  apply runs_bind in Hr as (h & ? & [Eh ->]%runs_asks & Hr). apply runs_bind in Hr as (funds1 & s1 & H1 & Hr%IH).
  destruct (h : bool).
  - apply cashout_from_fund_shifts in H1. add_shifts.
  - apply runs_bind in H1 as (? & s2 & H1 & [<- <-]%runs_ret). apply cashout_discussion_conserves in H1; [|done]. add_shifts.
Qed.

Lemma get_fund_by_id_reads i s k s' : ⟨ get_fund_by_id i, s ⟩ ⇓ ⟨ k, s' ⟩ → s' = s ∧ fund_with_id i s = Some k.
Proof.
  intros (o & ? & [-> ->]%runs_asks & Hr)%runs_bind. destruct (fund_with_id i s); [|by apply runs_throw in Hr].
  by apply runs_ret in Hr as [-> <-].
Qed.

Lemma write_back_shifts funds : ∀ i s u s', ⟨ write_back i funds, s ⟩ ⇓ ⟨ u, s' ⟩ → shifts (awarded funds) 0 0 0 s s'.
Proof.
  induction funds as [|f funds IH]; intros i s u s' Hr; cbn [write_back] in Hr; [by apply runs_ret in Hr as [_ <-]|].
  apply runs_bind in Hr as (k & ? & [-> _]%get_fund_by_id_reads & Hr). apply runs_bind in Hr as (? & s1 & Hm & Hr%IH).
  apply runs_modify in Hm as (v & v' & Hk & Hv & ->). apply result_bind_ok in Hv as (b & Hb & [= <-]).
  assert (amount b = amount (rwf_reward_balance v) - rfx_TME_awarded f) as Eb.
  { unfold asset_sub in Hb. apply result_bind_ok in Hb as (? & _ & Hb). by apply result_bind_ok in Hb as (y & [-> _]%safe_sub_ok & [= <-]). }
  pose proof (shifts_set_fund s k v (v <| rwf_recent_claims := rfx_recent_claims f |> <| rwf_reward_balance := b |>) Hk) as H1.
  unfold rwf_held in H1. fields. unfold awarded in *. cbn [zsum]. add_shifts.
Qed.

Lemma process_comment_cashout_books s u s' : ⟨ process_comment_cashout, s ⟩ ⇓ ⟨ u, s' ⟩ → conserves s s'.
Proof.
  unfold process_comment_cashout. intros Hr. apply runs_bind in Hr as (st & ? & [_ ->]%runs_asks & Hr).
  destruct (negb _); [by apply runs_ret in Hr as [_ <-]|]. apply runs_bind in Hr as (fh & ? & [_ ->]%runs_asks & Hr). cbv zeta in Hr.
  apply runs_bind in Hr as (ids & ? & [_ ->]%runs_asks & Hr). apply runs_bind in Hr as (f0 & s1 & [H1 E1]%snapshot_funds_conserves & Hr).
  apply runs_bind in Hr as (h & ? & [_ ->]%runs_asks & Hr). apply runs_bind in Hr as (f1 & s2 & Hadd & Hr).
  assert (s2 = s1 ∧ awarded f1 = awarded f0) as [-> E2].
  { destruct (h : bool); [|by apply runs_ret in Hadd as [<- <-]].
    by apply runs_bind in Hadd as (l & ? & [_ ->]%runs_asks & [-> ->]%add_claims_reads). }
  apply runs_bind in Hr as (n & ? & [_ ->]%runs_asks & Hr). apply runs_bind in Hr as (f2 & s3 & H2%cashouts_from_shifts & H3%write_back_shifts).
  cbn in E1. add_shifts.
Qed.

(** [cashout_comment_helper] never claims more than the share of its comment. *)
Lemma cashout_share ctx k s x s' f c :
  percents_ok s → hardfork_active s HARDFORK_0_17 = true → fund_of s = Some f → rows (comments s) !! k = Some c →
  0 ≤ amount (ctx_total_reward_fund_TME ctx) ≤ i64_max → 0 ≤ cmt_reward_weight c ≤ PERCENT_100 →
  let claim := evaluate_reward_curve (u128 (cmt_net_SCOREreward c)) (rwf_authorReward_curve f) (rwf_content_constant f) in
  (0 < cmt_net_SCOREreward c → 0 ≤ claim < 2 ^ 128) → ⟨ cashout_comment_helper ctx k, s ⟩ ⇓ ⟨ x, s' ⟩ →
  x = 0 ∨ 0 < cmt_net_SCOREreward c ∧ 0 < ctx_totalSCOREreward2 ctx ∧ 0 ≤ x ∧
    x * ctx_totalSCOREreward2 ctx ≤ amount (ctx_total_reward_fund_TME ctx) * claim.
Proof.
  cbv zeta. intros Hok H17 Hf Hk Hbal Hw Hc Hr. apply cashout_comment_helper_claimed in Hr; [|done].
  destruct Hr as [->|(c' & ctx' & p & Hk' & Hnet & Hp & Hx & E & Ef)]; [by left|right].
  rewrite Hk in Hk'. apply (inj Some) in Hk' as <-. destruct (Ef H17 _ Hf) as [E1 E2].
  assert (ctx_SCOREreward ctx' = cmt_net_SCOREreward c) as E3 by (by rewrite E).
  assert (ctx_reward_weight ctx' = cmt_reward_weight c) as E4 by (by rewrite E).
  assert (ctx_total_reward_fund_TME ctx' = ctx_total_reward_fund_TME ctx) as E5 by (by rewrite E).
  assert (ctx_totalSCOREreward2 ctx' = ctx_totalSCOREreward2 ctx) as E6 by (by rewrite E). clear E.
  destruct (get_SCORE_reward_share ctx' p) as (H1 & H2 & H3 & H4); rewrite ?E1, ?E2, ?E3, ?E4, ?E5 in *; try done; [by apply Hc|].
  rewrite E6 in *. split_and!; [done|done|lia|nia].
Qed.
End books.
