(* ===== verification/Payouts.v ===== *)
(** What the payouts of a block achieve.

    Every comment that is due is paid and no other; the payouts take no more from
    the reward fund than it holds; the curators of a comment get no more than the
    part of the reward that is for them; the supplies are conserved. *)

From S2P Require Import Prelude Fc Config Asset Flat Authority Operations Objects Database Samples Ledger Frame Supply Rewards Quiet Same Comments Discussions VoteTally Cashout.

(** * Sums over the rows of a table *)

Lemma zsum_filter `{Countable K} {A} (f : A → Z) (P : A → Prop) `{!∀ x, Decision (P x)} `{!∀ p : K * A, Decision (P p.2)} (m : gmap K A) :
  zsum f (snd <$> filter (λ p, P p.2) (map_to_list m)) = map_sum (λ x, if decide (P x) then f x else 0) m.
Proof.
  rewrite <- zsum_map_sum. induction (map_to_list m) as [|[k x] l IH]; [done|]. rewrite filter_cons. cbn [fmap list_fmap fst snd zsum].
  repeat case_decide; cbn [fmap list_fmap fst snd zsum] in *; rewrite ?IH; done || lia.
Qed.

Section curators.
Context {F : Fc} {FL : FcLaws F}.

(** * The curators *)

Lemma weighed_votes_sum id s : zsum cvo_weight (weighed_votes id s) = over_votes (rows (comment_votes s)) cvo_weight id.
Proof.
  unfold weighed_votes. etrans; [apply zsum_perm, fmap_Permutation, merge_sort_Permutation|].
  etrans; [apply (zsum_filter cvo_weight (λ v, cvo_comment v = id))|]. unfold over_votes. apply map_sum_ext. intros k v _.
  destruct (Z.eqb_spec (cvo_comment v) id); by case_decide.
Qed.

Lemma curator_claim_value m t w x :
  0 ≤ m ≤ i64_max → 0 < t < 2 ^ 64 → 0 ≤ w ≤ t → curator_claim m t w = Ok x → x = m * w / t ∧ 0 ≤ x ≤ m.
Proof.
  unfold i64_max. intros Hm Ht Hw [-> _]%u128_to_u64_law. rewrite !u128_law, u128_mul_law.
  rewrite (Z.mod_small m), (Z.mod_small w), (Z.mod_small t), (Z.mod_small (m * w)) by nia.
  rewrite u128_div_law by lia. split; [done|]. split; [apply Z.div_pos; nia|]. apply Z.div_le_upper_bound; nia.
Qed.

Lemma pay_curator_claimed c m u v s u' s' :
  0 ≤ m ≤ i64_max → 0 < cmt_total_vote_weight c < 2 ^ 64 → 0 ≤ cvo_weight v ≤ cmt_total_vote_weight c →
  ⟨ pay_curator c m u v, s ⟩ ⇓ ⟨ u', s' ⟩ → u' = u - m * cvo_weight v / cmt_total_vote_weight c.
Proof.
  intros Hm Ht Hw. unfold pay_curator. intros Hr. apply runs_bind in Hr as (x & ? & [Hx ->]%runs_lift & Hr).
  apply curator_claim_value in Hx as [<- Hx]; [|done..]. destruct (Z.ltb_spec 0 x).
  - apply runs_bind in Hr as (u1 & ? & [[-> _]%safe_sub_ok ->]%runs_lift & Hr).
    rewrite wrap_i64_id in * by (unfold i64_min, i64_max in *; lia).
    apply runs_bind in Hr as (n & s1 & _ & Hr). apply runs_bind in Hr as (h & s2 & _ & Hr). apply runs_bind in Hr as (r & s3 & _ & Hr).
    apply runs_bind in Hr as (? & s4 & _ & Hr). apply runs_bind in Hr as (? & s5 & _ & Hr). by apply runs_ret in Hr as [<- _].
  - apply runs_ret in Hr as [<- _]. lia.
Qed.

Lemma pay_votes_claimed c m l : ∀ u s u' s',
  0 ≤ m ≤ i64_max → 0 < cmt_total_vote_weight c < 2 ^ 64 → Forall (λ v, 0 ≤ cvo_weight v) l →
  zsum cvo_weight l ≤ cmt_total_vote_weight c →
  ⟨ pay_votes c m u l, s ⟩ ⇓ ⟨ u', s' ⟩ → u' ≤ u ∧ (u - u') * cmt_total_vote_weight c ≤ m * zsum cvo_weight l.
Proof.
  induction l as [|v l IH]; intros u s u' s' Hm Ht Hall Hsum Hr; cbn [pay_votes zsum] in *; [apply runs_ret in Hr as [<- _]; lia|].
  apply Forall_cons in Hall as [Hv Hall]. pose proof (zsum_nonneg _ _ Hall) as Hn.
  apply runs_bind in Hr as (u1 & s1 & H1 & Hr). apply pay_curator_claimed in H1 as ->; [|done|done|lia].
  apply IH in Hr as [H2 H3]; [|done..|lia].
  pose proof (Z.mul_div_le (m * cvo_weight v) (cmt_total_vote_weight c) ltac:(lia)) as Hd.
  assert (0 ≤ m * cvo_weight v / cmt_total_vote_weight c) by (apply Z.div_pos; nia). split; [lia|]. nia.
Qed.

(** The curators of a comment get at most the part of the reward that is for them,
    and what they do not get goes to the author, when the votes are tallied. *)
Lemma pay_curators_within k c m s r s' :
  votes_tally s → rows (comments s) !! k = Some c → 0 ≤ m ≤ i64_max →
  ⟨ pay_curators c m, s ⟩ ⇓ ⟨ r, s' ⟩ →
  0 ≤ r.1 ∧ 0 ≤ r.2 ∧ r.1 + r.2 = if cmt_allow_curationRewards c then m else 0.
Proof.
  intros Hok Hk Hm Hr. pose proof (pay_curators_sum _ _ _ _ _ Hr) as Hsum.
  unfold pay_curators in Hr. destruct (cmt_allow_curationRewards c); cbn [negb] in Hr; [|apply runs_ret in Hr as [<- _]; cbn; lia].
  apply runs_bind in Hr as (l & s1 & Hl & Hr). apply runs_bind in Hr as (u & s2 & Hp & Hr).
  apply runs_bind in Hr as (p & ? & [[-> _]%safe_sub_ok ->]%runs_lift & Hr). apply runs_ret in Hr as [<- _]. cbn [fst snd] in *.
  destruct (tk_rows _ _ _ _ Hok _ _ (tallies_some _ _ _ Hk)) as [_ _ Hw _ _]. cbn [tally_of ty_id ty_weight] in Hw.
  destruct (Z.ltb_spec 0 (cmt_total_vote_weight c)) as [Ht|Ht].
  - apply runs_asks in Hl as [-> ->].
    apply pay_votes_claimed in Hp as [Hu Hle]; [|done|lia| |rewrite weighed_votes_sum; lia].
    + rewrite weighed_votes_sum in Hle. split_and!; [|lia|lia].
      assert ((m - u) * cmt_total_vote_weight c ≤ m * cmt_total_vote_weight c) by nia. nia.
    + unfold weighed_votes. apply Forall_forall. intros v [[q w] [-> Hin]]%list_elem_of_fmap.
      rewrite merge_sort_Permutation, list_elem_of_filter in Hin. destruct Hin as [_ Hin%elem_of_map_to_list].
      by destruct (tk_votes _ _ _ _ Hok _ _ Hin) as (_ & ? & _).
  - apply runs_ret in Hl as [<- <-]. apply runs_ret in Hp as [<- _]. lia.
Qed.
End curators.

Abbreviation cmap := (gmap ckey comment_object).

(** * The comments that are due *)

Section due.
Context {F : Fc} {FL : FcLaws F}.

Definition unpaid_rows (s : database) : cmap := unpaid <$> rows (comments s).
Definition due (now : Z) (c : comment_object) : Prop := cmt_cashout_time c ≤ now.
#[export] Instance due_dec now c : Decision (due now c).
Proof. unfold due. apply _. Defined.
(** Every comment that is due is paid. *)
Definition pay_rows (now : Z) (m : cmap) : cmap := (λ c, if decide (due now c) then pay_row now c else c) <$> m.
(** The votes on the comments that are paid go. *)
Definition votes_left (now : Z) (m : cmap) (V V' : gmap (Z * Z) comment_vote_object) : Prop :=
  ∀ q v, V' !! q = Some v ↔ V !! q = Some v ∧ ∀ k c, m !! k = Some c → due now c → cmt_id c ≠ q.1.

Lemma pay_row_not_due now c : now < tps_max → ¬ due now (pay_row now c).
Proof. intros Hn. unfold due. change (cmt_cashout_time (pay_row now c)) with tps_max. lia. Qed.
Lemma pay_row_idem now c : pay_row now (unpaid c) = pay_row now c.
Proof. reflexivity. Qed.

Lemma pay_rows_insert now m k c :
  now < tps_max → m !! k = Some c → due now c → pay_rows now (<[k := pay_row now c]> m) = pay_rows now m.
Proof.
  intros Hn Hk Hd. unfold pay_rows. rewrite fmap_insert, decide_False by by apply pay_row_not_due.
  apply insert_id. by rewrite lookup_fmap, Hk; cbn; rewrite decide_True.
Qed.
Lemma pay_rows_id now m : (∀ k c, m !! k = Some c → ¬ due now c) → pay_rows now m = m.
Proof.
  intros Hno. apply map_eq. intros k. unfold pay_rows. rewrite lookup_fmap. destruct (m !! k) eqn:E; [|done].
  cbn. by rewrite decide_False by by eapply Hno.
Qed.

Lemma votes_left_none now m V : (∀ k c, m !! k = Some c → ¬ due now c) → votes_left now m V V.
Proof. intros Hno q v. split; [|by intros [? _]]. intros Hq. split; [done|]. intros k c Hk Hd. by destruct (Hno _ _ Hk). Qed.
Lemma votes_left_step now m k c V V' :
  now < tps_max → m !! k = Some c → due now c →
  votes_left now (<[k := pay_row now c]> m) (drop_votes (cmt_id c) V) V' → votes_left now m V V'.
Proof.
  intros Hn Hk Hd Hv q v. etrans; [apply Hv|]. unfold drop_votes. rewrite map_lookup_filter_Some. cbn. split.
  - intros [[Hq Hne] Hall]. split; [done|]. intros k' c' Hk' Hd'. destruct (decide (k' = k)) as [->|Hkk]; [by simplify_eq; intros E|].
    apply (Hall k' c'); [by rewrite lookup_insert_ne|done].
  - intros [Hq Hall]. split; [split; [done|]; intros E; by apply (Hall _ _ Hk Hd)|].
    intros k' c' [[<- <-]|[_ Hk']]%lookup_insert_Some Hd'; [by destruct (pay_row_not_due _ _ Hn Hd')|by eapply Hall].
Qed.

(** What the claims of a fund add up to. *)
Definition claim_of (f : reward_fund_object) (c : comment_object) : Z :=
  if 0 <? cmt_net_SCOREreward c
  then evaluate_reward_curve (u128 (cmt_net_SCOREreward c)) (rwf_authorReward_curve f) (rwf_content_constant f) else 0.
Definition claims_due (now : Z) (f : reward_fund_object) (m : cmap) : Z :=
  map_sum (λ c, if decide (due now c) then claim_of f c else 0) m.

Lemma claims_due_step now f m k c :
  now < tps_max → m !! k = Some c → due now c →
  claims_due now f m = claim_of f c + claims_due now f (<[k := pay_row now c]> m).
Proof.
  intros Hn Hk Hd. unfold claims_due. rewrite (map_sum_insert _ _ _ _ _ Hk).
  pose proof (pay_row_not_due now c Hn) as Hno.
  generalize (map_sum (λ c, if decide (due now c) then claim_of f c else 0) m) as t. intros t.
  destruct (decide (due now c)); [|done]. destruct (decide (due now (pay_row now c))); [done|lia].
Qed.

(** The comments and the fund are as the chain keeps them. *)
Record fund_ok (f : reward_fund_object) : Prop := FundOk {
  fo_balance : 0 ≤ amount (rwf_reward_balance f) ≤ i64_max;
  fo_constant : 0 < rwf_content_constant f < 2 ^ 62;
  fo_percent : 0 ≤ rwf_percent_curationRewards f ≤ PERCENT_100;
}.
Definition reward_ok (c : comment_object) : Prop :=
  cmt_net_SCOREreward c ≤ i64_max ∧ 0 ≤ cmt_reward_weight c ≤ PERCENT_100.

Lemma claim_range f c : fund_ok f → reward_ok c → 0 ≤ claim_of f c < 2 ^ 128.
Proof.
  intros [_ Hc _] [Hn _]. unfold claim_of. destruct (Z.ltb_spec 0 (cmt_net_SCOREreward c)) as [Hp|]; [|lia].
  destruct (curve_mono (rwf_authorReward_curve f) (rwf_content_constant f) (cmt_net_SCOREreward c) (cmt_net_SCOREreward c)) as [H0 _]; [lia|done|done|].
  split; [done|]. clear H0. unfold i64_max in *. rewrite u128_law, Z.mod_small by lia. destruct (rwf_authorReward_curve f); unfold evaluate_reward_curve.
  - rewrite u128_sub_law. apply Z.mod_pos_bound. lia.
  - rewrite !u128_mul_law, !u128_add_law, !u128_law. rewrite (Z.mod_small 2), (Z.mod_small (_ * 2)) by lia.
    rewrite (Z.mod_small (_ * 2 + _)) by lia. rewrite u128_div_law, u128_shl_law, u128_lo_law by (apply FL || lia).
    rewrite (Z.mod_small (cmt_net_SCOREreward c)), Z.mod_small by lia. apply Z.div_lt_upper_bound; nia.
  - lia.
  - destruct (approx_sqrt_near (cmt_net_SCOREreward c)) as [_ Hs]; [lia|]. nia.
Qed.

(** ** The loop *)

(** No comment is due when the first is not. *)
Lemma first_not_due (now : Z) (m : cmap) k c k' c' :
  first_row (at_most by_cashout_time) m = Some (k, c) → ¬ due now c → m !! k' = Some c' → ¬ due now c'.
Proof.
  intros Hf Hd Hk'. assert ((cmt_cashout_time c' <=? now) = false); [|unfold due; lia].
  eapply (first_row_not_due (at_most by_cashout_time) (λ c, cmt_cashout_time c <=? now)); [apply at_most_trans, _|apply at_most_total, _| |exact Hf| |exact Hk'].
  - intros i u j w _ _ Hle%at_most_lead. lia.
  - unfold due in Hd. lia.
Qed.

(** One payout from the snapshot of the fund [f]. *)
Record payout (f : reward_fund_object) (fx fx' : reward_fund_context) (now : Z) (m : cmap) (s s' : database) : Prop := Payout {
  po_rows : unpaid_rows s' = pay_rows now m;
  po_frame : same fixed_frame s s';
  po_votes : votes_left now m (rows (comment_votes s)) (rows (comment_votes s'));
  po_claims : rfx_recent_claims fx' = rfx_recent_claims fx;
  po_balance : rfx_reward_balance fx' = rfx_reward_balance fx;
  po_some : rfx_TME_awarded fx ≤ rfx_TME_awarded fx';
  po_share : 0 < rfx_recent_claims fx →
    (rfx_TME_awarded fx' - rfx_TME_awarded fx) * rfx_recent_claims fx ≤ amount (rfx_reward_balance fx) * claims_due now f m;
  po_none : rfx_recent_claims fx ≤ 0 → rfx_TME_awarded fx' = rfx_TME_awarded fx;
}.

Lemma claims_due_none f now m : (∀ k c, m !! k = Some c → ¬ due now c) → claims_due now f m = 0.
Proof. intros Hno. apply map_sum_zero. intros k c Hk. by rewrite decide_False by by eapply Hno. Qed.

Lemma payout_none f fx now s : (∀ k c, unpaid_rows s !! k = Some c → ¬ due now c) → payout f fx fx now (unpaid_rows s) s s.
Proof.
  intros Hno. split; [by rewrite pay_rows_id|done|by apply votes_left_none|done|done|lia| |done].
  rewrite claims_due_none by done. lia.
Qed.

(** What the state has to satisfy for a payout. *)
Record cashout_ok (f : reward_fund_object) (fx : reward_fund_context) (s : database) : Prop := CashoutOk {
  ck_forks : hardfork_active s HARDFORK_0_12 = true ∧ hardfork_active s HARDFORK_0_17 = true;
  ck_fund : rows (reward_funds s) = {[POST_REWARD_FUND_NAME := f]};
  ck_id : rwf_id f = 0;
  ck_fund_ok : fund_ok f;
  ck_balance : amount (rfx_reward_balance fx) = amount (rwf_reward_balance f);
  ck_rows k c : unpaid_rows s !! k = Some c → reward_ok c;
  ck_time : gpo_time (gpo s) < tps_max;
}.

Lemma unpaid_lookup s k c : rows (comments s) !! k = Some c → unpaid_rows s !! k = Some (unpaid c).
Proof. intros Hk. unfold unpaid_rows. by rewrite lookup_fmap, Hk. Qed.

Lemma fixed_forks s s' h : same fixed_frame s s' → hardfork_active s' h = hardfork_active s h.
Proof. intros [= _ _ E _ _]. unfold hardfork_active. by rewrite E. Qed.

Lemma cashout_from_fund_pays f fx price k c s fs s' :
  cashout_ok f fx s → rows (comments s) !! k = Some c → due (gpo_time (gpo s)) c →
  ⟨ cashout_from_fund price k c [fx], s ⟩ ⇓ ⟨ fs, s' ⟩ →
  ∃ x, fs = [fx <| rfx_TME_awarded ::= λ t, t + x |>] ∧ 0 ≤ x ∧
    unpaid_rows s' = <[k := pay_row (gpo_time (gpo s)) c]> (unpaid_rows s) ∧ same fixed_frame s s' ∧
    rows (comment_votes s') = drop_votes (cmt_id c) (rows (comment_votes s)) ∧
    (x = 0 ∨ 0 < rfx_recent_claims fx ∧ x * rfx_recent_claims fx ≤ amount (rfx_reward_balance fx) * claim_of f c).
Proof.
  intros [[H12 H17] Hf Hid Hfo Hb Hrows Ht] Hk Hd. unfold cashout_from_fund, get_reward_fund. intros Hr.
  apply runs_bind in Hr as (rf & ? & [Hrf ->]%runs_getr & Hr). rewrite Hf, lookup_singleton_eq in Hrf. apply (inj Some) in Hrf as <-.
  rewrite Hid in Hr. apply runs_bind in Hr as (g & ? & [-> Hg]%fund_at_reads & Hr). cbn in Hg. injection Hg as <-. cbv zeta in Hr.
  apply runs_bind in Hr as (x & s1 & H1 & Hr). apply runs_bind in Hr as (y & ? & [[-> _]%safe_add_ok ->]%runs_lift & [<- <-]%runs_ret).
  destruct (cashout_comment_helper_effect _ _ _ _ _ _ H12 H17 Hk H1) as (E1 & E2 & E3).
  pose proof (Hrows _ _ (unpaid_lookup _ _ _ Hk)) as Hc. destruct Hfo as [Hbal Hcon Hpc].
  assert (reward_ok c) as Hrc by exact Hc. pose proof (claim_range f c (FundOk f Hbal Hcon Hpc) Hrc) as Hcl. destruct Hrc as [Hnet Hw].
  assert (fund_of s = Some f) as Hfund by (unfold fund_of; by rewrite Hf, lookup_singleton_eq).
  eapply (cashout_share _ _ _ _ _ f c) in H1; [|intros _ f' Hf'; rewrite Hfund in Hf'; by apply (inj Some) in Hf' as <-|done|done|done| |done|].
  - db_fields in H1. exists x. split; [done|]. split; [destruct H1 as [->|(_ & _ & ? & _)]; lia|]. split_and!; [done..|].
    destruct H1 as [->|(Hn & Htot & Hx & Hle)]; [by left|right]. split; [done|]. unfold claim_of. destruct (Z.ltb_spec 0 (cmt_net_SCOREreward c)); [done|lia].
  - fields. rewrite Hb. done.
  - intros Hp. unfold claim_of in Hcl. destruct (Z.ltb_spec 0 (cmt_net_SCOREreward c)); [done|lia].
Qed.

Lemma none_due_unpaid now s : (∀ k c, rows (comments s) !! k = Some c → ¬ due now c) → ∀ k c, unpaid_rows s !! k = Some c → ¬ due now c.
Proof. unfold unpaid_rows. intros Hno k c. rewrite lookup_fmap. intros (c0 & Hk & ->)%fmap_Some. exact (Hno _ _ Hk). Qed.

Definition due_rows (now : Z) (m : cmap) : cmap := filter (λ p, due now p.2) m.
Lemma due_rows_step (now : Z) (m : cmap) k c n :
  now < tps_max → m !! k = Some c → due now c → (base.size (due_rows now m) ≤ S n)%nat →
  (base.size (due_rows now (<[k := pay_row now c]> m)) ≤ n)%nat.
Proof.
  intros Hn Hk Hd Hs. pose proof (pay_row_not_due now c Hn) as Hno. unfold due_rows in *.
  rewrite map_filter_insert_False by exact Hno. rewrite map_filter_delete.
  rewrite map_size_delete_Some by (eexists; by apply map_lookup_filter_Some). lia.
Qed.
Lemma due_rows_none (now : Z) (m : cmap) : (base.size (due_rows now m) ≤ 0)%nat → ∀ k c, m !! k = Some c → ¬ due now c.
Proof.
  intros Hs k c Hk Hd. assert (due_rows now m = ∅) as E by (apply map_size_empty_inv; lia).
  assert (due_rows now m !! k = Some c) as E2 by (by apply map_lookup_filter_Some). by rewrite E, lookup_empty in E2.
Qed.

Lemma cashout_ok_step f fx fx' s s' k c :
  cashout_ok f fx s → rows (comments s) !! k = Some c → due (gpo_time (gpo s)) c →
  unpaid_rows s' = <[k := pay_row (gpo_time (gpo s)) c]> (unpaid_rows s) → same fixed_frame s s' →
  rfx_reward_balance fx' = rfx_reward_balance fx → cashout_ok f fx' s'.
Proof.
  intros [[H12 H17] Hf Hid Hfo Hb Hrows Ht] Hk Hd EU EF Eb. pose proof EF as E. injection E as _ ER _ _ ET.
  split; [by rewrite !(fixed_forks _ _ _ EF)|by rewrite ER|done|done|by rewrite Eb| |by rewrite ET].
  intros q d. rewrite EU. intros [[<- <-]|[_ Hq]]%lookup_insert_Some; [|by eapply Hrows].
  pose proof (Hrows _ _ (unpaid_lookup _ _ _ Hk)) as [H1 H2]. split; [|exact H2].
  change (cmt_net_SCOREreward (pay_row (gpo_time (gpo s)) c)) with (if 0 <? cmt_net_SCOREreward c then 0 else cmt_net_SCOREreward c).
  change (cmt_net_SCOREreward (unpaid c)) with (cmt_net_SCOREreward c) in H1. unfold i64_max in *. destruct (0 <? _); lia.
Qed.

(** One payout, then the others. *)
Lemma payout_step f fx fx1 fx' now k c x s s1 s' :
  now < tps_max → rows (comments s) !! k = Some c → due now c → 0 ≤ x →
  fx1 = fx <| rfx_TME_awarded ::= λ t, t + x |> → unpaid_rows s1 = <[k := pay_row now c]> (unpaid_rows s) → same fixed_frame s s1 →
  rows (comment_votes s1) = drop_votes (cmt_id c) (rows (comment_votes s)) →
  x = 0 ∨ 0 < rfx_recent_claims fx ∧ x * rfx_recent_claims fx ≤ amount (rfx_reward_balance fx) * claim_of f c →
  0 ≤ amount (rfx_reward_balance fx) → 0 ≤ claim_of f c →
  payout f fx1 fx' now (unpaid_rows s1) s1 s' → payout f fx fx' now (unpaid_rows s) s s'.
Proof.
  intros Hn Hk Hd Hx -> EU EF EV Hshare Hb Hc [R1 R2 R3 R4 R5 R6 R7 R8]. pose proof (unpaid_lookup _ _ _ Hk) as Hu.
  db_fields in R4. db_fields in R5. db_fields in R6. db_fields in R7. db_fields in R8.
  assert (claims_due now f (unpaid_rows s) = claim_of f c + claims_due now f (unpaid_rows s1)) as EC.
  { rewrite EU. exact (claims_due_step now f (unpaid_rows s) k (unpaid c) Hn Hu Hd). }
  split.
  - rewrite R1, EU. exact (pay_rows_insert now (unpaid_rows s) k (unpaid c) Hn Hu Hd).
  - etrans; [exact EF|exact R2].
  - apply (votes_left_step now (unpaid_rows s) k (unpaid c) _ _ Hn Hu Hd). rewrite EU, EV in R3. exact R3.
  - exact R4.
  - exact R5.
  - lia.
  - intros Hpos. specialize (R7 Hpos). rewrite EC. destruct Hshare as [->|[_ Hle]]; nia.
  - intros Hneg. rewrite (R8 Hneg). destruct Hshare as [->|[? _]]; lia.
Qed.

Lemma cashouts_pay n f price : ∀ fx s fs s',
  cashout_ok f fx s → (base.size (due_rows (gpo_time (gpo s)) (unpaid_rows s)) ≤ n)%nat →
  ⟨ cashouts_from n price [fx], s ⟩ ⇓ ⟨ fs, s' ⟩ →
  ∃ fx', fs = [fx'] ∧ payout f fx fx' (gpo_time (gpo s)) (unpaid_rows s) s s'.
Proof.
  induction n as [|n IH]; intros fx s fs s' Hok Hsize Hr; cbn [cashouts_from] in Hr.
  { apply runs_ret in Hr as [<- <-]. exists fx. split; [done|]. apply payout_none. by apply due_rows_none. }
  apply runs_bind in Hr as (cur & ? & [-> ->]%runs_asks & Hr). apply runs_bind in Hr as (now & ? & [-> ->]%runs_asks & Hr).
  set (now := gpo_time (gpo s)) in *. destruct (first_row _ _) as [[k c]|] eqn:Hfirst.
  - pose proof (first_row_in _ _ _ _ Hfirst) as Hk. destruct (Z.leb_spec (cmt_cashout_time c) now) as [Hd|Hd].
    + apply runs_bind in Hr as (h & ? & [-> ->]%runs_asks & Hr). pose proof Hok as [[H12 H17] _ _ Hfo Hb Hrows Ht].
      rewrite H17 in Hr. apply runs_bind in Hr as (fs1 & s1 & H1 & Hr).
      destruct (cashout_from_fund_pays _ _ _ _ _ _ _ _ Hok Hk Hd H1) as (x & -> & Hx & EU & EF & EV & Hshare). fold now in EU.
      assert (gpo_time (gpo s1) = now) as Enow by (by injection EF as _ _ _ _ ?).
      assert (cashout_ok f (fx <| rfx_TME_awarded ::= λ t, t + x |>) s1) as Hok1.
      { by eapply (cashout_ok_step f fx _ s s1 k c Hok Hk Hd EU EF). }
      assert ((base.size (due_rows (gpo_time (gpo s1)) (unpaid_rows s1)) ≤ n)%nat) as Hs1.
      { rewrite Enow, EU. exact (due_rows_step now (unpaid_rows s) k (unpaid c) n Ht (unpaid_lookup _ _ _ Hk) Hd Hsize). }
      destruct (IH _ _ _ _ Hok1 Hs1 Hr) as (fx' & -> & Hp). exists fx'. split; [done|]. rewrite Enow in Hp.
      assert (0 ≤ claim_of f c) as Hc by exact (proj1 (claim_range f c Hfo (Hrows _ _ (unpaid_lookup _ _ _ Hk)))).
      assert (0 ≤ amount (rfx_reward_balance fx)) as Hb0 by (rewrite Hb; apply Hfo).
      exact (payout_step f fx _ fx' now k c x s s1 s' Ht Hk Hd Hx eq_refl EU EF EV Hshare Hb0 Hc Hp).
    + apply runs_ret in Hr as [<- <-]. exists fx. split; [done|]. apply payout_none, none_due_unpaid. intros k' c' Hk'.
      apply (first_not_due now (rows (comments s)) k c k' c' Hfirst); [unfold due; lia|exact Hk'].
  - apply runs_ret in Hr as [<- <-]. exists fx. split; [done|]. apply payout_none, none_due_unpaid.
    apply first_row_none in Hfirst. rewrite Hfirst. intros k' c' Hk'. by rewrite lookup_empty in Hk'.
Qed.

(** ** The claims *)

Lemma add_claims_sum f l : ∀ fx s fs s',
  fund_of s = Some f → rwf_id f = 0 → fund_ok f → Forall reward_ok l →
  0 ≤ rfx_recent_claims fx → rfx_recent_claims fx + zsum (claim_of f) l < 2 ^ 128 →
  ⟨ add_claims l [fx], s ⟩ ⇓ ⟨ fs, s' ⟩ → s' = s ∧ fs = [fx <| rfx_recent_claims ::= λ t, t + zsum (claim_of f) l |>].
Proof.
  induction l as [|c l IH]; intros fx s fs s' Hf Hid Hfo Hall H0 Hfit Hr; cbn [add_claims zsum] in *.
  { apply runs_ret in Hr as [<- <-]. split; [done|]. destruct fx as [r b a]. unfold set_field. cbn. by rewrite Z.add_0_r. }
  apply Forall_cons in Hall as [Hc Hall]. pose proof (claim_range f c Hfo Hc) as Hcl.
  assert (0 ≤ zsum (claim_of f) l) as Hn.
  { apply zsum_nonneg. eapply Forall_impl; [exact Hall|]. intros d Hd. by apply claim_range. }
  unfold claim_of at 1 in Hcl. unfold claim_of at 1 in Hfit. unfold claim_of at 1. destruct (0 <? cmt_net_SCOREreward c).
  - apply runs_bind in Hr as (rf & ? & [Hrf ->]%runs_getr & Hr). unfold fund_of in Hf. rewrite Hf in Hrf. apply (inj Some) in Hrf as <-.
    rewrite Hid in Hr. apply runs_bind in Hr as (g & ? & [-> Hg]%fund_at_reads & Hr). cbn in Hg. injection Hg as <-. cbv zeta in Hr.
    set (claim := evaluate_reward_curve _ _ _) in *. cbn in Hr.
    assert ((fx <| rfx_recent_claims ::= λ t, u128_add t claim |>) = fx <| rfx_recent_claims ::= λ t, t + claim |>) as E.
    { destruct fx as [r b a]. unfold set_field. cbn in *. by rewrite u128_add_law, Z.mod_small by lia. }
    rewrite E in Hr. apply IH in Hr as [-> ->]; [|done..|db_fields; lia|db_fields; lia].
    split; [done|]. destruct fx as [r b a]. unfold set_field. cbn. by rewrite Z.add_assoc.
  - rewrite Z.add_0_l in *. by apply IH in Hr.
Qed.

(** The claims on the fund after the claims of the comments that are due. *)
Definition claims_total (s : database) (f : reward_fund_object) : Z :=
  rwf_recent_claims (decay_claims (gpo_time (gpo s)) (hardfork_active s HARDFORK_0_19) f)
  + claims_due (gpo_time (gpo s)) f (rows (comments s)).

(** The states the theorems are about: since hard fork 17 there is one fund; a
    comment's reward is a 63-bit integer and its weight a percentage; the claims
    fit in 128 bits. *)
Record payable (f : reward_fund_object) (s : database) : Prop := Payable {
  pb_forks : hardfork_active s HARDFORK_0_7 = true ∧ hardfork_active s HARDFORK_0_12 = true ∧ hardfork_active s HARDFORK_0_17 = true;
  pb_fund : rows (reward_funds s) = {[POST_REWARD_FUND_NAME := f]};
  pb_id : rwf_id f = 0;
  pb_fund_ok : fund_ok f;
  pb_rows k c : rows (comments s) !! k = Some c → reward_ok c;
  pb_time : gpo_time (gpo s) < tps_max;
  pb_fit : claims_total s f < 2 ^ 128;
}.

Lemma funds_by_id_single s f : rows (reward_funds s) = {[POST_REWARD_FUND_NAME := f]} → funds_by_id s = [POST_REWARD_FUND_NAME].
Proof.
  intros Hf. unfold funds_by_id. rewrite Hf, map_to_list_singleton.
  set (l := merge_sort _ _). assert (l ≡ₚ [(POST_REWARD_FUND_NAME, f)]) as Hp by apply merge_sort_Permutation. clearbody l.
  by apply Permutation_singleton_r in Hp as ->.
Qed.

Lemma snapshot_single s f fs s' :
  rows (reward_funds s) = {[POST_REWARD_FUND_NAME := f]} →
  ⟨ snapshot_funds [POST_REWARD_FUND_NAME] [], s ⟩ ⇓ ⟨ fs, s' ⟩ →
  let f' := decay_claims (gpo_time (gpo s)) (hardfork_active s HARDFORK_0_19) f in
  fs = [Make_reward_fund_context (rwf_recent_claims f') (rwf_reward_balance f) 0] ∧
  s' = set_row reward_funds POST_REWARD_FUND_NAME f' s.
Proof.
  cbv zeta. intros Hf Hr. cbn [snapshot_funds app] in Hr. apply runs_bind in Hr as (now & ? & [-> ->]%runs_asks & Hr).
  apply runs_bind in Hr as (h & ? & [-> ->]%runs_asks & Hr). apply runs_bind in Hr as (? & s1 & Hm & Hr).
  apply runs_modify in Hm as (g & g' & Hg & [= <-] & ->). rewrite Hf, lookup_singleton_eq in Hg. apply (inj Some) in Hg as <-.
  apply runs_bind in Hr as (rfo & ? & [Hrfo ->]%runs_getr & [<- <-]%runs_ret). db_fields in Hrfo. rewrite lookup_insert_eq in Hrfo.
  apply (inj Some) in Hrfo as <-. done.
Qed.

Lemma zsum_comments_due f s : zsum (claim_of f) (comments_due s) = claims_due (gpo_time (gpo s)) f (rows (comments s)).
Proof.
  unfold comments_due. etrans; [apply zsum_perm, fmap_Permutation, merge_sort_Permutation|].
  etrans; [apply (zsum_filter (claim_of f) (due (gpo_time (gpo s))))|]. done.
Qed.

Lemma claims_due_unpaid now f s : claims_due now f (unpaid_rows s) = claims_due now f (rows (comments s)).
Proof. unfold claims_due, unpaid_rows. rewrite map_sum_fmap. done. Qed.

Lemma write_single s f fx u s' :
  rows (reward_funds s) = {[POST_REWARD_FUND_NAME := f]} → rwf_id f = 0 → ⟨ write_back 0 [fx], s ⟩ ⇓ ⟨ u, s' ⟩ →
  ∃ b, amount b = amount (rwf_reward_balance f) - rfx_TME_awarded fx ∧
    s' = set_row reward_funds POST_REWARD_FUND_NAME (f <| rwf_recent_claims := rfx_recent_claims fx |> <| rwf_reward_balance := b |>) s.
Proof.
  intros Hf Hid Hr. cbn [write_back] in Hr. apply runs_bind in Hr as (k & ? & [-> Hk]%get_fund_by_id_reads & Hr).
  apply runs_bind in Hr as (? & s1 & Hm & [_ <-]%runs_ret). apply runs_modify in Hm as (g & g' & Hg & Hv & ->).
  rewrite Hf in Hg. apply lookup_singleton_Some in Hg as [<- <-]. apply result_bind_ok in Hv as (b & Hb & [= <-]). exists b. split; [|done].
  unfold asset_sub in Hb. apply result_bind_ok in Hb as (? & _ & Hb). by apply result_bind_ok in Hb as (y & [-> _]%safe_sub_ok & [= <-]).
Qed.

(** What the payouts of a block do. *)
Record paid_out (f : reward_fund_object) (s s' : database) : Prop := PaidOut {
  pd_rows : unpaid_rows s' = pay_rows (gpo_time (gpo s)) (unpaid_rows s);
  pd_votes : votes_left (gpo_time (gpo s)) (unpaid_rows s) (rows (comment_votes s)) (rows (comment_votes s'));
  pd_next : next_id (comments s') = next_id (comments s);
  pd_fund : ∃ f', rows (reward_funds s') = {[POST_REWARD_FUND_NAME := f']} ∧ rwf_recent_claims f' = claims_total s f ∧
    0 ≤ amount (rwf_reward_balance f') ≤ amount (rwf_reward_balance f) ∧ rwf_content_constant f' = rwf_content_constant f ∧
    rwf_curationReward_curve f' = rwf_curationReward_curve f;
}.

(** The end of a payout: the fund pays what was awarded and keeps the rest. *)
Lemma payout_written f1 fx fx' s1 s3 u s' :
  rows (reward_funds s1) = {[POST_REWARD_FUND_NAME := f1]} → rwf_id f1 = 0 →
  payout f1 fx fx' (gpo_time (gpo s1)) (unpaid_rows s1) s1 s3 → rfx_TME_awarded fx = 0 → rfx_reward_balance fx = rwf_reward_balance f1 →
  0 ≤ amount (rwf_reward_balance f1) → claims_due (gpo_time (gpo s1)) f1 (unpaid_rows s1) ≤ rfx_recent_claims fx →
  ⟨ write_back 0 [fx'], s3 ⟩ ⇓ ⟨ u, s' ⟩ →
  unpaid_rows s' = pay_rows (gpo_time (gpo s1)) (unpaid_rows s1) ∧
  votes_left (gpo_time (gpo s1)) (unpaid_rows s1) (rows (comment_votes s1)) (rows (comment_votes s')) ∧
  next_id (comments s') = next_id (comments s1) ∧
  ∃ f', rows (reward_funds s') = {[POST_REWARD_FUND_NAME := f']} ∧ rwf_recent_claims f' = rfx_recent_claims fx ∧
    0 ≤ amount (rwf_reward_balance f') ≤ amount (rwf_reward_balance f1) ∧ rwf_content_constant f' = rwf_content_constant f1 ∧
    rwf_curationReward_curve f' = rwf_curationReward_curve f1.
Proof.
  intros Hf Hid [R1 R2 R3 R4 R5 R6 R7 R8] H0 Hb Hpos Hle Hr. injection R2 as EN ER EH EF ET.
  assert (rows (reward_funds s3) = {[POST_REWARD_FUND_NAME := f1]}) as Hf3 by (by rewrite ER).
  apply (write_single _ _ _ _ _ Hf3 Hid) in Hr as (b & Eb & ->). split_and!; [exact R1|exact R3|exact EN|].
  eexists. db_fields. rewrite Hf3, insert_singleton_eq. split; [done|]. db_fields. rewrite Eb, R4. split; [done|]. split; [|done].
  rewrite H0 in *. rewrite Hb in *. set (x := rfx_TME_awarded fx') in *. clearbody x.
  destruct (Z.lt_ge_cases 0 (rfx_recent_claims fx)) as [Ht|Ht]; [specialize (R7 Ht)|specialize (R8 Ht)]; nia.
Qed.

Lemma process_comment_cashout_pays f s u s' :
  payable f s → ⟨ process_comment_cashout, s ⟩ ⇓ ⟨ u, s' ⟩ → paid_out f s s'.
Proof.
  intros [(H7 & H12 & H17) Hf Hid Hfo Hrows Ht Hfit]. unfold process_comment_cashout, FIRST_CASHOUT_TIME. intros Hr.
  apply runs_bind in Hr as (st & ? & [-> ->]%runs_asks & Hr). rewrite H7 in Hr. cbn [negb] in Hr.
  apply runs_bind in Hr as (fh & ? & [-> ->]%runs_asks & Hr). cbv zeta in Hr. apply runs_bind in Hr as (ids & ? & [-> ->]%runs_asks & Hr).
  rewrite (funds_by_id_single _ _ Hf) in Hr. apply runs_bind in Hr as (fs & s1 & H1 & Hr).
  destruct (snapshot_single _ _ _ _ Hf H1) as [-> ->]. clear H1.
  set (f1 := decay_claims _ _ f) in *. set (s1 := set_row _ _ f1 s) in *.
  assert (rows (reward_funds s1) = {[POST_REWARD_FUND_NAME := f1]}) as Hf1.
  { unfold s1. db_fields. by rewrite Hf, insert_singleton_eq. }
  assert (fund_ok f1) as Hfo1 by (destruct Hfo; by split). set (total := claims_total s f) in *.
  apply runs_bind in Hr as (h & ? & [-> ->]%runs_asks & Hr). change (hardfork_active s1 HARDFORK_0_17) with (hardfork_active s HARDFORK_0_17) in Hr.
  rewrite H17 in Hr. apply runs_bind in Hr as (fs & s2 & Hadd & Hr). apply runs_bind in Hadd as (l & ? & [-> ->]%runs_asks & Hadd).
  assert (0 ≤ rwf_recent_claims f1) as Hr0.
  { unfold f1, decay_claims. cbv zeta. db_fields. rewrite u128_sub_law. apply Z.mod_pos_bound. lia. }
  assert (zsum (claim_of f1) (comments_due s1) = claims_due (gpo_time (gpo s)) f (rows (comments s))) as Ez by exact (zsum_comments_due f s).
  apply (add_claims_sum f1) in Hadd as [-> ->]; [|by unfold fund_of; rewrite Hf1, lookup_singleton_eq|exact Hid|done| |done|cbn [rfx_recent_claims]; rewrite Ez; exact Hfit].
  2:{ apply Forall_forall. intros c [[k d] [-> Hin]]%list_elem_of_fmap. rewrite merge_sort_Permutation, list_elem_of_filter in Hin.
      destruct Hin as [_ Hin%elem_of_map_to_list]. exact (Hrows _ _ Hin). }
  rewrite Ez in Hr. apply runs_bind in Hr as (n & ? & [-> ->]%runs_asks & Hr).
  apply runs_bind in Hr as (fs & s3 & H2 & Hr). change (unpaid_rows s) with (unpaid_rows s1).
  apply (cashouts_pay _ f1 _ (Make_reward_fund_context total (rwf_reward_balance f) 0)) in H2 as (fx' & -> & Hp).
  - assert (claims_due (gpo_time (gpo s1)) f1 (unpaid_rows s1) ≤ total) as Hle.
    { rewrite claims_due_unpaid. unfold total, claims_total. fold f1.
      change (claims_due (gpo_time (gpo s1)) f1 (rows (comments s1))) with (claims_due (gpo_time (gpo s)) f (rows (comments s))). lia. }
    destruct (payout_written f1 _ fx' s1 s3 u s' Hf1 Hid Hp eq_refl eq_refl (proj1 (fo_balance f Hfo)) Hle Hr) as (E1 & E2 & E3 & E4).
    split; [exact E1|exact E2|exact E3|exact E4].
  - split; [done|done|done|done|done| |done]. intros k c. unfold unpaid_rows. rewrite lookup_fmap. intros (d & Hd & ->)%fmap_Some. exact (Hrows _ _ Hd).
  - unfold due_rows. etrans; [apply map_size_filter|]. unfold unpaid_rows. by rewrite map_size_fmap.
Qed.

(** ** The tally after the payouts *)

Definition paid_ids (now : Z) (m : cmap) : list Z := (λ p, cmt_id p.2) <$> map_to_list (due_rows now m).
Lemma elem_of_paid_ids (now : Z) (m : cmap) id : id ∈ paid_ids now m ↔ ∃ k c, m !! k = Some c ∧ due now c ∧ cmt_id c = id.
Proof.
  unfold paid_ids, due_rows. rewrite list_elem_of_fmap. split.
  - intros ([k c] & -> & Hin%elem_of_map_to_list). apply map_lookup_filter_Some in Hin as [Hk Hd]. eauto.
  - intros (k & c & Hk & Hd & <-). exists (k, c). split; [done|]. apply elem_of_map_to_list. by apply map_lookup_filter_Some.
Qed.

Lemma votes_left_filter (now : Z) (m : cmap) V V' : votes_left now m V V' → V' = filter (λ kv, kv.1.1 ∉ paid_ids now m) V.
Proof.
  intros Hv. apply map_eq. intros q. apply option_eq. intros v. rewrite (Hv q v), map_lookup_filter_Some, elem_of_paid_ids. cbn.
  split; (intros [Hq Hall]; split; [done|]); [intros (k & c & Hk & Hd & E); by apply (Hall k c)|].
  intros k c Hk Hd E. apply Hall. eauto.
Qed.

Section tally_after.
Context (now : Z) (s s' : database) (f f' : reward_fund_object).
Context (Hok : votes_tally s) (Hrows : unpaid_rows s' = pay_rows now (unpaid_rows s)).
Context (Hvotes : votes_left now (unpaid_rows s) (rows (comment_votes s)) (rows (comment_votes s'))).

Lemma over_votes_left g id :
  id ∉ paid_ids now (unpaid_rows s) → over_votes (rows (comment_votes s')) g id = over_votes (rows (comment_votes s)) g id.
Proof.
  intros Hid. rewrite (votes_left_filter _ _ _ _ Hvotes). unfold over_votes. apply map_sum_filter.
  intros k v Hk Hp. cbn in Hp. apply dec_stable in Hp. destruct (tk_votes _ _ _ _ Hok _ _ Hk) as (-> & _). cbn in Hp.
  destruct (Z.eqb_spec (cvo_comment v) id); [by subst|done].
Qed.
Lemma over_votes_gone g id : id ∈ paid_ids now (unpaid_rows s) → over_votes (rows (comment_votes s')) g id = 0.
Proof.
  intros Hid. apply over_votes_none. intros k v Hk E. apply Hvotes in Hk as [Hk Hall].
  destruct (tk_votes _ _ _ _ Hok _ _ Hk) as (-> & _). apply elem_of_paid_ids in Hid as (q & c & Hq & Hd & Ec).
  apply (Hall q c Hq Hd). cbn. congruence.
Qed.

Lemma tallies_unpaid t : tallies t = tally_of <$> unpaid_rows t.
Proof. unfold tallies, unpaid_rows. by rewrite <- map_fmap_compose. Qed.

(** The tally of a comment after the payouts. *)
Lemma tallies_after k t : tallies s' !! k = Some t →
  ∃ c, rows (comments s) !! k = Some c ∧ t = if decide (due now c) then tally_of (pay_row now c) else tally_of c.
Proof.
  rewrite tallies_unpaid, Hrows. unfold pay_rows, unpaid_rows. rewrite !lookup_fmap. destruct (rows (comments s) !! k) as [c|]; [|done].
  intros [= <-]. exists c. split; [done|]. change (due now (unpaid c)) with (due now c). by destruct (decide (due now c)).
Qed.
Lemma tallies_before k c : rows (comments s) !! k = Some c → ∃ t, tallies s' !! k = Some t ∧ ty_id t = cmt_id c.
Proof.
  intros Hk. rewrite tallies_unpaid, Hrows. unfold pay_rows, unpaid_rows. rewrite !lookup_fmap, Hk. cbn.
  eexists. split; [done|]. by destruct (decide _).
Qed.

Lemma paid_tally_ok :
  fund_of s = Some f → fund_of s' = Some f' → rwf_content_constant f' = rwf_content_constant f →
  rwf_curationReward_curve f' = rwf_curationReward_curve f → next_id (comments s') = next_id (comments s) → votes_tally s'.
Proof.
  intros Hf Hf' Ec Ecu En. pose proof Hok as [Kf Kv Kr Kfr Ki]. unfold votes_tally. rewrite Hf', En. rewrite Hf in *.
  split.
  - intros g [= <-]. rewrite Ec. by apply Kf.
  - intros k v [Hk _]%Hvotes. destruct (Kv _ _ Hk) as (-> & Hw & q & t & Hq & E). split_and!; [done..|].
    apply tallies_lookup in Hq as (c & Hq & ->). destruct (tallies_before _ _ Hq) as (t & Ht & Et). exists q, t. split; [done|]. by rewrite Et.
  - intros k t (c & Hk & ->)%tallies_after. pose proof (Kr _ _ (tallies_some _ _ _ Hk)) as [T1 T2 T3 T4 T5].
    cbn [tally_of ty_id ty_created ty_cashout ty_vote_SCOREreward ty_weight ty_net ty_count] in T1, T2, T3, T4, T5.
    destruct (decide (due now c)) as [Hd|Hd].
    + assert (cmt_id c ∈ paid_ids now (unpaid_rows s)) as Hin by (apply elem_of_paid_ids; exists k, (unpaid c); split; [by apply unpaid_lookup|done]).
      split.
      * exact T1.
      * change (ty_vote_SCOREreward (tally_of (pay_row now c))) with 0. unfold i64_max. lia.
      * change (ty_id (tally_of (pay_row now c))) with (cmt_id c). change (ty_weight (tally_of (pay_row now c))) with 0. rewrite over_votes_gone by done. lia.
      * intros g [= <-]. change (ty_vote_SCOREreward (tally_of (pay_row now c))) with 0. change (ty_weight (tally_of (pay_row now c))) with 0.
        destruct (curve_grows f' 0 0) as [H0 _]; [rewrite Ec; by apply Kf|lia|unfold i64_max; lia|exact H0].
      * intros Hne. by destruct Hne.
    + assert (cmt_id c ∉ paid_ids now (unpaid_rows s)) as Hin.
      { intros (q & d & Hq & Hdd & E)%elem_of_paid_ids. unfold unpaid_rows in Hq. rewrite lookup_fmap in Hq. apply fmap_Some in Hq as (d0 & Hq & ->).
        assert (q = k) as -> by (eapply Ki; [by apply tallies_some|by apply tallies_some|exact E]). rewrite Hk in Hq. apply (inj Some) in Hq as <-. by apply Hd. }
      split; cbn [tally_of ty_id ty_created ty_cashout ty_vote_SCOREreward ty_weight ty_net ty_count]; rewrite ?over_votes_left by done; try done.
      intros g [= <-]. unfold curation_curve. rewrite Ec, Ecu. by apply T4.
  - intros k t (c & Hk & ->)%tallies_after. pose proof (Kfr _ _ (tallies_some _ _ _ Hk)) as Hlt. by destruct (decide _).
  - intros k t k' t' (c & Hk & ->)%tallies_after (c' & Hk' & ->)%tallies_after E. eapply Ki; [by apply tallies_some|by apply tallies_some|].
    by destruct (decide (due now c)), (decide (due now c')).
Qed.
End tally_after.
End due.

(** * The theorems *)

Section theorems.
Context {F : Fc} {FL : FcLaws F}.

Lemma paid_out_shape f s s' : paid_out f s s' → same shape_of s s'.
Proof.
  intros [E _ En _]. unfold same, shape_of. rewrite En. f_equal.
  assert (∀ t, shape_view <$> rows (comments t) = shape_view <$> unpaid_rows t) as Eu.
  { intros t. unfold unpaid_rows. by rewrite <- map_fmap_compose. }
  rewrite !Eu, E. unfold pay_rows. rewrite <- map_fmap_compose. apply map_fmap_ext. intros k c _. cbn. by destruct (decide _).
Qed.

(** C23. Once a comment is due it is paid: after [process_comment_cashout] no
    comment is due, every comment that was due is closed as [paid_comment] says
    and no other is touched (but for the sums of the payouts, [unpaid]), and
    exactly the votes on the paid comments are gone.  So the loop of the function
    ends, with as many rounds as there are comments. *)
Theorem process_comment_cashout_complete f s u s' :
  payable f s → ⟨ process_comment_cashout, s ⟩ ⇓ ⟨ u, s' ⟩ →
  (∀ k c, rows (comments s') !! k = Some c → gpo_time (gpo s) < cmt_cashout_time c) ∧
  (∀ k, unpaid <$> rows (comments s') !! k =
     (λ c, if decide (cmt_cashout_time c ≤ gpo_time (gpo s)) then unpaid (paid_comment (gpo_time (gpo s)) true true c) else unpaid c)
       <$> rows (comments s) !! k) ∧
  (∀ q v, rows (comment_votes s') !! q = Some v ↔
     rows (comment_votes s) !! q = Some v ∧
     ∀ k c, rows (comments s) !! k = Some c → cmt_cashout_time c ≤ gpo_time (gpo s) → cmt_id c ≠ q.1).
Proof.
  intros Hp Hr. pose proof (pb_time _ _ Hp) as Ht. apply (process_comment_cashout_pays f) in Hr as [E Hv _ _]; [|done].
  assert (∀ k, unpaid <$> rows (comments s') !! k =
     (λ c, if decide (cmt_cashout_time c ≤ gpo_time (gpo s)) then unpaid (paid_comment (gpo_time (gpo s)) true true c) else unpaid c)
       <$> rows (comments s) !! k) as Ek.
  { intros k. rewrite <- lookup_fmap. change (unpaid <$> rows (comments s')) with (unpaid_rows s'). rewrite E. unfold pay_rows, unpaid_rows.
    rewrite !lookup_fmap. by destruct (rows (comments s) !! k). }
  split_and!; [|exact Ek|].
  - intros k c Hk. specialize (Ek k). rewrite Hk in Ek. cbn in Ek. destruct (rows (comments s) !! k) as [c0|]; [|done].
    apply (inj Some) in Ek. apply (f_equal cmt_cashout_time) in Ek. change (cmt_cashout_time (unpaid c)) with (cmt_cashout_time c) in Ek.
    rewrite Ek. destruct (decide _); [exact Ht|]. change (cmt_cashout_time (unpaid c0)) with (cmt_cashout_time c0). lia.
  - intros q v. rewrite (Hv q v). split; (intros [Hq Hall]; split; [done|]).
    + intros k c Hk Hd. exact (Hall k (unpaid c) (unpaid_lookup _ _ _ Hk) Hd).
    + intros k c Hk. unfold unpaid_rows in Hk. rewrite lookup_fmap in Hk. apply fmap_Some in Hk as (d & Hk & ->). exact (Hall k d Hk).
Qed.

(** C22. The payouts of a block never take more from the reward fund than it
    holds: the shares of all comments that are due, the curators', beneficiaries'
    and authors' parts included, are paid from the balance of before the block.
    The claims on the fund are the decayed claims and those of the comments paid. *)
Theorem reward_fund_never_overdrawn f s u s' :
  payable f s → ⟨ process_comment_cashout, s ⟩ ⇓ ⟨ u, s' ⟩ →
  ∃ f', rows (reward_funds s') = {[POST_REWARD_FUND_NAME := f']} ∧
    0 ≤ amount (rwf_reward_balance f') ≤ amount (rwf_reward_balance f) ∧
    rwf_recent_claims f' = rwf_recent_claims (decay_claims (gpo_time (gpo s)) (hardfork_active s HARDFORK_0_19) f)
      + map_sum (λ c, if decide (cmt_cashout_time c ≤ gpo_time (gpo s)) then claim_of f c else 0) (rows (comments s)).
Proof.
  intros Hp Hr. apply (process_comment_cashout_pays f) in Hr as [_ _ _ (f' & E1 & E2 & E3 & _)]; [|done].
  exists f'. split_and!; [done|lia|lia|exact E2].
Qed.

(** C24. At every hard fork, [process_comment_cashout] conserves the supplies: what
    curators, beneficiaries and authors get, and the TSD created, leaves the
    reward fund, the snapshot notwithstanding. *)
Theorem process_comment_cashout_conserves s u s' :
  ⟨ process_comment_cashout, s ⟩ ⇓ ⟨ u, s' ⟩ → conserves s s'.
Proof. apply process_comment_cashout_books. Qed.

(** The payouts keep the tree of comments and the tally of the votes. *)
Theorem process_comment_cashout_keeps f s u s' :
  payable f s → ⟨ process_comment_cashout, s ⟩ ⇓ ⟨ u, s' ⟩ →
  (tree_ok s → tree_ok s') ∧ (votes_tally s → votes_tally s').
Proof.
  intros Hp Hr. pose proof (pb_fund _ _ Hp) as Hf. apply (process_comment_cashout_pays f) in Hr as Hpo; [|done]. split.
  - by apply shape_tree, (paid_out_shape f).
  - destruct Hpo as [E Hv En (f' & Ef & _ & _ & Ec & Ecu)]. intros Hok.
    apply (paid_tally_ok (gpo_time (gpo s)) s s' f f' Hok E Hv); try done; unfold fund_of; [by rewrite Hf, lookup_singleton_eq|by rewrite Ef, lookup_singleton_eq].
Qed.
End theorems.

(** * An example *)

Module PayoutExamples.
Import FcRef DiscussionExamples VoteExamples.

(** Seven days after Bob's vote; the fund holds 1000000 and the vote is its only
    claim. *)
Definition rich_fund : reward_fund_object := post_fund <| rwf_reward_balance := coin 1000000 |> <| rwf_last_update := 100600 |>.
Definition payday : database :=
  bob_voted <| reward_funds := Table {["post"%string := rich_fund]} 1 |>
    <| gpo ::= λ g, g <| gpo_time := 100600 + CASHOUT_WINDOW_SECONDS |> <| gpo_totalSCORE := score 1000000000000 |>
                      <| gpo_totalTMEfundForSCORE := coin 1000000000 |> |>.
Definition paid_day : database := outcome process_comment_cashout payday.

Lemma payday_runs : ⟨ process_comment_cashout, payday ⟩ ⇓ ⟨ tt, paid_day ⟩.
Proof. runs_ok. Qed.
Lemma single_post : ∃ c, rows (comments payday) = {[("alice"%string, "hello"%string) := c]} ∧ reward_ok c.
Proof. eexists. split; [vm_compute; reflexivity|]. split; [|split]; apply Z.leb_le; vm_compute; reflexivity. Qed.
Lemma payday_payable : payable rich_fund payday.
Proof.
  split.
  - by vm_compute.
  - by vm_compute.
  - done.
  - split; [split| split|split]; try (apply Z.leb_le; vm_compute; reflexivity); apply Z.ltb_lt; vm_compute; reflexivity.
  - intros k c Hk. destruct single_post as (d & Hd & Hok). rewrite Hd in Hk. by apply lookup_singleton_Some in Hk as [_ <-].
  - apply Z.ltb_lt. vm_compute. reflexivity.
  - apply Z.ltb_lt. vm_compute. reflexivity.
Qed.

Example paid_day_rewards :
  (λ f, amount (rwf_reward_balance f)) <$> rows (reward_funds paid_day) !! "post"%string = Some 0 ∧
  (λ a, amount (acc_SCORErewardBalanceInTME a)) <$> rows (accounts paid_day) !! "bob"%string = Some 250000.
Proof. by vm_compute. Qed.

Lemma process_comment_cashout_complete_witness :
  map_Forall (λ _ c, gpo_time (gpo payday) < cmt_cashout_time c) (rows (comments paid_day)).
Proof. destruct (process_comment_cashout_complete rich_fund payday tt paid_day payday_payable payday_runs) as [H _]. exact H. Defined.

Lemma reward_fund_never_overdrawn_witness :
  ∃ f', rows (reward_funds paid_day) = {[POST_REWARD_FUND_NAME := f']} ∧ 0 ≤ amount (rwf_reward_balance f') ≤ amount (rwf_reward_balance rich_fund).
Proof.
  destruct (reward_fund_never_overdrawn rich_fund payday tt paid_day payday_payable payday_runs) as (f' & H1 & H2 & _).
  exact (ex_intro _ f' (conj H1 H2)).
Defined.

Lemma process_comment_cashout_conserves_witness : conserves payday paid_day.
Proof. exact (process_comment_cashout_conserves payday tt paid_day payday_runs). Defined.

Lemma tally_ok_fund f f' T V n :
  rwf_content_constant f' = rwf_content_constant f → rwf_curationReward_curve f' = rwf_curationReward_curve f →
  tally_ok (F:=fc_ref) (Some f) T V n → tally_ok (F:=fc_ref) (Some f') T V n.
Proof.
  intros E1 E2 [K1 K2 K3 K4 K5]. split; [|done| |done|done].
  - intros g [= <-]. rewrite E1. by apply K1.
  - intros k t Ht. destruct (K3 _ _ Ht) as [T1 T2 T3 T4 T5]. split; [done|done|done| |done].
    intros g [= <-]. unfold curation_curve. rewrite E1, E2. by apply T4.
Qed.

Lemma bob_voted_tally : votes_tally (F:=fc_ref) bob_voted.
Proof.
  assert (⟨ comment_apply alice_posts, curated ⟩ ⇓ ⟨ tt, curated_post ⟩) as Ha by runs_ok.
  set (later := curated_post <| gpo ::= λ g, g <| gpo_time := 100600 |> |>).
  assert (⟨ vote_apply bob_votes, later ⟩ ⇓ ⟨ tt, bob_voted ⟩) as Hb by runs_ok.
  assert (votes_tally curated_post) as Hp.
  { refine (comment_apply_tally alice_posts _ _ _ _ curated_tally Ha). apply Z.leb_le. vm_compute. reflexivity. }
  assert (same tally_frame curated_post later) as Hs by (vm_compute; reflexivity).
  refine (vote_tally bob_votes later tt bob_voted _ _ _ _ (same_tally _ _ Hs Hp) Hb); vm_compute; reflexivity.
Qed.
Lemma payday_tally : votes_tally (F:=fc_ref) payday.
Proof.
  assert (fund_of payday = Some rich_fund) as E1 by (vm_compute; reflexivity).
  assert (fund_of bob_voted = Some post_fund) as E2 by (vm_compute; reflexivity).
  assert (tallies payday = tallies bob_voted) as E3 by (vm_compute; reflexivity).
  assert (rows (comment_votes payday) = rows (comment_votes bob_voted)) as E4 by (vm_compute; reflexivity).
  assert (next_id (comments payday) = next_id (comments bob_voted)) as E5 by (vm_compute; reflexivity).
  pose proof bob_voted_tally as H. unfold votes_tally in *. rewrite E1, E3, E4, E5. rewrite E2 in H.
  exact (tally_ok_fund post_fund rich_fund _ _ _ eq_refl eq_refl H).
Qed.

Lemma process_comment_cashout_keeps_witness : votes_tally (F:=fc_ref) paid_day.
Proof. destruct (process_comment_cashout_keeps rich_fund payday tt paid_day payday_payable payday_runs) as [_ H]. exact (H payday_tally). Defined.
End PayoutExamples.
