(* ===== verification/Inflation.v ===== *)
(** Where new TME comes from: [process_funds] and the rewards it computes,
    [pay_reward_funds], [pay_liquidity_reward] and [clear_null_account_balance] of
    [chain/database.cpp].

    Since hard fork 16 the chain issues TME at a rate that narrows over time, a
    part for the reward funds, a part for SCORE and the rest for the witness who
    made the block.  Before, the amounts were fixed percentages per block. *)

From S2P Require Import Prelude Fc Config Asset Flat Authority Operations Objects Database Samples Ledger Frame Supply Market Votes Rewards Quiet Same Cashout.

Section inflation_model.
Context {F : Fc}.

(** ** Percentages of the supply *)

(** [START_TME_fund_for_SCORE_BLOCK], libraries/protocol/include/node/protocol/config.hpp:86-86 *)
Definition START_TME_fund_for_SCORE_BLOCK : Z := BLOCKS_PER_DAY * 1.
(** [MINING_REWARD], libraries/protocol/include/node/protocol/config.hpp:156-156 *)
Definition MINING_REWARD : asset := Asset 10000000 SYMBOL_COIN.
(** [LIQUIDITY_REWARD_BLOCKS], libraries/protocol/include/node/protocol/config.hpp:162-163 *)
Definition LIQUIDITY_REWARD_BLOCKS : Z := 60 * 60 / BLOCK_INTERVAL.
(** [MIN_LIQUIDITY_REWARD], libraries/protocol/include/node/protocol/config.hpp:164-164 *)
Definition MIN_LIQUIDITY_REWARD : asset := Asset (1000 * LIQUIDITY_REWARD_BLOCKS) SYMBOL_COIN.
(** [MIN_CONTENT_REWARD], libraries/protocol/include/node/protocol/config.hpp:165-165 *)
Definition MIN_CONTENT_REWARD : asset := MINING_REWARD.
(** [MIN_CURATE_REWARD], libraries/protocol/include/node/protocol/config.hpp:166-166 *)
Definition MIN_CURATE_REWARD : asset := MINING_REWARD.
(** [MIN_PRODUCER_REWARD], libraries/protocol/include/node/protocol/config.hpp:167-167 *)
Definition MIN_PRODUCER_REWARD : asset := MINING_REWARD.
(** [MIN_POW_REWARD], libraries/protocol/include/node/protocol/config.hpp:168-168 *)
Definition MIN_POW_REWARD : asset := MINING_REWARD.
(** [APR_PERCENT_MULTIPLY_PER_BLOCK], libraries/protocol/include/node/protocol/config.hpp:185-188 *)
Definition APR_PERCENT_MULTIPLY_PER_BLOCK : Z := Z.lor (Z.lor (Z.shiftl 0x5ccc 0x20) (Z.shiftl 0xe802 0x10)) 0xde5f.
(** [APR_PERCENT_SHIFT_PER_BLOCK], libraries/protocol/include/node/protocol/config.hpp:190-190 *)
Definition APR_PERCENT_SHIFT_PER_BLOCK : Z := 87.
(** [APR_PERCENT_MULTIPLY_PER_ROUND], libraries/protocol/include/node/protocol/config.hpp:192-195 *)
Definition APR_PERCENT_MULTIPLY_PER_ROUND : Z := Z.lor (Z.lor (Z.shiftl 0x79cc 0x20) (Z.shiftl 0xf5c7 0x10)) 0x3480.
(** [APR_PERCENT_SHIFT_PER_ROUND], libraries/protocol/include/node/protocol/config.hpp:197-197 *)
Definition APR_PERCENT_SHIFT_PER_ROUND : Z := 83.
(** [APR_PERCENT_MULTIPLY_PER_HOUR], libraries/protocol/include/node/protocol/config.hpp:201-204 *)
Definition APR_PERCENT_MULTIPLY_PER_HOUR : Z := Z.lor (Z.lor (Z.shiftl 0x6cc1 0x20) (Z.shiftl 0x39a1 0x10)) 0x5cbd.
(** [APR_PERCENT_SHIFT_PER_HOUR], libraries/protocol/include/node/protocol/config.hpp:207-207 *)
Definition APR_PERCENT_SHIFT_PER_HOUR : Z := 77.
(** [CURATE_APR_PERCENT], libraries/protocol/include/node/protocol/config.hpp:211-211 *)
Definition CURATE_APR_PERCENT : Z := 3875.
(** [CONTENT_APR_PERCENT], libraries/protocol/include/node/protocol/config.hpp:212-212 *)
Definition CONTENT_APR_PERCENT : Z := 3875.
(** [LIQUIDITY_APR_PERCENT], libraries/protocol/include/node/protocol/config.hpp:213-213 *)
Definition LIQUIDITY_APR_PERCENT : Z := 750.
(** [PRODUCER_APR_PERCENT], libraries/protocol/include/node/protocol/config.hpp:214-214 *)
Definition PRODUCER_APR_PERCENT : Z := 750.
(** [POW_APR_PERCENT], libraries/protocol/include/node/protocol/config.hpp:215-215 *)
Definition POW_APR_PERCENT : Z := 750.

(** [calc_percent_reward_per_hour], libraries/chain/include/node/chain/compound.hpp:31-35 *)
Definition calc_percent_reward_per_hour (percent supply : Z) : result Z :=
  calc_percent_reward percent APR_PERCENT_MULTIPLY_PER_HOUR APR_PERCENT_SHIFT_PER_HOUR supply.
(** [calc_percent_reward_per_block], libraries/chain/include/node/chain/compound.hpp:37-41 *)
Definition calc_percent_reward_per_block (percent supply : Z) : result Z :=
  calc_percent_reward percent APR_PERCENT_MULTIPLY_PER_BLOCK APR_PERCENT_SHIFT_PER_BLOCK supply.
(** [calc_percent_reward_per_round], libraries/chain/include/node/chain/compound.hpp:43-47 *)
Definition calc_percent_reward_per_round (percent supply : Z) : result Z :=
  calc_percent_reward percent APR_PERCENT_MULTIPLY_PER_ROUND APR_PERCENT_SHIFT_PER_ROUND supply.

(** [std::max] of two assets. *)
Definition asset_max (a b : asset) : result asset := lt ← asset_lt a b; Ok (if (lt : bool) then b else a).
(** A percentage of the virtual supply, at least [least]. *)
Definition reward_of (calc : Z → Z → result Z) (percent : Z) (least : asset) : DB asset :=
  props ← get_dynamic_global_properties;
  x ← lift (calc percent (amount (gpo_virtual_supply props)));
  lift (asset_max (Asset x SYMBOL_COIN) least).

(** [database::get_liquidity_reward], libraries/chain/database.cpp:1889-1898 *)
Definition get_liquidity_reward : DB asset :=
  hf12 ← has_hardfork HARDFORK_0_12;
  if hf12 : bool then mret (Asset 0 SYMBOL_COIN)
  else reward_of calc_percent_reward_per_hour LIQUIDITY_APR_PERCENT MIN_LIQUIDITY_REWARD.
(** [database::get_content_reward], libraries/chain/database.cpp:1900-1906 *)
Definition get_content_reward : DB asset := reward_of calc_percent_reward_per_block CONTENT_APR_PERCENT MIN_CONTENT_REWARD.
(** [database::get_curationReward], libraries/chain/database.cpp:1908-1914 *)
Definition get_curationReward : DB asset := reward_of calc_percent_reward_per_block CURATE_APR_PERCENT MIN_CURATE_REWARD.
(** [database::get_producer_reward], libraries/chain/database.cpp:1916-1939 *)
Definition get_producer_reward : DB asset :=
  pay ← reward_of calc_percent_reward_per_block PRODUCER_APR_PERCENT MIN_PRODUCER_REWARD;
  props ← get_dynamic_global_properties;
  witness_account ← get_account (gpo_current_witness props);
  if (START_MINER_VOTING_BLOCK <=? gpo_head_block_number props) || (amount (acc_SCORE witness_account) =? 0) then
    producer_reward ← createTMEfundForSCORE (gpo_current_witness props) pay false;
    push_virtual_operation (producer_reward_
      {| producer_reward_producer := acc_name witness_account; producer_reward_SCORE := producer_reward |});;
    mret pay
  else
    modify accounts (gpo_current_witness props) (λ a, b ← asset_add (acc_balance a) pay; Ok (a <| acc_balance := b |>));;
    mret pay.
(** [database::get_pow_reward], libraries/chain/database.cpp:1941-1955 *)
Definition get_pow_reward : DB asset :=
  props ← get_dynamic_global_properties;
  if (gpo_num_pow_witnesses props <? MAX_WITNESSES) && (gpo_head_block_number props <? START_TME_fund_for_SCORE_BLOCK)
  then mret (Asset 0 SYMBOL_COIN)
  else reward_of calc_percent_reward_per_round POW_APR_PERCENT MIN_POW_REWARD.

(** ** The inflation of a block *)

(** The loop of [pay_reward_funds]. *)
Fixpoint fill_funds (reward used_rewards : Z) (l : list account_name) : DB Z :=
  match l with
  | [] => mret used_rewards
  | k :: l =>
      rfo ← get reward_funds k;
      x ← lift (safe_mul reward (rwf_percent_content_rewards rfo));
      r ← lift (safe_div x PERCENT_100);
      modify reward_funds k (λ rfo, b ← asset_add (rwf_reward_balance rfo) (Asset r SYMBOL_COIN); Ok (rfo <| rwf_reward_balance := b |>));;
      used_rewards ← lift (safe_add used_rewards r);
      fc_assert (used_rewards <=? reward) EmptyString;;
      fill_funds reward used_rewards l
  end.
(** [database::pay_reward_funds], libraries/chain/database.cpp:2001-2023 *)
Definition pay_reward_funds (reward : Z) : DB Z := l ← asks funds_by_id; fill_funds reward 0 l.

(** The rate of a block, in hundredths of a percent per year. *)
Definition inflation_rate (head_block_num : Z) : Z :=
  Z.max (INFLATION_RATE_START_PERCENT - head_block_num / INFLATION_NARROWING_PERIOD) INFLATION_RATE_STOP_PERCENT.

(** The weight of a witness's pay. *)
Definition pay_weight (wso : witness_schedule_object) (schedule : witness_schedule_type) : option Z :=
  match schedule with
  | sched_timeshare => Some (wso_timeshare_weight wso)
  | sched_miner => Some (wso_miner_weight wso)
  | sched_top19 => Some (wso_top19_weight wso)
  | sched_none => None
  end.
(** The pay of the witness of a block: its part, weighed and averaged over a round. *)
Definition witness_pay (wso : witness_schedule_object) (schedule : witness_schedule_type) (part : Z) : result Z :=
  w ← safe_mul part MAX_WITNESSES;
  w ← match pay_weight wso schedule with Some weight => safe_mul w weight | None => Ok w end;
  safe_div w (wso_witness_pay_normalization_factor wso).

(** The branch of [process_funds] since hard fork 16. *)
Definition inflate : DB unit :=
  props ← get_dynamic_global_properties;
  wso ← get_witness_schedule_object;
  n ← head_block_num;
  x ← lift (safe_mul (amount (gpo_virtual_supply props)) (inflation_rate n));
  new_TME ← lift (safe_div x (PERCENT_100 * BLOCKS_PER_YEAR));
  x ← lift (safe_mul new_TME CONTENT_REWARD_PERCENT);
  content_reward ← lift (safe_div x PERCENT_100);
  hf17 ← has_hardfork HARDFORK_0_17;
  content_reward ← (if hf17 : bool then pay_reward_funds content_reward else mret content_reward);
  x ← lift (safe_mul new_TME SCORE_fund_PERCENT);
  TME_fund_for_SCORE_reward ← lift (safe_div x PERCENT_100);
  x ← lift (safe_sub new_TME content_reward);
  x ← lift (safe_sub x TME_fund_for_SCORE_reward);
  cwit ← get_witness (gpo_current_witness props);
  witness_reward ← lift (witness_pay wso (wit_schedule cwit) x);
  x ← lift (safe_add content_reward TME_fund_for_SCORE_reward);
  new_TME ← lift (safe_add x witness_reward);
  modify1 gpo (λ p,
    f ← asset_add (gpo_totalTMEfundForSCORE p) (Asset TME_fund_for_SCORE_reward SYMBOL_COIN);
    r ← (if hf17 : bool then Ok (gpo_total_reward_fund_TME p) else asset_add (gpo_total_reward_fund_TME p) (Asset content_reward SYMBOL_COIN));
    c ← asset_add (gpo_current_supply p) (Asset new_TME SYMBOL_COIN);
    v ← asset_add (gpo_virtual_supply p) (Asset new_TME SYMBOL_COIN);
    Ok (p <| gpo_totalTMEfundForSCORE := f |> <| gpo_total_reward_fund_TME := r |> <| gpo_current_supply := c |> <| gpo_virtual_supply := v |>));;
  _ ← get_account (wit_owner cwit);
  producer_reward ← createTMEfundForSCORE (wit_owner cwit) (Asset witness_reward SYMBOL_COIN) false;
  push_virtual_operation (producer_reward_ {| producer_reward_producer := wit_owner cwit; producer_reward_SCORE := producer_reward |}).

(** The branch before. *)
Definition inflate_pre_hf16 : DB unit :=
  content_reward ← get_content_reward;
  curate_reward ← get_curationReward;
  witness_pay ← get_producer_reward;
  x ← lift (asset_add content_reward curate_reward);
  fund_reward ← lift (asset_add x witness_pay);
  content_reward ← lift (asset_add content_reward curate_reward);
  props ← get_dynamic_global_properties;
  let fund_reward :=
    Asset (if gpo_head_block_number props <? START_TME_fund_for_SCORE_BLOCK then 0 else wrap_i64 (amount fund_reward * 9)) (symbol fund_reward) in
  modify1 gpo (λ p,
    f ← asset_add (gpo_totalTMEfundForSCORE p) fund_reward;
    r ← asset_add (gpo_total_reward_fund_TME p) content_reward;
    x ← asset_add content_reward witness_pay;
    x ← asset_add x fund_reward;
    c ← asset_add (gpo_current_supply p) x;
    v ← asset_add (gpo_virtual_supply p) x;
    Ok (p <| gpo_totalTMEfundForSCORE := f |> <| gpo_total_reward_fund_TME := r |> <| gpo_current_supply := c |> <| gpo_virtual_supply := v |>)).

(** [database::process_funds], libraries/chain/database.cpp:1790-1866 *)
Definition process_funds : DB unit :=
  hf16 ← has_hardfork HARDFORK_0_16;
  if hf16 : bool then inflate else inflate_pre_hf16.

(** ** Liquidity rewards *)

(** [liquidity_reward_balance_index::by_volume_weight], libraries/chain/include/node/chain/node_objects.hpp:338-344 *)
Definition by_volume_weight : liquidity_reward_balance_object → liquidity_reward_balance_object → comparison :=
  then_by (descending (by_key lrb_weight Z.compare)) (by_key lrb_owner Z.compare).
#[export] Instance by_volume_weight_order : IndexOrder by_volume_weight.
Proof. unfold by_volume_weight. apply _. Qed.

(** [database::pay_liquidity_reward], libraries/chain/database.cpp:1958-1989 *)
Definition pay_liquidity_reward : DB unit :=
  n ← head_block_num;
  if n mod LIQUIDITY_REWARD_BLOCKS =? 0 then
    reward ← get_liquidity_reward;
    if amount reward =? 0 then mret tt
    else
      itr ← asks (λ s, first_row (at_most by_volume_weight) (rows (liquidity_rewards s)));
      match itr with
      | Some (k, obj) =>
          if 0 <? volume_weight obj then
            adjust_supply reward true;;
            owner ← get_account_by_id (lrb_owner obj);
            adjust_balance owner reward;;
            now ← head_block_time;
            modify liquidity_rewards k (λ obj,
              Ok (obj <| lrb_TME_volume := 0 |> <| lrb_TSD_volume := 0 |> <| lrb_last_update := now |> <| lrb_weight := 0 |>));;
            a ← get_account owner;
            push_virtual_operation (liquidity_reward_ {| liquidity_reward_owner := acc_name a; liquidity_reward_payout := reward |})
          else mret tt
      | None => mret tt
      end
  else mret tt.

(** ** The null account *)

(** Add a balance of the null account to [total] and take it from the account. *)
Definition burn (field : account_object → asset) (adjust : account_name → asset → DB unit) (total : asset) : DB asset :=
  a ← get_account NULL_ACCOUNT;
  if 0 <? amount (field a) then
    total ← lift (asset_add total (field a));
    neg ← lift (asset_neg (field a));
    adjust NULL_ACCOUNT neg;;
    mret total
  else mret total.
(** The SCORE of the null account, as TME of the fund. *)
Definition burn_SCORE (total : asset) : DB asset :=
  a ← get_account NULL_ACCOUNT;
  if 0 <? amount (acc_SCORE a) then
    props ← get_dynamic_global_properties;
    converted_TME ← lift (asset_mul (acc_SCORE a) (get_SCORE_price props));
    modify1 gpo (λ g,
      v ← asset_sub (gpo_totalSCORE g) (acc_SCORE a);
      f ← asset_sub (gpo_totalTMEfundForSCORE g) converted_TME;
      Ok (g <| gpo_totalSCORE := v |> <| gpo_totalTMEfundForSCORE := f |>));;
    modify accounts NULL_ACCOUNT (λ a, Ok (a <| acc_SCORE ::= λ v, Asset 0 (symbol v) |>));;
    lift (asset_add total converted_TME)
  else mret total.
(** The SCORE rewards of the null account. *)
Definition burn_SCORE_reward (total : asset) : DB asset :=
  a ← get_account NULL_ACCOUNT;
  if 0 <? amount (acc_SCORErewardBalance a) then
    total ← lift (asset_add total (acc_SCORErewardBalanceInTME a));
    modify1 gpo (λ g,
      r ← asset_sub (gpo_pending_rewarded_SCORE g) (acc_SCORErewardBalance a);
      t ← asset_sub (gpo_pending_rewarded_SCOREvalueInTME g) (acc_SCORErewardBalanceInTME a);
      Ok (g <| gpo_pending_rewarded_SCORE := r |> <| gpo_pending_rewarded_SCOREvalueInTME := t |>));;
    modify accounts NULL_ACCOUNT (λ a,
      Ok (a <| acc_SCORErewardBalanceInTME ::= λ v, Asset 0 (symbol v) |> <| acc_SCORErewardBalance ::= λ v, Asset 0 (symbol v) |>));;
    mret total
  else mret total.
(** What was burnt leaves the supply. *)
Definition burn_supply (total : asset) : DB unit :=
  if 0 <? amount total then neg ← lift (asset_neg total); adjust_supply neg false else mret tt.

(** [database::clear_null_account_balance], libraries/chain/database.cpp:1215-1302 *)
Definition clear_null_account_balance : DB unit :=
  hf14 ← has_hardfork HARDFORK_0_14;
  if negb hf14 then mret tt
  else
    TME ← burn acc_balance adjust_balance (Asset 0 SYMBOL_COIN);
    TME ← burn acc_TMEsavingsBalance adjust_TMEsavingsBalance TME;
    TSD ← burn acc_TSDbalance adjust_balance (Asset 0 SYMBOL_USD);
    TSD ← burn acc_TSDsavingsBalance adjust_TMEsavingsBalance TSD;
    TME ← burn_SCORE TME;
    TME ← burn acc_TMErewardBalance adjust_reward_balance TME;
    TSD ← burn acc_TSDrewardBalance adjust_reward_balance TSD;
    TME ← burn_SCORE_reward TME;
    burn_supply TME;;
    burn_supply TSD.
End inflation_model.

(** * The books *)

Section books.
Context {F : Fc} {FL : FcLaws F}.

Lemma asset_max_symbol a b c : symbol a = symbol b → asset_max a b = Ok c → symbol c = symbol a ∧ amount c = Z.max (amount a) (amount b).
Proof.
  unfold asset_max, asset_lt, fc_check. intros E. rewrite (proj2 (Z.eqb_eq _ _) E). cbn. intros [= <-].
  destruct (Z.ltb_spec (amount a) (amount b)); split; auto; lia.
Qed.

Lemma reward_of_reads calc pc least s a s' :
  symbol least = SYMBOL_COIN → ⟨ reward_of calc pc least, s ⟩ ⇓ ⟨ a, s' ⟩ → s' = s ∧ symbol a = SYMBOL_COIN ∧ amount least ≤ amount a.
Proof.
  intros El. unfold reward_of. intros Hr. apply runs_bind in Hr as (p & ? & [-> ->]%runs_asks & Hr).
  apply runs_bind in Hr as (x & ? & [_ ->]%runs_lift & Hr). apply runs_lift in Hr as [Ha ->].
  apply asset_max_symbol in Ha as [E1 E2]; [|by rewrite El]. split; [done|]. split; [done|]. lia.
Qed.

Lemma fill_funds_shifts reward l : ∀ used s r s',
  ⟨ fill_funds reward used l, s ⟩ ⇓ ⟨ r, s' ⟩ → shifts (used - r) 0 0 0 s s'.
Proof.
  induction l as [|k l IH]; intros used s r s' Hr; cbn [fill_funds] in Hr; [apply runs_ret in Hr as [<- <-]; rewrite Z.sub_diag; apply shifts_refl|].
  apply runs_bind in Hr as (rfo & ? & [_ ->]%runs_getr & Hr). apply runs_bind in Hr as (x & ? & [_ ->]%runs_lift & Hr).
  apply runs_bind in Hr as (y & ? & [_ ->]%runs_lift & Hr). apply runs_bind in Hr as (? & s1 & Hm & Hr).
  apply runs_bind in Hr as (u & ? & [[-> _]%safe_add_ok ->]%runs_lift & Hr). apply runs_bind in Hr as (? & ? & [_ ->]%runs_assert & Hr%IH).
  apply runs_modify in Hm as (v & v' & Hk & Hv & ->). apply result_bind_ok in Hv as (b & Hb & [= <-]).
  assert (amount b = amount (rwf_reward_balance v) + y) as Eb.
  { unfold asset_add in Hb. apply result_bind_ok in Hb as (? & _ & Hb). by apply result_bind_ok in Hb as (z & [-> _]%safe_add_ok & [= <-]). }
  pose proof (shifts_set_fund s k v (v <| rwf_reward_balance := b |>) Hk) as H1. unfold rwf_held in H1. fields. add_shifts.
Qed.

Lemma fill_funds_within reward l : ∀ used s r s',
  used ≤ reward → ⟨ fill_funds reward used l, s ⟩ ⇓ ⟨ r, s' ⟩ → r ≤ reward.
Proof.
  induction l as [|k l IH]; intros used s r s' Hu Hr; cbn [fill_funds] in Hr; [by apply runs_ret in Hr as [<- <-]|].
  apply runs_bind in Hr as (rfo & ? & [_ ->]%runs_getr & Hr). apply runs_bind in Hr as (x & ? & [_ ->]%runs_lift & Hr).
  apply runs_bind in Hr as (y & ? & [_ ->]%runs_lift & Hr). apply runs_bind in Hr as (? & s1 & Hm & Hr).
  apply runs_bind in Hr as (u & ? & [_ ->]%runs_lift & Hr). apply runs_bind in Hr as (? & ? & [Hle%Z.leb_le ->]%runs_assert & Hr). by eapply IH.
Qed.

Lemma inflate_conserves s u s' : ⟨ inflate, s ⟩ ⇓ ⟨ u, s' ⟩ → conserves s s'.
Proof.
  unfold inflate. intros Hr. apply runs_bind in Hr as (props & ? & [-> ->]%runs_asks & Hr).
  apply runs_bind in Hr as (wso & ? & [_ ->]%runs_asks & Hr). apply runs_bind in Hr as (n & ? & [_ ->]%runs_asks & Hr).
  do 4 (apply runs_bind in Hr as (? & ? & [_ ->]%runs_lift & Hr)). apply runs_bind in Hr as (hf17 & ? & [_ ->]%runs_asks & Hr).
  apply runs_bind in Hr as (content & s1 & Hc & Hr).
  assert (shifts (if hf17 : bool then - content else 0) 0 0 0 s s1) as H1.
  { destruct (hf17 : bool); [|by apply runs_ret in Hc as [_ <-]]. unfold pay_reward_funds in Hc.
    apply runs_bind in Hc as (l & ? & [_ ->]%runs_asks & Hc%fill_funds_shifts). exact Hc. }
  clear Hc. apply runs_bind in Hr as (y1 & ? & [_ ->]%runs_lift & Hr). apply runs_bind in Hr as (fund & ? & [_ ->]%runs_lift & Hr).
  do 2 (apply runs_bind in Hr as (? & ? & [_ ->]%runs_lift & Hr)). apply runs_bind in Hr as (cwit & ? & [_ ->]%runs_getr & Hr).
  apply runs_bind in Hr as (w & ? & [_ ->]%runs_lift & Hr). apply runs_bind in Hr as (y2 & ? & [[-> _]%safe_add_ok ->]%runs_lift & Hr).
  apply runs_bind in Hr as (new & ? & [[-> _]%safe_add_ok ->]%runs_lift & Hr). apply runs_bind in Hr as (? & s2 & Hm & Hr).
  apply runs_bind in Hr as (? & ? & [_ ->]%runs_getr & Hr). apply runs_bind in Hr as (pr & s3 & H3%createTMEfundForSCORE_shifts & H4).
  apply push_virtual_operation_shifts in H4 as (H4 & _). cbn [amount] in H3.
  apply runs_modify1 in Hm as (g & Hg & ->). pose proof (shifts_gpo s1 g) as H2.
  assert (gpo_tme g - gpo_tme (gpo s1) = (if hf17 : bool then content else 0) + w ∧ gpo_tsd g = gpo_tsd (gpo s1) ∧
          gpo_score g = gpo_score (gpo s1) ∧ gpo_pend g = gpo_pend (gpo s1)) as (E1 & E2 & E3 & E4).
  { clear - Hg FL. asset_inv. unfold gpo_tme, gpo_tsd, gpo_score, gpo_pend. destruct (hf17 : bool); asset_inv; fields; cbn [amount] in *; lia. }
  rewrite E1, E2, E3, E4 in H2. destruct (hf17 : bool); add_shifts.
Qed.

Lemma get_producer_reward_shifts s a s' :
  ⟨ get_producer_reward, s ⟩ ⇓ ⟨ a, s' ⟩ → symbol a = SYMBOL_COIN ∧ shifts (- amount a) 0 0 0 s s'.
Proof.
  unfold get_producer_reward. intros Hr. apply runs_bind in Hr as (pay & ? & (-> & Es & _)%reward_of_reads & Hr); [|done].
  apply runs_bind in Hr as (props & ? & [_ ->]%runs_asks & Hr). apply runs_bind in Hr as (w & ? & [_ ->]%runs_getr & Hr).
  destruct (_ || _).
  - apply runs_bind in Hr as (p & s1 & H1%createTMEfundForSCORE_shifts & Hr). apply runs_bind in Hr as (? & s2 & H2 & [<- <-]%runs_ret).
    apply push_virtual_operation_shifts in H2 as (H2 & _). split; [done|]. add_shifts.
  - apply runs_bind in Hr as (? & s1 & Hm & [<- <-]%runs_ret). split; [done|]. apply runs_modify in Hm as (v & v' & Hk & Hv & ->).
    asset_inv. eapply shifts_eq; [by eapply shifts_set_account|..]; holdings; lia.
Qed.

Lemma inflate_pre_hf16_conserves s u s' : ⟨ inflate_pre_hf16, s ⟩ ⇓ ⟨ u, s' ⟩ → conserves s s'.
Proof.
  unfold inflate_pre_hf16. intros Hr. apply runs_bind in Hr as (c & ? & (-> & Ec & _)%reward_of_reads & Hr); [|done].
  apply runs_bind in Hr as (d & ? & (-> & Ed & _)%reward_of_reads & Hr); [|done].
  apply runs_bind in Hr as (w & s1 & [Ew H1]%get_producer_reward_shifts & Hr).
  apply runs_bind in Hr as (x & ? & [_ ->]%runs_lift & Hr). apply runs_bind in Hr as (f & ? & [_ ->]%runs_lift & Hr).
  apply runs_bind in Hr as (e & ? & [_ ->]%runs_lift & Hr). apply runs_bind in Hr as (p & ? & [_ ->]%runs_asks & Hr). cbv zeta in Hr.
  apply runs_modify1 in Hr as (g & Hg & ->). set (fund := Asset _ _) in Hg. clearbody fund. pose proof (shifts_gpo s1 g) as H2.
  assert (gpo_tme g - gpo_tme (gpo s1) = amount w ∧ gpo_tsd g = gpo_tsd (gpo s1) ∧
          gpo_score g = gpo_score (gpo s1) ∧ gpo_pend g = gpo_pend (gpo s1)) as (E1 & E2 & E3 & E4).
  { clear - Hg FL. asset_inv. unfold gpo_tme, gpo_tsd, gpo_score, gpo_pend. fields. cbn [amount] in *. lia. }
  rewrite E1, E2, E3, E4 in H2. add_shifts.
Qed.

Lemma process_funds_books s u s' : ⟨ process_funds, s ⟩ ⇓ ⟨ u, s' ⟩ → conserves s s'.
Proof.
  unfold process_funds. intros Hr. apply runs_bind in Hr as (hf & ? & [_ ->]%runs_asks & Hr).
  destruct (hf : bool); [by eapply inflate_conserves|by eapply inflate_pre_hf16_conserves].
Qed.

Lemma pay_liquidity_reward_books s u s' : ⟨ pay_liquidity_reward, s ⟩ ⇓ ⟨ u, s' ⟩ → conserves s s'.
Proof.
  unfold pay_liquidity_reward. intros Hr. apply runs_bind in Hr as (n & ? & [_ ->]%runs_asks & Hr).
  destruct (n mod _ =? 0); [|by apply runs_ret in Hr as [_ <-]]. apply runs_bind in Hr as (rw & s0 & H0 & Hr).
  assert (s0 = s ∧ symbol rw = SYMBOL_COIN) as [-> Es].
  { unfold get_liquidity_reward in H0. apply runs_bind in H0 as (hf & ? & [_ ->]%runs_asks & H0).
    destruct (hf : bool); [by apply runs_ret in H0 as [<- <-]|]. by apply reward_of_reads in H0 as (-> & ? & _). }
  destruct (amount rw =? 0); [by apply runs_ret in Hr as [_ <-]|]. apply runs_bind in Hr as (itr & ? & [_ ->]%runs_asks & Hr).
  destruct itr as [[k obj]|]; [|by apply runs_ret in Hr as [_ <-]]. destruct (0 <? volume_weight obj); [|by apply runs_ret in Hr as [_ <-]].
  apply runs_bind in Hr as (? & s1 & H1%adjust_supply_shifts & Hr). apply runs_bind in Hr as (ow & ? & [-> _]%get_account_by_id_reads & Hr).
  apply runs_bind in Hr as (? & s2 & H2%adjust_balance_shifts & Hr). apply runs_bind in Hr as (now & ? & [_ ->]%runs_asks & Hr).
  apply runs_bind in Hr as (? & s3 & Hm & Hr). apply runs_bind in Hr as (a & ? & [_ ->]%runs_getr & Hr).
  apply push_virtual_operation_shifts in Hr as (H4 & _). assert (conserves s2 s3) as H3.
  { apply same_holders. apply runs_modify in Hm as (v & v' & _ & _ & ->). reflexivity. }
  destruct (of_symbol_coin _ Es) as [E1 E2]. rewrite E1, E2 in *. add_shifts.
Qed.

(** ** The null account *)

(** [total] in the supply with [sym]. *)
Lemma burn_shifts field adjust total s t s' :
  (∀ n d s u s', ⟨ adjust n d, s ⟩ ⇓ ⟨ u, s' ⟩ → shifts (- of_symbol SYMBOL_COIN d) (- of_symbol SYMBOL_USD d) 0 0 s s') →
  ⟨ burn field adjust total, s ⟩ ⇓ ⟨ t, s' ⟩ →
  symbol t = symbol total ∧
  shifts (of_symbol SYMBOL_COIN t - of_symbol SYMBOL_COIN total) (of_symbol SYMBOL_USD t - of_symbol SYMBOL_USD total) 0 0 s s'.
Proof.
  intros Ha Hr. unfold burn in Hr. apply runs_bind in Hr as (a & ? & [_ ->]%runs_getr & Hr).
  destruct (0 <? amount (field a)); [|apply runs_ret in Hr as [<- <-]; split; [done|]; eapply shifts_eq; [apply shifts_refl|..]; lia].
  apply runs_bind in Hr as (t1 & ? & [Ht ->]%runs_lift & Hr). apply runs_bind in Hr as (neg & ? & [Hn ->]%runs_lift & Hr).
  apply runs_bind in Hr as (? & s1 & H1%Ha & [<- <-]%runs_ret).
  unfold asset_add in Ht. apply result_bind_ok in Ht as (? & E%fc_check_ok%Z.eqb_eq & Ht).
  apply result_bind_ok in Ht as (y & [-> _]%safe_add_ok & [= <-]). unfold asset_neg in Hn.
  apply result_bind_ok in Hn as (z & [-> _]%safe_neg_ok & [= <-]). split; [done|]. unfold of_symbol in *. cbn [symbol amount] in *.
  rewrite <- E in H1. eapply shifts_eq; [exact H1|..]; repeat case_match; lia.
Qed.

Lemma burn_SCORE_shifts total s t s' :
  symbol total = SYMBOL_COIN → ⟨ burn_SCORE total, s ⟩ ⇓ ⟨ t, s' ⟩ → symbol t = SYMBOL_COIN ∧ shifts (amount t - amount total) 0 0 0 s s'.
Proof.
  intros Es Hr. unfold burn_SCORE in Hr. apply runs_bind in Hr as (a & ? & [Ha ->]%runs_getr & Hr).
  destruct (0 <? _); [|apply runs_ret in Hr as [<- <-]; split; [done|]; rewrite Z.sub_diag; apply shifts_refl].
  apply runs_bind in Hr as (p & ? & [-> ->]%runs_asks & Hr). apply runs_bind in Hr as (c & ? & [_ ->]%runs_lift & Hr).
  apply runs_bind in Hr as (? & s1 & Hm & Hr). apply runs_bind in Hr as (? & s2 & Hm2 & Hr). apply runs_lift in Hr as [Ht ->].
  apply runs_modify1 in Hm as (g & Hg & ->). apply runs_modify in Hm2 as (a1 & a2 & Ha1 & [= <-] & ->).
  assert (a1 = a) as -> by (change (accounts (s <| gpo := g |>)) with (accounts s) in Ha1; rewrite Ha in Ha1; by apply (inj Some) in Ha1).
  pose proof (shifts_gpo s g) as H1.
  pose proof (shifts_set_account (s <| gpo := g |>) NULL_ACCOUNT a (a <| acc_SCORE ::= λ v, Asset 0 (symbol v) |>) Ha1) as H2.
  unfold asset_add in Ht. apply result_bind_ok in Ht as (? & _ & Ht). apply result_bind_ok in Ht as (y & [-> _]%safe_add_ok & [= <-]).
  cbn [symbol amount]. split; [done|]. clear Ha Ha1. asset_inv. unfold gpo_tme, gpo_tsd, gpo_score, gpo_pend, acc_tme, acc_tsd, acc_score, acc_pend in *.
  fields. cbn [amount] in *. add_shifts.
Qed.

Lemma burn_SCORE_reward_shifts total s t s' :
  symbol total = SYMBOL_COIN → ⟨ burn_SCORE_reward total, s ⟩ ⇓ ⟨ t, s' ⟩ → symbol t = SYMBOL_COIN ∧ shifts (amount t - amount total) 0 0 0 s s'.
Proof.
  intros Es Hr. unfold burn_SCORE_reward in Hr. apply runs_bind in Hr as (a & ? & [Ha ->]%runs_getr & Hr).
  destruct (0 <? _); [|apply runs_ret in Hr as [<- <-]; split; [done|]; rewrite Z.sub_diag; apply shifts_refl].
  apply runs_bind in Hr as (t1 & ? & [Ht ->]%runs_lift & Hr). apply runs_bind in Hr as (? & s1 & Hm & Hr).
  apply runs_bind in Hr as (? & s2 & Hm2 & [<- <-]%runs_ret).
  apply runs_modify1 in Hm as (g & Hg & ->). apply runs_modify in Hm2 as (a1 & a2 & Ha1 & [= <-] & ->).
  assert (a1 = a) as -> by (change (accounts (s <| gpo := g |>)) with (accounts s) in Ha1; rewrite Ha in Ha1; by apply (inj Some) in Ha1).
  pose proof (shifts_gpo s g) as H1.
  pose proof (shifts_set_account (s <| gpo := g |>) NULL_ACCOUNT a
    (a <| acc_SCORErewardBalanceInTME ::= λ v, Asset 0 (symbol v) |> <| acc_SCORErewardBalance ::= λ v, Asset 0 (symbol v) |>) Ha1) as H2.
  unfold asset_add in Ht. apply result_bind_ok in Ht as (? & _ & Ht). apply result_bind_ok in Ht as (y & [-> _]%safe_add_ok & [= <-]).
  cbn [symbol amount]. split; [done|]. clear Ha Ha1. asset_inv. unfold gpo_tme, gpo_tsd, gpo_score, gpo_pend, acc_tme, acc_tsd, acc_score, acc_pend in *.
  fields. cbn [amount] in *. add_shifts.
Qed.

Lemma burn_supply_shifts total s u s' :
  ⟨ burn_supply total, s ⟩ ⇓ ⟨ u, s' ⟩ →
  shifts (- of_symbol SYMBOL_COIN (Asset (Z.max (amount total) 0) (symbol total))) (- of_symbol SYMBOL_USD (Asset (Z.max (amount total) 0) (symbol total))) 0 0 s s'.
Proof.
  unfold burn_supply. intros Hr. destruct (Z.ltb_spec 0 (amount total)).
  - apply runs_bind in Hr as (neg & ? & [Hn ->]%runs_lift & Hr%adjust_supply_shifts). unfold asset_neg in Hn.
    apply result_bind_ok in Hn as (z & [-> _]%safe_neg_ok & [= <-]). unfold of_symbol in *. cbn [symbol amount] in *.
    eapply shifts_eq; [exact Hr|..]; repeat case_match; lia.
  - apply runs_ret in Hr as [_ <-]. unfold of_symbol. cbn [symbol amount]. eapply shifts_eq; [apply shifts_refl|..]; repeat case_match; lia.
Qed.

(** What burning the balances leaves alone. *)
Definition null_view (a : account_object) := (acc_SCORE a, acc_SCORErewardBalanceInTME a).
Definition null_frame (s : database) := (null_view <$> rows (accounts s), (gpo_totalSCORE (gpo s), gpo_totalTMEfundForSCORE (gpo s))).

Lemma pay_interest_null n p : preserves (same null_frame) (pay_interest n p).
Proof. unfold pay_interest, push_virtual_operation, get_feed_history. samed. Qed.
Hint Resolve pay_interest_null : same.
Lemma adjust_balance_null n d : preserves (same null_frame) (adjust_balance n d).
Proof. unfold adjust_balance. samed. Qed.
Lemma adjust_TMEsavingsBalance_null n d : preserves (same null_frame) (adjust_TMEsavingsBalance n d).
Proof. unfold adjust_TMEsavingsBalance. samed. Qed.
Lemma adjust_reward_balance_null n d : preserves (same null_frame) (adjust_reward_balance n d).
Proof. unfold adjust_reward_balance. samed. Qed.

Lemma burn_keeps field adjust total s t s' :
  (∀ n d, preserves (same null_frame) (adjust n d)) → ⟨ burn field adjust total, s ⟩ ⇓ ⟨ t, s' ⟩ →
  same null_frame s s' ∧ amount total ≤ amount t.
Proof.
  intros Ha Hr. unfold burn in Hr. apply runs_bind in Hr as (a & ? & [_ ->]%runs_getr & Hr).
  destruct (Z.ltb_spec 0 (amount (field a))); [|by apply runs_ret in Hr as [<- <-]].
  apply runs_bind in Hr as (t1 & ? & [Ht ->]%runs_lift & Hr). apply runs_bind in Hr as (neg & ? & [_ ->]%runs_lift & Hr).
  apply runs_bind in Hr as (? & s1 & H1%Ha & [<- <-]%runs_ret). split; [done|].
  unfold asset_add in Ht. apply result_bind_ok in Ht as (? & _ & Ht). apply result_bind_ok in Ht as (y & [-> _]%safe_add_ok & [= <-]).
  cbn [amount]. lia.
Qed.

(** The null account's rewards and the worth of its SCORE are not negative. *)
Definition null_ok (s : database) : Prop :=
  ∀ a, rows (accounts s) !! NULL_ACCOUNT = Some a →
    0 ≤ amount (acc_SCORErewardBalanceInTME a) ∧
    ∀ x, asset_mul (acc_SCORE a) (get_SCORE_price (gpo s)) = Ok x → 0 ≤ amount x.

Lemma null_ok_same s s' : same null_frame s s' → null_ok s → null_ok s'.
Proof.
  intros [= Ev E1 E2] Hok a Ha. assert (null_view <$> rows (accounts s') !! NULL_ACCOUNT = null_view <$> rows (accounts s) !! NULL_ACCOUNT) as E.
  { by rewrite <- !lookup_fmap, Ev. }
  rewrite Ha in E. cbn in E. symmetry in E. apply fmap_Some in E as (b & Hb & [= F1 F2]). destruct (Hok b Hb) as [H1 H2].
  unfold get_SCORE_price in *. rewrite F1, F2, E1, E2. done.
Qed.

Lemma burn_SCORE_keeps total s t s' :
  null_ok s → ⟨ burn_SCORE total, s ⟩ ⇓ ⟨ t, s' ⟩ → amount total ≤ amount t ∧
  ∀ a, rows (accounts s') !! NULL_ACCOUNT = Some a → 0 ≤ amount (acc_SCORErewardBalanceInTME a).
Proof.
  intros Hok Hr. unfold burn_SCORE in Hr. apply runs_bind in Hr as (a & ? & [Ha ->]%runs_getr & Hr). destruct (Hok a Ha) as [H1 H2].
  destruct (0 <? _); [|apply runs_ret in Hr as [<- <-]; split; [done|]; intros b Hb; rewrite Ha in Hb; by apply (inj Some) in Hb as <-].
  apply runs_bind in Hr as (p & ? & [-> ->]%runs_asks & Hr). apply runs_bind in Hr as (c & ? & [Hc ->]%runs_lift & Hr). specialize (H2 _ Hc).
  apply runs_bind in Hr as (? & s1 & Hm & Hr). apply runs_bind in Hr as (? & s2 & Hm2 & Hr). apply runs_lift in Hr as [Ht ->].
  apply runs_modify1 in Hm as (g & _ & ->). apply runs_modify in Hm2 as (a1 & a2 & Ha1 & [= <-] & ->).
  change (accounts (s <| gpo := g |>)) with (accounts s) in Ha1. rewrite Ha in Ha1. apply (inj Some) in Ha1 as <-. split.
  - unfold asset_add in Ht. apply result_bind_ok in Ht as (? & _ & Ht). apply result_bind_ok in Ht as (y & [-> _]%safe_add_ok & [= <-]).
    cbn [amount]. lia.
  - intros b. db_fields. rewrite lookup_insert_eq. intros [= <-]. exact H1.
Qed.

Lemma burn_SCORE_reward_grows total s t s' :
  (∀ a, rows (accounts s) !! NULL_ACCOUNT = Some a → 0 ≤ amount (acc_SCORErewardBalanceInTME a)) →
  ⟨ burn_SCORE_reward total, s ⟩ ⇓ ⟨ t, s' ⟩ → amount total ≤ amount t.
Proof.
  intros Hok Hr. unfold burn_SCORE_reward in Hr. apply runs_bind in Hr as (a & ? & [Ha ->]%runs_getr & Hr). specialize (Hok a Ha).
  destruct (0 <? _); [|by apply runs_ret in Hr as [<- _]]. apply runs_bind in Hr as (t1 & ? & [Ht ->]%runs_lift & Hr).
  apply runs_bind in Hr as (? & s1 & _ & Hr). apply runs_bind in Hr as (? & s2 & _ & [<- _]%runs_ret).
  unfold asset_add in Ht. apply result_bind_ok in Ht as (? & _ & Ht). apply result_bind_ok in Ht as (y & [-> _]%safe_add_ok & [= <-]).
  cbn [amount]. lia.
Qed.

Lemma null_reward_same s s' :
  same null_frame s s' → (∀ a, rows (accounts s) !! NULL_ACCOUNT = Some a → 0 ≤ amount (acc_SCORErewardBalanceInTME a)) →
  ∀ a, rows (accounts s') !! NULL_ACCOUNT = Some a → 0 ≤ amount (acc_SCORErewardBalanceInTME a).
Proof.
  intros [= Ev _ _] Hok a Ha. assert (null_view <$> rows (accounts s') !! NULL_ACCOUNT = null_view <$> rows (accounts s) !! NULL_ACCOUNT) as E.
  { by rewrite <- !lookup_fmap, Ev. }
  rewrite Ha in E. cbn in E. symmetry in E. apply fmap_Some in E as (b & Hb & [= _ F2]). rewrite F2. by apply Hok.
Qed.

Lemma clear_null_books s u s' : null_ok s → ⟨ clear_null_account_balance, s ⟩ ⇓ ⟨ u, s' ⟩ → conserves s s'.
Proof.
  intros Hok Hr. unfold clear_null_account_balance in Hr. apply runs_bind in Hr as (hf & ? & [_ ->]%runs_asks & Hr).
  destruct (negb _); [by apply runs_ret in Hr as [_ <-]|].
  apply runs_bind in Hr as (t1 & s1 & H1 & Hr). destruct (burn_keeps _ _ _ _ _ _ adjust_balance_null H1) as [K1 L1].
  apply burn_shifts in H1 as [E1 H1]; [|by apply adjust_balance_shifts].
  apply runs_bind in Hr as (t2 & s2 & H2 & Hr). destruct (burn_keeps _ _ _ _ _ _ adjust_TMEsavingsBalance_null H2) as [K2 L2].
  apply burn_shifts in H2 as [E2 H2]; [|by apply adjust_TMEsavingsBalance_shifts].
  apply runs_bind in Hr as (u1 & s3 & H3 & Hr). destruct (burn_keeps _ _ _ _ _ _ adjust_balance_null H3) as [K3 L3].
  apply burn_shifts in H3 as [E3 H3]; [|by apply adjust_balance_shifts].
  apply runs_bind in Hr as (u2 & s4 & H4 & Hr). destruct (burn_keeps _ _ _ _ _ _ adjust_TMEsavingsBalance_null H4) as [K4 L4].
  apply burn_shifts in H4 as [E4 H4]; [|by apply adjust_TMEsavingsBalance_shifts].
  assert (null_ok s4) as Hok4 by (apply (null_ok_same s); [by repeat (etrans; [eassumption|])|done]).
  apply runs_bind in Hr as (t3 & s5 & H5 & Hr). destruct (burn_SCORE_keeps _ _ _ _ Hok4 H5) as [L5 N5].
  apply burn_SCORE_shifts in H5 as [E5 H5]; [|by rewrite E2, E1].
  apply runs_bind in Hr as (t4 & s6 & H6 & Hr). destruct (burn_keeps _ _ _ _ _ _ adjust_reward_balance_null H6) as [K6 L6].
  apply burn_shifts in H6 as [E6 H6]; [|by apply adjust_reward_balance_shifts].
  apply runs_bind in Hr as (u3 & s7 & H7 & Hr). destruct (burn_keeps _ _ _ _ _ _ adjust_reward_balance_null H7) as [K7 L7].
  apply burn_shifts in H7 as [E7 H7]; [|by apply adjust_reward_balance_shifts].
  apply runs_bind in Hr as (t5 & s8 & H8 & Hr). apply burn_SCORE_reward_grows in H8 as L8;
    [|by apply (null_reward_same s5); [etrans; eassumption|]].
  apply burn_SCORE_reward_shifts in H8 as [E8 H8]; [|by rewrite E6].
  apply runs_bind in Hr as (? & s9 & H9%burn_supply_shifts & H10%burn_supply_shifts).
  cbn [symbol amount] in *. rewrite E1 in E2. rewrite E5 in E6. rewrite E3 in E4. rewrite E4 in E7.
  destruct (of_symbol_coin _ E1), (of_symbol_coin _ E2), (of_symbol_usd _ E3), (of_symbol_usd _ E4), (of_symbol_coin _ E5),
    (of_symbol_coin _ E6), (of_symbol_usd _ E7).
  destruct (of_symbol_coin (Asset (Z.max (amount t5) 0) (symbol t5)) E8), (of_symbol_usd (Asset (Z.max (amount u3) 0) (symbol u3)) E7).
  destruct (of_symbol_coin (Asset 0 SYMBOL_COIN) eq_refl), (of_symbol_usd (Asset 0 SYMBOL_USD) eq_refl). cbn [amount] in *. add_shifts.
Qed.

(** Issuing and burning stay on the books: [process_funds] at every hard fork,
    [pay_liquidity_reward], and [clear_null_account_balance] change the recorded
    supplies by exactly what they give out or destroy. *)
Theorem inflation_on_the_books s u s' :
  (⟨ process_funds, s ⟩ ⇓ ⟨ u, s' ⟩ → conserves s s') ∧
  (⟨ pay_liquidity_reward, s ⟩ ⇓ ⟨ u, s' ⟩ → conserves s s') ∧
  (null_ok s → ⟨ clear_null_account_balance, s ⟩ ⇓ ⟨ u, s' ⟩ → conserves s s').
Proof. split_and!; [apply process_funds_books|apply pay_liquidity_reward_books|apply clear_null_books]. Qed.

(** ** What a block issues *)

Lemma safe_div_pos a b c : 0 ≤ a → 0 < b → safe_div a b = Ok c → c = a / b.
Proof. intros Ha Hb [-> _]%safe_div_ok; [|lia]. by apply Z.quot_div_nonneg. Qed.

Lemma inflation_rate_bounds n : 0 ≤ n → INFLATION_RATE_STOP_PERCENT ≤ inflation_rate n ≤ INFLATION_RATE_START_PERCENT.
Proof.
  unfold inflation_rate, INFLATION_RATE_STOP_PERCENT, INFLATION_RATE_START_PERCENT, INFLATION_NARROWING_PERIOD. intros Hn.
  pose proof (Z.div_pos n 250000 Hn ltac:(lia)). lia.
Qed.

(** What each fund gets of the content reward, and the fund with it. *)
Definition fund_part (reward : Z) (f : reward_fund_object) : Z := Z.quot (reward * rwf_percent_content_rewards f) PERCENT_100.
Definition filled (reward : Z) (f : reward_fund_object) : reward_fund_object :=
  f <| rwf_reward_balance ::= λ b, Asset (amount b + fund_part reward f) (symbol b) |>.
Definition funds_total (reward : Z) (s : database) : Z :=
  sumZ (fund_part reward <$> (map_to_list (rows (reward_funds s))).*2).

Lemma fill_fund reward f b :
  asset_add (rwf_reward_balance f) (Asset (fund_part reward f) SYMBOL_COIN) = Ok b → f <| rwf_reward_balance := b |> = filled reward f.
Proof.
  intros (_ & E1 & E2 & _)%asset_add_ok. destruct f, b. unfold filled, set_field. cbn in *. by subst.
Qed.
(** The funds of the list are filled, once each, and no other. *)
Lemma fill_funds_exact reward l : ∀ used s r s',
  NoDup l → ⟨ fill_funds reward used l, s ⟩ ⇓ ⟨ r, s' ⟩ →
  r = used + sumZ (fund_part reward <$> omap (λ k, rows (reward_funds s) !! k) l) ∧
  s' = s <| reward_funds := reward_funds s' |> ∧
  ∀ k, rows (reward_funds s') !! k = (if bool_decide (k ∈ l) then filled reward else id) <$> rows (reward_funds s) !! k.
Proof.
  induction l as [|k l IH]; intros used s r s' Hnd Hr; cbn [fill_funds] in Hr.
  { apply runs_ret in Hr as [<- <-]. split_and!; [cbn; lia|by destruct s|]. intros k. by destruct (rows _ !! k). }
  apply NoDup_cons in Hnd as [Hk Hnd].
  apply runs_bind in Hr as (f & ? & [Hf ->]%runs_getr & Hr). apply runs_bind in Hr as (? & ? & [[-> _]%safe_mul_ok ->]%runs_lift & Hr).
  apply runs_bind in Hr as (r1 & ? & [Hr1 ->]%runs_lift & Hr). apply safe_div_ok in Hr1 as [-> _]; [|done].
  apply runs_bind in Hr as (? & s1 & (f' & f1 & Hf' & Hb & ->)%runs_modify & Hr). rewrite Hf in Hf'. injection Hf' as <-.
  apply result_bind_ok in Hb as (b & Hb%fill_fund & [= <-]). rewrite Hb in Hr.
  apply runs_bind in Hr as (? & ? & [[-> _]%safe_add_ok ->]%runs_lift & Hr).
  apply runs_bind in Hr as (? & ? & [_ ->]%runs_assert & Hr). apply IH in Hr as (-> & Es & Hrows); [|done].
  db_fields. split_and!.
  - cbn [omap list_omap]. rewrite Hf. unfold fund_part at 2. cbn [fmap list_fmap sumZ foldr].
    assert (omap (λ k', <[k := filled reward f]> (rows (reward_funds s)) !! k') l = omap (λ k', rows (reward_funds s) !! k') l) as ->.
    { apply list_omap_ext. apply Forall_Forall2_diag, Forall_forall. intros k' Hk'. rewrite lookup_insert_ne; [done|by intros ->]. }
    unfold sumZ, fund_part. lia.
  - rewrite Es at 1. by destruct s.
  - intros j. rewrite Hrows. change (rows (reward_funds (set_row reward_funds k (filled reward f) s))) with (<[k := filled reward f]> (rows (reward_funds s))).
    destruct (decide (j = k)) as [->|Hne].
    + rewrite lookup_insert_eq, Hf, (bool_decide_eq_false_2 (k ∈ l)), (bool_decide_eq_true_2 (k ∈ k :: l)) by (done || by left). done.
    + rewrite lookup_insert_ne by done. assert (bool_decide (j ∈ k :: l) = bool_decide (j ∈ l)) as ->; [|done].
      apply bool_decide_ext. rewrite elem_of_cons. naive_solver.
Qed.

(** [pay_reward_funds] fills every fund. *)
Lemma funds_by_id_perm s : funds_by_id s ≡ₚ (map_to_list (rows (reward_funds s))).*1.
Proof. unfold funds_by_id. by rewrite merge_sort_Permutation. Qed.
Lemma pay_reward_funds_exact reward s r s' :
  ⟨ pay_reward_funds reward, s ⟩ ⇓ ⟨ r, s' ⟩ →
  r = funds_total reward s ∧ s' = s <| reward_funds := reward_funds s' |> ∧ rows (reward_funds s') = filled reward <$> rows (reward_funds s).
Proof.
  intros Hr. unfold pay_reward_funds in Hr. apply runs_bind in Hr as (l & ? & [-> ->]%runs_asks & Hr).
  apply fill_funds_exact in Hr as (-> & Es & Hrows); [|rewrite funds_by_id_perm; apply NoDup_fst_map_to_list].
  split_and!; [|done|].
  - unfold funds_total. rewrite Z.add_0_l. apply sumZ_perm. rewrite funds_by_id_perm. f_equiv. apply reflexive_eq.
    assert (∀ l, (∀ p : account_name * reward_fund_object, p ∈ l → rows (reward_funds s) !! p.1 = Some p.2) →
      omap (λ k, rows (reward_funds s) !! k) l.*1 = l.*2) as Hl.
    { induction l as [|p l IH]; intros Hl; [done|]. cbn. rewrite (Hl p) by (by left). f_equal. apply IH. intros. apply Hl. by right. }
    apply Hl. intros [k f] Hin. by apply elem_of_map_to_list in Hin.
  - apply map_eq. intros k. rewrite Hrows, lookup_fmap. destruct (rows (reward_funds s) !! k) as [f|] eqn:Hk; [|done].
    rewrite bool_decide_eq_true_2; [done|]. rewrite funds_by_id_perm. apply list_elem_of_fmap. exists (k, f).
    split; [done|]. by apply elem_of_map_to_list.
Qed.

(** An amount added to an asset; the SCORE of every account. *)
Definition credit (x : Z) (a : asset) : asset := Asset (amount a + x) (symbol a).
Definition scores (s : database) : gmap account_name asset := acc_SCORE <$> rows (accounts s).
Lemma asset_add_credit a b c : asset_add a b = Ok c → c = credit (amount b) a.
Proof. intros (_ & E1 & E2 & _)%asset_add_ok. destruct c. unfold credit. cbn in *. by subst. Qed.

Lemma credit_credit a b x : credit b (credit a x) = credit (a + b) x.
Proof. unfold credit. cbn. f_equal. lia. Qed.

(** Creating SCORE for an account: the fund grows by the TME, and its SCORE and the total
    by what the TME is worth. *)
Definition credit_view (s : database) := (acc_SCORE <$> rows (accounts s), (gpo s, reward_funds s)).
Lemma adjust_proxied_credit n d : preserves (same credit_view) (adjust_proxied_witness_votes n d).
Proof.
  unfold adjust_proxied_witness_votes. generalize (Z.to_nat MAX_PROXY_RECURSION_DEPTH) as m. intros m. revert n.
  induction m as [|m IH]; intros n; cbn [adjust_proxied_from]; unfold adjust_witness_votes, adjust_witness_vote, get_witness_by_id,
    get_account, get_witness_schedule_object, get_dynamic_global_properties, has_hardfork; samed.
Qed.
Lemma createTMEfundForSCORE_effect n TME s r s' :
  ⟨ createTMEfundForSCORE n TME false, s ⟩ ⇓ ⟨ r, s' ⟩ →
  asset_mul TME (get_SCORE_price (gpo s)) = Ok r ∧
  (∃ a, rows (accounts s) !! n = Some a ∧ scores s' = <[n := credit (amount r) (acc_SCORE a)]> (scores s)) ∧
  gpo s' = gpo s <| gpo_totalTMEfundForSCORE ::= credit (amount TME) |> <| gpo_totalSCORE ::= credit (amount r) |> ∧
  reward_funds s' = reward_funds s.
Proof.
  intros Hr. unfold createTMEfundForSCORE in Hr. apply runs_bind in Hr as (? & ? & [-> ->]%runs_asks & Hr).
  apply runs_bind in Hr as (p & ? & [[= <-] ->]%runs_lift & Hr). apply runs_bind in Hr as (x & ? & [Hx ->]%runs_lift & Hr).
  apply runs_bind in Hr as (? & s1 & (a & a' & Ha & Hv & ->)%runs_modify & Hr).
  apply result_bind_ok in Hv as (v & ->%asset_add_credit & [= <-]).
  apply runs_bind in Hr as (? & s2 & (g & Hg & ->)%runs_modify1 & Hr).
  apply result_bind_ok in Hg as (t & ->%asset_add_credit & Hg). apply result_bind_ok in Hg as (v & ->%asset_add_credit & [= <-]).
  apply runs_bind in Hr as (? & s3 & Hv & [<- <-]%runs_ret). apply adjust_proxied_credit in Hv. injection Hv as Hs Hg Hf.
  split_and!; [done| |rewrite Hg; by db_fields|rewrite Hf; by db_fields].
  exists a. split; [done|]. unfold scores. rewrite Hs. db_fields. rewrite fmap_insert. done.
Qed.

(** The part of the reward funds. *)
Lemma pay_reward_part (hf17 : bool) c0 s content s1 :
  0 ≤ c0 → ⟨ (if hf17 then pay_reward_funds c0 else mret c0), s ⟩ ⇓ ⟨ content, s1 ⟩ →
  (if hf17 then content = funds_total c0 s ∧ content ≤ c0 ∧ rows (reward_funds s1) = filled c0 <$> rows (reward_funds s)
   else content = c0 ∧ reward_funds s1 = reward_funds s) ∧
  s1 = s <| reward_funds := reward_funds s1 |>.
Proof.
  intros H0 Hc. destruct hf17; [|apply runs_ret in Hc as [<- <-]; split; [done|by destruct s]].
  pose proof Hc as (-> & Es & Hrows)%pay_reward_funds_exact. split; [|done]. split_and!; [done| |done].
  unfold pay_reward_funds in Hc. apply runs_bind in Hc as (l & ? & [_ ->]%runs_asks & Hc).
  by apply fill_funds_within in Hc.
Qed.

(** What is issued is recorded. *)
Lemma issue_effect (hf17 : bool) fund content new s u s' :
  ⟨ modify1 gpo (λ p,
    f ← asset_add (gpo_totalTMEfundForSCORE p) (Asset fund SYMBOL_COIN);
    r ← (if hf17 then Ok (gpo_total_reward_fund_TME p) else asset_add (gpo_total_reward_fund_TME p) (Asset content SYMBOL_COIN));
    c ← asset_add (gpo_current_supply p) (Asset new SYMBOL_COIN);
    v ← asset_add (gpo_virtual_supply p) (Asset new SYMBOL_COIN);
    Ok (p <| gpo_totalTMEfundForSCORE := f |> <| gpo_total_reward_fund_TME := r |> <| gpo_current_supply := c |> <| gpo_virtual_supply := v |>)), s ⟩ ⇓ ⟨ u, s' ⟩ →
  s' = s <| gpo ::= λ g, g <| gpo_totalTMEfundForSCORE ::= credit fund |>
    <| gpo_total_reward_fund_TME ::= credit (if hf17 then 0 else content) |>
    <| gpo_current_supply ::= credit new |> <| gpo_virtual_supply ::= credit new |> |>.
Proof.
  intros (g & Hg & ->)%runs_modify1. apply result_bind_ok in Hg as (f & ->%asset_add_credit & Hg).
  apply result_bind_ok in Hg as (r & Hr & Hg). apply result_bind_ok in Hg as (c & ->%asset_add_credit & Hg).
  apply result_bind_ok in Hg as (v & ->%asset_add_credit & [= <-]).
  assert (r = credit (if hf17 then 0 else content) (gpo_total_reward_fund_TME (gpo s))) as ->; [|done].
  destruct hf17; [|by apply asset_add_credit in Hr]. injection Hr as <-. unfold credit. rewrite Z.add_0_r. by destruct (gpo_total_reward_fund_TME _).
Qed.
Lemma push_issued o : preserves (same (λ s, (scores s, (gpo s, reward_funds s)))) (push_virtual_operation o).
Proof. apply same_push. done. Qed.

Lemma issued_gpo g fund pay t r n :
  g <| gpo_totalTMEfundForSCORE ::= credit fund |> <| gpo_total_reward_fund_TME ::= r |> <| gpo_current_supply ::= n |> <| gpo_virtual_supply ::= n |>
    <| gpo_totalTMEfundForSCORE ::= credit pay |> <| gpo_totalSCORE ::= t |> =
  g <| gpo_totalTMEfundForSCORE ::= credit (fund + pay) |> <| gpo_totalSCORE ::= t |> <| gpo_total_reward_fund_TME ::= r |>
    <| gpo_current_supply ::= n |> <| gpo_virtual_supply ::= n |>.
Proof.
  transitivity (g <| gpo_totalTMEfundForSCORE := credit pay (credit fund (gpo_totalTMEfundForSCORE g)) |> <| gpo_totalSCORE ::= t |>
    <| gpo_total_reward_fund_TME ::= r |> <| gpo_current_supply ::= n |> <| gpo_virtual_supply ::= n |>); [reflexivity|].
  rewrite credit_credit. reflexivity.
Qed.

(** The shares of what a block issues. *)
Lemma shares new a b : 0 ≤ new → 0 ≤ b → safe_div (new * (b * 100)) PERCENT_100 = Ok a → a = new * b / 100.
Proof.
  intros Hn Hb ->%safe_div_pos; [|nia|done]. change PERCENT_100 with (100 * 100). rewrite Z.mul_assoc. by apply Z.div_mul_cancel_r.
Qed.

End books.
(** * An example *)

Module InflationExamples.
Import FcRef.
Definition producer : witness_object :=
  {| wit_id := 1; wit_owner := "alice"; wit_created := 0; wit_url := EmptyString; wit_total_missed := 0; wit_last_aslot := 0;
     wit_last_confirmed_block_num := 0; wit_pow_worker := 0; wit_signing_key := EmptyString; wit_props := sample_props;
     wit_TSD_exchange_rate := median; wit_last_TSD_exchange_update := 0; wit_votes := 0; wit_schedule := sched_top19;
     wit_virtual_last_update := 0; wit_virtual_position := 0; wit_virtual_scheduled_time := 0; wit_last_work := EmptyString;
     wit_running_version := 0; wit_hardfork_version_vote := 0; wit_hardfork_time_vote := 0 |}.
Definition issuing : database :=
  sample_db {["alice"%string := sample_account 1 "alice" 0 0 1000; "null"%string := sample_account 2 "null" 70 0 0]} 1000000000000 0 1000
    <| witnesses := Table {["alice"%string := producer]} 2 |>
    <| gpo ::= λ g, g <| gpo_current_witness := "alice"%string |> <| gpo_totalTMEfundForSCORE := coin 1000 |> |>
    <| witness_schedule ::= λ w, w <| wso_top19_weight := 1 |> <| wso_witness_pay_normalization_factor := 50 |> |>.
Definition issued := outcome process_funds issuing.
Definition burnt := outcome clear_null_account_balance issuing.

Example issued_supply : amount (gpo_current_supply (gpo issued)) = 1000000003170 ∧ amount (gpo_current_supply (gpo burnt)) = 999999999930.
Proof. by vm_compute. Qed.

Lemma issuing_runs : ⟨ process_funds, issuing ⟩ ⇓ ⟨ tt, issued ⟩.
Proof. runs_ok. Qed.
Lemma burning_runs : ⟨ clear_null_account_balance, issuing ⟩ ⇓ ⟨ tt, burnt ⟩.
Proof. runs_ok. Qed.
Lemma issuing_null_ok : null_ok issuing.
Proof.
  intros a Ha. assert (Some (sample_account 2 "null" 70 0 0) = Some a) as E by (rewrite <- Ha; vm_compute; reflexivity).
  injection E as <-. split; [apply Z.leb_le; vm_compute; reflexivity|]. intros x Hx. vm_compute in Hx. injection Hx as <-. apply Z.leb_le. reflexivity.
Qed.

(** Alice's block issues 3170; the null account's 70 are burnt. *)
Lemma inflation_on_the_books_witness : conserves issuing issued ∧ conserves issuing burnt.
Proof.
  destruct (inflation_on_the_books issuing tt issued) as (H & _ & _). destruct (inflation_on_the_books issuing tt burnt) as (_ & _ & K).
  exact (conj (H issuing_runs) (K issuing_null_ok burning_runs)).
Defined.

End InflationExamples.
