(* ===== verification/Schedule.v ===== *)
(** The witness schedule ([chain/witness_schedule.cpp]).

    Every [MAX_WITNESSES] blocks the witnesses of the next round are chosen: the
    highest voted, the head of the mining queue, and the runners who lead in virtual
    time.  They are shuffled with the time of the head block, the versions the last
    round ran and voted for are counted, and the medians of what the new round
    proposes become the parameters of the chain. *)

From S2P Require Import Prelude Fc Config Asset Flat Authority Version BlockHeader Operations Objects Database Ledger Quiet Samples Slots Feeds Accounts Same Cashout Inflation.

(** * The orders of the witnesses *)

(** [by_pow], libraries/chain/include/node/chain/witness_objects.hpp:185 *)
Definition by_pow : witness_object → witness_object → comparison := by_key wit_pow_worker Z.compare.
(** [by_schedule_time], libraries/chain/include/node/chain/witness_objects.hpp:193-198 *)
Definition by_schedule_time : witness_object → witness_object → comparison :=
  then_by (by_key wit_virtual_scheduled_time Z.compare) (by_key wit_id Z.compare).

(** The witnesses in the order of an index. *)
Definition in_index (c : witness_object → witness_object → comparison) (s : database) : list witness_object :=
  snd <$> merge_sort (row_le (at_most c)) (map_to_list (rows (witnesses s))).
(** The witnesses in the mining queue, [pow_idx.upper_bound(0)] onwards. *)
Definition mining_queue (s : database) : list witness_object :=
  filter (λ w, 0 < wit_pow_worker w) (in_index by_pow s).

(** * Shuffling *)

(** [std::swap( a\[i\], a\[j\] )]. *)
Definition swap {A} (i j : nat) (l : list A) : list A :=
  match l !! i, l !! j with Some x, Some y => <[j := x]> (<[i := y]> l) | _, _ => l end.

(** The generator of one step of the shuffle. *)
Definition xorshift (now i : Z) : Z :=
  let now_hi := wrap_u64 (Z.shiftl now 32) in
  let k := wrap_u64 (now_hi + wrap_u64 (i * 2685821657736338717)) in
  let k := Z.lxor k (Z.shiftr k 12) in
  let k := Z.lxor k (wrap_u64 (Z.shiftl k 25)) in
  let k := Z.lxor k (Z.shiftr k 27) in
  wrap_u64 (k * 2685821657736338717).

(** The loop of the shuffle, from step [i] on. *)
Definition shuffle_step (now n : Z) (l : list account_name) (i : nat) : list account_name :=
  let jmax := n - Z.of_nat i in
  swap i (Z.to_nat (Z.of_nat i + xorshift now (Z.of_nat i) mod jmax)) l.
Definition shuffle (now n : Z) (l : list account_name) : list account_name :=
  fold_left (shuffle_step now n) (seq 0 (Z.to_nat n)) l.

(** [current_shuffled_witnesses] with the active witnesses in front. *)
Definition pad (active : list account_name) : list account_name :=
  active ++ replicate (Z.to_nat MAX_WITNESSES - length active) EmptyString.

Section schedule.
Context {F : Fc}.

(** * Virtual time *)

(** [VIRTUAL_SCHEDULE_LAP_LENGTH2 / (votes.value+1)], the time of one lap. *)
Definition lap (length : Z) (w : witness_object) : Z :=
  u128_div (u128 length) (u128 (wrap_i64 (wit_votes w + 1))).

(** [reset_virtual_schedule_time], libraries/chain/witness_schedule.cpp:10-28 *)
Definition reset_virtual_schedule_time : DB unit :=
  modify1 witness_schedule (λ o, Ok (o <| wso_current_virtual_time := u128 0 |>));;
  idx ← asks (in_index (by_key wit_id Z.compare));
  mfor (λ witness, modify witnesses (wit_owner witness) (λ wobj,
    Ok (wobj <| wit_virtual_position := u128 0 |> <| wit_virtual_last_update := u128 0 |>
             <| wit_virtual_scheduled_time := lap VIRTUAL_SCHEDULE_LAP_LENGTH2 wobj |>))) idx.

(** * The median of what the witnesses propose *)

(** The median of one of the proposed properties. *)
Definition median_of (f : chain_properties → Z) (ws : list witness_object) : result Z :=
  match middle Z.le ((λ w, f (wit_props w)) <$> ws) with
  | Some m => Ok m
  | None => Err (logic_error "out of range")
  end.

(** The account creation fees are compared by their amounts. *)
Definition fee_le (x y : asset) : Prop := amount x ≤ amount y.
#[export] Instance fee_le_dec : RelDecision fee_le.
Proof. intros x y. unfold fee_le. apply _. Defined.
Definition median_fee (ws : list witness_object) : result asset :=
  match middle fee_le ((λ w, props_account_creation_fee (wit_props w)) <$> ws) with
  | Some m => Ok m
  | None => Err (logic_error "out of range")
  end.

(** [update_median_witness_props], libraries/chain/witness_schedule.cpp:30-74 *)
Definition update_median_witness_props : DB unit :=
  wso ← get_witness_schedule_object;
  active ← scheduled_objects (take (Z.to_nat (wso_num_scheduled_witnesses wso)) (wso_current_shuffled_witnesses wso));
  median_account_creation_fee ← lift (median_fee active);
  median_maximum_block_size ← lift (median_of props_maximum_block_size active);
  median_TSD_interest_rate ← lift (median_of props_TSD_interest_rate active);
  modify1 witness_schedule (λ _wso,
    Ok (_wso <| wso_median_props := {| props_account_creation_fee := median_account_creation_fee;
                                       props_maximum_block_size := median_maximum_block_size;
                                       props_TSD_interest_rate := median_TSD_interest_rate |} |>));;
  modify1 gpo (λ _dgpo, Ok (_dgpo <| gpo_maximum_block_size := median_maximum_block_size |>
                                  <| gpo_TSD_interest_rate := median_TSD_interest_rate |>)).

(** * Choosing the witnesses *)

(** Whether the witness may not sign: it has no key, and that counts. *)
Definition keyless (hf14 : bool) (w : witness_object) : bool := hf14 && str_eqb (wit_signing_key w) null_key.
(** [selected.find( w.id ) != selected.end()]. *)
Definition selected (l : list witness_object) (w : witness_object) : bool :=
  bool_decide (wit_id w ∈ wit_id <$> l).

(** A loop over the witnesses that goes on while there is [room], passes every
    witness it meets, and chooses those it does not [skip]. *)
Fixpoint pick (room : nat → bool) (skip : witness_object → bool) (l chosen processed : list witness_object) :
    list witness_object * list witness_object :=
  match l with
  | [] => (chosen, processed)
  | w :: l =>
      if room (length chosen)
      then pick room skip l (if skip w then chosen else chosen ++ [w]) (processed ++ [w])
      else (chosen, processed)
  end.

(** The highest voted witnesses. *)
Definition elect (hf14 : bool) (max : Z) (l : list witness_object) : list witness_object :=
  (pick (λ voted, Z.of_nat voted <? max) (keyless hf14) l [] []).1.

(** The miners taken from the queue, and the part of the queue that was processed. *)
Definition mine (hf14 : bool) (max : Z) (voted l : list witness_object) : list witness_object * list witness_object :=
  pick (λ miners, Z.of_nat miners <? max) (λ w, selected voted w || keyless hf14 w) l [] [].

(** The runners in the lead, and the witnesses that were passed on the way. *)
Definition run_ahead (hf14 : bool) (chosen l : list witness_object) : list witness_object * list witness_object :=
  pick (λ runners, Z.of_nat (length chosen + runners) <? MAX_WITNESSES)
    (λ w, keyless hf14 w || selected chosen w) l [] [].

(** Record how the witnesses were chosen. *)
Definition set_schedule (t : witness_schedule_type) (l : list witness_object) : DB unit :=
  mfor (λ w, modify witnesses (wit_owner w) (λ wo, Ok (wo <| wit_schedule := t |>))) l.
(** Remove the processed miners from the queue. *)
Definition dequeue (w : witness_object) : DB unit :=
  modify witnesses (wit_owner w) (λ wit, Ok (wit <| wit_pow_worker := 0 |>));;
  modify1 gpo (λ obj, Ok (obj <| gpo_num_pow_witnesses ::= λ n, wrap_u32 (n - 1) |>)).

(** The witnesses passed start a new lap; [true] when the virtual time overflows. *)
Fixpoint start_laps (new_virtual_time : Z) (l : list witness_object) : DB bool :=
  match l with
  | [] => mret false
  | w :: l =>
      let new_virtual_scheduled_time := u128_add new_virtual_time (lap VIRTUAL_SCHEDULE_LAP_LENGTH2 w) in
      if new_virtual_scheduled_time <? new_virtual_time then mret true
      else
        modify witnesses (wit_owner w) (λ wo,
          Ok (wo <| wit_virtual_position := u128 0 |> <| wit_virtual_last_update := new_virtual_time |>
                 <| wit_virtual_scheduled_time := new_virtual_scheduled_time |>));;
        start_laps new_virtual_time l
  end.

(** * Counting versions *)

(** How often each value occurs, in the order of a [flat_map]. *)
Definition tally {K} `{!EqDecision K} (le : K → K → Prop) `{!RelDecision le} (l : list K) : list (K * Z) :=
  (λ k, (k, Z.of_nat (length (filter (λ x, x = k) l)))) <$> merge_sort le (remove_dups l).

(** The highest version that [required] witnesses run, or one above it. *)
Fixpoint majority (required on_version : Z) (l : list (Z * Z)) : option Z :=
  match l with
  | [] => None
  | (v, n) :: l =>
      let on_version := on_version + n in
      if required <=? on_version then Some v else majority required on_version l
  end.

(** The first hard fork and time that [required] witnesses vote for. *)
Fixpoint agreed (required : Z) (l : list ((Z * Z) * Z)) : option (Z * Z) :=
  match l with
  | [] => None
  | (vote, n) :: l => if required <=? n then Some vote else agreed required l
  end.

Definition vote_le (x y : Z * Z) : Prop := x.1 < y.1 ∨ x.1 = y.1 ∧ x.2 ≤ y.2.
#[export] Instance vote_le_dec : RelDecision vote_le.
Proof. intros x y. unfold vote_le. apply _. Defined.

(** The part of [update_witness_schedule4] that counts the versions; it returns the
    version of the majority. *)
Definition count_versions : DB Z :=
  wso ← get_witness_schedule_object;
  ws ← scheduled_objects (take (Z.to_nat (wso_num_scheduled_witnesses wso)) (wso_current_shuffled_witnesses wso));
  let witness_versions := tally Z.ge (wit_running_version <$> ws) in
  let hardfork_version_votes :=
    tally vote_le ((λ w, (wit_hardfork_version_vote w, wit_hardfork_time_vote w)) <$> ws) in
  match agreed (wso_hardfork_required_witnesses wso) hardfork_version_votes with
  | Some (v, t) =>
      hfp ← asks hardforks;
      mwhen (negb (hpo_next_hardfork hfp =? v) || negb (hpo_next_hardfork_time hfp =? t))
        (modify1 hardforks (λ hpo, Ok (hpo <| hpo_next_hardfork := hardfork_version_of v |>
                                          <| hpo_next_hardfork_time := t |>)))
  | None =>
      modify1 hardforks (λ hpo, Ok (hpo <| hpo_next_hardfork := hardfork_version_of (hpo_current_hardfork_version hpo) |>))
  end;;
  mret (default (wso_majority_version wso) (majority (wso_hardfork_required_witnesses wso) 0 witness_versions)).

(** * The schedule *)

(** The size of the schedule, [std::max< uint8_t >( active_witnesses.size(), 1 )]. *)
Definition schedule_size (active : list account_name) : Z := Z.max (wrap_u8 (Z.of_nat (length active))) 1.
(** The pay of the whole round, in weights. *)
Definition normalization_factor (wso : witness_schedule_object) (elected miners timeshare : Z) : Z :=
  wrap_u32 (wso_top19_weight wso * elected + wso_miner_weight wso * miners + wso_timeshare_weight wso * timeshare).

(** The part of [update_witness_schedule4] that chooses the witnesses: the highest
    voted, the miners, the runners, and the new virtual time. *)
Definition choose_witnesses : DB (list witness_object * list witness_object * list witness_object * Z) :=
  wso ← get_witness_schedule_object;
  hf14 ← has_hardfork HARDFORK_0_14;
  widx ← asks (in_index by_vote_name);
  let selected_voted := elect hf14 (wso_max_voted_witnesses wso) widx in
  set_schedule sched_top19 selected_voted;;
  pow_idx ← asks mining_queue;
  let '(selected_miners, mined) := mine hf14 (wso_max_miner_witnesses wso) selected_voted pow_idx in
  set_schedule sched_miner selected_miners;;
  mfor dequeue mined;;
  schedule_idx ← asks (in_index by_schedule_time);
  let '(runners, processed_witnesses) := run_ahead hf14 (selected_voted ++ selected_miners) schedule_idx in
  set_schedule sched_timeshare runners;;
  let new_virtual_time := default (wso_current_virtual_time wso) (wit_virtual_scheduled_time <$> last processed_witnesses) in
  reset_virtual_time ← start_laps new_virtual_time processed_witnesses;
  mwhen reset_virtual_time reset_virtual_schedule_time;;
  mret (selected_voted, selected_miners, runners, if (reset_virtual_time : bool) then u128 0 else new_virtual_time).

(** The part that installs the schedule. *)
Definition install_schedule (selected_voted selected_miners runners : list witness_object)
    (new_virtual_time majority_version : Z) : DB unit :=
  now ← head_block_time;
  head ← head_block_num;
  modify1 witness_schedule (λ _wso,
    let active_witnesses := wit_owner <$> selected_voted ++ selected_miners ++ runners in
    let n := schedule_size active_witnesses in
    Ok (_wso <| wso_current_shuffled_witnesses := shuffle now n (pad active_witnesses) |>
             <| wso_num_scheduled_witnesses := n |>
             <| wso_witness_pay_normalization_factor :=
                  normalization_factor _wso (Z.of_nat (length selected_voted)) (Z.of_nat (length selected_miners))
                    (Z.of_nat (length runners)) |>
             <| wso_current_virtual_time := new_virtual_time |>
             <| wso_next_shuffle_block_num := wrap_u32 (head + n) |>
             <| wso_majority_version := majority_version |>)).

(** [update_witness_schedule4], libraries/chain/witness_schedule.cpp:76-302 *)
Definition update_witness_schedule4 : DB unit :=
  chosen ← choose_witnesses;
  let '(selected_voted, selected_miners, runners, new_virtual_time) := chosen in
  witness_count ← asks (λ s, base.size (rows (witnesses s)));
  let expected_active_witnesses := Z.min MAX_WITNESSES (Z.of_nat witness_count) in
  fc_assert (Z.of_nat (length (selected_voted ++ selected_miners ++ runners)) =? expected_active_witnesses)
    "number of active witnesses does not equal expected_active_witnesses=${expected_active_witnesses}";;
  hf5 ← has_hardfork HARDFORK_0_5;
  wso ← get_witness_schedule_object;
  majority_version ← (if (hf5 : bool) then count_versions else mret (wso_majority_version wso));
  install_schedule selected_voted selected_miners runners new_virtual_time majority_version;;
  update_median_witness_props.

(** The loop over the highest voted before hard fork 4: the witnesses that do not mine. *)
Definition elect_voted (l : list witness_object) : list witness_object :=
  (pick (λ voted, Z.of_nat voted <? MAX_WITNESSES - 2) (λ w, negb (wit_pow_worker w =? 0)) l [] []).1.

(** All the miners, until the round is full or voting has taken over. *)
Fixpoint add_miners (voting : bool) (l : list witness_object) (active : list account_name) : list account_name :=
  match l with
  | [] => active
  | w :: l =>
      let active := active ++ [wit_owner w] in
      if voting || (MAX_WITNESSES <=? Z.of_nat (length active)) then active else add_miners voting l active
  end.

(** The voted witnesses and the runner of [update_witness_schedule] before hard fork 4:
    who is active, and the new virtual time. *)
Definition schedule_voted : DB (list account_name * Z) :=
  widx ← asks (in_index by_vote_name);
  let voted := elect_voted widx in
  mfor (λ w, modify witnesses (wit_owner w) (λ wo, Ok (wo <| wit_virtual_scheduled_time := u128_max |>))) voted;;
  schedule_idx ← asks (in_index by_schedule_time);
  match head (filter (λ w, wit_pow_worker w = 0) schedule_idx) with
  | None => mret (wit_owner <$> voted, u128 0)
  | Some runner =>
      let time := wit_virtual_scheduled_time runner in
      hf2 ← has_hardfork HARDFORK_0_2;
      modify witnesses (wit_owner runner) (λ wo,
        Ok (wo <| wit_virtual_position := u128 0 |>
               <| wit_virtual_scheduled_time ::= λ t,
                    u128_add t (lap (if (hf2 : bool) then VIRTUAL_SCHEDULE_LAP_LENGTH2 else VIRTUAL_SCHEDULE_LAP_LENGTH) wo) |>));;
      mret (wit_owner <$> voted ++ [runner], if time =? u128_max then u128 0 else time)
  end.

(** [update_witness_schedule] before hard fork 4. *)
Definition update_witness_schedule_pre_hf4 : DB unit :=
  head_num ← head_block_num;
  props ← get_dynamic_global_properties;
  let voting := START_MINER_VOTING_BLOCK <? head_num in
  voted ← (if (gpo_num_pow_witnesses props =? 0) || voting then schedule_voted else mret ([], u128 0));
  let '(active_witnesses, new_virtual_time) := voted in
  pow_idx ← asks mining_queue;
  mwhen (MAX_WITNESSES <? gpo_num_pow_witnesses props) (match head pow_idx with Some w => dequeue w | None => mret tt end);;
  pow_idx ← asks mining_queue;
  let active_witnesses := add_miners voting pow_idx active_witnesses in
  now ← head_block_time;
  props ← get_dynamic_global_properties;
  modify1 witness_schedule (λ _wso,
    let n := schedule_size active_witnesses in
    let _wso := _wso <| wso_current_shuffled_witnesses := shuffle now n (pad active_witnesses) |>
                     <| wso_num_scheduled_witnesses := n |>
                     <| wso_next_shuffle_block_num := wrap_u32 (head_num + n) |> in
    Ok (if (gpo_num_pow_witnesses props =? 0) || voting
        then _wso <| wso_current_virtual_time := new_virtual_time |> else _wso));;
  update_median_witness_props.

(** [update_witness_schedule], libraries/chain/witness_schedule.cpp:309-457 *)
Definition update_witness_schedule : DB unit :=
  head_num ← head_block_num;
  if head_num mod MAX_WITNESSES =? 0 then
    hf4 ← has_hardfork HARDFORK_0_4;
    if (hf4 : bool) then update_witness_schedule4 else update_witness_schedule_pre_hf4
  else mret tt.

End schedule.

(** * Selection *)

(** ** Lists *)

Lemma length_filter_fmap {A B} (f : A → B) (P : B → Prop) `{!∀ x, Decision (P x)} (l : list A) :
  length (filter (λ x, P (f x)) l) = length (filter P (f <$> l)).
Proof.
  induction l as [|x l IH]; [done|]. rewrite fmap_cons, !filter_cons. destruct (decide (P (f x))); cbn [length]; lia.
Qed.

(** A filter and the elements it leaves out. *)
Lemma length_filter_split {A} (P Q : A → Prop) `{!∀ x, Decision (P x), !∀ x, Decision (Q x)} (l : list A) :
  (length (filter (λ x, P x ∧ Q x) l) + length (filter (λ x, P x ∧ ¬ Q x) l) = length (filter P l))%nat.
Proof.
  induction l as [|x l IH]; [done|]. rewrite !filter_cons.
  destruct (decide (P x)), (decide (Q x)); repeat destruct (decide _); cbn [length]; try lia; tauto.
Qed.

Lemma fmap_same `{Countable K} {A B} (f : A → B) (m m' : gmap K A) k v :
  f <$> m' = f <$> m → m' !! k = Some v → ∃ v0, m !! k = Some v0 ∧ f v = f v0.
Proof.
  intros E Hk. apply (f_equal (lookup k)) in E. rewrite !lookup_fmap, Hk in E. cbn in E.
  destruct (m !! k) as [v0|]; [|done]. exists v0. split; [done|]. by injection E.
Qed.

(** ** Shuffling *)

Lemma swap_perm {A} i j (l : list A) : swap i j l ≡ₚ l.
Proof.
  unfold swap. destruct (l !! i) as [x|] eqn:Hi, (l !! j) as [y|] eqn:Hj; [|done..].
  destruct (decide (i = j)) as [->|Hij].
  - rewrite list_insert_insert_eq. rewrite list_insert_id; [done|congruence].
  - apply Permutation_inj. rewrite !length_insert. split; [done|].
    exists (λ k, if decide (k = i) then j else if decide (k = j) then i else k). split.
    + intros a b. repeat destruct (decide _); congruence.
    + intros k. pose proof (lookup_lt_Some _ _ _ Hi). pose proof (lookup_lt_Some _ _ _ Hj).
      rewrite !list_lookup_insert. repeat destruct (decide _); subst; try tauto; try lia; try congruence;
        rewrite ?length_insert in *; try tauto; try lia.
Qed.

Lemma take_swap {A} i j n (l : list A) : (i < n)%nat → (j < n)%nat → take n (swap i j l) = swap i j (take n l).
Proof.
  intros Hi Hj. unfold swap. rewrite !lookup_take_lt by done.
  destruct (l !! i), (l !! j); [|done..]. by rewrite !take_insert_lt by done.
Qed.

Lemma swap_length {A} i j (l : list A) : length (swap i j l) = length l.
Proof. apply Permutation_length, swap_perm. Qed.

(** The shuffle permutes the scheduled part and leaves the padding. *)
Lemma shuffle_perm now n l :
  take (Z.to_nat n) (shuffle now n l) ≡ₚ take (Z.to_nat n) l ∧ length (shuffle now n l) = length l.
Proof.
  unfold shuffle. assert (∀ i, i ∈ seq 0 (Z.to_nat n) → Z.of_nat i < n) as Hall by (intros i Hi%elem_of_seq; lia).
  revert l Hall. induction (seq 0 (Z.to_nat n)) as [|i l0 IH]; intros l Hall; [done|]. cbn [fold_left].
  destruct (IH (shuffle_step now n l i)) as [IH1 IH2]; [set_solver|]. clear IH. rewrite IH1, IH2. clear IH1 IH2.
  assert (Z.of_nat i < n) as Hi by (apply Hall; set_solver). unfold shuffle_step.
  pose proof (Z.mod_pos_bound (xorshift now (Z.of_nat i)) (n - Z.of_nat i)) as Hb.
  split; [|apply swap_length]. rewrite take_swap by lia. apply swap_perm.
Qed.

(** ** The loops *)

Definition unselected (l : list witness_object) (w : witness_object) : Prop := wit_id w ∉ wit_id <$> l.
Definition has_key (hf14 : bool) (w : witness_object) : Prop := keyless hf14 w = false.
#[export] Instance unselected_dec l w : Decision (unselected l w).
Proof. unfold unselected. apply _. Defined.
#[export] Instance has_key_dec hf14 w : Decision (has_key hf14 w).
Proof. unfold has_key. apply _. Defined.

Lemma selected_false l w : selected l w = false ↔ unselected l w.
Proof. unfold selected, unselected. rewrite bool_decide_eq_false. done. Qed.

Lemma pick_take room max skip l chosen processed :
  (∀ n, room n = (Z.of_nat n <? max)) →
  (pick room skip l chosen processed).1 =
    chosen ++ take (Z.to_nat (max - Z.of_nat (length chosen))) (filter (λ w, skip w = false) l) ∧
  ∃ k, (pick room skip l chosen processed).2 = processed ++ take k l.
Proof.
  intros Hroom. revert chosen processed. induction l as [|w l IH]; intros chosen processed; cbn [pick].
  { rewrite filter_nil, take_nil, app_nil_r. split; [done|]. exists 0%nat. by rewrite app_nil_r. }
  rewrite Hroom. destruct (Z.ltb_spec (Z.of_nat (length chosen)) max) as [Hlt|Hge].
  - destruct (IH (if skip w then chosen else chosen ++ [w]) (processed ++ [w])) as [-> [k ->]]. clear IH.
    split; [|exists (S k); cbn [take]; by rewrite <- (assoc_L (++))].
    rewrite filter_cons. destruct (skip w) eqn:Es; [by rewrite decide_False|]. rewrite decide_True by done. rewrite length_app. cbn [length].
    replace (Z.to_nat (max - Z.of_nat (length chosen))) with (S (Z.to_nat (max - Z.of_nat (length chosen + 1)))) by lia.
    cbn [take]. by rewrite <- (assoc_L (++)).
  - replace (Z.to_nat _) with 0%nat by lia. cbn [take fst snd]. rewrite app_nil_r. split; [done|]. exists 0%nat. by rewrite app_nil_r.
Qed.

Lemma keyless_filter hf14 (sel l : list witness_object) (skip : witness_object → bool) :
  (∀ w, skip w = (keyless hf14 w || selected sel w) ∨ skip w = (selected sel w || keyless hf14 w)) →
  filter (λ w, skip w = false) l = filter (λ w, has_key hf14 w ∧ unselected sel w) l.
Proof.
  intros Hs. apply filter_ext_in. intros w _. rewrite <- selected_false. unfold has_key.
  destruct (Hs w) as [-> | ->]; rewrite orb_false_iff; tauto.
Qed.

(** The voted witnesses are the first by votes that have a key. *)
Lemma elect_take hf14 max l : elect hf14 max l = take (Z.to_nat max) (filter (has_key hf14) l).
Proof.
  unfold elect. destruct (pick_take (λ n, Z.of_nat n <? max) max (keyless hf14) l [] []) as [-> _]; [done|].
  cbn [length app]. by rewrite Z.sub_0_r.
Qed.

(** The miners are the first in the queue that have a key and were not voted. *)
Lemma mine_take hf14 max voted l :
  (mine hf14 max voted l).1 = take (Z.to_nat max) (filter (λ w, has_key hf14 w ∧ unselected voted w) l) ∧
  ∃ k, (mine hf14 max voted l).2 = take k l.
Proof.
  unfold mine. destruct (pick_take (λ n, Z.of_nat n <? max) max (λ w, selected voted w || keyless hf14 w) l [] []) as [-> [k ->]]; [done|].
  split; [|by exists k]. cbn [length app]. rewrite Z.sub_0_r. f_equal. apply keyless_filter. auto.
Qed.

(** The runners are the first in virtual time that have a key and were not chosen. *)
Lemma run_ahead_take hf14 chosen l :
  (run_ahead hf14 chosen l).1 =
    take (Z.to_nat (MAX_WITNESSES - Z.of_nat (length chosen))) (filter (λ w, has_key hf14 w ∧ unselected chosen w) l) ∧
  ∃ k, (run_ahead hf14 chosen l).2 = take k l.
Proof.
  unfold run_ahead.
  destruct (pick_take (λ n, Z.of_nat (length chosen + n) <? MAX_WITNESSES) (MAX_WITNESSES - Z.of_nat (length chosen))
    (λ w, keyless hf14 w || selected chosen w) l [] []) as [-> [k ->]].
  { intros n. destruct (Z.ltb_spec (Z.of_nat (length chosen + n)) MAX_WITNESSES),
      (Z.ltb_spec (Z.of_nat n) (MAX_WITNESSES - Z.of_nat (length chosen))); lia. }
  split; [|by exists k]. cbn [length app]. rewrite Z.sub_0_r. f_equal. apply keyless_filter. auto.
Qed.

(** * The witnesses *)

(** Every witness is stored under its owner and has an id of its own. *)
Record witnesses_wf (s : database) : Prop := {
  ww_keyed : witnesses_keyed s;
  ww_ids k k' w w' : rows (witnesses s) !! k = Some w → rows (witnesses s) !! k' = Some w' → wit_id w = wit_id w' → k = k';
}.

(** What choosing the witnesses does not change. *)
Definition who (w : witness_object) := (wit_id w, wit_owner w, wit_signing_key w).
Definition whos (s : database) := who <$> rows (witnesses s).

Lemma who_inv w w' : who w = who w' → wit_id w = wit_id w' ∧ wit_owner w = wit_owner w' ∧ wit_signing_key w = wit_signing_key w'.
Proof. intros E. injection E. auto. Qed.
Lemma whos_lookup s s' k w :
  whos s' = whos s → rows (witnesses s') !! k = Some w → ∃ w0, rows (witnesses s) !! k = Some w0 ∧ who w = who w0.
Proof. apply fmap_same. Qed.

Lemma whos_size s s' : whos s' = whos s → base.size (rows (witnesses s')) = base.size (rows (witnesses s)).
Proof. unfold whos. intros E. apply (f_equal base.size) in E. by rewrite !map_size_fmap in E. Qed.

Lemma witnesses_wf_whos s s' : whos s' = whos s → witnesses_wf s → witnesses_wf s'.
Proof.
  intros E [Hk Hi]. split.
  - intros k w H. destruct (whos_lookup _ _ _ _ E H) as (w0 & H0 & (_ & E0 & _)%who_inv). rewrite E0. eauto.
  - intros k k' w w' H H' Eid. destruct (whos_lookup _ _ _ _ E H) as (w0 & H0 & (E0 & _)%who_inv).
    destruct (whos_lookup _ _ _ _ E H') as (w1 & H1 & (E1 & _)%who_inv). eapply Hi; eauto. congruence.
Qed.

Lemma in_index_perm c s : in_index c s ≡ₚ snd <$> map_to_list (rows (witnesses s)).
Proof. unfold in_index. by rewrite merge_sort_Permutation. Qed.

Lemma in_index_length c s : length (in_index c s) = base.size (rows (witnesses s)).
Proof. by rewrite in_index_perm, length_fmap, length_map_to_list. Qed.

Lemma in_index_elem c s w : witnesses_wf s → w ∈ in_index c s ↔ rows (witnesses s) !! wit_owner w = Some w.
Proof.
  intros [Hk _]. rewrite in_index_perm, list_elem_of_fmap. split.
  - intros ([k w'] & -> & Hin%elem_of_map_to_list). cbn. by rewrite (Hk _ _ Hin).
  - intros Hin. exists (wit_owner w, w). by rewrite elem_of_map_to_list.
Qed.

Lemma in_index_who c c' s s' : whos s' = whos s → who <$> in_index c s' ≡ₚ who <$> in_index c' s.
Proof.
  intros E. rewrite !in_index_perm. assert (∀ t, who <$> (snd <$> map_to_list (rows (witnesses t))) ≡ₚ snd <$> map_to_list (whos t)) as Hw.
  { intros t. unfold whos. rewrite map_to_list_fmap, <- !list_fmap_compose. done. }
  by rewrite !Hw, E.
Qed.

Lemma in_index_ids c s : witnesses_wf s → NoDup (wit_id <$> in_index c s).
Proof.
  intros Hwf. rewrite in_index_perm, <- list_fmap_compose. apply NoDup_fmap_2_strong; [|apply NoDup_map_to_list].
  intros [k w] [k' w'] H%elem_of_map_to_list H'%elem_of_map_to_list E. cbn in E.
  assert (k = k') as -> by (by eapply (ww_ids s)). congruence.
Qed.

(** A list of witnesses of [s], perhaps read in a later state. *)
Definition known (s : database) (w : witness_object) : Prop := ∃ w0, rows (witnesses s) !! wit_owner w = Some w0 ∧ who w = who w0.

Lemma known_whos s s' w : whos s' = whos s → known s' w → known s w.
Proof.
  intros E (w1 & H1 & E1). destruct (whos_lookup _ _ _ _ E H1) as (w0 & H0 & E0). exists w0. split; [done|congruence].
Qed.
Lemma known_in_index c s w : witnesses_wf s → w ∈ in_index c s → known s w.
Proof. intros Hwf Hin%in_index_elem; [|done]. by exists w. Qed.
Lemma known_owner s w w' : witnesses_wf s → known s w → known s w' → wit_id w = wit_id w' ↔ wit_owner w = wit_owner w'.
Proof.
  intros [_ Hi] (w0 & H0 & (E0 & _)%who_inv) (w1 & H1 & (E1 & _)%who_inv). split.
  - intros E. eapply Hi; eauto. congruence.
  - intros E. rewrite E in H0. rewrite E0, E1. congruence.
Qed.
Lemma known_owners s l : witnesses_wf s → Forall (known s) l → NoDup (wit_id <$> l) → NoDup (wit_owner <$> l).
Proof.
  intros Hwf Hk Hn. rewrite Forall_forall in Hk. apply NoDup_fmap_2_strong; [|by eapply NoDup_fmap_1].
  intros w w' Hw Hw' E. apply (known_owner s) in E; [|by auto..].
  apply list_elem_of_split in Hw as (l1 & l2 & ->). rewrite fmap_app, fmap_cons in Hn.
  apply NoDup_app in Hn as (_ & H1 & Hn). apply NoDup_cons in Hn as [H2 _].
  apply elem_of_app in Hw' as [Hw'|Hw'%elem_of_cons].
  - exfalso. apply (H1 (wit_id w')); [by apply list_elem_of_fmap_2|]. rewrite E. by left.
  - destruct Hw' as [->|Hw']; [done|]. exfalso. apply H2. rewrite E. by apply list_elem_of_fmap_2.
Qed.

(** The witnesses that may be scheduled. *)
Definition candidates (hf14 : bool) (s : database) : list witness_object := filter (has_key hf14) (in_index by_vote_name s).

Lemma keyless_who hf14 w w' : who w = who w' → keyless hf14 w = keyless hf14 w'.
Proof. intros (_ & _ & E)%who_inv. unfold keyless. by rewrite E. Qed.

Lemma candidates_whos hf14 c s s' :
  whos s' = whos s → length (filter (has_key hf14) (in_index c s')) = length (candidates hf14 s).
Proof.
  intros E. pose (P := λ x : Z * account_name * public_key, hf14 && str_eqb x.2 null_key = false).
  assert (∀ x, Decision (P x)) as HP by (intros x; unfold P; apply _).
  unfold candidates. pose proof (length_filter_fmap who P (in_index c s')) as H1.
  pose proof (length_filter_fmap who P (in_index by_vote_name s)) as H2.
  assert (∀ l, filter (has_key hf14) l = filter (λ x, P (who x)) l) as Hf by (intros l; by apply filter_ext_in).
  rewrite !Hf, H1, H2. by rewrite (in_index_who c by_vote_name s s' E).
Qed.

(** Those that are left when [l] were chosen. *)
Lemma candidates_left hf14 c s s' l :
  witnesses_wf s → whos s' = whos s → NoDup (wit_id <$> l) → Forall (known s) l → Forall (has_key hf14) l →
  (length (filter (λ w, has_key hf14 w ∧ unselected l w) (in_index c s')) + length l = length (candidates hf14 s))%nat.
Proof.
  intros Hwf E Hn Hk Hkey. rewrite <- (candidates_whos hf14 c s s' E).
  rewrite <- (length_filter_split (has_key hf14) (λ w, wit_id w ∈ wit_id <$> l) (in_index c s')). rewrite Nat.add_comm. f_equal.
  rewrite <- (length_fmap wit_id l), <- (length_fmap wit_id (filter _ _)). apply Permutation_length, NoDup_Permutation; [done| |].
  { eapply sublist_NoDup; [apply (in_index_ids c s'); by eapply witnesses_wf_whos|]. apply fmap_sublist, sublist_filter. }
  rewrite Forall_forall in Hk, Hkey. intros i. rewrite !list_elem_of_fmap. split.
  - intros (w & -> & Hw). destruct (Hk _ Hw) as (w0 & H0 & E0).
    destruct (whos_lookup s' s _ _ (eq_sym E) H0) as (w1 & H1 & E1). rewrite <- E0 in E1.
    destruct (who_inv _ _ E1) as (Eid & Eo & _). exists w1. split; [congruence|].
    apply list_elem_of_filter. split; [split|].
    + unfold has_key. rewrite <- (keyless_who _ _ _ E1). by apply Hkey.
    + rewrite <- Eid. by apply list_elem_of_fmap_2.
    + apply in_index_elem; [by eapply witnesses_wf_whos|]. rewrite <- Eo. done.
  - intros (w & -> & [[_ Hw] _]%list_elem_of_filter). apply list_elem_of_fmap in Hw. done.
Qed.

(** * Choosing *)

Section choosing.
Context {F : Fc}.

#[local] Hint Unfold get_witness_schedule_object has_hardfork head_block_time head_block_num : accessors.

(** ** What choosing does not change *)

(** The state apart from the witnesses' turns, the queue of the miners and the virtual time. *)
Definition round_frame (s : database) := (whos s, witness_schedule s <| wso_current_virtual_time := 0 |>,
  hardforks s, gpo s <| gpo_num_pow_witnesses := 0 |>).

Lemma round_frame_set_row k v v' s :
  rows (witnesses s) !! k = Some v → who v' = who v → round_frame (set_row witnesses k v' s) = round_frame s.
Proof.
  intros Hk Hw. unfold round_frame, whos. rewrite (view_set_row witnesses who k v v' s); [|intros ?; reflexivity|done..].
  by db_fields.
Qed.
Lemma same_round_row k f :
  (∀ v v', f v = Ok v' → who v' = who v) → preserves (same round_frame) (modify witnesses k f).
Proof. intros Hf. apply same_modify. intros v v' s Hk Hv. by eapply round_frame_set_row; [|apply Hf]. Qed.
#[local] Hint Extern 2 (preserves (same round_frame) (modify witnesses _ _)) =>
  (apply same_round_row; let H := fresh in intros ? ? H; returned H; reflexivity) : same.

Lemma same_set_schedule t l : preserves (same round_frame) (set_schedule t l).
Proof. apply preserves_for; [apply _|]. intros w. auto with same. Qed.
Lemma same_dequeue w : preserves (same round_frame) (dequeue w).
Proof.
  apply preserves_bind; [apply _|auto with same|]. intros _. apply same_modify1. intros v s H. returned H. by unfold round_frame, whos; fields.
Qed.
Lemma same_reset : preserves (same round_frame) reset_virtual_schedule_time.
Proof.
  apply preserves_bind; [apply _| |].
  - apply same_modify1. intros v s H. returned H. by unfold round_frame, whos; fields.
  - intros _. apply preserves_bind; [apply _|apply same_asks|]. intros l. apply preserves_for; [apply _|]. auto with same.
Qed.
Lemma same_start_laps t l : preserves (same round_frame) (start_laps t l).
Proof.
  induction l as [|w l IH]; cbn [start_laps]; [apply preserves_ret, _|]. apply preserves_if; intros _; [apply preserves_ret, _|].
  apply preserves_bind; [apply _|auto with same|done].
Qed.

(** ** Who is chosen *)

(** Different witnesses of [s] that have a key. *)
Record chosen (hf14 : bool) (s : database) (l : list witness_object) : Prop := {
  chosen_ids : NoDup (wit_id <$> l);
  chosen_known : Forall (known s) l;
  chosen_keys : Forall (has_key hf14) l;
}.

Lemma chosen_take hf14 s s' c l L n :
  witnesses_wf s → whos s' = whos s → sublist L (in_index c s') → chosen hf14 s l →
  chosen hf14 s (l ++ take n (filter (λ w, has_key hf14 w ∧ unselected l w) L)).
Proof.
  intros Hwf E Hsub [Hn Hk Hkey].
  assert (∀ w, w ∈ take n (filter (λ w, has_key hf14 w ∧ unselected l w) L) → w ∈ L ∧ has_key hf14 w ∧ unselected l w) as Hin.
  { intros w Hw. apply (sublist_subseteq _ _ (sublist_take _ n)), list_elem_of_filter in Hw. tauto. }
  split.
  - rewrite fmap_app. apply NoDup_app. split_and!; [done| |].
    + intros i Hi (w & -> & (_ & _ & Hu)%Hin)%list_elem_of_fmap. done.
    + eapply sublist_NoDup; [apply (in_index_ids c s'); by eapply witnesses_wf_whos|].
      apply fmap_sublist. etrans; [apply sublist_take|]. etrans; [apply sublist_filter|done].
  - apply Forall_app. split; [done|]. apply Forall_forall. intros w (Hw & _)%Hin. apply (known_whos s s' w E).
    apply (known_in_index c); [by eapply witnesses_wf_whos|]. by eapply sublist_subseteq.
  - apply Forall_app. split; [done|]. apply Forall_forall. intros w (_ & Hw & _)%Hin. done.
Qed.

Lemma chosen_nil hf14 s : chosen hf14 s [].
Proof. split; constructor. Qed.

Lemma unselected_nil hf14 (L : list witness_object) : filter (λ w, has_key hf14 w ∧ unselected [] w) L = filter (has_key hf14) L.
Proof. apply filter_ext_in. intros w _. unfold unselected. rewrite fmap_nil. set_solver. Qed.

(** A witness's part in the schedule. *)
Definition part_of (s : database) (n : account_name) : option witness_schedule_type := wit_schedule <$> rows (witnesses s) !! n.
Definition parts (s : database) := wit_schedule <$> rows (witnesses s).
Lemma part_of_parts s s' n : parts s' = parts s → part_of s' n = part_of s n.
Proof. unfold parts, part_of. intros E. by rewrite <- !lookup_fmap, E. Qed.

Lemma set_schedule_parts t l s u s' n :
  ⟨ set_schedule t l, s ⟩ ⇓ ⟨ u, s' ⟩ →
  part_of s' n = if bool_decide (n ∈ wit_owner <$> l) then Some t else part_of s n.
Proof.
  revert s. induction l as [|w l IH]; intros s Hr; cbn [set_schedule mfor] in Hr.
  { apply runs_ret in Hr as [_ <-]. by rewrite bool_decide_false by (rewrite fmap_nil; set_solver). }
  apply runs_bind in Hr as (? & s1 & H1 & Hr). apply runs_modify in H1 as (v & v' & Hv & [= <-] & ->).
  rewrite (IH _ Hr), fmap_cons. clear IH Hr. unfold part_of. db_fields.
  destruct (decide (n = wit_owner w)) as [->|Hne].
  - rewrite lookup_insert_eq. cbn. rewrite (bool_decide_true (_ ∈ _ :: _)) by (by left). by case_bool_decide.
  - rewrite lookup_insert_ne by done. do 2 case_bool_decide; set_solver.
Qed.

Lemma same_parts_dequeue w : preserves (same parts) (dequeue w).
Proof. unfold dequeue. samed. Qed.
Lemma same_parts_reset : preserves (same parts) reset_virtual_schedule_time.
Proof. unfold reset_virtual_schedule_time. samed. Qed.
Lemma same_parts_start_laps t l : preserves (same parts) (start_laps t l).
Proof. induction l as [|w l IH]; cbn [start_laps]; samed. Qed.

(** ** The result of choosing *)

(** The witnesses chosen in [s], and how [s'] records it. *)
Record choice (s s' : database) (voted miners runners : list witness_object) : Prop := {
  choice_frame : round_frame s' = round_frame s;
  choice_voted : voted = take (Z.to_nat (wso_max_voted_witnesses (witness_schedule s)))
                           (candidates (hardfork_active s HARDFORK_0_14) s);
  choice_miners : (length miners ≤ Z.to_nat (wso_max_miner_witnesses (witness_schedule s)))%nat;
  choice_chosen : chosen (hardfork_active s HARDFORK_0_14) s ((voted ++ miners) ++ runners);
  choice_runners : length runners =
    Nat.min (Z.to_nat (MAX_WITNESSES - Z.of_nat (length (voted ++ miners))))
      (length (candidates (hardfork_active s HARDFORK_0_14) s) - length (voted ++ miners));
  choice_parts : Forall (λ w, part_of s' (wit_owner w) = Some sched_top19) voted ∧
    Forall (λ w, part_of s' (wit_owner w) = Some sched_miner) miners ∧
    Forall (λ w, part_of s' (wit_owner w) = Some sched_timeshare) runners;
}.

Lemma frame_whos s s' : round_frame s' = round_frame s → whos s' = whos s.
Proof. unfold round_frame. intros E. by injection E. Qed.

Lemma mining_queue_sublist s : sublist (mining_queue s) (in_index by_pow s).
Proof. apply sublist_filter. Qed.

Lemma chosen_disjoint hf14 s l l' w :
  witnesses_wf s → chosen hf14 s (l ++ l') → w ∈ l → wit_owner w ∉ wit_owner <$> l'.
Proof.
  intros Hwf [Hn Hk _] Hw. pose proof (known_owners _ _ Hwf Hk Hn) as Ho. rewrite fmap_app in Ho.
  apply NoDup_app in Ho as (_ & Ho & _). apply Ho. by apply list_elem_of_fmap_2.
Qed.

Lemma choose_parts hf14 s s0 s1 s2 s3 s4 s5 voted miners runners u1 u2 u3 :
  witnesses_wf s → chosen hf14 s ((voted ++ miners) ++ runners) →
  ⟨ set_schedule sched_top19 voted, s0 ⟩ ⇓ ⟨ u1, s1 ⟩ → ⟨ set_schedule sched_miner miners, s1 ⟩ ⇓ ⟨ u2, s2 ⟩ →
  parts s3 = parts s2 → ⟨ set_schedule sched_timeshare runners, s3 ⟩ ⇓ ⟨ u3, s4 ⟩ → parts s5 = parts s4 →
  Forall (λ w, part_of s5 (wit_owner w) = Some sched_top19) voted ∧
  Forall (λ w, part_of s5 (wit_owner w) = Some sched_miner) miners ∧
  Forall (λ w, part_of s5 (wit_owner w) = Some sched_timeshare) runners.
Proof.
  intros Hwf Hc H1 H2 E3 H4 E5.
  assert (∀ n, part_of s5 n = if bool_decide (n ∈ wit_owner <$> runners) then Some sched_timeshare else
    if bool_decide (n ∈ wit_owner <$> miners) then Some sched_miner else
    if bool_decide (n ∈ wit_owner <$> voted) then Some sched_top19 else part_of s0 n) as Hp.
  { intros n. rewrite (part_of_parts _ _ _ E5), (set_schedule_parts _ _ _ _ _ _ H4), (part_of_parts _ _ _ E3).
    by rewrite (set_schedule_parts _ _ _ _ _ _ H2), (set_schedule_parts _ _ _ _ _ _ H1). }
  pose proof Hc as Hc'. rewrite <- (assoc_L (++)) in Hc'.
  split_and!; apply Forall_forall; intros w Hw; rewrite Hp.
  - pose proof (chosen_disjoint _ _ _ _ _ Hwf Hc' Hw) as Hd. rewrite fmap_app, elem_of_app in Hd.
    rewrite !bool_decide_false by tauto. by rewrite bool_decide_true by (by apply list_elem_of_fmap_2).
  - pose proof (chosen_disjoint _ _ (voted ++ miners) _ w Hwf Hc ltac:(set_solver)) as Hd.
    rewrite bool_decide_false by done. by rewrite bool_decide_true by (by apply list_elem_of_fmap_2).
  - by rewrite bool_decide_true by (by apply list_elem_of_fmap_2).
Qed.

Lemma choose_runs s voted miners runners t s' :
  witnesses_wf s → ⟨ choose_witnesses, s ⟩ ⇓ ⟨ (voted, miners, runners, t), s' ⟩ → choice s s' voted miners runners.
Proof.
  intros Hwf Hr. unfold choose_witnesses in Hr. autounfold with accessors in Hr.
  do 3 (apply runs_bind in Hr as (? & ? & [-> ->]%runs_asks & Hr)). cbv zeta in Hr. rewrite elect_take in Hr.
  set (hf14 := hardfork_active s HARDFORK_0_14) in *. fold (candidates hf14 s) in Hr.
  set (v := take _ (candidates hf14 s)) in Hr. apply runs_bind in Hr as (u1 & s1 & H1 & Hr).
  assert (round_frame s1 = round_frame s) as E1 by (by eapply same_set_schedule).
  apply runs_bind in Hr as (? & ? & [-> ->]%runs_asks & Hr).
  destruct (mine_take hf14 (wso_max_miner_witnesses (witness_schedule s)) v (mining_queue s1)) as [Em _].
  destruct (mine _ _ _ _) as [m mined]. cbn [fst] in Em. apply runs_bind in Hr as (u2 & s2 & H2 & Hr).
  assert (round_frame s2 = round_frame s) as E2 by (rewrite <- E1; by eapply same_set_schedule).
  apply runs_bind in Hr as (u3 & s3 & H3 & Hr).
  assert (round_frame s3 = round_frame s) as E3.
  { rewrite <- E2. revert H3. by apply (preserves_for (same round_frame)), same_dequeue. }
  assert (parts s3 = parts s2) as P3.
  { revert H3. by apply (preserves_for (same parts)), same_parts_dequeue. }
  apply runs_bind in Hr as (? & ? & [-> ->]%runs_asks & Hr).
  destruct (run_ahead_take hf14 (v ++ m) (in_index by_schedule_time s3)) as [Er _].
  destruct (run_ahead _ _ _) as [r processed]. cbn [fst] in Er.
  apply runs_bind in Hr as (u4 & s4 & H4 & Hr). cbv zeta in Hr.
  assert (round_frame s4 = round_frame s) as E4 by (rewrite <- E3; by eapply same_set_schedule).
  apply runs_bind in Hr as (b & s5 & H5 & Hr). apply runs_bind in Hr as (u6 & s6 & H6 & Hr).
  apply runs_ret in Hr as [Eq <-]. injection Eq as <- <- <- _.
  assert (round_frame s6 = round_frame s ∧ parts s6 = parts s4) as [E6 P6].
  { rewrite <- E4. rewrite <- (same_start_laps _ _ _ _ _ H5), <- (same_parts_start_laps _ _ _ _ _ H5).
    apply runs_when in H6. destruct b; [|by subst s6]. by rewrite (same_reset _ _ _ H6), (same_parts_reset _ _ _ H6). }
  assert (chosen hf14 s v) as Cv.
  { unfold v, candidates. rewrite <- unselected_nil. apply (chosen_take hf14 s s by_vote_name []); [done..|apply chosen_nil]. }
  assert (chosen hf14 s (v ++ m)) as Cm.
  { rewrite Em. apply (chosen_take hf14 s s1 by_pow); [done|by apply frame_whos|apply mining_queue_sublist|done]. }
  assert (chosen hf14 s ((v ++ m) ++ r)) as Cr.
  { rewrite Er. apply (chosen_take hf14 s s3 by_schedule_time); [done|by apply frame_whos|reflexivity|done]. }
  split; [done|done| |done| |by eapply choose_parts].
  - rewrite Em, length_take. lia.
  - rewrite Er at 1. rewrite length_take. f_equal.
    pose proof (candidates_left hf14 by_schedule_time s s3 (v ++ m) Hwf (frame_whos _ _ E3)) as Hl.
    destruct Cm. specialize (Hl ltac:(done) ltac:(done) ltac:(done)). fold hf14. rewrite <- Hl. by rewrite Nat.add_sub.
Qed.

(** ** Installing *)

Lemma scheduled_objects_intro l ws s :
  Forall2 (λ n w, rows (witnesses s) !! n = Some w) l ws → ⟨ scheduled_objects l, s ⟩ ⇓ ⟨ ws, s ⟩.
Proof.
  induction 1 as [|n w l ws Hn _ IH]; cbn [scheduled_objects]; [by apply runs_ret|].
  eapply runs_bind_intro; [by apply runs_getr|]. eapply runs_bind_intro; [exact IH|]. by apply runs_ret.
Qed.

(** The scheduled part of [current_shuffled_witnesses]. *)
Definition round_of (s : database) : list account_name :=
  take (Z.to_nat (wso_num_scheduled_witnesses (witness_schedule s))) (wso_current_shuffled_witnesses (witness_schedule s)).

Lemma medians_run s u s' :
  ⟨ update_median_witness_props, s ⟩ ⇓ ⟨ u, s' ⟩ ↔
  ∃ ws fee size rate, Forall2 (λ n w, rows (witnesses s) !! n = Some w) (round_of s) ws ∧
    median_fee ws = Ok fee ∧ median_of props_maximum_block_size ws = Ok size ∧
    median_of props_TSD_interest_rate ws = Ok rate ∧
    s' = s <| witness_schedule ::= λ o, o <| wso_median_props := {| props_account_creation_fee := fee;
             props_maximum_block_size := size; props_TSD_interest_rate := rate |} |> |>
           <| gpo ::= λ g, g <| gpo_maximum_block_size := size |> <| gpo_TSD_interest_rate := rate |> |>.
Proof.
  unfold update_median_witness_props. autounfold with accessors. split.
  - intros Hr. apply runs_bind in Hr as (? & ? & [-> ->]%runs_asks & Hr).
    apply runs_bind in Hr as (ws & ? & [-> Hws]%scheduled_objects_run & Hr).
    apply runs_bind in Hr as (fee & ? & [H1 ->]%runs_lift & Hr). apply runs_bind in Hr as (size & ? & [H2 ->]%runs_lift & Hr).
    apply runs_bind in Hr as (rate & ? & [H3 ->]%runs_lift & Hr).
    apply runs_bind in Hr as (? & ? & (? & [= <-] & ->)%runs_modify1 & Hr). apply runs_modify1 in Hr as (? & [= <-] & ->).
    exists ws, fee, size, rate. done.
  - intros (ws & fee & size & rate & Hws & H1 & H2 & H3 & ->). eapply runs_bind_intro; [by apply runs_asks|].
    eapply runs_bind_intro; [by apply scheduled_objects_intro|]. do 3 (eapply runs_bind_intro; [by apply runs_lift|]).
    destruct u. eapply runs_bind_intro; [apply (runs_modify1 _ _ _ tt); eauto|]. apply runs_modify1. eauto.
Qed.

(** The hard fork the majority agrees on, recorded. *)
Definition next_hardfork_set (votes : list ((Z * Z) * Z)) (required : Z) (hpo : hardfork_property_object) : hardfork_property_object :=
  match agreed required votes with
  | Some (v, t) =>
      if negb (hpo_next_hardfork hpo =? v) || negb (hpo_next_hardfork_time hpo =? t)
      then hpo <| hpo_next_hardfork := hardfork_version_of v |> <| hpo_next_hardfork_time := t |> else hpo
  | None => hpo <| hpo_next_hardfork := hardfork_version_of (hpo_current_hardfork_version hpo) |>
  end.

Definition version_tally (ws : list witness_object) : list (Z * Z) := tally Z.ge (wit_running_version <$> ws).
Definition vote_tally (ws : list witness_object) : list ((Z * Z) * Z) :=
  tally vote_le ((λ w, (wit_hardfork_version_vote w, wit_hardfork_time_vote w)) <$> ws).

Lemma count_versions_run s v s' :
  ⟨ count_versions, s ⟩ ⇓ ⟨ v, s' ⟩ ↔
  ∃ ws, Forall2 (λ n w, rows (witnesses s) !! n = Some w) (round_of s) ws ∧
    let required := wso_hardfork_required_witnesses (witness_schedule s) in
    v = default (wso_majority_version (witness_schedule s)) (majority required 0 (version_tally ws)) ∧
    s' = s <| hardforks := next_hardfork_set (vote_tally ws) required (hardforks s) |>.
Proof.
  assert (∀ t, s = s <| hardforks := t |> ↔ t = hardforks s) as Hid.
  { intros t. split; [intros E; apply (f_equal hardforks) in E; done|intros ->; by destruct s]. }
  unfold count_versions, next_hardfork_set. autounfold with accessors. split.
  - intros Hr. apply runs_bind in Hr as (? & ? & [-> ->]%runs_asks & Hr).
    apply runs_bind in Hr as (ws & ? & [-> Hws]%scheduled_objects_run & Hr). cbv zeta in Hr. fold (version_tally ws) (vote_tally ws) in Hr.
    exists ws. split; [done|]. cbv zeta. apply runs_bind in Hr as ([] & s1 & H1 & Hr). apply runs_ret in Hr as [<- <-].
    split; [done|]. destruct (agreed _ (vote_tally ws)) as [[v t]|].
    + apply runs_bind in H1 as (? & ? & [-> ->]%runs_asks & H1). apply runs_when in H1. destruct (_ || _).
      * by apply runs_modify1 in H1 as (? & [= <-] & ->).
      * subst s1. by apply Hid.
    + by apply runs_modify1 in H1 as (? & [= <-] & ->).
  - intros (ws & Hws & Hv & Hs). cbv zeta in *. eapply runs_bind_intro; [by apply runs_asks|].
    eapply runs_bind_intro; [by apply scheduled_objects_intro|]. fold (version_tally ws) (vote_tally ws).
    apply (runs_bind_intro _ _ _ tt s'); [|by apply runs_ret]. destruct (agreed _ (vote_tally ws)) as [[v1 t1]|].
    + eapply runs_bind_intro; [by apply runs_asks|]. apply runs_when. destruct (_ || _).
      * apply runs_modify1. eauto.
      * rewrite Hs. by apply Hid.
    + apply runs_modify1. eauto.
Qed.

(** ** The whole update *)

(** The state as the schedule is installed. *)
Definition installed (voted miners runners : list witness_object) (t v : Z) (s : database) : database :=
  let active := wit_owner <$> voted ++ miners ++ runners in
  let n := schedule_size active in
  s <| witness_schedule ::= λ o, o
         <| wso_current_shuffled_witnesses := shuffle (gpo_time (gpo s)) n (pad active) |>
         <| wso_num_scheduled_witnesses := n |>
         <| wso_witness_pay_normalization_factor :=
              normalization_factor o (Z.of_nat (length voted)) (Z.of_nat (length miners)) (Z.of_nat (length runners)) |>
         <| wso_current_virtual_time := t |>
         <| wso_next_shuffle_block_num := wrap_u32 (gpo_head_block_number (gpo s) + n) |>
         <| wso_majority_version := v |> |>.

Lemma install_run voted miners runners t v s u s' :
  ⟨ install_schedule voted miners runners t v, s ⟩ ⇓ ⟨ u, s' ⟩ ↔ s' = installed voted miners runners t v s.
Proof.
  unfold install_schedule. autounfold with accessors. split.
  - intros Hr. do 2 (apply runs_bind in Hr as (? & ? & [-> ->]%runs_asks & Hr)). by apply runs_modify1 in Hr as (? & [= <-] & ->).
  - intros ->. do 2 (eapply runs_bind_intro; [by apply runs_asks|]). apply runs_modify1. eauto.
Qed.

(** The round of an installed schedule. *)
Lemma round_installed voted miners runners t v s :
  let active := wit_owner <$> voted ++ miners ++ runners in
  (0 < length active)%nat → Z.of_nat (length active) ≤ MAX_WITNESSES →
  schedule_size active = Z.of_nat (length active) ∧
  round_of (installed voted miners runners t v s) ≡ₚ active ∧
  Z.of_nat (length (wso_current_shuffled_witnesses (witness_schedule (installed voted miners runners t v s)))) = MAX_WITNESSES.
Proof.
  intros active H0 Hmax. assert (schedule_size active = Z.of_nat (length active)) as Hn.
  { unfold schedule_size, wrap_u8, MAX_WITNESSES, numberOfGenesisWitnessAccounts in *. rewrite Z.mod_small by lia. lia. }
  unfold round_of, installed. cbv zeta. fields. fold active. rewrite Hn, Nat2Z.id.
  destruct (shuffle_perm (gpo_time (gpo s)) (Z.of_nat (length active)) (pad active)) as [H1 H2]. rewrite Nat2Z.id in H1.
  split_and!; [done| |].
  - rewrite H1. unfold pad. by rewrite take_app_length.
  - rewrite H2. unfold pad. rewrite length_app, length_replicate. lia.
Qed.

Lemma update_run s u s' :
  witnesses_wf s → ⟨ update_witness_schedule4, s ⟩ ⇓ ⟨ u, s' ⟩ →
  ∃ s1 voted miners runners t v h, choice s s1 voted miners runners ∧
    Z.of_nat (length (voted ++ miners ++ runners)) = Z.min MAX_WITNESSES (Z.of_nat (base.size (rows (witnesses s)))) ∧
    ⟨ update_median_witness_props, installed voted miners runners t v (s1 <| hardforks := h |>) ⟩ ⇓ ⟨ u, s' ⟩.
Proof.
  intros Hwf Hr. unfold update_witness_schedule4 in Hr. autounfold with accessors in Hr.
  apply runs_bind in Hr as ([[[voted miners] runners] t] & s1 & Hc & Hr). apply choose_runs in Hc; [|done].
  apply runs_bind in Hr as (? & ? & [-> ->]%runs_asks & Hr). apply runs_bind in Hr as (? & ? & [Hn%Z.eqb_eq ->]%runs_assert & Hr).
  do 2 (apply runs_bind in Hr as (? & ? & [-> ->]%runs_asks & Hr)). apply runs_bind in Hr as (v & s2 & Hv & Hr).
  apply runs_bind in Hr as (? & s3 & Hi%install_run & Hr). exists s1, voted, miners, runners, t, v, (hardforks s2).
  split; [done|]. split.
  - rewrite Hn. do 2 f_equal. apply whos_size, frame_whos. by eapply choice_frame.
  - assert (s2 = s1 <| hardforks := hardforks s2 |>) as <-; [|by subst s3].
    destruct (hardfork_active s1 HARDFORK_0_5).
    + apply count_versions_run in Hv as (ws & _ & _ & ->). done.
    + apply runs_ret in Hv as [_ <-]. by destruct s1.
Qed.

Lemma some_witness s l ws :
  Forall2 (λ n w, rows (witnesses s) !! n = Some w) l ws → ws ≠ [] → base.size (rows (witnesses s)) ≠ 0%nat.
Proof.
  intros [|n w l' ws' Hw _] Hne; [done|]. intros Hz%map_size_empty_inv. by rewrite Hz, lookup_empty in Hw.
Qed.

(** The weight of a scheduled witness's pay. *)
Definition weight_of (s : database) (n : account_name) : Z :=
  default 0 (part_of s n ≫= pay_weight (witness_schedule s)).

Lemma weights_sum s l p w :
  Forall (λ x, part_of s (wit_owner x) = Some p) l → pay_weight (witness_schedule s) p = Some w →
  zsum (weight_of s) (wit_owner <$> l) = w * Z.of_nat (length l).
Proof.
  intros Hl Hw. induction Hl as [|x l Hx _ IH]; cbn [fmap list_fmap zsum length]; [lia|]. rewrite IH.
  unfold weight_of. rewrite Hx. cbn. rewrite Hw. cbn. lia.
Qed.

(** C26. [update_witness_schedule4]: the next round has as many witnesses as it can, at
    most [MAX_WITNESSES], all different and each with a key to sign with; the
    highest voted are among them, and the normalization factor is the sum of the
    weights the witnesses of the round are paid by. *)
Theorem schedule_of_a_round s u s' :
  witnesses_wf s → ⟨ update_witness_schedule4, s ⟩ ⇓ ⟨ u, s' ⟩ →
  let hf14 := hardfork_active s HARDFORK_0_14 in
  scheduled s' (round_of s') ∧ NoDup (round_of s') ∧
  Z.of_nat (length (round_of s')) = Z.min MAX_WITNESSES (Z.of_nat (base.size (rows (witnesses s)))) ∧
  Forall (λ n, ∃ w, rows (witnesses s) !! n = Some w ∧ has_key hf14 w) (round_of s') ∧
  Forall (λ w, wit_owner w ∈ round_of s' ∧ part_of s' (wit_owner w) = Some sched_top19)
    (take (Z.to_nat (wso_max_voted_witnesses (witness_schedule s))) (candidates hf14 s)) ∧
  wso_witness_pay_normalization_factor (witness_schedule s') = wrap_u32 (zsum (weight_of s') (round_of s')).
Proof.
  intros Hwf Hr hf14. apply update_run in Hr as (s1 & voted & miners & runners & t & v & h & [Hf -> _ Hc _ Hp] & Hn & Hr); [|done].
  fold hf14 in Hc, Hp, Hn, Hr. set (voted := take _ (candidates hf14 s)) in *. rewrite <- (assoc_L (++)) in Hc.
  set (active := voted ++ miners ++ runners) in *. apply medians_run in Hr as (ws & fee & size & rate & Hws & _ & Hmed & _ & Hs).
  set (s2 := installed _ _ _ _ _ _) in *.
  assert (0 < length active)%nat as H0.
  { assert (base.size (rows (witnesses s)) ≠ 0%nat) as Hz; [|unfold MAX_WITNESSES, numberOfGenesisWitnessAccounts in Hn; lia].
    rewrite <- (whos_size _ _ (frame_whos _ _ Hf)). by eapply (some_witness s2); [exact Hws|intros ->]. }
  assert (Z.of_nat (length (wit_owner <$> active)) ≤ MAX_WITNESSES) as Hmax by (rewrite length_fmap; lia).
  destruct (round_installed voted miners runners t v (s1 <| hardforks := h |>)) as (Hsz & Hperm & Hlen); [by rewrite length_fmap|done|].
  fold active s2 in Hsz, Hperm, Hlen. assert (round_of s' = round_of s2) as Er by (by rewrite Hs). rewrite Er.
  assert (Z.of_nat (length (round_of s2)) = Z.of_nat (length active)) as Hl by (by rewrite Hperm, length_fmap).
  destruct Hc as [Hids Hknown Hkeys]. split_and!.
  - unfold scheduled. rewrite <- Er at 1 2. split_and!; [done| |].
    + rewrite Er, Hl, Hs. fields. unfold s2, installed. cbv zeta. fields. fold active. by rewrite Hsz, length_fmap.
    + intros E. rewrite E in Hl. cbn in Hl. lia.
  - rewrite Hperm. by eapply known_owners.
  - by rewrite Hl.
  - rewrite Hperm. apply Forall_fmap. rewrite Forall_forall in Hknown, Hkeys. apply Forall_forall. intros w Hw. cbn.
    destruct (Hknown _ Hw) as (w0 & Hw0 & E0). exists w0. split; [done|]. unfold has_key. rewrite <- (keyless_who _ _ _ E0). by apply Hkeys.
  - apply Forall_forall. intros w Hw. split.
    + rewrite Hperm. apply list_elem_of_fmap_2. unfold active. set_solver.
    + destruct Hp as [Hp _]. rewrite Forall_forall in Hp. rewrite Hs. by apply Hp.
  - rewrite (zsum_perm _ _ _ Hperm). unfold active. rewrite !fmap_app, !zsum_app.
    assert (∀ n, part_of s' n = part_of s1 n) as Hpn by (intros n; by rewrite Hs).
    destruct Hp as (P1 & P2 & P3). setoid_rewrite <- Hpn in P1. setoid_rewrite <- Hpn in P2. setoid_rewrite <- Hpn in P3.
    rewrite (weights_sum s' _ _ (wso_top19_weight (witness_schedule s')) P1) by done.
    rewrite (weights_sum s' _ _ (wso_miner_weight (witness_schedule s')) P2) by done.
    rewrite (weights_sum s' _ _ (wso_timeshare_weight (witness_schedule s')) P3) by done.
    rewrite Hs. unfold s2, installed. cbv zeta. fields. unfold normalization_factor. f_equal. lia.
Qed.

(** ** Choosing always ends *)

Definition ends_in {A} (m : DB A) (s0 s : database) : Prop := ∃ a s', ⟨ m, s ⟩ ⇓ ⟨ a, s' ⟩ ∧ whos s' = whos s0.

Lemma ends_bind {A B} (m : DB A) (f : A → DB B) s0 s :
  ends_in m s0 s → (∀ a s', ⟨ m, s ⟩ ⇓ ⟨ a, s' ⟩ → whos s' = whos s0 → ends_in (f a) s0 s') → ends_in (m ≫= f) s0 s.
Proof.
  intros (a & s1 & H1 & E1) Hf. destruct (Hf _ _ H1 E1) as (b & s2 & H2 & E2). exists b, s2. split; [|done].
  by eapply runs_bind_intro.
Qed.
Lemma ends_ret {A} (a : A) s0 s : whos s = whos s0 → ends_in (mret a) s0 s.
Proof. intros E. exists a, s. by rewrite runs_ret. Qed.
Lemma ends_asks {A} (f : database → A) s0 s : whos s = whos s0 → ends_in (asks f) s0 s.
Proof. intros E. exists (f s), s. by rewrite runs_asks. Qed.

Lemma ends_modify s0 s w f :
  known s0 w → whos s = whos s0 → (∀ v, who (f v) = who v) → ends_in (modify witnesses (wit_owner w) (λ v, Ok (f v))) s0 s.
Proof.
  intros (w0 & H0 & _) E Hf. destruct (whos_lookup s s0 _ _ (eq_sym E) H0) as (v & Hv & _).
  exists tt, (set_row witnesses (wit_owner w) (f v) s). rewrite runs_modify. split; [by eauto|].
  rewrite <- E. apply frame_whos. eapply round_frame_set_row; [done|apply Hf].
Qed.

Lemma ends_for {A} (f : A → DB unit) l s0 s :
  (∀ x s, x ∈ l → whos s = whos s0 → ends_in (f x) s0 s) → whos s = whos s0 → ends_in (mfor f l) s0 s.
Proof.
  revert s. induction l as [|x l IH]; intros s Hf E; cbn [mfor]; [by apply ends_ret|].
  apply ends_bind; [apply Hf; [by left|done]|]. intros _ s1 _ E1. apply IH; [|done]. intros y sy Hy. apply Hf. by right.
Qed.

Lemma ends_set_schedule t l s0 s : Forall (known s0) l → whos s = whos s0 → ends_in (set_schedule t l) s0 s.
Proof. rewrite Forall_forall. intros Hl E. apply ends_for; [|done]. intros w sw Hw Ew. apply ends_modify; auto. Qed.
Lemma ends_dequeue w s0 s : known s0 w → whos s = whos s0 → ends_in (dequeue w) s0 s.
Proof.
  intros Hw E. apply ends_bind; [by apply ends_modify|]. intros _ s1 _ E1.
  eexists tt, _. rewrite runs_modify1. split; [by eauto|]. by rewrite <- E1.
Qed.
Lemma ends_start_laps t l s0 s : Forall (known s0) l → whos s = whos s0 → ends_in (start_laps t l) s0 s.
Proof.
  intros Hl. revert s. induction Hl as [|w l Hw _ IH]; intros s E; cbn [start_laps]; [by apply ends_ret|].
  cbv zeta. destruct (_ <? _); [by apply ends_ret|]. apply ends_bind; [by apply ends_modify|]. auto.
Qed.
Lemma ends_reset s0 s : witnesses_wf s0 → whos s = whos s0 → ends_in reset_virtual_schedule_time s0 s.
Proof.
  intros Hwf E. apply ends_bind; [eexists tt, _; rewrite runs_modify1; split; [by eauto|done]|]. intros _ s1 _ E1.
  apply ends_bind; [by apply ends_asks|]. intros l s2 [-> ->]%runs_asks _. apply ends_for; [|done].
  intros w sw Hw Ew. apply ends_modify; [|done..]. apply (known_whos s0 s1 w E1).
  eapply known_in_index; [by eapply witnesses_wf_whos|done].
Qed.

Lemma known_sublist s0 s l c : witnesses_wf s0 → whos s = whos s0 → sublist l (in_index c s) → Forall (known s0) l.
Proof.
  intros Hwf E Hl. apply Forall_forall. intros w Hw. apply (known_whos s0 s w E).
  apply (known_in_index c); [by eapply witnesses_wf_whos|]. by eapply sublist_subseteq.
Qed.

Lemma choose_ends s : witnesses_wf s → ends_in choose_witnesses s s.
Proof.
  intros Hwf. unfold choose_witnesses. autounfold with accessors.
  do 3 (apply ends_bind; [by apply ends_asks|]; intros ? ? [-> ->]%runs_asks _). cbv zeta. rewrite elect_take.
  apply ends_bind; [apply ends_set_schedule; [|done]|].
  { eapply (known_sublist s s _ by_vote_name); [done..|]. etrans; [apply sublist_take|apply sublist_filter]. }
  intros _ s1 _ E1. apply ends_bind; [by apply ends_asks|]. intros ? ? [-> ->]%runs_asks _.
  match goal with |- context [mine ?a ?b ?c ?d] =>
    destruct (mine_take a b c d) as [Em [k Ek]]; destruct (mine a b c d) as [m mined]; cbn [fst snd] in Em, Ek end.
  apply ends_bind; [apply ends_set_schedule; [|done]|].
  { rewrite Em. eapply (known_sublist s s1 _ by_pow); [done..|]. etrans; [apply sublist_take|]. etrans; [apply sublist_filter|].
    apply mining_queue_sublist. }
  intros _ s2 _ E2. apply ends_bind.
  { apply ends_for; [|done]. intros w sw Hw Ew. apply ends_dequeue; [|done]. subst mined. revert w Hw. apply Forall_forall.
    eapply (known_sublist s s1 _ by_pow); [done..|]. etrans; [apply sublist_take|apply mining_queue_sublist]. }
  intros _ s3 _ E3. apply ends_bind; [by apply ends_asks|]. intros ? ? [-> ->]%runs_asks _.
  match goal with |- context [run_ahead ?a ?b ?c] =>
    destruct (run_ahead_take a b c) as [Er [j Ej]]; destruct (run_ahead a b c) as [r processed]; cbn [fst snd] in Er, Ej end.
  apply ends_bind; [apply ends_set_schedule; [|done]|].
  { rewrite Er. eapply (known_sublist s s3 _ by_schedule_time); [done..|]. etrans; [apply sublist_take|apply sublist_filter]. }
  intros _ s4 _ E4. cbv zeta. apply ends_bind; [apply ends_start_laps; [|done]|].
  { rewrite Ej. eapply (known_sublist s s3 _ by_schedule_time); [done..|]. apply sublist_take. }
  intros b s5 _ E5. apply ends_bind; [|intros _ s6 _ E6; by apply ends_ret].
  destruct b; [by apply ends_reset|by apply ends_ret].
Qed.

(** ** When the update succeeds *)

Lemma middle_some {A} (le : A → A → Prop) `{!RelDecision le} (l : list A) : l ≠ [] → is_Some (middle le l).
Proof.
  intros Hl. unfold middle. apply lookup_lt_is_Some. rewrite (merge_sort_Permutation le l).
  assert (length l ≠ 0%nat) by (by destruct l). apply Nat.div_lt; lia.
Qed.

Lemma all_objects s l : Forall (λ n, is_Some (rows (witnesses s) !! n)) l →
  ∃ ws, Forall2 (λ n w, rows (witnesses s) !! n = Some w) l ws.
Proof. induction 1 as [|n l [w Hw] _ [ws IH]]; [by exists []|]. exists (w :: ws). by constructor. Qed.

Lemma medians_total s : round_of s ≠ [] → Forall (λ n, is_Some (rows (witnesses s) !! n)) (round_of s) →
  ∃ s', ⟨ update_median_witness_props, s ⟩ ⇓ ⟨ tt, s' ⟩.
Proof.
  intros Hne Hall. destruct (all_objects _ _ Hall) as [ws Hws]. assert (ws ≠ []) as Hw by (intros ->; by inversion Hws).
  destruct (middle_some fee_le ((λ w, props_account_creation_fee (wit_props w)) <$> ws)) as [fee H1]; [by destruct ws|].
  destruct (middle_some Z.le ((λ w, props_maximum_block_size (wit_props w)) <$> ws)) as [size H2]; [by destruct ws|].
  destruct (middle_some Z.le ((λ w, props_TSD_interest_rate (wit_props w)) <$> ws)) as [rate H3]; [by destruct ws|].
  eexists. apply medians_run. exists ws, fee, size, rate. split; [done|]. unfold median_fee, median_of. by rewrite H1, H2, H3.
Qed.

(** As many as there is room for are chosen. *)
Lemma choice_length s s' voted miners runners :
  witnesses_wf s → choice s s' voted miners runners →
  0 ≤ wso_max_voted_witnesses (witness_schedule s) → 0 ≤ wso_max_miner_witnesses (witness_schedule s) →
  wso_max_voted_witnesses (witness_schedule s) + wso_max_miner_witnesses (witness_schedule s) ≤ MAX_WITNESSES →
  length (voted ++ miners ++ runners) =
    Nat.min (Z.to_nat MAX_WITNESSES) (length (candidates (hardfork_active s HARDFORK_0_14) s)).
Proof.
  intros Hwf [_ Hv Hm [Hids Hk Hkey] Hr _] Hv0 Hm0 Hmax. rewrite (assoc_L (++)), length_app, Hr.
  assert (length voted ≤ Z.to_nat (wso_max_voted_witnesses (witness_schedule s)))%nat by (rewrite Hv, length_take; lia).
  assert (length (voted ++ miners) ≤ length (candidates (hardfork_active s HARDFORK_0_14) s))%nat as Hle.
  { rewrite fmap_app in Hids. apply NoDup_app in Hids as (Hids & _). apply Forall_app in Hk as [Hk _]. apply Forall_app in Hkey as [Hkey _].
    rewrite <- (candidates_left _ by_schedule_time s s _ Hwf eq_refl Hids Hk Hkey). lia. }
  rewrite length_app in *. unfold MAX_WITNESSES, numberOfGenesisWitnessAccounts in *. lia.
Qed.

Lemma candidates_le hf14 s : (length (candidates hf14 s) ≤ base.size (rows (witnesses s)))%nat.
Proof. unfold candidates. rewrite <- (in_index_length by_vote_name s). apply sublist_length, sublist_filter. Qed.

Lemma frame_round s s' : round_frame s' = round_frame s → round_of s' = round_of s.
Proof.
  intros E. pose proof (f_equal (λ x, wso_num_scheduled_witnesses x.1.1.2) E) as E1.
  pose proof (f_equal (λ x, wso_current_shuffled_witnesses x.1.1.2) E) as E2. unfold round_frame in E1, E2. cbn [fst snd] in E1, E2.
  unfold round_of. db_fields. by rewrite E1, E2.
Qed.
Lemma whos_some s s' n : whos s' = whos s → is_Some (rows (witnesses s) !! n) → is_Some (rows (witnesses s') !! n).
Proof. intros E [w Hw]. destruct (whos_lookup s' s n w (eq_sym E) Hw) as (w' & Hw' & _). by exists w'. Qed.

(** With enough keys the update succeeds. *)
Lemma schedule_update_total s :
  witnesses_wf s → (0 < base.size (rows (witnesses s)))%nat →
  Forall (λ n, is_Some (rows (witnesses s) !! n)) (round_of s) →
  0 ≤ wso_max_voted_witnesses (witness_schedule s) → 0 ≤ wso_max_miner_witnesses (witness_schedule s) →
  wso_max_voted_witnesses (witness_schedule s) + wso_max_miner_witnesses (witness_schedule s) ≤ MAX_WITNESSES →
  (Nat.min (Z.to_nat MAX_WITNESSES) (base.size (rows (witnesses s))) ≤ length (candidates (hardfork_active s HARDFORK_0_14) s))%nat →
  ∃ s', ⟨ update_witness_schedule4, s ⟩ ⇓ ⟨ tt, s' ⟩.
Proof.
  intros Hwf Hpos Hold Hv0 Hm0 Hmax Hen. pose proof (candidates_le (hardfork_active s HARDFORK_0_14) s) as Hle.
  destruct (choose_ends s Hwf) as ([[[voted miners] runners] t] & s1 & Hr & Ew).
  pose proof (choose_runs _ _ _ _ _ _ Hwf Hr) as Hc. pose proof (choice_length _ _ _ _ _ Hwf Hc Hv0 Hm0 Hmax) as Hlen.
  destruct Hc as [Hf _ _ [Hids Hk _] _ _]. rewrite <- (assoc_L (++)) in Hids, Hk.
  assert (∃ v h, ⟨ if hardfork_active s1 HARDFORK_0_5 then count_versions else mret (wso_majority_version (witness_schedule s1)), s1 ⟩
    ⇓ ⟨ v, s1 <| hardforks := h |> ⟩) as (v & h & Hv).
  { destruct (hardfork_active s1 HARDFORK_0_5).
    - destruct (all_objects s1 (round_of s1)) as [ws Hws].
      { rewrite (frame_round _ _ Hf). eapply Forall_impl; [exact Hold|]. intros n. by apply whos_some. }
      do 2 eexists. apply count_versions_run. eauto.
    - eexists _, (hardforks s1). apply runs_ret. split; [done|]. by destruct s1. }
  destruct (round_installed voted miners runners t v (s1 <| hardforks := h |>)) as (_ & Hp & _).
  { rewrite length_fmap, Hlen. unfold MAX_WITNESSES, numberOfGenesisWitnessAccounts in *. lia. }
  { rewrite length_fmap, Hlen. lia. }
  destruct (medians_total (installed voted miners runners t v (s1 <| hardforks := h |>))) as [s' Hs'].
  { intros E. rewrite E in Hp. apply Permutation_nil_l in Hp. apply (f_equal length) in Hp. rewrite length_fmap, Hlen in Hp.
    cbn in Hp. unfold MAX_WITNESSES, numberOfGenesisWitnessAccounts in *. lia. }
  { rewrite Hp. apply Forall_fmap. eapply Forall_impl; [exact Hk|]. intros w (w0 & Hw0 & _). cbn. apply (whos_some s); [done|by exists w0]. }
  exists s'. unfold update_witness_schedule4. autounfold with accessors. eapply runs_bind_intro; [exact Hr|].
  eapply runs_bind_intro; [by apply runs_asks|]. eapply runs_bind_intro.
  { apply (runs_assert _ _ _ tt). split; [|done]. apply Z.eqb_eq. rewrite Hlen, (whos_size _ _ Ew). lia. }
  do 2 (eapply runs_bind_intro; [by apply runs_asks|]). eapply runs_bind_intro; [exact Hv|].
  eapply runs_bind_intro; [by apply (install_run _ _ _ _ _ _ tt)|done].
Qed.

(** C27. [update_witness_schedule4] succeeds exactly when there are enough witnesses
    with a key to sign with to fill the round: [MAX_WITNESSES] of them, or every
    witness of the chain when they are fewer.  Otherwise no block can be applied
    at that height, whatever the order the witnesses are voted in. *)
Theorem schedule_update_iff s :
  witnesses_wf s → (0 < base.size (rows (witnesses s)))%nat →
  Forall (λ n, is_Some (rows (witnesses s) !! n)) (round_of s) →
  0 ≤ wso_max_voted_witnesses (witness_schedule s) → 0 ≤ wso_max_miner_witnesses (witness_schedule s) →
  wso_max_voted_witnesses (witness_schedule s) + wso_max_miner_witnesses (witness_schedule s) ≤ MAX_WITNESSES →
  (∃ u s', ⟨ update_witness_schedule4, s ⟩ ⇓ ⟨ u, s' ⟩) ↔
  (Nat.min (Z.to_nat MAX_WITNESSES) (base.size (rows (witnesses s))) ≤ length (candidates (hardfork_active s HARDFORK_0_14) s))%nat.
Proof.
  intros Hwf Hpos Hold Hv0 Hm0 Hmax. pose proof (candidates_le (hardfork_active s HARDFORK_0_14) s) as Hle. split.
  - intros (u & s' & Hr). apply update_run in Hr as (s1 & voted & miners & runners & t & v & h & Hc & Hn & _); [|done].
    rewrite (choice_length s s1) in Hn by done. lia.
  - intros Hen. destruct (schedule_update_total s) as [s' Hs']; [done..|]. by exists tt, s'.
Qed.

End choosing.

(** * Examples *)

Module ScheduleExamples.

Definition producer (id : Z) (name : account_name) (votes : Z) (key : public_key) : witness_object :=
  {| wit_id := id; wit_owner := name; wit_created := 0; wit_url := EmptyString; wit_total_missed := 0;
     wit_last_aslot := 0; wit_last_confirmed_block_num := 0; wit_pow_worker := 0; wit_signing_key := key;
     wit_props := sample_props; wit_TSD_exchange_rate := median; wit_last_TSD_exchange_update := 0; wit_votes := votes;
     wit_schedule := sched_none; wit_virtual_last_update := 0; wit_virtual_position := 0;
     wit_virtual_scheduled_time := 100 - votes; wit_last_work := EmptyString; wit_running_version := 0;
     wit_hardfork_version_vote := 0; wit_hardfork_time_vote := 0 |}.

(** Three witnesses, of whom the two highest voted are elected; the third has [key]. *)
Definition three (key : public_key) : database :=
  sample <| witnesses := Table (<["alice"%string := producer 1 "alice" 70 "k1"]>
              (<["bob"%string := producer 2 "bob" 20 "k2"]> {["carol"%string := producer 3 "carol" 5 key]})) 4 |>
         <| witness_schedule ::= λ o, o <| wso_max_voted_witnesses := 2 |> <| wso_top19_weight := 1 |>
              <| wso_timeshare_weight := 5 |> <| wso_miner_weight := 1 |> |>.

Lemma three_wf key : witnesses_wf (three key).
Proof.
  split.
  - intros k w. unfold three. db_fields. rewrite !lookup_insert_Some, lookup_singleton_Some. naive_solver.
  - intros k k' w w'. unfold three. db_fields. rewrite !lookup_insert_Some, !lookup_singleton_Some. naive_solver.
Qed.

Definition scheduled_three : database := Eval vm_compute in outcome update_witness_schedule4 (three "k3").
Lemma three_runs : ⟨ update_witness_schedule4, three "k3" ⟩ ⇓ ⟨ tt, scheduled_three ⟩.
Proof. runs_ok. Qed.

Lemma schedule_of_a_round_witness :
  NoDup (round_of scheduled_three) ∧ Z.of_nat (length (round_of scheduled_three)) = 3 ∧
  wso_witness_pay_normalization_factor (witness_schedule scheduled_three) = 7.
Proof.
  destruct (schedule_of_a_round (three "k3") tt scheduled_three (three_wf "k3") three_runs) as (_ & H1 & H2 & _ & _ & _).
  split_and!; [exact H1|rewrite H2; vm_compute; reflexivity|vm_compute; reflexivity].
Defined.

(** When the third gives its key up, the schedule cannot be updated. *)
Lemma schedule_update_iff_witness :
  (∃ u s', ⟨ update_witness_schedule4, three "k3" ⟩ ⇓ ⟨ u, s' ⟩) ∧
  ¬ (∃ u s', ⟨ update_witness_schedule4, three EmptyString ⟩ ⇓ ⟨ u, s' ⟩).
Proof.
  split.
  - apply (schedule_update_iff (three "k3")); [apply three_wf|vm_compute; lia|vm_compute; constructor|done|done|done|vm_compute; lia].
  - intros H. apply (schedule_update_iff (three EmptyString)) in H;
      [|apply three_wf|vm_compute; lia|vm_compute; constructor|done|done|done]. revert H. vm_compute. lia.
Defined.

End ScheduleExamples.
