(* ===== verification/Hardforks.v ===== *)
(** Hard forks ([chain/database.cpp]).

    A hard fork is applied when the scheduled witnesses have voted for its version
    and its time has come; until hard fork 5, when its configured time has come.
    Applying one changes the state where the new rules need it: SCORE is split,
    cached counts are computed again, and comments get new cashout times. *)

From S2P Require Import Prelude Fc Config Asset Flat Authority Version BlockHeader Operations Objects Database Samples Ledger Frame Supply Market Votes Quiet Slots Accounts Rewards Same Comments Discussions Cashout Schedule.

(** * Configuration *)

(** [hardfork_version( 0, n )] of hard fork [n], libraries/chain/database.cpp:3510-3568 *)
Definition hardfork_version_at (n : Z) : Z := make_hardfork_version 0 n.
(** [_hardfork_times], libraries/chain/database.cpp:3510-3568 *)
Definition configured_times : list Z :=
  [GENESIS_TIME; HARDFORK_0_1_TIME; HARDFORK_0_2_TIME; HARDFORK_0_3_TIME; HARDFORK_0_4_TIME; HARDFORK_0_5_TIME;
   HARDFORK_0_6_TIME; HARDFORK_0_7_TIME; HARDFORK_0_8_TIME; HARDFORK_0_9_TIME; HARDFORK_0_10_TIME; HARDFORK_0_11_TIME;
   HARDFORK_0_12_TIME; HARDFORK_0_13_TIME; HARDFORK_0_14_TIME; HARDFORK_0_15_TIME; HARDFORK_0_16_TIME;
   HARDFORK_0_17_TIME; HARDFORK_0_18_TIME; HARDFORK_0_19_TIME].
(** [BLOCKCHAIN_VERSION], libraries/protocol/include/node/protocol/config.hpp:3 *)
Definition BLOCKCHAIN_VERSION : Z := make_version 0 19 5.
(** [MINER_ACCOUNT], libraries/protocol/include/node/protocol/config.hpp:274 *)
Definition MINER_ACCOUNT : string := "builders".
(** [MAX_VOTED_WITNESSES_HF17], libraries/protocol/include/node/protocol/config.hpp:100 *)
Definition MAX_VOTED_WITNESSES_HF17 : Z := MAX_WITNESSES - 1.
(** [MAX_MINER_WITNESSES_HF17], libraries/protocol/include/node/protocol/config.hpp:101 *)
Definition MAX_MINER_WITNESSES_HF17 : Z := 0.
(** [MAX_RUNNER_WITNESSES_HF17], libraries/protocol/include/node/protocol/config.hpp:102 *)
Definition MAX_RUNNER_WITNESSES_HF17 : Z := 1.
(** [hardfork9::get_compromised_accounts], libraries/chain/hardfork.d/0_9.hf:11-18 *)
Definition compromised_accounts : list account_name := [].

Section hardforks.
Context {F : Fc}.

(** [database::init_hardforks], libraries/chain/database.cpp:3508-3575 *)
Definition init_hardforks : DB unit :=
  hfp ← asks hardforks;
  fc_assert (hpo_last_hardfork hfp <=? NUM_HARDFORKS) "Chain knows of more hardforks than configuration";;
  fc_assert (hardfork_version_at (hpo_last_hardfork hfp) <=? BLOCKCHAIN_VERSION)
    "Blockchain version is older than last applied hardfork";;
  fc_assert (hardfork_version_of BLOCKCHAIN_VERSION =? hardfork_version_at NUM_HARDFORKS) EmptyString.

(** * Computing cached values again *)

(** The keys of a table in the order of the ids of its rows. *)
Definition by_row_id `{Countable K} {V} (id : V → Z) (m : gmap K V) : list K :=
  fst <$> merge_sort (row_le (at_most (by_key id Z.compare))) (map_to_list m).

(** ** Hard fork 1 *)

(** One entry of an array of [share_type]. *)
Fixpoint scale_all (magnitude : Z) (l : list Z) : result (list Z) :=
  match l with
  | [] => Ok []
  | x :: l => y ← safe_mul x magnitude; ys ← scale_all magnitude l; Ok (y :: ys)
  end.

(** The SCORE of one account. *)
Definition split_account (magnitude : Z) (a : account_object) : result account_object :=
  sc ← safe_mul (amount (acc_SCORE a)) magnitude;
  withdrawn ← safe_mul (acc_withdrawn a) magnitude;
  to_withdraw ← safe_mul (acc_to_withdraw a) magnitude;
  rate ← safe_div to_withdraw TME_fund_for_SCORE_WITHDRAW_INTERVALS_PRE_HF_16;
  votes ← scale_all magnitude (acc_proxied_votes a);
  Ok (a <| acc_SCORE ::= λ x, x <| amount := sc |> |> <| acc_withdrawn := withdrawn |> <| acc_to_withdraw := to_withdraw |>
        <| acc_SCOREwithdrawRateInTME := Asset (if rate =? 0 then 1 else rate) SYMBOL_SCORE |>
        <| acc_proxied_votes := votes |>).

(** The rewards of one comment. *)
Definition split_comment (magnitude : Z) (c : comment_object) : result comment_object :=
  net ← safe_mul (cmt_net_SCOREreward c) magnitude;
  abs ← safe_mul (cmt_abs_SCOREreward c) magnitude;
  vote ← safe_mul (cmt_vote_SCOREreward c) magnitude;
  Ok (c <| cmt_net_SCOREreward := net |> <| cmt_abs_SCOREreward := abs |> <| cmt_vote_SCOREreward := vote |>).

(** [database::perform_SCORE_split], libraries/chain/database.cpp:4047-4093 *)
Definition perform_SCORE_split (magnitude : Z) : DB unit :=
  modify1 gpo (λ d, t ← safe_mul (amount (gpo_totalSCORE d)) magnitude;
    Ok (d <| gpo_totalSCORE ::= λ x, x <| amount := t |> |> <| gpo_totalSCOREreward2 := u128 0 |>));;
  names ← asks (λ s, by_row_id acc_id (rows (accounts s)));
  mfor (λ name, modify accounts name (split_account magnitude)) names;;
  keys ← asks (λ s, by_row_id cmt_id (rows (comments s)));
  mfor (λ k, modify comments k (split_comment magnitude)) keys;;
  mfor (λ k,
    c ← get comments k;
    mwhen (0 <? cmt_net_SCOREreward c) (adjust_SCOREreward2 (u128 0) (evaluate_default (u128 (cmt_net_SCOREreward c))))) keys.

(** ** Witness votes *)

(** [database::retally_witness_votes], libraries/chain/database.cpp:4137-4168 *)
Definition retally_witness_votes : DB unit :=
  names ← asks (λ s, by_row_id wit_id (rows (witnesses s)));
  mfor (λ name, modify witnesses name (λ w, Ok (w <| wit_votes := 0 |> <| wit_virtual_position := u128 0 |>))) names;;
  accs ← asks (λ s, by_row_id acc_id (rows (accounts s)));
  mfor (λ name,
    a ← get_account name;
    if str_eqb (acc_proxy a) PROXY_TO_SELF_ACCOUNT then
      voted ← asks (voted_witnesses (acc_id a));
      mfor (λ id, w ← get_witness_by_id id; weight ← lift (witness_vote_weight a); adjust_witness_vote w weight) voted
    else mret tt) accs.

(** [database::retally_witness_vote_counts], libraries/chain/database.cpp:4170-4197 *)
Definition retally_witness_vote_counts (force : bool) : DB unit :=
  accs ← asks (λ s, by_row_id acc_id (rows (accounts s)));
  mfor (λ name,
    a ← get_account name;
    voted ← asks (voted_witnesses (acc_id a));
    let witnesses_voted_for :=
      if force || negb (str_eqb (acc_proxy a) PROXY_TO_SELF_ACCOUNT) then wrap_u16 (Z.of_nat (length voted)) else 0 in
    mwhen (negb (acc_witnesses_voted_for a =? witnesses_voted_for))
      (modify accounts name (λ account, Ok (account <| acc_witnesses_voted_for := witnesses_voted_for |>)))) accs.

(** ** Comments *)

(** One more child. *)
Definition one_more (c : comment_object) : comment_object := c <| cmt_children ::= λ n, wrap_u32 (n + 1) |>.
(** The count of a comment, for all above it. *)
Definition count_for (k : account_name * string) : DB unit :=
  c ← get comments k;
  if nonempty (cmt_parent_author c) then
    let parent := (cmt_parent_author c, cmt_parent_permlink c) in
    p ← get comments parent; climb (S (Z.to_nat (cmt_depth p))) one_more parent
  else mret tt.

(** [database::retally_comment_children], libraries/chain/database.cpp:4095-4135 *)
Definition retally_comment_children : DB unit :=
  keys ← asks (λ s, by_row_id cmt_id (rows (comments s)));
  mfor (λ k, modify comments k (λ c, Ok (c <| cmt_children := 0 |>))) keys;;
  mfor count_for keys.

(** [database::retally_liquidity_weight], libraries/chain/database.cpp:3909-3916 *)
Definition retally_liquidity_weight : DB unit :=
  owners ← asks (λ s, by_row_id lrb_owner (rows (liquidity_rewards s)));
  mfor (λ o, modify liquidity_rewards o (λ r, Ok (update_weight true r))) owners.

(** * Applying a hard fork *)

(** The authority hard fork 9 gives the accounts it recovers. *)
Definition recovered_authority : authority :=
  Authority 1 [] [("TWYM68K7veT6Wz9tp9vXoAwgSH5D5nFqfKqs7j8KXugwBWoyPykoPj"%string, 1)].
(** [HARDFORK_0_9]. *)
Definition recover_compromised : DB unit :=
  mfor (λ acc,
    account ← find_account acc;
    match account with
    | None => mret tt
    | Some account =>
        update_owner_authority (acc_name account) recovered_authority;;
        modify account_authorities (acc_name account) (λ auth,
          Ok (auth <| aao_active := recovered_authority |> <| aao_posting := recovered_authority |>))
    end) compromised_accounts.

(** The cashout time of a root comment at hard fork 12. *)
Definition second_window (now : Z) (c : comment_object) : comment_object :=
  if str_eqb (cmt_parent_author c) ROOT_POST_PARENT then
    if (cmt_last_payout c =? tps_min) && (cmt_cashout_time c =? tps_max)
    then c <| cmt_cashout_time := tps_add now CASHOUT_WINDOW_SECONDS_PRE_HF17 |>
    else if tps_min <? cmt_last_payout c
    then c <| cmt_cashout_time := tps_add (cmt_last_payout c) SECOND_CASHOUT_WINDOW |>
    else c
  else c.
(** [HARDFORK_0_12]. *)
Definition open_second_window : DB unit :=
  now ← head_block_time;
  keys ← asks (λ s, by_row_id cmt_id (rows (comments s)));
  mfor (λ k, modify comments k (λ c, Ok (second_window now c))) keys;;
  mfor (λ name, modify account_authorities name (λ auth, Ok (auth <| aao_posting := Authority 1 [] [] |>)))
    [MINER_ACCOUNT; NULL_ACCOUNT; TEMP_ACCOUNT].

(** [HARDFORK_0_16]: [pop_front] until the window is short enough. *)
Definition shorten_feed_window : DB unit :=
  modify1 feed_history (λ fho, Ok (fho <| fdh_price_history ::=
    λ l, drop (length l - Z.to_nat FEED_HISTORY_WINDOW) l |>)).

(** The fund that hard fork 17 creates. *)
Definition post_reward_fund (now : Z) (balance : asset) (id : Z) : reward_fund_object :=
  {| rwf_id := id; rwf_name := POST_REWARD_FUND_NAME; rwf_reward_balance := balance; rwf_recent_claims := u128 0;
     rwf_last_update := now; rwf_content_constant := u128 CONTENT_CONSTANT_HF0;
     rwf_percent_curationRewards := PERCENT_1 * 25; rwf_percent_content_rewards := PERCENT_100;
     rwf_authorReward_curve := quadratic; rwf_curationReward_curve := quadratic_curation |}.
(** The root comments that were not paid out, and all comments of their discussions. *)
Definition open_discussions (s : database) : list (account_name * string) * list (account_name * string) :=
  let roots := filter (λ p, cmt_cashout_time p.2 < tps_max)
                 (merge_sort (row_le (at_most by_cashout_time)) (map_to_list (rows (comments s)))) in
  (fst <$> roots, roots ≫= λ p, comments_of_root (cmt_id p.2) s).
(** [HARDFORK_0_17]. *)
Definition create_reward_fund : DB unit :=
  modify1 witness_schedule (λ wso, Ok (wso <| wso_max_voted_witnesses := MAX_VOTED_WITNESSES_HF17 |>
    <| wso_max_miner_witnesses := MAX_MINER_WITNESSES_HF17 |> <| wso_max_runner_witnesses := MAX_RUNNER_WITNESSES_HF17 |>));;
  now ← head_block_time;
  g ← get_dynamic_global_properties;
  create reward_funds POST_REWARD_FUND_NAME (post_reward_fund now (gpo_total_reward_fund_TME g));;
  post_rf ← get reward_funds POST_REWARD_FUND_NAME;
  fc_assert (rwf_id post_rf =? 0) EmptyString;;
  modify1 gpo (λ g, Ok (g <| gpo_total_reward_fund_TME := Asset 0 SYMBOL_COIN |> <| gpo_totalSCOREreward2 := u128 0 |>));;
  posts ← asks open_discussions;
  let '(root_posts, replies) := posts in
  mfor (λ k, modify comments k (λ c,
    Ok (c <| cmt_cashout_time := Z.max (tps_add (cmt_created c) CASHOUT_WINDOW_SECONDS) (cmt_cashout_time c) |>))) root_posts;;
  mfor (λ k,
    c ← get comments k;
    t ← calculate_discussion_payout_time c;
    modify comments k (λ c, Ok (c <| cmt_cashout_time := Z.max t (tps_add (cmt_created c) CASHOUT_WINDOW_SECONDS) |>))) replies.

(** [HARDFORK_0_19]. *)
Definition linear_rewards : DB unit :=
  modify1 gpo (λ g, Ok (g <| gpo_vote_power_reserve_rate := 10 |>));;
  modify reward_funds POST_REWARD_FUND_NAME (λ rfo,
    Ok (rfo <| rwf_recent_claims := u128 0 |> <| rwf_authorReward_curve := linear |> <| rwf_curationReward_curve := square_root |>));;
  to_remove ← asks (λ s, by_row_id dlg_id (filter (λ p, amount (dlg_SCORE p.2) = 0) (rows (delegations s))));
  mfor (λ k, remove delegations k) to_remove.

(** What each hard fork does to the state. *)
Definition hardfork_changes (hardfork : Z) : DB unit :=
  if hardfork =? HARDFORK_0_1 then perform_SCORE_split 1000000
  else if hardfork =? HARDFORK_0_2 then retally_witness_votes
  else if hardfork =? HARDFORK_0_3 then retally_witness_votes
  else if hardfork =? HARDFORK_0_4 then reset_virtual_schedule_time
  else if hardfork =? HARDFORK_0_6 then retally_witness_vote_counts false;; retally_comment_children
  else if hardfork =? HARDFORK_0_8 then retally_witness_vote_counts true
  else if hardfork =? HARDFORK_0_9 then recover_compromised
  else if hardfork =? HARDFORK_0_10 then retally_liquidity_weight
  else if hardfork =? HARDFORK_0_12 then open_second_window
  else if hardfork =? HARDFORK_0_16 then shorten_feed_window
  else if hardfork =? HARDFORK_0_17 then create_reward_fund
  else if hardfork =? HARDFORK_0_19 then linear_rewards
  else mret tt.

(** The record of a hard fork; [times] are [_hardfork_times]. *)
Definition record_hardfork (times : list Z) (hardfork : Z) (hfp : hardfork_property_object) : result hardfork_property_object :=
  fc_check (hardfork =? wrap_u32 (hpo_last_hardfork hfp + 1)) "Hardfork being applied out of order";;
  fc_check (Z.of_nat (length (hpo_processed_hardforks hfp)) =? hardfork) "Hardfork being applied out of order";;
  let time := nth (Z.to_nat hardfork) times 0 in
  let hfp := hfp <| hpo_processed_hardforks ::= λ l, l ++ [time] |> <| hpo_last_hardfork := hardfork |>
                 <| hpo_current_hardfork_version := hardfork_version_at hardfork |> in
  fc_check (nth (Z.to_nat (hpo_last_hardfork hfp)) (hpo_processed_hardforks hfp) 0 =? time) "Hardfork processing failed sanity check...";;
  Ok hfp.

(** [database::apply_hardfork], libraries/chain/database.cpp:3636-3907 *)
Definition apply_hardfork (times : list Z) (hardfork : Z) : DB unit :=
  hardfork_changes hardfork;;
  modify1 hardforks (record_hardfork times hardfork);;
  push_virtual_operation (hardfork_op_ {| hardfork_op_hardfork_id := hardfork |}).

(** * Processing the hard forks that are due *)

(** The loop since hard fork 5: what the witnesses voted for. *)
Fixpoint process_voted (fuel : nat) (times : list Z) : DB unit :=
  match fuel with
  | O => mret tt
  | S fuel =>
      hfp ← asks hardforks;
      now ← head_block_time;
      if (hardfork_version_at (hpo_last_hardfork hfp) <? hpo_next_hardfork hfp) && (hpo_next_hardfork_time hfp <=? now) then
        if hpo_last_hardfork hfp <? NUM_HARDFORKS then
          apply_hardfork times (hpo_last_hardfork hfp + 1);; process_voted fuel times
        else throw unknown_hardfork_exception
      else mret tt
  end.

(** The loop before: what is configured. *)
Fixpoint process_configured (fuel : nat) (times : list Z) : DB unit :=
  match fuel with
  | O => mret tt
  | S fuel =>
      hfp ← asks hardforks;
      now ← head_block_time;
      if (hpo_last_hardfork hfp <? NUM_HARDFORKS) && (nth (Z.to_nat (hpo_last_hardfork hfp + 1)) times 0 <=? now)
         && (hpo_last_hardfork hfp <? HARDFORK_0_5)
      then apply_hardfork times (hpo_last_hardfork hfp + 1);; process_configured fuel times
      else mret tt
  end.

(** [database::process_hardforks], libraries/chain/database.cpp:3577-3607 *)
Definition process_hardforks (times : list Z) : DB unit :=
  hf5 ← has_hardfork HARDFORK_0_5;
  let rounds := S (S (Z.to_nat NUM_HARDFORKS)) in
  if (hf5 : bool) then process_voted rounds times else process_configured rounds times.

(** One round of [set_hardfork]. *)
Fixpoint set_hardfork_from (n : nat) (i : Z) (times : list Z) (apply_now : bool) : DB (list Z) :=
  match n with
  | O => mret times
  | S n =>
      now ← head_block_time;
      mwhen (HARDFORK_0_5 <? i) (modify1 hardforks (λ hpo,
        Ok (hpo <| hpo_next_hardfork := hardfork_version_at i |> <| hpo_next_hardfork_time := now |>)));;
      let times := if i <=? HARDFORK_0_5 then <[Z.to_nat i := now]> times else times in
      mwhen apply_now (apply_hardfork times i);;
      set_hardfork_from n (i + 1) times apply_now
  end.
(** [database::set_hardfork], libraries/chain/database.cpp:3614-3634 *)
Definition set_hardfork (times : list Z) (hardfork : Z) (apply_now : bool) : DB (list Z) :=
  hfp ← asks hardforks;
  set_hardfork_from (Z.to_nat (Z.min hardfork NUM_HARDFORKS - hpo_last_hardfork hfp)) (hpo_last_hardfork hfp + 1) times apply_now.

End hardforks.

(** * The counts of children, computed again *)

Lemma by_row_id_perm `{Countable K} {V} (id : V → Z) (m : gmap K V) : by_row_id id m ≡ₚ fst <$> map_to_list m.
Proof. unfold by_row_id. by rewrite merge_sort_Permutation. Qed.
Lemma by_row_id_nodup `{Countable K} {V} (id : V → Z) (m : gmap K V) : NoDup (by_row_id id m).
Proof. rewrite by_row_id_perm. apply NoDup_fst_map_to_list. Qed.
Lemma by_row_id_elem `{Countable K} {V} (id : V → Z) (m : gmap K V) k : k ∈ by_row_id id m ↔ is_Some (m !! k).
Proof.
  rewrite by_row_id_perm, list_elem_of_fmap. split.
  - intros ([k' v] & -> & Hv%elem_of_map_to_list). by exists v.
  - intros [v Hv]. exists (k, v). by rewrite elem_of_map_to_list.
Qed.
(** A sum over the keys is a sum over the rows. *)
Lemma zsum_by_row_id `{Countable K} {V} (id : V → Z) (m : gmap K V) (f : K → Z) (g : V → Z) :
  (∀ k v, m !! k = Some v → f k = g v) → zsum f (by_row_id id m) = map_sum g m.
Proof.
  intros Hfg. rewrite (zsum_perm f _ _ (by_row_id_perm id m)), <- zsum_map_sum.
  assert (∀ l, (∀ p, p ∈ l → f p.1 = g p.2) → zsum f (fst <$> l) = zsum g (snd <$> l)) as Hl.
  { induction l as [|p l IH]; intros Hp; cbn [fmap list_fmap zsum]; [done|]. rewrite IH by (intros q Hq; apply Hp; by right).
    rewrite Hp by (by left). done. }
  apply Hl. intros [k v] Hp%elem_of_map_to_list. by apply Hfg.
Qed.

Section retally.
Context {F : Fc}.

(** The comments with the counts [n]. *)
Definition with_counts (n : ckey → Z) (m : gmap ckey comment_object) : gmap ckey comment_object :=
  map_imap (λ k c, Some (c <| cmt_children := wrap_u32 (n k) |>)) m.

Lemma with_counts_lookup n m k : with_counts n m !! k = (λ c, c <| cmt_children := wrap_u32 (n k) |>) <$> m !! k.
Proof. unfold with_counts. rewrite map_lookup_imap. by destruct (m !! k). Qed.

Lemma with_counts_ext n n' m : (∀ k, n k = n' k) → with_counts n m = with_counts n' m.
Proof. intros E. apply map_eq. intros k. rewrite !with_counts_lookup. by rewrite E. Qed.
Lemma with_comments_id m s : rows (comments s) = m → with_comments m s = s.
Proof. intros <-. destruct s as [? ? ? ? ? ? ? ? ? ? ? ? ? ? ? ? ? ? ? [? ?]]. done. Qed.

Lemma links_with_counts n m : link_of <$> with_counts n m = link_of <$> m.
Proof. apply map_eq. intros k. rewrite !lookup_fmap, with_counts_lookup. by destruct (m !! k). Qed.

Lemma touched_counts l n m :
  touched l one_more (with_counts n m) = with_counts (λ k, n k + if bool_decide (k ∈ l) then 1 else 0) m.
Proof.
  apply map_eq. intros k. rewrite touched_lookup, !with_counts_lookup. destruct (m !! k) as [c|]; [|done]. cbn. f_equal.
  case_bool_decide; [|by rewrite Z.add_0_r]. unfold one_more. rewrite <- wrap_u32_add. by destruct c.
Qed.

(** How many of the comments [l] are below [k]. *)
Definition below (L : gmap ckey (ckey * Z)) (k q : ckey) : Z :=
  match L !! q with Some x => if bool_decide (k ∈ above L x) then 1 else 0 | None => 0 end.

Lemma count_for_runs s m n k c :
  well_linked (link_of <$> m) → m !! k = Some c → rows (comments s) = with_counts n m →
  ⟨ count_for k, s ⟩ ⇓ ⟨ tt, with_comments (with_counts (λ q, n q + below (link_of <$> m) q k) m) s ⟩.
Proof.
  intros HL Hk Hs. assert (links s = link_of <$> m) as El by (unfold links; by rewrite Hs, links_with_counts).
  assert ((link_of <$> m) !! k = Some (link_of c)) as Hlk by (by rewrite lookup_fmap, Hk).
  assert (with_counts (λ q, n q + below (link_of <$> m) q k) m = touched (above (link_of <$> m) (link_of c)) one_more (with_counts n m)) as ->.
  { rewrite touched_counts. apply map_eq. intros q. rewrite !with_counts_lookup. unfold below. by rewrite Hlk. }
  unfold count_for. eapply runs_bind_intro; [apply runs_getr; rewrite Hs, with_counts_lookup, Hk; split; [reflexivity|done]|].
  cbn [cmt_parent_author cmt_parent_permlink]. fields. destruct (HL _ _ Hlk) as [_ Hp]. cbn [link_of fst snd] in Hp.
  destruct (nonempty (cmt_parent_author c)) eqn:Ep.
  - destruct Hp as (y & Hy & Hd). pose proof Hy as Hy'. rewrite lookup_fmap in Hy. apply fmap_Some in Hy as (p & Hp & ->).
    rewrite (above_reply _ HL (link_of c) (link_of p)) by done. cbv zeta. cbn [link_of fst].
    eapply runs_bind_intro; [apply runs_getr; rewrite Hs, with_counts_lookup, Hp; split; [reflexivity|done]|].
    destruct (HL _ _ Hy') as [Hdp _]. cbn [link_of snd] in Hdp. rewrite <- Hs, <- El.
    pose proof (climb_runs one_more (S (Z.to_nat (cmt_depth p))) (λ c, eq_refl) s (cmt_parent_author c, cmt_parent_permlink c)
      (p <| cmt_children := wrap_u32 (n (cmt_parent_author c, cmt_parent_permlink c)) |>)) as Hr.
    apply Hr; [by rewrite El|by rewrite Hs, with_counts_lookup, Hp|fields; lia].
  - rewrite above_root by done. apply runs_ret. split; [done|]. symmetry. apply with_comments_id. rewrite Hs, touched_counts.
    apply with_counts_ext. intros q. rewrite bool_decide_false by apply not_elem_of_nil. lia.
Qed.

Lemma count_all s m l n :
  well_linked (link_of <$> m) → Forall (λ k, is_Some (m !! k)) l → rows (comments s) = with_counts n m →
  ⟨ mfor count_for l, s ⟩ ⇓ ⟨ tt, with_comments (with_counts (λ q, n q + zsum (below (link_of <$> m) q) l) m) s ⟩.
Proof.
  intros HL Hl. revert s n. induction Hl as [|k l [c Hk] _ IH]; intros s n Hs; cbn [mfor zsum].
  - apply runs_ret. split; [done|]. symmetry. apply with_comments_id. rewrite Hs. apply with_counts_ext. intros q. lia.
  - eapply runs_bind_intro; [by eapply count_for_runs|].
    replace (with_comments (with_counts (λ q, n q + (below (link_of <$> m) q k + zsum (below (link_of <$> m) q) l)) m) s) with
      (with_comments (with_counts (λ q, (n q + below (link_of <$> m) q k) + zsum (below (link_of <$> m) q) l) m)
        (with_comments (with_counts (λ q, n q + below (link_of <$> m) q k) m) s)).
    + apply IH. apply with_comments_rows.
    + rewrite with_comments_twice. f_equal. apply with_counts_ext. intros q. lia.
Qed.

(** A change to each of the comments [l]. *)
Lemma each_comment f l s :
  NoDup l → Forall (λ k, is_Some (rows (comments s) !! k)) l →
  ⟨ mfor (λ k, modify comments k (λ c, Ok (f c))) l, s ⟩ ⇓ ⟨ tt, with_comments (touched l f (rows (comments s))) s ⟩.
Proof.
  intros Hn Hl. revert s Hl. induction Hn as [|k l Hk Hn IH]; intros s Hl; cbn [mfor].
  - apply runs_ret. split; [done|]. symmetry. apply with_comments_id. apply map_eq. intros q. rewrite touched_lookup.
    destruct (rows (comments s) !! q); [|done]. cbn. by rewrite bool_decide_false by apply not_elem_of_nil.
  - apply Forall_cons in Hl as [[c Hc] Hl]. eapply (runs_bind_intro _ _ _ tt); [apply runs_modify; eauto|].
    rewrite set_row_comments. rewrite <- (touched_cons k l f _ c) by done.
    specialize (IH (with_comments (<[k := f c]> (rows (comments s))) s)). rewrite with_comments_rows, with_comments_twice in IH.
    apply IH. eapply Forall_impl; [exact Hl|]. intros q [e He]. destruct (decide (q = k)) as [->|Hne].
    + rewrite lookup_insert_eq. by eexists.
    + rewrite lookup_insert_ne by done. by exists e.
Qed.

Lemma all_rows id s : Forall (λ k, is_Some (rows (comments s) !! k)) (by_row_id id (rows (comments s))).
Proof. apply Forall_forall. intros k. by rewrite by_row_id_elem. Qed.

(** C29. [retally_comment_children], whatever counts it finds: it ends, and from any
    forest of comments it makes every comment's count the number of comments below
    it, changing nothing else. *)
Theorem retally_comment_children_exact s :
  forest (rows (comments s)) (next_id (comments s)) →
  ∃ m, ⟨ retally_comment_children, s ⟩ ⇓ ⟨ tt, with_comments m s ⟩ ∧ counts m ∧
    ∀ k, m !! k = (λ c, c <| cmt_children := wrap_u32 (replies (links s) k) |>) <$> rows (comments s) !! k.
Proof.
  intros Hf. set (m0 := rows (comments s)) in *. pose proof (fo_links _ _ Hf) as HL.
  set (keys := by_row_id cmt_id m0). exists (with_counts (replies (link_of <$> m0)) m0).
  assert (with_counts (replies (link_of <$> m0)) m0 = with_counts (λ q, 0 + zsum (below (link_of <$> m0) q) keys) m0) as E.
  { apply with_counts_ext. intros q. unfold replies, keys.
    rewrite (zsum_by_row_id cmt_id m0 _ (λ c, if bool_decide (q ∈ above (link_of <$> m0) (link_of c)) then 1 else 0)).
    - by rewrite map_sum_fmap.
    - intros k c Hk. unfold below. by rewrite lookup_fmap, Hk. }
  split_and!.
  - unfold retally_comment_children. eapply runs_bind_intro; [by apply runs_asks|]. cbv beta. fold m0 keys.
    eapply (runs_bind_intro _ _ _ tt).
    { apply each_comment; [apply by_row_id_nodup|apply all_rows]. }
    fold m0. rewrite E.
    replace (with_comments (with_counts (λ q, 0 + zsum (below (link_of <$> m0) q) keys) m0) s) with
      (with_comments (with_counts (λ q, 0 + zsum (below (link_of <$> m0) q) keys) m0)
        (with_comments (touched keys (λ c, c <| cmt_children := 0 |>) m0) s)) by apply with_comments_twice.
    apply count_all; [done|apply all_rows|]. rewrite with_comments_rows. apply map_eq. intros k.
    rewrite touched_lookup, with_counts_lookup. destruct (m0 !! k) as [c|] eqn:Hk; [|done]. cbn.
    by rewrite bool_decide_true by (apply by_row_id_elem; by exists c).
  - intros k c. rewrite links_with_counts, with_counts_lookup. intros (c0 & _ & ->)%fmap_Some. by fields.
  - intros k. by rewrite with_counts_lookup.
Qed.

End retally.

(** * The votes of the witnesses, computed again *)

Section votes.
Context {F : Fc} {FL : FcLaws F}.

Lemma cleared_other k l s u s' :
  k ∉ l → ⟨ mfor (λ name, modify witnesses name (λ w, Ok (w <| wit_votes := 0 |> <| wit_virtual_position := u128 0 |>))) l, s ⟩ ⇓ ⟨ u, s' ⟩ →
  rows (witnesses s') !! k = rows (witnesses s) !! k.
Proof.
  revert s. induction l as [|n l IH]; intros s Hk Hr; cbn [mfor] in Hr; [by apply runs_ret in Hr as [_ <-]|].
  apply runs_bind in Hr as (? & s1 & H1 & Hr). apply runs_modify in H1 as (w0 & w1 & Hw0 & [= <-] & ->).
  rewrite (IH _ ltac:(set_solver) Hr). db_fields. apply lookup_insert_ne. set_solver.
Qed.
(** What the loop over the witnesses leaves. *)
Lemma cleared_votes l s u s' :
  ⟨ mfor (λ name, modify witnesses name (λ w, Ok (w <| wit_votes := 0 |> <| wit_virtual_position := u128 0 |>))) l, s ⟩ ⇓ ⟨ u, s' ⟩ →
  s' = s <| witnesses := witnesses s' |> ∧
  (λ w, wit_id w) <$> rows (witnesses s') = (λ w, wit_id w) <$> rows (witnesses s) ∧
  ∀ n w, rows (witnesses s') !! n = Some w → n ∈ l → wit_votes w = 0.
Proof.
  revert s. induction l as [|k l IH]; intros s Hr; cbn [mfor] in Hr.
  { apply runs_ret in Hr as [_ <-]. split_and!; [by destruct s|done|]. intros n w _ Hn. by apply not_elem_of_nil in Hn. }
  apply runs_bind in Hr as (? & s1 & H1 & Hr). apply runs_modify in H1 as (w0 & w1 & Hw0 & [= <-] & ->).
  destruct (IH _ Hr) as (E1 & E2 & E3). clear IH. split_and!.
  - rewrite E1. by destruct s, s'.
  - rewrite E2. by apply (view_set_row witnesses wit_id k w0).
  - intros n w Hn [->|Hin]%elem_of_cons; [|by eapply E3]. destruct (decide (k ∈ l)) as [|Hk]; [by eapply E3|].
    rewrite (cleared_other _ _ _ _ _ Hk Hr) in Hn. db_fields in Hn. rewrite lookup_insert_eq in Hn. injection Hn as <-. by fields.
Qed.

(** The votes of one account, with a weight computed for each. *)
Lemma weigh_votes a l s u s' :
  ⟨ mfor (λ id, w ← get_witness_by_id id; weight ← lift (witness_vote_weight a); adjust_witness_vote w weight) l, s ⟩ ⇓ ⟨ u, s' ⟩ →
  ⟨ mfor (λ id, w ← get_witness_by_id id; adjust_witness_vote w (acc_weight a)) l, s ⟩ ⇓ ⟨ u, s' ⟩.
Proof.
  revert s. induction l as [|id l IH]; intros s Hr; cbn [mfor] in Hr |- *; [done|].
  apply runs_bind in Hr as (? & s1 & H1 & Hr). apply runs_bind in H1 as (w & s2 & Hw & H1).
  apply runs_bind in H1 as (y1 & ? & [Hy ->]%runs_lift & H1). apply witness_vote_weight_ok in Hy. subst y1.
  eapply (runs_bind_intro _ _ _ _ s1); [|by apply IH]. eapply runs_bind_intro; [exact Hw|exact H1].
Qed.

(** What an account adds to the votes of a witness. *)
Definition adds (s : database) (name : account_name) (w : Z) : Z :=
  match rows (accounts s) !! name with
  | Some a => if str_eqb (acc_proxy a) PROXY_TO_SELF_ACCOUNT then if voted s (acc_id a) w then acc_weight a else 0 else 0
  | None => 0
  end.

Lemma add_votes l s u s' :
  votes_wf s →
  ⟨ mfor (λ name, a ← get_account name;
      if str_eqb (acc_proxy a) PROXY_TO_SELF_ACCOUNT then
        voted ← asks (voted_witnesses (acc_id a));
        mfor (λ id, w ← get_witness_by_id id; weight ← lift (witness_vote_weight a); adjust_witness_vote w weight) voted
      else mret tt) l, s ⟩ ⇓ ⟨ u, s' ⟩ →
  votes_moved (λ w, zsum (λ name, adds s name w) l) s s'.
Proof.
  revert s. induction l as [|name l IH]; intros s Hwf Hr; cbn [mfor zsum] in Hr |- *.
  { apply runs_ret in Hr as [_ <-]. apply votes_moved_refl. }
  apply runs_bind in Hr as ([] & s1 & H1 & Hr). apply runs_bind in H1 as (a & ? & [Ha ->]%runs_getr & H1).
  assert (votes_moved (λ w, adds s name w) s s1) as Hm.
  { unfold adds. rewrite Ha. destruct (str_eqb (acc_proxy a) PROXY_TO_SELF_ACCOUNT).
    - apply runs_bind in H1 as (? & ? & [-> ->]%runs_asks & H1). apply weigh_votes in H1.
      apply (adjust_witness_votes_moved (acc_id a) (acc_weight a) s tt); [done|].
      unfold adjust_witness_votes. eapply runs_bind_intro; [by apply runs_asks|done].
    - apply runs_ret in H1 as [_ <-]. apply votes_moved_refl. }
  eapply votes_moved_ext; [eapply votes_moved_trans; [exact Hm|apply IH; [by eapply votes_moved_wf|done]]|].
  intros w. cbn. f_equal. assert (∀ n, adds s1 n w = adds s n w) as E.
  { intros n. unfold adds, voted. rewrite (vm_rest _ _ _ Hm). by fields. }
  clear -E. induction l as [|x l IH]; cbn [zsum]; [done|]. by rewrite IH, E.
Qed.

(** [retally_witness_votes], whatever votes it finds: when it ends, every witness
    has exactly the votes of the accounts that vote for it, by their SCORE and what
    is proxied to them; nothing but the witnesses changes. *)
Theorem retally_witness_votes_exact s u s' :
  votes_wf s → ⟨ retally_witness_votes, s ⟩ ⇓ ⟨ u, s' ⟩ →
  s' = s <| witnesses := witnesses s' |> ∧ votes_wf s' ∧ exact_up_to (λ _, 0) s'.
Proof.
  intros Hwf Hr. unfold retally_witness_votes in Hr. apply runs_bind in Hr as (? & ? & [-> ->]%runs_asks & Hr).
  apply runs_bind in Hr as (? & s1 & H1 & Hr). apply runs_bind in Hr as (? & ? & [-> ->]%runs_asks & Hr).
  apply cleared_votes in H1 as (E1 & Eid & Hz).
  assert (accounts s1 = accounts s ∧ witness_votes s1 = witness_votes s) as [Ea Ev] by (rewrite E1; by fields).
  assert (votes_wf s1) as Hwf1.
  { destruct Hwf as [W1 W2 W3 W4 W5]. split; rewrite ?Ea, ?Ev; try done.
    - intros n n' w w' Hn Hn' E. destruct (fmap_same _ _ _ _ _ Eid Hn) as (v & Hv & Ev0). destruct (fmap_same _ _ _ _ _ Eid Hn') as (v' & Hv' & Ev1).
      eapply W3; [done..|congruence].
    - intros k a Hk. apply W5 in Hk. induction Hk; [eapply ends_here|eapply ends_above]; rewrite ?Ea; eauto. }
  apply add_votes in Hr; [|done]. split_and!.
  - rewrite (vm_rest _ _ _ Hr), E1. by destruct s, s1, s'.
  - by eapply votes_moved_wf.
  - intros n w Hn. destruct (vm_rows _ _ _ Hr _ _ Hn) as (w1 & Hw1 & Eid1 & ->).
    rewrite (Hz n w1 Hw1).
    2:{ apply by_row_id_elem. destruct (fmap_same _ _ _ _ _ Eid Hw1) as (v & Hv & _). by exists v. }
    rewrite Z.add_0_r, Z.add_0_l, Eid1. unfold supporters. assert (∀ a w, voted s' a w = voted s1 a w) as Evt.
    { intros a y1. unfold voted. by rewrite (vm_rest _ _ _ Hr). }
    replace (accounts s') with (accounts s1) by (by rewrite (vm_rest _ _ _ Hr)).
    apply (zsum_by_row_id acc_id). intros k a Hk. unfold adds. rewrite Hk, Evt.
    destruct (str_eqb (acc_proxy a) PROXY_TO_SELF_ACCOUNT) eqn:Ep; [done|].
    unfold voted. rewrite (vw_voters s1 Hwf1 k a _ Hk); [done|]. intros E. by rewrite E in Ep.
Qed.
End votes.

(** * Hard forks in order *)

Section order.
Context {F : Fc}.

Definition hf_view (s : database) := (hardforks s, gpo_time (gpo s)).

#[local] Hint Unfold get_witness_schedule_object get_dynamic_global_properties has_hardfork head_block_time head_block_num
  get_account find_account get_witness get_comment_key get_witness_by_id : accessors.

Lemma same_climb fuel f k : preserves (same hf_view) (climb fuel f k).
Proof. revert k. induction fuel as [|fuel IH]; intros k; cbn [climb]; samed; apply IH. Qed.
#[local] Hint Resolve same_climb : same.
Lemma same_vote w d : preserves (same hf_view) (adjust_witness_vote w d).
Proof. unfold adjust_witness_vote. samed. Qed.
#[local] Hint Resolve same_vote : same.

Lemma changes_view n : preserves (same hf_view) (hardfork_changes n).
Proof.
  unfold hardfork_changes. samed.
  - unfold perform_SCORE_split, adjust_SCOREreward2. samed.
  - unfold retally_witness_votes. samed.
  - unfold retally_witness_votes. samed.
  - unfold reset_virtual_schedule_time. samed.
  - unfold retally_witness_vote_counts. samed.
  - unfold retally_comment_children, count_for. samed.
  - unfold retally_witness_vote_counts. samed.
  - unfold recover_compromised, update_owner_authority. samed.
  - unfold retally_liquidity_weight. samed.
  - unfold open_second_window. samed.
  - unfold shorten_feed_window. samed.
  - unfold create_reward_fund, calculate_discussion_payout_time. samed.
  - unfold linear_rewards. samed.
Qed.

(** The record names the hard forks up to the last with their times. *)
Record hf_ok (times : list Z) (h : hardfork_property_object) : Prop := {
  hf_range : 0 ≤ hpo_last_hardfork h ≤ NUM_HARDFORKS;
  hf_processed : hpo_processed_hardforks h = take (Z.to_nat (hpo_last_hardfork h + 1)) times;
  hf_current : hpo_current_hardfork_version h = hardfork_version_at (hpo_last_hardfork h);
}.

Lemma version_at_value n : 0 ≤ n ≤ NUM_HARDFORKS → hardfork_version_at n = n * 2 ^ 16.
Proof. intros Hn. unfold hardfork_version_at, make_hardfork_version. unfold NUM_HARDFORKS in Hn. rewrite make_version_value by lia. lia. Qed.

Lemma Ok_inj {A} (x y : A) : Ok x = Ok y → x = y.
Proof. by intros [= ->]. Qed.

Section times.
Context (times : list Z) (Htimes : length times = S (Z.to_nat NUM_HARDFORKS)).

Lemma record_next h h' :
  hf_ok times h → hpo_last_hardfork h < NUM_HARDFORKS → record_hardfork times (hpo_last_hardfork h + 1) h = Ok h' →
  hf_ok times h' ∧ hpo_last_hardfork h' = hpo_last_hardfork h + 1 ∧
  hpo_next_hardfork h' = hpo_next_hardfork h ∧ hpo_next_hardfork_time h' = hpo_next_hardfork_time h.
Proof.
  intros [Hr Hp Hc] Hlt Hrec. unfold record_hardfork in Hrec.
  apply result_bind_ok in Hrec as (? & _ & Hrec). apply result_bind_ok in Hrec as (? & _ & Hrec). cbv zeta in Hrec.
  apply result_bind_ok in Hrec as (? & _ & Hrec). apply Ok_inj in Hrec as <-. fields. split_and!; [|done..].
  unfold NUM_HARDFORKS in *. split; fields; [unfold NUM_HARDFORKS; lia| |done].
  rewrite Hp. replace (Z.to_nat (hpo_last_hardfork h + 1 + 1)) with (S (Z.to_nat (hpo_last_hardfork h + 1))) by lia.
  destruct (lookup_lt_is_Some_2 times (Z.to_nat (hpo_last_hardfork h + 1))) as [t Ht]; [lia|].
  rewrite (take_S_r _ _ t) by done. by rewrite nth_lookup, Ht.
Qed.

Lemma apply_next s u s' :
  hf_ok times (hardforks s) → hpo_last_hardfork (hardforks s) < NUM_HARDFORKS →
  ⟨ apply_hardfork times (hpo_last_hardfork (hardforks s) + 1), s ⟩ ⇓ ⟨ u, s' ⟩ →
  hf_ok times (hardforks s') ∧ hpo_last_hardfork (hardforks s') = hpo_last_hardfork (hardforks s) + 1 ∧
  hpo_next_hardfork (hardforks s') = hpo_next_hardfork (hardforks s) ∧
  hpo_next_hardfork_time (hardforks s') = hpo_next_hardfork_time (hardforks s) ∧ gpo_time (gpo s') = gpo_time (gpo s).
Proof.
  intros Hok Hlt Hr. unfold apply_hardfork in Hr. apply runs_bind in Hr as (? & s1 & H1%changes_view & Hr).
  injection H1 as E1 E2. apply runs_bind in Hr as (? & s2 & (h & Hh & ->)%runs_modify1 & Hr). rewrite E1 in Hh.
  apply (record_next _ h) in Hh as (H1 & H2 & H3 & H4); [|done..].
  unfold push_virtual_operation in Hr. apply runs_bind in Hr as (? & ? & [_ ->]%runs_assert & Hr).
  apply runs_modify1 in Hr as (l & _ & ->). fields. rewrite E2. done.
Qed.

(** How far the witnesses' vote leads. *)
Lemma process_voted_run fuel s u s' :
  hf_ok times (hardforks s) → NUM_HARDFORKS - hpo_last_hardfork (hardforks s) < Z.of_nat fuel →
  ⟨ process_voted fuel times, s ⟩ ⇓ ⟨ u, s' ⟩ →
  let h := hardforks s in let last' := hpo_last_hardfork (hardforks s') in
  hf_ok times (hardforks s') ∧ hpo_last_hardfork h ≤ last' ∧
  (gpo_time (gpo s) < hpo_next_hardfork_time h → last' = hpo_last_hardfork h) ∧
  (hpo_next_hardfork_time h ≤ gpo_time (gpo s) → hpo_next_hardfork h ≤ hardfork_version_at last') ∧
  (hpo_last_hardfork h < last' → hardfork_version_at (last' - 1) < hpo_next_hardfork h).
Proof.
  revert s. induction fuel as [|fuel IH]; intros s Hok Hfuel Hr; cbn [process_voted] in Hr.
  { destruct Hok as [Hrange _ _]. lia. }
  unfold head_block_time in Hr. do 2 (apply runs_bind in Hr as (? & ? & [-> ->]%runs_asks & Hr)).
  destruct (Z.ltb_spec (hardfork_version_at (hpo_last_hardfork (hardforks s))) (hpo_next_hardfork (hardforks s))) as [Hv|Hv];
    [destruct (Z.leb_spec (hpo_next_hardfork_time (hardforks s)) (gpo_time (gpo s))) as [Ht|Ht]|]; cbn [andb] in Hr;
    [|apply runs_ret in Hr as [_ <-]; split_and!; (done || lia)..].
  destruct (Z.ltb_spec (hpo_last_hardfork (hardforks s)) NUM_HARDFORKS) as [Hlt|]; [|by apply runs_throw in Hr].
  apply runs_bind in Hr as (? & s1 & (Hok1 & El & En & Et & Eg)%apply_next & Hr); [|done..].
  destruct (IH s1 Hok1 ltac:(lia) Hr) as (H1 & H2 & H3 & H4 & H5). rewrite El, En, Et, Eg in *. cbv zeta.
  split_and!; [done|lia|lia|done|]. intros _. destruct (Z.eq_dec (hpo_last_hardfork (hardforks s')) (hpo_last_hardfork (hardforks s) + 1)) as [E|].
  - by rewrite E, Z.add_simpl_r.
  - apply H5. lia.
Qed.

(** How far the configuration leads. *)
Lemma process_configured_run fuel s u s' :
  hf_ok times (hardforks s) → NUM_HARDFORKS - hpo_last_hardfork (hardforks s) < Z.of_nat fuel →
  ⟨ process_configured fuel times, s ⟩ ⇓ ⟨ u, s' ⟩ →
  let last := hpo_last_hardfork (hardforks s) in let last' := hpo_last_hardfork (hardforks s') in
  hf_ok times (hardforks s') ∧ last ≤ last' ≤ Z.max last HARDFORK_0_5 ∧
  (last' < HARDFORK_0_5 → gpo_time (gpo s) < nth (Z.to_nat (last' + 1)) times 0) ∧
  (∀ i, last < i ≤ last' → nth (Z.to_nat i) times 0 ≤ gpo_time (gpo s)).
Proof.
  revert s. induction fuel as [|fuel IH]; intros s Hok Hfuel Hr; cbn [process_configured] in Hr.
  { destruct Hok as [Hrange _ _]. lia. }
  unfold head_block_time in Hr. do 2 (apply runs_bind in Hr as (? & ? & [-> ->]%runs_asks & Hr)).
  destruct (_ && _ && _) eqn:E.
  - apply andb_true_iff in E as [[Hlt%Z.ltb_lt Ht%Z.leb_le]%andb_true_iff H5%Z.ltb_lt].
    apply runs_bind in Hr as (? & s1 & (Hok1 & El & _ & _ & Eg)%apply_next & Hr); [|done..].
    destruct (IH s1 Hok1 ltac:(lia) Hr) as (H1 & H2 & H3 & H4). rewrite El, Eg in *. cbv zeta. split_and!; [done|lia|lia|done|].
    intros i Hi. destruct (Z.eq_dec i (hpo_last_hardfork (hardforks s) + 1)) as [->|]; [done|]. apply H4. lia.
  - apply runs_ret in Hr as [_ <-]. cbv zeta. split_and!; [done|lia|lia| |lia]. intros Hl. unfold HARDFORK_0_5 in *.
    destruct (Z.ltb_spec (hpo_last_hardfork (hardforks s)) NUM_HARDFORKS); [|unfold NUM_HARDFORKS in *; lia].
    destruct (Z.leb_spec (nth (Z.to_nat (hpo_last_hardfork (hardforks s) + 1)) times 0) (gpo_time (gpo s))); [|done].
    destruct (Z.ltb_spec (hpo_last_hardfork (hardforks s)) 5); [done|lia].
Qed.
End times.

(** C28. [process_hardforks] applies hard forks one after the other and records each
    once.  Once hard fork 5 is active it goes exactly as far as the version the
    witnesses voted for when its time has come, and nowhere before; until then it
    goes through hard fork 5 as far as the configured times allow.  It never ends
    short of that for lack of rounds. *)
Theorem process_hardforks_in_order times s u s' :
  length times = S (Z.to_nat NUM_HARDFORKS) → hf_ok times (hardforks s) →
  ⟨ process_hardforks times, s ⟩ ⇓ ⟨ u, s' ⟩ →
  let h := hardforks s in let last := hpo_last_hardfork h in let last' := hpo_last_hardfork (hardforks s') in
  let now := gpo_time (gpo s) in
  hf_ok times (hardforks s') ∧ last ≤ last' ∧
  if hardfork_active s HARDFORK_0_5 then
    (now < hpo_next_hardfork_time h → last' = last) ∧
    (hpo_next_hardfork_time h ≤ now → hpo_next_hardfork h ≤ hardfork_version_at last') ∧
    (last < last' → hardfork_version_at (last' - 1) < hpo_next_hardfork h)
  else
    last' ≤ Z.max last HARDFORK_0_5 ∧
    (last' < HARDFORK_0_5 → now < nth (Z.to_nat (last' + 1)) times 0) ∧
    (∀ i, last < i ≤ last' → nth (Z.to_nat i) times 0 ≤ now).
Proof.
  intros Ht Hok Hr h last last' now. unfold process_hardforks, has_hardfork in Hr.
  apply runs_bind in Hr as (? & ? & [-> ->]%runs_asks & Hr). pose proof (hf_range _ _ Hok) as Hrange.
  set (rounds := S (S (Z.to_nat NUM_HARDFORKS))) in Hr.
  assert (NUM_HARDFORKS - hpo_last_hardfork (hardforks s) < Z.of_nat rounds) as Hf by (unfold rounds, NUM_HARDFORKS in *; lia).
  destruct (hardfork_active s HARDFORK_0_5).
  - by apply process_voted_run in Hr.
  - apply process_configured_run in Hr as (H1 & H2 & H3 & H4); [|done..]. split_and!; [done|apply H2|apply H2|done|done].
Qed.
End order.

(** * Examples *)

Module HardforkExamples.
Import FcRef DiscussionExamples.

(** Alice's post and Bob's reply, with wrong counts. *)
Definition miscounted : database := with_comments (with_counts (λ _, 7) (rows (comments replied))) replied.
Lemma miscounted_forest : forest (rows (comments miscounted)) (next_id (comments miscounted)).
Proof.
  assert (⟨ comment_apply alice_posts, posting_time ⟩ ⇓ ⟨ tt, posted ⟩) as Ha by runs_ok.
  assert (⟨ comment_apply bob_replies, posted ⟩ ⇓ ⟨ tt, replied ⟩) as Hb by runs_ok.
  assert (0 ≤ next_id (comments posting_time)) as H0 by (apply Z.leb_le; vm_compute; reflexivity).
  assert (0 ≤ next_id (comments posted)) as H1 by (apply Z.leb_le; vm_compute; reflexivity).
  pose proof (comment_apply_tree alice_posts _ _ _ empty_tree H0 Ha) as Hp.
  destruct (comment_apply_tree bob_replies _ _ _ Hp H1 Hb) as [Hf _].
  unfold miscounted. rewrite with_comments_rows, with_comments_next. apply (forest_view _ _ Hf).
  intros k. rewrite with_counts_lookup. by destruct (rows (comments replied) !! k).
Qed.

Lemma retally_comment_children_exact_witness :
  ∃ m, ⟨ retally_comment_children, miscounted ⟩ ⇓ ⟨ tt, with_comments m miscounted ⟩ ∧
    (λ c, cmt_children c) <$> m !! ("alice", "hello")%string = Some 1.
Proof.
  destruct (retally_comment_children_exact miscounted miscounted_forest) as (m & Hr & _ & Hm). exists m. split; [exact Hr|].
  rewrite Hm. vm_compute. reflexivity.
Defined.

(** The candidate's votes are wrong; Alice votes for it with 100. *)
Definition miscast : database :=
  set_row witnesses "awitness"%string (VoteExamples.candidate <| wit_votes := 5 |>) VoteExamples.election.
Lemma miscast_wf : votes_wf miscast.
Proof.
  apply (votes_moved_wf (λ _, -95) VoteExamples.election); [|apply VoteExamples.election_ok]. split; [done|].
  intros n w. unfold miscast. db_fields. rewrite lookup_insert_Some. intros [[<- <-]|[Hne Hw]].
  - exists VoteExamples.candidate. done.
  - apply VoteExamples.candidate_cases in Hw as [-> _]. done.
Qed.
Definition recast : database := outcome retally_witness_votes miscast.
Lemma recast_runs : ⟨ retally_witness_votes, miscast ⟩ ⇓ ⟨ tt, recast ⟩.
Proof. runs_ok. Qed.

Lemma retally_witness_votes_exact_witness :
  votes_wf recast ∧ wit_votes <$> rows (witnesses recast) !! "awitness"%string = Some 100.
Proof.
  destruct (retally_witness_votes_exact miscast tt recast miscast_wf recast_runs) as (_ & H & _).
  split; [exact H|vm_compute; reflexivity].
Defined.

(** A new chain, whose clock is past the configured times. *)
Definition new_chain : database :=
  sample <| gpo ::= λ g, g <| gpo_time := GENESIS_TIME + 3 |> |>
         <| hardforks := {| hpo_processed_hardforks := [GENESIS_TIME]; hpo_last_hardfork := 0;
              hpo_current_hardfork_version := 0; hpo_next_hardfork := 0; hpo_next_hardfork_time := 0 |} |>.
Definition first_block : database := outcome (process_hardforks configured_times) new_chain.

Lemma process_hardforks_in_order_witness :
  hf_ok configured_times (hardforks first_block) ∧ hpo_last_hardfork (hardforks first_block) = 5.
Proof.
  assert (⟨ process_hardforks configured_times, new_chain ⟩ ⇓ ⟨ tt, first_block ⟩) as Hr by runs_ok.
  assert (hf_ok configured_times (hardforks new_chain)) as Hok by (split; [split; apply Z.leb_le|..]; reflexivity).
  destruct (process_hardforks_in_order configured_times new_chain tt first_block eq_refl Hok Hr) as (H & _).
  split; [exact H|vm_compute; reflexivity].
Defined.
End HardforkExamples.
