(* ===== verification/Mining.v ===== *)
(** Custom operations and mining: the [custom], [pow] and [pow2] evaluators of
    [chain/node_evaluator.cpp] and the interpreters of custom operations
    ([chain/generic_custom_operation_interpreter.hpp]).

    A proof of work puts its worker in the mining queue, from which the witness
    schedule takes one miner per round.  The operations of a plugin run in an undo
    session of their own; a block is never refused because of one. *)

From S2P Require Import Prelude Fc Config Asset Flat Authority BlockHeader Operations Objects Database Samples Slots Feeds Ledger Frame Supply Quiet Accounts Same Inflation Schedule.

(** What the node uses of [fc::sha256] besides the hash: digests made of four 64-bit
    words, [operator >>] and [operator <]. *)
Class FcPow := {
  sha256_of_words : list Z → string;
  sha256_shr : string → Z → string;
  sha256_ltb : string → string → bool;
}.

(** The operations of a plugin and how they are read from a custom operation. *)
Class PluginOps := {
  plugin_op : Type;
  plugin_validate : plugin_op → result unit;
  plugin_required : required → plugin_op → required;
  plugin_apply : plugin_op → DB unit;
  (** [fc::json::from_string] and [from_variant]. *)
  json_operations : string → result (list plugin_op);
  (** [fc::raw::unpack] of a vector of operations, and of one. *)
  unpack_operations : string → result (list plugin_op);
  unpack_operation : string → result plugin_op;
}.

(** [custom_operation_interpreter], libraries/chain/include/node/chain/custom_operation_interpreter.hpp:16-22 *)
Record custom_operation_interpreter := {
  interpret_json : customJson_operation → DB unit;
  interpret_binary : custom_binary_operation → DB unit;
}.

(** * The interpreter of a plugin *)

Section interpreter.
Context {P : PluginOps}.

(** [generic_custom_operation_interpreter::apply_operations], libraries/chain/include/node/chain/generic_custom_operation_interpreter.hpp:25-63 *)
Definition apply_operations (custom_operations : list plugin_op) (outer_o : operation) : DB unit :=
  let outer := operation_get_required_authorities (Required [] [] [] []) outer_o in
  lift (rfor plugin_validate custom_operations);;
  let inner := fold_left plugin_required custom_operations (Required [] [] [] []) in
  fc_assert (bool_decide (req_owner inner = req_owner outer)) EmptyString;;
  fc_assert (bool_decide (req_active inner = req_active outer)) EmptyString;;
  fc_assert (bool_decide (req_posting inner = req_posting outer)) EmptyString;;
  fc_assert (bool_decide (req_other inner = req_other outer)) EmptyString;;
  mfor plugin_apply custom_operations.

(** [generic_custom_operation_interpreter::apply( customJson_operation )], libraries/chain/include/node/chain/generic_custom_operation_interpreter.hpp:65-86 *)
Definition interpret_customJson (outer_o : customJson_operation) : DB unit :=
  custom_operations ← lift (json_operations (customJson_json outer_o));
  apply_operations custom_operations (customJson_ outer_o).

(** [generic_custom_operation_interpreter::apply( custom_binary_operation )], libraries/chain/include/node/chain/generic_custom_operation_interpreter.hpp:88-107 *)
Definition interpret_custom_binary (outer_o : custom_binary_operation) : DB unit :=
  custom_operations ←
    lift (match unpack_operations (custom_binary_data outer_o) with
          | Ok l => Ok l
          | Err _ => o ← unpack_operation (custom_binary_data outer_o); Ok [o]
          end);
  apply_operations custom_operations (custom_binary_ outer_o).

(** [generic_custom_operation_interpreter], libraries/chain/include/node/chain/generic_custom_operation_interpreter.hpp:19-23 *)
Definition generic_custom_operation_interpreter : custom_operation_interpreter :=
  {| interpret_json := interpret_customJson; interpret_binary := interpret_custom_binary |}.
End interpreter.

(** * Custom operations *)

Section custom.
(** [_customOperation_interpreters] and [is_producing()]. *)
Context (get_customJson_evaluator : string → option custom_operation_interpreter) (producing : bool).

(** [try { eval->apply( o ); } catch( const fc::exception& e ) { if( d.is_producing() ) throw e; }];
    the session of the interpreter has undone what it changed. *)
Definition try_interpret (m : DB unit) : DB unit := λ s,
  match m s with
  | Ok r => Ok r
  | Err e => if producing then Err e else Ok (tt, s)
  end.

(** [custom_evaluator::do_apply], libraries/chain/node_evaluator.cpp:1523-1528 *)
Definition custom_apply (o : custom_operation) : DB unit :=
  mwhen producing (fc_assert (size (custom_data o) <=? 8192) "custom_operation data must be less than 8k").

(** [customJson_evaluator::do_apply], libraries/chain/node_evaluator.cpp:1530-1553 *)
Definition customJson_apply (o : customJson_operation) : DB unit :=
  mwhen producing (fc_assert (size (customJson_json o) <=? 8192) "customJson_operation json must be less than 8k");;
  match get_customJson_evaluator (customJson_id o) with
  | None => mret tt
  | Some eval => try_interpret (interpret_json eval o)
  end.

(** [custom_binary_evaluator::do_apply], libraries/chain/node_evaluator.cpp:1556-1583 *)
Definition custom_binary_apply (o : custom_binary_operation) : DB unit :=
  mwhen producing
    (fc_assert false "custom_binary_operation is deprecated";;
     fc_assert (size (custom_binary_data o) <=? 8192) "custom_binary_operation data must be less than 8k");;
  hf ← has_hardfork HARDFORK_0_14;
  fc_assert hf EmptyString;;
  match get_customJson_evaluator (custom_binary_id o) with
  | None => mret tt
  | Some eval => try_interpret (interpret_binary eval o)
  end.
End custom.

(** * Mining *)

Section mining.
Context {F : Fc} {C : FcCrypto} {P : FcPow}.

(** [database::get_pow_target], libraries/chain/database.cpp:1082-1092 *)
Definition get_pow_target : DB string :=
  dgp ← get_dynamic_global_properties;
  let target := sha256_of_words [u64_max; u64_max; u64_max; u64_max] in
  mret (sha256_shr target (gpo_num_pow_witnesses dgp / 4 + 4)).

(** [database::get_pow_summary_target], libraries/chain/database.cpp:1094-1104 *)
Definition get_pow_summary_target : DB Z :=
  dgp ← get_dynamic_global_properties;
  if 1004 <=? gpo_num_pow_witnesses dgp then mret 0
  else
    hf16 ← has_hardfork HARDFORK_0_16;
    let top := if (hf16 : bool) then 0xFE00 else 0xFC00 in
    mret (wrap_u32 (Z.shiftl (wrap_u32 (top - 0x0040 * gpo_num_pow_witnesses dgp)) 0x10)).

(** The account of a new miner and its authorities. *)
Definition create_miner (name recovery : account_name) (key : public_key) : DB unit :=
  dgp ← get_dynamic_global_properties;
  create accounts name (λ id,
    account_defaults id <| acc_name := name |> <| acc_memoKey := key |> <| acc_created := gpo_time dgp |>
      <| acc_last_vote_time := gpo_time dgp |> <| acc_recoveryAccount := recovery |>);;
  let auth := add_key_authority key 1 (Authority 1 [] []) in
  create account_authorities name (λ id,
    {| aao_id := id; aao_account := name; aao_owner := auth; aao_active := auth; aao_posting := auth;
       aao_last_owner_update := tps_min |}).

(** Count one more proof of work. *)
Definition count_pow : DB unit :=
  modify1 gpo (λ p, Ok (p <| gpo_total_pow ::= λ n, wrap_u64 (n + 1) |>
                          <| gpo_num_pow_witnesses ::= λ n, wrap_u32 (n + 1) |>)).

(** The checks of [pow_apply] on the worker: its account and its only key. *)
Definition check_worker (o : pow_operation) : DB account_object :=
  let w := pow_op_work o in
  worker_account ← get_account (pow_op_worker_account o);
  worker_auth ← get account_authorities (pow_op_worker_account o);
  fc_assert (num_auths (aao_active worker_auth) =? 1) "Miners can only have one key authority.";;
  fc_assert (Z.of_nat (length (key_auths (aao_active worker_auth))) =? 1) "Miners may only have one key authority.";;
  fc_assert (bool_decide (fst <$> head (key_auths (aao_active worker_auth)) = Some (pow_worker w)))
    "Work must be performed by key that signed the work.";;
  dgp ← get_dynamic_global_properties;
  fc_assert (bool_decide (pow_op_block_id o = gpo_head_block_id dgp)) "pow not for last block";;
  hf13 ← has_hardfork HARDFORK_0_13;
  mwhen hf13 (fc_assert (acc_last_accountUpdate worker_account <? gpo_time dgp)
    "Worker account must not have updated their account this block.");;
  mret worker_account.

(** The witness of the worker enters the mining queue. *)
Definition enqueue_pow (o : pow_operation) (worker_account : account_object) : DB unit :=
  let w := pow_op_work o in
  dgp ← get_dynamic_global_properties;
  cur_witness ← find_witness (acc_name worker_account);
  match cur_witness with
  | Some cur_witness =>
      fc_assert (wit_pow_worker cur_witness =? 0) "This account is already scheduled for pow block production.";;
      modify witnesses (acc_name worker_account) (λ wo,
        Ok (wo <| wit_props := pow_op_props o |> <| wit_pow_worker := gpo_total_pow dgp |>
               <| wit_last_work := pow_work w |>))
  | None =>
      create witnesses (pow_op_worker_account o) (λ id,
        witness_defaults id (pow_op_props o) <| wit_owner := pow_op_worker_account o |>
          <| wit_signing_key := pow_worker w |> <| wit_pow_worker := gpo_total_pow dgp |>
          <| wit_last_work := pow_work w |>)
  end.

(** The reward of [pow_apply] to the witness that includes the work. *)
Definition reward_pow : DB unit :=
  pow_reward ← get_pow_reward;
  n ← head_block_num;
  let mining := n <? START_MINER_VOTING_BLOCK in
  a ← lift (if mining then safe_mul (amount pow_reward) MAX_WITNESSES else Ok (amount pow_reward));
  let pow_reward := Asset a (symbol pow_reward) in
  adjust_supply pow_reward true;;
  dgp ← get_dynamic_global_properties;
  _ ← get_account (gpo_current_witness dgp);
  if mining then adjust_balance (gpo_current_witness dgp) pow_reward
  else _ ← createTMEfundForSCORE (gpo_current_witness dgp) pow_reward false; mret tt.

(** [pow_apply], libraries/chain/node_evaluator.cpp:1586-1678 *)
Definition pow_apply (o : pow_operation) : DB unit :=
  hf5 ← has_hardfork HARDFORK_0_5;
  known ← asks (λ s, bool_decide (map_Exists (λ _ w, wit_last_work w = pow_work (pow_op_work o)) (rows (witnesses s))));
  mwhen hf5 (fc_assert (negb known) "DUPLICATE WORK DISCOVERED");;
  itr ← find_account (pow_op_worker_account o);
  hf11 ← has_hardfork HARDFORK_0_11;
  mwhen (bool_decide (itr = None))
    (create_miner (pow_op_worker_account o) (if (hf11 : bool) then EmptyString else "WeYouMe"%string)
       (pow_worker (pow_op_work o)));;
  worker_account ← check_worker o;
  target ← get_pow_target;
  fc_assert (sha256_ltb (pow_work (pow_op_work o)) target) "Work lacks sufficient difficulty.";;
  count_pow;;
  enqueue_pow o worker_account;;
  reward_pow.

(** [pow_evaluator::do_apply], libraries/chain/node_evaluator.cpp:1680-1683 *)
Definition pow_do_apply (o : pow_operation) : DB unit :=
  hf13 ← has_hardfork HARDFORK_0_13;
  fc_assert (negb hf13) "pow is deprecated. Use pow2 instead";;
  pow_apply o.

(** The part of [pow2_evaluator::do_apply] that checks the work; it returns the worker. *)
Definition check_work (o : pow2_operation) : DB account_name :=
  dgp ← get_dynamic_global_properties;
  target_pow ← get_pow_summary_target;
  hf16 ← has_hardfork HARDFORK_0_16;
  if (hf16 : bool) then
    match pow2_op_work o with
    | pow2_work_equihash work =>
        fc_assert (bool_decide (equihash_pow_prev_block work = gpo_head_block_id dgp)) "Equihash pow op not for last block";;
        let recent_block_num := num_from_id (pow2_input_prev_block (equihash_pow_input work)) in
        fc_assert (gpo_last_irreversible_block_num dgp <? recent_block_num)
          "Equihash pow done for block older than last irreversible block num";;
        fc_assert (equihash_pow_pow_summary work <? target_pow) "Insufficient work difficulty.";;
        mret (pow2_input_worker_account (equihash_pow_input work))
    | _ => throw (assert_exception "static_variant")
    end
  else
    match pow2_op_work o with
    | pow2_work_pow2 work =>
        fc_assert (bool_decide (pow2_input_prev_block (pow2_input_ work) = gpo_head_block_id dgp)) "Work not for last block";;
        fc_assert (pow2_pow_summary work <? target_pow) "Insufficient work difficulty.";;
        mret (pow2_input_worker_account (pow2_input_ work))
    | _ => throw (assert_exception "static_variant")
    end.

(** The part that puts the worker in the mining queue. *)
Definition enqueue_pow2 (o : pow2_operation) (worker_account : account_name) : DB unit :=
  dgp ← get_dynamic_global_properties;
  itr ← find_account worker_account;
  match itr with
  | None =>
      match pow2_op_new_owner_key o with
      | None => throw (assert_exception "New owner key is not valid.")
      | Some key =>
          create_miner worker_account EmptyString key;;
          create witnesses worker_account (λ id,
            witness_defaults id (pow2_op_props o) <| wit_owner := worker_account |> <| wit_signing_key := key |>
              <| wit_pow_worker := gpo_total_pow dgp |>)
      end
  | Some _ =>
      fc_assert (bool_decide (pow2_op_new_owner_key o = None)) "Cannot specify an owner key unless creating account.";;
      cur_witness ← find_witness worker_account;
      match cur_witness with
      | None => throw (assert_exception "Witness must be created for existing account before mining.")
      | Some cur_witness =>
          fc_assert (wit_pow_worker cur_witness =? 0) "This account is already scheduled for pow block production.";;
          modify witnesses worker_account (λ w,
            Ok (w <| wit_props := pow2_op_props o |> <| wit_pow_worker := gpo_total_pow dgp |>))
      end
  end.

(** The reward of a [pow2] to the witness that includes it, until hard fork 16. *)
Definition reward_pow2 : DB unit :=
  inc_reward ← get_pow_reward;
  adjust_supply inc_reward true;;
  dgp ← get_dynamic_global_properties;
  _ ← get_account (gpo_current_witness dgp);
  _ ← createTMEfundForSCORE (gpo_current_witness dgp) inc_reward false; mret tt.

(** [pow2_evaluator::do_apply], libraries/chain/node_evaluator.cpp:1686-1773 *)
Definition pow2_do_apply (o : pow2_operation) : DB unit :=
  hf17 ← has_hardfork HARDFORK_0_17;
  fc_assert (negb hf17) "mining is now disabled";;
  worker_account ← check_work o;
  fc_assert (MIN_BLOCK_SIZE_LIMIT * 2 <=? props_maximum_block_size (pow2_op_props o)) "Voted maximum block size is too small.";;
  count_pow;;
  enqueue_pow2 o worker_account;;
  hf16 ← has_hardfork HARDFORK_0_16;
  mwhen (negb hf16) reward_pow2.

End mining.

(** * The queue of the miners *)

Section queue.
Context {F : Fc} {FL : FcLaws F} {C : FcCrypto} {P : FcPow}.

(** The witnesses in the queue. *)
Definition in_queue (n : Z) : Z := if n =? 0 then 0 else 1.
Definition queued (s : database) : Z := map_sum in_queue (wit_pow_worker <$> rows (witnesses s)).
(** What the queue and the two counters of mining say. *)
Definition mining_view (s : database) : gmap account_name Z * (Z * Z) :=
  (wit_pow_worker <$> rows (witnesses s), (gpo_total_pow (gpo s), gpo_num_pow_witnesses (gpo s))).

(** The queue is as long as the counter says. *)
Definition queue_exact (s : database) : Prop := gpo_num_pow_witnesses (gpo s) = queued s.

Lemma mining_view_inv s s' : same mining_view s s' →
  wit_pow_worker <$> rows (witnesses s') = wit_pow_worker <$> rows (witnesses s) ∧
  gpo_total_pow (gpo s') = gpo_total_pow (gpo s) ∧ gpo_num_pow_witnesses (gpo s') = gpo_num_pow_witnesses (gpo s).
Proof. unfold same, mining_view. by intros [= -> -> ->]. Qed.
Lemma mining_view_queued s s' : same mining_view s s' → queued s' = queued s ∧ gpo_num_pow_witnesses (gpo s') = gpo_num_pow_witnesses (gpo s).
Proof. intros (E & _ & ->)%mining_view_inv. unfold queued. by rewrite E. Qed.

(** ** What does not touch the queue *)

Lemma create_miner_mining n r k : preserves (same mining_view) (create_miner n r k).
Proof. unfold create_miner. samed. Qed.
Lemma adjust_witness_votes_mining id d : preserves (same mining_view) (adjust_witness_votes id d).
Proof. unfold adjust_witness_votes, adjust_witness_vote, get_witness_by_id. samed. Qed.
#[local] Hint Resolve create_miner_mining adjust_witness_votes_mining : same.
Lemma adjust_proxied_from_mining n : ∀ a d, preserves (same mining_view) (adjust_proxied_from n a d).
Proof. induction n as [|n IH]; intros a d; cbn [adjust_proxied_from]; samed. Qed.
#[local] Hint Resolve adjust_proxied_from_mining : same.
Lemma createTMEfundForSCORE_mining n a b : preserves (same mining_view) (createTMEfundForSCORE n a b).
Proof. unfold createTMEfundForSCORE, adjust_proxied_witness_votes. samed. Qed.
Lemma adjust_balance_mining n a : preserves (same mining_view) (adjust_balance n a).
Proof. unfold adjust_balance, pay_interest. samed. Qed.
Lemma adjust_supply_mining a b : preserves (same mining_view) (adjust_supply a b).
Proof. unfold adjust_supply. samed. Qed.
#[local] Hint Resolve createTMEfundForSCORE_mining adjust_balance_mining adjust_supply_mining : same.
Lemma reward_of_mining c p a : preserves (same mining_view) (reward_of c p a).
Proof. unfold reward_of. samed. Qed.
#[local] Hint Resolve reward_of_mining : same.
Lemma reward_pow_mining : preserves (same mining_view) reward_pow.
Proof. unfold reward_pow, get_pow_reward. samed. Qed.
Lemma reward_pow2_mining : preserves (same mining_view) reward_pow2.
Proof. unfold reward_pow2, get_pow_reward. samed. Qed.
Lemma check_worker_reads o s a s' : ⟨ check_worker o, s ⟩ ⇓ ⟨ a, s' ⟩ → s' = s.
Proof. unfold check_worker. repeat autounfold with accessors. intros Hr. db_inv. destruct (hardfork_active _ _); by db_inv. Qed.

(** ** What a proof of work does to the queue *)

(** One more entry. *)
Definition enqueued (s s' : database) : Prop :=
  queued s' = queued s + 1 ∧ gpo_num_pow_witnesses (gpo s') = wrap_u32 (gpo_num_pow_witnesses (gpo s) + 1).

Lemma count_pow_effect s u s' : ⟨ count_pow, s ⟩ ⇓ ⟨ u, s' ⟩ →
  wit_pow_worker <$> rows (witnesses s') = wit_pow_worker <$> rows (witnesses s) ∧
  gpo_total_pow (gpo s') = wrap_u64 (gpo_total_pow (gpo s) + 1) ∧
  gpo_num_pow_witnesses (gpo s') = wrap_u32 (gpo_num_pow_witnesses (gpo s) + 1).
Proof. unfold count_pow. intros (g & [= <-] & ->)%runs_modify1. by db_fields. Qed.

Lemma queued_set k w w' s :
  rows (witnesses s) !! k = Some w → wit_pow_worker w = 0 → wit_pow_worker w' ≠ 0 →
  queued (set_row witnesses k w' s) = queued s + 1.
Proof.
  intros Hk H0 H1. unfold queued. db_fields. rewrite fmap_insert.
  assert ((wit_pow_worker <$> rows (witnesses s)) !! k = Some 0) as Hz by (by rewrite lookup_fmap, Hk, <- H0).
  rewrite (map_sum_insert in_queue _ _ _ _ Hz). unfold in_queue at 2 3. destruct (Z.eqb_spec (wit_pow_worker w') 0); [done|]. cbn. lia.
Qed.
Lemma queued_add k w s :
  rows (witnesses s) !! k = None → wit_pow_worker w ≠ 0 → queued (add_row witnesses k w s) = queued s + 1.
Proof.
  intros Hk H1. unfold queued. db_fields. rewrite fmap_insert, map_sum_insert_new by (by rewrite lookup_fmap, Hk).
  unfold in_queue at 1. destruct (Z.eqb_spec (wit_pow_worker w) 0); [done|]. lia.
Qed.

Lemma enqueue_pow_effect o a s u s' :
  gpo_total_pow (gpo s) ≠ 0 → ⟨ enqueue_pow o a, s ⟩ ⇓ ⟨ u, s' ⟩ →
  queued s' = queued s + 1 ∧ gpo_num_pow_witnesses (gpo s') = gpo_num_pow_witnesses (gpo s).
Proof.
  unfold enqueue_pow. repeat autounfold with accessors. intros Ht Hr. db_inv.
  destruct (rows (witnesses s) !! acc_name a) as [w|] eqn:Hw; db_inv; bool_hyps.
  - rewrite Hw in Hrow. injection Hrow as <-. injection Hval as <-.
    split; [by eapply queued_set|by db_fields].
  - split; [by apply queued_add|by db_fields].
Qed.
Lemma enqueue_pow2_effect o n s u s' :
  gpo_total_pow (gpo s) ≠ 0 → ⟨ enqueue_pow2 o n, s ⟩ ⇓ ⟨ u, s' ⟩ →
  queued s' = queued s + 1 ∧ gpo_num_pow_witnesses (gpo s') = gpo_num_pow_witnesses (gpo s).
Proof.
  unfold enqueue_pow2. repeat autounfold with accessors. intros Ht Hr. do 4 db_step.
  destruct (rows (accounts s) !! n) as [a|].
  - do 4 db_step. destruct (rows (witnesses s) !! n) as [w|] eqn:Hw; db_inv; bool_hyps.
    rewrite Hw in Hrow. injection Hrow as <-. injection Hval as <-.
    split; [by eapply queued_set|by db_fields].
  - destruct (pow2_op_new_owner_key o) as [key|]; [|by db_inv].
    apply runs_bind in Hr as ([] & s1 & Hm & Hr). apply create_miner_mining, mining_view_queued in Hm as [Eq En].
    db_inv. rewrite <- Eq, <- En. split; [by apply queued_add|by db_fields].
Qed.

Lemma wrap_u64_succ n : 0 ≤ n < u64_max → wrap_u64 (n + 1) ≠ 0.
Proof. unfold wrap_u64, u64_max. intros. rewrite Z.mod_small; lia. Qed.

(** Counting and entering the queue, between steps that do not touch it. *)
Lemma enqueued_between s s1 s2 s3 s' u :
  0 ≤ gpo_total_pow (gpo s) < u64_max → same mining_view s s1 → ⟨ count_pow, s1 ⟩ ⇓ ⟨ u, s2 ⟩ →
  (gpo_total_pow (gpo s2) ≠ 0 → queued s3 = queued s2 + 1 ∧ gpo_num_pow_witnesses (gpo s3) = gpo_num_pow_witnesses (gpo s2)) →
  same mining_view s3 s' → enqueued s s'.
Proof.
  intros Ht (Ew & Et & En)%mining_view_inv (Ew' & Et' & En')%count_pow_effect H3 [Eq En3]%mining_view_queued.
  destruct H3 as [Hq Hn]; [rewrite Et', Et; by apply wrap_u64_succ|].
  unfold enqueued. rewrite Eq, En3, Hn, En', En, Hq. unfold queued. by rewrite Ew', Ew.
Qed.

(** The steps of a proof of work. *)
Lemma pow_steps o s u s' : ⟨ pow_do_apply o, s ⟩ ⇓ ⟨ u, s' ⟩ →
  ∃ s1 s2 s3 r k a,
    (s1 = s ∨ ⟨ create_miner (pow_op_worker_account o) r k, s ⟩ ⇓ ⟨ tt, s1 ⟩) ∧ ⟨ count_pow, s1 ⟩ ⇓ ⟨ tt, s2 ⟩ ∧
    ⟨ enqueue_pow o a, s2 ⟩ ⇓ ⟨ tt, s3 ⟩ ∧ ⟨ reward_pow, s3 ⟩ ⇓ ⟨ tt, s' ⟩.
Proof.
  unfold pow_do_apply, pow_apply, get_pow_target. repeat autounfold with accessors. intros Hr. do 6 db_step. db_inv.
  apply check_worker_reads in Hr2 as ->.
  assert (s0 = s) as -> by (destruct (hardfork_active s HARDFORK_0_5); by db_inv).
  destruct (bool_decide (rows (accounts s) !! pow_op_worker_account o = None)).
  - exists s1, s4, s5, (if hardfork_active s HARDFORK_0_11 then "" else "WeYouMe")%string, (pow_worker (pow_op_work o)), v2.
    auto.
  - exists s1, s4, s5, EmptyString, EmptyString, v2. auto.
Qed.

Lemma check_work_reads o s a s' : ⟨ check_work o, s ⟩ ⇓ ⟨ a, s' ⟩ → s' = s.
Proof.
  unfold check_work, get_pow_summary_target. repeat autounfold with accessors. intros Hr. do 2 db_step.
  apply runs_bind in Hr as (t & s1 & Ht & Hr). assert (s1 = s) as ->.
  { apply runs_bind in Ht as (? & ? & [-> ->]%runs_asks & Ht). destruct (1004 <=? _); by db_inv. }
  clear Ht. do 2 db_step. destruct (hardfork_active s HARDFORK_0_16), (pow2_op_work o); by db_inv.
Qed.
Lemma pow2_steps o s u s' : ⟨ pow2_do_apply o, s ⟩ ⇓ ⟨ u, s' ⟩ →
  ∃ a s2 s3, ⟨ check_work o, s ⟩ ⇓ ⟨ a, s ⟩ ∧ ⟨ count_pow, s ⟩ ⇓ ⟨ tt, s2 ⟩ ∧
    ⟨ enqueue_pow2 o a, s2 ⟩ ⇓ ⟨ tt, s3 ⟩ ∧ (s' = s3 ∨ ⟨ reward_pow2, s3 ⟩ ⇓ ⟨ tt, s' ⟩).
Proof.
  unfold pow2_do_apply. repeat autounfold with accessors. intros Hr. db_inv.
  pose proof (check_work_reads _ _ _ _ Hr0) as ->.
  match goal with H : if ?c then _ else _ |- _ => destruct c; [|subst] end; eauto 10.
Qed.

Lemma pow_enqueues o s u s' :
  0 ≤ gpo_total_pow (gpo s) < u64_max → ⟨ pow_do_apply o, s ⟩ ⇓ ⟨ u, s' ⟩ → enqueued s s'.
Proof.
  intros Ht (s1 & s2 & s3 & r & k & a & H1 & H2 & H3 & H4)%pow_steps. eapply enqueued_between; [done| |done| |].
  - destruct H1 as [->|H1]; [done|]. by eapply create_miner_mining.
  - intros Hne. by eapply enqueue_pow_effect.
  - by eapply reward_pow_mining.
Qed.
Lemma pow2_enqueues o s u s' :
  0 ≤ gpo_total_pow (gpo s) < u64_max → ⟨ pow2_do_apply o, s ⟩ ⇓ ⟨ u, s' ⟩ → enqueued s s'.
Proof.
  intros Ht (a & s2 & s3 & H1 & H2 & H3 & H4)%pow2_steps. eapply (enqueued_between s s); [done..| |].
  - intros Hne. by eapply enqueue_pow2_effect.
  - destruct H4 as [->|H4]; [done|]. by eapply reward_pow2_mining.
Qed.

(** ** The supplies *)

Lemma create_miner_conserves n r k s u s' : ⟨ create_miner n r k, s ⟩ ⇓ ⟨ u, s' ⟩ → conserves s s'.
Proof.
  unfold create_miner. repeat autounfold with accessors. intros Hr. apply runs_bind in Hr as (? & ? & [-> ->]%runs_asks & Hr).
  apply runs_bind in Hr as ([] & s1 & [Hn ->]%runs_create & [_ ->]%runs_create).
  match goal with |- conserves _ (add_row _ _ _ ?t) => assert (conserves s t) as Hc end.
  { eapply shifts_eq; [by apply shifts_add_account|done..]. }
  etrans; [exact Hc|]. off_books.
Qed.
Lemma count_pow_conserves s u s' : ⟨ count_pow, s ⟩ ⇓ ⟨ u, s' ⟩ → conserves s s'.
Proof.
  unfold count_pow. intros (g & [= <-] & ->)%runs_modify1.
  eapply shifts_eq; [apply shifts_gpo|unfold gpo_tme, gpo_tsd, gpo_score, gpo_pend; fields; lia..].
Qed.
Lemma enqueue_pow_conserves o a s u s' : ⟨ enqueue_pow o a, s ⟩ ⇓ ⟨ u, s' ⟩ → conserves s s'.
Proof.
  unfold enqueue_pow. repeat autounfold with accessors. intros Hr. db_inv.
  destruct (rows (witnesses s) !! acc_name a); db_inv; off_books.
Qed.
Lemma enqueue_pow2_conserves o n s u s' : ⟨ enqueue_pow2 o n, s ⟩ ⇓ ⟨ u, s' ⟩ → conserves s s'.
Proof.
  unfold enqueue_pow2. repeat autounfold with accessors. intros Hr. do 4 db_step.
  destruct (rows (accounts s) !! n) as [a|].
  - do 4 db_step. destruct (rows (witnesses s) !! n); db_inv; off_books.
  - destruct (pow2_op_new_owner_key o) as [key|]; [|by db_inv].
    apply runs_bind in Hr as ([] & s1 & Hm & Hr). apply create_miner_conserves in Hm.
    db_inv. etrans; [exact Hm|]. off_books.
Qed.
Lemma get_pow_reward_reads s a s' : ⟨ get_pow_reward, s ⟩ ⇓ ⟨ a, s' ⟩ → s' = s ∧ symbol a = SYMBOL_COIN.
Proof.
  unfold get_pow_reward. repeat autounfold with accessors. intros Hr. do 2 db_step.
  destruct (_ && _); [by db_inv|]. by apply reward_of_reads in Hr as (-> & ? & _).
Qed.
Lemma reward_pow_conserves s u s' : ⟨ reward_pow, s ⟩ ⇓ ⟨ u, s' ⟩ → conserves s s'.
Proof.
  unfold reward_pow. intros Hr. apply runs_bind in Hr as (p & s1 & [-> Hp]%get_pow_reward_reads & Hr).
  destruct p as [x sym]. cbn in Hp. subst sym. cbn [symbol amount] in Hr.
  books Hr. cbn [amount] in *. add_shifts.
Qed.
Lemma reward_pow2_conserves s u s' : ⟨ reward_pow2, s ⟩ ⇓ ⟨ u, s' ⟩ → conserves s s'.
Proof.
  unfold reward_pow2. intros Hr. apply runs_bind in Hr as (p & s1 & [-> Hp]%get_pow_reward_reads & Hr).
  destruct p as [x sym]. cbn in Hp. subst sym.
  books Hr. cbn [amount] in *. add_shifts.
Qed.

Lemma pow_conserves o s u s' : ⟨ pow_do_apply o, s ⟩ ⇓ ⟨ u, s' ⟩ → conserves s s'.
Proof.
  intros (s1 & s2 & s3 & r & k & a & H1 & H2%count_pow_conserves & H3%enqueue_pow_conserves & H4%reward_pow_conserves)%pow_steps.
  assert (conserves s s1) as Hc by (destruct H1 as [->|H1]; [done|by eapply create_miner_conserves]).
  etrans; [exact Hc|]. etrans; [exact H2|]. by etrans.
Qed.
Lemma pow2_conserves o s u s' : ⟨ pow2_do_apply o, s ⟩ ⇓ ⟨ u, s' ⟩ → conserves s s'.
Proof.
  intros (a & s2 & s3 & H1 & H2%count_pow_conserves & H3%enqueue_pow2_conserves & H4)%pow2_steps.
  etrans; [exact H2|]. etrans; [exact H3|]. destruct H4 as [->|H4]; [done|by eapply reward_pow2_conserves].
Qed.

(** The target leaves no room for a work when 1004 miners are queued. *)
Lemma work_below_target o s a s' : ⟨ check_work o, s ⟩ ⇓ ⟨ a, s' ⟩ →
  (∀ w, pow2_op_work o = pow2_work_pow2 w → 0 ≤ pow2_pow_summary w) →
  (∀ w, pow2_op_work o = pow2_work_equihash w → 0 ≤ equihash_pow_pow_summary w) →
  gpo_num_pow_witnesses (gpo s) < 1004.
Proof.
  unfold check_work, get_pow_summary_target. repeat autounfold with accessors. intros Hr H1 H2.
  apply runs_bind in Hr as (? & ? & [-> ->]%runs_asks & Hr). apply runs_bind in Hr as (t & s1 & Ht & Hr).
  apply runs_bind in Ht as (? & ? & [-> ->]%runs_asks & Ht). destruct (Z.leb_spec 1004 (gpo_num_pow_witnesses (gpo s))) as [Hn|Hn]; [|done].
  apply runs_ret in Ht as [<- <-]. exfalso. apply runs_bind in Hr as (? & ? & [-> ->]%runs_asks & Hr).
  destruct (hardfork_active s HARDFORK_0_16), (pow2_op_work o); db_inv; bool_hyps;
    [specialize (H2 _ eq_refl)|specialize (H1 _ eq_refl)]; lia.
Qed.

(** ** What the schedule does to the queue *)

Lemma in_queue_bounds n : 0 ≤ in_queue n ≤ 1.
Proof. unfold in_queue. destruct (n =? 0); lia. Qed.
Lemma queued_pos s k w : rows (witnesses s) !! k = Some w → wit_pow_worker w ≠ 0 → 1 ≤ queued s.
Proof.
  intros Hk Hw. unfold queued. assert ((wit_pow_worker <$> rows (witnesses s)) !! k = Some (wit_pow_worker w)) as Hl by (by rewrite lookup_fmap, Hk).
  pose proof (map_sum_lookup_le in_queue _ _ _ (λ _ v _, proj1 (in_queue_bounds v)) Hl) as Hle.
  unfold in_queue at 1 in Hle. destruct (Z.eqb_spec (wit_pow_worker w) 0); lia.
Qed.

(** The witnesses of [l] wait in the queue of [s]. *)
Definition waiting (s : database) (l : list witness_object) : Prop :=
  Forall (λ w, ∃ n, (wit_pow_worker <$> rows (witnesses s)) !! wit_owner w = Some n ∧ n ≠ 0) l.

Lemma dequeue_effect w s u s' : queue_exact s → queued s ≤ u32_max → waiting s [w] →
  ⟨ dequeue w, s ⟩ ⇓ ⟨ u, s' ⟩ →
  queue_exact s' ∧ queued s' = queued s - 1 ∧ ∀ k, k ≠ wit_owner w → 
    (wit_pow_worker <$> rows (witnesses s')) !! k = (wit_pow_worker <$> rows (witnesses s)) !! k.
Proof.
  unfold dequeue, waiting. intros Hq Hm (n & Hl & Hn)%Forall_singleton Hr. rewrite lookup_fmap in Hl.
  apply runs_bind in Hr as ([] & s1 & (v & v' & Hv & [= <-] & ->)%runs_modify & (g & [= <-] & ->)%runs_modify1).
  rewrite Hv in Hl. injection Hl as <-. pose proof (queued_pos _ _ _ Hv Hn) as Hp.
  unfold queue_exact, queued in *. db_fields. rewrite fmap_insert.
  assert ((wit_pow_worker <$> rows (witnesses s)) !! wit_owner w = Some (wit_pow_worker v)) as Hz by (by rewrite lookup_fmap, Hv).
  rewrite (map_sum_insert in_queue _ _ _ _ Hz), Hq. fields. unfold in_queue at 3 4 6 7.
  destruct (Z.eqb_spec (wit_pow_worker v) 0); [done|]. cbn [Z.eqb]. split; [|split; [lia|]].
  - unfold wrap_u32, u32_max in *. rewrite Z.mod_small; lia.
  - intros k Hk. by rewrite lookup_insert_ne.
Qed.

Lemma dequeue_all l s u s' : NoDup (wit_owner <$> l) → queue_exact s → queued s ≤ u32_max → waiting s l →
  ⟨ mfor dequeue l, s ⟩ ⇓ ⟨ u, s' ⟩ → queue_exact s'.
Proof.
  revert s. induction l as [|w l IH]; intros s Hnd Hq Hm Hw Hr; cbn [mfor] in Hr; [by apply runs_ret in Hr as [_ <-]|].
  rewrite fmap_cons in Hnd. apply NoDup_cons in Hnd as [Hnin Hnd]. apply Forall_cons in Hw as [Hw1 Hw].
  apply runs_bind in Hr as (u1 & s1 & H1 & Hr).
  destruct (dequeue_effect w s u1 s1 Hq Hm) as (Hq1 & E1 & Hsame); [by apply Forall_singleton|done|].
  apply (IH s1); [done..|lia| |done]. unfold waiting in *. rewrite Forall_forall in Hw |- *.
  intros w' Hin. destruct (Hw _ Hin) as (n & Hn & Hne). exists n. rewrite Hsame; [done|].
  intros E. apply Hnin. rewrite <- E. by apply list_elem_of_fmap_2.
Qed.

(** Witnesses read from the queue wait in it. *)
Lemma mining_queue_waiting s s' l : witnesses_wf s → sublist l (mining_queue s) →
  wit_pow_worker <$> rows (witnesses s') = wit_pow_worker <$> rows (witnesses s) →
  NoDup (wit_owner <$> l) ∧ waiting s' l.
Proof.
  intros Hwf Hsub E. assert (sublist l (in_index by_pow s)) as Hin by (by etrans; [|apply mining_queue_sublist]). split.
  - apply (known_owners s); [done| |].
    + apply Forall_forall. intros w Hw. apply (known_in_index by_pow); [done|]. by eapply sublist_subseteq.
    + eapply sublist_NoDup; [by apply (in_index_ids by_pow s)|]. by apply fmap_sublist.
  - apply Forall_forall. intros w Hw. apply (sublist_subseteq _ _ Hsub), list_elem_of_filter in Hw as [Hp Hw].
    apply in_index_elem in Hw; [|done]. exists (wit_pow_worker w). by rewrite E, lookup_fmap, Hw; split; [|lia].
Qed.

Lemma set_schedule_mining t l : preserves (same mining_view) (set_schedule t l).
Proof. unfold set_schedule. samed. Qed.
Lemma start_laps_mining t l : preserves (same mining_view) (start_laps t l).
Proof. induction l as [|w l IH]; cbn [start_laps]; samed. Qed.
Lemma reset_virtual_mining : preserves (same mining_view) reset_virtual_schedule_time.
Proof. unfold reset_virtual_schedule_time. samed. Qed.
Lemma scheduled_objects_mining l : preserves (same mining_view) (scheduled_objects l).
Proof. induction l as [|n l IH]; cbn [scheduled_objects]; samed. Qed.
#[local] Hint Resolve set_schedule_mining start_laps_mining reset_virtual_mining scheduled_objects_mining : same.
Lemma median_props_mining : preserves (same mining_view) update_median_witness_props.
Proof. unfold update_median_witness_props. samed. Qed.
Lemma count_versions_mining : preserves (same mining_view) count_versions.
Proof. unfold count_versions. samed. Qed.
Lemma install_schedule_mining a b c d e : preserves (same mining_view) (install_schedule a b c d e).
Proof. unfold install_schedule. samed. Qed.
Lemma schedule_voted_mining : preserves (same mining_view) schedule_voted.
Proof. unfold schedule_voted. samed. Qed.

Lemma queue_exact_same s s' : same mining_view s s' → queue_exact s → queue_exact s'.
Proof. intros [E1 E2]%mining_view_queued. unfold queue_exact. by rewrite E1, E2. Qed.

Lemma choose_queue s r s' : witnesses_wf s → queue_exact s → queued s ≤ u32_max →
  ⟨ choose_witnesses, s ⟩ ⇓ ⟨ r, s' ⟩ → queue_exact s'.
Proof.
  intros Hwf Hq Hm Hr. unfold choose_witnesses in Hr. repeat autounfold with accessors in Hr.
  apply runs_bind in Hr as (? & ? & [-> ->]%runs_asks & Hr). apply runs_bind in Hr as (? & ? & [-> ->]%runs_asks & Hr).
  apply runs_bind in Hr as (? & ? & [-> ->]%runs_asks & Hr). cbv zeta in Hr.
  apply runs_bind in Hr as (u1 & s1 & H1 & Hr).
  assert (whos s1 = whos s) as E1 by (apply frame_whos; by eapply same_set_schedule).
  apply set_schedule_mining, mining_view_inv in H1 as (W1 & T1 & N1).
  apply runs_bind in Hr as (? & ? & [-> ->]%runs_asks & Hr).
  match type of Hr with context [mine ?a ?b ?c ?d] =>
    destruct (mine_take a b c d) as [_ [k Ek]]; destruct (mine a b c d) as [m mined] end.
  cbn [snd] in Ek. apply runs_bind in Hr as (u2 & s2 & H2 & Hr).
  apply set_schedule_mining, mining_view_inv in H2 as (W2 & T2 & N2).
  apply runs_bind in Hr as (u3 & s3 & H3 & Hr).
  assert (queue_exact s2 ∧ queued s2 ≤ u32_max) as [Hq2 Hm2].
  { unfold queue_exact, queued in *. by rewrite N2, N1, W2, W1. }
  destruct (mining_queue_waiting s1 s2 mined) as [Hnd Hw]; [by eapply witnesses_wf_whos|rewrite Ek; apply sublist_take|done|].
  assert (queue_exact s3) as Hq3 by (by eapply dequeue_all).
  clear -Hq3 Hr. revert Hr. match goal with |- ⟨ ?p, _ ⟩ ⇓ ⟨ _, _ ⟩ → _ => intros Hr;
    assert (preserves (same mining_view) p) as Hp by samed end.
  by eapply queue_exact_same; [eapply Hp|].
Qed.

#[local] Hint Resolve median_props_mining count_versions_mining install_schedule_mining schedule_voted_mining : same.

Lemma schedule4_queue s u s' : witnesses_wf s → queue_exact s → queued s ≤ u32_max →
  ⟨ update_witness_schedule4, s ⟩ ⇓ ⟨ u, s' ⟩ → queue_exact s'.
Proof.
  intros Hwf Hq Hm Hr. unfold update_witness_schedule4 in Hr. apply runs_bind in Hr as (c & s1 & H1 & Hr).
  apply choose_queue in H1; [|done..]. clear Hwf Hq Hm. destruct c as [[[v m] r] t]. revert Hr.
  match goal with |- ⟨ ?p, _ ⟩ ⇓ ⟨ _, _ ⟩ → _ => intros Hr; assert (preserves (same mining_view) p) as Hp by samed end.
  by eapply queue_exact_same; [eapply Hp|].
Qed.

Lemma schedule_voted_whos : preserves (same whos) schedule_voted.
Proof. unfold schedule_voted. samed. Qed.

Lemma schedule_pre_hf4_queue s u s' : witnesses_wf s → queue_exact s → queued s ≤ u32_max →
  ⟨ update_witness_schedule_pre_hf4, s ⟩ ⇓ ⟨ u, s' ⟩ → queue_exact s'.
Proof.
  intros Hwf Hq Hm Hr. unfold update_witness_schedule_pre_hf4 in Hr. repeat autounfold with accessors in Hr.
  apply runs_bind in Hr as (? & ? & [-> ->]%runs_asks & Hr). apply runs_bind in Hr as (? & ? & [-> ->]%runs_asks & Hr).
  cbv zeta in Hr. apply runs_bind in Hr as ([act t] & s1 & H1 & Hr).
  assert (witnesses_wf s1 ∧ same mining_view s s1) as [Hwf1 Hv1].
  { destruct (_ || _); [|by apply runs_ret in H1 as [_ <-]]. split; [|by eapply schedule_voted_mining].
    eapply witnesses_wf_whos; [by eapply schedule_voted_whos|done]. }
  pose proof (queue_exact_same _ _ Hv1 Hq) as Hq1. pose proof (mining_view_queued _ _ Hv1) as [E1 _].
  apply runs_bind in Hr as (? & ? & [-> ->]%runs_asks & Hr). apply runs_bind in Hr as (u2 & s2 & H2 & Hr).
  assert (queue_exact s2) as Hq2.
  { apply runs_when in H2. destruct (MAX_WITNESSES <? _); [|by subst].
    destruct (mining_queue s1) as [|w l] eqn:El; cbn [head] in H2; [by apply runs_ret in H2 as [_ <-]|].
    eapply (dequeue_effect w s1); [done|by rewrite E1| |done].
    eapply (mining_queue_waiting s1 s1 [w]); [done| |done]. rewrite El. apply sublist_skip, sublist_nil_l. }
  clear -Hq2 Hr. revert Hr. match goal with |- ⟨ ?p, _ ⟩ ⇓ ⟨ _, _ ⟩ → _ => intros Hr;
    assert (preserves (same mining_view) p) as Hp by samed end.
  by eapply queue_exact_same; [eapply Hp|].
Qed.

Lemma update_witness_schedule_queue s u s' : witnesses_wf s → queue_exact s → queued s ≤ u32_max →
  ⟨ update_witness_schedule, s ⟩ ⇓ ⟨ u, s' ⟩ → queue_exact s'.
Proof.
  intros Hwf Hq Hm Hr. unfold update_witness_schedule in Hr. repeat autounfold with accessors in Hr.
  apply runs_bind in Hr as (? & ? & [-> ->]%runs_asks & Hr). destruct (_ =? 0); [|by apply runs_ret in Hr as [_ <-]].
  apply runs_bind in Hr as (? & ? & [-> ->]%runs_asks & Hr).
  destruct (hardfork_active _ _); [by eapply schedule4_queue|by eapply schedule_pre_hf4_queue].
Qed.

(** The steps that change the queue. *)
Inductive mining_step (s s' : database) : Prop :=
| mine_pow o : ⟨ pow_do_apply o, s ⟩ ⇓ ⟨ tt, s' ⟩ → mining_step s s'
| mine_pow2 o : ⟨ pow2_do_apply o, s ⟩ ⇓ ⟨ tt, s' ⟩ → mining_step s s'
| mine_schedule : ⟨ update_witness_schedule, s ⟩ ⇓ ⟨ tt, s' ⟩ → mining_step s s'.

(** The number of queued miners that the code keeps, from which the difficulty of
    mining and the reward are computed, stays the number of witnesses in the queue,
    through proofs of work and updates of the schedule, as long as fewer than
    [2^64 - 1] works have been counted. *)
Theorem miner_queue_exact s s' :
  queue_exact s → queued s < u32_max → 0 ≤ gpo_total_pow (gpo s) < u64_max → witnesses_wf s →
  mining_step s s' → queue_exact s'.
Proof.
  intros Hq Hm Ht Hwf Hs.
  assert (enqueued s s' → queue_exact s') as He.
  { intros [E1 E2]. unfold queue_exact. rewrite E1, E2, Hq. unfold wrap_u32, u32_max in *. rewrite Z.mod_small; [done|].
    unfold queued in *. pose proof (map_sum_nonneg in_queue (wit_pow_worker <$> rows (witnesses s)) (λ _ v _, proj1 (in_queue_bounds v))). lia. }
  destruct Hs as [o Hr|o Hr|Hr].
  - by apply He, (pow_enqueues o s tt s').
  - by apply He, (pow2_enqueues o s tt s').
  - eapply update_witness_schedule_queue; [exact Hwf|exact Hq|lia|exact Hr].
Qed.

End queue.

(** * Custom operations in a block *)

Section custom_proofs.
Context {P : PluginOps}.

Lemma apply_operations_runs l outer s u s' : ⟨ apply_operations l outer, s ⟩ ⇓ ⟨ u, s' ⟩ →
  Forall (λ o, plugin_validate o = Ok tt) l ∧
  fold_left plugin_required l (Required [] [] [] []) = operation_get_required_authorities (Required [] [] [] []) outer ∧
  ⟨ mfor plugin_apply l, s ⟩ ⇓ ⟨ u, s' ⟩.
Proof.
  unfold apply_operations. intros Hr. cbv zeta in Hr. db_inv. bool_hyps. split; [by apply rfor_ok|]. split; [|done].
  destruct (fold_left _ _ _), (operation_get_required_authorities _ _). cbn in *. congruence.
Qed.

(** A custom JSON operation of a plugin never makes a block invalid: outside
    block production it always runs, and it changes the state only by operations of
    the plugin that are valid and require exactly the authorities of the operation
    that carries them. *)
Theorem customJson_contained get_evaluator o s :
  get_evaluator (customJson_id o) = Some generic_custom_operation_interpreter →
  ∃ s', ⟨ customJson_apply get_evaluator false o, s ⟩ ⇓ ⟨ tt, s' ⟩ ∧
    (s' = s ∨
     ∃ l, json_operations (customJson_json o) = Ok l ∧ Forall (λ p, plugin_validate p = Ok tt) l ∧
       fold_left plugin_required l (Required [] [] [] []) =
         operation_get_required_authorities (Required [] [] [] []) (customJson_ o) ∧
       ⟨ mfor plugin_apply l, s ⟩ ⇓ ⟨ tt, s' ⟩).
Proof.
  intros He. destruct (interpret_customJson o s) as [[[] s']|e] eqn:E.
  - exists s'. split; [|right].
    + unfold customJson_apply. rewrite He. eapply (runs_bind_intro _ _ s tt s); [done|]. unfold try_interpret, runs. cbn. by rewrite E.
    + unfold interpret_customJson in E. apply runs_bind in E as (l & s1 & [Hl ->]%runs_lift & Hr). exists l. split; [done|].
      by eapply apply_operations_runs.
  - exists s. split; [|by left].
    unfold customJson_apply. rewrite He. eapply (runs_bind_intro _ _ s tt s); [done|]. unfold try_interpret, runs. cbn. by rewrite E.
Qed.
End custom_proofs.

(** * Examples *)

Module MiningExamples.

(** A target that every work meets. *)
#[local] Instance easy : FcPow :=
  {| sha256_of_words _ := "f"; sha256_shr h _ := h; sha256_ltb _ _ := true |}.

(** Before hard fork 12, Alice may mine; Bob produces. *)
Definition early (total : Z) : database :=
  sample <| hardforks ::= λ h, h <| hpo_processed_hardforks := replicate 12 0 |> |>
    <| gpo ::= λ g, g <| gpo_total_pow := total |> <| gpo_head_block_number := 10 |> <| gpo_current_witness := "bob" |> |>
    <| account_authorities := Table {["alice"%string := {| aao_id := 0; aao_account := "alice";
         aao_owner := Authority 1 [] [("k1"%string, 1)]; aao_active := Authority 1 [] [("k1"%string, 1)];
         aao_posting := Authority 1 [] [("k1"%string, 1)]; aao_last_owner_update := 0 |}]} 1 |>.
Definition alice_works : pow_operation :=
  {| pow_op_worker_account := "alice"; pow_op_block_id := gpo_head_block_id (gpo (early 0)); pow_op_nonce := 7;
     pow_op_work := {| pow_worker := "k1"; pow_input := "i"; pow_signature := "s"; pow_work := "w" |};
     pow_op_props := sample_props |}.

Definition mined : database := Eval vm_compute in outcome (pow_do_apply alice_works) (early 0).
Lemma mined_runs : ⟨ pow_do_apply alice_works, early 0 ⟩ ⇓ ⟨ tt, mined ⟩.
Proof. runs_ok. Qed.
Lemma early_wf total : witnesses_wf (early total).
Proof. split; intros k; unfold early; db_fields; intros; by simplify_map_eq. Qed.

Lemma miner_queue_exact_witness : queue_exact (early 0) ∧ queue_exact mined ∧ queued mined = 1.
Proof.
  split_and!; [vm_compute; reflexivity| |vm_compute; reflexivity].
  apply (miner_queue_exact (early 0) mined); [vm_compute; reflexivity|vm_compute; reflexivity| |apply early_wf|].
  - split; [apply Z.leb_le; vm_compute; reflexivity|vm_compute; reflexivity].
  - exact (mine_pow _ _ alice_works mined_runs).
Defined.

(** The first work on a new chain: the counter of works starts at [-1], wraps to
    [0], and the miner is counted but not queued. *)
Lemma first_miner_lost :
  let s := outcome (pow_do_apply alice_works) (early u64_max) in
  gpo_num_pow_witnesses (gpo s) = 1 ∧ queued s = 0 ∧ mining_queue s = [].
Proof. vm_compute. auto. Qed.

(** A plugin with operations that name an account, of which one is refused. *)
#[local] Instance notes : PluginOps :=
  {| plugin_op := string; plugin_validate o := fc_check (nonempty o) EmptyString;
     plugin_required r o := Required (req_active r) (req_owner r) (fs_insert "alice"%string (req_posting r)) (req_other r);
     plugin_apply o := if str_eqb o "bad" then throw (assert_exception "bad") else mret tt;
     json_operations j := Ok [j]; unpack_operations j := Ok [j]; unpack_operation j := Ok j |}.
Definition note (j : string) : customJson_operation :=
  {| customJson_required_auths := []; customJson_required_posting_auths := ["alice"%string]; customJson_id := "notes";
     customJson_json := j |}.

Lemma customJson_contained_witness :
  (∃ s', ⟨ customJson_apply (λ _, Some generic_custom_operation_interpreter) false (note "bad"), sample ⟩ ⇓ ⟨ tt, s' ⟩) ∧
  ¬ (∃ s', ⟨ customJson_apply (λ _, Some generic_custom_operation_interpreter) true (note "bad"), sample ⟩ ⇓ ⟨ tt, s' ⟩).
Proof.
  split.
  - destruct (customJson_contained (λ _, Some generic_custom_operation_interpreter) (note "bad") sample eq_refl) as (s' & H & _).
    by exists s'.
  - intros [s' H]. discriminate H.
Defined.

End MiningExamples.
