(* ===== verification/Steady.v ===== *)
(** What operations and the steps of a block leave alone: the head block, the
    transactions and block summaries of the past, and, but for the escrow operations,
    the escrow agreements. *)

From S2P Require Import Prelude Fc Config Asset Flat Authority BlockHeader Operations Objects Database Slots Feeds Ledger Frame Supply Transfers Escrow Market ScoreFund Votes Quiet Accounts Rewards Same Comments Cashout Inflation Schedule Hardforks Mining.

(** The head block. *)
Definition head_view (s : database) :=
  (gpo_time (gpo s), gpo_head_block_number (gpo s), gpo_head_block_id (gpo s), gpo_last_irreversible_block_num (gpo s)).
(** And what is recorded of the past. *)
Definition past_view (s : database) := (transactions s, block_summaries s, head_view s).
Definition steady_view (s : database) := (escrows s, past_view s).

Section steady.
Context {F : Fc} {FL : FcLaws F} {C : FcCrypto} {P : FcPow} {TP : TextPatch}.
Abbreviation steady := (same steady_view).

(** ** Balances and votes *)

Lemma adjust_witness_vote_steady n d : preserves steady (adjust_witness_vote n d).
Proof. unfold adjust_witness_vote. samed. Qed.
#[local] Hint Resolve adjust_witness_vote_steady : same.
Lemma adjust_witness_votes_steady id d : preserves steady (adjust_witness_votes id d).
Proof. unfold adjust_witness_votes, get_witness_by_id. samed. Qed.
#[local] Hint Resolve adjust_witness_votes_steady : same.
Lemma adjust_proxied_from_steady n : ∀ a d, preserves steady (adjust_proxied_from n a d).
Proof. induction n as [|n IH]; intros a d; cbn [adjust_proxied_from]; samed. Qed.
Lemma adjust_proxied_array_from_steady n : ∀ a d, preserves steady (adjust_proxied_array_from n a d).
Proof. induction n as [|n IH]; intros a d; cbn [adjust_proxied_array_from]; samed. Qed.
Lemma clear_witness_votes_steady a : preserves steady (clear_witness_votes a).
Proof. unfold clear_witness_votes. samed. Qed.
Lemma pay_interest_steady n p : preserves steady (pay_interest n p).
Proof. unfold pay_interest. samed. Qed.
#[local] Hint Resolve adjust_proxied_from_steady adjust_proxied_array_from_steady clear_witness_votes_steady pay_interest_steady : same.
Lemma adjust_balance_steady n a : preserves steady (adjust_balance n a).
Proof. unfold adjust_balance. samed. Qed.
Lemma adjust_TMEsavingsBalance_steady n a : preserves steady (adjust_TMEsavingsBalance n a).
Proof. unfold adjust_TMEsavingsBalance. samed. Qed.
Lemma adjust_reward_balance_steady n a : preserves steady (adjust_reward_balance n a).
Proof. unfold adjust_reward_balance. samed. Qed.
Lemma adjust_supply_steady a b : preserves steady (adjust_supply a b).
Proof. unfold adjust_supply. samed. Qed.
#[local] Hint Resolve adjust_balance_steady adjust_TMEsavingsBalance_steady adjust_reward_balance_steady adjust_supply_steady : same.
Lemma pay_fee_steady n a : preserves steady (pay_fee n a).
Proof. unfold pay_fee. samed. Qed.
Lemma createTMEfundForSCORE_steady n a b : preserves steady (createTMEfundForSCORE n a b).
Proof. unfold createTMEfundForSCORE, adjust_proxied_witness_votes. samed. Qed.
Lemma create_TSD_steady n a b : preserves steady (create_TSD n a b).
Proof. unfold create_TSD. samed. Qed.
#[local] Hint Resolve pay_fee_steady createTMEfundForSCORE_steady create_TSD_steady : same.

(** ** Evaluators *)

Lemma transfer_steady o : preserves steady (transfer_apply o).
Proof. unfold transfer_apply, balance_of. samed. Qed.
Lemma transferToSavings_steady o : preserves steady (transferToSavings_apply o).
Proof. unfold transferToSavings_apply, balance_of. samed. Qed.
Lemma transferFromSavings_steady o : preserves steady (transferFromSavings_apply o).
Proof. unfold transferFromSavings_apply. samed. Qed.
Lemma cancelTransferFromSavings_steady o : preserves steady (cancelTransferFromSavings_apply o).
Proof. unfold cancelTransferFromSavings_apply. samed. Qed.
Lemma convert_steady o : preserves steady (convert_apply o).
Proof. unfold convert_apply, balance_of. samed. Qed.

Lemma adjust_liquidity_reward_steady o a b : preserves steady (adjust_liquidity_reward o a b).
Proof. unfold adjust_liquidity_reward. samed. Qed.
Lemma cancel_order_steady k : preserves steady (cancel_order k).
Proof. unfold cancel_order. samed. Qed.
#[local] Hint Resolve adjust_liquidity_reward_steady cancel_order_steady : same.
Lemma fill_order_steady k a b : preserves steady (fill_order k a b).
Proof. unfold fill_order. samed. Qed.
#[local] Hint Resolve fill_order_steady : same.
Lemma match_orders_steady a b : preserves steady (match_orders a b).
Proof. unfold match_orders, reward_liquidity. samed. Qed.
#[local] Hint Resolve match_orders_steady : same.
Lemma match_loop_steady k l : preserves steady (match_loop k l).
Proof. induction l as [|[o ?] l IH]; cbn [match_loop]; samed. Qed.
#[local] Hint Resolve match_loop_steady : same.
Lemma apply_order_steady k : preserves steady (apply_order k).
Proof. unfold apply_order. samed. Qed.
#[local] Hint Resolve apply_order_steady : same.
Lemma create_order_steady a b c d e f : preserves steady (create_order a b c d e f).
Proof. unfold create_order. samed. Qed.
#[local] Hint Resolve create_order_steady : same.
Lemma limit_order_create_steady o : preserves steady (limit_order_create_apply o).
Proof. unfold limit_order_create_apply. samed. Qed.
Lemma limit_order_create2_steady o : preserves steady (limit_order_create2_apply o).
Proof. unfold limit_order_create2_apply. samed. Qed.
Lemma limit_order_cancel_steady o : preserves steady (limit_order_cancel_apply o).
Proof. unfold limit_order_cancel_apply. samed. Qed.

Lemma transferTMEtoSCOREfund_steady o : preserves steady (transferTMEtoSCOREfund_apply o).
Proof. unfold transferTMEtoSCOREfund_apply, balance_of. samed. Qed.
Lemma withdrawSCORE_steady o : preserves steady (withdrawSCORE_apply o).
Proof. unfold withdrawSCORE_apply, check_min_SCORE. samed. Qed.
Lemma setWithdrawSCOREasTMEroute_steady o : preserves steady (setWithdrawSCOREasTMEroute_apply o).
Proof. unfold setWithdrawSCOREasTMEroute_apply. samed. Qed.
Lemma claimRewardBalance_steady o : preserves steady (claimRewardBalance_apply o).
Proof. unfold claimRewardBalance_apply. samed. Qed.
Lemma delegateSCORE_steady o : preserves steady (delegateSCORE_apply o).
Proof. unfold delegateSCORE_apply, delegate_new, delegate_more, delegate_less, add_delegated, sub_delegated, add_received, sub_received. samed. Qed.

Lemma check_proxy_chain_steady n : ∀ a b, preserves steady (check_proxy_chain n a b).
Proof. induction n as [|n IH]; intros; cbn [check_proxy_chain]; samed. Qed.
#[local] Hint Resolve check_proxy_chain_steady : same.
Lemma account_witness_proxy_steady o : preserves steady (account_witness_proxy_apply o).
Proof. unfold account_witness_proxy_apply. samed. Qed.
Lemma accountWitnessVote_steady o : preserves steady (accountWitnessVote_apply o).
Proof. unfold accountWitnessVote_apply. samed. Qed.
Lemma decline_voting_rights_steady o : preserves steady (decline_voting_rights_apply o).
Proof. unfold decline_voting_rights_apply. samed. Qed.

Lemma get_accounts_of_steady a : preserves steady (get_accounts_of a).
Proof. unfold get_accounts_of. samed. Qed.
Lemma creation_fee_guard_steady a : preserves steady (creation_fee_guard a).
Proof. unfold creation_fee_guard. samed. Qed.
Lemma create_account_steady a b c d e f g h : preserves steady (create_account a b c d e f g h).
Proof. unfold create_account. samed. Qed.
Lemma update_owner_authority_steady n a : preserves steady (update_owner_authority n a).
Proof. unfold update_owner_authority. samed. Qed.
Lemma is_recovery_partner_steady a p : preserves steady (is_recovery_partner a p).
Proof. unfold is_recovery_partner. samed. Qed.
#[local] Hint Resolve get_accounts_of_steady creation_fee_guard_steady create_account_steady update_owner_authority_steady
  is_recovery_partner_steady : same.
Lemma witness_update_steady o : preserves steady (witness_update_apply o).
Proof. unfold witness_update_apply. samed. Qed.
Lemma feed_publish_steady o : preserves steady (feed_publish_apply o).
Proof. unfold feed_publish_apply. samed. Qed.
Lemma report_over_production_steady o : preserves steady (report_over_production_apply o).
Proof. unfold report_over_production_apply. samed. Qed.
Lemma accountCreate_steady o : preserves steady (accountCreate_apply o).
Proof. unfold accountCreate_apply. samed. Qed.
Lemma accountCreateWithDelegation_steady o : preserves steady (accountCreateWithDelegation_apply o).
Proof. unfold accountCreateWithDelegation_apply, delegation_guard. samed. Qed.
Lemma accountUpdate_steady o : preserves steady (accountUpdate_apply o).
Proof. unfold accountUpdate_apply, when_some, update_owner. samed. Qed.
Lemma challenge_authority_steady o : preserves steady (challenge_authority_apply o).
Proof. unfold challenge_authority_apply, pay_challenge. samed. Qed.
Lemma prove_authority_steady o : preserves steady (prove_authority_apply o).
Proof. unfold prove_authority_apply. samed. Qed.
Lemma request_account_recovery_steady o : preserves steady (request_account_recovery_apply o).
Proof. unfold request_account_recovery_apply. samed. Qed.
Lemma recover_account_steady o : preserves steady (recover_account_apply o).
Proof. unfold recover_account_apply. samed. Qed.
Lemma change_recoveryAccount_steady o : preserves steady (change_recoveryAccount_apply o).
Proof. unfold change_recoveryAccount_apply. samed. Qed.
Lemma reset_account_steady o : preserves steady (reset_account_apply o).
Proof. unfold reset_account_apply. samed. Qed.
Lemma set_reset_account_steady o : preserves steady (set_reset_account_apply o).
Proof. unfold set_reset_account_apply. samed. Qed.

Lemma climb_steady fuel f : ∀ k, preserves steady (climb fuel f k).
Proof. induction fuel as [|fuel IH]; intros k; cbn [climb]; samed. Qed.
#[local] Hint Resolve climb_steady : same.
Lemma comment_steady o : preserves steady (comment_apply o).
Proof.
  unfold comment_apply, comment_new, comment_edit, find_parent, not_challenged, post_interval_guard, touch_from,
    calculate_discussion_payout_time, get_comment_key, get_comment. samed.
Qed.
Lemma deleteComment_steady o : preserves steady (deleteComment_apply o).
Proof. unfold deleteComment_apply, not_challenged, get_comment, touch_from. samed. Qed.
Lemma comment_options_steady o : preserves steady (comment_options_apply o).
Proof. unfold comment_options_apply, not_challenged, get_comment, visit_extension. samed. Qed.
Lemma vote_steady o : preserves steady (vote_apply o).
Proof.
  unfold vote_apply, vote_new, vote_change, current_vote, curator_weight, count_in_root, average_cashout,
    lockout_guard, spend_power, not_challenged, calculate_discussion_payout_time, get_comment_key, get_comment,
    get_curationRewards_percent, get_reward_fund, adjust_SCOREreward2. samed.
Qed.

Lemma create_miner_steady n r k : preserves steady (create_miner n r k).
Proof. unfold create_miner. samed. Qed.
Lemma reward_of_steady c p a : preserves steady (reward_of c p a).
Proof. unfold reward_of. samed. Qed.
#[local] Hint Resolve create_miner_steady reward_of_steady : same.
Lemma pow_steady o : preserves steady (pow_do_apply o).
Proof.
  unfold pow_do_apply, pow_apply, check_worker, get_pow_target, count_pow, enqueue_pow, reward_pow, get_pow_reward. samed.
Qed.
Lemma pow2_steady o : preserves steady (pow2_do_apply o).
Proof.
  unfold pow2_do_apply, check_work, get_pow_summary_target, count_pow, enqueue_pow2, reward_pow2, get_pow_reward. samed.
Qed.

(** The escrow operations change the agreements. *)
Lemma steady_past {A} (m : DB A) : preserves steady m → preserves (same past_view) m.
Proof. intros Hm s a s' Hr. apply Hm in Hr. exact (f_equal snd Hr). Qed.
#[local] Hint Extern 9 (preserves (same past_view) _) => (apply steady_past; solve [auto with same]) : same.
Lemma escrow_transfer_past o : preserves (same past_view) (escrow_transfer_apply o).
Proof. unfold escrow_transfer_apply. samed. Qed.
Lemma escrow_approve_past o : preserves (same past_view) (escrow_approve_apply o).
Proof. unfold escrow_approve_apply. samed. Qed.
Lemma escrow_dispute_past o : preserves (same past_view) (escrow_dispute_apply o).
Proof. unfold escrow_dispute_apply. samed. Qed.
Lemma escrow_release_past o : preserves (same past_view) (escrow_release_apply o).
Proof. unfold escrow_release_apply, release_guard. samed. Qed.
Lemma expire_escrow_past : preserves (same past_view) expire_escrow_ratification.
Proof. unfold expire_escrow_ratification. samed. Qed.

(** ** Steps of a block *)

Lemma clear_expired_orders_steady : preserves steady clear_expired_orders.
Proof. unfold clear_expired_orders. samed. Qed.
Lemma clear_expired_delegations_steady : preserves steady clear_expired_delegations.
Proof. unfold clear_expired_delegations, sub_delegated. samed. Qed.

Lemma scheduled_objects_steady l : preserves steady (scheduled_objects l).
Proof. induction l as [|n l IH]; cbn [scheduled_objects]; samed. Qed.
Lemma start_laps_steady t l : preserves steady (start_laps t l).
Proof. induction l as [|w l IH]; cbn [start_laps]; samed. Qed.
#[local] Hint Resolve scheduled_objects_steady start_laps_steady : same.
Lemma median_props_steady : preserves steady update_median_witness_props.
Proof. unfold update_median_witness_props. samed. Qed.
#[local] Hint Resolve median_props_steady : same.
Lemma choose_witnesses_steady : preserves steady choose_witnesses.
Proof. unfold choose_witnesses, set_schedule, dequeue, reset_virtual_schedule_time. samed. Qed.
#[local] Hint Resolve choose_witnesses_steady : same.
Lemma update_witness_schedule_steady : preserves steady update_witness_schedule.
Proof.
  unfold update_witness_schedule, update_witness_schedule4, update_witness_schedule_pre_hf4, schedule_voted, dequeue,
    count_versions, install_schedule. samed.
Qed.
Lemma update_median_feed_steady : preserves steady update_median_feed.
Proof. unfold update_median_feed. samed. Qed.
Lemma update_virtual_supply_steady : preserves steady update_virtual_supply.
Proof. unfold update_virtual_supply. samed. Qed.

Lemma clear_null_steady : preserves steady clear_null_account_balance.
Proof. unfold clear_null_account_balance, burn, burn_SCORE, burn_SCORE_reward, burn_supply. samed. Qed.
Lemma fill_funds_steady a b l : preserves steady (fill_funds a b l).
Proof. revert b. induction l as [|k l IH]; intros b; cbn [fill_funds]; samed. Qed.
#[local] Hint Resolve fill_funds_steady : same.
Lemma process_funds_steady : preserves steady process_funds.
Proof.
  unfold process_funds, inflate, inflate_pre_hf16, pay_reward_funds, get_content_reward, get_curationReward, get_producer_reward. samed.
Qed.
Lemma conversions_loop_steady n : ∀ a b c d, preserves steady (conversions_loop n a b c d).
Proof. induction n as [|n IH]; intros; cbn [conversions_loop]; samed. Qed.
#[local] Hint Resolve conversions_loop_steady : same.
Lemma process_conversions_steady : preserves steady process_conversions.
Proof. unfold process_conversions. samed. Qed.
Lemma process_savings_withdraws_steady : preserves steady process_savings_withdraws.
Proof. unfold process_savings_withdraws. samed. Qed.
Lemma pay_liquidity_reward_steady : preserves steady pay_liquidity_reward.
Proof. unfold pay_liquidity_reward, get_liquidity_reward, get_account_by_id. samed. Qed.
Lemma account_recovery_processing_steady : preserves steady account_recovery_processing.
Proof. unfold account_recovery_processing. samed. Qed.
Lemma process_decline_steady : preserves steady process_decline_voting_rights.
Proof. unfold process_decline_voting_rights, decline_votes, get_account_by_id. samed. Qed.

Lemma deposit_as_SCORE_steady n w l : ∀ d, preserves steady (deposit_as_SCORE n w l d).
Proof. induction l as [|r l IH]; intros d; cbn [deposit_as_SCORE]; unfold deposit_route_SCORE, get_account_by_id; samed. Qed.
Lemma deposit_as_TME_steady n w l : ∀ d t, preserves steady (deposit_as_TME n w l d t).
Proof. induction l as [|r l IH]; intros d t; cbn [deposit_as_TME]; unfold deposit_route_TME, take_from_fund, get_account_by_id; samed. Qed.
#[local] Hint Resolve deposit_as_SCORE_steady deposit_as_TME_steady : same.
Lemma withdraw_step_steady n : preserves steady (withdraw_step n).
Proof. unfold withdraw_step, take_from_fund. samed. Qed.
#[local] Hint Resolve withdraw_step_steady : same.
Lemma withdrawals_from_steady n : ∀ c, preserves steady (withdrawals_from n c).
Proof. induction n as [|n IH]; intros [c|]; cbn [withdrawals_from]; samed. Qed.
#[local] Hint Resolve withdrawals_from_steady : same.
Lemma process_withdrawals_steady : preserves steady process_TME_fund_for_SCORE_withdrawals.
Proof. unfold process_TME_fund_for_SCORE_withdrawals. samed. Qed.

(** ** Payouts *)

Lemma get_account_by_id_steady i : preserves steady (get_account_by_id i).
Proof. unfold get_account_by_id. samed. Qed.
Lemma db_to_TSD_steady a : preserves steady (db_to_TSD a).
Proof. unfold db_to_TSD. samed. Qed.
#[local] Hint Resolve get_account_by_id_steady db_to_TSD_steady : same.
Lemma pay_curator_steady c m u v : preserves steady (pay_curator c m u v).
Proof. unfold pay_curator, get_comment_key. samed. Qed.
#[local] Hint Resolve pay_curator_steady : same.
Lemma pay_votes_steady c m l : ∀ u, preserves steady (pay_votes c m u l).
Proof. induction l as [|v l IH]; intros u; cbn [pay_votes]; samed. Qed.
Lemma pay_beneficiaries_steady c a l : ∀ t, preserves steady (pay_beneficiaries c a t l).
Proof. induction l as [|v l IH]; intros u; cbn [pay_beneficiaries]; samed. Qed.
#[local] Hint Resolve pay_votes_steady pay_beneficiaries_steady : same.
Lemma pay_reward_steady k c r : preserves steady (pay_reward k c r).
Proof. unfold pay_reward, pay_curators, pay_author, adjust_total_payout, get_curationRewards_percent, get_reward_fund. samed. Qed.
#[local] Hint Resolve pay_reward_steady : same.
Lemma cashout_comment_helper_steady a k : preserves steady (cashout_comment_helper a k).
Proof.
  unfold cashout_comment_helper, cashout_positive, close_comment, close_vote, calculate_discussion_payout_time,
    adjust_SCOREreward2, get_reward_fund, get_comment_key. samed.
Qed.
#[local] Hint Resolve cashout_comment_helper_steady : same.
Lemma snapshot_funds_steady l : ∀ f, preserves steady (snapshot_funds l f).
Proof. induction l as [|k l IH]; intros f; cbn [snapshot_funds]; samed. Qed.
Lemma add_claims_steady l : ∀ f, preserves steady (add_claims l f).
Proof. induction l as [|c l IH]; intros f; cbn [add_claims]; unfold fund_at, get_reward_fund; samed. Qed.
Lemma cashouts_from_steady n p : ∀ f, preserves steady (cashouts_from n p f).
Proof.
  induction n as [|n IH]; intros f; cbn [cashouts_from];
    unfold cashout_from_fund, cashout_discussion, cashout_from_gpo, fund_at, get_reward_fund; samed.
Qed.
Lemma write_back_steady l : ∀ i, preserves steady (write_back i l).
Proof. induction l as [|f l IH]; intros i; cbn [write_back]; unfold get_fund_by_id; samed. Qed.
#[local] Hint Resolve snapshot_funds_steady add_claims_steady cashouts_from_steady write_back_steady : same.
Lemma process_comment_cashout_steady : preserves steady process_comment_cashout.
Proof. unfold process_comment_cashout. samed. Qed.

(** ** Hard forks *)

Lemma hardfork_changes_steady h : preserves steady (hardfork_changes h).
Proof.
  unfold hardfork_changes, perform_SCORE_split, retally_witness_votes, retally_witness_vote_counts, retally_comment_children,
    count_for, retally_liquidity_weight, recover_compromised, open_second_window, shorten_feed_window, create_reward_fund,
    linear_rewards, adjust_SCOREreward2, get_witness_by_id, reset_virtual_schedule_time, calculate_discussion_payout_time,
    get_comment_key. samed.
Qed.
#[local] Hint Resolve hardfork_changes_steady : same.
Lemma apply_hardfork_steady t h : preserves steady (apply_hardfork t h).
Proof. unfold apply_hardfork, record_hardfork. samed. Qed.
#[local] Hint Resolve apply_hardfork_steady : same.
Lemma process_hardforks_steady t : preserves steady (process_hardforks t).
Proof.
  assert (∀ n, preserves steady (process_voted n t)) by (induction n as [|n IH]; cbn [process_voted]; samed).
  assert (∀ n, preserves steady (process_configured n t)) by (induction n as [|n IH]; cbn [process_configured]; samed).
  unfold process_hardforks. samed.
Qed.
End steady.
