(* ===== verification/Evaluate.v ===== *)
(** Applying an operation: the registry of evaluators
    ([chain/evaluator_registry.hpp], [database::initialize_evaluators]) and what holds
    of every operation.

    Each evaluator is modelled in the file of its component; here they are put
    together.  A transaction whose operations validate reaches registered evaluators
    only, and no operation creates or destroys TME, TSD or SCORE off the books. *)

From S2P Require Import Prelude Fc Config Asset Flat Authority BlockHeader Operations Objects Database Samples Slots Feeds Ledger Frame Supply Transfers Escrow Market ScoreFund Delegation Votes Quiet Accounts Rewards Same Comments Discussions Cashout Inflation Schedule Mining Steady.

(** The interpreters that plugins have registered. *)
Class Interpreters := get_customJson_evaluator : string → option custom_operation_interpreter.

Section evaluate.
Context {F : Fc} {C : FcCrypto} {P : FcPow} {TP : TextPatch} {I : Interpreters}.

(** [database::initialize_evaluators], libraries/chain/database.cpp:2190-2234 *)
Definition evaluator (producing : bool) (op : operation) : option (DB unit) :=
  match op with
  | vote_ o => Some (vote_apply o)
  | comment_ o => Some (comment_apply o)
  | comment_options_ o => Some (comment_options_apply o)
  | deleteComment_ o => Some (deleteComment_apply o)
  | transfer_ o => Some (transfer_apply o)
  | transferTMEtoSCOREfund_ o => Some (transferTMEtoSCOREfund_apply o)
  | withdrawSCORE_ o => Some (withdrawSCORE_apply o)
  | setWithdrawRoute_ o => Some (setWithdrawSCOREasTMEroute_apply o)
  | accountCreate_ o => Some (accountCreate_apply o)
  | accountUpdate_ o => Some (accountUpdate_apply o)
  | witness_update_ o => Some (witness_update_apply o)
  | accountWitnessVote_ o => Some (accountWitnessVote_apply o)
  | witness_proxy_ o => Some (account_witness_proxy_apply o)
  | custom_ o => Some (custom_apply producing o)
  | custom_binary_ o => Some (custom_binary_apply get_customJson_evaluator producing o)
  | customJson_ o => Some (customJson_apply get_customJson_evaluator producing o)
  | pow_op_ o => Some (pow_do_apply o)
  | pow2_op_ o => Some (pow2_do_apply o)
  | report_ o => Some (report_over_production_apply o)
  | feed_publish_ o => Some (feed_publish_apply o)
  | convert_ o => Some (convert_apply o)
  | limit_order_create_ o => Some (limit_order_create_apply o)
  | limit_order_create2_ o => Some (limit_order_create2_apply o)
  | limit_order_cancel_ o => Some (limit_order_cancel_apply o)
  | challenge_authority_ o => Some (challenge_authority_apply o)
  | prove_authority_ o => Some (prove_authority_apply o)
  | request_recovery_ o => Some (request_account_recovery_apply o)
  | recover_account_ o => Some (recover_account_apply o)
  | change_recovery_ o => Some (change_recoveryAccount_apply o)
  | escrow_transfer_ o => Some (escrow_transfer_apply o)
  | escrow_approve_ o => Some (escrow_approve_apply o)
  | escrow_dispute_ o => Some (escrow_dispute_apply o)
  | escrow_release_ o => Some (escrow_release_apply o)
  | transferToSavings_ o => Some (transferToSavings_apply o)
  | transferFromSavings_ o => Some (transferFromSavings_apply o)
  | cancelTransferFromSavings_ o => Some (cancelTransferFromSavings_apply o)
  | decline_voting_rights_ o => Some (decline_voting_rights_apply o)
  | reset_account_ o => Some (reset_account_apply o)
  | set_reset_account_ o => Some (set_reset_account_apply o)
  | claimRewardBalance_ o => Some (claimRewardBalance_apply o)
  | accountCreateWithDelegation_ o => Some (accountCreateWithDelegation_apply o)
  | delegateSCORE_ o => Some (delegateSCORE_apply o)
  | _ => None
  end.

(** [database::apply_operation], libraries/chain/database.cpp:2917-2923 *)
Definition apply_operation (producing : bool) (op : operation) : DB unit :=
  match evaluator producing op with
  | Some m => m
  | None => throw (logic_error "No registered evaluator for this operation")
  end.

(** What is not registered does not validate. *)
Lemma validated_registered producing op : operation_validate op = Ok tt → is_Some (evaluator producing op).
Proof. destruct op; cbn [evaluator operation_validate]; intros Hv; first [eexists; reflexivity|discriminate Hv]. Qed.
End evaluate.

(** What interpreters promise: plugins keep their own indices and only read the chain's. *)
Class InterpretersRead (I : Interpreters) : Prop := {
  json_reads id e o : I id = Some e → preserves eq (interpret_json e o);
  binary_reads id e o : I id = Some e → preserves eq (interpret_binary e o);
}.

Section evaluate_proofs.
Context {F : Fc} {FL : FcLaws F} {C : FcCrypto} {P : FcPow} {TP : TextPatch} {I : Interpreters} {IR : InterpretersRead I}.

(** ** Custom operations *)

Lemma try_interpret_reads producing m : preserves eq m → preserves eq (try_interpret producing m).
Proof.
  intros Hm s u s'. unfold try_interpret, runs. destruct (m s) as [[[] t]|e] eqn:E; [intros [= <- <-]; by eapply Hm|].
  destruct producing; [done|]. by intros [= _ <-].
Qed.
Lemma custom_reads producing o : preserves eq (custom_apply producing o).
Proof. unfold custom_apply. intros s u s' Hr. destruct producing; db_inv; done. Qed.
Lemma customJson_reads producing o : preserves eq (customJson_apply I producing o).
Proof.
  unfold customJson_apply. intros s u s' Hr. apply runs_bind in Hr as (? & s1 & H1 & Hr).
  assert (s = s1) as <- by (destruct producing; db_inv; done).
  destruct (I (customJson_id o)) as [e|] eqn:E; [|by db_inv]. eapply try_interpret_reads; [by eapply json_reads|done].
Qed.
Lemma custom_binary_reads producing o : preserves eq (custom_binary_apply I producing o).
Proof.
  unfold custom_binary_apply. intros s u s' Hr. apply runs_bind in Hr as (? & s1 & H1 & Hr).
  assert (s = s1) as <- by (destruct producing; db_inv; done).
  apply runs_bind in Hr as (? & ? & [-> ->]%runs_asks & Hr). apply runs_bind in Hr as (? & ? & [_ ->]%runs_assert & Hr).
  destruct (I (custom_binary_id o)) as [e|] eqn:E; [|by db_inv]. eapply try_interpret_reads; [by eapply binary_reads|done].
Qed.

(** ** Steps that move no funds *)

Definition holding (a : account_object) :=
  (acc_balance a, acc_TMEsavingsBalance a, acc_TMErewardBalance a,
   (acc_TSDbalance a, acc_TSDsavingsBalance a, acc_TSDrewardBalance a),
   (acc_SCORE a, acc_SCORErewardBalance a, acc_SCORErewardBalanceInTME a)).
Definition funds_view (s : database) :=
  (holding <$> rows (accounts s),
   (quiet_gpo (gpo s), convert_requests s, limit_orders s, (escrows s, savings_withdraws s, reward_funds s))).
Lemma same_funds s s' : same funds_view s s' → conserves s s'.
Proof.
  intros [= Ea H1 H2 H3 H4 H5 H6 H7 Hc Ho He Hs Hf].
  assert (∀ f g, (∀ a, f a = g (holding a)) → map_sum f (rows (accounts s')) = map_sum f (rows (accounts s))) as Hsum.
  { intros f g Hfg. rewrite (map_sum_ext f (λ a, g (holding a)) (rows (accounts s'))), (map_sum_ext f (λ a, g (holding a)) (rows (accounts s))) by (intros; apply Hfg).
    by rewrite <- !(map_sum_fmap holding g), Ea. }
  split; unfold tme_gap, tsd_gap, score_gap, pend_gap, gpo_tme, gpo_tsd, gpo_score, gpo_pend;
    rewrite ?Ho, ?Hc, ?He, ?Hs, ?Hf, ?H1, ?H2, ?H3, ?H4, ?H5, ?H6, ?H7.
  - rewrite (Hsum acc_tme (λ v, let '(x, y, z, _, _) := v in amount x + amount y + amount z)) by done. lia.
  - rewrite (Hsum acc_tsd (λ v, let '(_, (x, y, z), _) := v in amount x + amount y + amount z)) by done. lia.
  - rewrite (Hsum acc_score (λ v, let '(_, _, (x, y, z)) := v in amount x + amount y)) by done. lia.
  - rewrite (Hsum acc_pend (λ v, let '(_, _, (x, y, z)) := v in amount z)) by done. lia.
Qed.

Lemma check_proxy_chain_funds n : ∀ a b, preserves (same funds_view) (check_proxy_chain n a b).
Proof. induction n as [|n IH]; intros; cbn [check_proxy_chain]; samed. Qed.
Lemma adjust_witness_vote_funds n d : preserves (same funds_view) (adjust_witness_vote n d).
Proof. unfold adjust_witness_vote. samed. Qed.
#[local] Hint Resolve check_proxy_chain_funds adjust_witness_vote_funds : same.
Lemma adjust_witness_votes_funds id d : preserves (same funds_view) (adjust_witness_votes id d).
Proof. unfold adjust_witness_votes, get_witness_by_id. samed. Qed.
#[local] Hint Resolve adjust_witness_votes_funds : same.
Lemma adjust_proxied_from_funds n : ∀ a d, preserves (same funds_view) (adjust_proxied_from n a d).
Proof. induction n as [|n IH]; intros a d; cbn [adjust_proxied_from]; samed. Qed.
Lemma adjust_proxied_array_from_funds n : ∀ a d, preserves (same funds_view) (adjust_proxied_array_from n a d).
Proof. induction n as [|n IH]; intros a d; cbn [adjust_proxied_array_from]; samed. Qed.
Lemma clear_witness_votes_funds a : preserves (same funds_view) (clear_witness_votes a).
Proof. unfold clear_witness_votes. samed. Qed.
#[local] Hint Resolve adjust_proxied_from_funds adjust_proxied_array_from_funds clear_witness_votes_funds : same.

Lemma account_witness_proxy_funds o : preserves (same funds_view) (account_witness_proxy_apply o).
Proof. unfold account_witness_proxy_apply. samed. Qed.
Lemma accountWitnessVote_funds o : preserves (same funds_view) (accountWitnessVote_apply o).
Proof. unfold accountWitnessVote_apply. samed. Qed.
Lemma decline_voting_rights_funds o : preserves (same funds_view) (decline_voting_rights_apply o).
Proof. unfold decline_voting_rights_apply. samed. Qed.

(** ** Every operation *)

(** Operations but for those on escrow agreements. *)
Definition is_escrow (op : operation) : bool :=
  match op with escrow_transfer_ _ | escrow_approve_ _ | escrow_dispute_ _ | escrow_release_ _ => true | _ => false end.

(** A computation that conserves the supplies. *)
Lemma quiet_runs {A} (m : DB A) s a s' : preserves quiet m → ⟨ m, s ⟩ ⇓ ⟨ a, s' ⟩ → conserves s s'.
Proof. intros Hm Hr. by eapply quiet_conserves, Hm. Qed.
Lemma funds_runs {A} (m : DB A) s a s' : preserves (same funds_view) m → ⟨ m, s ⟩ ⇓ ⟨ a, s' ⟩ → conserves s s'.
Proof. intros Hm Hr. by eapply same_funds, Hm. Qed.
Lemma reads_runs {A} (m : DB A) s a s' : preserves eq m → ⟨ m, s ⟩ ⇓ ⟨ a, s' ⟩ → conserves s s'.
Proof. intros Hm Hr. by rewrite (Hm _ _ _ Hr). Qed.
Lemma disabled_reads msg : preserves eq (fc_assert (S:=database) false msg).
Proof. intros s u s' [? _]%runs_assert. done. Qed.

Lemma escrow_operation_kept producing op s u s' :
  is_escrow op = true → operation_validate op = Ok tt → escrows_ok s → ⟨ apply_operation producing op, s ⟩ ⇓ ⟨ u, s' ⟩ →
  conserves s s' ∧ escrows_ok s'.
Proof.
  intros He Hv Hok Hr.
  assert (∃ m k ev, escrow_apply op = Some (m, k, ev) ∧ apply_operation producing op = m) as (m & k & ev & Ea & Em)
    by (destruct op; try discriminate He; repeat eexists; reflexivity).
  rewrite Em in Hr. by destruct (escrow_apply_correct op m k ev s u s' Ea Hv Hok Hr) as (? & _ & ?).
Qed.

Lemma operation_conserves producing op s u s' :
  operation_validate op = Ok tt → escrows_ok s → ⟨ apply_operation producing op, s ⟩ ⇓ ⟨ u, s' ⟩ → conserves s s'.
Proof.
  intros Hv Hok Hr. destruct (is_escrow op) eqn:He; [by eapply escrow_operation_kept|]. revert Hr. unfold apply_operation.
  destruct op; cbn [evaluator is_escrow operation_validate] in *; try discriminate He; try discriminate Hv; intros Hr;
    first [ apply quiet_runs in Hr; [exact Hr|solve [auto using vote_quiet, comment_quiet, comment_options_quiet, deleteComment_quiet,
              accountUpdate_quiet, feed_publish_quiet, report_over_production_quiet, prove_authority_quiet,
              request_account_recovery_quiet, recover_account_quiet, change_recoveryAccount_quiet]]
          | apply funds_runs in Hr; [exact Hr|solve [auto using account_witness_proxy_funds, accountWitnessVote_funds, decline_voting_rights_funds]]
          | apply reads_runs in Hr; [exact Hr|solve [auto using disabled_reads, custom_reads, customJson_reads, custom_binary_reads]]
          | solve [eauto 3 using transfer_conserves, transferTMEtoSCOREfund_conserves, withdrawSCORE_conserves,
              setWithdrawSCOREasTMEroute_conserves, accountCreate_conserves, witness_update_conserves, pow_conserves,
              pow2_conserves, convert_conserves, limit_order_create_conserves, limit_order_create2_conserves,
              limit_order_cancel_conserves, challenge_authority_conserves, transferToSavings_conserves,
              transferFromSavings_conserves, cancelTransferFromSavings_conserves, claimRewardBalance_conserves,
              delegateSCORE_conserves, accountCreateWithDelegation_conserves]
          | by apply runs_assert in Hr as [? _] ].
Qed.

Lemma operation_steady producing op s u s' :
  is_escrow op = false → ⟨ apply_operation producing op, s ⟩ ⇓ ⟨ u, s' ⟩ → steady_view s' = steady_view s.
Proof.
  unfold apply_operation. intros He Hr. change (same steady_view s s'). revert s u s' Hr.
  match goal with |- ∀ s u s', ⟨ ?m, s ⟩ ⇓ ⟨ u, s' ⟩ → _ => change (preserves (same steady_view) m) end.
  assert (∀ m : DB unit, preserves eq m → preserves (same steady_view) m) as Hreads
    by (intros m Hm s u s' Hr; by rewrite (Hm _ _ _ Hr)).
  destruct op; cbn [evaluator is_escrow] in *; try discriminate He; try apply preserves_throw;
    first [ solve [auto using vote_steady, comment_steady, comment_options_steady, deleteComment_steady, transfer_steady,
              transferTMEtoSCOREfund_steady, withdrawSCORE_steady, setWithdrawSCOREasTMEroute_steady, accountCreate_steady,
              accountUpdate_steady, witness_update_steady, accountWitnessVote_steady, account_witness_proxy_steady, pow_steady,
              pow2_steady, report_over_production_steady, feed_publish_steady, convert_steady, limit_order_create_steady,
              limit_order_create2_steady, limit_order_cancel_steady, challenge_authority_steady, prove_authority_steady]
          | solve [auto using request_account_recovery_steady, recover_account_steady, change_recoveryAccount_steady,
              transferToSavings_steady, transferFromSavings_steady, cancelTransferFromSavings_steady,
              decline_voting_rights_steady, reset_account_steady, set_reset_account_steady, claimRewardBalance_steady,
              accountCreateWithDelegation_steady, delegateSCORE_steady]
          | solve [auto using custom_reads, customJson_reads, custom_binary_reads] ].
Qed.

Lemma operation_past producing op s u s' : ⟨ apply_operation producing op, s ⟩ ⇓ ⟨ u, s' ⟩ → past_view s' = past_view s.
Proof.
  intros Hr. destruct (is_escrow op) eqn:He; [|exact (f_equal snd (operation_steady _ _ _ _ _ He Hr))].
  unfold apply_operation in Hr. destruct op; try discriminate He; cbn [evaluator] in Hr; revert Hr;
    [apply escrow_transfer_past|apply escrow_dispute_past|apply escrow_release_past|apply escrow_approve_past].
Qed.

Lemma operation_kept producing op s u s' :
  operation_validate op = Ok tt → escrows_ok s → ⟨ apply_operation producing op, s ⟩ ⇓ ⟨ u, s' ⟩ →
  conserves s s' ∧ escrows_ok s' ∧ past_view s' = past_view s.
Proof.
  intros Hv Hok Hr. split_and!; [by eapply operation_conserves| |by eapply operation_past].
  destruct (is_escrow op) eqn:He; [by eapply escrow_operation_kept|].
  pose proof (f_equal fst (operation_steady _ _ _ _ _ He Hr)) as E. unfold escrows_ok. cbn in E. by rewrite E.
Qed.

(** C15. An operation that validates has an evaluator, and when it succeeds it creates
    and destroys no TME, TSD or SCORE off the books, keeps the escrow agreements well
    formed, and changes neither the head block nor what is recorded of past blocks
    and transactions; this holds of every operation the node knows. *)
Theorem apply_operation_books producing op s u s' :
  operation_validate op = Ok tt → escrows_ok s →
  is_Some (evaluator producing op) ∧
  (⟨ apply_operation producing op, s ⟩ ⇓ ⟨ u, s' ⟩ → conserves s s' ∧ escrows_ok s' ∧ past_view s' = past_view s).
Proof.
  intros Hv Hok. split; [by apply validated_registered|]. by apply operation_kept.
Qed.
End evaluate_proofs.

(** * Examples *)

Module EvaluateExamples.
Import FcRef FcCryptoRef DiscussionExamples.
#[local] Instance easy : FcPow :=
  {| sha256_of_words _ := "f"; sha256_shr h _ := h; sha256_ltb _ _ := true |}.
#[local] Instance no_plugins : Interpreters := λ _, None.
#[local] Instance no_plugins_read : InterpretersRead no_plugins.
Proof. done. Qed.
Definition pay_five : operation := transfer_ (sample_transfer 5).

Lemma apply_operation_books_witness :
  conserves sample (outcome (apply_operation false pay_five) sample) ∧
  past_view (outcome (apply_operation false pay_five) sample) = past_view sample.
Proof.
  destruct (apply_operation_books false pay_five sample tt (outcome (apply_operation false pay_five) sample)) as [_ H].
  - vm_compute. reflexivity.
  - intros k e Hk. discriminate Hk.
  - destruct H as (Hc & _ & Hp); [runs_ok|split; assumption].
Defined.
End EvaluateExamples.
