(* ===== verification/ApplyBlock.v ===== *)
(** Applying transactions and blocks: [database::_apply_transaction], [_apply_block] and
    [apply_block] of [chain/database.cpp].

    A transaction applies once: its id is recorded until it has expired.  A block is
    the transactions of its witness followed by the maintenance of the chain, in a
    fixed order; the steps before and after the commit of irreversible blocks are what
    [ForkSwitch] needs of the chain state. *)

From S2P Require Import Prelude Fc Kept Config Asset Flat Authority SignState Version BlockHeader Operations Transaction Block ForkDatabase ForkSwitch Objects Database Samples Slots Feeds Ledger Frame Supply Transfers Escrow Market ScoreFund Withdrawals Delegation Votes Quiet Accounts Rewards Same Comments Discussions Cashout Inflation Schedule Hardforks Mining Steady Evaluate.

(** ** Skip flags *)

(** [skip_witness_signature], libraries/chain/include/node/chain/database.hpp:56 *)
Definition skip_witness_signature : Z := 0x1.
(** [skip_transaction_signatures], libraries/chain/include/node/chain/database.hpp:57 *)
Definition skip_transaction_signatures : Z := 0x2.
(** [skip_transaction_dupe_check], libraries/chain/include/node/chain/database.hpp:58 *)
Definition skip_transaction_dupe_check : Z := 0x4.
(** [skip_fork_db], libraries/chain/include/node/chain/database.hpp:59 *)
Definition skip_fork_db : Z := 0x8.
(** [skip_block_size_check], libraries/chain/include/node/chain/database.hpp:60 *)
Definition skip_block_size_check : Z := 0x10.
(** [skip_tapos_check], libraries/chain/include/node/chain/database.hpp:61 *)
Definition skip_tapos_check : Z := 0x20.
(** [skip_authority_check], libraries/chain/include/node/chain/database.hpp:62 *)
Definition skip_authority_check : Z := 0x40.
(** [skip_merkle_check], libraries/chain/include/node/chain/database.hpp:63 *)
Definition skip_merkle_check : Z := 0x80.
(** [skip_undo_history_check], libraries/chain/include/node/chain/database.hpp:64 *)
Definition skip_undo_history_check : Z := 0x100.
(** [skip_witness_schedule_check], libraries/chain/include/node/chain/database.hpp:65 *)
Definition skip_witness_schedule_check : Z := 0x200.
(** [skip_validate], libraries/chain/include/node/chain/database.hpp:66 *)
Definition skip_validate : Z := 0x400.
(** [skip_validate_invariants], libraries/chain/include/node/chain/database.hpp:67 *)
Definition skip_validate_invariants : Z := 0x800.
(** [skip_block_log], libraries/chain/include/node/chain/database.hpp:69 *)
Definition skip_block_log : Z := 0x2000.

(** [skip & flag] as a condition. *)
Definition skips (skip flag : Z) : bool := negb (Z.land skip flag =? 0).

(** [MAX_TIME_UNTIL_EXPIRATION], libraries/protocol/include/node/protocol/config.hpp:105 *)
Definition MAX_TIME_UNTIL_EXPIRATION : Z := 60 * 60.
(** [CHAIN_ID], libraries/protocol/include/node/protocol/config.hpp:51 *)
Definition CHAIN_ID `{FcCrypto} : string := sha256_hash "TWYM".

(** [checksum_type( hex )]. *)
Class FcHex := { checksum_of_hex : string → list Z }.
(** [get_shared_db_merkle], libraries/chain/include/node/chain/shared_db_merkle.hpp:7-22 *)
Definition get_shared_db_merkle `{FcHex} : list (Z * list Z) :=
  [ (3705111, checksum_of_hex "0a8f0fd5450c3706ec8b8cbad795cd0b3679bf35");
    (3705120, checksum_of_hex "2027edb72b671f7011c8cc4c7a8b59c39b305093");
    (3713940, checksum_of_hex "bf8a1d516927c506ebdbb7b38bef2e992435435f");
    (3714132, checksum_of_hex "e8b77773d268b72c8d650337b8cce360bbe64779");
    (3714567, checksum_of_hex "45af59a8c2d7d4a606151ef5dae03d2dfe13fbdd");
    (3714588, checksum_of_hex "e64275443bdc82f104ac936486d367af8f6d1584");
    (4138790, checksum_of_hex "f65a3a788a2ef52406d8ba5705d7288be228403f");
    (5435426, checksum_of_hex "0b32538b2d22bd3146d54b6e3cb5ae8b9780e8a5") ].
(** The exception of a block, [merkle_map.find( n )]. *)
Definition merkle_exception `{FcHex} (n : Z) : option (list Z) :=
  snd <$> head (filter (λ p, p.1 = n) get_shared_db_merkle).

Section apply_block.
Context {F : Fc} {C : FcCrypto} {P : FcPow} {TP : TextPatch} {I : Interpreters} {X : FcHex}.

(** * Transactions *)

(** [database::is_known_transaction], libraries/chain/database.cpp:243-247 *)
Definition is_known_transaction (id : string) : DB bool := asks (λ s, bool_decide (is_Some (rows (Objects.transactions s) !! id))).

(** The authorities of an account as [verify_authority] reads them. *)
Definition authority_of (which : account_authority_object → authority) (s : database) : authority_getter :=
  λ name, match rows (account_authorities s) !! name with
          | Some a => Ok (which a)
          | None => Err (out_of_range "unknown key")
          end.

(** The signatures of a transaction; an active authority may miss in the blocks whose
    Merkle roots are recorded. *)
Definition check_signatures (trx : signed_transaction) : DB unit :=
  r ← asks (λ s, transaction_verify_authority (authority_of aao_active s) (authority_of aao_owner s)
                   (authority_of aao_posting s) CHAIN_ID (Z.to_nat MAX_SIG_CHECK_DEPTH) trx);
  match r with
  | Ok _ => mret tt
  | Err (tx_missing_active_auth id) =>
      head ← head_block_num;
      if bool_decide (is_Some (merkle_exception (wrap_u32 (head + 1)))) then mret tt
      else throw (tx_missing_active_auth id)
  | Err e => throw e
  end.

(** The reference block and the expiration of a transaction. *)
Definition check_expiration (skip : Z) (trx : transaction) : DB unit :=
  mwhen (negb (skips skip skip_tapos_check))
    (tapos_block_summary ← get block_summaries (ref_block_num trx);
     if ref_block_prefix trx =? nth 1 (bso_block_id tapos_block_summary) 0 then mret tt
     else throw transaction_tapos_exception);;
  now ← head_block_time;
  (if expiration trx <=? tps_add now MAX_TIME_UNTIL_EXPIRATION then mret tt else throw transaction_expiration_exception);;
  hf9 ← has_hardfork HARDFORK_0_9;
  mwhen hf9 (if now <? expiration trx then mret tt else throw transaction_expiration_exception);;
  if now <=? expiration trx then mret tt else throw transaction_expiration_exception.

(** [database::_apply_transaction], libraries/chain/database.cpp:2838-2915 *)
Definition _apply_transaction (skip : Z) (producing : bool) (trx : signed_transaction) : DB unit :=
  mwhen (negb (skips skip skip_validate)) (lift (transaction_validate trx));;
  let trx_id := transaction_id trx in
  known ← is_known_transaction trx_id;
  fc_assert (skips skip skip_transaction_dupe_check || negb known) "Duplicate transaction check failed";;
  mwhen (negb (skips skip (Z.lor skip_transaction_signatures skip_authority_check))) (check_signatures trx);;
  head ← head_block_num;
  mwhen (0 <? head) (check_expiration skip trx);;
  mwhen (negb (skips skip skip_transaction_dupe_check))
    (create Objects.transactions trx_id (λ id,
       {| tro_id := id; tro_packed_trx := raw_pack trx; tro_trx_id := trx_id; tro_expiration := expiration trx |}));;
  mfor (apply_operation producing) (operations trx).

(** * Blocks *)

(** [database::create_block_summary], libraries/chain/database.cpp:2948-2954 *)
Definition create_block_summary (next_block : signed_block_header) : DB unit :=
  modify block_summaries (Z.land (block_num next_block) 0xffff) (λ p,
    Ok (p <| bso_block_id := header_id next_block |>)).

(** [by_expiration], libraries/chain/include/node/chain/transaction_object.hpp:38-46 *)
Definition transactions_by_expiration : transaction_object → transaction_object → comparison := by_key tro_expiration Z.compare.
(** [database::clear_expired_transactions], libraries/chain/database.cpp:3300-3308 *)
Definition clear_expired_transactions : DB unit :=
  now ← head_block_time;
  drain Objects.transactions (at_most transactions_by_expiration) (λ t, tro_expiration t <? now)
    (λ k _, remove Objects.transactions k).

(** The Merkle root of a block, or the one recorded for its number. *)
Definition check_merkle_root (next_block : signed_block) : DB unit :=
  let merkle_root := calculate_merkle_root next_block in
  if bool_decide (transaction_merkle_root next_block = merkle_root) then mret tt
  else if bool_decide (merkle_exception (block_num next_block) = Some merkle_root) then mret tt
  else throw (assert_exception "Merkle check failed").

(** [_apply_block] up to the commit of irreversible blocks. *)
Definition apply_block_before (skip : Z) (producing : bool) (next_block : signed_block) : DB unit :=
  mwhen (negb (skips skip skip_merkle_check)) (check_merkle_root next_block);;
  signing_witness ← validate_block_header (skips skip skip_witness_signature) (skips skip skip_witness_schedule_check) next_block;
  gprops ← get_dynamic_global_properties;
  let block_size := size (raw_pack next_block) in
  hf12 ← has_hardfork HARDFORK_0_12;
  mwhen hf12 (fc_assert (block_size <=? gpo_maximum_block_size gprops) "Block Size is too Big");;
  modify1 gpo (λ dgp, Ok (dgp <| gpo_current_witness := hdr_witness next_block |>));;
  process_header_extensions next_block;;
  hf5 ← has_hardfork HARDFORK_0_5;
  mwhen hf5
    (witness ← get_witness (hdr_witness next_block);
     hardfork_state ← asks hardforks;
     fc_assert (hpo_current_hardfork_version hardfork_state <=? wit_running_version witness)
       "Block produced by witness that is not running current hardfork");;
  mfor (_apply_transaction skip producing) (Block.transactions next_block);;
  update_global_dynamic_data (skips skip skip_undo_history_check) next_block;;
  update_signing_witness (wit_owner signing_witness) next_block;;
  update_irreversible_num.

(** The maintenance of the chain in [_apply_block]. *)
Definition maintain (times : list Z) : DB unit :=
  clear_expired_orders;;
  clear_expired_delegations;;
  update_witness_schedule;;
  update_median_feed;;
  update_virtual_supply;;
  clear_null_account_balance;;
  process_funds;;
  process_conversions;;
  process_comment_cashout;;
  process_TME_fund_for_SCORE_withdrawals;;
  process_savings_withdraws;;
  pay_liquidity_reward;;
  update_virtual_supply;;
  account_recovery_processing;;
  expire_escrow_ratification;;
  process_decline_voting_rights;;
  process_hardforks times.
(** [_apply_block] after the commit. *)
Definition apply_block_after (times : list Z) (next_block : signed_block) : DB unit :=
  create_block_summary next_block;; clear_expired_transactions;; maintain times.

(** [database::_apply_block], libraries/chain/database.cpp:2599-2711 *)
Definition _apply_block (skip : Z) (producing : bool) (times : list Z) (next_block : signed_block) : DB unit :=
  apply_block_before skip producing next_block;; apply_block_after times next_block.

(** The checks that are skipped up to the last checkpoint. *)
Definition skip_before_checkpoint : Z :=
  fold_left Z.lor [skip_witness_signature; skip_transaction_signatures; skip_transaction_dupe_check; skip_fork_db;
    skip_block_size_check; skip_tapos_check; skip_authority_check; skip_undo_history_check; skip_witness_schedule_check;
    skip_validate; skip_validate_invariants] 0.

(** [block_id_type()]. *)
Definition null_block_id : block_id := replicate 5 0.
(** The checkpoint of a block, and what is skipped for it; [checkpoints] is sorted. *)
Definition check_checkpoint (checkpoints : list (Z * block_id)) (skip : Z) (next_block : signed_block) : result Z :=
  match last checkpoints with
  | Some (n, id) =>
      if bool_decide (id = null_block_id) then Ok skip
      else
        match head (filter (λ p, p.1 = block_num next_block) checkpoints) with
        | Some (_, id) => fc_check (bool_decide (header_id next_block = id)) "Block did not match checkpoint"
        | None => Ok tt
        end;;
        Ok (if block_num next_block <=? n then skip_before_checkpoint else skip)
  | None => Ok skip
  end.

(** [database::apply_block], libraries/chain/database.cpp:2507-2580 *)
Definition apply_block_db (checkpoints : list (Z * block_id)) (skip : Z) (producing : bool) (times : list Z)
    (next_block : signed_block) : DB unit :=
  skip ← lift (check_checkpoint checkpoints skip next_block);
  _apply_block skip producing times next_block.

End apply_block.

(** * What a block does to the head *)

Section head_proofs.
Context {F : Fc} {FL : FcLaws F} {C : FcCrypto} {P : FcPow} {TP : TextPatch} {I : Interpreters} {IR : InterpretersRead I} {X : FcHex}.

(** The head block but for what has become irreversible. *)
Definition top_view (s : database) := (gpo_time (gpo s), gpo_head_block_number (gpo s), gpo_head_block_id (gpo s)).

Lemma steady_head {A} (m : DB A) : preserves (same steady_view) m → preserves (same head_view) m.
Proof. intros Hm s a s' Hr. apply Hm in Hr. exact (f_equal (λ v, v.2.2) Hr). Qed.
Lemma past_head {A} (m : DB A) : preserves (same past_view) m → preserves (same head_view) m.
Proof. intros Hm s a s' Hr. apply Hm in Hr. exact (f_equal snd Hr). Qed.

Lemma create_block_summary_head b : preserves (same head_view) (create_block_summary b).
Proof. unfold create_block_summary. samed. Qed.
Lemma clear_expired_transactions_head : preserves (same head_view) clear_expired_transactions.
Proof. unfold clear_expired_transactions. samed. Qed.

Lemma maintain_past times : preserves (same past_view) (maintain times).
Proof.
  unfold maintain. repeat (apply preserves_bind; [apply _| |intros _]);
    first [ apply expire_escrow_past
          | apply steady_past; solve [auto using clear_expired_orders_steady, clear_expired_delegations_steady,
              update_witness_schedule_steady, update_median_feed_steady, update_virtual_supply_steady, clear_null_steady,
              process_funds_steady, process_conversions_steady, process_comment_cashout_steady, process_withdrawals_steady,
              process_savings_withdraws_steady, pay_liquidity_reward_steady, account_recovery_processing_steady,
              process_decline_steady, process_hardforks_steady] ].
Qed.
Lemma apply_block_after_head times b : preserves (same head_view) (apply_block_after times b).
Proof.
  unfold apply_block_after. apply preserves_bind; [apply _|apply create_block_summary_head|intros _].
  apply preserves_bind; [apply _|apply clear_expired_transactions_head|intros _]. apply past_head, maintain_past.
Qed.

(** The extensions and the miners of a header. *)
Lemma process_header_extensions_steady b : preserves (same steady_view) (process_header_extensions b).
Proof. unfold process_header_extensions, process_header_extension. samed. Qed.
Lemma update_signing_witness_steady n b : preserves (same steady_view) (update_signing_witness n b).
Proof. unfold update_signing_witness, get_slot_at_time. samed. Qed.
Lemma update_irreversible_top : preserves (same top_view) update_irreversible_num.
Proof.
  assert (∀ l, preserves (same top_view) (scheduled_objects l)) as Hl
    by (induction l as [|n l IH]; cbn [scheduled_objects]; samed).
  unfold update_irreversible_num. samed.
Qed.

Lemma validate_block_header_links a c b s w s' :
  ⟨ validate_block_header a c b, s ⟩ ⇓ ⟨ w, s' ⟩ →
  s' = s ∧ previous b = gpo_head_block_id (gpo s) ∧ gpo_time (gpo s) < timestamp b ∧ rows (witnesses s) !! hdr_witness b = Some w.
Proof.
  intros Hr. unfold validate_block_header in Hr.
  apply runs_bind in Hr as (? & ? & [-> ->]%runs_asks & Hr). apply runs_bind in Hr as (? & ? & [Hp ->]%runs_assert & Hr).
  apply runs_bind in Hr as (? & ? & [-> ->]%runs_asks & Hr). apply runs_bind in Hr as (? & ? & [Ht ->]%runs_assert & Hr).
  apply runs_bind in Hr as (w1 & ? & [Hw ->]%runs_getr & Hr). apply runs_bind in Hr as (? & s2 & H1 & Hr).
  assert (s2 = s) as -> by (apply runs_when in H1; destruct a; [done|by apply runs_db_assert in H1 as [_ ->]]).
  apply runs_bind in Hr as (? & s3 & H2 & [<- <-]%runs_ret).
  assert (s3 = s) as ->.
  { apply runs_when in H2. destruct c; [done|]. unfold get_slot_at_time in H2.
    apply runs_bind in H2 as (? & ? & [-> ->]%runs_asks & H2). apply runs_bind in H2 as (? & ? & [_ ->]%runs_assert & H2).
    apply runs_bind in H2 as (? & ? & (_ & _ & ->)%runs_scheduled_witness & H2). by apply runs_assert in H2 as [_ ->]. }
  unfold head_block_id_of in Hp. bool_hyps. done.
Qed.

Lemma update_global_dynamic_data_sets sk b s u s' :
  ⟨ update_global_dynamic_data sk b, s ⟩ ⇓ ⟨ u, s' ⟩ → top_view s' = (timestamp b, block_num b, header_id b).
Proof.
  intros Hr. unfold update_global_dynamic_data in Hr. apply runs_bind in Hr as (? & s1 & _ & Hr).
  apply runs_bind in Hr as (m & s2 & _ & Hr). apply runs_bind in Hr as (? & s3 & (g & [= <-] & ->)%runs_modify1 & Hr).
  apply runs_bind in Hr as (? & ? & [-> ->]%runs_asks & Hr).
  revert Hr. match goal with |- ⟨ mwhen _ _, ?t ⟩ ⇓ ⟨ _, _ ⟩ → _ => intros Hr; assert (s' = t) as Hs end.
  { apply runs_when in Hr. destruct (negb sk); [|done]. destruct (_ <? _); [by apply runs_ret in Hr as [_ <-]|by apply runs_throw in Hr]. }
  by rewrite Hs.
Qed.

Lemma check_merkle_root_reads sk b : preserves eq (mwhen (negb (skips sk skip_merkle_check)) (check_merkle_root b)).
Proof. intros s u s' Hr. apply runs_when in Hr. unfold check_merkle_root in Hr. destruct (negb _); [|done].
  do 2 (destruct (bool_decide _); [by apply runs_ret in Hr as [_ <-]|]). by apply runs_throw in Hr.
Qed.

(** A block builds on the head, is later than it and becomes the head. *)
Lemma apply_block_before_head sk p b s u s' :
  ⟨ apply_block_before sk p b, s ⟩ ⇓ ⟨ u, s' ⟩ →
  previous b = gpo_head_block_id (gpo s) ∧ gpo_time (gpo s) < timestamp b ∧ top_view s' = (timestamp b, block_num b, header_id b).
Proof.
  intros Hr. unfold apply_block_before in Hr. apply runs_bind in Hr as (? & s1 & <-%check_merkle_root_reads & Hr).
  apply runs_bind in Hr as (w & ? & (-> & Hp & Ht & _)%validate_block_header_links & Hr). split_and!; [done..|].
  do 8 (apply runs_bind in Hr as (? & ? & _ & Hr)).
  apply runs_bind in Hr as (? & s2 & Hg%update_global_dynamic_data_sets & Hr).
  apply runs_bind in Hr as (? & s3 & Hs%update_signing_witness_steady & Hr%update_irreversible_top).
  rewrite Hr, <- Hg. injection Hs as _ _ _ E1 E2 E3 _. unfold top_view. by rewrite E1, E2, E3.
Qed.

Lemma apply_block_head sk p times b s u s' :
  ⟨ _apply_block sk p times b, s ⟩ ⇓ ⟨ u, s' ⟩ →
  previous b = gpo_head_block_id (gpo s) ∧ gpo_time (gpo s) < timestamp b ∧ top_view s' = (timestamp b, block_num b, header_id b).
Proof.
  intros Hr. unfold _apply_block in Hr.
  apply runs_bind in Hr as (? & s1 & (Hp & Ht & H1)%apply_block_before_head & [= E1 E2 E3 _]%apply_block_after_head).
  split_and!; [done..|]. unfold top_view. by rewrite E1, E2, E3.
Qed.

(** ** The interface of pushing blocks *)

(** A throw discards what the computation did: an undo session is open around it. *)
Definition of_db {A} (m : DB A) : K database A :=
  λ s, match m s with Ok (a, s') => (Ok a, s') | Err e => (Err e, s) end.

(** The chain state as [ForkSwitch] uses it. *)
Definition apply_db (checkpoints : list (Z * block_id)) (sk : Z) (times : list Z) : BlockApply database := {|
  head_block_id := head_block_id_of;
  ForkSwitch.head_block_num s := gpo_head_block_number (gpo s);
  last_irreversible_block_num s := gpo_last_irreversible_block_num (gpo s);
  apply_before b := of_db (sk ← lift (check_checkpoint checkpoints sk b); apply_block_before sk false b);
  apply_after b := of_db (apply_block_after times b);
  skips_block_log b := match check_checkpoint checkpoints sk b with Ok sk => skips sk skip_block_log | Err _ => false end;
|}.

Lemma of_db_ok {A} (m : DB A) s a s' : of_db m s = (Ok a, s') → ⟨ m, s ⟩ ⇓ ⟨ a, s' ⟩.
Proof. unfold of_db, runs. destruct (m s) as [[? ?]|?]; by intros [= -> ->]. Qed.
Lemma of_db_err {A} (m : DB A) s e s' : of_db m s = (Err e, s') → s' = s.
Proof. unfold of_db. destruct (m s) as [[? ?]|?]; by intros [= _ ->]. Qed.

Lemma apply_db_laws checkpoints sk times : BlockApplyLaws (H0:=header_ids) database (BlockApply0:=apply_db checkpoints sk times).
Proof.
  split; cbn [apply_before apply_after head_block_id ForkSwitch.head_block_num last_irreversible_block_num apply_db].
  - intros b s s1 (sk' & ? & [_ ->]%runs_lift & Hr)%of_db_ok%runs_bind.
    apply apply_block_before_head in Hr as (Hp & _ & [= Ht Hn Hi]). by split_and!.
  - intros b s [[]|e] s1 Hr; [|by apply of_db_err in Hr as ->].
    apply of_db_ok, apply_block_after_head in Hr as [= _ En Ei El]. by split_and!.
Qed.
End head_proofs.

(** * A transaction applies once *)

Section replay.
Context {F : Fc} {FL : FcLaws F} {C : FcCrypto} {P : FcPow} {TP : TextPatch} {I : Interpreters} {IR : InterpretersRead I} {X : FcHex}.

(** Time does not go back, and what is recorded stays until it has expired. *)
Definition remembers (s s' : database) : Prop :=
  gpo_time (gpo s) ≤ gpo_time (gpo s') ∧
  ∀ id t, rows (Objects.transactions s) !! id = Some t →
    rows (Objects.transactions s') !! id = Some t ∨ tro_expiration t < gpo_time (gpo s').
#[local] Instance remembers_preorder : PreOrder remembers.
Proof.
  split; [intros s; split; [lia|by left]|]. intros s1 s2 s3 [Ht1 H1] [Ht2 H2]. split; [lia|]. intros id t Hid.
  destruct (H1 id t Hid) as [Hid'|?]; [by apply H2|right; lia].
Qed.

Definition replay_view (s : database) := (Objects.transactions s, head_view s).
Lemma same_remembers s s' : same replay_view s s' → remembers s s'.
Proof. intros [= Ht Hh _ _ _]. split; [lia|]. intros id t Hid. left. by rewrite Ht. Qed.
Lemma replay_remembers {A} (m : DB A) : preserves (same replay_view) m → preserves remembers m.
Proof. intros Hm s a s' Hr. by eapply same_remembers, Hm. Qed.
Lemma past_replay {A} (m : DB A) : preserves (same past_view) m → preserves (same replay_view) m.
Proof. intros Hm s a s' Hr. apply Hm in Hr. exact (f_equal (λ v, (v.1.1, v.2)) Hr). Qed.
Lemma steady_replay {A} (m : DB A) : preserves (same steady_view) m → preserves (same replay_view) m.
Proof. intros Hm. by apply past_replay, steady_past. Qed.

(** ** Transactions *)

Lemma check_signatures_replay trx : preserves (same replay_view) (check_signatures trx).
Proof. unfold check_signatures. samed. Qed.
Lemma check_expiration_replay sk trx : preserves (same replay_view) (check_expiration sk trx).
Proof. unfold check_expiration. samed. Qed.
Lemma operations_replay p l : preserves (same replay_view) (mfor (apply_operation p) l).
Proof. apply preserves_for; [apply _|]. intros op. apply past_replay. intros s u s'. apply operation_past. Qed.

Lemma check_expiration_late sk trx s u s' : ⟨ check_expiration sk trx, s ⟩ ⇓ ⟨ u, s' ⟩ → gpo_time (gpo s') ≤ expiration trx.
Proof.
  intros Hr. unfold check_expiration in Hr. apply runs_bind in Hr as (? & s1 & _ & Hr).
  apply runs_bind in Hr as (? & ? & [-> ->]%runs_asks & Hr). apply runs_bind in Hr as (? & s2 & H2 & Hr).
  assert (s2 = s1) as -> by (destruct (_ <=? _); [by apply runs_ret in H2 as [_ <-]|by apply runs_throw in H2]).
  apply runs_bind in Hr as (? & ? & [-> ->]%runs_asks & Hr). apply runs_bind in Hr as (? & s3 & H3 & Hr).
  assert (s3 = s1) as ->.
  { apply runs_when in H3. destruct (hardfork_active _ _); [|done]. destruct (_ <? _); [by apply runs_ret in H3 as [_ <-]|by apply runs_throw in H3]. }
  destruct (Z.leb_spec (gpo_time (gpo s1)) (expiration trx)); [by apply runs_ret in Hr as [_ <-]|by apply runs_throw in Hr].
Qed.

(** What a transaction that applies has passed, and that it is recorded. *)
Lemma apply_transaction_recorded sk p trx s u s' :
  skips sk skip_transaction_dupe_check = false → ⟨ _apply_transaction sk p trx, s ⟩ ⇓ ⟨ u, s' ⟩ →
  rows (Objects.transactions s) !! transaction_id trx = None ∧
  (0 < gpo_head_block_number (gpo s) → gpo_time (gpo s) ≤ expiration trx) ∧
  ∃ t, tro_expiration t = expiration trx ∧ rows (Objects.transactions s') !! transaction_id trx = Some t.
Proof.
  intros Hsk Hr. unfold _apply_transaction in Hr. rewrite Hsk in Hr. cbn [negb orb mwhen] in Hr.
  apply runs_bind in Hr as (? & s1 & H1 & Hr).
  assert (s1 = s) as -> by (apply runs_when in H1; destruct (negb _); [by apply runs_lift in H1 as [_ ->]|done]).
  apply runs_bind in Hr as (? & ? & [-> ->]%runs_asks & Hr). apply runs_bind in Hr as (? & ? & [Hn ->]%runs_assert & Hr).
  apply runs_bind in Hr as (? & s2 & H2 & Hr). assert (same replay_view s s2) as E2.
  { revert H2. apply preserves_when; [apply _|]. intros _. apply check_signatures_replay. }
  apply runs_bind in Hr as (? & ? & [-> ->]%runs_asks & Hr). apply runs_bind in Hr as (? & s3 & H3 & Hr).
  assert (same replay_view s2 s3 ∧ (0 < gpo_head_block_number (gpo s2) → gpo_time (gpo s3) ≤ expiration trx)) as [E3 Hexp].
  { split; [revert H3; apply preserves_when; [apply _|]; intros _; apply check_expiration_replay|].
    intros Hh. apply Z.ltb_lt in Hh. rewrite Hh in H3. by eapply check_expiration_late. }
  apply runs_bind in Hr as (? & s4 & [Hnew ->]%runs_create & Hr). apply operations_replay in Hr.
  injection E2 as Et2 Eh2 En2 _ _. injection E3 as Et3 Eh3 _ _ _. injection Hr as Et4 _ _ _ _.
  split_and!.
  - by rewrite <- Et2, <- Et3.
  - rewrite <- Eh2, <- Eh3, <- En2. done.
  - eexists. rewrite Et4. db_fields. rewrite lookup_insert_eq. split; [|done]. done.
Qed.

Lemma apply_transaction_remembers sk p trx : preserves remembers (_apply_transaction sk p trx).
Proof.
  unfold _apply_transaction. cbv zeta.
  apply preserves_bind; [apply _|apply preserves_when; [apply _|]; intros _; apply preserves_lift, _|intros _].
  apply preserves_bind; [apply _|apply replay_remembers; unfold is_known_transaction; samed|intros known].
  apply preserves_bind; [apply _|apply preserves_assert, _|intros _].
  apply preserves_bind; [apply _|apply preserves_when; [apply _|]; intros _; apply replay_remembers, check_signatures_replay|intros _].
  apply preserves_bind; [apply _|apply replay_remembers; samed|intros head].
  apply preserves_bind; [apply _|apply preserves_when; [apply _|]; intros _; apply replay_remembers, check_expiration_replay|intros _].
  apply preserves_bind; [apply _| |intros _; apply replay_remembers, operations_replay].
  apply preserves_when; [apply _|]. intros _ s u s' [Hn ->]%runs_create. split; [done|].
  intros id t Hid. left. db_fields. rewrite lookup_insert_ne; [done|]. congruence.
Qed.
Lemma apply_transaction_head sk p trx : preserves (same head_view) (_apply_transaction sk p trx).
Proof.
  assert (∀ op, preserves (same head_view) (apply_operation p op)) as Hl
    by (intros op; apply past_head; intros s u s'; apply operation_past).
  unfold _apply_transaction, is_known_transaction, check_signatures, check_expiration. samed.
Qed.

(** ** Blocks *)

Lemma clear_expired_remembers : preserves remembers clear_expired_transactions.
Proof.
  intros s u s' Hr. unfold clear_expired_transactions in Hr. apply runs_bind in Hr as (? & ? & [-> ->]%runs_asks & Hr).
  set (now := gpo_time (gpo s)) in *.
  pose (R := λ s1 s2 : database, gpo s2 = gpo s1 ∧ ∀ id t, rows (Objects.transactions s1) !! id = Some t →
    rows (Objects.transactions s2) !! id = Some t ∨ tro_expiration t < now).
  assert (PreOrder R).
  { split; [intros t; split; [done|by left]|]. intros s1 s2 s3 [E1 H1] [E2 H2]. split; [congruence|]. intros id t Hid.
    destruct (H1 id t Hid) as [?|?]; [by apply H2|by right]. }
  eapply (drain_preserves _ _ _ R) in Hr as [Hg Hrows].
  - split; [by rewrite Hg|]. rewrite Hg. exact Hrows.
  - intros k v s1 v1 s2 Hk Hdue ->%runs_remove. split; [done|]. intros id t Hid.
    destruct (decide (k = id)) as [->|Hne]; [right|left; db_fields; by rewrite lookup_delete_ne].
    rewrite Hid in Hk. injection Hk as ->. by apply Z.ltb_lt.
Qed.

Lemma create_block_summary_replay b : preserves (same replay_view) (create_block_summary b).
Proof. unfold create_block_summary. samed. Qed.

Lemma apply_block_after_remembers times b : preserves remembers (apply_block_after times b).
Proof.
  unfold apply_block_after. apply preserves_bind; [apply _|apply replay_remembers, create_block_summary_replay|intros _].
  apply preserves_bind; [apply _|apply clear_expired_remembers|intros _]. apply replay_remembers, past_replay, maintain_past.
Qed.

Lemma update_global_dynamic_data_transactions sk b : preserves (same Objects.transactions) (update_global_dynamic_data sk b).
Proof. unfold update_global_dynamic_data, get_slot_at_time, miss_slot, get_scheduled_witness. samed. Qed.
Lemma update_irreversible_transactions : preserves (same Objects.transactions) update_irreversible_num.
Proof. unfold update_irreversible_num. assert (∀ l, preserves (same Objects.transactions) (scheduled_objects l)) by (induction l; cbn [scheduled_objects]; samed). samed. Qed.

(** The transactions of a block, between the checks of its header and its record. *)
Lemma block_transactions_run sk p b s u s' :
  ⟨ apply_block_before sk p b, s ⟩ ⇓ ⟨ u, s' ⟩ →
  ∃ s1 s2, same replay_view s s1 ∧ ⟨ mfor (_apply_transaction sk p) (Block.transactions b), s1 ⟩ ⇓ ⟨ tt, s2 ⟩ ∧
    same Objects.transactions s2 s' ∧ gpo_time (gpo s2) = gpo_time (gpo s).
Proof.
  intros Hr. unfold apply_block_before in Hr. apply runs_bind in Hr as (? & s1 & <-%check_merkle_root_reads & Hr).
  apply runs_bind in Hr as (w & ? & (-> & Hp & Ht & _)%validate_block_header_links & Hr).
  apply runs_bind in Hr as (? & ? & [-> ->]%runs_asks & Hr). apply runs_bind in Hr as (? & ? & [-> ->]%runs_asks & Hr).
  apply runs_bind in Hr as (? & s2 & H2 & Hr).
  assert (s2 = s) as -> by (apply runs_when in H2; destruct (hardfork_active _ _); [by apply runs_assert in H2 as [_ ->]|done]).
  apply runs_bind in Hr as (? & s3 & (g & [= <-] & ->)%runs_modify1 & Hr).
  apply runs_bind in Hr as (? & s4 & H4%(steady_replay _ (process_header_extensions_steady b)) & Hr).
  change (same replay_view s s4) in H4.
  apply runs_bind in Hr as (? & ? & [-> ->]%runs_asks & Hr).
  apply runs_bind in Hr as (? & s5 & H5 & Hr).
  assert (same replay_view s4 s5) as H45 by (revert H5; apply preserves_when; [apply _|]; intros _; samed).
  apply runs_bind in Hr as ([] & s6 & H6 & Hr). apply runs_bind in Hr as (? & s7 & H7%update_global_dynamic_data_transactions & Hr).
  apply runs_bind in Hr as (? & s8 & H8%update_signing_witness_steady & H9%update_irreversible_transactions).
  assert (same replay_view s s5) as H05 by (etrans; [exact H4|exact H45]).
  exists s5, s6. split_and!; [done..| |].
  - etrans; [exact H7|]. etrans; [|exact H9]. exact (f_equal (λ v, v.2.1.1) H8).
  - assert (same head_view s5 s6) as H56 by (revert H6; apply preserves_for; [apply _|intros; apply apply_transaction_head]).
    rewrite (f_equal (λ v, v.1.1.1) H56 : gpo_time (gpo s6) = gpo_time (gpo s5)). exact (f_equal (λ v, v.2.1.1.1) H05).
Qed.

Lemma apply_block_remembers sk p times b : preserves remembers (_apply_block sk p times b).
Proof.
  intros s u s' Hr. unfold _apply_block in Hr. apply runs_bind in Hr as ([] & s3 & H1 & H2%apply_block_after_remembers).
  etrans; [|exact H2]. pose proof (apply_block_before_head _ _ _ _ _ _ H1) as (_ & Ht & [= Et _ _]).
  apply block_transactions_run in H1 as (s1 & s2 & E1%same_remembers & Hl & E2 & Et2).
  assert (remembers s1 s2) as H12 by (revert Hl; apply preserves_for; [apply _|intros; apply apply_transaction_remembers]).
  etrans; [exact E1|]. etrans; [exact H12|].
  split; [lia|]. intros id t Hid. left. by rewrite E2.
Qed.

(** ** Chains of transactions and blocks *)

(** One more transaction or block on top of a state. *)
Inductive chain_step : database → database → Prop :=
| step_transaction sk p trx s s' : ⟨ _apply_transaction sk p trx, s ⟩ ⇓ ⟨ tt, s' ⟩ → chain_step s s'
| step_block sk p times b s s' : ⟨ _apply_block sk p times b, s ⟩ ⇓ ⟨ tt, s' ⟩ → chain_step s s'.

Lemma chain_remembers s s' : rtc chain_step s s' → remembers s s'.
Proof.
  induction 1 as [s|s1 s2 s3 H1 _ IH]; [done|]. etrans; [|exact IH].
  destruct H1; [by eapply apply_transaction_remembers|by eapply apply_block_remembers].
Qed.

(** C7. Replay protection: once a transaction has been applied with its duplicate check,
    it is refused on every state that further transactions and blocks lead to, whatever
    checks those skip: it is still recorded, or it has expired. *)
Theorem transaction_applies_once sk p trx s u s1 s2 sk' p' :
  skips sk skip_transaction_dupe_check = false → skips sk' skip_transaction_dupe_check = false →
  ⟨ _apply_transaction sk p trx, s ⟩ ⇓ ⟨ u, s1 ⟩ → rtc chain_step s1 s2 → 0 < gpo_head_block_number (gpo s2) →
  ∃ e, _apply_transaction sk' p' trx s2 = Err e.
Proof.
  intros Hsk Hsk' Hr [_ Hsteps]%chain_remembers Hh. apply apply_transaction_recorded in Hr as (_ & _ & t & Ht & Hid); [|done].
  destruct (_apply_transaction sk' p' trx s2) as [[v s3]|e] eqn:E; [|by exists e]. exfalso.
  apply apply_transaction_recorded in E as (Hnew & Hexp & _); [|done]. specialize (Hexp Hh).
  destruct (Hsteps _ _ Hid) as [?|?]; [congruence|lia].
Qed.

Lemma expired_cleared s u s' : ⟨ clear_expired_transactions, s ⟩ ⇓ ⟨ u, s' ⟩ →
  rows (Objects.transactions s') = filter (λ p, (tro_expiration p.2 <? gpo_time (gpo s)) = false) (rows (Objects.transactions s)).
Proof.
  intros Hr. unfold clear_expired_transactions in Hr. apply runs_bind in Hr as (? & ? & [-> ->]%runs_asks & Hr).
  eapply drain_rows in Hr; [exact Hr|apply at_most_trans; apply _|apply at_most_total; apply _| |].
  - intros x y Hle Hd%Z.ltb_lt. apply Z.ltb_lt. unfold at_most, transactions_by_expiration, by_key in Hle.
    destruct (Z.compare_spec (tro_expiration x) (tro_expiration y)); [lia|lia|done].
  - intros k v t v' t' ->%runs_remove. by db_fields.
Qed.

(** What is recorded to refuse duplicates does not outlive its use: after a block the
    node holds exactly the records of the block's own transactions and those it held
    that had not expired at the time of the block. *)
Theorem records_expire sk p times b s u s' :
  ⟨ _apply_block sk p times b, s ⟩ ⇓ ⟨ u, s' ⟩ →
  ∃ s1 s2, same replay_view s s1 ∧ ⟨ mfor (_apply_transaction sk p) (Block.transactions b), s1 ⟩ ⇓ ⟨ tt, s2 ⟩ ∧
    rows (Objects.transactions s') = filter (λ p, (tro_expiration p.2 <? timestamp b) = false) (rows (Objects.transactions s2)).
Proof.
  intros Hr. unfold _apply_block in Hr. apply runs_bind in Hr as ([] & s3 & H1 & Hr).
  pose proof (apply_block_before_head _ _ _ _ _ _ H1) as (_ & _ & [= Ht _ _]).
  apply block_transactions_run in H1 as (s1 & s2 & E1 & Hl & E2 & _). exists s1, s2. split_and!; [done..|].
  unfold apply_block_after in Hr. apply runs_bind in Hr as (? & s4 & [= E4 Et _ _ _]%create_block_summary_replay & Hr).
  apply runs_bind in Hr as (? & s5 & H5%expired_cleared & Hr%maintain_past).
  assert (Objects.transactions s' = Objects.transactions s5) as -> by exact (f_equal (λ v, v.1.1) Hr).
  rewrite H5, E4, Et, Ht. by rewrite E2.
Qed.
End replay.

(** * The chain state behind the fork database *)

Section refinement.
Context {F : Fc} {FL : FcLaws F} {C : FcCrypto} {P : FcPow} {TP : TextPatch} {I : Interpreters} {IR : InterpretersRead I} {X : FcHex}.

(** C5. The chain state implements what pushing blocks and switching forks ask of it: a
    step of [ForkSwitch], cut in two where irreversible blocks are committed, is one run
    of [apply_block]; such a block builds on the head, is later than it, and is the head
    afterwards, whatever its transactions and the maintenance do. *)
Theorem database_applies_blocks checkpoints sk times b s s' :
  (applies (A:=apply_db checkpoints sk times) b s s' ↔ ⟨ apply_block_db checkpoints sk false times b, s ⟩ ⇓ ⟨ tt, s' ⟩) ∧
  (⟨ apply_block_db checkpoints sk false times b, s ⟩ ⇓ ⟨ tt, s' ⟩ →
   previous b = gpo_head_block_id (gpo s) ∧ gpo_time (gpo s) < timestamp b ∧
   gpo_head_block_id (gpo s') = header_id b ∧ gpo_head_block_number (gpo s') = block_num b ∧ gpo_time (gpo s') = timestamp b).
Proof.
  split.
  - unfold applies, apply_block_db, _apply_block. cbn [apply_before apply_after apply_db]. split.
    + intros (s1 & H1%of_db_ok & H2%of_db_ok). apply runs_bind in H1 as (sk' & s2 & H1 & Hb).
      eapply runs_bind_intro; [exact H1|]. eapply runs_bind_intro; [exact Hb|exact H2].
    + intros (sk' & s2 & H1 & ([] & s1 & Hb & H2)%runs_bind)%runs_bind. exists s1. unfold of_db.
      assert (⟨ sk ← lift (check_checkpoint checkpoints sk b); apply_block_before sk false b, s ⟩ ⇓ ⟨ tt, s1 ⟩) as E
        by (eapply runs_bind_intro; [exact H1|exact Hb]).
      unfold runs in E, H2. by rewrite E, H2.
  - intros (sk' & ? & [_ ->]%runs_lift & Hr)%runs_bind. apply apply_block_head in Hr as (? & ? & [= -> -> ->]). done.
Qed.
End refinement.

(** * Examples *)

Module ApplyBlockExamples.
Import FcRef FcCryptoRef DiscussionExamples InflationExamples.
#[local] Instance easy : FcPow :=
  {| sha256_of_words _ := "f"; sha256_shr h _ := h; sha256_ltb _ _ := true |}.
#[local] Instance no_plugins : Interpreters := λ _, None.
#[local] Instance no_plugins_read : InterpretersRead no_plugins.
Proof. done. Qed.
#[local] Instance no_hex : FcHex := {| checksum_of_hex _ := [] |}.

(** Alice produces; Bob and [null] have accounts. *)
Definition node_state : database :=
  sample_db {["alice"%string := sample_account 1 "alice" 100 0 1000; "bob"%string := sample_account 2 "bob" 0 0 0;
              "null"%string := sample_account 3 "null" 70 0 0]} 1000000000000 0 1000
    <| block_summaries := Table {[1 := {| bso_id := 1; bso_block_id := [] |}]} 2 |>
    <| witnesses := Table {["alice"%string := producer]} 2 |>
    <| gpo ::= λ g, g <| gpo_current_witness := "alice"%string |> <| gpo_totalTMEfundForSCORE := coin 1000 |>
         <| gpo_maximum_block_size := 65536 |> |>
    <| witness_schedule ::= λ w, w <| wso_top19_weight := 1 |> <| wso_witness_pay_normalization_factor := 50 |>
         <| wso_current_shuffled_witnesses := ["alice"%string] |> <| wso_num_scheduled_witnesses := 1 |> |>.
(** Alice pays Bob; and a block with that transaction. *)
Definition pays : signed_transaction :=
  SignedTransaction {| ref_block_num := 0; ref_block_prefix := 0; expiration := 1100; operations := [transfer_ (sample_transfer 5)] |} [].
Definition no_signatures : Z := fold_left Z.lor [skip_transaction_signatures; skip_authority_check; skip_tapos_check] 0.
Definition paid : database := Eval vm_compute in outcome (_apply_transaction no_signatures false pays) node_state.
Definition produced : signed_block :=
  SignedBlock {| header := {| previous := []; timestamp := 1003; hdr_witness := "alice"; transaction_merkle_root := []; hdr_extensions := [] |};
    witness_signature := "kwitness" |} [pays].
Definition no_checks : Z := fold_left Z.lor [skip_witness_signature; skip_witness_schedule_check; skip_merkle_check; skip_undo_history_check] no_signatures.
Definition empty_block : signed_block := SignedBlock (sb_header produced) [].
Definition after_block : database := Eval vm_compute in outcome (_apply_block no_checks false [] produced) node_state.
Definition after_empty : database := Eval vm_compute in outcome (_apply_block no_checks false [] empty_block) paid.
Lemma after_block_runs : ⟨ apply_block_db [] no_checks false [] produced, node_state ⟩ ⇓ ⟨ tt, after_block ⟩.
Proof. runs_ok. Qed.
Lemma after_empty_runs : ⟨ _apply_block no_checks false [] empty_block, paid ⟩ ⇓ ⟨ tt, after_empty ⟩.
Proof. runs_ok. Qed.
Lemma paid_runs : ⟨ _apply_transaction no_signatures false pays, node_state ⟩ ⇓ ⟨ tt, paid ⟩.
Proof. runs_ok. Qed.

Lemma database_applies_blocks_witness : applies (A:=apply_db [] no_checks []) produced node_state after_block ∧ gpo_time (gpo after_block) = 1003.
Proof.
  destruct (database_applies_blocks [] no_checks [] produced node_state after_block) as [H1 H2]. split.
  - apply H1, after_block_runs.
  - destruct (H2 after_block_runs) as (_ & _ & _ & _ & E). exact E.
Defined.
Lemma transaction_applies_once_witness : ∃ e, _apply_transaction no_signatures false pays after_empty = Err e.
Proof.
  apply (transaction_applies_once no_signatures false pays node_state tt paid after_empty no_signatures false);
    [vm_compute; reflexivity|vm_compute; reflexivity|exact paid_runs| |vm_compute; reflexivity].
  apply rtc_once. exact (step_block _ _ _ _ _ _ after_empty_runs).
Defined.
Lemma records_expire_witness :
  ∃ s2, same Objects.transactions paid s2 ∧ rows (Objects.transactions after_empty) =
    filter (λ p, (tro_expiration p.2 <? 1003) = false) (rows (Objects.transactions s2)).
Proof.
  destruct (records_expire no_checks false [] empty_block paid tt after_empty after_empty_runs) as (s1 & s2 & E & Hr & Hrows).
  exists s2. split; [|exact Hrows]. apply runs_ret in Hr as [_ <-]. exact (f_equal fst E).
Defined.
End ApplyBlockExamples.
