(* ===== verification/Invariants.v ===== *)
(** Checking the books: [database::validate_invariants] of [chain/database.cpp].

    The loops that add up what accounts, requests, orders, agreements and funds hold
    are the code's, with its overflow checks.  The theorem shows that a state which
    passes has no gap between the recorded supplies and the sums of what is held, so
    that the gaps that [Supply] follows through every operation are those the node
    checks. *)

From S2P Require Import Prelude Fc Config Asset Flat Authority Operations Objects Database Samples Ledger Frame Supply Votes.

Section invariants.
Context {F : Fc}.

(** The rows of a table in the order of an index. *)
Definition rows_by `{Countable K} {V} (c : V → V → comparison) (m : gmap K V) : list V :=
  snd <$> merge_sort (row_le (at_most c)) (map_to_list m).

(** The sums of [validate_invariants]. *)
Record totals := Totals {
  tot_supply : asset;
  tot_TSD : asset;
  tot_SCORE : asset;
  tot_pending : asset;
  tot_votes : Z;
}.
Definition no_totals : totals :=
  Totals (Asset 0 SYMBOL_COIN) (Asset 0 SYMBOL_USD) (Asset 0 SYMBOL_SCORE) (Asset 0 SYMBOL_COIN) 0.

(** One round of a loop after the other. *)
Fixpoint total_up {V} (f : totals → V → result totals) (l : list V) (t : totals) : result totals :=
  match l with
  | [] => Ok t
  | v :: l => t ← f t v; total_up f l t
  end.

Fixpoint add_all (t : asset) (l : list asset) : result asset :=
  match l with
  | [] => Ok t
  | a :: l => t ← asset_add t a; add_all t l
  end.

(** An account. *)
Definition total_account (t : totals) (a : account_object) : result totals :=
  supply ← add_all (tot_supply t) [acc_balance a; acc_TMEsavingsBalance a; acc_TMErewardBalance a];
  tsd ← add_all (tot_TSD t) [acc_TSDbalance a; acc_TSDsavingsBalance a; acc_TSDrewardBalance a];
  sc ← add_all (tot_SCORE t) [acc_SCORE a; acc_SCORErewardBalance a];
  pending ← asset_add (tot_pending t) (acc_SCORErewardBalanceInTME a);
  weight ← (if str_eqb (acc_proxy a) PROXY_TO_SELF_ACCOUNT then witness_vote_weight a
            else Ok (if 0 <? MAX_PROXY_RECURSION_DEPTH
                     then nth (Z.to_nat (MAX_PROXY_RECURSION_DEPTH - 1)) (acc_proxied_votes a) 0
                     else amount (acc_SCORE a)));
  votes ← safe_add (tot_votes t) weight;
  Ok (Totals supply tsd sc pending votes).

(** An amount of TME or TSD. *)
Definition total_amount (msg : string) (t : totals) (a : asset) : result totals :=
  if symbol a =? SYMBOL_COIN then
    supply ← asset_add (tot_supply t) a; Ok (Totals supply (tot_TSD t) (tot_SCORE t) (tot_pending t) (tot_votes t))
  else if symbol a =? SYMBOL_USD then
    tsd ← asset_add (tot_TSD t) a; Ok (Totals (tot_supply t) tsd (tot_SCORE t) (tot_pending t) (tot_votes t))
  else Err (assert_exception msg).

Definition total_convert (t : totals) (c : convert_request_object) : result totals :=
  total_amount "Encountered illegal symbol in convert_request_object" t (cnv_amount c).

(** An order; one that sells something else is passed over. *)
Definition total_order (t : totals) (o : limit_order_object) : result totals :=
  let sale := symbol (base (ord_sell_price o)) in
  if sale =? SYMBOL_COIN then
    supply ← asset_add (tot_supply t) (Asset (ord_for_sale o) SYMBOL_COIN);
    Ok (Totals supply (tot_TSD t) (tot_SCORE t) (tot_pending t) (tot_votes t))
  else if sale =? SYMBOL_USD then
    tsd ← asset_add (tot_TSD t) (Asset (ord_for_sale o) SYMBOL_USD);
    Ok (Totals (tot_supply t) tsd (tot_SCORE t) (tot_pending t) (tot_votes t))
  else Ok t.

Definition total_escrow (t : totals) (e : escrow_object) : result totals :=
  supply ← asset_add (tot_supply t) (esc_TMEbalance e);
  tsd ← asset_add (tot_TSD t) (esc_TSDbalance e);
  total_amount "found escrow pending fee that is not TSD or TME"
    (Totals supply tsd (tot_SCORE t) (tot_pending t) (tot_votes t)) (esc_pending_fee e).

Definition total_withdraw (t : totals) (w : savings_withdraw_object) : result totals :=
  total_amount "found savings withdraw that is not TSD or TME" t (swd_amount w).

Definition total_fund (t : totals) (r : reward_fund_object) : result totals :=
  supply ← asset_add (tot_supply t) (rwf_reward_balance r);
  Ok (Totals supply (tot_TSD t) (tot_SCORE t) (tot_pending t) (tot_votes t)).

(** All the loops, and what the global properties hold. *)
Definition all_totals (s : database) : result totals :=
  t ← total_up total_account (rows_by (by_key acc_name String.compare) (rows (accounts s))) no_totals;
  t ← total_up total_convert (rows_by (by_key cnv_id Z.compare) (rows (convert_requests s))) t;
  t ← total_up total_order (rows_by (by_key ord_id Z.compare) (rows (limit_orders s))) t;
  t ← total_up total_escrow (rows_by (by_key esc_id Z.compare) (rows (escrows s))) t;
  t ← total_up total_withdraw (rows_by (by_key swd_id Z.compare) (rows (savings_withdraws s))) t;
  t ← total_up total_fund (rows_by (by_key rwf_id Z.compare) (rows (reward_funds s))) t;
  held ← asset_add (gpo_totalTMEfundForSCORE (gpo s)) (gpo_total_reward_fund_TME (gpo s));
  held ← asset_add held (gpo_pending_rewarded_SCOREvalueInTME (gpo s));
  supply ← asset_add (tot_supply t) held;
  Ok (Totals supply (tot_TSD t) (tot_SCORE t) (tot_pending t) (tot_votes t)).

(** No witness has more votes than there is SCORE. *)
Fixpoint check_witness_votes (limit : Z) (l : list witness_object) : result unit :=
  match l with
  | [] => Ok tt
  | w :: l => fc_check (wit_votes w <=? limit) EmptyString;; check_witness_votes limit l
  end.

(** The sum over the comments is computed there and not used. *)
(** [database::validate_invariants], libraries/chain/database.cpp:3921-4045 *)
Definition validate_invariants (s : database) : result unit :=
  let g := gpo s in
  check_witness_votes (amount (gpo_totalSCORE g)) (rows_by (by_key wit_id Z.compare) (rows (witnesses s)));;
  t ← all_totals s;
  fc_check (asset_eqb (gpo_current_supply g) (tot_supply t)) EmptyString;;
  fc_check (asset_eqb (gpo_current_TSD_supply g) (tot_TSD t)) EmptyString;;
  sc ← asset_add (gpo_totalSCORE g) (gpo_pending_rewarded_SCORE g);
  fc_check (asset_eqb sc (tot_SCORE t)) EmptyString;;
  fc_check (amount (gpo_totalSCORE g) =? tot_votes t) EmptyString;;
  fc_check (asset_eqb (gpo_pending_rewarded_SCOREvalueInTME g) (tot_pending t)) EmptyString;;
  enough ← asset_ge (gpo_virtual_supply g) (gpo_current_supply g);
  fc_check enough EmptyString;;
  let median := fdh_current_median_history (feed_history s) in
  if price_is_null median then Ok tt
  else
    worth ← asset_mul (gpo_current_TSD_supply g) median;
    supply ← asset_add worth (gpo_current_supply g);
    fc_check (asset_eqb supply (gpo_virtual_supply g)) EmptyString.

End invariants.

(** * What the sums are *)

Section sums.
Context {F : Fc} {FL : FcLaws F}.

(** The sum of a column of a list of rows. *)
Fixpoint col {V} (f : V → Z) (l : list V) : Z :=
  match l with [] => 0 | v :: l => f v + col f l end.
Lemma col_perm {V} (f : V → Z) l l' : l ≡ₚ l' → col f l = col f l'.
Proof. induction 1; cbn in *; lia. Qed.
Lemma col_rows `{Countable K} {V} (c : V → V → comparison) (f : V → Z) (m : gmap K V) : col f (rows_by c m) = map_sum f m.
Proof.
  unfold rows_by. rewrite (col_perm _ _ (snd <$> map_to_list m)) by (apply fmap_Permutation, merge_sort_Permutation).
  unfold map_sum. rewrite map_fold_foldr. induction (map_to_list m) as [|[k v] l IH]; [done|]. cbn in *. by rewrite IH.
Qed.
Lemma col_zero {V} (l : list V) : col (λ _, 0) l = 0.
Proof. induction l; cbn in *; lia. Qed.

(** [t'] has more than [t] by the given amounts. *)
Record grown (dT dU dS dP dV : Z) (t t' : totals) : Prop := Grown {
  grown_supply : amount (tot_supply t') = amount (tot_supply t) + dT;
  grown_TSD : amount (tot_TSD t') = amount (tot_TSD t) + dU;
  grown_SCORE : amount (tot_SCORE t') = amount (tot_SCORE t) + dS;
  grown_pending : amount (tot_pending t') = amount (tot_pending t) + dP;
  grown_votes : tot_votes t' = tot_votes t + dV;
}.
Ltac grow := repeat match goal with H : grown _ _ _ _ _ _ _ |- _ => destruct H end; split; cbn in *; lia.

Lemma total_up_grown {V} (f : totals → V → result totals) (dT dU dS dP dV : V → Z) l :
  (∀ t v t', f t v = Ok t' → grown (dT v) (dU v) (dS v) (dP v) (dV v) t t') →
  ∀ t t', total_up f l t = Ok t' → grown (col dT l) (col dU l) (col dS l) (col dP l) (col dV l) t t'.
Proof.
  intros Hf. induction l as [|v l IH]; intros t t'; cbn [total_up col].
  - intros [= <-]. grow.
  - intros (t1 & H1%Hf & H2%IH)%result_bind_ok. grow.
Qed.

Lemma add_all_sum l : ∀ t t', add_all t l = Ok t' → amount t' = amount t + col amount l.
Proof.
  induction l as [|a l IH]; intros t t'; cbn [add_all col]; [intros [= <-]; lia|].
  intros (t1 & (_ & _ & H1 & _)%asset_add_ok & H2%IH)%result_bind_ok. cbn in *. lia.
Qed.
Lemma asset_add_amount a b c : asset_add a b = Ok c → amount c = amount a + amount b.
Proof. by intros (_ & _ & ? & _)%asset_add_ok. Qed.

(** ** The loops *)

Lemma total_account_grown t a t' : total_account t a = Ok t' →
  grown (acc_tme a) (acc_tsd a) (acc_score a) (acc_pend a) (votes_counted a) t t'.
Proof.
  unfold total_account. intros (x1 & H1%add_all_sum & (x2 & H2%add_all_sum & (x3 & H3%add_all_sum & (x4 & H4%asset_add_amount &
    (w & Hw & (x5 & [H5 _]%safe_add_ok & [= <-])%result_bind_ok)%result_bind_ok)%result_bind_ok)%result_bind_ok)%result_bind_ok)%result_bind_ok.
  assert (w = votes_counted a) as ->.
  { unfold votes_counted, str_eqb in *. destruct (bool_decide _); [by apply witness_vote_weight_ok|by injection Hw as <-]. }
  unfold acc_tme, acc_tsd, acc_score, acc_pend. cbn [col] in *. grow.
Qed.
Lemma total_amount_grown msg t a t' : total_amount msg t a = Ok t' →
  grown (of_symbol SYMBOL_COIN a) (of_symbol SYMBOL_USD a) 0 0 0 t t'.
Proof.
  unfold total_amount, of_symbol. destruct (Z.eqb_spec (symbol a) SYMBOL_COIN) as [->|_].
  - intros (x & H%asset_add_amount & [= <-])%result_bind_ok. change (SYMBOL_COIN =? SYMBOL_USD) with false. grow.
  - destruct (symbol a =? SYMBOL_USD); [|done]. intros (x & H%asset_add_amount & [= <-])%result_bind_ok. grow.
Qed.
Lemma total_order_grown t o t' : total_order t o = Ok t' →
  grown (ord_held SYMBOL_COIN o) (ord_held SYMBOL_USD o) 0 0 0 t t'.
Proof.
  unfold total_order, ord_held, of_symbol. cbn [symbol amount]. destruct (Z.eqb_spec (symbol (base (ord_sell_price o))) SYMBOL_COIN) as [->|_].
  - intros (x & H%asset_add_amount & [= <-])%result_bind_ok. change (SYMBOL_COIN =? SYMBOL_USD) with false. grow.
  - destruct (_ =? SYMBOL_USD); [|intros [= <-]; grow]. intros (x & H%asset_add_amount & [= <-])%result_bind_ok. grow.
Qed.
Lemma total_escrow_grown t e t' : total_escrow t e = Ok t' → grown (esc_tme e) (esc_tsd e) 0 0 0 t t'.
Proof.
  unfold total_escrow, esc_tme, esc_tsd.
  intros (x & H1%asset_add_amount & (y & H2%asset_add_amount & H%total_amount_grown)%result_bind_ok)%result_bind_ok. grow.
Qed.
Lemma total_fund_grown t r t' : total_fund t r = Ok t' → grown (rwf_held r) 0 0 0 0 t t'.
Proof. unfold total_fund, rwf_held. intros (x & H%asset_add_amount & [= <-])%result_bind_ok. grow. Qed.

(** The totals are what the gaps take from the recorded supplies. *)
Lemma all_totals_gaps s t : all_totals s = Ok t →
  amount (gpo_current_supply (gpo s)) - amount (tot_supply t) = tme_gap s ∧
  amount (gpo_current_TSD_supply (gpo s)) - amount (tot_TSD t) = tsd_gap s ∧
  gpo_score (gpo s) - amount (tot_SCORE t) = score_gap s ∧
  gpo_pend (gpo s) - amount (tot_pending t) = pend_gap s ∧
  tot_votes t = map_sum votes_counted (rows (accounts s)).
Proof.
  unfold all_totals. intros (t1 & H1 & Hr)%result_bind_ok. apply result_bind_ok in Hr as (t2 & H2 & Hr).
  apply result_bind_ok in Hr as (t3 & H3 & Hr). apply result_bind_ok in Hr as (t4 & H4 & Hr). apply result_bind_ok in Hr as (t5 & H5 & Hr).
  apply result_bind_ok in Hr as (t6 & H6 & Hr). apply result_bind_ok in Hr as (h1 & E1%asset_add_amount & Hr).
  apply result_bind_ok in Hr as (h2 & E2%asset_add_amount & Hr). apply result_bind_ok in Hr as (x & E3%asset_add_amount & [= <-]).
  apply (total_up_grown _ _ _ _ _ _ _ total_account_grown) in H1.
  apply (total_up_grown _ (cnv_held SYMBOL_COIN) (cnv_held SYMBOL_USD) (λ _, 0) (λ _, 0) (λ _, 0)) in H2; [|by intros ????%total_amount_grown].
  apply (total_up_grown _ _ _ (λ _, 0) (λ _, 0) (λ _, 0) _ total_order_grown) in H3.
  apply (total_up_grown _ _ _ (λ _, 0) (λ _, 0) (λ _, 0) _ total_escrow_grown) in H4.
  apply (total_up_grown _ (swd_held SYMBOL_COIN) (swd_held SYMBOL_USD) (λ _, 0) (λ _, 0) (λ _, 0)) in H5; [|by intros ????%total_amount_grown].
  apply (total_up_grown _ _ (λ _, 0) (λ _, 0) (λ _, 0) (λ _, 0) _ total_fund_grown) in H6.
  rewrite ?col_zero, ?col_rows in *. destruct H1, H2, H3, H4, H5, H6. cbn [no_totals tot_supply tot_TSD tot_SCORE tot_pending tot_votes amount] in *.
  unfold tme_gap, tsd_gap, score_gap, pend_gap, gpo_tme, gpo_tsd, gpo_pend in *. split_and!; lia.
Qed.
End sums.

(** * What a state that passes satisfies *)

Section theorem.
Context {F : Fc} {FL : FcLaws F}.

Lemma check_witness_votes_forall limit l : check_witness_votes limit l = Ok tt → Forall (λ w, wit_votes w ≤ limit) l.
Proof.
  induction l as [|w l IH]; cbn; [constructor|]. intros ([] & H1%fc_check_ok%Z.leb_le & H2%IH)%result_bind_ok. by constructor.
Qed.
Lemma rows_by_elem `{Countable K} {V} (c : V → V → comparison) (m : gmap K V) k v : m !! k = Some v → v ∈ rows_by c m.
Proof.
  intros Hk%elem_of_map_to_list. unfold rows_by. apply list_elem_of_fmap. exists (k, v). split; [done|]. by rewrite merge_sort_Permutation.
Qed.
Lemma asset_eqb_amount a b : asset_eqb a b = true → amount a = amount b.
Proof. unfold asset_eqb. intros [_ H%Z.eqb_eq]%andb_true_iff. done. Qed.

(** C16. A state that passes [validate_invariants] has no gap in its books: the recorded
    supplies of TME, TSD and SCORE, the rewards in waiting and the weight of all votes
    are exactly what the accounts, requests, orders, agreements, withdrawals and funds
    add up to; no witness has more votes than there is SCORE, and the virtual supply is
    the TME supply and what the median feed gives for all TSD. *)
Theorem validate_invariants_sound s :
  validate_invariants s = Ok tt →
  (tme_gap s = 0 ∧ tsd_gap s = 0 ∧ score_gap s = 0 ∧ pend_gap s = 0) ∧
  amount (gpo_totalSCORE (gpo s)) = map_sum votes_counted (rows (accounts s)) ∧
  (∀ k w, rows (witnesses s) !! k = Some w → wit_votes w ≤ amount (gpo_totalSCORE (gpo s))) ∧
  amount (gpo_current_supply (gpo s)) ≤ amount (gpo_virtual_supply (gpo s)) ∧
  (price_is_null (fdh_current_median_history (feed_history s)) = false → ∃ worth,
     asset_mul (gpo_current_TSD_supply (gpo s)) (fdh_current_median_history (feed_history s)) = Ok worth ∧
     amount (gpo_virtual_supply (gpo s)) = amount worth + amount (gpo_current_supply (gpo s))).
Proof.
  unfold validate_invariants. intros ([] & Hw%check_witness_votes_forall & Hr)%result_bind_ok.
  apply result_bind_ok in Hr as (t & (G1 & G2 & G3 & G4 & G5)%all_totals_gaps & Hr).
  apply result_bind_ok in Hr as ([] & H1%fc_check_ok%asset_eqb_amount & Hr). apply result_bind_ok in Hr as ([] & H2%fc_check_ok%asset_eqb_amount & Hr).
  apply result_bind_ok in Hr as (sc & Hs%asset_add_amount & Hr). apply result_bind_ok in Hr as ([] & H3%fc_check_ok%asset_eqb_amount & Hr).
  apply result_bind_ok in Hr as ([] & H4%fc_check_ok%Z.eqb_eq & Hr). apply result_bind_ok in Hr as ([] & H5%fc_check_ok%asset_eqb_amount & Hr).
  apply result_bind_ok in Hr as (e & He & Hr). apply result_bind_ok in Hr as ([] & ->%fc_check_ok & Hr).
  unfold gpo_score, gpo_pend in *. split_and!; [lia..| | |].
  - intros k w Hk%(rows_by_elem (by_key wit_id Z.compare)). rewrite Forall_forall in Hw. by apply Hw.
  - unfold asset_ge, asset_lt in He. destruct (fc_check _ _); cbn in He; [|done].
    injection He as He. destruct (Z.ltb_spec (amount (gpo_virtual_supply (gpo s))) (amount (gpo_current_supply (gpo s)))); [done|lia].
  - intros Hn. rewrite Hn in Hr. apply result_bind_ok in Hr as (worth & Hm & Hr). apply result_bind_ok in Hr as (x & Hx%asset_add_amount & Hr).
    apply fc_check_ok, asset_eqb_amount in Hr. exists worth. split; [done|lia].
Qed.
End theorem.

Lemma validate_invariants_sound_witness :
  tme_gap sample_book = -30 ∧ tme_gap sample = 0 ∧ tsd_gap sample = 0 ∧ score_gap sample = 0.
Proof.
  pose (s := sample <| gpo ::= λ g, g <| gpo_virtual_supply := coin 120 |> |>).
  destruct (validate_invariants_sound (F:=FcRef.fc_ref) s ltac:(vm_compute; reflexivity)) as ((H1 & H2 & H3 & _) & _).
  split_and!; [vm_compute; reflexivity|exact H1|exact H2|exact H3].
Defined.
