(* ===== verification/BlockBooks.v ===== *)
(** The books of transactions and blocks.

    A transaction creates and destroys no TME, TSD or SCORE off the books.  Neither
    does a block, but for three steps of its maintenance: burning what [null] holds and
    paying SCORE withdrawals conserve when the rows they touch are well formed, and the
    first hard fork splits SCORE; every other hard fork conserves. *)

From S2P Require Import Prelude Fc Kept Config Asset Flat Authority SignState Version BlockHeader Operations Transaction Block ForkDatabase ForkSwitch Objects Database Samples Slots Feeds Ledger Frame Supply Transfers Escrow Market ScoreFund Withdrawals Delegation Votes Quiet Accounts Rewards Same Comments Discussions Cashout Inflation Schedule Hardforks Mining Steady Evaluate ApplyBlock.

Section block_books.
Context {F : Fc} {FL : FcLaws F} {C : FcCrypto} {P : FcPow} {TP : TextPatch} {I : Interpreters} {IR : InterpretersRead I} {X : FcHex}.
Abbreviation funds := (same funds_view).

(** * Steps that move no funds *)

Lemma check_signatures_funds trx : preserves funds (check_signatures trx).
Proof. unfold check_signatures. samed. Qed.
Lemma check_expiration_funds sk trx : preserves funds (check_expiration sk trx).
Proof. unfold check_expiration. samed. Qed.
Lemma process_header_extensions_funds b : preserves funds (process_header_extensions b).
Proof. unfold process_header_extensions, process_header_extension. samed. Qed.

Lemma fill_slots_funds n g : quiet_gpo (fill_slots n g) = quiet_gpo g.
Proof. by rewrite fill_slots_rest. Qed.
Lemma miss_slot_funds p i : preserves funds (miss_slot p i).
Proof. unfold miss_slot, get_scheduled_witness. samed. Qed.
Lemma update_global_dynamic_data_funds sk b : preserves funds (update_global_dynamic_data sk b).
Proof.
  pose proof miss_slot_funds as Hm. unfold update_global_dynamic_data, get_slot_at_time.
  apply preserves_bind; [apply _|samed|intros now]. apply preserves_bind; [apply _|samed|intros missed].
  apply preserves_bind; [apply _| |intros _; samed].
  apply same_modify1. intros g s [= <-].
  pose proof (fill_slots_funds (Z.to_nat (wrap_u32 (missed + 1))) (gpo s)) as [= E1 E2 E3 E4 E5 E6 E7].
  unfold funds_view, quiet_gpo. fields. by rewrite E1, E2, E3, E4, E5, E6, E7.
Qed.
Lemma update_signing_witness_funds n b : preserves funds (update_signing_witness n b).
Proof. unfold update_signing_witness, get_slot_at_time. samed. Qed.
Lemma scheduled_objects_funds l : preserves funds (scheduled_objects l).
Proof. induction l as [|n l IH]; cbn [scheduled_objects]; samed. Qed.
Lemma start_laps_funds t l : preserves funds (start_laps t l).
Proof. induction l as [|w l IH]; cbn [start_laps]; samed. Qed.
#[local] Hint Resolve scheduled_objects_funds start_laps_funds : same.
Lemma update_irreversible_funds : preserves funds update_irreversible_num.
Proof. unfold update_irreversible_num. samed. Qed.
Lemma create_block_summary_funds b : preserves funds (create_block_summary b).
Proof. unfold create_block_summary. samed. Qed.
Lemma clear_expired_transactions_funds : preserves funds clear_expired_transactions.
Proof. unfold clear_expired_transactions. samed. Qed.

Lemma median_props_funds : preserves funds update_median_witness_props.
Proof. unfold update_median_witness_props. samed. Qed.
#[local] Hint Resolve median_props_funds : same.
Lemma choose_witnesses_funds : preserves funds choose_witnesses.
Proof. unfold choose_witnesses, set_schedule, dequeue, reset_virtual_schedule_time. samed. Qed.
#[local] Hint Resolve choose_witnesses_funds : same.
Lemma update_witness_schedule_funds : preserves funds update_witness_schedule.
Proof.
  unfold update_witness_schedule, update_witness_schedule4, update_witness_schedule_pre_hf4, schedule_voted, dequeue,
    count_versions, install_schedule. samed.
Qed.
Lemma update_median_feed_funds : preserves funds update_median_feed.
Proof. unfold update_median_feed. samed. Qed.
Lemma update_virtual_supply_funds : preserves funds update_virtual_supply.
Proof. unfold update_virtual_supply. samed. Qed.
Lemma adjust_proxied_funds a d : preserves funds (adjust_proxied_witness_votes a d).
Proof. unfold adjust_proxied_witness_votes. pose proof adjust_proxied_from_funds. samed. Qed.
Lemma process_decline_funds : preserves funds process_decline_voting_rights.
Proof.
  pose proof adjust_proxied_array_from_funds. pose proof clear_witness_votes_funds.
  unfold process_decline_voting_rights, decline_votes, get_account_by_id. samed.
Qed.

(** * Hard forks *)

Lemma climb_funds fuel f : ∀ k, preserves funds (climb fuel f k).
Proof. induction fuel as [|fuel IH]; intros k; cbn [climb]; samed. Qed.
Lemma adjust_witness_vote_same n d : preserves funds (adjust_witness_vote n d).
Proof. apply adjust_witness_vote_funds. Qed.
Lemma update_owner_authority_funds n a : preserves funds (update_owner_authority n a).
Proof. unfold update_owner_authority. samed. Qed.
#[local] Hint Resolve climb_funds adjust_witness_vote_same update_owner_authority_funds : same.

(** The changes of the hard forks but for the split and those of the reward fund. *)
Lemma hardfork_changes_funds h : h ≠ HARDFORK_0_1 → h ≠ HARDFORK_0_17 → h ≠ HARDFORK_0_19 → preserves funds (hardfork_changes h).
Proof.
  intros H1%Z.eqb_neq H17%Z.eqb_neq H19%Z.eqb_neq. unfold hardfork_changes. rewrite H1, H17, H19.
  unfold retally_witness_votes, retally_witness_vote_counts, retally_comment_children,
    count_for, retally_liquidity_weight, recover_compromised, open_second_window, shorten_feed_window,
    get_witness_by_id, reset_virtual_schedule_time. samed.
Qed.

Lemma funds_conserves {A} (m : DB A) : preserves funds m → preserves conserves m.
Proof. intros Hm s a s' Hr. by eapply same_funds, Hm. Qed.
Lemma linear_rewards_conserves : preserves conserves linear_rewards.
Proof.
  unfold linear_rewards. apply preserves_bind; [apply _|apply funds_conserves; samed|intros _].
  apply preserves_bind; [apply _| |intros _; apply funds_conserves; samed].
  intros s u s' (r & r' & Hr & [= <-] & ->)%runs_modify.
  eapply shifts_eq; [by apply shifts_set_fund|unfold rwf_held; fields; lia|done..].
Qed.
Lemma shifts_add_fund s k r : rows (reward_funds s) !! k = None → shifts (- rwf_held r) 0 0 0 s (add_row reward_funds k r s).
Proof. intros Hk. split; gap_fields; rewrite ?(map_sum_insert_new _ _ _ _ Hk); lia. Qed.
Lemma create_reward_fund_conserves : preserves conserves create_reward_fund.
Proof.
  intros s u s' Hr. unfold create_reward_fund in Hr.
  apply runs_bind in Hr as (? & s1 & (w & [= <-] & ->)%runs_modify1 & Hr).
  apply runs_bind in Hr as (? & ? & [-> ->]%runs_asks & Hr). apply runs_bind in Hr as (? & ? & [-> ->]%runs_asks & Hr).
  apply runs_bind in Hr as (? & s2 & [Hnew ->]%runs_create & Hr).
  apply runs_bind in Hr as (? & ? & [_ ->]%runs_getr & Hr). apply runs_bind in Hr as (? & ? & [_ ->]%runs_assert & Hr).
  apply runs_bind in Hr as (? & s3 & (g & [= <-] & ->)%runs_modify1 & Hr).
  pose proof (shifts_add_fund _ _ (post_reward_fund (gpo_time (gpo s)) (gpo_total_reward_fund_TME (gpo s))
    (next_id (reward_funds s))) Hnew) as S1.
  match type of Hr with context [set_field gpo _ ?t] => pose proof (shifts_gpo t (gpo s <| gpo_total_reward_fund_TME := Asset 0 SYMBOL_COIN |>
    <| gpo_totalSCOREreward2 := u128 0 |>)) as S2 end.
  apply runs_bind in Hr as (posts & s4 & [-> ->]%runs_asks & Hr). destruct (open_discussions _) as [roots replies].
  revert Hr. match goal with |- ⟨ ?p, _ ⟩ ⇓ ⟨ _, _ ⟩ → _ =>
    assert (preserves conserves p) as Hp by (apply funds_conserves; unfold calculate_discussion_payout_time, get_comment_key; samed) end.
  intros Hr%Hp. eapply shifts_eq; [eapply shifts_trans; [|eapply shifts_trans; [exact S1|eapply shifts_trans; [exact S2|exact Hr]]]|..].
  - apply same_funds. reflexivity.
  - unfold rwf_held, gpo_tme, post_reward_fund. db_fields. cbn [rwf_reward_balance amount]. lia.
  - unfold gpo_tsd. db_fields. lia.
  - unfold gpo_score. db_fields. lia.
  - unfold gpo_pend. db_fields. lia.
Qed.

(** Every hard fork but the split of SCORE. *)
Lemma hardfork_changes_conserves h : h ≠ HARDFORK_0_1 → preserves conserves (hardfork_changes h).
Proof.
  intros H1. destruct (decide (h = HARDFORK_0_17)) as [->|H17]; [apply create_reward_fund_conserves|].
  destruct (decide (h = HARDFORK_0_19)) as [->|H19]; [apply linear_rewards_conserves|].
  by apply funds_conserves, hardfork_changes_funds.
Qed.

(** The hard forks only go up. *)
Definition forked (s s' : database) : Prop :=
  1 ≤ hpo_last_hardfork (hardforks s) → conserves s s' ∧ 1 ≤ hpo_last_hardfork (hardforks s').
#[local] Instance forked_preorder : PreOrder forked.
Proof.
  split; [by intros s ?|]. intros s1 s2 s3 H1 H2 Hl. destruct (H1 Hl) as [C1 L1]. destruct (H2 L1) as [C2 L2]. split; [by etrans|done].
Qed.
Lemma apply_hardfork_forked times s u s' :
  1 ≤ hpo_last_hardfork (hardforks s) → hpo_last_hardfork (hardforks s) < NUM_HARDFORKS →
  ⟨ apply_hardfork times (hpo_last_hardfork (hardforks s) + 1), s ⟩ ⇓ ⟨ u, s' ⟩ →
  conserves s s' ∧ 1 ≤ hpo_last_hardfork (hardforks s').
Proof.
  intros H1 Hn Hr. unfold apply_hardfork in Hr. apply runs_bind in Hr as (? & s1 & Hc & Hr).
  apply hardfork_changes_conserves in Hc; [|unfold HARDFORK_0_1; lia].
  apply runs_bind in Hr as (? & s2 & (h & Hh & ->)%runs_modify1 & Hr).
  assert (hpo_last_hardfork h = hpo_last_hardfork (hardforks s) + 1) as El.
  { unfold record_hardfork in Hh. apply result_bind_ok in Hh as (? & _ & Hh). apply result_bind_ok in Hh as (? & _ & Hh). cbv zeta in Hh.
    apply result_bind_ok in Hh as (? & _ & Hh). apply Ok_inj in Hh as <-. by fields. }
  unfold push_virtual_operation in Hr. apply runs_bind in Hr as (? & ? & [_ ->]%runs_assert & Hr).
  apply runs_modify1 in Hr as (l & _ & ->). fields. split; [|lia]. etrans; [exact Hc|]. by apply same_funds.
Qed.
Lemma process_voted_forked fuel times : preserves forked (process_voted fuel times).
Proof.
  induction fuel as [|fuel IH]; intros s u s' Hr; cbn [process_voted] in Hr; [by apply runs_ret in Hr as [_ <-]|].
  do 2 (apply runs_bind in Hr as (? & ? & [-> ->]%runs_asks & Hr)). destruct (_ && _); [|by apply runs_ret in Hr as [_ <-]].
  destruct (Z.ltb_spec (hpo_last_hardfork (hardforks s)) NUM_HARDFORKS); [|by apply runs_throw in Hr].
  apply runs_bind in Hr as (? & s1 & H1 & Hr). intros Hl. apply apply_hardfork_forked in H1 as [Hc Hl1]; [|done..].
  destruct (IH _ _ _ Hr Hl1). split; [by etrans|done].
Qed.
Lemma process_configured_forked fuel times : preserves forked (process_configured fuel times).
Proof.
  induction fuel as [|fuel IH]; intros s u s' Hr; cbn [process_configured] in Hr; [by apply runs_ret in Hr as [_ <-]|].
  do 2 (apply runs_bind in Hr as (? & ? & [-> ->]%runs_asks & Hr)). destruct (_ && _ && _) eqn:E; [|by apply runs_ret in Hr as [_ <-]].
  apply andb_true_iff in E as [[Hlt%Z.ltb_lt _]%andb_true_iff _].
  apply runs_bind in Hr as (? & s1 & H1 & Hr). intros Hl. apply apply_hardfork_forked in H1 as [Hc Hl1]; [|done..].
  destruct (IH _ _ _ Hr Hl1). split; [by etrans|done].
Qed.
Lemma process_hardforks_books times s u s' :
  1 ≤ hpo_last_hardfork (hardforks s) → ⟨ process_hardforks times, s ⟩ ⇓ ⟨ u, s' ⟩ → conserves s s'.
Proof.
  intros Hl Hr. unfold process_hardforks in Hr. apply runs_bind in Hr as (? & ? & [-> ->]%runs_asks & Hr). cbv zeta in Hr.
  destruct (hardfork_active _ _); [apply process_voted_forked in Hr|apply process_configured_forked in Hr]; by apply Hr.
Qed.

(** * Transactions *)

(** Steps that conserve and keep the escrow agreements well formed, given that they are. *)
Definition booked (s s' : database) : Prop := escrows_ok s → conserves s s' ∧ escrows_ok s'.
#[local] Instance booked_preorder : PreOrder booked.
Proof.
  split; [by intros s ?|]. intros s1 s2 s3 H1 H2 He. destruct (H1 He) as [C1 E1]. destruct (H2 E1) as [C2 E2]. split; [by etrans|done].
Qed.
Lemma funds_booked {A} (m : DB A) : preserves funds m → preserves booked m.
Proof.
  intros Hm s a s' Hr He. apply Hm in Hr. split; [by apply same_funds|].
  assert (escrows s' = escrows s) as E by exact (f_equal (λ v, v.2.2.1.1) Hr). unfold escrows_ok. by rewrite E.
Qed.
Lemma steady_booked {A} (m : DB A) : preserves conserves m → preserves (same steady_view) m → preserves booked m.
Proof.
  intros Hc Hm s a s' Hr He. split; [by eapply Hc|]. apply Hm in Hr.
  assert (escrows s' = escrows s) as E by exact (f_equal fst Hr). unfold escrows_ok. by rewrite E.
Qed.

Lemma operations_booked p l s u s' :
  rfor operation_validate l = Ok tt → ⟨ mfor (apply_operation p) l, s ⟩ ⇓ ⟨ u, s' ⟩ → booked s s'.
Proof.
  revert s. induction l as [|op l IH]; intros s Hv Hr He; cbn [mfor rfor] in *; [apply runs_ret in Hr as [_ <-]; done|].
  apply result_bind_ok in Hv as ([] & Hop & Hv). apply runs_bind in Hr as (? & s1 & H1 & Hr).
  destruct (operation_kept p op s _ s1 Hop He H1) as (C1 & E1 & _). destruct (IH s1 Hv Hr E1) as [C2 E2]. split; [by etrans|done].
Qed.
Lemma apply_transaction_booked sk p trx : skips sk skip_validate = false → preserves booked (_apply_transaction sk p trx).
Proof.
  intros Hsk s u s' Hr. unfold _apply_transaction in Hr. rewrite Hsk in Hr. cbn [negb mwhen] in Hr.
  apply runs_bind in Hr as ([] & ? & [Hv ->]%runs_lift & Hr). apply result_bind_ok in Hv as ([] & _ & Hv).
  apply runs_bind in Hr as (? & ? & [-> ->]%runs_asks & Hr). apply runs_bind in Hr as (? & ? & [_ ->]%runs_assert & Hr).
  apply runs_bind in Hr as (? & s2 & H2 & Hr). apply runs_bind in Hr as (? & ? & [-> ->]%runs_asks & Hr).
  apply runs_bind in Hr as (? & s3 & H3 & Hr). apply runs_bind in Hr as (? & s4 & H4 & Hr).
  assert (booked s s2) as B2 by (revert H2; apply funds_booked; pose proof check_signatures_funds; samed).
  assert (booked s2 s3) as B3 by (revert H3; apply funds_booked; pose proof check_expiration_funds; samed).
  assert (booked s3 s4) as B4 by (revert H4; apply funds_booked; samed).
  apply (operations_booked _ _ _ _ _ Hv) in Hr. etrans; [exact B2|]. etrans; [exact B3|]. etrans; [exact B4|exact Hr].
Qed.

(** A transaction that applies creates and destroys no TME, TSD or SCORE off the books,
    whatever operations it holds, and keeps the escrow agreements well formed. *)
Theorem transaction_books sk p trx s u s' :
  skips sk skip_validate = false → escrows_ok s → ⟨ _apply_transaction sk p trx, s ⟩ ⇓ ⟨ u, s' ⟩ →
  conserves s s' ∧ escrows_ok s'.
Proof. intros Hsk He Hr. by eapply apply_transaction_booked. Qed.

(** * Blocks *)

Lemma apply_block_before_booked sk p b : skips sk skip_validate = false → preserves booked (apply_block_before sk p b).
Proof.
  intros Hsk s u s' Hr. unfold apply_block_before in Hr. apply runs_bind in Hr as (? & s1 & <-%check_merkle_root_reads & Hr).
  apply runs_bind in Hr as (w & ? & (-> & _)%validate_block_header_links & Hr). revert s u s' Hr.
  match goal with |- ∀ s u s', ⟨ ?m, s ⟩ ⇓ ⟨ u, s' ⟩ → _ => change (preserves booked m) end. cbv zeta.
  apply preserves_bind; [apply _|apply funds_booked; samed|intros g].
  apply preserves_bind; [apply _|apply funds_booked; samed|intros hf12].
  apply preserves_bind; [apply _|apply funds_booked; samed|intros _].
  apply preserves_bind; [apply _|apply funds_booked; samed|intros _].
  apply preserves_bind; [apply _|apply funds_booked, process_header_extensions_funds|intros _].
  apply preserves_bind; [apply _|apply funds_booked; samed|intros hf5].
  apply preserves_bind; [apply _|apply funds_booked; samed|intros _].
  apply preserves_bind; [apply _|apply preserves_for; [apply _|]; intros; by apply apply_transaction_booked|intros _].
  apply preserves_bind; [apply _|apply funds_booked, update_global_dynamic_data_funds|intros _].
  apply preserves_bind; [apply _|apply funds_booked, update_signing_witness_funds|intros _].
  apply funds_booked, update_irreversible_funds.
Qed.

(** The maintenance between the three steps that may move the books. *)
Lemma expire_escrow_booked : preserves booked expire_escrow_ratification.
Proof. intros s u s' Hr He. destruct (expire_effect _ _ _ He Hr) as (? & ? & _). done. Qed.
Lemma opening_booked b : preserves booked
  (create_block_summary b;; clear_expired_transactions;; clear_expired_orders;; clear_expired_delegations;;
   update_witness_schedule;; update_median_feed;; update_virtual_supply).
Proof.
  apply preserves_bind; [apply _|apply funds_booked, create_block_summary_funds|intros _].
  apply preserves_bind; [apply _|apply funds_booked, clear_expired_transactions_funds|intros _].
  apply preserves_bind; [apply _|apply steady_booked; [by intros ? ? ? [? _]%clear_expired_orders_complete|apply clear_expired_orders_steady]|intros _].
  apply preserves_bind; [apply _|apply steady_booked; [intros ? ? ?; apply clear_expired_delegations_conserves|apply clear_expired_delegations_steady]|intros _].
  apply preserves_bind; [apply _|apply funds_booked, update_witness_schedule_funds|intros _].
  apply preserves_bind; [apply _|apply funds_booked, update_median_feed_funds|intros _].
  apply funds_booked, update_virtual_supply_funds.
Qed.
Lemma paying_booked : preserves booked (process_funds;; process_conversions;; process_comment_cashout).
Proof.
  apply preserves_bind; [apply _|apply steady_booked; [intros ? ? ?; apply process_funds_books|apply process_funds_steady]|intros _].
  apply preserves_bind; [apply _|apply steady_booked; [intros ? ? ?; apply process_conversions_conserves|apply process_conversions_steady]|intros _].
  apply steady_booked; [intros ? ? ?; apply process_comment_cashout_books|apply process_comment_cashout_steady].
Qed.
Lemma closing_booked : preserves booked
  (process_savings_withdraws;; pay_liquidity_reward;; update_virtual_supply;; account_recovery_processing;;
   expire_escrow_ratification;; process_decline_voting_rights).
Proof.
  apply preserves_bind; [apply _|apply steady_booked; [intros ? ? ?; apply process_savings_withdraws_conserves|apply process_savings_withdraws_steady]|intros _].
  apply preserves_bind; [apply _|apply steady_booked; [intros ? ? ?; apply pay_liquidity_reward_books|apply pay_liquidity_reward_steady]|intros _].
  apply preserves_bind; [apply _|apply funds_booked, update_virtual_supply_funds|intros _].
  apply preserves_bind; [apply _|apply steady_booked; [intros ? ? ? Hr%account_recovery_processing_quiet; by apply quiet_conserves|apply account_recovery_processing_steady]|intros _].
  apply preserves_bind; [apply _|apply expire_escrow_booked|intros _].
  apply funds_booked, process_decline_funds.
Qed.

(** A computation in three parts, the first of several steps. *)
Ltac several := repeat match goal with u : unit |- _ => destruct u end; repeat (eapply runs_bind_intro; [eassumption|]); eassumption.

(** C6. A block creates and destroys no TME, TSD or SCORE off the books, from its first
    transaction to the hard forks it starts, but for what three steps of its maintenance
    do: burning the balances of [null] conserves when those are not negative, paying SCORE
    withdrawals conserves when the withdrawals and their routes are well formed, and the
    hard forks conserve once the first one, the split of SCORE, is past. *)
Theorem block_books sk p times b s u s' :
  skips sk skip_validate = false → escrows_ok s → ⟨ _apply_block sk p times b, s ⟩ ⇓ ⟨ u, s' ⟩ →
  ∃ s1 s2 s3 s4 s5,
    (conserves s s1 ∧ ⟨ clear_null_account_balance, s1 ⟩ ⇓ ⟨ tt, s2 ⟩ ∧ (null_ok s1 → conserves s1 s2)) ∧
    (conserves s2 s3 ∧ ⟨ process_TME_fund_for_SCORE_withdrawals, s3 ⟩ ⇓ ⟨ tt, s4 ⟩ ∧
     (withdraws_ok s3 → routes_ok s3 → gpo_time (gpo s3) < tps_max → conserves s3 s4)) ∧
    (conserves s4 s5 ∧ ⟨ process_hardforks times, s5 ⟩ ⇓ ⟨ tt, s' ⟩ ∧
     (1 ≤ hpo_last_hardfork (hardforks s5) → conserves s5 s')) ∧ escrows_ok s'.
Proof.
  intros Hsk He Hr. unfold _apply_block, apply_block_after, maintain in Hr.
  apply runs_bind in Hr as ([] & s0 & H0 & Hr). destruct (apply_block_before_booked _ _ _ Hsk _ _ _ H0 He) as [C0 E0].
  do 7 (apply runs_bind in Hr as (? & ? & ? & Hr)). apply runs_bind in Hr as ([] & s2 & Hnull & Hr).
  match type of Hnull with ⟨ _, ?t ⟩ ⇓ ⟨ _, _ ⟩ => rename t into s1 end.
  assert (⟨ create_block_summary b;; clear_expired_transactions;; clear_expired_orders;; clear_expired_delegations;;
   update_witness_schedule;; update_median_feed;; update_virtual_supply, s0 ⟩ ⇓ ⟨ tt, s1 ⟩) as Hopen by several.
  destruct (opening_booked _ _ _ _ Hopen E0) as [C1 E1].
  do 3 (apply runs_bind in Hr as (? & ? & ? & Hr)). apply runs_bind in Hr as ([] & s4 & Hpaid & Hr).
  match type of Hpaid with ⟨ _, ?t ⟩ ⇓ ⟨ _, _ ⟩ => rename t into s3 end.
  do 6 (apply runs_bind in Hr as (? & ? & ? & Hr)). match type of Hr with ⟨ _, ?t ⟩ ⇓ ⟨ _, _ ⟩ => rename t into s5 end.
  assert (⟨ process_funds;; process_conversions;; process_comment_cashout, s2 ⟩ ⇓ ⟨ tt, s3 ⟩) as Hpay by several.
  assert (⟨ process_savings_withdraws;; pay_liquidity_reward;; update_virtual_supply;; account_recovery_processing;;
   expire_escrow_ratification;; process_decline_voting_rights, s4 ⟩ ⇓ ⟨ tt, s5 ⟩) as Hclose by several.
  assert (∀ t t', same steady_view t t' → escrows_ok t → escrows_ok t') as Hst
    by (intros t t' Ht; unfold escrows_ok; by rewrite (f_equal fst Ht : escrows t' = escrows t)).
  pose proof (Hst _ _ (clear_null_steady _ _ _ Hnull) E1) as E2. destruct (paying_booked _ _ _ Hpay E2) as [C3 E3].
  pose proof (Hst _ _ (process_withdrawals_steady _ _ _ Hpaid) E3) as E4. destruct (closing_booked _ _ _ Hclose E4) as [C5 E5].
  pose proof (Hst _ _ (process_hardforks_steady times _ _ _ Hr) E5) as E6. destruct u.
  exists s1, s2, s3, s4, s5. split_and!; try done; [by etrans|by intros ?; eapply clear_null_books|..].
  - intros Hw Hro Ht. by destruct (process_withdrawals_safe _ _ _ Hw Hro Ht Hpaid).
  - intros Hl. by eapply process_hardforks_books.
Qed.
End block_books.

(** * Examples *)

Module BlockBooksExamples.
Import FcRef FcCryptoRef DiscussionExamples ApplyBlockExamples.
#[local] Existing Instances easy no_plugins no_plugins_read no_hex.

Lemma transaction_books_witness : conserves node_state paid.
Proof.
  destruct (transaction_books no_signatures false pays node_state tt paid eq_refl) as [H _];
    [intros k e Hk; discriminate Hk|exact paid_runs|exact H].
Defined.
Lemma block_books_witness : ∃ s1, conserves paid s1 ∧ is_ok (clear_null_account_balance s1) = true.
Proof.
  destruct (block_books no_checks false [] empty_block paid tt after_empty eq_refl) as (s1 & s2 & s3 & s4 & s5 & (H1 & H2 & _) & _);
    [intros k e Hk; discriminate Hk|exact after_empty_runs|].
  exists s1. split; [exact H1|]. unfold runs in H2. rewrite H2. reflexivity.
Defined.
End BlockBooksExamples.
