(* ===== verification/Producing.v ===== *)
(** Pending transactions and producing blocks: [database::push_transaction], [push_block],
    [generate_block] of [chain/database.cpp] and the guards of [chain/db_with.hpp].

    Transactions that arrive between blocks are applied in an undo session on top of the
    head block.  A block is applied without them, and afterwards they are applied again;
    those that no longer apply are dropped.  A witness builds a block of the pending
    transactions that still apply and pushes it. *)

From S2P Require Import Prelude Fc Kept Config Asset Flat Authority SignState Version BlockHeader Operations Transaction Block ForkDatabase ForkSwitch Objects Database Samples Slots Feeds Ledger Frame Supply Transfers Escrow Market ScoreFund Withdrawals Delegation Votes Quiet Accounts Rewards Same Comments Discussions Cashout Inflation Schedule Hardforks Mining Steady Evaluate ApplyBlock.

(** [fc::ecc::private_key]. *)
Class FcSign := {
  private_key : Type;
  public_key_of : private_key → public_key;
  sign_compact : private_key → string → string;
}.
Class FcSignLaws (C : FcCrypto) (S : FcSign) : Prop := {
  sign_recovers k d : recover_key (sign_compact k d) d true = Ok (public_key_of k);
}.

(** [MAX_TRANSACTION_SIZE], libraries/protocol/include/node/protocol/config.hpp:237 *)
Definition MAX_TRANSACTION_SIZE : Z := 1024 * 64.
(** [MAX_BLOCK_SIZE], libraries/protocol/include/node/protocol/config.hpp:239 *)
Definition MAX_BLOCK_SIZE : Z := MAX_TRANSACTION_SIZE * BLOCK_INTERVAL * 6000.

(** The database with its pending transactions; [nd_session]: [_pending_tx_session] is open. *)
Record node := Node {
  nd_chain : chain database;
  nd_pending_tx : list signed_transaction;
  nd_session : bool;
}.
#[export] Instance eta_node : Eta node := λ n, Node (nd_chain n) (nd_pending_tx n) (nd_session n).

Section producing.
Context {F : Fc} {C : FcCrypto} {P : FcPow} {TP : TextPatch} {I : Interpreters} {X : FcHex} {S : FcSign}.
Context (checkpoints : list (Z * block_id)) (times : list Z).

Definition on_chain {T} (m : K (chain database) T) : K node T :=
  λ n, let '(r, c) := m (nd_chain n) in (r, n <| nd_chain := c |>).
(** Reading the chain state. *)
Definition on_db {T} (m : DB T) : K node T := on_chain (on_state (of_db m)).

(** * Pending transactions *)

(** [session.squash()]: the changes belong to the session below. *)
Definition chain_squash : K (chain database) unit :=
  kupdate (λ c, match ch_undo c with
                | [] => c
                | _ :: l => c <| ch_undo := l |> <| ch_revision ::= Z.pred |>
                end).
(** [{ auto temp_session = start_undo_session( true ); m; temp_session.squash(); }] *)
Definition in_temp_session (m : K (chain database) unit) : K (chain database) unit :=
  start_undo_session;;
  r ← ktry m;
  match r with Ok u => chain_squash | Err e => chain_undo;; kthrow e end.

(** [_pending_tx_session.reset()]. *)
Definition reset_session : K node unit :=
  n ← kget;
  (if nd_session n then on_chain chain_undo else mret tt);;
  kupdate (λ n, n <| nd_session := false |>).
(** [_pending_tx_session = start_undo_session( true )]. *)
Definition open_session : K node unit :=
  on_chain start_undo_session;; kupdate (λ n, n <| nd_session := true |>).

(** [database::_push_transaction], libraries/chain/database.cpp:666-689 *)
Definition _push_transaction (skip : Z) (producing : bool) (trx : signed_transaction) : K node unit :=
  n ← kget;
  (if nd_session n then mret tt else open_session);;
  on_chain (in_temp_session (on_state (of_db (_apply_transaction skip producing trx))));;
  kupdate (λ n, n <| nd_pending_tx ::= λ l, l ++ [trx] |>).

(** [database::push_transaction], libraries/chain/database.cpp:639-664 *)
Definition push_transaction (skip : Z) (trx : signed_transaction) : K node unit :=
  g ← on_db get_dynamic_global_properties;
  kassert (size (raw_pack trx) <=? wrap_u32 (gpo_maximum_block_size g - 256)) EmptyString;;
  _push_transaction skip true trx.

(** [database::clear_pending], libraries/chain/database.cpp:864-873 *)
Definition clear_pending : K node unit :=
  kupdate (λ n, n <| nd_pending_tx := [] |>);; reset_session.

(** One round of the loops of [~pending_transactions_restorer]. *)
Definition restore_transaction (skip : Z) (tx : signed_transaction) : K node unit :=
  known ← on_db (is_known_transaction (transaction_id tx));
  if (known : bool) then mret tt else r ← ktry (_push_transaction skip false tx); mret tt.

(** [without_pending_transactions], libraries/chain/include/node/chain/db_with.hpp:46-134 *)
Definition without_pending_transactions {T} (skip : Z) (callback : K node T) : K node T :=
  n ← kget;
  let pending_transactions := nd_pending_tx n in
  clear_pending;;
  r ← ktry callback;
  n ← kget;
  keach (restore_transaction skip) (ch_popped (nd_chain n));;
  on_chain (kupdate (λ c, c <| ch_popped := [] |>));;
  keach (restore_transaction skip) pending_transactions;;
  klift r.

(** [database::push_block], libraries/chain/database.cpp:503-529 *)
Definition push_block (skip : Z) (new_block : signed_block) : K node bool :=
  without_pending_transactions skip
    (on_chain (_push_block (A:=apply_db checkpoints skip times) (skips skip skip_fork_db) new_block)).

(** * Producing a block *)

(** The version and the vote that a witness reports. *)
Definition block_extensions (witness_owner : account_name) : DB (list block_header_extension) :=
  hf5 ← has_hardfork HARDFORK_0_5;
  if (hf5 : bool) then
    witness ← get_witness witness_owner;
    hfp ← asks hardforks;
    let last := hpo_last_hardfork hfp in
    let version := if negb (wit_running_version witness =? BLOCKCHAIN_VERSION) then [ext_version BLOCKCHAIN_VERSION] else [] in
    let ours := hardfork_version_of BLOCKCHAIN_VERSION in
    let time n := nth (Z.to_nat n) times 0 in
    mret (version ++
      if (hpo_current_hardfork_version hfp <? ours) &&
         (negb (wit_hardfork_version_vote witness =? hardfork_version_at (last + 1)) ||
          negb (wit_hardfork_time_vote witness =? time (last + 1)))
      then [ext_hardfork_version_vote {| hf_version := hardfork_version_at (last + 1); hf_time := time (last + 1) |}]
      else if (hpo_current_hardfork_version hfp =? ours) && (ours <? wit_hardfork_version_vote witness)
      then [ext_hardfork_version_vote {| hf_version := hardfork_version_at last; hf_time := time last |}]
      else [])
  else mret [].

(** The header before the transactions are known. *)
Definition block_header_for (skip : Z) (when : Z) (witness_owner : account_name) (key : private_key) : DB block_header :=
  slot_num ← get_slot_at_time when;
  fc_assert (0 <? slot_num) EmptyString;;
  scheduled_witness ← get_scheduled_witness slot_num;
  fc_assert (str_eqb scheduled_witness witness_owner) EmptyString;;
  witness_obj ← get_witness witness_owner;
  mwhen (negb (skips skip skip_witness_signature))
    (fc_assert (str_eqb (wit_signing_key witness_obj) (public_key_of key)) EmptyString);;
  id ← asks head_block_id_of;
  extensions ← block_extensions witness_owner;
  mret {| previous := id; timestamp := when; hdr_witness := witness_owner; transaction_merkle_root := null_block_id;
          hdr_extensions := extensions |}.

(** The loop over the pending transactions. *)
Fixpoint include_pending (skip when maximum_block_size : Z) (l : list signed_transaction) (total_block_size : Z)
    (included : list signed_transaction) : K node (list signed_transaction) :=
  match l with
  | [] => mret included
  | tx :: l =>
      if expiration tx <? when then include_pending skip when maximum_block_size l total_block_size included
      else
        let new_total_size := total_block_size + size (raw_pack tx) in
        if maximum_block_size <=? new_total_size then include_pending skip when maximum_block_size l total_block_size included
        else
          r ← ktry (on_chain (in_temp_session (on_state (of_db (_apply_transaction skip false tx)))));
          match r with
          | Ok _ => include_pending skip when maximum_block_size l new_total_size (included ++ [tx])
          | Err _ => include_pending skip when maximum_block_size l total_block_size included
          end
  end.

(** [database::_generate_block], libraries/chain/database.cpp:710-838 *)
Definition make_block (skip : Z) (when : Z) (witness_owner : account_name) (key : private_key) : K node signed_block :=
  h ← on_db (block_header_for skip when witness_owner key);
  let total_block_size := size (raw_pack (SignedBlock {| header := h; witness_signature := EmptyString |} [])) + 4 in
  g ← on_db get_dynamic_global_properties;
  reset_session;;
  open_session;;
  n ← kget;
  transactions ← include_pending skip when (gpo_maximum_block_size g) (nd_pending_tx n) total_block_size [];
  reset_session;;
  let h := {| previous := previous h; timestamp := timestamp h; hdr_witness := hdr_witness h;
              transaction_merkle_root := calculate_merkle_root (SignedBlock {| header := h; witness_signature := EmptyString |} transactions);
              hdr_extensions := hdr_extensions h |} in
  let signature := if skips skip skip_witness_signature then EmptyString else sign_compact key (header_digest h) in
  let pending_block := SignedBlock {| header := h; witness_signature := signature |} transactions in
  (if skips skip skip_block_size_check then mret tt
   else kassert (size (raw_pack pending_block) <=? MAX_BLOCK_SIZE) EmptyString);;
  mret pending_block.
(** [database::generate_block], libraries/chain/database.cpp:690-708 *)
Definition generate_block (skip : Z) (when : Z) (witness_owner : account_name) (key : private_key) : K node signed_block :=
  pending_block ← make_block skip when witness_owner key;
  push_block skip pending_block;;
  mret pending_block.

End producing.

(** * The pending transactions are those applied to the head block *)

Section pending_proofs.
Context {F : Fc} {C : FcCrypto} {P : FcPow} {TP : TextPatch} {I : Interpreters} {X : FcHex}.

(** The chain without the pending transactions. *)
Definition base_chain (n : node) : chain database :=
  if nd_session n then snd (chain_undo (nd_chain n)) else nd_chain n.

(** The transactions apply one after the other. *)
Inductive pending_run : database → list signed_transaction → database → Prop :=
| run_none s : pending_run s [] s
| run_more s l s1 sk p trx s2 :
    pending_run s l s1 → ⟨ _apply_transaction sk p trx, s1 ⟩ ⇓ ⟨ tt, s2 ⟩ → pending_run s (l ++ [trx]) s2.

(** What [_pending_tx_session] and [_pending_tx] promise. *)
Definition pending_ok (n : node) : Prop :=
  if nd_session n
  then ch_undo (nd_chain n) ≠ [] ∧ pending_run (ch_state (base_chain n)) (nd_pending_tx n) (ch_state (nd_chain n))
  else nd_pending_tx n = [].

Lemma chain_eta {D} (c : chain D) r : r = ch_revision c →
  Chain (ch_state c) (ch_undo c) r (ch_fork_db c) (ch_log c) (ch_popped c) = c.
Proof. intros ->. by destruct c. Qed.

(** A transaction in a session of its own applies or leaves no trace. *)
Lemma temp_session_run (m : DB unit) (c : chain database) :
  in_temp_session (on_state (of_db m)) c =
    match m (ch_state c) with Ok (_, s) => (Ok tt, c <| ch_state := s |>) | Err e => (Err e, c) end.
Proof.
  unfold in_temp_session, start_undo_session, on_state, of_db, chain_squash, chain_undo, ktry, kupdate, kthrow, mbind, K_bind, mret, K_ret. fields.
  destruct (m (ch_state c)) as [[[] s]|e]; unfold set_field; cbn; do 2 f_equal; destruct c; cbn; f_equal; lia.
Qed.
Lemma open_session_base n : nd_session n = false →
  ∃ n1, open_session n = (Ok tt, n1) ∧ nd_session n1 = true ∧ nd_pending_tx n1 = nd_pending_tx n ∧
    ch_state (nd_chain n1) = ch_state (nd_chain n) ∧ ch_undo (nd_chain n1) ≠ [] ∧ base_chain n1 = base_chain n.
Proof.
  intros Hn. eexists. split; [reflexivity|]. unfold base_chain. rewrite Hn. fields. split_and!; try done.
  unfold chain_undo, kupdate. fields. destruct n as [c pend b]. destruct c. unfold set_field. cbn. f_equal. lia.
Qed.

(** With the pending session open, the base does not depend on the state. *)
Lemma base_chain_state n s : nd_session n = true → ch_undo (nd_chain n) ≠ [] →
  base_chain (n <| nd_chain := nd_chain n <| ch_state := s |> |>) = base_chain n.
Proof.
  intros Hn Hu. unfold base_chain. fields. rewrite Hn. unfold chain_undo, kupdate. fields.
  by destruct (ch_undo (nd_chain n)).
Qed.

(** What pushing a transaction keeps, and what it does. *)
Record pushed_on (n n' : node) : Prop := {
  po_ok : pending_ok n';
  po_base : base_chain n' = base_chain n;
  po_popped : ch_popped (nd_chain n') = ch_popped (nd_chain n);
}.
Lemma ready_session n : pending_ok n →
  ∃ n1, (if nd_session n then mret tt else open_session) n = (Ok tt, n1) ∧ nd_session n1 = true ∧
    ch_undo (nd_chain n1) ≠ [] ∧ nd_pending_tx n1 = nd_pending_tx n ∧ ch_state (nd_chain n1) = ch_state (nd_chain n) ∧ pushed_on n n1.
Proof.
  intros Hok. destruct (nd_session n) eqn:Es.
  - exists n. unfold pending_ok in Hok. rewrite Es in Hok. destruct Hok as [Hu Hr]. split_and!; try done.
    split; [|done|done]. unfold pending_ok. by rewrite Es.
  - destruct (open_session_base n Es) as (n1 & E & H1 & H2 & H3 & H4 & H5). exists n1. split_and!; try done.
    unfold pending_ok in Hok. rewrite Es in Hok.
    split; [|done|by injection E as <-].
    unfold pending_ok. rewrite H1. split; [done|]. rewrite H5, H3, H2, Hok. unfold base_chain. rewrite Es. constructor.
Qed.

Lemma push_effect sk p tx n r n' : pending_ok n → _push_transaction sk p tx n = (r, n') →
  pushed_on n n' ∧
  match r with
  | Ok _ => nd_pending_tx n' = nd_pending_tx n ++ [tx] ∧ ⟨ _apply_transaction sk p tx, ch_state (nd_chain n) ⟩ ⇓ ⟨ tt, ch_state (nd_chain n') ⟩
  | Err e => nd_pending_tx n' = nd_pending_tx n ∧ ch_state (nd_chain n') = ch_state (nd_chain n) ∧
      _apply_transaction sk p tx (ch_state (nd_chain n)) = Err e
  end.
Proof.
  intros Hok Hr. destruct (ready_session n Hok) as (n1 & E1 & Hs & Hu & Hp & Hst & [Hok1 Hb Hpop]).
  unfold _push_transaction in Hr. unfold mbind at 1 in Hr. unfold K_bind at 1, kget in Hr.
  unfold mbind at 1, K_bind at 1 in Hr. rewrite E1 in Hr. unfold mbind, K_bind, on_chain, kupdate in Hr.
  rewrite temp_session_run, Hst in Hr. unfold runs.
  destruct (_apply_transaction sk p tx (ch_state (nd_chain n))) as [[[] s]|e] eqn:Ea.
  - injection Hr as <- <-. set (n2 := n1 <| nd_chain := _ |>).
    assert (base_chain n2 = base_chain n1) as Hb2 by exact (base_chain_state n1 s Hs Hu).
    unfold pending_ok in Hok1. rewrite Hs in Hok1. destruct Hok1 as [_ Hrun].
    split; [|split; [unfold n2; fields; by rewrite Hp|reflexivity]].
    split; [|unfold base_chain in *; fields; congruence|by unfold n2; fields].
    unfold pending_ok. fields. unfold n2 at 1. fields. rewrite Hs. split; [done|].
    change (base_chain (n2 <| nd_pending_tx ::= _ |>)) with (base_chain n2). rewrite Hb2. 
    unfold n2. fields. rewrite Hp in *. eapply run_more; [exact Hrun|]. rewrite Hst. exact Ea.
  - injection Hr as <- <-. assert (n1 <| nd_chain := nd_chain n1 |> = n1) as -> by by destruct n1.
    split; [by split|]. by split_and!.
Qed.

Lemma on_db_asks {A} (f : database → A) n : on_db (asks f) n = (Ok (f (ch_state (nd_chain n))), n).
Proof. unfold on_db, on_chain, on_state, of_db, asks. cbn. unfold set_field. cbn. by destruct n as [[] ? ?]. Qed.

(** C17. A transaction that is pushed either applies, joins the end of the pending ones and
    changes the state as it says, or is refused without a trace; the pending
    transactions stay those applied, in order, on top of the head block, which a pushed
    transaction never touches. *)
Theorem push_transaction_pending sk tx n r n' :
  pending_ok n → push_transaction sk tx n = (r, n') →
  pending_ok n' ∧ base_chain n' = base_chain n ∧
  match r with
  | Ok _ => nd_pending_tx n' = nd_pending_tx n ++ [tx] ∧
      ⟨ _apply_transaction sk true tx, ch_state (nd_chain n) ⟩ ⇓ ⟨ tt, ch_state (nd_chain n') ⟩
  | Err _ => nd_pending_tx n' = nd_pending_tx n ∧ ch_state (nd_chain n') = ch_state (nd_chain n)
  end.
Proof.
  intros Hok Hr. unfold push_transaction in Hr. unfold mbind at 1, K_bind at 1 in Hr. unfold get_dynamic_global_properties in Hr.
  rewrite on_db_asks in Hr. unfold kassert in Hr. destruct (_ <=? _).
  - apply push_effect in Hr as ([Hok' Hb _] & Hr); [|done]. split_and!; [done..|]. destruct r; [done|tauto].
  - unfold kthrow in Hr. by injection Hr as <- <-.
Qed.

(** ** Around a block *)

(** What is left of the transactions [l] when each, in turn, is applied to the state [s]
    that those before it left, unless it is known there: the ones that apply, and the
    state after them.  One that does not apply is dropped and changes nothing. *)
Fixpoint reapplied (sk : Z) (l : list signed_transaction) (s : database) : list signed_transaction * database :=
  match l with
  | [] => ([], s)
  | tx :: l =>
      if bool_decide (is_Some (rows (Objects.transactions s) !! transaction_id tx)) then reapplied sk l s
      else match _apply_transaction sk false tx s with
           | Ok (_, s1) => let '(kept, s2) := reapplied sk l s1 in (tx :: kept, s2)
           | Err _ => reapplied sk l s
           end
  end.
Lemma reapplied_app sk l1 l2 s :
  reapplied sk (l1 ++ l2) s = let '(k1, s1) := reapplied sk l1 s in let '(k2, s2) := reapplied sk l2 s1 in (k1 ++ k2, s2).
Proof.
  revert s. induction l1 as [|tx l1 IH]; intros s; cbn [app reapplied]; [by destruct (reapplied sk l2 s)|].
  case_bool_decide; [apply IH|]. destruct (_apply_transaction sk false tx s) as [[[] s1]|]; [|apply IH].
  rewrite IH. destruct (reapplied sk l1 s1) as [k1 s2]. by destruct (reapplied sk l2 s2).
Qed.

Lemma restore_effect sk tx n : pending_ok n → ∃ n' l, restore_transaction sk tx n = (Ok tt, n') ∧ pushed_on n n' ∧
  nd_pending_tx n' = nd_pending_tx n ++ l ∧ reapplied sk [tx] (ch_state (nd_chain n)) = (l, ch_state (nd_chain n')).
Proof.
  intros Hok. unfold restore_transaction, is_known_transaction. unfold mbind at 1, K_bind at 1. rewrite on_db_asks. cbn [reapplied].
  case_bool_decide; [exists n, []; rewrite app_nil_r; by split_and!|].
  unfold mbind, K_bind, ktry, mret, K_ret. destruct (_push_transaction sk false tx n) as [r n'] eqn:E.
  apply push_effect in E as [Hp Hr]; [|done]. destruct r as [[]|e].
  - destruct Hr as [Hr Ha]. exists n', [tx]. unfold runs in Ha. rewrite Ha. by split_and!.
  - destruct Hr as (Hr & Hs & ->). exists n', []. rewrite app_nil_r, Hs. by split_and!.
Qed.
Lemma restores_effect sk l : ∀ n, pending_ok n → ∃ n' l', keach (restore_transaction sk) l n = (Ok tt, n') ∧ pushed_on n n' ∧
  nd_pending_tx n' = nd_pending_tx n ++ l' ∧ reapplied sk l (ch_state (nd_chain n)) = (l', ch_state (nd_chain n')).
Proof.
  induction l as [|tx l IH]; intros n Hok; cbn [keach].
  - exists n, []. rewrite app_nil_r. by split_and!.
  - destruct (restore_effect sk tx n Hok) as (n1 & l1 & E1 & [Hok1 Hb1 Hp1] & Ep1 & Hl1).
    destruct (IH n1 Hok1) as (n2 & l2 & E2 & [Hok2 Hb2 Hp2] & Ep2 & Hl2).
    exists n2, (l1 ++ l2). unfold mbind, K_bind. rewrite E1. split_and!; [done|split; [done|congruence..]|by rewrite Ep2, Ep1, app_assoc|].
    by rewrite (reapplied_app sk [tx] l), Hl1, Hl2.
Qed.
Lemma clear_pending_effect n : pending_ok n → ∃ n1, clear_pending n = (Ok tt, n1) ∧
  nd_session n1 = false ∧ nd_pending_tx n1 = [] ∧ nd_chain n1 = base_chain n.
Proof.
  intros Hok. unfold clear_pending, reset_session, on_chain, kupdate, kget, mbind, K_bind, mret, K_ret. fields. unfold base_chain.
  destruct (nd_session n); [|eexists; by fields]. unfold chain_undo, kupdate. eexists. by fields.
Qed.

Definition forget_popped (n : node) : node := n <| nd_chain := nd_chain n <| ch_popped := [] |> |>.
Lemma forget_base n : base_chain (forget_popped n) = base_chain n <| ch_popped := [] |>.
Proof.
  unfold base_chain, forget_popped. fields. destruct (nd_session n); [|done]. unfold chain_undo, kupdate. fields. by destruct (ch_undo (nd_chain n)).
Qed.
Lemma forget_ok n : pending_ok n → pending_ok (forget_popped n).
Proof. unfold pending_ok. rewrite forget_base. unfold forget_popped. by fields. Qed.

(** C9. [push_block]: a block is pushed onto the chain as it is without the pending
    transactions, with the same result and error; afterwards the transactions of blocks
    that were popped, then the pending ones, are applied again in order on top of the
    new head, and exactly those that are not known by then and apply are pending; the
    state is the one they lead to. *)
Theorem push_block_restores checkpoints times sk b n r n' :
  pending_ok n → push_block checkpoints times sk b n = (r, n') →
  ∃ c', _push_block (A:=apply_db checkpoints sk times) (skips sk skip_fork_db) b (base_chain n) = (r, c') ∧
    base_chain n' = c' <| ch_popped := [] |> ∧ pending_ok n' ∧
    reapplied sk (ch_popped c' ++ nd_pending_tx n) (ch_state c') = (nd_pending_tx n', ch_state (nd_chain n')).
Proof.
  intros Hok Hr. unfold push_block, without_pending_transactions in Hr. destruct (clear_pending_effect n Hok) as (n1 & E1 & Hs1 & Hp1 & Hc1).
  unfold mbind at 1, K_bind at 1, kget at 1 in Hr. cbv zeta in Hr. unfold mbind at 1, K_bind at 1 in Hr. rewrite E1 in Hr.
  unfold mbind at 1, K_bind at 1, ktry in Hr. unfold on_chain at 1 in Hr. rewrite Hc1 in Hr.
  destruct (_push_block _ b (base_chain n)) as [r1 c1] eqn:Ec.
  set (n2 := n1 <| nd_chain := c1 |>) in *. unfold mbind at 1, K_bind at 1, kget in Hr.
  assert (pending_ok n2) as Hok2 by (unfold pending_ok, n2; fields; by rewrite Hs1).
  destruct (restores_effect sk (ch_popped c1) n2 Hok2) as (n3 & l3 & E3 & [Hok3 Hb3 _] & Ep3 & Hl3).
  unfold mbind at 1, K_bind at 1 in Hr. change (ch_popped (nd_chain n2)) with (ch_popped c1) in Hr. rewrite E3 in Hr.
  unfold mbind at 1, K_bind at 1 in Hr. unfold on_chain, kupdate in Hr. change (n3 <| nd_chain := _ |>) with (forget_popped n3) in Hr.
  destruct (restores_effect sk (nd_pending_tx n) (forget_popped n3) (forget_ok _ Hok3)) as (n5 & l5 & E5 & [Hok5 Hb5 _] & Ep5 & Hl5).
  unfold mbind, K_bind, klift in Hr. rewrite E5 in Hr. injection Hr as <- <-. exists c1. split_and!; [done| |done|].
  - rewrite Hb5, forget_base, Hb3. unfold base_chain, n2. fields. by rewrite Hs1.
  - rewrite Ep5. unfold forget_popped. fields. rewrite Ep3. unfold n2. fields. rewrite Hp1. cbn [app].
    rewrite reapplied_app. change (ch_state c1) with (ch_state (nd_chain n2)). rewrite Hl3.
    change (ch_state (nd_chain (forget_popped n3))) with (ch_state (nd_chain n3)) in Hl5. by rewrite Hl5.
Qed.
End pending_proofs.

(** * What a witness produces *)

Section producing_proofs.
Context {F : Fc} {FL : FcLaws F} {C : FcCrypto} {P : FcPow} {TP : TextPatch} {I : Interpreters} {IR : InterpretersRead I} {X : FcHex} {S : FcSign} {SL : FcSignLaws C S}.
Context (checkpoints : list (Z * block_id)) (times : list Z).

Lemma block_extensions_reads w s l s' : ⟨ block_extensions times w, s ⟩ ⇓ ⟨ l, s' ⟩ → s' = s.
Proof.
  intros Hr. unfold block_extensions in Hr. apply runs_bind in Hr as (? & ? & [-> ->]%runs_asks & Hr).
  destruct (hardfork_active s HARDFORK_0_5); [|by apply runs_ret in Hr as [_ <-]].
  apply runs_bind in Hr as (? & ? & [_ ->]%runs_getr & Hr). apply runs_bind in Hr as (? & ? & [-> ->]%runs_asks & Hr).
  by apply runs_ret in Hr as [_ <-].
Qed.

(** The header names the head block and comes from the scheduled witness, who has the key. *)
Lemma block_header_for_spec sk when w key s h s' :
  ⟨ block_header_for times sk when w key, s ⟩ ⇓ ⟨ h, s' ⟩ →
  s' = s ∧ previous h = gpo_head_block_id (gpo s) ∧ timestamp h = when ∧ hdr_witness h = w ∧
  0 < slot_at_time s when ∧ ⟨ get_scheduled_witness (slot_at_time s when), s ⟩ ⇓ ⟨ w, s ⟩ ∧
  (skips sk skip_witness_signature = false → ∃ o, rows (witnesses s) !! w = Some o ∧ wit_signing_key o = public_key_of key).
Proof.
  intros Hr. unfold block_header_for, get_slot_at_time in Hr. apply runs_bind in Hr as (? & ? & [-> ->]%runs_asks & Hr).
  apply runs_bind in Hr as (? & ? & [Hslot%Z.ltb_lt ->]%runs_assert & Hr). apply runs_bind in Hr as (w' & s1 & Hw & Hr).
  pose proof Hw as (_ & _ & ->)%runs_scheduled_witness.
  apply runs_bind in Hr as (? & ? & [Hww%str_eqb_true ->]%runs_assert & Hr). subst w'.
  apply runs_bind in Hr as (o & ? & [Ho ->]%runs_getr & Hr). apply runs_bind in Hr as (? & s2 & Hk & Hr).
  apply runs_when in Hk. assert (s2 = s ∧ (skips sk skip_witness_signature = false → wit_signing_key o = public_key_of key)) as [-> Hkey].
  { destruct (skips sk skip_witness_signature); cbn [negb] in Hk; [by split|]. apply runs_assert in Hk as [Hk%str_eqb_true ->]. by split. }
  apply runs_bind in Hr as (? & ? & [-> ->]%runs_asks & Hr). apply runs_bind in Hr as (e & s3 & ->%block_extensions_reads & [<- <-]%runs_ret).
  split_and!; try done. intros Hsk. exists o. auto.
Qed.

(** The loop over the pending transactions. *)
Definition packed (l : list signed_transaction) : Z := sumZ ((λ tx, size (raw_pack tx)) <$> l).
Lemma include_effect sk when maximum s0 l : ∀ total inc n r n',
  pending_run s0 inc (ch_state (nd_chain n)) → (inc = [] ∨ total < maximum) →
  include_pending sk when maximum l total inc n = (r, n') →
  ∃ inc', r = Ok (inc ++ inc') ∧ sublist inc' l ∧ Forall (λ tx : signed_transaction, when ≤ expiration tx) inc' ∧
    pending_run s0 (inc ++ inc') (ch_state (nd_chain n')) ∧ n' = n <| nd_chain := nd_chain n <| ch_state := ch_state (nd_chain n') |> |> ∧
    (inc ++ inc' = [] ∨ total + packed inc' < maximum).
Proof.
  induction l as [|tx l IH]; intros total inc n r n' Hrun Hmax Hr; cbn [include_pending] in Hr.
  - injection Hr as <- <-. exists []. rewrite app_nil_r. unfold packed. cbn. rewrite Z.add_0_r. split_and!; try done. by destruct n as [[] ? ?].
  - assert (∀ r n', include_pending sk when maximum l total inc n = (r, n') →
      ∃ inc', r = Ok (inc ++ inc') ∧ sublist inc' (tx :: l) ∧ Forall (λ tx : signed_transaction, when ≤ expiration tx) inc' ∧
        pending_run s0 (inc ++ inc') (ch_state (nd_chain n')) ∧ n' = n <| nd_chain := nd_chain n <| ch_state := ch_state (nd_chain n') |> |> ∧
        (inc ++ inc' = [] ∨ total + packed inc' < maximum)) as Hskip.
    { intros r1 n1 Hr1. destruct (IH _ _ _ _ _ Hrun Hmax Hr1) as (inc' & ? & ? & ?). exists inc'. split_and!; try tauto. by constructor. }
    destruct (Z.ltb_spec (expiration tx) when); [by apply Hskip|]. cbv zeta in Hr.
    destruct (Z.leb_spec maximum (total + size (raw_pack tx))); [by apply Hskip|].
    unfold mbind, K_bind, ktry, on_chain in Hr. rewrite temp_session_run in Hr.
    destruct (_apply_transaction sk false tx (ch_state (nd_chain n))) as [[[] s1]|e] eqn:Ea.
    + set (n1 := n <| nd_chain := nd_chain n <| ch_state := s1 |> |>) in *.
      assert (pending_run s0 (inc ++ [tx]) (ch_state (nd_chain n1))) as Hrun1 by (unfold n1; fields; by eapply run_more).
      destruct (IH _ _ _ _ _ Hrun1 ltac:(by right) Hr) as (inc' & -> & Hsub & Hall & Hrun' & Hn & Hsz).
      exists (tx :: inc'). rewrite <- app_assoc in *. cbn [app] in *. split_and!; [done|by constructor|by constructor|done| |].
      * rewrite Hn. unfold n1. by fields.
      * right. unfold packed in *. cbn [fmap list_fmap] in *. destruct Hsz as [Hsz|Hsz]; [by destruct inc|]. unfold sumZ in *. cbn [foldr]. lia.
    + assert (n <| nd_chain := nd_chain n |> = n) as E by by destruct n. rewrite E in Hr. by apply Hskip.
Qed.

Lemma on_db_ok {A} (m : DB A) n a n' : on_db m n = (Ok a, n') → ∃ s', ⟨ m, ch_state (nd_chain n) ⟩ ⇓ ⟨ a, s' ⟩ ∧ n' = n <| nd_chain := nd_chain n <| ch_state := s' |> |>.
Proof.
  unfold on_db, on_chain, on_state. intros Hr. destruct (of_db m (ch_state (nd_chain n))) as [r s'] eqn:E. injection Hr as -> <-.
  apply of_db_ok in E. by exists s'.
Qed.
Lemma pending_run_head s l s' : pending_run s l s' → same head_view s s'.
Proof. induction 1 as [|s l s1 sk p trx s2 _ IH H2]; [done|]. etrans; [exact IH|]. by eapply apply_transaction_head. Qed.
Lemma reset_session_base n : ∃ n', reset_session n = (Ok tt, n') ∧ nd_session n' = false ∧ nd_pending_tx n' = nd_pending_tx n ∧ nd_chain n' = base_chain n.
Proof.
  unfold reset_session, on_chain, kupdate, kget, mbind, K_bind, mret, K_ret, base_chain.
  destruct (nd_session n) eqn:Es; eexists; (split; [reflexivity|]); by fields.
Qed.
Lemma node_state_id n : n <| nd_chain := nd_chain n <| ch_state := ch_state (nd_chain n) |> |> = n.
Proof. by destruct n as [[] ? ?]. Qed.

(** C8. A block that [generate_block] builds is on top of the head block and in a slot after
    it; its Merkle root is that of its transactions and its signature gives back the key;
    its transactions are pending ones, in their order, that have not expired at the time
    of the block, apply one after the other on top of the head block and fit under the
    size limit; and building it leaves the chain as it is without pending transactions. *)
Theorem generated_block sk when w key n b n' :
  pending_ok n → make_block times sk when w key n = (Ok b, n') →
  let base := ch_state (base_chain n) in
  nd_chain n' = base_chain n ∧ nd_pending_tx n' = nd_pending_tx n ∧
  (previous b = gpo_head_block_id (gpo base) ∧ timestamp b = when ∧ hdr_witness b = w ∧
   ⟨ get_scheduled_witness (slot_at_time (ch_state (nd_chain n)) when), ch_state (nd_chain n) ⟩ ⇓ ⟨ w, ch_state (nd_chain n) ⟩) ∧
  (transaction_merkle_root b = calculate_merkle_root b ∧
   (skips sk skip_witness_signature = false → signee b = Ok (public_key_of key))) ∧
  (sublist (Block.transactions b) (nd_pending_tx n) ∧ (∃ s, pending_run base (Block.transactions b) s) ∧
   Forall (λ tx : signed_transaction, when ≤ expiration tx) (Block.transactions b) ∧
   (Block.transactions b = [] ∨ packed (Block.transactions b) < gpo_maximum_block_size (gpo (ch_state (nd_chain n))))).
Proof.
  intros Hok Hr base. unfold make_block in Hr.
  apply kbind_ok in Hr as (h & n1 & (s1 & (-> & Hp & Ht & Hw & Hslot & Hsch & Hkey)%block_header_for_spec & ->)%on_db_ok & Hr).
  rewrite node_state_id in Hr. cbv zeta in Hr. unfold get_dynamic_global_properties in Hr.
  apply kbind_ok in Hr as (g & n1 & Hg & Hr). rewrite on_db_asks in Hg. injection Hg as <- <-.
  apply kbind_ok in Hr as ([] & n1 & H1 & Hr). destruct (reset_session_base n) as (n1' & E1 & Hs1 & Hp1 & Hc1). rewrite H1 in E1. injection E1 as <-.
  apply kbind_ok in Hr as ([] & n2 & H2 & Hr). destruct (open_session_base n1 Hs1) as (n2' & E2 & Hs2 & Hp2 & Hst2 & Hu2 & Hb2).
  rewrite H2 in E2. injection E2 as <-. apply kbind_ok in Hr as (n2' & n2'' & H3 & Hr). injection H3 as <- <-.
  apply kbind_ok in Hr as (l & n3 & Hl & Hr).
  assert (pending_run base [] (ch_state (nd_chain n2))) as Hrun0 by (rewrite Hst2, Hc1; constructor).
  destruct (include_effect _ _ _ _ _ _ _ _ _ _ Hrun0 (or_introl eq_refl) Hl) as (l' & [= <-] & Hsub & Hall & Hrun & Hn3 & Hsz). cbn [app] in *.
  apply kbind_ok in Hr as ([] & n4 & H4 & Hr). destruct (reset_session_base n3) as (n4' & E4 & Hs4 & Hp4 & Hc4). rewrite H4 in E4. injection E4 as <-.
  apply kbind_ok in Hr as ([] & n5 & H5 & Hr).
  assert (n5 = n4) as -> by (unfold kassert in H5; destruct (skips sk skip_block_size_check); [|destruct (_ <=? MAX_BLOCK_SIZE)]; (discriminate H5 || by injection H5 as ->)).
  injection Hr as <- <-. cbn [Block.transactions sb_header header previous timestamp hdr_witness transaction_merkle_root witness_signature].
  assert (base_chain n3 = base_chain n) as Hb3.
  { assert (base_chain n1 = nd_chain n1) as Hb1 by (unfold base_chain; by rewrite Hs1). rewrite <- Hc1, <- Hb1, <- Hb2, Hn3. by apply base_chain_state. }
  split_and!; try done.
  - by rewrite Hc4.
  - rewrite Hp4, Hn3. fields. by rewrite Hp2, Hp1.
  - rewrite Hp. unfold base. unfold pending_ok in Hok. destruct (nd_session n) eqn:Es; [|unfold base_chain; by rewrite Es].
    destruct Hok as [_ Hrn%pending_run_head]. exact (f_equal (λ v, v.1.2) Hrn).
  - intros Hsk. unfold signee. cbn [witness_signature header]. rewrite Hsk. apply sign_recovers.
  - by rewrite Hp2, Hp1 in Hsub.
  - by exists (ch_state (nd_chain n3)).
  - destruct Hsz as [?|Hsz]; [by left|right]. unfold size in Hsz. lia.
Qed.
End producing_proofs.

(** * Examples *)

Module ProducingExamples.
Import FcRef FcCryptoRef DiscussionExamples ApplyBlockExamples.
#[local] Existing Instances easy no_plugins no_plugins_read no_hex.

(** Keys that are their signatures. *)
#[local] Instance keys : FcSign := {| private_key := string; public_key_of k := k; sign_compact k d := k |}.
Definition key (k : string) : private_key (FcSign:=keys) := k.
#[local] Instance keys_laws : FcSignLaws fc_crypto_ref keys.
Proof. split. done. Qed.

(** A node without pending transactions, and with Alice's payment to Bob. *)
Definition idle : node := Node (Chain node_state [] 0 empty_fork_database [] []) [] false.
Definition busy : node := Eval vm_compute in snd (push_transaction no_signatures pays idle).
Lemma idle_ok : pending_ok idle.
Proof. done. Qed.
Lemma busy_ok : pending_ok busy.
Proof.
  split; [vm_compute; discriminate|]. apply (run_more _ [] _ no_signatures true pays _ (run_none _)).
  vm_compute. reflexivity.
Qed.

Lemma push_transaction_pending_witness : nd_pending_tx busy = [pays] ∧ base_chain busy = base_chain idle.
Proof.
  assert (push_transaction no_signatures pays idle = (Ok tt, busy)) as E by (vm_compute; reflexivity).
  destruct (push_transaction_pending no_signatures pays idle (Ok tt) busy idle_ok E) as (_ & Hb & Hp & _).
  split; [exact Hp|exact Hb].
Defined.

(** Alice's own block with that payment. *)
Definition built : signed_block * node := Eval vm_compute in
  match make_block [] no_signatures 1003 "alice"%string (key EmptyString) busy with
  | (Ok b, n) => (b, n)
  | (Err _, n) => (produced, n)
  end.
Lemma built_runs : make_block [] no_signatures 1003 "alice"%string (key EmptyString) busy = (Ok built.1, built.2).
Proof. vm_compute. reflexivity. Qed.
Lemma generated_block_witness :
  timestamp built.1 = 1003 ∧ signee built.1 = Ok EmptyString ∧ sublist (Block.transactions built.1) [pays] ∧ nd_chain built.2 = base_chain busy.
Proof.
  destruct (generated_block [] no_signatures 1003 "alice"%string (key EmptyString) busy built.1 built.2 busy_ok built_runs)
    as (H1 & _ & (_ & H2 & _) & (_ & H3) & (H4 & _)).
  split_and!; [exact H2|exact (H3 eq_refl)|exact H4|exact H1].
Defined.
(** An empty block of hers arrives while the payment is pending. *)
Definition empty_built : signed_block := Eval vm_compute in
  match fst (make_block [] no_signatures 1003 "alice"%string (key EmptyString) idle) with Ok b => b | Err _ => produced end.
Definition after_push : node := Eval vm_compute in snd (push_block [] [] no_signatures empty_built busy).
Lemma after_push_runs : push_block [] [] no_signatures empty_built busy = (Ok false, after_push).
Proof. vm_compute. reflexivity. Qed.
Lemma push_block_restores_witness : pending_ok after_push ∧ nd_pending_tx after_push = [pays].
Proof.
  destruct (push_block_restores [] [] no_signatures empty_built busy (Ok false) after_push busy_ok after_push_runs) as (c & Hc & _ & Hok & Hre).
  split; [exact Hok|]. vm_compute in Hc. injection Hc as <-. apply (f_equal fst) in Hre. cbn [fst] in Hre. rewrite <- Hre. vm_compute. reflexivity.
Defined.

(** Alice changes her signing key, and the change is pending when her slot comes: the
    builder looks the key up in the pending state, so it refuses the key that the block
    must be signed with, and a block signed with the new one does not apply. *)
Definition rekey : signed_transaction :=
  SignedTransaction {| ref_block_num := 0; ref_block_prefix := 0; expiration := 1100; operations :=
    [witness_update_ {| witness_update_owner := "alice"; witness_update_url := "u"; witness_update_block_signing_key := "new";
       witness_update_props := {| props_account_creation_fee := coin 1000; props_maximum_block_size := 131072; props_TSD_interest_rate := 0 |};
       witness_update_fee := coin 0 |}] |} [].
Definition rekeyed : node := Eval vm_compute in snd (push_transaction no_signatures rekey idle).
Definition generates (k : string) (n : node) : bool :=
  is_ok (fst (generate_block [] [] no_signatures 1003 "alice"%string (key k) n)).
Example pending_key_stops_producer :
  generates EmptyString idle = true ∧ nd_pending_tx rekeyed = [rekey] ∧ generates EmptyString rekeyed = false ∧ generates "new" rekeyed = false.
Proof. vm_compute. auto. Qed.
End ProducingExamples.
